(* ===== verification/_CoqProject ===== *)
-Q . S2P
Prelude.v
Bytes.v
Unicode.v
GoTime.v
GoStrings.v
Calendar.v
Timeframe.v
GoFloat.v
DataTypes.v
Generics.v
TimeIndex.v
ColumnSeries.v
RowSeries.v
FileSys.v
TimeBucketKey.v
Metadata.v
Catalog.v
Planner.v
Md5.v
WalLog.v
BufFile.v
Primary.v
Wal.v
Writer.v
Scanner.v
ScanProofs.v
Delete.v
OnDiskAgg.v
AggProofs.v
Aggregates.v
Candler.v
Registry.v
Numpy.v
Tables.v
Query.v
Service.v
Stream.v
Integrity.v
SqlRelation.v
SqlGrammar.v
SqlTree.v
GoTimeParse.v
SqlStatement.v
WalProofs.v
ReadBack.v
WalSystem.v
WalStatus.v
Slices.v
Feeder.v
Ticks.v
OrderBook.v
Polygon.v
Xignite.v
GoLayout.v
Csv.v
Loader.v
Session.v
ShowLoad.v
Rates.v
Iex.v
Config.v
Slait.v
PolygonRun.v
