(* ===== verification/Prelude.v ===== *)
(** * MarketStore: a verification library

    MarketStore is a database server for financial time series, written in Go.
    A series lives in a bucket, named by a key such as
    ["AAPL/1Min/OHLCV:Symbol/Timeframe/AttributeGroup"]; a bucket has a
    directory and in it one file for every year; a file is a header and then
    one slot for every interval of the timeframe in that year, at an offset
    computed from the time.  A write turns rows into commands that wait in a
    queue; a goroutine flushes the queue to the write-ahead log and then to the
    bucket files; a query is planned over the catalog of buckets and read from
    the files.  This library models that program as executable definitions and
    proves what makes it correct.

    ** The files

    - [Prelude]: Go's results (value, error, end of the process, panic), wrapped
      integers, byte splices and chunks, the order in which a map is ranged over
      ([MapRange], a parameter: Go leaves it open).
    - [Bytes], [Unicode], [GoTime], [GoStrings], [GoFloat], [FileSys], [Md5]: what
      the code uses of Go's standard library: little-endian readings and
      [Serialize] (utils/io/serializer.go, byteconversions.go), UTF-8 and title
      case, the calendar, zones and [Truncate] of package time, strings and
      strconv, IEEE floats and their order, files and paths, the MD5 digest.  [FileSys] also has the monad of programs that read
      and change a state and may fail half way.
    - [Timeframe] (utils/timeframe.go), [TimeIndex] (utils/io/timeindex.go, the
      file size of metadata.go), [TimeBucketKey] (utils/io/keytypes.go),
      [DataTypes] (utils/io/datatypes.go, datashape.go), [Generics]
      (utils/io/generics.go), [ColumnSeries] (utils/io/columnseries.go,
      generatedMethods.go), [RowSeries] (utils/io/rowseries.go), [Metadata]
      (utils/io/metadata.go): the data layer.
    - [Catalog] (catalog/catalog.go): the tree of buckets.  Its nodes are shared
      through pointers, so they live in a heap next to the disk.
    - [Planner] (planner/planner.go): queries and the files they cover.
    - [WalLog]: the messages of the log and the first pass of a replay;
      [BufFile] (executor/buffile/buffile.go): the batched window on a file;
      [Primary]: a command carried out on its bucket file; [Wal]: the operations
      of the log and of the transaction pipe (executor/wal.go, cache.go,
      messages.go, written.go), one round of [SyncWAL] as [sync_round].
    - [Writer] (executor/writer.go), [Scanner] (executor/scanner.go,
      readvariable.go, readhint, rewriteBuffer.c), [Delete]
      (executor/delete.go): the executor.
    - [WalProofs], [WalSystem], [WalStatus], [ScanProofs], [ReadBack]: the
      longer proofs.
    - [Calendar] (contrib/calendar): the days and hours of a market.
    - [OnDiskAgg] (contrib/ondiskagg, the records of plugins/trigger), its
      proofs in [AggProofs]: the trigger that keeps the candles of longer
      timeframes on disk.  [Aggregates] (utils/functions, uda) and [Candler]
      (contrib/candler): the aggregates of a query, which keep their state
      between the calls of [Accum].
    - [Registry] (uda/uda.go, sqlparser/registry.go): the aggregates by name.
      [Numpy] (utils/io/numpy.go): the arrays of a query's answer.  [Tables]:
      series whose columns have the same length, and what operations leave of
      them.  [Query] (frontend/query.go, qrbuilder.go) and [Service]
      (frontend/write.go): the handlers of the requests.
    - SQL (sqlparser): [SqlGrammar] has the syntax trees of the grammar (what
      the generated parser gives), [SqlTree] the query tree with the functions
      that build it, [SqlRelation] predicates and the reading of a relation,
      [SqlStatement] the walk that makes relations of the tree, INSERT INTO and
      the statement of a request.  [GoTimeParse] is [time.Parse] for the
      layouts of its date literals.
    - [Stream] (contrib/stream, frontend/stream): the shelf where packages wait
      for their deadline, the hub that passes payloads to its subscribers, the
      trigger that stores and pushes the candles being written.  [Integrity]
      (cmd/tool/integrity): the checksums of bucket files.  [Xignite]
      (contrib/xignitefeeder): the feeder of the Tokyo exchange.
    - The feeders (contrib): [Feeder] is what their writers ask of the store
      ([findLastTimestamp], [WriteCSM], the file of trials); [Slices] is the
      arrays behind Go's slices, which [append] shares or copies; [Ticks] is the
      writers of trades and quotes (polygon/worker, polyiex/handlers), whose
      column series keep such slices; [OrderBook] is the books of polyiex and
      the handlers of its messages; [Polygon] is the handlers of polygon and its
      backfill, [PolygonRun] its worker.
      [Rates] is the workers of the crypto currencies (gdaxfeeder,
      bitmexfeeder, binancefeeder), [Iex] the feeder of the IEX with its
      backfill of trades (iex), [Slait] the subscriber of Slait (slait).
    - The command line (cmd/connect): [GoLayout] is the layouts of package time
      and their parsing, [Csv] the reader and the writer of package
      encoding/csv and the parsers of strconv, [Loader] the tables made of CSV
      files (cmd/connect/loader), [Session] the interpreter of command lines
      (cmd/connect/session, frontend/client), against a database of its own or
      a server, [ShowLoad] the proof that a shown table is loaded again.
    - [Config] (utils/config.go, utils/log, cmd/estimate): the configuration of
      the server, the levels of the log and the estimate of space.
    A definition keeps the name of the function it translates; methods of
    several types carry a prefix ([rs_ToColumnSeries], [as_Subtract]).

    ** How the parts fit together

    [Writer] queues commands in the state of [Wal]; [Wal.flushToWAL] appends
    them to the log ([WalLog]) and carries them out ([Primary], through
    [BufFile]); [Catalog] reads the headers ([Metadata]) of the files in that
    same store; [Planner] walks the catalog; [Scanner] reads the files the plan
    names and makes columns of the rows ([RowSeries]).  [ReadBack] closes the
    circle: rows that are written and flushed are read back.

    ** What is proved

    - The log ([WalSystem], [WalStatus], [WalProofs], [WalLog]): the owner's
      goroutine and the writers form a transition system; [log_invariant] says
      what the log has to do with the primary files in every reachable state;
      [crash_recovery] and [commit_atomic] say what a replay restores after a
      crash at any point, with any part of the unsynced writes lost or torn
      (all for records of fixed length in files that exist; the replay of
      records of variable length writes them twice);
      logs are deleted when and only when they may be; the scan of a log comes
      to an end on any bytes and finds exactly the groups no checkpoint covers.
    - The primary store ([Primary], [BufFile], [Delete]): a variable-length
      append keeps the other intervals' records and sorts its own; the window
      writes what direct writes would have written; what a deletion overwrites.
    - Reading ([ScanProofs]): blocks make no difference; limits from the first
      and from the last.  Writing ([Writer]): the commands of rows grouped by
      interval.  Both together ([ReadBack]).
    - Positions ([TimeIndex], [Timeframe]): indexes follow the order of times,
      come back as the start of their interval, and stay inside the file where
      the year of the host's zone is whole ([short_year_outside] where not).
    - Round trips: headers ([Metadata]), columns and rows ([RowSeries]), shapes
      ([DataTypes]).
    - Aggregation: the trigger's candles are the first, highest, lowest and last
      prices and the sums of the volumes of the rows of each window
      ([AggProofs]), the candles of a query are those of the rows of
      each window ([Candler]), the table of gaps counts every row
      ([Aggregates]), a market is open when its calendar says so ([Calendar]).
    - Queries: an answer is read back as the series it was made of ([Numpy],
      [Query]); a SELECT of columns from a table gives the rows that satisfy its
      predicates, cut to the limit ([SqlRelation]), and its text gives that
      relation, unless there is a NOT in it, on which the parsing hangs
      ([SqlStatement]); the operations of column series keep tables ([Tables]).
    - Streaming and tools: the shelf hands on the last package of every candle
      and a payload reaches those who asked for it ([Stream]), the checksums of
      a file cover all of it ([Integrity]), the market of the feeder is open in
      its hours and its business days are found ([Xignite]).
    - Feeders: a writer of ticks stores the trades of one bucket, and what it
      does with two buckets and with a second interval, where slices share
      their arrays ([Ticks]); a book gives its best bid and ask ([OrderBook]);
      bars made of trades are those of their minutes ([Polygon]);
      the worker of gdax leaves no gap against a service that answers
      completely ([Rates]); the halving of a batch finds the symbols that the
      IEX refuses, and gets the bars of all others ([Iex]); the columns of a
      publication ([Slait]).
    - The command line: what show writes to a file, load brings into the
      database again ([ShowLoad]).
    - Behaviour that is not what the code means to do, each as a theorem on a
      concrete run or for every input: in [Catalog], [Writer], [ScanProofs], [Delete], [Metadata],
      [TimeIndex], [TimeBucketKey], [ColumnSeries], [Tables], [WalLog],
      [WalStatus], [AggProofs], [Numpy], [Query], [SqlRelation], [SqlStatement], and
      in the files of the feeders, the command line and [Config].

    ** Bounds and fuel

    Integers are [Z] with the wrap-around of their width written out.  A
    recursion that is not structural has fuel: the scan of a log one more than
    its bytes ([replay_scan_terminates]), a forward read one more than the bytes
    of the file, a backward read that and the length of the range (both shown
    enough in [read_limited]), the load of the catalog the number of paths, the
    walk of the catalog the number of its nodes, the search for files the
    categories of a directory; where the code can loop for ever, running out is
    a panic of the model and a theorem says that no fuel is enough
    ([not_never_built], for the loop of [NewBooleanExpressionParse], whose fuel
    counts its turns).  The calls of the IEX client have the length of the batch and
    the retries ([GetBars_terminates]).  A Go map is a [gmap]; where the code ranges
    over one, the theorems hold for every order.

    ** Parameters

    snappy and the stable sort of the timsort package ([StorageLibs], with
    their documented behaviour as [StorageLaws] and instances that have it); the order of
    maps ([MapRange]); the zone database ([LoadLocation]) and the statistics of
    the package gonum ([Gonum]); the skip lists of the order books ([SkipList],
    with laws and an instance on lists), the room [append] leaves ([Growth]),
    the services the feeders call ([Client], [PolygonAPI], [HistoricRates], [Buckets],
    [Klines], [Charts], [Socket]) and the package that makes bars of trades; the decoding of YAML; the clock's readings, the zone of the instance and of the
    host, and the identity of the instance are arguments.

    ** Not modelled

    Locks and the interleaving of goroutines other than whole operations;
    logging; the operating system's page cache but for what [crash_image] says
    a crash may lose; the start of the server, its sockets and RPC servers, the
    transport of the feeders' clients and their decoding of JSON, the sleeping
    between their rounds, the terminal of the command line, plugin loading.  Of SQL the lexer and the parser, which are
    generated from the grammar: they are the argument [parse], and nothing is
    said of the trees of texts with syntax errors; the printing of trees
    (EXPLAIN is an argument) and the generated dispatch of the visitors.  The
    codecs of JSON and msgpack.  See the notes of the components for the rest. *)

From Stdlib Require Export ZArith Lia.
From stdpp Require Export base list gmap strings sorting.

#[global] Open Scope Z_scope.

(** ** Results of Go functions

    A Go function of the modelled code either returns its value with a nil
    error ([Ret]), returns an error ([Fail]), ends the process through
    [log.Fatal] ([Fatal]) or panics ([Panic]). *)

Inductive goerr :=
  | ShortReadError
  | EOF
  | NotExist
  | ErrMsg (msg : string)
  | TypedErr (type msg : string).   (** a value of a string type that is an error *)

Inductive outcome (A : Type) :=
  | Ret (a : A)
  | Fail (e : goerr)
  | Fatal (msg : string)
  | Panic (msg : string).
Arguments Ret {A} a.
Arguments Fail {A} e.
Arguments Fatal {A} msg.
Arguments Panic {A} msg.

#[export] Instance goerr_eq_dec : EqDecision goerr.
Proof. solve_decision. Defined.

Definition outcome_bind {A B} (m : outcome A) (k : A -> outcome B) : outcome B :=
  match m with
  | Ret a => k a
  | Fail e => Fail e
  | Fatal s => Fatal s
  | Panic s => Panic s
  end.

Declare Scope outcome_scope.
Delimit Scope outcome_scope with outcome.
Notation "'let!' x ':=' m 'in' k" := (outcome_bind m (fun x => k))
  (at level 10, x name, m at level 100, k at level 200) : outcome_scope.
Notation "'let!' ' p ':=' m 'in' k" := (outcome_bind m (fun p => k))
  (at level 10, p pattern, m at level 100, k at level 200) : outcome_scope.
#[global] Open Scope outcome_scope.

Lemma outcome_bind_Ret {A B} (m : outcome A) (k : A -> outcome B) (b : B) :
  outcome_bind m k = Ret b <-> exists a, m = Ret a /\ k a = Ret b.
Proof.
  split.
  - destruct m; cbn; intros H; try discriminate H. eauto.
  - intros (a & -> & Hk). exact Hk.
Qed.

(** Splits a hypothesis saying that a sequence of steps returned a value. *)
Ltac outcome_inv :=
  repeat match goal with
  | H : outcome_bind _ _ = Ret _ |- _ =>
      apply outcome_bind_Ret in H; destruct H as (? & ? & ?)
  | H : Ret _ = Ret _ |- _ => injection H as H; subst
  | H : Fail _ = Ret _ |- _ => discriminate H
  | H : Fatal _ = Ret _ |- _ => discriminate H
  | H : Panic _ = Ret _ |- _ => discriminate H
  end.

(** ** Machine integers: a w-bit Go integer is a [Z] in its range *)

Definition wrapU (w z : Z) : Z := z mod 2 ^ w.
Definition wrapS (w z : Z) : Z := (z + 2 ^ (w - 1)) mod 2 ^ w - 2 ^ (w - 1).
Abbreviation int64 := (wrapS 64).
Abbreviation int32 := (wrapS 32).
Abbreviation int16 := (wrapS 16).
Abbreviation int8 := (wrapS 8).
Abbreviation uint64 := (wrapU 64).
Abbreviation uint32 := (wrapU 32).
Abbreviation uint16 := (wrapU 16).
Abbreviation uint8 := (wrapU 8).

Definition inS (w z : Z) : Prop := - 2 ^ (w - 1) <= z < 2 ^ (w - 1).
Definition inU (w z : Z) : Prop := 0 <= z < 2 ^ w.

Lemma wrapS_id w z : 0 < w -> inS w z -> wrapS w z = z.
Proof.
  intros Hw [Hl Hu]. unfold wrapS.
  replace (2 ^ w) with (2 * 2 ^ (w - 1)) in *.
  - rewrite Z.mod_small; lia.
  - replace w with (Z.succ (w - 1)) at 2 by lia. rewrite Z.pow_succ_r; lia.
Qed.

Lemma wrapU_id w z : inU w z -> wrapU w z = z.
Proof. intros H. apply Z.mod_small, H. Qed.

Lemma wrapS_range w z : 0 < w -> inS w (wrapS w z).
Proof.
  intros Hw. unfold inS, wrapS.
  assert (Hp : 2 ^ w = 2 * 2 ^ (w - 1)).
  { replace w with (Z.succ (w - 1)) at 1 by lia. rewrite Z.pow_succ_r; lia. }
  pose proof (Z.mod_pos_bound (z + 2 ^ (w - 1)) (2 ^ w)) as Hm.
  pose proof (Z.pow_pos_nonneg 2 (w - 1)). lia.
Qed.

Lemma wrapU_range w z : 0 <= w -> inU w (wrapU w z).
Proof. intros Hw. apply Z.mod_pos_bound. lia. Qed.

Lemma wrapS_wrapU w z : 0 < w -> wrapS w (wrapU w z) = wrapS w z.
Proof. intros Hw. unfold wrapS, wrapU. f_equal. rewrite Z.add_mod_idemp_l by lia. done. Qed.

Lemma wrapS_mod w z k : 0 < w -> wrapS w (z + k * 2 ^ w) = wrapS w z.
Proof.
  intros Hw. unfold wrapS. f_equal.
  replace (z + k * 2 ^ w + 2 ^ (w - 1)) with (z + 2 ^ (w - 1) + k * 2 ^ w) by lia.
  apply Z.mod_add. lia.
Qed.

Lemma wrapS_add_l w a b : 0 < w -> wrapS w (wrapS w a + b) = wrapS w (a + b).
Proof.
  intros Hw. unfold wrapS at 2. rewrite (Z.mod_eq _ (2 ^ w)) by lia. rewrite <- (wrapS_mod w (a + b) (- ((a + 2 ^ (w - 1)) / 2 ^ w)) Hw).
  f_equal. lia.
Qed.

Lemma wrapS_add_sub w a b : 0 < w -> inS w b -> wrapS w (a + wrapS w (b - a)) = b.
Proof.
  intros Hw Hb. unfold wrapS at 2.
  rewrite (Z.mod_eq _ (2 ^ w)) by lia.
  set (q := (b - a + 2 ^ (w - 1)) / 2 ^ w).
  replace (a + _) with (b + (- q) * 2 ^ w) by lia.
  by rewrite wrapS_mod, wrapS_id.
Qed.

Create HintDb machine.
#[export] Hint Resolve wrapS_range wrapU_range : machine.

(** ** Byte ranges of a file

    [splice off d f] overwrites the bytes of [f] that start at [off] with
    [d]; [read_at off n f] is what a read of [n] bytes at [off] gets. *)

Section splice.
Context {A : Type}.
Implicit Types (f d e : list A) (off n i : nat).

Definition splice (off : nat) (d f : list A) : list A :=
  take off f ++ d ++ drop (off + length d) f.

Definition read_at (off n : nat) (f : list A) : list A := take n (drop off f).

Definition covers (off n i : nat) : Prop := (off <= i < off + n)%nat.
#[global] Instance covers_dec off n i : Decision (covers off n i) := _.

Lemma length_splice off d f :
  (off + length d <= length f)%nat -> length (splice off d f) = length f.
Proof. intros. unfold splice. rewrite !length_app, length_take, length_drop. lia. Qed.

Lemma lookup_splice off d f i :
  (off + length d <= length f)%nat ->
  splice off d f !! i = if decide (covers off (length d) i) then d !! (i - off)%nat else f !! i.
Proof.
  intros Hle. unfold splice, covers. case_decide.
  - rewrite lookup_app_r; rewrite length_take_le by lia; [|lia].
    by rewrite lookup_app_l by lia.
  - destruct (decide (i < off)%nat).
    + rewrite lookup_app_l by (rewrite length_take_le; lia). by rewrite lookup_take_lt.
    + rewrite lookup_app_r by (rewrite length_take_le; lia).
      rewrite length_take_le by lia. rewrite lookup_app_r by lia.
      rewrite lookup_drop. f_equal. lia.
Qed.

Lemma lookup_read_at off n f i :
  read_at off n f !! i = if decide (i < n)%nat then f !! (off + i)%nat else None.
Proof.
  unfold read_at. case_decide.
  - by rewrite lookup_take_lt, lookup_drop.
  - by rewrite lookup_take_ge by lia.
Qed.

Lemma length_read_at off n f : (off + n <= length f)%nat -> length (read_at off n f) = n.
Proof. intros. unfold read_at. rewrite length_take, length_drop. lia. Qed.

Lemma splice_nil off f : splice off [] f = f.
Proof. unfold splice. cbn. by rewrite Nat.add_0_r, take_drop. Qed.

Lemma read_at_splice_same off d f :
  (off + length d <= length f)%nat -> read_at off (length d) (splice off d f) = d.
Proof.
  intros Hle. apply list_eq. intros i. rewrite lookup_read_at.
  case_decide.
  - rewrite lookup_splice by done. rewrite decide_True by (unfold covers; lia).
    f_equal. lia.
  - symmetry. apply lookup_ge_None. lia.
Qed.

Lemma splice_read_at off n f :
  (off + n <= length f)%nat -> splice off (read_at off n f) f = f.
Proof.
  intros Hle. apply list_eq. intros i.
  rewrite lookup_splice by (rewrite length_read_at; lia).
  rewrite length_read_at by lia. case_decide; [|done].
  unfold covers in *. rewrite lookup_read_at, decide_True by lia. f_equal. lia.
Qed.
End splice.

(** Reduces an equation between spliced byte lists to their lookups. *)
Ltac splice_ext :=
  apply list_eq; intros ?i;
  repeat first
    [ rewrite lookup_read_at
    | rewrite lookup_splice by (repeat rewrite length_splice by lia; lia) ];
  unfold covers in *; repeat case_decide; try lia; try done; try (f_equal; lia).

Section splice_laws.
Context {A : Type}.
Implicit Types (f d e : list A) (off n i : nat).

Lemma read_at_splice_disjoint off d f o n :
  (off + length d <= length f)%nat ->
  (o + n <= off \/ off + length d <= o)%nat ->
  read_at o n (splice off d f) = read_at o n f.
Proof. intros Hle Hdis. splice_ext. Qed.

Lemma splice_comm o1 d1 o2 d2 f :
  (o1 + length d1 <= length f)%nat -> (o2 + length d2 <= length f)%nat ->
  (o1 + length d1 <= o2 \/ o2 + length d2 <= o1)%nat ->
  splice o1 d1 (splice o2 d2 f) = splice o2 d2 (splice o1 d1 f).
Proof. intros. splice_ext. Qed.

Lemma splice_overwrite off d e f :
  length d = length e -> (off + length d <= length f)%nat ->
  splice off d (splice off e f) = splice off d f.
Proof. intros Hl Hle. splice_ext. Qed.

(** Writing inside a window that is itself written back later. *)
Lemma splice_window wo w off d f :
  (wo + length w <= length f)%nat ->
  (wo <= off)%nat -> (off + length d <= wo + length w)%nat ->
  splice off d (splice wo w f) = splice wo (splice (off - wo) d w) f.
Proof.
  intros H1 H2 H3.
  assert (Hw : length (splice (off - wo) d w) = length w) by (apply length_splice; lia).
  splice_ext.
Qed.
End splice_laws.

(** ** Lists *)

Lemma NoDup_sublist {A} (l k : list A) : sublist l k -> NoDup k -> NoDup l.
Proof.
  induction 1 as [|x l k Hs IH|x l k Hs IH]; intros Hk; [constructor| |];
    apply NoDup_cons in Hk as [Hx Hk].
  - apply NoDup_cons. split; [|by apply IH]. intros Hin. apply Hx.
    eapply elem_of_submseteq; [exact Hin|by apply sublist_submseteq].
  - by apply IH.
Qed.

Lemma filter_all {A} (P : A -> Prop) `{forall x, Decision (P x)} (l : list A) :
  Forall P l -> filter P l = l.
Proof.
  induction 1 as [|x l Hx _ IH]; [done|]. rewrite filter_cons, decide_True by done. by f_equal.
Qed.

Lemma filter_none {A} (P : A -> Prop) `{forall x, Decision (P x)} (l : list A) :
  Forall (fun x => ~ P x) l -> filter P l = [].
Proof. induction 1 as [|x l Hx _ IH]; [done|]. by rewrite filter_cons, decide_False. Qed.

Lemma filter_ext_in {A} (P Q : A -> Prop) `{forall x, Decision (P x)} `{forall x, Decision (Q x)} (l : list A) :
  (forall x, x ∈ l -> P x <-> Q x) -> filter P l = filter Q l.
Proof.
  induction l as [|x l IH]; intros Hpq; [done|]. rewrite !filter_cons.
  specialize (IH (fun y Hy => Hpq y ltac:(by right))). rewrite IH.
  destruct (decide (P x)) as [Hp|Hp]; destruct (decide (Q x)) as [Hq|Hq]; try done;
    exfalso; apply Hpq in Hp || apply Hpq in Hq; try done; left.
Qed.

(** Blocks of one length laid end to end. *)
Lemma drop_concat_uniform {A} (n i : nat) (ls : list (list A)) :
  Forall (fun l => length l = n) ls -> drop (i * n) (concat ls) = concat (drop i ls).
Proof.
  intros H. revert i. induction H as [|l ls Hl _ IH]; intros [|i]; cbn [concat drop]; try done.
  - by rewrite drop_nil.
  - cbn [Nat.mul]. rewrite <- drop_drop, drop_app_length' by done. apply IH.
Qed.

Lemma length_concat_uniform {A} (n : nat) (ls : list (list A)) :
  Forall (fun l => length l = n) ls -> length (concat ls) = (length ls * n)%nat.
Proof. induction 1 as [|l ls Hl _ IH]; [done|]. cbn. rewrite length_app. lia. Qed.

(** [chunks n l]: the consecutive blocks of [n] elements of [l]; a final
    partial block is dropped, as an integer division by [n] drops it. *)
Fixpoint chunks_fuel {A} (fuel n : nat) (l : list A) : list (list A) :=
  match fuel with
  | O => []
  | S fuel' =>
      if decide (n <= length l)%nat then take n l :: chunks_fuel fuel' n (drop n l) else []
  end.
Definition chunks {A} (n : nat) (l : list A) : list (list A) := chunks_fuel (length l) n l.
Arguments chunks : simpl never.

Section chunks.
Context {A : Type}.
Implicit Types (l : list A).

Lemma chunks_fuel_enough fuel n l :
  (0 < n)%nat -> (length l <= fuel)%nat -> chunks_fuel fuel n l = chunks_fuel (length l) n l.
Proof.
  intros Hn. revert l. induction fuel as [fuel IH] using lt_wf_ind. intros l Hl.
  destruct fuel as [|fuel]; destruct (length l) as [|k] eqn:Hk; cbn; try lia; try done.
  - rewrite Hk. by rewrite decide_False by lia.
  - rewrite Hk. case_decide; [|done]. f_equal.
    rewrite (IH fuel) by (rewrite ?length_drop; lia).
    destruct (decide (k = fuel)) as [->|Hne].
    + rewrite (IH fuel) by (rewrite ?length_drop; lia). done.
    + rewrite (IH k) by (rewrite ?length_drop; lia). done.
Qed.

Lemma chunks_step n l :
  (0 < n)%nat -> (n <= length l)%nat -> chunks n l = take n l :: chunks n (drop n l).
Proof.
  intros Hn Hl. unfold chunks. destruct (length l) as [|k] eqn:Hk; [lia|]. cbn.
  rewrite Hk, decide_True by lia. f_equal.
  apply chunks_fuel_enough; [done|]. rewrite length_drop. lia.
Qed.

Lemma chunks_short n l : (length l < n)%nat -> chunks n l = [].
Proof.
  intros Hl. unfold chunks. destruct (length l) as [|k] eqn:Hk; [done|]. cbn.
  by rewrite Hk, decide_False by lia.
Qed.

Lemma chunks_app n l1 l2 :
  (0 < n)%nat -> (exists k, length l1 = k * n)%nat ->
  chunks n (l1 ++ l2) = chunks n l1 ++ chunks n l2.
Proof.
  intros Hn [k Hk]. revert l1 Hk. induction k as [|k IH]; intros l1 Hk.
  - assert (l1 = []) as -> by (apply length_zero_iff_nil; lia). done.
  - rewrite (chunks_step n (l1 ++ l2)) by (rewrite ?length_app; lia).
    rewrite (chunks_step n l1) by lia. cbn. f_equal.
    + by rewrite take_app_le by lia.
    + rewrite drop_app_le by lia. apply IH. rewrite length_drop. lia.
Qed.

Lemma chunks_lengths n l : (0 < n)%nat -> Forall (fun c => length c = n) (chunks n l).
Proof.
  intros Hn. induction l as [l IH] using (induction_ltof1 _ (@length A)).
  destruct (decide (n <= length l)%nat) as [Hl|Hl].
  - rewrite chunks_step by lia. constructor.
    + rewrite length_take. lia.
    + apply IH. unfold ltof. rewrite length_drop. lia.
  - rewrite chunks_short by lia. constructor.
Qed.

Lemma chunks_concat_all n l :
  (0 < n)%nat -> (exists k, length l = k * n)%nat -> concat (chunks n l) = l.
Proof.
  intros Hn [k Hk]. revert l Hk. induction k as [|k IH]; intros l Hk.
  - apply length_zero_iff_nil in Hk. by subst l.
  - rewrite chunks_step by lia. cbn. rewrite IH by (rewrite length_drop; lia).
    apply take_drop.
Qed.

Lemma chunks_concat n (cs : list (list A)) :
  (0 < n)%nat -> Forall (fun c => length c = n) cs -> chunks n (concat cs) = cs.
Proof.
  intros Hn. induction 1 as [|c cs Hc _ IH]; [done|]. cbn.
  rewrite chunks_step by (rewrite ?length_app; lia).
  rewrite take_app_le, take_ge by lia. f_equal.
  rewrite drop_app_le, drop_ge by lia. done.
Qed.
End chunks.

(** ** Go maps with string keys

    [range] over a map visits the entries in an arbitrary order. *)
Class MapRange := {
  map_range {A} : gmap string A -> list (string * A);
  map_range_perm {A} (m : gmap string A) : Permutation (map_range m) (map_to_list m);
}.

Lemma elem_of_map_range `{R : MapRange} {A} (m : gmap string A) k v : (k, v) ∈ map_range m <-> m !! k = Some v.
Proof. rewrite (map_range_perm m). apply elem_of_map_to_list. Qed.

(** One of the orders, for concrete runs. *)
Definition list_range : MapRange := {|
  map_range A m := map_to_list m;
  map_range_perm A m := Permutation_refl (map_to_list m) |}.
