(* ===== verification/Bytes.v ===== *)
(** * Bytes and serialization (utils/io/serializer.go, utils/io/byteconversions.go)

    Bytes, their little-endian readings at the widths the code uses, the
    [ToInt*] conversions and the reflective [Serialize] of primitive data. *)

From Stdlib Require Export Strings.Byte.
From S2P Require Export Prelude.

#[export] Instance byte_eq_dec : EqDecision byte := Byte.byte_eq_dec.

Definition byte_of_Z (z : Z) : byte :=
  match Byte.of_N (Z.to_N (z mod 256)) with Some b => b | None => x00 end.
Definition Z_of_byte (b : byte) : Z := Z.of_N (Byte.to_N b).

Lemma Z_of_byte_range b : 0 <= Z_of_byte b < 256.
Proof. unfold Z_of_byte. pose proof (Byte.to_N_bounded b). lia. Qed.

Lemma Z_of_byte_of_Z z : Z_of_byte (byte_of_Z z) = z mod 256.
Proof.
  unfold Z_of_byte, byte_of_Z.
  pose proof (Z.mod_pos_bound z 256 ltac:(lia)).
  destruct (Byte.of_N (Z.to_N (z mod 256))) as [b|] eqn:Hb.
  - apply Byte.to_of_N in Hb. rewrite Hb. lia.
  - apply Byte.of_N_None_iff in Hb. lia.
Qed.

Lemma byte_of_Z_of_byte b : byte_of_Z (Z_of_byte b) = b.
Proof.
  unfold byte_of_Z. rewrite Z.mod_small by apply Z_of_byte_range.
  unfold Z_of_byte. rewrite N2Z.id. by rewrite Byte.of_to_N.
Qed.

(** ** Little-endian words *)

Fixpoint le_bytes (n : nat) (z : Z) : list byte :=
  match n with
  | O => []
  | S n' => byte_of_Z z :: le_bytes n' (z / 256)
  end.

Fixpoint le_val (bs : list byte) : Z :=
  match bs with
  | [] => 0
  | b :: bs' => Z_of_byte b + 256 * le_val bs'
  end.

Lemma length_le_bytes n z : length (le_bytes n z) = n.
Proof. revert z. induction n; intros; cbn; auto. Qed.

Lemma pow256_succ n : 256 ^ Z.of_nat (S n) = 256 * 256 ^ Z.of_nat n.
Proof. rewrite Nat2Z.inj_succ, Z.pow_succ_r; lia. Qed.

Lemma le_val_le_bytes n z : le_val (le_bytes n z) = z mod 256 ^ Z.of_nat n.
Proof.
  revert z. induction n as [|n IH]; intros z.
  - cbn. by rewrite Z.mod_1_r.
  - cbn [le_bytes le_val]. rewrite IH, Z_of_byte_of_Z, pow256_succ.
    rewrite (Z.rem_mul_r z 256 (256 ^ Z.of_nat n)); [lia|lia|].
    apply Z.pow_pos_nonneg; lia.
Qed.

Lemma le_val_range bs : 0 <= le_val bs < 256 ^ Z.of_nat (length bs).
Proof.
  induction bs as [|b bs IH]; cbn [le_val length].
  - cbn. lia.
  - rewrite pow256_succ. pose proof (Z_of_byte_range b). nia.
Qed.

Lemma le_bytes_le_val bs : le_bytes (length bs) (le_val bs) = bs.
Proof.
  induction bs as [|b bs IH]; [done|]. cbn [le_val length le_bytes].
  pose proof (Z_of_byte_range b). f_equal.
  - rewrite <- (byte_of_Z_of_byte b) at 2. unfold byte_of_Z. do 2 f_equal.
    replace (Z_of_byte b + 256 * le_val bs) with (Z_of_byte b + le_val bs * 256) by lia.
    by rewrite Z.mod_add by lia.
  - transitivity (le_bytes (length bs) (le_val bs)); [|exact IH]. f_equal.
    replace (Z_of_byte b + 256 * le_val bs) with (Z_of_byte b + le_val bs * 256) by lia.
    rewrite Z.div_add, Z.div_small; lia.
Qed.

Lemma le_bytes_mod n z : le_bytes n (z mod 256 ^ Z.of_nat n) = le_bytes n z.
Proof.
  rewrite <- le_val_le_bytes.
  rewrite <- (length_le_bytes n z) at 1. apply le_bytes_le_val.
Qed.

(** ** Reading words: [ToInt8] ... [ToInt64]

    The Go functions read the word at the address of the first byte of the
    slice, whatever the length of the slice is: the argument stands for the
    memory from that address on.  [&b[0]] panics on an empty slice. *)

Definition ToInt8 (mem : list byte) : Z := int8 (le_val (take 1 mem)).
Definition ToInt16 (mem : list byte) : Z := int16 (le_val (take 2 mem)).
Definition ToInt32 (mem : list byte) : Z := int32 (le_val (take 4 mem)).
Definition ToInt64 (mem : list byte) : Z := int64 (le_val (take 8 mem)).
Definition ToUint8 (mem : list byte) : Z := le_val (take 1 mem).
Definition ToUInt32 (mem : list byte) : Z := le_val (take 4 mem).

Lemma take_le_bytes_app n z r : take n (le_bytes n z ++ r) = le_bytes n z.
Proof. rewrite take_app_le, take_ge; rewrite ?length_le_bytes; done. Qed.

Lemma drop_le_bytes_app n z r : drop n (le_bytes n z ++ r) = r.
Proof. apply drop_app_length'. by rewrite length_le_bytes. Qed.

Lemma wrapS_le_val n z :
  (0 < n)%nat -> wrapS (8 * Z.of_nat n) (le_val (le_bytes n z)) = wrapS (8 * Z.of_nat n) z.
Proof.
  intros Hn. rewrite le_val_le_bytes.
  replace (256 ^ Z.of_nat n) with (2 ^ (8 * Z.of_nat n)) by (rewrite Z.pow_mul_r; [done|lia|lia]).
  apply wrapS_wrapU. lia.
Qed.

Lemma ToInt8_le_bytes z r : ToInt8 (le_bytes 1 z ++ r) = int8 z.
Proof. unfold ToInt8. rewrite take_le_bytes_app. apply (wrapS_le_val 1). lia. Qed.
Lemma ToInt16_le_bytes z r : ToInt16 (le_bytes 2 z ++ r) = int16 z.
Proof. unfold ToInt16. rewrite take_le_bytes_app. apply (wrapS_le_val 2). lia. Qed.
Lemma ToInt32_le_bytes z r : ToInt32 (le_bytes 4 z ++ r) = int32 z.
Proof. unfold ToInt32. rewrite take_le_bytes_app. apply (wrapS_le_val 4). lia. Qed.
Lemma ToInt64_le_bytes z r : ToInt64 (le_bytes 8 z ++ r) = int64 z.
Proof. unfold ToInt64. rewrite take_le_bytes_app. apply (wrapS_le_val 8). lia. Qed.

Lemma le_bytes_wrapS w n z : w = 8 * Z.of_nat n -> (0 < n)%nat -> le_bytes n (wrapS w z) = le_bytes n z.
Proof.
  intros -> Hn. rewrite <- le_bytes_mod, <- (le_bytes_mod n z). f_equal.
  replace (256 ^ Z.of_nat n) with (2 ^ (8 * Z.of_nat n)) by (rewrite Z.pow_mul_r; [done|lia|lia]).
  unfold wrapS. set (w := 8 * Z.of_nat n). rewrite Zminus_mod_idemp_l. f_equal. lia.
Qed.

Lemma le_bytes_ToInt64 bs : length bs = 8%nat -> le_bytes 8 (ToInt64 bs) = bs.
Proof.
  intros H. unfold ToInt64. rewrite le_bytes_wrapS by (done || lia).
  rewrite take_ge by lia. rewrite <- H. apply le_bytes_le_val.
Qed.

Lemma ToInt64_range mem : inS 64 (ToInt64 mem).
Proof. apply wrapS_range. lia. Qed.

Lemma ToInt64_take mem n : (8 <= n)%nat -> ToInt64 (take n mem) = ToInt64 mem.
Proof. intros. unfold ToInt64. rewrite take_take. by rewrite Nat.min_l by lia. Qed.

Create Rewrite HintDb bytes.
#[export] Hint Rewrite @length_le_bytes ToInt8_le_bytes ToInt16_le_bytes
  ToInt32_le_bytes ToInt64_le_bytes drop_le_bytes_app take_le_bytes_app : bytes.

(** ** Serialize

    The values [Serialize] dispatches on by reflection.  Fixed-size
    primitives are their memory image; a map is the list of its entries in
    the order [MapKeys] gives them. *)

Inductive datum :=
  | DInt8 (z : Z) | DInt16 (z : Z) | DInt32 (z : Z) | DInt64 (z : Z)
  | DUint8 (z : Z) | DUint16 (z : Z) | DUint32 (z : Z) | DUint64 (z : Z)
  | DBytes (bs : list byte)
  | DString (s : string)
  | DStruct (fields : list datum)
  | DSlice (elems : list datum)
  | DMap (entries : list (string * datum))
  | DOpaque (kind : string) (** channels, functions, interfaces, pointers *).

Definition string_bytes (s : string) : list byte := String.list_byte_of_string s.
Definition bytes_string (bs : list byte) : string := String.string_of_list_byte bs.

Lemma bytes_string_of_bytes s : bytes_string (string_bytes s) = s.
Proof. apply String.string_of_list_byte_of_string. Qed.

(** [DataToByteSlice]: the memory image of a primitive. *)
Definition DataToByteSlice (d : datum) : list byte :=
  match d with
  | DInt8 z | DUint8 z => le_bytes 1 z
  | DInt16 z | DUint16 z => le_bytes 2 z
  | DInt32 z | DUint32 z => le_bytes 4 z
  | DInt64 z | DUint64 z => le_bytes 8 z
  | _ => []
  end.

(** The loops of [Serialize] over the fields of a struct, the elements of a
    slice or array and the entries of a map. *)
Section serialize_loops.
Context {A : Type} (ser : list byte -> A -> outcome (list byte)) (img : A -> option (list byte)).

Definition serialize_elems : list byte -> list A -> outcome (list byte) :=
  fix go (buffer : list byte) (ds : list A) :=
    match ds with
    | [] => Ret buffer
    | d :: ds' => let! b := ser buffer d in go b ds'
    end.

(** The key length, then the key, then the value. *)
Definition serialize_entries : list byte -> list (string * A) -> outcome (list byte) :=
  fix go (buffer : list byte) (es : list (string * A)) :=
    match es with
    | [] => Ret buffer
    | (k, v) :: es' =>
        let b1 := buffer ++ le_bytes 2 (Z.of_nat (String.length k)) in
        let b2 := b1 ++ string_bytes k in
        let! b3 := ser b2 v in go b3 es'
    end.

Definition image_elems : list A -> option (list byte) :=
  fix go (ds : list A) :=
    match ds with
    | [] => Some []
    | d :: ds' => b ← img d; bs ← go ds'; Some (b ++ bs)
    end.

Definition image_entries : list (string * A) -> option (list byte) :=
  fix go (es : list (string * A)) :=
    match es with
    | [] => Some []
    | (k, v) :: es' =>
        b ← img v; bs ← go es';
        Some (le_bytes 2 (Z.of_nat (String.length k)) ++ string_bytes k ++ b ++ bs)
    end.
End serialize_loops.

Fixpoint Serialize (buffer : list byte) (d : datum) : outcome (list byte) :=
  match d with
  | DBytes bs => Ret (buffer ++ bs)
  | DOpaque _ => Fail (ErrMsg "Serialize: Type is not serializable")
  | DString s => Ret (buffer ++ string_bytes s)
  | DStruct ds | DSlice ds => serialize_elems Serialize buffer ds
  | DMap es => serialize_entries Serialize buffer es
  | _ => Ret (buffer ++ DataToByteSlice d)
  end.

(** The byte image of a datum, without the accumulating buffer. *)
Fixpoint image (d : datum) : option (list byte) :=
  match d with
  | DBytes bs => Some bs
  | DOpaque _ => None
  | DString s => Some (string_bytes s)
  | DStruct ds | DSlice ds => image_elems image ds
  | DMap es => image_entries image es
  | _ => Some (DataToByteSlice d)
  end.

Section datum_ind.
Variable P : datum -> Prop.
Hypothesis Hleaf : forall d,
  match d with DStruct _ | DSlice _ | DMap _ => True | _ => P d end.
Hypothesis Hstruct : forall ds, Forall P ds -> P (DStruct ds).
Hypothesis Hslice : forall ds, Forall P ds -> P (DSlice ds).
Hypothesis Hmap : forall es, Forall (fun e => P (snd e)) es -> P (DMap es).

(** Induction on data with the nested lists. *)
Fixpoint datum_nested_ind (d : datum) : P d :=
  let fix all (ds : list datum) : Forall P ds :=
    match ds with
    | [] => Forall_nil_2 P
    | d :: ds' => Forall_cons_2 P _ _ (datum_nested_ind d) (all ds')
    end in
  let fix all_map (es : list (string * datum)) : Forall (fun e => P (snd e)) es :=
    match es with
    | [] => Forall_nil_2 _
    | e :: es' => Forall_cons_2 (fun e => P (snd e)) _ _ (datum_nested_ind (snd e)) (all_map es')
    end in
  match d return P d with
  | DStruct ds => Hstruct ds (all ds)
  | DSlice ds => Hslice ds (all ds)
  | DMap es => Hmap es (all_map es)
  | d' => Hleaf d'
  end.
End datum_ind.

Definition serialize_result (buffer : list byte) (img : option (list byte)) : outcome (list byte) :=
  match img with
  | Some bs => Ret (buffer ++ bs)
  | None => Fail (ErrMsg "Serialize: Type is not serializable")
  end.

Lemma serialize_elems_image {A} (ser : list byte -> A -> outcome (list byte)) img ds buffer :
  Forall (fun d => forall b, ser b d = serialize_result b (img d)) ds ->
  serialize_elems ser buffer ds = serialize_result buffer (image_elems img ds).
Proof.
  intros H. revert buffer. induction H as [|d ds Hd _ IH]; intros buffer; cbn.
  - by rewrite app_nil_r.
  - rewrite Hd. destruct (img d) as [b|]; cbn; [|done]. rewrite IH.
    destruct (image_elems img ds); cbn; [|done]. by rewrite app_assoc.
Qed.

Lemma serialize_entries_image {A} (ser : list byte -> A -> outcome (list byte)) img es buffer :
  Forall (fun e => forall b, ser b (snd e) = serialize_result b (img (snd e))) es ->
  serialize_entries ser buffer es = serialize_result buffer (image_entries img es).
Proof.
  intros H. revert buffer. induction H as [|[k d] es Hd _ IH]; intros buffer; cbn.
  - by rewrite app_nil_r.
  - cbn in Hd. rewrite Hd. destruct (img d) as [b|]; cbn; [|done]. rewrite IH.
    destruct (image_entries img es); cbn; [|done]. by rewrite <- !app_assoc.
Qed.

(** [Serialize] appends the image of the datum to the buffer, and fails
    exactly on data that contain a value of a kind that has no image; the
    buffer it is given never changes what is appended. *)
Lemma Serialize_image (buffer : list byte) (d : datum) :
  Serialize buffer d = serialize_result buffer (image d).
Proof.
  revert buffer.
  apply (datum_nested_ind (fun d => forall buffer, Serialize buffer d = serialize_result buffer (image d)));
    clear d.
  - intros []; try exact I; intros; reflexivity.
  - intros ds IH buffer. by apply serialize_elems_image.
  - intros ds IH buffer. by apply serialize_elems_image.
  - intros es IH buffer. by apply serialize_entries_image.
Qed.
