(* ===== verification/Unicode.v ===== *)
(** * Code points, their UTF-8 and their title case (Go's unicode, utf8 and strings packages)

    What [strings.Title] needs: the decoding of a string into code points, the
    spaces, and the title case of a code point by the tables of Unicode 11,
    which are those of the Go release that the image of the program is built
    with. *)

From S2P Require Export Bytes.

#[local] Open Scope Z_scope.

(** ** UTF-8 *)

Definition continuation (b : Z) : bool := (128 <=? b) && (b <? 192).

(** The first code point and what is behind it; [None] for bytes that are no
    code point: a wrong first byte, a missing continuation, a code point that
    has a shorter form, a surrogate, a number that is too large. *)
Definition decode_rune (bs : list byte) : option (Z * list byte) :=
  match bs with
  | [] => None
  | b0 :: rest =>
      let x0 := Z_of_byte b0 in
      if x0 <? 128 then Some (x0, rest)
      else if (192 <=? x0) && (x0 <? 224) then
        match rest with
        | b1 :: rest =>
            let x1 := Z_of_byte b1 in
            let r := (x0 - 192) * 64 + (x1 - 128) in
            if continuation x1 && (128 <=? r) then Some (r, rest) else None
        | [] => None
        end
      else if (224 <=? x0) && (x0 <? 240) then
        match rest with
        | b1 :: b2 :: rest =>
            let x1 := Z_of_byte b1 in
            let x2 := Z_of_byte b2 in
            let r := ((x0 - 224) * 64 + (x1 - 128)) * 64 + (x2 - 128) in
            if continuation x1 && continuation x2 && (2048 <=? r) && negb ((55296 <=? r) && (r <? 57344))
            then Some (r, rest) else None
        | _ => None
        end
      else if (240 <=? x0) && (x0 <? 248) then
        match rest with
        | b1 :: b2 :: b3 :: rest =>
            let x1 := Z_of_byte b1 in
            let x2 := Z_of_byte b2 in
            let x3 := Z_of_byte b3 in
            let r := (((x0 - 240) * 64 + (x1 - 128)) * 64 + (x2 - 128)) * 64 + (x3 - 128) in
            if continuation x1 && continuation x2 && continuation x3 && (65536 <=? r) && (r <? 1114112)
            then Some (r, rest) else None
        | _ => None
        end
      else None
  end.

Definition encode_rune (r : Z) : list byte :=
  let last z := byte_of_Z (128 + z mod 64) in
  if r <? 128 then [byte_of_Z r]
  else if r <? 2048 then [byte_of_Z (192 + r / 64); last r]
  else if r <? 65536 then [byte_of_Z (224 + r / 4096); last (r / 64); last r]
  else [byte_of_Z (240 + r / 262144); last (r / 4096); last (r / 64); last r].

(** [utf8.RuneError], which stands for bytes that are no code point. *)
Definition RuneError : Z := 65533.

(** ** Spaces and title case *)

Definition IsSpace (r : Z) : bool :=
  ((9 <=? r) && (r <=? 13)) || (r =? 32) || (r =? 133) || (r =? 160) || (r =? 5760) || ((8192 <=? r) && (r <=? 8202)) ||
  (r =? 8232) || (r =? 8233) || (r =? 8239) || (r =? 8287) || (r =? 12288).

(** What a word ends at: in ASCII all but letters, digits and the underscore;
    behind it the spaces, none of which is a letter or a digit. *)
Definition isSeparator (r : Z) : bool :=
  if r <? 128 then
    negb (((48 <=? r) && (r <=? 57)) || ((97 <=? r) && (r <=? 122)) || ((65 <=? r) && (r <=? 90)) || (r =? 95))
  else IsSpace r.

(** The code points behind ASCII whose title case is another: from the first
    to the second in steps of the third, and what is added to them. *)
Definition title_ranges : list (Z * Z * Z * Z) :=
 [(181, 181, 1, 743); (224, 246, 1, -32); (248, 254, 1, -32); (255, 255, 1, 121); (257, 303, 2, -1);
   (305, 305, 1, -232); (307, 311, 2, -1); (314, 328, 2, -1); (331, 375, 2, -1); (378, 382, 2, -1);
   (383, 383, 1, -300); (384, 384, 1, 195); (387, 389, 2, -1); (392, 392, 1, -1); (396, 396, 1, -1);
   (402, 402, 1, -1); (405, 405, 1, 97); (409, 409, 1, -1); (410, 410, 1, 163); (414, 414, 1, 130);
   (417, 421, 2, -1); (424, 424, 1, -1); (429, 429, 1, -1); (432, 432, 1, -1); (436, 438, 2, -1);
   (441, 441, 1, -1); (445, 445, 1, -1); (447, 447, 1, 56); (452, 452, 1, 1); (454, 454, 1, -1);
   (455, 455, 1, 1); (457, 457, 1, -1); (458, 458, 1, 1); (460, 476, 2, -1); (477, 477, 1, -79);
   (479, 495, 2, -1); (497, 497, 1, 1); (499, 501, 2, -1); (505, 543, 2, -1); (547, 563, 2, -1);
   (572, 572, 1, -1); (575, 576, 1, 10815); (578, 578, 1, -1); (583, 591, 2, -1); (592, 592, 1, 10783);
   (593, 593, 1, 10780); (594, 594, 1, 10782); (595, 595, 1, -210); (596, 596, 1, -206); (598, 599, 1, -205);
   (601, 601, 1, -202); (603, 603, 1, -203); (604, 604, 1, 42319); (608, 608, 1, -205); (609, 609, 1, 42315);
   (611, 611, 1, -207); (613, 613, 1, 42280); (614, 614, 1, 42308); (616, 616, 1, -209); (617, 617, 1, -211);
   (618, 618, 1, 42308); (619, 619, 1, 10743); (620, 620, 1, 42305); (623, 623, 1, -211); (625, 625, 1, 10749);
   (626, 626, 1, -213); (629, 629, 1, -214); (637, 637, 1, 10727); (640, 640, 1, -218); (643, 643, 1, -218);
   (647, 647, 1, 42282); (648, 648, 1, -218); (649, 649, 1, -69); (650, 651, 1, -217); (652, 652, 1, -71);
   (658, 658, 1, -219); (669, 669, 1, 42261); (670, 670, 1, 42258); (837, 837, 1, 84); (881, 883, 2, -1);
   (887, 887, 1, -1); (891, 893, 1, 130); (940, 940, 1, -38); (941, 943, 1, -37); (945, 961, 1, -32);
   (962, 962, 1, -31); (963, 971, 1, -32); (972, 972, 1, -64); (973, 974, 1, -63); (976, 976, 1, -62);
   (977, 977, 1, -57); (981, 981, 1, -47); (982, 982, 1, -54); (983, 983, 1, -8); (985, 1007, 2, -1);
   (1008, 1008, 1, -86); (1009, 1009, 1, -80); (1010, 1010, 1, 7); (1011, 1011, 1, -116); (1013, 1013, 1, -96);
   (1016, 1016, 1, -1); (1019, 1019, 1, -1); (1072, 1103, 1, -32); (1104, 1119, 1, -80); (1121, 1153, 2, -1);
   (1163, 1215, 2, -1); (1218, 1230, 2, -1); (1231, 1231, 1, -15); (1233, 1327, 2, -1); (1377, 1414, 1, -48);
   (5112, 5117, 1, -8); (7296, 7296, 1, -6254); (7297, 7297, 1, -6253); (7298, 7298, 1, -6244);
   (7299, 7300, 1, -6242); (7301, 7301, 1, -6243); (7302, 7302, 1, -6236); (7303, 7303, 1, -6181);
   (7304, 7304, 1, 35266); (7545, 7545, 1, 35332); (7549, 7549, 1, 3814); (7681, 7829, 2, -1);
   (7835, 7835, 1, -59); (7841, 7935, 2, -1); (7936, 7943, 1, 8); (7952, 7957, 1, 8); (7968, 7975, 1, 8);
   (7984, 7991, 1, 8); (8000, 8005, 1, 8); (8017, 8023, 2, 8); (8032, 8039, 1, 8); (8048, 8049, 1, 74);
   (8050, 8053, 1, 86); (8054, 8055, 1, 100); (8056, 8057, 1, 128); (8058, 8059, 1, 112); (8060, 8061, 1, 126);
   (8064, 8071, 1, 8); (8080, 8087, 1, 8); (8096, 8103, 1, 8); (8112, 8113, 1, 8); (8115, 8115, 1, 9);
   (8126, 8126, 1, -7205); (8131, 8131, 1, 9); (8144, 8145, 1, 8); (8160, 8161, 1, 8); (8165, 8165, 1, 7);
   (8179, 8179, 1, 9); (8526, 8526, 1, -28); (8560, 8575, 1, -16); (8580, 8580, 1, -1); (9424, 9449, 1, -26);
   (11312, 11358, 1, -48); (11361, 11361, 1, -1); (11365, 11365, 1, -10795); (11366, 11366, 1, -10792);
   (11368, 11372, 2, -1); (11379, 11379, 1, -1); (11382, 11382, 1, -1); (11393, 11491, 2, -1);
   (11500, 11502, 2, -1); (11507, 11507, 1, -1); (11520, 11557, 1, -7264); (11559, 11559, 1, -7264);
   (11565, 11565, 1, -7264); (42561, 42605, 2, -1); (42625, 42651, 2, -1); (42787, 42799, 2, -1);
   (42803, 42863, 2, -1); (42874, 42876, 2, -1); (42879, 42887, 2, -1); (42892, 42892, 1, -1);
   (42897, 42899, 2, -1); (42903, 42921, 2, -1); (42933, 42937, 2, -1); (43859, 43859, 1, -928);
   (43888, 43967, 1, -38864); (65345, 65370, 1, -32); (66600, 66639, 1, -40); (66776, 66811, 1, -40);
   (68800, 68850, 1, -64); (71872, 71903, 1, -32); (93792, 93823, 1, -32); (125218, 125251, 1, -34)].

Fixpoint find_range (ranges : list (Z * Z * Z * Z)) (r : Z) : Z :=
  match ranges with
  | [] => r
  | (lo, hi, step, delta) :: ranges' =>
      if (lo <=? r) && (r <=? hi) && ((r - lo) mod step =? 0) then r + delta else find_range ranges' r
  end.
Definition ToTitle (r : Z) : Z :=
  if r <? 128 then (if (97 <=? r) && (r <=? 122) then r - 32 else r) else find_range title_ranges r.

(** ** [strings.Title]: the first code point of every word in title case

    Bytes that are no code point come back as the code point for that. *)

Fixpoint title_runes (fuel : nat) (separated : bool) (bs : list byte) : list byte :=
  match fuel, bs with
  | S fuel', _ :: bs' =>
      match decode_rune bs with
      | Some (r, rest) => encode_rune (if separated then ToTitle r else r) ++ title_runes fuel' (isSeparator r) rest
      | None => encode_rune RuneError ++ title_runes fuel' (isSeparator RuneError) bs'
      end
  | _, _ => []
  end.
Definition Title (s : string) : string :=
  let bs := string_bytes s in bytes_string (title_runes (length bs) true bs).

Example Title_ex : Title "open64 and-close" = "Open64 And-Close"%string.
Proof. reflexivity. Qed.
Example Title_accents : Title "été à_la ñandú" = "Été À_la Ñandú"%string.
Proof. vm_compute. reflexivity. Qed.
(** A byte that begins nothing. *)
Example Title_wrong : string_bytes (Title (bytes_string [xff; x61])) = [xef; xbf; xbd; x61].
Proof. vm_compute. reflexivity. Qed.

(** A code point is decoded from its encoding, whatever follows. *)
Lemma decode_encode_rune r rest :
  0 <= r < 1114112 -> ~ (55296 <= r < 57344) -> decode_rune (encode_rune r ++ rest) = Some (r, rest).
Proof.
  intros Hr Hs. unfold encode_rune.
  destruct (Z.ltb_spec r 128).
  { cbn [app decode_rune]. rewrite Z_of_byte_of_Z, Z.mod_small by lia. by rewrite (proj2 (Z.ltb_lt r 128)) by lia. }
  assert (Hm : forall z, 0 <= z mod 64 < 64) by (intros z; apply Z.mod_pos_bound; lia).
  pose proof (Hm r). pose proof (Hm (r / 64)). pose proof (Hm (r / 4096)).
  pose proof (Z.div_mod r 64 ltac:(lia)). pose proof (Z.div_mod (r / 64) 64 ltac:(lia)). pose proof (Z.div_mod (r / 4096) 64 ltac:(lia)).
  assert (r / 4096 = r / 64 / 64) by (rewrite Z.div_div by lia; done).
  assert (r / 262144 = r / 4096 / 64) by (rewrite Z.div_div by lia; done).
  destruct (Z.ltb_spec r 2048); [|destruct (Z.ltb_spec r 65536)]; cbn [app decode_rune];
    rewrite !Z_of_byte_of_Z, !(Z.mod_small _ 256) by lia; unfold continuation.
  all: repeat match goal with
         | |- context [?a <? ?b] => first [rewrite (proj2 (Z.ltb_lt a b)) by lia | rewrite (proj2 (Z.ltb_ge a b)) by lia]
         | |- context [?a <=? ?b] => first [rewrite (proj2 (Z.leb_le a b)) by lia | rewrite (proj2 (Z.leb_gt a b)) by lia]
         end.
  all: cbn [andb negb]; try (do 2 f_equal; lia).
  destruct (Z.leb_spec 55296 ((((224 + r / 4096 - 224) * 64 + (128 + (r / 64) mod 64 - 128)) * 64 + (128 + r mod 64 - 128)))); cbn [andb negb].
  - rewrite (proj2 (Z.ltb_ge _ 57344)) by lia. cbn [negb]. do 2 f_equal. lia.
  - do 2 f_equal. lia.
Qed.
