(* ===== verification/GoTime.v ===== *)
(** * The part of Go's time package that the code uses

    Instants are nanoseconds since the Unix epoch together with a
    [Location]; the civil calendar is the proleptic Gregorian one.  The
    definitions follow the algorithms of the standard library ([Date],
    [absDate], [lookup], [Truncate], [ISOWeek]). *)

From S2P Require Export Prelude.

(** ** Civil calendar: days are counted from Monday 1 January of year 1 *)

Definition isLeap (y : Z) : bool :=
  (y mod 4 =? 0) && (negb (y mod 100 =? 0) || (y mod 400 =? 0)).

Definition days_before_year (y : Z) : Z :=
  let n := y - 1 in 365 * n + n / 4 - n / 100 + n / 400.

(** [absDate]: cut off 400-year, 100-year and 4-year cycles, then years. *)
Definition year_yday (d : Z) : Z * Z :=
  let n4 := d / 146097 in
  let d1 := d - 146097 * n4 in
  let q1 := d1 / 36524 in
  let n1 := q1 - q1 / 4 in
  let d2 := d1 - 36524 * n1 in
  let n2 := d2 / 1461 in
  let d3 := d2 - 1461 * n2 in
  let q3 := d3 / 365 in
  let n3 := q3 - q3 / 4 in
  (400 * n4 + 100 * n1 + 4 * n2 + n3 + 1, d3 - 365 * n3).

Definition year_of_day (d : Z) : Z := fst (year_yday d).
Definition yday_of_day (d : Z) : Z := snd (year_yday d).

Lemma days_before_year_split a b c e :
  0 <= b <= 3 -> 0 <= c <= 24 -> 0 <= e <= 3 ->
  days_before_year (400 * a + 100 * b + 4 * c + e + 1) =
  146097 * a + 36524 * b + 1461 * c + 365 * e.
Proof.
  intros. unfold days_before_year.
  replace (400 * a + 100 * b + 4 * c + e + 1 - 1) with (400 * a + 100 * b + 4 * c + e) by lia.
  Z.div_mod_to_equations. lia.
Qed.

Lemma days_before_year_succ y :
  days_before_year (y + 1) = days_before_year y + (if isLeap y then 366 else 365).
Proof.
  unfold days_before_year, isLeap. replace (y + 1 - 1) with y by lia.
  destruct (y mod 4 =? 0) eqn:H4; destruct (y mod 100 =? 0) eqn:H100;
    destruct (y mod 400 =? 0) eqn:H400; cbn [negb andb orb];
    repeat match goal with
    | H : (_ =? _) = true |- _ => apply Z.eqb_eq in H
    | H : (_ =? _) = false |- _ => apply Z.eqb_neq in H
    end; Z.div_mod_to_equations; lia.
Qed.

Lemma year_yday_spec d :
  let '(y, yd) := year_yday d in
  d = days_before_year y + yd /\ 0 <= yd < (if isLeap y then 366 else 365).
Proof.
  unfold year_yday.
  set (n4 := d / 146097). set (d1 := d - 146097 * n4).
  assert (H1 : 0 <= d1 < 146097) by (unfold d1, n4; Z.div_mod_to_equations; lia).
  set (q1 := d1 / 36524). set (n1 := q1 - q1 / 4).
  assert (Hq1 : 0 <= q1 <= 4 /\ 36524 * q1 <= d1 < 36524 * q1 + 36524)
    by (unfold q1; Z.div_mod_to_equations; lia).
  assert (Hn1 : n1 = q1 /\ q1 <= 3 \/ n1 = 3 /\ q1 = 4)
    by (unfold n1; Z.div_mod_to_equations; lia).
  set (d2 := d1 - 36524 * n1).
  assert (H2 : 0 <= d2 <= 36524) by (unfold d2; lia).
  set (n2 := d2 / 1461). set (d3 := d2 - 1461 * n2).
  assert (H3 : 0 <= d3 < 1461 /\ 0 <= n2 <= 24)
    by (unfold d3, n2; Z.div_mod_to_equations; lia).
  set (q3 := d3 / 365). set (n3 := q3 - q3 / 4).
  assert (Hq3 : 0 <= q3 <= 4 /\ 365 * q3 <= d3 < 365 * q3 + 365)
    by (unfold q3; Z.div_mod_to_equations; lia).
  assert (Hn3 : n3 = q3 /\ q3 <= 3 \/ n3 = 3 /\ q3 = 4)
    by (unfold n3; Z.div_mod_to_equations; lia).
  assert (Hdb := days_before_year_split n4 n1 n2 n3 ltac:(lia) ltac:(lia) ltac:(lia)).
  split; [rewrite Hdb; unfold d3, d2, d1; lia|].
  (* the last day of a four-year cycle exists in leap years only *)
  assert (Hleap : n3 = 3 -> (n2 = 24 -> n1 = 3) ->
            isLeap (400 * n4 + 100 * n1 + 4 * n2 + n3 + 1) = true).
  { intros -> Hc. unfold isLeap. apply andb_true_intro. split.
    - apply Z.eqb_eq. Z.div_mod_to_equations. lia.
    - apply orb_true_iff.
      destruct (Z.eq_dec n2 24) as [Hn2|Hn2].
      + right. apply Z.eqb_eq. specialize (Hc Hn2). Z.div_mod_to_equations. lia.
      + left. apply negb_true_iff, Z.eqb_neq. Z.div_mod_to_equations. lia. }
  destruct Hn3 as [[Hn3 Hle]|[Hn3 Hq]].
  - destruct (isLeap _); lia.
  - rewrite Hleap; [lia|done|]. intros Hn2.
    unfold d3 in *. unfold d2 in *. lia.
Qed.

Lemma days_before_year_mono y1 y2 : y1 <= y2 -> days_before_year y1 <= days_before_year y2.
Proof. intros H. unfold days_before_year. Z.div_mod_to_equations. lia. Qed.

Lemma days_before_year_lt y1 y2 : y1 < y2 -> days_before_year y1 < days_before_year y2.
Proof.
  intros H. pose proof (days_before_year_mono (y1 + 1) y2 ltac:(lia)).
  pose proof (days_before_year_succ y1). destruct (isLeap y1); lia.
Qed.

(** The year of a day is the one between whose first days it lies. *)
Lemma year_of_day_spec d y :
  year_of_day d = y <-> days_before_year y <= d < days_before_year (y + 1).
Proof.
  unfold year_of_day. pose proof (year_yday_spec d) as Hs.
  destruct (year_yday d) as [y' yd]. cbn. destruct Hs as [Hd Hyd].
  pose proof (days_before_year_succ y') as Hs.
  split.
  - intros ->. lia.
  - intros Hy. destruct (Z.lt_trichotomy y' y) as [Hlt|[->|Hlt]]; [|done|].
    + pose proof (days_before_year_mono (y' + 1) y ltac:(lia)). lia.
    + pose proof (days_before_year_mono (y + 1) y' ltac:(lia)). lia.
Qed.

Lemma yday_of_day_spec d : yday_of_day d = d - days_before_year (year_of_day d).
Proof.
  unfold yday_of_day, year_of_day. pose proof (year_yday_spec d) as Hs.
  destruct (year_yday d). cbn. lia.
Qed.

(** Days before month [m + 1] in a common year, [daysBefore] of the package. *)
Definition daysBefore : list Z := [0; 31; 59; 90; 120; 151; 181; 212; 243; 273; 304; 334; 365].
Definition days_before (m : Z) : Z := nth (Z.to_nat m) daysBefore 0.

(** [Time.date]: month (from 1) and day of the month. *)
Definition month_day_leap (leap : bool) (yd : Z) : Z * Z :=
  if leap && (yd =? 59) then (2, 29)
  else
    let d := if leap && (59 <? yd) then yd - 1 else yd in
    let m := d / 31 in
    let e := days_before (m + 1) in
    if e <=? d then (m + 2, d - e + 1) else (m + 1, d - days_before m + 1).
Definition month_day (y yd : Z) : Z * Z := month_day_leap (isLeap y) yd.

(** Days of the year before month [m]. *)
Definition month_start (leap : bool) (m : Z) : Z :=
  days_before (m - 1) + (if leap && (3 <=? m) then 1 else 0).

(** Day number of a normalised year, month and any day of the month. *)
Definition day_number (y m d : Z) : Z :=
  days_before_year y + month_start (isLeap y) m + (d - 1).

Definition year_length (leap : bool) : Z := if leap then 366 else 365.

Definition month_day_ok (leap : bool) (yd : Z) : bool :=
  let '(m, d) := month_day_leap leap yd in
  (1 <=? m) && (m <=? 12) && (1 <=? d) && (d <=? 31) &&
  (month_start leap m + (d - 1) =? yd) &&
  (yd <? (if m =? 12 then year_length leap else month_start leap (m + 1))).

Lemma month_day_all_ok :
  forallb (month_day_ok false) (seqZ 0 365) && forallb (month_day_ok true) (seqZ 0 366) = true.
Proof. vm_compute. reflexivity. Qed.

Lemma month_day_spec leap yd :
  0 <= yd < year_length leap ->
  let '(m, d) := month_day_leap leap yd in
  1 <= m <= 12 /\ 1 <= d <= 31 /\ month_start leap m + (d - 1) = yd /\
  yd < (if m =? 12 then year_length leap else month_start leap (m + 1)).
Proof.
  intros Hyd. pose proof month_day_all_ok as Hall. apply andb_true_iff in Hall as [Hf Ht].
  assert (Hok : month_day_ok leap yd = true).
  { destruct leap; [rewrite forallb_forall in Ht; apply Ht|rewrite forallb_forall in Hf; apply Hf];
      apply list_elem_of_In, elem_of_seqZ; unfold year_length in *; lia. }
  unfold month_day_ok in Hok. destruct (month_day_leap leap yd) as [m d].
  repeat (apply andb_true_iff in Hok as [Hok ?]).
  rewrite ?Z.leb_le, ?Z.ltb_lt, ?Z.eqb_eq in *. lia.
Qed.

(** ** Locations *)

(** The offset (seconds east of UTC) of the first zone, and the transitions:
    the instant each begins and the offset from then on, in time order. *)
Record Location := mkLocation { loc_first : Z; loc_tx : list (Z * Z) }.

#[export] Instance Location_eq_dec : EqDecision Location.
Proof. solve_decision. Defined.

Definition UTC : Location := mkLocation 0 [].
Definition FixedZone (offset : Z) : Location := mkLocation offset [].

Definition alpha : Z := - 2 ^ 63.
Definition omega : Z := 2 ^ 63 - 1.

(** [Location.lookup]: offset in use at [sec], when it started and ends. *)
Fixpoint lookup_tx (offset start : Z) (tx : list (Z * Z)) (sec : Z) : Z * Z * Z :=
  match tx with
  | [] => (offset, start, omega)
  | (w, o) :: tx' => if sec <? w then (offset, start, w) else lookup_tx o w tx' sec
  end.
Definition lookup_zone (loc : Location) (sec : Z) : Z * Z * Z :=
  lookup_tx (loc_first loc) alpha (loc_tx loc) sec.
Definition zone_offset (loc : Location) (sec : Z) : Z := fst (fst (lookup_zone loc sec)).

(** ** Instants *)

Record Time := mkTime { t_ns : Z; t_loc : Location }.

#[export] Instance Time_eq_dec : EqDecision Time.
Proof. solve_decision. Defined.

Definition nsPerSec : Z := 1000000000.
Definition secPerDay : Z := 86400.
(** Days from 1 January of year 1 to 1 January 1970. *)
Definition unixToInternalDays : Z := 719162.

Definition time_Unix (sec nsec : Z) (loc : Location) : Time := mkTime (sec * nsPerSec + nsec) loc.
Definition Unix (t : Time) : Z := t_ns t / nsPerSec.
Definition In_loc (t : Time) (loc : Location) : Time := mkTime (t_ns t) loc.
Definition time_Add (t : Time) (d : Z) : Time := mkTime (t_ns t + d) (t_loc t).
Definition time_Before (t u : Time) : bool := t_ns t <? t_ns u.
Definition time_After (t u : Time) : bool := t_ns u <? t_ns t.

(** [Time.Sub] saturates at the bounds of a 64-bit duration. *)
Definition time_Sub (t u : Time) : Z :=
  Z.max (- 2 ^ 63) (Z.min (2 ^ 63 - 1) (t_ns t - t_ns u)).

(** Seconds of local wall clock since the epoch, and the local day. *)
Definition local_sec (t : Time) : Z := Unix t + zone_offset (t_loc t) (Unix t).
Definition local_day (t : Time) : Z := local_sec t / secPerDay + unixToInternalDays.

Definition Year (t : Time) : Z := year_of_day (local_day t).
Definition YearDay (t : Time) : Z := yday_of_day (local_day t) + 1.
Definition Month (t : Time) : Z := fst (month_day (Year t) (YearDay t - 1)).
Definition Day_of_month (t : Time) : Z := snd (month_day (Year t) (YearDay t - 1)).
(** Weekday counted from Monday = 0. *)
Definition weekday_monday (t : Time) : Z := local_day t mod 7.

Definition ISOWeek (t : Time) : Z * Z :=
  let thursday := local_day t - local_day t mod 7 + 3 in
  (year_of_day thursday, yday_of_day thursday / 7 + 1).

(** [time.Date]: month, hour, minute, second and nanosecond overflow into
    the larger units; the zone offset is looked up at the wall-clock value and
    again at the edge of the zone when the guess was past it. *)
Definition Date (year month day hour min sec nsec : Z) (loc : Location) : Time :=
  let y := year + (month - 1) / 12 in
  let m := (month - 1) mod 12 + 1 in
  let secs := (day_number y m 1 - unixToInternalDays) * secPerDay + (day - 1) * secPerDay
              + hour * 3600 + min * 60 + sec + nsec / nsPerSec in
  let '(offset, start, end_) := lookup_zone loc secs in
  let utc := secs - offset in
  let offset' :=
    if offset =? 0 then 0
    else if utc <? start then zone_offset loc (start - 1)
    else if end_ <=? utc then zone_offset loc end_
    else offset in
  mkTime ((secs - offset') * nsPerSec + nsec mod nsPerSec) loc.

Definition AddDate (t : Time) (years months days : Z) : Time :=
  let s := local_sec t mod secPerDay in
  Date (Year t + years) (Month t + months) (Day_of_month t + days)
       (s / 3600) (s mod 3600 / 60) (s mod 60) (t_ns t mod nsPerSec) (t_loc t).

(** [Time.Truncate]: rounds down to a multiple of [d] since year 1. *)
Definition Truncate (t : Time) (d : Z) : Time :=
  if d <=? 0 then t
  else mkTime (t_ns t - (t_ns t + unixToInternalDays * secPerDay * nsPerSec) mod d) (t_loc t).

Definition year_start (loc : Location) (y : Z) : Time := Date y 1 1 0 0 0 0 loc.

Lemma YearDay_local t : YearDay t = local_day t - days_before_year (Year t) + 1.
Proof. unfold YearDay, Year. generalize (local_day t). intros d. by rewrite yday_of_day_spec. Qed.

(** ** Locations in which years start where [Date] says *)

(** What the index computations rely on: the local year of an instant is the
    one between whose [Date] starts it lies. *)
Class YearAligned (loc : Location) : Prop :=
  year_aligned ns y :
    Year (mkTime ns loc) = y <->
    t_ns (year_start loc y) <= ns < t_ns (year_start loc (y + 1)).

Lemma day_number_jan1 y : day_number y 1 1 = days_before_year y.
Proof.
  unfold day_number, month_start. replace (3 <=? 1) with false by done. rewrite andb_false_r.
  change (days_before (1 - 1)) with 0. lia.
Qed.

Lemma day_number_of_month y m d : day_number y m d = day_number y m 1 + (d - 1).
Proof. unfold day_number. lia. Qed.

(** ** Zones with a single offset *)

Lemma lookup_fixed off sec : lookup_zone (FixedZone off) sec = (off, alpha, omega).
Proof. done. Qed.

Lemma zone_offset_fixed off sec : zone_offset (FixedZone off) sec = off.
Proof. done. Qed.

Lemma Date_eta y m d hh mm ss ns loc :
  Date y m d hh mm ss ns loc = mkTime (t_ns (Date y m d hh mm ss ns loc)) loc.
Proof.
  unfold Date. cbv zeta. destruct (lookup_zone _ _) as [[? ?] ?].
  cbn [t_ns]. reflexivity.
Qed.

Lemma Date_fixed off y m d :
  1 <= m <= 12 ->
  t_ns (Date y m d 0 0 0 0 (FixedZone off)) =
  ((day_number y m d - unixToInternalDays) * secPerDay - off) * nsPerSec.
Proof.
  intros Hm. unfold Date. rewrite lookup_fixed, !zone_offset_fixed. cbn [t_ns].
  rewrite (Z.div_small (m - 1)), (Z.mod_small (m - 1)) by lia.
  replace (y + 0) with y by lia. replace (m - 1 + 1) with m by lia.
  change (0 / nsPerSec) with 0. change (0 mod nsPerSec) with 0.
  assert (Ho : forall u, (if off =? 0 then 0 else if u <? alpha then off
                else if omega <=? u then off else off) = off).
  { intros u. destruct (off =? 0) eqn:Ho; [by apply Z.eqb_eq in Ho|].
    by destruct (u <? alpha), (omega <=? u). }
  rewrite Ho. unfold day_number. lia.
Qed.

Lemma Date_fixed_sec off y :
  t_ns (Date y 1 1 0 0 0 0 (FixedZone off)) =
  ((days_before_year y - unixToInternalDays) * secPerDay - off) * nsPerSec.
Proof. rewrite Date_fixed, day_number_jan1 by lia. done. Qed.

Section fixed_zone.
Context (off : Z).
Implicit Types (ns : Z).

Lemma local_day_fixed ns :
  local_day (mkTime ns (FixedZone off)) =
  (ns / nsPerSec + off) / secPerDay + unixToInternalDays.
Proof. done. Qed.

Lemma local_day_of_midnight k :
  local_day (mkTime (((k - unixToInternalDays) * secPerDay - off) * nsPerSec) (FixedZone off)) = k.
Proof.
  rewrite local_day_fixed. rewrite Z.div_mul by done.
  replace (_ - off + off) with ((k - unixToInternalDays) * secPerDay) by lia.
  rewrite Z.div_mul by done. lia.
Qed.

Lemma midnight_bounds ns :
  let k := local_day (mkTime ns (FixedZone off)) in
  ((k - unixToInternalDays) * secPerDay - off) * nsPerSec <= ns
  < ((k + 1 - unixToInternalDays) * secPerDay - off) * nsPerSec.
Proof.
  cbn zeta. rewrite local_day_fixed. unfold nsPerSec, secPerDay, unixToInternalDays.
  Z.div_mod_to_equations. lia.
Qed.
End fixed_zone.

Lemma year_start_fixed off y :
  year_start (FixedZone off) y =
  mkTime (((days_before_year y - unixToInternalDays) * secPerDay - off) * nsPerSec) (FixedZone off).
Proof. unfold year_start. rewrite Date_eta. by rewrite Date_fixed_sec. Qed.

(** The first instant of a year, as a date. *)
Lemma year_start_day off y : local_day (year_start (FixedZone off) y) = days_before_year y.
Proof. rewrite year_start_fixed. apply local_day_of_midnight. Qed.

Lemma year_start_Year off y : Year (year_start (FixedZone off) y) = y.
Proof.
  unfold Year. rewrite year_start_day. apply year_of_day_spec.
  pose proof (days_before_year_succ y). destruct (isLeap y); lia.
Qed.

Lemma year_start_YearDay off y : YearDay (year_start (FixedZone off) y) = 1.
Proof. rewrite YearDay_local, year_start_Year, year_start_day. lia. Qed.

Lemma month_day_0 y : month_day y 0 = (1, 1).
Proof. unfold month_day. by destruct (isLeap y). Qed.

Lemma year_start_Month off y : Month (year_start (FixedZone off) y) = 1.
Proof. unfold Month. rewrite year_start_YearDay. change (1 - 1) with 0. by rewrite month_day_0. Qed.

Lemma year_start_Day off y : Day_of_month (year_start (FixedZone off) y) = 1.
Proof. unfold Day_of_month. rewrite year_start_YearDay. change (1 - 1) with 0. by rewrite month_day_0. Qed.

Lemma year_start_local_sec off y :
  local_sec (year_start (FixedZone off) y) = (days_before_year y - unixToInternalDays) * secPerDay.
Proof.
  rewrite year_start_fixed. unfold local_sec, Unix. cbn [t_ns t_loc].
  rewrite zone_offset_fixed, Z.div_mul by done. lia.
Qed.

(** Days added to the start of a year, past the end of January. *)
Lemma year_start_AddDate off y n :
  AddDate (year_start (FixedZone off) y) 0 0 n =
  mkTime (((days_before_year y + n - unixToInternalDays) * secPerDay - off) * nsPerSec)
    (FixedZone off).
Proof.
  unfold AddDate.
  rewrite year_start_Year, year_start_Month, year_start_Day, year_start_local_sec.
  rewrite Z.mod_mul by done. rewrite year_start_fixed. cbn [t_ns t_loc].
  rewrite Z.mod_mul by done.
  rewrite ?Z.mod_0_l, ?Z.div_0_l by done.
  rewrite !Z.add_0_r. rewrite Date_eta, Date_fixed by done.
  rewrite day_number_of_month, day_number_jan1.
  replace (days_before_year y + (1 + n - 1)) with (days_before_year y + n) by lia.
  reflexivity.
Qed.

(** The date of an instant numbers its local day. *)
Lemma day_number_of_date t : day_number (Year t) (Month t) (Day_of_month t) = local_day t.
Proof.
  unfold day_number, Month, Day_of_month, YearDay, month_day.
  rewrite Z.add_simpl_r. unfold Year.
  pose proof (year_yday_spec (local_day t)) as Hs.
  unfold yday_of_day, year_of_day. destruct (year_yday (local_day t)) as [y yd]. cbn.
  destruct Hs as [Hd Hyd]. pose proof (month_day_spec (isLeap y) yd Hyd) as Hm.
  destruct (month_day_leap _ yd). cbn. lia.
Qed.

Lemma Month_range t : 1 <= Month t <= 12.
Proof.
  unfold Month, YearDay, month_day. rewrite Z.add_simpl_r. unfold Year, yday_of_day, year_of_day.
  pose proof (year_yday_spec (local_day t)) as Hs.
  destruct (year_yday (local_day t)) as [y yd]. cbn. destruct Hs as [_ Hyd].
  pose proof (month_day_spec (isLeap y) yd Hyd) as Hm.
  destruct (month_day_leap _ yd). cbn. lia.
Qed.

Lemma Day_of_month_pos t : 1 <= Day_of_month t.
Proof.
  unfold Day_of_month, YearDay, month_day. rewrite Z.add_simpl_r. unfold Year, yday_of_day, year_of_day.
  pose proof (year_yday_spec (local_day t)) as Hs.
  destruct (year_yday (local_day t)) as [y yd]. cbn. destruct Hs as [_ Hyd].
  pose proof (month_day_spec (isLeap y) yd Hyd) as Hm.
  destruct (month_day_leap _ yd). cbn. lia.
Qed.

(** The local day lies before the first day of the next month. *)
Lemma local_day_month_end t :
  local_day t <
  (if Month t =? 12 then days_before_year (Year t + 1) else day_number (Year t) (Month t + 1) 1).
Proof.
  rewrite days_before_year_succ.
  unfold day_number, Month, YearDay, month_day. rewrite Z.add_simpl_r.
  unfold Year, yday_of_day, year_of_day.
  pose proof (year_yday_spec (local_day t)) as Hs.
  destruct (year_yday (local_day t)) as [y yd]. cbn. destruct Hs as [Hd Hyd].
  pose proof (month_day_spec (isLeap y) yd Hyd) as Hm.
  destruct (month_day_leap _ yd). cbn in *. unfold year_length in *. destruct (_ =? 12); lia.
Qed.

Lemma same_local_day t u :
  Year t = Year u -> Month t = Month u -> Day_of_month t = Day_of_month u ->
  local_day t = local_day u.
Proof. intros H1 H2 H3. rewrite <- !day_number_of_date. congruence. Qed.

Lemma local_day_date t u :
  local_day t = local_day u ->
  Year t = Year u /\ Month t = Month u /\ Day_of_month t = Day_of_month u.
Proof.
  intros H. assert (Hy : Year t = Year u) by (unfold Year; congruence).
  assert (Hd : YearDay t = YearDay u) by (unfold YearDay; congruence).
  unfold Month, Day_of_month. by rewrite Hy, Hd.
Qed.

#[export] Instance FixedZone_year_aligned off : YearAligned (FixedZone off).
Proof.
  intros ns y. unfold year_start. rewrite !Date_fixed_sec.
  unfold Year, local_day, local_sec, Unix, zone_offset, lookup_zone.
  cbn [t_ns t_loc FixedZone loc_first loc_tx lookup_tx fst].
  rewrite year_of_day_spec. unfold secPerDay, nsPerSec, unixToInternalDays.
  generalize (days_before_year y) (days_before_year (y + 1)). intros a b.
  Z.div_mod_to_equations. lia.
Qed.

#[export] Instance UTC_year_aligned : YearAligned UTC := FixedZone_year_aligned 0.

Section year_aligned_facts.
Context {loc : Location} `{!YearAligned loc}.

Lemma Year_bounds ns :
  t_ns (year_start loc (Year (mkTime ns loc))) <= ns
  < t_ns (year_start loc (Year (mkTime ns loc) + 1)).
Proof. by apply year_aligned. Qed.

Lemma Year_unique ns y :
  t_ns (year_start loc y) <= ns < t_ns (year_start loc (y + 1)) -> Year (mkTime ns loc) = y.
Proof. apply year_aligned. Qed.
End year_aligned_facts.

(** [time.Time{}], January 1 of the year 1 *)
Definition zeroTime : Time := Date 1 1 1 0 0 0 0 UTC.
Definition IsZero (t : Time) : bool := t_ns t =? t_ns zeroTime.

(** The clock of a time, and its day of the week: Sunday is 0. *)
Definition clock_sec (t : Time) : Z := local_sec t mod secPerDay.
Definition time_Hour (t : Time) : Z := clock_sec t / 3600.
Definition time_Minute (t : Time) : Z := clock_sec t mod 3600 / 60.
Definition Weekday (t : Time) : Z := (weekday_monday t + 1) mod 7.

Example Date_2017 : t_ns (Date 2017 2 3 4 5 6 0 UTC) = 1486094706 * nsPerSec.
Proof. reflexivity. Qed.
Example Year_2016_end : Year (mkTime (t_ns (Date 2016 12 31 23 59 59 0 UTC)) UTC) = 2016.
Proof. reflexivity. Qed.
Example YearDay_2016_end : YearDay (Date 2016 12 31 23 59 59 0 UTC) = 366.
Proof. reflexivity. Qed.
Example ISOWeek_2018 : ISOWeek (Date 2018 12 31 0 0 0 0 UTC) = (2019, 1).
Proof. reflexivity. Qed.
Example AddDate_feb : AddDate (Date 2016 1 1 0 0 0 0 UTC) 0 0 59 = Date 2016 2 29 0 0 0 0 UTC.
Proof. reflexivity. Qed.
