(* ===== verification/GoStrings.v ===== *)
(** * The part of Go's strings and strconv packages that the code uses *)

From Stdlib Require Export Strings.String Strings.Ascii.
From stdpp Require Export pretty.
From S2P Require Export Prelude.

#[global] Open Scope Z_scope.

Definition is_digit (c : ascii) : bool :=
  let n := Ascii.nat_of_ascii c in (48 <=? n)%nat && (n <=? 57)%nat.
Definition digit_val (c : ascii) : Z := Z.of_nat (Ascii.nat_of_ascii c) - 48.

(** [strings.Contains], [strings.Index] and [strings.Split(s, sep)[0]]. *)
Definition Contains (s sep : string) : bool :=
  match String.index 0 sep s with Some _ => true | None => false end.
Definition strings_Index (s sep : string) : Z :=
  match String.index 0 sep s with Some i => Z.of_nat i | None => -1 end.
Definition split_head (s sep : string) : string :=
  match String.index 0 sep s with Some i => String.substring 0 i s | None => s end.

(** [strings.Split] with a one-character separator. *)
Fixpoint split_char_acc (sep : ascii) (acc s : string) : list string :=
  match s with
  | EmptyString => [acc]
  | String c s' =>
      if decide (c = sep) then acc :: split_char_acc sep "" s'
      else split_char_acc sep (acc +:+ String c "") s'
  end.
Definition Split (s : string) (sep : ascii) : list string := split_char_acc sep "" s.

(** [strings.Join]. *)
Fixpoint Join (parts : list string) (sep : string) : string :=
  match parts with
  | [] => ""
  | [p] => p
  | p :: ps => p +:+ sep +:+ Join ps sep
  end.

(** ASCII case folding: [strings.ToLower] and [strings.EqualFold] on the
    names the code compares. *)
Definition lower_ascii (c : ascii) : ascii :=
  let n := Ascii.nat_of_ascii c in
  if (65 <=? n)%nat && (n <=? 90)%nat then Ascii.ascii_of_nat (n + 32) else c.
Fixpoint ToLower (s : string) : string :=
  match s with EmptyString => "" | String c s' => String (lower_ascii c) (ToLower s') end.
Definition EqualFold (a b : string) : bool := bool_decide (ToLower a = ToLower b).

Fixpoint digits_val (acc : Z) (s : string) : option Z :=
  match s with
  | EmptyString => Some acc
  | String c s' => if is_digit c then digits_val (acc * 10 + digit_val c) s' else None
  end.

(** [strconv.ParseInt(s, 10, bits)]: the value, and nil error or not. *)
Definition ParseInt (s : string) (bits : Z) : Z * bool :=
  let '(neg, body) :=
    match s with
    | String "+" s' => (false, s')
    | String "-" s' => (true, s')
    | _ => (false, s)
    end in
  match body with
  | EmptyString => (0, false)
  | _ =>
      match digits_val 0 body with
      | None => (0, false)
      | Some v =>
          let v := if neg : bool then - v else v in
          if 2 ^ (bits - 1) <=? v then (2 ^ (bits - 1) - 1, false)
          else if v <? - 2 ^ (bits - 1) then (- 2 ^ (bits - 1), false)
          else (v, true)
      end
  end.

(** [strconv.Atoi] and the decimal printing of an integer. *)
Definition Atoi (s : string) : Z * bool := ParseInt s 64.
Definition Itoa (z : Z) : string := pretty z.

Example Split_ex : Split "AAPL/1Min/OHLCV" "/" = ["AAPL"; "1Min"; "OHLCV"].
Proof. reflexivity. Qed.
Example Split_empty : Split "" "/" = [""].
Proof. reflexivity. Qed.
Example ParseInt_ex : ParseInt "-15" 32 = (-15, true).
Proof. reflexivity. Qed.
Example Itoa_ex : Itoa 2017 = "2017".
Proof. reflexivity. Qed.

(** ** Joining back what was split *)

Fixpoint no_char (c : ascii) (s : string) : Prop :=
  match s with EmptyString => True | String d s' => d <> c /\ no_char c s' end.

Lemma string_app_cons c (a b : string) : String c a +:+ b = String c (a +:+ b).
Proof. done. Qed.

Lemma string_app_nil_l (a : string) : "" +:+ a = a.
Proof. done. Qed.

Lemma string_app_nil_r (s : string) : s +:+ "" = s.
Proof. induction s as [|c s IH]; [done|]. rewrite !string_app_cons. by f_equal. Qed.

Lemma string_app_assoc (a b c : string) : a +:+ (b +:+ c) = (a +:+ b) +:+ c.
Proof. induction a as [|d a IH]; [done|]. rewrite !string_app_cons. by f_equal. Qed.

Lemma split_char_acc_app c acc a s :
  no_char c a -> split_char_acc c acc (a +:+ s) = split_char_acc c (acc +:+ a) s.
Proof.
  revert acc. induction a as [|d a IH]; intros acc H.
  - by rewrite string_app_nil_l, string_app_nil_r.
  - destruct H as [Hd Ha]. rewrite string_app_cons. cbn [split_char_acc].
    rewrite decide_False, IH by done. by rewrite <- string_app_assoc.
Qed.

Lemma split_Join c (parts : list string) :
  parts <> [] -> Forall (no_char c) parts -> Split (Join parts (String c "")) c = parts.
Proof.
  intros Hne H. unfold Split. induction H as [|p ps Hp Hps IH]; [done|].
  destruct ps as [|q ps].
  - cbn [Join]. rewrite <- (string_app_nil_r p) at 1.
    by rewrite split_char_acc_app, string_app_nil_l by done.
  - change (Join (p :: q :: ps) (String c "")) with (p +:+ String c (Join (q :: ps) (String c ""))).
    rewrite split_char_acc_app by done. rewrite string_app_nil_l. cbn [split_char_acc].
    destruct (decide (c = c)); [|done]. f_equal. by apply IH.
Qed.

Lemma no_char_app c a b : no_char c (a +:+ b) <-> no_char c a /\ no_char c b.
Proof.
  induction a as [|d a IH]; [rewrite string_app_nil_l; cbn; tauto|].
  rewrite string_app_cons. cbn. rewrite IH. tauto.
Qed.

Lemma no_char_Join c ps sep : Forall (no_char c) ps -> no_char c sep -> no_char c (Join ps sep).
Proof.
  intros H Hs. induction H as [|p ps Hp H IH]; [done|]. destruct ps; [done|].
  change (Join (p :: s :: ps) sep) with (p +:+ sep +:+ Join (s :: ps) sep). rewrite !no_char_app. done.
Qed.

(** ** Decimal numbers in front of a suffix *)

Fixpoint all_digits (s : string) : Prop :=
  match s with EmptyString => True | String c s' => is_digit c = true /\ all_digits s' end.

Lemma is_digit_char n : is_digit (pretty_N_char n) = true.
Proof. unfold pretty_N_char. by repeat case_match. Qed.

Lemma digit_val_char n : (n < 10)%N -> digit_val (pretty_N_char n) = Z.of_N n.
Proof.
  intros H. assert (n = 0 ∨ n = 1 ∨ n = 2 ∨ n = 3 ∨ n = 4 ∨ n = 5 ∨ n = 6
    ∨ n = 7 ∨ n = 8 ∨ n = 9)%N as Hn by lia.
  repeat destruct Hn as [->|Hn]; try reflexivity. by subst.
Qed.

Lemma pretty_N_go_digits n s :
  all_digits s -> all_digits (pretty_N_go n s).
Proof.
  revert s. induction (N.lt_wf_0 n) as [n _ IH]. intros s Hs.
  destruct (decide (n = 0)%N) as [->|Hn]; [by rewrite pretty_N_go_0|].
  rewrite pretty_N_go_step by lia. apply IH; [apply N.div_lt; lia|].
  split; [apply is_digit_char|done].
Qed.

Lemma digits_val_go n s : digits_val 0 (pretty_N_go n s) = digits_val (Z.of_N n) s.
Proof.
  revert s. induction (N.lt_wf_0 n) as [n _ IH]. intros s.
  destruct (decide (n = 0)%N) as [->|Hn]; [by rewrite pretty_N_go_0|].
  rewrite pretty_N_go_step by lia. rewrite IH by (apply N.div_lt; lia).
  cbn [digits_val]. rewrite is_digit_char, digit_val_char by (apply N.mod_lt; lia).
  f_equal. rewrite N2Z.inj_div, N2Z.inj_mod. pose proof (Z.div_mod (Z.of_N n) 10). lia.
Qed.

Lemma Itoa_pos_go z : 0 < z -> Itoa z = pretty_N_go (Z.to_N z) "".
Proof.
  intros Hz. destruct z as [|p|p]; try lia.
  unfold Itoa, pretty, pretty_Z, pretty, pretty_positive, pretty, pretty_N.
  by rewrite decide_False by done.
Qed.

Lemma Itoa_digits z : 0 < z -> all_digits (Itoa z).
Proof. intros Hz. rewrite Itoa_pos_go by done. by apply pretty_N_go_digits. Qed.

(** Parsing the printed form of a positive number gives it back. *)
Lemma ParseInt_Itoa z bits :
  0 < z < 2 ^ (bits - 1) -> ParseInt (Itoa z) bits = (z, true).
Proof.
  intros Hz. pose proof (Itoa_digits z ltac:(lia)) as Hd.
  assert (Hv : digits_val 0 (Itoa z) = Some z).
  { rewrite Itoa_pos_go, digits_val_go by lia. cbn. f_equal. lia. }
  unfold ParseInt. destruct (Itoa z) as [|c s] eqn:Hs; [injection Hv; lia|].
  assert (Hsign : forall (X : Type) (a b d : X),
    match c with "+"%char => a | "-"%char => b | _ => d end = d).
  { intros. destruct Hd as [Hc _]. destruct c as [[] [] [] [] [] [] [] []]; try done. }
  rewrite (Hsign (bool * string)%type).
  rewrite Hv. destruct (_ <=? z) eqn:H1; [apply Z.leb_le in H1; lia|].
  destruct (z <? _) eqn:H2; [apply Z.ltb_lt in H2; lia|done].
Qed.

Lemma index_digits ds a sep u :
  all_digits ds -> is_digit a = false ->
  String.index 0 (String a sep) (ds +:+ u) =
  (fun i => String.length ds + i)%nat <$> String.index 0 (String a sep) u.
Proof.
  intros Hds Ha. induction ds as [|c ds IH].
  - rewrite string_app_nil_l. by destruct (String.index _ _ u).
  - destruct Hds as [Hc Hds]. rewrite string_app_cons. cbn [String.index String.prefix].
    destruct (ascii_dec a c) as [->|_]; [congruence|].
    rewrite IH by done. by destruct (String.index 0 (String a sep) u).
Qed.

Lemma substring_app_l a b : String.substring 0 (String.length a) (a +:+ b) = a.
Proof.
  induction a as [|c a IH].
  - rewrite string_app_nil_l. by destruct b.
  - rewrite string_app_cons. cbn. by rewrite IH.
Qed.

Lemma Contains_digits ds a sep u :
  all_digits ds -> is_digit a = false ->
  Contains (ds +:+ u) (String a sep) = Contains u (String a sep).
Proof.
  intros. unfold Contains. rewrite index_digits by done.
  by destruct (String.index 0 (String a sep) u).
Qed.

Lemma split_head_digits ds a sep u :
  all_digits ds -> is_digit a = false -> String.index 0 (String a sep) u = Some 0%nat ->
  split_head (ds +:+ u) (String a sep) = ds.
Proof.
  intros ? ? Hu. unfold split_head. rewrite index_digits, Hu by done. cbn.
  rewrite Nat.add_0_r. apply substring_app_l.
Qed.
