(* ===== verification/Calendar.v ===== *)
(** * The market calendar (contrib/calendar/calendar.go, nasdaq.go)

    The days a market is closed or closes early, and whether it is open at an
    instant.  The calendar is written as a JSON string; its fields as
    [json.Unmarshal] finds them are the record [calendarJson]. *)

From S2P Require Export GoTime GoStrings.

#[local] Open Scope string_scope.

Inductive MarketState := Closed | EarlyClose.

#[export] Instance MarketState_eq_dec : EqDecision MarketState.
Proof. solve_decision. Defined.

(** [calendar.Time] *)
Record clock := mkClock { hour : Z; minute : Z; second : Z }.

Record Calendar := mkCalendar {
  days : gmap Z MarketState;
  cal_tz : option Location;   (** nil when the zone is not known *)
  openTime : clock;
  closeTime : clock;
  earlyCloseTime : clock;
}.

Record calendarJson := mkCalendarJson {
  NonTradingDays : list string;
  EarlyCloses : list string;
  Timezone : string;
  OpenTime : string;
  CloseTime : string;
  EarlyCloseTime : string;
}.

(** ** Days *)

(** The Julian day number of the date. *)
Definition jd (t : Time) : Z :=
  let '(i, j, k) := (Year t, Month t, Day_of_month t) in
  k - 32075 +
  Z.quot (1461 * (i + 4800 + Z.quot (j - 14) 12)) 4 +
  Z.quot (367 * (j - 2 - Z.quot (j - 14) 12 * 12)) 12 -
  Z.quot (3 * Z.quot (i + 4900 + Z.quot (j - 14) 12) 100) 4.

Definition weekend (t : Time) : bool := (Weekday t =? 6)%Z || (Weekday t =? 0)%Z.

Definition ParseTime (tstr : string) : outcome clock :=
  match Split tstr ":" with
  | h :: m :: s :: _ => Ret (mkClock (fst (Atoi h)) (fst (Atoi m)) (fst (Atoi s)))
  | _ => Panic "index out of range"
  end.

(** [time.Parse("2006-01-02", s)]; the zero time when [s] is no date. *)
Definition two_digits (a b : ascii) : option Z :=
  if is_digit a && is_digit b then Some (10 * digit_val a + digit_val b)%Z else None.
Definition parse_date (s : string) : Time :=
  let zero := Date 1 1 1 0 0 0 0 UTC in
  match String.list_ascii_of_string s with
  | [y1; y2; y3; y4; d1; m1; m2; d2; k1; k2] =>
      if Ascii.eqb d1 "-" && Ascii.eqb d2 "-" then
        match two_digits y1 y2, two_digits y3 y4, two_digits m1 m2, two_digits k1 k2 with
        | Some y, Some y', Some m, Some d =>
            let t := Date (100 * y + y') m d 0 0 0 0 UTC in
            (* a day the month does not have would run over into another *)
            if (1 <=? m)%Z && (m <=? 12)%Z && (1 <=? d)%Z && (Month t =? m)%Z then t else zero
        | _, _, _, _ => zero
        end
      else zero
  | _ => zero
  end.

Definition mark_days (state : MarketState) (dates : list string) (m : gmap Z MarketState) : gmap Z MarketState :=
  foldl (fun m date => <[jd (parse_date date) := state]> m) m dates.

(** [LoadLocation] is the zone database of the host. *)
Definition New (LoadLocation : string -> option Location) (cmap : calendarJson) : outcome Calendar :=
  let days := mark_days EarlyClose (EarlyCloses cmap) (mark_days Closed (NonTradingDays cmap) ∅) in
  let! open := ParseTime (OpenTime cmap) in
  let! close := ParseTime (CloseTime cmap) in
  let! early := ParseTime (EarlyCloseTime cmap) in
  Ret (mkCalendar days (LoadLocation (Timezone cmap)) open close early).

(** ** Questions *)

Definition IsMarketDay (calendar : Calendar) (t : Time) : bool :=
  if weekend t then false
  else match days calendar !! jd t with
       | Some state => negb (bool_decide (state = Closed))
       | None => true
       end.

(** A time of the day of [t]. *)
Definition day_clock (calendar : Calendar) (t : Time) (c : clock) : outcome Time :=
  match cal_tz calendar with
  | None => Panic "time: missing Location in call to Date"
  | Some tz => Ret (Date (Year t) (Month t) (Day_of_month t) (hour c) (minute c) (second c) 0 tz)
  end.

Definition time_Equal (t u : Time) : bool := (t_ns t =? t_ns u)%Z.

Definition IsMarketOpen (calendar : Calendar) (t : Time) : outcome bool :=
  if weekend t then Ret false
  else
    let! open := day_clock calendar t (openTime calendar) in
    match days calendar !! jd t with
    | Some EarlyClose =>
        let! close := day_clock calendar t (earlyCloseTime calendar) in
        Ret (negb (time_Before t open || time_Equal t close || time_After t close))
    | Some Closed => Ret false
    | None =>
        let! close := day_clock calendar t (closeTime calendar) in
        Ret (negb (time_Before t open || time_Equal t close || time_After t close))
    end.

Definition EpochIsMarketOpen (calendar : Calendar) (epoch : Z) : outcome bool :=
  match cal_tz calendar with
  | None => Panic "time: missing Location in call to Time.In"
  | Some tz => IsMarketOpen calendar (time_Unix epoch 0 tz)
  end.

(** The time found is dropped: the function ends in [return nil]. *)
Definition MarketClose (calendar : Calendar) (t : Time) : outcome (option Time) :=
  match days calendar !! jd t with
  | Some EarlyClose =>
      let! earlyClose := day_clock calendar t (earlyCloseTime calendar) in
      let mktClose := Some earlyClose in
      Ret None
  | Some Closed => Ret None
  | None => Ret None
  end.

Definition EpochMarketClose (calendar : Calendar) (epoch : Z) : outcome (option Time) :=
  match cal_tz calendar with
  | None => Panic "time: missing Location in call to Time.In"
  | Some tz => MarketClose calendar (time_Unix epoch 0 tz)
  end.

Definition Tz (calendar : Calendar) : option Location := cal_tz calendar.

(** ** The NASDAQ *)

Definition nasdaq_non_trading_days : list string := [
    "1970-01-01"; "1970-02-16"; "1970-03-27"; "1970-05-25"; "1970-07-03"; "1970-09-07"; "1970-11-26";
    "1970-12-25"; "1971-01-01"; "1971-02-15"; "1971-04-09"; "1971-05-31"; "1971-07-05"; "1971-09-06";
    "1971-11-25"; "1971-12-24"; "1972-02-21"; "1972-03-31"; "1972-05-29"; "1972-07-04"; "1972-09-04";
    "1972-11-23"; "1972-12-25"; "1973-01-01"; "1973-02-19"; "1973-04-20"; "1973-05-28"; "1973-07-04";
    "1973-09-03"; "1973-11-22"; "1973-12-25"; "1974-01-01"; "1974-02-18"; "1974-04-12"; "1974-05-27";
    "1974-07-04"; "1974-09-02"; "1974-11-28"; "1974-12-25"; "1975-01-01"; "1975-02-17"; "1975-03-28";
    "1975-05-26"; "1975-07-04"; "1975-09-01"; "1975-11-27"; "1975-12-25"; "1976-01-01"; "1976-02-16";
    "1976-04-16"; "1976-05-31"; "1976-07-05"; "1976-09-06"; "1976-11-25"; "1976-12-24"; "1977-02-21";
    "1977-04-08"; "1977-05-30"; "1977-07-04"; "1977-09-05"; "1977-11-24"; "1977-12-26"; "1978-01-02";
    "1978-02-20"; "1978-03-24"; "1978-05-29"; "1978-07-04"; "1978-09-04"; "1978-11-23"; "1978-12-25";
    "1979-01-01"; "1979-02-19"; "1979-04-13"; "1979-05-28"; "1979-07-04"; "1979-09-03"; "1979-11-22";
    "1979-12-25"; "1980-01-01"; "1980-02-18"; "1980-04-04"; "1980-05-26"; "1980-07-04"; "1980-09-01";
    "1980-11-27"; "1980-12-25"; "1981-01-01"; "1981-02-16"; "1981-04-17"; "1981-05-25"; "1981-07-03";
    "1981-09-07"; "1981-11-26"; "1981-12-25"; "1982-01-01"; "1982-02-15"; "1982-04-09"; "1982-05-31";
    "1982-07-05"; "1982-09-06"; "1982-11-25"; "1982-12-24"; "1983-02-21"; "1983-04-01"; "1983-05-30";
    "1983-07-04"; "1983-09-05"; "1983-11-24"; "1983-12-26"; "1984-01-02"; "1984-02-20"; "1984-04-20";
    "1984-05-28"; "1984-07-04"; "1984-09-03"; "1984-11-22"; "1984-12-25"; "1985-01-01"; "1985-02-18";
    "1985-04-05"; "1985-05-27"; "1985-07-04"; "1985-09-02"; "1985-11-28"; "1985-12-25"; "1986-01-01";
    "1986-02-17"; "1986-03-28"; "1986-05-26"; "1986-07-04"; "1986-09-01"; "1986-11-27"; "1986-12-25";
    "1987-01-01"; "1987-02-16"; "1987-04-17"; "1987-05-25"; "1987-07-03"; "1987-09-07"; "1987-11-26";
    "1987-12-25"; "1988-01-01"; "1988-02-15"; "1988-04-01"; "1988-05-30"; "1988-07-04"; "1988-09-05";
    "1988-11-24"; "1988-12-26"; "1989-01-02"; "1989-02-20"; "1989-03-24"; "1989-05-29"; "1989-07-04";
    "1989-09-04"; "1989-11-23"; "1989-12-25"; "1990-01-01"; "1990-02-19"; "1990-04-13"; "1990-05-28";
    "1990-07-04"; "1990-09-03"; "1990-11-22"; "1990-12-25"; "1991-01-01"; "1991-02-18"; "1991-03-29";
    "1991-05-27"; "1991-07-04"; "1991-09-02"; "1991-11-28"; "1991-12-25"; "1992-01-01"; "1992-02-17";
    "1992-04-17"; "1992-05-25"; "1992-07-03"; "1992-09-07"; "1992-11-26"; "1992-12-25"; "1993-01-01";
    "1993-02-15"; "1993-04-09"; "1993-05-31"; "1993-07-05"; "1993-09-06"; "1993-11-25"; "1993-12-24";
    "1994-02-21"; "1994-04-01"; "1994-04-27"; "1994-05-30"; "1994-07-04"; "1994-09-05"; "1994-11-24";
    "1994-12-26"; "1995-01-02"; "1995-02-20"; "1995-04-14"; "1995-05-29"; "1995-07-04"; "1995-09-04";
    "1995-11-23"; "1995-12-25"; "1996-01-01"; "1996-02-19"; "1996-04-05"; "1996-05-27"; "1996-07-04";
    "1996-09-02"; "1996-11-28"; "1996-12-25"; "1997-01-01"; "1997-02-17"; "1997-03-28"; "1997-05-26";
    "1997-07-04"; "1997-09-01"; "1997-11-27"; "1997-12-25"; "1998-01-01"; "1998-01-19"; "1998-02-16";
    "1998-04-10"; "1998-05-25"; "1998-07-03"; "1998-09-07"; "1998-11-26"; "1998-12-25"; "1999-01-01";
    "1999-01-18"; "1999-02-15"; "1999-04-02"; "1999-05-31"; "1999-07-05"; "1999-09-06"; "1999-11-25";
    "1999-12-24"; "2000-01-17"; "2000-02-21"; "2000-04-21"; "2000-05-29"; "2000-07-04"; "2000-09-04";
    "2000-11-23"; "2000-12-25"; "2001-01-01"; "2001-01-15"; "2001-02-19"; "2001-04-13"; "2001-05-28";
    "2001-07-04"; "2001-09-03"; "2001-09-11"; "2001-09-12"; "2001-09-13"; "2001-09-14"; "2001-11-22";
    "2001-12-25"; "2002-01-01"; "2002-01-21"; "2002-02-18"; "2002-03-29"; "2002-05-27"; "2002-07-04";
    "2002-09-02"; "2002-11-28"; "2002-12-25"; "2003-01-01"; "2003-01-20"; "2003-02-17"; "2003-04-18";
    "2003-05-26"; "2003-07-04"; "2003-09-01"; "2003-11-27"; "2003-12-25"; "2004-01-01"; "2004-01-19";
    "2004-02-16"; "2004-04-09"; "2004-05-31"; "2004-06-11"; "2004-07-05"; "2004-09-06"; "2004-11-25";
    "2004-12-24"; "2005-01-17"; "2005-02-21"; "2005-03-25"; "2005-05-30"; "2005-07-04"; "2005-09-05";
    "2005-11-24"; "2005-12-26"; "2006-01-02"; "2006-01-16"; "2006-02-20"; "2006-04-14"; "2006-05-29";
    "2006-07-04"; "2006-09-04"; "2006-11-23"; "2006-12-25"; "2007-01-01"; "2007-01-02"; "2007-01-15";
    "2007-02-19"; "2007-04-06"; "2007-05-28"; "2007-07-04"; "2007-09-03"; "2007-11-22"; "2007-12-25";
    "2008-01-01"; "2008-01-21"; "2008-02-18"; "2008-03-21"; "2008-05-26"; "2008-07-04"; "2008-09-01";
    "2008-11-27"; "2008-12-25"; "2009-01-01"; "2009-01-19"; "2009-02-16"; "2009-04-10"; "2009-05-25";
    "2009-07-03"; "2009-09-07"; "2009-11-26"; "2009-12-25"; "2010-01-01"; "2010-01-18"; "2010-02-15";
    "2010-04-02"; "2010-05-31"; "2010-07-05"; "2010-09-06"; "2010-11-25"; "2010-12-24"; "2011-01-17";
    "2011-02-21"; "2011-04-22"; "2011-05-30"; "2011-07-04"; "2011-09-05"; "2011-11-24"; "2011-12-26";
    "2012-01-02"; "2012-01-16"; "2012-02-20"; "2012-04-06"; "2012-05-28"; "2012-07-04"; "2012-09-03";
    "2012-10-29"; "2012-10-30"; "2012-11-22"; "2012-12-25"; "2013-01-01"; "2013-01-21"; "2013-02-18";
    "2013-03-29"; "2013-05-27"; "2013-07-04"; "2013-09-02"; "2013-11-28"; "2013-12-25"; "2014-01-01";
    "2014-01-20"; "2014-02-17"; "2014-04-18"; "2014-05-26"; "2014-07-04"; "2014-09-01"; "2014-11-27";
    "2014-12-25"; "2015-01-01"; "2015-01-19"; "2015-02-16"; "2015-04-03"; "2015-05-25"; "2015-07-03";
    "2015-09-07"; "2015-11-26"; "2015-12-25"; "2016-01-01"; "2016-01-18"; "2016-02-15"; "2016-03-25";
    "2016-05-30"; "2016-07-04"; "2016-09-05"; "2016-11-24"; "2016-12-26"; "2017-01-02"; "2017-01-16";
    "2017-02-20"; "2017-04-14"; "2017-05-29"; "2017-07-04"; "2017-09-04"; "2017-11-23"; "2017-12-25";
    "2018-01-01"; "2018-01-15"; "2018-02-19"; "2018-03-30"; "2018-05-28"; "2018-07-04"; "2018-09-03";
    "2018-11-22"; "2018-12-05"; "2018-12-25"; "2019-01-01"; "2019-01-21"; "2019-02-18"; "2019-04-19";
    "2019-05-27"; "2019-07-04"; "2019-09-02"; "2019-11-28"; "2019-12-25"; "2020-01-01"; "2020-01-20";
    "2020-02-17"; "2020-04-10"; "2020-05-25"; "2020-07-03"; "2020-09-07"; "2020-11-26"; "2020-12-25";
    "2021-01-01"; "2021-01-18"; "2021-02-15"; "2021-04-02"; "2021-05-31"; "2021-07-05"; "2021-09-06";
    "2021-11-25"; "2021-12-24"; "2022-01-17"; "2022-02-21"; "2022-04-15"; "2022-05-30"; "2022-07-04";
    "2022-09-05"; "2022-11-24"; "2022-12-26"; "2023-01-02"; "2023-01-16"; "2023-02-20"; "2023-04-07";
    "2023-05-29"; "2023-07-04"; "2023-09-04"; "2023-11-23"; "2023-12-25"; "2024-01-01"; "2024-01-15";
    "2024-02-19"; "2024-03-29"; "2024-05-27"; "2024-07-04"; "2024-09-02"; "2024-11-28"; "2024-12-25";
    "2025-01-01"; "2025-01-20"; "2025-02-17"; "2025-04-18"; "2025-05-26"; "2025-07-04"; "2025-09-01";
    "2025-11-27"; "2025-12-25"; "2026-01-01"; "2026-01-19"; "2026-02-16"; "2026-04-03"; "2026-05-25";
    "2026-07-03"; "2026-09-07"; "2026-11-26"; "2026-12-25"; "2027-01-01"; "2027-01-18"; "2027-02-15";
    "2027-03-26"; "2027-05-31"; "2027-07-05"; "2027-09-06"; "2027-11-25"; "2027-12-24"; "2028-01-17";
    "2028-02-21"; "2028-04-14"; "2028-05-29"; "2028-07-04"; "2028-09-04"; "2028-11-23"; "2028-12-25";
    "2029-01-01"; "2029-01-15"; "2029-02-19"; "2029-03-30"; "2029-05-28"; "2029-07-04"; "2029-09-03";
    "2029-11-22"; "2029-12-25"; "2030-01-01"].

Definition nasdaq_early_closes : list string := [
    "1993-11-26"; "1994-11-25"; "1995-07-03"; "1995-11-24"; "1996-07-05"; "1996-11-29"; "1996-12-24";
    "1997-07-03"; "1997-11-28"; "1997-12-24"; "1997-12-26"; "1998-11-27"; "1998-12-24"; "1999-11-26";
    "1999-12-31"; "2000-07-03"; "2000-11-24"; "2001-07-03"; "2001-11-23"; "2001-12-24"; "2002-07-05";
    "2002-11-29"; "2002-12-24"; "2003-07-03"; "2003-11-28"; "2003-12-24"; "2003-12-26"; "2004-11-26";
    "2005-11-25"; "2006-07-03"; "2006-11-24"; "2007-07-03"; "2007-11-23"; "2007-12-24"; "2008-07-03";
    "2008-11-28"; "2008-12-24"; "2009-11-27"; "2009-12-24"; "2010-11-26"; "2011-11-25"; "2012-07-03";
    "2012-11-23"; "2012-12-24"; "2013-07-03"; "2013-11-29"; "2013-12-24"; "2014-07-03"; "2014-11-28";
    "2014-12-24"; "2015-11-27"; "2015-12-24"; "2016-11-25"; "2017-07-03"; "2017-11-24"; "2018-07-03";
    "2018-11-23"; "2018-12-24"; "2019-07-03"; "2019-11-29"; "2019-12-24"; "2020-11-27"; "2020-12-24";
    "2021-11-26"; "2022-11-25"; "2023-07-03"; "2023-11-24"; "2024-07-03"; "2024-11-29"; "2024-12-24";
    "2025-07-03"; "2025-11-28"; "2025-12-24"; "2026-11-27"; "2026-12-24"; "2027-11-26"; "2028-07-03";
    "2028-11-24"; "2029-07-03"; "2029-11-23"; "2029-12-24"].

Definition NasdaqJson : calendarJson :=
  mkCalendarJson nasdaq_non_trading_days nasdaq_early_closes "America/New_York" "09:30:00" "16:00:00" "13:00:00".

Definition Nasdaq (LoadLocation : string -> option Location) : outcome Calendar := New LoadLocation NasdaqJson.

(** ** The day numbers *)

#[local] Open Scope Z_scope.

Lemma Month_cases t :
  Month t = 1 \/ Month t = 2 \/ Month t = 3 \/ Month t = 4 \/ Month t = 5 \/ Month t = 6 \/
  Month t = 7 \/ Month t = 8 \/ Month t = 9 \/ Month t = 10 \/ Month t = 11 \/ Month t = 12.
Proof. pose proof (Month_range t). lia. Qed.

Lemma quot_div a b : 0 <= a -> 0 < b -> Z.quot a b = a / b.
Proof. intros Ha Hb. by apply Z.quot_div_nonneg. Qed.

(** The years' part of [jd], counted from March. *)
Lemma jd_years y :
  -4800 <= y ->
  Z.quot (1461 * (y + 4800)) 4 - Z.quot (3 * Z.quot (y + 4900) 100) 4 =
  days_before_year (y + 1) + 1753164.
Proof.
  intros Hy. rewrite (quot_div (y + 4900)), !quot_div by (try lia; apply Z.mul_nonneg_nonneg; try lia; apply Z.div_pos; lia).
  unfold days_before_year. rewrite Z.add_simpl_r.
  replace (y / 400) with (y / 100 / 4) by (rewrite Z.div_div by lia; done).
  Z.div_mod_to_equations. lia.
Qed.

Lemma leap_days y : (if isLeap y then 1 else 0) = days_before_year (y + 1) - days_before_year y - 365.
Proof. rewrite days_before_year_succ. unfold year_length. destruct (isLeap y); lia. Qed.

(** Evaluates the parts of [jd] that depend on the month alone. *)
Ltac eval_month :=
  repeat match goal with
  | |- context [Z.quot (?m - 14) 12] =>
      let a := eval vm_compute in (Z.quot (m - 14) 12) in change (Z.quot (m - 14) 12) with a
  | |- context [Z.quot (367 * ?x) 12] =>
      let a := eval vm_compute in (Z.quot (367 * x) 12) in change (Z.quot (367 * x) 12) with a
  | |- context [days_before ?m] =>
      let a := eval vm_compute in (days_before m) in change (days_before m) with a
  | |- context [3 <=? ?m] => let a := eval vm_compute in (3 <=? m) in change (3 <=? m) with a
  end; rewrite ?andb_true_r, ?andb_false_r, ?Z.add_0_r.

(** [jd] numbers the days one by one. *)
Lemma jd_local_day t : -4799 <= Year t -> jd t = local_day t + 1721426.
Proof.
  intros Hy. rewrite <- day_number_of_date. unfold jd, day_number, month_start.
  generalize dependent (Year t). intros y Hy. generalize (Day_of_month t). intros d.
  pose proof (jd_years y ltac:(lia)) as H0. pose proof (jd_years (y - 1) ltac:(lia)) as H1.
  pose proof (leap_days y) as Hl.
  replace (y - 1 + 4800) with (y + 4800 + -1) in H1 by lia.
  replace (y - 1 + 4900) with (y + 4900 + -1) in H1 by lia. rewrite Z.sub_add in H1.
  destruct (Month_cases t) as [-> |[-> |[-> |[-> |[-> |[-> |[-> |[-> |[-> |[-> |[-> | ->]]]]]]]]]]];
    eval_month; lia.
Qed.

(** *** Hours *)

Section hours.
Context (off : Z).
Abbreviation zone := (FixedZone off).

(** The nanoseconds of the day that have passed. *)
Definition day_ns (t : Time) : Z := (local_sec t) mod secPerDay * nsPerSec + t_ns t mod nsPerSec.
Definition clock_ns (c : clock) : Z := (hour c * 3600 + minute c * 60 + second c) * nsPerSec.

Lemma day_clock_fixed cal t c :
  cal_tz cal = Some zone -> t_loc t = zone ->
  exists u, day_clock cal t c = Ret u /\ t_ns u - clock_ns c = t_ns t - day_ns t.
Proof.
  intros Htz Ht. unfold day_clock. rewrite Htz. eexists. split; [reflexivity|].
  unfold Date. rewrite lookup_fixed, !zone_offset_fixed. cbn [t_ns].
  pose proof (Month_range t) as Hm. rewrite (Z.div_small (Month t - 1)), (Z.mod_small (Month t - 1)) by lia.
  rewrite !Z.add_0_r, Z.sub_add. change (0 / nsPerSec) with 0. change (0 mod nsPerSec) with 0.
  assert (Ho : forall u, (if off =? 0 then 0 else if u <? alpha then off
                else if omega <=? u then off else off) = off).
  { intros u. destruct (off =? 0) eqn:Ho; [by apply Z.eqb_eq in Ho|]. by destruct (u <? alpha), (omega <=? u). }
  rewrite Ho. pose proof (day_number_of_date t) as Hd. rewrite day_number_of_month in Hd.
  unfold day_ns, clock_ns, local_day, local_sec, Unix in *. rewrite Ht, zone_offset_fixed in *.
  set (D := day_number _ _ 1) in *. clearbody D. set (S := t_ns t / nsPerSec + off) in *.
  pose proof (Z.div_mod (t_ns t) nsPerSec ltac:(done)). pose proof (Z.div_mod S secPerDay ltac:(done)).
  unfold nsPerSec, secPerDay, unixToInternalDays in *. lia.
Qed.

(** When the market is open. On a weekend and on a day that is listed as
    closed never; on a day that closes early from the opening time to the early
    close, and on every other day from the opening time to the close; the
    opening time is included and the close is not. *)
Lemma IsMarketOpen_hours (cal : Calendar) (t : Time) :
  cal_tz cal = Some zone -> t_loc t = zone -> -4799 <= Year t ->
  let during c := (clock_ns (openTime cal) <=? day_ns t) && (day_ns t <? clock_ns c) in
  IsMarketOpen cal t = Ret (negb (weekend t) &&
    match days cal !! (local_day t + 1721426) with
    | Some Closed => false
    | Some EarlyClose => during (earlyCloseTime cal)
    | None => during (closeTime cal)
    end).
Proof.
  intros Htz Ht Hy during. unfold IsMarketOpen. destruct (weekend t); [done|].
  destruct (day_clock_fixed cal t (openTime cal) Htz Ht) as (o & -> & Ho). cbn [outcome_bind negb andb].
  rewrite jd_local_day by done.
  assert (Hclose : forall c u, t_ns u - clock_ns c = t_ns t - day_ns t ->
    negb (time_Before t o || time_Equal t u || time_After t u) = during c).
  { intros c u Hu. unfold during, time_Before, time_Equal, time_After. apply eq_bool_prop_intro.
    rewrite andb_True, negb_True, !orb_True, !Is_true_true, !Z.ltb_lt, Z.leb_le, Z.eqb_eq. lia. }
  destruct (days cal !! _) as [[|]|]; [done| |].
  - destruct (day_clock_fixed cal t (earlyCloseTime cal) Htz Ht) as (u & -> & Hu). cbn [outcome_bind].
    by rewrite (Hclose _ _ Hu).
  - destruct (day_clock_fixed cal t (closeTime cal) Htz Ht) as (u & -> & Hu). cbn [outcome_bind].
    by rewrite (Hclose _ _ Hu).
Qed.
End hours.

(** The time of the close is never given: the function finds it and returns
    nil, on a day that closes early as on any other. *)
Lemma MarketClose_nil (cal : Calendar) (t : Time) (tz : Location) :
  cal_tz cal = Some tz -> MarketClose cal t = Ret None.
Proof.
  intros Htz. unfold MarketClose, day_clock. rewrite Htz. by destruct (days cal !! _) as [[|]|].
Qed.

(** ** The NASDAQ in the winter of 2018 *)

(** New York without the changes of its clocks. *)
Definition winter : Location := FixedZone (-18000).
Definition nasdaq : Calendar :=
  match Nasdaq (fun name => if decide (name = "America/New_York"%string) then Some winter else None) with
  | Ret cal => cal
  | _ => mkCalendar ∅ None (mkClock 0 0 0) (mkClock 0 0 0) (mkClock 0 0 0)
  end.

(** Martin Luther King day, a Sunday, and the day after Thanksgiving. *)
Example nasdaq_days :
  (IsMarketOpen nasdaq (Date 2018 1 15 11 0 0 0 winter), IsMarketOpen nasdaq (Date 2017 1 1 11 0 0 0 winter),
   IsMarketOpen nasdaq (Date 2018 11 23 12 59 59 0 winter), IsMarketOpen nasdaq (Date 2018 11 23 13 0 0 0 winter),
   EpochIsMarketOpen nasdaq (Unix (Date 2018 1 16 9 30 0 0 winter)), IsMarketDay nasdaq (Date 2018 11 23 0 0 0 0 winter)) =
  (Ret false, Ret false, Ret true, Ret false, Ret true, true).
Proof. vm_compute. reflexivity. Qed.

Lemma IsMarketOpen_hours_witness :
  let t := Date 2018 11 23 12 59 59 0 winter in
  let during c := (clock_ns (openTime nasdaq) <=? day_ns t) && (day_ns t <? clock_ns c) in
  IsMarketOpen nasdaq t = Ret (negb (weekend t) &&
    match days nasdaq !! (local_day t + 1721426) with
    | Some Closed => false
    | Some EarlyClose => during (earlyCloseTime nasdaq)
    | None => during (closeTime nasdaq)
    end).
Proof.
  apply (IsMarketOpen_hours (-18000)); [vm_compute; reflexivity|reflexivity|].
  intros H. vm_compute in H. discriminate H.
Defined.

Lemma MarketClose_nil_witness : MarketClose nasdaq (Date 2018 11 23 12 0 0 0 winter) = Ret None.
Proof. apply (MarketClose_nil nasdaq _ winter). vm_compute. reflexivity. Defined.
