(* ===== verification/Timeframe.v ===== *)
(** * Timeframes and candle durations (utils/timeframe.go) *)

From S2P Require Export GoTime GoStrings.

(** ** Durations in nanoseconds *)

Definition Second : Z := 1000000000.
Definition Minute : Z := 60 * Second.
Definition Hour : Z := 60 * Minute.
Definition Day : Z := 24 * Hour.
Definition Week : Z := 7 * Day.
Definition YearDuration : Z := 365 * Day.

Record Timeframe := mkTimeframe { tf_String : string; tf_Duration : Z }.

#[export] Instance Timeframe_eq_dec : EqDecision Timeframe.
Proof. solve_decision. Defined.

Definition timeframeDefs : list Timeframe :=
  [ mkTimeframe "S" Second; mkTimeframe "Sec" Second;
    mkTimeframe "T" Minute; mkTimeframe "Min" Minute;
    mkTimeframe "H" Hour; mkTimeframe "D" Day;
    mkTimeframe "W" Week; mkTimeframe "Y" YearDuration ].

Definition Timeframes : list Timeframe :=
  [ mkTimeframe "1Sec" Second; mkTimeframe "10Sec" (10 * Second);
    mkTimeframe "30Sec" (30 * Second); mkTimeframe "1Min" Minute;
    mkTimeframe "5Min" (5 * Minute); mkTimeframe "15Min" (15 * Minute);
    mkTimeframe "30Min" (30 * Minute); mkTimeframe "1H" Hour;
    mkTimeframe "4H" (4 * Hour); mkTimeframe "2H" (2 * Hour);
    mkTimeframe "1D" Day ].

Definition PeriodsPerDay (tf : Timeframe) : outcome Z :=
  if tf_Duration tf =? 0 then Panic "integer divide by zero"
  else Ret (Z.quot Day (tf_Duration tf)).

(** The first definition whose name occurs in the string decides: what stands
    before the name is parsed as the multiplier. *)
Fixpoint TimeframeFromString_loop (defs : list Timeframe) (tf : string) : option Timeframe :=
  match defs with
  | [] => None
  | def :: defs' =>
      if Contains tf (tf_String def) then
        let '(t, ok) := ParseInt (split_head tf (tf_String def)) 32 in
        if negb ok || (t <=? 0) then None
        else Some (mkTimeframe tf (int64 (tf_Duration def * t)))
      else TimeframeFromString_loop defs' tf
  end.
Definition TimeframeFromString (tf : string) : option Timeframe :=
  TimeframeFromString_loop timeframeDefs tf.

Fixpoint TimeframeFromDuration_loop
    (defs : list Timeframe) (lowerDur : Z) (lowerStr : string) (tf : Z) : option Timeframe :=
  match defs with
  | [] => None
  | def :: defs' =>
      if tf_Duration def =? tf then
        Some (mkTimeframe (Itoa 1 +:+ tf_String def) tf)
      else if tf <? tf_Duration def then
        Some (mkTimeframe (Itoa (Z.quot tf lowerDur) +:+ lowerStr) tf)
      else TimeframeFromDuration_loop defs' (tf_Duration def) (tf_String def) tf
  end.
Definition TimeframeFromDuration (tf : Z) : option Timeframe :=
  if tf <? Second then None
  else TimeframeFromDuration_loop timeframeDefs Second "Sec" tf.

(** The argument of [NewTimeframe] is an interface: a string, an int64, or
    any other value, for which it returns nil. *)
Inductive timeframe_arg := ArgString (s : string) | ArgInt64 (d : Z) | ArgOther.

Definition NewTimeframe (arg : timeframe_arg) : option Timeframe :=
  match arg with
  | ArgString v => TimeframeFromString v
  | ArgInt64 v => TimeframeFromDuration v
  | ArgOther => None
  end.

(** ** Candle durations *)

Record CandleDuration := mkCandleDuration {
  cd_String : string;
  cd_duration : Z;
  cd_suffix : string;
  cd_multiplier : Z;
}.

Definition suffixDefs : gmap string Z :=
  list_to_map [ ("S", Second); ("Sec", Second); ("T", Minute); ("Min", Minute);
                ("H", Hour); ("D", Day); ("W", Week); ("Y", YearDuration) ].

(** The regular expression ([0-9]+)(Sec|Min|H|D|W|M|Y): the leftmost run of
    digits that is followed by one of the suffixes, in their order. *)
Definition candle_suffixes : list string := ["Sec"; "Min"; "H"; "D"; "W"; "M"; "Y"].

Fixpoint span_digits (s : string) : string * string :=
  match s with
  | String c s' =>
      if is_digit c then let '(ds, r) := span_digits s' in (String c ds, r) else ("", s)
  | EmptyString => ("", "")
  end.

Fixpoint match_candle (fuel : nat) (s : string) : option (string * string) :=
  match fuel, s with
  | S fuel', String c s' =>
      let '(ds, r) := span_digits s in
      match ds with
      | EmptyString => match_candle fuel' s'
      | _ =>
          match List.find (fun sfx => String.prefix sfx r) candle_suffixes with
          | Some sfx => Some (ds, sfx)
          | None => match_candle fuel' r
          end
      end
  | _, _ => None
  end.

Definition CandleDurationFromString (tf : string) : option CandleDuration :=
  match match_candle (String.length tf) tf with
  | None => None
  | Some (prefix, suffix) =>
      let mult := fst (Atoi prefix) in
      Some {| cd_String := tf;
              cd_multiplier := mult;
              cd_suffix := suffix;
              cd_duration := int64 (mult * default 0 (suffixDefs !! suffix)) |}
  end.

Definition same_date (t u : Time) : bool :=
  (Year t =? Year u) && (Month t =? Month u) && (Day_of_month t =? Day_of_month u).

Definition IsWithin (cd : CandleDuration) (ts start : Time) : bool :=
  if decide (cd_suffix cd = "D") then same_date ts (In_loc start (t_loc ts))
  else if decide (cd_suffix cd = "W") then
    let '(tsY, tsW) := ISOWeek ts in
    let '(sY, sW) := ISOWeek start in
    (tsY =? sY) && (tsW =? sW)
  else if decide (cd_suffix cd = "M") then
    if Year ts =? Year start then
      if Month ts =? Month start then true
      else if Month ts <? Month start then false
      else Month ts - Month start <? cd_multiplier cd
    else if Year start <? Year ts then
      Month ts - (12 - Month start) <? cd_multiplier cd
    else false
  else if decide (cd_suffix cd = "Y") then
    Year ts - Year start <=? cd_multiplier cd
  else bool_decide (Truncate ts (cd_duration cd) = start).

(** [CandleDuration.Truncate]: the lower boundary of the candle window. *)
Definition cd_Truncate (cd : CandleDuration) (ts : Time) : Time :=
  if decide (cd_suffix cd = "D") then
    Date (Year ts) (Month ts) (Day_of_month ts) 0 0 0 0 (t_loc ts)
  else if decide (cd_suffix cd = "M") then
    Date (Year ts) (Month ts) 1 0 0 0 0 (t_loc ts)
  else Truncate ts (cd_duration cd).

(** [CandleDuration.Ceil]: the upper boundary of the candle window. *)
Definition cd_Ceil (cd : CandleDuration) (ts : Time) : Time :=
  if decide (cd_suffix cd = "D") then
    let u := time_Add ts Day in
    Date (Year u) (Month u) (Day_of_month u) 0 0 0 0 (t_loc ts)
  else if decide (cd_suffix cd = "M") then
    if Month ts =? 12 then Date (Year ts + 1) 1 1 0 0 0 0 (t_loc ts)
    else Date (Year ts) (Month ts + 1) 1 0 0 0 0 (t_loc ts)
  else Truncate (time_Add ts (cd_duration cd)) (cd_duration cd).

Fixpoint queryable_loop (tfs : list Timeframe) (duration : Z) : option string :=
  match tfs with
  | [] => None
  | tf :: tfs' =>
      if Z.rem duration (tf_Duration tf) =? 0 then Some (tf_String tf)
      else queryable_loop tfs' duration
  end.

Definition QueryableTimeframe (cd : CandleDuration) : string :=
  if decide (cd_suffix cd = "M") then "1D"
  else default "1D" (queryable_loop (rev Timeframes) (cd_duration cd)).

Definition QueryableNrecords (cd : CandleDuration) (tf : string) (nrecords : Z) : outcome Z :=
  if decide (cd_String cd = tf) then Ret nrecords
  else if decide (cd_suffix cd = "M") then Ret (int64 (31 * nrecords))
  else
    match TimeframeFromString tf with
    | None => Panic "nil pointer dereference"
    | Some t =>
        if tf_Duration t =? 0 then Panic "integer divide by zero"
        else Ret (int64 (nrecords * Z.quot (cd_duration cd) (tf_Duration t)))
    end.

Example cdfs1 : CandleDurationFromString "5Min"
  = Some (mkCandleDuration "5Min" (5 * Minute) "Min" 5).
Proof. reflexivity. Qed.
Example cdfs2 : CandleDurationFromString "x15xx3Mo"
  = Some (mkCandleDuration "x15xx3Mo" 0 "M" 3).
Proof. reflexivity. Qed.
Example cdfs3 : CandleDurationFromString "Min" = None.
Proof. reflexivity. Qed.
Example tffd : TimeframeFromDuration (90 * Second) = Some (mkTimeframe "1Min" (90 * Second)).
Proof. reflexivity. Qed.
Example Timeframes_parse :
  Forall (fun tf => TimeframeFromString (tf_String tf) = Some tf) Timeframes.
Proof. repeat constructor. Qed.

(** ** Printing a duration and parsing it back *)

Lemma TimeframeFromString_units q u :
  0 < q < 2 ^ 31 -> u ∈ timeframeDefs ->
  TimeframeFromString (Itoa q +:+ tf_String u) =
  Some (mkTimeframe (Itoa q +:+ tf_String u) (int64 (tf_Duration u * q))).
Proof.
  intros Hq Hu. pose proof (Itoa_digits q ltac:(lia)) as Hd.
  pose proof (ParseInt_Itoa q 32 Hq) as Hp.
  assert (Hq0 : (q <=? 0) = false) by (apply Z.leb_gt; lia).
  unfold TimeframeFromString, timeframeDefs in *.
  repeat (apply elem_of_cons in Hu as [->|Hu];
    [cbn [TimeframeFromString_loop tf_String tf_Duration];
     rewrite !Contains_digits by done;
     repeat match goal with
       | |- context [Contains ?a ?b] =>
           let v := eval vm_compute in (Contains a b) in change (Contains a b) with v
       end;
     cbv iota; rewrite split_head_digits by done; rewrite Hp; cbn [negb orb]; by rewrite Hq0|]).
  by apply elem_of_nil in Hu.
Qed.

Lemma TimeframeFromDuration_loop_spec defs lower d tf :
  0 < tf_Duration lower <= d -> Forall (fun u => 0 < tf_Duration u) defs ->
  TimeframeFromDuration_loop defs (tf_Duration lower) (tf_String lower) d = Some tf ->
  exists u, u ∈ lower :: defs /\ tf_Duration u <= d /\
    tf = mkTimeframe (Itoa (Z.quot d (tf_Duration u)) +:+ tf_String u) d.
Proof.
  intros Hl Hpos. revert lower Hl.
  induction Hpos as [|def defs Hdef _ IH]; intros lower Hl; cbn; [done|].
  destruct (Z.eqb_spec (tf_Duration def) d) as [Heq|Hne].
  - intros [= <-]. exists def. rewrite Heq, Z.quot_same by lia. split_and!; [set_solver|lia|done].
  - destruct (Z.ltb_spec d (tf_Duration def)).
    + intros [= <-]. exists lower. split_and!; [set_solver|lia|done].
    + intros Hr. apply IH in Hr as (u & Hu & Hr); [|lia]. exists u. split; [set_solver|done].
Qed.

Lemma TimeframeFromDuration_loop_total defs lower d :
  Exists (fun def => d <= tf_Duration def) defs ->
  is_Some (TimeframeFromDuration_loop defs (tf_Duration lower) (tf_String lower) d).
Proof.
  intros H. revert lower. induction H as [def defs Hle|def defs _ IH]; intros lower; cbn;
    destruct (Z.eqb_spec (tf_Duration def) d); eauto.
  - rewrite (proj2 (Z.ltb_lt _ _)) by lia. eauto.
  - destruct (_ <? _); eauto.
Qed.

(** For every duration between a second and a year [TimeframeFromDuration]
    succeeds and keeps the duration, but the name it makes parses back to the
    duration cut down to a multiple of a unit of at most that duration: the
    round trip is exact only for the multiples. *)
Lemma TimeframeFromDuration_reparse (d : Z) :
  Second <= d <= YearDuration ->
  exists tf u,
    TimeframeFromDuration d = Some tf /\ tf_Duration tf = d /\
    u ∈ timeframeDefs /\ tf_Duration u <= d /\
    TimeframeFromString (tf_String tf) =
      Some (mkTimeframe (tf_String tf) (tf_Duration u * (d / tf_Duration u))).
Proof.
  intros Hd.
  assert (Hdefs : Forall (fun u => Second <= tf_Duration u) timeframeDefs)
    by (repeat constructor; done).
  unfold TimeframeFromDuration. rewrite (proj2 (Z.ltb_ge d Second)) by lia.
  destruct (TimeframeFromDuration_loop_total timeframeDefs (mkTimeframe "Sec" Second) d)
    as [tf Htf].
  { apply Exists_exists. exists (mkTimeframe "Y" YearDuration). split; [set_solver|apply Hd]. }
  cbn [tf_Duration tf_String] in Htf. rewrite Htf.
  apply (TimeframeFromDuration_loop_spec _ (mkTimeframe "Sec" Second)) in Htf
    as (u & Hu & Hle & ->);
    [|unfold Second in *; cbn; lia|eapply Forall_impl; [exact Hdefs|unfold Second; cbn; lia]].
  assert (Hu' : u ∈ timeframeDefs) by (unfold timeframeDefs in *; set_solver).
  pose proof (proj1 (Forall_forall _ _) Hdefs u Hu') as Hsec. cbn beta in Hsec.
  eexists _, u. split_and!; [done|done|done|done|]. cbn [tf_String].
  unfold YearDuration, Day, Hour, Minute, Second in *.
  pose proof (Z.mul_div_le d (tf_Duration u) ltac:(lia)).
  pose proof (Z.div_str_pos d (tf_Duration u) ltac:(lia)).
  rewrite Z.quot_div_nonneg by lia.
  rewrite TimeframeFromString_units; [|nia|done].
  rewrite wrapS_id; [done|lia|]. unfold inS. lia.
Qed.

(** ** Candle windows *)

Lemma Truncate_bounds t d :
  0 < d -> t_ns (Truncate t d) <= t_ns t < t_ns (Truncate t d) + d.
Proof.
  intros Hd. unfold Truncate. rewrite (proj2 (Z.leb_gt d 0)) by lia. cbn [t_ns].
  pose proof (Z.mod_pos_bound (t_ns t + unixToInternalDays * secPerDay * nsPerSec) d Hd). lia.
Qed.

Lemma Truncate_step t d : 0 < d -> t_ns (Truncate (time_Add t d) d) = t_ns (Truncate t d) + d.
Proof.
  intros Hd. unfold Truncate. rewrite (proj2 (Z.leb_gt d 0)) by lia. cbn [t_ns time_Add].
  replace (t_ns t + d + unixToInternalDays * secPerDay * nsPerSec)
    with (t_ns t + unixToInternalDays * secPerDay * nsPerSec + 1 * d) by lia.
  rewrite Z.mod_add; lia.
Qed.

Section candle_windows.
Context (off : Z).
#[local] Abbreviation zone := (FixedZone off).

Lemma midnight_of t :
  t_loc t = zone ->
  t_ns (Date (Year t) (Month t) (Day_of_month t) 0 0 0 0 zone) =
  ((local_day t - unixToInternalDays) * secPerDay - off) * nsPerSec.
Proof. intros. by rewrite Date_fixed, day_number_of_date by apply Month_range. Qed.

Lemma midnight_time t :
  t_loc t = zone ->
  Date (Year t) (Month t) (Day_of_month t) 0 0 0 0 zone =
  mkTime (((local_day t - unixToInternalDays) * secPerDay - off) * nsPerSec) zone.
Proof. intros Ht. by rewrite <- (midnight_of t Ht), <- Date_eta. Qed.

Lemma next_local_day t :
  t_loc t = zone -> local_day (time_Add t Day) = local_day t + 1.
Proof.
  intros Hloc. destruct t as [ns loc]. cbn in Hloc. subst loc. unfold time_Add. cbn [t_ns t_loc].
  rewrite !local_day_fixed.
  replace Day with (secPerDay * nsPerSec) by reflexivity.
  rewrite Z.div_add by done.
  replace (ns / nsPerSec + secPerDay + off) with (ns / nsPerSec + off + 1 * secPerDay) by lia.
  rewrite Z.div_add by done. lia.
Qed.

Lemma Date_le_midnight t y m d :
  t_loc t = zone -> 1 <= m <= 12 -> day_number y m d <= local_day t ->
  t_ns (Date y m d 0 0 0 0 zone) <= t_ns t.
Proof.
  intros Hloc Hm Hle. rewrite Date_fixed by done.
  destruct t as [ns loc]. cbn in Hloc. subst loc.
  pose proof (midnight_bounds off ns) as Hmid. cbn zeta in Hmid. cbn [t_ns].
  eapply Z.le_trans; [|apply Hmid].
  apply Z.mul_le_mono_nonneg_r; [done|]. apply Z.sub_le_mono_r.
  apply Z.mul_le_mono_nonneg_r; [done|]. lia.
Qed.

Lemma Date_gt_midnight t y m d :
  t_loc t = zone -> 1 <= m <= 12 -> local_day t < day_number y m d ->
  t_ns t < t_ns (Date y m d 0 0 0 0 zone).
Proof.
  intros Hloc Hm Hle. rewrite Date_fixed by done.
  destruct t as [ns loc]. cbn in Hloc. subst loc.
  pose proof (midnight_bounds off ns) as Hmid. cbn zeta in Hmid. cbn [t_ns].
  eapply Z.lt_le_trans; [apply Hmid|].
  apply Z.mul_le_mono_nonneg_r; [done|]. apply Z.sub_le_mono_r.
  apply Z.mul_le_mono_nonneg_r; [done|]. lia.
Qed.

Lemma cd_day_window cd t :
  t_loc t = zone -> cd_suffix cd = "D" ->
  t_ns (cd_Truncate cd t) <= t_ns t < t_ns (cd_Ceil cd t).
Proof.
  intros Hloc HD. unfold cd_Truncate, cd_Ceil. rewrite !(decide_True _ _ HD), Hloc.
  set (u := time_Add t Day). cbv zeta.
  pose proof (day_number_of_date t) as Hday. pose proof (day_number_of_date u) as Hday'.
  pose proof (next_local_day t Hloc) as Hnext. fold u in Hnext. split.
  - apply Date_le_midnight; [exact Hloc|apply Month_range|lia].
  - apply Date_gt_midnight; [exact Hloc|apply Month_range|lia].
Qed.

Lemma cd_month_window cd t :
  t_loc t = zone -> cd_suffix cd = "M" ->
  t_ns (cd_Truncate cd t) <= t_ns t < t_ns (cd_Ceil cd t).
Proof.
  intros Hloc HM. assert (HD : cd_suffix cd <> "D") by (rewrite HM; discriminate).
  unfold cd_Truncate, cd_Ceil.
  rewrite !(decide_False _ _ HD), !(decide_True _ _ HM), Hloc.
  pose proof (Month_range t). pose proof (day_number_of_date t) as Hday.
  pose proof (local_day_month_end t) as Hend. pose proof (Day_of_month_pos t).
  split.
  - apply Date_le_midnight; [exact Hloc|lia|].
    rewrite day_number_of_month in Hday. lia.
  - destruct (Z.eqb_spec (Month t) 12) as [H12|H12];
      (apply Date_gt_midnight; [exact Hloc|lia|]).
    + rewrite day_number_jan1. exact Hend.
    + exact Hend.
Qed.

(** In a zone with one offset the window of a candle contains the
    instant it is computed from: [Truncate] is at or before it and [Ceil]
    after it, for days, for months and for every positive duration. *)
Lemma candle_window_contains (cd : CandleDuration) (t : Time) :
  t_loc t = zone ->
  cd_suffix cd = "D" \/ cd_suffix cd = "M" \/ 0 < cd_duration cd ->
  t_ns (cd_Truncate cd t) <= t_ns t < t_ns (cd_Ceil cd t).
Proof.
  intros Hloc Hcd.
  destruct (decide (cd_suffix cd = "D")) as [HD|HD]; [by apply cd_day_window|].
  destruct (decide (cd_suffix cd = "M")) as [HM|HM]; [by apply cd_month_window|].
  destruct Hcd as [H|[H|Hd]]; [contradiction|contradiction|].
  unfold cd_Truncate, cd_Ceil. rewrite !(decide_False _ _ HD), !(decide_False _ _ HM).
  rewrite Truncate_step by exact Hd. apply Truncate_bounds, Hd.
Qed.

Lemma IsWithin_Truncate (cd : CandleDuration) (t u : Time) :
  t_loc t = zone -> t_loc u = zone ->
  cd_suffix cd ∈ ["D"; "H"; "Min"; "Sec"] ->
  IsWithin cd t (cd_Truncate cd u) = bool_decide (cd_Truncate cd t = cd_Truncate cd u).
Proof.
  intros Ht Hu Hs. unfold IsWithin, cd_Truncate.
  case_decide as HD.
  - rewrite Ht, Hu. unfold same_date, In_loc.
    rewrite (midnight_time u Hu), (midnight_time t Ht). cbn [t_ns].
    pose proof (local_day_of_midnight off (local_day u)) as Hday. fold zone in Hday.
    apply eq_bool_prop_intro. rewrite !andb_True, bool_decide_spec, !Is_true_true, !Z.eqb_eq.
    split.
    + intros [[Hy Hmo] Hd]. pose proof (same_local_day _ _ Hy Hmo Hd) as Heq.
      rewrite Hday in Heq. by rewrite Heq.
    + intros [= Heq]. assert (Hld : local_day t = local_day u) by (unfold secPerDay, nsPerSec in *; lia).
      rewrite <- Hday in Hld. apply local_day_date in Hld as (-> & -> & ->). done.
  - assert (cd_suffix cd ≠ "W" /\ cd_suffix cd ≠ "M" /\ cd_suffix cd ≠ "Y") as (HW & HM & HY).
    { apply elem_of_cons in Hs as [Hs|Hs]; [done|].
      repeat (apply elem_of_cons in Hs as [->|Hs]; [done|]). by apply elem_of_nil in Hs. }
    rewrite !(decide_False (P := cd_suffix cd = "M")), !(decide_False (P := cd_suffix cd = "W")),
      !(decide_False (P := cd_suffix cd = "Y")) by done. done.
Qed.

Lemma Date_loc y m d hh mm ss ns loc : t_loc (Date y m d hh mm ss ns loc) = loc.
Proof. by rewrite Date_eta. Qed.

Lemma cd_Truncate_loc cd t : t_loc t = zone -> t_loc (cd_Truncate cd t) = zone.
Proof.
  intros Ht. unfold cd_Truncate, Truncate. case_decide; [by rewrite Date_loc|].
  case_decide; [by rewrite Date_loc|]. by destruct (_ <=? _).
Qed.

(** The start of a window is in it. *)
Lemma cd_Truncate_idem cd t : t_loc t = zone -> cd_suffix cd <> "M" -> cd_Truncate cd (cd_Truncate cd t) = cd_Truncate cd t.
Proof.
  intros Ht HM. unfold cd_Truncate. case_decide as HD.
  - rewrite Ht, (midnight_time t Ht). cbn [t_loc].
    match goal with |- _ = ?u => rewrite (midnight_time u eq_refl) end.
    f_equal. by rewrite local_day_of_midnight.
  - rewrite !(decide_False (P := cd_suffix cd = "M")) by done. unfold Truncate.
    destruct (cd_duration cd <=? 0) eqn:Hd; [done|]. apply Z.leb_gt in Hd. cbn [t_ns t_loc]. f_equal.
    set (C := unixToInternalDays * secPerDay * nsPerSec). set (d := cd_duration cd) in *. clearbody C d.
    replace (t_ns t - (t_ns t + C) mod d + C) with (0 + (t_ns t + C) / d * d)
      by (rewrite (Z.mod_eq _ d) by lia; lia).
    rewrite Z.mod_add by lia. rewrite Z.mod_0_l; lia.
Qed.

(** Windows follow the order of the instants. *)
Lemma cd_Truncate_mono (cd : CandleDuration) (t u : Time) :
  t_loc t = zone -> t_loc u = zone -> cd_suffix cd ∈ ["D"; "H"; "Min"; "Sec"] ->
  t_ns t <= t_ns u -> t_ns (cd_Truncate cd t) <= t_ns (cd_Truncate cd u).
Proof.
  intros Ht Hu Hs Hle. unfold cd_Truncate. case_decide as HD.
  - rewrite Ht, Hu, (midnight_of t Ht), (midnight_of u Hu).
    assert (local_day t <= local_day u); [|unfold nsPerSec, secPerDay; nia].
    destruct t as [tn tl], u as [un ul]. cbn in Ht, Hu, Hle. subst tl ul. rewrite !local_day_fixed.
    apply Z.add_le_mono_r, Z.div_le_mono; [done|]. apply Z.add_le_mono_r, Z.div_le_mono; done.
  - assert (HM : cd_suffix cd <> "M").
    { intros HM. rewrite HM in Hs. repeat (apply elem_of_cons in Hs as [Hs|Hs]; [discriminate Hs|]).
      by apply elem_of_nil in Hs. }
    rewrite !(decide_False (P := cd_suffix cd = "M")) by exact HM.
    unfold Truncate. destruct (cd_duration cd <=? 0) eqn:Hd; [exact Hle|]. apply Z.leb_gt in Hd. cbn [t_ns].
    set (C := unixToInternalDays * secPerDay * nsPerSec). set (d := cd_duration cd) in *. clearbody C d.
    pose proof (Z.div_mod (t_ns t + C) d ltac:(lia)). pose proof (Z.div_mod (t_ns u + C) d ltac:(lia)).
    pose proof (Z.div_le_mono (t_ns t + C) (t_ns u + C) d Hd ltac:(lia)). nia.
Qed.

(** The group of an instant: for day candles and for candles below a
    day an instant is within the candle that another one starts exactly when
    the two have the same lower boundary. *)
Lemma IsWithin_same_window (cd : CandleDuration) (t u : Time) :
  t_loc t = zone -> t_loc u = zone ->
  cd_suffix cd ∈ ["D"; "H"; "Min"; "Sec"] ->
  IsWithin cd t (cd_Truncate cd u) = bool_decide (cd_Truncate cd t = cd_Truncate cd u).
Proof. apply IsWithin_Truncate. Qed.
End candle_windows.

Lemma candle_window_contains_witness :
  t_loc (Date 2019 12 31 23 59 59 0 UTC) = FixedZone 0 /\
  t_ns (cd_Truncate (mkCandleDuration "1M" 0 "M" 1) (Date 2019 12 31 23 59 59 0 UTC))
    <= t_ns (Date 2019 12 31 23 59 59 0 UTC)
    < t_ns (cd_Ceil (mkCandleDuration "1M" 0 "M" 1) (Date 2019 12 31 23 59 59 0 UTC)).
Proof.
  split; [reflexivity|].
  apply (candle_window_contains 0); [reflexivity|right; left; reflexivity].
Defined.

Lemma IsWithin_same_window_witness :
  let cd := mkCandleDuration "5Min" (5 * Minute) "Min" 5 in
  let t := Date 2019 12 31 23 59 59 0 (FixedZone (-18000)) in
  let u := Date 2019 12 31 23 55 1 0 (FixedZone (-18000)) in
  IsWithin cd t (cd_Truncate cd u) = bool_decide (cd_Truncate cd t = cd_Truncate cd u)
  /\ IsWithin cd t (cd_Truncate cd u) = true.
Proof.
  split; [|vm_compute; reflexivity].
  apply (IsWithin_same_window (-18000)); [reflexivity|reflexivity|].
  right; right; left.
Defined.

(** A month candle accepts instants of a later year: across a year
    boundary the month distance is computed as [Month ts - (12 - Month
    start)], so a one-month candle of January 2018 contains every instant of
    January to November 2019 and of every year after that. *)
Lemma IsWithin_month_later_year (cd : CandleDuration) (ts start : Time) :
  cd_suffix cd = "M" -> 1 <= cd_multiplier cd -> Month start = 1 ->
  Year start < Year ts -> Month ts < 12 ->
  IsWithin cd ts start = true.
Proof.
  intros HM Hmult Hs Hy Hm. unfold IsWithin. rewrite HM.
  rewrite !decide_False by done. rewrite decide_True by done.
  rewrite (proj2 (Z.eqb_neq _ _)), (proj2 (Z.ltb_lt _ _)) by lia.
  apply Z.ltb_lt. lia.
Qed.

(** ** The timeframe a candle is computed from *)

Lemma queryable_loop_spec tfs d s :
  queryable_loop tfs d = Some s ->
  exists tf, tf ∈ tfs /\ tf_String tf = s /\ Z.rem d (tf_Duration tf) = 0.
Proof.
  induction tfs as [|tf tfs IH]; cbn; [done|].
  destruct (Z.eqb_spec (Z.rem d (tf_Duration tf)) 0).
  - intros [= <-]. exists tf. set_solver.
  - intros Hs. destruct (IH Hs) as (tf' & ? & ?). exists tf'. set_solver.
Qed.

Lemma queryable_loop_total tfs d :
  Exists (fun tf => Z.rem d (tf_Duration tf) = 0) tfs -> is_Some (queryable_loop tfs d).
Proof.
  induction 1 as [tf tfs H|tf tfs _ IH]; cbn; [by rewrite H; eauto|].
  destruct (_ =? 0); eauto.
Qed.

(** A candle of whole seconds (other than months) is read from an on-disk
    timeframe that divides it, and the number of records asked for covers
    exactly the candles requested. *)
Lemma Queryable_covers (cd : CandleDuration) (n : Z) :
  cd_suffix cd <> "M" -> Z.rem (cd_duration cd) Second = 0 -> 0 < cd_duration cd ->
  0 <= n -> n * cd_duration cd < 2 ^ 63 ->
  exists tf k,
    tf ∈ Timeframes /\ QueryableTimeframe cd = tf_String tf /\
    QueryableNrecords cd (QueryableTimeframe cd) n = Ret k /\
    (k * tf_Duration tf = n * cd_duration cd \/ cd_String cd = tf_String tf /\ k = n).
Proof.
  intros HM Hsec Hpos Hn Hov. unfold QueryableTimeframe. rewrite decide_False by done.
  destruct (queryable_loop_total (rev Timeframes) (cd_duration cd)) as [s Hs].
  { apply Exists_exists. exists (mkTimeframe "1Sec" Second).
    split; [unfold Timeframes; set_solver|done]. }
  rewrite Hs. change (default "1D" (Some s)) with s.
  apply queryable_loop_spec in Hs as (tf & Htf & <- & Hrem).
  rewrite list_elem_of_In, <- in_rev, <- list_elem_of_In in Htf.
  pose proof (proj1 (Forall_forall _ _) Timeframes_parse tf Htf) as Hp. cbn beta in Hp.
  assert (Hdpos : Second <= tf_Duration tf).
  { pose proof (Forall_forall (fun tf => Second <= tf_Duration tf) Timeframes) as [Hall _].
    apply Hall; [|done]. unfold Timeframes. repeat constructor; done. }
  unfold QueryableNrecords. unfold Second in Hdpos.
  destruct (decide (cd_String cd = tf_String tf)).
  - exists tf, n. split_and!; auto.
  - rewrite decide_False by done. rewrite Hp. rewrite (proj2 (Z.eqb_neq _ _)) by lia.
    eexists tf, _. split_and!; [done|done|reflexivity|]. left.
    rewrite Z.quot_div_nonneg, Z.rem_mod_nonneg in * by lia.
    pose proof (Z.div_mod (cd_duration cd) (tf_Duration tf)) as Hdm.
    pose proof (Z.div_str_pos (cd_duration cd) (tf_Duration tf)).
    rewrite wrapS_id; [nia|lia|]. unfold inS. nia.
Qed.

Lemma Queryable_covers_witness :
  let cd := mkCandleDuration "90Min" (90 * Minute) "Min" 90 in
  exists tf k, tf ∈ Timeframes /\ QueryableTimeframe cd = tf_String tf /\
    QueryableNrecords cd (QueryableTimeframe cd) 10 = Ret k /\
    (k * tf_Duration tf = 10 * cd_duration cd \/ cd_String cd = tf_String tf /\ k = 10).
Proof. apply Queryable_covers; vm_compute; try reflexivity; intros H; discriminate H. Defined.
