(* ===== verification/GoFloat.v ===== *)
(** * IEEE double precision, as far as the code computes with it

    [float64] values are Coq's axiom-free [spec_float] at precision 53 and
    exponent bound 1024; conversions from and to integers follow the language
    (exact to nearest even, and truncation towards zero).  The order of floats
    is that of their sign, exponent and significand ([rank]). *)

From Stdlib Require Export SpecFloat.
From S2P Require Export Prelude.

Abbreviation float64 := spec_float.

Definition float64_of_Z (z : Z) : float64 := binary_normalize 53 1024 z 0 false.
Definition fmul (a b : float64) : float64 := SFmul 53 1024 a b.
Definition fdiv (a b : float64) : float64 := SFdiv 53 1024 a b.
Definition fadd (a b : float64) : float64 := SFadd 53 1024 a b.
Definition fsub (a b : float64) : float64 := SFsub 53 1024 a b.

(** Truncation of a finite value; NaN and the infinities have no integer. *)
Definition float64_trunc (f : float64) : option Z :=
  match f with
  | S754_zero _ => Some 0
  | S754_finite s m e =>
      let z := if 0 <=? e then Z.pos m * 2 ^ e else Z.pos m / 2 ^ (- e) in
      Some (if s then - z else z)
  | _ => None
  end.

(** A float outside the 64-bit range converts to the most negative integer on
    the machines the program runs on; [uint32] keeps the low half of that. *)
Definition float64_to_int64 (f : float64) : Z :=
  match float64_trunc f with
  | Some z => if (- 2 ^ 63 <=? z) && (z <? 2 ^ 63) then z else - 2 ^ 63
  | None => - 2 ^ 63
  end.
Definition float64_to_uint32 (f : float64) : Z := uint32 (float64_to_int64 f).

(** ** Floats in their order *)

(** Their sign with the infinities, their exponent and their significand: what
    the comparisons of floats compare. *)
Definition rank (f : spec_float) : Z * Z * Z :=
  match f with
  | S754_zero _ => (0, 0, 0)
  | S754_infinity s => (if s then -2 else 2, 0, 0)
  | S754_finite s m e => if s then (-1, - e, - Z.pos m) else (1, e, Z.pos m)
  | S754_nan => (0, 0, 0)
  end.
Definition real (f : spec_float) : Prop := f <> S754_nan.
Definition rank_lt (a b : Z * Z * Z) : Prop :=
  a.1.1 < b.1.1 \/ a.1.1 = b.1.1 /\ (a.1.2 < b.1.2 \/ a.1.2 = b.1.2 /\ a.2 < b.2).

Lemma SFltb_rank a b : real a -> real b -> SFltb a b = true <-> rank_lt (rank a) (rank b).
Proof.
  intros Ha Hb. unfold SFltb, SFcompare, rank_lt.
  destruct a as [|[]| |[] ma ea], b as [|[]| |[] mb eb]; try done; cbn; try (split; intros; (done || lia)).
  - destruct (Z.compare_spec ea eb); cbn; [|split; intros; (done || lia)..].
    change (Pcompare ma mb Eq) with (Pos.compare ma mb). destruct (Pos.compare_spec ma mb); cbn; split; intros; (done || lia).
  - destruct (Z.compare_spec ea eb); cbn; [|split; intros; (done || lia)..].
    change (Pcompare ma mb Eq) with (Pos.compare ma mb). destruct (Pos.compare_spec ma mb); cbn; split; intros; (done || lia).
Qed.
Lemma SFeqb_rank a b : real a -> real b -> SFeqb a b = true <-> rank a = rank b.
Proof.
  intros Ha Hb. unfold SFeqb, SFcompare.
  destruct a as [|[]| |[] ma ea], b as [|[]| |[] mb eb]; try done; cbn; try (split; intros; (done || congruence)).
  - destruct (Z.compare_spec ea eb); cbn; [|split; [done|intros [= ? ?]; lia]..].
    change (Pcompare ma mb Eq) with (Pos.compare ma mb). destruct (Pos.compare_spec ma mb); cbn; (split; [done || congruence|]);
      intros [= ? ?]; first [done | lia].
  - destruct (Z.compare_spec ea eb); cbn; [|split; [done|intros [= ? ?]; lia]..].
    change (Pcompare ma mb Eq) with (Pos.compare ma mb). destruct (Pos.compare_spec ma mb); cbn; (split; [done || congruence|]);
      intros [= ? ?]; first [done | lia].
Qed.
Lemma SFeqb_decide a b : real a -> real b -> SFeqb a b = bool_decide (rank a = rank b).
Proof.
  intros Ha Hb. apply eq_true_iff_eq. by rewrite SFeqb_rank, bool_decide_eq_true by done.
Qed.

(** ≤ is what < is not, but for NaN; it is transitive. *)
Lemma SFleb_ltb a b : real a -> real b -> SFleb a b = negb (SFltb b a).
Proof.
  intros Ha Hb. unfold SFleb, SFltb, SFcompare.
  destruct a as [[]|[]| |[] ma ea], b as [[]|[]| |[] mb eb]; try done.
  - rewrite (Z.compare_antisym ea eb). destruct (Z.compare ea eb); try done. cbn [CompOpp].
    change (Pcompare ma mb Eq) with (Pos.compare ma mb). change (Pcompare mb ma Eq) with (Pos.compare mb ma).
    rewrite (Pos.compare_antisym ma mb). by destruct (Pos.compare ma mb).
  - rewrite (Z.compare_antisym ea eb). destruct (Z.compare ea eb); try done. cbn [CompOpp].
    change (Pcompare ma mb Eq) with (Pos.compare ma mb). change (Pcompare mb ma Eq) with (Pos.compare mb ma).
    rewrite (Pos.compare_antisym ma mb). by destruct (Pos.compare ma mb).
Qed.
Lemma SFleb_refl a : real a -> SFleb a a = true.
Proof.
  intros Ha. rewrite SFleb_ltb by done. apply negb_true_iff, not_true_is_false. intros H.
  apply SFltb_rank in H; [|done..]. unfold rank_lt in H. lia.
Qed.
Lemma SFleb_trans a b c : real a -> real b -> real c -> SFleb a b = true -> SFleb b c = true -> SFleb a c = true.
Proof.
  intros Ha Hb Hc. rewrite !SFleb_ltb, !negb_true_iff by done. intros H1 H2. apply not_true_is_false. intros H.
  apply SFltb_rank in H; [|done..]. apply not_true_iff_false in H1, H2.
  rewrite SFltb_rank in H1, H2 by done. unfold rank_lt in *. lia.
Qed.
Lemma SFltb_leb a b : real a -> real b -> SFltb a b = true -> SFleb a b = true.
Proof.
  intros Ha Hb. rewrite SFleb_ltb by done. intros H. apply negb_true_iff, not_true_is_false. intros H'.
  apply SFltb_rank in H, H'; [|done..]. unfold rank_lt in *. lia.
Qed.

Example f_half : fdiv (float64_of_Z 1) (float64_of_Z 2) = S754_finite false 4503599627370496 (-53).
Proof. reflexivity. Qed.
Example f_trunc : float64_to_int64 (fdiv (float64_of_Z (-7)) (float64_of_Z 2)) = -3.
Proof. reflexivity. Qed.
