(* ===== verification/DataTypes.v ===== *)
(** * Element types, values and data shapes (utils/io/datatypes.go, datashape.go)

    The types of the columns as the file format numbers them, the values of
    these types as their memory images, the conversions between them, and the
    textual form of data shapes. *)

From S2P Require Export GoFloat Bytes GoStrings.

(** ** Record types *)

Definition FIXED : Z := 0.
Definition VARIABLE : Z := 1.
Definition NOTYPE : Z := 2.

Definition EnumRecordTypeByName (name : string) : Z :=
  let name := ToLower name in
  if decide (name = "fixed") then FIXED
  else if decide (name = "variable") then VARIABLE
  else NOTYPE.

(** ** Element types

    The byte that stands for a type in a file header; bytes that name no type
    occur too, and read as a type without a size. *)

Definition FLOAT32 : Z := 0.
Definition INT32 : Z := 1.
Definition FLOAT64 : Z := 2.
Definition INT64 : Z := 3.
Definition EPOCH : Z := 4.
Definition BYTE : Z := 5.
Definition BOOL : Z := 6.
Definition NONE : Z := 7.
Definition STRING : Z := 8.
Definition INT16 : Z := 9.
Definition UINT8 : Z := 10.
Definition UINT16 : Z := 11.
Definition UINT32 : Z := 12.
Definition UINT64 : Z := 13.

(** [reflect.Kind], as far as element types have one, and [Int]. *)
Inductive Kind :=
  | KInvalid | KBool
  | KInt | KInt8 | KInt16 | KInt32 | KInt64
  | KUint8 | KUint16 | KUint32 | KUint64
  | KFloat32 | KFloat64
  | KString | KStruct.

#[export] Instance Kind_eq_dec : EqDecision Kind.
Proof. solve_decision. Defined.

Record attributes := mkAttr { at_typ : Kind; at_name : string; at_size : Z }.

Definition attributeMap : list (Z * attributes) :=
  [ (FLOAT32, mkAttr KFloat32 "float32" 4); (INT32, mkAttr KInt32 "int32" 4);
    (FLOAT64, mkAttr KFloat64 "float64" 8); (INT64, mkAttr KInt64 "int64" 8);
    (EPOCH, mkAttr KInt64 "epoch" 8); (BYTE, mkAttr KInt8 "byte" 1);
    (BOOL, mkAttr KBool "bool" 1); (NONE, mkAttr KInvalid "none" 0);
    (STRING, mkAttr KString "string" 0); (INT16, mkAttr KInt16 "int16" 2);
    (UINT8, mkAttr KUint8 "uint8" 1); (UINT16, mkAttr KUint16 "uint16" 2);
    (UINT32, mkAttr KUint32 "uint32" 4); (UINT64, mkAttr KUint64 "uint64" 8) ].

(** A map read without an entry gives the zero value. *)
Fixpoint assoc_attr (m : list (Z * attributes)) (e : Z) : attributes :=
  match m with
  | [] => mkAttr KInvalid "" 0
  | (k, a) :: m' => if k =? e then a else assoc_attr m' e
  end.
Definition attribute (e : Z) : attributes := assoc_attr attributeMap e.

Definition type_Kind (e : Z) : Kind := at_typ (attribute e).
Definition type_Size (e : Z) : Z := at_size (attribute e).

(** The range over the map visits its entries in the order [m]. *)
Fixpoint EnumElementTypeFromName_loop (m : list (Z * attributes)) (name : string) : Z :=
  match m with
  | [] => NONE
  | (key, el) :: m' =>
      if EqualFold name (at_name el) then key else EnumElementTypeFromName_loop m' name
  end.
Definition EnumElementTypeFromName : string -> Z := EnumElementTypeFromName_loop attributeMap.

(** The generated [String] method. *)
Definition type_names : list string :=
  ["FLOAT32"; "INT32"; "FLOAT64"; "INT64"; "EPOCH"; "BYTE"; "BOOL"; "NONE"; "STRING"; "INT16";
   "UINT8"; "UINT16"; "UINT32"; "UINT64"]%string.
Definition type_String (e : Z) : string :=
  if (0 <=? e) && (e <? 14) then nth (Z.to_nat e) type_names ""
  else "EnumElementType(" +:+ Itoa e +:+ ")".

(** ** Values and columns

    A value is the memory image of a number; a column is what a Go slice of
    numbers of one kind holds.  A slice of strings is not a column: its memory
    image is made of addresses. *)

Definition kind_size (k : Kind) : nat :=
  match k with
  | KBool | KInt8 | KUint8 => 1
  | KInt16 | KUint16 => 2
  | KInt32 | KUint32 | KFloat32 => 4
  | KInt | KInt64 | KUint64 | KFloat64 => 8
  | KInvalid | KString | KStruct => 0
  end.

Record column := mkCol { col_kind : Kind; col_elems : list (list byte) }.

#[export] Instance column_eq_dec : EqDecision column.
Proof. solve_decision. Defined.

Definition col_len (c : column) : nat := length (col_elems c).
Definition col_wf (c : column) : Prop := Forall (fun e => length e = kind_size (col_kind c)) (col_elems c).
(** [SwapSliceData(col, byte(0))] and [CastToByteSlice(col)]. *)
Definition col_bytes (c : column) : list byte := concat (col_elems c).

Definition int64_column (zs : list Z) : column := mkCol KInt64 (map (le_bytes 8) zs).
Definition int32_column (zs : list Z) : column := mkCol KInt32 (map (le_bytes 4) zs).
Definition col_int64s (c : column) : list Z := map ToInt64 (col_elems c).
Definition col_int32s (c : column) : list Z := map ToInt32 (col_elems c).

(** [GetElementType] of a slice; the loop over the types is in their order. *)
Fixpoint GetElementType_loop (m : list (Z * attributes)) (k : Kind) : Z :=
  match m with
  | [] => NONE
  | (e, el) :: m' => if decide (at_typ el = k) then e else GetElementType_loop m' k
  end.
Definition GetElementType (k : Kind) : Z :=
  match k with KStruct => NONE | _ => GetElementType_loop attributeMap k end.

(** [SliceInBytesAt]: a slice expression of the bytes. *)
Definition SliceInBytesAt (e : Z) (bs : list byte) (index : nat) : outcome (list byte) :=
  let size := Z.to_nat (type_Size e) in
  if (index * size + size <=? length bs)%nat
  then Ret (take size (drop (index * size) bs))
  else Panic "slice bounds out of range".

(** [reflect.MakeSlice] wants the type of a slice. *)
Inductive gotype := TElem (k : Kind) | TSlice (k : Kind).
Definition MakeSlice (t : gotype) (length : nat) : outcome column :=
  match t with
  | TSlice k => Ret (mkCol k (replicate length (replicate (kind_size k) x00)))
  | TElem _ => Panic "reflect.MakeSlice of non-slice type"
  end.

(** [SliceOf] hands it the type of an element. *)
Definition SliceOf (e : Z) (length : nat) : outcome column := MakeSlice (TElem (type_Kind e)) length.

(** [SwapSliceByte]: reads a byte slice as a slice of a kind. *)
Definition SwapSliceByte (data : list byte) (k : Kind) : column := mkCol k (chunks (kind_size k) data).

(** [STRING] would read addresses; the model has no value for it. *)
Definition ConvertByteSliceInto (e : Z) (data : list byte) : option column :=
  if bool_decide (e = FLOAT32) then Some (SwapSliceByte data KFloat32)
  else if bool_decide (e = INT32) then Some (SwapSliceByte data KInt32)
  else if bool_decide (e = FLOAT64) then Some (SwapSliceByte data KFloat64)
  else if bool_decide (e = INT64 \/ e = EPOCH) then Some (SwapSliceByte data KInt64)
  else if bool_decide (e = BYTE \/ e = BOOL) then Some (SwapSliceByte data KInt8)
  else if bool_decide (e = INT16) then Some (SwapSliceByte data KInt16)
  else if bool_decide (e = UINT8) then Some (SwapSliceByte data KUint8)
  else if bool_decide (e = UINT16) then Some (SwapSliceByte data KUint16)
  else if bool_decide (e = UINT32) then Some (SwapSliceByte data KUint32)
  else if bool_decide (e = UINT64) then Some (SwapSliceByte data KUint64)
  else None.

(** ** Conversions between the numeric kinds *)

Definition kind_signed (k : Kind) : bool :=
  bool_decide (k ∈ [KInt; KInt8; KInt16; KInt32; KInt64]).
Definition kind_integer (k : Kind) : bool :=
  kind_signed k || bool_decide (k ∈ [KUint8; KUint16; KUint32; KUint64]).
Definition kind_bits (k : Kind) : Z := 8 * Z.of_nat (kind_size k).

(** The integers a kind holds, and the one an image stands for. *)
Definition kind_holds (k : Kind) (z : Z) : Prop :=
  if kind_signed k then inS (kind_bits k) z else inU (kind_bits k) z.
Definition int_value (k : Kind) (bs : list byte) : Z :=
  if kind_signed k then wrapS (kind_bits k) (le_val bs) else le_val bs.

(** The IEEE layouts. *)
Definition float_of_bits (mw ew : Z) (bits : Z) : spec_float :=
  let m := bits mod 2 ^ mw in
  let e := Z.shiftr bits mw mod 2 ^ ew in
  let s := Z.testbit bits (mw + ew) in
  let emin := 3 - 2 ^ (ew - 1) - (mw + 1) in
  if e =? 0 then match m with Z.pos p => S754_finite s p emin | _ => S754_zero s end
  else if e =? 2 ^ ew - 1 then (if m =? 0 then S754_infinity s else S754_nan)
  else match m + 2 ^ mw with Z.pos p => S754_finite s p (emin + e - 1) | _ => S754_nan end.

Definition bits_of_float (mw ew : Z) (f : spec_float) : Z :=
  let sign (s : bool) := if s then 2 ^ (mw + ew) else 0 in
  let emin := 3 - 2 ^ (ew - 1) - (mw + 1) in
  match f with
  | S754_zero s => sign s
  | S754_infinity s => sign s + (2 ^ ew - 1) * 2 ^ mw
  | S754_nan => (2 ^ ew - 1) * 2 ^ mw + 2 ^ (mw - 1)
  | S754_finite s p e =>
      sign s + (if Z.pos p <? 2 ^ mw then Z.pos p else (e - emin + 1) * 2 ^ mw + (Z.pos p - 2 ^ mw))
  end.

Definition float64_of_bits : Z -> float64 := float_of_bits 52 11.
Definition float64_bits : float64 -> Z := bits_of_float 52 11.
Definition float32_of_bits : Z -> spec_float := float_of_bits 23 8.
Definition float32_bits : spec_float -> Z := bits_of_float 23 8.

(** A float rounded to the other precision. *)
Definition round_to (prec emax : Z) (f : spec_float) : spec_float :=
  match f with
  | S754_finite s p e => binary_normalize prec emax (if s then Z.neg p else Z.pos p) e s
  | _ => f
  end.

Definition float_value (k : Kind) (bs : list byte) : spec_float :=
  match k with
  | KFloat32 => float32_of_bits (le_val bs)
  | KFloat64 => float64_of_bits (le_val bs)
  | _ => binary_normalize 53 1024 (int_value k bs) 0 false
  end.

(** A float that an integer kind cannot hold converts to what the machines the
    program runs on compute: a 32-bit conversion for the kinds of at most 32
    bits but [uint32], a 64-bit one for the others. *)
Definition trunc_or (lo hi : Z) (f : spec_float) : Z :=
  match float64_trunc f with
  | Some z => if (lo <=? z) && (z <? hi) then z else lo
  | None => lo
  end.
Definition float_to_int (k : Kind) (f : spec_float) : Z :=
  match k with
  | KUint64 =>
      match float64_trunc f with
      | Some z => if z <? 2 ^ 63 then trunc_or (- 2 ^ 63) (2 ^ 63) f
                  else if z <? 2 ^ 64 then z else 0
      | None => match f with S754_infinity true => 2 ^ 63 | _ => 0 end
      end
  | KInt | KInt64 | KUint32 => trunc_or (- 2 ^ 63) (2 ^ 63) f
  | _ => trunc_or (- 2 ^ 31) (2 ^ 31) f
  end.

(** The language's conversion of one number. *)
Definition convert (from to : Kind) (bs : list byte) : list byte :=
  if decide (from = to) then bs
  else if kind_integer to then
    le_bytes (kind_size to)
      (if kind_integer from then int_value from bs else float_to_int to (float_value from bs))
  else match to with
       | KFloat64 => le_bytes 8 (float64_bits (round_to 53 1024 (float_value from bs)))
       | KFloat32 =>
           le_bytes 4 (float32_bits
             (if kind_integer from then binary_normalize 24 128 (int_value from bs) 0 false
              else round_to 24 128 (float_value from bs)))
       | _ => bs
       end.

Definition convert_column (to : Kind) (c : column) : column :=
  mkCol to (map (convert (col_kind c) to) (col_elems c)).

(** The kinds whose slices [CoerceColumnType] and [RestrictViaBitmap] know. *)
Definition numeric_kinds : list Kind :=
  [KInt; KInt8; KFloat32; KInt32; KFloat64; KInt64; KInt16; KUint8; KUint16; KUint32; KUint64].

Example convert_neg : convert KInt32 KInt64 (le_bytes 4 (-2)) = le_bytes 8 (-2).
Proof. reflexivity. Qed.
Example convert_float : convert KInt8 KFloat64 (le_bytes 1 (-3)) = le_bytes 8 0xC008000000000000.
Proof. reflexivity. Qed.
Example convert_narrow : convert KFloat64 KFloat32 (le_bytes 8 0x3FB999999999999A) = le_bytes 4 0x3DCCCCCD.
Proof. reflexivity. Qed.
Example convert_trunc : convert KFloat32 KInt16 (le_bytes 4 0xC0200000) = le_bytes 2 (-2).
Proof. reflexivity. Qed.
Example convert_widen : convert KFloat32 KFloat64 (le_bytes 4 0x00000001) = le_bytes 8 0x36A0000000000000.
Proof. reflexivity. Qed.

(** ** Data shapes *)

Record DataShape := mkShape { ds_Name : string; ds_Type : Z }.

#[export] Instance DataShape_eq_dec : EqDecision DataShape.
Proof. solve_decision. Defined.

(** [etypes[i]] panics when there are fewer types than names. *)
Fixpoint NewDataShapeVector (names : list string) (etypes : list Z) : outcome (list DataShape) :=
  match names, etypes with
  | [], _ => Ret []
  | name :: names', t :: etypes' =>
      let! dsv := NewDataShapeVector names' etypes' in Ret (mkShape name t :: dsv)
  | _ :: _, [] => Panic "index out of range"
  end.

Definition ds_String (ds : DataShape) : string := ds_Name ds +:+ ":" +:+ type_String (ds_Type ds).
Definition ds_Len (ds : DataShape) : Z := type_Size (ds_Type ds).
Definition ds_Equal (ds shape : DataShape) : bool :=
  bool_decide (ds_Name ds = ds_Name shape) && (ds_Type ds =? ds_Type shape).

Fixpoint shapes_of_groups (groups : list string) : outcome (list DataShape) :=
  match groups with
  | [] => Ret []
  | group :: groups' =>
      match Split group "/" with
      | [elementNames; elementType] =>
          let eType := EnumElementTypeFromName elementType in
          if eType =? NONE then Fail (ErrMsg "Data type is not a supported type")
          else
            let! dsa := shapes_of_groups groups' in
            Ret (map (fun name => mkShape name eType) (Split elementNames ",") ++ dsa)
      | _ => Fail (ErrMsg "Data shape is not described by a list of column names followed by type.")
      end
  end.
Definition DataShapesFromInputString (inputStr : string) : outcome (list DataShape) :=
  shapes_of_groups (Split inputStr ":").

(** ** Candle attributes: a set of flags in a byte *)

Definition CA_None : Z := 0.
Definition ISCANDLE : Z := 2.
Definition OHLC : Z := 4.
Definition OHLCV : Z := 8.
Definition HASFLOAT32 : Z := 16.
Definition HASFLOAT64 : Z := 32.

Definition AddOption (cat option : Z) : Z := Z.lor cat option.
Definition DelOption (cat option : Z) : Z := Z.land cat (uint8 (Z.lnot option)).
Definition IsSet (cat : Z) (checkOption : list Z) : bool :=
  forallb (fun co => Z.land cat co =? co) checkOption.
Definition AnySet_options (cat : Z) (checkOption : list Z) : bool :=
  existsb (fun co => Z.land cat co =? co) checkOption.

Definition FIRST : Z := 0.
Definition LAST : Z := 1.

(** ** Columns out of rows

    The C loops of [wordCopy*] and [getByteColumn]: word [i] is at
    [i*reclen + offset]. *)

Definition word_at (size offset reclen i : nat) (data : list byte) : list byte :=
  take size (drop (i * reclen + offset) data).
Definition wordCopy (size offset reclen nrecs : nat) (data : list byte) : list (list byte) :=
  map (fun i => word_at size offset reclen i data) (seq 0 nrecs).
Definition getColumn (k : Kind) (offset reclen nrecs : nat) (data : list byte) : column :=
  mkCol k (wordCopy (kind_size k) offset reclen nrecs data).
(** [data[i*reclen+offset]] is checked. *)
Definition getByteColumn (offset reclen nrecs : nat) (data : list byte) : outcome column :=
  if bool_decide (Forall (fun i => (i * reclen + offset < length data)%nat) (seq 0 nrecs))
  then Ret (getColumn KUint8 offset reclen nrecs data)
  else Panic "index out of range".

(** [CreateSliceFromSliceOfInterface]: the values as the decoder gives them. *)
Record goval := mkVal { v_kind : Kind; v_image : list byte }.

Definition coercible (typ : Z) (k : Kind) : bool :=
  if (typ =? FLOAT32) || (typ =? FLOAT64) then bool_decide (k ∈ [KFloat32; KFloat64])
  else bool_decide (k ∈ [KUint8; KInt8; KInt16; KUint16; KInt32; KUint32; KInt64; KUint64]).

Definition slice_kind (typ : Z) : option Kind :=
  if typ =? FLOAT32 then Some KFloat32
  else if typ =? INT32 then Some KInt32
  else if typ =? FLOAT64 then Some KFloat64
  else if (typ =? INT64) || (typ =? EPOCH) then Some KInt64
  else if typ =? BYTE then Some KUint8
  else None.

(** For the other types the result is nil. *)
Definition CreateSliceFromSliceOfInterface (input : list goval) (typ : Z) : outcome (option column) :=
  match slice_kind typ with
  | None => Ret None
  | Some k =>
      if forallb (fun v => coercible typ (v_kind v)) input
      then Ret (Some (mkCol k (map (fun v => convert (v_kind v) k (v_image v)) input)))
      else Fail (ErrMsg "non coercible type")
  end.

(** ** Theorems *)

Definition wrap_kind (k : Kind) (z : Z) : Z :=
  if kind_signed k then wrapS (kind_bits k) z else wrapU (kind_bits k) z.

Lemma kind_size_pos k : kind_integer k = true -> (0 < kind_size k)%nat.
Proof. destruct k; cbn; try lia; intros H; discriminate H. Qed.

Lemma int_value_le_bytes k z :
  kind_integer k = true -> int_value k (le_bytes (kind_size k) z) = wrap_kind k z.
Proof.
  intros Hk. pose proof (kind_size_pos k Hk). unfold int_value, wrap_kind, kind_bits.
  destruct (kind_signed k); [by apply wrapS_le_val|].
  rewrite le_val_le_bytes. unfold wrapU. by rewrite Z.pow_mul_r by lia.
Qed.

Lemma wrap_kind_id k z : kind_integer k = true -> kind_holds k z -> wrap_kind k z = z.
Proof.
  intros Hk. pose proof (kind_size_pos k Hk). unfold wrap_kind, kind_holds.
  destruct (kind_signed k); [apply wrapS_id|apply wrapU_id]; unfold kind_bits; lia.
Qed.

Lemma int_value_holds k bs :
  kind_integer k = true -> length bs = kind_size k -> kind_holds k (int_value k bs).
Proof.
  intros Hk Hl. pose proof (kind_size_pos k Hk). unfold kind_holds, int_value, kind_bits.
  destruct (kind_signed k); [apply wrapS_range; lia|].
  unfold inU. rewrite Z.pow_mul_r by lia. rewrite <- Hl. apply le_val_range.
Qed.

(** Between integer kinds a conversion wraps the value around to the
    target's range, so every value the target holds is kept; the image has the
    target's size. *)
Lemma convert_integer (from to : Kind) (bs : list byte) :
  kind_integer from = true -> kind_integer to = true -> length bs = kind_size from ->
  length (convert from to bs) = kind_size to /\
  int_value to (convert from to bs) = wrap_kind to (int_value from bs) /\
  (kind_holds to (int_value from bs) -> int_value to (convert from to bs) = int_value from bs).
Proof.
  intros Hf Ht Hl.
  assert (H : length (convert from to bs) = kind_size to /\
    int_value to (convert from to bs) = wrap_kind to (int_value from bs)).
  { unfold convert. destruct (decide (from = to)) as [->|_].
    - split; [done|]. symmetry. apply wrap_kind_id; [done|]. by apply int_value_holds.
    - rewrite Ht, Hf. split; [apply length_le_bytes|by apply int_value_le_bytes]. }
  destruct H as [H1 H2]. split_and!; [done|done|]. intros Hh. rewrite H2. by apply wrap_kind_id.
Qed.

Lemma convert_integer_witness :
  length (convert KInt64 KInt16 (le_bytes 8 (-70000))) = 2%nat /\
  int_value KInt16 (convert KInt64 KInt16 (le_bytes 8 (-70000))) = wrap_kind KInt16 (-70000) /\
  (kind_holds KInt16 (-70000) -> int_value KInt16 (convert KInt64 KInt16 (le_bytes 8 (-70000))) = -70000).
Proof. apply (convert_integer KInt64 KInt16); reflexivity. Defined.

(** *** Names of types *)

Definition fold_name (e : Z * attributes) : string := ToLower (at_name (snd e)).

Lemma from_name_found m name e a :
  NoDup (map fold_name m) -> (e, a) ∈ m -> ToLower name = ToLower (at_name a) ->
  EnumElementTypeFromName_loop m name = e.
Proof.
  induction m as [|[k b] m IH]; intros Hnd Hin Hn; [by apply elem_of_nil in Hin|].
  cbn in *. apply NoDup_cons in Hnd as [Hk Hnd]. unfold EqualFold.
  apply elem_of_cons in Hin as [Heq|Hin].
  - injection Heq as -> ->. by rewrite bool_decide_eq_true_2.
  - rewrite bool_decide_eq_false_2; [by apply IH|].
    intros Hb. apply Hk. unfold fold_name at 1. cbn. rewrite <- Hb, Hn.
    apply list_elem_of_fmap. by exists (e, a).
Qed.

Lemma from_name_none m name :
  (forall e a, (e, a) ∈ m -> ToLower name <> ToLower (at_name a)) ->
  EnumElementTypeFromName_loop m name = NONE.
Proof.
  induction m as [|[k b] m IH]; intros H; [done|]. cbn. unfold EqualFold.
  rewrite bool_decide_eq_false_2 by (apply (H k); left).
  apply IH. intros e a Hin. apply (H e). by right.
Qed.

Lemma attribute_names_distinct : NoDup (map fold_name attributeMap).
Proof. apply (bool_decide_eq_true_1 _). vm_compute. reflexivity. Qed.

Lemma from_name_order m name :
  Permutation m attributeMap -> EnumElementTypeFromName_loop m name = EnumElementTypeFromName name.
Proof.
  intros Hp. assert (Hnd : NoDup (map fold_name m)).
  { assert (Hp' : Permutation (map fold_name m) (map fold_name attributeMap)) by (by apply Permutation_map).
    rewrite Hp'. apply attribute_names_distinct. }
  destruct (decide (Exists (fun e => ToLower name = fold_name e) m)) as [He|He].
  - apply Exists_exists in He as ([e a] & Hin & Hn).
    rewrite (from_name_found m name e a Hnd Hin Hn). symmetry.
    apply (from_name_found attributeMap name e a attribute_names_distinct); [by rewrite <- Hp|done].
  - rewrite Exists_exists in He. unfold EnumElementTypeFromName. rewrite !from_name_none; [done| |].
    + intros e a Hin Hn. apply He. exists (e, a). by rewrite Hp.
    + intros e a Hin Hn. apply He. by exists (e, a).
Qed.

Lemma from_name_String e : 0 <= e < 14 -> EnumElementTypeFromName (type_String e) = e.
Proof.
  intros He. assert (Hall : forallb (fun e => EnumElementTypeFromName (type_String e) =? e) (seqZ 0 14) = true)
    by (vm_compute; reflexivity).
  rewrite forallb_forall in Hall. apply Z.eqb_eq, Hall, list_elem_of_In, elem_of_seqZ. lia.
Qed.

(** The printed name of a type reads back as the type, whatever the order
    in which the loop over the map visits its entries. *)
Lemma type_name_roundtrip (m : list (Z * attributes)) (e : Z) :
  Permutation m attributeMap -> 0 <= e < 14 -> EnumElementTypeFromName_loop m (type_String e) = e.
Proof. intros Hm He. rewrite from_name_order by done. by apply from_name_String. Qed.

(** *** Shapes in text *)

Definition print_group (g : list string * Z) : string :=
  Join (fst g) "," +:+ "/" +:+ type_String (snd g).
Definition print_groups (gs : list (list string * Z)) : string := Join (map print_group gs) ":".
Definition group_shapes (g : list string * Z) : list DataShape :=
  map (fun name => mkShape name (snd g)) (fst g).

Definition name_char_ok (s : string) : Prop := no_char ":" s /\ no_char "/" s /\ no_char "," s.
Definition group_wf (g : list string * Z) : Prop :=
  fst g <> [] /\ Forall name_char_ok (fst g) /\ 0 <= snd g < 14 /\ snd g <> NONE.

Lemma type_String_plain e : 0 <= e < 14 -> no_char ":" (type_String e) /\ no_char "/" (type_String e).
Proof.
  intros He.
  assert (Hall : Forall (fun e => no_char ":" (type_String e) /\ no_char "/" (type_String e)) (seqZ 0 14)).
  { repeat constructor; try (cbn; by repeat split). }
  rewrite Forall_forall in Hall. apply Hall, elem_of_seqZ. lia.
Qed.

Lemma shapes_of_printed gs :
  Forall group_wf gs -> shapes_of_groups (map print_group gs) = Ret (concat (map group_shapes gs)).
Proof.
  induction 1 as [|[ns e] gs (Hne & Hns & He & Hnone) _ IH]; [done|]. cbn [map shapes_of_groups].
  destruct (type_String_plain e He) as [_ Hsl]. cbn [fst snd] in *.
  assert (Hsplit : Split (print_group (ns, e)) "/" = [Join ns ","; type_String e]).
  { unfold print_group. cbn [fst snd]. change (?a +:+ "/" +:+ ?b) with (Join [a; b] "/").
    apply split_Join; [done|]. repeat constructor; [|done].
    apply no_char_Join; [|done]. eapply Forall_impl; [exact Hns|]. by intros s (_ & ? & _). }
  rewrite Hsplit, from_name_String by done. rewrite (proj2 (Z.eqb_neq _ _) Hnone). rewrite IH. cbn.
  rewrite split_Join; [done|done|]. eapply Forall_impl; [exact Hns|]. by intros s (_ & _ & ?).
Qed.

(** A printed list of column groups, [names/type] joined by colons,
    parses to the shapes of its columns, in order. *)
Lemma DataShapes_roundtrip (gs : list (list string * Z)) :
  gs <> [] -> Forall group_wf gs ->
  DataShapesFromInputString (print_groups gs) = Ret (concat (map group_shapes gs)).
Proof.
  intros Hne Hgs. unfold DataShapesFromInputString, print_groups.
  rewrite split_Join; [by apply shapes_of_printed|by destruct gs|].
  apply Forall_map. eapply Forall_impl; [exact Hgs|]. intros [ns e] (_ & Hns & He & _).
  unfold print_group. cbn [fst snd] in *. rewrite !no_char_app. split_and!; [|done|by apply type_String_plain].
  apply no_char_Join; [|done]. eapply Forall_impl; [exact Hns|]. by intros s (? & _ & _).
Qed.

Lemma DataShapes_roundtrip_witness :
  DataShapesFromInputString (print_groups [(["Epoch"], INT64); (["Open"; "High"], FLOAT32)])%string =
  Ret [mkShape "Epoch" INT64; mkShape "Open" FLOAT32; mkShape "High" FLOAT32].
Proof.
  apply DataShapes_roundtrip; [done|]. repeat constructor; try (by vm_compute); cbn; try (by repeat split).
Defined.
