(* ===== verification/Generics.v ===== *)
(** * Generic sets, resizing and comparison (utils/io/generics.go)

    The reflective containers of the data layer: [AnySet] on any hashable
    element type, [DownSizeSlice] on any slice, and the comparison of two
    values of unknown numeric types. *)

From S2P Require Export DataTypes.

(** ** AnySet *)

Section anyset.
Context {A : Type} `{Countable A}.

Record AnySet := mkAnySet { orderedElems : list A; mappedElems : gset A }.

(** [None] stands for the nil pointer that comes with the error. *)
Definition NewAnySet (elems : list A) : option AnySet :=
  match elems with
  | [] => None
  | _ => Some (mkAnySet elems (list_to_set elems))
  end.

Definition as_Add (elem : A) (s : AnySet) : AnySet :=
  if decide (elem ∈ mappedElems s) then s
  else mkAnySet (orderedElems s ++ [elem]) (mappedElems s ∪ {[elem]}).

Definition as_Del (elem : A) (s : AnySet) : AnySet :=
  if decide (elem ∈ mappedElems s) then
    let m := mappedElems s ∖ {[elem]} in
    mkAnySet (filter (fun e => e ∈ m) (orderedElems s)) m
  else s.

(** What a call on a slice gives: the elements, an error in their place, or
    nil for the nil set. *)
Inductive set_result := SetElems (l : list A) | SetError | SetNil.

Definition as_Intersect (s : option AnySet) (input : list A) : set_result :=
  match s with
  | None => SetNil
  | Some s =>
      match input with
      | [] => SetError
      | _ => SetElems (filter (fun e => e ∈ mappedElems s) input)
      end
  end.

(** [reflect.ValueOf(x).Len()] *)
Definition reflect_Len (r : set_result) : outcome (list A) :=
  match r with
  | SetElems l => Ret l
  | SetError => Panic "reflect: call of reflect.Value.Len on ptr Value"
  | SetNil => Panic "reflect: call of reflect.Value.Len on zero Value"
  end.

Definition as_Subtract (s : option AnySet) (input : list A) : outcome (list A) :=
  match input with
  | [] =>
      match s with
      | None => Panic "invalid memory address or nil pointer dereference"
      | Some s => Ret (orderedElems s)
      end
  | _ =>
      let! intersection := reflect_Len (as_Intersect s input) in
      match s with
      | None => Panic "invalid memory address or nil pointer dereference"
      | Some s => Ret (filter (fun e => e ∉ (list_to_set intersection : gset A)) (orderedElems s))
      end
  end.

Definition as_Contains (s : option AnySet) (input : list A) : outcome bool :=
  match input with
  | [] => Ret false
  | _ =>
      let! intersection := reflect_Len (as_Intersect s input) in
      Ret (length intersection =? length input)%nat
  end.

(** *** What the operations compute *)

Record as_wf (s : AnySet) : Prop := {
  wf_mapped : forall e, e ∈ mappedElems s <-> e ∈ orderedElems s;
}.

Lemma NewAnySet_wf elems s : NewAnySet elems = Some s -> as_wf s /\ orderedElems s = elems.
Proof.
  destruct elems as [|e es]; [done|]. intros [= <-]. split; [|done]. split.
  intros x. cbn [mappedElems orderedElems]. by rewrite elem_of_union, elem_of_singleton, elem_of_list_to_set, elem_of_cons.
Qed.

Lemma as_Contains_spec s input :
  as_wf s -> input <> [] ->
  as_Contains (Some s) input = Ret (bool_decide (Forall (fun e => e ∈ orderedElems s) input)).
Proof.
  intros [Hm] Hne. destruct input as [|x input]; [done|]. set (l := x :: input).
  change (Ret (length (filter (fun e => e ∈ mappedElems s) l) =? length l)%nat =
    Ret (bool_decide (Forall (fun e => e ∈ orderedElems s) l))). f_equal.
  destruct (decide (Forall (fun e => e ∈ orderedElems s) l)) as [Hall|Hall].
  - rewrite bool_decide_eq_true_2 by done. rewrite filter_all; [apply Nat.eqb_refl|].
    eapply Forall_impl; [exact Hall|]. intros e. apply Hm.
  - rewrite bool_decide_eq_false_2 by done. apply Nat.eqb_neq. intros Hlen. apply Hall.
    apply Forall_forall. intros e He. apply Hm.
    destruct (decide (e ∈ mappedElems s)) as [?|Hn]; [done|exfalso].
    pose proof (length_filter_lt (fun e => e ∈ mappedElems s) l e He Hn) as Hlt. lia.
Qed.

Lemma as_Subtract_spec s input :
  as_wf s ->
  as_Subtract (Some s) input = Ret (filter (fun e => e ∉ input) (orderedElems s)).
Proof.
  intros [Hm]. destruct input as [|x input].
  { cbn. f_equal. rewrite filter_all; [done|]. apply Forall_forall. intros e _ H0. by apply elem_of_nil in H0. }
  set (l := x :: input). change (Ret (filter (fun e => e ∉ (list_to_set
    (filter (fun e => e ∈ mappedElems s) l) : gset A)) (orderedElems s)) =
    Ret (filter (fun e => e ∉ l) (orderedElems s))). f_equal.
  apply filter_ext_in. intros e He. rewrite elem_of_list_to_set, list_elem_of_filter.
  apply Hm in He. tauto.
Qed.
End anyset.
Arguments AnySet A {_ _}.
Arguments set_result A : clear implicits.

(** The set operations agree with membership in the list the set was made
    from: it contains a non-empty list when all its elements are among them,
    and subtracting a list leaves exactly the others, in their order. *)
Lemma AnySet_operations {A} `{Countable A} (elems input : list A) :
  elems <> [] -> input <> [] ->
  as_Contains (NewAnySet elems) input = Ret (bool_decide (Forall (fun e => e ∈ elems) input)) /\
  as_Subtract (NewAnySet elems) input = Ret (filter (fun e => e ∉ input) elems).
Proof.
  intros He Hi. destruct (NewAnySet elems) as [s|] eqn:Hs; [|by destruct elems].
  destruct (NewAnySet_wf _ _ Hs) as [Hwf <-]. split.
  - by apply as_Contains_spec.
  - by apply as_Subtract_spec.
Qed.

Lemma AnySet_operations_witness :
  as_Contains (NewAnySet [1; 2; 3]) [3; 1] = Ret true /\
  as_Subtract (NewAnySet [1; 2; 3; 2]) [3; 1] = Ret [2; 2].
Proof.
  split.
  - apply (proj1 (AnySet_operations [1; 2; 3] [3; 1] ltac:(done) ltac:(done))).
  - apply (proj2 (AnySet_operations [1; 2; 3; 2] [3; 1] ltac:(done) ltac:(done))).
Defined.

(** ** DownSizeSlice: [None] is the nil interface. *)

Definition DownSizeSlice (i_slice : option column) (newLen direction : Z) : outcome (option column) :=
  match i_slice with
  | None => Fail (ErrMsg "Unable to resize non-slice type")
  | Some c =>
      let oldLen := Z.of_nat (col_len c) in
      if oldLen <=? newLen then Ret i_slice
      else
        let ibase := if direction =? LAST then oldLen - newLen else 0 in
        Ret (Some (mkCol (col_kind c) (take (Z.to_nat newLen) (drop (Z.to_nat ibase) (col_elems c)))))
  end.

(** ** Comparison of values *)

Definition EQ : Z := 1.
Definition NEQ : Z := 2.
Definition LT : Z := 3.
Definition LTE : Z := 4.
Definition GT : Z := 5.
Definition GTE : Z := 6.

Definition StringToComparisonOperatorEnum (opstr : string) : Z :=
  if decide (opstr = "=") then EQ
  else if bool_decide (opstr = "<>" \/ opstr = "!=") then NEQ
  else if decide (opstr = "<") then LT
  else if decide (opstr = "<=") then LTE
  else if decide (opstr = ">") then GT
  else if decide (opstr = ">=") then GTE
  else 0.

Definition co_String (co : Z) : string :=
  if co =? EQ then "=" else if co =? NEQ then "!=" else if co =? LT then "<"
  else if co =? LTE then "<=" else if co =? GT then ">" else if co =? GTE then ">=" else "NONE".

#[export] Instance goval_eq_dec : EqDecision goval.
Proof. solve_decision. Defined.

Definition is_number (v : goval) : bool := bool_decide (v_kind v ∈ [KInt; KInt32; KInt64; KFloat32; KFloat64]).

Definition GetValueAsFloat64 (v : goval) : outcome float64 :=
  if is_number v then
    match v_kind v with
    | KFloat32 => Ret (round_to 53 1024 (float_value KFloat32 (v_image v)))
    | k => Ret (float_value k (v_image v))
    end
  else Fail (ErrMsg "Not a float").

Definition GetValueAsInt64 (v : goval) : outcome Z :=
  if is_number v then
    match v_kind v with
    | KFloat32 | KFloat64 => Ret (float_to_int KInt64 (float_value (v_kind v) (v_image v)))
    | k => Ret (int_value k (v_image v))
    end
  else Fail (ErrMsg "Not an int").

(** [reflect.DeepEqual] of two values: the same type and equal; a NaN is not
    equal to itself, and the zeros are. *)
Definition DeepEqual (l r : goval) : bool :=
  bool_decide (v_kind l = v_kind r) &&
  match v_kind l with
  | KFloat32 | KFloat64 => SFeqb (float_value (v_kind l) (v_image l)) (float_value (v_kind r) (v_image r))
  | _ => bool_decide (v_image l = v_image r)
  end.

Definition compare_floats (op : Z) (l r : float64) : option bool :=
  if op =? LT then Some (SFltb l r) else if op =? LTE then Some (SFleb l r)
  else if op =? GT then Some (SFltb r l) else if op =? GTE then Some (SFleb r l) else None.
Definition compare_ints (op l r : Z) : option bool :=
  if op =? LT then Some (l <? r) else if op =? LTE then Some (l <=? r)
  else if op =? GT then Some (r <? l) else if op =? GTE then Some (r <=? l) else None.

Definition GenericComparison (left right : option goval) (op : Z) : outcome bool :=
  match left, right with
  | Some l, Some r =>
      if op =? EQ then Ret (DeepEqual l r)
      else if op =? NEQ then Ret (negb (DeepEqual l r))
      else
        let mismatch := Fail (ErrMsg "Left and right values do not match") in
        let ints :=
          match GetValueAsInt64 l with
          | Ret l_int =>
              match GetValueAsInt64 r with
              | Ret r_int => Ret (default false (compare_ints op l_int r_int))
              | _ => mismatch
              end
          | _ => Ret false
          end in
        match GetValueAsFloat64 l with
        | Ret l_float =>
            match GetValueAsFloat64 r with
            | Ret r_float =>
                match compare_floats op l_float r_float with
                | Some b => Ret b
                | None => ints
                end
            | _ => mismatch
            end
        | _ => ints
        end
  | _, _ => Fail (ErrMsg "nil comparison value")
  end.

(** 64-bit integers are compared as floats: a number above 2^53 is not
    less than its successor, and not greater either. *)
Lemma GenericComparison_int64_loss :
  let v z := Some (mkVal KInt64 (le_bytes 8 z)) in
  GenericComparison (v (2 ^ 53)) (v (2 ^ 53 + 1)) LT = Ret false /\
  GenericComparison (v (2 ^ 53)) (v (2 ^ 53 + 1)) GTE = Ret true /\
  GenericComparison (v (2 ^ 53)) (v (2 ^ 53 + 1)) EQ = Ret false.
Proof. vm_compute. done. Qed.
