(* ===== verification/TimeIndex.v ===== *)
(** * Record positions (utils/io/timeindex.go, and the file size of utils/io/metadata.go)

    A bucket file holds one year; a record's slot is computed from its
    time.  [tz] is the configured system zone, [local] the zone of the host,
    which the file size is computed in.  A zero timeframe, on which the
    divisions of the code panic, is not a value the definitions are meant for:
    every theorem assumes a positive one. *)

From S2P Require Export Timeframe GoFloat.

Definition Headersize : Z := 37024.

Section timeindex.
Context (tz : Location).

(** The year is an int16 where it comes from, the [Year] of a file. *)
Definition IndexToTime (index tf year : Z) : Time :=
  let t0 := Date year 1 1 0 0 0 0 tz in
  if tf =? Day then AddDate t0 0 0 index
  else time_Add t0 (int64 (tf * (index - 1))).

Definition ToSystemTimezone (t : Time) : Time := In_loc t tz.

Definition TimeToIndex (t : Time) (tf : Z) : Z :=
  let tLocal := ToSystemTimezone t in
  if tf =? Day then YearDay tLocal - 1
  else 1 + Z.quot (time_Sub tLocal (Date (Year tLocal) 1 1 0 0 0 0 (t_loc tLocal))) tf.

(** [time.Unix] makes the instant in the host's zone, which the conversion
    to the system zone then replaces. *)
Definition EpochToIndex (epoch tf : Z) : Z := TimeToIndex (time_Unix epoch 0 UTC) tf.

Definition TimeToOffset (t : Time) (tf recordSize : Z) : Z :=
  int64 ((TimeToIndex t tf - 1) * recordSize + Headersize).

Definition IndexToOffset (index recordSize : Z) : Z :=
  int64 ((index - 1) * recordSize + Headersize).

Definition EpochToOffset (epoch tf recordSize : Z) : Z :=
  IndexToOffset (EpochToIndex epoch tf) recordSize.
End timeindex.

(** ** Interval ticks of variable records *)

Definition ticksPerIntervalDivSecsPerDay : float64 := S754_finite false 6832127434707241 (-37).

Definition IndexToTimeDepr (index intervalsPerDay year : Z) : Time :=
  let SecondOfYear := float64_to_int64
    (fdiv (fmul (float64_of_Z (index - 1)) (float64_of_Z (24 * 60 * 60)))
          (float64_of_Z intervalsPerDay)) in
  time_Add (Date year 1 1 0 0 0 0 UTC) (int64 (SecondOfYear * Second)).

(** [Duration.Seconds] *)
Definition duration_Seconds (d : Z) : float64 :=
  fadd (float64_of_Z (Z.quot d Second))
       (fdiv (float64_of_Z (Z.rem d Second)) (float64_of_Z Second)).

Definition GetIntervalTicks32Bit (ts : Time) (index intervalsPerDay : Z) : Z :=
  let baseTime := IndexToTimeDepr index intervalsPerDay (int16 (Year ts)) in
  let seconds := duration_Seconds (time_Sub ts baseTime) in
  let ticksPerSecond := fmul (float64_of_Z intervalsPerDay) ticksPerIntervalDivSecsPerDay in
  float64_to_uint32 (fmul ticksPerSecond seconds).

(** ** File sizes *)

Section filesize.
Context (local : Location).

Definition daysInYear (year : Z) : Z := YearDay (Date year 12 31 0 0 0 0 local).

Definition nanosecondsInYear (year : Z) : Z :=
  time_Sub (Date (year + 1) 1 1 0 0 0 0 local) (Date year 1 1 0 0 0 0 local).

Definition FileSize (tf year recordSize : Z) : Z :=
  int64 (Headersize + Z.quot (nanosecondsInYear year) tf * recordSize).
End filesize.

Example TimeToIndex_min : TimeToIndex UTC (Date 2017 1 1 0 5 30 0 UTC) Minute = 6.
Proof. reflexivity. Qed.
Example FileSize_min : FileSize UTC Minute 2016 32 = 37024 + 366 * 1440 * 32.
Proof. reflexivity. Qed.
Example ticks_half : GetIntervalTicks32Bit (Date 2017 1 1 0 5 30 0 UTC) 6 1440 = 2147483648.
Proof. vm_compute. reflexivity. Qed.

(** ** Positions and times *)

(** A zone whose years lie between their [Date] starts and are about a year
    long. *)
Class SaneYears (loc : Location) : Prop := {
  sane_aligned :: YearAligned loc;
  sane_length y :
    0 <= t_ns (year_start loc (y + 1)) - t_ns (year_start loc y) <= 367 * Day;
}.

#[export] Instance FixedZone_sane off : SaneYears (FixedZone off).
Proof.
  split; [apply _|]. intros y. unfold year_start. rewrite !Date_fixed_sec.
  pose proof (days_before_year_succ y) as Hs.
  unfold Day, Hour, Minute, Second, secPerDay, nsPerSec. destruct (isLeap y); lia.
Qed.
#[export] Instance UTC_sane : SaneYears UTC := FixedZone_sane 0.

Lemma fixed_year_length off y :
  t_ns (year_start (FixedZone off) (y + 1)) - t_ns (year_start (FixedZone off) y) =
  (if isLeap y then 366 else 365) * Day.
Proof.
  unfold year_start. rewrite !Date_fixed_sec, days_before_year_succ.
  unfold Day, Hour, Minute, Second, secPerDay, nsPerSec. destruct (isLeap y); lia.
Qed.

(** The nanoseconds from the start of the local year. *)
Definition year_offset (tz : Location) (t : Time) : Z :=
  t_ns t - t_ns (year_start tz (Year (In_loc t tz))).

Section intraday.
Context {tz : Location} `{!SaneYears tz}.
Implicit Types (t : Time) (tf index year : Z).

Lemma year_offset_range t :
  0 <= year_offset tz t < 367 * Day /\
  year_offset tz t < t_ns (year_start tz (Year (In_loc t tz) + 1))
                     - t_ns (year_start tz (Year (In_loc t tz))).
Proof.
  unfold year_offset. pose proof (Year_bounds (loc := tz) (t_ns t)) as Hb.
  change (mkTime (t_ns t) tz) with (In_loc t tz) in Hb.
  pose proof (sane_length (Year (In_loc t tz))). lia.
Qed.

Lemma TimeToIndex_quot t tf :
  tf <> Day -> 0 < tf -> TimeToIndex tz t tf = 1 + year_offset tz t / tf.
Proof.
  intros Hd Htf. unfold TimeToIndex. rewrite (proj2 (Z.eqb_neq _ _) Hd).
  pose proof (year_offset_range t) as [Ho _].
  change (time_Sub (ToSystemTimezone tz t) _)
    with (Z.max (- 2 ^ 63) (Z.min (2 ^ 63 - 1) (year_offset tz t))).
  unfold Day, Hour, Minute, Second in Ho.
  rewrite Z.min_r, Z.max_r, Z.quot_div_nonneg by lia. done.
Qed.

Lemma IndexToTime_add index tf year :
  tf <> Day -> inS 64 (tf * (index - 1)) ->
  t_ns (IndexToTime tz index tf year) = t_ns (year_start tz year) + tf * (index - 1).
Proof.
  intros Hd Hov. unfold IndexToTime. rewrite (proj2 (Z.eqb_neq _ _) Hd).
  cbn [t_ns time_Add]. rewrite wrapS_id by (done || lia). done.
Qed.

(** C30: the slot of an instant: below a day, the time of the slot's index is
    at or before the instant and the next slot's time is after it, and the
    slot belongs to the file of the instant's local year. *)
Theorem TimeToIndex_interval (t : Time) (tf : Z) :
  tf <> Day -> 0 < tf < 2 ^ 62 ->
  let i := TimeToIndex tz t tf in
  let y := Year (ToSystemTimezone tz t) in
  1 <= i /\
  t_ns (IndexToTime tz i tf y) <= t_ns t < t_ns (IndexToTime tz (i + 1) tf y).
Proof.
  intros Hd Htf i y. pose proof (year_offset_range t) as [Ho _].
  unfold i. rewrite TimeToIndex_quot by lia.
  pose proof (Z.div_pos (year_offset tz t) tf ltac:(lia) ltac:(lia)).
  pose proof (Z.mul_div_le (year_offset tz t) tf ltac:(lia)).
  pose proof (Z.mul_succ_div_gt (year_offset tz t) tf ltac:(lia)).
  unfold Day, Hour, Minute, Second in Ho.
  rewrite !IndexToTime_add by (done || unfold inS; nia).
  unfold year_offset in *. subst y. unfold ToSystemTimezone. split; nia.
Qed.

(** The slot of a slot's own time is that slot, for every slot of the
    year. *)
Lemma TimeToIndex_IndexToTime (index tf year : Z) :
  tf <> Day -> 0 < tf -> 1 <= index ->
  tf * (index - 1) < t_ns (year_start tz (year + 1)) - t_ns (year_start tz year) ->
  TimeToIndex tz (IndexToTime tz index tf year) tf = index.
Proof.
  intros Hd Htf Hi Hy. pose proof (sane_length year) as Hlen.
  unfold Day, Hour, Minute, Second in Hlen.
  assert (Hns : t_ns (IndexToTime tz index tf year) = t_ns (year_start tz year) + tf * (index - 1))
    by (apply IndexToTime_add; [done|unfold inS; nia]).
  rewrite TimeToIndex_quot by done. unfold year_offset, In_loc. rewrite Hns.
  rewrite (Year_unique _ year) by nia.
  replace (_ + _ - _) with ((index - 1) * tf) by lia. rewrite Z.div_mul by lia. lia.
Qed.

(** The slots of two instants of one local year are ordered as the
    instants are, and equal slots mean less than a timeframe between them. *)
Lemma TimeToIndex_order (t u : Time) (tf : Z) :
  tf <> Day -> 0 < tf -> t_ns t <= t_ns u ->
  Year (ToSystemTimezone tz t) = Year (ToSystemTimezone tz u) ->
  TimeToIndex tz t tf <= TimeToIndex tz u tf /\
  (TimeToIndex tz t tf = TimeToIndex tz u tf -> t_ns u - t_ns t < tf).
Proof.
  intros Hd Htf Htu Hy. rewrite !TimeToIndex_quot by done.
  unfold ToSystemTimezone in Hy.
  assert (Hle : year_offset tz t <= year_offset tz u) by (unfold year_offset; rewrite Hy; lia).
  pose proof (Z.div_le_mono _ _ tf Htf Hle).
  pose proof (Z.div_mod (year_offset tz t) tf). pose proof (Z.div_mod (year_offset tz u) tf).
  pose proof (Z.mod_pos_bound (year_offset tz t) tf Htf).
  pose proof (Z.mod_pos_bound (year_offset tz u) tf Htf).
  split; [lia|]. intros Heq.
  assert (Heq' : year_offset tz t / tf = year_offset tz u / tf) by lia.
  unfold year_offset in *. rewrite Hy in *. nia.
Qed.
End intraday.

Lemma TimeToIndex_interval_witness :
  let t := Date 2016 12 31 23 59 59 0 (FixedZone 3600) in
  let tz := FixedZone (-18000) in
  1 <= TimeToIndex tz t Minute /\
  t_ns (IndexToTime tz (TimeToIndex tz t Minute) Minute (Year (ToSystemTimezone tz t))) <= t_ns t
    < t_ns (IndexToTime tz (TimeToIndex tz t Minute + 1) Minute (Year (ToSystemTimezone tz t))).
Proof.
  apply (TimeToIndex_interval (tz := FixedZone (-18000))); vm_compute; intuition discriminate.
Defined.

Lemma TimeToIndex_IndexToTime_witness :
  TimeToIndex UTC (IndexToTime UTC 527040 Minute 2016) Minute = 527040.
Proof.
  apply TimeToIndex_IndexToTime; vm_compute; try reflexivity; intros H; discriminate H.
Defined.

Lemma TimeToIndex_order_witness :
  let t := Date 2016 2 29 23 59 1 0 UTC in
  let u := Date 2016 2 29 23 59 59 0 UTC in
  TimeToIndex UTC t Minute <= TimeToIndex UTC u Minute /\
  (TimeToIndex UTC t Minute = TimeToIndex UTC u Minute -> t_ns u - t_ns t < Minute).
Proof.
  apply TimeToIndex_order; vm_compute; try reflexivity; intros H; discriminate H.
Defined.

(** ** The slots of a file *)

(** C31: For every timeframe below a day that divides it the record of an
    instant lies behind the header and inside the file of its local year. The
    years of the system zone and of the host's zone, in which the size of the
    file is computed, need not begin together: it is enough that the local year
    is, from its start to the next, not longer than its 365 or 366 days in the
    system zone and not shorter in the host's, as they are in zones that end
    every year with the offset they began it with. *)
Theorem TimeToOffset_in_file {tz : Location} `{!SaneYears tz} (local : Location) (t : Time) (tf recordSize : Z) :
  Second <= tf < Day -> (tf | Day) -> 0 < recordSize < 2 ^ 31 ->
  let year := Year (ToSystemTimezone tz t) in
  let days := if isLeap year then 366 else 365 in
  t_ns (year_start tz (year + 1)) - t_ns (year_start tz year) <= days * Day ->
  days * Day <= t_ns (year_start local (year + 1)) - t_ns (year_start local year) <= 367 * Day ->
  Headersize <= TimeToOffset tz t tf recordSize /\
  TimeToOffset tz t tf recordSize + recordSize <= FileSize local tf year recordSize.
Proof.
  intros Htf [k Hk] Hrs y days Hsys Hhost. change (ToSystemTimezone tz t) with (In_loc t tz) in y.
  assert (Hnd : tf <> Day) by lia. assert (Hpos : 0 < tf) by (unfold Second in Htf; lia).
  assert (Hk0 : 0 < k) by (unfold Day, Hour, Minute, Second in *; nia).
  pose proof (year_offset_range (tz := tz) t) as [Ho1 Ho2]. fold y in Ho2.
  set (o := year_offset tz t) in *.
  set (size := t_ns (year_start local (y + 1)) - t_ns (year_start local y)) in *.
  assert (Hdays : 365 <= days <= 366) by (unfold days; destruct (isLeap y); lia).
  assert (Hyear : nanosecondsInYear local y = size).
  { unfold nanosecondsInYear, time_Sub. fold (year_start local (y + 1)) (year_start local y) size.
    unfold Day, Hour, Minute, Second in Hhost. lia. }
  assert (Hq : 0 <= o / tf < days * k).
  { split; [apply Z.div_pos; lia|]. apply Z.div_lt_upper_bound; [done|]. rewrite Hk in Hsys. nia. }
  assert (Hs : days * k <= size / tf <= 367 * k).
  { rewrite Hk in Hhost. split; [apply Z.div_le_lower_bound|apply Z.div_le_upper_bound]; nia. }
  assert (Hks : k <= 86400) by (unfold Day, Hour, Minute, Second in *; nia).
  unfold TimeToOffset. rewrite TimeToIndex_quot by done. fold o.
  replace (1 + o / tf - 1) with (o / tf) by lia.
  unfold FileSize. rewrite Hyear, Z.quot_div_nonneg by (unfold Day, Hour, Minute, Second in *; lia).
  assert (Hprod : 0 <= (o / tf) * recordSize /\ (o / tf + 1) * recordSize <= (size / tf) * recordSize
                  /\ (size / tf) * recordSize <= 367 * 86400 * 2 ^ 31) by (split_and!; nia).
  unfold Headersize in *. rewrite !wrapS_id by (try lia; unfold inS; lia). lia.
Qed.

(** The system in UTC, and the host in a zone an hour ahead that has an hour
    of summer time from the end of March to the end of October of 2016. *)
Lemma TimeToOffset_in_file_witness :
  let host := mkLocation 3600 [(1459040400, 7200); (1477789200, 3600)] in
  let t := Date 2016 12 31 23 59 59 0 UTC in
  Headersize <= TimeToOffset UTC t (5 * Minute) 32 /\
  TimeToOffset UTC t (5 * Minute) 32 + 32 <= FileSize host (5 * Minute) (Year (ToSystemTimezone UTC t)) 32.
Proof.
  cbv zeta. apply (TimeToOffset_in_file (mkLocation 3600 [(1459040400, 7200); (1477789200, 3600)]));
    [vm_compute; intuition discriminate|exists 288; reflexivity|lia|vm_compute; intuition discriminate|vm_compute; intuition discriminate].
Defined.

(** Where the host's zone has changed its offset for good within the year, as
    that of Moscow in March of 2011, the host's year is an hour short, and
    the records of the last hour lie behind the end of the file. *)
Lemma short_year_outside :
  let host := mkLocation 10800 [(1301180400, 14400)] in
  let t := Date 2011 12 31 23 30 0 0 UTC in
  FileSize host Minute 2011 32 < TimeToOffset UTC t Minute 32.
Proof. reflexivity. Qed.

(** ** Positions and files *)

Section file_bounds.
Context (off off' : Z).
#[local] Abbreviation tz := (FixedZone off).
#[local] Abbreviation local := (FixedZone off').

Lemma nanosecondsInYear_fixed year :
  nanosecondsInYear local year = (if isLeap year then 366 else 365) * Day.
Proof.
  unfold nanosecondsInYear, time_Sub. fold (year_start local (year + 1)) (year_start local year).
  rewrite fixed_year_length. unfold Day, Hour, Minute, Second. destruct (isLeap year); lia.
Qed.

Lemma YearDay_range t : 1 <= YearDay t <= (if isLeap (Year t) then 366 else 365).
Proof.
  unfold YearDay, Year, yday_of_day, year_of_day. pose proof (year_yday_spec (local_day t)) as Hs.
  destruct (year_yday (local_day t)). cbn. lia.
Qed.

(** In a daily file the slots are one record too low: the record of an
    instant is before the end of the header exactly on 1 January, and on no
    day is it the last record of the file. *)
Lemma TimeToOffset_daily (t : Time) (recordSize : Z) :
  0 < recordSize < 2 ^ 31 ->
  (TimeToOffset tz t Day recordSize < Headersize <-> YearDay (ToSystemTimezone tz t) = 1) /\
  TimeToOffset tz t Day recordSize + 2 * recordSize
    <= FileSize local Day (Year (ToSystemTimezone tz t)) recordSize.
Proof.
  intros Hrs. unfold TimeToOffset, TimeToIndex. rewrite Z.eqb_refl. cbv zeta.
  pose proof (YearDay_range (ToSystemTimezone tz t)) as Hyd.
  set (yd := YearDay (ToSystemTimezone tz t)) in *.
  unfold FileSize. rewrite nanosecondsInYear_fixed.
  set (y := Year (ToSystemTimezone tz t)) in *.
  rewrite Z.quot_mul by (unfold Day; done).
  assert (Hd : (if isLeap y then 366 else 365) <= 366) by (destruct (isLeap y); lia).
  set (days := if isLeap y then 366 else 365) in *. unfold Headersize in *.
  assert (Hb : yd * recordSize <= days * recordSize /\ recordSize <= yd * recordSize
               /\ days * recordSize <= 366 * 2 ^ 31) by (split_and!; nia).
  rewrite !wrapS_id by (try lia; unfold inS; lia). split; nia.
Qed.

(** The time of a daily slot is the local midnight that begins the
    instant's day, and the slot's index counts days from 0. *)
Lemma IndexToTime_daily (t : Time) :
  t_loc t = tz ->
  let i := TimeToIndex tz t Day in
  0 <= i < (if isLeap (Year t) then 366 else 365) /\
  IndexToTime tz i Day (Year t) = Date (Year t) (Month t) (Day_of_month t) 0 0 0 0 tz.
Proof.
  intros Hloc i. destruct t as [ns loc]. cbn [t_loc] in Hloc. subst loc.
  set (t := mkTime ns tz) in *.
  assert (Hi : i = YearDay t - 1) by reflexivity.
  pose proof (YearDay_range t) as Hyd.
  split; [lia|]. unfold IndexToTime. rewrite Z.eqb_refl. cbv zeta.
  rewrite (midnight_time off t) by reflexivity.
  fold (year_start tz (Year t)). rewrite year_start_AddDate.
  rewrite Hi, YearDay_local.
  replace (days_before_year (Year t) + (local_day t - days_before_year (Year t) + 1 - 1))
    with (local_day t) by lia.
  reflexivity.
Qed.
End file_bounds.

Lemma TimeToOffset_daily_witness :
  let t := Date 2017 1 1 12 0 0 0 UTC in
  (TimeToOffset UTC t Day 32 < Headersize <-> YearDay (ToSystemTimezone UTC t) = 1) /\
  TimeToOffset UTC t Day 32 + 2 * 32
    <= FileSize UTC Day (Year (ToSystemTimezone UTC t)) 32.
Proof. apply (TimeToOffset_daily 0 0); lia. Defined.

Lemma IndexToTime_daily_witness :
  let t := Date 2016 12 31 12 0 0 0 (FixedZone (-18000)) in
  0 <= TimeToIndex (FixedZone (-18000)) t Day < (if isLeap (Year t) then 366 else 365) /\
  IndexToTime (FixedZone (-18000)) (TimeToIndex (FixedZone (-18000)) t Day) Day (Year t) =
  Date (Year t) (Month t) (Day_of_month t) 0 0 0 0 (FixedZone (-18000)).
Proof. apply IndexToTime_daily. reflexivity. Defined.
