(* ===== verification/ColumnSeries.v ===== *)
(** * Column series (utils/io/columnseries.go, generatedMethods.go)

    Named columns in an order, the form in which query results and data to be
    written travel.  A column is nil ([None]) or a slice of numbers. *)

From S2P Require Export Generics TimeIndex.

#[export] Instance DataShape_countable : Countable DataShape.
Proof.
  refine (inj_countable' (fun d => (ds_Name d, ds_Type d)) (fun '(n, t) => mkShape n t) _). by intros [].
Defined.

(** ** State *)

Abbreviation iface := (option column).

Record ColumnSeries := mkCS {
  columns : gmap string iface;
  orderedNames : list string;
  candleAttributes : Z;
  nameIncrement : gmap string Z;
}.

Definition set_columns (m : gmap string iface) (cs : ColumnSeries) : ColumnSeries :=
  mkCS m (orderedNames cs) (candleAttributes cs) (nameIncrement cs).
Definition set_names (ns : list string) (cs : ColumnSeries) : ColumnSeries :=
  mkCS (columns cs) ns (candleAttributes cs) (nameIncrement cs).
Definition set_column (name : string) (c : iface) (cs : ColumnSeries) : ColumnSeries :=
  set_columns (<[name := c]> (columns cs)) cs.

Definition iface_kind (c : iface) : Kind := match c with Some c => col_kind c | None => KInvalid end.
(** [reflect.ValueOf(c).Len()] *)
Definition iface_len (c : iface) : outcome nat :=
  match c with
  | Some c => Ret (col_len c)
  | None => Panic "reflect: call of reflect.Value.Len on zero Value"
  end.

Definition NewColumnSeries : ColumnSeries := mkCS ∅ [] 0 ∅.

Definition Exists_col (targetName : string) (cs : ColumnSeries) : bool :=
  bool_decide (is_Some (columns cs !! targetName)).
Definition GetByName (name : string) (cs : ColumnSeries) : iface :=
  match columns cs !! name with Some c => c | None => None end.
Definition GetColumn (name : string) (cs : ColumnSeries) : iface := GetByName name cs.

(** A type assertion [.([]int64)], [.([]int32)] *)
Definition as_int64s (c : iface) : outcome (list Z) :=
  match c with
  | Some c => if decide (col_kind c = KInt64) then Ret (col_int64s c) else Panic "interface conversion"
  | None => Panic "interface conversion"
  end.
Definition as_int32s (c : iface) : outcome (list Z) :=
  match c with
  | Some c => if decide (col_kind c = KInt32) then Ret (col_int32s c) else Panic "interface conversion"
  | None => Panic "interface conversion"
  end.

Definition GetEpoch (cs : ColumnSeries) : outcome (list Z) :=
  match GetByName "Epoch" cs with
  | None => Ret []
  | c => as_int64s c
  end.

(** [GetDataShapes]: the types are those of the slices. *)
Definition cs_shape (cs : ColumnSeries) (name : string) : DataShape :=
  mkShape name (GetElementType (iface_kind (GetByName name cs))).
Definition cs_GetDataShapes (cs : ColumnSeries) : list DataShape := map (cs_shape cs) (orderedNames cs).

Definition cs_Len (cs : ColumnSeries) : outcome nat :=
  match orderedNames cs with
  | [] => Ret 0%nat
  | n :: _ => iface_len (GetByName n cs)
  end.

Definition cs_IsEmpty (cs : ColumnSeries) : bool := bool_decide (orderedNames cs = []).
Definition GetNumColumns (cs : ColumnSeries) : nat :=
  if cs_IsEmpty cs then 0%nat else length (orderedNames cs).

(** The times of the rows: seconds, with nanoseconds where there is such a
    column; [ns[i]] panics when that is shorter. *)
Definition times_of (tz : Location) (epochs : list Z) (ns : option (list Z)) : outcome (list Time) :=
  match ns with
  | None => Ret (map (fun secs => ToSystemTimezone tz (time_Unix secs 0 UTC)) epochs)
  | Some ns =>
      if (length epochs <=? length ns)%nat
      then Ret (zip_with (fun secs n => ToSystemTimezone tz (time_Unix secs n UTC)) epochs ns)
      else Panic "index out of range"
  end.
Definition cs_GetTime (tz : Location) (cs : ColumnSeries) : outcome (list Time) :=
  let! ep := as_int64s (GetColumn "Epoch" cs) in
  match GetColumn "Nanoseconds" cs with
  | None => times_of tz ep None
  | c => let! ns := as_int32s c in times_of tz ep (Some ns)
  end.

(** ** Changing the set of columns *)

(** A name that is taken gets a number behind it. *)
Definition AddColumn (name : string) (columnData : iface) (cs : ColumnSeries) : string * ColumnSeries :=
  if Exists_col name cs then
    let n := match nameIncrement cs !! name with None => 0 | Some k => int64 (k + 1) end in
    let name' := name +:+ Itoa n in
    (name', mkCS (<[name' := columnData]> (columns cs)) (orderedNames cs ++ [name'])
              (candleAttributes cs) (<[name := n]> (nameIncrement cs)))
  else (name, mkCS (<[name := columnData]> (columns cs)) (orderedNames cs ++ [name])
                (candleAttributes cs) (nameIncrement cs)).

(** The names are compared regardless of case, the map's keys are not. *)
Definition Remove (targetName : string) (cs : ColumnSeries) : outcome ColumnSeries :=
  if Exists_col targetName cs then
    Ret (mkCS (delete targetName (columns cs))
           (filter (fun name => EqualFold name targetName = false) (orderedNames cs))
           (candleAttributes cs) (nameIncrement cs))
  else Fail (ErrMsg "Error: Source column does not exist").

(** The error of a removal is not looked at. *)
Definition Remove_ (targetName : string) (cs : ColumnSeries) : ColumnSeries :=
  match Remove targetName cs with Ret cs' => cs' | _ => cs end.

Definition Rename (newName oldName : string) (cs : ColumnSeries) : outcome ColumnSeries :=
  match GetByName oldName cs with
  | None => Fail (ErrMsg "Error: Source column does not exist")
  | oldColumn =>
      let cs := if Exists_col newName cs then Remove_ newName cs else cs in
      let newNames := map (fun name => if decide (name = oldName) then newName else name) (orderedNames cs) in
      let '(_, cs) := AddColumn newName oldColumn cs in
      let cs := Remove_ oldName cs in
      Ret (set_names newNames cs)
  end.

Definition Replace (targetName : string) (col : iface) (cs : ColumnSeries) : outcome ColumnSeries :=
  let! cs := Remove targetName cs in Ret (snd (AddColumn targetName col cs)).

Fixpoint project_loop (keepList : list string) (newCols : gmap string iface) (newNames : list string)
    (cs : ColumnSeries) : outcome (gmap string iface * list string) :=
  match keepList with
  | [] => Ret (newCols, newNames)
  | name :: keepList' =>
      match GetByName name cs with
      | None => Fail (ErrMsg "Column not found")
      | col => project_loop keepList' (<[name := col]> newCols) (newNames ++ [name]) cs
      end
  end.
Definition Project (keepList : list string) (cs : ColumnSeries) : outcome ColumnSeries :=
  let! '(newCols, newNames) := project_loop keepList ∅ [] cs in
  Ret (mkCS newCols newNames (candleAttributes cs) (nameIncrement cs)).

(** ** Changing the rows *)

(** [DownSizeSlice] fails on a nil column only. *)
Definition RestrictLength (newLen direction : Z) (cs : ColumnSeries) : outcome ColumnSeries :=
  if bool_decide (map_Exists (fun _ c => c = None) (columns cs)) then
    Fail (ErrMsg "Unable to resize non-slice type")
  else
    Ret (set_columns ((fun c => match DownSizeSlice c newLen direction with Ret c' => c' | _ => c end)
                        <$> columns cs) cs).

Definition AddNullColumn (ds : DataShape) (cs : ColumnSeries) : outcome ColumnSeries :=
  let! n := cs_Len cs in
  let! c := SliceOf (ds_Type ds) n in
  Ret (snd (AddColumn (ds_Name ds) (Some c) cs)).

(** [slc = reflect.Append(slc, iv.Index(index))] for some of the rows. *)
Definition select_rows (indexes : list nat) (c : iface) : outcome iface :=
  match c with
  | None => Panic "reflect: nil type passed to MakeSlice"
  | Some c =>
      if bool_decide (Forall (fun i => (i < col_len c)%nat) indexes)
      then Ret (Some (mkCol (col_kind c) (omap (fun i => col_elems c !! i) indexes)))
      else Panic "reflect: slice index out of range"
  end.

(** The columns one by one; a panic in one of them ends the loop, whichever
    comes first. *)
Definition map_columns (f : iface -> outcome iface) (m : gmap string iface) : outcome (gmap string iface) :=
  map_fold (fun name c acc => let! acc := acc in let! c' := f c in Ret (<[name := c']> acc)) (Ret ∅) m.

Definition qualifying (tq : Z -> bool) (epochs : list Z) : list nat :=
  map fst (List.filter (fun ie => tq (snd ie)) (imap (fun i e => (i, e)) epochs)).
Definition ApplyTimeQual (tq : Z -> bool) (cs : ColumnSeries) : outcome ColumnSeries :=
  let! epochs := GetEpoch cs in
  let! cols := map_columns (select_rows (qualifying tq epochs)) (columns cs) in
  Ret (set_columns cols cs).

(** The first row from [start] on, and the last one before [end]. *)
Fixpoint first_from (start : Z) (epochs : list Z) : option nat :=
  match epochs with
  | [] => None
  | e :: es => if start <=? e then Some 0%nat else S <$> first_from start es
  end.
Fixpoint last_before (stop : Z) (epochs : list Z) : option nat :=
  match epochs with
  | [] => None
  | e :: es =>
      match last_before stop es with
      | Some i => Some (S i)
      | None => if e <? stop then Some 0%nat else None
      end
  end.

Definition SliceColumnSeriesByEpoch (cs : ColumnSeries) (start stop : option Z) : outcome ColumnSeries :=
  let! epochs := GetEpoch cs in
  let! slc :=
    match start with
    | None => Ret cs
    | Some start =>
        match first_from start epochs with
        | Some index => RestrictLength (Z.of_nat (length epochs) - Z.of_nat index) LAST cs
        | None => Ret cs
        end
    end in
  match stop with
  | None => Ret slc
  | Some stop =>
      let! epochs := GetEpoch slc in
      match last_before stop epochs with
      | Some index => RestrictLength (Z.of_nat index + 1) FIRST slc
      | None => Ret slc
      end
  end.

(** ** Union *)

Record entry := mkEntry { en_epoch : Z; en_index : nat; en_right : bool }.

Definition index_entries (right : bool) (epochs : list Z) (m : gmap Z entry) : gmap Z entry :=
  foldl (fun m ie => <[snd ie := mkEntry (snd ie) (fst ie) right]> m) m (imap (fun i e => (i, e)) epochs).

#[export] Instance entry_le_dec : RelDecision (fun a b : entry => en_epoch a <= en_epoch b) :=
  fun a b => Z_le_dec (en_epoch a) (en_epoch b).

#[export] Instance entry_le_trans : Transitive (fun a b : entry => en_epoch a <= en_epoch b).
Proof. intros a b c. lia. Qed.
#[export] Instance entry_le_total : Total (fun a b : entry => en_epoch a <= en_epoch b).
Proof. intros a b. lia. Qed.

(** The entries come out of the map in any order; their epochs differ, so that
    sorting leaves one order only. *)
Definition union_entries (lep rep : list Z) : list entry :=
  merge_sort (fun a b => en_epoch a <= en_epoch b)
    (map snd (map_to_list (index_entries true rep (index_entries false lep ∅)))).

Definition append_value (index : nat) (col : iface) (outCol : option iface) : outcome iface :=
  match col with
  | None => Panic "reflect: call of reflect.Value.Index on zero Value"
  | Some c =>
      match col_elems c !! index with
      | None => Panic "reflect: slice index out of range"
      | Some v =>
          match outCol with
          | None => Ret (Some (mkCol (col_kind c) [v]))
          | Some (Some o) =>
              if decide (col_kind o = col_kind c) then Ret (Some (mkCol (col_kind o) (col_elems o ++ [v])))
              else Panic "reflect.Set: value not assignable"
          | Some None => Panic "reflect: call of reflect.Append on zero Value"
          end
      end
  end.

Definition union_row (rs : ColumnSeries) (index : nat) (out : gmap string iface) : outcome (gmap string iface) :=
  map_fold (fun name col acc =>
    let! acc := acc in
    let! c := append_value index col (acc !! name) in
    Ret (<[name := c]> acc)) (Ret out) (columns rs).

Fixpoint union_rows (left right : ColumnSeries) (entries : list entry) (out : gmap string iface) :
    outcome (gmap string iface) :=
  match entries with
  | [] => Ret out
  | e :: es =>
      let! out := union_row (if en_right e then right else left) (en_index e) out in
      union_rows left right es out
  end.

Definition ColumnSeriesUnion (left right : ColumnSeries) : outcome ColumnSeries :=
  let! lep := GetEpoch left in
  let! rep := GetEpoch right in
  let! cols := union_rows left right (union_entries lep rep) ∅ in
  Ret (mkCS cols (orderedNames left) (candleAttributes left) (nameIncrement left)).

(** ** Types (generatedMethods.go) *)

Definition CoerceColumnType (ds : DataShape) (cs : ColumnSeries) : outcome ColumnSeries :=
  if (ds_Type ds =? BOOL) || (ds_Type ds =? STRING) then Fail (ErrMsg "Can not cast to boolean or string")
  else
    match GetByName (ds_Name ds) cs with
    | Some col =>
        if bool_decide (col_kind col ∈ numeric_kinds) && bool_decide (type_Kind (ds_Type ds) ∈ numeric_kinds)
        then Ret (set_column (ds_Name ds) (Some (convert_column (type_Kind (ds_Type ds)) col)) cs)
        else Ret cs
    | None => Ret cs
    end.

(** A row whose bit is set goes; [col[i]] panics on a short column. *)
Definition kept_rows (bitmap : list bool) : list nat :=
  map fst (List.filter (fun ib => negb (snd ib)) (imap (fun i b => (i, b)) bitmap)).

Fixpoint restrict_loop (bitmap : list bool) (keys : list string) (cs : ColumnSeries) : outcome ColumnSeries :=
  match keys with
  | [] => Ret cs
  | key :: keys' =>
      match GetByName key cs with
      | Some col =>
          if bool_decide (col_kind col ∈ numeric_kinds) then
            let! newCol := select_rows (kept_rows bitmap) (Some col) in
            let! cs := Replace key newCol cs in
            restrict_loop bitmap keys' cs
          else restrict_loop bitmap keys' cs
      | None => restrict_loop bitmap keys' cs
      end
  end.
Definition RestrictViaBitmap (bitmap : list bool) (cs : ColumnSeries) : outcome ColumnSeries :=
  restrict_loop bitmap (orderedNames cs) cs.

(** ** Which columns a target needs *)

Definition GetNamesFromDSV (dsv : list DataShape) : list string := map ds_Name dsv.

(** The map keeps the last shape of a name. *)
Definition ExtractDatashapesByNames (dsv : list DataShape) (names : list string) : list DataShape :=
  let dsm := foldl (fun m d => <[ds_Name d := d]> m) (∅ : gmap string DataShape) dsv in
  omap (fun name => dsm !! name) names.

Definition GetMissingAndTypeCoercionColumns (requiredDSV availableDSV : list DataShape) :
    outcome (list DataShape * list DataShape) :=
  let! contained := as_Contains (NewAnySet availableDSV) requiredDSV in
  if contained : bool then Ret ([], [])
  else
    let! missingDSV := as_Subtract (NewAnySet requiredDSV) availableDSV in
    let! allMissingNames :=
      as_Subtract (NewAnySet (GetNamesFromDSV requiredDSV)) (GetNamesFromDSV availableDSV) in
    if (length missingDSV =? length allMissingNames)%nat then
      Ret (ExtractDatashapesByNames requiredDSV allMissingNames, [])
    else
      let! needCoercionCols := as_Subtract (NewAnySet (GetNamesFromDSV missingDSV)) allMissingNames in
      Ret (ExtractDatashapesByNames requiredDSV allMissingNames,
           ExtractDatashapesByNames requiredDSV needCoercionCols).

(** ** Rows *)

Definition AlignedSize (unalignedSize : Z) : Z :=
  let machineWordSize := 8 in
  let remainder := Z.rem unalignedSize machineWordSize in
  if remainder =? 0 then unalignedSize else unalignedSize + machineWordSize - remainder.

Definition sum_sizes (dsv : list DataShape) : Z := foldr (fun d n => type_Size (ds_Type d) + n) 0 dsv.

Fixpoint fold_outcome {A B} (f : A -> B -> outcome A) (a : A) (bs : list B) : outcome A :=
  match bs with
  | [] => Ret a
  | b :: bs' => let! a' := f a b in fold_outcome f a' bs'
  end.

Definition is_epoch (name : string) : bool := EqualFold name "Epoch".

(** The words of row [i] behind the epoch. *)
Fixpoint row_words (shapes : list (DataShape * list byte)) (i : nat) : outcome (list byte) :=
  match shapes with
  | [] => Ret []
  | (shape, colInBytes) :: rest =>
      if is_epoch (ds_Name shape) then row_words rest i
      else
        let! word := SliceInBytesAt (ds_Type shape) colInBytes i in
        let! words := row_words rest i in
        Ret (word ++ words)
  end.

Fixpoint serialize_rows (shapes : list (DataShape * list byte)) (padbuf : list byte) (i : nat)
    (epochs : list Z) : outcome (list byte) :=
  match epochs with
  | [] => Ret []
  | epoch :: epochs' =>
      let! words := row_words shapes i in
      let! rest := serialize_rows shapes padbuf (S i) epochs' in
      Ret (le_bytes 8 epoch ++ words ++ padbuf ++ rest)
  end.

(** [SwapSliceData(cs.columns[name], byte(0))] *)
Definition column_in_bytes (cs : ColumnSeries) (name : string) : outcome (list byte) :=
  match GetByName name cs with
  | Some c => Ret (col_bytes c)
  | None => Panic "reflect: call of reflect.Value.Len on zero Value"
  end.

Fixpoint columns_in_bytes (cs : ColumnSeries) (shapes : list DataShape) : outcome (list (DataShape * list byte)) :=
  match shapes with
  | [] => Ret []
  | s :: shapes' =>
      let! b := column_in_bytes cs (ds_Name s) in
      let! rest := columns_in_bytes cs shapes' in
      Ret ((s, b) :: rest)
  end.

(** The series is changed on the way: missing columns are added, and columns
    of another type converted (the error of a conversion is not looked at). *)
Definition SerializeColumnsToRows (cs : ColumnSeries) (dataShapes : list DataShape) (align64 : bool) :
    outcome (list byte * Z * ColumnSeries) :=
  let! '(missing, needcoercion) := GetMissingAndTypeCoercionColumns dataShapes (cs_GetDataShapes cs) in
  let! cs := fold_outcome (fun cs shape => AddNullColumn shape cs) cs missing in
  let cs := foldl (fun cs shape => match CoerceColumnType shape cs with Ret cs' => cs' | _ => cs end)
              cs needcoercion in
  let! colInBytesList := columns_in_bytes cs dataShapes in
  if negb (existsb (fun s => is_epoch (ds_Name s)) dataShapes) then Ret ([], 0, cs)
  else
    let recordLen := sum_sizes dataShapes in
    let alignedRecLen := if align64 then AlignedSize recordLen else recordLen in
    let padbuf := replicate (Z.to_nat (alignedRecLen - recordLen)) x00 in
    let! epochCol := as_int64s (GetByName "Epoch" cs) in
    let! data := serialize_rows colInBytesList padbuf 0 epochCol in
    Ret (data, alignedRecLen, cs).

(** ** Maps of column series, by time bucket key *)

Abbreviation ColumnSeriesMap := (gmap string ColumnSeries).

Definition csm_AddColumn (key name : string) (columnData : iface) (csm : ColumnSeriesMap) : ColumnSeriesMap :=
  let cs := default NewColumnSeries (csm !! key) in
  <[key := snd (AddColumn name columnData cs)]> csm.
Definition AddColumnSeries (key : string) (cs : ColumnSeries) (csm : ColumnSeriesMap) : ColumnSeriesMap :=
  foldl (fun csm name => csm_AddColumn key name (GetByName name cs) csm) csm (orderedNames cs).

(** A series that lacks one of the columns stays as it is. *)
Definition FilterColumns (cols : list string) (csm : ColumnSeriesMap) : ColumnSeriesMap :=
  match cols with
  | [] => csm
  | _ =>
      let keepColumns := ["Epoch"%string] ++ cols ++ ["Nanoseconds"%string] in
      (fun cs => match Project keepColumns cs with Ret cs' => cs' | _ => cs end) <$> csm
  end.

(** ** Theorems *)

(** *** Entries of a union *)

(** Where an epoch is last found. *)
Fixpoint last_index (e : Z) (l : list Z) : option nat :=
  match l with
  | [] => None
  | x :: l' =>
      match last_index e l' with
      | Some i => Some (S i)
      | None => if decide (x = e) then Some 0%nat else None
      end
  end.

Lemma last_index_Some e l i : last_index e l = Some i -> l !! i = Some e.
Proof.
  revert i. induction l as [|x l IH]; intros i; cbn; [done|].
  destruct (last_index e l) as [j|]; intros H; [injection H as <-; cbn; by apply IH|].
  case_decide; [|done]. injection H as <-. by subst.
Qed.

Lemma last_index_None e l : last_index e l = None <-> e ∉ l.
Proof.
  induction l as [|x l IH]; cbn; [split; [intros _ H; by apply elem_of_nil in H|done]|].
  rewrite not_elem_of_cons. destruct (last_index e l) as [j|].
  - split; [done|]. intros [_ H]. by apply IH in H.
  - case_decide as Hd; (split; [|tauto || (intros [? _]; congruence)]); [done|].
    intros _. split; [by apply not_eq_sym|by apply IH].
Qed.

Lemma index_entries_at right k (l : list Z) (m : gmap Z entry) e :
  foldl (fun m ie => <[snd ie := mkEntry (snd ie) (fst ie) right]> m) m (imap (fun i x => ((k + i)%nat, x)) l) !! e =
  match last_index e l with
  | Some i => Some (mkEntry e (k + i) right)
  | None => m !! e
  end.
Proof.
  revert k m. induction l as [|x l IH]; intros k m; [done|]. cbn [imap foldl last_index fst snd].
  rewrite (imap_ext _ (fun i x => ((S k + i)%nat, x))) by (intros; cbn; f_equal; lia). rewrite IH.
  destruct (last_index e l) as [i|]; [do 2 f_equal; lia|].
  case_decide as Hd.
  - subst x. rewrite lookup_insert_eq. do 2 f_equal. 
  - by rewrite lookup_insert_ne.
Qed.

Lemma index_entries_lookup right l m e :
  index_entries right l m !! e =
  match last_index e l with Some i => Some (mkEntry e i right) | None => m !! e end.
Proof.
  unfold index_entries. rewrite (imap_ext _ (fun i x => ((0 + i)%nat, x))) by done.
  by rewrite index_entries_at.
Qed.

(** The entry of an epoch: from the right series where that has it. *)
Definition union_entry (lep rep : list Z) (e : Z) : option entry :=
  match last_index e rep with
  | Some i => Some (mkEntry e i true)
  | None => (fun i => mkEntry e i false) <$> last_index e lep
  end.

Lemma union_entries_spec lep rep :
  StronglySorted (fun a b => en_epoch a < en_epoch b) (union_entries lep rep) /\
  forall en, en ∈ union_entries lep rep <-> union_entry lep rep (en_epoch en) = Some en.
Proof.
  set (m := index_entries true rep (index_entries false lep ∅)).
  assert (Hm : forall e, m !! e = union_entry lep rep e).
  { intros e. unfold m, union_entry. rewrite !index_entries_lookup, lookup_empty.
    destruct (last_index e rep); [done|]. by destruct (last_index e lep). }
  assert (Hkey : forall e en, m !! e = Some en -> en_epoch en = e).
  { intros e en. rewrite Hm. unfold union_entry. destruct (last_index e rep); [by intros [= <-]|].
    destruct (last_index e lep); [by intros [= <-]|done]. }
  assert (Hin : forall en, en ∈ union_entries lep rep <-> m !! en_epoch en = Some en).
  { intros en. unfold union_entries. rewrite merge_sort_Permutation. fold m.
    rewrite list_elem_of_fmap. split.
    - intros ([e en'] & -> & Hx). apply elem_of_map_to_list in Hx. cbn. by rewrite (Hkey _ _ Hx).
    - intros H. exists (en_epoch en, en). split; [done|]. by apply elem_of_map_to_list. }
  assert (Hnd : NoDup (map en_epoch (union_entries lep rep))).
  { assert (Hp : Permutation (map en_epoch (union_entries lep rep)) (map fst (map_to_list m))).
    { unfold union_entries. rewrite merge_sort_Permutation. fold m. rewrite map_map.
      erewrite map_ext_in; [reflexivity|]. intros [e en] Hx%list_elem_of_In. cbn.
      apply elem_of_map_to_list in Hx. by apply Hkey. }
    rewrite Hp. apply NoDup_fst_map_to_list. }
  split.
  - assert (Hs : StronglySorted (fun a b => en_epoch a <= en_epoch b) (union_entries lep rep)).
    { apply (StronglySorted_merge_sort (fun a b : entry => en_epoch a <= en_epoch b)). }
    clear Hin. induction Hs as [|a l Hs IH Ha]; [constructor|].
    cbn in Hnd. apply NoDup_cons in Hnd as [Hna Hnd]. constructor; [by apply IH|].
    apply Forall_forall. intros b Hb. rewrite Forall_forall in Ha. specialize (Ha b Hb).
    assert (en_epoch a <> en_epoch b); [|lia]. intros Heq. apply Hna. rewrite Heq.
    apply list_elem_of_fmap. by exists b.
  - intros en. rewrite Hin, Hm. done.
Qed.

(** *** The rows of a union *)

(** A series of [n] rows whose columns have the kinds [kinds]. *)
Definition table_ok (kinds : gmap string Kind) (n : nat) (cs : ColumnSeries) : Prop :=
  forall name, match columns cs !! name, kinds !! name with
               | Some (Some c), Some k => col_kind c = k /\ col_len c = n
               | None, None => True
               | _, _ => False
               end.

Definition value_at (cs : ColumnSeries) (name : string) (i : nat) : list byte :=
  match GetByName name cs with Some c => default [] (col_elems c !! i) | None => [] end.

Lemma union_row_spec kinds n cs i (out : gmap string iface) (done_rows : string -> list (list byte)) (b : bool) :
  table_ok kinds n cs -> (i < n)%nat ->
  (forall name, out !! name = if b then (fun k => Some (mkCol k (done_rows name))) <$> kinds !! name else None) ->
  (b = false -> forall name, done_rows name = []) ->
  exists out', union_row cs i out = Ret out' /\
    forall name, out' !! name = (fun k => Some (mkCol k (done_rows name ++ [value_at cs name i]))) <$> kinds !! name.
Proof.
  intros Hok Hi Hout Hb. unfold union_row.
  assert (Hind : forall m, m ⊆ columns cs -> exists out',
    map_fold (fun name col acc => let! acc := acc in let! c := append_value i col (acc !! name) in
                Ret (<[name := c]> acc)) (Ret out) m = Ret out' /\
    forall name, out' !! name = match m !! name with
      | Some _ => (fun k => Some (mkCol k (done_rows name ++ [value_at cs name i]))) <$> kinds !! name
      | None => out !! name end).
  { intros m. apply (map_fold_weak_ind (fun r m => m ⊆ columns cs -> exists out', r = Ret out' /\
      forall name, out' !! name = match m !! name with
        | Some _ => (fun k => Some (mkCol k (done_rows name ++ [value_at cs name i]))) <$> kinds !! name
        | None => out !! name end)); clear m.
    - intros _. exists out. split; [done|]. intros name. by rewrite lookup_empty.
    - intros name col m r Hfresh IH Hsub.
      assert (Hcol : columns cs !! name = Some col).
      { eapply lookup_weaken; [|exact Hsub]. apply lookup_insert_eq. }
      destruct IH as (acc & -> & Hacc).
      { etrans; [|exact Hsub]. by apply insert_subseteq. }
      pose proof (Hok name) as Hn. rewrite Hcol in Hn. destruct col as [c|]; [|by destruct (kinds !! name)].
      destruct (kinds !! name) as [k|] eqn:Hkn; [|done]. destruct Hn as [Hk Hlen].
      destruct (lookup_lt_is_Some_2 (col_elems c) i) as [v Hv]; [unfold col_len in Hlen; lia|].
      assert (Hval : value_at cs name i = v).
      { unfold value_at, GetByName. by rewrite Hcol, Hv. }
      cbn [outcome_bind append_value]. rewrite Hv, Hacc, Hfresh, Hout, Hkn.
      assert (Hstep : forall o, o = (if b then Some (Some (mkCol k (done_rows name))) else None) ->
        match o with
        | None => Ret (Some (mkCol (col_kind c) [v]))
        | Some (Some o) => if decide (col_kind o = col_kind c) then Ret (Some (mkCol (col_kind o) (col_elems o ++ [v])))
                           else Panic "reflect.Set: value not assignable"
        | Some None => Panic "reflect: call of reflect.Append on zero Value"
        end = Ret (Some (mkCol k (done_rows name ++ [v])))).
      { intros o ->. destruct b; cbn.
        - rewrite decide_True by done. done.
        - rewrite Hb by done. by rewrite Hk. }
      rewrite (Hstep (if b then (fun k => Some (mkCol k (done_rows name))) <$> Some k else None))
        by (by destruct b).
      cbn [outcome_bind]. eexists. split; [reflexivity|]. intros x.
      destruct (decide (x = name)) as [->|Hx].
      + rewrite !lookup_insert_eq, Hkn, Hval. done.
      + rewrite !lookup_insert_ne by done. apply Hacc. }
  destruct (Hind (columns cs)) as (out' & Hrun & Hout'); [done|].
  exists out'. split; [exact Hrun|]. intros name. rewrite Hout'. pose proof (Hok name) as Hn.
  destruct (columns cs !! name) as [[c|]|] eqn:Hc; [done| |].
  - by destruct (kinds !! name).
  - destruct (kinds !! name) eqn:Hk; [done|]. rewrite Hout, Hk. by destruct b.
Qed.

Section union.
Context (kinds : gmap string Kind) (nl nr : nat) (left right : ColumnSeries).
Context (Hleft : table_ok kinds nl left) (Hright : table_ok kinds nr right).

Definition entry_in (en : entry) : Prop := (en_index en < if en_right en then nr else nl)%nat.
Definition entry_value (name : string) (en : entry) : list byte :=
  value_at (if en_right en then right else left) name (en_index en).

Lemma union_rows_spec entries out (pre : list entry) :
  Forall entry_in entries ->
  (forall name, out !! name =
    if decide (pre = []) then None
    else (fun k => Some (mkCol k (map (entry_value name) pre))) <$> kinds !! name) ->
  exists out', union_rows left right entries out = Ret out' /\
    forall name, out' !! name =
      if decide (pre ++ entries = []) then None
      else (fun k => Some (mkCol k (map (entry_value name) (pre ++ entries)))) <$> kinds !! name.
Proof.
  intros Hen. revert out pre. induction Hen as [|en entries Hin _ IH]; intros out pre Hout.
  - exists out. split; [done|]. by rewrite app_nil_r.
  - cbn [union_rows].
    assert (Hrow : exists out', union_row (if en_right en then right else left) (en_index en) out = Ret out' /\
      forall name, out' !! name = (fun k => Some (mkCol k (map (entry_value name) pre ++ [entry_value name en]))) <$> kinds !! name).
    { unfold entry_in in Hin. unfold entry_value at 2.
      destruct (en_right en);
        (eapply (union_row_spec kinds _ _ _ out (fun name => map (entry_value name) pre) (negb (bool_decide (pre = []))));
         [eassumption|exact Hin| |]);
        try (intros name; rewrite Hout; case_decide; case_bool_decide; done);
        intros Hb name; case_bool_decide as Hp; [by rewrite Hp|done| by rewrite Hp|done]. }
    destruct Hrow as (out' & -> & Hout'). cbn [outcome_bind].
    destruct (IH out' (pre ++ [en])) as (out2 & Hrun & Hout2).
    { intros name. rewrite decide_False by (by destruct pre). rewrite Hout', map_app. done. }
    exists out2. rewrite <- app_assoc in Hout2. by split.
Qed.
End union.

Lemma GetEpoch_table kinds n cs ep :
  table_ok kinds n cs -> kinds !! "Epoch"%string = Some KInt64 -> GetEpoch cs = Ret ep -> length ep = n.
Proof.
  intros Hok Hk He. pose proof (Hok "Epoch"%string) as H. rewrite Hk in H.
  unfold GetEpoch, GetByName in He. destruct (columns cs !! "Epoch"%string) as [[c|]|]; try done.
  destruct H as [Hc Hn]. cbn in He. rewrite decide_True in He by done. injection He as <-.
  unfold col_int64s. by rewrite length_map.
Qed.

(** C19: the union of two series with the same columns has one row for every
    epoch that occurs in either, in increasing order of the epochs; the row is
    the right series' row of that epoch where there is one and otherwise the
    left series', in every column. *)
Theorem ColumnSeriesUnion_rows kinds nl nr (left right : ColumnSeries) (lep rep : list Z) :
  table_ok kinds nl left -> table_ok kinds nr right -> kinds !! "Epoch"%string = Some KInt64 ->
  GetEpoch left = Ret lep -> GetEpoch right = Ret rep -> lep ++ rep <> [] ->
  exists out es, ColumnSeriesUnion left right = Ret out /\
    StronglySorted (fun a b => en_epoch a < en_epoch b) es /\
    (forall e, e ∈ map en_epoch es <-> e ∈ lep \/ e ∈ rep) /\
    (forall en, en ∈ es -> (en_right en = true <-> en_epoch en ∈ rep) /\
       (if en_right en then rep else lep) !! en_index en = Some (en_epoch en)) /\
    forall name k, kinds !! name = Some k ->
      GetByName name out = Some (mkCol k (map (entry_value left right name) es)).
Proof.
  intros Hl Hr Hk Hle Hre Hne.
  pose proof (GetEpoch_table _ _ _ _ Hl Hk Hle) as Hnl. pose proof (GetEpoch_table _ _ _ _ Hr Hk Hre) as Hnr.
  destruct (union_entries_spec lep rep) as [Hsort Hin].
  assert (Hkey : forall en, en ∈ union_entries lep rep -> (en_right en = true <-> en_epoch en ∈ rep) /\
       (if en_right en then rep else lep) !! en_index en = Some (en_epoch en)).
  { intros [e ix r] He. apply Hin in He. unfold union_entry in He. cbn [en_epoch en_right en_index] in *.
    destruct (last_index e rep) as [i|] eqn:Hi.
    - injection He as <- <-. apply last_index_Some in Hi. split; [split; [intros _|done]|done].
      by apply list_elem_of_lookup_2 in Hi.
    - destruct (last_index e lep) as [i|] eqn:Hi'; [|done]. cbn in He. injection He as <- <-.
      apply last_index_Some in Hi'. apply last_index_None in Hi. done. }
  assert (Hall : forall e, e ∈ map en_epoch (union_entries lep rep) <-> e ∈ lep \/ e ∈ rep).
  { intros e. rewrite list_elem_of_fmap. split.
    - intros (en & -> & He). destruct (Hkey en He) as [_ Hlk]. destruct (en_right en).
      + right. by apply list_elem_of_lookup_2 in Hlk.
      + left. by apply list_elem_of_lookup_2 in Hlk.
    - intros Hor. assert (Hex : exists en, union_entry lep rep e = Some en /\ en_epoch en = e).
      { unfold union_entry. destruct (last_index e rep) as [i|] eqn:Hi; [by eexists|].
        destruct (last_index e lep) as [i|] eqn:Hi'; [by eexists|].
        apply last_index_None in Hi, Hi'. tauto. }
      destruct Hex as (en & He & Heq). exists en. split; [done|]. apply Hin. by rewrite Heq. }
  assert (Hent : Forall (entry_in nl nr) (union_entries lep rep)).
  { apply Forall_forall. intros en He. destruct (Hkey en He) as [_ Hlk]. unfold entry_in.
    destruct (en_right en); apply lookup_lt_Some in Hlk; lia. }
  destruct (union_rows_spec kinds nl nr left right Hl Hr (union_entries lep rep) ∅ [] Hent)
    as (out & Hrun & Hout).
  { intros name. by rewrite decide_True, lookup_empty. }
  exists (mkCS out (orderedNames left) (candleAttributes left) (nameIncrement left)), (union_entries lep rep).
  split_and!; [|exact Hsort|exact Hall|exact Hkey|].
  - unfold ColumnSeriesUnion. rewrite Hle, Hre. cbn [outcome_bind]. by rewrite Hrun.
  - intros name k Hkn. unfold GetByName. cbn [columns]. rewrite Hout, Hkn.
    rewrite decide_False; [done|]. cbn [app]. intros Hnil.
    assert (Hex : exists e, e ∈ lep \/ e ∈ rep).
    { destruct lep as [|e lep']; [|by exists e; left; left].
      destruct rep as [|e rep']; [done|]. exists e. right. left. }
    destruct Hex as [e He]. apply Hall in He. rewrite Hnil in He. by apply elem_of_nil in He.
Qed.

Definition table (cols : list (string * column)) : ColumnSeries :=
  foldl (fun cs nc => snd (AddColumn (fst nc) (Some (snd nc)) cs)) NewColumnSeries cols.

Lemma ColumnSeriesUnion_rows_witness :
  let left := table [("Epoch"%string, int64_column [10; 30]); ("A"%string, int32_column [1; 3])] in
  let right := table [("Epoch"%string, int64_column [20; 30]); ("A"%string, int32_column [5; 7])] in
  exists out es, ColumnSeriesUnion left right = Ret out /\
    StronglySorted (fun a b => en_epoch a < en_epoch b) es /\
    (forall e, e ∈ map en_epoch es <-> e ∈ [10; 30] \/ e ∈ [20; 30]) /\
    (forall en, en ∈ es -> (en_right en = true <-> en_epoch en ∈ [20; 30]) /\
       (if en_right en then [20; 30] else [10; 30]) !! en_index en = Some (en_epoch en)) /\
    forall name k, ({["Epoch"%string := KInt64; "A"%string := KInt32]} : gmap string Kind) !! name = Some k ->
      GetByName name out = Some (mkCol k (map (entry_value left right name) es)).
Proof.
  assert (Hok : forall l l', length l = 2%nat -> length l' = 2%nat ->
    table_ok {["Epoch"%string := KInt64; "A"%string := KInt32]} 2
      (table [("Epoch"%string, int64_column l); ("A"%string, int32_column l')])).
  { intros l l' Hl Hl' name. destruct (decide (name = "Epoch"%string)) as [->|H1].
    - change (KInt64 = KInt64 /\ col_len (int64_column l) = 2%nat). split; [done|].
      unfold col_len. cbn. by rewrite length_map.
    - destruct (decide (name = "A"%string)) as [->|H2].
      + change (KInt32 = KInt32 /\ col_len (int32_column l') = 2%nat). split; [done|].
        unfold col_len. cbn. by rewrite length_map.
      + change (columns (table [("Epoch"%string, int64_column l); ("A"%string, int32_column l')]))
          with (<["A"%string := Some (int32_column l')]> (<["Epoch"%string := Some (int64_column l)]> (∅ : gmap string iface))).
        change ({["Epoch"%string := KInt64; "A"%string := KInt32]} : gmap string Kind)
          with (<["Epoch"%string := KInt64]> ({["A"%string := KInt32]} : gmap string Kind)).
        rewrite !lookup_insert_ne, !lookup_empty, lookup_singleton_ne by done. done. }
  apply (ColumnSeriesUnion_rows {["Epoch"%string := KInt64; "A"%string := KInt32]} 2 2);
    [by apply Hok|by apply Hok|reflexivity|reflexivity|reflexivity|done].
Defined.
