(* ===== verification/RowSeries.v ===== *)
(** * Row series (utils/io/rowseries.go)

    Rows in their on-disk form, the columns read out of them, and the round
    trip between the two forms. *)

From S2P Require Export ColumnSeries.

(** ** State *)

Record Rows := mkRows {
  dataShape : list DataShape;
  data : list byte;
  rowLen : Z;
  rows_attributes : Z;
}.

Definition NewRows (shape : list DataShape) (d : list byte) : Rows := mkRows shape d 0 0.

(** A row length of 0 stands for the sum of the sizes, which the first reading
    stores in its place. *)
Definition GetRowLen (rows : Rows) : Z :=
  if rowLen rows =? 0 then sum_sizes (dataShape rows) else rowLen rows.
Definition SetRowLen (len : Z) (rows : Rows) : Rows :=
  mkRows (dataShape rows) (data rows) (if len <? GetRowLen rows then GetRowLen rows else len)
    (rows_attributes rows).
Definition rows_SetCandleAttributes (ca : Z) (rows : Rows) : Rows :=
  mkRows (dataShape rows) (data rows) (rowLen rows) ca.

Definition GetNumRows (rows : Rows) : nat :=
  let mylen := GetRowLen rows in
  if (mylen =? 0) || bool_decide (data rows = []) then 0%nat
  else Z.to_nat (Z.quot (Z.of_nat (length (data rows))) mylen).

Definition GetRow (i : nat) (rows : Rows) : outcome (list byte) :=
  let n := Z.to_nat (GetRowLen rows) in
  if (i * n + n <=? length (data rows))%nat then Ret (take n (drop (i * n) (data rows)))
  else Panic "slice bounds out of range".

(** The kind of the slice a type is read into; [NONE], [STRING] and bytes that
    name no type give nil. *)
Definition read_kind (e : Z) : option Kind :=
  if e =? FLOAT32 then Some KFloat32 else if e =? FLOAT64 then Some KFloat64
  else if e =? INT16 then Some KInt16 else if e =? INT32 then Some KInt32
  else if (e =? EPOCH) || (e =? INT64) then Some KInt64
  else if e =? UINT8 then Some KUint8 else if e =? UINT16 then Some KUint16
  else if e =? UINT32 then Some KUint32 else if e =? UINT64 then Some KUint64
  else if (e =? BOOL) || (e =? BYTE) then Some KUint8
  else None.

(** The loop over the shapes; a type that is not read lets the loop go on
    without adding its size. *)
Fixpoint get_column (shapes : list DataShape) (offset : Z) (colname : string) (rows : Rows) : outcome iface :=
  match shapes with
  | [] => Ret None
  | ds :: shapes' =>
      if decide (ds_Name ds = colname) then
        let off := Z.to_nat offset in
        let len := Z.to_nat (GetRowLen rows) in
        if (ds_Type ds =? BOOL) || (ds_Type ds =? BYTE) then
          let! c := getByteColumn off len (GetNumRows rows) (data rows) in Ret (Some c)
        else
          match read_kind (ds_Type ds) with
          | Some k => Ret (Some (getColumn k off len (GetNumRows rows) (data rows)))
          | None => get_column shapes' offset colname rows
          end
      else get_column shapes' (offset + type_Size (ds_Type ds)) colname rows
  end.
Definition rows_GetColumn (colname : string) (rows : Rows) : outcome iface :=
  get_column (dataShape rows) 0 colname rows.

Definition rows_GetTime (tz : Location) (rows : Rows) : outcome (list Time) :=
  let! epc := rows_GetColumn "Epoch" rows in
  let! ep := as_int64s epc in
  let! nsi := rows_GetColumn "Nanoseconds" rows in
  match nsi with
  | None => times_of tz ep None
  | c => let! ns := as_int32s c in times_of tz ep (Some ns)
  end.

(** The columns behind the epoch, in the order of the shapes. *)
Fixpoint add_columns (shapes : list DataShape) (rows : Rows) (cs : ColumnSeries) : outcome ColumnSeries :=
  match shapes with
  | [] => Ret cs
  | ds :: shapes' =>
      if decide (ds_Name ds = "Epoch") then add_columns shapes' rows cs
      else
        let! c := rows_GetColumn (ds_Name ds) rows in
        add_columns shapes' rows (snd (AddColumn (ds_Name ds) c cs))
  end.
Definition cs_SetCandleAttributes (ca : Z) (cs : ColumnSeries) : ColumnSeries :=
  mkCS (columns cs) (orderedNames cs) ca (nameIncrement cs).

Definition rows_ToColumnSeries (rows : Rows) : outcome ColumnSeries :=
  let! epc := rows_GetColumn "Epoch" rows in
  let! ep := as_int64s epc in
  let! cs := add_columns (dataShape rows) rows (snd (AddColumn "Epoch" epc NewColumnSeries)) in
  Ret (cs_SetCandleAttributes (rows_attributes rows) cs).

Record RowSeries := mkRowSeries { rs_rows : Rows; metadataKey : string }.

(** The rows of a variable-length bucket end with a column of nanoseconds. *)
Definition NewRowSeries (key : string) (d : list byte) (shape : list DataShape) (len cat rowType : Z) : RowSeries :=
  let shape := if rowType =? VARIABLE then shape ++ [mkShape "Nanoseconds" INT32] else shape in
  mkRowSeries (SetRowLen len (rows_SetCandleAttributes cat (NewRows shape d))) key.

(** The epoch is read at the start of the row, wherever the shapes put it. *)
Definition rs_GetEpoch (rs : RowSeries) : column :=
  getColumn KInt64 0 (Z.to_nat (GetRowLen (rs_rows rs))) (GetNumRows (rs_rows rs)) (data (rs_rows rs)).

Definition rs_ToColumnSeries (rs : RowSeries) : outcome (string * ColumnSeries) :=
  let! cs := add_columns (dataShape (rs_rows rs)) (rs_rows rs)
    (snd (AddColumn "Epoch" (Some (rs_GetEpoch rs)) NewColumnSeries)) in
  Ret (metadataKey rs, cs_SetCandleAttributes (rows_attributes (rs_rows rs)) cs).

Definition ToRowSeries (itemKey : string) (alignData : bool) (cs : ColumnSeries) : outcome RowSeries :=
  let dsv := cs_GetDataShapes cs in
  let! '(d, recordLen, cs) := SerializeColumnsToRows cs dsv alignData in
  Ret (NewRowSeries itemKey d dsv recordLen (candleAttributes cs) NOTYPE).

(** ** From columns to rows and back *)

(** The kinds a column may have on disk, and the kind it is read back as:
    bytes and booleans come back as [uint8]. *)
Definition row_kinds : list Kind :=
  [KBool; KInt8; KInt16; KInt32; KInt64; KUint8; KUint16; KUint32; KUint64; KFloat32; KFloat64].
Definition row_kind (k : Kind) : Kind := match k with KBool | KInt8 => KUint8 | _ => k end.

Lemma row_kinds_types k :
  k ∈ row_kinds ->
  type_Size (GetElementType k) = Z.of_nat (kind_size k) /\ (0 < kind_size k <= 8)%nat /\
  read_kind (GetElementType k) = Some (row_kind k) /\ kind_size (row_kind k) = kind_size k.
Proof.
  intros Hk. unfold row_kinds in Hk.
  repeat (apply elem_of_cons in Hk as [->|Hk]; [vm_compute; intuition lia|]). by apply elem_of_nil in Hk.
Qed.

Record series_ok (n : nat) (cs : ColumnSeries) (names : list string) : Prop := {
  so_names : orderedNames cs = "Epoch"%string :: names;
  so_nodup : NoDup (orderedNames cs);
  so_epoch : Forall (fun name => is_epoch name = false) names;
  so_cols : forall name, name ∈ orderedNames cs -> exists c, GetByName name cs = Some c /\
    col_wf c /\ col_len c = n /\ col_kind c ∈ row_kinds;
  so_kind : forall c, GetByName "Epoch" cs = Some c -> col_kind c = KInt64;
}.

Definition elem_at (cs : ColumnSeries) (i : nat) (name : string) : list byte :=
  match GetByName name cs with Some c => default [] (col_elems c !! i) | None => [] end.
Definition row_at (cs : ColumnSeries) (names : list string) (pad : list byte) (i : nat) : list byte :=
  concat (map (elem_at cs i) names) ++ pad.

Section roundtrip.
Context (n : nat) (cs : ColumnSeries) (names : list string) (Hok : series_ok n cs names).

Lemma elem_at_spec name i :
  name ∈ orderedNames cs -> (i < n)%nat ->
  exists c, GetByName name cs = Some c /\ col_elems c !! i = Some (elem_at cs i name) /\
    length (elem_at cs i name) = kind_size (col_kind c) /\ col_kind c ∈ row_kinds /\
    type_Size (ds_Type (cs_shape cs name)) = Z.of_nat (length (elem_at cs i name)).
Proof.
  intros Hn Hi. destruct (so_cols _ _ _ Hok name Hn) as (c & Hc & Hwf & Hlen & Hk).
  exists c. unfold elem_at. rewrite Hc. unfold col_len in Hlen.
  destruct (lookup_lt_is_Some_2 (col_elems c) i ltac:(lia)) as [e He]. rewrite He.
  assert (Hle : length e = kind_size (col_kind c)) by (eapply Forall_lookup_1 in Hwf; [exact Hwf|exact He]).
  split_and!; try done. cbn [cs_shape ds_Type]. rewrite Hc. cbn [iface_kind default].
  destruct (row_kinds_types _ Hk) as [-> _]. cbn. by rewrite Hle.
Qed.

Lemma size_at name : name ∈ orderedNames cs ->
  0 < type_Size (ds_Type (cs_shape cs name)) <= 8.
Proof.
  intros Hn. destruct (so_cols _ _ _ Hok name Hn) as (c & Hc & _ & _ & Hk).
  cbn [cs_shape ds_Type]. rewrite Hc. destruct (row_kinds_types _ Hk) as (H & Hp & _). cbn [iface_kind].
  rewrite H. lia.
Qed.

Lemma length_elems ns i :
  Forall (fun name => name ∈ orderedNames cs) ns -> (i < n)%nat ->
  Z.of_nat (length (concat (map (elem_at cs i) ns))) = sum_sizes (map (cs_shape cs) ns).
Proof.
  intros H Hi. induction H as [|name ns Hn _ IH]; [done|]. cbn [map concat sum_sizes foldr].
  rewrite length_app. destruct (elem_at_spec name i Hn Hi) as (c & _ & _ & _ & _ & ->).
  change (foldr (fun d n => type_Size (ds_Type d) + n) 0 (map (cs_shape cs) ns))
    with (sum_sizes (map (cs_shape cs) ns)). lia.
Qed.

Lemma all_names : Forall (fun name => name ∈ orderedNames cs) (orderedNames cs).
Proof. by apply Forall_forall. Qed.

Lemma serialize_columns_none :
  GetMissingAndTypeCoercionColumns (cs_GetDataShapes cs) (cs_GetDataShapes cs) = Ret ([], []).
Proof.
  unfold GetMissingAndTypeCoercionColumns.
  destruct (NewAnySet (cs_GetDataShapes cs)) as [s|] eqn:Hs.
  - destruct (NewAnySet_wf _ _ Hs) as [Hwf Heq].
    rewrite as_Contains_spec by (try done; intros H0; rewrite H0 in Hs; discriminate Hs).
    rewrite bool_decide_eq_true_2; [done|]. rewrite Heq. by apply Forall_forall.
  - unfold cs_GetDataShapes in Hs. rewrite (so_names _ _ _ Hok) in Hs. discriminate Hs.
Qed.

Lemma columns_in_bytes_all ns :
  Forall (fun name => name ∈ orderedNames cs) ns ->
  columns_in_bytes cs (map (cs_shape cs) ns) =
  Ret (map (fun name => (cs_shape cs name,
    match GetByName name cs with Some c => col_bytes c | None => [] end)) ns).
Proof.
  induction 1 as [|name ns Hn _ IH]; [done|]. cbn [map columns_in_bytes].
  unfold column_in_bytes. cbn [cs_shape ds_Name].
  destruct (so_cols _ _ _ Hok name Hn) as (c & -> & _). cbn [outcome_bind]. rewrite IH. done.
Qed.

Lemma SliceInBytesAt_elem name i :
  name ∈ orderedNames cs -> (i < n)%nat ->
  SliceInBytesAt (ds_Type (cs_shape cs name))
    (match GetByName name cs with Some c => col_bytes c | None => [] end) i
  = Ret (elem_at cs i name).
Proof.
  intros Hn Hi. destruct (elem_at_spec name i Hn Hi) as (c & Hc & He & Hl & Hk & Hs).
  destruct (so_cols _ _ _ Hok name Hn) as (c' & Hc' & Hwf & Hlen & _).
  rewrite Hc in Hc'. injection Hc' as <-. rewrite Hc. unfold SliceInBytesAt. rewrite Hs, Hl, Nat2Z.id.
  assert (Hchunk : drop (i * kind_size (col_kind c)) (col_bytes c) =
    elem_at cs i name ++ concat (drop (S i) (col_elems c))).
  { unfold col_bytes. rewrite drop_concat_uniform by done. by rewrite (drop_S _ _ _ He). }
  assert (Hlb : length (col_bytes c) = (n * kind_size (col_kind c))%nat).
  { unfold col_bytes. rewrite (length_concat_uniform (kind_size (col_kind c))) by done. unfold col_len in Hlen. by rewrite Hlen. }
  rewrite (proj2 (Nat.leb_le _ _)) by (rewrite Hlb; nia).
  rewrite Hchunk, take_app_length' by done. done.
Qed.

Abbreviation named_bytes := (fun name => (cs_shape cs name,
  match GetByName name cs with Some c => col_bytes c | None => [] end)).

Lemma row_words_ns ns i :
  Forall (fun name => name ∈ orderedNames cs) ns -> Forall (fun name => is_epoch name = false) ns ->
  (i < n)%nat ->
  row_words (map named_bytes ns) i = Ret (concat (map (elem_at cs i) ns)).
Proof.
  intros Hall Hep Hi. induction Hall as [|name ns Hn _ IH]; [done|]. apply Forall_cons in Hep as [He Hep].
  cbn [map row_words]. change (ds_Name (cs_shape cs name)) with name. rewrite He.
  rewrite SliceInBytesAt_elem by done. cbn [outcome_bind]. by rewrite (IH Hep).
Qed.

Lemma names_in : Forall (fun name => name ∈ orderedNames cs) names.
Proof. apply Forall_forall. intros x Hx. rewrite (so_names _ _ _ Hok). by right. Qed.

Lemma row_words_names i :
  (i < n)%nat ->
  row_words (map named_bytes (orderedNames cs)) i = Ret (concat (map (elem_at cs i) names)).
Proof.
  intros Hi. rewrite (so_names _ _ _ Hok). cbn [map row_words]. cbn [cs_shape ds_Name].
  change (is_epoch "Epoch") with true. cbn iota.
  apply row_words_ns; [apply names_in|apply Hok|done].
Qed.

(** The epochs as numbers, and as they are stored. *)
Lemma epoch_column :
  exists ec, GetByName "Epoch" cs = Some ec /\ as_int64s (GetByName "Epoch" cs) = Ret (col_int64s ec) /\
    length (col_int64s ec) = n /\
    forall i e, col_int64s ec !! i = Some e -> le_bytes 8 e = elem_at cs i "Epoch".
Proof.
  destruct (so_cols _ _ _ Hok "Epoch") as (ec & Hec & Hwf & Hlen & _).
  { rewrite (so_names _ _ _ Hok). left. }
  pose proof (so_kind _ _ _ Hok ec Hec) as Hk. exists ec. rewrite Hec. unfold as_int64s.
  rewrite decide_True by done. split_and!; try done.
  - unfold col_int64s. rewrite length_map. done.
  - intros i e He. unfold col_int64s in He. rewrite list_lookup_fmap in He.
    unfold elem_at. rewrite Hec. destruct (col_elems ec !! i) as [bs|] eqn:Hbs; [|done].
    injection He as <-. cbn. unfold col_wf in Hwf. rewrite Hk in Hwf.
    apply le_bytes_ToInt64. eapply Forall_lookup_1 in Hwf; [exact Hwf|exact Hbs].
Qed.

Lemma serialize_rows_at pad epochs i :
  (i + length epochs = n)%nat ->
  (forall k e, epochs !! k = Some e -> le_bytes 8 e = elem_at cs (i + k) "Epoch") ->
  serialize_rows (map named_bytes (orderedNames cs)) pad i epochs =
  Ret (concat (map (row_at cs (orderedNames cs) pad) (seq i (length epochs)))).
Proof.
  revert i. induction epochs as [|e epochs IH]; intros i Hn He; [done|]. cbn [serialize_rows].
  cbn [length] in Hn. rewrite row_words_names by lia. cbn [outcome_bind].
  rewrite IH by (try lia; intros k e' Hk; replace (S i + k)%nat with (i + S k)%nat by lia; by apply He).
  cbn [outcome_bind length seq map concat]. f_equal.
  rewrite (He 0%nat e eq_refl), Nat.add_0_r. unfold row_at at 2.
  rewrite (so_names _ _ _ Hok) at 2. cbn [map concat]. by rewrite <- !app_assoc.
Qed.

Definition record_len (align : bool) : Z :=
  let len := sum_sizes (cs_GetDataShapes cs) in if align then AlignedSize len else len.
Definition padding (align : bool) : list byte :=
  replicate (Z.to_nat (record_len align - sum_sizes (cs_GetDataShapes cs))) x00.

(** The rows of a series: the words of its columns in order, and padding. *)
Lemma SerializeColumnsToRows_rows align :
  SerializeColumnsToRows cs (cs_GetDataShapes cs) align =
  Ret (concat (map (row_at cs (orderedNames cs) (padding align)) (seq 0 n)), record_len align, cs).
Proof.
  unfold SerializeColumnsToRows. rewrite serialize_columns_none. cbn [outcome_bind fold_outcome foldl].
  unfold cs_GetDataShapes at 1. rewrite columns_in_bytes_all by apply all_names. cbn [outcome_bind].
  assert (Hex : existsb (fun s => is_epoch (ds_Name s)) (cs_GetDataShapes cs) = true).
  { unfold cs_GetDataShapes. rewrite (so_names _ _ _ Hok). done. }
  rewrite Hex. cbn [negb]. cbv zeta.
  destruct epoch_column as (ec & Hec & -> & Hlen & He). cbn [outcome_bind].
  fold (record_len align). fold (padding align).
  rewrite (serialize_rows_at (padding align) (col_int64s ec) 0) by (try lia; exact He).
  cbn [outcome_bind]. by rewrite Hlen.
Qed.

(** *** Reading the rows *)

Lemma sum_sizes_nonneg ns : Forall (fun name => name ∈ orderedNames cs) ns ->
  0 <= sum_sizes (map (cs_shape cs) ns).
Proof.
  induction 1 as [|name ns Hn _ IH]; [done|]. cbn [map sum_sizes foldr].
  change (foldr _ 0 (map (cs_shape cs) ns)) with (sum_sizes (map (cs_shape cs) ns)).
  pose proof (size_at name Hn). lia.
Qed.

Lemma sum_sizes_pos : 0 < sum_sizes (cs_GetDataShapes cs).
Proof.
  unfold cs_GetDataShapes. pose proof all_names as Hall. rewrite (so_names _ _ _ Hok) in Hall |- *.
  apply Forall_cons in Hall as [He _]. pose proof (size_at _ ltac:(rewrite (so_names _ _ _ Hok); exact He)).
  pose proof (sum_sizes_nonneg names names_in). cbn [map sum_sizes foldr].
  change (foldr _ 0 (map (cs_shape cs) names)) with (sum_sizes (map (cs_shape cs) names)). lia.
Qed.

Lemma AlignedSize_ge z : 0 <= z -> z <= AlignedSize z < z + 8 /\ (8 | AlignedSize z).
Proof.
  intros Hz. unfold AlignedSize. rewrite Z.rem_mod_nonneg by lia.
  pose proof (Z.mod_pos_bound z 8 ltac:(lia)). pose proof (Z.div_mod z 8 ltac:(lia)).
  destruct (Z.eqb_spec (z mod 8) 0); (split; [lia|]).
  - exists (z / 8). lia.
  - exists (z / 8 + 1). lia.
Qed.

Lemma record_len_ge align : sum_sizes (cs_GetDataShapes cs) <= record_len align.
Proof.
  unfold record_len. destruct align; [|lia]. apply AlignedSize_ge. pose proof sum_sizes_pos. lia.
Qed.

Lemma length_row_at align i :
  (i < n)%nat ->
  length (row_at cs (orderedNames cs) (padding align) i) = Z.to_nat (record_len align).
Proof.
  intros Hi. unfold row_at, padding. rewrite length_app, length_replicate.
  pose proof (length_elems (orderedNames cs) i all_names Hi) as Hl.
  fold (cs_GetDataShapes cs) in Hl. pose proof (record_len_ge align). pose proof sum_sizes_pos. lia.
Qed.

Lemma rows_uniform align :
  Forall (fun l => length l = Z.to_nat (record_len align))
    (map (row_at cs (orderedNames cs) (padding align)) (seq 0 n)).
Proof.
  apply Forall_map, Forall_forall. intros i [_ Hi]%elem_of_seq. by apply length_row_at.
Qed.

Definition rows_data (align : bool) : list byte :=
  concat (map (row_at cs (orderedNames cs) (padding align)) (seq 0 n)).

Lemma word_of_row align pre name post i :
  orderedNames cs = pre ++ name :: post -> (i < n)%nat ->
  word_at (length (elem_at cs i name)) (Z.to_nat (sum_sizes (map (cs_shape cs) pre)))
    (Z.to_nat (record_len align)) i (rows_data align) = elem_at cs i name.
Proof.
  intros Hns Hi. unfold word_at, rows_data. rewrite <- drop_drop.
  rewrite drop_concat_uniform by apply rows_uniform.
  rewrite (drop_S _ (row_at cs (orderedNames cs) (padding align) i)) by
    (by rewrite list_lookup_fmap, lookup_seq_lt by done).
  cbn [concat]. unfold row_at at 1. rewrite Hns at 1. rewrite map_app, concat_app. cbn [map concat].
  assert (Hpre : length (concat (map (elem_at cs i) pre)) = Z.to_nat (sum_sizes (map (cs_shape cs) pre))).
  { rewrite <- (length_elems pre i); [by rewrite Nat2Z.id| |done].
    apply Forall_forall. intros x Hx. rewrite Hns. apply elem_of_app. by left. }
  rewrite <- !app_assoc. rewrite drop_app_length' by done. by rewrite take_app_length.
Qed.

Definition rows_of (align : bool) : Rows :=
  mkRows (cs_GetDataShapes cs) (rows_data align) (record_len align) (candleAttributes cs).

Lemma GetRowLen_of align : GetRowLen (rows_of align) = record_len align.
Proof.
  unfold GetRowLen. cbn. pose proof (record_len_ge align). pose proof sum_sizes_pos.
  by rewrite (proj2 (Z.eqb_neq _ _)) by lia.
Qed.

Lemma length_rows_data align : length (rows_data align) = (n * Z.to_nat (record_len align))%nat.
Proof.
  unfold rows_data. rewrite (length_concat_uniform _ _ (rows_uniform align)).
  by rewrite length_map, length_seq.
Qed.

Lemma GetNumRows_of align : GetNumRows (rows_of align) = n.
Proof.
  unfold GetNumRows. rewrite GetRowLen_of. cbn [data rows_of].
  pose proof (record_len_ge align). pose proof sum_sizes_pos.
  rewrite (proj2 (Z.eqb_neq _ _)) by lia. cbn [orb].
  pose proof (length_rows_data align) as Hl. case_bool_decide as Hd.
  - rewrite Hd in Hl. cbn in Hl. nia.
  - rewrite Hl, Nat2Z.inj_mul, Z2Nat.id, Z.quot_mul by lia. lia.
Qed.

Lemma ToRowSeries_rows key align :
  ToRowSeries key align cs = Ret (mkRowSeries (rows_of align) key).
Proof.
  unfold ToRowSeries. rewrite SerializeColumnsToRows_rows. cbn [outcome_bind].
  unfold NewRowSeries, SetRowLen. change (NOTYPE =? VARIABLE) with false. cbv iota.
  unfold GetRowLen. cbn [rowLen NewRows rows_SetCandleAttributes dataShape Z.eqb].
  pose proof (record_len_ge align). by rewrite (proj2 (Z.ltb_ge _ _)) by done.
Qed.

Lemma get_column_skip pre rest off name rows :
  name ∉ pre ->
  get_column (map (cs_shape cs) (pre ++ rest)) off name rows =
  get_column (map (cs_shape cs) rest) (off + sum_sizes (map (cs_shape cs) pre)) name rows.
Proof.
  revert off. induction pre as [|p pre IH]; intros off Hn; cbn [app map]; [by rewrite Z.add_0_r|].
  apply not_elem_of_cons in Hn as [Hne Hn]. cbn [get_column cs_shape ds_Name ds_Type].
  rewrite decide_False by (by apply not_eq_sym). rewrite IH by done. cbn [map sum_sizes foldr cs_shape ds_Type].
  change (foldr _ 0 (map (cs_shape cs) pre)) with (sum_sizes (map (cs_shape cs) pre)). f_equal. lia.
Qed.

(** The column as it is read back. *)
Definition read_back (c : column) : column := mkCol (row_kind (col_kind c)) (col_elems c).

Lemma column_words align name pre post c :
  orderedNames cs = pre ++ name :: post -> GetByName name cs = Some c ->
  getColumn (row_kind (col_kind c)) (Z.to_nat (sum_sizes (map (cs_shape cs) pre)))
    (Z.to_nat (record_len align)) n (rows_data align) = read_back c.
Proof.
  intros Hns Hc. unfold getColumn, read_back, wordCopy. f_equal.
  assert (Hin : name ∈ orderedNames cs) by (rewrite Hns; apply elem_of_app; right; left).
  destruct (so_cols _ _ _ Hok name Hin) as (c' & Hc' & Hwf & Hlen & Hk). rewrite Hc in Hc'. injection Hc' as <-.
  destruct (row_kinds_types _ Hk) as (_ & _ & _ & ->).
  apply list_eq. intros i. rewrite list_lookup_fmap. unfold col_len in Hlen.
  destruct (decide (i < n)%nat) as [Hi|Hi].
  - rewrite lookup_seq_lt by done. cbn [fmap option_fmap option_map].
    destruct (elem_at_spec name i Hin Hi) as (c' & Hc' & He & Hl & _). rewrite Hc in Hc'. injection Hc' as <-.
    rewrite He. f_equal. rewrite <- Hl. by apply (word_of_row align pre name post).
  - rewrite lookup_seq_ge by lia. rewrite (proj2 (lookup_ge_None _ _)) by lia. done.
Qed.

Lemma prefix_size pre name post align :
  orderedNames cs = pre ++ name :: post -> 0 <= sum_sizes (map (cs_shape cs) pre) < record_len align.
Proof.
  intros Hns.
  assert (Hin : Forall (fun x => x ∈ orderedNames cs) (pre ++ name :: post)).
  { apply Forall_forall. intros x Hx. by rewrite Hns. }
  apply Forall_app in Hin as [Hpre Hin]. apply Forall_cons in Hin as [Hname Hpost].
  pose proof (sum_sizes_nonneg pre Hpre). pose proof (sum_sizes_nonneg post Hpost).
  pose proof (size_at name Hname). pose proof (record_len_ge align) as Hge.
  unfold cs_GetDataShapes in Hge. rewrite Hns in Hge. unfold sum_sizes in Hge |- *.
  rewrite map_app, foldr_app in Hge. cbn [map foldr] in Hge.
  assert (Hadd : forall l z, foldr (fun d n => type_Size (ds_Type d) + n) z l = foldr (fun d n => type_Size (ds_Type d) + n) 0 l + z).
  { induction l as [|d l IH]; intros z; cbn [foldr]; [lia|]. rewrite (IH z). lia. }
  rewrite Hadd in Hge. unfold sum_sizes in *. lia.
Qed.

Lemma rows_GetColumn_of align name c :
  name ∈ orderedNames cs -> GetByName name cs = Some c ->
  rows_GetColumn name (rows_of align) = Ret (Some (read_back c)).
Proof.
  intros Hin Hc. destruct (list_elem_of_split _ _ Hin) as (pre & post & Hns).
  pose proof (so_nodup _ _ _ Hok) as Hnd. rewrite Hns in Hnd.
  apply NoDup_app in Hnd as (_ & Hnd & _). pose proof (so_nodup _ _ _ Hok) as Hnd'.
  assert (Hnpre : name ∉ pre).
  { rewrite Hns in Hnd'. apply NoDup_app in Hnd' as (_ & Hd & _). intros Hp. apply (Hd name Hp). left. }
  unfold rows_GetColumn. cbn [rows_of dataShape]. unfold cs_GetDataShapes. rewrite Hns.
  rewrite get_column_skip by done. cbn [map get_column cs_shape ds_Name ds_Type].
  rewrite decide_True by done. rewrite Hc, Z.add_0_l. cbn [iface_kind].
  change (mkRows (cs_GetDataShapes cs) _ _ _) with (rows_of align).
  rewrite GetRowLen_of, GetNumRows_of. cbn [data rows_of].
  destruct (so_cols _ _ _ Hok name Hin) as (c' & Hc' & _ & _ & Hk). rewrite Hc in Hc'. injection Hc' as <-.
  pose proof (column_words align name pre post c Hns Hc) as Hw.
  pose proof (prefix_size pre name post align Hns) as Hps.
  destruct (row_kinds_types _ Hk) as (_ & _ & Hrk & _).
  destruct ((GetElementType (col_kind c) =? BOOL) || (GetElementType (col_kind c) =? BYTE)) eqn:Hb.
  - assert (Hr : row_kind (col_kind c) = KUint8).
    { clear -Hk Hb. unfold row_kinds in Hk.
      repeat (apply elem_of_cons in Hk as [Hk|Hk]; [rewrite Hk in Hb |- *; vm_compute in Hb |- *; congruence|]).
      by apply elem_of_nil in Hk. }
    unfold getByteColumn. rewrite bool_decide_eq_true_2.
    + cbn [outcome_bind]. rewrite <- Hw, Hr. done.
    + apply Forall_forall. intros i [_ Hi]%elem_of_seq. rewrite length_rows_data. nia.
  - rewrite Hrk. by rewrite Hw.
Qed.

Lemma rs_GetEpoch_of align key ec :
  GetByName "Epoch" cs = Some ec -> rs_GetEpoch (mkRowSeries (rows_of align) key) = ec.
Proof.
  intros Hc. unfold rs_GetEpoch. cbn [rs_rows]. rewrite GetRowLen_of, GetNumRows_of.
  pose proof (column_words align "Epoch" [] names ec (so_names _ _ _ Hok) Hc) as Hw.
  pose proof (so_kind _ _ _ Hok ec Hc) as Hk. unfold read_back in Hw. rewrite Hk in Hw.
  cbn [row_kind] in Hw. change (Z.to_nat (sum_sizes (map (cs_shape cs) []))) with 0%nat in Hw.
  cbn [data rows_of]. rewrite Hw. destruct ec. cbn in *. by rewrite Hk.
Qed.

Lemma add_columns_of align ns cs0 :
  NoDup ns -> Forall (fun name => name ∈ orderedNames cs /\ name <> "Epoch"%string) ns ->
  (forall name, name ∈ ns -> columns cs0 !! name = None) ->
  exists cs1, add_columns (map (cs_shape cs) ns) (rows_of align) cs0 = Ret cs1 /\
    orderedNames cs1 = orderedNames cs0 ++ ns /\ nameIncrement cs1 = nameIncrement cs0 /\
    (forall name, GetByName name cs1 =
      if decide (name ∈ ns) then read_back <$> GetByName name cs else GetByName name cs0).
Proof.
  intros Hnd Hns. revert cs0. induction Hns as [|name ns [Hin Hne] _ IH]; intros cs0 Hfresh.
  - exists cs0. split_and!; try done. by rewrite app_nil_r.
  - apply NoDup_cons in Hnd as [Hni Hnd]. cbn [map add_columns cs_shape ds_Name].
    rewrite decide_False by done.
    destruct (so_cols _ _ _ Hok name Hin) as (c & Hc & _).
    rewrite (rows_GetColumn_of align name c Hin Hc). cbn [outcome_bind].
    unfold AddColumn, Exists_col. rewrite (Hfresh name ltac:(left)).
    rewrite bool_decide_eq_false_2 by (by intros [? ?]). cbn [snd].
    set (cs0' := mkCS _ _ _ _).
    destruct (IH Hnd cs0') as (cs1 & Hrun & Hord & Hinc & Hget).
    { intros x Hx. cbn [cs0' columns]. rewrite lookup_insert_ne by (intros ->; done).
      apply Hfresh. by right. }
    exists cs1. split_and!; [exact Hrun|rewrite Hord; cbn; by rewrite <- app_assoc|exact Hinc|].
    intros x. rewrite Hget. destruct (decide (x ∈ ns)) as [Hx|Hx].
    + by rewrite decide_True by (by right).
    + destruct (decide (x = name)) as [->|Hxn].
      * rewrite decide_True by left. unfold GetByName at 1. cbn [cs0' columns].
        by rewrite lookup_insert_eq, Hc.
      * rewrite decide_False by (rewrite elem_of_cons; tauto).
        unfold GetByName. cbn [cs0' columns]. by rewrite lookup_insert_ne by done.
Qed.

Lemma roundtrip_series key align :
  exists rs cs', ToRowSeries key align cs = Ret rs /\ rs_ToColumnSeries rs = Ret (key, cs') /\
    orderedNames cs' = orderedNames cs /\ candleAttributes cs' = candleAttributes cs /\
    forall name, name ∈ orderedNames cs -> GetByName name cs' = read_back <$> GetByName name cs.
Proof.
  destruct epoch_column as (ec & Hec & _).
  pose proof (so_nodup _ _ _ Hok) as Hnd. rewrite (so_names _ _ _ Hok) in Hnd.
  apply NoDup_cons in Hnd as [Hne Hnd].
  exists (mkRowSeries (rows_of align) key).
  set (cs0 := snd (AddColumn "Epoch" (Some ec) NewColumnSeries)).
  destruct (add_columns_of align names cs0 Hnd) as (cs1 & Hrun & Hord & _ & Hget).
  { apply Forall_forall. intros x Hx. split; [rewrite (so_names _ _ _ Hok); by right|]. by intros ->. }
  { intros x Hx. change (columns cs0) with (<["Epoch"%string := Some ec]> (∅ : gmap string iface)).
    rewrite lookup_insert_ne by (intros <-; done). apply lookup_empty. }
  exists (cs_SetCandleAttributes (candleAttributes cs) cs1).
  split_and!; [apply ToRowSeries_rows| | |done|].
  - unfold rs_ToColumnSeries. rewrite (rs_GetEpoch_of align key ec Hec). cbn [rs_rows rows_of dataShape].
    change (mkRows (cs_GetDataShapes cs) _ _ _) with (rows_of align).
    unfold cs_GetDataShapes. rewrite (so_names _ _ _ Hok). cbn [map add_columns cs_shape ds_Name].
    rewrite decide_True by done. fold cs0. rewrite Hrun. done.
  - cbn. rewrite Hord, (so_names _ _ _ Hok). done.
  - intros name Hin. change (GetByName name (cs_SetCandleAttributes _ cs1)) with (GetByName name cs1).
    rewrite Hget. case_decide as Hd; [done|]. rewrite (so_names _ _ _ Hok) in Hin.
    apply elem_of_cons in Hin as [->|Hin]; [|done].
    change (GetByName "Epoch" cs0) with (Some ec). rewrite Hec. cbn. unfold read_back.
    rewrite (so_kind _ _ _ Hok ec Hec). destruct ec as [k l]. cbn.
    pose proof (so_kind _ _ _ Hok _ Hec) as Hk. cbn in Hk. by rewrite Hk.
Qed.
End roundtrip.

(** C11: Columns serialized to rows, padded to the machine word or not, and
    read back as a row series are the same series: the names in their order,
    the attributes and every value; bytes and booleans come back as [uint8].
    The series has an int64 column Epoch as its first, no second name that is
    Epoch in another case, different names, and columns of one length, of
    numbers of a given size (not [int]) or booleans ([series_ok]); an Epoch that
    is not the first comes back as the first. *)
Theorem columns_rows_roundtrip (n : nat) (cs : ColumnSeries) (names : list string) (key : string) (align : bool) :
  series_ok n cs names ->
  exists rs cs', ToRowSeries key align cs = Ret rs /\ rs_ToColumnSeries rs = Ret (key, cs') /\
    orderedNames cs' = orderedNames cs /\ candleAttributes cs' = candleAttributes cs /\
    forall name, name ∈ orderedNames cs -> GetByName name cs' = read_back <$> GetByName name cs.
Proof. intros Hok. by apply (roundtrip_series n cs names Hok). Qed.

Definition example_series : ColumnSeries :=
  snd (AddColumn "Flag" (Some (mkCol KInt8 [le_bytes 1 1; le_bytes 1 (-1)]))
  (snd (AddColumn "Open" (Some (mkCol KFloat32 [le_bytes 4 7; le_bytes 4 9]))
  (snd (AddColumn "Epoch" (Some (int64_column [100; 160])) NewColumnSeries))))).

Lemma example_series_ok : series_ok 2 example_series ["Open"; "Flag"]%string.
Proof.
  split; try done.
  - apply (bool_decide_eq_true_1 _). vm_compute. done.
  - repeat constructor.
  - intros name Hn. cbn in Hn. repeat (apply elem_of_cons in Hn as [->|Hn];
      [eexists; split; [reflexivity|split_and!; [by repeat constructor|done|
         apply (bool_decide_eq_true_1 _); vm_compute; done]]|]).
    by apply elem_of_nil in Hn.
  - intros c Hc. vm_compute in Hc. by injection Hc as <-.
Qed.

Lemma columns_rows_roundtrip_witness :
  exists rs cs', ToRowSeries "AAPL/1Min/X" true example_series = Ret rs /\
    rs_ToColumnSeries rs = Ret ("AAPL/1Min/X"%string, cs') /\
    orderedNames cs' = ["Epoch"; "Open"; "Flag"]%string /\ candleAttributes cs' = 0 /\
    forall name, name ∈ orderedNames example_series ->
      GetByName name cs' = read_back <$> GetByName name example_series.
Proof. apply (columns_rows_roundtrip 2 example_series _ "AAPL/1Min/X" true example_series_ok). Defined.

(** *** Missing columns *)

Lemma shape_map_lookup (dsv : list DataShape) (m : gmap string DataShape) d :
  d ∈ dsv -> is_Some (foldl (fun m d => <[ds_Name d := d]> m) m dsv !! ds_Name d).
Proof.
  revert m. induction dsv as [|x dsv IH] using rev_ind; intros m Hin; [by apply elem_of_nil in Hin|].
  rewrite foldl_app. cbn [foldl]. destruct (decide (ds_Name x = ds_Name d)) as [->|Hne].
  - rewrite lookup_insert_eq. eauto.
  - rewrite lookup_insert_ne by done. apply IH. apply elem_of_app in Hin as [?|Hin]; [done|].
    apply list_elem_of_singleton in Hin as ->. done.
Qed.

Lemma extract_nonempty dsv names d :
  d ∈ dsv -> ds_Name d ∈ names -> ExtractDatashapesByNames dsv names <> [].
Proof.
  intros Hd Hn. destruct (shape_map_lookup dsv ∅ d Hd) as [x Hx].
  unfold ExtractDatashapesByNames. intros H.
  assert (Hin : x ∈ omap (fun name => foldl (fun m d => <[ds_Name d:=d]> m) (∅ : gmap string DataShape) dsv !! name) names).
  { apply list_elem_of_omap. by exists (ds_Name d). }
  rewrite H in Hin. by apply elem_of_nil in Hin.
Qed.

(** A series that lacks one of the required columns cannot be serialized:
    instead of being filled with zeros, the missing column makes the call
    panic. *)
Lemma missing_column_panics (cs : ColumnSeries) (dataShapes : list DataShape) (d : DataShape) (align : bool) :
  d ∈ dataShapes -> ds_Name d ∉ orderedNames cs ->
  exists msg, SerializeColumnsToRows cs dataShapes align = Panic msg.
Proof.
  intros Hd Hn.
  assert (Hav : GetNamesFromDSV (cs_GetDataShapes cs) = orderedNames cs).
  { unfold GetNamesFromDSV, cs_GetDataShapes. rewrite map_map. apply map_id. }
  assert (Hfst : exists x xs, dataShapes = x :: xs) by (destruct dataShapes; [by apply elem_of_nil in Hd|eauto]).
  unfold SerializeColumnsToRows, GetMissingAndTypeCoercionColumns.
  destruct (NewAnySet (cs_GetDataShapes cs)) as [s|] eqn:Hs.
  2:{ destruct Hfst as (x & xs & ->). eexists. reflexivity. }
  destruct (NewAnySet_wf _ _ Hs) as [Hwf Heq].
  rewrite as_Contains_spec by (try done; intros ->; by apply elem_of_nil in Hd).
  rewrite bool_decide_eq_false_2; last first.
  { rewrite Heq, Forall_forall. intros Hall. specialize (Hall d Hd). apply Hn.
    apply list_elem_of_fmap in Hall as (y & -> & Hy). done. }
  cbn [outcome_bind].
  destruct (NewAnySet dataShapes) as [r|] eqn:Hr; [|destruct Hfst as (x & xs & ->); done].
  destruct (NewAnySet_wf _ _ Hr) as [Hwfr Heqr].
  rewrite as_Subtract_spec by done. cbn [outcome_bind].
  destruct (NewAnySet (GetNamesFromDSV dataShapes)) as [rn|] eqn:Hrn;
    [|destruct Hfst as (x & xs & ->); done].
  destruct (NewAnySet_wf _ _ Hrn) as [Hwfn Heqn].
  rewrite as_Subtract_spec by done. cbn [outcome_bind]. rewrite Hav, Heqn, Heqr.
  set (names := filter (fun e => e ∉ orderedNames cs) (GetNamesFromDSV dataShapes)).
  assert (Hne : ExtractDatashapesByNames dataShapes names <> []).
  { apply (extract_nonempty _ _ d Hd). apply list_elem_of_filter. split; [done|].
    apply list_elem_of_fmap. by exists d. }
  assert (Hpanic : exists msg, fold_outcome (fun cs shape => AddNullColumn shape cs) cs
      (ExtractDatashapesByNames dataShapes names) = Panic msg).
  { destruct (ExtractDatashapesByNames dataShapes names) as [|y ys]; [done|]. cbn [fold_outcome].
    unfold AddNullColumn at 1, cs_Len.
    destruct (orderedNames cs) as [|n0 ns]; [by eexists|].
    destruct (GetByName n0 cs); by eexists. }
  destruct Hpanic as [msg Hmsg].
  set (missing := filter (fun e => e ∉ cs_GetDataShapes cs) dataShapes).
  destruct (_ =? _)%nat.
  - cbn [outcome_bind]. rewrite Hmsg. by eexists.
  - destruct (NewAnySet (GetNamesFromDSV missing)) as [mn|] eqn:Hmn.
    + destruct (NewAnySet_wf _ _ Hmn) as [Hwfm _]. rewrite as_Subtract_spec by done.
      cbn [outcome_bind]. rewrite Hmsg. by eexists.
    + destruct names as [|y ys]; [by destruct dataShapes|]. by eexists.
Qed.

Lemma missing_column_panics_witness :
  exists msg, SerializeColumnsToRows example_series
    [mkShape "Epoch" INT64; mkShape "Volume" INT32] true = Panic msg.
Proof.
  apply (missing_column_panics _ _ (mkShape "Volume" INT32)).
  - right. left.
  - apply (bool_decide_eq_true_1 _). vm_compute. done.
Defined.
