(* ===== verification/FileSys.v ===== *)
(** * Files, paths and effectful programs

    The part of Go's os, path/filepath packages the storage code uses: a file
    is its bytes, a directory tree the map from full paths to files; an open
    file is a path and a position.  A program that reads and writes files is
    a function from the state it finds to its outcome and the state it leaves,
    also when it fails half way. *)

From S2P Require Export Bytes GoStrings.

(** ** Programs with state and errors *)

Definition prog (S A : Type) : Type := S -> outcome A * S.

#[export] Instance prog_ret S : MRet (prog S) := fun _ a s => (Ret a, s).
#[export] Instance prog_bind S : MBind (prog S) := fun _ _ k m s =>
  match m s with
  | (Ret a, s') => k a s'
  | (Fail e, s') => (Fail e, s')
  | (Fatal msg, s') => (Fatal msg, s')
  | (Panic msg, s') => (Panic msg, s')
  end.
Arguments prog_ret _ _ _ _ /.
Arguments prog_bind _ _ _ _ _ _ /.

Definition lift {S A} (o : outcome A) : prog S A := fun s => (o, s).
Definition state_get {S} : prog S S := fun s => (Ret s, s).
Definition state_put {S} (s' : S) : prog S unit := fun _ => (Ret tt, s').
Definition state_modify {S} (f : S -> S) : prog S unit := fun s => (Ret tt, f s).

Section prog_loops.
Context {S A : Type}.

(** A [for] loop whose body may end the function with an error. *)
Fixpoint for_each (xs : list A) (body : A -> prog S unit) : prog S unit :=
  match xs with
  | [] => mret tt
  | x :: xs' => body x ;; for_each xs' body
  end.
End prog_loops.

Lemma bind_Ret {S A B} (m : prog S A) (k : A -> prog S B) s b s' :
  (m ≫= k) s = (Ret b, s') <-> exists a s1, m s = (Ret a, s1) /\ k a s1 = (Ret b, s').
Proof.
  unfold mbind, prog_bind. split.
  - destruct (m s) as [[] s1]; intros H; try discriminate H. eauto.
  - intros (a & s1 & -> & Hk). exact Hk.
Qed.

Lemma bind_step {S A B} (m : prog S A) (k : A -> prog S B) s a s' :
  m s = (Ret a, s') -> (m ≫= k) s = k a s'.
Proof. intros H. unfold mbind, prog_bind. by rewrite H. Qed.

Lemma for_each_app {S A} (xs ys : list A) (body : A -> prog S unit) s :
  for_each (xs ++ ys) body s = (for_each xs body ;; for_each ys body) s.
Proof.
  revert s. induction xs as [|x xs IH]; intros s; [done|]. cbn.
  unfold mbind, prog_bind. destruct (body x s) as [[] s']; try done.
Qed.

(** Without errors the loop is a fold of the body's effect. *)
Lemma for_each_fold {S A} (f : S -> A -> S) (xs : list A) (body : A -> prog S unit) (P : S -> Prop) s :
  P s -> (forall x s, x ∈ xs -> P s -> body x s = (Ret tt, f s x) /\ P (f s x)) ->
  for_each xs body s = (Ret tt, foldl f s xs) /\ P (foldl f s xs).
Proof.
  revert s. induction xs as [|x xs IH]; intros s Hs Hb; [done|]. cbn.
  destruct (Hb x s ltac:(left) Hs) as [Hx Hp]. unfold mbind, prog_bind. rewrite Hx.
  apply IH; [done|]. intros y s' Hy. apply Hb. by right.
Qed.

(** ** Files *)

Abbreviation file := (list byte).
Abbreviation files := (gmap string (list byte)).

(** Writing at an offset: a gap behind the end of the file reads as zeros. *)
Definition pwrite (off : nat) (d f : file) : file :=
  match d with
  | [] => f
  | _ => take off f ++ replicate (off - length f) x00 ++ d ++ drop (off + length d) f
  end.

(** Reading at an offset: at most [n] bytes, fewer only at the end. *)
Definition pread (off n : nat) (f : file) : list byte := take n (drop off f).

(** [File.WriteAt]. *)
Definition WriteAt (off : Z) (d f : file) : outcome file :=
  if off <? 0 then Fail (ErrMsg "negative offset") else Ret (pwrite (Z.to_nat off) d f).

(** [File.ReadAt] fills the buffer or reports the end of the file with the
    bytes there are. *)
Definition ReadAt (off : Z) (n : nat) (f : file) : list byte * option goerr :=
  if off <? 0 then ([], Some (ErrMsg "negative offset"))
  else
    let bs := pread (Z.to_nat off) n f in
    (bs, if decide (length bs < n)%nat then Some EOF else None).

(** [File.Read]: the end of the file is an error only when nothing was read;
    what was read replaces the front of the buffer. *)
Definition Read (pos n : nat) (f : file) : list byte * option goerr :=
  let bs := pread pos n f in
  (bs, if decide (bs = [] /\ n <> 0%nat) then Some EOF else None).

Definition fill (n : nat) (bs : list byte) : list byte := bs ++ replicate (n - length bs) x00.

(** [File.Truncate]. *)
Definition ftruncate (n : nat) (f : file) : file := take n f ++ replicate (n - length f) x00.

Lemma pwrite_splice off d f : (off + length d <= length f)%nat -> pwrite off d f = splice off d f.
Proof.
  intros Hle. unfold pwrite. destruct d as [|b d]; [by rewrite splice_nil|].
  replace (off - length f)%nat with 0%nat by lia. done.
Qed.

Lemma pwrite_end d f : pwrite (length f) d f = f ++ d.
Proof.
  unfold pwrite. destruct d as [|b d]; [by rewrite app_nil_r|].
  rewrite take_ge, Nat.sub_diag, drop_ge by lia. cbn. by rewrite app_nil_r.
Qed.

Lemma length_pwrite off d f :
  (off + length d <= length f)%nat -> length (pwrite off d f) = length f.
Proof. intros. rewrite pwrite_splice by done. by apply length_splice. Qed.

Lemma pread_all off n f g : pread off n f = g -> length g = n -> (off <= length f)%nat ->
  f = take off f ++ g ++ drop (off + n) f.
Proof.
  intros Hg Hn Ho. unfold pread in Hg.
  rewrite <- Hg, <- drop_drop, take_drop. by rewrite take_drop.
Qed.

Lemma pread_app (a b c : file) : pread (length a) (length b) (a ++ b ++ c) = b.
Proof. unfold pread. rewrite drop_app_length, take_app_length. done. Qed.

Lemma pread_app' (a b c : file) off n :
  off = length a -> n = length b -> pread off n (a ++ b ++ c) = b.
Proof. intros -> ->. apply pread_app. Qed.

Lemma length_pread off n f : length (pread off n f) = (n `min` (length f - off))%nat.
Proof. unfold pread. by rewrite length_take, length_drop. Qed.

(** ** Paths *)

Section paths.
#[local] Open Scope string_scope.

(** [filepath.Clean] on the components of a path. *)
Fixpoint clean_comps (rooted : bool) (stack comps : list string) : list string :=
  match comps with
  | [] => rev stack
  | c :: comps' =>
      if decide (c = "" \/ c = ".") then clean_comps rooted stack comps'
      else if decide (c = "..") then
        match stack with
        | top :: stack' =>
            if decide (top = "..") then clean_comps rooted (c :: stack) comps'
            else clean_comps rooted stack' comps'
        | [] => clean_comps rooted (if rooted then [] else [c]) comps'
        end
      else clean_comps rooted (c :: stack) comps'
  end.

Definition is_rooted (p : string) : bool :=
  match p with String "/" _ => true | _ => false end.

Definition path_comps (p : string) : list string :=
  clean_comps (is_rooted p) [] (Split p "/").

Definition filepath_Clean (p : string) : string :=
  match path_comps p with
  | [] => if is_rooted p then "/" else "."
  | cs => (if is_rooted p then "/" else "") +:+ Join cs "/"
  end.

Definition filepath_Join (a b : string) : string :=
  match a, b with
  | "", "" => ""
  | "", _ => filepath_Clean b
  | _, "" => filepath_Clean a
  | _, _ => filepath_Clean (a +:+ "/" +:+ b)
  end.

Fixpoint strip_common (xs ys : list string) : list string * list string :=
  match xs, ys with
  | x :: xs', y :: ys' => if decide (x = y) then strip_common xs' ys' else (xs, ys)
  | _, _ => (xs, ys)
  end.

(** [filepath.Rel]: [None] for the error. *)
Definition filepath_Rel (base targ : string) : option string :=
  if eqb (is_rooted base) (is_rooted targ) then
    let '(b, t) := strip_common (path_comps base) (path_comps targ) in
    if bool_decide (".." ∈ b) then None
    else
      match b, t with
      | [], [] => Some "."
      | _, _ => Some (Join (map (fun _ => "..") b ++ t) "/")
      end
  else None.

(** The last component, and the extension from its last dot. *)
Definition filepath_Base (p : string) : string :=
  match rev (List.filter (fun c => negb (bool_decide (c = ""))) (Split p "/")) with
  | [] => if is_rooted p then "/" else "."
  | c :: _ => c
  end.
Definition filepath_Ext (p : string) : string :=
  match rev (Split (filepath_Base p) ".") with
  | e :: _ :: _ => "." +:+ e
  | _ => ""
  end.
End paths.

Example Clean_ex : filepath_Clean "/data/../data//mkts/./" = "/data/mkts".
Proof. reflexivity. Qed.
Example Join_ex : filepath_Join "/data/mkts" "AAPL/1Min/OHLCV/2017.bin" = "/data/mkts/AAPL/1Min/OHLCV/2017.bin".
Proof. reflexivity. Qed.
Example Rel_ex : filepath_Rel "/data/mkts" "/data/mkts/AAPL/1Min/OHLCV/2017.bin" = Some "AAPL/1Min/OHLCV/2017.bin".
Proof. reflexivity. Qed.
Example Ext_ex : filepath_Ext "WALFile.1234.walfile" = ".walfile".
Proof. reflexivity. Qed.

(** ** Keys below a root *)

(** A component that [Clean] leaves alone. *)
Definition plain_comp (c : string) : Prop :=
  c <> "" /\ c <> "." /\ c <> ".." /\ no_char "/" c.

Lemma plain_char s : forallb (fun a => negb (Ascii.eqb a "/")) (String.list_ascii_of_string s) = true -> no_char "/" s.
Proof.
  induction s as [|a s IH]; cbn; [done|]. intros [Ha Hs]%andb_true_iff. split; [|by apply IH].
  intros ->. by rewrite Ascii.eqb_refl in Ha.
Qed.

Lemma clean_comps_plain rooted stack cs :
  Forall plain_comp cs -> clean_comps rooted stack cs = rev stack ++ cs.
Proof.
  intros H. revert stack.
  induction H as [|c cs (H1 & H2 & H3 & _) _ IH]; intros stack; cbn; [by rewrite app_nil_r|].
  rewrite decide_False by (intros [?|?]; done). rewrite decide_False by done.
  rewrite IH. cbn. by rewrite <- app_assoc.
Qed.

Lemma Join_app cs ds sep :
  cs <> [] -> ds <> [] -> Join (cs ++ ds) sep = Join cs sep +:+ sep +:+ Join ds sep.
Proof.
  intros Hc Hd. induction cs as [|c cs IH]; [done|]. destruct cs as [|c' cs].
  - cbn. destruct ds; [done|]. done.
  - change (Join ((c :: c' :: cs) ++ ds) sep) with (c +:+ sep +:+ Join ((c' :: cs) ++ ds) sep).
    rewrite IH by done. change (Join (c :: c' :: cs) sep) with (c +:+ sep +:+ Join (c' :: cs) sep).
    by rewrite !string_app_assoc.
Qed.

Lemma Forall_plain_no_char cs : Forall plain_comp cs -> Forall (no_char "/") cs.
Proof. intros H. eapply Forall_impl; [exact H|]. by intros c (_ & _ & _ & ?). Qed.

(** A rooted path given by its components. *)
Definition abs_path (cs : list string) : string := String "/" (Join cs "/").

Lemma path_comps_abs cs : Forall plain_comp cs -> cs <> [] -> path_comps (abs_path cs) = cs.
Proof.
  intros H Hne. unfold path_comps, abs_path.
  change (Split (String "/" (Join cs "/")) "/") with ("" :: Split (Join cs "/") "/").
  rewrite split_Join by (done || by apply Forall_plain_no_char).
  cbn [is_rooted]. change (clean_comps true [] ("" :: cs)) with (clean_comps true [] cs).
  by rewrite clean_comps_plain.
Qed.

Lemma Clean_abs cs : Forall plain_comp cs -> cs <> [] -> filepath_Clean (abs_path cs) = abs_path cs.
Proof.
  intros H Hne. unfold filepath_Clean. rewrite path_comps_abs by done.
  destruct cs; [done|]. done.
Qed.

Lemma Join_abs root key :
  Forall plain_comp root -> Forall plain_comp key -> root <> [] -> key <> [] ->
  filepath_Join (abs_path root) (Join key "/") = abs_path (root ++ key).
Proof.
  intros Hr Hk Hrn Hkn. unfold filepath_Join.
  assert (Hne : Join key "/" <> "").
  { destruct key as [|k ks]; [done|]. inversion Hk as [|? ? (H & _) _]. 
    destruct k; [done|]. by destruct ks. }
  destruct (Join key "/") as [|c s] eqn:Hj; [done|].
  change (abs_path root) with (String "/" (Join root "/")) at 1.
  rewrite <- Hj. change (String "/" (Join root "/")) with (abs_path root).
  replace (abs_path root +:+ "/" +:+ Join key "/") with (abs_path (root ++ key))
    by (unfold abs_path; rewrite Join_app by done; done).
  apply Clean_abs; [by apply Forall_app|]. by destruct root.
Qed.

Lemma strip_common_app xs ys : strip_common xs (xs ++ ys) = ([], ys).
Proof. induction xs as [|x xs IH]; cbn; [by destruct ys|]. by rewrite decide_True. Qed.

Lemma Rel_abs root key :
  Forall plain_comp root -> Forall plain_comp key -> root <> [] -> key <> [] ->
  filepath_Rel (abs_path root) (abs_path (root ++ key)) = Some (Join key "/").
Proof.
  intros Hr Hk Hrn Hkn. unfold filepath_Rel. cbn [is_rooted abs_path eqb].
  assert (Hrk : Forall plain_comp (root ++ key)) by (by apply Forall_app).
  assert (Hne : root ++ key <> []) by (by destruct root).
  rewrite (path_comps_abs root), (path_comps_abs (root ++ key)) by done.
  rewrite strip_common_app. rewrite bool_decide_eq_false_2 by (by intros ?%elem_of_nil).
  by destruct key.
Qed.
