(* ===== verification/TimeBucketKey.v ===== *)
(** * Time bucket keys (utils/io/keytypes.go)

    A key is one string: the items, one per category, and the names of the
    categories, ["AAPL/1Min/OHLCV:Symbol/Timeframe/AttributeGroup"]. *)

From S2P Require Export Timeframe FileSys.

#[local] Open Scope string_scope.

Definition TimeBucketKey : Type := string.

Definition DefaultTimeBucketSchema : string := "Symbol/Timeframe/AttributeGroup".

(** The optional category key: only its first value counts. *)
Definition NewTimeBucketKey (itemKey : string) (categoryKey_opt : list string) : TimeBucketKey :=
  let categoryKey :=
    match categoryKey_opt with
    | c :: _ => if decide (c = "") then DefaultTimeBucketSchema else c
    | [] => DefaultTimeBucketSchema
    end in
  itemKey +:+ ":" +:+ categoryKey.

Definition NewTimeBucketKeyFromString (itemCategoryString : string) : TimeBucketKey :=
  match Split itemCategoryString ":" with
  | item :: cat :: _ => NewTimeBucketKey item [cat]
  | [item] => NewTimeBucketKey item []
  | [] => NewTimeBucketKey "" []
  end.

(** The second part of the key: there is none without a colon. *)
Definition GetCatKey (mk : TimeBucketKey) : outcome string :=
  match Split mk ":" with
  | _ :: cat :: _ => Ret cat
  | _ => Panic "index out of range"
  end.
Definition GetItemKey (mk : TimeBucketKey) : string := hd "" (Split mk ":").

Definition GetCategories (mk : TimeBucketKey) : outcome (list string) :=
  let! cat := GetCatKey mk in Ret (Split cat "/").
Definition GetItems (mk : TimeBucketKey) : list string := Split (GetItemKey mk) "/".

(** The place of the first category of a name. *)
Fixpoint category_index (catName : string) (cats : list string) : option nat :=
  match cats with
  | [] => None
  | name :: cats' => if decide (name = catName) then Some 0%nat else S <$> category_index catName cats'
  end.

Definition item_at (items : list string) (i : nat) : outcome string :=
  match items !! i with Some item => Ret item | None => Panic "index out of range" end.

Definition GetItemInCategory (catName : string) (mk : TimeBucketKey) : outcome string :=
  let! cats := GetCategories mk in
  match category_index catName cats with
  | Some i => item_at (GetItems mk) i
  | None => Ret ""
  end.

Definition GetMultiItemInCategory (catName : string) (mk : TimeBucketKey) : outcome (list string) :=
  let! cats := GetCategories mk in
  match category_index catName cats with
  | Some i => let! presplit := item_at (GetItems mk) i in Ret (Split presplit ",")
  | None => Ret []
  end.

(** The item of every category of the name is set. *)
Fixpoint set_items (catName itemName : string) (cats items : list string) : outcome (list string) :=
  match cats, items with
  | [], _ => Ret items
  | cat :: cats', item :: items' =>
      let! rest := set_items catName itemName cats' items' in
      Ret ((if decide (cat = catName) then itemName else item) :: rest)
  | cat :: cats', [] =>
      if decide (cat = catName) then Panic "index out of range" else set_items catName itemName cats' []
  end.

(** A slash behind every item but the third. *)
Fixpoint join_items (i : nat) (items : list string) : string :=
  match items with
  | [] => ""
  | item :: items' =>
      item +:+ (if decide (i = 2%nat) then "" else "/") +:+ join_items (S i) items'
  end.

Definition SetItemInCategory (catName itemName : string) (mk : TimeBucketKey) : outcome TimeBucketKey :=
  let! cats := GetCategories mk in
  let! items := set_items catName itemName cats (GetItems mk) in
  let! cat := GetCatKey mk in
  Ret (join_items 0 items +:+ ":" +:+ cat).

Definition GetTimeFrame (mk : TimeBucketKey) : outcome Timeframe :=
  let! tfs := GetItemInCategory "Timeframe" mk in
  if decide (tfs = "") then Fail (ErrMsg "Error: Unable to get timeframe from key")
  else
    match TimeframeFromString tfs with
    | Some tf => Ret tf
    | None => Fail (ErrMsg "Error: Unable to get timeframe from key")
    end.

Definition GetPathToYearFiles (rootDir : string) (mk : TimeBucketKey) : string :=
  filepath_Join rootDir (GetItemKey mk).

(** ** Theorems *)

Definition key_part (s : string) : Prop := no_char ":" s /\ no_char "/" s.

(** A key of as many items as categories. *)
Record key_of (mk : TimeBucketKey) (items cats : list string) : Prop := {
  ko_key : mk = Join items "/" +:+ ":" +:+ Join cats "/";
  ko_items : items <> [] /\ Forall key_part items;
  ko_cats : cats <> [] /\ Forall key_part cats;
  ko_len : length items = length cats;
}.

Lemma Forall_key_slash l : Forall key_part l -> Forall (no_char "/") l.
Proof. intros H. eapply Forall_impl; [exact H|]. by intros s [_ ?]. Qed.
Lemma Forall_key_colon l : Forall key_part l -> Forall (no_char ":") l.
Proof. intros H. eapply Forall_impl; [exact H|]. by intros s [? _]. Qed.

Lemma key_split mk items cats :
  key_of mk items cats -> Split mk ":" = [Join items "/"; Join cats "/"].
Proof.
  intros [-> [_ Hi] [_ Hc] _].
  change (Join items "/" +:+ ":" +:+ Join cats "/") with (Join [Join items "/"; Join cats "/"] ":").
  apply split_Join; [done|]. repeat constructor; (apply no_char_Join; [by apply Forall_key_colon|done]).
Qed.

Lemma key_categories mk items cats : key_of mk items cats -> GetCategories mk = Ret cats.
Proof.
  intros H. unfold GetCategories, GetCatKey. rewrite (key_split _ _ _ H). cbn [outcome_bind].
  destruct H as [_ _ [Hne Hc] _]. by rewrite split_Join by (done || by apply Forall_key_slash).
Qed.

Lemma key_items mk items cats : key_of mk items cats -> GetItems mk = items.
Proof.
  intros H. unfold GetItems, GetItemKey. rewrite (key_split _ _ _ H). cbn [hd].
  destruct H as [_ [Hne Hi] _ _]. by rewrite split_Join by (done || by apply Forall_key_slash).
Qed.

Lemma set_items_spec catName itemName cats items :
  length items = length cats ->
  set_items catName itemName cats items =
  Ret (zip_with (fun cat item => if decide (cat = catName) then itemName else item) cats items).
Proof.
  revert items. induction cats as [|c cats IH]; intros [|it items] H; try done.
  cbn. rewrite IH by (cbn in H; lia). done.
Qed.

Lemma join_items_three a b c : join_items 0 [a; b; c] = Join [a; b; c] "/".
Proof. cbn. by rewrite !string_app_nil_r. Qed.

(** Setting an item of a key of three categories gives the key in which
    the items of the categories of that name, and no others, are replaced; so
    the item that was set is what the category reads as. *)
Lemma SetItemInCategory_three (mk : TimeBucketKey) (a b c c1 c2 c3 catName itemName : string) :
  key_of mk [a; b; c] [c1; c2; c3] -> key_part itemName -> catName ∈ [c1; c2; c3] ->
  let set cat item := if decide (cat = catName) then itemName else item in
  exists mk', SetItemInCategory catName itemName mk = Ret mk' /\
    key_of mk' [set c1 a; set c2 b; set c3 c] [c1; c2; c3] /\
    GetItemInCategory catName mk' = Ret itemName.
Proof.
  intros H Hi Hin set. unfold SetItemInCategory. rewrite (key_categories _ _ _ H), (key_items _ _ _ H).
  cbn [outcome_bind]. rewrite set_items_spec by done. cbn [zip_with outcome_bind].
  unfold GetCatKey. rewrite (key_split _ _ _ H). cbn [outcome_bind]. rewrite join_items_three.
  eexists. split; [reflexivity|]. fold (set c1 a) (set c2 b) (set c3 c).
  assert (Hkey : key_of (Join [set c1 a; set c2 b; set c3 c] "/" +:+ ":" +:+ Join [c1; c2; c3] "/")
    [set c1 a; set c2 b; set c3 c] [c1; c2; c3]).
  { destruct H as [_ [_ Hits] Hcats _]. split; try done. split; [done|].
    rewrite !Forall_cons in Hits. destruct Hits as (Ha & Hb & Hc & _).
    rewrite !Forall_cons. unfold set. split_and!; try (by constructor); case_decide; done. }
  split; [exact Hkey|]. unfold GetItemInCategory. rewrite (key_categories _ _ _ Hkey), (key_items _ _ _ Hkey).
  cbn [outcome_bind category_index]. unfold set.
  destruct (decide (c1 = catName)); [done|]. destruct (decide (c2 = catName)); [done|].
  destruct (decide (c3 = catName)); [done|].
  exfalso. rewrite !elem_of_cons in Hin. destruct Hin as [?|[?|[?|?%elem_of_nil]]]; congruence.
Qed.

Lemma SetItemInCategory_three_witness :
  exists mk', SetItemInCategory "Timeframe" "5Min" "AAPL/1Min/OHLCV:Symbol/Timeframe/AttributeGroup" = Ret mk' /\
    key_of mk' ["AAPL"; "5Min"; "OHLCV"] ["Symbol"; "Timeframe"; "AttributeGroup"] /\
    GetItemInCategory "Timeframe" mk' = Ret "5Min".
Proof.
  apply (SetItemInCategory_three _ "AAPL" "1Min" "OHLCV" "Symbol" "Timeframe" "AttributeGroup").
  - split; try done; (split; [done|]; repeat constructor; repeat split; intros H; discriminate H).
  - repeat split; intros H; discriminate H.
  - right. left.
Defined.

(** Only keys of three items survive it: setting an item of a key of four
    runs the last two together and leaves a slash at the end. *)
Lemma SetItemInCategory_four_items :
  SetItemInCategory "Symbol" "TSLA" "AAPL/1Min/OHLCV/X:Symbol/Timeframe/AttributeGroup/Venue"
  = Ret "TSLA/1Min/OHLCVX/:Symbol/Timeframe/AttributeGroup/Venue".
Proof. reflexivity. Qed.
