(* ===== verification/Metadata.v ===== *)
(** * Bucket files' headers and their descriptions (utils/io/metadata.go)

    The header at the start of every bucket file as its bytes, the description
    of a file ([TimeBucketInfo]) that is made for a new file or read from the
    header the first time something asks for it. *)

From S2P Require Export ColumnSeries FileSys.
From S2P Require Import Unicode.

Definition FileinfoVersion : Z := 2.

(** ** The header's layout

    [Header] is a view of a buffer of [Headersize] bytes. *)

Definition header_size : nat := Z.to_nat 37024.
Definition header0 : list byte := replicate header_size x00.

Definition hdr_Version : nat := 0.
Definition hdr_Description : nat := 8.
Definition hdr_Year : nat := 264.
Definition hdr_Timeframe : nat := 272.
Definition hdr_RecordType : nat := 280.
Definition hdr_NElements : nat := 288.
Definition hdr_RecordLength : nat := 296.
Definition hdr_ElementNames : nat := 312.
Definition hdr_ElementTypes : nat := Z.to_nat 33080.

Lemma header_size_eq : Z.of_nat header_size = 37024.
Proof. unfold header_size. lia. Qed.
Lemma hdr_ElementTypes_eq : Z.of_nat hdr_ElementTypes = 33080.
Proof. unfold hdr_ElementTypes. lia. Qed.
Lemma hdr_ElementNames_eq : hdr_ElementNames = 312%nat.
Proof. done. Qed.
#[global] Opaque header_size hdr_ElementTypes hdr_ElementNames.

Definition hp_int64 (off : nat) (hp : list byte) : Z := ToInt64 (read_at off 8 hp).

(** [copy(dst[:], src)] into a field of [size] bytes. *)
Definition copy_field (off size : nat) (src : list byte) (hp : list byte) : list byte :=
  splice off (take size src) hp.
Definition put_byte (off : nat) (b : byte) (hp : list byte) : list byte := splice off [b] hp.
Definition put_int64 (off : nat) (z : Z) (hp : list byte) : list byte := splice off (le_bytes 8 z) hp.

(** [bytes.Trim(b, "\x00")] *)
Fixpoint trim_left (b : list byte) : list byte :=
  match b with
  | c :: b' => if decide (c = x00) then trim_left b' else b
  | [] => []
  end.
Definition Trim0 (b : list byte) : list byte := reverse (trim_left (reverse (trim_left b))).

(** ** TimeBucketInfo *)

Record TimeBucketInfo := mkTBI {
  tbi_Year : Z;
  tbi_Path : string;
  tbi_IsRead : bool;
  tbi_version : Z;
  tbi_description : string;
  tbi_timeframe : Z;
  tbi_nElements : Z;
  tbi_recordType : Z;
  tbi_recordLength : Z;
  tbi_variableRecordLength : Z;
  tbi_elementNames : list string;
  tbi_elementTypes : list Z;
  tbi_once : bool;      (** whether [once] has run *)
}.

Definition set_once (f : TimeBucketInfo) : TimeBucketInfo :=
  mkTBI (tbi_Year f) (tbi_Path f) (tbi_IsRead f) (tbi_version f) (tbi_description f) (tbi_timeframe f)
    (tbi_nElements f) (tbi_recordType f) (tbi_recordLength f) (tbi_variableRecordLength f)
    (tbi_elementNames f) (tbi_elementTypes f) true.
Definition set_IsRead (f : TimeBucketInfo) : TimeBucketInfo :=
  mkTBI (tbi_Year f) (tbi_Path f) true (tbi_version f) (tbi_description f) (tbi_timeframe f)
    (tbi_nElements f) (tbi_recordType f) (tbi_recordLength f) (tbi_variableRecordLength f)
    (tbi_elementNames f) (tbi_elementTypes f) (tbi_once f).
Definition set_variableRecordLength (n : Z) (f : TimeBucketInfo) : TimeBucketInfo :=
  mkTBI (tbi_Year f) (tbi_Path f) (tbi_IsRead f) (tbi_version f) (tbi_description f) (tbi_timeframe f)
    (tbi_nElements f) (tbi_recordType f) (tbi_recordLength f) n
    (tbi_elementNames f) (tbi_elementTypes f) (tbi_once f).
Definition set_elementTypes (ts : list Z) (f : TimeBucketInfo) : TimeBucketInfo :=
  mkTBI (tbi_Year f) (tbi_Path f) (tbi_IsRead f) (tbi_version f) (tbi_description f) (tbi_timeframe f)
    (tbi_nElements f) (tbi_recordType f) (tbi_recordLength f) (tbi_variableRecordLength f)
    (tbi_elementNames f) ts (tbi_once f).

(** What is known of a file that was only found: its year and path. *)
Definition found_tbi (year : Z) (path : string) : TimeBucketInfo :=
  mkTBI year path false 0 "" 0 0 0 0 0 [] [] false.

(** The epoch column is not stored with the others. *)
Definition CreateShapesForTimeBucketInfo (dsv : list DataShape) : list Z * list string :=
  let kept := filter (fun s => ds_Name s <> "Epoch"%string) dsv in
  (map ds_Type kept, map ds_Name kept).

Definition sum_type_sizes (types : list Z) : Z := foldr (fun t n => type_Size t + n) 0 types.

Definition NewTimeBucketInfo (tf : Z) (path description : string) (year : Z) (dsv : list DataShape)
    (recordType : Z) : TimeBucketInfo :=
  let '(elementTypes, elementNames) := CreateShapesForTimeBucketInfo dsv in
  mkTBI year (filepath_Join path (Itoa year +:+ ".bin")) true FileinfoVersion description tf
    (int32 (Z.of_nat (length elementTypes))) recordType
    (if recordType =? FIXED then int32 (int32 (AlignedSize (sum_type_sizes elementTypes)) + 8)
     else if recordType =? VARIABLE then 24 else 0)
    0 elementNames elementTypes false.

(** *** Reading the header of a file *)

(** [file.Read] into the buffer at [off]; [None] for an end of the function
    with an error, nil or not. *)
Definition read_part (f : file) (pos off n : nat) (buffer : list byte) : option goerr * bool * nat * list byte :=
  let '(bs, err) := Read pos n f in
  (err, bool_decide (err = None /\ length bs = n), (pos + length bs)%nat, splice off bs buffer).

(** [buffer[lo:hi]] of the buffer. *)
Definition slice_ok (lo hi : Z) : bool := (0 <=? lo) && (lo <=? hi) && (hi <=? Z.of_nat header_size).

(** The buffer, or [None] where a short read ends the function with the nil
    error of the read that was cut short. *)
Definition read_header_bytes (content : file) : outcome (option (list byte)) :=
  let '(err, ok, pos, buffer) := read_part content 0 0 312 header0 in
  if negb ok then (match err with Some e => Fail e | None => Ret None end)
  else
    let nElements := hp_int64 hdr_NElements buffer in
    let secondReadSize := int64 (nElements * 32) in
    if negb (slice_ok 312 (int64 (312 + secondReadSize))) then Panic "slice bounds out of range"
    else
      let '(err, ok, pos, buffer) := read_part content pos 312 (Z.to_nat secondReadSize) buffer in
      if negb ok then (match err with Some e => Fail e | None => Ret None end)
      else
        let pos := Z.to_nat (Z.of_nat pos + (1024 * 32 - secondReadSize)) in
        let start := 312 + 1024 * 32 in
        if negb (slice_ok start (start + nElements)) then Panic "slice bounds out of range"
        else
          let '(err, ok, pos, buffer) :=
            read_part content pos (Z.to_nat start) (Z.to_nat nElements) buffer in
          if negb ok then (match err with Some e => Fail e | None => Ret None end)
          else if int8 (hp_int64 hdr_RecordType buffer) =? VARIABLE then
            let start := Z.to_nat (start + nElements) in
            let '(err, ok, pos, buffer) := read_part content pos start (header_size - start) buffer in
            if negb ok then (match err with Some e => Fail e | None => Ret None end)
            else Ret (Some buffer)
          else Ret (Some buffer).

(** [load] *)
Fixpoint load_elements (n i : nat) (hp : list byte) : outcome (list string * list Z) :=
  match n with
  | O => Ret ([], [])
  | S n' =>
      if (1024 <=? i)%nat then Panic "index out of range"
      else
        let baseName := bytes_string (Trim0 (read_at (hdr_ElementNames + 32 * i) 32 hp)) in
        let typ := ToUint8 (read_at (hdr_ElementTypes + i) 1 hp) in
        let! '(names, types) := load_elements n' (S i) hp in
        Ret (Title baseName :: names, typ :: types)
  end.

Definition tbi_load (hp : list byte) (path : string) (f : TimeBucketInfo) : outcome TimeBucketInfo :=
  let nElements := int32 (hp_int64 hdr_NElements hp) in
  let! '(names, types) := load_elements (Z.to_nat nElements) 0 hp in
  Ret (mkTBI (int16 (hp_int64 hdr_Year hp)) (filepath_Clean path) true (hp_int64 hdr_Version hp)
    (bytes_string (Trim0 (read_at hdr_Description 256 hp))) (hp_int64 hdr_Timeframe hp)
    nElements (int8 (hp_int64 hdr_RecordType hp)) (int32 (hp_int64 hdr_RecordLength hp))
    (tbi_variableRecordLength f) names types (tbi_once f)).

Definition NewTimeBucketInfoFromHeader (hp : list byte) (path : string) : outcome TimeBucketInfo :=
  tbi_load hp path (found_tbi 0 "").

Definition readHeader (fs : files) (path : string) (f : TimeBucketInfo) : outcome TimeBucketInfo :=
  match fs !! path with
  | None => Fail NotExist
  | Some content =>
      let! hp := read_header_bytes content in
      match hp with
      | None => Ret f
      | Some hp => tbi_load hp path f
      end
  end.

Definition initFromFile (fs : files) (f : TimeBucketInfo) : outcome TimeBucketInfo :=
  if tbi_IsRead f then Ret f
  else
    match readHeader fs (tbi_Path f) f with
    | Fail _ => Fatal "Failed to read the header"
    | o => let! f := o in Ret (set_IsRead f)
    end.

(** *** What reads the header first *)

Section getters.
Context (fs : files).

Definition once_Do : prog TimeBucketInfo unit := fun f =>
  if tbi_once f then (Ret tt, f)
  else
    match initFromFile fs f with
    | Ret f' => (Ret tt, set_once f')
    | Fail e => (Fail e, f)
    | Fatal m => (Fatal m, f)
    | Panic m => (Panic m, f)
    end.

Definition once_get {A} (g : TimeBucketInfo -> A) : prog TimeBucketInfo A :=
  once_Do ;; f ← state_get; mret (g f).

Definition GetVersion : prog TimeBucketInfo Z := once_get tbi_version.
Definition GetDescription : prog TimeBucketInfo string := once_get tbi_description.
Definition GetTimeframe : prog TimeBucketInfo Z := once_get tbi_timeframe.
Definition GetNelements : prog TimeBucketInfo Z := once_get tbi_nElements.
Definition GetRecordLength : prog TimeBucketInfo Z := once_get tbi_recordLength.
Definition GetRecordType : prog TimeBucketInfo Z := once_get tbi_recordType.
Definition GetElementNames : prog TimeBucketInfo (list string) := once_get tbi_elementNames.
Definition GetElementTypes : prog TimeBucketInfo (list Z) := once_get tbi_elementTypes.

Definition GetIntervals : prog TimeBucketInfo Z :=
  tf ← GetTimeframe;
  if tf =? 0 then lift (Panic "integer divide by zero") else mret (Z.quot Day tf).

Definition getFieldRecordLength : prog TimeBucketInfo Z :=
  types ← GetElementTypes; mret (sum_type_sizes types).

Definition tbi_GetDataShapes : prog TimeBucketInfo (list DataShape) :=
  names ← GetElementNames;
  types ← GetElementTypes;
  lift (NewDataShapeVector names types).

Definition GetDataShapesWithEpoch : prog TimeBucketInfo (list DataShape) :=
  dsv ← tbi_GetDataShapes; mret (mkShape "Epoch" INT64 :: dsv).

(** The length of a variable record is worked out once. *)
Definition GetVariableRecordLength : prog TimeBucketInfo Z :=
  once_Do ;;
  f ← state_get;
  (if (tbi_recordType f =? VARIABLE) && (tbi_variableRecordLength f =? 0) then
     len ← getFieldRecordLength;
     state_modify (set_variableRecordLength (int32 (int32 len + 4)))
   else mret tt) ;;
  f ← state_get;
  mret (tbi_variableRecordLength f).

(** A copy has its own [once], and is read when the original was. *)
Definition GetDeepCopy : prog TimeBucketInfo TimeBucketInfo :=
  once_Do ;;
  f ← state_get;
  mret (mkTBI (tbi_Year f) (tbi_Path f) (tbi_IsRead f) (tbi_version f) (tbi_description f) (tbi_timeframe f)
    (tbi_nElements f) (tbi_recordType f) (tbi_recordLength f) (tbi_variableRecordLength f)
    (tbi_elementNames f) (tbi_elementTypes f) false).

Definition SetElementTypes (newTypes : list Z) : prog TimeBucketInfo unit :=
  f ← state_get;
  if (length newTypes =? length (tbi_elementTypes f))%nat
  then state_put (set_elementTypes newTypes f)
  else lift (Fail (ErrMsg "Element count not equal")).

(** *** Writing a header *)

Fixpoint store_elements (n i : nat) (names : list string) (types : list Z) (hp : list byte) : outcome (list byte) :=
  match n with
  | O => Ret hp
  | S n' =>
      if (1024 <=? i)%nat then Panic "index out of range"
      else
        match names !! i, types !! i with
        | Some name, Some typ =>
            let hp := copy_field (hdr_ElementNames + 32 * i) 32 (string_bytes name) hp in
            let hp := put_byte (hdr_ElementTypes + i) (byte_of_Z typ) hp in
            store_elements n' (S i) names types hp
        | _, _ => Panic "index out of range"
        end
  end.

(** A version other than the program's is only warned of. *)
Definition Header_Load (hp : list byte) : prog TimeBucketInfo (list byte) :=
  version ← GetVersion;
  let hp := put_int64 hdr_Version version hp in
  description ← GetDescription;
  let hp := copy_field hdr_Description 256 (string_bytes description) hp in
  f ← state_get;
  let hp := put_int64 hdr_Year (tbi_Year f) hp in
  tf ← GetTimeframe;
  let hp := put_int64 hdr_Timeframe tf hp in
  n ← GetNelements;
  let hp := put_int64 hdr_NElements n hp in
  len ← GetRecordLength;
  let hp := put_int64 hdr_RecordLength len hp in
  rt ← GetRecordType;
  let hp := put_int64 hdr_RecordType rt hp in
  names ← GetElementNames;
  types ← GetElementTypes;
  hp ← lift (store_elements (Z.to_nat n) 0 names types hp);
  mret (put_int64 hdr_RecordType rt hp).

(** [WriteHeader] at the position of an open file. *)
Definition WriteHeader (pos : nat) (f : file) : prog TimeBucketInfo file :=
  hp ← Header_Load header0; mret (pwrite pos hp f).
End getters.

(** ** The header on disk and back *)

(** What a NUL-padded field can hold. *)
Definition field_ok (size : nat) (s : string) : Prop :=
  (length (string_bytes s) <= size)%nat /\
  hd_error (string_bytes s) <> Some x00 /\ last (string_bytes s) <> Some x00.

Lemma trim_left_zeros k bs : trim_left (replicate k x00 ++ bs) = trim_left bs.
Proof. induction k as [|k IH]; [done|]. cbn. rewrite decide_True by done. exact IH. Qed.

Lemma trim_left_id bs : hd_error bs <> Some x00 -> trim_left bs = bs.
Proof. destruct bs as [|b bs]; [done|]. cbn. intros H. rewrite decide_False by congruence. done. Qed.

Lemma hd_error_reverse {A} (l : list A) : hd_error (reverse l) = last l.
Proof. destruct l as [|x l _] using rev_ind; [done|]. by rewrite reverse_snoc, last_snoc. Qed.

Lemma Trim0_padded bs k :
  hd_error bs <> Some x00 -> last bs <> Some x00 -> Trim0 (bs ++ replicate k x00) = bs.
Proof.
  intros Hh Hl. unfold Trim0. destruct bs as [|b bs].
  - cbn [app]. rewrite <- (app_nil_r (replicate k x00)), trim_left_zeros. done.
  - rewrite (trim_left_id ((b :: bs) ++ _)) by exact Hh. rewrite reverse_app, reverse_replicate, trim_left_zeros.
    rewrite trim_left_id by (by rewrite hd_error_reverse). by rewrite reverse_involutive.
Qed.

Lemma length_header0 : length header0 = header_size.
Proof. apply length_replicate. Qed.

Lemma read_at_ext off n (f g : list byte) :
  (forall i, (off <= i < off + n)%nat -> f !! i = g !! i) -> read_at off n f = read_at off n g.
Proof.
  intros H. apply list_eq. intros i. rewrite !lookup_read_at. case_decide; [|done]. apply H. lia.
Qed.

Lemma read_copy_field off size src hp :
  (off + size <= length hp)%nat -> (length src <= size)%nat ->
  read_at off size hp = replicate size x00 ->
  read_at off size (copy_field off size src hp) = src ++ replicate (size - length src) x00.
Proof.
  intros Hle Hsrc Hz. unfold copy_field. rewrite take_ge by lia. apply list_eq. intros i.
  rewrite lookup_read_at. case_decide as Hi; last first.
  { symmetry. apply lookup_ge_None. rewrite length_app, length_replicate. lia. }
  rewrite lookup_splice by lia. unfold covers. case_decide as Hc.
  - rewrite lookup_app_l by lia. f_equal. lia.
  - rewrite lookup_app_r by lia. rewrite lookup_replicate_2 by lia.
    assert (H : read_at off size hp !! i = Some x00) by (rewrite Hz; by apply lookup_replicate_2).
    rewrite lookup_read_at, decide_True in H by done. exact H.
Qed.

Lemma length_copy_field off size src hp :
  (off + size <= length hp)%nat -> length (copy_field off size src hp) = length hp.
Proof. intros H. apply length_splice. rewrite length_take. lia. Qed.

Lemma read_copy_disjoint off size src hp o n :
  (off + size <= length hp)%nat -> (o + n <= off \/ off + size <= o)%nat ->
  read_at o n (copy_field off size src hp) = read_at o n hp.
Proof. intros Hle Hd. apply read_at_splice_disjoint; rewrite length_take; lia. Qed.

Lemma hp_put_same off z hp : (off + 8 <= length hp)%nat -> hp_int64 off (put_int64 off z hp) = int64 z.
Proof.
  intros H. unfold hp_int64, put_int64. rewrite <- (length_le_bytes 8 z) at 1.
  rewrite read_at_splice_same by (by rewrite length_le_bytes).
  rewrite <- (app_nil_r (le_bytes 8 z)). apply ToInt64_le_bytes.
Qed.

Lemma length_put_int64 off z hp : (off + 8 <= length hp)%nat -> length (put_int64 off z hp) = length hp.
Proof. intros H. apply length_splice. by rewrite length_le_bytes. Qed.

Lemma read_put_disjoint off z hp o n :
  (off + 8 <= length hp)%nat -> (o + n <= off \/ off + 8 <= o)%nat ->
  read_at o n (put_int64 off z hp) = read_at o n hp.
Proof. intros Hle Hd. apply read_at_splice_disjoint; by rewrite length_le_bytes. Qed.

Lemma length_put_byte off b hp : (off < length hp)%nat -> length (put_byte off b hp) = length hp.
Proof. intros H. apply length_splice. change (length [b]) with 1%nat. lia. Qed.

Lemma read_byte_disjoint off b hp o n :
  (off < length hp)%nat -> (o + n <= off \/ off + 1 <= o)%nat ->
  read_at o n (put_byte off b hp) = read_at o n hp.
Proof. intros Hle Hd. apply read_at_splice_disjoint; change (length [b]) with 1%nat; lia. Qed.

Lemma read_byte_same off b hp : (off < length hp)%nat -> read_at off 1 (put_byte off b hp) = [b].
Proof. intros Hle. apply (read_at_splice_same off [b]). change (length [b]) with 1%nat. lia. Qed.

(** *** The elements *)

Definition element_name (hp : list byte) (i : nat) : list byte := read_at (hdr_ElementNames + 32 * i) 32 hp.
Definition element_type (hp : list byte) (i : nat) : list byte := read_at (hdr_ElementTypes + i) 1 hp.
Definition padded (s : string) : list byte := string_bytes s ++ replicate (32 - length (string_bytes s)) x00.

Lemma store_elements_spec n i names types hp :
  (i + n <= 1024)%nat -> length hp = header_size ->
  (i + n <= length names)%nat -> (i + n <= length types)%nat ->
  Forall (field_ok 32) names -> Forall (fun t => 0 <= t < 256) types ->
  (forall j, (i <= j < 1024)%nat -> element_name hp j = replicate 32 x00) ->
  exists hp', store_elements n i names types hp = Ret hp' /\ length hp' = header_size /\
    (forall o m, (o + m <= hdr_ElementNames)%nat -> read_at o m hp' = read_at o m hp) /\
    (forall j, (j < i)%nat -> element_name hp' j = element_name hp j /\ element_type hp' j = element_type hp j) /\
    (forall j name t, (i <= j < i + n)%nat -> names !! j = Some name -> types !! j = Some t ->
       element_name hp' j = padded name /\ element_type hp' j = le_bytes 1 t).
Proof.
  intros Hn Hlen Hnames Htypes Hf Ht Hz. pose proof header_size_eq as Hsz.
  pose proof hdr_ElementTypes_eq as Hty. pose proof hdr_ElementNames_eq as Hnm.
  revert i hp Hn Hlen Hnames Htypes Hz. induction n as [|n IH]; intros i hp Hn Hlen Hnames Htypes Hz.
  { exists hp. split; [reflexivity|]. split; [exact Hlen|]. split; [reflexivity|].
    split; [intros j _; split; reflexivity|]. intros j name t Hj. lia. }
  cbn [store_elements]. rewrite (proj2 (Nat.leb_gt _ _)) by lia.
  destruct (lookup_lt_is_Some_2 names i ltac:(lia)) as [name Hname].
  destruct (lookup_lt_is_Some_2 types i ltac:(lia)) as [t Htt]. rewrite Hname, Htt. cbv zeta.
  set (hp1 := copy_field (hdr_ElementNames + 32 * i) 32 (string_bytes name) hp).
  set (hp2 := put_byte (hdr_ElementTypes + i) (byte_of_Z t) hp1).
  assert (Hl1 : length hp1 = header_size) by (unfold hp1; rewrite length_copy_field by lia; done).
  assert (Hl2 : length hp2 = header_size) by (unfold hp2; rewrite length_put_byte by lia; done).
  assert (Hdis : forall o m, (o + m <= hdr_ElementNames + 32 * i \/ hdr_ElementNames + 32 * i + 32 <= o)%nat ->
     (o + m <= hdr_ElementTypes + i \/ hdr_ElementTypes + i + 1 <= o)%nat -> read_at o m hp2 = read_at o m hp).
  { intros o m H1 H2. unfold hp2. rewrite read_byte_disjoint by lia.
    apply read_copy_disjoint; lia. }
  destruct (IH (S i) hp2) as (hp' & Hrun & Hl' & Hlow & Hbefore & Hin); try lia.
  { intros j Hj. unfold element_name. rewrite Hdis by lia. apply Hz. lia. }
  exists hp'. split_and!; [exact Hrun|exact Hl'| | |].
  - intros o m Ho. rewrite Hlow by done. apply Hdis; lia.
  - intros j Hj. destruct (Hbefore j ltac:(lia)) as [-> ->]. unfold element_name, element_type.
    split; apply Hdis; lia.
  - intros j name' t' Hj Hnj Htj. destruct (decide (j = i)) as [->|Hne]; [|apply Hin; [lia|exact Hnj|exact Htj]].
    rewrite Hname in Hnj. rewrite Htt in Htj. injection Hnj as <-. injection Htj as <-.
    destruct (Hbefore i ltac:(lia)) as [-> ->]. unfold element_name, element_type. split.
    + unfold hp2. rewrite read_byte_disjoint by lia.
      apply read_copy_field; [lia| |by apply (Hz i); lia].
      eapply Forall_lookup_1 in Hf; [|exact Hname]. apply Hf.
    + unfold hp2. by rewrite read_byte_same by lia.
Qed.

Lemma load_elements_spec n i names types hp :
  (i + n <= 1024)%nat -> Forall (field_ok 32) names -> Forall (fun t => 0 <= t < 256) types ->
  (i + n = length names)%nat -> (i + n = length types)%nat ->
  (forall j name t, (i <= j < i + n)%nat -> names !! j = Some name -> types !! j = Some t ->
       element_name hp j = padded name /\ element_type hp j = le_bytes 1 t) ->
  load_elements n i hp = Ret (map Title (drop i names), drop i types).
Proof.
  intros Hn Hf Ht. revert i Hn. induction n as [|n IH]; intros i Hn Hln Hlt Hel.
  { cbn. rewrite !drop_ge by lia. done. }
  cbn [load_elements]. rewrite (proj2 (Nat.leb_gt _ _)) by lia.
  destruct (lookup_lt_is_Some_2 names i ltac:(lia)) as [name Hname].
  destruct (lookup_lt_is_Some_2 types i ltac:(lia)) as [t Htt].
  destruct (Hel i name t ltac:(lia) Hname Htt) as [He1 He2]. unfold element_name, element_type in *.
  assert (Hel' : forall j name t, (S i <= j < S i + n)%nat -> names !! j = Some name -> types !! j = Some t ->
    element_name hp j = padded name /\ element_type hp j = le_bytes 1 t).
  { intros j name' t' Hj. apply Hel. lia. }
  rewrite He1, He2. rewrite (IH (S i) ltac:(lia) ltac:(lia) ltac:(lia) Hel'). cbn [outcome_bind].
  rewrite (drop_S _ _ _ Hname), (drop_S _ _ _ Htt). cbn [map].
  eapply Forall_lookup_1 in Hf; [|exact Hname]. destruct Hf as (_ & Hh & Hl).
  unfold padded. rewrite Trim0_padded by done. rewrite bytes_string_of_bytes.
  eapply Forall_lookup_1 in Ht; [|exact Htt].
  unfold ToUint8. rewrite <- (app_nil_r (le_bytes 1 t)), take_le_bytes_app, le_val_le_bytes.
  change (256 ^ Z.of_nat 1) with 256. by rewrite Z.mod_small by done.
Qed.

(** *** Writing *)

(** A description that fits the header. *)
Record describable (n : nat) (f : TimeBucketInfo) : Prop := {
  db_read : tbi_IsRead f = true;
  db_version : inS 64 (tbi_version f);
  db_description : field_ok 256 (tbi_description f);
  db_year : inS 16 (tbi_Year f);
  db_timeframe : inS 64 (tbi_timeframe f);
  db_n : tbi_nElements f = Z.of_nat n /\ (n <= 1024)%nat;
  db_recordLength : inS 32 (tbi_recordLength f);
  db_recordType : inS 8 (tbi_recordType f);
  db_names : length (tbi_elementNames f) = n /\ Forall (field_ok 32) (tbi_elementNames f);
  db_types : length (tbi_elementTypes f) = n /\ Forall (fun t => 0 <= t < 256) (tbi_elementTypes f);
}.

Section write.
Context (fs : files).

Lemma set_once_idem f : set_once (set_once f) = set_once f.
Proof. done. Qed.

Lemma once_Do_read f : tbi_IsRead f = true -> once_Do fs f = (Ret tt, set_once f).
Proof.
  intros H. unfold once_Do, initFromFile. rewrite H. destruct (tbi_once f) eqn:Ho; [|done].
  f_equal. destruct f. cbn in *. by subst.
Qed.

Lemma once_get_read {A} (g : TimeBucketInfo -> A) f :
  tbi_IsRead f = true -> g (set_once f) = g f -> once_get fs g f = (Ret (g f), set_once f).
Proof.
  intros H Hg. unfold once_get. rewrite (bind_step _ _ _ _ _ (once_Do_read f H)).
  rewrite (bind_step _ _ (set_once f) (set_once f) (set_once f)) by done. by rewrite <- Hg.
Qed.

(** The fields before the elements. *)
Definition header_fields (f : TimeBucketInfo) : list byte :=
  put_int64 hdr_RecordType (tbi_recordType f)
  (put_int64 hdr_RecordLength (tbi_recordLength f)
  (put_int64 hdr_NElements (tbi_nElements f)
  (put_int64 hdr_Timeframe (tbi_timeframe f)
  (put_int64 hdr_Year (tbi_Year f)
  (copy_field hdr_Description 256 (string_bytes (tbi_description f))
  (put_int64 hdr_Version (tbi_version f) header0)))))).

Lemma Header_Load_store f hp :
  tbi_IsRead f = true ->
  store_elements (Z.to_nat (tbi_nElements f)) 0 (tbi_elementNames f) (tbi_elementTypes f) (header_fields f) = Ret hp ->
  Header_Load fs header0 f = (Ret (put_int64 hdr_RecordType (tbi_recordType f) hp), set_once f).
Proof.
  intros Hr Hs. unfold Header_Load, GetVersion, GetDescription, GetTimeframe, GetNelements, GetRecordLength,
    GetRecordType, GetElementNames, GetElementTypes.
  rewrite (bind_step _ _ _ _ _ (once_get_read tbi_version f Hr eq_refl)). cbv zeta.
  set (f1 := set_once f). assert (Hr1 : tbi_IsRead f1 = true) by exact Hr.
  rewrite (bind_step _ _ _ _ _ (once_get_read tbi_description f1 Hr1 eq_refl)).
  rewrite (bind_step _ _ f1 f1 f1) by done.
  rewrite (bind_step _ _ _ _ _ (once_get_read tbi_timeframe f1 Hr1 eq_refl)).
  change (set_once f1) with f1.
  rewrite (bind_step _ _ _ _ _ (once_get_read tbi_nElements f1 Hr1 eq_refl)).
  change (set_once f1) with f1.
  rewrite (bind_step _ _ _ _ _ (once_get_read tbi_recordLength f1 Hr1 eq_refl)).
  change (set_once f1) with f1.
  rewrite (bind_step _ _ _ _ _ (once_get_read tbi_recordType f1 Hr1 eq_refl)).
  change (set_once f1) with f1.
  rewrite (bind_step _ _ _ _ _ (once_get_read tbi_elementNames f1 Hr1 eq_refl)).
  change (set_once f1) with f1.
  rewrite (bind_step _ _ _ _ _ (once_get_read tbi_elementTypes f1 Hr1 eq_refl)).
  change (set_once f1) with f1.
  rewrite (bind_step _ _ f1 hp f1); [done|]. unfold lift. f_equal. exact Hs.
Qed.

Lemma read_header0 off n : (off + n <= header_size)%nat -> read_at off n header0 = replicate n x00.
Proof.
  intros H. apply list_eq. intros i. rewrite lookup_read_at. case_decide.
  - unfold header0. rewrite !lookup_replicate_2 by lia. done.
  - symmetry. apply lookup_ge_None. rewrite length_replicate. lia.
Qed.

Definition header_rest (f : TimeBucketInfo) (hp : list byte) : Prop :=
  hp_int64 hdr_Version hp = int64 (tbi_version f) /\
  read_at hdr_Description 256 hp = string_bytes (tbi_description f) ++
    replicate (256 - length (string_bytes (tbi_description f))) x00 /\
  hp_int64 hdr_Year hp = int64 (tbi_Year f) /\
  hp_int64 hdr_Timeframe hp = int64 (tbi_timeframe f) /\
  hp_int64 hdr_NElements hp = int64 (tbi_nElements f) /\
  hp_int64 hdr_RecordLength hp = int64 (tbi_recordLength f) /\
  hp_int64 hdr_RecordType hp = int64 (tbi_recordType f).

Lemma header_fields_spec f :
  field_ok 256 (tbi_description f) ->
  length (header_fields f) = header_size /\ header_rest f (header_fields f) /\
  (forall o m, (hdr_ElementNames <= o)%nat -> (o + m <= header_size)%nat ->
     read_at o m (header_fields f) = replicate m x00).
Proof.
  intros [Hd _]. pose proof header_size_eq as Hsz. pose proof length_header0 as H0.
  unfold header_rest, header_fields, hdr_Version, hdr_Description, hdr_Year, hdr_Timeframe,
    hdr_NElements, hdr_RecordLength, hdr_RecordType.
  set (h1 := put_int64 0 (tbi_version f) header0). assert (H1 : length h1 = header_size) by (unfold h1; rewrite length_put_int64; lia).
  set (h2 := copy_field 8 256 (string_bytes (tbi_description f)) h1). assert (H2 : length h2 = header_size) by (unfold h2; rewrite length_copy_field; lia).
  set (h3 := put_int64 264 (tbi_Year f) h2). assert (H3 : length h3 = header_size) by (unfold h3; rewrite length_put_int64; lia).
  set (h4 := put_int64 272 (tbi_timeframe f) h3). assert (H4 : length h4 = header_size) by (unfold h4; rewrite length_put_int64; lia).
  set (h5 := put_int64 288 (tbi_nElements f) h4). assert (H5 : length h5 = header_size) by (unfold h5; rewrite length_put_int64; lia).
  set (h6 := put_int64 296 (tbi_recordLength f) h5). assert (H6 : length h6 = header_size) by (unfold h6; rewrite length_put_int64; lia).
  set (h7 := put_int64 280 (tbi_recordType f) h6). assert (H7 : length h7 = header_size) by (unfold h7; rewrite length_put_int64; lia).
  assert (R7 : forall o m, (o + m <= 280 \/ 288 <= o)%nat -> read_at o m h7 = read_at o m h6)
    by (intros; unfold h7; apply read_put_disjoint; lia).
  assert (R6 : forall o m, (o + m <= 296 \/ 304 <= o)%nat -> read_at o m h6 = read_at o m h5)
    by (intros; unfold h6; apply read_put_disjoint; lia).
  assert (R5 : forall o m, (o + m <= 288 \/ 296 <= o)%nat -> read_at o m h5 = read_at o m h4)
    by (intros; unfold h5; apply read_put_disjoint; lia).
  assert (R4 : forall o m, (o + m <= 272 \/ 280 <= o)%nat -> read_at o m h4 = read_at o m h3)
    by (intros; unfold h4; apply read_put_disjoint; lia).
  assert (R3 : forall o m, (o + m <= 264 \/ 272 <= o)%nat -> read_at o m h3 = read_at o m h2)
    by (intros; unfold h3; apply read_put_disjoint; lia).
  assert (R2 : forall o m, (o + m <= 8 \/ 264 <= o)%nat -> read_at o m h2 = read_at o m h1)
    by (intros; unfold h2; apply read_copy_disjoint; lia).
  split; [exact H7|]. split; [split_and!|].
  - unfold hp_int64. rewrite R7, R6, R5, R4, R3, R2 by lia. apply (hp_put_same 0). lia.
  - rewrite R7, R6, R5, R4, R3 by lia. apply read_copy_field; [lia|exact Hd|].
    unfold h1. rewrite read_put_disjoint by lia. apply read_header0. lia.
  - unfold hp_int64. rewrite R7, R6, R5, R4 by lia. apply (hp_put_same 264). lia.
  - unfold hp_int64. rewrite R7, R6, R5 by lia. apply (hp_put_same 272). lia.
  - unfold hp_int64. rewrite R7, R6 by lia. apply (hp_put_same 288). lia.
  - unfold hp_int64. rewrite R7 by lia. apply (hp_put_same 296). lia.
  - apply (hp_put_same 280). lia.
  - intros o m Ho Hm. rewrite hdr_ElementNames_eq in Ho.
    rewrite R7, R6, R5, R4, R3, R2 by lia. unfold h1. rewrite read_put_disjoint by lia. by apply read_header0.
Qed.
End write.

(** *** Reading back *)

Definition agree_on (lo hi : nat) (b c : list byte) : Prop := forall i, (lo <= i < hi)%nat -> b !! i = c !! i.

Lemma read_part_full content pos off n buffer :
  (pos + n <= length content)%nat ->
  read_part content pos off n buffer = (None, true, (pos + n)%nat, splice off (read_at pos n content) buffer).
Proof.
  intros H. unfold read_part, Read. fold (read_at pos n content). change (pread pos n content) with (read_at pos n content).
  pose proof (length_read_at pos n content H) as Hl. rewrite decide_False.
  - rewrite Hl, bool_decide_eq_true_2 by done. done.
  - intros [Hn Hz]. rewrite Hn in Hl. cbn in Hl. lia.
Qed.

Lemma splice_agree content pos n buffer lo hi :
  (pos + n <= length content)%nat -> (pos + n <= length buffer)%nat -> agree_on lo hi buffer content ->
  agree_on lo hi (splice pos (read_at pos n content) buffer) content /\
  agree_on pos (pos + n) (splice pos (read_at pos n content) buffer) content /\
  length (splice pos (read_at pos n content) buffer) = length buffer.
Proof.
  intros Hc Hb Ha. pose proof (length_read_at pos n content Hc) as Hl.
  assert (Hlk : forall i, splice pos (read_at pos n content) buffer !! i =
    if decide (pos <= i < pos + n)%nat then content !! i else buffer !! i).
  { intros i. rewrite lookup_splice by lia. unfold covers. rewrite Hl. case_decide; [|done].
    rewrite lookup_read_at, decide_True by lia. f_equal. lia. }
  split_and!.
  - intros i Hi. rewrite Hlk. case_decide; [done|]. by apply Ha.
  - intros i Hi. rewrite Hlk. by rewrite decide_True.
  - apply length_splice. lia.
Qed.

(** What a reader gets of a whole header: its fields and its elements. *)
Lemma read_header_bytes_full content n :
  (header_size <= length content)%nat -> (n <= 1024)%nat ->
  hp_int64 hdr_NElements content = Z.of_nat n ->
  exists hp, read_header_bytes content = Ret (Some hp) /\
    agree_on 0 312 hp content /\ agree_on hdr_ElementNames (hdr_ElementNames + 32 * n) hp content /\
    agree_on hdr_ElementTypes (hdr_ElementTypes + n) hp content.
Proof.
  intros Hlen Hn HN. pose proof header_size_eq as Hsz. pose proof length_header0 as H0.
  pose proof hdr_ElementTypes_eq as Hty. rewrite hdr_ElementNames_eq.
  unfold read_header_bytes. rewrite read_part_full by lia.
  destruct (splice_agree content 0 312 header0 0 0 ltac:(lia) ltac:(lia) ltac:(intros i; lia)) as (_ & A1 & L1).
  set (b1 := splice 0 (read_at 0 312 content) header0) in *. cbn [negb].
  assert (HN1 : hp_int64 hdr_NElements b1 = Z.of_nat n).
  { rewrite <- HN. unfold hp_int64, hdr_NElements. f_equal. apply read_at_ext. intros i Hi. apply A1. lia. }
  rewrite HN1. cbv zeta.
  assert (Hs : int64 (Z.of_nat n * 32) = Z.of_nat n * 32) by (apply wrapS_id; [lia|unfold inS; lia]).
  rewrite Hs. assert (Hs' : int64 (312 + Z.of_nat n * 32) = 312 + Z.of_nat n * 32) by (apply wrapS_id; [lia|unfold inS; lia]).
  rewrite Hs'. unfold slice_ok at 1. rewrite Hsz. rewrite (proj2 (Z.leb_le 0 312)), !(proj2 (Z.leb_le _ _)) by lia. cbn [andb negb].
  replace (0 + 312)%nat with 312%nat by lia. rewrite read_part_full by lia.
  destruct (splice_agree content 312 (Z.to_nat (Z.of_nat n * 32)) b1 0 312 ltac:(lia) ltac:(lia) A1) as (A2 & B2 & L2).
  set (b2 := splice 312 _ b1) in *. cbn [negb].
  replace (Z.to_nat (Z.of_nat (312 + Z.to_nat (Z.of_nat n * 32)) + (1024 * 32 - Z.of_nat n * 32)))
    with (Z.to_nat (312 + 1024 * 32)) by lia.
  unfold slice_ok. rewrite Hsz. rewrite !(proj2 (Z.leb_le _ _)) by lia. cbn [andb negb].
  rewrite read_part_full by lia.
  destruct (splice_agree content (Z.to_nat (312 + 1024 * 32)) (Z.to_nat (Z.of_nat n)) b2 0 312 ltac:(lia) ltac:(lia) A2) as (A3 & C3 & L3).
  destruct (splice_agree content (Z.to_nat (312 + 1024 * 32)) (Z.to_nat (Z.of_nat n)) b2 312 (312 + 32 * n) ltac:(lia) ltac:(lia)) as (B3 & _ & _).
  { intros i Hi. apply B2. lia. }
  set (b3 := splice (Z.to_nat (312 + 1024 * 32)) _ b2) in *. cbn [negb].
  destruct (int8 _ =? VARIABLE).
  - set (st := Z.to_nat (312 + 1024 * 32 + Z.of_nat n)) in *.
    replace (Z.to_nat (312 + 1024 * 32) + Z.to_nat (Z.of_nat n))%nat with st by lia.
    rewrite read_part_full by lia. eexists. split; [reflexivity|].
    destruct (splice_agree content st (header_size - st) b3 0 312 ltac:(lia) ltac:(lia) A3) as (A4 & _ & _).
    destruct (splice_agree content st (header_size - st) b3 312 (312 + 32 * n) ltac:(lia) ltac:(lia) B3) as (B4 & _ & _).
    destruct (splice_agree content st (header_size - st) b3 _ _ ltac:(lia) ltac:(lia) C3) as (C4 & _ & _).
    split_and!; [exact A4|exact B4|]. intros i Hi. apply C4. lia.
  - eexists. split; [reflexivity|]. split_and!; [exact A3|exact B3|]. intros i Hi. apply C3. lia.
Qed.

(** *** The round trip *)

Definition elements_stored (n : nat) (f : TimeBucketInfo) (hp : list byte) : Prop :=
  forall j name t, (0 <= j < 0 + n)%nat -> tbi_elementNames f !! j = Some name -> tbi_elementTypes f !! j = Some t ->
    element_name hp j = padded name /\ element_type hp j = le_bytes 1 t.

Lemma header_written fs n f :
  describable n f ->
  exists hp, Header_Load fs header0 f = (Ret hp, set_once f) /\ length hp = header_size /\
    header_rest f hp /\ elements_stored n f hp.
Proof.
  intros [Hr _ Hd _ _ [HN Hn] _ _ [Hln Hnames] [Hlt Htypes]].
  pose proof header_size_eq as Hsz. pose proof hdr_ElementTypes_eq as Hty. pose proof hdr_ElementNames_eq as Hnm.
  destruct (header_fields_spec f Hd) as (Hlf & (F1 & F2 & F3 & F4 & F5 & F6 & F7) & Hz).
  destruct (store_elements_spec n 0 (tbi_elementNames f) (tbi_elementTypes f) (header_fields f))
    as (hp & Hrun & Hl & Hlow & _ & Hel); try assumption; try lia.
  { intros j Hj. unfold element_name. apply Hz; lia. }
  assert (HnN : Z.to_nat (tbi_nElements f) = n) by lia. rewrite <- HnN in Hrun.
  exists (put_int64 hdr_RecordType (tbi_recordType f) hp).
  assert (Hdis : forall o m, (o + m <= 280 \/ 288 <= o)%nat ->
    read_at o m (put_int64 hdr_RecordType (tbi_recordType f) hp) = read_at o m hp).
  { intros o m Hom. apply read_put_disjoint; unfold hdr_RecordType; lia. }
  assert (Hi : forall o, (o + 8 <= 280 \/ (288 <= o /\ o + 8 <= 312))%nat ->
    hp_int64 o (put_int64 hdr_RecordType (tbi_recordType f) hp) = hp_int64 o (header_fields f)).
  { intros o Ho. unfold hp_int64. rewrite Hdis, Hlow by lia. reflexivity. }
  split; [by apply Header_Load_store|]. split; [rewrite length_put_int64; [exact Hl|unfold hdr_RecordType; lia]|].
  split; [split_and!|].
  - rewrite Hi by (unfold hdr_Version; lia). exact F1.
  - rewrite Hdis, Hlow by (unfold hdr_Description; lia). exact F2.
  - rewrite Hi by (unfold hdr_Year; lia). exact F3.
  - rewrite Hi by (unfold hdr_Timeframe; lia). exact F4.
  - rewrite Hi by (unfold hdr_NElements; lia). exact F5.
  - rewrite Hi by (unfold hdr_RecordLength; lia). exact F6.
  - apply hp_put_same. unfold hdr_RecordType. lia.
  - intros j name t Hj Hname Ht. destruct (Hel j name t Hj Hname Ht) as [E1 E2].
    unfold element_name, element_type in *. rewrite !Hdis by lia. split; [exact E1|exact E2].
Qed.

(** What is read back of a described file: its names come back in title case. *)
Definition read_tbi (path : string) (f g : TimeBucketInfo) : TimeBucketInfo :=
  mkTBI (tbi_Year f) (filepath_Clean path) true (tbi_version f) (tbi_description f) (tbi_timeframe f)
    (tbi_nElements f) (tbi_recordType f) (tbi_recordLength f) (tbi_variableRecordLength g)
    (map Title (tbi_elementNames f)) (tbi_elementTypes f) (tbi_once g).

Lemma header_read n f hp content path g :
  describable n f -> length hp = header_size -> header_rest f hp -> elements_stored n f hp ->
  agree_on 0 header_size content hp -> (header_size <= length content)%nat ->
  (let! b := read_header_bytes content in match b with None => Ret g | Some b => tbi_load b path g end)
  = Ret (read_tbi path f g).
Proof.
  intros [Hr Hv Hd Hy Htf [HN Hn] Hrl Hrt [Hln Hnames] [Hlt Htypes]] Hlen Hrest Hel Hag Hlc.
  pose proof header_size_eq as Hsz. pose proof hdr_ElementTypes_eq as Hty. pose proof hdr_ElementNames_eq as Hnm.
  destruct Hrest as (F1 & F2 & F3 & F4 & F5 & F6 & F7).
  assert (Hhp : forall o m, (o + m <= header_size)%nat -> read_at o m content = read_at o m hp).
  { intros o m Hom. apply read_at_ext. intros i Hi. apply Hag. lia. }
  destruct (read_header_bytes_full content n Hlc Hn) as (b & Hb & A & B & C).
  { unfold hp_int64, hdr_NElements in *. rewrite Hhp by lia. rewrite F5, HN. apply wrapS_id; [lia|unfold inS; lia]. }
  rewrite Hb. cbn [outcome_bind].
  assert (Hlow : forall o m, (o + m <= 312)%nat -> read_at o m b = read_at o m hp).
  { intros o m Hom. rewrite <- Hhp by lia. apply read_at_ext. intros i Hi. apply A. lia. }
  unfold hp_int64, hdr_Version, hdr_Description, hdr_Year, hdr_Timeframe, hdr_NElements,
    hdr_RecordLength, hdr_RecordType in *.
  unfold tbi_load, hp_int64, hdr_Version, hdr_Description, hdr_Year, hdr_Timeframe, hdr_NElements,
    hdr_RecordLength, hdr_RecordType.
  rewrite !Hlow by lia. rewrite F1, F2, F3, F4, F5, F6, F7.
  rewrite Trim0_padded by apply Hd. rewrite bytes_string_of_bytes.
  assert (HnS : int32 (int64 (tbi_nElements f)) = Z.of_nat n).
  { rewrite HN, (wrapS_id 64) by (try lia; unfold inS; lia). apply wrapS_id; [lia|unfold inS; lia]. }
  rewrite HnS, Nat2Z.id. cbv zeta.
  assert (Hb' : elements_stored n f b).
  { intros j name t Hj H1 H2. destruct (Hel j name t Hj H1 H2) as [E1 E2].
    unfold element_name, element_type in *. rewrite <- E1, <- E2. rewrite <- !Hhp by lia.
    split; apply read_at_ext; intros i Hi; [apply B|apply C]; lia. }
  rewrite (load_elements_spec n 0 (tbi_elementNames f) (tbi_elementTypes f) b) by (assumption || lia).
  cbn [outcome_bind]. rewrite !drop_0. unfold read_tbi.
  rewrite (wrapS_id 64 (tbi_version f)) by (lia || assumption).
  rewrite (wrapS_id 64 (tbi_timeframe f)) by (lia || assumption).
  rewrite (wrapS_id 64 (tbi_Year f)) by (try lia; unfold inS in *; lia).
  rewrite (wrapS_id 64 (tbi_recordType f)) by (try lia; unfold inS in *; lia).
  rewrite (wrapS_id 64 (tbi_recordLength f)) by (try lia; unfold inS in *; lia).
  rewrite !wrapS_id by (lia || assumption). by rewrite HN.
Qed.

(** C36: The header [WriteHeader] puts at the start of a file, read by
    [readHeader] from whatever file begins with it, describes the bucket as
    before, every field and the types, and the names with their words
    capitalized. This is so for what the header has room for ([describable]):
    a description that was read or set before, of at most 256 bytes, and at
    most 1024 columns whose names have at most 32 bytes, without NUL at either
    end (both are cut and trimmed otherwise), types that are bytes, and numbers
    of the width of their fields. *)
Theorem header_roundtrip (fs fs' : files) (n : nat) (f g : TimeBucketInfo) (path : string) (rest : file) :
  describable n f ->
  exists hp, WriteHeader fs 0 [] f = (Ret hp, set_once f) /\
    (fs' !! path = Some (hp ++ rest) -> readHeader fs' path g = Ret (read_tbi path f g)).
Proof.
  intros Hdb. destruct (header_written fs n f Hdb) as (hp & Hrun & Hlen & Hrest & Hel).
  exists hp. split.
  - unfold WriteHeader. rewrite (bind_step _ _ _ _ _ Hrun). unfold mret, prog_ret. do 2 f_equal.
    change (pwrite (@length byte []) hp [] = hp). apply pwrite_end.
  - intros Hfs. unfold readHeader. rewrite Hfs. apply (header_read n f hp); try done.
    + intros i Hi. apply lookup_app_l. lia.
    + rewrite length_app. lia.
Qed.

Definition example_tbi : TimeBucketInfo :=
  NewTimeBucketInfo Minute "/db/AAPL/1Min/OHLCV" "Bars" 2017
    [mkShape "Epoch" INT64; mkShape "Open" FLOAT32; mkShape "volume" INT32] FIXED.

Lemma header_roundtrip_witness :
  exists hp, WriteHeader ∅ 0 [] example_tbi = (Ret hp, set_once example_tbi) /\
    (({["/db/2017.bin"%string := hp ++ [x01; x02]]} : files) !! "/db/2017.bin"%string = Some (hp ++ [x01; x02]) ->
     readHeader {["/db/2017.bin"%string := hp ++ [x01; x02]]} "/db/2017.bin" (found_tbi 0 "")
     = Ret (mkTBI 2017 "/db/2017.bin" true 2 "Bars" Minute 2 FIXED 16 0 ["Open"; "Volume"]%string [FLOAT32; INT32] false)).
Proof.
  assert (Hdb : describable 2 example_tbi).
  { split; try (by split; vm_compute); try done.
    - split; [apply Nat.leb_le; by vm_compute|]. by split; vm_compute.
    - split; [done|]. apply Nat.leb_le. done.
    - split; [done|]. repeat constructor; try (apply Nat.leb_le; by vm_compute); by vm_compute.
    - split; [done|]. repeat constructor; try done; by vm_compute. }
  destruct (header_roundtrip ∅ ∅ 2 example_tbi (found_tbi 0 "") "/db/2017.bin" [x01; x02] Hdb) as (hp & Hw & _).
  exists hp. split; [exact Hw|].
  destruct (header_roundtrip ∅ {["/db/2017.bin"%string := hp ++ [x01; x02]]} 2 example_tbi
    (found_tbi 0 "") "/db/2017.bin" [x01; x02] Hdb) as (hp' & Hw' & Hrd).
  rewrite Hw in Hw'. injection Hw' as <-. exact Hrd.
Defined.

(** A file cut short inside the first 312 bytes of its header is taken for
    a described one: reading the header reports no error, the description stays
    empty, with records of length 0, and asking for the intervals of a day
    divides by zero. *)
Lemma short_header_accepted (fs : files) (year : Z) (path : string) (content : file) :
  fs !! path = Some content -> (0 < length content < 312)%nat ->
  let f := found_tbi year path in
  initFromFile fs f = Ret (set_IsRead f) /\
  fst (GetRecordLength fs f) = Ret 0 /\ fst (GetElementNames fs f) = Ret [] /\
  fst (GetIntervals fs f) = Panic "integer divide by zero".
Proof.
  intros Hfs Hlen f.
  assert (Hp : pread 0 312 content = content) by (unfold pread; rewrite drop_0; apply take_ge; lia).
  assert (Hi : initFromFile fs f = Ret (set_IsRead f)).
  { unfold initFromFile. change (tbi_IsRead f) with false. cbv iota. unfold readHeader.
    change (tbi_Path f) with path. rewrite Hfs. unfold read_header_bytes, read_part, Read. rewrite Hp.
    rewrite decide_False by (intros [-> _]; cbn in Hlen; lia).
    rewrite bool_decide_eq_false_2 by (intros [_ H]; lia). done. }
  assert (Ho : once_Do fs f = (Ret tt, set_once (set_IsRead f))).
  { unfold once_Do. change (tbi_once f) with false. cbv iota. by rewrite Hi. }
  split; [exact Hi|].
  unfold GetIntervals, GetTimeframe, GetRecordLength, GetElementNames, once_get, mbind, prog_bind.
  rewrite Ho. done.
Qed.

Lemma short_header_accepted_witness :
  let f := found_tbi 2017 "/db/A/1Min/X/2017.bin" in
  let fs : files := {["/db/A/1Min/X/2017.bin"%string := replicate 100 x01]} in
  initFromFile fs f = Ret (set_IsRead f) /\
  fst (GetRecordLength fs f) = Ret 0 /\ fst (GetElementNames fs f) = Ret [] /\
  fst (GetIntervals fs f) = Panic "integer divide by zero".
Proof.
  apply (short_header_accepted _ _ _ (replicate 100 x01)); [reflexivity|]. cbn. lia.
Defined.
