(* ===== verification/Catalog.v ===== *)
(** * The catalog of buckets (catalog/catalog.go)

    The tree of [Directory] nodes that mirrors the directories of the database
    on disk.  Nodes and file descriptions are shared through pointers (the
    root's [directMap] points into the tree, callers keep the descriptions they
    are given), so they live in a heap; the state also holds the disk: its
    directories and its files.  The locks are not modelled: the operations are
    those of one thread. *)

From S2P Require Export TimeIndex TimeBucketKey Metadata.
From S2P Require Import GoStrings.

#[local] Open Scope string_scope.

(** ** Data *)

Abbreviation dloc := nat.   (* a *Directory *)
Abbreviation floc := nat.   (* a *TimeBucketInfo *)

Record Directory := mkDirectory {
  itemName : string;
  pathToItemName : string;
  category : string;
  directMap : option (gmap string dloc);
  subDirs : option (gmap string dloc);
  catList : option (gset string);
  datafile : option (gmap string floc);
}.
Definition Directory0 : Directory := mkDirectory "" "" "" None None None None.

Definition set_itemName x d :=
  mkDirectory x (pathToItemName d) (category d) (directMap d) (subDirs d) (catList d) (datafile d).
Definition set_pathToItemName x d :=
  mkDirectory (itemName d) x (category d) (directMap d) (subDirs d) (catList d) (datafile d).
Definition set_category x d :=
  mkDirectory (itemName d) (pathToItemName d) x (directMap d) (subDirs d) (catList d) (datafile d).
Definition set_directMap x d :=
  mkDirectory (itemName d) (pathToItemName d) (category d) x (subDirs d) (catList d) (datafile d).
Definition set_subDirs x d :=
  mkDirectory (itemName d) (pathToItemName d) (category d) (directMap d) x (catList d) (datafile d).
Definition set_catList x d :=
  mkDirectory (itemName d) (pathToItemName d) (category d) (directMap d) (subDirs d) x (datafile d).
Definition set_datafile x d :=
  mkDirectory (itemName d) (pathToItemName d) (category d) (directMap d) (subDirs d) (catList d) x.

(** *** The disk *)

Record disk := mkDisk { dk_dirs : gset string; dk_files : files }.

Record catalog := mkCatalog {
  c_dirs : gmap dloc Directory;
  c_infos : gmap floc TimeBucketInfo;
  c_disk : disk;
}.
Definition set_dirs x c := mkCatalog x (c_infos c) (c_disk c).
Definition set_infos x c := mkCatalog (c_dirs c) x (c_disk c).
Definition set_disk x c := mkCatalog (c_dirs c) (c_infos c) x.

(** [path.Dir] *)
Definition path_Dir (p : string) : string :=
  match removelast (Split p "/") with
  | [] => filepath_Clean ""
  | cs => filepath_Clean (Join cs "/" +:+ "/")
  end.

Definition path_exists (p : string) (k : disk) : bool :=
  bool_decide (filepath_Clean p ∈ dk_dirs k) || bool_decide (is_Some (dk_files k !! filepath_Clean p)).

Definition write_file (p : string) (content : file) (k : disk) : disk :=
  mkDisk (dk_dirs k) (<[filepath_Clean p := content]> (dk_files k)).

(** [os.Mkdir] *)
Definition os_Mkdir (p : string) (k : disk) : option disk :=
  if path_exists p k || negb (bool_decide (path_Dir (filepath_Clean p) ∈ dk_dirs k)) then None
  else Some (mkDisk ({[filepath_Clean p]} ∪ dk_dirs k) (dk_files k)).

(** [os.OpenFile] for writing: [None] when it cannot be opened or made. *)
Definition os_create (p : string) (truncate : bool) (k : disk) : option disk :=
  let q := filepath_Clean p in
  if bool_decide (q ∈ dk_dirs k) || negb (bool_decide (path_Dir q ∈ dk_dirs k)) then None
  else
    match dk_files k !! q with
    | Some _ => Some (if truncate then write_file q [] k else k)
    | None => Some (write_file q [] k)
    end.

(** Whether a path is [p] or below it. *)
Definition below (p q : string) : bool := bool_decide (q = p) || String.prefix (p +:+ "/") q.

(** [os.RemoveAll] *)
Definition os_RemoveAll (p : string) (k : disk) : disk :=
  let p := filepath_Clean p in
  mkDisk (filter (fun q => negb (below p q) = true) (dk_dirs k))
    (filter (fun '(q, _) => negb (below p q) = true) (dk_files k)).

(** [ioutil.ReadDir]: the names, sorted, and which are directories. *)
Definition child_of (p q : string) : bool := bool_decide (path_Dir q = p) && negb (bool_decide (q = p)).
Definition name_le (a b : string * bool) : Prop := String.leb a.1 b.1 = true.
#[export] Instance name_le_dec : RelDecision name_le := fun a b => bool_eq_dec _ _.
Definition ReadDir (p : string) (k : disk) : list (string * bool) :=
  let p := filepath_Clean p in
  let ds := filter (fun q => child_of p q = true) (elements (dk_dirs k)) in
  let fs := filter (fun q => child_of p q = true) (elements (dom (dk_files k))) in
  merge_sort name_le
    (map (fun q => (filepath_Base q, true)) ds ++ map (fun q => (filepath_Base q, false)) fs).

(** *** Pointers *)

Definition get_dir (l : dloc) : prog catalog Directory := fun s =>
  match c_dirs s !! l with
  | Some d => (Ret d, s)
  | None => (Panic "invalid memory address or nil pointer dereference", s)
  end.
Definition upd_dir (l : dloc) (f : Directory -> Directory) : prog catalog unit :=
  d ← get_dir l; state_modify (fun s => set_dirs (<[l := f d]> (c_dirs s)) s).
Definition new_dir (d : Directory) : prog catalog dloc := fun s =>
  let l := fresh (dom (c_dirs s)) in (Ret l, set_dirs (<[l := d]> (c_dirs s)) s).
Definition new_info (f : TimeBucketInfo) : prog catalog floc := fun s =>
  let l := fresh (dom (c_infos s)) in (Ret l, set_infos (<[l := f]> (c_infos s)) s).
Definition get_info (l : floc) : prog catalog TimeBucketInfo := fun s =>
  match c_infos s !! l with
  | Some f => (Ret f, s)
  | None => (Panic "invalid memory address or nil pointer dereference", s)
  end.

(** A method of a file description, which may read the file's header. *)
Definition on_info {A} (l : floc) (m : files -> prog TimeBucketInfo A) : prog catalog A := fun s =>
  match c_infos s !! l with
  | Some f =>
      let '(o, f') := m (dk_files (c_disk s)) f in
      (o, set_infos (<[l := f']> (c_infos s)) s)
  | None => (Panic "invalid memory address or nil pointer dereference", s)
  end.

(** *** Errors *)

Definition FileAlreadyExists (msg : string) : goerr := TypedErr "FileAlreadyExists" msg.
Definition UnableToCreateFile (msg : string) : goerr := TypedErr "UnableToCreateFile" msg.
Definition UnableToWriteHeader (msg : string) : goerr := TypedErr "UnableToWriteHeader" msg.
Definition SubdirectoryDoesNotContainFiles (msg : string) : goerr :=
  TypedErr "SubdirectoryDoesNotContainFiles" msg.
Definition NotFoundError (msg : string) : goerr := TypedErr "NotFoundError" msg.

Definition is_FileAlreadyExists (e : goerr) : bool :=
  match e with TypedErr t _ => bool_decide (t = "FileAlreadyExists") | _ => false end.

(** A call whose error the caller looks at: the error, or nothing. *)
Definition run_err {S} (m : prog S unit) : prog S (option goerr) := fun s =>
  match m s with
  | (Ret _, s') => (Ret None, s')
  | (Fail e, s') => (Ret (Some e), s')
  | (Fatal msg, s') => (Fatal msg, s')
  | (Panic msg, s') => (Panic msg, s')
  end.
Definition fail {S A} (e : goerr) : prog S A := lift (Fail e).

(** ** Operations *)

Section catalog.
Context `{R : MapRange} (local : Location).

Definition strip4 (s : string) : string := String.substring 0 (String.length s - 4) s.

(** The load of a directory; the recursion has as much fuel as paths below
    the root can be long. *)
Fixpoint loader (fuel : nat) (root d : dloc) (subPath rootPath : string) : prog catalog unit :=
  match fuel with
  | O => lift (Fatal "stack overflow")
  | S fuel =>
      let relPath := default "" (filepath_Rel rootPath subPath) in
      upd_dir d (set_itemName (filepath_Base relPath)) ;;
      upd_dir d (set_pathToItemName (filepath_Clean subPath)) ;;
      s ← state_get;
      match dk_files (c_disk s) !! filepath_Clean (subPath +:+ "/category_name") with
      | None => fail NotExist
      | Some catname =>
          upd_dir d (set_category (bytes_string catname)) ;;
          upd_dir d (set_subDirs (Some ∅)) ;;
          for_each (ReadDir subPath (c_disk s)) (fun '(name, isdir) =>
            let leafPath := filepath_Clean (subPath +:+ "/" +:+ name) in
            if isdir && negb (bool_decide (name = "metadata.db")) then
              sub ← new_dir (set_itemName name (set_pathToItemName subPath Directory0));
              upd_dir d (fun n => set_subDirs (insert name sub <$> subDirs n) n) ;;
              upd_dir d (set_datafile None) ;;
              loader fuel root sub leafPath rootPath
            else if decide (filepath_Ext leafPath = ".bin") then
              n ← get_dir d;
              r ← get_dir root;
              match directMap r with
              | None => lift (Panic "assignment to entry in nil map")
              | Some rootDmap =>
                  upd_dir root (set_directMap (Some (<[pathToItemName n := d]> rootDmap))) ;;
                  info ← new_info (found_tbi 0 leafPath);
                  upd_dir d (fun n => set_datafile (Some (<[leafPath := info]> (default ∅ (datafile n)))) n) ;;
                  let '(year, ok) := Atoi (strip4 (filepath_Base leafPath)) in
                  if ok then
                    state_modify (fun s => set_infos (<[info := found_tbi (int16 year) leafPath]> (c_infos s)) s)
                  else fail (ErrMsg "strconv.Atoi")
              end
            else mret tt)
      end
  end.

Definition load_fuel (k : disk) : nat :=
  S (foldr (fun p n => String.length p `max` n)%nat 0%nat (elements (dk_dirs k))).

Definition load (d : dloc) (rootPath : string) : prog catalog unit :=
  s ← state_get; loader (load_fuel (c_disk s)) d d rootPath rootPath.

(** The error of the load is dropped. *)
Definition NewDirectory (rootpath : string) : prog catalog dloc :=
  d ← new_dir (set_directMap (Some ∅) Directory0);
  run_err (load d rootpath) ;;
  mret d.

(** *** Making files *)

Definition on_disk {A} (f : disk -> option disk) (e : goerr) (k : prog catalog A) : prog catalog A := fun s =>
  match f (c_disk s) with
  | Some dk => k (set_disk dk s)
  | None => (Fail e, s)
  end.

Definition newTimeBucketInfoFromTemplate (l : floc) : prog catalog unit :=
  f ← get_info l;
  s ← state_get;
  if path_exists (tbi_Path f) (c_disk s) then fail (FileAlreadyExists "Can not overwrite file")
  else
    on_disk (os_create (tbi_Path f) false) (UnableToCreateFile "open") (
      header ← on_info l (fun fs => WriteHeader fs 0 []);
      on_disk (fun k => Some (write_file (tbi_Path f) header k)) EOF (
        tf ← on_info l GetTimeframe;
        len ← on_info l GetRecordLength;
        f' ← get_info l;
        let size := FileSize local tf (tbi_Year f') len in
        if (tf =? 0)%Z then lift (Panic "integer divide by zero")
        else if (size <? 0)%Z then fail (UnableToCreateFile "truncate")
        else on_disk (fun k => Some (write_file (tbi_Path f) (ftruncate (Z.to_nat size) header) k)) EOF (mret tt))).

(** The name of the items of a directory, in a file beside them. *)
Definition writeCatName (catName dirName : string) : prog catalog unit :=
  let catNameFile := filepath_Join dirName "category_name" in
  s ← state_get;
  if negb (path_exists catNameFile (c_disk s)) then
    on_disk (os_create catNameFile true) (ErrMsg "open") (
      on_disk (fun k => Some (write_file catNameFile (string_bytes catName) k)) EOF (mret tt))
  else
    match dk_files (c_disk s) !! catNameFile with
    | None => fail (ErrMsg "read")
    | Some buffer =>
        if decide (bytes_string buffer = catName) then mret tt
        else fail (ErrMsg "Category name does not match on-disk name")
    end.

(** The directories of a key's items, made where there are none. *)
Fixpoint make_dirs (items cats : list string) (dirname : string) : prog catalog string :=
  match items with
  | [] => mret dirname
  | dataDirName :: items' =>
      let subdirname := filepath_Join dirname dataDirName in
      s ← state_get;
      (if path_exists subdirname (c_disk s) then mret tt
       else on_disk (os_Mkdir subdirname) (ErrMsg "mkdir") (mret tt)) ;;
      match cats with
      | [] => lift (Panic "index out of range")
      | cat :: cats' =>
          writeCatName cat dirname ;;
          make_dirs items' cats' subdirname
      end
  end.

(** *** The tree *)

Definition addSubdir (d subDir : dloc) (subDirItemName : string) : prog catalog unit :=
  upd_dir subDir (set_itemName subDirItemName) ;;
  upd_dir d (set_catList None) ;;
  upd_dir d (fun n => set_subDirs (Some (<[subDirItemName := subDir]> (default ∅ (subDirs n)))) n) ;;
  sn ← get_dir subDir;
  let dmap := default ∅ (directMap sn) in
  n ← get_dir d;
  match directMap n with
  | Some m => upd_dir d (set_directMap (Some (dmap ∪ m)))
  | None => if decide (dmap = ∅) then mret tt else lift (Panic "assignment to entry in nil map")
  end ;;
  upd_dir subDir (set_directMap None).

(** The map is the root's, given by its pointer. *)
Definition removeSubDir (d : dloc) (subDirItemName : string) (root : dloc) : prog catalog unit :=
  n ← get_dir d;
  match default ∅ (subDirs n) !! subDirItemName with
  | Some sub =>
      sn ← get_dir sub;
      upd_dir root (fun r => set_directMap (delete (pathToItemName sn) <$> directMap r) r)
  | None => mret tt
  end ;;
  upd_dir d (fun n =>
    let m := delete subDirItemName (default ∅ (subDirs n)) in
    set_subDirs (if decide (m = ∅) then None else Some m) n).

Definition GetName (d : dloc) : prog catalog string := n ← get_dir d; mret (itemName n).
Definition GetPath (d : dloc) : prog catalog string := n ← get_dir d; mret (pathToItemName n).
Definition GetCategory (d : dloc) : prog catalog string := n ← get_dir d; mret (category n).
Definition DirHasDataFiles (d : dloc) : prog catalog bool :=
  n ← get_dir d; mret (bool_decide (is_Some (datafile n))).
Definition DirHasSubDirs (d : dloc) : prog catalog bool :=
  n ← get_dir d;
  mret (match subDirs n with None => false | Some m => negb (bool_decide (m = ∅)) end).
Definition GetListOfSubDirs (d : dloc) : prog catalog (option (list dloc)) :=
  n ← get_dir d; mret ((fun m => (map_range m).*2) <$> subDirs n).
Definition GetSubDirWithItemName (d : dloc) (name : string) : prog catalog (option dloc) :=
  n ← get_dir d; mret (m ← subDirs n; m !! name).

Definition AddTimeBucket (dRoot : dloc) (tbk : TimeBucketKey) (f : floc) : prog catalog unit :=
  catkeySplit ← lift (GetCategories tbk);
  let datakeySplit := GetItems tbk in
  root ← GetPath dRoot;
  dirname ← make_dirs datakeySplit catkeySplit root;
  writeCatName "Year" dirname ;;
  newTimeBucketInfoFromTemplate f ;;
  r ← get_dir dRoot;
  (if decide (category r = "") then
     match catkeySplit with
     | cat :: _ => upd_dir dRoot (set_category cat)
     | [] => lift (Panic "index out of range")
     end
   else mret tt) ;;
  match datakeySplit with
  | childNodeName :: _ =>
      childDirectory ← NewDirectory (filepath_Join root childNodeName);
      addSubdir dRoot childDirectory childNodeName
  | [] => lift (Panic "index out of range")
  end.

Definition removeDirFiles (td : dloc) : prog catalog unit :=
  n ← get_dir td;
  state_modify (fun s => set_disk (os_RemoveAll (pathToItemName n) (c_disk s)) s).

(** The directories of the items, from the root down. *)
Fixpoint descend (current : dloc) (items : list string) : prog catalog (list dloc) :=
  match items with
  | [] => mret []
  | item :: items' =>
      sub ← GetSubDirWithItemName current item;
      match sub with
      | None => fail (ErrMsg ("Unable to find level item: " +:+ item +:+ " in directory"))
      | Some sub => rest ← descend sub items'; mret (sub :: rest)
      end
  end.

(** From the last directory up: what is returned is whether the first of the
    directories was deleted. *)
Fixpoint remove_tree (tree : list dloc) (dRoot : dloc) : prog catalog bool :=
  match tree with
  | [] => mret false
  | d :: tree' =>
      deleted ← remove_tree tree' dRoot;
      match tree' with
      | [] => removeDirFiles d
      | sub :: _ =>
          if deleted : bool then
            sn ← get_dir sub;
            removeSubDir d (itemName sn) dRoot
          else mret tt
      end ;;
      has ← DirHasSubDirs d;
      (if has : bool then mret tt else removeDirFiles d) ;;
      mret (bool_decide (tree' = []) || negb has)
  end.

Definition RemoveTimeBucket (dRoot : dloc) (tbk : TimeBucketKey) : prog catalog unit :=
  tree ← descend dRoot (GetItems tbk);
  deleted ← remove_tree tree dRoot;
  match tree with
  | d :: _ =>
      if deleted : bool then
        removeDirFiles d ;;
        n ← get_dir d;
        removeSubDir dRoot (itemName n) dRoot
      else mret tt
  | [] => lift (Panic "index out of range")
  end.
(** *** Lookups *)

Definition GetOwningSubDirectory (d : dloc) (fullFilePath : string) : prog catalog dloc :=
  let dirPath := path_Dir fullFilePath in
  n ← get_dir d;
  match default ∅ (directMap n) !! dirPath with
  | Some dir => mret dir
  | None => fail (ErrMsg ("Directory path " +:+ fullFilePath +:+ " not found in catalog"))
  end.

(** The first file, or a later year's. *)
Fixpoint latest_loop (year : Z) (latestFile : option floc) (fps : list floc) : prog catalog (option floc) :=
  match fps with
  | [] => mret latestFile
  | fp :: fps' =>
      f ← get_info fp;
      if ((year <? tbi_Year f) || (year =? 0))%Z
      then latest_loop (tbi_Year f) (Some fp) fps'
      else latest_loop year latestFile fps'
  end.

Definition getLatestYearFile (d : dloc) : prog catalog (option floc) :=
  n ← get_dir d;
  match datafile n with
  | None => fail (SubdirectoryDoesNotContainFiles "getLatestYearFile")
  | Some m => latest_loop 0 None (map_range m).*2
  end.

Definition GetLatestTimeBucketInfoFromFullFilePath (d : dloc) (fullFilePath : string) : prog catalog (option floc) :=
  subDir ← GetOwningSubDirectory d fullFilePath;
  getLatestYearFile subDir.

Definition GetLatestTimeBucketInfoFromKey (d : dloc) (key : TimeBucketKey) : prog catalog (option floc) :=
  n ← get_dir d;
  let path := GetPathToYearFiles (pathToItemName n) key in
  GetLatestTimeBucketInfoFromFullFilePath d (path +:+ "/1970.bin").

Definition cat_GetDataShapes (d : dloc) (key : TimeBucketKey) : prog catalog (list DataShape) :=
  fi ← GetLatestTimeBucketInfoFromKey d key;
  match fi with
  | Some l => on_info l tbi_GetDataShapes
  | None => lift (Panic "invalid memory address or nil pointer dereference")
  end.

(** The file of a year beside those of other years; a file that is there
    already is described, and not added to the directory. *)
Definition AddFile (subDir : dloc) (newYear : Z) : prog catalog floc :=
  n ← get_dir subDir;
  match datafile n with
  | None => fail (SubdirectoryDoesNotContainFiles (pathToItemName n))
  | Some m =>
      match map_range m with
      | [] => lift (Panic "invalid memory address or nil pointer dereference")
      | (_, finfoTemplate) :: _ =>
          copy ← on_info finfoTemplate GetDeepCopy;
          let newPath := filepath_Join (pathToItemName n) (Itoa newYear +:+ ".bin") in
          newFileInfo ← new_info (mkTBI newYear newPath (tbi_IsRead copy) (tbi_version copy)
            (tbi_description copy) (tbi_timeframe copy) (tbi_nElements copy) (tbi_recordType copy)
            (tbi_recordLength copy) (tbi_variableRecordLength copy) (tbi_elementNames copy)
            (tbi_elementTypes copy) (tbi_once copy));
          err ← run_err (newTimeBucketInfoFromTemplate newFileInfo);
          match err with
          | Some e => if is_FileAlreadyExists e then mret newFileInfo else fail e
          | None =>
              f ← get_info newFileInfo;
              upd_dir subDir (fun n => set_datafile (insert (tbi_Path f) newFileInfo <$> datafile n) n) ;;
              mret newFileInfo
          end
      end
  end.

Definition GetSubDirectoryAndAddFile (d : dloc) (fullFilePath : string) (year : Z) : prog catalog floc :=
  dir ← GetOwningSubDirectory d fullFilePath;
  AddFile dir year.

Definition GetTimeBucketInfoSlice (d : dloc) : prog catalog (option (list floc)) :=
  n ← get_dir d; mret ((fun m => (map_range m).*2) <$> datafile n).

(** *** Visits of a whole tree *)

Section recurse.
Context {E : Type} (levelFunc : dloc -> Directory -> E -> prog catalog E).

Definition visit_all (rec : dloc -> E -> prog catalog E) : list dloc -> E -> prog catalog E :=
  fix go ds e :=
    match ds with
    | [] => mret e
    | d :: ds' => e ← rec d e; go ds' e
    end.

Fixpoint recurse_fuel (fuel : nat) (d : dloc) (elem : E) : prog catalog E :=
  match fuel with
  | O => lift (Fatal "stack overflow")
  | S fuel =>
      n ← get_dir d;
      elem ← levelFunc d n elem;
      match subDirs n with
      | None => mret elem
      | Some m => visit_all (recurse_fuel fuel) (map_range m).*2 elem
      end
  end.

(** A tree is no deeper than there are directories. *)
Definition recurse (d : dloc) (elem : E) : prog catalog E :=
  s ← state_get; recurse_fuel (S (size (c_dirs s))) d elem.
End recurse.

Definition datafiles (n : Directory) : list floc := (map_range (default ∅ (datafile n))).*2.

Definition GatherTimeBucketInfo (d : dloc) : prog catalog (list floc) :=
  recurse (fun _ n fileInfoList => mret (fileInfoList ++ datafiles n)%list) d [].

Fixpoint find_path (path : string) (ls : list floc) : prog catalog (option TimeBucketInfo) :=
  match ls with
  | [] => mret None
  | l :: ls' =>
      f ← get_info l;
      if decide (tbi_Path f = path) then copy ← on_info l GetDeepCopy; mret (Some copy)
      else find_path path ls'
  end.

Definition PathToTimeBucketInfo (d : dloc) (path : string) : prog catalog TimeBucketInfo :=
  found ← recurse (fun _ n found =>
    match found with Some _ => mret found | None => find_path path (datafiles n) end) d None;
  match found with
  | Some f => mret f
  | None => fail (NotFoundError "")
  end.

Definition gatherDirectories (d : dloc) : prog catalog (list string) :=
  recurse (fun _ n dirList => mret (dirList ++ [itemName n])%list) d [].

Fixpoint get_infos (ls : list floc) : prog catalog (list TimeBucketInfo) :=
  match ls with
  | [] => mret []
  | l :: ls' => f ← get_info l; fs ← get_infos ls'; mret (f :: fs)
  end.

Definition gatherFilePaths (d : dloc) : prog catalog (list string) :=
  recurse (fun _ n filePathList => fs ← get_infos (datafiles n); mret (filePathList ++ map tbi_Path fs)%list) d [].

Definition gatherCategoriesUpdateCache (d : dloc) : prog catalog (gset string) :=
  newCatList ← recurse (fun _ n catl => mret ({[category n]} ∪ catl)) d ∅;
  upd_dir d (set_catList (Some newCatList)) ;;
  mret newCatList.

Definition GatherCategoriesFromCache (d : dloc) : prog catalog (gset string) :=
  n ← get_dir d;
  match catList n with
  | None => gatherCategoriesUpdateCache d
  | Some cl => mret cl
  end.

Fixpoint get_names (ds : list dloc) : prog catalog (list string) :=
  match ds with
  | [] => mret []
  | d :: ds' => n ← get_dir d; ns ← get_names ds'; mret (itemName n :: ns)
  end.

(** The items of every category: the names of the directories and the years
    of the files. *)
Definition GatherCategoriesAndItems (d : dloc) : prog catalog (gmap string (gset string)) :=
  recurse (fun _ n catl =>
    names ← get_names (map_range (default ∅ (subDirs n))).*2;
    fs ← get_infos (datafiles n);
    let items := list_to_set (names ++ map (fun f => Itoa (tbi_Year f)) fs)%list in
    mret (<[category n := default ∅ (catl !! category n) ∪ items]> catl)) d ∅.

Definition getOwningSubDirectoryByRecursion (d : dloc) (filePath : string) : prog catalog dloc :=
  let dirPath := path_Dir filePath in
  found ← recurse (fun d n found =>
    match found with
    | Some _ => mret found
    | None => mret (if decide (pathToItemName n = dirPath) then Some d else None)
    end) d None;
  match found with
  | Some n => mret n
  | None => fail (NotFoundError "")
  end.

Fixpoint trim_slashes (s : string) : string :=
  match s with
  | String "/" s' => trim_slashes s'
  | _ => s
  end.

(** [strings.Replace(s, old, new, 1)] *)
Definition replace_first (s old new : string) : string :=
  match String.index 0 old s with
  | Some i => String.substring 0 i s +:+ new +:+
      String.substring (i + String.length old) (String.length s) s
  | None => s
  end.

Definition pathToKey (d : dloc) (fullPath : string) : prog catalog string :=
  n ← get_dir d;
  mret (trim_slashes (replace_first (path_Dir fullPath) (pathToItemName n) "")).

Definition dir_String (d : dloc) : prog catalog string :=
  n ← get_dir d;
  names ← get_names (map_range (default ∅ (subDirs n))).*2;
  let printstring := "Node: " +:+ itemName n +:+ ", Category: " +:+ category n +:+ ", Subdirs: " +:+
    String.concat "" (map (fun s => s +:+ ":") names) in
  mret (String.substring 0 (String.length printstring - 1) printstring).
End catalog.

(** ** Theorems *)

#[local] Open Scope list_scope.
#[local] Open Scope Z_scope.

Lemma get_dir_run l n s : c_dirs s !! l = Some n -> get_dir l s = (Ret n, s).
Proof. intros H. unfold get_dir. by rewrite H. Qed.
Lemma get_info_run l f s : c_infos s !! l = Some f -> get_info l s = (Ret f, s).
Proof. intros H. unfold get_info. by rewrite H. Qed.

Section theorems.
Context `{R : MapRange} (local : Location).

(** What the loop over a directory's files has found. *)
Definition latest_among (s : catalog) (fps : list floc) (latest : option floc) (year : Z) : Prop :=
  match latest with
  | None => fps = [] /\ year = 0
  | Some l => l ∈ fps /\ (exists f, c_infos s !! l = Some f /\ tbi_Year f = year /\ 0 < year) /\
      forall l' f', l' ∈ fps -> c_infos s !! l' = Some f' -> tbi_Year f' <= year
  end.

Lemma latest_loop_spec s fps : forall seen year latest,
  (forall l, l ∈ fps -> exists f, c_infos s !! l = Some f /\ 0 < tbi_Year f) ->
  latest_among s seen latest year ->
  exists latest' year', latest_loop year latest fps s = (Ret latest', s) /\
    latest_among s (seen ++ fps) latest' year'.
Proof.
  induction fps as [|fp fps IH]; intros seen year latest Hf Hl.
  - exists latest, year. by rewrite app_nil_r.
  - destruct (Hf fp ltac:(left)) as (f & Hfp & Hpos). cbn [latest_loop].
    unfold mbind at 1, prog_bind at 1. rewrite (get_info_run _ _ _ Hfp).
    replace (seen ++ fp :: fps) with ((seen ++ [fp]) ++ fps) by (by rewrite <- app_assoc).
    assert (Hf' : forall l, l ∈ fps -> exists f, c_infos s !! l = Some f /\ 0 < tbi_Year f)
      by (intros l Hin; apply Hf; by right).
    destruct ((year <? tbi_Year f) || (year =? 0)) eqn:Hc; apply IH; try done.
    + split; [set_solver|]. split; [by exists f|]. intros l' f' Hin Hf2.
      apply elem_of_app in Hin as [Hin|Hin%list_elem_of_singleton].
      * destruct latest as [l0|]; [|destruct Hl as [-> _]; by apply elem_of_nil in Hin].
        destruct Hl as (_ & (f0 & _ & _ & ?) & Hmax). specialize (Hmax _ _ Hin Hf2). lia.
      * subst l'. rewrite Hfp in Hf2. injection Hf2 as <-. lia.
    + destruct latest as [l0|]; [|destruct Hl as [_ ->]; lia].
      destruct Hl as (Hin0 & (f0 & Hf0 & Hy & Hp) & Hmax). split; [set_solver|]. split; [by exists f0|].
      intros l' f' Hin Hf2. apply elem_of_app in Hin as [Hin|Hin%list_elem_of_singleton]; [by eapply Hmax|].
      subst l'. rewrite Hfp in Hf2. injection Hf2 as <-. lia.
Qed.

(** Whatever the order in which the files of a directory are visited, the
    one taken as the latest is a file of the directory, and no other is of a
    later year; looking for it changes nothing. *)
Lemma getLatestYearFile_latest (s : catalog) (d : dloc) (n : Directory) (m : gmap string floc) :
  c_dirs s !! d = Some n -> datafile n = Some m -> m <> ∅ ->
  (forall p l, m !! p = Some l -> exists f, c_infos s !! l = Some f /\ 0 < tbi_Year f) ->
  exists p l f, getLatestYearFile d s = (Ret (Some l), s) /\ m !! p = Some l /\ c_infos s !! l = Some f /\
    forall p' l' f', m !! p' = Some l' -> c_infos s !! l' = Some f' -> tbi_Year f' <= tbi_Year f.
Proof.
  intros Hd Hm Hne Hyears. unfold getLatestYearFile. unfold mbind, prog_bind.
  rewrite (get_dir_run _ _ _ Hd), Hm.
  assert (Hin : forall l, l ∈ (map_range m).*2 <-> exists p, m !! p = Some l).
  { intros l. rewrite list_elem_of_fmap. split.
    - intros ([p l'] & -> & H%elem_of_map_range). by exists p.
    - intros [p H%elem_of_map_range]. by exists (p, l). }
  destruct (latest_loop_spec s (map_range m).*2 [] 0 None) as (latest & year & -> & Hl); [|done|].
  { intros l [p H]%Hin. by eapply Hyears. }
  destruct latest as [l|].
  - destruct Hl as (Hl & (f & Hf & <- & _) & Hmax). apply Hin in Hl as [p Hp]. exists p, l, f. split_and!; try done.
    intros p' l' f' Hp' Hf'. apply (Hmax l'); [|done]. apply Hin. by exists p'.
  - destruct Hl as [Hnil _]. exfalso. apply Hne, map_eq. intros p. rewrite lookup_empty.
    destruct (m !! p) as [l|] eqn:Hp; [|done]. exfalso.
    assert (l ∈ (map_range m).*2) as Hl by (apply Hin; by exists p). cbn in Hnil. rewrite Hnil in Hl.
    by apply elem_of_nil in Hl.
Qed.
End theorems.

(** ** Concrete catalogs *)

Module Example_catalog.
#[local] Existing Instance list_range.
#[local] Open Scope string_scope.

(** A database of two symbols with a bucket each, found by loading the disk;
    the files of the buckets are not opened by it. *)
Definition names (cat : string) : file := string_bytes cat.
Definition on_disk_before : disk := mkDisk
  (list_to_set ["/db"; "/db/AAPL"; "/db/AAPL/1D"; "/db/AAPL/1D/OHLCV"; "/db/TSLA"; "/db/TSLA/1D"; "/db/TSLA/1D/OHLCV"])
  (list_to_map [("/db/category_name", names "Symbol");
    ("/db/AAPL/category_name", names "Timeframe"); ("/db/AAPL/1D/category_name", names "AttributeGroup");
    ("/db/AAPL/1D/OHLCV/category_name", names "Year"); ("/db/AAPL/1D/OHLCV/2017.bin", []);
    ("/db/AAPL/1D/OHLCV/2018.bin", []);
    ("/db/TSLA/category_name", names "Timeframe"); ("/db/TSLA/1D/category_name", names "AttributeGroup");
    ("/db/TSLA/1D/OHLCV/category_name", names "Year"); ("/db/TSLA/1D/OHLCV/2017.bin", [])]).
Definition start : catalog := mkCatalog ∅ ∅ on_disk_before.

Definition root : dloc := 0%nat.
Definition loaded : catalog := snd (NewDirectory "/db" start).
Definition aapl : dloc := 3%nat.

Lemma getLatestYearFile_latest_witness :
  exists n m, c_dirs loaded !! aapl = Some n /\ datafile n = Some m /\ (size m = 2)%nat /\
  exists p l f, getLatestYearFile aapl loaded = (Ret (Some l), loaded) /\ m !! p = Some l /\
    c_infos loaded !! l = Some f /\
    forall p' l' f', m !! p' = Some l' -> c_infos loaded !! l' = Some f' -> (tbi_Year f' <= tbi_Year f)%Z.
Proof.
  eexists _, (list_to_map [("/db/AAPL/1D/OHLCV/2017.bin", 0%nat); ("/db/AAPL/1D/OHLCV/2018.bin", 1%nat)]).
  assert (Hd : c_dirs loaded !! aapl = Some (mkDirectory "OHLCV" "/db/AAPL/1D/OHLCV" "Year" None (Some ∅) None
    (Some (list_to_map [("/db/AAPL/1D/OHLCV/2017.bin", 0%nat); ("/db/AAPL/1D/OHLCV/2018.bin", 1%nat)]))))
    by (vm_compute; reflexivity).
  split; [exact Hd|]. split; [reflexivity|]. split; [vm_compute; reflexivity|].
  eapply (getLatestYearFile_latest loaded aapl _ _ Hd); [reflexivity| |].
  - intros He. apply (f_equal size) in He. vm_compute in He. discriminate He.
  - intros p l Hp. rewrite !list_to_map_cons, list_to_map_nil in Hp.
    apply lookup_insert_Some in Hp as [[_ <-]|[_ Hp]].
    { eexists. split; [vm_compute; reflexivity|]. done. }
    apply lookup_insert_Some in Hp as [[_ <-]|[_ Hp]].
    { eexists. split; [vm_compute; reflexivity|]. done. }
    by rewrite lookup_empty in Hp.
Defined.

Definition removed : catalog := snd (RemoveTimeBucket root "AAPL:Symbol" loaded).

(** Deleting at a level above the files takes the directories of the item
    off the disk and out of the tree, but the root's index keeps the ones that
    were below: the bucket is still found, with the path of a deleted file. *)
Lemma RemoveTimeBucket_partial_key :
  fst (RemoveTimeBucket root "AAPL:Symbol" loaded) = Ret tt /\
  dk_files (c_disk removed) !! "/db/AAPL/1D/OHLCV/2018.bin" = None /\
  fst (gatherFilePaths root removed) = Ret ["/db/TSLA/1D/OHLCV/2017.bin"] /\
  fst (GetLatestTimeBucketInfoFromKey root "AAPL/1D/OHLCV:Symbol/Timeframe/AttributeGroup" removed)
    = Ret (Some 1%nat) /\
  c_infos removed !! 1%nat = Some (found_tbi 2018 "/db/AAPL/1D/OHLCV/2018.bin").
Proof. split_and!; vm_compute; reflexivity. Qed.

(** A directory without the name of its items: the symbols behind it. *)
Definition unnamed : catalog := mkCatalog ∅ ∅
  (mkDisk ({["/db/BAD"]} ∪ dk_dirs on_disk_before) (dk_files on_disk_before)).

(** One directory without a [category_name] file ends the load, whose error
    [NewDirectory] drops: the symbols that come after it in the alphabet are on
    disk but not in the catalog. *)
Lemma NewDirectory_unnamed_directory :
  let '(r, s) := NewDirectory "/db" unnamed in
  r = Ret root /\
  is_Some (dk_files (c_disk s) !! "/db/TSLA/1D/OHLCV/2017.bin") /\
  fst (gatherFilePaths root s) = Ret ["/db/AAPL/1D/OHLCV/2017.bin"; "/db/AAPL/1D/OHLCV/2018.bin"] /\
  fst (GetOwningSubDirectory root "/db/TSLA/1D/OHLCV/2017.bin" s)
    = Fail (ErrMsg "Directory path /db/TSLA/1D/OHLCV/2017.bin not found in catalog").
Proof. vm_compute. split_and!; try reflexivity. by eexists. Qed.
End Example_catalog.
