(* ===== verification/Planner.v ===== *)
(** * Queries and their plans (planner/planner.go)

    A query restricts the items of categories and the range of time; parsing it
    walks the catalog and yields the files that qualify, with their keys. *)

From S2P Require Export Catalog.
From S2P Require Import GoStrings.

#[local] Open Scope string_scope.

Definition TimeQualFunc : Type := Z -> bool.

(** ** Restrictions: the items of a category *)

Definition RestrictionList : Type := gmap string (list string).
Definition NewRestrictionList : RestrictionList := ∅.
Definition AddRestriction (category item : string) (r : RestrictionList) : RestrictionList :=
  <[category := (default [] (r !! category) ++ [item])%list]> r.
Definition getItemList (category : string) (r : RestrictionList) : option (list string) := r !! category.

(** ** Ranges and limits *)

Record DateRange := mkDateRange { Start : Z; End_ : Z; StartYear : Z; EndYear : Z }.

Definition MaxEpoch : Z := 2 ^ 63 - 62135596801.
Definition MinEpoch : Z := 0.

Record RowLimit := mkRowLimit { Number : Z; Direction : Z }.
Definition MaxInt32 : Z := 2 ^ 31 - 1.
Definition NewRowLimit : RowLimit := mkRowLimit MaxInt32 FIRST.

Record QualifiedFile := mkQF { qf_Key : TimeBucketKey; qf_File : floc }.

Record ParseResult := mkParseResult {
  QualifiedFiles : list QualifiedFile;
  Limit : RowLimit;
  Range : option DateRange;
  IntervalsPerDay : Z;
  RootDir : string;
  TimeQuals : list TimeQualFunc;
}.

Record query := mkQuery {
  q_Range : DateRange;
  q_Restriction : RestrictionList;
  q_Limit : RowLimit;
  q_DataDir : dloc;
  q_TimeQuals : list TimeQualFunc;
}.
Definition set_q_Range x q := mkQuery x (q_Restriction q) (q_Limit q) (q_DataDir q) (q_TimeQuals q).
Definition set_q_Restriction x q := mkQuery (q_Range q) x (q_Limit q) (q_DataDir q) (q_TimeQuals q).
Definition set_q_Limit x q := mkQuery (q_Range q) (q_Restriction q) x (q_DataDir q) (q_TimeQuals q).
Definition set_q_TimeQuals x q := mkQuery (q_Range q) (q_Restriction q) (q_Limit q) (q_DataDir q) x.

(** ** What the names of a bucket's columns say about it *)

Definition lower_set (names : list string) : gset string := list_to_set (map ToLower names).
(** Every candidate is among the names; there may be more. *)
Definition NamesMatch (src candidates : list string) : bool :=
  forallb (fun el => bool_decide (ToLower el ∈ lower_set src)) candidates.

Fixpoint ElementsEqual (left right : list Z) : bool :=
  match left, right with
  | [], [] => true
  | l :: left', r :: right' => (l =? r)%Z && ElementsEqual left' right'
  | _, _ => false
  end.

Definition OHLCNames : list string := ["Open"; "High"; "Low"; "Close"].
Definition OHLCVNames : list string := ["Open"; "High"; "Low"; "Close"; "Volume"].
Definition candle_of_names (elNames : list string) : Z :=
  if NamesMatch elNames OHLCVNames then OHLCV
  else if NamesMatch elNames OHLCNames then OHLC
  else CA_None.

Section planner.
Context `{R : MapRange} (tz : Location).

Definition year_of_epoch (epoch : Z) : Z := int16 (Year (ToSystemTimezone tz (time_Unix epoch 0 UTC))).

Definition NewDateRange : DateRange :=
  mkDateRange MinEpoch MaxEpoch (year_of_epoch MinEpoch) (year_of_epoch MaxEpoch).

(** ** Building a query *)

Definition NewQuery (d : dloc) : query := mkQuery NewDateRange NewRestrictionList NewRowLimit d [].
Definition SetRowLimit (direction rowLimit : Z) (q : query) : query :=
  set_q_Limit (mkRowLimit (int32 rowLimit) direction) q.
Definition SetStart (start : Z) (q : query) : query :=
  let r := q_Range q in set_q_Range (mkDateRange start (End_ r) (year_of_epoch start) (EndYear r)) q.
Definition SetEnd (stop : Z) (q : query) : query :=
  let r := q_Range q in set_q_Range (mkDateRange (Start r) stop (StartYear r) (year_of_epoch stop)) q.
Definition SetRange (start stop : Z) (q : query) : query :=
  SetEnd stop (SetStart start (set_q_Range (mkDateRange 0 0 0 0) q)).
Definition q_AddRestriction (category item : string) (q : query) : query :=
  set_q_Restriction (AddRestriction category item (q_Restriction q)) q.
Definition AddTimeQual (tq : TimeQualFunc) (q : query) : query :=
  set_q_TimeQuals (q_TimeQuals q ++ [tq])%list q.

Fixpoint add_target_items (key : TimeBucketKey) (cats : list string) (q : query) : outcome query :=
  match cats with
  | [] => Ret q
  | cat :: cats' =>
      let! items := GetMultiItemInCategory cat key in
      add_target_items key cats' (foldl (fun q item => q_AddRestriction cat item q) q items)
  end.
Definition AddTargetKey (key : TimeBucketKey) (q : query) : outcome query :=
  let! cats := GetCategories key in add_target_items key cats q.

(** ** Parsing it *)

Definition drop_last (s : string) : outcome string :=
  if decide (s = "") then Panic "slice bounds out of range"
  else Ret (String.substring 0 (String.length s - 1) s).

(** The subdirectories the query descends into: those named by it, or all. *)
Fixpoint named_subdirs (d : dloc) (names : list string) : prog catalog (list (string * dloc)) :=
  match names with
  | [] => mret []
  | name :: names' =>
      sub ← GetSubDirWithItemName d name;
      rest ← named_subdirs d names';
      mret (match sub with Some sub => (name, sub) :: rest | None => rest end)
  end.
Fixpoint with_names (ds : list dloc) : prog catalog (list (string * dloc)) :=
  match ds with
  | [] => mret []
  | d :: ds' => n ← GetName d; rest ← with_names ds'; mret ((n, d) :: rest)
  end.

Definition visit_subdirs (rec : dloc -> string -> prog catalog (list QualifiedFile)) (itemKey : string) :
    list (string * dloc) -> prog catalog (list QualifiedFile) :=
  fix go subs :=
    match subs with
    | [] => mret []
    | (name, sub) :: subs' =>
        fs ← rec sub (itemKey +:+ name +:+ "/"); rest ← go subs'; mret (fs ++ rest)%list
    end.

(** The files below a directory; the keys follow the path to it. *)
Fixpoint getFileList (fuel : nat) (r : RestrictionList) (d : dloc) (itemKey categoryKey : string) :
    prog catalog (list QualifiedFile) :=
  match fuel with
  | O => lift (Fatal "stack overflow")
  | S fuel =>
      has ← DirHasSubDirs d;
      '(fs, latestKey) ←
        (if has : bool then
           cat ← GetCategory d;
           subs ← match getItemList cat r with
                  | Some names => named_subdirs d names
                  | None => ds ← GetListOfSubDirs d; with_names (default [] ds)
                  end;
           fs ← visit_subdirs (fun sub key => getFileList fuel r sub key (categoryKey +:+ cat +:+ "/")) itemKey subs;
           mret (fs, None)
         else
           item ← lift (drop_last itemKey);
           cat ← lift (drop_last categoryKey);
           mret ([], Some (NewTimeBucketKey item [cat])));
      tbis ← GetTimeBucketInfoSlice d;
      match tbis with
      | None | Some [] => mret fs
      | Some tbis =>
          match latestKey with
          | None => lift (Panic "invalid memory address or nil pointer dereference")
          | Some key => mret (fs ++ map (mkQF key) tbis)%list
          end
      end
  end.

Fixpoint check_intervals (first : option Z) (qfs : list QualifiedFile) : prog catalog Z :=
  match qfs with
  | [] => mret (default 0%Z first)
  | qf :: qfs' =>
      n ← on_info (qf_File qf) GetIntervals;
      let perDay := default n first in
      if (perDay =? n)%Z then check_intervals (Some perDay) qfs'
      else fail (ErrMsg "Timeframe not the same in result set")
  end.

(** The years of the files, from the first one's on. *)
Fixpoint years_of (qfs : list QualifiedFile) : prog catalog (list Z) :=
  match qfs with
  | [] => mret []
  | qf :: qfs' => f ← get_info (qf_File qf); ys ← years_of qfs'; mret (tbi_Year f :: ys)
  end.

(** The range becomes that of the years of the files. *)
Definition full_range (years : list Z) : DateRange :=
  let y0 := default 0%Z (head years) in
  let startYear := foldl Z.min y0 years in
  let endYear := foldl Z.max y0 years in
  mkDateRange (Unix (Date startYear 1 1 0 0 0 0 tz)) (Unix (Date endYear 12 31 23 59 59 0 tz))
    startYear endYear.

Fixpoint check_categories (cats : gset string) (keys : list string) : outcome unit :=
  match keys with
  | [] => Ret tt
  | key :: keys' =>
      if decide (key ∈ cats) then check_categories cats keys'
      else Fail (ErrMsg ("category: " +:+ key +:+ " not in catalog"))
  end.

(** The result shares its range with the query. *)
Definition Parse (q : query) : prog catalog (query * ParseResult) :=
  CatList ← GatherCategoriesFromCache (q_DataDir q);
  lift (check_categories CatList (map_range (q_Restriction q)).*1) ;;
  rootDir ← GetPath (q_DataDir q);
  s ← state_get;
  qfs ← getFileList (S (size (c_dirs s))) (q_Restriction q) (q_DataDir q) "" "";
  match qfs with
  | [] => fail (ErrMsg "No files returned from query parse")
  | _ =>
      intervals ← check_intervals None qfs;
      range ← (if ((Start (q_Range q) =? MinEpoch) && (End_ (q_Range q) =? MaxEpoch))%Z
               then years ← years_of qfs; mret (full_range years)
               else mret (q_Range q));
      mret (set_q_Range range q,
            mkParseResult qfs (q_Limit q) (Some range) intervals rootDir (q_TimeQuals q))
  end.

(** ** What the reader asks of the result: one answer for every key *)

Fixpoint for_keys {A} (g : floc -> prog catalog A) (qfs : list QualifiedFile) (m : gmap string A) :
    prog catalog (gmap string A) :=
  match qfs with
  | [] => mret m
  | qf :: qfs' => a ← g (qf_File qf); for_keys g qfs' (<[qf_Key qf := a]> m)
  end.

Definition GetRowType (pr : ParseResult) : prog catalog (gmap string Z) :=
  for_keys (fun f => on_info f GetRecordType) (QualifiedFiles pr) ∅.
Definition GetCandleAttributes (pr : ParseResult) : prog catalog (gmap string Z) :=
  for_keys (fun f => names ← on_info f GetElementNames; mret (candle_of_names names)) (QualifiedFiles pr) ∅.
Definition pr_GetDataShapes (pr : ParseResult) : prog catalog (gmap string (list DataShape)) :=
  for_keys (fun f =>
    names ← on_info f GetElementNames;
    types ← on_info f GetElementTypes;
    lift (NewDataShapeVector ("Epoch" :: names) (INT64 :: types))) (QualifiedFiles pr) ∅.

(** Keys of another record type have no entry: the map's default is 0. *)
Definition row_len (f : floc) : prog catalog Z :=
  rt ← on_info f GetRecordType;
  if (rt =? FIXED)%Z then on_info f GetRecordLength
  else if (rt =? VARIABLE)%Z then on_info f GetVariableRecordLength
  else mret 0%Z.
Definition pr_GetRowLen (pr : ParseResult) : prog catalog (gmap string Z) :=
  for_keys row_len (QualifiedFiles pr) ∅.
End planner.
