(* ===== verification/Md5.v ===== *)
(** * The MD5 digest (crypto/md5) that guards the data of the write-ahead log *)

From S2P Require Export Bytes.

Definition rotl32 (x c : Z) : Z := uint32 (Z.lor (Z.shiftl x c) (Z.shiftr x (32 - c))).

Definition md5_K : list Z :=
  [
    3614090360; 3905402710; 606105819; 3250441966; 4118548399; 1200080426;
    2821735955; 4249261313; 1770035416; 2336552879; 4294925233; 2304563134;
    1804603682; 4254626195; 2792965006; 1236535329; 4129170786; 3225465664;
    643717713; 3921069994; 3593408605; 38016083; 3634488961; 3889429448;
    568446438; 3275163606; 4107603335; 1163531501; 2850285829; 4243563512;
    1735328473; 2368359562; 4294588738; 2272392833; 1839030562; 4259657740;
    2763975236; 1272893353; 4139469664; 3200236656; 681279174; 3936430074;
    3572445317; 76029189; 3654602809; 3873151461; 530742520; 3299628645;
    4096336452; 1126891415; 2878612391; 4237533241; 1700485571; 2399980690;
    4293915773; 2240044497; 1873313359; 4264355552; 2734768916; 1309151649;
    4149444226; 3174756917; 718787259; 3951481745
  ].

Definition md5_shift (i : nat) : Z :=
  nth (i mod 4) (nth (i / 16) [[7; 12; 17; 22]; [5; 9; 14; 20]; [4; 11; 16; 23]; [6; 10; 15; 21]] []) 0.

(** The mixing function and the index of the message word of a step. *)
Definition md5_mix (i : nat) (b c d : Z) : Z * nat :=
  match (i / 16)%nat with
  | 0%nat => (Z.lor (Z.land b c) (Z.land (Z.lxor b 4294967295) d), i)
  | 1%nat => (Z.lor (Z.land d b) (Z.land (Z.lxor d 4294967295) c), ((5 * i + 1) mod 16)%nat)
  | 2%nat => (Z.lxor (Z.lxor b c) d, ((3 * i + 5) mod 16)%nat)
  | _ => (Z.lxor c (Z.lor b (Z.lxor d 4294967295)), ((7 * i) mod 16)%nat)
  end.

Record md5_state := mkMd5 { md5_a : Z; md5_b : Z; md5_c : Z; md5_d : Z }.

Definition md5_step (words : list Z) (s : md5_state) (i : nat) : md5_state :=
  let '(f, g) := md5_mix i (md5_b s) (md5_c s) (md5_d s) in
  let f := uint32 (f + md5_a s + nth i md5_K 0 + nth g words 0) in
  {| md5_a := md5_d s; md5_d := md5_c s; md5_c := md5_b s;
     md5_b := uint32 (md5_b s + rotl32 f (md5_shift i)) |}.

Definition md5_block (s : md5_state) (block : list byte) : md5_state :=
  let words := map le_val (chunks 4 block) in
  let s' := foldl (md5_step words) s (seq 0 64) in
  {| md5_a := uint32 (md5_a s + md5_a s'); md5_b := uint32 (md5_b s + md5_b s');
     md5_c := uint32 (md5_c s + md5_c s'); md5_d := uint32 (md5_d s + md5_d s') |}.

(** A one bit, zeros up to 56 bytes modulo 64, the length in bits. *)
Definition md5_pad (msg : list byte) : list byte :=
  let n := Z.of_nat (length msg) in
  msg ++ x80 :: replicate (Z.to_nat ((55 - n) mod 64)) x00 ++ le_bytes 8 (8 * n).

Definition md5 (msg : list byte) : list byte :=
  let s := foldl md5_block (mkMd5 1732584193 4023233417 2562383102 271733878)
                 (chunks 64 (md5_pad msg)) in
  le_bytes 4 (md5_a s) ++ le_bytes 4 (md5_b s) ++ le_bytes 4 (md5_c s) ++ le_bytes 4 (md5_d s).

Lemma length_md5 msg : length (md5 msg) = 16%nat.
Proof. unfold md5. by rewrite !length_app, !length_le_bytes. Qed.

Definition hex (bs : list byte) : Z := foldl (fun a b => a * 256 + Z_of_byte b) 0 bs.

Example md5_empty : hex (md5 []) = 0xd41d8cd98f00b204e9800998ecf8427e.
Proof. vm_compute. reflexivity. Qed.
Example md5_abc : hex (md5 [x61; x62; x63]) = 0x900150983cd24fb0d6963f7d28e17f72.
Proof. vm_compute. reflexivity. Qed.
