(* ===== verification/WalLog.v ===== *)
(** * The write-ahead log on disk (executor/wal.go, messages.go, cache.go)

    The messages of a log file, how they are written, how the first pass of a
    replay reads them back, and the serialized transaction group (TG). *)

From S2P Require Export DataTypes FileSys Md5.

(** ** Message constants: int8 enumerations *)

Definition TGDATA : Z := 0.
Definition TXNINFO : Z := 1.
Definition STATUS : Z := 2.

Definition WAL : Z := 0.
Definition CHECKPOINT : Z := 1.

Definition PREPARING : Z := 0.
Definition COMMITINTENDED : Z := 1.
Definition COMMITCOMPLETE : Z := 2.

Definition OPEN : Z := 1.
Definition CLOSED : Z := 2.

Definition NOTREPLAYED : Z := 1.
Definition REPLAYED : Z := 2.
Definition REPLAYINPROCESS : Z := 3.

(** [buf, _ = io.Serialize(buf, d)]: the error is dropped, with it the buffer. *)
Definition ser (buffer : list byte) (d : datum) : list byte :=
  match Serialize buffer d with Ret b => b | _ => [] end.

(** ** Writing messages *)

Definition initMessage (mid : Z) : list byte := ser [] (DInt8 mid).

(** The buffers [WriteTransactionInfo] and [WriteStatus] write. *)
Definition transaction_info_message (tid did txnStatus : Z) : list byte :=
  let buffer := initMessage TXNINFO in
  let buffer := ser buffer (DInt64 tid) in
  let buffer := ser buffer (DInt8 did) in
  ser buffer (DInt8 txnStatus).

Definition status_message (fileStatus replayState owner : Z) : list byte :=
  let buffer := initMessage STATUS in
  let buffer := ser buffer (DInt8 fileStatus) in
  let buffer := ser buffer (DInt8 replayState) in
  ser buffer (DInt64 owner).

(** What [flushToWAL] writes for a serialized TG: the message id, the length,
    the data and the digest of both. *)
Definition tg_message (tg : list byte) : list byte :=
  let tgLen := ser [] (DInt64 (Z.of_nat (length tg))) in
  initMessage TGDATA ++ tgLen ++ tg ++ md5 (tgLen ++ tg).

(** ** Write commands *)

Record WriteCommand := mkWriteCommand {
  RecordType : Z;
  WALKeyPath : string;
  VarRecLen : Z;
  Offset : Z;
  Index : Z;
  Data : list byte;
}.

#[export] Instance WriteCommand_eq_dec : EqDecision WriteCommand.
Proof. solve_decision. Defined.

(** The header of a command in a TG, then its offset, index and data. *)
Definition serialize_header (tg : list byte) (command : WriteCommand) : list byte :=
  let tg := ser tg (DInt8 (int8 (RecordType command))) in
  let tg := ser tg (DInt16 (int16 (Z.of_nat (String.length (WALKeyPath command))))) in
  let tg := ser tg (DString (WALKeyPath command)) in
  let tg := ser tg (DInt32 (int32 (Z.of_nat (length (Data command))))) in
  ser tg (DInt32 (int32 (VarRecLen command))).

Definition serialize_command (tg : list byte) (command : WriteCommand) : list byte :=
  let tg := serialize_header tg command in
  let tg := ser tg (DInt64 (Offset command)) in
  let tg := ser tg (DInt64 (Index command)) in
  tg ++ Data command.

Definition serialize_tg (tgid : Z) (commands : list WriteCommand) : list byte :=
  let tg := ser [] (DInt64 tgid) in
  let tg := ser tg (DInt64 (Z.of_nat (length commands))) in
  foldl serialize_command tg commands.

(** The [offsetIndexBuffer] of a command: offset, index, payload. *)
Definition offsetIndexBuffer : Type := list byte.

Definition oib_Offset (b : offsetIndexBuffer) : Z := ToInt64 (take 8 b).
Definition oib_Index (b : offsetIndexBuffer) : Z := ToInt64 (take 8 (drop 8 b)).
Definition oib_IndexAndPayload (b : offsetIndexBuffer) : list byte := drop 8 b.
Definition oib_Payload (b : offsetIndexBuffer) : list byte := drop 16 b.

Definition command_buffer (command : WriteCommand) : offsetIndexBuffer :=
  le_bytes 8 (Offset command) ++ le_bytes 8 (Index command) ++ Data command.

(** ** Reading messages

    The readers run over the position in a fixed file. *)

Section readers.
Context (f : file).

(** [WALFileType.read] from the current position. *)
Definition wal_read (n : nat) : prog nat (list byte) := fun pos =>
  let bs := pread pos n f in
  (if decide (length bs = n) then Ret bs else Fail ShortReadError, (pos + length bs)%nat).

Definition to_int8 (b : option byte) : Z := int8 (from_option Z_of_byte 0 b).

Definition readMessageID : prog nat Z :=
  buf ← wal_read 1;
  let mid := to_int8 (buf !! 0%nat) in
  lift (if bool_decide (mid ∈ [TGDATA; TXNINFO; STATUS]) then Ret mid
        else Fail (ErrMsg "WALFileType.ReadMessageID Incorrect MID read")).

Definition readTransactionInfo : prog nat (Z * Z * Z) :=
  buf ← wal_read 10;
  let '(tgid, destination, txnStatus) :=
    (ToInt64 buf, to_int8 (buf !! 8%nat), to_int8 (buf !! 9%nat)) in
  lift (if bool_decide (destination ∈ [CHECKPOINT; WAL]) then
          if bool_decide (txnStatus ∈ [PREPARING; COMMITINTENDED; COMMITCOMPLETE])
          then Ret (tgid, destination, txnStatus)
          else Fail (ErrMsg "WALFileType.readTransactionInfo Invalid Txn Status")
        else Fail (ErrMsg "WALFileType.readTransactionInfo Invalid destination ID")).

Definition ReadStatus : prog nat (Z * Z * Z) :=
  buf ← wal_read 10;
  mret (to_int8 (buf !! 0%nat), to_int8 (buf !! 1%nat), ToInt64 (drop 2 buf)).

Definition sanityCheckValue (value : Z) : bool :=
  value <? int64 (1000 * Z.of_nat (length f)).

(** A negative length panics in [make], one below 7 when the first bytes are
    sliced off. *)
Definition readTGData : prog nat (Z * list byte) :=
  tgLen_Serialized ← wal_read 8;
  let tgLen := ToInt64 tgLen_Serialized in
  if sanityCheckValue tgLen then
    if tgLen <? 0 then lift (Panic "makeslice: len out of range")
    else
      TG_Serialized ← wal_read (Z.to_nat tgLen);
      if tgLen <? 7 then lift (Panic "slice bounds out of range")
      else
        let tgid := ToInt64 TG_Serialized in
        let cksum := md5 (tgLen_Serialized ++ TG_Serialized) in
        checkBuf ← wal_read 16;
        lift (if bool_decide (cksum = checkBuf) then Ret (tgid, TG_Serialized)
              else Fail (ErrMsg "Checksum"))
  else lift (Fail (ErrMsg "Insane TG Length")).

(** *** The first pass of [Replay] *)

Record scan_state := mkScan {
  TGData : gmap Z (option (list byte));
  offsetTGDataInWAL : gmap Z Z;
  txnStateWAL : gmap Z Z;
  txnStatePrimary : gmap Z Z;
}.

Definition scan_init : scan_state := mkScan ∅ ∅ ∅ ∅.

(** The closure [fullRead]: a short read stops the loop in state [stop],
    any other error ends the process. *)
Definition fullRead {A} (stop : scan_state) (m : prog nat A)
    (k : A -> prog nat (scan_state * bool)) : prog nat (scan_state * bool) := fun pos =>
  match m pos with
  | (Ret a, pos') => k a pos'
  | (Fail ShortReadError, pos') => (Ret (stop, false), pos')
  | (Fail _, pos') => (Fatal "Uncorrectable IO error in WAL Replay", pos')
  | (Fatal msg, pos') => (Fatal msg, pos')
  | (Panic msg, pos') => (Panic msg, pos')
  end.

Definition set_TGData (m : gmap Z (option (list byte))) (st : scan_state) : scan_state :=
  mkScan m (offsetTGDataInWAL st) (txnStateWAL st) (txnStatePrimary st).

Definition scan_tgdata (st : scan_state) : prog nat (scan_state * bool) := fun offset =>
  fullRead (set_TGData (<[0 := None]> (TGData st)) st) readTGData (fun '(tgid, tg) =>
    let st := set_TGData (<[tgid := Some tg]> (TGData st)) st in
    match offsetTGDataInWAL st !! tgid with
    | Some _ => lift (Fatal "Duplicate TG Data in WAL")
    | None =>
        mret (mkScan (TGData st) (<[tgid := Z.of_nat offset]> (offsetTGDataInWAL st))
                (txnStateWAL st) (txnStatePrimary st), true)
    end) offset.

(** Effect of a transaction info message on the tables. *)
Definition scan_txn (st : scan_state) (tgid destination txnStatus : Z) : scan_state :=
  if destination =? WAL then
    mkScan (TGData st) (offsetTGDataInWAL st) (<[tgid := txnStatus]> (txnStateWAL st))
      (txnStatePrimary st)
  else if destination =? CHECKPOINT then
    if bool_decide (is_Some (TGData st !! tgid)) && (txnStatus =? COMMITCOMPLETE) then
      set_TGData (filter (fun kv => tgid < kv.1) (TGData st)) st
    else
      mkScan (TGData st) (offsetTGDataInWAL st) (txnStateWAL st)
        (<[tgid := txnStatus]> (txnStatePrimary st))
  else st.

Definition scan_step (st : scan_state) : prog nat (scan_state * bool) :=
  fullRead st readMessageID (fun mid =>
    if mid =? TGDATA then scan_tgdata st
    else if mid =? TXNINFO then
      fullRead st readTransactionInfo (fun '(tgid, destination, txnStatus) =>
        mret (scan_txn st tgid destination txnStatus, true))
    else fullRead st ReadStatus (fun _ => mret (st, true))).

(** Every round of the loop that goes on has read at least a byte. *)
Fixpoint scan_loop (fuel : nat) (st : scan_state) : prog nat scan_state :=
  match fuel with
  | O => lift (Panic "out of fuel")
  | S fuel' =>
      '(st', continueRead) ← scan_step st;
      if continueRead : bool then scan_loop fuel' st' else mret st'
  end.

Definition replay_scan : outcome scan_state := fst (scan_loop (S (length f)) scan_init 0%nat).
End readers.

Definition example_command : WriteCommand :=
  mkWriteCommand FIXED "AAPL/1Min/OHLCV/2017.bin" 0 37024 1 [x01; x02; x03; x04].

Example scan_one :
  let tg := serialize_tg 77 [example_command] in
  replay_scan (status_message OPEN NOTREPLAYED 5 ++ tg_message tg)
  = Ret (mkScan {[77 := Some tg]} {[77 := 12]} ∅ ∅).
Proof. vm_compute. reflexivity. Qed.

(** ** Messages written and read back *)

Inductive wal_msg :=
  | MsgStatus (fileStatus replayState owner : Z)
  | MsgTxn (tid did txnStatus : Z)
  | MsgTG (tg : list byte).

Definition encode_msg (m : wal_msg) : list byte :=
  match m with
  | MsgStatus fs rs owner => status_message fs rs owner
  | MsgTxn tid did st => transaction_info_message tid did st
  | MsgTG tg => tg_message tg
  end.

Definition encode_msgs (ms : list wal_msg) : file := concat (map encode_msg ms).

(** The messages the log writes. *)
Definition valid_msg (m : wal_msg) : Prop :=
  match m with
  | MsgStatus _ _ _ => True
  | MsgTxn tid did st =>
      inS 64 tid /\ did ∈ [CHECKPOINT; WAL] /\ st ∈ [PREPARING; COMMITINTENDED; COMMITCOMPLETE]
  | MsgTG tg => (8 <= length tg)%nat /\ Z.of_nat (length tg) < 2 ^ 50
  end.

Definition valid_msgb (m : wal_msg) : bool :=
  match m with
  | MsgStatus _ _ _ => true
  | MsgTxn tid did st =>
      (- 2 ^ 63 <=? tid) && (tid <? 2 ^ 63) && bool_decide (did ∈ [CHECKPOINT; WAL]) &&
      bool_decide (st ∈ [PREPARING; COMMITINTENDED; COMMITCOMPLETE])
  | MsgTG tg => (8 <=? Z.of_nat (length tg)) && (Z.of_nat (length tg) <? 2 ^ 50)
  end.

Lemma valid_msg_dec m : valid_msgb m = true -> valid_msg m.
Proof.
  destruct m; cbn [valid_msgb valid_msg]; [done| |]; rewrite !andb_true_iff, ?bool_decide_eq_true,
    ?Z.leb_le, ?Z.ltb_lt; unfold inS; intuition lia.
Qed.

Lemma valid_msgs_dec ms : forallb valid_msgb ms = true -> Forall valid_msg ms.
Proof.
  rewrite forallb_forall, Forall_forall. intros H m Hm%list_elem_of_In. by apply valid_msg_dec, H.
Qed.

Definition tg_id (tg : list byte) : Z := ToInt64 tg.

(** What a message does to the tables of the first pass, [pos] being where
    it starts. *)
Definition scan_msg (st : scan_state) (pos : nat) (m : wal_msg) : scan_state :=
  match m with
  | MsgStatus _ _ _ => st
  | MsgTxn tid did txnStatus => scan_txn st tid did txnStatus
  | MsgTG tg =>
      mkScan (<[tg_id tg := Some tg]> (TGData st))
        (<[tg_id tg := Z.of_nat (S pos)]> (offsetTGDataInWAL st)) (txnStateWAL st)
        (txnStatePrimary st)
  end.

Fixpoint scan_msgs (st : scan_state) (pos : nat) (ms : list wal_msg) : scan_state :=
  match ms with
  | [] => st
  | m :: ms' => scan_msgs (scan_msg st pos m) (pos + length (encode_msg m)) ms'
  end.

Lemma status_message_eq fs rs owner :
  status_message fs rs owner = le_bytes 1 STATUS ++ le_bytes 1 fs ++ le_bytes 1 rs ++ le_bytes 8 owner.
Proof. reflexivity. Qed.

Lemma txn_message_eq tid did st :
  transaction_info_message tid did st =
  le_bytes 1 TXNINFO ++ le_bytes 8 tid ++ le_bytes 1 did ++ le_bytes 1 st.
Proof. reflexivity. Qed.

Lemma tg_message_eq tg :
  tg_message tg =
  le_bytes 1 TGDATA ++ le_bytes 8 (Z.of_nat (length tg)) ++ tg ++
  md5 (le_bytes 8 (Z.of_nat (length tg)) ++ tg).
Proof. reflexivity. Qed.

(** What a reader at [pos] has in front of it. *)
Definition at_pos (f : file) (pos : nat) (rest : list byte) : Prop :=
  (pos <= length f)%nat /\ drop pos f = rest.

Lemma at_pos_eq f p p' rest : at_pos f p rest -> p' = p -> at_pos f p' rest.
Proof. by intros H ->. Qed.

Section read_lemmas.
Context (f : file).
Implicit Types (pos n : nat) (rest bs : list byte).

Lemma wal_read_full pos n bs rest :
  at_pos f pos (bs ++ rest) -> length bs = n ->
  wal_read f n pos = (Ret bs, (pos + n)%nat) /\ at_pos f (pos + n) rest.
Proof.
  intros [Hp Hd] Hn. unfold wal_read, pread. rewrite Hd, take_app_length' by done.
  rewrite decide_True by done. rewrite Hn. split; [done|]. split.
  - pose proof (f_equal length Hd) as Hl. rewrite length_drop, length_app in Hl. lia.
  - by rewrite <- drop_drop, Hd, drop_app_length' by done.
Qed.

Lemma wal_read_short pos n rest :
  at_pos f pos (rest) -> (length rest < n)%nat ->
  wal_read f n pos = (Fail ShortReadError, length f).
Proof.
  intros [Hp Hd] Hn. unfold wal_read, pread. rewrite Hd, take_ge by lia.
  rewrite decide_False by lia. f_equal. rewrite <- Hd, length_drop. lia.
Qed.

Lemma to_int8_le z bs : 0 <= z < 128 -> to_int8 ((le_bytes 1 z ++ bs) !! 0%nat) = z.
Proof.
  intros Hz. cbn. unfold to_int8. cbn. rewrite Z_of_byte_of_Z, Z.mod_small by lia.
  apply wrapS_id; [lia|]. unfold inS. lia.
Qed.

Lemma readMessageID_full pos mid rest :
  mid ∈ [TGDATA; TXNINFO; STATUS] -> at_pos f pos (le_bytes 1 mid ++ rest) ->
  readMessageID f pos = (Ret mid, (pos + 1)%nat) /\ at_pos f (pos + 1) rest.
Proof.
  intros Hm Hd. destruct (wal_read_full pos 1 _ _ Hd eq_refl) as [Hr Hrest].
  split; [|exact Hrest]. unfold readMessageID. rewrite (bind_step _ _ _ _ _ Hr).
  assert (0 <= mid < 128).
  { repeat (apply elem_of_cons in Hm as [->|Hm]; [by vm_compute|]). by apply elem_of_nil in Hm. }
  pose proof (to_int8_le mid [] ltac:(done)) as Hi. rewrite app_nil_r in Hi. rewrite Hi.
  cbv zeta. by rewrite bool_decide_eq_true_2.
Qed.

Lemma readTransactionInfo_full pos tid did st rest :
  valid_msg (MsgTxn tid did st) ->
  at_pos f pos (le_bytes 8 tid ++ le_bytes 1 did ++ le_bytes 1 st ++ rest) ->
  readTransactionInfo f pos = (Ret (tid, did, st), (pos + 10)%nat) /\ at_pos f (pos + 10) rest.
Proof.
  intros (Ht & Hdid & Hst) Hd.
  replace (le_bytes 8 tid ++ le_bytes 1 did ++ le_bytes 1 st ++ rest)
    with ((le_bytes 8 tid ++ le_bytes 1 did ++ le_bytes 1 st) ++ rest) in Hd
    by (by rewrite <- !app_assoc).
  destruct (wal_read_full pos 10 _ _ Hd eq_refl) as [Hr Hrest].
  split; [|exact Hrest]. unfold readTransactionInfo. rewrite (bind_step _ _ _ _ _ Hr).
  rewrite ToInt64_le_bytes, wrapS_id by (done || lia).
  assert (Hdr : 0 <= did < 128).
  { repeat (apply elem_of_cons in Hdid as [->|Hdid]; [by vm_compute|]). by apply elem_of_nil in Hdid. }
  assert (Hsr : 0 <= st < 128).
  { repeat (apply elem_of_cons in Hst as [->|Hst]; [by vm_compute|]). by apply elem_of_nil in Hst. }
  rewrite (lookup_app_r (le_bytes 8 tid) _ 8), (lookup_app_r (le_bytes 8 tid) _ 9)
    by (rewrite length_le_bytes; lia).
  rewrite length_le_bytes. change (8 - 8)%nat with 0%nat. change (9 - 8)%nat with 1%nat.
  rewrite (to_int8_le did) by done.
  rewrite (lookup_app_r (le_bytes 1 did)) by (rewrite length_le_bytes; lia).
  rewrite length_le_bytes. change (1 - 1)%nat with 0%nat.
  pose proof (to_int8_le st [] ltac:(done)) as Hi. rewrite app_nil_r in Hi. rewrite Hi.
  cbv zeta beta. by rewrite !bool_decide_eq_true_2.
Qed.

Lemma ReadStatus_full pos fs rs owner rest :
  at_pos f pos (le_bytes 1 fs ++ le_bytes 1 rs ++ le_bytes 8 owner ++ rest) ->
  ReadStatus f pos = (Ret (int8 fs, int8 rs, int64 owner), (pos + 10)%nat)
  /\ at_pos f (pos + 10) rest.
Proof.
  intros Hd.
  replace (le_bytes 1 fs ++ le_bytes 1 rs ++ le_bytes 8 owner ++ rest)
    with ((le_bytes 1 fs ++ le_bytes 1 rs ++ le_bytes 8 owner) ++ rest) in Hd
    by (by rewrite <- !app_assoc).
  destruct (wal_read_full pos 10 _ _ Hd eq_refl) as [Hr Hrest].
  split; [|exact Hrest]. unfold ReadStatus. rewrite (bind_step _ _ _ _ _ Hr).
  assert (Hb : forall z, to_int8 (Some (byte_of_Z z)) = int8 z).
  { intros z. unfold to_int8. cbn. rewrite Z_of_byte_of_Z. apply (wrapS_wrapU 8). lia. }
  pose proof (ToInt64_le_bytes owner []) as Ho. rewrite app_nil_r in Ho.
  change (drop 2 _) with (le_bytes 8 owner). rewrite Ho.
  change ((_ ++ _) !! 0%nat) with (Some (byte_of_Z fs)).
  change ((_ ++ _) !! 1%nat) with (Some (byte_of_Z rs)).
  by rewrite !Hb.
Qed.

Lemma sanity_ok n : Z.of_nat n < 2 ^ 50 -> (n < 1000 * length f)%nat -> 
  Z.of_nat (length f) < 2 ^ 53 -> sanityCheckValue f (Z.of_nat n) = true.
Proof.
  intros H1 H2 H3. unfold sanityCheckValue. rewrite wrapS_id by (try lia; unfold inS; lia).
  apply Z.ltb_lt. lia.
Qed.
End read_lemmas.

Lemma known_mid mid :
  bool_decide (mid ∈ [TGDATA; TXNINFO; STATUS]) = true -> mid ∈ [TGDATA; TXNINFO; STATUS].
Proof. apply bool_decide_eq_true_1. Qed.

Lemma bind_Fail {S A B} (m : prog S A) (k : A -> prog S B) s e s' :
  m s = (Fail e, s') -> (m ≫= k) s = (Fail e, s').
Proof. intros H. unfold mbind, prog_bind. by rewrite H. Qed.

Lemma prefix_split {A} (a b t u : list A) :
  a ++ b = t ++ u -> u <> [] ->
  (exists t', t = a ++ t' /\ b = t' ++ u) \/ (length t < length a)%nat.
Proof.
  intros H _. destruct (decide (length t < length a)%nat) as [|Hge]; [by right|left].
  exists (drop (length a) t).
  assert (Ht : t = take (length a) t ++ drop (length a) t) by (by rewrite take_drop).
  assert (Ha : take (length a) t = a).
  { rewrite <- (take_app_le t u) by lia. by rewrite <- H, take_app_length. }
  split; [by rewrite Ha in Ht|].
  rewrite Ht, Ha, <- app_assoc in H. by apply app_inv_head in H.
Qed.

Section scan_lemmas.
Context (f : file) (Hsize : Z.of_nat (length f) < 2 ^ 53).
Implicit Types (pos n : nat) (rest bs tg : list byte) (st : scan_state).

Lemma le64_length tg r : Z.of_nat (length tg) < 2 ^ 50 ->
  ToInt64 (le_bytes 8 (Z.of_nat (length tg)) ++ r) = Z.of_nat (length tg).
Proof. intros H. rewrite ToInt64_le_bytes. apply wrapS_id; [lia|]. unfold inS. lia. Qed.

Lemma le64_length' tg : Z.of_nat (length tg) < 2 ^ 50 ->
  ToInt64 (le_bytes 8 (Z.of_nat (length tg))) = Z.of_nat (length tg).
Proof. intros H. pose proof (le64_length tg [] H) as Hl. by rewrite app_nil_r in Hl. Qed.

Lemma readTGData_full pos tg rest :
  valid_msg (MsgTG tg) ->
  at_pos f pos (le_bytes 8 (Z.of_nat (length tg)) ++ tg ++
               md5 (le_bytes 8 (Z.of_nat (length tg)) ++ tg) ++ rest) ->
  readTGData f pos = (Ret (tg_id tg, tg), (pos + 8 + length tg + 16)%nat)
  /\ at_pos f (pos + 8 + length tg + 16) rest.
Proof.
  intros [Hl Hb] Hd.
  assert (Hlen : (length tg < 1000 * length f)%nat).
  { assert (Hdl : (length (drop pos f) <= length f)%nat) by (rewrite length_drop; lia).
    rewrite (proj2 Hd), !length_app, length_le_bytes in Hdl. lia. }
  destruct (wal_read_full f pos 8 _ _ Hd (length_le_bytes _ _)) as [Hr1 Hd1].
  destruct (wal_read_full f (pos + 8) (length tg) _ _ Hd1 eq_refl) as [Hr2 Hd2].
  destruct (wal_read_full f (pos + 8 + length tg) 16 _ _ Hd2 (length_md5 _)) as [Hr3 Hd3].
  split; [|exact Hd3]. unfold readTGData. rewrite (bind_step _ _ _ _ _ Hr1). cbv zeta.
  rewrite le64_length', (sanity_ok f) by done.
  rewrite (proj2 (Z.ltb_ge _ 0)), (proj2 (Z.ltb_ge _ 7)), Nat2Z.id by lia.
  rewrite (bind_step _ _ _ _ _ Hr2), (bind_step _ _ _ _ _ Hr3).
  by rewrite bool_decide_eq_true_2.
Qed.

Lemma scan_step_full st pos m rest :
  valid_msg m ->
  match m with MsgTG tg => offsetTGDataInWAL st !! tg_id tg = None | _ => True end ->
  at_pos f pos (encode_msg m ++ rest) ->
  scan_step f st pos = (Ret (scan_msg st pos m, true), (pos + length (encode_msg m))%nat)
  /\ at_pos f (pos + length (encode_msg m)) rest.
Proof.
  intros Hv Hdup Hd. unfold scan_step.
  destruct m as [fs rs owner|tid did ts|tg]; cbn [encode_msg] in *.
  - rewrite status_message_eq, <- !app_assoc in Hd.
    destruct (readMessageID_full f pos STATUS _ (known_mid STATUS eq_refl) Hd) as [Hr1 Hd1].
    destruct (ReadStatus_full f _ _ _ _ _ Hd1) as [Hr2 Hd2].
    unfold fullRead at 1. rewrite Hr1. cbn iota.
    change (STATUS =? TGDATA) with false. change (STATUS =? TXNINFO) with false. cbv iota.
    unfold fullRead. rewrite Hr2. rewrite status_message_eq. split; [|eapply at_pos_eq; [exact Hd2|]].
    + unfold mret, prog_ret. f_equal. rewrite !length_app, !length_le_bytes. lia.
    + rewrite !length_app, !length_le_bytes. lia.
  - rewrite txn_message_eq, <- !app_assoc in Hd.
    destruct (readMessageID_full f pos TXNINFO _ (known_mid TXNINFO eq_refl) Hd) as [Hr1 Hd1].
    destruct (readTransactionInfo_full f _ _ _ _ _ Hv Hd1) as [Hr2 Hd2].
    unfold fullRead at 1. rewrite Hr1. cbn iota.
    change (TXNINFO =? TGDATA) with false. change (TXNINFO =? TXNINFO) with true. cbv iota.
    unfold fullRead. rewrite Hr2. rewrite txn_message_eq. split; [|eapply at_pos_eq; [exact Hd2|]].
    + unfold mret, prog_ret. f_equal. rewrite !length_app, !length_le_bytes. lia.
    + rewrite !length_app, !length_le_bytes. lia.
  - rewrite tg_message_eq, <- !app_assoc in Hd.
    destruct (readMessageID_full f pos TGDATA _ (known_mid TGDATA eq_refl) Hd) as [Hr1 Hd1].
    destruct (readTGData_full _ _ _ Hv Hd1) as [Hr2 Hd2].
    unfold fullRead at 1. rewrite Hr1. cbn iota. change (TGDATA =? TGDATA) with true. cbv iota.
    unfold scan_tgdata, fullRead. rewrite Hr2. cbn [offsetTGDataInWAL set_TGData]. rewrite Hdup.
    rewrite tg_message_eq. split; [|eapply at_pos_eq; [exact Hd2|]].
    + unfold mret, prog_ret. cbn [scan_msg]. rewrite Nat.add_1_r.
      f_equal. rewrite !length_app, !length_le_bytes, length_md5. lia.
    + rewrite !length_app, !length_le_bytes, length_md5. lia.
Qed.

(** A strict prefix of a message at the end of the file. *)
Definition torn_msg (m : wal_msg) (t : list byte) : Prop :=
  (exists u, encode_msg m = t ++ u /\ u <> []) /\
  match m with MsgTG tg => (length tg < 1000 * length f)%nat | _ => True end.

Lemma torn_read (n : nat) pos a b t u :
  at_pos f pos (t) -> a ++ b = t ++ u -> u <> [] -> length a = n ->
  (exists t', t = a ++ t' /\ b = t' ++ u /\
     wal_read f n pos = (Ret a, (pos + n)%nat) /\ at_pos f (pos + n) t')
  \/ wal_read f n pos = (Fail ShortReadError, length f).
Proof.
  intros Hd H Hu Hn. destruct (prefix_split _ _ _ _ H Hu) as [(t' & -> & Hb)|Hlt].
  - left. exists t'. split_and!; [done|done| |]; by eapply wal_read_full.
  - right. apply (wal_read_short f pos n t Hd). lia.
Qed.

Lemma readTGData_torn pos tg t u :
  valid_msg (MsgTG tg) -> (length tg < 1000 * length f)%nat ->
  at_pos f pos (t) ->
  le_bytes 8 (Z.of_nat (length tg)) ++ tg ++ md5 (le_bytes 8 (Z.of_nat (length tg)) ++ tg) = t ++ u ->
  u <> [] ->
  readTGData f pos = (Fail ShortReadError, length f).
Proof.
  intros [Hl Hb] Hs Hd H Hu. unfold readTGData.
  destruct (torn_read 8 pos _ _ _ _ Hd H Hu (length_le_bytes _ _)) as [(t1 & -> & Ht1 & Hr1 & Hd1)|Hp];
    [|by apply bind_Fail].
  rewrite (bind_step _ _ _ _ _ Hr1). cbv zeta.
  rewrite le64_length', (sanity_ok f), (proj2 (Z.ltb_ge _ 0)), (proj2 (Z.ltb_ge _ 7)), Nat2Z.id by (done || lia).
  destruct (torn_read (length tg) _ _ _ _ _ Hd1 Ht1 Hu eq_refl) as [(t2 & -> & Ht2 & Hr2 & Hd2)|Hp];
    [|by apply bind_Fail].
  rewrite (bind_step _ _ _ _ _ Hr2). rewrite <- (app_nil_r (md5 _)) in Ht2.
  destruct (torn_read 16 _ _ _ _ _ Hd2 Ht2 Hu (length_md5 _)) as [(t3 & -> & Ht3 & _)|Hp];
    [|by apply bind_Fail].
  symmetry in Ht3. by apply app_eq_nil in Ht3 as [_ ->].
Qed.

Lemma scan_step_torn st pos m t :
  valid_msg m -> torn_msg m t -> at_pos f pos (t) ->
  exists st', scan_step f st pos = (Ret (st', false), length f) /\
    (st' = st \/ st' = set_TGData (<[0 := None]> (TGData st)) st).
Proof.
  intros Hv [(u & Hm & Hu) Hs] Hd. unfold scan_step.
  assert (Hmid : exists mid b, mid ∈ [TGDATA; TXNINFO; STATUS] /\ encode_msg m = le_bytes 1 mid ++ b
    /\ match m with
       | MsgStatus _ _ _ => mid = STATUS /\ length b = 10%nat
       | MsgTxn _ _ _ => mid = TXNINFO /\ length b = 10%nat
       | MsgTG tg => mid = TGDATA /\
           b = le_bytes 8 (Z.of_nat (length tg)) ++ tg ++ md5 (le_bytes 8 (Z.of_nat (length tg)) ++ tg)
       end).
  { destruct m as [fs rs owner|tid did ts|tg]; eexists _, _;
      (split; [|split; [reflexivity|done]]); by apply known_mid. }
  destruct Hmid as (mid & b & Hin & Hb & Hmid). rewrite Hb in Hm.
  destruct (prefix_split _ _ _ _ Hm Hu) as [(t1 & -> & Ht1)|Hlt].
  2: { pose proof (wal_read_short f pos 1 t Hd Hlt) as Hp.
       exists st. split; [|by left]. unfold fullRead, readMessageID. by rewrite (bind_Fail _ _ _ _ _ Hp). }
  destruct (readMessageID_full f pos mid _ Hin Hd) as [Hr1 Hd1].
  unfold fullRead at 1. rewrite Hr1. cbn iota.
  assert (Hshort : length b = 10%nat -> wal_read f 10 (pos + 1)%nat = (Fail ShortReadError, length f)).
  { intros H10. eapply wal_read_short; [exact Hd1|].
    rewrite <- H10, Ht1, length_app. destruct u; [done|cbn; lia]. }
  destruct m as [fs rs owner|tid did ts|tg]; destruct Hmid as [-> Hlen].
  - pose proof (Hshort Hlen) as Hp. exists st. split; [|by left].
    change (STATUS =? TGDATA) with false. change (STATUS =? TXNINFO) with false. cbv iota.
    unfold fullRead, ReadStatus. by rewrite (bind_Fail _ _ _ _ _ Hp).
  - pose proof (Hshort Hlen) as Hp. exists st. split; [|by left].
    change (TXNINFO =? TGDATA) with false. change (TXNINFO =? TXNINFO) with true. cbv iota.
    unfold fullRead, readTransactionInfo. by rewrite (bind_Fail _ _ _ _ _ Hp).
  - rewrite Hlen in Ht1. pose proof (readTGData_torn _ _ _ _ Hv Hs Hd1 Ht1 Hu) as Hp.
    eexists. split; [|by right].
    change (TGDATA =? TGDATA) with true. cbv iota. unfold scan_tgdata, fullRead. by rewrite Hp.
Qed.
End scan_lemmas.

Definition tg_ids (ms : list wal_msg) : list Z :=
  omap (fun m => match m with MsgTG tg => Some (tg_id tg) | _ => None end) ms.

Lemma encode_msg_pos m : (0 < length (encode_msg m))%nat.
Proof.
  destruct m; cbn [encode_msg];
    rewrite ?status_message_eq, ?txn_message_eq, ?tg_message_eq, length_app, length_le_bytes; lia.
Qed.

Section scan_file.
Context (f : file) (Hsize : Z.of_nat (length f) < 2 ^ 53).
Implicit Types (pos fuel : nat) (st : scan_state).

Lemma scan_offsets st pos m i :
  offsetTGDataInWAL (scan_msg st pos m) !! i <> None ->
  offsetTGDataInWAL st !! i <> None \/ i ∈ tg_ids [m].
Proof.
  destruct m as [| |tg]; cbn; [by left| |].
  - unfold scan_txn. repeat case_match; by left.
  - destruct (decide (tg_id tg = i)) as [->|Hne]; [right; left|].
    rewrite lookup_insert_ne by done. by left.
Qed.

Lemma scan_loop_msgs ms st pos fuel rest :
  Forall valid_msg ms -> NoDup (tg_ids ms) ->
  (forall i, i ∈ tg_ids ms -> offsetTGDataInWAL st !! i = None) ->
  at_pos f pos (encode_msgs ms ++ rest) -> (length (encode_msgs ms) <= fuel)%nat ->
  exists fuel', (fuel - length (encode_msgs ms) <= fuel')%nat /\
    scan_loop f fuel st pos =
      scan_loop f fuel' (scan_msgs st pos ms) (pos + length (encode_msgs ms))%nat /\
    at_pos f (pos + length (encode_msgs ms)) rest.
Proof.
  intros Hv. revert st pos fuel.
  induction Hv as [|m ms Hm _ IH]; intros st pos fuel Hnd Hoff Hd Hf.
  { cbn. rewrite Nat.add_0_r. exists fuel. split_and!; [lia|done|done]. }
  unfold encode_msgs in *. cbn [map concat] in *. rewrite <- app_assoc in Hd.
  rewrite length_app in *. pose proof (encode_msg_pos m) as Hpos.
  destruct (fun H => scan_step_full f Hsize st pos m _ Hm H Hd) as [Hs Hd'].
  { destruct m as [| |tg]; try done. apply Hoff. left. }
  destruct fuel as [|fuel]; [lia|].
  assert (Hnd' : NoDup (tg_ids ms)).
  { destruct m as [| |tg]; try done. by apply NoDup_cons in Hnd as [_ Hnd]. }
  destruct (IH (scan_msg st pos m) (pos + length (encode_msg m))%nat fuel Hnd')
    as (fuel' & Hfuel & Hl & Hr); [|exact Hd'|lia|].
  { intros i Hi. destruct (offsetTGDataInWAL (scan_msg st pos m) !! i) eqn:Ho; [|done].
    destruct (scan_offsets st pos m i) as [H|H]; [by rewrite Ho| |].
    - exfalso. apply H, Hoff. destruct m; [done..|by right].
    - exfalso. destruct m as [| |tg]; try by apply elem_of_nil in H.
      apply list_elem_of_singleton in H as ->. by apply NoDup_cons in Hnd as [Hnd _]. }
  exists fuel'. split_and!; [lia| |by rewrite Nat.add_assoc].
  cbn [scan_loop scan_msgs]. rewrite (bind_step _ _ _ _ _ Hs). cbn iota.
  rewrite Hl. by rewrite Nat.add_assoc.
Qed.

Lemma scan_end st pos fuel : (0 < fuel)%nat -> at_pos f pos [] ->
  scan_loop f fuel st pos = (Ret st, length f).
Proof.
  intros Hf Hd. destruct fuel as [|fuel]; [lia|].
  pose proof (wal_read_short f pos 1 [] Hd ltac:(cbn; lia)) as Hp.
  assert (Hs : scan_step f st pos = (Ret (st, false), length f)).
  { unfold scan_step, fullRead, readMessageID. by rewrite (bind_Fail _ _ _ _ _ Hp). }
  cbn [scan_loop]. by rewrite (bind_step _ _ _ _ _ Hs).
Qed.

(** The end of the file after complete messages: nothing, or a torn one. *)
Definition tail_ok (t : list byte) : Prop :=
  t = [] \/ exists m, valid_msg m /\ torn_msg f m t.

Lemma scan_file ms t :
  f = encode_msgs ms ++ t -> Forall valid_msg ms -> NoDup (tg_ids ms) -> tail_ok t ->
  exists st, scan_loop f (S (length f)) scan_init 0%nat = (Ret st, length f) /\
    (TGData st = TGData (scan_msgs scan_init 0 ms) \/
     TGData st = <[0 := None]> (TGData (scan_msgs scan_init 0 ms))).
Proof.
  intros Hf Hv Hnd Ht.
  assert (Hlen : (length (encode_msgs ms) <= length f)%nat) by (rewrite Hf, length_app; lia).
  destruct (scan_loop_msgs ms scan_init 0 (S (length f)) t Hv Hnd) as (fuel & Hfuel & Hl & Hd).
  { intros. apply lookup_empty. }
  { split; [lia|by rewrite drop_0]. }
  { lia. }
  rewrite Hl.
  destruct Ht as [->|(m & Hm & Ht)].
  - rewrite (scan_end (scan_msgs scan_init 0 ms) _ fuel ltac:(lia) Hd). eauto.
  - destruct fuel as [|fuel]; [lia|].
    destruct (scan_step_torn f Hsize (scan_msgs scan_init 0 ms) _ m t Hm Ht Hd)
      as (st' & Hs & Hst).
    cbn [scan_loop]. rewrite (bind_step _ _ _ _ _ Hs). cbn iota.
    exists st'. split; [done|]. destruct Hst as [->| ->]; [by left|by right].
Qed.
End scan_file.

(** ** What a log obliges a replay to do

    The TGs that are not covered by a later checkpoint, in log order. *)

Definition pending_step (acc : list (list byte)) (m : wal_msg) : list (list byte) :=
  match m with
  | MsgTG tg => acc ++ [tg]
  | MsgTxn tid did st =>
      if bool_decide (did = CHECKPOINT /\ st = COMMITCOMPLETE /\ tid ∈ map tg_id acc)
      then filter (fun tg => tid < tg_id tg) acc else acc
  | MsgStatus _ _ _ => acc
  end.

Definition pending (ms : list wal_msg) : list (list byte) := foldl pending_step [] ms.

(** The second pass: the TGs left in the table, by ascending id. *)
Definition replay_order (data : gmap Z (option (list byte))) : list (list byte) :=
  omap (fun tgid => mjoin (data !! tgid)) (merge_sort Z.le (map fst (map_to_list data))).

Definition pend_map (acc : list (list byte)) : gmap Z (option (list byte)) :=
  list_to_map (map (fun tg => (tg_id tg, Some tg)) acc).

Lemma fst_pend acc : (map (fun tg => (tg_id tg, Some tg)) acc).*1 = map tg_id acc.
Proof. induction acc; cbn; congruence. Qed.

Lemma lookup_pend_map acc i v :
  NoDup (map tg_id acc) ->
  pend_map acc !! i = Some v <-> exists tg, tg ∈ acc /\ i = tg_id tg /\ v = Some tg.
Proof.
  intros Hnd. unfold pend_map. rewrite <- elem_of_list_to_map by (by rewrite fst_pend).
  rewrite list_elem_of_fmap. split.
  - intros (tg & [= -> ->] & Htg). eauto.
  - intros (tg & Htg & -> & ->). eauto.
Qed.

Lemma pend_map_None acc i : pend_map acc !! i = None <-> i ∉ map tg_id acc.
Proof. unfold pend_map. rewrite <- not_elem_of_list_to_map. by rewrite fst_pend. Qed.

Lemma pend_map_snoc acc tg :
  NoDup (map tg_id (acc ++ [tg])) -> pend_map (acc ++ [tg]) = <[tg_id tg := Some tg]> (pend_map acc).
Proof.
  rewrite map_app. intros Hnd%NoDup_app. destruct Hnd as (_ & Hnd & _).
  unfold pend_map. rewrite map_app. cbn. apply list_to_map_snoc.
  rewrite fst_pend. intros Hin. apply (Hnd _ Hin). left.
Qed.

Lemma pend_map_filter acc tid :
  NoDup (map tg_id acc) ->
  filter (fun kv => tid < kv.1) (pend_map acc) = pend_map (filter (fun tg => tid < tg_id tg) acc).
Proof.
  intros Hnd. apply map_eq. intros i. apply option_eq. intros v.
  assert (Hnd' : NoDup (map tg_id (filter (fun tg => tid < tg_id tg) acc))).
  { eapply NoDup_sublist; [|exact Hnd]. apply (fmap_sublist tg_id), sublist_filter. }
  rewrite map_lookup_filter_Some, !lookup_pend_map by done. cbn. split.
  - intros ((tg & Htg & -> & ->) & Hlt). exists tg. by rewrite list_elem_of_filter.
  - intros (tg & [Hlt Htg]%list_elem_of_filter & -> & ->). eauto.
Qed.

Lemma ids_filter_sublist tid acc :
  sublist (map tg_id (filter (fun tg => tid < tg_id tg) acc)) (map tg_id acc).
Proof. apply (fmap_sublist tg_id), sublist_filter. Qed.

Lemma pending_ids_sublist acc m :
  sublist (map tg_id (pending_step acc m)) (map tg_id acc ++ tg_ids [m]).
Proof.
  destruct m as [| tid did ts|tg]; cbn [pending_step tg_ids omap list_omap].
  - by rewrite app_nil_r.
  - rewrite app_nil_r. case_bool_decide; [apply ids_filter_sublist|done].
  - by rewrite map_app.
Qed.

Lemma tg_ids_cons m ms : tg_ids (m :: ms) = tg_ids [m] ++ tg_ids ms.
Proof. by destruct m. Qed.

Lemma scan_pending ms acc st pos :
  TGData st = pend_map acc -> NoDup (map tg_id acc ++ tg_ids ms) ->
  TGData (scan_msgs st pos ms) = pend_map (foldl pending_step acc ms).
Proof.
  revert acc st pos. induction ms as [|m ms IH]; intros acc st pos Hst Hnd; [done|].
  cbn [scan_msgs foldl].
  rewrite tg_ids_cons, app_assoc in Hnd.
  assert (Hnd' : NoDup (map tg_id (pending_step acc m) ++ tg_ids ms)).
  { eapply NoDup_sublist; [|exact Hnd].
    apply sublist_app; [apply pending_ids_sublist|done]. }
  apply IH; [|exact Hnd'].
  apply NoDup_app in Hnd as (Hacc & _ & _).
  destruct m as [| tid did ts|tg]; cbn [scan_msg pending_step].
  - done.
  - cbn in Hacc. rewrite app_nil_r in Hacc. unfold scan_txn. rewrite Hst.
    destruct (decide (did = CHECKPOINT /\ ts = COMMITCOMPLETE /\ tid ∈ map tg_id acc)) as [Hc|Hc];
      [rewrite (bool_decide_eq_true_2 (did = CHECKPOINT /\ _)) by exact Hc
      |rewrite (bool_decide_eq_false_2 (did = CHECKPOINT /\ _)) by exact Hc].
    + destruct Hc as (-> & -> & Hin). change (CHECKPOINT =? WAL) with false. cbv iota.
      rewrite bool_decide_eq_true_2; last first.
      { apply not_eq_None_Some. intros H%pend_map_None. by apply H. }
      change (CHECKPOINT =? CHECKPOINT) with true. cbn [TGData set_TGData andb]. change (COMMITCOMPLETE =? COMMITCOMPLETE) with true. cbv iota.
      cbn [TGData set_TGData]. exact (pend_map_filter _ _ Hacc).
    + destruct (did =? WAL) eqn:Hd; [done|]. case_bool_decide as Hin; [|by destruct (did =? CHECKPOINT)].
      destruct (Z.eqb_spec did CHECKPOINT) as [Hck|]; [|done].
      destruct (Z.eqb_spec ts COMMITCOMPLETE) as [Hts|]; [|done].
      exfalso. apply Hc. split_and!; [done|done|].
      destruct (decide (tid ∈ map tg_id acc)) as [|Hn]; [done|].
      apply pend_map_None in Hn. rewrite Hn in Hin. by destruct Hin.
  - cbn [TGData]. rewrite Hst. symmetry. apply pend_map_snoc.
    rewrite map_app. exact Hacc.
Qed.

(** *** The order of the second pass *)

Lemma replay_order_ids data ids :
  StronglySorted Z.le ids -> NoDup ids -> (forall i, i ∈ ids <-> is_Some (data !! i)) ->
  replay_order data = omap (fun tgid => mjoin (data !! tgid)) ids.
Proof.
  intros Hs Hnd Hi. unfold replay_order. f_equal.
  apply (Sorted_unique Z.le).
  - apply Sorted_merge_sort. intros x y. lia.
  - by apply StronglySorted_Sorted.
  - rewrite merge_sort_Permutation. apply NoDup_Permutation; [|done|].
    + apply NoDup_fst_map_to_list.
    + intros i. rewrite Hi, list_elem_of_fmap. split.
      * intros ([j v] & -> & Hj%elem_of_map_to_list). by exists v.
      * intros [v Hv]. exists (i, v). split; [done|]. by apply elem_of_map_to_list.
Qed.

(** The ids of a log whose clock moves forward. *)
Definition ids_increasing (ids : list Z) : Prop :=
  StronglySorted Z.lt ids /\ Forall (fun i => 0 < i) ids.

Lemma StronglySorted_sublist {A} (R : A -> A -> Prop) (l k : list A) :
  sublist l k -> StronglySorted R k -> StronglySorted R l.
Proof.
  induction 1 as [|x l k Hs IH|x l k Hs IH]; intros Hk; [constructor| |];
    apply StronglySorted_inv in Hk as [Hk Hx].
  - constructor; [by apply IH|]. rewrite Forall_forall in *. intros y Hy. apply Hx.
    eapply elem_of_submseteq; [exact Hy|by apply sublist_submseteq].
  - by apply IH.
Qed.

Lemma ids_increasing_sublist l k : sublist l k -> ids_increasing k -> ids_increasing l.
Proof.
  intros Hs [Hk Hp]. split; [by eapply StronglySorted_sublist|].
  rewrite Forall_forall in *. intros y Hy. apply Hp.
  eapply elem_of_submseteq; [exact Hy|by apply sublist_submseteq].
Qed.

Lemma ids_increasing_NoDup ids : ids_increasing ids -> NoDup ids.
Proof.
  intros [Hs _]. induction Hs as [|x l _ IH Hx]; constructor; [|done].
  intros Hin. rewrite Forall_forall in Hx. apply Hx in Hin. lia.
Qed.

Lemma StronglySorted_lt_le ids : StronglySorted Z.lt ids -> StronglySorted Z.le ids.
Proof.
  induction 1 as [|x l _ IH Hx]; constructor; [done|].
  eapply Forall_impl; [exact Hx|]. cbn. lia.
Qed.

Lemma omap_pend_map acc (data : gmap Z (option (list byte))) :
  NoDup (map tg_id acc) -> (forall tg, tg ∈ acc -> data !! tg_id tg = Some (Some tg)) ->
  omap (fun tgid => mjoin (data !! tgid)) (map tg_id acc) = acc.
Proof.
  intros Hnd Hd. induction acc as [|tg acc IH]; [done|]. cbn.
  rewrite (Hd tg) by left. cbn. f_equal. apply IH.
  - by apply NoDup_cons in Hnd as [_ ?].
  - intros tg' Htg'. apply Hd. by right.
Qed.

Lemma replay_order_pend acc :
  ids_increasing (map tg_id acc) -> replay_order (pend_map acc) = acc.
Proof.
  intros Hinc. pose proof (ids_increasing_NoDup _ Hinc) as Hnd. destruct Hinc as [Hs Hp].
  rewrite (replay_order_ids _ (map tg_id acc)).
  - apply omap_pend_map; [done|]. intros tg Htg. apply lookup_pend_map; eauto.
  - by apply StronglySorted_lt_le.
  - done.
  - intros i. rewrite <- not_eq_None_Some, pend_map_None. split; [tauto|].
    intros Hn. destruct (decide (i ∈ map tg_id acc)); [done|by destruct Hn].
Qed.

Lemma replay_order_pend_zero acc :
  ids_increasing (map tg_id acc) -> replay_order (<[0 := None]> (pend_map acc)) = acc.
Proof.
  intros Hinc. pose proof (ids_increasing_NoDup _ Hinc) as Hnd. destruct Hinc as [Hs Hp].
  assert (H0 : 0 ∉ map tg_id acc).
  { intros H. rewrite Forall_forall in Hp. apply Hp in H. lia. }
  rewrite (replay_order_ids _ (0 :: map tg_id acc)).
  - cbn. rewrite lookup_insert_eq. cbn. apply omap_pend_map; [done|]. intros tg Htg.
    rewrite lookup_insert_ne; [apply lookup_pend_map; eauto|].
    intros H. apply H0. rewrite H. apply list_elem_of_fmap. eauto.
  - constructor; [by apply StronglySorted_lt_le|]. eapply Forall_impl; [exact Hp|]. cbn. lia.
  - by apply NoDup_cons.
  - intros i. rewrite lookup_insert_is_Some, elem_of_cons, <- not_eq_None_Some, pend_map_None.
    destruct (decide (i ∈ map tg_id acc)), (decide (0 = i)); split; intuition congruence.
Qed.

Lemma pending_ids ms acc :
  sublist (map tg_id (foldl pending_step acc ms)) (map tg_id acc ++ tg_ids ms).
Proof.
  revert acc. induction ms as [|m ms IH]; intros acc; cbn [foldl].
  - by rewrite app_nil_r.
  - rewrite tg_ids_cons, app_assoc. etrans; [apply IH|].
    apply sublist_app; [apply pending_ids_sublist|done].
Qed.

Lemma replay_scan_log (ms : list wal_msg) (t : list byte) :
  let f := encode_msgs ms ++ t in
  Z.of_nat (length f) < 2 ^ 53 -> Forall valid_msg ms -> ids_increasing (tg_ids ms) ->
  tail_ok f t ->
  exists st, scan_loop f (S (length f)) scan_init 0%nat = (Ret st, length f) /\ replay_order (TGData st) = pending ms.
Proof.
  intros f Hsize Hv Hinc Ht. pose proof (ids_increasing_NoDup _ Hinc) as Hnd.
  destruct (scan_file f Hsize ms t eq_refl Hv Hnd Ht) as (st & Hst & Hd).
  exists st. split; [done|].
  pose proof (scan_pending ms [] scan_init 0 eq_refl Hnd) as Hp.
  fold (pending ms) in Hp. rewrite Hp in Hd.
  assert (Hinc' : ids_increasing (map tg_id (pending ms)))
    by (eapply ids_increasing_sublist; [apply (pending_ids ms [])|exact Hinc]).
  destruct Hd as [-> | ->]; [by apply replay_order_pend|by apply replay_order_pend_zero].
Qed.

(** C6: Reading a log back. The log has less than 2^53 bytes and consists of
    complete messages, whose groups have increasing ids, followed by nothing or
    by the beginning of one more, which is not of a group as long as the log's
    length times 1000 or longer (C34). The first pass over the file ends
    normally, and the second takes up exactly the transaction groups that no
    later checkpoint covers, each whole and in the order they were committed;
    a torn group is not replayed. *)
Theorem replay_scan_pending (ms : list wal_msg) (t : list byte) :
  let f := encode_msgs ms ++ t in
  Z.of_nat (length f) < 2 ^ 53 -> Forall valid_msg ms -> ids_increasing (tg_ids ms) ->
  tail_ok f t ->
  exists st, replay_scan f = Ret st /\ replay_order (TGData st) = pending ms.
Proof.
  intros f Hsize Hv Hinc Ht. destruct (replay_scan_log ms t Hsize Hv Hinc Ht) as (st & Hs & Ho).
  exists st. split; [|exact Ho]. unfold replay_scan. fold f in Hs. by rewrite Hs.
Qed.

Definition example_log : list wal_msg :=
  [ MsgStatus OPEN NOTREPLAYED 5;
    MsgTxn 77 WAL PREPARING; MsgTG (serialize_tg 77 [example_command]); MsgTxn 77 WAL COMMITCOMPLETE;
    MsgTxn 77 CHECKPOINT PREPARING; MsgTxn 77 CHECKPOINT COMMITCOMPLETE;
    MsgTG (serialize_tg 78 [example_command]) ].

Lemma replay_scan_pending_witness :
  let t := take 40 (tg_message (serialize_tg 79 [example_command])) in
  (exists st, replay_scan (encode_msgs example_log ++ t) = Ret st /\
    replay_order (TGData st) = pending example_log) /\
  pending example_log = [serialize_tg 78 [example_command]].
Proof.
  cbv zeta. split; [|vm_compute; reflexivity].
  apply replay_scan_pending.
  - vm_compute. reflexivity.
  - apply valid_msgs_dec. vm_compute. reflexivity.
  - split; repeat constructor.
  - right. exists (MsgTG (serialize_tg 79 [example_command])). split.
    + apply valid_msg_dec. vm_compute. reflexivity.
    + split; [|apply Nat.ltb_lt; vm_compute; reflexivity].
      exists (drop 40 (tg_message (serialize_tg 79 [example_command]))). split.
      * symmetry. exact (take_drop 40 (encode_msg (MsgTG (serialize_tg 79 [example_command])))).
      * vm_compute. intros H. discriminate H.
Defined.

(** C34: a torn group is not always skipped: when the log ends inside a group
    that is a thousand times longer than the log that was written, its length
    is taken for corruption and the replay ends the process. *)
Theorem torn_group_fatal (ms : list wal_msg) (tg : list byte) (n : nat) :
  let f := encode_msgs ms ++ take n (tg_message tg) in
  Z.of_nat (length f) < 2 ^ 50 -> Forall valid_msg ms -> NoDup (tg_ids ms) ->
  valid_msg (MsgTG tg) -> (9 <= n)%nat -> (1000 * length f <= length tg)%nat ->
  replay_scan f = Fatal "Uncorrectable IO error in WAL Replay".
Proof.
  intros f Hsize Hv Hnd [Hl Hb] Hn Hlong.
  assert (Hlen : (length (encode_msgs ms) + 9 <= length f)%nat).
  { unfold f. rewrite length_app, length_take. rewrite tg_message_eq, !length_app, !length_le_bytes. lia. }
  destruct (scan_loop_msgs f ltac:(lia) ms scan_init 0 (S (length f)) (take n (tg_message tg)) Hv Hnd)
    as (fuel & Hfuel & Hrun & Hd).
  { intros. apply lookup_empty. }
  { split; [lia|by rewrite drop_0]. }
  { lia. }
  unfold replay_scan. rewrite Hrun. clear Hrun.
  destruct fuel as [|fuel]; [lia|]. set (pos := (0 + length (encode_msgs ms))%nat) in *.
  set (rest := tg ++ md5 (le_bytes 8 (Z.of_nat (length tg)) ++ tg)).
  assert (Ht : take n (tg_message tg) =
    le_bytes 1 TGDATA ++ le_bytes 8 (Z.of_nat (length tg)) ++ take (n - 9) rest).
  { rewrite tg_message_eq. fold rest. rewrite take_app_ge by (rewrite length_le_bytes; lia).
    rewrite take_app_ge by (rewrite !length_le_bytes; lia). rewrite !length_le_bytes.
    replace (n - 1 - 8)%nat with (n - 9)%nat by lia. done. }
  rewrite Ht in Hd.
  destruct (readMessageID_full f pos TGDATA _ (known_mid TGDATA eq_refl) Hd) as [Hr1 Hd1].
  destruct (wal_read_full f (pos + 1) 8 _ _ Hd1 (length_le_bytes _ _)) as [Hr2 _].
  assert (Hread : exists e p, readTGData f (pos + 1)%nat = (Fail (ErrMsg e), p)).
  { unfold readTGData. rewrite (bind_step _ _ _ _ _ Hr2). cbv zeta. rewrite le64_length' by done.
    unfold sanityCheckValue. rewrite wrapS_id by (try lia; unfold inS; lia).
    rewrite (proj2 (Z.ltb_ge _ _)) by lia. eexists _, _. reflexivity. }
  destruct Hread as (e & p & Hread).
  assert (Hstep : forall st, exists p', scan_step f st pos =
    (Fatal "Uncorrectable IO error in WAL Replay", p')).
  { intros st. unfold scan_step, fullRead at 1. rewrite Hr1. cbn iota.
    change (TGDATA =? TGDATA) with true. cbv iota. unfold scan_tgdata, fullRead. rewrite Hread. eauto. }
  destruct (Hstep (scan_msgs scan_init 0 ms)) as [p' Hs].
  cbn [scan_loop]. unfold mbind, prog_bind. by rewrite Hs.
Qed.

Lemma torn_group_fatal_witness :
  replay_scan (encode_msgs [MsgStatus OPEN NOTREPLAYED 5] ++ take 9 (tg_message (replicate (Z.to_nat 20000) x00)))
  = Fatal "Uncorrectable IO error in WAL Replay".
Proof.
  apply torn_group_fatal.
  - vm_compute. reflexivity.
  - apply valid_msgs_dec. vm_compute. reflexivity.
  - constructor.
  - apply valid_msg_dec. vm_compute. reflexivity.
  - apply Nat.leb_le. reflexivity.
  - apply Nat.leb_le. vm_compute. reflexivity.
Defined.

(** ** The scan comes to an end on any bytes *)

Section scan_termination.
Context (f : file).

(** A reader that stays inside the file and never runs out of fuel. *)
Definition stays {A} (m : prog nat A) : Prop := forall pos, (pos <= length f)%nat ->
  (pos <= snd (m pos) <= length f)%nat /\ fst (m pos) <> Panic "out of fuel".

Lemma stays_lift {A} (o : outcome A) : o <> Panic "out of fuel" -> stays (lift o).
Proof. intros Ho pos Hp. by split. Qed.

Lemma stays_mret {A} (a : A) : stays (mret a).
Proof. intros pos Hp. by split. Qed.

Lemma stays_bind {A B} (m : prog nat A) (k : A -> prog nat B) :
  stays m -> (forall a, stays (k a)) -> stays (m ≫= k).
Proof.
  intros Hm Hk pos Hp. destruct (Hm pos Hp) as [Hpos Hne]. unfold mbind, prog_bind.
  destruct (m pos) as [[a| | |] pos']; cbn in Hpos, Hne |- *; try (split; [lia|congruence]).
  destruct (Hk a pos' ltac:(lia)) as [Hpos' Hne']. split; [lia|done].
Qed.

Lemma stays_wal_read n : stays (wal_read f n).
Proof.
  intros pos Hp. unfold wal_read, pread. cbn. rewrite length_take, length_drop. split; [lia|]. by case_decide.
Qed.

Lemma stays_fullRead {A} stop (m : prog nat A) k :
  stays m -> (forall a, stays (k a)) -> stays (fullRead stop m k).
Proof.
  intros Hm Hk pos Hp. destruct (Hm pos Hp) as [Hpos Hne]. unfold fullRead.
  destruct (m pos) as [[a|e| |] pos']; cbn in Hpos, Hne |- *; try (split; [lia|congruence]).
  - destruct (Hk a pos' ltac:(lia)) as [Hpos' Hne']. split; [lia|done].
  - destruct e; cbn; split; lia || done.
Qed.

Create HintDb stays.
#[local] Hint Resolve stays_lift stays_mret stays_bind stays_wal_read stays_fullRead : stays.

Lemma stays_readTGData : stays (readTGData f).
Proof.
  unfold readTGData. apply stays_bind; [auto with stays|]. intros b. cbv zeta.
  destruct (sanityCheckValue f (ToInt64 b)); [|by apply stays_lift].
  destruct (ToInt64 b <? 0); [by apply stays_lift|]. apply stays_bind; [auto with stays|]. intros tg.
  destruct (ToInt64 b <? 7); [by apply stays_lift|]. apply stays_bind; [auto with stays|]. intros ck.
  apply stays_lift. by case_bool_decide.
Qed.

Lemma stays_scan_message st mid :
  stays (if mid =? TGDATA then scan_tgdata f st
    else if mid =? TXNINFO then
      fullRead st (readTransactionInfo f) (fun '(tgid, destination, txnStatus) =>
        mret (scan_txn st tgid destination txnStatus, true))
    else fullRead st (ReadStatus f) (fun _ => mret (st, true))).
Proof.
  destruct (mid =? TGDATA).
  { intros pos. unfold scan_tgdata. apply stays_fullRead; [apply stays_readTGData|].
    intros [tgid tg]. cbn. destruct (offsetTGDataInWAL st !! tgid); [by apply stays_lift|auto with stays]. }
  destruct (mid =? TXNINFO); apply stays_fullRead.
  - unfold readTransactionInfo. apply stays_bind; [auto with stays|]. intros b. cbv zeta.
    apply stays_lift. repeat case_bool_decide; done.
  - intros [[? ?] ?]. auto with stays.
  - unfold ReadStatus. apply stays_bind; auto with stays.
  - auto with stays.
Qed.

Lemma stays_scan_step st : stays (scan_step f st).
Proof.
  unfold scan_step. apply stays_fullRead; [|intros mid; apply stays_scan_message].
  unfold readMessageID. apply stays_bind; [auto with stays|]. intros b. cbv zeta. apply stays_lift.
  by case_bool_decide.
Qed.

(** A round that goes on has read the message's id. *)
Lemma scan_step_moves st st' pos pos' :
  scan_step f st pos = (Ret (st', true), pos') -> (pos <= length f)%nat -> (pos < pos' <= length f)%nat.
Proof.
  intros Hs Hp. pose proof (stays_scan_step st pos Hp) as [Hw _]. rewrite Hs in Hw. cbn in Hw.
  split; [|lia]. revert Hs. unfold scan_step, fullRead at 1, readMessageID, mbind, prog_bind, lift.
  destruct (wal_read f 1 pos) as [o p1] eqn:H1. unfold wal_read in H1. injection H1 as Ho Hp1.
  case_decide as Hl; subst o; [|discriminate]. rewrite Hl in Hp1. subst p1.
  destruct (bool_decide _); [|discriminate]. intros Hs.
  assert (Hin : (pos + 1 <= length f)%nat).
  { unfold pread in Hl. rewrite length_take, length_drop in Hl. lia. }
  destruct (stays_scan_message st (to_int8 (pread pos 1 f !! 0%nat)) (pos + 1)%nat Hin) as [Hm _].
  rewrite Hs in Hm. cbn in Hm. lia.
Qed.

(** From any position, fuel for the bytes that are left is enough. *)
Lemma scan_loop_ends n : forall st pos,
  (pos <= length f)%nat -> (length f - pos < n)%nat ->
  scan_loop f n st pos = scan_loop f (S (length f - pos)) st pos /\
  fst (scan_loop f n st pos) <> Panic "out of fuel".
Proof.
  induction n as [n IH] using lt_wf_ind. intros st pos Hp Hn. destruct n as [|n]; [lia|].
  cbn [scan_loop]. pose proof (stays_scan_step st pos Hp) as [_ Hw].
  pose proof (fun st' pos' H => scan_step_moves st st' pos pos' H Hp) as Hmove.
  unfold mbind, prog_bind. destruct (scan_step f st pos) as [[[st' [|]]| | |] pos']; cbn in Hw; try done.
  - specialize (Hmove st' pos' eq_refl).
    destruct (IH n ltac:(lia) st' pos' ltac:(lia) ltac:(lia)) as [-> Hne].
    destruct (IH (length f - pos)%nat ltac:(lia) st' pos' ltac:(lia) ltac:(lia)) as [-> _].
    split; [done|]. apply (IH (S (length f - pos')) ltac:(lia)); lia.
  - split; [done|]. cbn. congruence.
Qed.

(** C33: the first pass of a replay comes to an end on any bytes whatsoever, a
    log that was damaged included: every round of its loop that goes on has
    read a byte, so that it has at most one round more than the file has bytes,
    and no bound above that changes the result. *)
Theorem replay_scan_terminates (n : nat) :
  (length f < n)%nat ->
  fst (scan_loop f n scan_init 0%nat) = replay_scan f /\ replay_scan f <> Panic "out of fuel".
Proof.
  intros Hn. unfold replay_scan. destruct (scan_loop_ends n scan_init 0 ltac:(lia) ltac:(lia)) as [-> Hne].
  rewrite Nat.sub_0_r in *. split; [done|]. apply (scan_loop_ends (S (length f)) scan_init 0); lia.
Qed.
End scan_termination.

(** Bytes that are no log at all. *)
Lemma replay_scan_terminates_witness :
  fst (scan_loop [x07; x00; x02] 9 scan_init 0%nat) = replay_scan [x07; x00; x02] /\
  replay_scan [x07; x00; x02] <> Panic "out of fuel".
Proof. apply (replay_scan_terminates [x07; x00; x02] 9). cbn. lia. Defined.
