(* ===== verification/BufFile.v ===== *)
(** * Batched writes to a file (executor/buffile/buffile.go)

    A block-sized window of the file is kept in memory; writes inside the
    window stay there until the window moves or the file is closed. *)

From S2P Require Export FileSys.

Record BufferedFile := mkBufferedFile {
  bf_fp : file;               (** the bytes on disk *)
  bf_blockSize : Z;
  bf_buffer : option (list byte);
  bf_bufferOffset : Z;
}.

Definition defaultBlockSize : Z := 32 * 1024.

Definition buffile_New (content : file) : BufferedFile :=
  mkBufferedFile content defaultBlockSize None 0.

Definition buffer_len (f : BufferedFile) : nat := length (default [] (bf_buffer f)).

Definition readBuffer (offset : Z) (size : nat) : prog BufferedFile unit := fun f =>
  let readOffset := offset - Z.rem offset (bf_blockSize f) in
  let readSize := Z.rem offset (bf_blockSize f) + Z.of_nat size in
  let readSize := readSize + bf_blockSize f in
  let readSize := readSize - Z.rem readSize (bf_blockSize f) in
  let n := if Z.of_nat (buffer_len f) <? readSize then Z.to_nat readSize else buffer_len f in
  match ReadAt readOffset n (bf_fp f) with
  | (bs, None) | (bs, Some EOF) =>
      (Ret tt, mkBufferedFile (bf_fp f) (bf_blockSize f) (Some bs) readOffset)
  | (_, Some e) => (Fail e, f)
  end.

Definition writeBuffer : prog BufferedFile unit := fun f =>
  match bf_buffer f with
  | None => (Ret tt, f)
  | Some b =>
      match WriteAt (bf_bufferOffset f) b (bf_fp f) with
      | Ret fp => (Ret tt, mkBufferedFile fp (bf_blockSize f) (bf_buffer f) (bf_bufferOffset f))
      | Fail e => (Fail e, f)
      | Fatal m => (Fatal m, f)
      | Panic m => (Panic m, f)
      end
  end.

Definition ensureBuffer (data : list byte) (offset : Z) : prog BufferedFile unit := fun f =>
  match bf_buffer f with
  | None => readBuffer offset (length data) f
  | Some b =>
      let bufferLower := bf_bufferOffset f in
      let bufferUpper := bf_bufferOffset f + Z.of_nat (length b) in
      if (offset <? bufferLower) || (bufferUpper <? offset + Z.of_nat (length data)) then
        (writeBuffer ;; readBuffer offset (length data)) f
      else (Ret tt, f)
  end.

(** [copy] into the tail of the buffer: what does not fit is dropped. *)
Definition buffile_WriteAt (data : list byte) (offset : Z) : prog BufferedFile nat :=
  ensureBuffer data offset ;;
  ((fun f =>
    let b := default [] (bf_buffer f) in
    let writePos := offset - bf_bufferOffset f in
    if (writePos <? 0) || (Z.of_nat (length b) <? writePos) then
      (Panic "slice bounds out of range", f)
    else
      let d := take (length b - Z.to_nat writePos) data in
      (Ret (length d),
       mkBufferedFile (bf_fp f) (bf_blockSize f) (Some (splice (Z.to_nat writePos) d b))
         (bf_bufferOffset f))) : prog BufferedFile nat).

(** The file that [Close] leaves on disk; its error is not looked at. *)
Definition buffile_Close (f : BufferedFile) : file := bf_fp (snd (writeBuffer f)).

Example buffile_ex :
  let f := buffile_New [x01; x02; x03; x04] in
  buffile_Close (snd ((buffile_WriteAt [xff; xfe] 1 ;; buffile_WriteAt [xfd] 3) f)) =
  [x01; xff; xfe; xfd].
Proof. vm_compute. reflexivity. Qed.

(** Past the end of the file a write is cut short, without an error. *)
Example buffile_past_end :
  let f := buffile_New [x01; x02; x03; x04] in
  let '(o, f') := buffile_WriteAt [xff; xfe] 3 f in
  (o, buffile_Close f') = (Ret 1%nat, [x01; x02; x03; xff]).
Proof. vm_compute. reflexivity. Qed.

(** ** A buffered file behaves as the file it will be once closed *)

Record represents (f : BufferedFile) (content : file) : Prop := {
  rep_block : 0 < bf_blockSize f;
  rep_length : length (bf_fp f) = length content;
  rep_buffer :
    match bf_buffer f with
    | None => bf_fp f = content
    | Some b =>
        0 <= bf_bufferOffset f /\
        (Z.to_nat (bf_bufferOffset f) + length b <= length content)%nat /\
        splice (Z.to_nat (bf_bufferOffset f)) b (bf_fp f) = content
    end;
}.

Section buffile_refinement.
Implicit Types (f : BufferedFile) (content data : list byte).

Lemma represents_New content : represents (buffile_New content) content.
Proof. by split. Qed.

Lemma writeBuffer_spec f content :
  represents f content ->
  exists f', writeBuffer f = (Ret tt, f') /\ represents f' content /\ bf_fp f' = content.
Proof.
  intros [Hb Hl Hr]. unfold writeBuffer. destruct (bf_buffer f) as [b|] eqn:Hbuf.
  - destruct Hr as (Ho & Hle & Hs). unfold WriteAt.
    rewrite (proj2 (Z.ltb_ge _ _)) by lia. rewrite pwrite_splice by lia.
    eexists. split; [done|]. split; [|done]. split; cbn; [done|by rewrite Hs|].
    split_and!; [done|done|]. rewrite Hs.
    rewrite <- Hs, splice_overwrite by lia. done.
  - exists f. split_and!; [done| |done]. split; try done. by rewrite Hbuf.
Qed.

(** The window a read loads contains the write it is loaded for. *)
Lemma readBuffer_spec f content data (offset : nat) :
  0 < bf_blockSize f -> bf_fp f = content -> (offset + length data <= length content)%nat ->
  exists f' b, readBuffer (Z.of_nat offset) (length data) f = (Ret tt, f') /\
    represents f' content /\ bf_buffer f' = Some b /\
    bf_bufferOffset f' <= Z.of_nat offset /\
    Z.of_nat offset + Z.of_nat (length data) <= bf_bufferOffset f' + Z.of_nat (length b).
Proof.
  intros Hb Hc Hle. unfold readBuffer.
  rewrite Z.rem_mod_nonneg by lia.
  set (o := Z.of_nat offset) in *. set (r := o mod bf_blockSize f).
  assert (Hr : 0 <= r < bf_blockSize f /\ r <= o).
  { split; [apply Z.mod_pos_bound; lia|]. apply Z.mod_le; lia. }
  set (rs := r + Z.of_nat (length data) + bf_blockSize f).
  rewrite Z.rem_mod_nonneg by lia.
  assert (Hrs : 0 <= rs mod bf_blockSize f < bf_blockSize f) by (apply Z.mod_pos_bound; lia).
  set (n := if _ <? _ then _ else _).
  assert (Hn : (Z.to_nat r + length data <= n)%nat).
  { unfold n. case_match eqn:Hlt.
    - apply Z.ltb_lt in Hlt. lia.
    - apply Z.ltb_ge in Hlt. lia. }
  unfold ReadAt. rewrite (proj2 (Z.ltb_ge _ _)) by lia.
  set (bs := pread (Z.to_nat (o - r)) n (bf_fp f)).
  assert (Hlen : length bs = (n `min` (length content - Z.to_nat (o - r)))%nat)
    by (unfold bs; by rewrite length_pread, Hc).
  exists (mkBufferedFile (bf_fp f) (bf_blockSize f) (Some bs) (o - r)), bs.
  split_and!; [by case_decide| |done|cbn; lia|cbn; lia].
  split; cbn; [done|by rewrite Hc|]. split_and!; [lia|lia|].
  unfold bs. change (pread ?a ?b ?c) with (read_at a b c). rewrite Hc.
  assert (Hrd : read_at (Z.to_nat (o - r)) n content =
                read_at (Z.to_nat (o - r)) (length bs) content).
  { unfold read_at. rewrite Hlen.
    destruct (decide (n <= length content - Z.to_nat (o - r))%nat); [f_equal; lia|].
    rewrite !take_ge; rewrite ?length_drop; try lia; done. }
  rewrite Hrd. apply splice_read_at. lia.
Qed.

(** A write inside the window. *)
Lemma write_window f b content data (offset : nat) :
  represents f content -> bf_buffer f = Some b ->
  bf_bufferOffset f <= Z.of_nat offset ->
  Z.of_nat offset + Z.of_nat (length data) <= bf_bufferOffset f + Z.of_nat (length b) ->
  represents
    (mkBufferedFile (bf_fp f) (bf_blockSize f)
       (Some (splice (offset - Z.to_nat (bf_bufferOffset f)) data b)) (bf_bufferOffset f))
    (splice offset data content).
Proof.
  intros [Hb Hl Hr] Hbuf Hlo Hhi. rewrite Hbuf in Hr. destruct Hr as (Ho & Hle & Hs).
  split; cbn; [done|rewrite length_splice by lia; done|].
  rewrite !length_splice by lia. split_and!; [done|done|].
  rewrite <- Hs. symmetry. apply splice_window; lia.
Qed.

Lemma buffile_WriteAt_spec f content data (offset : nat) :
  represents f content -> (offset + length data <= length content)%nat ->
  exists f', buffile_WriteAt data (Z.of_nat offset) f = (Ret (length data), f') /\
    represents f' (splice offset data content).
Proof.
  intros Hr Hle.
  assert (He : exists f' b, ensureBuffer data (Z.of_nat offset) f = (Ret tt, f') /\
    represents f' content /\ bf_buffer f' = Some b /\
    bf_bufferOffset f' <= Z.of_nat offset /\
    Z.of_nat offset + Z.of_nat (length data) <= bf_bufferOffset f' + Z.of_nat (length b)).
  { unfold ensureBuffer. destruct (bf_buffer f) as [b|] eqn:Hbuf.
    - destruct ((_ <? _) || _) eqn:Hc.
      + destruct (writeBuffer_spec f content Hr) as (f1 & Hw & Hr1 & Hfp).
        rewrite (bind_step _ _ _ _ _ Hw). apply readBuffer_spec; [apply Hr1|done|done].
      + apply orb_false_iff in Hc as [H1%Z.ltb_ge H2%Z.ltb_ge]. exists f, b. done.
    - apply readBuffer_spec; [apply Hr| |done]. destruct Hr as [_ _ Hr]. by rewrite Hbuf in Hr. }
  destruct He as (f' & b & He & Hr' & Hbuf & Hlo & Hhi).
  unfold buffile_WriteAt. rewrite (bind_step _ _ _ _ _ He). cbv beta. rewrite Hbuf. change (default [] (Some b)) with b.
  assert (H0 : 0 <= bf_bufferOffset f') by (destruct Hr' as [_ _ H]; rewrite Hbuf in H; apply H).
  rewrite (proj2 (Z.ltb_ge _ 0)) by lia. rewrite (proj2 (Z.ltb_ge _ _)) by (cbn; lia). cbn [orb].
  rewrite take_ge by lia. eexists. split; [done|].
  replace (Z.to_nat (Z.of_nat offset - bf_bufferOffset f'))
    with (offset - Z.to_nat (bf_bufferOffset f'))%nat by lia.
  by apply write_window.
Qed.

Lemma buffile_Close_spec f content : represents f content -> buffile_Close f = content.
Proof.
  intros Hr. destruct (writeBuffer_spec f content Hr) as (f' & Hw & _ & Hfp).
  unfold buffile_Close. by rewrite Hw.
Qed.

(** A sequence of writes inside the file. *)
Lemma buffile_writes writes f c :
  represents f c -> Forall (fun w => snd w + length (fst w) <= length c)%nat writes ->
  exists f', for_each writes (fun w => buffile_WriteAt (fst w) (Z.of_nat (snd w)) ;; mret tt) f
    = (Ret tt, f') /\ represents f' (foldl (fun c w => splice (snd w) (fst w) c) c writes).
Proof.
  revert f c. induction writes as [|[d o] writes IH]; intros f c Hr Hw; [by exists f|].
  apply Forall_cons in Hw as [Hdo Hw]. cbn [fst snd] in *.
  destruct (buffile_WriteAt_spec f c d o Hr Hdo) as (f1 & Hf1 & Hr1).
  destruct (IH f1 _ Hr1) as (f2 & Hf2 & Hr2).
  { eapply Forall_impl; [exact Hw|]. intros w. cbn beta. by rewrite length_splice. }
  exists f2. split; [|exact Hr2]. cbn [for_each fst snd].
  unfold mbind, prog_bind at 1. unfold mbind, prog_bind at 1. rewrite Hf1. exact Hf2.
Qed.

(** C10: refinement of a plain file: any sequence of writes that stay inside
    the file, made through a buffered file that is then closed, succeeds and
    leaves on disk what the same writes made one by one leave. *)
Theorem buffile_refines (content : file) (writes : list (list byte * nat)) :
  Forall (fun w => snd w + length (fst w) <= length content)%nat writes ->
  exists f, for_each writes (fun w => buffile_WriteAt (fst w) (Z.of_nat (snd w)) ;; mret tt)
              (buffile_New content) = (Ret tt, f) /\
    buffile_Close f = foldl (fun c w => splice (snd w) (fst w) c) content writes.
Proof.
  intros Hw.
  destruct (buffile_writes writes _ _ (represents_New content) Hw) as (f & Hf & Hr).
  exists f. split; [exact Hf|]. by apply buffile_Close_spec.
Qed.
End buffile_refinement.

Lemma buffile_refines_witness :
  let content := replicate 40 x00 in
  let writes := [([x01; x02], 3%nat); ([x05], 39%nat); ([x07; x08; x09], 4%nat)] in
  exists f, for_each writes (fun w => buffile_WriteAt (fst w) (Z.of_nat (snd w)) ;; mret tt)
              (buffile_New content) = (Ret tt, f) /\
    buffile_Close f = foldl (fun c w => splice (snd w) (fst w) c) content writes.
Proof. apply buffile_refines. repeat constructor; cbn; lia. Defined.
