(* ===== verification/Primary.v ===== *)
(** * Writes to the primary store (executor/writer.go, wal.go, timsort.go)

    A command of a transaction group is carried out on its bucket file: a
    fixed-length record overwrites its slot; a variable-length one is added to
    the records of its interval, which are kept sorted in a block behind the
    slots that the slot points to. *)

From S2P Require Export WalLog BufFile.

(** ** Code the storage calls

    The snappy codec is a third-party package; the merge sort of timsort.c is
    given by its contract: it permutes the records so that the keys it
    compares are in order. *)

Class StorageLibs := {
  snappy_Encode : list byte -> list byte;
  snappy_Decode : list byte -> option (list byte);
  timsort : (list byte -> Z) -> list (list byte) -> list (list byte);
}.

Class StorageLaws (L : StorageLibs) : Prop := {
  snappy_roundtrip bs : snappy_Decode (snappy_Encode bs) = Some bs;
  snappy_nonempty bs : snappy_Encode bs <> [];
  timsort_perm key recs : Permutation (timsort key recs) recs;
  timsort_sorted key recs : Sorted (fun a b => key a <= key b) (timsort key recs);
}.

(** The ticks of a variable record: its last four bytes. *)
Definition record_ticks (r : list byte) : Z := le_val (drop (length r - 4) r).

(** [tsortbuf] for records that hold the ticks: bytes behind the last whole
    record stay where they are; with a record longer than the data there is
    nothing to sort. *)
Definition tsortbuf `{StorageLibs} (buf : list byte) (recLen : Z) : list byte :=
  if Z.of_nat (length buf) <? recLen then buf
  else
    let n := Z.to_nat recLen in
    concat (timsort record_ticks (chunks n buf)) ++ drop (length buf / n * n) buf.

(** Of a record shorter than its ticks the length of the rest is less than
    zero, which the copy takes for a size: the first record that is copied ends
    the process. *)
Definition TimSortBufferUINT32 `{StorageLibs} (buf : list byte) (recLen : Z) : outcome (list byte) :=
  if recLen =? 0 then Panic "division by zero"
  else if (recLen <? 4) && (recLen <=? Z.of_nat (length buf)) then Panic "unexpected signal during runtime execution"
  else Ret (tsortbuf buf recLen).

(** ** An open file: contents and position *)

Record handle := mkHandle { h_data : file; h_pos : nat }.

Definition fp_Seek (offset : Z) : prog handle unit := fun h =>
  if offset <? 0 then (Fail (ErrMsg "seek: invalid argument"), h)
  else (Ret tt, mkHandle (h_data h) (Z.to_nat offset)).

(** A call whose error is not looked at. *)
Definition ignore_err {S} (m : prog S unit) : prog S unit := fun s =>
  match m s with (Fail _, s') => (Ret tt, s') | r => r end.

Definition fp_SeekEnd : prog handle Z := fun h =>
  (Ret (Z.of_nat (length (h_data h))), mkHandle (h_data h) (length (h_data h))).

(** Reading into a fresh buffer of [n] bytes. *)
Definition fp_Read (n : nat) : prog handle (list byte) := fun h =>
  match Read (h_pos h) n (h_data h) with
  | (bs, Some e) => (Fail e, h)
  | (bs, None) => (Ret (fill n bs), mkHandle (h_data h) (h_pos h + length bs))
  end.

Definition fp_Write (bs : list byte) : prog handle unit := fun h =>
  (Ret tt, mkHandle (pwrite (h_pos h) bs (h_data h)) (h_pos h + length bs)).

(** ** Fixed-length records *)

(** [fp] is anything that can write at an offset: a file or a buffered one. *)
Definition WriteBufferToFile {S} (fp_WriteAt : list byte -> Z -> prog S unit)
    (buffer : offsetIndexBuffer) : prog S unit :=
  let offset := oib_Offset buffer in
  let data := oib_IndexAndPayload buffer in
  fp_WriteAt data offset.

Definition file_WriteAt (data : list byte) (offset : Z) : prog handle unit := fun h =>
  match WriteAt offset data (h_data h) with
  | Ret f => (Ret tt, mkHandle f (h_pos h))
  | Fail e => (Fail e, h)
  | Fatal m => (Fatal m, h)
  | Panic m => (Panic m, h)
  end.

(** ** Variable-length records *)

Record IndirectRecordInfo := mkInfo { ri_Index : Z; ri_Offset : Z; ri_Len : Z }.

Definition read_info (idBuf : list byte) : IndirectRecordInfo :=
  mkInfo (ToInt64 idBuf) (ToInt64 (drop 8 idBuf)) (ToInt64 (drop 16 idBuf)).

Definition info_bytes (i : IndirectRecordInfo) : list byte :=
  le_bytes 8 (ri_Index i) ++ le_bytes 8 (ri_Offset i) ++ le_bytes 8 (ri_Len i).

Section indirect.
Context `{StorageLibs} (DisableVariableCompression : bool).

Definition compress (bs : list byte) : list byte :=
  if DisableVariableCompression then bs else snappy_Encode bs.
Definition decompress (bs : list byte) : outcome (list byte) :=
  if DisableVariableCompression then Ret bs
  else match snappy_Decode bs with
       | Some d => Ret d
       | None => Fail (ErrMsg "snappy: corrupt input")
       end.

(** The records already stored for the interval, followed by the new ones. *)
Definition read_previous (info : IndirectRecordInfo) (data : list byte) : prog handle (list byte) :=
  if ri_Index info =? 0 then mret data
  else
    fp_Seek (ri_Offset info) ;;
    if ri_Len info <? 0 then lift (Panic "makeslice: len out of range")
    else
      oldData ← fp_Read (Z.to_nat (ri_Len info));
      oldData ← lift (decompress oldData);
      mret (oldData ++ data).

Definition WriteBufferToFileIndirect (buffer : offsetIndexBuffer) (varRecLen : Z) : prog handle unit :=
  let primaryOffset := oib_Offset buffer in
  let index := oib_Index buffer in
  ignore_err (fp_Seek primaryOffset) ;;
  idBuf ← fp_Read 24;
  let currentRecInfo := read_info idBuf in
  dataToBeWritten ← read_previous currentRecInfo (oib_Payload buffer);
  let endOfCurrentBucketData := int64 (ri_Offset currentRecInfo + ri_Len currentRecInfo) in
  endOfFile ← fp_SeekEnd;
  endOfFileOffset ←
    (if endOfCurrentBucketData =? endOfFile then
       ignore_err (fp_Seek (ri_Offset currentRecInfo)) ;; mret (ri_Offset currentRecInfo)
     else mret endOfFile);
  if bool_decide (dataToBeWritten = []) then lift (Panic "index out of range")
  else
    sorted ← lift (TimSortBufferUINT32 dataToBeWritten (uint64 varRecLen));
    let comp := compress sorted in
    fp_Write comp ;;
    let targetRecInfo := mkInfo index endOfFileOffset (Z.of_nat (length comp)) in
    ignore_err (fp_Seek primaryOffset) ;;
    fp_Write (info_bytes targetRecInfo).
End indirect.

(** *** Positions in a file that grows at its end *)

Section pwrite_grow.
Implicit Types (f d : file) (e a n : nat).

Lemma pwrite_le e d f :
  (e <= length f)%nat -> pwrite e d f = take e f ++ d ++ drop (e + length d) f.
Proof.
  intros He. unfold pwrite. destruct d as [|b d].
  - cbn. by rewrite Nat.add_0_r, take_drop.
  - by replace (e - length f)%nat with 0%nat by lia.
Qed.

Lemma length_pwrite_le e d f :
  (e <= length f)%nat -> length (pwrite e d f) = (length f `max` (e + length d))%nat.
Proof.
  intros He. rewrite pwrite_le by done.
  rewrite !length_app, length_take, length_drop. lia.
Qed.

Lemma pread_pwrite_before e d f a n :
  (e <= length f)%nat -> (a + n <= e)%nat -> pread a n (pwrite e d f) = pread a n f.
Proof.
  intros He Ha. rewrite pwrite_le by done. unfold pread.
  rewrite drop_app_le by (rewrite length_take; lia).
  rewrite take_app_le by (rewrite length_drop, length_take; lia).
  rewrite <- (take_drop e f) at 2. rewrite drop_app_le by (rewrite length_take; lia).
  by rewrite take_app_le by (rewrite length_drop, length_take; lia).
Qed.

Lemma pread_pwrite_same e d f :
  (e <= length f)%nat -> pread e (length d) (pwrite e d f) = d.
Proof.
  intros He. rewrite pwrite_le by done. apply pread_app'; [|done].
  rewrite length_take. lia.
Qed.
End pwrite_grow.

Lemma read_info_bytes i :
  inS 64 (ri_Index i) -> inS 64 (ri_Offset i) -> inS 64 (ri_Len i) ->
  read_info (info_bytes i) = i.
Proof.
  intros H1 H2 H3. destruct i as [x o l]. cbn [ri_Index ri_Offset ri_Len] in *. unfold read_info, info_bytes.
  cbn [ri_Index ri_Offset ri_Len].
  change 16%nat with (8 + 8)%nat. rewrite <- drop_drop.
  rewrite ToInt64_le_bytes, drop_le_bytes_app, ToInt64_le_bytes, drop_le_bytes_app.
  rewrite <- (app_nil_r (le_bytes 8 l)), ToInt64_le_bytes.
  by rewrite !wrapS_id by (done || lia).
Qed.

Lemma length_info_bytes i : length (info_bytes i) = 24%nat.
Proof. unfold info_bytes. by rewrite !length_app, !length_le_bytes. Qed.

(** *** The buckets of a variable-length file

    The abstract content of a file: the record bytes of each slot. *)

Section buckets.
Context `{L : StorageLibs} {Laws : StorageLaws L} (nocomp : bool).
Implicit Types (f data : file) (o P : nat) (slots : list nat).

Definition slot_info f o : IndirectRecordInfo := read_info (pread o 24 f).

Definition block f (i : IndirectRecordInfo) : list byte :=
  pread (Z.to_nat (ri_Offset i)) (Z.to_nat (ri_Len i)) f.

Definition bucket f o : outcome (list byte) :=
  let i := slot_info f o in
  if ri_Index i =? 0 then Ret [] else decompress nocomp (block f i).

(** Where a block ends, as a position in the file. *)
Definition block_start (i : IndirectRecordInfo) : nat := Z.to_nat (ri_Offset i).
Definition block_end (i : IndirectRecordInfo) : nat := (block_start i + Z.to_nat (ri_Len i))%nat.

Definition slots_apart (o o' : nat) : Prop := (o + 24 <= o' \/ o' + 24 <= o)%nat.
Definition blocks_apart (i j : IndirectRecordInfo) : Prop :=
  (block_end i <= block_start j \/ block_end j <= block_start i)%nat.

Definition used_ok f P (i : IndirectRecordInfo) : Prop :=
  ri_Index i <> 0 /\ Z.of_nat P <= ri_Offset i /\ 0 < ri_Len i /\
  ri_Offset i + ri_Len i <= Z.of_nat (length f) /\
  exists data, decompress nocomp (block f i) = Ret data.

(** The slots lie in the first [P] bytes; what they point to lies behind
    these and inside the file, and no two share a byte. *)
Record buckets_ok f P slots : Prop := {
  bk_size : Z.of_nat (length f) < 2 ^ 62;
  bk_primary : (P <= length f)%nat;
  bk_slots o : o ∈ slots -> (o + 24 <= P)%nat;
  bk_apart o o' : o ∈ slots -> o' ∈ slots -> o <> o' -> slots_apart o o';
  bk_info o : o ∈ slots -> slot_info f o = mkInfo 0 0 0 \/ used_ok f P (slot_info f o);
  bk_blocks o o' : o ∈ slots -> o' ∈ slots -> o <> o' ->
    ri_Index (slot_info f o) <> 0 -> ri_Index (slot_info f o') <> 0 ->
    blocks_apart (slot_info f o) (slot_info f o');
}.

(** Where the block of a slot is written: over its own old block when that
    ends the file, else at the end. *)
Definition append_pos f (i : IndirectRecordInfo) : nat :=
  if ri_Offset i + ri_Len i =? Z.of_nat (length f) then block_start i else length f.

Definition write_block f o (index : Z) (comp : list byte) : file :=
  let e := append_pos f (slot_info f o) in
  pwrite o (info_bytes (mkInfo index (Z.of_nat e) (Z.of_nat (length comp)))) (pwrite e comp f).

Lemma fp_Read_full f pos n :
  (pos + n <= length f)%nat ->
  fp_Read n (mkHandle f pos) = (Ret (pread pos n f), mkHandle f (pos + n)).
Proof.
  intros Hle. unfold fp_Read, Read. cbn [h_data h_pos].
  pose proof (length_pread pos n f) as Hl. rewrite Nat.min_l in Hl by lia.
  rewrite decide_False; [|intros [H Hn]; rewrite H in Hl; cbn in Hl; lia].
  unfold fill. rewrite Hl, Nat.sub_diag. cbn. by rewrite app_nil_r.
Qed.

Lemma fp_Seek_nat f pos (o : nat) :
  fp_Seek (Z.of_nat o) (mkHandle f pos) = (Ret tt, mkHandle f o).
Proof. unfold fp_Seek. rewrite (proj2 (Z.ltb_ge _ _)) by lia. by rewrite Nat2Z.id. Qed.

Lemma ignore_err_Ret {S} (m : prog S unit) s s' :
  m s = (Ret tt, s') -> ignore_err m s = (Ret tt, s').
Proof. intros H. unfold ignore_err. by rewrite H. Qed.

Lemma info_in_range f P slots o :
  buckets_ok f P slots -> o ∈ slots ->
  let i := slot_info f o in
  0 <= ri_Offset i /\ 0 <= ri_Len i /\ ri_Offset i + ri_Len i <= Z.of_nat (length f).
Proof.
  intros Hok Ho i. destruct (bk_info f P slots Hok o Ho) as [Hi|(_ & ? & ? & ? & _)].
  - unfold i. rewrite Hi. cbn. lia.
  - unfold i. lia.
Qed.

Lemma read_previous_spec f P slots o pos old payload :
  buckets_ok f P slots -> o ∈ slots -> bucket f o = Ret old ->
  exists pos', read_previous nocomp (slot_info f o) payload (mkHandle f pos)
    = (Ret (old ++ payload), mkHandle f pos').
Proof.
  intros Hok Ho Hb. pose proof (info_in_range f P slots o Hok Ho) as Hr. cbn zeta in Hr.
  unfold bucket in Hb. cbv zeta in Hb. unfold read_previous, block in *.
  set (i := slot_info f o) in *. destruct (ri_Index i =? 0).
  - injection Hb as <-. exists pos. done.
  - pose proof (fp_Seek_nat f pos (Z.to_nat (ri_Offset i))) as Hs. rewrite Z2Nat.id in Hs by lia.
    rewrite (bind_step _ _ _ _ _ Hs). rewrite (proj2 (Z.ltb_ge _ 0)) by lia.
    rewrite (bind_step _ _ _ _ _ (fp_Read_full f (Z.to_nat (ri_Offset i)) (Z.to_nat (ri_Len i)) ltac:(lia))).
    unfold lift, mbind, prog_bind. rewrite Hb. eauto.
Qed.

(** What one write does to the file. *)
Lemma WriteBufferToFileIndirect_file f P slots o old index payload varRecLen pos :
  buckets_ok f P slots -> o ∈ slots -> bucket f o = Ret old ->
  payload <> [] -> 4 <= uint64 varRecLen -> inS 64 index ->
  let comp := compress nocomp (tsortbuf (old ++ payload) (uint64 varRecLen)) in
  exists pos',
    WriteBufferToFileIndirect nocomp
      (le_bytes 8 (Z.of_nat o) ++ le_bytes 8 index ++ payload) varRecLen (mkHandle f pos)
    = (Ret tt, mkHandle (write_block f o index comp) pos').
Proof.
  intros Hok Ho Hb Hp Hv Hidx comp.
  pose proof (bk_slots _ _ _ Hok o Ho) as HoP. pose proof (bk_primary _ _ _ Hok) as HP.
  pose proof (bk_size _ _ _ Hok) as Hsz.
  pose proof (info_in_range f P slots o Hok Ho) as Hr. cbn zeta in Hr.
  unfold WriteBufferToFileIndirect.
  replace (oib_Offset _) with (Z.of_nat o); last first.
  { unfold oib_Offset. rewrite take_le_bytes_app.
    rewrite <- (app_nil_r (le_bytes 8 (Z.of_nat o))), ToInt64_le_bytes.
    symmetry. apply wrapS_id; [lia|]. unfold inS. lia. }
  replace (oib_Index _) with index; last first.
  { unfold oib_Index. rewrite drop_le_bytes_app, take_le_bytes_app.
    rewrite <- (app_nil_r (le_bytes 8 index)), ToInt64_le_bytes. symmetry. by apply wrapS_id. }
  replace (oib_Payload _) with payload; last first.
  { unfold oib_Payload. change 16%nat with (8 + 8)%nat.
    by rewrite <- drop_drop, !drop_le_bytes_app. }
  cbv zeta.
  rewrite (bind_step _ _ _ _ _ (ignore_err_Ret _ _ _ (fp_Seek_nat f pos o))).
  rewrite (bind_step _ _ _ _ _ (fp_Read_full f o 24 ltac:(lia))).
  fold (slot_info f o).
  destruct (read_previous_spec f P slots o (o + 24) old payload Hok Ho Hb) as [p1 H1].
  rewrite (bind_step _ _ _ _ _ H1).
  rewrite wrapS_id by (try lia; unfold inS; lia).
  assert (H2 : fp_SeekEnd (mkHandle f p1) = (Ret (Z.of_nat (length f)), mkHandle f (length f))) by done.
  rewrite (bind_step _ _ _ _ _ H2).
  assert (H3 : (if ri_Offset (slot_info f o) + ri_Len (slot_info f o) =? Z.of_nat (length f) then
       ignore_err (fp_Seek (ri_Offset (slot_info f o))) ;; mret (ri_Offset (slot_info f o))
     else mret (Z.of_nat (length f))) (mkHandle f (length f)) =
     (Ret (Z.of_nat (append_pos f (slot_info f o))), mkHandle f (append_pos f (slot_info f o)))).
  { unfold append_pos, block_start. destruct (_ =? _); [|done].
    pose proof (fp_Seek_nat f (length f) (Z.to_nat (ri_Offset (slot_info f o)))) as Hs.
    rewrite Z2Nat.id in Hs by lia.
    rewrite (bind_step _ _ _ _ _ (ignore_err_Ret _ _ _ Hs)). rewrite Z2Nat.id by lia. done. }
  rewrite (bind_step _ _ _ _ _ H3).
  rewrite bool_decide_eq_false_2 by (intros [_ H]%app_eq_nil; done).
  unfold TimSortBufferUINT32. rewrite (proj2 (Z.eqb_neq _ 0)), (proj2 (Z.ltb_ge _ 4)) by lia. cbn [andb].
  unfold lift at 1, mbind at 1, prog_bind at 1.
  fold comp. set (e := append_pos f (slot_info f o)).
  assert (H4 : forall bs g p, fp_Write bs (mkHandle g p) = (Ret tt, mkHandle (pwrite p bs g) (p + length bs))) by done.
  rewrite (bind_step _ _ _ _ _ (H4 comp f e)).
  rewrite (bind_step _ _ _ _ _ (ignore_err_Ret _ _ _ (fp_Seek_nat _ _ o))).
  rewrite H4. eexists. reflexivity.
Qed.

Lemma append_pos_bounds f P slots o :
  buckets_ok f P slots -> o ∈ slots ->
  (P <= append_pos f (slot_info f o) <= length f)%nat.
Proof.
  intros Hok Ho. pose proof (bk_slots _ _ _ Hok o Ho). pose proof (bk_primary _ _ _ Hok).
  unfold append_pos, block_start.
  destruct (Z.eqb_spec (ri_Offset (slot_info f o) + ri_Len (slot_info f o)) (Z.of_nat (length f)))
    as [He|He]; [|lia].
  destruct (bk_info _ _ _ Hok o Ho) as [Hi|(_ & ? & ? & ? & _)]; [|lia].
  rewrite Hi in He. cbn in He. lia.
Qed.

Lemma append_pos_behind f P slots o o' :
  buckets_ok f P slots -> o ∈ slots -> o' ∈ slots -> o <> o' ->
  ri_Index (slot_info f o') <> 0 ->
  (block_end (slot_info f o') <= append_pos f (slot_info f o))%nat.
Proof.
  intros Hok Ho Ho' Hne Hu'. pose proof (bk_primary _ _ _ Hok). pose proof (bk_slots _ _ _ Hok o Ho).
  unfold append_pos.
  destruct (bk_info _ _ _ Hok o' Ho') as [Hi'|(_ & H1 & H2 & H3 & _)]; [by rewrite Hi' in Hu'|].
  destruct (Z.eqb_spec (ri_Offset (slot_info f o) + ri_Len (slot_info f o)) (Z.of_nat (length f)))
    as [He|He]; [|unfold block_end, block_start; lia].
  destruct (bk_info _ _ _ Hok o Ho) as [Hi|(Hu & G1 & G2 & G3 & _)].
  { rewrite Hi in He. cbn in He. lia. }
  destruct (bk_blocks _ _ _ Hok o o' Ho Ho' Hne Hu Hu') as [Hb|Hb]; [|exact Hb].
  unfold block_end, block_start in *. lia.
Qed.

Section one_write.
Context (f : file) (P : nat) (slots : list nat) (o : nat) (index : Z) (comp : list byte).
Context (Hok : buckets_ok f P slots) (Ho : o ∈ slots).
#[local] Abbreviation e := (append_pos f (slot_info f o)).
#[local] Abbreviation new := (mkInfo index (Z.of_nat e) (Z.of_nat (length comp))).
#[local] Abbreviation f' := (write_block f o index comp).

Lemma write_block_eq : f' = splice o (info_bytes new) (pwrite e comp f).
Proof.
  pose proof (append_pos_bounds f P slots o Hok Ho). pose proof (bk_slots _ _ _ Hok o Ho).
  unfold write_block. apply pwrite_splice. rewrite length_info_bytes, length_pwrite_le by lia. lia.
Qed.

Lemma length_write_block : length f' = (length f `max` (e + length comp))%nat.
Proof.
  pose proof (append_pos_bounds f P slots o Hok Ho). pose proof (bk_slots _ _ _ Hok o Ho).
  rewrite write_block_eq, length_splice; [apply length_pwrite_le; lia|].
  rewrite length_info_bytes, length_pwrite_le by lia. lia.
Qed.

(** What is away from the slot and before the new block is as it was. *)
Lemma pread_write_block_other a n :
  (a + n <= o \/ o + 24 <= a)%nat -> (a + n <= e)%nat -> pread a n f' = pread a n f.
Proof.
  intros Ha Hn. pose proof (append_pos_bounds f P slots o Hok Ho). pose proof (bk_slots _ _ _ Hok o Ho).
  rewrite write_block_eq. change (pread ?x ?y ?z) with (read_at x y z) at 1.
  rewrite read_at_splice_disjoint.
  - apply pread_pwrite_before; lia.
  - rewrite length_info_bytes, length_pwrite_le by lia. lia.
  - rewrite length_info_bytes. lia.
Qed.

Lemma write_block_comp : pread e (length comp) f' = comp.
Proof.
  pose proof (append_pos_bounds f P slots o Hok Ho). pose proof (bk_slots _ _ _ Hok o Ho).
  rewrite write_block_eq. change (pread ?x ?y ?z) with (read_at x y z).
  rewrite read_at_splice_disjoint.
  - apply pread_pwrite_same. lia.
  - rewrite length_info_bytes, length_pwrite_le by lia. lia.
  - rewrite length_info_bytes. lia.
Qed.

Lemma write_block_info_other o' : o' ∈ slots -> o' <> o -> slot_info f' o' = slot_info f o'.
Proof.
  intros Ho' Hne. pose proof (append_pos_bounds f P slots o Hok Ho).
  pose proof (bk_slots _ _ _ Hok o' Ho').
  unfold slot_info. rewrite pread_write_block_other; [done| |lia].
  destruct (bk_apart _ _ _ Hok o' o Ho' Ho Hne); lia.
Qed.

Lemma write_block_block_other o' :
  o' ∈ slots -> o' <> o -> ri_Index (slot_info f o') <> 0 ->
  block f' (slot_info f o') = block f (slot_info f o').
Proof.
  intros Ho' Hne Hu. pose proof (bk_slots _ _ _ Hok o Ho).
  pose proof (append_pos_behind f P slots o o' Hok Ho Ho' (not_eq_sym Hne) Hu) as Hb.
  destruct (bk_info _ _ _ Hok o' Ho') as [Hi|(_ & H1 & H2 & H3 & _)]; [by rewrite Hi in Hu|].
  unfold block, block_end, block_start in *. apply pread_write_block_other; lia.
Qed.

Context (Hsize : Z.of_nat (length f + length comp) < 2 ^ 62) (Hindex : inS 64 index).

Lemma write_block_info : slot_info f' o = new.
Proof.
  pose proof (append_pos_bounds f P slots o Hok Ho). pose proof (bk_slots _ _ _ Hok o Ho).
  unfold slot_info at 1. rewrite write_block_eq. change (pread ?x ?y ?z) with (read_at x y z) at 1.
  rewrite <- (length_info_bytes new), read_at_splice_same.
  - apply read_info_bytes; [done| |]; unfold inS; cbn [ri_Offset ri_Len]; lia.
  - rewrite length_info_bytes, length_pwrite_le by lia. lia.
Qed.

Lemma write_block_block : block f' new = comp.
Proof. unfold block. cbn [ri_Offset ri_Len]. rewrite !Nat2Z.id. apply write_block_comp. Qed.

Lemma write_block_ok content :
  index <> 0 -> comp <> [] -> decompress nocomp comp = Ret content ->
  buckets_ok f' P slots.
Proof.
  intros Hidx Hne Hdec. pose proof (append_pos_bounds f P slots o Hok Ho) as He.
  assert (Hlc : (0 < length comp)%nat) by (destruct comp; [done|cbn; lia]).
  split.
  - rewrite length_write_block. pose proof (bk_size _ _ _ Hok). lia.
  - rewrite length_write_block. lia.
  - apply (bk_slots _ _ _ Hok).
  - apply (bk_apart _ _ _ Hok).
  - intros o' Ho'. destruct (decide (o' = o)) as [->|Hn].
    + right. rewrite write_block_info. unfold used_ok. rewrite write_block_block, length_write_block.
      cbn [ri_Index ri_Offset ri_Len]. split_and!; [done|lia|lia|lia|eauto].
    + rewrite write_block_info_other by done.
      destruct (bk_info _ _ _ Hok o' Ho') as [Hi|Hu]; [by left|right].
      unfold used_ok in *. destruct Hu as (H1 & H2 & H3 & H4 & H5).
      rewrite write_block_block_other, length_write_block by done. split_and!; try done. lia.
  - intros o1 o2 H1 H2 Hn.
    destruct (decide (o1 = o)) as [->|Hn1]; [|destruct (decide (o2 = o)) as [->|Hn2]].
    + rewrite write_block_info, (write_block_info_other o2) by done. intros _ Hu2. right.
      pose proof (append_pos_behind f P slots o o2 Hok Ho H2 Hn Hu2).
      unfold block_start at 1. cbn [ri_Offset]. lia.
    + rewrite write_block_info, (write_block_info_other o1) by done. intros Hu1 _. left.
      pose proof (append_pos_behind f P slots o o1 Hok Ho H1 (not_eq_sym Hn) Hu1).
      unfold block_start at 1. cbn [ri_Offset]. lia.
    + rewrite !write_block_info_other by done. by apply (bk_blocks _ _ _ Hok).
Qed.
End one_write.

(** Sorting whole records. *)
Lemma tsortbuf_records (buf : list byte) (n : nat) :
  (0 < n)%nat -> (exists k, length buf = k * n)%nat ->
  let sorted := tsortbuf buf (Z.of_nat n) in
  length sorted = length buf /\
  Permutation (chunks n sorted) (chunks n buf) /\
  Sorted (fun a b => record_ticks a <= record_ticks b) (chunks n sorted).
Proof.
  intros Hn [k Hk] sorted.
  assert (Hlen : Forall (fun c => length c = n) (timsort record_ticks (chunks n buf))).
  { rewrite timsort_perm. by apply chunks_lengths. }
  destruct (decide (length buf = 0)%nat) as [H0|H0].
  { apply length_zero_iff_nil in H0. subst buf. unfold sorted, tsortbuf.
    change (Z.of_nat (@length byte [])) with 0. rewrite (proj2 (Z.ltb_lt 0 (Z.of_nat n))) by lia.
    split_and!; [done|done|]. rewrite chunks_short by (cbn; lia). constructor. }
  assert (Hs : sorted = concat (timsort record_ticks (chunks n buf))).
  { unfold sorted, tsortbuf.
    rewrite (proj2 (Z.ltb_ge (Z.of_nat (length buf)) (Z.of_nat n))) by (destruct k; lia).
    rewrite Nat2Z.id, Hk, Nat.div_mul by lia. rewrite drop_ge by lia. apply app_nil_r. }
  rewrite Hs, chunks_concat by done. split_and!.
  - rewrite <- (chunks_concat_all n buf) at 2 by eauto.
    apply Permutation_length. by rewrite (timsort_perm record_ticks).
  - apply timsort_perm.
  - apply timsort_sorted.
Qed.

(** C9: a variable-length write appends to its bucket: on a well-formed
    file and for records that are at least as long as their ticks (four bytes;
    of shorter ones the sort runs into memory that is not its own) the write succeeds; the bucket of its slot then holds the records
    it held and the new ones, none lost or made up, in the order of their
    ticks; every other bucket holds what it held, and the file is well
    formed again. *)
Theorem WriteBufferToFileIndirect_appends f P slots o old index payload (n k k' : nat) pos :
  buckets_ok f P slots -> o ∈ slots -> bucket f o = Ret old ->
  (length old = k * n)%nat -> (length payload = S k' * n)%nat ->
  4 <= Z.of_nat n < 2 ^ 31 -> index <> 0 -> inS 64 index ->
  let content := tsortbuf (old ++ payload) (Z.of_nat n) in
  Z.of_nat (length f + length (compress nocomp content)) < 2 ^ 62 ->
  exists f' pos',
    WriteBufferToFileIndirect nocomp
      (le_bytes 8 (Z.of_nat o) ++ le_bytes 8 index ++ payload) (Z.of_nat n) (mkHandle f pos)
      = (Ret tt, mkHandle f' pos') /\
    bucket f' o = Ret content /\
    Permutation (chunks n content) (chunks n old ++ chunks n payload) /\
    Sorted (fun a b => record_ticks a <= record_ticks b) (chunks n content) /\
    (forall o', o' ∈ slots -> o' <> o -> bucket f' o' = bucket f o') /\
    buckets_ok f' P slots.
Proof.
  intros Hok Ho Hb Hold Hpay Hv Hidx Hi content Hsize.
  assert (Hp : payload <> []) by (intros ->; cbn in Hpay; lia).
  assert (Hu : uint64 (Z.of_nat n) = Z.of_nat n) by (apply wrapU_id; unfold inU; lia).
  destruct (tsortbuf_records (old ++ payload) n ltac:(lia)) as (Hlc & Hperm & Hsort).
  { exists (k + S k')%nat. rewrite length_app. lia. }
  fold content in Hlc, Hperm, Hsort.
  assert (Hc : content <> []).
  { intros H. rewrite H, length_app in Hlc. cbn in Hlc. lia. }
  rewrite chunks_app in Hperm by (lia || eauto).
  destruct (WriteBufferToFileIndirect_file f P slots o old index payload (Z.of_nat n) pos
    Hok Ho Hb Hp ltac:(lia) Hi) as [pos' Hw].
  rewrite Hu in Hw. fold content in Hw.
  assert (Hdec : decompress nocomp (compress nocomp content) = Ret content).
  { unfold decompress, compress. destruct nocomp; [done|]. by rewrite snappy_roundtrip. }
  assert (Hne : compress nocomp content <> []).
  { unfold compress. destruct nocomp; [done|apply snappy_nonempty]. }
  eexists _, pos'. split; [exact Hw|]. split_and!; [|done|done| |].
  - unfold bucket. rewrite (write_block_info f P slots o _ _ Hok Ho Hsize Hi). cbn [ri_Index].
    rewrite (proj2 (Z.eqb_neq _ _) Hidx). by rewrite (write_block_block f P slots o _ _ Hok Ho).
  - intros o' Ho' Hn. unfold bucket. cbv zeta.
    rewrite (write_block_info_other f P slots o _ _ Hok Ho o' Ho' Hn).
    destruct (Z.eqb_spec (ri_Index (slot_info f o')) 0); [done|].
    by rewrite (write_block_block_other f P slots o _ _ Hok Ho o' Ho' Hn).
  - by eapply write_block_ok.
Qed.
End buckets.

(** A codec and a sort that satisfy the contracts. *)
Definition stored_Encode (bs : list byte) : list byte := x00 :: bs.
Definition stored_Decode (bs : list byte) : option (list byte) :=
  match bs with _ :: bs' => Some bs' | [] => None end.

#[export] Instance key_le_dec (key : list byte -> Z) : RelDecision (fun a b => key a <= key b) :=
  fun a b => Z_le_dec (key a) (key b).

Definition example_libs : StorageLibs := {|
  snappy_Encode := stored_Encode;
  snappy_Decode := stored_Decode;
  timsort key recs := merge_sort (fun a b => key a <= key b) recs;
|}.

#[export] Instance example_laws : StorageLaws example_libs.
Proof.
  split.
  - done.
  - done.
  - intros. apply merge_sort_Permutation.
  - intros key recs. apply Sorted_merge_sort. intros a b. lia.
Qed.

Lemma WriteBufferToFileIndirect_appends_witness :
  let f := replicate 80 x00 in
  let payload := [x0a; x00; x00; x00; x02; x00; x00; x00; x0b; x00; x00; x00; x01; x00; x00; x00] in
  let content := tsortbuf (H := example_libs) ([] ++ payload) (Z.of_nat 8) in
  (exists f' pos',
    WriteBufferToFileIndirect (H := example_libs) false
      (le_bytes 8 (Z.of_nat 32) ++ le_bytes 8 7 ++ payload) (Z.of_nat 8) (mkHandle f 0)
      = (Ret tt, mkHandle f' pos') /\
    bucket (L := example_libs) false f' 32 = Ret content /\
    Permutation (chunks 8 content) (chunks 8 [] ++ chunks 8 payload) /\
    Sorted (fun a b => record_ticks a <= record_ticks b) (chunks 8 content) /\
    (forall o', o' ∈ [32%nat; 56%nat] -> o' <> 32%nat ->
       bucket (L := example_libs) false f' o' = bucket (L := example_libs) false f o') /\
    buckets_ok (L := example_libs) false f' 80 [32%nat; 56%nat]) /\
  content = [x0b; x00; x00; x00; x01; x00; x00; x00; x0a; x00; x00; x00; x02; x00; x00; x00].
Proof.
  cbv zeta. split; [|vm_compute; reflexivity].
  apply (WriteBufferToFileIndirect_appends (L := example_libs) false (replicate 80 x00) 80
    [32%nat; 56%nat] 32 [] 7 _ 8 0 1 0).
  - split.
    + vm_compute. reflexivity.
    + vm_compute. lia.
    + intros o [->|[->|[]%elem_of_nil]%elem_of_cons]%elem_of_cons; lia.
    + intros o o' [->|[->|[]%elem_of_nil]%elem_of_cons]%elem_of_cons
        [->|[->|[]%elem_of_nil]%elem_of_cons]%elem_of_cons; unfold slots_apart; lia.
    + intros o [->|[->|[]%elem_of_nil]%elem_of_cons]%elem_of_cons; left; vm_compute; reflexivity.
    + intros o o' [->|[->|[]%elem_of_nil]%elem_of_cons]%elem_of_cons _ _ H; exfalso; apply H;
        vm_compute; reflexivity.
  - left.
  - vm_compute. reflexivity.
  - reflexivity.
  - reflexivity.
  - lia.
  - lia.
  - unfold inS. lia.
  - vm_compute. reflexivity.
Defined.
