(* ===== verification/Wal.v ===== *)
(** * The write-ahead log and the transaction pipe (executor/wal.go, cache.go, written.go)

    The operations of [WALFileType] and [TransactionPipe] on the state they
    share: the files on disk, the open log, the queued commands and the
    records collected for triggers. *)

From S2P Require Export Primary.

(** ** State *)

Record WALFileType := mkWALFile {
  FileStatus : Z;
  ReplayState : Z;
  OwningInstanceID : Z;
  RootPath : string;
  FilePath : string;
  lastCommittedTGID : Z;
  FilePtr_pos : nat;      (** the position of [FilePtr] *)
  FilePtr_open : bool;    (** until [FilePtr.Close] *)
}.

Record TransactionPipe := mkPipe {
  tgID : Z;
  writeChannel : list WriteCommand;
}.

Record wstate := mkW {
  w_fs : files;
  w_wf : WALFileType;
  w_pipe : TransactionPipe;
  w_m : gmap string (list (list byte));           (** records collected by [appendRecord] *)
  w_c : list (string * list (list byte));         (** the channel to the trigger goroutine *)
}.

Definition set_fs (fs : files) (s : wstate) : wstate := mkW fs (w_wf s) (w_pipe s) (w_m s) (w_c s).
Definition set_wf (wf : WALFileType) (s : wstate) : wstate := mkW (w_fs s) wf (w_pipe s) (w_m s) (w_c s).
Definition set_pipe (p : TransactionPipe) (s : wstate) : wstate := mkW (w_fs s) (w_wf s) p (w_m s) (w_c s).

Definition set_status (fs rs owner : Z) (wf : WALFileType) : WALFileType :=
  mkWALFile fs rs owner (RootPath wf) (FilePath wf) (lastCommittedTGID wf) (FilePtr_pos wf) (FilePtr_open wf).
Definition set_last (tgid : Z) (wf : WALFileType) : WALFileType :=
  mkWALFile (FileStatus wf) (ReplayState wf) (OwningInstanceID wf) (RootPath wf) (FilePath wf) tgid
    (FilePtr_pos wf) (FilePtr_open wf).
Definition set_pos (pos : nat) (wf : WALFileType) : WALFileType :=
  mkWALFile (FileStatus wf) (ReplayState wf) (OwningInstanceID wf) (RootPath wf) (FilePath wf)
    (lastCommittedTGID wf) pos (FilePtr_open wf).
Definition set_open (o : bool) (wf : WALFileType) : WALFileType :=
  mkWALFile (FileStatus wf) (ReplayState wf) (OwningInstanceID wf) (RootPath wf) (FilePath wf)
    (lastCommittedTGID wf) (FilePtr_pos wf) o.

(** The bytes of the log. *)
Definition wal_bytes (s : wstate) : file := default [] (w_fs s !! FilePath (w_wf s)).

Section wal.
Context `{L : StorageLibs} `{R : MapRange}.
Context (InstanceID : Z) (WALBypass DisableVariableCompression : bool).

(** *** The transaction pipe *)

(** [now] is what the clock reads; the ids follow it. *)
Definition NewTGID (now : Z) : prog wstate Z := fun s =>
  let id := int64 (tgID (w_pipe s) + int64 (now - tgID (w_pipe s))) in
  (Ret id, set_pipe (mkPipe id (writeChannel (w_pipe s))) s).

Definition TGID : prog wstate Z := fun s => (Ret (tgID (w_pipe s)), s).

Definition NewTransactionPipe (now : Z) : TransactionPipe := mkPipe (int64 (0 + int64 (now - 0))) [].

(** *** The log file *)

Definition wal_write (buffer : list byte) : prog wstate unit := fun s =>
  let wf := w_wf s in
  (Ret tt,
   mkW (<[FilePath wf := pwrite (FilePtr_pos wf) buffer (wal_bytes s)]> (w_fs s))
     (set_pos (FilePtr_pos wf + length buffer) wf) (w_pipe s) (w_m s) (w_c s)).

Definition wal_seek (pos : nat) : prog wstate unit := fun s =>
  (Ret tt, set_wf (set_pos pos (w_wf s)) s).
Definition wal_seek_end : prog wstate unit := fun s => wal_seek (length (wal_bytes s)) s.

(** A reader of the log at its position. *)
Definition wal_reading {A} (m : file -> prog nat A) : prog wstate A := fun s =>
  let '(o, pos) := m (wal_bytes s) (FilePtr_pos (w_wf s)) in
  (o, set_wf (set_pos pos (w_wf s)) s).

Definition WriteTransactionInfo (tid did txnStatus : Z) : prog wstate unit :=
  wal_write (transaction_info_message tid did txnStatus).

Definition WriteStatus (fileStatus replayState : Z) : prog wstate unit :=
  state_modify (fun s => set_wf (set_status fileStatus replayState InstanceID (w_wf s)) s) ;;
  s ← state_get;
  wal_seek 0 ;;
  wal_write (status_message (FileStatus (w_wf s)) (ReplayState (w_wf s)) (OwningInstanceID (w_wf s))) ;;
  wal_seek_end.

Definition readStatus : prog wstate (Z * Z * Z) :=
  wal_seek 1 ;;
  st ← (fun s => match wal_reading ReadStatus s with
                 | (Fail _, s') => (Fatal "Unable to ReadStatus()", s')
                 | r => r
                 end);
  wal_seek_end ;;
  mret st.

Definition IsOpen : prog wstate bool := fun s =>
  (Ret (FilePtr_open (w_wf s) && (FileStatus (w_wf s) =? OPEN)), s).

Definition syncStatusRead : prog wstate unit :=
  s ← state_get;
  if negb (FilePtr_open (w_wf s)) then lift (Fatal "File stat failed")
  else
    '(fileStatus, replayState, owner) ← readStatus;
    state_modify (fun s => set_wf (set_status fileStatus replayState owner (w_wf s)) s).

Definition callerOwnsFile (wf : WALFileType) : bool := InstanceID =? OwningInstanceID wf.

Definition isActive : prog wstate bool :=
  isOpen ← IsOpen;
  s ← state_get;
  mret (isOpen && callerOwnsFile (w_wf s) && (ReplayState (w_wf s) =? NOTREPLAYED)).

Definition NeedsReplay : prog wstate bool :=
  syncStatusRead ;;
  s ← state_get;
  mret ((ReplayState (w_wf s) =? NOTREPLAYED) || (ReplayState (w_wf s) =? REPLAYINPROCESS)).

Definition CanWrite : prog wstate bool := syncStatusRead ;; isActive.

Definition CanDeleteSafely : prog wstate bool :=
  syncStatusRead ;;
  active ← isActive;
  if active : bool then mret false
  else needs ← NeedsReplay; mret (negb needs).

Definition wal_Close (replayStatus : Z) : prog wstate unit :=
  WriteStatus CLOSED replayStatus ;;
  state_modify (fun s => set_wf (set_open false (w_wf s)) s).

(** The warning of the first test has its sense turned round: it is the file
    that is not open that is refused. *)
Definition wal_Delete : prog wstate unit :=
  isOpen ← IsOpen;
  if negb isOpen then lift (Fail (ErrMsg "WAL File is open"))
  else
    active ← isActive;
    if active : bool then lift (Fail (ErrMsg "WAL File is active"))
    else
      needs ← NeedsReplay;
      if needs : bool then lift (Fail (ErrMsg "WAL File needs replay"))
      else
        wal_Close REPLAYED ;;
        s ← state_get;
        match w_fs s !! FilePath (w_wf s) with
        | None => lift (Fatal "Can not remove WALFile")
        | Some _ => state_put (set_fs (delete (FilePath (w_wf s)) (w_fs s)) s)
        end.

(** *** Opening a log *)

Definition new_wf (rootDir path : string) : WALFileType := mkWALFile 0 0 0 rootDir path 0 0 true.

(** [os.OpenFile] with [O_CREATE]. *)
Definition wal_Open (rootDir path : string) : prog wstate unit := fun s =>
  (Ret tt, set_wf (new_wf rootDir path)
     (set_fs (match w_fs s !! path with
              | Some _ => w_fs s
              | None => <[path := []]> (w_fs s)
              end) s)).

Definition wal_file_name (rootDir : string) (now : Z) : string :=
  filepath_Join rootDir "WALFile" +:+ "." +:+ Itoa now +:+ ".walfile".

(** The ownership test looks at the owner of the fresh structure, not at the
    one stored in the file. *)
Definition takeOverFile (rootDir existingPath : string) : prog wstate unit :=
  wal_Open rootDir existingPath ;;
  s ← state_get;
  if callerOwnsFile (w_wf s) then lift (Fail (ErrMsg "TakeOver: File file is owned by calling process"))
  else mret tt.

Definition NewWALFile (rootDir existingFilePath : string) (now : Z) : prog wstate unit :=
  if decide (existingFilePath = "") then
    wal_Open rootDir (wal_file_name rootDir now) ;;
    WriteStatus OPEN NOTREPLAYED
  else
    (fun s => match takeOverFile rootDir existingFilePath s with
              | (Fail _, s') => (Fatal "Can not take over existing WALFile", s')
              | r => r
              end) ;;
    '(fileStatus, replayState, _) ← readStatus;
    WriteStatus fileStatus replayState.

(** *** Primary files *)

Definition WALKeyToFullPath (wf : WALFileType) (keyPath : string) : string :=
  filepath_Join (RootPath wf) keyPath.
Definition FullPathToWALKey (wf : WALFileType) (fullPath : string) : string :=
  default "" (filepath_Rel (RootPath wf) fullPath).

(** Runs a program on an open file; what it wrote stays, errors or not. *)
Definition with_file (path : string) (pos : nat) (m : prog handle unit) : files -> outcome nat * files :=
  fun fs =>
  match fs !! path with
  | None => (Fail NotExist, fs)
  | Some content =>
      match m (mkHandle content pos) with
      | (Ret _, h) => (Ret (h_pos h), <[path := h_data h]> fs)
      | (Fail e, h) => (Fail e, <[path := h_data h]> fs)
      | (Fatal msg, h) => (Fatal msg, <[path := h_data h]> fs)
      | (Panic msg, h) => (Panic msg, <[path := h_data h]> fs)
      end
  end.

Definition with_buffile (path : string) (m : prog BufferedFile unit) : prog files unit := fun fs =>
  match fs !! path with
  | None => (Fail NotExist, fs)
  | Some content =>
      let '(o, f) := m (buffile_New content) in
      (o, <[path := buffile_Close f]> fs)
  end.

Definition batchThreshold : nat := 100.

Definition write_buffer (recordType varRecLen : Z) (buffer : offsetIndexBuffer) : prog handle unit :=
  if recordType =? FIXED then WriteBufferToFile file_WriteAt buffer
  else if recordType =? VARIABLE then
    WriteBufferToFileIndirect DisableVariableCompression buffer varRecLen
  else mret tt.

Definition writePrimary (fullPath : string) (writes : list offsetIndexBuffer)
    (recordType varRecLen : Z) : prog files unit :=
  if (recordType =? FIXED) && (batchThreshold <=? length writes)%nat then
    with_buffile fullPath
      (for_each writes (WriteBufferToFile (fun d o => buffile_WriteAt d o ;; mret tt)))
  else
    fun fs => match with_file fullPath 0 (for_each writes (write_buffer recordType varRecLen)) fs with
              | (Ret _, fs') => (Ret tt, fs')
              | (Fail e, fs') => (Fail e, fs')
              | (Fatal m, fs') => (Fatal m, fs')
              | (Panic m, fs') => (Panic m, fs')
              end.

Definition on_fs {A} (m : prog files A) : prog wstate A := fun s =>
  let '(o, fs) := m (w_fs s) in (o, set_fs fs s).

(** *** Records for the triggers *)

Definition appendRecord (keyPath : string) (record : list byte) : prog wstate unit :=
  state_modify (fun s =>
    mkW (w_fs s) (w_wf s) (w_pipe s)
      (<[keyPath := default [] (w_m s !! keyPath) ++ [record]]> (w_m s)) (w_c s)).

Definition dispatchRecords : prog wstate unit :=
  state_modify (fun s => mkW (w_fs s) (w_wf s) (w_pipe s) ∅ (w_c s ++ map_range (w_m s))).

(** [defer]: runs however the body ends. *)
Definition deferred {A} (d : prog wstate unit) (body : prog wstate A) : prog wstate A := fun s =>
  let '(o, s') := body s in (o, snd (d s')).

(** *** Commit *)

Record flush_state := mkFlush {
  TG_Serialized : list byte;
  writesPerFile : gmap string (list offsetIndexBuffer);
  fileRecordTypes : gmap string Z;
  varRecLens : gmap string Z;
}.

(** One round of the loop over the channel. *)
Definition flush_step (st : flush_state) (command : WriteCommand) : flush_state :=
  let tg := serialize_header (TG_Serialized st) command in
  let oStart := length tg in
  let bufferSize := (8 + 8 + length (Data command))%nat in
  let tg := ser tg (DInt64 (Offset command)) in
  let tg := ser tg (DInt64 (Index command)) in
  let tg := tg ++ Data command in
  let keyPath := WALKeyPath command in
  {| TG_Serialized := tg;
     writesPerFile :=
       <[keyPath := default [] (writesPerFile st !! keyPath) ++ [take bufferSize (drop oStart tg)]]>
         (writesPerFile st);
     fileRecordTypes :=
       match fileRecordTypes st !! keyPath with
       | Some _ => fileRecordTypes st
       | None => <[keyPath := RecordType command]> (fileRecordTypes st)
       end;
     varRecLens :=
       match varRecLens st !! keyPath with
       | Some _ => varRecLens st
       | None => <[keyPath := VarRecLen command]> (varRecLens st)
       end |}.

Definition flush_init (tgid : Z) (WTCount : nat) : flush_state :=
  mkFlush (ser (ser [] (DInt64 tgid)) (DInt64 (Z.of_nat WTCount))) ∅ ∅ ∅.

(** The write to the log between the two transaction messages. *)
Definition write_tg (tg : list byte) : prog wstate unit :=
  let TGLen_Serialized := ser [] (DInt64 (Z.of_nat (length tg))) in
  wal_write (initMessage TGDATA) ;;
  wal_write TGLen_Serialized ;;
  wal_write tg ;;
  wal_write (md5 (TGLen_Serialized ++ tg)).

Definition flush_primary (st : flush_state) : prog wstate unit :=
  for_each (map_range (writesPerFile st)) (fun '(keyPath, writes) =>
    s ← state_get;
    on_fs (writePrimary (WALKeyToFullPath (w_wf s) keyPath) writes
      (default 0 (fileRecordTypes st !! keyPath)) (default 0 (varRecLens st !! keyPath))) ;;
    for_each writes (fun buffer => appendRecord keyPath (oib_IndexAndPayload buffer))).

Definition flushToWAL (now : Z) : prog wstate unit :=
  deferred dispatchRecords (
    s ← state_get;
    let WTCount := length (writeChannel (w_pipe s)) in
    if decide (WTCount = 0%nat) then NewTGID now ;; mret tt
    else
      (if WALBypass then mret tt
       else
         canWrite ← CanWrite;
         if canWrite : bool then
           tgid ← TGID;
           WriteTransactionInfo tgid WAL PREPARING
         else lift (Panic "Failed attempt to write to WAL")) ;;
      tgid ← TGID;
      s ← state_get;
      let commands := take WTCount (writeChannel (w_pipe s)) in
      state_put (set_pipe (mkPipe (tgID (w_pipe s)) (drop WTCount (writeChannel (w_pipe s)))) s) ;;
      let st := foldl flush_step (flush_init tgid WTCount) commands in
      (if WALBypass then mret tt
       else
         write_tg (TG_Serialized st) ;;
         tgid ← TGID;
         WriteTransactionInfo tgid WAL COMMITCOMPLETE ;;
         state_modify (fun s => set_wf (set_last tgid (w_wf s)) s) ;;
         NewTGID now ;; mret tt) ;;
      flush_primary st).

(** *** Checkpoint: [Syncfs] makes the primary files durable. *)
Definition createCheckpoint : prog wstate unit :=
  s ← state_get;
  let tgid := lastCommittedTGID (w_wf s) in
  if tgid =? 0 then mret tt
  else
    (if WALBypass then mret tt
     else
       WriteTransactionInfo tgid CHECKPOINT PREPARING ;;
       WriteTransactionInfo tgid CHECKPOINT COMMITCOMPLETE) ;;
    state_modify (fun s => set_wf (set_last 0 (w_wf s)) s).

(** *** Replay *)

(** A slice expression of the serialized TG. *)
Definition slice (bs : list byte) (lo hi : Z) : outcome (list byte) :=
  if (0 <=? lo) && (lo <=? hi) && (hi <=? Z.of_nat (length bs))
  then Ret (take (Z.to_nat (hi - lo)) (drop (Z.to_nat lo) bs))
  else Panic "slice bounds out of range".

Record parsed_command := mkParsed {
  pc_RecordType : Z;
  pc_WALKeyPath : string;
  pc_varRecLen : Z;
  pc_dataLen : Z;
  pc_cursor : Z;   (** where its offset, index and data start *)
}.

(** The header of the command at [cursor]. *)
Definition parse_command (tg : list byte) (cursor : Z) : outcome parsed_command :=
  let! rt := slice tg cursor (cursor + 1) in
  let cursor := cursor + 1 in
  let! fpl := slice tg cursor (cursor + 2) in
  let FPLen := ToInt16 fpl in
  let cursor := cursor + 2 in
  let! key := slice tg cursor (cursor + FPLen) in
  let cursor := cursor + FPLen in
  let! dl := slice tg cursor (cursor + 4) in
  let dataLen := ToInt32 dl in
  let cursor := cursor + 4 in
  let! vrl := slice tg cursor (cursor + 4) in
  let cursor := cursor + 4 in
  Ret (mkParsed (ToInt8 rt) (bytes_string key) (ToInt32 vrl) dataLen cursor).

(** The cached open file: its name and position. *)
Record CachedFP := mkCachedFP { fileName : string; cfp_pos : nat }.
Definition NewCachedFP : CachedFP := mkCachedFP "" 0.

(** [GetFP]: the cached file, or the file opened anew at its start. *)
Definition GetFP (cfp : CachedFP) (name : string) : CachedFP :=
  if decide (name = fileName cfp) then cfp else mkCachedFP name 0.

Definition replay_command (tg : list byte) (cfp : CachedFP) (p : parsed_command) : prog wstate CachedFP :=
  s ← state_get;
  let fullPath := WALKeyToFullPath (w_wf s) (pc_WALKeyPath p) in
  let cfp := GetFP cfp fullPath in
  pos ← on_fs (with_file fullPath (cfp_pos cfp)
    (if bool_decide (pc_RecordType p ∈ [FIXED; VARIABLE]) then
       buffer ← lift (slice tg (pc_cursor p) (pc_cursor p + 8 + 8 + pc_dataLen p));
       write_buffer (pc_RecordType p) (pc_varRecLen p) buffer
     else lift (Fail (ErrMsg "Error: Record Type is incorrect from WALFile"))));
  mret (mkCachedFP fullPath pos).

Fixpoint replay_commands (n : nat) (tg : list byte) (cursor : Z) (cfp : CachedFP) : prog wstate unit :=
  match n with
  | O => mret tt
  | S n' =>
      p ← lift (parse_command tg cursor);
      cfp' ← replay_command tg cfp p;
      replay_commands n' tg (pc_cursor p + 8 + 8 + pc_dataLen p) cfp'
  end.

Definition replayTGData (tg : list byte) : prog wstate unit :=
  tgid ← lift (slice tg 0 8);
  wtc ← lift (slice tg 8 16);
  let WTCount := ToInt64 wtc in
  if WTCount =? 0 then mret tt
  else
    replay_commands (Z.to_nat WTCount) tg 16 NewCachedFP ;;
    state_modify (fun s => set_wf (set_last (ToInt64 tgid) (w_wf s)) s) ;;
    createCheckpoint.

Definition Replay (writeData : bool) : prog wstate unit :=
  needs ← NeedsReplay;
  if negb needs then lift (Fail (ErrMsg "WALFileType.NeedsReplay No Replay Needed"))
  else
    (if writeData then WriteStatus OPEN REPLAYINPROCESS else mret tt) ;;
    wal_seek 0 ;;
    st ← wal_reading (fun f => scan_loop f (S (length f)) scan_init);
    for_each (replay_order (TGData st)) (fun tg =>
      if writeData then replayTGData tg else mret tt) ;;
    (if writeData then WriteStatus OPEN REPLAYED else mret tt).

(** *** Start up: what other processes left behind *)

(** [files]: the names in the root directory, as [ReadDir] sorts them. *)
Fixpoint cleanupOldWALFiles (rootDir myFile : string) (names : list string) : prog wstate unit :=
  match names with
  | [] => mret tt
  | filename :: names' =>
      (if bool_decide (filepath_Ext filename = ".walfile") && bool_decide (filename <> filepath_Base myFile) then
         let filePath := filepath_Join rootDir filename in
         s ← state_get;
         if (length (default [] (w_fs s !! filePath)) <? 11)%nat then
           state_put (set_fs (delete filePath (w_fs s)) s)
         else
           let own := w_wf s in
           NewWALFile rootDir filePath 0 ;;
           (fun s => match Replay true s with
                     | (Fail _, s') => (Fatal "Unable to replay", s')
                     | r => r
                     end) ;;
           safe ← CanDeleteSafely;
           (if negb safe then lift (Fatal "Unable to delete after replay") else mret tt) ;;
           ignore_err wal_Delete ;;
           state_modify (set_wf own)
       else mret tt) ;;
      cleanupOldWALFiles rootDir myFile names'
  end.

Definition StartupCacheAndWAL (rootDir : string) (names : list string) (now now' : Z) : prog wstate unit :=
  NewWALFile rootDir "" now ;;
  s ← state_get;
  cleanupOldWALFiles (filepath_Clean rootDir) (FilePath (w_wf s)) names ;;
  state_modify (set_pipe (NewTransactionPipe now')).

(** *** The goroutine that owns the log *)

(** What wakes the loop of [SyncWAL]; each carries what the clock reads. *)
Inductive sync_event :=
  | TickWAL (now : Z)
  | FlushRequest (now : Z)
  | TickCheck (now : Z)
  | TickPrimary
  | Shutdown (now : Z).

Definition chanCap : Z := 1000000.

(** An error of a flush ends the process. *)
Definition flush_or_die (now : Z) : prog wstate unit := fun s =>
  match flushToWAL now s with
  | (Fail _, s') => (Fatal "flush", s')
  | r => r
  end.

(** Queued commands fill four fifths of the channel. *)
Definition channel_full (s : wstate) : bool :=
  4 * chanCap <=? 5 * Z.of_nat (length (writeChannel (w_pipe s))).

(** One round; the counter of primary flushes goes with the state. *)
Definition sync_round (walRotateInterval : Z) (ev : sync_event) (counter : Z) : prog wstate Z :=
  match ev with
  | TickWAL now | FlushRequest now => flush_or_die now ;; mret counter
  | TickCheck now =>
      s ← state_get;
      (if channel_full s then flush_or_die now else mret tt) ;; mret counter
  | TickPrimary =>
      createCheckpoint ;;
      let counter := counter + 1 in
      if walRotateInterval =? 0 then lift (Panic "integer divide by zero")
      else if Z.rem counter walRotateInterval =? 0 then
        state_modify (fun s => set_fs (<[FilePath (w_wf s) := []]> (w_fs s)) s) ;;
        WriteStatus OPEN NOTREPLAYED ;;
        mret 0
      else mret counter
  | Shutdown now =>
      ignore_err (flushToWAL now) ;; createCheckpoint ;; mret counter
  end.
(** A writer's request: it flushes itself when there is no such goroutine,
    leaves it to a request that is queued, or waits for the goroutine. *)
Definition RequestFlush (haveWALWriter queued : bool) (now : Z) : prog wstate unit :=
  if negb haveWALWriter then ignore_err (flushToWAL now)
  else if queued then mret tt
  else flush_or_die now.
End wal.
