(* ===== verification/Writer.v ===== *)
(** * Writing rows (executor/writer.go)

    The writer turns rows into the commands that wait for the log: one for
    every interval, at its offset in the file of its year, making the files
    of years that have none. *)

From S2P Require Export RowSeries Catalog Wal.
From S2P Require Import GoStrings.

(** ** The instance *)

(** What [ThisInstance] points to: the catalog's heap and directories, and the
    state of the log and the pipe, which holds the files. *)
Record instance := mkInstance {
  in_dirs : gmap dloc Directory;
  in_infos : gmap floc TimeBucketInfo;
  in_dirset : gset string;
  in_w : wstate;
}.

Definition in_catalog (s : instance) : catalog :=
  mkCatalog (in_dirs s) (in_infos s) (mkDisk (in_dirset s) (w_fs (in_w s))).

(** The catalog and the log work on the same files. *)
Definition with_catalog {A} (m : prog catalog A) : prog instance A := fun s =>
  let '(o, c) := m (in_catalog s) in
  (o, mkInstance (c_dirs c) (c_infos c) (dk_dirs (c_disk c)) (set_fs (dk_files (c_disk c)) (in_w s))).
Definition with_wal {A} (m : prog wstate A) : prog instance A := fun s =>
  let '(o, w) := m (in_w s) in (o, mkInstance (in_dirs s) (in_infos s) (in_dirset s) w).

Section writer.
Context `{L : StorageLibs} `{R : MapRange}.
Context (tz local : Location).   (* InstanceConfig.Timezone and time.Local *)
Context (InstanceID : Z) (WALBypass DisableVariableCompression : bool).
Context (CatalogDir : dloc).

(** ** Writer *)

(** The other fields are the instance's. *)
Record Writer := mkWriter { wr_tbi : floc }.

(** [walfile]: whether the instance has a log. *)
Definition NewWriter (walfile : bool) (tbi : floc) : outcome Writer :=
  if walfile then Ret (mkWriter tbi)
  else Fail (ErrMsg "there is not an active WALFile for this instance, so cannot write").

Definition AddNewYearFile (year : Z) (w : Writer) : prog instance Writer :=
  f ← with_catalog (get_info (wr_tbi w));
  newTbi ← with_catalog (GetSubDirectoryAndAddFile local CatalogDir (tbi_Path f) year);
  mret (mkWriter newTbi).

(** An error of it is a panic of the caller. *)
Definition must {S A} (m : prog S A) : prog S A := fun s =>
  match m s with
  | (Fail _, s') => (Panic "error", s')
  | r => r
  end.

Definition AppendIntervalTicks (buf : list byte) (t : Time) (index intervalsPerDay : Z) : list byte :=
  buf ++ ser [] (DUint32 (GetIntervalTicks32Bit t index intervalsPerDay)).

(** A record without its epoch; behind the rows of its interval and with the
    ticks since the interval's start when their number may vary. *)
Definition formatRecord (recordType : Z) (buf record : list byte) (t : Time) (index intervalsPerDay : Z) :
    outcome (list byte) :=
  if (length record <? 8)%nat then Panic "slice bounds out of range"
  else
    let record := drop 8 record in
    if recordType =? VARIABLE
    then Ret (AppendIntervalTicks (buf ++ record) t index intervalsPerDay)
    else Ret record.

Definition send (c : WriteCommand) : prog instance unit := fun s =>
  let p := w_pipe (in_w s) in
  (Ret tt, mkInstance (in_dirs s) (in_infos s) (in_dirset s)
     (set_pipe (mkPipe (tgID p) (writeChannel p ++ [c])) (in_w s))).

Definition wal_key (path : string) : prog instance string := fun s =>
  (Ret (FullPathToWALKey (w_wf (in_w s)) path), s).

Definition info {A} (l : floc) (m : files -> prog TimeBucketInfo A) : prog instance A := with_catalog (on_info l m).

(** What the loop over the rows carries along. *)
Record row_state := mkRowState {
  rw_writer : Writer;
  rw_wkp : string;
  rw_prevIndex : Z;
  rw_prevYear : Z;
  rw_cc : WriteCommand;
  rw_outBuf : list byte;
}.

Definition set_Data (d : list byte) (c : WriteCommand) : WriteCommand :=
  mkWriteCommand (RecordType c) (WALKeyPath c) (VarRecLen c) (Offset c) (Index c) d.

(** The file of the row's year. *)
Definition row_file (year : Z) (w : Writer) (wkp : string) : prog instance (Writer * string) :=
  f ← with_catalog (get_info (wr_tbi w));
  if negb (year =? tbi_Year f) then
    w ← must (AddNewYearFile year w);
    f ← with_catalog (get_info (wr_tbi w));
    wkp ← wal_key (tbi_Path f);
    mret (w, wkp)
  else mret (w, wkp).

(** One row; [None] for the state before the first, [last] for the last row.
    [rt] and [vrl] were read before the loop. *)
Definition write_row (rt vrl : Z) (w0 : Writer) (wkp0 : string) (st : option row_state) (last : bool)
    (t : Time) (record : list byte) : prog instance row_state :=
  let year := int16 (Year t) in
  let w := match st with Some st => rw_writer st | None => w0 end in
  let wkp := match st with Some st => rw_wkp st | None => wkp0 end in
  '(w, wkp) ← row_file year w wkp;
  let tbi := wr_tbi w in
  tf ← info tbi GetTimeframe;
  let index := TimeToIndex tz t tf in
  recLen ← info tbi GetRecordLength;
  let offset := IndexToOffset index recLen in
  let st := match st with
    | Some st => mkRowState w wkp (rw_prevIndex st) (rw_prevYear st) (rw_cc st) (rw_outBuf st)
    | None => mkRowState w wkp index year (mkWriteCommand rt wkp vrl offset index []) []
    end in
  st ← (if (index =? rw_prevIndex st) && (year =? rw_prevYear st) then
          intervals ← info tbi GetIntervals;
          rtype ← info tbi GetRecordType;
          outBuf ← lift (formatRecord rtype (rw_outBuf st) record t index intervals);
          mret (mkRowState w wkp (rw_prevIndex st) (rw_prevYear st) (set_Data outBuf (rw_cc st)) outBuf)
        else
          send (rw_cc st) ;;
          intervals ← info tbi GetIntervals;
          rtype ← info tbi GetRecordType;
          outBuf ← lift (formatRecord rtype [] record t index intervals);
          f ← with_catalog (get_info tbi);
          key ← wal_key (tbi_Path f);
          varRecLen ← info tbi GetVariableRecordLength;
          mret (mkRowState w wkp index (rw_prevYear st)
            (mkWriteCommand rtype key varRecLen offset index outBuf) outBuf));
  (if last : bool then send (rw_cc st) else mret tt) ;;
  mret st.

Fixpoint write_rows (rt vrl : Z) (w0 : Writer) (wkp0 : string) (st : option row_state)
    (rows : list (Time * list byte)) : prog instance unit :=
  match rows with
  | [] => mret tt
  | (t, record) :: rows' =>
      st' ← write_row rt vrl w0 wkp0 st (bool_decide (rows' = [])) t record;
      write_rows rt vrl w0 wkp0 (Some st') rows'
  end.

(** The rows lie in [data] one after the other, each with its epoch. *)
Definition WriteRecords (ts : list Time) (data : list byte) (w : Writer) : prog instance unit :=
  match ts with
  | [] => mret tt
  | _ =>
      let rowLen := (length data / length ts)%nat in
      f ← with_catalog (get_info (wr_tbi w));
      wkp ← wal_key (tbi_Path f);
      vrl ← info (wr_tbi w) GetVariableRecordLength;
      rt ← info (wr_tbi w) GetRecordType;
      write_rows rt vrl w wkp None (zip ts (map (fun i => read_at (i * rowLen) rowLen data) (seq 0 (length ts))))
  end.
(** ** Whole column series *)

(** The texts of an error of [AddTimeBucket] that the writer goes on after. *)
Definition is_exists_error (e : goerr) : bool :=
  match e with
  | TypedErr _ msg | ErrMsg msg => Contains msg "Can not overwrite file" || Contains msg "file exists"
  | _ => false
  end.

(** The description of a bucket that is there, or of a new one; [None] when
    there is nothing to make it for. *)
Definition bucket_for_write (tbk : TimeBucketKey) (tf : Timeframe) (times : list Time) (shapes : list DataShape)
    (isVariableLength : bool) : prog instance (option floc) := fun s =>
  match with_catalog (GetLatestTimeBucketInfoFromKey CatalogDir tbk) s with
  | (Ret (Some tbi), s') => (Ret (Some tbi), s')
  | (Fail _, s') =>
      (match times with
       | [] => mret None
       | t :: _ =>
           rootDir ← with_catalog (GetPath CatalogDir);
           tbi ← with_catalog (new_info (NewTimeBucketInfo (tf_Duration tf)
             (GetPathToYearFiles rootDir tbk) "Created By Writer" (int16 (Year t)) shapes
             (if isVariableLength then VARIABLE else FIXED)));
           err ← run_err (with_catalog (AddTimeBucket local CatalogDir tbk tbi));
           match err with
           | Some e => if is_exists_error e then mret (Some tbi) else fail e
           | None => mret (Some tbi)
           end
       end) s'
  | (Ret None, s') => (Panic "invalid memory address or nil pointer dereference", s')
  | (Fatal m, s') => (Fatal m, s')
  | (Panic m, s') => (Panic m, s')
  end.

(** One series; the rows are not aligned, whatever the bucket's are. *)
Definition write_series (walfile : bool) (tbk : TimeBucketKey) (cs : ColumnSeries) (isVariableLength : bool) :
    prog instance unit :=
  tf ← lift (GetTimeFrame tbk);
  times ← lift (cs_GetTime tz cs);
  let cs := if isVariableLength then Remove_ "Nanoseconds" cs else cs in
  rs ← lift (ToRowSeries tbk false cs);
  let rowdata := data (rs_rows rs) in
  times2 ← lift (cs_GetTime tz cs);
  tbi ← bucket_for_write tbk tf times2 (cs_GetDataShapes cs) isVariableLength;
  match tbi with
  | None => mret tt
  | Some tbi =>
      dbDSV ← info tbi GetDataShapesWithEpoch;
      let csDSV := cs_GetDataShapes cs in
      if negb (length dbDSV =? length csDSV)%nat then fail (ErrMsg "unable to match data columns")
      else
        '(missing, coercion) ← lift (GetMissingAndTypeCoercionColumns dbDSV csDSV);
        if negb (bool_decide (missing = [] /\ coercion = [])) then fail (ErrMsg "unable to match data columns")
        else
          w ← lift (NewWriter walfile tbi);
          WriteRecords times rowdata w
  end.

Fixpoint write_all (walfile : bool) (entries : list (string * ColumnSeries)) (isVariableLength : bool) :
    prog instance unit :=
  match entries with
  | [] => mret tt
  | (tbk, cs) :: entries' =>
      write_series walfile tbk cs isVariableLength ;; write_all walfile entries' isVariableLength
  end.

(** The writer that the others call. *)
Definition WriteCSM (walfile haveWALWriter queued : bool) (now : Z) (csm : ColumnSeriesMap)
    (isVariableLength : bool) : prog instance unit :=
  write_all walfile (map_range csm) isVariableLength ;;
  with_wal (RequestFlush InstanceID WALBypass DisableVariableCompression haveWALWriter queued now).
End writer.

(** ** What the rows of one year become *)

Section write_year.
Context `{L : StorageLibs} `{R : MapRange}.
Context (tz local : Location) (CatalogDir : dloc).

(** The description has been read and is complete. *)
Record ready (l : floc) (f : TimeBucketInfo) (s : instance) : Prop := {
  rd_info : in_infos s !! l = Some f;
  rd_once : tbi_once f = true;
  rd_var : tbi_recordType f = VARIABLE -> tbi_variableRecordLength f <> 0;
  rd_tf : tbi_timeframe f <> 0;
}.

(** The interval and what is kept of a row. *)
Definition row_index (f : TimeBucketInfo) (t : Time) : Z := TimeToIndex tz t (tbi_timeframe f).
Definition row_piece (f : TimeBucketInfo) (row : Time * list byte) : list byte :=
  drop 8 (snd row) ++
  (if tbi_recordType f =? VARIABLE
   then ser [] (DUint32 (GetIntervalTicks32Bit (fst row) (row_index f (fst row)) (Z.quot Day (tbi_timeframe f))))
   else []).

(** Rows of one interval that follow each other: the last one counts, or all
    of them where their number may vary. *)
Definition add_piece (f : TimeBucketInfo) (old piece : list byte) : list byte :=
  if tbi_recordType f =? VARIABLE then old ++ piece else piece.
Fixpoint group_rows (f : TimeBucketInfo) (index : Z) (d : list byte) (rows : list (Time * list byte)) :
    list (Z * list byte) :=
  match rows with
  | [] => [(index, d)]
  | row :: rows' =>
      let i := row_index f (fst row) in
      if i =? index then group_rows f index (add_piece f d (row_piece f row)) rows'
      else (index, d) :: group_rows f i (row_piece f row) rows'
  end.
Definition groups (f : TimeBucketInfo) (rows : list (Time * list byte)) : list (Z * list byte) :=
  match rows with
  | [] => []
  | row :: rows' => group_rows f (row_index f (fst row)) (row_piece f row) rows'
  end.

(** The command of a group. *)
Definition group_command (f : TimeBucketInfo) (key : string) (g : Z * list byte) : WriteCommand :=
  mkWriteCommand (tbi_recordType f) key (tbi_variableRecordLength f)
    (IndexToOffset (fst g) (tbi_recordLength f)) (fst g) (snd g).

Definition queued (cs : list WriteCommand) (s : instance) : instance :=
  mkInstance (in_dirs s) (in_infos s) (in_dirset s)
    (set_pipe (mkPipe (tgID (w_pipe (in_w s))) (writeChannel (w_pipe (in_w s)) ++ cs)) (in_w s)).

Lemma queued_app cs cs' s : queued cs' (queued cs s) = queued (cs ++ cs') s.
Proof. unfold queued, set_pipe. cbn. by rewrite app_assoc. Qed.
Lemma queued_nil s : queued [] s = s.
Proof. destruct s as [? ? ? [? ? [] ? ?]]. unfold queued, set_pipe. cbn. by rewrite app_nil_r. Qed.
Lemma ready_queued l f cs s : ready l f s -> ready l f (queued cs s).
Proof. by intros [? ? ? ?]. Qed.

Lemma info_run {A} (l : floc) f (m : files -> prog TimeBucketInfo A) a s :
  ready l f s -> (forall fs, m fs f = (Ret a, f)) -> info l m s = (Ret a, s).
Proof.
  intros Hr Hm. unfold info, with_catalog, on_info. cbn. rewrite (rd_info _ _ _ Hr), Hm. cbn.
  rewrite insert_id by apply Hr. by destruct s as [? ? ? []].
Qed.

Lemma once_get_once {A} fs (g : TimeBucketInfo -> A) f :
  tbi_once f = true -> once_get fs g f = (Ret (g f), f).
Proof. intros H. unfold once_get, mbind, prog_bind, once_Do. by rewrite H. Qed.

Lemma info_field {A} (l : floc) f (g : TimeBucketInfo -> A) s :
  ready l f s -> info l (fun fs => once_get fs g) s = (Ret (g f), s).
Proof. intros Hr. eapply info_run; [exact Hr|]. intros fs. apply once_get_once, Hr. Qed.

Lemma info_intervals l f s : ready l f s -> info l GetIntervals s = (Ret (Z.quot Day (tbi_timeframe f)), s).
Proof.
  intros Hr. eapply info_run; [exact Hr|]. intros fs. unfold GetIntervals.
  rewrite (bind_step _ _ _ _ _ (once_get_once fs tbi_timeframe f (rd_once _ _ _ Hr))).
  destruct (Z.eqb_spec (tbi_timeframe f) 0) as [H|]; [|done]. by apply (rd_tf _ _ _ Hr) in H.
Qed.

Lemma info_varlen l f s :
  ready l f s -> info l GetVariableRecordLength s = (Ret (tbi_variableRecordLength f), s).
Proof.
  intros Hr. eapply info_run; [exact Hr|]. intros fs. unfold GetVariableRecordLength.
  assert (Hd : once_Do fs f = (Ret tt, f)) by (unfold once_Do; by rewrite (rd_once _ _ _ Hr)).
  rewrite (bind_step _ _ _ _ _ Hd). unfold mbind, prog_bind, state_get.
  destruct (Z.eqb_spec (tbi_recordType f) VARIABLE) as [Hv|]; [|done].
  destruct (Z.eqb_spec (tbi_variableRecordLength f) 0) as [H0|]; [|done]. by apply (rd_var _ _ _ Hr) in H0.
Qed.

Lemma get_info_ready l f s : ready l f s -> with_catalog (get_info l) s = (Ret f, s).
Proof.
  intros Hr. unfold with_catalog, get_info. cbn. rewrite (rd_info _ _ _ Hr). cbn. by destruct s as [? ? ? []].
Qed.

Lemma row_file_same f w wkp s :
  ready (wr_tbi w) f s -> row_file local CatalogDir (tbi_Year f) w wkp s = (Ret (w, wkp), s).
Proof. intros Hr. unfold row_file. rewrite (bind_step _ _ _ _ _ (get_info_ready _ _ _ Hr)). by rewrite Z.eqb_refl. Qed.

Lemma formatRecord_piece f buf row :
  (8 <= length (snd row))%nat ->
  formatRecord (tbi_recordType f) buf (snd row) (fst row) (row_index f (fst row)) (Z.quot Day (tbi_timeframe f))
  = Ret (add_piece f buf (row_piece f row)).
Proof.
  intros Hlen. unfold formatRecord, add_piece, row_piece, AppendIntervalTicks.
  destruct (Nat.ltb_spec (length (snd row)) 8); [lia|]. destruct (_ =? VARIABLE).
  - by rewrite app_assoc.
  - by rewrite app_nil_r.
Qed.
Section rows.
Context (l : floc) (f : TimeBucketInfo) (key : string) (s0 : instance).
Context (Hkey : FullPathToWALKey (w_wf (in_w s0)) (tbi_Path f) = key).

Definition row_ok (row : Time * list byte) : Prop :=
  (8 <= length (snd row))%nat /\ int16 (Year (fst row)) = tbi_Year f.

(** Between two rows of the loop. *)
Definition state_of (g : Z * list byte) : row_state :=
  mkRowState (mkWriter l) key (fst g) (tbi_Year f) (group_command f key g) (snd g).

Definition started (s : instance) : Prop := ready l f s /\ w_wf (in_w s) = w_wf (in_w s0).

Lemma started_queued cs s : started s -> started (queued cs s).
Proof. intros [H1 H2]. split; [by apply ready_queued|done]. Qed.

Lemma send_queued c s : send c s = (Ret tt, queued [c] s).
Proof. done. Qed.

Ltac run_info :=
  match goal with
  | H : ready ?l ?f ?s |- context [(?m ≫= _) ?s] =>
      first [ rewrite (bind_step m _ s _ _ (info_field l f _ s H))
            | rewrite (bind_step m _ s _ _ (info_intervals l f s H))
            | rewrite (bind_step m _ s _ _ (info_varlen l f s H))
            | rewrite (bind_step m _ s _ _ (get_info_ready l f s H)) ]
  end.

Lemma write_row_first rt vrl last row s :
  started s -> row_ok row -> rt = tbi_recordType f -> vrl = tbi_variableRecordLength f ->
  let g := (row_index f (fst row), row_piece f row) in
  write_row tz local CatalogDir rt vrl (mkWriter l) key None last (fst row) (snd row) s
  = (Ret (state_of g), if last then queued [group_command f key g] s else s).
Proof.
  intros [Hr Hw] [Hlen Hy] -> -> g. unfold write_row. rewrite Hy.
  rewrite (bind_step _ _ _ _ _ (row_file_same f (mkWriter l) key s Hr)). cbn [wr_tbi].
  do 2 run_info. cbn [rw_prevIndex rw_prevYear]. fold (row_index f (fst row)). rewrite !Z.eqb_refl. cbn [andb].
  assert (Hf : formatRecord (tbi_recordType f) [] (snd row) (fst row) (row_index f (fst row))
    (Z.quot Day (tbi_timeframe f)) = Ret (row_piece f row)).
  { rewrite formatRecord_piece by done. unfold add_piece. by destruct (_ =? VARIABLE). }
  unfold mbind at 1, prog_bind at 1.
  run_info. run_info. cbn [rw_outBuf]. rewrite Hf. unfold lift. cbn. by destruct last.
Qed.

Lemma write_row_next rt vrl w0 wkp0 last g row s :
  started s -> row_ok row ->
  let i := row_index f (fst row) in
  let same := i =? fst g in
  let g' := (i, if same then add_piece f (snd g) (row_piece f row) else row_piece f row) in
  let s1 := if same then s else queued [group_command f key g] s in
  write_row tz local CatalogDir rt vrl w0 wkp0 (Some (state_of g)) last (fst row) (snd row) s
  = (Ret (state_of g'), if last then queued [group_command f key g'] s1 else s1).
Proof.
  intros [Hr Hw] [Hlen Hy] i same g' s1. unfold write_row. rewrite Hy. cbn [state_of rw_writer rw_wkp].
  rewrite (bind_step _ _ _ _ _ (row_file_same f (mkWriter l) key s Hr)). cbn [wr_tbi].
  do 2 run_info. cbn [state_of rw_prevIndex rw_prevYear rw_cc rw_outBuf]. change (TimeToIndex tz (fst row) _) with i.
  fold same. rewrite Z.eqb_refl, andb_true_r. unfold mbind at 1, prog_bind at 1. subst s1 g'.
  destruct same eqn:Hs.
  - run_info. run_info. apply Z.eqb_eq in Hs. unfold i. rewrite formatRecord_piece by done. fold i.
    unfold lift. cbn. unfold state_of, group_command. cbn. rewrite Hs. by destruct last.
  - unfold mbind at 1, prog_bind at 1. rewrite send_queued.
    assert (Hr1 : ready l f (queued [group_command f key g] s)) by (by apply ready_queued).
    run_info. run_info.
    assert (Hf : formatRecord (tbi_recordType f) [] (snd row) (fst row) i (Z.quot Day (tbi_timeframe f))
      = Ret (row_piece f row)).
    { unfold i. rewrite formatRecord_piece by done. unfold add_piece. by destruct (_ =? VARIABLE). }
    rewrite Hf. unfold lift. unfold mbind at 1, prog_bind at 1. run_info.
    unfold mbind at 1, prog_bind at 1. unfold wal_key. cbn [in_w queued]. cbn [w_wf set_pipe].
    rewrite Hw, Hkey. run_info. cbn. by destruct last.
Qed.

Lemma write_rows_next rt vrl w0 wkp0 rows : forall g s,
  rows <> [] -> started s -> Forall row_ok rows ->
  write_rows tz local CatalogDir rt vrl w0 wkp0 (Some (state_of g)) rows s
  = (Ret tt, queued (map (group_command f key) (group_rows f (fst g) (snd g) rows)) s).
Proof.
  induction rows as [|[t r] rows IH]; intros g s Hne Hs Hok; [done|].
  apply Forall_cons in Hok as [Hrow Hok]. cbn [write_rows].
  pose proof (write_row_next rt vrl w0 wkp0 (bool_decide (rows = [])) g (t, r) s Hs Hrow) as Hw.
  cbn zeta in Hw. cbn [fst snd] in Hw. rewrite (bind_step _ _ _ _ _ Hw). cbn [group_rows fst snd].
  destruct rows as [|row2 rows].
  - rewrite bool_decide_eq_true_2 by done. cbn [write_rows group_rows]. change (fst (t, r)) with t.
    destruct (_ =? fst g) eqn:He; cbn [map].
    + apply Z.eqb_eq in He. by rewrite He.
    + by rewrite queued_app.
  - rewrite bool_decide_eq_false_2 by done. rewrite IH; [|done| |done].
    + cbn [fst snd]. destruct (_ =? fst g) eqn:He; [by apply Z.eqb_eq in He; rewrite He|].
      by rewrite queued_app.
    + destruct (_ =? fst g); [done|]. by apply started_queued.
Qed.
End rows.

(** The rows as the caller lays them out. *)
Definition rows_of_data (ts : list Time) (data : list byte) : list (Time * list byte) :=
  let rowLen := (length data / length ts)%nat in
  zip ts (map (fun i => read_at (i * rowLen) rowLen data) (seq 0 (length ts))).

Lemma WriteRecords_spec (l : floc) (f : TimeBucketInfo) (ts : list Time) (data : list byte) (s : instance) :
  ready l f s -> (8 * length ts <= length data)%nat ->
  Forall (fun t => int16 (Year t) = tbi_Year f) ts ->
  WriteRecords tz local CatalogDir ts data (mkWriter l) s =
  (Ret tt, queued (map (group_command f (FullPathToWALKey (w_wf (in_w s)) (tbi_Path f)))
                      (groups f (rows_of_data ts data))) s).
Proof.
  intros Hr Hlen Hy. unfold WriteRecords, groups, rows_of_data.
  destruct ts as [|t ts]; [by rewrite queued_nil|].
  set (rowLen := (length data / length (t :: ts))%nat).
  set (rows := zip (t :: ts) _).
  rewrite (bind_step _ _ _ _ _ (get_info_ready l f s Hr)). cbn [wr_tbi].
  unfold mbind at 1, prog_bind at 1. cbn [wal_key].
  rewrite (bind_step _ _ _ _ _ (info_varlen l f s Hr)).
  rewrite (bind_step _ _ _ _ _ (info_field l f tbi_recordType s Hr)).
  set (key := FullPathToWALKey (w_wf (in_w s)) (tbi_Path f)).
  assert (Hbig : (8 <= rowLen)%nat).
  { unfold rowLen. apply Nat.div_le_lower_bound; cbn [length] in *; lia. }
  assert (Hfit : (length (t :: ts) * rowLen <= length data)%nat) by (unfold rowLen; apply Nat.Div0.mul_div_le).
  assert (Hok : Forall (row_ok f) rows).
  { apply Forall_forall. intros [t' r] Hin. apply elem_of_lookup_zip_with in Hin
      as (i & t2 & r2 & Heq & Ht & Hr2). injection Heq as -> ->.
    split; [|rewrite Forall_forall in Hy; apply Hy; by eapply list_elem_of_lookup_2].
    apply list_lookup_fmap_Some in Hr2 as (k & -> & Hk). apply lookup_seq in Hk as [-> Hk].
    cbn [snd]. rewrite length_read_at; [done|]. nia. }
  destruct rows as [|[t1 r1] rest] eqn:Hrows; [done|]. apply Forall_cons in Hok as [Hrow Hok].
  cbn [write_rows].
  pose proof (write_row_first l f key s (tbi_recordType f) (tbi_variableRecordLength f)
    (bool_decide (rest = [])) (t1, r1) s (conj Hr eq_refl) Hrow eq_refl eq_refl) as Hw.
  cbn zeta in Hw. rewrite (bind_step _ _ _ _ _ Hw).
  cbn [fst snd] in Hw |- *. destruct rest as [|row2 rows2].
  - by rewrite bool_decide_eq_true_2.
  - rewrite bool_decide_eq_false_2 by done. by rewrite (write_rows_next l f key s).
Qed.

(** C37: the rows of one year become the commands of their intervals, queued in
    order for the offsets of the intervals in the file of that year: rows of
    one interval that follow each other make one command, of the last row's
    data, or of the data of all of them with their ticks in a bucket of
    variable length. Nothing else changes. *)
Theorem WriteRecords_groups (l : floc) (f : TimeBucketInfo) (ts : list Time) (data : list byte) (s : instance) :
  ready l f s -> (8 * length ts <= length data)%nat ->
  Forall (fun t => int16 (Year t) = tbi_Year f) ts ->
  WriteRecords tz local CatalogDir ts data (mkWriter l) s =
  (Ret tt, queued (map (group_command f (FullPathToWALKey (w_wf (in_w s)) (tbi_Path f)))
                      (groups f (rows_of_data ts data))) s).
Proof. apply WriteRecords_spec. Qed.
End write_year.

(** ** Concrete writes *)

Module Example_writer.
#[local] Existing Instances example_libs list_range.
#[local] Open Scope string_scope.

Definition bucket_dir : string := "/db/AAPL/1Min/OHLCV".
Definition shapes : list DataShape := [mkShape "Epoch" INT64; mkShape "Open" FLOAT32].
Definition bucket : TimeBucketInfo := set_once (NewTimeBucketInfo Minute bucket_dir "Bars" 2017 shapes FIXED).

(** A database of one bucket with a file for 2017 and one for 2018. *)
Definition leaf : Directory := mkDirectory "OHLCV" bucket_dir "Year" None None None
  (Some {[bucket_dir +:+ "/2017.bin" := 0%nat]}).
Definition root : Directory := mkDirectory "." "/db" "Symbol" (Some {[bucket_dir := 1%nat]}) None None None.
Definition start : instance := mkInstance {[0%nat := root; 1%nat := leaf]} {[0%nat := bucket]} {[bucket_dir]}
  (mkW {[bucket_dir +:+ "/2017.bin" := []; bucket_dir +:+ "/2018.bin" := []]}
       (new_wf "/db" "/db/WALFile.1.walfile") (mkPipe 1 []) ∅ []).

Definition epoch8 (t : Time) : list byte := le_bytes 8 (Unix t).
Definition row (t : Time) (d : list byte) : list byte := epoch8 t ++ d.

Definition t1 : Time := Date 2017 2 3 4 5 6 0 UTC.
Definition t1b : Time := Date 2017 2 3 4 5 50 0 UTC.
Definition t2 : Time := Date 2017 2 3 4 6 0 0 UTC.
Definition t3 : Time := Date 2018 2 3 4 5 6 0 UTC.
Definition d1 : list byte := [x01; x01; x01; x01].
Definition d2 : list byte := [x02; x02; x02; x02].
Definition d3 : list byte := [x03; x03; x03; x03].

Lemma WriteRecords_groups_witness :
  WriteRecords UTC UTC 0 [t1; t1b; t2] (row t1 d1 ++ row t1b d2 ++ row t2 d3) (mkWriter 0) start =
  (Ret tt, queued [mkWriteCommand FIXED "AAPL/1Min/OHLCV/2017.bin" 0 (37024 + 47765 * 16) 47766 d2;
                   mkWriteCommand FIXED "AAPL/1Min/OHLCV/2017.bin" 0 (37024 + 47766 * 16) 47767 d3] start).
Proof.
  eapply eq_trans.
  - apply (WriteRecords_groups UTC UTC 0 0 bucket).
    + split; [reflexivity|reflexivity|intros H; discriminate H|discriminate].
    + apply Nat.leb_le. vm_compute. reflexivity.
    + repeat constructor.
  - f_equal.
Defined.

(** The writer forgets the year it moved to: a row of the first year that
    comes back to the same interval behind a row of another year is taken for
    another row of that one, whose data it replaces in the other year's file. *)
Lemma WriteRecords_years_mixed :
  let '(r, s) := WriteRecords UTC UTC 0 [t1; t3; t1b] (row t1 d1 ++ row t3 d2 ++ row t1b d3)%list (mkWriter 0) start in
  r = Ret tt /\
  map (fun c => (WALKeyPath c, Index c, Data c)) (writeChannel (w_pipe (in_w s))) =
    [("AAPL/1Min/OHLCV/2017.bin", 47766, d1); ("AAPL/1Min/OHLCV/2018.bin", 47766, d3)].
Proof. vm_compute. split; reflexivity. Qed.

(** A bucket of two columns of one type, and rows that name them the other way
    round. *)
Definition bucket2 : TimeBucketInfo := set_once (NewTimeBucketInfo Minute bucket_dir "Bars" 2017
  [mkShape "Epoch" INT64; mkShape "Open" FLOAT32; mkShape "Close" FLOAT32] FIXED).
Definition start2 : instance := mkInstance (in_dirs start) {[0%nat := bucket2]} (in_dirset start) (in_w start).
Definition swapped : ColumnSeries :=
  snd (AddColumn "Open" (Some (mkCol KFloat32 [d1])) (snd (AddColumn "Close" (Some (mkCol KFloat32 [d2]))
    (snd (AddColumn "Epoch" (Some (int64_column [Unix t1])) NewColumnSeries))))).

(** The columns are compared as sets but written in the order of the series:
    one whose columns stand in another order than the bucket's is accepted, and
    its close is stored where the bucket has the open. *)
Lemma write_series_column_order :
  let '(r, s) := write_series UTC UTC 0 true "AAPL/1Min/OHLCV:Symbol/Timeframe/AttributeGroup" swapped false start2 in
  r = Ret tt /\
  map Data (writeChannel (w_pipe (in_w s))) = [(d2 ++ d1)%list] /\
  fst (info 0 tbi_GetDataShapes s) = Ret [mkShape "Open" FLOAT32; mkShape "Close" FLOAT32].
Proof. vm_compute. split_and!; reflexivity. Qed.
End Example_writer.
