(* ===== verification/Scanner.v ===== *)
(** * Reading rows (executor/scanner.go, executor/readvariable.go, rewriteBuffer.c, readhint)

    A plan lists, for one bucket, the byte ranges of its year files that a
    query covers; reading it packs the slots that are filled, forward from the
    first or backward from the last, and turns their indexes into times.  The
    slots of a variable-length bucket point to the data, which a second stage
    reads. *)

From S2P Require Export RowSeries Planner Primary.
From S2P Require Import GoStrings.

Definition RecordsPerRead : Z := 2000.

(** ** Plans *)

Record ioFilePlan := mkFilePlan {
  fp_tbi : floc;
  fp_Offset : Z;
  fp_Length : Z;
  fp_FullPath : string;
  fp_BaseTime : Z;
  fp_seekingLast : bool;
}.

Record ioplan := mkIOPlan {
  FilePlan : list ioFilePlan;
  RecordLen : Z;
  iop_RecordType : Z;
  VariableRecordLen : Z;
  iop_Limit : RowLimit;
  iop_TimeQuals : list TimeQualFunc;
}.

(** The catalog, and the offsets of the last known records (readhint). *)
Record rstate := mkRS { rs_cat : catalog; lastKnownMap : gmap string Z }.

Definition on_cat {A} (m : prog catalog A) : prog rstate A := fun s =>
  let '(o, c) := m (rs_cat s) in (o, mkRS c (lastKnownMap s)).

Definition GetFileYear (fp : ioFilePlan) : prog rstate Z :=
  f ← on_cat (get_info (fp_tbi fp)); mret (tbi_Year f).

Section readhint.
Context (EnableLastKnown : bool).

Definition GetLastKnown (filePath : string) (m : gmap string Z) : option Z :=
  if EnableLastKnown then m !! filePath else None.

Definition SetLastKnown (filePath : string) (offset : Z) (m : gmap string Z) : gmap string Z :=
  if EnableLastKnown then
    match m !! filePath with
    | Some previous => if previous <? offset then <[filePath := offset]> m else m
    | None => <[filePath := offset]> m
    end
  else m.
End readhint.

Section plan.
Context (tz local : Location) (EnableLastKnown : bool).

(** The range of a file between the first and the last interval asked for. *)
Definition file_range (range : DateRange) (year tf recLen : Z) (path : string) (hints : gmap string Z) : Z * Z :=
  let startOffset := Headersize in
  let endOffset := FileSize local tf year recLen in
  let length := endOffset - startOffset in
  let maxLength := length + recLen in
  let startOffset := if year =? StartYear range then EpochToOffset tz (Start range) tf recLen else startOffset in
  let endOffset := if year =? EndYear range then EpochToOffset tz (End_ range) tf recLen + recLen else endOffset in
  let endOffset :=
    match GetLastKnown EnableLastKnown path hints with
    | Some lastKnownOffset => Z.min (lastKnownOffset + recLen) endOffset
    | None => endOffset
    end in
  (startOffset, Z.min (endOffset - startOffset) maxLength).

(** The files before the range are listed by the code but not used. *)
Fixpoint plan_files (range : DateRange) (limit : RowLimit) (fl : list QualifiedFile) (iop : ioplan) :
    prog rstate ioplan :=
  match fl with
  | [] => mret iop
  | qf :: fl' =>
      let file := qf_File qf in
      tf ← on_cat (on_info file GetTimeframe);
      recLen ← on_cat (on_info file GetRecordLength);
      f ← on_cat (get_info file);
      if tf =? 0 then lift (Panic "integer divide by zero")
      else
        iop ← (if RecordLen iop =? 0 then
                 rt ← on_cat (on_info file GetRecordType);
                 vrl ← on_cat (on_info file GetVariableRecordLength);
                 mret (mkIOPlan (FilePlan iop) recLen rt vrl (iop_Limit iop) (iop_TimeQuals iop))
               else if recLen =? RecordLen iop then mret iop
               else fail (TypedErr "RecordLengthNotConsistent" "NewIOPlan"));
        s ← state_get;
        let year := tbi_Year f in
        let iop :=
          if negb (year <? StartYear range) && (year <=? EndYear range) then
            let '(startOffset, length) := file_range range year tf recLen (tbi_Path f) (lastKnownMap s) in
            let fp := mkFilePlan file startOffset length (tbi_Path f)
              (Unix (Date year 1 1 0 0 0 0 tz)) (Direction limit =? LAST) in
            mkIOPlan (FilePlan iop ++ [fp]) (RecordLen iop) (iop_RecordType iop) (VariableRecordLen iop)
              (iop_Limit iop) (iop_TimeQuals iop)
          else iop in
        plan_files range limit fl' iop
  end.

Definition NewIOPlan (fl : list QualifiedFile) (pr : ParseResult) (range : DateRange) : prog rstate ioplan :=
  iop ← plan_files range (Limit pr) fl (mkIOPlan [] 0 0 0 (Limit pr) []);
  mret (mkIOPlan (FilePlan iop) (RecordLen iop) (iop_RecordType iop) (VariableRecordLen iop)
    (iop_Limit iop) (TimeQuals pr)).
End plan.

(** ** Packing the filled slots *)

Definition checkTimeQuals (quals : list TimeQualFunc) (epoch : Z) : bool := forallb (fun q => q epoch) quals.

(** What the packing reader knows of the plan and the file. *)
Record scan_env := mkEnv {
  se_recordSize : Z;
  se_quals : list TimeQualFunc;
  se_tf : Z;
  se_year : Z;
  se_path : string;
}.

(** What it has packed, and the hint it may leave. *)
Record pack_state := mkPack {
  packedBuffer : list byte;
  seekingLast : bool;
  pk_hints : gmap string Z;
}.

Section packing.
Context (tz : Location) (EnableLastKnown : bool) (env : scan_env).

(** The time of a slot's index. *)
Definition slot_epoch (index : Z) : Z := Unix (IndexToTime tz index (se_tf env) (se_year env)).

(** The [i]th slot of a block that ends at [pos], of which [nn] bytes count. *)
Definition pack_record (block : list byte) (pos nn : Z) (st : pack_state) (i : nat) : outcome pack_state :=
  let rs := Z.to_nat (se_recordSize env) in
  let curpos := (i * rs)%nat in
  let index := ToInt64 (drop curpos block) in
  if index =? 0 then Ret st
  else
    let index := slot_epoch index in
    if negb (checkTimeQuals (se_quals env) index) then Ret st
    else if (rs <? 8)%nat then Panic "index out of range"
    else
      let packed := packedBuffer st ++ le_bytes 8 index ++ drop 8 (read_at curpos rs block) in
      if seekingLast st then
        let offset := pos - nn + Z.of_nat i * se_recordSize env in
        Ret (mkPack packed false (SetLastKnown EnableLastKnown (se_path env) offset (pk_hints st)))
      else Ret (mkPack packed (seekingLast st) (pk_hints st)).

(** Blocks of at most [bufsize] bytes are read until [maxRead] bytes were, or
    the file ends; what the last block has beyond that does not count. The
    position of the file comes with the result, also of an error. *)
Fixpoint packing_loop (fuel : nat) (content : file) (bufsize : nat) (maxRead : Z) (pos : nat) (totalRead : Z)
    (st : pack_state) : outcome (option goerr * nat * pack_state) :=
  match fuel with
  | O => Fatal "out of fuel"
  | S fuel =>
      let block := pread pos bufsize content in
      let nn := Z.of_nat (length block) in
      let pos := (pos + length block)%nat in
      let totalRead := totalRead + nn in
      if nn =? 0 then Ret (None, pos, st)
      else if nn <? se_recordSize env then Ret (Some (ErrMsg "packingReader: Short read"), pos, st)
      else
        let leftBytes := maxRead - totalRead in
        let nn := if leftBytes <? 0 then nn + leftBytes else nn in
        if se_recordSize env =? 0 then Panic "integer divide by zero"
        else
          let numToRead := Z.to_nat (Z.quot nn (se_recordSize env)) in
          let! st := fold_outcome (pack_record block (Z.of_nat pos) nn) st (seq 0 numToRead) in
          if leftBytes <=? 0 then Ret (None, pos, st)
          else packing_loop fuel content bufsize maxRead pos totalRead st
  end.

Definition packingReader (content : file) (bufsize : nat) (maxRead : Z) (pos : nat) (st : pack_state) :
    outcome (option goerr * nat * pack_state) :=
  packing_loop (S (length content)) content bufsize maxRead pos 0 st.

(** [f.Seek] to a position that is not negative, or nowhere. *)
Definition seek_to (pos cur : Z) : Z := if pos <? 0 then cur else pos.

(** *** Forward *)

(** The buffer, whether it is full, and the error, with the hints. *)
Record scan_result := mkScan {
  sr_buffer : option (list byte);
  sr_finished : bool;
  sr_bytesRead : Z;
  sr_err : option goerr;
  sr_seeking : bool;
  sr_hints : gmap string Z;
}.

Definition readForward (fs : files) (finalBuffer : option (list byte)) (fp : ioFilePlan) (bytesToRead : Z)
    (bufsize : nat) (hints : gmap string Z) : outcome scan_result :=
  let final := default [] finalBuffer in
  match fs !! fp_FullPath fp with
  | None => Ret (mkScan None false 0 (Some NotExist) (fp_seekingLast fp) hints)
  | Some content =>
      if fp_Offset fp <? 0 then
        Ret (mkScan (Some final) false 0 (Some (ErrMsg "seek: invalid argument")) (fp_seekingLast fp) hints)
      else
        let! '(err, _, st) := packingReader content bufsize (fp_Length fp) (Z.to_nat (fp_Offset fp))
          (mkPack final (fp_seekingLast fp) hints) in
        let final := packedBuffer st in
        match err with
        | Some e => Ret (mkScan (Some final) false 0 (Some e) (seekingLast st) (pk_hints st))
        | None =>
            if bytesToRead <=? int32 (Z.of_nat (length final)) then
              if (bytesToRead <? 0) || (Z.of_nat (length final) <? bytesToRead)
              then Panic "slice bounds out of range"
              else Ret (mkScan (Some (take (Z.to_nat bytesToRead) final)) true 0 None (seekingLast st) (pk_hints st))
            else Ret (mkScan (Some final) false 0 None (seekingLast st) (pk_hints st))
        end
  end.

(** *** Backward *)

(** The amount and the new position. *)
Definition seekBackward (curpos relative_offset lowerBound : Z) : outcome (Z * Z) :=
  let seekAmt :=
    if curpos - relative_offset <=? lowerBound then curpos - lowerBound else relative_offset in
  let curpos := curpos - seekAmt in
  if curpos <? 0 then Fail (ErrMsg "Error: seeking to rel offset") else Ret (seekAmt, curpos).

(** [copy(dst[at:], src)] *)
Definition copy_at (at_ : nat) (src dst : list byte) : list byte :=
  splice at_ (take (length dst - at_) src) dst.

(** One block after the other, the last one first; [left] bytes of the buffer
    are still to be filled, from its end. *)
Fixpoint backward_loop (fuel : nat) (content : file) (bufsize : nat) (maxToBuffer beginPos : Z)
    (maxToRead curpos : Z) (final : list byte) (left bytesRead : Z) (seeking : bool) (hints : gmap string Z) :
    outcome scan_result :=
  match fuel with
  | O => Fatal "out of fuel"
  | S fuel =>
      let! '(err, pos, st) := packingReader content bufsize maxToRead (Z.to_nat curpos) (mkPack [] seeking hints) in
      match err with
      | Some e => Ret (mkScan None false 0 (Some e) (seekingLast st) (pk_hints st))
      | None =>
          let fileBuffer := packedBuffer st in
          let seeking := seekingLast st in
          let hints := pk_hints st in
          let numRead := int32 (Z.of_nat (length fileBuffer)) in
          let bytesRead := if numRead =? 0 then bytesRead else int32 (bytesRead + numRead) in
          let fits := numRead <=? left in
          let left' := if numRead =? 0 then left else if fits then left - numRead else 0 in
          let final :=
            if numRead =? 0 then final
            else if fits then copy_at (Z.to_nat left') fileBuffer final
            else copy_at 0 (drop (Z.to_nat (numRead - left)) fileBuffer) final in
          let done_ := mkScan (Some final) (left' =? 0) bytesRead None seeking hints in
          if negb (numRead =? 0) && negb fits then Ret done_
          else if curpos =? beginPos then Ret done_
          else
            match seekBackward (Z.of_nat pos) (int32 (2 * maxToBuffer)) beginPos with
            | Ret (maxToRead, curpos) =>
                backward_loop fuel content bufsize maxToBuffer beginPos (maxToRead - maxToBuffer) curpos
                  final left' bytesRead seeking hints
            | Fail e => Ret (mkScan None false 0 (Some e) seeking hints)
            | Fatal m => Fatal m
            | Panic m => Panic m
            end
      end
  end.

Definition readBackward (fs : files) (finalBuffer : option (list byte)) (fp : ioFilePlan) (bytesToRead : Z)
    (bufsize : nat) (hints : gmap string Z) : outcome scan_result :=
  let beginPos := fp_Offset fp in
  let maxToBuffer := int32 (Z.of_nat bufsize) in
  if bytesToRead <? 0 then Panic "makeslice: len out of range"
  else
    let final := default (replicate (Z.to_nat bytesToRead) x00) finalBuffer in
    match fs !! fp_FullPath fp with
    | None => Ret (mkScan None false 0 (Some NotExist) (fp_seekingLast fp) hints)
    | Some content =>
        match seekBackward (seek_to (beginPos + fp_Length fp) 0) maxToBuffer beginPos with
        | Ret (maxToRead, curpos) =>
            backward_loop (S (S (length content) + Z.to_nat (fp_Length fp))) content bufsize maxToBuffer beginPos maxToRead curpos
              final bytesToRead 0 (fp_seekingLast fp) hints
        | Fail e => Ret (mkScan None false 0 (Some e) (fp_seekingLast fp) hints)
        | Fatal m => Fatal m
        | Panic m => Panic m
        end
    end.
End packing.

(** ** The data of variable-length records *)

(** [a >= b] of finite values. *)
Definition fge (a b : float64) : bool := negb (SFltb a b).

(** [getTimeFromTicks]: the interval's start has 32 bits. *)
Definition getTimeFromTicks (intervalStart intervalsPerDay intervalTicks : Z) : Z * Z :=
  let intStart := uint32 intervalStart in
  let intTicks := float64_of_Z intervalTicks in
  let fractionalSeconds :=
    fdiv intTicks (fmul (float64_of_Z intervalsPerDay) ticksPerIntervalDivSecsPerDay) in
  let subseconds :=
    fmul (float64_of_Z 1000000000) (fsub fractionalSeconds (float64_of_Z (float64_to_int64 fractionalSeconds))) in
  let '(subseconds, fractionalSeconds) :=
    if fge subseconds (float64_of_Z 1000000000)
    then (fsub subseconds (float64_of_Z 1000000000), fadd fractionalSeconds (float64_of_Z 1))
    else (subseconds, fractionalSeconds) in
  (float64_to_int64 (fadd (float64_of_Z intStart) fractionalSeconds),
   int32 (float64_to_int64 (fadd subseconds (fdiv (float64_of_Z 1) (float64_of_Z 2))))).

(** [rewriteBuffer]: the ticks at the end of a record become its epoch, in
    front, and its nanoseconds, behind. *)
Definition rewrite_record (intervals intervalStartEpoch : Z) (record : list byte) : list byte :=
  let n := (length record - 4)%nat in
  let '(epoch, nanos) := getTimeFromTicks intervalStartEpoch intervals (ToUInt32 (drop n record)) in
  le_bytes 8 epoch ++ take n record ++ le_bytes 4 nanos.

Definition rewriteBuffer (buffer : list byte) (VarRecLen numVarRecords : nat) (intervals intervalStartEpoch : Z) :
    list byte :=
  concat (map (fun j => rewrite_record intervals intervalStartEpoch (read_at (j * VarRecLen) VarRecLen buffer))
    (seq 0 numVarRecords)).

Record bufferMeta := mkMeta { FullPath : string; md_Data : list byte; md_VarRecLen : Z; md_Intervals : Z }.

Section second_stage.
Context `{L : StorageLibs} (DisableVariableCompression : bool) (fs : files) (limitCount direction : Z).

(** The [i]th entry {epoch, offset, len} of an index. *)
Definition index_entry (indexBuffer : list byte) (i : nat) : Z * Z * Z :=
  (ToInt64 (drop (i * 24) indexBuffer), ToInt64 (drop (i * 24 + 8) indexBuffer),
   ToInt64 (drop (i * 24 + 16) indexBuffer)).

(** How many records count, when [n] are there and [left] are wanted. *)
Definition clip_records (n left : Z) : Z := if direction =? FIRST then Z.min n left else n.

(** The room first made for the result: exact without compression. *)
Fixpoint result_size (indexBuffer : list byte) (varRecLen : Z) (idx : list nat) (left total : Z) : outcome Z :=
  match idx with
  | [] => Ret (if DisableVariableCompression then total else total * 4)
  | i :: idx' =>
      let '(_, _, datalen) := index_entry indexBuffer i in
      if DisableVariableCompression then
        if varRecLen =? 0 then Panic "integer divide by zero"
        else
          let n := clip_records (Z.quot datalen varRecLen) left in
          result_size indexBuffer varRecLen idx' (left - n) (total + n * (varRecLen + 8))
      else result_size indexBuffer varRecLen idx' left (total + datalen)
  end.

(** The records of one index entry. *)
Definition read_entry (content : file) (md : bufferMeta) (i : nat) (left : Z) : outcome (list byte * Z) :=
  let '(intervalStartEpoch, offset, datalen) := index_entry (md_Data md) i in
  if datalen <? 0 then Panic "makeslice: len out of range"
  else
    match ReadAt offset (Z.to_nat datalen) content with
    | (_, Some e) => Fail e
    | (buffer, None) =>
        let! buffer := (if DisableVariableCompression then Ret buffer
                        else match snappy_Decode buffer with
                             | Some d => Ret d
                             | None => Fail (ErrMsg "snappy: corrupt input")
                             end) in
        if md_VarRecLen md <=? 0 then Panic "integer divide by zero"
        else
          let n := clip_records (Z.of_nat (length buffer / Z.to_nat (md_VarRecLen md))) left in
          if n <=? 0 then Panic "index out of range"
          else Ret (rewriteBuffer buffer (Z.to_nat (md_VarRecLen md)) (Z.to_nat n) (md_Intervals md)
                      intervalStartEpoch, n)
    end.

(** The result is a buffer of [size] bytes with [rb] written; it is doubled
    once for an entry it is too small for. *)
Fixpoint read_entries (content : file) (md : bufferMeta) (idx : list nat) (size : Z) (rb : list byte) (left : Z) :
    outcome (list byte) :=
  match idx with
  | [] => if size <? Z.of_nat (length rb) then Panic "slice bounds out of range" else Ret rb
  | i :: idx' =>
      let! '(rbTemp, n) := read_entry content md i left in
      if size <? Z.of_nat (length rb) then Panic "slice bounds out of range"
      else
        let size := if size <? Z.of_nat (length rb + length rbTemp) then size + size else size in
        let rb := rb ++ rbTemp in
        let left := left - n in
        if (direction =? FIRST) && (left =? 0)
        then (if size <? Z.of_nat (length rb) then Panic "slice bounds out of range" else Ret rb)
        else read_entries content md idx' size rb left
  end.

Definition read_meta (md : bufferMeta) : outcome (list byte) :=
  match fs !! FullPath md with
  | None => Fail NotExist
  | Some content =>
      let numIndexRecords := (length (md_Data md) / 24)%nat in
      let! size := result_size (md_Data md) (md_VarRecLen md) (seq 0 numIndexRecords) limitCount 0 in
      if size <? 0 then Panic "makeslice: len out of range"
      else read_entries content md (seq 0 numIndexRecords) size [] limitCount
  end.

Fixpoint read_metas (bufMeta : list bufferMeta) : outcome (list byte) :=
  match bufMeta with
  | [] => Ret []
  | md :: rest => let! rb := read_meta md in let! rbs := read_metas rest in Ret (rb ++ rbs)
  end.

(** The records of every file, each up to the limit; backward, the last ones
    of all. *)
Definition readSecondStage (bufMeta : list bufferMeta) : outcome (list byte) :=
  let varRecLen := match last bufMeta with Some md => md_VarRecLen md | None => 0 end in
  let! totalBuf := read_metas bufMeta in
  if direction =? LAST then
    if varRecLen + 8 =? 0 then Panic "integer divide by zero"
    else
      let numVarRecords := Z.quot (Z.of_nat (length totalBuf)) (varRecLen + 8) in
      if limitCount <? numVarRecords
      then Ret (drop (Z.to_nat ((varRecLen + 8) * (numVarRecords - limitCount))) totalBuf)
      else Ret totalBuf
  else Ret totalBuf.
End second_stage.

(** ** The reader *)

Section reader.
Context `{L : StorageLibs} `{R : MapRange} (tz local : Location).
Context (EnableLastKnown DisableVariableCompression : bool).

Record reader := mkReader {
  r_pr : ParseResult;
  IOPMap : gmap string ioplan;
  r_readSize : Z;
}.

Definition set_hints (h : gmap string Z) : prog rstate unit := state_modify (fun s => mkRS (rs_cat s) h).

Definition file_env (iop : ioplan) (fp : ioFilePlan) : prog rstate scan_env :=
  tf ← on_cat (on_info (fp_tbi fp) GetTimeframe);
  year ← GetFileYear fp;
  mret (mkEnv (RecordLen iop) (iop_TimeQuals iop) tf year (fp_FullPath fp)).

Definition scan_with (scan : scan_env -> files -> gmap string Z -> outcome scan_result)
    (iop : ioplan) (fp : ioFilePlan) : prog rstate scan_result :=
  env ← file_env iop fp;
  s ← state_get;
  r ← lift (scan env (dk_files (c_disk (rs_cat s))) (lastKnownMap s));
  set_hints (sr_hints r) ;;
  mret r.

Definition meta_of (iop : ioplan) (fp : ioFilePlan) (d : list byte) : prog rstate bufferMeta :=
  intervals ← on_cat (on_info (fp_tbi fp) GetIntervals);
  mret (mkMeta (fp_FullPath fp) d (VariableRecordLen iop) intervals).

(** Forward: a file that cannot be read is passed over, with what was read
    before it when it cannot be opened; the error that counts is the last
    file's. *)
Fixpoint read_first (iop : ioplan) (bufsize : nat) (limitBytes : Z) (fps : list ioFilePlan)
    (buffer : option (list byte)) (metas : list bufferMeta) (err : option goerr) :
    prog rstate (option (list byte) * list bufferMeta * option goerr) :=
  match fps with
  | [] => mret (buffer, metas, err)
  | fp :: fps' =>
      let dataLen := length (default [] buffer) in
      r ← scan_with (fun env fs hints => readForward tz EnableLastKnown env fs buffer fp limitBytes bufsize hints) iop fp;
      let buffer := sr_buffer r in
      metas ← (if (iop_RecordType iop =? VARIABLE) && (dataLen <? length (default [] buffer))%nat then
                 m ← meta_of iop fp (drop dataLen (default [] buffer)); mret (metas ++ [m])
               else mret metas);
      if sr_finished r then mret (buffer, metas, sr_err r)
      else read_first iop bufsize limitBytes fps' buffer metas (sr_err r)
  end.

(** Backward, over the files from the last to the first. *)
Fixpoint read_last (iop : ioplan) (bufsize : nat) (fps : list ioFilePlan)
    (buffer : option (list byte)) (metas : list bufferMeta) (left_ : Z) (err : option goerr) :
    prog rstate (option (list byte) * list bufferMeta * Z * option goerr) :=
  match fps with
  | [] => mret (buffer, metas, left_, err)
  | fp :: fps' =>
      r ← scan_with (fun env fs hints => readBackward tz EnableLastKnown env fs buffer fp left_ bufsize hints) iop fp;
      let buffer := sr_buffer r in
      let left_ := int32 (left_ - sr_bytesRead r) in
      '(metas, left_) ←
        (if (iop_RecordType iop =? VARIABLE) && (0 <? sr_bytesRead r) then
           let left_ := if left_ <? 0 then 0 else left_ in
           m ← meta_of iop fp (drop (Z.to_nat left_) (default [] buffer)); mret (metas ++ [m], left_)
         else mret (metas, left_));
      if sr_finished r then mret (buffer, metas, left_, sr_err r)
      else
        match sr_err r with
        | Some e => fail e
        | None => read_last iop bufsize fps' buffer metas left_ None
        end
  end.

(** [bufMeta[(lenOF-1)-i] = bufMeta[i]] for the first half of the list. *)
Definition reverse_metas (ms : list bufferMeta) : list bufferMeta :=
  let n := length ms in
  foldl (fun ms i => match ms !! i with Some m => <[(n - 1 - i)%nat := m]> ms | None => ms end) ms (seq 0 (n / 2)).

(** The rows of a plan, and the error that comes with them. *)
Definition read (iop : ioplan) : prog rstate (list byte * option goerr) :=
  let maxToBuffer := int32 (RecordsPerRead * RecordLen iop) in
  let direction := Direction (iop_Limit iop) in
  let limited := negb (Number (iop_Limit iop) =? MaxInt32) in
  let limitBytes := if limited then int32 (RecordLen iop * Number (iop_Limit iop)) else MaxInt32 in
  if maxToBuffer <? 0 then lift (Panic "slice bounds out of range")
  else if negb limited && (direction =? LAST) then
    fail (ErrMsg "Reverse scan only supported with a limited result set")
  else
    let bufsize := Z.to_nat maxToBuffer in
    '(buffer, metas, err) ←
      (if direction =? FIRST then read_first iop bufsize limitBytes (FilePlan iop) None [] None
       else if direction =? LAST then
         '(buffer, metas, left_, err) ← read_last iop bufsize (rev (FilePlan iop)) None [] limitBytes None;
         let buffer := default [] buffer in
         let buffer := if (0 <? left_) && negb (bool_decide (buffer = [])) then drop (Z.to_nat left_) buffer else buffer in
         mret (Some buffer, reverse_metas metas, err)
       else mret (None, [], None));
    if iop_RecordType iop =? VARIABLE then
      s ← state_get;
      rb ← lift (readSecondStage DisableVariableCompression (dk_files (c_disk (rs_cat s)))
                   (Number (iop_Limit iop)) direction metas);
      mret (rb, None)
    else mret (default [] buffer, err).

(** *** Rows of a variable-length bucket outside the range *)

Fixpoint drop_before (start : Z) (rows : list (list byte)) : list (list byte) :=
  match rows with
  | [] => []
  | row :: rows' => if start <=? ToInt64 row then rows else drop_before start rows'
  end.

(** The rows up to the last one that is not behind the end; all of them if
    every one is. *)
Fixpoint last_within (stop : Z) (rows : list (list byte)) : option nat :=
  match rows with
  | [] => None
  | row :: rows' =>
      match last_within stop rows' with
      | Some n => Some (S n)
      | None => if ToInt64 row <=? stop then Some 1%nat else None
      end
  end.

(** A rest of the buffer that is no whole row stays behind the rows as long as
    none is cut off. *)
Definition trimResultsToRange (start stop : Z) (rowlen : Z) (src : list byte) : outcome (list byte) :=
  let rowLength := Z.to_nat (rowlen + 8) in
  if rowlen + 8 =? 0 then Panic "integer divide by zero"
  else if rowlen + 8 <? 0 then Ret []
  else
    let nrecords := (length src / rowLength)%nat in
    let rows := chunks rowLength src in
    let rest := drop (nrecords * rowLength) src in
    let dest := drop_before start rows in
    if bool_decide (dest = []) then Ret []
    else if (length dest =? 1)%nat then Ret (concat dest ++ rest)
    else
      match last_within stop dest with
      | Some n => Ret (concat (take n dest))
      | None => Ret (concat dest ++ rest)
      end.

Definition year_le (a b : Z * QualifiedFile) : Prop := fst a <= fst b.
#[global] Instance year_le_dec : RelDecision year_le := fun a b => Z_le_dec (fst a) (fst b).

(** The files of one key, sorted by year. *)
Definition sort_files (fl : list QualifiedFile) : prog rstate (list QualifiedFile) :=
  years ← on_cat (years_of fl);
  mret (map snd (merge_sort year_le (zip years fl))).

Definition files_by_key (qfs : list QualifiedFile) : gmap string (list QualifiedFile) :=
  foldl (fun m qf => <[qf_Key qf := default [] (m !! qf_Key qf) ++ [qf]]> m) ∅ qfs.

Fixpoint make_plans (entries : list (string * list QualifiedFile)) (pr : ParseResult) (range : DateRange)
    (m : gmap string ioplan) (maxRecordLen : Z) : prog rstate (gmap string ioplan * Z) :=
  match entries with
  | [] => mret (m, maxRecordLen)
  | (key, fl) :: entries' =>
      fl ← sort_files fl;
      iop ← NewIOPlan tz local EnableLastKnown fl pr range;
      make_plans entries' pr range (<[key := iop]> m) (Z.max maxRecordLen (RecordLen iop))
  end.

(** A range that is not given is that of all times for the plans; the
    reader's own copy of the query stays without one. *)
Definition NewReader (pr : ParseResult) : prog rstate reader :=
  let range := default (NewDateRange tz) (Range pr) in
  '(m, maxRecordLen) ← make_plans (map_range (files_by_key (QualifiedFiles pr))) pr range ∅ 0;
  let readSize := int32 (RecordsPerRead * maxRecordLen) in
  if readSize <? 0 then lift (Panic "makeslice: len out of range")
  else mret (mkReader pr m readSize).

Fixpoint read_plans (pr : ParseResult) (cats rts rlens : gmap string Z) (shapes : gmap string (list DataShape))
    (entries : list (string * ioplan)) (csm : ColumnSeriesMap) : prog rstate ColumnSeriesMap :=
  match entries with
  | [] => mret csm
  | (key, iop) :: entries' =>
      let rt := default 0 (rts !! key) in
      let rlen := default 0 (rlens !! key) in
      '(buffer, err) ← read iop;
      match err with
      | Some e => fail e
      | None =>
          buffer ← (if rt =? VARIABLE then
                      match Range pr with
                      | None => lift (Panic "invalid memory address or nil pointer dereference")
                      | Some range => lift (trimResultsToRange (Start range) (End_ range) rlen buffer)
                      end
                    else mret buffer);
          let rs := NewRowSeries key buffer (default [] (shapes !! key)) rlen (default 0 (cats !! key)) rt in
          '(key, cs) ← lift (rs_ToColumnSeries rs);
          read_plans pr cats rts rlens shapes entries' (<[key := cs]> csm)
      end
  end.

Definition reader_Read (r : reader) : prog rstate ColumnSeriesMap :=
  let pr := r_pr r in
  cats ← on_cat (GetCandleAttributes pr);
  rts ← on_cat (GetRowType pr);
  shapes ← on_cat (pr_GetDataShapes pr);
  rlens ← on_cat (pr_GetRowLen pr);
  read_plans pr cats rts rlens shapes (map_range (IOPMap r)) ∅.
End reader.
