(* ===== verification/ScanProofs.v ===== *)
(** * What a scan returns

    The blocks in which a file is read make no difference: a forward scan packs
    the filled slots of its range in order, a backward scan the last of them. *)

From S2P Require Export Scanner.

Lemma fold_outcome_app {A B} (f : A -> B -> outcome A) a bs cs :
  fold_outcome f a (bs ++ cs) = (let! a := fold_outcome f a bs in fold_outcome f a cs).
Proof.
  revert a. induction bs as [|b bs IH]; intros a; [done|]. cbn.
  destruct (f a b); cbn; [apply IH|done..].
Qed.

(** ** Buffers filled from the end *)

(** The last bytes of a list. *)
Definition lastn {A} (n : nat) (l : list A) : list A := drop (length l - n) l.

(** What a buffer of which [P] is free holds once it is filled from the end. *)
Definition filled (P X Q : list byte) : list byte :=
  take (length P - length X) P ++ lastn (length P) X ++ Q.

Lemma lastn_all {A} n (l : list A) : (length l <= n)%nat -> lastn n l = l.
Proof. intros H. unfold lastn. by replace (length l - n)%nat with 0%nat by lia. Qed.

Lemma copy_at_fits P Y Q :
  (length Y <= length P)%nat -> copy_at (length P - length Y) Y (P ++ Q) = filled P Y Q.
Proof.
  intros H. unfold copy_at, filled. rewrite lastn_all by done.
  rewrite (take_ge Y) by (rewrite length_app; lia). unfold splice.
  rewrite take_app_le by lia. rewrite drop_app_ge by lia. do 2 f_equal.
  replace (length P - length Y + length Y - length P)%nat with 0%nat by lia. done.
Qed.

Lemma copy_at_over P Y Q :
  (length P < length Y)%nat -> copy_at 0 (drop (length Y - length P) Y) (P ++ Q) = filled P Y Q.
Proof.
  intros H. unfold copy_at, filled. replace (length P - length Y)%nat with 0%nat by lia. cbn [take].
  assert (Hl : length (drop (length Y - length P) Y) = length P) by (rewrite length_drop; lia).
  rewrite take_ge by (rewrite length_app; lia). unfold splice. cbn [take Nat.add]. rewrite Hl.
  rewrite drop_app_length. done.
Qed.

Lemma filled_app P X Y Q :
  (length Y <= length P)%nat ->
  filled (take (length P - length Y) P) X (Y ++ Q) = filled P (X ++ Y) Q.
Proof.
  intros H. unfold filled, lastn. rewrite !length_app, !length_take, take_take.
  replace ((length P - length Y) `min` length P)%nat with (length P - length Y)%nat by lia.
  replace ((length P - length Y - length X) `min` (length P - length Y))%nat with (length P - (length X + length Y))%nat by lia.
  f_equal. rewrite app_assoc. f_equal.
  replace (length X + length Y - length P)%nat with (length X - (length P - length Y))%nat by lia.
  by rewrite drop_app_le by lia.
Qed.

Lemma filled_app_over P X Y Q : (length P <= length Y)%nat -> filled P (X ++ Y) Q = filled P Y Q.
Proof.
  intros H. unfold filled, lastn. rewrite length_app.
  replace (length P - (length X + length Y))%nat with 0%nat by lia.
  replace (length P - length Y)%nat with 0%nat by lia. cbn [take app].
  rewrite drop_app_ge by lia.
  by replace (length X + length Y - length P - length X)%nat with (length Y - length P)%nat by lia.
Qed.

Lemma filled_nil P Q : filled P [] Q = P ++ Q.
Proof. unfold filled, lastn. cbn. by rewrite Nat.sub_0_r, take_ge, drop_nil by lia. Qed.
(** ** One file *)

Section scan.
Context (tz : Location) (env : scan_env).
Context (rs : nat) (Henv : se_recordSize env = Z.of_nat rs) (Hrs : (8 <= rs)%nat).

(** The row of a slot; no row for a hole, or for a time the query excludes. *)
Definition slot_row (slot : list byte) : list byte :=
  let index := ToInt64 slot in
  if index =? 0 then []
  else
    let epoch := slot_epoch tz env index in
    if checkTimeQuals (se_quals env) epoch then le_bytes 8 epoch ++ drop 8 slot else [].
Definition slot_rows (slots : list (list byte)) : list byte := concat (map slot_row slots).

(** The rows of a range of a file. *)
Definition range_rows (content : file) (off len : nat) : list byte := slot_rows (chunks rs (read_at off len content)).

Lemma slot_rows_app a b : slot_rows (a ++ b) = slot_rows a ++ slot_rows b.
Proof. unfold slot_rows. by rewrite map_app, concat_app. Qed.

Lemma read_at_app {A} off n m (f : list A) :
  (off + n <= length f)%nat -> read_at off (n + m) f = read_at off n f ++ read_at (off + n) m f.
Proof.
  intros H. unfold read_at. rewrite <- drop_drop. generalize (drop off f) (length_drop f off). intros l Hl.
  rewrite <- (take_drop n l) at 1. rewrite take_app_add' by (rewrite length_take; lia). done.
Qed.

Lemma range_rows_nil content off : range_rows content off 0 = [].
Proof.
  unfold range_rows, read_at. cbn [take].
  by rewrite chunks_short by exact (Nat.lt_le_trans 0 8 rs ltac:(lia) Hrs).
Qed.

Lemma range_rows_app content off n m :
  (exists k, n = k * rs)%nat -> (off + n <= length content)%nat ->
  range_rows content off (n + m) = range_rows content off n ++ range_rows content (off + n) m.
Proof.
  intros [k ->] H. unfold range_rows. rewrite read_at_app by done. rewrite chunks_app, slot_rows_app; [done|lia|].
  exists k. rewrite length_read_at; lia.
Qed.

Lemma range_rows_one content off :
  (off + rs <= length content)%nat -> range_rows content off rs = slot_row (read_at off rs content).
Proof.
  intros H. unfold range_rows. rewrite chunks_step by (rewrite ?length_read_at; lia).
  rewrite chunks_short by (rewrite length_drop, length_read_at; lia).
  rewrite take_ge by (rewrite length_read_at; lia). unfold slot_rows. cbn. by rewrite app_nil_r.
Qed.

(** One slot, then a block of them; no hints are kept. *)
Lemma pack_record_spec block pos nn st i :
  (i * rs + rs <= length block)%nat ->
  exists sk, pack_record tz false env block pos nn st i =
    Ret (mkPack (packedBuffer st ++ slot_row (read_at (i * rs) rs block)) sk (pk_hints st)).
Proof.
  intros Hi. unfold pack_record. rewrite Henv, Nat2Z.id.
  assert (Hix : ToInt64 (drop (i * rs) block) = ToInt64 (read_at (i * rs) rs block))
    by (unfold read_at; by rewrite ToInt64_take by lia).
  rewrite Hix. unfold slot_row. destruct (ToInt64 (read_at (i * rs) rs block) =? 0).
  { exists (seekingLast st). rewrite app_nil_r. by destruct st. }
  destruct (checkTimeQuals _ _); cbn [negb].
  2: { exists (seekingLast st). rewrite app_nil_r. by destruct st. }
  rewrite (proj2 (Nat.ltb_ge rs 8)) by lia.
  destruct (seekingLast st); eexists; reflexivity.
Qed.

Lemma pack_block_spec block pos nn st n :
  (n * rs <= length block)%nat ->
  exists sk, fold_outcome (pack_record tz false env block pos nn) st (seq 0 n) =
    Ret (mkPack (packedBuffer st ++ range_rows block 0 (n * rs)) sk (pk_hints st)).
Proof.
  revert st. induction n as [|n IH]; intros st Hn.
  - exists (seekingLast st). cbn [Nat.mul seq fold_outcome].
    rewrite range_rows_nil, app_nil_r. by destruct st.
  - assert (Hn' : (n * rs + rs <= length block)%nat) by (rewrite Nat.mul_succ_l in Hn; exact Hn).
    destruct (IH st) as [sk Hf]; [lia|]. rewrite seq_S, fold_outcome_app, Hf. change (0 + n)%nat with n. cbn [outcome_bind fold_outcome].
    destruct (pack_record_spec block pos nn
      (mkPack (packedBuffer st ++ range_rows block 0 (n * rs)) sk (pk_hints st)) n) as [sk' ->]; [lia|].
    exists sk'. cbn [outcome_bind packedBuffer pk_hints].
    rewrite Nat.mul_succ_l.
    rewrite range_rows_app by (try lia; by eexists). rewrite <- range_rows_one by lia.
    cbn [Nat.add]. by rewrite app_assoc.
Qed.
Lemma range_rows_block content pos bufsize m :
  (m <= bufsize)%nat -> range_rows (pread pos bufsize content) 0 m = range_rows content pos m.
Proof. intros H. unfold range_rows, read_at, pread. rewrite drop_0, take_take. by rewrite Nat.min_l by lia. Qed.

(** The block size is a number of slots. *)
Context (bufsize k : nat) (Hbuf : bufsize = (k * rs)%nat) (Hk : (0 < k)%nat).

Lemma packing_loop_spec content maxRead fuel : forall pos totalRead st m j,
  maxRead - totalRead = Z.of_nat m -> m = (j * rs)%nat -> (0 < m)%nat ->
  (pos + m <= length content)%nat -> (m < fuel)%nat ->
  exists pos' sk, packing_loop tz false env fuel content bufsize maxRead pos totalRead st =
    Ret (None, pos', mkPack (packedBuffer st ++ range_rows content pos m) sk (pk_hints st)) /\
    ((m <= bufsize)%nat -> pos' = (pos + (bufsize `min` (length content - pos)))%nat).
Proof.
  induction fuel as [|fuel IH]; intros pos totalRead st m j Hm Hj Hpos Hin Hf; [lia|].
  assert (Hb8 : (8 <= bufsize)%nat) by (subst bufsize; nia).
  assert (Hmr : (rs <= m)%nat) by (destruct j; nia).
  assert (Hbr : (rs <= bufsize)%nat) by (subst bufsize; nia).
  cbn [packing_loop]. set (block := pread pos bufsize content).
  assert (Hlen : length block = (bufsize `min` (length content - pos))%nat) by apply length_pread.
  destruct (Z.eqb_spec (Z.of_nat (length block)) 0); [lia|]. rewrite Henv.
  destruct (Z.ltb_spec (Z.of_nat (length block)) (Z.of_nat rs)); [lia|].
  destruct (Z.eqb_spec (Z.of_nat rs) 0); [lia|]. cbv zeta.
  replace (maxRead - (totalRead + Z.of_nat (length block))) with (Z.of_nat m - Z.of_nat (length block)) by lia.
  destruct (decide (m <= length block)%nat) as [Hlast|Hmore].
  - assert (Hn : (if Z.of_nat m - Z.of_nat (length block) <? 0
        then Z.of_nat (length block) + (Z.of_nat m - Z.of_nat (length block)) else Z.of_nat (length block))
        = Z.of_nat (j * rs)) by (destruct (Z.ltb_spec (Z.of_nat m - Z.of_nat (length block)) 0); lia).
    rewrite Hn. replace (Z.to_nat (Z.quot (Z.of_nat (j * rs)) (Z.of_nat rs))) with j
      by (rewrite Nat2Z.inj_mul, Z.quot_mul by lia; lia).
    edestruct (pack_block_spec block) as [sk ->]; [by rewrite <- Hj|]. cbn [outcome_bind].
    destruct (Z.leb_spec (Z.of_nat m - Z.of_nat (length block)) 0); [|lia].
    exists (pos + length block)%nat, sk. rewrite <- Hj. unfold block.
    rewrite range_rows_block by lia. split; [done|]. fold block. lia.
  - assert (Hfull : length block = bufsize) by lia. rewrite Hfull.
    destruct (Z.ltb_spec (Z.of_nat m - Z.of_nat bufsize) 0); [lia|].
    replace (Z.to_nat (Z.quot (Z.of_nat bufsize) (Z.of_nat rs))) with k
      by (rewrite Hbuf, Nat2Z.inj_mul, Z.quot_mul by lia; lia).
    edestruct (pack_block_spec block) as [sk ->]; [by rewrite Hfull, Hbuf|]. cbn [outcome_bind].
    destruct (Z.leb_spec (Z.of_nat m - Z.of_nat bufsize) 0); [lia|].
    edestruct (IH (pos + bufsize)%nat (totalRead + Z.of_nat bufsize)
      (mkPack (packedBuffer st ++ range_rows block 0 (k * rs)) sk (pk_hints st)) (m - bufsize)%nat (j - k)%nat)
      as (pos' & sk' & -> & _); try lia.
    { subst m bufsize. by rewrite Nat.mul_sub_distr_r. }
    exists pos', sk'. cbn [packedBuffer pk_hints]. split; [|lia].
    rewrite <- Hbuf. unfold block. rewrite range_rows_block by lia. rewrite <- app_assoc.
    rewrite <- range_rows_app; [|by exists k|lia]. by replace (bufsize + (m - bufsize))%nat with m by lia.
Qed.

(** A range of whole slots inside the file. *)
Definition slot_range (content : file) (pos m : nat) : Prop :=
  (exists j, m = j * rs)%nat /\ (0 < m)%nat /\ (pos + m <= length content)%nat.

Lemma packingReader_spec content pos m st :
  slot_range content pos m ->
  exists pos' sk, packingReader tz false env content bufsize (Z.of_nat m) pos st =
    Ret (None, pos', mkPack (packedBuffer st ++ range_rows content pos m) sk (pk_hints st)) /\
    ((m <= bufsize)%nat -> pos' = (pos + (bufsize `min` (length content - pos)))%nat).
Proof.
  intros ([j Hj] & Hm & Hin). unfold packingReader.
  apply (packing_loop_spec content (Z.of_nat m) (S (length content)) pos 0 st m j); lia || done.
Qed.
(** *** Backward *)

Lemma length_slot_row slot : length slot = rs -> (length (slot_row slot) <= rs)%nat.
Proof.
  intros H. unfold slot_row. destruct (_ =? 0); [cbn; lia|]. destruct (checkTimeQuals _ _); [|cbn; lia].
  rewrite length_app, length_le_bytes, length_drop. lia.
Qed.

Lemma length_slot_rows slots :
  Forall (fun s => length s = rs) slots -> (length (slot_rows slots) <= length slots * rs)%nat.
Proof.
  induction 1 as [|s slots Hs _ IH]; [done|]. unfold slot_rows in *. cbn. rewrite length_app.
  pose proof (length_slot_row s Hs). lia.
Qed.

Lemma length_range_rows content off m :
  (exists j, m = j * rs)%nat -> (length (range_rows content off m) <= m)%nat.
Proof.
  intros [j ->]. unfold range_rows. set (l := read_at off (j * rs) content).
  assert (Hl : (length l <= j * rs)%nat) by (unfold l, read_at; rewrite length_take; lia).
  etransitivity; [apply length_slot_rows, chunks_lengths; lia|].
  clearbody l. pose proof (chunks_lengths rs l ltac:(lia)) as Hc.
  assert (Hn : (length (chunks rs l) * rs <= length l)%nat).
  { clear Hl. induction l as [l IH] using (induction_ltof1 _ (@length byte)).
    destruct (decide (rs <= length l)%nat).
    - rewrite chunks_step by lia. cbn [length]. specialize (IH (drop rs l)).
      rewrite length_drop in IH. specialize (IH ltac:(unfold ltof; rewrite length_drop; lia)
        (chunks_lengths rs _ ltac:(lia))). lia.
    - rewrite chunks_short by lia. cbn. lia. }
  lia.
Qed.

(** The block at [c] of a backward scan from [b]; all but the first one of the
    range are full. *)
Record block_at (content : file) (b c m : nat) : Prop := {
  ba_range : slot_range content c m;
  ba_before : exists j, (c - b = j * rs)%nat;
  ba_le : (b <= c)%nat;
  ba_fits : (m <= bufsize)%nat;
  ba_full : (b < c)%nat -> m = bufsize;
}.

Definition back_result (P X Q : list byte) (bytesRead : Z) (hints : gmap string Z) (r : scan_result) : Prop :=
  sr_buffer r = Some (filled P X Q) /\
  sr_finished r = bool_decide (length P <= length X)%nat /\
  sr_err r = None /\ sr_hints r = hints /\
  (if decide (length X <= length P)%nat then sr_bytesRead r = bytesRead + Z.of_nat (length X)
   else bytesRead + Z.of_nat (length P) <= sr_bytesRead r <= bytesRead + Z.of_nat (length X)).

Lemma back_result_done P X Q br hints sk :
  back_result P X Q br hints (mkScan (Some (filled P X Q)) (Z.of_nat (length P - length X) =? 0)
    (br + Z.of_nat (length X)) None sk hints).
Proof.
  split_and!; try done; cbn.
  - destruct (Z.eqb_spec (Z.of_nat (length P - length X)) 0); symmetry;
      [apply bool_decide_eq_true_2|apply bool_decide_eq_false_2]; lia.
  - case_decide; lia.
Qed.

(** One block in front of what follows. *)
Lemma back_result_app P X Y Q br hints r :
  (length Y <= length P)%nat ->
  back_result (take (length P - length Y) P) X (Y ++ Q) (br + Z.of_nat (length Y)) hints r ->
  back_result P (X ++ Y) Q br hints r.
Proof.
  intros H (Hb & Hf & He & Hh & Hn). rewrite filled_app in Hb by done.
  assert (Hl : length (take (length P - length Y) P) = (length P - length Y)%nat) by (rewrite length_take; lia).
  rewrite Hl in *. split_and!; try done.
  - rewrite Hf, length_app. apply bool_decide_ext. lia.
  - rewrite length_app. repeat case_decide; lia.
Qed.

Lemma back_result_over P X Y Q br hints sk :
  (length P < length Y)%nat ->
  back_result P (X ++ Y) Q br hints
    (mkScan (Some (filled P Y Q)) true (br + Z.of_nat (length Y)) None sk hints).
Proof.
  intros H. split_and!; try done; cbn.
  - by rewrite filled_app_over by lia.
  - symmetry. apply bool_decide_eq_true_2. rewrite length_app. lia.
  - rewrite decide_False by (rewrite length_app; lia). rewrite length_app. lia.
Qed.

Context (Hb30 : Z.of_nat bufsize < 2 ^ 30).

Lemma seekBackward_next c b :
  (b < c)%nat ->
  seekBackward (Z.of_nat (c + bufsize)) (int32 (2 * Z.of_nat bufsize)) (Z.of_nat b) =
  let c' := if decide (c <= bufsize + b)%nat then b else (c - bufsize)%nat in
  Ret (Z.of_nat (c + bufsize - c'), Z.of_nat c').
Proof.
  intros Hc. unfold seekBackward. rewrite (wrapS_id 32) by (unfold inS; lia).
  case_decide.
  - destruct (Z.leb_spec (Z.of_nat (c + bufsize) - 2 * Z.of_nat bufsize) (Z.of_nat b)); [|lia].
    replace (Z.of_nat (c + bufsize) - (Z.of_nat (c + bufsize) - Z.of_nat b)) with (Z.of_nat b) by lia.
    destruct (Z.ltb_spec (Z.of_nat b) 0); [lia|]. cbn. do 2 f_equal. lia.
  - destruct (Z.leb_spec (Z.of_nat (c + bufsize) - 2 * Z.of_nat bufsize) (Z.of_nat b)); [lia|].
    replace (Z.of_nat (c + bufsize) - 2 * Z.of_nat bufsize) with (Z.of_nat (c - bufsize)) by lia.
    destruct (Z.ltb_spec (Z.of_nat (c - bufsize)) 0); [lia|]. cbn. do 2 f_equal. lia.
Qed.

Lemma block_at_prev content b c m :
  (b < c)%nat -> block_at content b c m ->
  let c' := if decide (c <= bufsize + b)%nat then b else (c - bufsize)%nat in
  block_at content b c' (c - c').
Proof.
  intros Hc [(Hm & Hpos & Hin) [j Hj] Hle Hfit Hfull] c'. subst c'. case_decide.
  - split; try lia; [|by exists 0%nat; lia]. split; [by exists j|lia].
  - split; try lia.
    + split; [exists k; lia|lia].
    + exists (j - k)%nat. rewrite Nat.mul_sub_distr_r. lia.
Qed.

Lemma backward_loop_spec content b fuel : forall c m P Q br seeking hints,
  block_at content b c m -> (c - b < fuel)%nat -> 0 <= br -> br + Z.of_nat (c + m - b) < 2 ^ 31 ->
  exists r, backward_loop tz false env fuel content bufsize (Z.of_nat bufsize) (Z.of_nat b)
      (Z.of_nat m) (Z.of_nat c) (P ++ Q) (Z.of_nat (length P)) br seeking hints = Ret r /\
    back_result P (range_rows content b (c + m - b)) Q br hints r.
Proof.
  induction fuel as [|fuel IH]; intros c m P Q br seeking hints Hba Hf Hbr Hsum; [lia|].
  assert (Hb8 : (8 <= bufsize)%nat) by (rewrite Hbuf; nia).
  pose proof Hba as [Hrange [j Hj] Hle Hfit Hfull].
  assert (Hsplit : range_rows content b (c + m - b) = range_rows content b (c - b) ++ range_rows content c m).
  { replace (c + m - b)%nat with ((c - b) + m)%nat by lia. destruct Hrange as (_ & _ & Hin).
    rewrite range_rows_app; [|by exists j|lia]. do 2 f_equal. lia. }
  rewrite Hsplit. cbn [backward_loop]. rewrite Nat2Z.id.
  destruct (packingReader_spec content c m (mkPack [] seeking hints) Hrange) as (pos & sk & -> & Hpos).
  cbn [outcome_bind packedBuffer pk_hints seekingLast app]. cbv zeta.
  set (Y := range_rows content c m). set (X := range_rows content b (c - b)).
  assert (HY : (length Y <= m)%nat) by (apply length_range_rows; by destruct Hrange).
  assert (Hm31 : Z.of_nat (length Y) < 2 ^ 31) by lia.
  rewrite (wrapS_id 32 (Z.of_nat (length Y))) by (unfold inS; lia).
  assert (HX0 : c = b -> X = []).
  { intros ->. unfold X. rewrite Nat.sub_diag. apply range_rows_nil. }
  (* what is done with the block *)
  assert (Hblock : exists P' br', P' = take (length P - length Y) P /\ br' = br + Z.of_nat (length Y) /\
    (if Z.of_nat (length Y) =? 0 then br else int32 (br + Z.of_nat (length Y))) = br').
  { eexists _, _. split; [done|]. split; [done|]. destruct (Z.eqb_spec (Z.of_nat (length Y)) 0); [lia|].
    apply wrapS_id; [done|]. unfold inS. lia. }
  destruct Hblock as (P' & br' & HP' & Hbr' & ->).
  destruct (Z.leb_spec (Z.of_nat (length Y)) (Z.of_nat (length P))) as [Hfits|Hover]; cycle 1.
  { destruct (Z.eqb_spec (Z.of_nat (length Y)) 0); [lia|]. cbn [negb andb Z.eqb].
    eexists. split; [reflexivity|].
    replace (Z.to_nat (Z.of_nat (length Y) - Z.of_nat (length P))) with (length Y - length P)%nat by lia.
    rewrite copy_at_over by lia. rewrite Hbr'. apply back_result_over. lia. }
  assert (Hfin : (if Z.of_nat (length Y) =? 0 then P ++ Q
      else copy_at (Z.to_nat (if Z.of_nat (length Y) =? 0 then Z.of_nat (length P)
        else Z.of_nat (length P) - Z.of_nat (length Y))) Y (P ++ Q)) = filled P Y Q).
  { destruct (Z.eqb_spec (Z.of_nat (length Y)) 0) as [H0|H0].
    - destruct Y; [by rewrite filled_nil|cbn in H0; lia].
    - replace (Z.to_nat (Z.of_nat (length P) - Z.of_nat (length Y))) with (length P - length Y)%nat by lia.
      apply copy_at_fits. lia. }
  rewrite Hfin.
  assert (Hleft : (if Z.of_nat (length Y) =? 0 then Z.of_nat (length P)
      else Z.of_nat (length P) - Z.of_nat (length Y)) = Z.of_nat (length P'))
    by (rewrite HP', length_take; destruct (Z.eqb_spec (Z.of_nat (length Y)) 0); lia).
  rewrite Hleft, andb_false_r.
  destruct (Z.eqb_spec (Z.of_nat c) (Z.of_nat b)) as [Hcb|Hcb].
  - rewrite HX0 by lia. cbn [app]. eexists. split; [reflexivity|].
    rewrite HP', Hbr', length_take. replace ((length P - length Y) `min` length P)%nat with (length P - length Y)%nat by lia.
    apply back_result_done.
  - assert (Hmb : m = bufsize) by (apply Hfull; lia).
    assert (Hp : pos = (c + bufsize)%nat) by (destruct Hrange as (_ & _ & ?); rewrite Hpos by done; lia).
    rewrite Hp, seekBackward_next by lia. cbv zeta.
    set (c' := if decide (c <= bufsize + b)%nat then b else (c - bufsize)%nat).
    pose proof (block_at_prev content b c m ltac:(lia) Hba) as Hba'. fold c' in Hba'. cbn zeta in Hba'.
    assert (Hc' : (b <= c' < c)%nat) by (unfold c'; case_decide; lia).
    assert (HPQ : filled P Y Q = P' ++ Y ++ Q) by (unfold filled; rewrite lastn_all by lia; by rewrite HP').
    rewrite HPQ.
    assert (Hm' : Z.of_nat (c + bufsize - c') - Z.of_nat bufsize = Z.of_nat (c - c')) by lia.
    rewrite Hm'.
    destruct (IH c' (c - c')%nat P' (Y ++ Q) br' sk hints Hba') as (r & -> & Hr); try lia.
    exists r. split; [done|]. apply back_result_app; [lia|]. rewrite <- HP', <- Hbr'.
    unfold X. by replace (c' + (c - c') - b)%nat with (c - b)%nat in Hr by lia.
Qed.
(** *** One file *)

Context (Hb31 : (0 < bufsize)%nat).

(** A plan's range of a file, of whole slots inside it. *)
Record readable (fs : files) (fp : ioFilePlan) (content : file) (off len : nat) : Prop := {
  ra_file : fs !! fp_FullPath fp = Some content;
  ra_off : fp_Offset fp = Z.of_nat off;
  ra_len : fp_Length fp = Z.of_nat len;
  ra_range : slot_range content off len;
  ra_size : Z.of_nat len < 2 ^ 31;
}.

Lemma readForward_spec fs fp content off len buffer limit hints :
  readable fs fp content off len ->
  let all := default [] buffer ++ range_rows content off len in
  0 <= limit -> Z.of_nat (length all) < 2 ^ 31 ->
  exists r, readForward tz false env fs buffer fp limit bufsize hints = Ret r /\
    sr_buffer r = Some (take (Z.to_nat limit) all) /\ sr_err r = None /\ sr_hints r = hints /\
    sr_finished r = (limit <=? Z.of_nat (length all)).
Proof.
  intros [Hfs Ho Hl Hr Hsz] all Hlim Hall. unfold readForward. rewrite Hfs, Ho, Hl.
  destruct (Z.ltb_spec (Z.of_nat off) 0); [lia|]. rewrite Nat2Z.id.
  destruct (packingReader_spec content off len (mkPack (default [] buffer) (fp_seekingLast fp) hints) Hr)
    as (pos & sk & -> & _).
  cbn [outcome_bind packedBuffer pk_hints seekingLast]. fold all.
  rewrite (wrapS_id 32) by (unfold inS; lia).
  destruct (Z.leb_spec limit (Z.of_nat (length all))) as [Hfin|Hmore].
  - destruct (Z.ltb_spec limit 0); [lia|]. destruct (Z.ltb_spec (Z.of_nat (length all)) limit); [lia|].
    eexists. split; [reflexivity|done].
  - eexists. split; [reflexivity|]. split_and!; try done. cbn. by rewrite take_ge by lia.
Qed.

Lemma block_at_first content off len :
  slot_range content off len ->
  let c := if decide (len <= bufsize)%nat then off else (off + len - bufsize)%nat in
  seekBackward (Z.of_nat (off + len)) (Z.of_nat bufsize) (Z.of_nat off) = Ret (Z.of_nat (off + len - c), Z.of_nat c) /\
  block_at content off c (off + len - c).
Proof.
  intros ([j Hj] & Hpos & Hin) c. unfold seekBackward. subst c. case_decide.
  - destruct (Z.leb_spec (Z.of_nat (off + len) - Z.of_nat bufsize) (Z.of_nat off)); [|lia].
    replace (Z.of_nat (off + len) - (Z.of_nat (off + len) - Z.of_nat off)) with (Z.of_nat off) by lia.
    destruct (Z.ltb_spec (Z.of_nat off) 0); [lia|]. split; [do 2 f_equal; lia|].
    replace (off + len - off)%nat with len by lia.
    split; try lia; [|by exists 0%nat; lia]. split; [by exists j|lia].
  - destruct (Z.leb_spec (Z.of_nat (off + len) - Z.of_nat bufsize) (Z.of_nat off)); [lia|].
    replace (Z.of_nat (off + len) - Z.of_nat bufsize) with (Z.of_nat (off + len - bufsize)) by lia.
    destruct (Z.ltb_spec (Z.of_nat (off + len - bufsize)) 0); [lia|]. split; [do 2 f_equal; lia|].
    replace (off + len - (off + len - bufsize))%nat with bufsize by lia.
    split; try lia; [split; [by exists k|lia]|].
    exists (j - k)%nat. rewrite Nat.mul_sub_distr_r. lia.
Qed.

Lemma readBackward_spec fs fp content off len P Q buffer hints :
  readable fs fp content off len ->
  default (replicate (length P) x00) buffer = P ++ Q ->
  exists r, readBackward tz false env fs buffer fp (Z.of_nat (length P)) bufsize hints = Ret r /\
    back_result P (range_rows content off len) Q 0 hints r.
Proof.
  intros [Hfs Ho Hl Hr Hsz] Hbuffer. unfold readBackward. rewrite Hfs, Ho, Hl.
  destruct (Z.ltb_spec (Z.of_nat (length P)) 0); [lia|]. rewrite !Nat2Z.id, Hbuffer.
  rewrite (wrapS_id 32) by (unfold inS; lia). unfold seek_to.
  destruct (Z.ltb_spec (Z.of_nat off + Z.of_nat len) 0); [lia|]. rewrite <- Nat2Z.inj_add.
  destruct (block_at_first content off len Hr) as [-> Hba].
  set (c := if decide (len <= bufsize)%nat then off else (off + len - bufsize)%nat) in *.
  assert (Hc : (off <= c <= off + len)%nat) by (unfold c; case_decide; lia).
  destruct (backward_loop_spec content off (S (S (length content) + len)) c (off + len - c) P Q 0
    (fp_seekingLast fp) hints Hba) as (r & -> & Hres); try lia.
  exists r. split; [done|].
  by replace (c + (off + len - c) - off)%nat with len in Hres by lia.
Qed.
End scan.

(** ** A whole plan of fixed-length rows *)

Lemma length_concat_rev {A} (ls : list (list A)) : length (concat (rev ls)) = length (concat ls).
Proof.
  induction ls as [|l ls IH]; [done|]. cbn. rewrite concat_app, !length_app, IH. cbn. rewrite app_nil_r. lia.
Qed.

Lemma Forall2_rev {A B} (P : A -> B -> Prop) l k : Forall2 P l k -> Forall2 P (rev l) (rev k).
Proof. induction 1; cbn; [constructor|]. apply Forall2_app; [done|by constructor]. Qed.

Section read_rows.
Context `{L : StorageLibs} `{R : MapRange} (tz : Location) (nocomp : bool).
Context (iop : ioplan) (rs : nat) (Hlen : RecordLen iop = Z.of_nat rs) (Hrs : (8 <= rs)%nat).
Context (Hsmall : 2000 * Z.of_nat rs < 2 ^ 30) (Hfixed : iop_RecordType iop = FIXED).

Definition plan_env (fp : ioFilePlan) (f : TimeBucketInfo) : scan_env :=
  mkEnv (RecordLen iop) (iop_TimeQuals iop) (tbi_timeframe f) (tbi_Year f) (fp_FullPath fp).

(** The rows of one file of the plan. *)
Definition file_rows (s : rstate) (fp : ioFilePlan) (rows : list byte) : Prop :=
  exists f content off len,
    c_infos (rs_cat s) !! fp_tbi fp = Some f /\ tbi_once f = true /\
    readable rs (dk_files (c_disk (rs_cat s))) fp content off len /\
    rows = range_rows tz (plan_env fp f) rs content off len.

Context (bufsize : nat) (Hb : bufsize = (2000 * rs)%nat).

Lemma on_cat_eta s : mkRS (mkCatalog (c_dirs (rs_cat s)) (c_infos (rs_cat s)) (c_disk (rs_cat s))) (lastKnownMap s) = s.
Proof. by destruct s as [[] ?]. Qed.

Lemma file_env_run fp f s :
  c_infos (rs_cat s) !! fp_tbi fp = Some f -> tbi_once f = true ->
  file_env iop fp s = (Ret (plan_env fp f), s).
Proof.
  intros Hf Ho. unfold file_env, GetFileYear, mbind, prog_bind, on_cat, on_info. rewrite Hf.
  unfold GetTimeframe, once_get, mbind, prog_bind, once_Do. rewrite Ho. cbn.
  rewrite insert_id by done. unfold set_infos. cbn. unfold get_info. cbn. rewrite Hf. cbn.
  by rewrite on_cat_eta.
Qed.

Lemma scan_with_run scan fp f s r :
  c_infos (rs_cat s) !! fp_tbi fp = Some f -> tbi_once f = true ->
  scan (plan_env fp f) (dk_files (c_disk (rs_cat s))) (lastKnownMap s) = Ret r ->
  sr_hints r = lastKnownMap s ->
  scan_with scan iop fp s = (Ret r, s).
Proof.
  intros Hf Ho Hscan Hh. unfold scan_with. rewrite (bind_step _ _ _ _ _ (file_env_run fp f s Hf Ho)).
  unfold mbind, prog_bind, state_get, lift. rewrite Hscan. unfold set_hints, state_modify. rewrite Hh.
  unfold mret, prog_ret. f_equal. by destruct s as [[] ?].
Qed.

Lemma read_first_rows fps rowss : forall buffer limit s err,
  Forall2 (file_rows s) fps rowss ->
  Z.of_nat (length (default [] buffer)) <= limit ->
  Z.of_nat (length (default [] buffer ++ concat rowss)) < 2 ^ 31 ->
  exists buffer', read_first tz false iop bufsize limit fps buffer [] err s =
      (Ret (buffer', [], if decide (fps = []) then err else None), s) /\
    default [] buffer' = take (Z.to_nat limit) (default [] buffer ++ concat rowss).
Proof.
  revert rowss. induction fps as [|fp fps IH]; intros rowss buffer limit s err Hf Hlim Hall.
  - apply Forall2_nil_inv_l in Hf as ->. exists buffer. split; [done|]. cbn. by rewrite app_nil_r, take_ge by lia.
  - apply Forall2_cons_inv_l in Hf as (rows & rowss' & (f & content & off & len & Hi & Ho & Hr & ->) & Hf & ->).
    cbn [concat] in *. set (rows := range_rows tz (plan_env fp f) rs content off len) in *.
    destruct (readForward_spec tz (plan_env fp f) rs Hlen Hrs bufsize 2000 Hb ltac:(lia) ltac:(lia)
      (dk_files (c_disk (rs_cat s))) fp content off len buffer limit (lastKnownMap s) Hr)
      as (r & Hscan & Hbuf & Herr & Hh & Hfin); [lia| |].
    { rewrite !length_app in *. fold rows. lia. }
    fold rows in Hbuf, Hfin.
    cbn [read_first].
    pose proof (scan_with_run (fun env fs hints => readForward tz false env fs buffer fp limit bufsize hints) fp f s r
      Hi Ho Hscan Hh) as Hrun.
    rewrite (bind_step _ _ _ _ _ Hrun). rewrite Hfixed. cbn [andb FIXED VARIABLE Z.eqb].
    unfold mbind at 1, prog_bind at 1. cbn [mret prog_ret]. rewrite Hfin.
    destruct (Z.leb_spec limit (Z.of_nat (length (default [] buffer ++ rows)))) as [Hend|Hmore].
    + eexists. split; [rewrite Herr; reflexivity|]. rewrite Hbuf. cbn [from_option id].
      rewrite app_assoc. by rewrite (take_app_le (_ ++ rows)) by lia.
    + rewrite Hbuf, Herr. rewrite take_ge by lia.
      destruct (IH rowss' (Some (default [] buffer ++ rows)) limit s None Hf) as (buffer' & Hread & Hd).
      * cbn. lia.
      * cbn. by rewrite <- app_assoc.
      * exists buffer'. rewrite Hread. split; [by destruct (decide (fps = []))|].
        rewrite Hd. cbn. by rewrite app_assoc.
Qed.
(** What backward reading of the files leaves to fill, and the state it is in. *)
Lemma read_last_rows fps rowss : forall buffer P Q s,
  Forall2 (file_rows s) fps rowss ->
  default (replicate (length P) x00) buffer = P ++ Q ->
  Z.of_nat (length P) < 2 ^ 31 -> Z.of_nat (length (concat rowss)) < 2 ^ 31 ->
  let X := concat (rev rowss) in
  exists buffer' left', read_last tz false iop bufsize fps buffer [] (Z.of_nat (length P)) None s =
      (Ret (buffer', [], left', None), s) /\
    (fps = [] /\ buffer' = buffer \/ buffer' = Some (filled P X Q)) /\
    (if decide (length X <= length P)%nat then left' = Z.of_nat (length P - length X) else left' <= 0).
Proof.
  revert rowss. induction fps as [|fp fps IH]; intros rowss buffer P Q s Hf Hbuf HP Hall X.
  - apply Forall2_nil_inv_l in Hf as ->. exists buffer, (Z.of_nat (length P)).
    split; [done|]. split; [by left|]. subst X. cbn. by rewrite Nat.sub_0_r.
  - apply Forall2_cons_inv_l in Hf as (rows & rowss' & (f & content & off & len & Hi & Ho & Hr & ->) & Hf & ->).
    subst X. set (rows := range_rows tz (plan_env fp f) rs content off len) in *.
    cbn [concat rev] in *. rewrite length_app in Hall.
    rewrite concat_app. cbn [concat]. rewrite app_nil_r. set (X := concat (rev rowss')).
    assert (HX : length X = length (concat rowss')) by (apply length_concat_rev).
    destruct (readBackward_spec tz (plan_env fp f) rs Hlen Hrs bufsize 2000 Hb ltac:(lia) ltac:(lia) ltac:(lia)
      (dk_files (c_disk (rs_cat s))) fp content off len P Q buffer (lastKnownMap s) Hr Hbuf)
      as (r & Hscan & Hbuf' & Hfin & Herr & Hh & Hn).
    fold rows in Hbuf', Hfin, Hn. cbn [read_last].
    pose proof (scan_with_run (fun env fs hints => readBackward tz false env fs buffer fp (Z.of_nat (length P)) bufsize hints)
      fp f s r Hi Ho Hscan Hh) as Hrun.
    rewrite (bind_step _ _ _ _ _ Hrun). rewrite Hfixed. cbn [andb FIXED VARIABLE Z.eqb].
    unfold mbind at 1, prog_bind at 1. cbn [mret prog_ret]. rewrite Hfin, Herr, Hbuf'.
    rewrite (wrapS_id 32) by (unfold inS; destruct (decide (length rows <= length P)%nat); lia).
    rewrite length_app. case_bool_decide as Hc.
    + do 2 eexists. split; [reflexivity|]. split; [right; by rewrite filled_app_over by lia|].
      repeat case_decide; lia.
    + rewrite decide_True in Hn by lia. rewrite Hn.
      set (P' := take (length P - length rows) P).
      assert (HP' : length P' = (length P - length rows)%nat) by (unfold P'; rewrite length_take; lia).
      replace (Z.of_nat (length P) - (0 + Z.of_nat (length rows))) with (Z.of_nat (length P')) by lia.
      destruct (IH rowss' (Some (filled P rows Q)) P' (rows ++ Q) s Hf) as (buffer' & left' & Hread & Hb' & Hl').
      * cbn. unfold filled. by rewrite lastn_all by lia.
      * lia.
      * lia.
      * exists buffer', left'. rewrite Hread. fold X in Hb', Hl'. split; [done|]. split.
        -- right. destruct Hb' as [[-> ->]| ->].
           ++ apply Forall2_nil_inv_l in Hf. subst rowss'. unfold X. cbn. done.
           ++ unfold P'. by rewrite filled_app by lia.
        -- repeat case_decide; lia.
Qed.
Lemma read_bufsize : Z.to_nat (int32 (RecordsPerRead * RecordLen iop)) = bufsize /\
  (int32 (RecordsPerRead * RecordLen iop) <? 0) = false.
Proof.
  rewrite Hlen. unfold RecordsPerRead. rewrite (wrapS_id 32) by (unfold inS; lia).
  split; [lia|]. apply Z.ltb_ge. lia.
Qed.

Lemma read_forward s rowss limit N :
  Forall2 (file_rows s) (FilePlan iop) rowss ->
  iop_Limit iop = mkRowLimit N FIRST ->
  limit = (if N =? MaxInt32 then MaxInt32 else Z.of_nat rs * N) -> 0 <= N -> limit <= MaxInt32 ->
  Z.of_nat (length (concat rowss)) < 2 ^ 31 ->
  read tz false nocomp iop s = (Ret (take (Z.to_nat limit) (concat rowss), None), s).
Proof.
  intros Hf Hl Hlimit HN Hmax Hall. unfold MaxInt32 in *. destruct read_bufsize as [Hbs Hneg]. unfold read.
  rewrite Hl, Hneg. cbn [Number Direction].
  assert (Hlim : (if negb (N =? MaxInt32) then int32 (RecordLen iop * N) else MaxInt32) = limit).
  { rewrite Hlimit, Hlen. unfold MaxInt32. destruct (Z.eqb_spec N (2 ^ 31 - 1)); cbn [negb]; [done|].
    rewrite (wrapS_id 32); [done|done|]. unfold inS. lia. }
  rewrite Hlim. rewrite andb_false_r. change (FIRST =? FIRST) with true. cbv iota. rewrite Hbs.
  destruct (read_first_rows (FilePlan iop) rowss None limit s None Hf) as (buffer & Hread & Hd); cbn; [|lia|].
  { destruct (N =? 2 ^ 31 - 1); lia. }
  rewrite (bind_step _ _ _ _ _ Hread). rewrite Hfixed. cbn [FIXED VARIABLE Z.eqb].
  unfold mret, prog_ret. rewrite Hd. cbn. by destruct (decide (FilePlan iop = [])).
Qed.

Lemma read_backward s rowss N :
  Forall2 (file_rows s) (FilePlan iop) rowss ->
  iop_Limit iop = mkRowLimit N LAST ->
  0 <= N -> Z.of_nat rs * N < MaxInt32 ->
  Z.of_nat (length (concat rowss)) < 2 ^ 31 ->
  read tz false nocomp iop s = (Ret (lastn (rs * Z.to_nat N) (concat rowss), None), s).
Proof.
  intros Hf Hl HN Hmax Hall. unfold MaxInt32 in *. destruct read_bufsize as [Hbs Hneg]. unfold read.
  rewrite Hl, Hneg. cbn [Number Direction]. unfold MaxInt32.
  destruct (Z.eqb_spec N (2 ^ 31 - 1)) as [->|Hne]; [nia|]. cbn [negb andb].
  change (LAST =? FIRST) with false. change (LAST =? LAST) with true. cbv iota.
  rewrite Hbs, Hlen, (wrapS_id 32 (Z.of_nat rs * N)) by (unfold inS; lia).
  set (P := replicate (rs * Z.to_nat N) x00).
  assert (HP : length P = (rs * Z.to_nat N)%nat) by apply length_replicate.
  replace (Z.of_nat rs * N) with (Z.of_nat (length P)) by lia.
  assert (Hf' : Forall2 (file_rows s) (rev (FilePlan iop)) (rev rowss)).
  { by apply Forall2_rev. }
  destruct (read_last_rows (rev (FilePlan iop)) (rev rowss) None P [] s Hf') as (buffer & left' & Hread & Hbuf & Hleft).
  { cbn. rewrite app_nil_r. unfold P. by rewrite length_replicate. }
  { lia. }
  { by rewrite length_concat_rev. }
  rewrite rev_involutive in Hbuf, Hleft. set (X := concat rowss) in *.
  unfold mbind at 1, prog_bind at 1. rewrite (bind_step _ _ _ _ _ Hread).
  unfold reverse_metas. cbn [length Nat.div seq foldl]. unfold mret at 1, prog_ret at 1.
  rewrite Hfixed. cbn [FIXED VARIABLE Z.eqb]. unfold mret, prog_ret. do 3 f_equal. cbn [from_option id].
  rewrite <- HP. destruct Hbuf as [[Hnil ->]| ->].
  - assert (FilePlan iop = []) as Hnil' by (rewrite <- (rev_involutive (FilePlan iop)); by rewrite Hnil).
    rewrite Hnil' in Hf. apply Forall2_nil_inv_l in Hf. unfold X. rewrite Hf. cbn. unfold lastn.
    rewrite !drop_nil. by destruct (_ && _).
  - cbn [from_option id]. case_decide as Hd.
    + rewrite Hleft, Nat2Z.id, (lastn_all (length P) X) by done. unfold filled.
      rewrite (lastn_all (length P) X), app_nil_r by done.
      destruct (Z.ltb_spec 0 (Z.of_nat (length P - length X))) as [Hpos|Hz]; cbn [andb].
      * rewrite bool_decide_eq_false_2; cbn [negb].
        -- rewrite drop_app_length' by (rewrite length_take; lia). done.
        -- intros He. apply (f_equal length) in He. rewrite length_app, length_take in He. cbn in He. lia.
      * replace (length P - length X)%nat with 0%nat by lia. done.
    + destruct (Z.ltb_spec 0 left'); [lia|]. cbn [andb]. unfold filled.
      replace (length P - length X)%nat with 0%nat by lia. cbn. by rewrite app_nil_r.
Qed.
End read_rows.

(** C38: What a plan of fixed-length rows reads, while the hints of the last
    known positions are off (with them on, reading also notes positions).
    However the blocks of 2000 records fall and however many files there are,
    the rows are those of the filled slots of the ranges of the files, in
    order: all of them without a limit, with one the first of them when reading
    from the first and the last of them when reading from the last (the limit
    in bytes and the rows being of less than 2^31 bytes); reading from the last
    without a limit is an error. Reading changes nothing, and always comes to
    an end. *)
Theorem read_limited `{L : StorageLibs} (tz : Location) (nocomp : bool) (iop : ioplan) (rs : nat) (s : rstate)
    (rowss : list (list byte)) (N : Z) :
  RecordLen iop = Z.of_nat rs -> (8 <= rs)%nat -> 2000 * Z.of_nat rs < 2 ^ 30 -> iop_RecordType iop = FIXED ->
  Forall2 (file_rows tz iop rs s) (FilePlan iop) rowss ->
  Z.of_nat (length (concat rowss)) < 2 ^ 31 ->
  0 <= N -> Z.of_nat rs * N < MaxInt32 ->
  (iop_Limit iop = mkRowLimit N FIRST ->
     read tz false nocomp iop s = (Ret (take (rs * Z.to_nat N) (concat rowss), None), s)) /\
  (iop_Limit iop = mkRowLimit N LAST ->
     read tz false nocomp iop s = (Ret (lastn (rs * Z.to_nat N) (concat rowss), None), s)) /\
  (iop_Limit iop = mkRowLimit MaxInt32 FIRST ->
     read tz false nocomp iop s = (Ret (concat rowss, None), s)) /\
  (iop_Limit iop = mkRowLimit MaxInt32 LAST ->
     exists e, read tz false nocomp iop s = (Fail e, s)).
Proof.
  intros Hlen Hrs Hsmall Hfx Hf Hall HN Hmax. split_and!; intros Hl.
  - rewrite (read_forward tz nocomp iop rs Hlen Hrs Hsmall Hfx (2000 * rs)%nat eq_refl s rowss (Z.of_nat rs * N) N);
      try done; [|unfold MaxInt32 in *; destruct (Z.eqb_spec N (2 ^ 31 - 1)); nia|lia].
    by replace (Z.to_nat (Z.of_nat rs * N)) with (rs * Z.to_nat N)%nat by lia.
  - by apply (read_backward tz nocomp iop rs Hlen Hrs Hsmall Hfx (2000 * rs)%nat eq_refl).
  - rewrite (read_forward tz nocomp iop rs Hlen Hrs Hsmall Hfx (2000 * rs)%nat eq_refl s rowss MaxInt32 MaxInt32);
      try done. rewrite take_ge; [done|]. unfold MaxInt32. lia.
  - eexists. unfold read. rewrite Hl. cbn [Number Direction]. rewrite Z.eqb_refl. cbn [negb andb].
    rewrite Hlen, wrapS_id by (unfold RecordsPerRead, inS; lia).
    by rewrite (proj2 (Z.ltb_ge _ 0)) by (unfold RecordsPerRead; lia).
Qed.

(** ** Concrete reads *)

Module Example_scan.
#[local] Existing Instances example_libs list_range.
#[local] Open Scope string_scope.

Definition path1 : string := "/db/AAPL/1Min/OHLCV/2017.bin".
Definition path2 : string := "/db/AAPL/1Min/OHLCV/2018.bin".
Definition shapes : list DataShape := [mkShape "Epoch" INT64; mkShape "Open" FLOAT32; mkShape "Close" FLOAT32].
Definition tbi (rt year : Z) : TimeBucketInfo :=
  set_once (NewTimeBucketInfo Minute "/db/AAPL/1Min/OHLCV" "" year shapes rt).

Definition slot (index : Z) (d : list byte) : list byte := (le_bytes 8 index ++ d)%list.
Definition d1 : list byte := replicate 8 x01.
Definition d2 : list byte := replicate 8 x02.
Definition d3 : list byte := replicate 8 x03.
Definition hole : list byte := replicate 16 x00.

(** Two files, here without their headers; [fs] gives their bytes. *)
Definition state_of_files (rt : Z) (fs : files) : rstate :=
  mkRS (mkCatalog ∅ {[0%nat := tbi rt 2017; 1%nat := tbi rt 2018]} (mkDisk ∅ fs)) ∅.
Definition plan (rt recLen number direction len1 len2 : Z) : ioplan :=
  mkIOPlan [mkFilePlan 0 0 len1 path1 0 false; mkFilePlan 1 0 len2 path2 0 false]
    recLen rt 12 (mkRowLimit number direction) [].

Definition fixed_files : files := {[path1 := (slot 6 d1 ++ hole ++ slot 8 d2)%list; path2 := (hole ++ slot 2 d3)%list]}.
Definition s0 : rstate := state_of_files FIXED fixed_files.
Definition epoch_row (t : Time) (d : list byte) : list byte := (le_bytes 8 (Unix t) ++ d)%list.
Definition row1 : list byte := epoch_row (Date 2017 1 1 0 5 0 0 UTC) d1.
Definition row2 : list byte := epoch_row (Date 2017 1 1 0 7 0 0 UTC) d2.
Definition row3 : list byte := epoch_row (Date 2018 1 1 0 1 0 0 UTC) d3.

Lemma read_limited_witness :
  read UTC false true (plan FIXED 16 2 FIRST 48 32) s0 = (Ret ((row1 ++ row2)%list, None), s0) /\
  read UTC false true (plan FIXED 16 2 LAST 48 32) s0 = (Ret ((row2 ++ row3)%list, None), s0).
Proof.
  assert (Hf : forall dir, Forall2 (file_rows UTC (plan FIXED 16 2 dir 48 32) 16 s0)
    (FilePlan (plan FIXED 16 2 dir 48 32)) [(row1 ++ row2)%list; row3]).
  { intros dir. constructor; [|constructor; [|constructor]].
    - exists (tbi FIXED 2017), (slot 6 d1 ++ hole ++ slot 8 d2)%list, 0%nat, 48%nat.
      split_and!; try reflexivity. split; try reflexivity. split; [by exists 3%nat|]. cbn. lia.
    - exists (tbi FIXED 2018), (hole ++ slot 2 d3)%list, 0%nat, 32%nat.
      split_and!; try reflexivity. split; try reflexivity. split; [by exists 2%nat|]. cbn. lia. }
  split.
  - refine (proj1 (read_limited UTC true (plan FIXED 16 2 FIRST 48 32) 16 s0 _ 2 eq_refl _ _ eq_refl (Hf FIRST)
      _ _ _) eq_refl); [lia|lia|by vm_compute|lia|unfold MaxInt32; lia].
  - refine (proj1 (proj2 (read_limited UTC true (plan FIXED 16 2 LAST 48 32) 16 s0 _ 2 eq_refl _ _ eq_refl (Hf LAST)
      _ _ _)) eq_refl); [lia|lia|by vm_compute|lia|unfold MaxInt32; lia].
Defined.

(** A variable-length bucket: slots of {index, offset, length}, and behind them
    the records, a column and the ticks; a row is read as its epoch, the column
    and the nanoseconds. *)
Definition record (n ticks : Z) : list byte := (le_bytes 8 n ++ le_bytes 4 ticks)%list.
Definition info_slot (index offset len : Z) : list byte := (le_bytes 8 index ++ le_bytes 8 offset ++ le_bytes 8 len)%list.
Definition hole24 : list byte := replicate 24 x00.
Definition variable_files : files := {[
  path1 := (info_slot 6 48 12 ++ hole24 ++ record 111 0)%list;
  path2 := (info_slot 2 48 24 ++ hole24 ++ record 222 0 ++ record 223 (2 ^ 31))%list]}.
Definition v0 : rstate := state_of_files VARIABLE variable_files.
Definition variable_plan (number direction : Z) : ioplan := plan VARIABLE 24 number direction 48 48.

(** The epochs and the column of the rows that are read. *)
Definition rows_read (iop : ioplan) : option (list (Z * Z) * option goerr) :=
  match fst (read UTC false true iop v0) with
  | Ret (buffer, err) => Some (map (fun r => (ToInt64 r, ToInt64 (drop 8 r))) (chunks 20 buffer), err)
  | _ => None
  end.

(** The last rows of a variable-length bucket over two years: with a limit
    that covers all three records, the later year's two records come twice and
    the earlier year's record not at all. *)
Lemma variable_last_two_files :
  rows_read (variable_plan 5 FIRST) = Some ([(1483229100, 111); (1514764860, 222); (1514764890, 223)], None) /\
  rows_read (variable_plan 5 LAST) =
    Some ([(1514764860, 222); (1514764890, 223); (1514764860, 222); (1514764890, 223)], None).
Proof. vm_compute. split; reflexivity. Qed.

(** The limit on the records of a variable-length bucket counts anew for
    every file: two rows are asked for, three are returned. *)
Lemma variable_limit_exceeded :
  rows_read (variable_plan 2 FIRST) = Some ([(1483229100, 111); (1514764860, 222); (1514764890, 223)], None).
Proof. vm_compute. reflexivity. Qed.

Definition plan_of_three : ioplan :=
  mkIOPlan [mkFilePlan 0 0 48 path1 0 false; mkFilePlan 0 0 48 "/db/AAPL/1Min/OHLCV/missing.bin" 0 false;
    mkFilePlan 1 0 32 path2 0 false] 16 FIXED 0 (mkRowLimit MaxInt32 FIRST) [].

(** A year file that cannot be opened takes the rows read before it along,
    and the error is forgotten once a later file is read. *)
Lemma unopened_file_drops_rows :
  read UTC false true plan_of_three s0 = (Ret (row3, None), s0).
Proof. vm_compute. reflexivity. Qed.
End Example_scan.

(** ** Rows outside the range *)

Section trim.
Context (start stop : Z).

Definition epoch_sorted : list (list byte) -> Prop := StronglySorted (fun a b => ToInt64 a <= ToInt64 b).
Definition from_start (row : list byte) : Prop := start <= ToInt64 row.
Definition within (row : list byte) : Prop := start <= ToInt64 row <= stop.

#[global] Instance from_start_dec row : Decision (from_start row).
Proof. unfold from_start. apply _. Defined.
#[global] Instance within_dec row : Decision (within row).
Proof. unfold within. apply _. Defined.

Lemma drop_before_sorted rows : epoch_sorted rows -> drop_before start rows = filter from_start rows.
Proof.
  induction 1 as [|row rows Hs IH Hle]; [done|]. cbn [drop_before]. rewrite filter_cons.
  destruct (Z.leb_spec start (ToInt64 row)) as [Hr|Hr].
  - rewrite decide_True by done. f_equal. symmetry. apply filter_all. eapply Forall_impl; [exact Hle|].
    intros r Hr'. unfold from_start. cbn in Hr'. lia.
  - rewrite decide_False by (unfold from_start; lia). apply IH.
Qed.

Lemma last_within_sorted rows :
  epoch_sorted rows ->
  match last_within stop rows with
  | Some n => take n rows = filter (fun r => ToInt64 r <= stop) rows /\ (0 < n)%nat /\
      Exists (fun r => ToInt64 r <= stop) rows
  | None => Forall (fun r => stop < ToInt64 r) rows
  end.
Proof.
  induction 1 as [|row rows Hs IH Hle]; [constructor|]. cbn [last_within].
  destruct (last_within stop rows) as [n|].
  - destruct IH as (Ht & Hn & Hex). cbn [take]. rewrite filter_cons.
    assert (Hrow : ToInt64 row <= stop).
    { apply Exists_exists in Hex as (r & Hin & Hr). rewrite Forall_forall in Hle. specialize (Hle r Hin).
      cbn in Hle. lia. }
    rewrite decide_True by done. split; [by rewrite Ht|]. split; [lia|]. by left.
  - destruct (Z.leb_spec (ToInt64 row) stop) as [Hr|Hr].
    + split; [|split; [lia|by left]]. cbn [take]. rewrite filter_cons, decide_True by done.
      rewrite filter_none; [done|]. eapply Forall_impl; [exact IH|]. cbn. intros; lia.
    + by constructor.
Qed.
End trim.

(** C40: the rows of a variable-length bucket that a query returns. When one of
    them lies in the range asked for, they are exactly those that do; when none
    does, every row behind the end of the range is returned. *)
Theorem trimResultsToRange_rows (start stop rowlen : Z) (rows : list (list byte)) :
  0 < rowlen -> Forall (fun r => length r = Z.to_nat (rowlen + 8)) rows -> epoch_sorted rows ->
  trimResultsToRange start stop rowlen (concat rows) =
  Ret (concat (if decide (Exists (within start stop) rows) then filter (within start stop) rows
               else filter (from_start start) rows)).
Proof.
  intros Hpos Hlen Hs. unfold trimResultsToRange.
  destruct (Z.eqb_spec (rowlen + 8) 0) as [|_]; [lia|]. destruct (Z.ltb_spec (rowlen + 8) 0) as [|_]; [lia|].
  set (n := Z.to_nat (rowlen + 8)) in *. assert (Hn : (0 < n)%nat) by lia.
  rewrite (chunks_concat n rows Hn Hlen). rewrite (length_concat_uniform n rows Hlen), Nat.div_mul by lia.
  rewrite drop_ge by (rewrite (length_concat_uniform n rows Hlen); lia).
  rewrite drop_before_sorted by done. set (dest := filter (from_start start) rows).
  assert (Hsd : epoch_sorted dest).
  { unfold dest, epoch_sorted. clear -Hs. induction Hs as [|r rows Hs IH Hle]; [constructor|].
    rewrite filter_cons. case_decide; [|done]. constructor; [done|].
    rewrite Forall_forall in Hle |- *. intros x [_ Hx]%list_elem_of_filter. by apply Hle. }
  assert (Hin : filter (within start stop) rows = filter (fun r => ToInt64 r <= stop) dest).
  { unfold dest. rewrite list_filter_filter. apply list_filter_iff. intros r. unfold within, from_start. lia. }
  assert (Hex : Exists (within start stop) rows <-> Exists (fun r => ToInt64 r <= stop) dest).
  { rewrite !Exists_exists. unfold dest. setoid_rewrite list_elem_of_filter. unfold within, from_start. naive_solver. }
  rewrite Hin. pose proof (last_within_sorted stop dest Hsd) as Hlast.
  case_bool_decide as Hd; [rewrite Hd; by destruct (decide _)|].
  destruct (Nat.eqb_spec (length dest) 1) as [H1|H1].
  - rewrite app_nil_r. destruct dest as [|r [|? ?]]; try done. f_equal. case_decide as He; [|done].
    apply Hex in He. rewrite filter_cons, decide_True; [done|]. by inversion He as [? ? ?|? ? Hx]; [|inversion Hx].
  - destruct (last_within stop dest) as [k|].
    + destruct Hlast as (Ht & _ & He). rewrite Ht, decide_True; [done|]. by apply Hex.
    + rewrite app_nil_r, decide_False; [done|]. intros He%Hex. apply Exists_exists in He as (r & Hr & Hle).
      rewrite Forall_forall in Hlast. specialize (Hlast r Hr). lia.
Qed.

Lemma trimResultsToRange_rows_witness :
  let row e := le_bytes 8 e ++ replicate 4 x01 in
  trimResultsToRange 100 200 4 (concat [row 50; row 100; row 150; row 250]) = Ret (row 100 ++ row 150) /\
  trimResultsToRange 100 200 4 (concat [row 50; row 250; row 260]) = Ret (row 250 ++ row 260).
Proof.
  split.
  - rewrite trimResultsToRange_rows; [reflexivity|lia|repeat constructor|].
    repeat constructor; vm_compute; discriminate.
  - rewrite trimResultsToRange_rows; [reflexivity|lia|repeat constructor|].
    repeat constructor; vm_compute; discriminate.
Defined.
