(* ===== verification/Delete.v ===== *)
(** * Deleting a range of rows (executor/delete.go)

    A deletion plans like a scan, and overwrites the filled slots of the range
    with zeros. *)

From S2P Require Export Scanner.
From S2P Require Import GoStrings.

Section delete.
Context `{R : MapRange} (tz local : Location) (EnableLastKnown : bool).

Record deleter := mkDeleter { de_pr : ParseResult; de_IOPMap : gmap string ioplan }.

Definition NewDeleter (pr : ParseResult) : prog rstate deleter :=
  let range := default (NewDateRange tz) (Range pr) in
  '(m, _) ← make_plans tz local EnableLastKnown (map_range (files_by_key (QualifiedFiles pr))) pr range ∅ 0;
  mret (mkDeleter pr m).

(** The open file, its position, and whether the slot before was filled. *)
Record delete_state := mkDel { dl_content : file; dl_pos : nat; dl_isContiguous : bool }.

(** The [i]th slot; [seekerFunc] seeks to the start of the range whatever it is
    asked for. *)
Definition delete_slot (recordLen offset : nat) (buffer : list byte) (st : delete_state) (i : nat) : delete_state :=
  let index := ToInt64 (drop (i * recordLen) buffer) in
  if index =? 0 then mkDel (dl_content st) (dl_pos st) false
  else
    let pos := if dl_isContiguous st then dl_pos st else offset in
    mkDel (pwrite pos (replicate recordLen x00) (dl_content st)) (pos + recordLen) true.

(** One slot more than the range is read. *)
Definition delete_file (recordLen : Z) (fp : ioFilePlan) : prog files unit := fun fs =>
  match fs !! fp_FullPath fp with
  | None => (Fail NotExist, fs)
  | Some content =>
      if fp_Offset fp <? 0 then (Fail (ErrMsg "seek: invalid argument"), fs)
      else
        let offset := Z.to_nat (fp_Offset fp) in
        let bufferSize := fp_Length fp + recordLen in
        if bufferSize <? 0 then (Panic "makeslice: len out of range", fs)
        else
          let '(bs, err) := Read offset (Z.to_nat bufferSize) content in
          if bool_decide (err <> None) || negb (Z.of_nat (length bs) =? bufferSize)
          then (Fail (ErrMsg "delete(): Short read"), fs)
          else if recordLen <=? 0 then (Panic "integer divide by zero", fs)
          else
            let numRecs := Z.to_nat (Z.quot bufferSize recordLen) in
            let st := foldl (delete_slot (Z.to_nat recordLen) offset bs)
              (mkDel content (offset + length bs) false) (seq 0 numRecs) in
            (Ret tt, <[fp_FullPath fp := dl_content st]> fs)
  end.

Definition on_files {A} (m : prog files A) : prog rstate A := fun s =>
  let k := c_disk (rs_cat s) in
  let '(o, fs) := m (dk_files k) in
  (o, mkRS (set_disk (mkDisk (dk_dirs k) fs) (rs_cat s)) (lastKnownMap s)).

Definition delete (iop : ioplan) : prog rstate unit :=
  for_each (FilePlan iop) (fun fp => on_files (delete_file (RecordLen iop) fp)).

Definition de_Delete (de : deleter) : prog rstate unit :=
  for_each (map_range (de_IOPMap de)) (fun '(_, iop) => delete iop).
End delete.

(** ** What is overwritten *)

(** The length of the longest run of filled slots, of which [current] may be
    the first part of. *)
Fixpoint longest_run (current longest : nat) (filled : list bool) : nat :=
  match filled with
  | [] => longest
  | true :: rest => longest_run (S current) (longest `max` S current) rest
  | false :: rest => longest_run 0 longest rest
  end.

Definition slot_filled (slot : list byte) : bool := negb (ToInt64 slot =? 0).

Lemma longest_run_ge c m l : (m <= longest_run c m l)%nat.
Proof. revert c m. induction l as [|[] l IH]; intros c m; cbn; [lia| |by apply IH]. etransitivity; [|apply IH]. lia. Qed.

Lemma longest_run_le c m l : (longest_run c m l <= m `max` (c + length l))%nat.
Proof. revert c m. induction l as [|[] l IH]; intros c m; cbn; [lia|rewrite IH; lia..]. Qed.

Section overwritten.
Context (rs : nat) (Hrs : (0 < rs)%nat).

(** Zeros over a prefix that ends inside or at the end of a zeroed one. *)
Lemma zero_prefix off c m (f : file) :
  (c <= m)%nat -> (off + (m `max` S c) * rs <= length f)%nat ->
  splice (off + c * rs) (replicate rs x00) (splice off (replicate (m * rs) x00) f)
  = splice off (replicate ((m `max` S c) * rs) x00) f.
Proof.
  intros Hc Hin. apply list_eq. intros i.
  destruct (decide (S c <= m)%nat) as [Hlt|Hge].
  - rewrite Nat.max_l in * by lia. assert (Hs : (c * rs + rs <= m * rs)%nat) by nia.
    rewrite lookup_splice by (rewrite length_splice; rewrite ?length_replicate; lia).
    rewrite !lookup_splice by (rewrite length_replicate; lia).
    rewrite !length_replicate. unfold covers. repeat case_decide; try lia; try done;
      rewrite !lookup_replicate_2 by lia; done.
  - assert (m = c) as -> by lia. rewrite Nat.max_r in * by lia. rewrite Nat.mul_succ_l in *.
    rewrite lookup_splice by (rewrite length_splice; rewrite ?length_replicate; lia).
    rewrite !lookup_splice by (rewrite length_replicate; lia).
    rewrite !length_replicate. unfold covers. repeat case_decide; try lia; try done;
      rewrite !lookup_replicate_2 by lia; done.
Qed.

(** The state behind a run of [c] slots. *)
Definition run_state (off c : nat) (st : delete_state) : Prop :=
  if dl_isContiguous st then dl_pos st = (off + c * rs)%nat else c = 0%nat.

Lemma delete_slots_spec off buffer content n : forall c m i st,
  (c <= m)%nat -> run_state off c st -> dl_content st = splice off (replicate (m * rs) x00) content ->
  let bits := map (fun k => slot_filled (drop (k * rs) buffer)) (seq i n) in
  (off + longest_run c m bits * rs <= length content)%nat ->
  dl_content (foldl (delete_slot rs off buffer) st (seq i n))
    = splice off (replicate (longest_run c m bits * rs) x00) content.
Proof.
  induction n as [|n IH]; intros c m i st Hcm Hst Hcont bits Hin; [exact Hcont|].
  subst bits. cbn [seq foldl map longest_run] in *. unfold slot_filled at 1. unfold slot_filled at 1 in Hin.
  set (rest := map _ (seq (S i) n)) in *.
  destruct (ToInt64 (drop (i * rs) buffer) =? 0) eqn:He; cbn [negb] in *.
  - assert (Hslot : delete_slot rs off buffer st i = mkDel (dl_content st) (dl_pos st) false)
      by (unfold delete_slot; by rewrite He).
    rewrite Hslot. apply (IH 0%nat m); try done. lia.
  - pose proof (longest_run_ge (S c) (m `max` S c) rest) as Hge.
    assert (Hfit : (off + (m `max` S c) * rs <= length content)%nat) by nia.
    assert (Hpos : (if dl_isContiguous st then dl_pos st else off) = (off + c * rs)%nat).
    { unfold run_state in Hst. destruct (dl_isContiguous st); [done|]. subst c. lia. }
    assert (Hslot : delete_slot rs off buffer st i =
      mkDel (splice off (replicate ((m `max` S c) * rs) x00) content) (off + c * rs + rs) true).
    { unfold delete_slot. rewrite He, Hpos, Hcont. rewrite pwrite_splice, zero_prefix; [done|done|done|].
      assert ((m * rs <= (m `max` S c) * rs)%nat /\ (c * rs + rs <= (m `max` S c) * rs)%nat) by nia.
      rewrite length_splice; rewrite ?length_replicate; lia. }
    rewrite Hslot. apply (IH (S c) (m `max` S c)%nat); try done; [lia|]. cbn. lia.
Qed.
End overwritten.

(** The [n] slots of a range. *)
Definition range_slots (content : file) (off rs n : nat) : list (list byte) :=
  map (fun k => read_at (off + k * rs) rs content) (seq 0 n).

Lemma block_slots content off rs n :
  (8 <= rs)%nat ->
  map (fun k => slot_filled (drop (k * rs) (pread off (n * rs) content))) (seq 0 n)
  = map slot_filled (range_slots content off rs n).
Proof.
  intros Hrs. unfold range_slots. rewrite map_map. apply map_ext_in. intros k Hk%in_seq.
  unfold slot_filled, pread, read_at.
  rewrite <- (ToInt64_take (drop (k * rs) _) rs) by lia. rewrite take_drop_commute, take_take, Nat.min_l by nia.
  rewrite <- take_drop_commute, drop_drop. done.
Qed.

(** C39: what a deletion overwrites in one file: not the filled slots of the
    range, but as many slots from the start of the range on as the longest run
    of filled slots is long, counting the slot behind the range too. *)
Theorem delete_file_overwrites (fs : files) (fp : ioFilePlan) (content : file) (rs off n : nat) :
  (8 <= rs)%nat -> fs !! fp_FullPath fp = Some content ->
  fp_Offset fp = Z.of_nat off -> fp_Length fp = Z.of_nat (n * rs) ->
  (off + (n + 1) * rs <= length content)%nat ->
  let run := longest_run 0 0 (map slot_filled (range_slots content off rs (n + 1))) in
  delete_file (Z.of_nat rs) fp fs =
  (Ret tt, <[fp_FullPath fp := splice off (replicate (run * rs) x00) content]> fs).
Proof.
  intros Hrs Hfs Ho Hl Hin run. unfold delete_file. rewrite Hfs, Ho, Hl.
  destruct (Z.ltb_spec (Z.of_nat off) 0); [lia|].
  replace (Z.of_nat (n * rs) + Z.of_nat rs) with (Z.of_nat ((n + 1) * rs)) by lia.
  destruct (Z.ltb_spec (Z.of_nat ((n + 1) * rs)) 0); [lia|]. rewrite !Nat2Z.id. unfold Read.
  set (bs := pread off ((n + 1) * rs) content).
  assert (Hlen : length bs = ((n + 1) * rs)%nat) by (unfold bs; rewrite length_pread; lia).
  rewrite decide_False by (intros [-> _]; cbn in Hlen; nia).
  rewrite bool_decide_eq_false_2 by (intros H'; by apply H'). rewrite Hlen, Z.eqb_refl. cbn [negb orb].
  destruct (Z.leb_spec (Z.of_nat rs) 0); [lia|].
  replace (Z.to_nat (Z.quot (Z.of_nat ((n + 1) * rs)) (Z.of_nat rs))) with (n + 1)%nat
    by (rewrite Nat2Z.inj_mul, Z.quot_mul by lia; lia).
  do 2 f_equal. unfold run. rewrite <- (block_slots content off rs (n + 1) Hrs).
  fold bs. apply (delete_slots_spec rs ltac:(lia) off bs content (n + 1) 0 0 0); [lia|done|cbn; by rewrite splice_nil|].
  unfold bs. rewrite block_slots by done.
  assert (Hrun : (longest_run 0 0 (map slot_filled (range_slots content off rs (n + 1))) <= n + 1)%nat).
  { etransitivity; [apply longest_run_le|]. unfold range_slots. rewrite !length_map, length_seq. lia. }
  nia.
Qed.

(** Two slots of a bucket: a hole, and a row; the row behind the range. *)
Definition example_plan : ioFilePlan := mkFilePlan 0 0 32 "/db/AAPL/1Min/OHLCV/2017.bin" 0 false.
Definition example_row (n : Z) : list byte := le_bytes 8 n ++ le_bytes 8 (100 + n).

Lemma delete_file_overwrites_witness :
  let hole := replicate 16 x00 in
  let fs content : files := {["/db/AAPL/1Min/OHLCV/2017.bin"%string := content]} in
  delete_file 16 example_plan (fs (hole ++ example_row 2 ++ hole))
    = (Ret tt, fs (hole ++ example_row 2 ++ hole)) /\
  delete_file 16 example_plan (fs (example_row 1 ++ example_row 2 ++ example_row 3))
    = (Ret tt, fs (hole ++ hole ++ hole)).
Proof.
  intros hole fs. split.
  - set (c := hole ++ example_row 2 ++ hole).
    refine (eq_trans (delete_file_overwrites (fs c) example_plan c 16 0 2 _ eq_refl eq_refl eq_refl _) _);
      [lia|cbn; lia|]. try reflexivity; f_equal; unfold fs; by rewrite insert_singleton.
  - set (c := example_row 1 ++ example_row 2 ++ example_row 3).
    refine (eq_trans (delete_file_overwrites (fs c) example_plan c 16 0 2 _ eq_refl eq_refl eq_refl _) _);
      [lia|cbn; lia|]. try reflexivity; f_equal; unfold fs; by rewrite insert_singleton.
Defined.
