(* ===== verification/OnDiskAgg.v ===== *)
(** * Aggregation of rows into longer timeframes (contrib/ondiskagg/aggtrigger)

    A trigger that is told of the rows written to a bucket and writes the
    candles of longer timeframes that they change.  Its state is the instance
    it writes to and a cache of the rows of the current window. *)

From S2P Require Export Calendar Writer Scanner.
From S2P Require Import GoStrings.

#[local] Open Scope string_scope.
#[local] Open Scope Z_scope.

(** ** Functions of a slice of numbers (functions/first.go, last.go, max.go, min.go, sum.go)

    The functions of one file differ only in the type of the numbers, here the
    argument [k]; a number is its memory image. *)

Section functions.
Context (k : Kind).

Definition elem_ltb (a b : list byte) : bool :=
  if kind_integer k then int_value k a <? int_value k b else SFltb (float_value k a) (float_value k b).

Definition values_first (values : list (list byte)) : outcome (list byte) :=
  match values with v :: _ => Ret v | [] => Panic "index out of range" end.

Definition values_last (values : list (list byte)) : outcome (list byte) :=
  match last values with Some v => Ret v | None => Panic "index out of range" end.

Definition values_max (values : list (list byte)) : outcome (list byte) :=
  match values with
  | [] => Panic "index out of range"
  | v :: vs => Ret (foldl (fun max val => if elem_ltb max val then val else max) v vs)
  end.

Definition values_min (values : list (list byte)) : outcome (list byte) :=
  match values with
  | [] => Panic "index out of range"
  | v :: vs => Ret (foldl (fun min val => if elem_ltb val min then val else min) v vs)
  end.

(** [sum += val] *)
Definition elem_add (a b : list byte) : list byte :=
  if kind_integer k then le_bytes (kind_size k) (int_value k a + int_value k b)
  else match k with
       | KFloat32 => le_bytes 4 (float32_bits (SFadd 24 128 (float_value k a) (float_value k b)))
       | _ => le_bytes 8 (float64_bits (fadd (float_value k a) (float_value k b)))
       end.

(** The test for an overflow before the addition: the limit minus the value,
    computed in the type of the numbers. *)
Definition sum_overflows (sum val : list byte) : bool :=
  match k with
  | KFloat64 => SFltb (fsub (float64_of_Z (2 ^ 31 - 1)) (float_value k val)) (float_value k sum)
  | KInt8 => wrapS 8 (2 ^ 7 - 1 - int_value k val) <? int_value k sum
  | KInt16 => wrapS 16 (2 ^ 15 - 1 - int_value k val) <? int_value k sum
  | KInt | KInt32 => wrapS (kind_bits k) (2 ^ 31 - 1 - int_value k val) <? int_value k sum
  | KInt64 => wrapS 64 (2 ^ 63 - 1 - int_value k val) <? int_value k sum
  | _ => false
  end.

Definition values_sum (values : list (list byte)) : outcome (list byte) :=
  fold_outcome (fun sum val =>
    if sum_overflows sum val then Panic "integer overflow" else Ret (elem_add sum val))
    (replicate (kind_size k) x00) values.
End functions.

(** ** Accumulators (accum.go) *)

Record accumParam := mkAccumParam { inputName : string; funcName : string; outputName : string }.

(** The functions of [newAccumulator], for every type of numbers. *)
Inductive accum_func := AFirst | AMax | AMin | ALast | ASum.

#[export] Instance accum_func_eq_dec : EqDecision accum_func.
Proof. solve_decision. Defined.

Definition run_func (fn : accum_func) (k : Kind) : list (list byte) -> outcome (list byte) :=
  match fn with
  | AFirst => values_first
  | AMax => values_max k
  | AMin => values_min k
  | ALast => values_last
  | ASum => values_sum k
  end.

(** [ifunc] is nil when the name is none of the five. *)
Record accumulator := mkAccumulator { ivalues : iface; iout : iface; ifunc : option accum_func }.

Definition func_of_name (name : string) : option accum_func :=
  if decide (name = "first") then Some AFirst
  else if decide (name = "max") then Some AMax
  else if decide (name = "min") then Some AMin
  else if decide (name = "last") then Some ALast
  else if decide (name = "sum") then Some ASum
  else None.

(** [None] is the nil pointer returned for a column of another type. *)
Definition newAccumulator (cs : ColumnSeries) (param : accumParam) : option accumulator :=
  let inColumn := GetColumn (inputName param) cs in
  match func_of_name (funcName param) with
  | None => Some (mkAccumulator inColumn None None)
  | Some fn =>
      match inColumn with
      | Some c =>
          if bool_decide (col_kind c ∈ numeric_kinds)
          then Some (mkAccumulator inColumn (Some (mkCol (col_kind c) [])) (Some fn))
          else None
      | None => None
      end
  end.

(** One value more, from the rows [start] to [stop]; a slice expression may
    reach behind the length of a column only into room that the columns of a
    series do not have. *)
Definition acc_apply (start stop : nat) (ac : option accumulator) : outcome (option accumulator) :=
  match ac with
  | None => Panic "invalid memory address or nil pointer dereference"
  | Some ac =>
      match ifunc ac, ivalues ac, iout ac with
      | Some fn, Some c, Some out =>
          if (start <=? stop)%nat && (stop <=? col_len c)%nat then
            let! v := run_func fn (col_kind c) (take (stop - start) (drop start (col_elems c))) in
            Ret (Some (mkAccumulator (ivalues ac) (Some (mkCol (col_kind out) (col_elems out ++ [v]))) (ifunc ac)))
          else Panic "slice bounds out of range"
      | _, _, _ => Panic "cannot apply"
      end
  end.

Record accumGroup := mkAccumGroup { accumulators : list (option accumulator); params : list accumParam }.

Definition newAccumGroup (cs : ColumnSeries) (params : list accumParam) : accumGroup :=
  mkAccumGroup (map (newAccumulator cs) params) params.

Fixpoint apply_all_accs (start stop : nat) (acs : list (option accumulator)) : outcome (list (option accumulator)) :=
  match acs with
  | [] => Ret []
  | ac :: acs' =>
      let! ac := acc_apply start stop ac in
      let! acs := apply_all_accs start stop acs' in
      Ret (ac :: acs)
  end.

Definition group_apply (start stop : nat) (ag : accumGroup) : outcome accumGroup :=
  let! acs := apply_all_accs start stop (accumulators ag) in Ret (mkAccumGroup acs (params ag)).

Fixpoint add_out_columns (acs : list (option accumulator)) (params : list accumParam) (cs : ColumnSeries) :
    outcome ColumnSeries :=
  match acs, params with
  | Some ac :: acs', param :: params' => add_out_columns acs' params' (snd (AddColumn (outputName param) (iout ac) cs))
  | None :: _, _ :: _ => Panic "invalid memory address or nil pointer dereference"
  | [], _ :: _ => Panic "index out of range"
  | _, [] => Ret cs
  end.
Definition addColumns (ag : accumGroup) (cs : ColumnSeries) : outcome ColumnSeries :=
  add_out_columns (accumulators ag) (params ag) cs.

(** ** Candles of a series (aggtrigger.go) *)

Definition minInt64 (values : list Z) : outcome Z :=
  match values with
  | [] => Panic "index out of range"
  | v :: vs => Ret (foldl (fun min v => if v <? min then v else min) v vs)
  end.
Definition maxInt64 (values : list Z) : outcome Z :=
  match values with
  | [] => Panic "index out of range"
  | v :: vs => Ret (foldl (fun max v => if max <? v then v else max) v vs)
  end.

Section aggregate.
Context (tz : Location).

(** Row [i] and those behind it; the row of the window ends when a time is
    not within it. *)
Fixpoint aggregate_loop (timeWindow : CandleDuration) (i : nat) (ts : list Time)
    (outEpoch : list Z) (ag : accumGroup) (groupKey : Time) (groupStart : nat) :
    outcome (list Z * accumGroup) :=
  match ts with
  | [] => let! ag := group_apply groupStart i ag in Ret ((outEpoch ++ [Unix groupKey])%list, ag)
  | t :: ts' =>
      if negb (IsWithin timeWindow t groupKey) then
        let! ag := group_apply groupStart i ag in
        aggregate_loop timeWindow (S i) ts' (outEpoch ++ [Unix groupKey])%list ag (cd_Truncate timeWindow t) i
      else aggregate_loop timeWindow (S i) ts' outEpoch ag groupKey groupStart
  end.

Definition candle_params (cs : ColumnSeries) : list accumParam :=
  ([mkAccumParam "Open" "first" "Open"; mkAccumParam "High" "max" "High";
    mkAccumParam "Low" "min" "Low"; mkAccumParam "Close" "last" "Close"] ++
   (if Exists_col "Volume" cs then [mkAccumParam "Volume" "sum" "Volume"] else []))%list.

Definition aggregate (cs : ColumnSeries) (tbk : TimeBucketKey) : outcome ColumnSeries :=
  let! item := GetItemInCategory "Timeframe" tbk in
  let timeWindow := CandleDurationFromString item in
  let accumGroup := newAccumGroup cs (candle_params cs) in
  let! ts := cs_GetTime tz cs in
  match timeWindow, ts with
  | Some timeWindow, t0 :: _ =>
      let! '(outEpoch, ag) := aggregate_loop timeWindow 0 ts [] accumGroup (cd_Truncate timeWindow t0) 0 in
      addColumns ag (snd (AddColumn "Epoch" (Some (int64_column outEpoch)) NewColumnSeries))
  | None, _ => Panic "invalid memory address or nil pointer dereference"
  | _, [] => Panic "index out of range"
  end.
End aggregate.

(** *** The bounds of the destinations (util.go)

    The pointer that is kept points to the loop's variable, which is one
    variable for all rounds: what it points to changes with every round, and
    is the timeframe of the round when the comparison reads it. *)
Fixpoint bound_loop (better : Timeframe -> Timeframe -> bool) (tfs : list Timeframe)
    (tf : bool) (t : option Timeframe) : option Timeframe :=
  match tfs with
  | [] => if tf then t else None
  | t' :: tfs' =>
      let t := Some t' in
      if negb tf then bound_loop better tfs' true t
      else
        (* [tf.Duration] is [t.Duration] *)
        if better t' t' then bound_loop better tfs' true t
        else bound_loop better tfs' tf t
  end.
Definition UpperBound (tfs : list Timeframe) : option Timeframe :=
  bound_loop (fun t tf => tf_Duration tf <? tf_Duration t) tfs false None.
Definition LowerBound (tfs : list Timeframe) : option Timeframe :=
  bound_loop (fun t tf => tf_Duration t <? tf_Duration tf) tfs false None.

(** ** Records of a write (plugins/trigger/trigger.go) *)

(** A record of a write: its index and its data. *)
Abbreviation record := (list byte) (only parsing).

Definition record_Index (r : record) : outcome Z :=
  if (length r <? 8)%nat then Panic "slice bounds out of range" else Ret (ToInt64 (take 8 r)).
Definition record_Payload (r : record) : outcome (list byte) :=
  if (length r <? 8)%nat then Panic "slice bounds out of range" else Ret (drop 8 r).

Section records.
Context (tz : Location) (tf year : Z).

(** The bytes of one column of every record. *)
Fixpoint record_column (s : DataShape) (index size : nat) (records : list record) : outcome (list byte) :=
  match records with
  | [] => Ret []
  | r :: records' =>
      if (length r <? index + size)%nat then Panic "slice bounds out of range"
      else
        let slc := read_at index size r in
        let! d := (if EqualFold (ds_Name s) "Epoch" then
                     if (size <? 8)%nat then Panic "index out of range"
                     else Ret (le_bytes 8 (Unix (IndexToTime tz (ToInt64 slc) tf year)))
                   else Ret slc) in
        let! rest := record_column s index size records' in
        Ret (d ++ rest)%list
  end.

Fixpoint record_columns (ds : list DataShape) (index : nat) (records : list record) (cs : ColumnSeries) :
    outcome ColumnSeries :=
  match ds with
  | [] => Ret cs
  | s :: ds' =>
      let size := Z.to_nat (type_Size (ds_Type s)) in
      let! data := record_column s index size records in
      record_columns ds' (index + size) records
        (snd (AddColumn (ds_Name s) (ConvertByteSliceInto (ds_Type s) data) cs))
  end.

(** The candle attributes are not used. *)
Definition RecordsToColumnSeries (ds : list DataShape) (records : list record) : outcome ColumnSeries :=
  record_columns ds 0 records NewColumnSeries.
End records.

(** ** The trigger *)

Record cachedAgg := mkCachedAgg { ca_cs : ColumnSeries; ca_tail : Time; ca_head : Time }.

Definition Valid (c : cachedAgg) (tail head : Time) : bool :=
  (Unix (ca_tail c) <=? Unix tail) && (Unix head <=? Unix (ca_head c)).

Record OnDiskAggTrigger := mkTrigger { destinations : list Timeframe; tr_filter : string }.

(** [Destinations] and [Filter] as the configuration has them. *)
Definition NewTrigger (dests : list string) (filter : string) : outcome OnDiskAggTrigger :=
  if bool_decide (dests = []) then Fail (ErrMsg "plugin load error")
  else
    let filter := if decide (filter = "" \/ filter = "nasdaq") then filter else "" in
    let! tfs := (fix go ds := match ds with
      | [] => Ret []
      | dest :: ds' =>
          match TimeframeFromString dest with
          | None => Fatal ("invalid destination: " +:+ dest)
          | Some tf => let! tfs := go ds' in Ret (tf :: tfs)
          end
      end) dests in
    Ret (mkTrigger tfs filter).

(** What the trigger works on: the instance with the hints of its readers, and
    the cache, by the key of the bucket. *)
Record agg_state := mkAggState {
  ag_inst : instance;
  ag_hints : gmap string Z;
  aggCache : gmap string cachedAgg;
}.

Definition on_instance {A} (m : prog instance A) : prog agg_state A := fun s =>
  let '(o, i) := m (ag_inst s) in (o, mkAggState i (ag_hints s) (aggCache s)).

(** A reader works on the catalog and the files of the instance. *)
Definition on_reader {A} (m : prog rstate A) : prog agg_state A := fun s =>
  let '(o, r) := m (mkRS (in_catalog (ag_inst s)) (ag_hints s)) in
  let '(_, i) := with_catalog (fun _ => (Ret tt, rs_cat r)) (ag_inst s) in
  (o, mkAggState i (lastKnownMap r) (aggCache s)).

Definition set_cache (f : gmap string cachedAgg -> gmap string cachedAgg) : prog agg_state unit := fun s =>
  (Ret tt, mkAggState (ag_inst s) (ag_hints s) (f (aggCache s))).

(** An error is logged, and [None] comes back. *)
Definition or_log {A} (m : prog agg_state A) : prog agg_state (option A) := fun s =>
  match m s with
  | (Ret a, s') => (Ret (Some a), s')
  | (Fail _, s') => (Ret None, s')
  | (Fatal msg, s') => (Fatal msg, s')
  | (Panic msg, s') => (Panic msg, s')
  end.

Section trigger.
Context `{L : StorageLibs} `{R : MapRange} (tz local : Location).
Context (InstanceID : Z) (WALBypass EnableLastKnown DisableVariableCompression : bool) (CatalogDir : dloc).
(** The calendar of the filter, whether the system's zone is its zone, and what
    [WriteCSM] is given of the clock and of the writers' goroutine. *)
Context (calendar_Nasdaq : Calendar) (same_zone : bool) (walfile haveWALWriter queued : bool) (now : Z).

Definition write_csm (csm : ColumnSeriesMap) : prog agg_state unit :=
  on_instance (WriteCSM tz local InstanceID WALBypass DisableVariableCompression CatalogDir
    walfile haveWALWriter queued now csm false).

Definition open_at (epoch : Z) : bool :=
  match EpochIsMarketOpen calendar_Nasdaq epoch with Ret b => b | _ => false end.

(** What the deferred function stores for the next call. *)
Definition store_window (baseTbk : TimeBucketKey) (cs : ColumnSeries) (window : CandleDuration)
    (tail : Time) (stop : Z) : prog agg_state unit :=
  let t := cd_Truncate window tail in
  cacheSlc ← lift (match SliceColumnSeriesByEpoch cs (Some (Unix t)) (Some stop) with
                   | Fail _ => Ret cs   (* the error is dropped *)
                   | r => r
                   end);
  set_cache (insert baseTbk (mkCachedAgg cacheSlc t (time_Unix stop 0 local))).

Definition writeAggregates (tr : OnDiskAggTrigger) (aggTbk baseTbk : TimeBucketKey) (cs : ColumnSeries)
    (dest : Timeframe) (head tail : Time) : prog agg_state unit :=
  match CandleDurationFromString (tf_String dest), UpperBound (destinations tr) with
  | Some window, Some upper =>
      let start := Unix (cd_Truncate window head) in
      let stop := Unix (time_Add (cd_Ceil window tail) (- Second)) in
      slc ← lift (SliceColumnSeriesByEpoch cs (Some start) (Some stop));
      epochs ← lift (GetEpoch slc);
      if bool_decide (epochs = []) then mret tt
      else
        let applyingFilter := bool_decide (tr_filter tr = "nasdaq") && (Day <=? cd_duration window) && same_zone in
        let body :=
          (if applyingFilter then
             tqSlc ← lift (ApplyTimeQual open_at slc);
             tqEpochs ← lift (GetEpoch tqSlc);
             if bool_decide (tqEpochs = []) then write_csm ∅
             else
               out ← lift (aggregate tz tqSlc aggTbk);
               write_csm (AddColumnSeries aggTbk out ∅)
           else
             out ← lift (aggregate tz slc aggTbk);
             write_csm (AddColumnSeries aggTbk out ∅)) in
        if tf_Duration dest =? tf_Duration upper then
          (* the deferred store runs after the write, whether it failed or not *)
          fun s => match body s with
                   | (Ret _, s') => store_window baseTbk cs window tail stop s'
                   | (Fail e, s') => (store_window baseTbk cs window tail stop ;; fail e) s'
                   | r => r
                   end
        else body
  | _, _ => lift (Panic "invalid memory address or nil pointer dereference")
  end.

(** The first destination that fails ends the loop. *)
Fixpoint write_destinations (tr : OnDiskAggTrigger) (dests : list Timeframe) (tbk : TimeBucketKey)
    (cs : ColumnSeries) (tail head : Time) (elements : list string) : prog agg_state unit :=
  match dests with
  | [] => mret tt
  | dest :: dests' =>
      match elements with
      | e0 :: _ :: e2 :: _ =>
          let aggTbk := NewTimeBucketKeyFromString (e0 +:+ "/" +:+ tf_String dest +:+ "/" +:+ e2) in
          r ← or_log (writeAggregates tr aggTbk tbk cs dest head tail);
          match r with
          | Some _ => write_destinations tr dests' tbk cs tail head elements
          | None => mret tt
          end
      | _ => lift (Panic "index out of range")
      end
  end.

Definition agg_query (tbk : TimeBucketKey) (window : CandleDuration) (head tail : Time) :
    prog agg_state ColumnSeriesMap :=
  let start := cd_Truncate window head in
  let stop := time_Add (cd_Ceil window tail) (- Second) in
  q ← lift (AddTargetKey tbk (NewQuery tz CatalogDir));
  let q := SetRange tz (Unix start) (Unix stop) q in
  '(_, parsed) ← on_reader (on_cat (Parse tz q));
  on_reader (scanner ← NewReader tz local EnableLastKnown parsed;
             reader_Read tz EnableLastKnown DisableVariableCompression scanner).

(** The year of a file's name; [strings.Replace] takes the first ".bin" out. *)
Definition file_year (fileName : string) : Z :=
  let i := strings_Index fileName ".bin" in
  let name := if i <? 0 then fileName
              else String.substring 0 (Z.to_nat i) fileName +:+
                   String.substring (Z.to_nat i + 4) (String.length fileName) fileName in
  int16 (fst (Atoi name)).

Definition Fire (tr : OnDiskAggTrigger) (keyPath : string) (records : list record) : prog agg_state unit :=
  let elements := Split keyPath "/" in
  match elements !! 1%nat with
  | None => lift (Panic "index out of range")
  | Some tfName =>
      match NewTimeframe (ArgString tfName), last elements, records, last records with
      | Some tf, Some fileName, r0 :: _, Some r1 =>
          let year := file_year fileName in
          let tbk := NewTimeBucketKey (Join (take (length elements - 1) elements) "/") [] in
          i0 ← lift (record_Index r0);
          let head := IndexToTime tz i0 (tf_Duration tf) year in
          i1 ← lift (record_Index r1);
          let tail := IndexToTime tz i1 (tf_Duration tf) year in
          match UpperBound (destinations tr) with
          | None => lift (Panic "invalid memory address or nil pointer dereference")
          | Some upper =>
              let window := CandleDurationFromString (tf_String upper) in
              let query :=
                match window with
                | None => lift (Panic "invalid memory address or nil pointer dereference")
                | Some window =>
                    r ← or_log (agg_query tbk window head tail);
                    match r with
                    | None => mret tt
                    | Some csm =>
                        match csm !! tbk with
                        | Some cs => write_destinations tr (destinations tr) tbk cs tail head elements
                        | None => mret tt
                        end
                    end
                end in
              s ← state_get;
              match aggCache s !! tbk with
              | Some c =>
                  if Valid c tail head then
                    cs ← lift (RecordsToColumnSeries tz (tf_Duration tf) year (cs_GetDataShapes (ca_cs c)) records);
                    cs ← lift (ColumnSeriesUnion cs (ca_cs c));
                    write_destinations tr (destinations tr) tbk cs tail head elements
                  else set_cache (delete tbk) ;; query
              | None => query
              end
          end
      | None, _, _, _ => lift (Panic "invalid memory address or nil pointer dereference")
      | _, _, _, _ => lift (Panic "index out of range")
      end
  end.
End trigger.
