(* ===== verification/AggProofs.v ===== *)
(** * Aggregation computes the candle of every window

    The loop that cuts a series where the window changes gives the same as
    grouping its rows by their window, as long as they are in the order of
    time; the functions of the accumulators give the first, the highest, the
    lowest, the last and the sum of the rows of a window. *)

From S2P Require Export OnDiskAgg.
From S2P Require Import GoStrings.

(** ** Grouping by a key *)

(** The keys, each where it occurs first. *)
Fixpoint distinct (ks : list Z) : list Z :=
  match ks with
  | [] => []
  | k :: ks' => k :: filter (fun k' => k' <> k) (distinct ks')
  end.

(** The values of the rows with a key. *)
Definition of_key {A} (ks : list Z) (elems : list A) (k : Z) : list A :=
  map snd (filter (fun p => fst p = k) (zip ks elems)).

Lemma elem_of_distinct k ks : k ∈ distinct ks <-> k ∈ ks.
Proof.
  induction ks as [|k' ks IH]; [done|]. cbn [distinct]. rewrite !elem_of_cons, list_elem_of_filter, IH.
  destruct (decide (k = k')); tauto.
Qed.

Lemma distinct_run k ks ks' :
  ks <> [] -> Forall (fun x => x = k) ks -> Forall (fun x => x <> k) ks' -> distinct (ks ++ ks') = k :: distinct ks'.
Proof.
  intros Hne Hk Hk'. induction Hk as [|x ks -> Hk IH]; [done|]. cbn [app distinct]. f_equal.
  destruct ks as [|x ks].
  - cbn [app]. apply filter_all. rewrite Forall_forall in Hk' |- *. intros x Hx.
    apply Hk'. by apply elem_of_distinct.
  - rewrite IH by done. rewrite filter_cons_False by (intros H; by apply H).
    apply filter_all. rewrite Forall_forall in Hk' |- *. intros y Hy. apply Hk'. by apply elem_of_distinct.
Qed.

Lemma zip_Forall_fst {A} (P : Z -> Prop) ks (elems : list A) : Forall P ks -> Forall (fun p => P (fst p)) (zip ks elems).
Proof. intros H. revert elems. induction H; intros [|e elems]; constructor; auto. Qed.

Lemma of_key_slice {A} ks1 ks2 ks3 (elems : list A) k :
  length elems = length (ks1 ++ ks2 ++ ks3) ->
  Forall (fun x => x <> k) ks1 -> Forall (fun x => x = k) ks2 -> Forall (fun x => x <> k) ks3 ->
  of_key (ks1 ++ ks2 ++ ks3) elems k = take (length ks2) (drop (length ks1) elems).
Proof.
  intros Hl H1 H2 H3. rewrite !length_app in Hl. unfold of_key.
  rewrite <- (take_drop (length ks1) elems) at 1. rewrite zip_with_app by (rewrite length_take; lia).
  set (es := drop (length ks1) elems).
  assert (Hes : length es = (length ks2 + length ks3)%nat) by (unfold es; rewrite length_drop; lia).
  rewrite <- (take_drop (length ks2) es) at 1. rewrite zip_with_app by (rewrite length_take; lia).
  rewrite !filter_app, !map_app.
  rewrite (filter_none _ (zip ks1 _)) by (by apply (zip_Forall_fst (fun x => x <> k))).
  rewrite (filter_none _ (zip ks3 _)) by (by apply (zip_Forall_fst (fun x => x <> k))).
  rewrite (filter_all _ (zip ks2 _)) by (by apply (zip_Forall_fst (fun x => x = k))).
  cbn [map app]. rewrite app_nil_r. change (map snd) with (fmap (M := list) (snd (A := Z) (B := A))).
  apply snd_zip. rewrite length_take. lia.
Qed.

(** ** The accumulators *)

(** A function and the column it is applied to. *)
Definition acc_spec : Type := accum_func * column.

Definition acc_of (s : acc_spec) (out : list (list byte)) : option accumulator :=
  Some (mkAccumulator (Some (snd s)) (Some (mkCol (col_kind (snd s)) out)) (Some (fst s))).
Definition group_of (specs : list acc_spec) (outs : list (list (list byte))) (ps : list accumParam) : accumGroup :=
  mkAccumGroup (zip_with acc_of specs outs) ps.

Definition gives (s : acc_spec) (b : list (list byte)) (v : list byte) : Prop :=
  run_func (fst s) (col_kind (snd s)) b = Ret v.

Lemma group_apply_ok specs outs ps start stop vs :
  (start <= stop)%nat -> Forall (fun s => stop <= col_len (snd s))%nat specs ->
  Forall2 (fun s v => gives s (take (stop - start) (drop start (col_elems (snd s)))) v) specs vs ->
  length outs = length specs ->
  group_apply start stop (group_of specs outs ps) = Ret (group_of specs (zip_with (fun out v => out ++ [v]) outs vs) ps).
Proof.
  intros Hle Hlen Hvs Ho. unfold group_apply, group_of. cbn [accumulators params].
  assert (H : apply_all_accs start stop (zip_with acc_of specs outs) =
    Ret (zip_with acc_of specs (zip_with (fun out v => out ++ [v]) outs vs))); [|by rewrite H].
  revert outs Ho. induction Hvs as [|s v specs vs Hv Hvs IH]; intros [|out outs] Ho; try done.
  apply Forall_cons in Hlen as [Hl Hlen]. cbn [zip_with apply_all_accs acc_of acc_apply ifunc ivalues iout].
  rewrite (proj2 (Nat.leb_le _ _) Hle), (proj2 (Nat.leb_le _ _) Hl). cbn [andb].
  unfold gives in Hv. rewrite Hv. cbn [outcome_bind]. rewrite IH by (done || by injection Ho). done.
Qed.

(** ** The loop *)

Section loop.
Context (off : Z) (cd : CandleDuration) (Hcd : cd_suffix cd ∈ ["D"; "H"; "Min"; "Sec"]%string).
Abbreviation zone := (FixedZone off).

(** The start of a time's window, in nanoseconds. *)
Definition window_of (t : Time) : Z := t_ns (cd_Truncate cd t).

Lemma IsWithin_window t u :
  t_loc t = zone -> t_loc u = zone ->
  IsWithin cd t (cd_Truncate cd u) = bool_decide (window_of t = window_of u).
Proof.
  intros Ht Hu. rewrite (IsWithin_Truncate off) by done. apply bool_decide_ext. unfold window_of. split; [by intros ->|].
  intros H. pose proof (cd_Truncate_loc off cd t Ht). pose proof (cd_Truncate_loc off cd u Hu).
  destruct (cd_Truncate cd t), (cd_Truncate cd u). cbn in *. by subst.
Qed.

Context (specs : list acc_spec) (ps : list accumParam) (ks : list Z) (value : acc_spec -> Z -> list byte).
Context (Hlen : Forall (fun s => col_len (snd s) = length ks) specs).
Context (Hval : Forall (fun s => forall k, k ∈ ks -> gives s (of_key ks (col_elems (snd s)) k) (value s k)) specs).

(** The outputs with the values of more windows. *)
Definition extend (outs : list (list (list byte))) (keys : list Z) : list (list (list byte)) :=
  zip_with (fun s out => out ++ map (value s) keys) specs outs.

Lemma extend_app outs keys keys' : length outs = length specs ->
  extend (extend outs keys) keys' = extend outs (keys ++ keys').
Proof using Type.
  clear. intros Ho. unfold extend. revert outs Ho. induction specs as [|s l IH]; intros [|out outs] Ho; try done.
  cbn. f_equal; [by rewrite map_app, app_assoc|]. apply IH. by injection Ho.
Qed.
Lemma length_extend outs keys : length outs = length specs -> length (extend outs keys) = length specs.
Proof using Type. clear. intros Ho. unfold extend. rewrite length_zip_with. lia. Qed.

(** A window that is closed: its rows are a slice. *)
Lemma close_window ks1 ks2 ks3 outs k :
  ks = ks1 ++ ks2 ++ ks3 -> ks2 <> [] -> length outs = length specs ->
  Forall (fun x => x <> k) ks1 -> Forall (fun x => x = k) ks2 -> Forall (fun x => x <> k) ks3 ->
  group_apply (length ks1) (length ks1 + length ks2) (group_of specs outs ps) =
  Ret (group_of specs (extend outs [k]) ps).
Proof using Hlen Hval.
  intros Hks Hne Ho H1 H2 H3.
  assert (Hin : k ∈ ks).
  { rewrite Hks. apply elem_of_app. right. apply elem_of_app. left. destruct ks2 as [|x ks2]; [done|].
    apply Forall_cons in H2 as [-> _]. by left. }
  rewrite (group_apply_ok _ _ _ _ _ (map (fun s => value s k) specs)); try done; [|lia| |].
  - f_equal. f_equal. unfold extend. clear Hlen Hval. revert outs Ho.
    induction specs as [|s l IH]; intros [|out outs] Ho; try done. cbn. f_equal. apply IH. by injection Ho.
  - eapply Forall_impl; [exact Hlen|]. intros s Hs. cbn in Hs. rewrite Hs, Hks, !length_app. lia.
  - apply Forall2_fmap_r, Forall_Forall2_diag. rewrite Forall_forall in Hlen, Hval |- *. intros s Hs.
    replace (length ks1 + length ks2 - length ks1)%nat with (length ks2) by lia.
    specialize (Hval s Hs k Hin). specialize (Hlen s Hs). cbn in Hlen.
    rewrite Hks in Hval. rewrite of_key_slice in Hval; [exact Hval| |done..].
    fold (col_len (snd s)). by rewrite Hlen, Hks.
Qed.

Lemma aggregate_loop_spec ts : forall ks1 ks2 outE outs u,
  ks = ks1 ++ ks2 ++ map window_of ts -> Forall (fun t => t_loc t = zone) ts -> t_loc u = zone ->
  ks2 <> [] -> Forall (fun x => x = window_of u) ks2 -> Forall (fun x => x < window_of u) ks1 ->
  StronglySorted Z.le (window_of u :: map window_of ts) -> length outs = length specs ->
  let keys := distinct (ks2 ++ map window_of ts) in
  aggregate_loop cd (length ks1 + length ks2) ts outE (group_of specs outs ps) (cd_Truncate cd u) (length ks1) =
  Ret (outE ++ map (fun k => k / nsPerSec) keys, group_of specs (extend outs keys) ps).
Proof using Hlen Hval Hcd.
  induction ts as [|t ts IH]; intros ks1 ks2 outE outs u Hks Hts Hu Hne H2 H1 Hs Ho keys; unfold keys.
  - cbn [map aggregate_loop] in *. rewrite app_nil_r. rewrite <- (app_nil_r ks2).
    rewrite (distinct_run (window_of u)) by done. cbn [distinct map].
    rewrite app_nil_r, (close_window ks1 ks2 [] outs (window_of u)); try done.
    eapply Forall_impl; [exact H1|]. intros x Hx. cbn in Hx. lia.
  - cbn [aggregate_loop]. apply Forall_cons in Hts as [Ht Hts]. rewrite IsWithin_window by done.
    apply StronglySorted_inv in Hs as [Hs Hle]. cbn [map] in Hle, Hs. apply Forall_cons in Hle as [Hle Hle'].
    case_bool_decide as Hw; cbn [negb].
    + replace (S (length ks1 + length ks2)) with (length ks1 + length (ks2 ++ [window_of t]))%nat
        by (rewrite length_app; cbn; lia).
      cbn [map]. replace (ks2 ++ window_of t :: map window_of ts) with ((ks2 ++ [window_of t]) ++ map window_of ts)
        by (by rewrite <- app_assoc).
      apply (IH ks1 (ks2 ++ [window_of t]) outE outs u); try done.
      * rewrite Hks. cbn [map]. by rewrite <- app_assoc.
      * by destruct ks2.
      * apply Forall_app. split; [done|]. by repeat constructor.
      * constructor; [by apply StronglySorted_inv in Hs as [Hs _]|done].
    + assert (Hlt : window_of u < window_of t) by lia.
      assert (Hgt : Forall (fun x => x <> window_of u) (window_of t :: map window_of ts)).
      { constructor; [lia|]. apply StronglySorted_inv in Hs as [_ Hs]. eapply Forall_impl; [exact Hs|].
        intros x Hx. cbn in Hx. lia. }
      rewrite (close_window ks1 ks2 (window_of t :: map window_of ts) outs (window_of u)); try done.
      2: { eapply Forall_impl; [exact H1|]. intros x Hx. cbn in Hx. lia. }
      cbn [outcome_bind].
      replace (S (length ks1 + length ks2)) with (length (ks1 ++ ks2) + length [window_of t])%nat
        by (rewrite length_app; cbn; lia).
      replace (length ks1 + length ks2)%nat with (length (ks1 ++ ks2)) by apply length_app.
      rewrite (IH (ks1 ++ ks2) [window_of t] (outE ++ [Unix (cd_Truncate cd u)]) (extend outs [window_of u]) t);
        try done.
      * cbn [map]. rewrite (distinct_run (window_of u) ks2 (window_of t :: _)) by done. rewrite extend_app by done.
        cbn [map app]. by rewrite <- app_assoc.
      * rewrite Hks. cbn [map]. by rewrite <- app_assoc.
      * by repeat constructor.
      * apply Forall_app. split; [eapply Forall_impl; [exact H1|]|eapply Forall_impl; [exact H2|]];
          intros x Hx; cbn in Hx; lia.
      * by apply length_extend.
Qed.
End loop.

(** ** The columns of the result *)

Lemma GetColumn_add name c cs name' :
  Exists_col name cs = false ->
  GetColumn name' (snd (AddColumn name c cs)) = if decide (name' = name) then c else GetColumn name' cs.
Proof.
  intros H. unfold AddColumn. rewrite H. unfold GetColumn, GetByName. cbn [snd columns].
  case_decide as Hn; [subst; by rewrite lookup_insert_eq|by rewrite lookup_insert_ne].
Qed.

Lemma Exists_add name c cs name' :
  Exists_col name cs = false ->
  Exists_col name' (snd (AddColumn name c cs)) = bool_decide (name' = name) || Exists_col name' cs.
Proof.
  intros H. unfold AddColumn. rewrite H. unfold Exists_col. cbn [snd columns].
  destruct (decide (name' = name)) as [->|Hn].
  - rewrite lookup_insert_eq, !bool_decide_eq_true_2 by eauto. done.
  - by rewrite lookup_insert_ne, (bool_decide_eq_false_2 (name' = name)).
Qed.

Lemma add_out_columns_spec ps : forall specs outs cs,
  length specs = length ps -> length outs = length ps -> NoDup (map outputName ps) ->
  Forall (fun p => Exists_col (outputName p) cs = false) ps ->
  exists out, add_out_columns (zip_with acc_of specs outs) ps cs = Ret out /\
    (forall name, name ∉ map outputName ps -> GetColumn name out = GetColumn name cs) /\
    (forall i p s o, ps !! i = Some p -> specs !! i = Some s -> outs !! i = Some o ->
       GetColumn (outputName p) out = Some (mkCol (col_kind (snd s)) o)).
Proof.
  induction ps as [|p ps IH]; intros [|s specs] [|o outs] cs Hs Ho Hnd Hex; try done.
  { exists cs. split_and!; [done|done|]. intros [] ? ? ? [=]. }
  cbn [map] in Hnd. apply NoDup_cons in Hnd as [Hp Hnd]. apply Forall_cons in Hex as [Hp0 Hex].
  cbn [zip_with acc_of add_out_columns iout]. set (c := Some (mkCol _ o)).
  destruct (IH specs outs (snd (AddColumn (outputName p) c cs))) as (out & Hout & Hother & Hat).
  { by injection Hs. }
  { by injection Ho. }
  { done. }
  { rewrite Forall_forall in Hex |- *. intros q Hq. rewrite Exists_add by done.
    rewrite bool_decide_eq_false_2; [by apply Hex|]. intros He. apply Hp. rewrite <- He.
    by apply list_elem_of_fmap_2. }
  exists out. split_and!; [exact Hout| |].
  - intros name Hname. apply not_elem_of_cons in Hname as [Hne Hname].
    rewrite Hother, GetColumn_add by done. by rewrite decide_False.
  - intros [|i] p' s' o' Hp' Hs' Ho'; cbn in Hp', Hs', Ho'; [|by eapply Hat].
    injection Hp' as <-. injection Hs' as <-. injection Ho' as <-.
    rewrite Hother, GetColumn_add by done. by rewrite decide_True.
Qed.

(** ** Candles *)

Lemma cs_GetTime_epoch off cs ep :
  GetColumn "Epoch" cs = Some (int64_column ep) -> GetColumn "Nanoseconds" cs = None -> Forall (inS 64) ep ->
  cs_GetTime (FixedZone off) cs = Ret (map (fun e => time_Unix e 0 (FixedZone off)) ep).
Proof.
  intros He Hn Hep. unfold cs_GetTime. rewrite He, Hn. cbn [as_int64s outcome_bind].
  rewrite decide_True by done. cbn [outcome_bind times_of]. f_equal.
  unfold col_int64s, int64_column. cbn [col_elems]. rewrite map_map, map_map. apply map_ext_in.
  intros e Hin. apply list_elem_of_In in Hin. rewrite Forall_forall in Hep.
  rewrite <- (app_nil_r (le_bytes 8 e)), ToInt64_le_bytes, wrapS_id by (done || by apply Hep). done.
Qed.

Lemma of_key_nonempty {A} ks (elems : list A) k : length elems = length ks -> k ∈ ks -> of_key ks elems k <> [].
Proof.
  intros Hl Hk H. apply list_elem_of_lookup in Hk as [i Hi].
  destruct (lookup_lt_is_Some_2 elems i) as [e He]; [rewrite Hl; by eapply lookup_lt_Some|].
  assert (Hin : (k, e) ∈ zip ks elems).
  { apply list_elem_of_lookup. exists i. rewrite lookup_zip_with, Hi. cbn. by rewrite He. }
  assert (He' : e ∈ of_key ks elems k).
  { unfold of_key. change e with (snd (k, e)). apply (list_elem_of_fmap_2 snd), list_elem_of_filter. done. }
  rewrite H in He'. by apply elem_of_nil in He'.
Qed.

(** Every function but the sum has a value where there is a row. *)
Lemma run_func_total fn k b : fn <> ASum -> b <> [] -> exists v, run_func fn k b = Ret v.
Proof.
  intros Hf Hb. destruct b as [|e b]; [done|]. destruct fn; cbn [run_func].
  - exists e. done.
  - eexists. reflexivity.
  - eexists. reflexivity.
  - unfold values_last. destruct (last (e :: b)) as [v|] eqn:Hl; [by exists v|]. by apply last_None in Hl.
  - done.
Qed.

Definition candle_value (ks : list Z) (s : acc_spec) (k : Z) : list byte :=
  match run_func (fst s) (col_kind (snd s)) (of_key ks (col_elems (snd s)) k) with Ret v => v | _ => [] end.

Lemma candle_params_names cs :
  NoDup (map outputName (candle_params cs)) /\ Forall (fun p => outputName p <> "Epoch"%string) (candle_params cs) /\
  Forall (fun p => outputName p = inputName p /\ is_Some (func_of_name (funcName p)) /\
    (func_of_name (funcName p) = Some ASum -> inputName p = "Volume"%string)) (candle_params cs).
Proof.
  unfold candle_params. destruct (Exists_col "Volume" cs); cbn [app map outputName inputName funcName].
  all: split_and!; [apply (bool_decide_unpack _); reflexivity|repeat constructor; discriminate|].
  all: repeat constructor; cbn; try (by eexists); intros H; discriminate H.
Qed.

(** The specifications of the parameters. *)
Lemma candle_specs cs n ps :
  Forall (fun p => is_Some (func_of_name (funcName p)) /\ exists c, GetColumn (inputName p) cs = Some c /\
    col_kind c ∈ numeric_kinds /\ col_len c = n) ps ->
  exists specs, newAccumGroup cs ps = group_of specs (map (fun _ => []) specs) ps /\
    Forall2 (fun p s => func_of_name (funcName p) = Some (fst s) /\ GetColumn (inputName p) cs = Some (snd s) /\
      col_len (snd s) = n) ps specs.
Proof.
  intros H. unfold newAccumGroup, group_of. induction H as [|p ps [[fn Hfn] (c & Hc & Hk & Hn)] _ IH].
  { exists []. split; [done|constructor]. }
  destruct IH as (specs & Hg & Hs). injection Hg as Hg. exists ((fn, c) :: specs). split; [|by constructor].
  cbn [map zip_with]. f_equal. f_equal; [|exact Hg]. unfold newAccumulator. rewrite Hfn, Hc.
  by rewrite bool_decide_eq_true_2.
Qed.

(** The whole loop, from the first row. *)
Lemma aggregate_loop_all off cd (specs : list acc_spec) ps t0 ts (value : acc_spec -> Z -> list byte) :
  cd_suffix cd ∈ ["D"; "H"; "Min"; "Sec"]%string ->
  Forall (fun t => t_loc t = FixedZone off) (t0 :: ts) ->
  StronglySorted Z.le (map (window_of cd) (t0 :: ts)) ->
  let ks := map (window_of cd) (t0 :: ts) in
  Forall (fun s => col_len (snd s) = length ks) specs ->
  Forall (fun s => forall k, k ∈ ks -> gives s (of_key ks (col_elems (snd s)) k) (value s k)) specs ->
  aggregate_loop cd 0 (t0 :: ts) [] (group_of specs (map (fun _ : acc_spec => []) specs) ps) (cd_Truncate cd t0) 0 =
  Ret (map (fun k => k / nsPerSec) (distinct ks),
       group_of specs (extend specs value (map (fun _ : acc_spec => []) specs) (distinct ks)) ps).
Proof.
  intros Hsuf Hloc Hs ks Hlen Hval. apply Forall_cons in Hloc as [H0 Hloc].
  cbn [aggregate_loop]. rewrite (IsWithin_window off) by done. rewrite bool_decide_eq_true_2 by done. cbn [negb].
  apply (aggregate_loop_spec off cd Hsuf specs ps ks value Hlen Hval ts [] [window_of cd t0] [] _ t0); try done.
  - by repeat constructor.
  - apply length_map.
Qed.

Lemma window_sorted off cd ep :
  cd_suffix cd ∈ ["D"; "H"; "Min"; "Sec"]%string -> StronglySorted Z.le ep ->
  StronglySorted Z.le (map (fun e => window_of cd (time_Unix e 0 (FixedZone off))) ep).
Proof.
  intros Hsuf. induction 1 as [|e ep _ IH He]; cbn [map]; constructor; [exact IH|].
  apply Forall_map. eapply Forall_impl; [exact He|]. intros e' Hle. cbn.
  apply (cd_Truncate_mono off); [done..|]. unfold time_Unix, nsPerSec. cbn. lia.
Qed.

(** With the functions of the code for the columns of a candle. *)
Lemma aggregate_runs (off : Z) (cs : ColumnSeries) (tbk : TimeBucketKey) (item : string) (cd : CandleDuration)
    (ep : list Z) :
  GetItemInCategory "Timeframe" tbk = Ret item -> CandleDurationFromString item = Some cd ->
  cd_suffix cd ∈ ["D"; "H"; "Min"; "Sec"]%string ->
  GetColumn "Epoch" cs = Some (int64_column ep) -> GetColumn "Nanoseconds" cs = None ->
  Forall (inS 64) ep -> StronglySorted Z.le ep -> ep <> [] ->
  Forall (fun p => exists c, GetColumn (inputName p) cs = Some c /\
    col_kind c ∈ numeric_kinds /\ col_len c = length ep) (candle_params cs) ->
  let ks := map (fun e => window_of cd (time_Unix e 0 (FixedZone off))) ep in
  (forall c k, GetColumn "Volume" cs = Some c -> k ∈ ks ->
     exists v, values_sum (col_kind c) (of_key ks (col_elems c) k) = Ret v) ->
  exists out, aggregate (FixedZone off) cs tbk = Ret out /\
    GetColumn "Epoch" out = Some (int64_column (map (fun k => k / nsPerSec) (distinct ks))) /\
    Forall (fun p => exists fn c vs, func_of_name (funcName p) = Some fn /\ GetColumn (inputName p) cs = Some c /\
      GetColumn (outputName p) out = Some (mkCol (col_kind c) vs) /\
      Forall2 (fun k v => run_func fn (col_kind c) (of_key ks (col_elems c) k) = Ret v) (distinct ks) vs)
      (candle_params cs).
Proof.
  intros Hitem Hcd Hsuf He Hn Hep Hsorted Hne Hcols ks Hsum.
  destruct (candle_params_names cs) as (Hnd & Hnotep & Hnames).
  destruct (candle_specs cs (length ep) (candle_params cs)) as (specs & Hgroup & Hspecs).
  { rewrite Forall_forall in Hcols, Hnames |- *. intros p Hp. split; [by apply Hnames|by apply Hcols]. }
  assert (Hksl : length ks = length ep) by apply length_map.
  assert (Hgives : Forall (fun s => forall k, k ∈ ks -> gives s (of_key ks (col_elems (snd s)) k) (candle_value ks s k)) specs).
  { apply Forall_forall. intros s Hs k Hk. apply list_elem_of_lookup in Hs as [i Hi].
    destruct (Forall2_lookup_r _ _ _ _ _ Hspecs Hi) as (p & Hp & Hfn & Hc & Hl).
    rewrite Forall_forall in Hnames. destruct (Hnames p) as (_ & _ & Hvol); [by eapply list_elem_of_lookup_2|].
    assert (Hv : exists v, run_func (fst s) (col_kind (snd s)) (of_key ks (col_elems (snd s)) k) = Ret v).
    { destruct (decide (fst s = ASum)) as [Ha|Ha].
      - rewrite Ha in Hfn |- *. apply Hsum; [|done]. by rewrite <- (Hvol Hfn).
      - apply run_func_total; [done|]. apply of_key_nonempty; [|done]. fold (col_len (snd s)). lia. }
    destruct Hv as [v Hv]. unfold gives, candle_value. by rewrite Hv. }
  assert (Hlen : Forall (fun s => col_len (snd s) = length ks) specs).
  { rewrite Hksl. apply Forall_forall. intros s Hs. apply list_elem_of_lookup in Hs as [i Hi].
    by destruct (Forall2_lookup_r _ _ _ _ _ Hspecs Hi) as (p & _ & _ & _ & Hl). }
  set (outs := extend specs (candle_value ks) (map (fun _ => []) specs) (distinct ks)).
  assert (Houts : length outs = length specs) by (apply length_extend, length_map).
  assert (Hpl : length specs = length (candle_params cs)) by (by rewrite (Forall2_length _ _ _ Hspecs)).
  set (epoch := snd (AddColumn "Epoch" (Some (int64_column (map (fun k => k / nsPerSec) (distinct ks)))) NewColumnSeries)).
  destruct (add_out_columns_spec (candle_params cs) specs outs epoch) as (out & Hout & Hother & Hat).
  { exact Hpl. }
  { congruence. }
  { exact Hnd. }
  { eapply Forall_impl; [exact Hnotep|]. intros p Hp. unfold epoch. rewrite Exists_add by done.
    by rewrite bool_decide_eq_false_2. }
  exists out. split_and!.
  - unfold aggregate. rewrite Hitem. cbn [outcome_bind]. rewrite Hcd, (cs_GetTime_epoch off cs ep) by done.
    cbn [outcome_bind]. rewrite Hgroup. destruct ep as [|e0 ep]; [done|].
    pose proof (aggregate_loop_all off cd specs (candle_params cs) (time_Unix e0 0 (FixedZone off))
      (map (fun e => time_Unix e 0 (FixedZone off)) ep) (candle_value ks) Hsuf) as Hloop.
    cbn zeta in Hloop. rewrite <- (map_cons (fun e => time_Unix e 0 (FixedZone off))), map_map in Hloop. fold ks in Hloop.
    cbn [map] in Hloop |- *. rewrite Hloop.
    + cbn [outcome_bind addColumns accumulators params group_of]. exact Hout.
    + constructor; [done|]. by apply Forall_map, Forall_true.
    + by apply (window_sorted off cd (e0 :: ep)).
    + exact Hlen.
    + exact Hgives.
  - rewrite Hother; [unfold epoch; rewrite GetColumn_add by done; by rewrite decide_True|].
    intros Hin. apply list_elem_of_fmap in Hin as (p & Hp & Hin). rewrite Forall_forall in Hnotep.
    by apply (Hnotep p Hin).
  - apply Forall_forall. intros p Hp. apply list_elem_of_lookup in Hp as [i Hp].
    destruct (Forall2_lookup_l _ _ _ _ _ Hspecs Hp) as (s & Hs & Hfn & Hc & _).
    exists (fst s), (snd s), (map (candle_value ks s) (distinct ks)). split_and!; [exact Hfn|exact Hc| |].
    + apply (Hat i p s); [done|done|]. unfold outs, extend. apply lookup_zip_with_Some.
      exists s, []. split_and!; [done|exact Hs|]. apply list_lookup_fmap_Some. by exists s.
    + apply Forall2_fmap_r, Forall_Forall2_diag, Forall_forall. intros k Hk.
      rewrite Forall_forall in Hgives. apply (Hgives s); [by eapply list_elem_of_lookup_2|].
      by apply elem_of_distinct.
Qed.

(** ** The functions *)

(** What the numbers of a column are compared by. *)
Definition elem_le (k : Kind) (a b : list byte) : Prop :=
  if kind_integer k then int_value k a <= int_value k b else SFleb (float_value k a) (float_value k b) = true.
Definition not_nan (k : Kind) (a : list byte) : Prop := kind_integer k = true \/ real (float_value k a).

Lemma elem_le_refl k a : not_nan k a -> elem_le k a a.
Proof. unfold elem_le, not_nan. intros [->|H]; [lia|]. destruct (kind_integer k); [lia|by apply SFleb_refl]. Qed.
Lemma elem_le_trans k a b c : not_nan k a -> not_nan k b -> not_nan k c ->
  elem_le k a b -> elem_le k b c -> elem_le k a c.
Proof.
  unfold elem_le, not_nan. destruct (kind_integer k); [intros; lia|]. intros [|Ha] [|Hb] [|Hc]; try done. by apply SFleb_trans.
Qed.
Lemma elem_ltb_le k a b : not_nan k a -> not_nan k b ->
  (elem_ltb k a b = true -> elem_le k a b) /\ (elem_ltb k a b = false -> elem_le k b a).
Proof.
  unfold elem_le, elem_ltb, not_nan. destruct (kind_integer k); [intros _ _; rewrite Z.ltb_lt, Z.ltb_ge; lia|].
  intros [|Ha] [|Hb]; try done. split; [by apply SFltb_leb|]. intros H. by rewrite SFleb_ltb, H.
Qed.

(** The maximum and the minimum: what a fold keeps that changes to a number
    when it is better, by an order that the test decides. *)
Lemma fold_extreme {A} (number : A -> Prop) (le : A -> A -> Prop) (better : A -> A -> bool) v vs :
  (forall a, number a -> le a a) ->
  (forall a b c, number a -> number b -> number c -> le a b -> le b c -> le a c) ->
  (forall a b, number a -> number b -> (better a b = true -> le a b) /\ (better a b = false -> le b a)) ->
  let m := foldl (fun m val => if better m val then val else m) v vs in
  m ∈ v :: vs /\ (Forall number (v :: vs) -> Forall (fun x => le x m) (v :: vs)).
Proof.
  intros Hrefl Htrans Hb. revert v. induction vs as [|x vs IH]; intros v; cbn [foldl].
  { split; [by left|]. intros Hv. apply Forall_cons in Hv as [Hv _]. repeat constructor. by apply Hrefl. }
  specialize (IH (if better v x then x else v)). cbn zeta in IH. destruct IH as [Hin Hall].
  set (m := foldl _ _ vs) in *. split.
  { rewrite !elem_of_cons in *. destruct (better v x); tauto. }
  intros [Hv [Hx Hvs]%Forall_cons]%Forall_cons. destruct (Hb v x Hv Hx) as [Ht Hf].
  assert (Hm : number m).
  { apply elem_of_cons in Hin as [->|Hin]; [by destruct (better v x)|]. rewrite Forall_forall in Hvs. by apply Hvs. }
  destruct (better v x) eqn:E.
  - assert (H : Forall number (x :: vs)) by by constructor. apply Hall, Forall_cons in H as [H1 H2].
    repeat constructor; [|exact H1|exact H2]. by apply (Htrans _ x); auto.
  - assert (H : Forall number (v :: vs)) by by constructor. apply Hall, Forall_cons in H as [H1 H2].
    repeat constructor; [exact H1| |exact H2]. by apply (Htrans _ v); auto.
Qed.

(** One of the numbers, and none is above it, or below. *)
Definition is_highest (k : Kind) (rows : list (list byte)) (v : list byte) : Prop :=
  v ∈ rows /\ (Forall (not_nan k) rows -> Forall (fun x => elem_le k x v) rows).
Definition is_lowest (k : Kind) (rows : list (list byte)) (v : list byte) : Prop :=
  v ∈ rows /\ (Forall (not_nan k) rows -> Forall (fun x => elem_le k v x) rows).

Lemma values_max_highest k rows v : values_max k rows = Ret v -> is_highest k rows v.
Proof.
  destruct rows as [|x xs]; [done|]. intros [= <-]. unfold is_highest.
  apply (fold_extreme (not_nan k) (elem_le k) (elem_ltb k)).
  - apply elem_le_refl.
  - apply elem_le_trans.
  - intros a b Ha Hb. by apply elem_ltb_le.
Qed.
Lemma values_min_lowest k rows v : values_min k rows = Ret v -> is_lowest k rows v.
Proof.
  destruct rows as [|x xs]; [done|]. intros [= <-]. unfold is_lowest.
  apply (fold_extreme (not_nan k) (fun a b => elem_le k b a) (fun m val => elem_ltb k val m)).
  - apply elem_le_refl.
  - intros a b c Ha Hb Hc H1 H2. by apply (elem_le_trans k c b a).
  - intros a b Ha Hb. by apply elem_ltb_le.
Qed.

(** The sum of integers, which is the mathematical one reduced to the width of
    the column; of floats, the running sum, rounded after each addition. *)
Definition int_sum (k : Kind) (rows : list (list byte)) : Z := foldr Z.add 0 (map (int_value k) rows).
Definition is_sum (k : Kind) (rows : list (list byte)) (v : list byte) : Prop :=
  if kind_integer k then v = le_bytes (kind_size k) (int_sum k rows)
  else v = foldl (elem_add k) (replicate (kind_size k) x00) rows.

(** The largest sum of a kind that the code lets pass. *)
Definition sum_limit (k : Kind) : Z :=
  match k with KInt8 => 2 ^ 7 - 1 | KInt16 => 2 ^ 15 - 1 | KInt | KInt32 => 2 ^ 31 - 1 | _ => 2 ^ 63 - 1 end.
(** For signed integers: none is negative, and the sum is within the limit;
    for [float64]: the test of the code lets every addition pass. Nothing for
    the other kinds, whose sums are not tested. *)
Definition sum_fits (k : Kind) (rows : list (list byte)) : Prop :=
  if kind_signed k then Forall (fun x => 0 <= int_value k x) rows /\ int_sum k rows <= sum_limit k
  else k = KFloat64 -> forall pre x post, rows = pre ++ x :: post ->
    SFltb (fsub (float64_of_Z (2 ^ 31 - 1)) (float_value k x))
          (float_value k (foldl (elem_add k) (replicate (kind_size k) x00) pre)) = false.

Lemma sum_limit_bits k : kind_signed k = true -> 0 <= sum_limit k < 2 ^ (kind_bits k - 1).
Proof. by destruct k. Qed.
Lemma signed_le_bytes k z : kind_signed k = true -> int_value k (le_bytes (kind_size k) z) = wrapS (kind_bits k) z.
Proof. intros Hk. unfold int_value. rewrite Hk. apply wrapS_le_val. destruct k; (done || cbn; lia). Qed.

(** Adding a number to the image of a sum. *)
Lemma elem_add_sum k z x : kind_integer k = true ->
  elem_add k (le_bytes (kind_size k) z) x = le_bytes (kind_size k) (z + int_value k x).
Proof.
  intros Hk. unfold elem_add. rewrite Hk. unfold int_value at 1. destruct (kind_signed k) eqn:Hs.
  - fold (int_value k x). assert (H0 : (0 < kind_size k)%nat) by (destruct k; (done || cbn; lia)).
    unfold kind_bits. rewrite wrapS_le_val by done. unfold int_value at 1. rewrite Hs.
    rewrite <- (le_bytes_wrapS (8 * Z.of_nat (kind_size k)) _ (wrapS _ z + _)) by done.
    rewrite wrapS_add_l by lia. rewrite le_bytes_wrapS by done. unfold int_value. by rewrite Hs.
  - rewrite le_val_le_bytes, <- le_bytes_mod, Zplus_mod_idemp_l. apply le_bytes_mod.
Qed.
Lemma sum_step_ok k z x : kind_signed k = true -> 0 <= z -> 0 <= int_value k x -> z + int_value k x <= sum_limit k ->
  sum_overflows k (le_bytes (kind_size k) z) x = false.
Proof.
  intros Hk Hz Hx Hsum. pose proof (sum_limit_bits k Hk) as Hl.
  assert (Hb : 0 < kind_bits k) by (destruct k; (done || by vm_compute)).
  assert (Hv : int_value k (le_bytes (kind_size k) z) = z).
  { rewrite signed_le_bytes, wrapS_id by (done || unfold inS; lia). done. }
  assert (Hr : wrapS (kind_bits k) (sum_limit k - int_value k x) = sum_limit k - int_value k x).
  { apply wrapS_id; [done|]. unfold inS. lia. }
  unfold sum_overflows. rewrite Hv. destruct k; try done;
    (etransitivity; [apply (f_equal (fun l => l <? z)); exact Hr|]; apply Z.ltb_ge; lia).
Qed.

Lemma fold_sum_signed k rows z : kind_signed k = true -> 0 <= z ->
  Forall (fun x => 0 <= int_value k x) rows -> z + int_sum k rows <= sum_limit k ->
  fold_outcome (fun sum val => if sum_overflows k sum val then Panic "integer overflow" else Ret (elem_add k sum val))
    (le_bytes (kind_size k) z) rows = Ret (le_bytes (kind_size k) (z + int_sum k rows)).
Proof.
  intros Hk Hz Hpos. revert z Hz. induction Hpos as [|x rows Hx Hpos IH]; intros z Hz Hle; cbn [fold_outcome].
  { unfold int_sum. cbn. by rewrite Z.add_0_r. }
  change (int_sum k (x :: rows)) with (int_value k x + int_sum k rows) in Hle |- *.
  assert (0 <= int_sum k rows) by (clear -Hpos; induction Hpos; unfold int_sum in *; cbn; lia).
  rewrite sum_step_ok by (done || lia). cbn [outcome_bind].
  rewrite elem_add_sum by (unfold kind_integer; by rewrite Hk). rewrite IH by lia. do 2 f_equal. lia.
Qed.
Lemma foldl_sum_int k rows z : kind_integer k = true ->
  foldl (elem_add k) (le_bytes (kind_size k) z) rows = le_bytes (kind_size k) (z + int_sum k rows).
Proof.
  intros Hk. revert z. induction rows as [|x rows IH]; intros z; cbn [foldl].
  { unfold int_sum. cbn. by rewrite Z.add_0_r. }
  rewrite elem_add_sum, IH by done. f_equal. change (int_sum k (x :: rows)) with (int_value k x + int_sum k rows). lia.
Qed.
(** A sum none of whose steps overflows. *)
Lemma fold_sum_steps k rows init :
  (forall pre x post, rows = pre ++ x :: post -> sum_overflows k (foldl (elem_add k) init pre) x = false) ->
  fold_outcome (fun sum val => if sum_overflows k sum val then Panic "integer overflow" else Ret (elem_add k sum val)) init rows =
  Ret (foldl (elem_add k) init rows).
Proof.
  revert init. induction rows as [|x rows IH]; intros init H; [done|]. cbn [fold_outcome foldl].
  rewrite (H [] x rows eq_refl : sum_overflows k init x = false). cbn [outcome_bind]. apply IH.
  intros pre y post ->. by apply (H (x :: pre) y post).
Qed.

Lemma values_sum_fits k rows : k ∈ numeric_kinds -> sum_fits k rows -> exists v, values_sum k rows = Ret v /\ is_sum k rows v.
Proof.
  intros Hk Hfits. unfold values_sum, sum_fits, is_sum in *.
  assert (H0 : replicate (kind_size k) x00 = le_bytes (kind_size k) 0) by by destruct k.
  destruct (kind_signed k) eqn:Hs.
  - assert (Hi : kind_integer k = true) by (unfold kind_integer; by rewrite Hs). rewrite Hi, H0. destruct Hfits.
    eexists. split; [by apply fold_sum_signed|done].
  - eexists. split; [apply fold_sum_steps|].
    + intros pre x post ->. destruct k; try done. by apply (Hfits eq_refl pre x post).
    + destruct (kind_integer k) eqn:Hi; [|done]. by rewrite H0, foldl_sum_int.
Qed.

(** A column of the candles: one number for every window, which is as [P] says
    of the numbers of its rows. *)
Definition candle_column (ks : list Z) (out : ColumnSeries) (name : string) (c : column)
    (P : list (list byte) -> list byte -> Prop) : Prop :=
  exists vs, GetColumn name out = Some (mkCol (col_kind c) vs) /\
    Forall2 (fun k v => P (of_key ks (col_elems c) k) v) (distinct ks) vs.

Lemma candle_column_of ks out cs p c (P : list (list byte) -> list byte -> Prop) :
  GetColumn (inputName p) cs = Some c ->
  (exists fn c vs, func_of_name (funcName p) = Some fn /\ GetColumn (inputName p) cs = Some c /\
    GetColumn (outputName p) out = Some (mkCol (col_kind c) vs) /\
    Forall2 (fun k v => run_func fn (col_kind c) (of_key ks (col_elems c) k) = Ret v) (distinct ks) vs) ->
  (forall fn k v, func_of_name (funcName p) = Some fn -> k ∈ ks ->
     run_func fn (col_kind c) (of_key ks (col_elems c) k) = Ret v -> P (of_key ks (col_elems c) k) v) ->
  candle_column ks out (outputName p) c P.
Proof.
  intros Hc (fn & c' & vs & Hfn & Hg & Hout & Hvs) HP. rewrite Hc in Hg. injection Hg as <-.
  exists vs. split; [exact Hout|]. apply Forall2_same_length_lookup_2; [by apply Forall2_length in Hvs|].
  intros i k v Hk Hv. apply (HP fn); [done| |].
  - apply elem_of_distinct. by eapply list_elem_of_lookup_2.
  - by apply (Forall2_lookup_lr _ _ _ _ _ _ Hvs Hk Hv).
Qed.

(** C12: The candles of a series. The rows are in the order of time (times that
    are equal too), their times whole seconds (there is no column
    Nanoseconds), the zone has one offset, the columns are of numeric kinds and
    of one length, and the windows are of days, hours, minutes or seconds. The
    result has one row for every window with a row, whose epoch is the start
    of the window: the open is the first of the window's rows; the high is one
    of them that no other is above (of floats: if none is NaN), and the low one
    that no other is below; the close is the last; and the volume, if the
    series has one, is their sum: for integers the mathematical sum at the
    width of the column, for floats the running sum. The volumes of a window
    have to be such that the sum can be formed ([sum_fits]): of signed
    integers, which may not be negative ([sum_negative_panics]), the sum is at
    most the limit of the code; for float64, every step passes its test. *)
Theorem aggregate_windows (off : Z) (cs : ColumnSeries) (tbk : TimeBucketKey) (item : string) (cd : CandleDuration)
    (ep : list Z) (open high low close : column) (volume : option column) :
  GetItemInCategory "Timeframe" tbk = Ret item -> CandleDurationFromString item = Some cd ->
  cd_suffix cd ∈ ["D"; "H"; "Min"; "Sec"]%string ->
  GetColumn "Epoch" cs = Some (int64_column ep) -> GetColumn "Nanoseconds" cs = None ->
  Forall (inS 64) ep -> StronglySorted Z.le ep -> ep <> [] ->
  GetColumn "Open" cs = Some open -> GetColumn "High" cs = Some high ->
  GetColumn "Low" cs = Some low -> GetColumn "Close" cs = Some close ->
  GetColumn "Volume" cs = volume -> Exists_col "Volume" cs = bool_decide (is_Some volume) ->
  Forall (fun c => col_kind c ∈ numeric_kinds /\ col_len c = length ep) ([open; high; low; close] ++ option_list volume) ->
  let ks := map (fun e => window_of cd (time_Unix e 0 (FixedZone off))) ep in
  (forall c k, volume = Some c -> k ∈ ks -> sum_fits (col_kind c) (of_key ks (col_elems c) k)) ->
  exists out, aggregate (FixedZone off) cs tbk = Ret out /\
    GetColumn "Epoch" out = Some (int64_column (map (fun k => k / nsPerSec) (distinct ks))) /\
    candle_column ks out "Open" open (fun rows v => head rows = Some v) /\
    candle_column ks out "High" high (is_highest (col_kind high)) /\
    candle_column ks out "Low" low (is_lowest (col_kind low)) /\
    candle_column ks out "Close" close (fun rows v => last rows = Some v) /\
    (forall c, volume = Some c -> candle_column ks out "Volume" c (is_sum (col_kind c))).
Proof.
  intros Hitem Hcd Hsuf He Hn Hep Hsorted Hne Ho Hh Hl Hc Hv Hexists Hall ks Hsum.
  apply Forall_app in Hall as [Hall Hvol].
  destruct (aggregate_runs off cs tbk item cd ep) as (out & Hout & Hepoch & Hcols); try done.
  - unfold candle_params. rewrite Hexists. apply Forall_app. split.
    + repeat (apply Forall_cons in Hall as [? Hall]; constructor; [eexists; split; [eassumption|done]|]). constructor.
    + destruct volume as [c|]; [|constructor]. apply Forall_cons in Hvol as [Hvol _]. cbn. constructor; [exists c; by split|constructor].
  - intros c k Hc' Hk. destruct volume as [c'|]; [|congruence]. apply Forall_cons in Hvol as [[Hkind _] _].
    assert (c' = c) as -> by congruence.
    destruct (values_sum_fits (col_kind c) (of_key ks (col_elems c) k)) as (v & Hs & _); [done|by apply Hsum|by exists v].
  - exists out. split; [done|]. split; [done|]. unfold candle_params in Hcols. rewrite Hexists in Hcols.
    apply Forall_app in Hcols as [Hcols Hvcol].
    apply Forall_cons in Hcols as [Copen Hcols]. apply Forall_cons in Hcols as [Chigh Hcols].
    apply Forall_cons in Hcols as [Clow Hcols]. apply Forall_cons in Hcols as [Cclose _].
    split_and!.
    + apply (candle_column_of ks out cs (mkAccumParam "Open" "first" "Open") _ _ Ho Copen). intros fn k v [= <-] _ H.
      destruct (of_key ks (col_elems open) k); [done|]. by injection H as ->.
    + apply (candle_column_of ks out cs (mkAccumParam "High" "max" "High") _ _ Hh Chigh). intros fn k v [= <-] _. apply values_max_highest.
    + apply (candle_column_of ks out cs (mkAccumParam "Low" "min" "Low") _ _ Hl Clow). intros fn k v [= <-] _. apply values_min_lowest.
    + apply (candle_column_of ks out cs (mkAccumParam "Close" "last" "Close") _ _ Hc Cclose). intros fn k v [= <-] _ H. cbn in H. unfold values_last in H.
      destruct (last _); [congruence|done].
    + intros c ->. apply Forall_cons in Hvcol as [Hvcol _]. apply Forall_cons in Hvol as [[Hkind _] _].
      apply (candle_column_of ks out cs (mkAccumParam "Volume" "sum" "Volume") _ _ Hv Hvcol). intros fn k v [= <-] Hk H.
      destruct (values_sum_fits (col_kind c) (of_key ks (col_elems c) k) Hkind (Hsum c k eq_refl Hk)) as (v' & Hs & Hsum').
      change (values_sum (col_kind c) (of_key ks (col_elems c) k) = Ret v) in H. rewrite Hs in H. by injection H as <-.
Qed.

(** A sum of signed integers of 8, 16, 32 or 64 bits does not bear a
    negative number: the limit minus the number, with which an overflow is
    looked for, wraps around to the least number of the type. A series whose
    volume begins with a negative number ends in a panic. *)
Lemma sum_negative_panics (k : Kind) (v : list byte) (vs : list (list byte)) :
  k ∈ [KInt8; KInt16; KInt32; KInt64] -> int_value k v < 0 -> values_sum k (v :: vs) = Panic "integer overflow".
Proof.
  intros Hk Hv.
  assert (H : sum_overflows k (replicate (kind_size k) x00) v = true);
    [|unfold values_sum; cbn [fold_outcome]; by rewrite H].
  assert (Hsigned : forall w, 0 < w -> - 2 ^ (w - 1) <= int_value k v ->
    wrapS w (2 ^ (w - 1) - 1 - int_value k v) < 0).
  { intros w Hw Hr. rewrite <- (wrapS_mod w _ (-1)) by lia.
    assert (2 ^ w = 2 * 2 ^ (w - 1)) by (rewrite <- Z.pow_succ_r by lia; f_equal; lia).
    assert (0 < 2 ^ (w - 1)) by lia.
    rewrite wrapS_id; [lia|lia|unfold inS; lia]. }
  assert (Hr : forall w, 0 < w -> - 2 ^ (w - 1) <= wrapS w (le_val v)).
  { intros w Hw. pose proof (wrapS_range w (le_val v) Hw) as [H _]. exact H. }
  repeat (apply elem_of_cons in Hk as [->|Hk];
    [unfold sum_overflows; apply Z.ltb_lt; eapply Z.lt_le_trans;
       [apply Hsigned; [done|by apply Hr]|by vm_compute]|]).
  by apply elem_of_nil in Hk.
Qed.

(** The upper bound of the destinations is not the longest one but the one
    that is listed last, and so is the lower bound: the pointer that is kept
    points to the loop's variable. *)
Lemma UpperBound_last (tfs : list Timeframe) : UpperBound tfs = last tfs /\ LowerBound tfs = last tfs.
Proof.
  assert (H : forall better tfs tf t, (forall x, better x x = false) ->
    bound_loop better tfs tf t = match tfs with [] => if tf then t else None | _ => last tfs end).
  { intros better. clear. induction tfs as [|t' tfs IH]; intros tf t Hb; [done|]. cbn [bound_loop]. rewrite Hb.
    destruct tf; cbn [negb]; rewrite IH by done; by destruct tfs. }
  unfold UpperBound, LowerBound. rewrite !H by (intros x; apply Z.ltb_irrefl). by destruct tfs.
Qed.

(** ** Concrete runs *)

Module Example_agg.
#[local] Existing Instances example_libs list_range.
#[local] Open Scope string_scope.

Definition i32 (z : Z) : list byte := le_bytes 4 z.
Definition series (ep prices : list Z) : ColumnSeries :=
  let c := Some (mkCol KInt32 (map i32 prices)) in
  let add n c cs := snd (AddColumn n c cs) in
  add "Close" c (add "Low" c (add "High" c (add "Open" c (add "Epoch" (Some (int64_column ep)) NewColumnSeries)))).
Definition key (tf : string) : TimeBucketKey := NewTimeBucketKey ("AAPL/" +:+ tf +:+ "/OHLC") [].
Definition noon : Z := Unix (Date 2017 2 3 12 0 0 0 UTC).

Definition cs : ColumnSeries := series [noon; noon + 60; noon + 300; noon + 1200] [5; 3; 4; 9].
(** With volumes, the same numbers as the prices. *)
Definition price : column := mkCol KInt32 (map i32 [5; 3; 4; 9]).
Definition cs_volume : ColumnSeries := snd (AddColumn "Volume" (Some price) cs).

Lemma aggregate_windows_witness :
  let ks := map (fun e => window_of (mkCandleDuration "5Min" (5 * Minute) "Min" 5) (time_Unix e 0 (FixedZone 0)))
    [noon; noon + 60; noon + 300; noon + 1200] in
  exists out, aggregate (FixedZone 0) cs_volume (key "5Min") = Ret out /\
    GetColumn "Epoch" out = Some (int64_column (map (fun k => k / nsPerSec) (distinct ks))) /\
    candle_column ks out "Open" price (fun rows v => head rows = Some v) /\
    candle_column ks out "High" price (is_highest KInt32) /\
    candle_column ks out "Low" price (is_lowest KInt32) /\
    candle_column ks out "Close" price (fun rows v => last rows = Some v) /\
    (forall c, Some price = Some c -> candle_column ks out "Volume" c (is_sum (col_kind c))).
Proof.
  apply (aggregate_windows 0 cs_volume (key "5Min") "5Min" (mkCandleDuration "5Min" (5 * Minute) "Min" 5)
    [noon; noon + 60; noon + 300; noon + 1200] price price price price (Some price)).
  - vm_compute. reflexivity.
  - reflexivity.
  - right. right. left.
  - reflexivity.
  - reflexivity.
  - repeat constructor; by vm_compute.
  - repeat constructor; by vm_compute.
  - discriminate.
  - reflexivity.
  - reflexivity.
  - reflexivity.
  - reflexivity.
  - reflexivity.
  - reflexivity.
  - repeat constructor; do 3 right; left.
  - intros c k [= <-] Hk. apply elem_of_distinct in Hk. revert Hk.
    match goal with |- k ∈ ?l -> _ => let l' := eval vm_compute in l in change l with l' end.
    intros Hk. repeat (apply elem_of_cons in Hk as [->|Hk]; [split; [repeat constructor; by vm_compute|by vm_compute]|]).
    by apply elem_of_nil in Hk.
Defined.

Example cs_candles :
  match aggregate (FixedZone 0) cs (key "5Min") with
  | Ret out => map (fun n => match GetColumn n out with Some c => map (int_value (col_kind c)) (col_elems c) | None => [] end)
                 ["Epoch"; "Open"; "High"; "Low"; "Close"]
  | _ => []
  end = [[noon; noon + 300; noon + 1200]; [5; 4; 9]; [5; 4; 9]; [3; 4; 9]; [3; 4; 9]].
Proof. vm_compute. reflexivity. Qed.

Lemma sum_negative_panics_witness : values_sum KInt32 [i32 (-1); i32 7] = Panic "integer overflow".
Proof. apply sum_negative_panics; [do 2 right; left|by vm_compute]. Defined.

(** A database with a bucket of candles of a minute. *)
Definition bucket_dir : string := "/db/AAPL/1Min/OHLC".
Definition shapes : list DataShape :=
  [mkShape "Epoch" INT64; mkShape "Open" INT32; mkShape "High" INT32; mkShape "Low" INT32; mkShape "Close" INT32].
Definition bucket : TimeBucketInfo := set_once (NewTimeBucketInfo Minute bucket_dir "Bars" 2017 shapes FIXED).
Definition leaf : Directory := mkDirectory "OHLC" bucket_dir "Year" None None None
  (Some {[bucket_dir +:+ "/2017.bin" := 0%nat]}).
Definition root : Directory := mkDirectory "." "/db" "Symbol" (Some {[bucket_dir := 1%nat]}) None None None.
Definition start : agg_state := mkAggState
  (mkInstance {[0%nat := root; 1%nat := leaf]} {[0%nat := bucket]} {[bucket_dir]}
    (mkW {[bucket_dir +:+ "/2017.bin" := []]} (new_wf "/db" "/db/WALFile.1.walfile") (mkPipe 1 []) ∅ []))
  ∅ ∅.
Definition minute : Timeframe := mkTimeframe "1Min" Minute.

(** The last second of a window is lost: the end of the window is taken one
    second early, for a comparison that includes it, but the slice excludes it.
    From prices at 12:00:57, :58 and :59 the trigger writes a candle of a
    minute that closes with the price of :58. *)
Lemma last_second_dropped :
  let prices := series [noon + 57; noon + 58; noon + 59] [1; 2; 9] in
  let at_ s := Date 2017 2 3 12 0 s 0 UTC in
  let '(r, s) := writeAggregates UTC UTC 0 false true 0 nasdaq false true true true 0
    (mkTrigger [minute] "") (key "1Min") (key "1Sec") prices minute (at_ 57) (at_ 59) start in
  r = Ret tt /\
  map Data (writeChannel (w_pipe (in_w (ag_inst s)))) = [(i32 1 ++ i32 2 ++ i32 1 ++ i32 2)%list].
Proof. vm_compute. split; reflexivity. Qed.
End Example_agg.
