(* ===== verification/Aggregates.v ===== *)
(** * Aggregate functions of queries (uda, utils/functions)

    The mapping of a function's parameters to columns, and the aggregates
    [Avg], [Count], [Max], [Min] and [Gap]: state, accumulation and output.
    [time.Now] is the argument [now] of the outputs. *)

From S2P Require Export ColumnSeries Timeframe.
From S2P Require Import GoStrings.

#[local] Open Scope string_scope.
#[local] Open Scope Z_scope.

(** ** Argument maps (utils/functions/datatypes.go) *)

Record ArgumentMap := mkArgumentMap {
  nameMap : gmap string (list DataShape);
  requiredMap : gmap string DataShape;
  optionalMap : gmap string DataShape;
  aliases : gmap string string;
  requiredNames : list string;
  optionalNames : list string;
}.

Definition shape_map (dsv : list DataShape) : gmap string DataShape :=
  foldl (fun m col => <[ds_Name col := col]> m) ∅ dsv.

Definition NewArgumentMap (requiredDSV optionalDSV : list DataShape) : ArgumentMap :=
  let names := map ds_Name in
  mkArgumentMap ∅ (shape_map requiredDSV) (shape_map optionalDSV)
    (foldl (fun m name => <[name := name]> m) ∅ (names requiredDSV ++ names optionalDSV)%list)
    (names requiredDSV) (names optionalDSV).

Definition GetAliasedColumnNames (am : ArgumentMap) : list string :=
  map (fun name => default "" (aliases am !! name)) (requiredNames am ++ optionalNames am)%list.

Definition SetAlias (requiredName aliasName : string) (am : ArgumentMap) : ArgumentMap :=
  mkArgumentMap (nameMap am) (requiredMap am) (optionalMap am) (<[requiredName := aliasName]> (aliases am))
    (requiredNames am) (optionalNames am).

Definition GetMappedColumns (requiredName : string) (am : ArgumentMap) : list DataShape :=
  default [] (nameMap am !! requiredName).

Definition set_nameMap (m : gmap string (list DataShape)) (am : ArgumentMap) : ArgumentMap :=
  mkArgumentMap m (requiredMap am) (optionalMap am) (aliases am) (requiredNames am) (optionalNames am).

Definition MapRequiredColumn (requiredName : string) (userColumns : list DataShape) (am : ArgumentMap) : ArgumentMap :=
  set_nameMap (<[requiredName :=
    match nameMap am !! requiredName with
    | Some existingCol => (existingCol ++ userColumns)%list
    | None => userColumns
    end]> (nameMap am)) am.

Section functions.
Context `{R : MapRange}.

(** The required parameters that are not mapped, or for every column of
    another type once; nothing at all is fine as well. *)
Definition Validate (am : ArgumentMap) : list DataShape :=
  if bool_decide (nameMap am = ∅) then []
  else
    concat (map (fun '(_, ds) =>
      match nameMap am !! ds_Name ds with
      | None => [ds]
      | Some mapCols =>
          let requiredCol := default (mkShape "" 0) (requiredMap am !! ds_Name ds) in
          map (fun _ => ds) (List.filter (fun col => negb (ds_Type requiredCol =? ds_Type col)) mapCols)
      end) (map_range (requiredMap am))).

Definition am_String (am : ArgumentMap) : string :=
  let show (l : list string) := foldr (fun s acc => s +:+ "," +:+ acc) "" l in
  "Required columns: " +:+ show (map (fun '(_, ds) => ds_String ds) (map_range (requiredMap am))) +:+
  " Optional columns: " +:+ show (map (fun '(_, ds) => ds_String ds) (map_range (optionalMap am))) +:+
  " Aliases: " +:+ show (GetAliasedColumnNames am).
End functions.

(** [strings.Split(s, "::")] *)
Fixpoint split_colons (acc s : string) : list string :=
  match s with
  | String ":" (String ":" s') => acc :: split_colons "" s'
  | String c s' => split_colons (acc +:+ String c "") s'
  | "" => [acc]
  end.

(** The named arguments are mapped, the others stay. *)
Definition take_named (st : ArgumentMap * list string) (token : string) : ArgumentMap * list string :=
  let '(am, inputsRemaining) := st in
  match split_colons "" token with
  | [param; name] => (MapRequiredColumn param [mkShape name FLOAT32] am, inputsRemaining)
  | _ => (am, (inputsRemaining ++ [token])%list)
  end.

(** [for _, name := range names { MapRequiredColumn(name, inputs[i]); i++ }] *)
Fixpoint map_positional (names inputs : list string) (i : nat) (am : ArgumentMap) : outcome (ArgumentMap * nat) :=
  match names with
  | [] => Ret (am, i)
  | name :: names' =>
      match inputs !! i with
      | None => Panic "index out of range"
      | Some input => map_positional names' inputs (S i) (MapRequiredColumn name [mkShape input FLOAT32] am)
      end
  end.

(** The map is changed in place, also when an error is returned. *)
Definition PrepareArguments (inputs : list string) (am : ArgumentMap) : outcome (ArgumentMap * option goerr) :=
  if (length inputs <? length (requiredNames am))%nat then Ret (am, Some (ErrMsg "have, need"))
  else
    let '(am, inputsRemaining) := foldl take_named (am, []) inputs in
    let unmapped := List.filter (fun name => bool_decide (nameMap am !! name = None)) in
    let unmappedReqs := unmapped (requiredNames am) in
    let unmappedOpts := unmapped (optionalNames am) in
    if (length inputsRemaining <? length unmappedReqs)%nat then Ret (am, Some (ErrMsg "insufficient args"))
    else
      let! '(am, i) := map_positional unmappedReqs inputsRemaining 0 am in
      let numRemaining := Z.of_nat (length inputsRemaining) - (Z.of_nat i + 1) in
      let! '(am, i) := (if 0 <? numRemaining then map_positional unmappedOpts inputsRemaining i am else Ret (am, i)) in
      let numRemaining := Z.of_nat (length inputsRemaining) - Z.of_nat i in
      Ret (am, if numRemaining =? 0 then None else Some (ErrMsg "extra args used")).

(** ** Columns as floats (uda/uda.go)

    A slice of floats is the list of its values; nil, for a column of another
    type, is as good as an empty one to every caller. *)

Definition float32 : Type := spec_float.

Definition float_kinds : list Kind := [KFloat32; KFloat64; KInt; KInt64; KInt32].

Definition column_floats (to : Kind) (cols : ColumnSeries) (name : string) : outcome (list spec_float) :=
  match GetColumn name cols with
  | None => Fail (ErrMsg ("Unable to retrieve column named " +:+ name))
  | Some c =>
      if bool_decide (col_kind c ∈ float_kinds)
      then Ret (map (fun e => float_value to (convert (col_kind c) to e)) (col_elems c))
      else Ret []
  end.

Definition ColumnToFloat32 : ColumnSeries -> string -> outcome (list float32) := column_floats KFloat32.
Definition ColumnToFloat64 : ColumnSeries -> string -> outcome (list float64) := column_floats KFloat64.

Definition float32_column (fs : list float32) : column := mkCol KFloat32 (map (fun f => le_bytes 4 (float32_bits f)) fs).
Definition float64_column (fs : list float64) : column := mkCol KFloat64 (map (fun f => le_bytes 8 (float64_bits f)) fs).

(** The name of the column mapped to a parameter; [inputColDSV[0]]. *)
Definition mapped_column (param : string) (am : ArgumentMap) : outcome string :=
  match GetMappedColumns param am with
  | col :: _ => Ret (ds_Name col)
  | [] => Panic "index out of range"
  end.

Definition init_error (unmapped : list DataShape) : option goerr :=
  if bool_decide (unmapped = []) then None else Some (ErrMsg "Unmapped columns").

(** ** Avg *)

Module Avg.
Definition requiredColumns : list DataShape := [mkShape "*" FLOAT32].

Record t := mk { ArgMap : ArgumentMap; Avg : float64; Count : Z }.

Definition New : t := mk (NewArgumentMap requiredColumns []) (S754_zero false) 0.
Definition Reset (av : t) : t := mk (ArgMap av) (S754_zero false) 0.
Definition Init `{R : MapRange} (av : t) : t * option goerr :=
  match init_error (Validate (ArgMap av)) with
  | Some e => (av, Some e)
  | None => (Reset av, None)
  end.

Definition Accum (cols : ColumnSeries) (av : t) : outcome t :=
  let! n := cs_Len cols in
  if (n =? 0)%nat then Ret av
  else
    let! inputColName := mapped_column "*" (ArgMap av) in
    let! inputCol := ColumnToFloat32 cols inputColName in
    Ret (foldl (fun av value => mk (ArgMap av) (fadd (Avg av) value) (int64 (Count av + 1))) av inputCol).

Definition Output (now : Z) (av : t) : ColumnSeries :=
  let cs := snd (AddColumn "Epoch" (Some (int64_column [now])) NewColumnSeries) in
  snd (AddColumn "Avg" (Some (float64_column [fdiv (Avg av) (float64_of_Z (Count av))])) cs).
End Avg.

(** ** Count *)

Module Count.
Definition requiredColumns : list DataShape := [mkShape "*" INT64].

Record t := mk { ArgMap : ArgumentMap; Sum : Z }.

Definition New : t := mk (NewArgumentMap requiredColumns []) 0.
Definition Reset (ca : t) : t := mk (ArgMap ca) 0.
Definition Init `{R : MapRange} (ca : t) : t * option goerr :=
  match init_error (Validate (ArgMap ca)) with
  | Some e => (ca, Some e)
  | None => (Reset ca, None)
  end.

Definition Accum (cols : ColumnSeries) (ca : t) : outcome t :=
  let! n := cs_Len cols in Ret (mk (ArgMap ca) (int64 (Sum ca + Z.of_nat n))).

Definition Output (now : Z) (ca : t) : ColumnSeries :=
  let cs := snd (AddColumn "Epoch" (Some (int64_column [now])) NewColumnSeries) in
  snd (AddColumn "Count" (Some (int64_column [Sum ca])) cs).
End Count.

(** ** Max and Min

    The two packages differ in the comparison and in the name of the output:
    [better value current] replaces the current value. *)

Module Extreme.
Definition requiredColumns : list DataShape := [mkShape "*" FLOAT32].

Record t := mk { ArgMap : ArgumentMap; IsInitialized : bool; Value : float32 }.

Definition New : t := mk (NewArgumentMap requiredColumns []) false (S754_zero false).
Definition Reset (ma : t) : t := mk (ArgMap ma) false (S754_zero false).
Definition Init `{R : MapRange} (ma : t) : t * option goerr :=
  match init_error (Validate (ArgMap ma)) with
  | Some e => (ma, Some e)
  | None => (Reset ma, None)
  end.

Definition Accum (better : float32 -> float32 -> bool) (cols : ColumnSeries) (ma : t) : outcome t :=
  let! n := cs_Len cols in
  if (n =? 0)%nat then Ret ma
  else
    let! inputColName := mapped_column "*" (ArgMap ma) in
    let! inputCol := ColumnToFloat32 cols inputColName in
    let! ma := (if IsInitialized ma then Ret ma
                else match inputCol with
                     | v :: _ => Ret (mk (ArgMap ma) true v)
                     | [] => Panic "index out of range"
                     end) in
    Ret (foldl (fun ma value => if better value (Value ma) then mk (ArgMap ma) (IsInitialized ma) value else ma)
           ma inputCol).

Definition Output (name : string) (now : Z) (ma : t) : ColumnSeries :=
  let cs := snd (AddColumn "Epoch" (Some (int64_column [now])) NewColumnSeries) in
  snd (AddColumn name (Some (float32_column [Value ma])) cs).
End Extreme.

Definition max_Accum : ColumnSeries -> Extreme.t -> outcome Extreme.t := Extreme.Accum (fun v m => SFltb m v).
Definition max_Output : Z -> Extreme.t -> ColumnSeries := Extreme.Output "Max".
Definition min_Accum : ColumnSeries -> Extreme.t -> outcome Extreme.t := Extreme.Accum SFltb.
Definition min_Output : Z -> Extreme.t -> ColumnSeries := Extreme.Output "Min".

(** ** Gap *)

(** The statistics of the gonum packages floats and stat. *)
Class Gonum := {
  floats_SubTo : list float64 -> list float64 -> list float64;
  stat_Mean : list float64 -> float64;
  stat_StdDev : list float64 -> float64;
  stat_StdScore : float64 -> float64 -> float64 -> float64;
}.

(** An argument of an initialization; pointers are as good as what they
    point to. *)
Inductive init_arg := InitString (s : string) | InitStrings (l : list string) | InitOther.

(** The name of a timeframe in an argument; an empty one for another type. *)
Definition init_timeframe (arg : init_arg) : outcome string :=
  match arg with
  | InitString s => Ret s
  | InitStrings [s] => Ret s
  | InitStrings _ => Fail (ErrMsg "Argument passed to Init() is not a string")
  | InitOther => Ret ""
  end.

Definition uint32_column (zs : list Z) : column := mkCol KUint32 (map (le_bytes 4) zs).
Definition int8_column (zs : list Z) : column := mkCol KInt8 (map (le_bytes 1) zs).

Module Gap.
Record t := mk {
  ArgMap : ArgumentMap;
  BigGapIdxs : list nat;
  Input : option ColumnSeries;
  avgGapIntervalSeconds : Z;
}.

Definition New : t := mk (NewArgumentMap [] []) [] None 0.
Definition Reset (g : t) : t := mk (ArgMap g) [] None (-1).

Definition Init (args : list init_arg) (g : t) : t * option goerr :=
  let g := Reset g in
  match args with
  | [] => (g, None)
  | arg :: _ =>
      match init_timeframe arg with
      | Ret tfstring =>
          match CandleDurationFromString tfstring with
          | Some cd => (mk (ArgMap g) (BigGapIdxs g) (Input g) (Z.quot (cd_duration cd) Second), None)
          | None => (g, None)
          end
      | Fail e => (g, Some e)
      | _ => (g, None)
      end
  end.

(** The positions of the values a test holds of. *)
Definition positions (test : float64 -> bool) (gaps : list float64) : list nat :=
  map fst (List.filter (fun ix => test (snd ix)) (imap (fun i x => (i, x)) gaps)).

Definition Accum `{Gonum} (cols : ColumnSeries) (g : t) : outcome t :=
  let g := mk (ArgMap g) [] (Some cols) (avgGapIntervalSeconds g) in
  let! n := cs_Len cols in
  if (n =? 0)%nat then Ret g
  else
    match ColumnToFloat64 cols "Epoch" with
    | Ret epochs =>
        if (length epochs <? 2)%nat then Ret g
        else
          let size := length epochs in
          let gaps := floats_SubTo (drop 1 epochs) (take (size - 1) epochs) in
          let idxs :=
            if avgGapIntervalSeconds g <? 0 then
              let m := stat_Mean gaps in
              let s := stat_StdDev gaps in
              let s := if SFeqb s (S754_zero false) then float64_of_Z 1 else s in
              positions (fun x => SFltb (float64_of_Z 3) (SFabs (stat_StdScore x m s))) gaps
            else positions (fun x => SFltb (float64_of_Z (avgGapIntervalSeconds g)) x) gaps in
          Ret (mk (ArgMap g) idxs (Input g) (avgGapIntervalSeconds g))
    | Panic msg => Panic msg
    | _ => Ret g
    end.

(** The two rows of a gap: where the rows before it end, with how many they
    are since the gap before, and where those behind it start. *)
Fixpoint gap_rows (epochs : list Z) (prev : nat) (idxs : list nat) : outcome (list (Z * Z * Z)) :=
  match idxs with
  | [] => Ret []
  | idx :: idxs' =>
      match epochs !! idx, epochs !! (idx + 1)%nat with
      | Some e, Some e' =>
          let! rest := gap_rows epochs idx idxs' in
          Ret ((e, 1, uint32 (Z.of_nat (idx - prev))) :: (e', 0, 0) :: rest)
      | _, _ => Panic "index out of range"
      end
  end.

Definition table_of (rows : list (Z * Z * Z)) : ColumnSeries :=
  let col f := map f rows in
  let cs := snd (AddColumn "Epoch" (Some (int64_column (col (fun r => r.1.1)))) NewColumnSeries) in
  let cs := snd (AddColumn "End(1)Start(0)" (Some (int8_column (col (fun r => r.1.2)))) cs) in
  snd (AddColumn "Count" (Some (uint32_column (col (fun r => r.2)))) cs).

Definition output_rows (epochs : list Z) (idxs : list nat) : outcome (list (Z * Z * Z)) :=
  match epochs !! 0%nat, last epochs, last idxs with
  | Some first, Some final, Some lastIdx =>
      let! rows := gap_rows epochs 0 idxs in
      Ret ((first, 0, 0) :: rows ++
           [(final, 1, uint32 (Z.of_nat (length epochs - lastIdx))); (0, 127, uint32 (Z.of_nat (length epochs)))])%list
  | _, _, _ => Panic "index out of range"
  end.

Definition Output (g : t) : outcome ColumnSeries :=
  match BigGapIdxs g, Input g with
  | _ :: _, Some cols =>
      let! epochs := as_int64s (GetColumn "Epoch" cols) in
      let! rows := output_rows epochs (BigGapIdxs g) in
      Ret (table_of rows)
  | _, _ => Ret (table_of [])
  end.
End Gap.

(** ** Arguments by position *)

Lemma set_nameMap_id am : set_nameMap (nameMap am) am = am.
Proof. by destruct am. Qed.

Lemma set_nameMap_twice m m' am : set_nameMap m (set_nameMap m' am) = set_nameMap m am.
Proof. done. Qed.
Lemma nameMap_set m am : nameMap (set_nameMap m am) = m.
Proof. done. Qed.

(** Names with the inputs that are mapped to them. *)
Definition input_map (names inputs : list string) : gmap string (list DataShape) :=
  list_to_map (zip names (map (fun input => [mkShape input FLOAT32]) inputs)).

Lemma input_map_cons name names input inputs :
  input_map (name :: names) (input :: inputs) = <[name := [mkShape input FLOAT32]]> (input_map names inputs).
Proof. done. Qed.

Lemma input_map_None names inputs name : name ∉ names -> input_map names inputs !! name = None.
Proof.
  intros Hn. apply not_elem_of_list_to_map_1. intros Hin. apply Hn.
  apply list_elem_of_fmap in Hin as ([n x] & -> & Hin). by apply elem_of_zip_l in Hin.
Qed.

Lemma map_positional_spec names inputs : forall i am,
  NoDup names -> (forall name, name ∈ names -> nameMap am !! name = None) -> (i <= length inputs)%nat ->
  map_positional names inputs i am =
  if decide (i + length names <= length inputs)%nat
  then Ret (set_nameMap (input_map names (drop i inputs) ∪ nameMap am) am, (i + length names)%nat)
  else Panic "index out of range".
Proof.
  induction names as [|name names IH]; intros i am Hnd Hnone Hi; cbn [map_positional length].
  - rewrite decide_True by lia. unfold input_map. cbn [zip zip_with list_to_map foldr].
    by rewrite map_empty_union, set_nameMap_id, Nat.add_0_r.
  - apply NoDup_cons in Hnd as [Hn Hnd]. destruct (inputs !! i) as [input|] eqn:Hin.
    2: { apply lookup_ge_None in Hin. rewrite decide_False by lia. done. }
    pose proof (lookup_lt_Some _ _ _ Hin) as Hlt.
    assert (Hm : MapRequiredColumn name [mkShape input FLOAT32] am =
      set_nameMap (<[name := [mkShape input FLOAT32]]> (nameMap am)) am).
    { unfold MapRequiredColumn. by rewrite (Hnone name) by left. }
    rewrite Hm, IH; [|done| |lia].
    2: { intros n Hin'. cbn. rewrite lookup_insert_ne by (intros ->; done). apply Hnone. by right. }
    replace (S i + length names)%nat with (i + S (length names))%nat by lia.
    destruct (decide (i + S (length names) <= length inputs)%nat); [|done]. f_equal. f_equal.
    rewrite set_nameMap_twice, nameMap_set. f_equal. rewrite (drop_S inputs input i), input_map_cons by done.
    rewrite <- insert_union_l, <- insert_union_r; [done|by apply input_map_None].
Qed.

Lemma input_map_app names1 names2 inputs :
  (length names1 <= length inputs)%nat -> (forall n, n ∈ names1 -> n ∉ names2) ->
  input_map names2 (drop (length names1) inputs) ∪ input_map names1 inputs = input_map (names1 ++ names2) inputs.
Proof.
  revert inputs. induction names1 as [|n names1 IH]; intros [|input inputs] Hl Hd; cbn [length drop app] in *; try lia.
  - change (input_map [] []) with (∅ : gmap string (list DataShape)). apply map_union_empty.
  - change (input_map [] (input :: inputs)) with (∅ : gmap string (list DataShape)). apply map_union_empty.
  - rewrite !input_map_cons, <- IH; [|lia|intros m Hm; apply Hd; by right].
    rewrite <- insert_union_r; [done|]. apply input_map_None, Hd. by left.
Qed.

(** An argument without a name. *)
Definition unnamed (token : string) : Prop := length (split_colons "" token) <> 2%nat.

Lemma take_named_unnamed am tokens : forall before,
  Forall unnamed tokens -> foldl take_named (am, before) tokens = (am, before ++ tokens)%list.
Proof.
  induction tokens as [|token tokens IH]; intros before Hu; cbn [foldl]; [by rewrite app_nil_r|].
  apply Forall_cons in Hu as [Hu Hus]. unfold take_named at 2. unfold unnamed in Hu.
  assert (H : match split_colons "" token with
    | [param; name] => (MapRequiredColumn param [mkShape name FLOAT32] am, before)
    | _ => (am, (before ++ [token])%list)
    end = (am, (before ++ [token])%list)) by (by destruct (split_colons "" token) as [|? [|? [|? ?]]]).
  rewrite H, IH by done. by rewrite <- app_assoc.
Qed.

(** Arguments by position. With fewer arguments than required parameters
    there is an error; the required parameters take the first ones in their
    order; with exactly as many that is all; and with two more or above, the
    optional parameters take the following ones, an error reports those that
    are left over, and there is a panic when they are too few. But a single
    one more is never taken: it is reported as left over, although the
    description of the function has "foo(A, B, C)" for two required parameters
    and an optional one. *)
Lemma PrepareArguments_positional (req opts : list DataShape) (inputs : list string) :
  NoDup (map ds_Name (req ++ opts)) -> Forall unnamed inputs ->
  let am := NewArgumentMap req opts in
  let r := length req in
  let k := (length inputs - r)%nat in
  PrepareArguments inputs am =
  if decide (length inputs < r)%nat then Ret (am, Some (ErrMsg "have, need"))
  else if decide (k <= 1)%nat then
    Ret (set_nameMap (input_map (map ds_Name req) inputs) am,
         if decide (k = 0)%nat then None else Some (ErrMsg "extra args used"))
  else if decide (k < length opts)%nat then Panic "index out of range"
  else Ret (set_nameMap (input_map (map ds_Name (req ++ opts)) inputs) am,
            if decide (k = length opts) then None else Some (ErrMsg "extra args used")).
Proof.
  intros Hnd Hu am r k. unfold PrepareArguments. change (requiredNames am) with (map ds_Name req).
  rewrite length_map. fold r. destruct (decide (length inputs < r)%nat) as [Hlt|Hge].
  { by rewrite (proj2 (Nat.ltb_lt _ _) Hlt). }
  rewrite (proj2 (Nat.ltb_ge (length inputs) r)) by lia. rewrite take_named_unnamed by done. cbn [app].
  change (requiredNames am) with (map ds_Name req). change (optionalNames am) with (map ds_Name opts).
  assert (Hall : forall l, List.filter (fun name => bool_decide (nameMap am !! name = None)) l = l).
  { intros l. induction l as [|n l IH]; [done|]. cbn [List.filter]. rewrite bool_decide_eq_true_2 by done. by rewrite IH. }
  rewrite !Hall, length_map. fold r. rewrite (proj2 (Nat.ltb_ge (length inputs) r)) by lia.
  rewrite map_app in Hnd. apply NoDup_app in Hnd as (Hr & Hdis & Ho).
  rewrite map_positional_spec; [|done|done|lia]. rewrite length_map. fold r. cbn [Nat.add].
  rewrite decide_True by lia. cbn [outcome_bind]. rewrite drop_0. change (nameMap am) with (∅ : gmap string (list DataShape)).
  set (m1 := input_map (map ds_Name req) inputs). rewrite (map_union_empty m1). set (am1 := set_nameMap m1 am).
  destruct (decide (k <= 1)%nat) as [Hk|Hk].
  - rewrite (proj2 (Z.ltb_ge _ _)) by lia. cbn [outcome_bind].
    destruct (decide (k = 0)%nat); [rewrite (proj2 (Z.eqb_eq _ 0)) by lia|rewrite (proj2 (Z.eqb_neq _ 0)) by lia]; done.
  - rewrite (proj2 (Z.ltb_lt _ _)) by lia. rewrite map_positional_spec; [|done| |lia].
    2: { intros n Hn. apply input_map_None. intros Hn'. by apply (Hdis n). }
    rewrite length_map. destruct (decide (k < length opts)%nat) as [Hko|Hko].
    { rewrite decide_False by lia. done. }
    rewrite decide_True by lia. cbn [outcome_bind].
    assert (Hm : set_nameMap (input_map (map ds_Name opts) (drop r inputs) ∪ nameMap am1) am1 =
      set_nameMap (input_map (map ds_Name (req ++ opts)) inputs) am).
    { unfold am1. rewrite set_nameMap_twice, nameMap_set. f_equal. rewrite map_app.
      unfold m1, r. rewrite <- (length_map ds_Name req). apply input_map_app; [rewrite length_map; fold r; lia|done]. }
    rewrite Hm. destruct (decide (k = length opts));
        [rewrite (proj2 (Z.eqb_eq _ 0)) by lia|rewrite (proj2 (Z.eqb_neq _ 0)) by lia]; done.
Qed.

(** The documented call, with two required parameters and an optional one. *)
Lemma PrepareArguments_positional_witness :
  let req := [mkShape "A" FLOAT32; mkShape "B" FLOAT32] in
  let opts := [mkShape "C" FLOAT32] in
  PrepareArguments ["A"; "B"; "C"] (NewArgumentMap req opts) =
  Ret (set_nameMap (input_map ["A"; "B"] ["A"; "B"; "C"]) (NewArgumentMap req opts), Some (ErrMsg "extra args used")).
Proof.
  intros req opts.
  refine (eq_trans (PrepareArguments_positional req opts ["A"; "B"; "C"] _ _) _).
  - apply (bool_decide_unpack _). reflexivity.
  - repeat constructor; intros H; discriminate H.
  - reflexivity.
Defined.

(** ** Rows of gaps *)

(** The numbers of rows before the gaps, and behind the last one. *)
Definition counts (rows : list (Z * Z * Z)) : Z := foldr (fun '(_, type, n) acc => (if type =? 1 then n else 0) + acc) 0 rows.

Lemma counts_app a b : counts (a ++ b) = counts a + counts b.
Proof.
  induction a as [|[[e type] n] a IH]; [done|]. unfold counts in *. cbn [app foldr]. rewrite IH. lia.
Qed.

Lemma last_default (i : nat) l d : List.last (i :: l) d = List.last l i.
Proof. revert i d. induction l as [|j l IH]; intros i d; [done|]. change (List.last (j :: l) d = List.last (j :: l) i). by rewrite !IH. Qed.

Lemma gap_rows_counts epochs idxs : forall prev,
  Z.of_nat (length epochs) < 2 ^ 32 ->
  StronglySorted lt (prev :: idxs) \/ (prev = 0%nat /\ StronglySorted lt idxs) ->
  Forall (fun idx => S idx < length epochs)%nat idxs ->
  exists rows, Gap.gap_rows epochs prev idxs = Ret rows /\
    counts rows = Z.of_nat (List.last idxs prev) - Z.of_nat prev /\ length rows = (2 * length idxs)%nat.
Proof.
  induction idxs as [|idx idxs IH]; intros prev Hsize Hs Hin; cbn [Gap.gap_rows].
  { exists []. cbn. split_and!; [done|lia|done]. }
  apply Forall_cons in Hin as [Hi Hin].
  destruct (lookup_lt_is_Some_2 epochs idx) as [e He]; [lia|].
  destruct (lookup_lt_is_Some_2 epochs (idx + 1)) as [e' He']; [lia|]. rewrite He, He'.
  assert (Hs' : StronglySorted lt (idx :: idxs)) by (destruct Hs as [Hs|[_ Hs]]; [by apply StronglySorted_inv in Hs as [Hs _]|done]).
  assert (Hp : (prev <= idx)%nat).
  { destruct Hs as [Hs|[-> _]]; [|lia]. apply StronglySorted_inv in Hs as [_ Hs]. apply Forall_cons in Hs. lia. }
  destruct (IH idx Hsize (or_introl Hs') Hin) as (rows & -> & Hc & Hl). cbn [outcome_bind].
  eexists. split; [reflexivity|]. cbn [counts foldr Z.eqb Pos.eqb length]. fold (counts rows). rewrite Hc.
  rewrite wrapU_id by (unfold inU; lia). split; [|lia].
  rewrite last_default. lia.
Qed.

(** What the gaps of a series give. The rows that end a segment carry
    numbers that add up to the number of all rows, which the last row of the
    table repeats; there are two rows for every gap and three more. *)
Lemma Gap_counts (epochs : list Z) (idxs : list nat) :
  Z.of_nat (length epochs) < 2 ^ 32 -> idxs <> [] -> StronglySorted lt idxs ->
  Forall (fun idx => S idx < length epochs)%nat idxs ->
  exists rows, Gap.output_rows epochs idxs = Ret rows /\ length rows = (2 * length idxs + 3)%nat /\
    counts rows = Z.of_nat (length epochs) /\ last rows = Some (0, 127, Z.of_nat (length epochs)).
Proof.
  intros Hsize Hne Hs Hin. destruct (gap_rows_counts epochs idxs 0 Hsize) as (rows & Hrows & Hc & Hl); [by right|done|].
  assert (Hlast : exists i, last idxs = Some i /\ List.last idxs 0%nat = i /\ (i < length epochs)%nat).
  { clear - Hne Hin. induction idxs as [|i l IH]; [done|]. apply Forall_cons in Hin as [Hi Hin].
    destruct l as [|j l]; [exists i; split_and!; [done|done|lia]|]. apply IH; done. }
  destruct Hlast as (i & Hi & Hi' & Hil). rewrite Hi' in Hc.
  destruct epochs as [|e0 epochs]; [cbn in Hil; lia|]. set (ep := e0 :: epochs) in *.
  destruct (last ep) as [final|] eqn:Hf; [|by apply last_None in Hf].
  exists ((e0, 0, 0) :: rows ++ [(final, 1, uint32 (Z.of_nat (length ep - i))); (0, 127, uint32 (Z.of_nat (length ep)))])%list.
  split_and!.
  - unfold Gap.output_rows. change (ep !! 0%nat) with (Some e0). rewrite Hf, Hi, Hrows. done.
  - cbn [length]. rewrite length_app, Hl. cbn. lia.
  - change (counts (?a :: ?l)) with (counts ([a] ++ l)). rewrite !counts_app, Hc. cbv [counts foldr Z.eqb Pos.eqb].
    rewrite !wrapU_id by (unfold inU; lia). rewrite Nat2Z.inj_sub by (apply Nat.lt_le_incl; exact Hil). lia.
  - change (?a :: ?l ++ ?m) with ((a :: l) ++ m)%list. rewrite last_app. cbn [last]. rewrite !wrapU_id by (unfold inU; lia). done.
Qed.

(** Five rows with a gap behind the third one: the first segment has three rows
    but is counted as two, the second has two and is counted as three. *)
Lemma Gap_counts_witness :
  let epochs := [0; 10; 20; 1000; 1010] in
  exists rows, Gap.output_rows epochs [2%nat] = Ret rows /\ length rows = 5%nat /\
    counts rows = 5 /\ last rows = Some (0, 127, 5).
Proof.
  apply (Gap_counts [0; 10; 20; 1000; 1010] [2%nat]); [by vm_compute|done|by repeat constructor|].
  repeat constructor; cbn; lia.
Defined.

Example gap_counts_off_by_one :
  Gap.output_rows [0; 10; 20; 1000; 1010] [2%nat] =
  Ret [(0, 0, 0); (20, 1, 2); (1000, 0, 0); (1010, 1, 3); (0, 127, 5)].
Proof. vm_compute. reflexivity. Qed.

(** A maximum over two calls. *)
Example max_of_two :
  let series (ps : list Z) := snd (AddColumn "Price" (Some (mkCol KInt32 (map (le_bytes 4) ps))) NewColumnSeries) in
  let ma := Extreme.mk (MapRequiredColumn "*" [mkShape "Price" FLOAT32] (Extreme.ArgMap Extreme.New)) false (S754_zero false) in
  (let! ma := max_Accum (series [3; 8; 5]) ma in let! ma := max_Accum (series [7; -1]) ma in Ret (Extreme.Value ma)) =
  Ret (binary_normalize 24 128 8 0 false).
Proof. vm_compute. reflexivity. Qed.
