(* ===== verification/Candler.v ===== *)
(** * Candles of a query (contrib/candler)

    The aggregates that make candles out of ticks ([tickcandler]) or of shorter
    candles ([candlecandler]): a map from the start of a window to its candle,
    which every row updates. *)

From S2P Require Export Aggregates RowSeries.
From S2P Require Import GoStrings.

#[local] Open Scope string_scope.
#[local] Open Scope Z_scope.

Definition f32_zero : float32 := S754_zero false.
Definition f32_add (a b : float32) : float32 := SFadd 24 128 a b.
Definition f32_div (a b : float32) : float32 := SFdiv 24 128 a b.
Definition f32_of_Z (z : Z) : float32 := binary_normalize 24 128 z 0 false.

(** ** One candle (candler.go) *)

Record EOHLCStruct := mkEOHLC { Epoch : Z; Open : float32; High : float32; Low : float32; Close : float32 }.

Record Candle := mkCandle {
  StartTime : Time;
  Duration : CandleDuration;
  EOHLC : EOHLCStruct;
  OpenTime : Time;
  CloseTime : Time;
  SumMap : gmap string float64;
  Count : Z;
}.

Definition NewCandle (startTime : Time) (cd : CandleDuration) (sumColumns avgColumns : list string) : Candle :=
  let st := cd_Truncate cd startTime in
  mkCandle st cd (mkEOHLC (Unix st) f32_zero f32_zero f32_zero f32_zero) zeroTime zeroTime
    (foldl (fun m name => <[name := S754_zero false]> m) ∅ (sumColumns ++ avgColumns)%list) 0.

Definition candle_IsWithin (ca : Candle) (ts : Time) : bool := IsWithin (Duration ca) ts (StartTime ca).

Definition set_prices (e : EOHLCStruct) (ot ct : Time) (ca : Candle) : Candle :=
  mkCandle (StartTime ca) (Duration ca) e ot ct (SumMap ca) (Count ca).

(** [None] when the time is not within the candle. *)
Definition add_prices (ts : Time) (open high low close : float32) (ca : Candle) : option Candle :=
  if negb (candle_IsWithin ca ts) then None
  else
    let ca := if IsZero (OpenTime ca)
              then set_prices (mkEOHLC (Epoch (EOHLC ca)) open high low close) ts ts ca else ca in
    let e := EOHLC ca in
    let ca := if time_Before ts (OpenTime ca)
              then set_prices (mkEOHLC (Epoch e) open (High e) (Low e) (Close e)) ts (CloseTime ca) ca else ca in
    let e := EOHLC ca in
    let ca := if time_After ts (CloseTime ca)
              then set_prices (mkEOHLC (Epoch e) (Open e) (High e) (Low e) close) (OpenTime ca) ts ca else ca in
    let e := EOHLC ca in
    let ca := if SFltb (High e) high
              then set_prices (mkEOHLC (Epoch e) (Open e) high (Low e) (Close e)) (OpenTime ca) (CloseTime ca) ca else ca in
    let e := EOHLC ca in
    Some (if SFltb low (Low e)
          then set_prices (mkEOHLC (Epoch e) (Open e) (High e) low (Close e)) (OpenTime ca) (CloseTime ca) ca else ca).

(** One price, or four. *)
Definition AddCandle (ts : Time) (prices : list float32) (ca : Candle) : outcome (bool * Candle) :=
  let added (o : option Candle) := match o with Some ca' => Ret (true, ca') | None => Ret (false, ca) end in
  match prices with
  | [p] => added (add_prices ts p p p p ca)
  | open :: high :: low :: close :: _ => added (add_prices ts open high low close ca)
  | _ => Panic "index out of range"
  end.

Definition float32_bytes (f : float32) : list byte := le_bytes 4 (float32_bits f).
Definition float64_bytes (f : float64) : list byte := le_bytes 8 (float64_bits f).

Definition SerializeToRowData (sumNames avgNames : list string) (ca : Candle) : list byte :=
  let e := EOHLC ca in
  let sum name := default (S754_zero false) (SumMap ca !! name) in
  (le_bytes 8 (Epoch e) ++ float32_bytes (Open e) ++ float32_bytes (High e) ++ float32_bytes (Low e) ++
   float32_bytes (Close e) ++
   concat (map (fun name => float64_bytes (sum name)) sumNames) ++
   concat (map (fun name => float64_bytes (fdiv (sum name) (float64_of_Z (Count ca)))) avgNames))%list.

(** ** The candler *)

(** The candles are pointed to by their map alone: a candle that is at hand is
    the key of its entry.  The keys are the instants of the windows' starts,
    all in one zone. *)
Record Candler := mkCandler {
  ArgMap : ArgumentMap;
  MyCD : option CandleDuration;
  CMap : option (gmap Z Candle);   (** nil before [Init] *)
  SumNames : list string;
  AvgNames : list string;
  AccumSumNames : list string;
}.

Definition sum_avg : list DataShape := [mkShape "Sum" FLOAT32; mkShape "Avg" FLOAT32].
Definition ohlc_columns : list DataShape :=
  [mkShape "Open" FLOAT32; mkShape "High" FLOAT32; mkShape "Low" FLOAT32; mkShape "Close" FLOAT32].

Definition NewCandler (inputColumns optionalInputColumns : list DataShape) : Candler :=
  mkCandler (NewArgumentMap inputColumns optionalInputColumns) None None [] [] [].

Definition set_CMap (m : gmap Z Candle) (ca : Candler) : Candler :=
  mkCandler (ArgMap ca) (MyCD ca) (Some m) (SumNames ca) (AvgNames ca) (AccumSumNames ca).

Definition nil_pointer {A} : outcome A := Panic "invalid memory address or nil pointer dereference".

Section candler.
Context `{R : MapRange}.

(** The state stays as it was when an error is returned. *)
Definition candler_Init (args : list init_arg) (ca : Candler) : Candler * option goerr :=
  match args with
  | [arg] =>
      match init_timeframe arg with
      | Ret tfstring =>
          match CandleDurationFromString tfstring with
          | None => (ca, Some (ErrMsg "No suitable timeframe provided"))
          | Some cd =>
              match init_error (Validate (ArgMap ca)) with
              | Some e => (ca, Some e)
              | None =>
                  let names param := map ds_Name (GetMappedColumns param (ArgMap ca)) in
                  let consMap : gmap string unit :=
                    foldl (fun m name => <[name := tt]> m) ∅ (names "Sum" ++ names "Avg")%list in
                  (mkCandler (ArgMap ca) (Some cd) (Some ∅) (names "Sum") (names "Avg")
                     (map fst (map_range consMap)), None)
              end
          end
      | Fail e => (ca, Some e)
      | _ => (ca, None)
      end
  | _ => (ca, Some (ErrMsg "Init requires a *utils.CandleDuration as the argument"))
  end.

Definition candler_Reset (ca : Candler) : outcome Candler :=
  match MyCD ca with
  | None => nil_pointer
  | Some cd => Ret (fst (candler_Init [InitString (cd_String cd)] ca))
  end.

(** The candle of a time: the one at hand if it starts there, or the map's, a
    new one if it has none. *)
Definition GetCandle (t : Time) (cndl : option Z) (ca : Candler) : outcome (Z * Candler) :=
  match MyCD ca with
  | None => nil_pointer
  | Some cd =>
      let candleTime := cd_Truncate cd t in
      let key := t_ns candleTime in
      let at_hand := c ← cndl; candle ← (default ∅ (CMap ca)) !! c; 
                     if t_ns (StartTime candle) =? key then Some c else None in
      match at_hand with
      | Some c => Ret (c, ca)
      | None =>
          match CMap ca with
          | None => Panic "assignment to entry in nil map"
          | Some m =>
              match m !! key with
              | Some _ => Ret (key, ca)
              | None => Ret (key, set_CMap (<[key := NewCandle candleTime cd (SumNames ca) (AvgNames ca)]> m) ca)
              end
          end
      end
  end.

(** [candle.SumMap[name] += float64(sumCols[name][i])], for every name. *)
Fixpoint add_sums (sumCols : list (string * list float32)) (i : nat) (ca : Candle) : outcome Candle :=
  match sumCols with
  | [] => Ret ca
  | (name, col) :: rest =>
      match col !! i with
      | None => Panic "index out of range"
      | Some v =>
          let s := default (S754_zero false) (SumMap ca !! name) in
          add_sums rest i (mkCandle (StartTime ca) (Duration ca) (EOHLC ca) (OpenTime ca) (CloseTime ca)
            (<[name := fadd s v]> (SumMap ca)) (Count ca))
      end
  end.

Definition count_row (ca : Candle) : Candle :=
  mkCandle (StartTime ca) (Duration ca) (EOHLC ca) (OpenTime ca) (CloseTime ca) (SumMap ca) (int64 (Count ca + 1)).

(** One row; [prices] are the columns of prices. *)
Definition accum_row (prices : list (list float32)) (sumCols : list (string * list float32)) (i : nat) (t : Time)
    (candle : option Z) (ca : Candler) : outcome (Z * Candler) :=
  let! '(key, ca) := GetCandle t candle ca in
  match mapM (fun col => col !! i) prices, CMap ca with
  | None, _ => Panic "index out of range"
  | Some ps, Some m =>
      match m !! key with
      | None => nil_pointer
      | Some c =>
          let! '(_, c) := AddCandle t ps c in
          let! c := add_sums sumCols i c in
          Ret (key, set_CMap (<[key := count_row c]> m) ca)
      end
  | _, None => nil_pointer
  end.

Fixpoint accum_rows (prices : list (list float32)) (sumCols : list (string * list float32)) (i : nat) (ts : list Time)
    (candle : option Z) (ca : Candler) : outcome Candler :=
  match ts with
  | [] => Ret ca
  | t :: ts' =>
      let! '(key, ca) := accum_row prices sumCols i t candle ca in
      accum_rows prices sumCols (S i) ts' (Some key) ca
  end.

Fixpoint sum_columns (names : list string) (cols : ColumnSeries) : outcome (list (string * list float32)) :=
  match names with
  | [] => Ret []
  | name :: names' =>
      let! col := ColumnToFloat32 cols name in
      let! rest := sum_columns names' cols in
      Ret ((name, col) :: rest)
  end.

(** The average of several columns. *)
Fixpoint add_source_columns (cols : ColumnSeries) (srcCols : list DataShape) (avgCol : list float32) : outcome (list float32) :=
  match srcCols with
  | [] => Ret avgCol
  | ds :: srcCols' =>
      let! col := ColumnToFloat32 cols (ds_Name ds) in
      if (length col <? length avgCol)%nat then Panic "index out of range"
      else add_source_columns cols srcCols' (zip_with f32_add avgCol col)
  end.
Definition GetAverageColumnFloat32 (cols : ColumnSeries) (srcCols : list DataShape) : outcome (list float32) :=
  match srcCols with
  | [ds] => ColumnToFloat32 cols (ds_Name ds)
  | _ =>
      let! colLen := cs_Len cols in
      let! avgCol := add_source_columns cols srcCols (replicate colLen f32_zero) in
      Ret (map (fun v => f32_div v (f32_of_Z (Z.of_nat (length srcCols)))) avgCol)
  end.

Fixpoint price_columns (params : list string) (cols : ColumnSeries) (ca : Candler) : outcome (list (list float32)) :=
  match params with
  | [] => Ret []
  | p :: params' =>
      let! col := GetAverageColumnFloat32 cols (GetMappedColumns p (ArgMap ca)) in
      let! rest := price_columns params' cols ca in
      Ret (col :: rest)
  end.

(** [Accum] of the two candlers, which differ in the columns of the prices. *)
Definition accum_candles (tz : Location) (params : list string) (cols : ColumnSeries) (ca : Candler) : outcome Candler :=
  let! n := cs_Len cols in
  if (n =? 0)%nat then Fail (ErrMsg "Empty input to Accum")
  else
    let! prices := price_columns params cols ca in
    let! ts := cs_GetTime tz cols in
    let! sumCols := sum_columns (AccumSumNames ca) cols in
    accum_rows prices sumCols 0 ts None ca.

Definition TickCandler_New : Candler := NewCandler [mkShape "CandlePrice" FLOAT32] sum_avg.
Definition TickCandler_Accum (tz : Location) : ColumnSeries -> Candler -> outcome Candler :=
  accum_candles tz ["CandlePrice"].

Definition CandleCandler_New : Candler := NewCandler ohlc_columns sum_avg.
Definition CandleCandler_Accum (tz : Location) : ColumnSeries -> Candler -> outcome Candler :=
  accum_candles tz ["Open"; "High"; "Low"; "Close"].

(** The rows of the candles, in the order of their times. *)
Definition candler_Output (ca : Candler) : outcome ColumnSeries :=
  let dataShapes := (mkShape "Epoch" INT64 :: ohlc_columns ++
    map (fun name => mkShape (name +:+ "_SUM") FLOAT64) (SumNames ca) ++
    map (fun name => mkShape (name +:+ "_AVG") FLOAT64) (AvgNames ca))%list in
  let m := default ∅ (CMap ca) in
  let tsa := merge_sort Z.le (map fst (map_to_list m)) in
  let dataBuf := concat (map (fun tkey =>
    match m !! tkey with Some cdl => SerializeToRowData (SumNames ca) (AvgNames ca) cdl | None => [] end) tsa) in
  rows_ToColumnSeries (rows_SetCandleAttributes OHLC (NewRows dataShapes dataBuf)).
End candler.

(** ** The candles of rows in the order of time *)

Section candles.
Context (off : Z) (cd : CandleDuration).

Definition value_at (col : list float32) (i : nat) : float32 := default f32_zero (col !! i).

(** The column of the [k]th price: ticks have one for all four. *)
Definition price_col (prices : list (list float32)) (k : nat) : list float32 :=
  match prices with [p] => p | _ => default [] (prices !! k) end.

Definition fold_better (better : float32 -> float32 -> bool) (col : list float32) (l : list nat) (m : float32) : float32 :=
  foldl (fun m i => if better (value_at col i) m then value_at col i else m) m l.

(** The rows of the window that starts at an instant. *)
Definition window_rows (ts : list Time) (key : Z) (k : nat) : list nat :=
  List.filter (fun i => match ts !! i with Some t => t_ns (cd_Truncate cd t) =? key | None => false end) (seq 0 k).

Definition candle_of (prices : list (list float32)) (sumCols : list (string * list float32)) (ts : list Time)
    (key : Z) (l : list nat) (o : option Candle) : Prop :=
  match l with
  | [] => o = None
  | i0 :: _ =>
      let start := mkTime key (FixedZone off) in
      exists c, o = Some c /\ StartTime c = start /\ Duration c = cd /\
        ts !! i0 = Some (OpenTime c) /\ ts !! List.last l 0%nat = Some (CloseTime c) /\
        EOHLC c = mkEOHLC (Unix start) (value_at (price_col prices 0) i0)
          (fold_better (fun v m => SFltb m v) (price_col prices 1) l (value_at (price_col prices 1) i0))
          (fold_better SFltb (price_col prices 2) l (value_at (price_col prices 2) i0))
          (value_at (price_col prices 3) (List.last l 0%nat)) /\
        Count c = int64 (Z.of_nat (length l)) /\
        forall name col, (name, col) ∈ sumCols ->
          default (S754_zero false) (SumMap c !! name) =
          foldl (fun s i => fadd s (value_at col i)) (S754_zero false) l
  end.

(** The updates of a candle of known fields, case by case. *)
#[local] Ltac candle_cases :=
  cbv [set_prices EOHLC High Low Open Close Epoch OpenTime CloseTime StartTime Duration SumMap Count];
  repeat match goal with |- context [SFltb ?a ?b] => is_var a; is_var b; destruct (SFltb a b); cbv beta iota end.

Lemma row_of_prices prices i t :
  length prices = 1%nat \/ length prices = 4%nat -> Forall (fun col => i < length col)%nat prices ->
  exists ps, mapM (fun col : list float32 => col !! i) prices = Some ps /\
    forall c, AddCandle t ps c =
      match add_prices t (value_at (price_col prices 0) i) (value_at (price_col prices 1) i)
              (value_at (price_col prices 2) i) (value_at (price_col prices 3) i) c with
      | Some c' => Ret (true, c') | None => Ret (false, c) end.
Proof.
  assert (Hat : forall col : list float32, (i < length col)%nat -> col !! i = Some (value_at col i)).
  { intros col H. unfold value_at. by destruct (lookup_lt_is_Some_2 col i H) as [v ->]. }
  intros [Hl|Hl] Hin; repeat (destruct prices as [|? prices]; try discriminate Hl);
    repeat (apply Forall_cons in Hin as [?%Hat Hin]);
    (eexists; split; [cbn [mapM]; repeat match goal with H : _ !! i = _ |- _ => rewrite H; cbn [mbind option_bind] end;
      reflexivity | reflexivity]).
Qed.

Lemma add_sums_spec sumCols i c :
  NoDup (map fst sumCols) -> Forall (fun nc => i < length (snd nc))%nat sumCols ->
  exists m, add_sums sumCols i c = Ret (mkCandle (StartTime c) (Duration c) (EOHLC c) (OpenTime c) (CloseTime c) m (Count c)) /\
    (forall name, name ∉ map fst sumCols -> m !! name = SumMap c !! name) /\
    forall name col, (name, col) ∈ sumCols ->
      default (S754_zero false) (m !! name) = fadd (default (S754_zero false) (SumMap c !! name)) (value_at col i).
Proof.
  revert c. induction sumCols as [|[name col] rest IH]; intros c Hnd Hin.
  - exists (SumMap c). split_and!; [by destruct c|done|]. by intros ? ? ?%elem_of_nil.
  - apply NoDup_cons in Hnd as [Hni Hnd]. apply Forall_cons in Hin as [Hi Hin]. cbn in Hi, Hni.
    cbn [add_sums]. destruct (lookup_lt_is_Some_2 col i Hi) as [v Hv]. setoid_rewrite Hv.
    match goal with |- context [add_sums rest i ?c'] => destruct (IH c' Hnd Hin) as (m & -> & Hout & Hm) end.
    cbn [SumMap StartTime Duration EOHLC OpenTime CloseTime Count] in *.
    exists m. split; [done|]. split.
    + intros n Hn. cbn in Hn. rewrite Hout by (intros ?; apply Hn; by right).
      apply lookup_insert_ne. intros ->. apply Hn. by left.
    + intros n cl [[= -> ->]|Hc]%elem_of_cons.
      * rewrite (Hout _ Hni), lookup_insert_eq. unfold value_at. by rewrite Hv.
      * rewrite (Hm _ _ Hc). rewrite lookup_insert_ne; [done|]. intros ->. apply Hni.
        apply list_elem_of_fmap. by exists (n, cl).
Qed.

(** A row behind all others of its candle. *)
Lemma add_prices_later t o h l cl c :
  candle_IsWithin c t = true -> IsZero (OpenTime c) = false ->
  t_ns (OpenTime c) <= t_ns (CloseTime c) < t_ns t ->
  add_prices t o h l cl c =
    Some (set_prices (mkEOHLC (Epoch (EOHLC c)) (Open (EOHLC c)) (if SFltb (High (EOHLC c)) h then h else High (EOHLC c))
                        (if SFltb l (Low (EOHLC c)) then l else Low (EOHLC c)) cl) (OpenTime c) t c).
Proof.
  intros Hw Hz Ht. unfold add_prices. rewrite Hw. cbn [negb]. rewrite Hz.
  assert (Hb : time_Before t (OpenTime c) = false) by (apply Z.ltb_ge; lia).
  assert (Ha : time_After t (CloseTime c) = true) by (apply Z.ltb_lt; lia).
  rewrite Hb. cbv zeta. rewrite Ha.
  destruct c as [? ? [? ? ? ? ?] ? ? ? ?]. by candle_cases.
Qed.

Lemma add_prices_first t o h l cl c :
  candle_IsWithin c t = true -> IsZero (OpenTime c) = true ->
  add_prices t o h l cl c =
    Some (set_prices (mkEOHLC (Epoch (EOHLC c)) o (if SFltb h h then h else h) (if SFltb l l then l else l) cl) t t c).
Proof.
  intros Hw Hz. unfold add_prices. rewrite Hw. cbn [negb]. rewrite Hz.
  unfold time_Before, time_After. cbn [OpenTime CloseTime set_prices]. rewrite !Z.ltb_irrefl.
  destruct c as [? ? [? ? ? ? ?] ? ? ? ?]. by candle_cases.
Qed.

Lemma NewCandle_sums names : forall m name,
  default (S754_zero false) (m !! name) = S754_zero false ->
  default (S754_zero false)
    (foldl (fun (m : gmap string float64) name => <[name := S754_zero false]> m) m names !! name) = S754_zero false.
Proof.
  induction names as [|n names IH]; intros m name Hm; [done|]. cbn [foldl]. apply IH.
  destruct (decide (n = name)) as [->|Hne]; [by rewrite lookup_insert_eq|by rewrite lookup_insert_ne].
Qed.

Lemma window_rows_S (ts : list Time) key k t :
  ts !! k = Some t ->
  window_rows ts key (S k) =
  (window_rows ts key k ++ (if t_ns (cd_Truncate cd t) =? key then [k] else []))%list.
Proof.
  intros Ht. unfold window_rows. rewrite seq_S, List.filter_app. cbn [List.filter Nat.add]. rewrite Ht. by destruct (_ =? _).
Qed.

Lemma window_rows_lt (ts : list Time) key k i : i ∈ window_rows ts key k -> (i < k)%nat.
Proof. intros H%list_elem_of_In. unfold window_rows in H. apply filter_In in H as [H _]. apply in_seq in H. lia. Qed.

Lemma window_rows_ends (ts : list Time) key k :
  (List.hd 0 (window_rows ts key k) <= List.last (window_rows ts key k) 0)%nat.
Proof.
  induction k as [|k IH]; [done|]. pose proof (window_rows_lt ts key k) as Hlt. unfold window_rows in *.
  rewrite seq_S, List.filter_app. cbn [List.filter Nat.add].
  destruct (match ts !! k with Some _ => _ | None => _ end); [|by rewrite app_nil_r].
  rewrite List.last_last. destruct (List.filter _ (seq 0 k)) as [|i l]; [done|].
  cbn [List.hd app]. apply Nat.lt_le_incl, Hlt. by left.
Qed.

Lemma fold_better_snoc better col l k m :
  fold_better better col (l ++ [k]) m =
  (let m' := fold_better better col l m in if better (value_at col k) m' then value_at col k else m').
Proof. unfold fold_better. by rewrite foldl_app. Qed.

Section rows.
Context (prices : list (list float32)) (sumCols : list (string * list float32)) (ts : list Time) (sn an : list string).
Context (Hp : length prices = 1%nat \/ length prices = 4%nat).
Context (Hpl : Forall (fun col => length ts <= length col)%nat prices).
Context (Hnd : NoDup (map fst sumCols)) (Hsl : Forall (fun nc => length ts <= length (snd nc))%nat sumCols).
Context (Hloc : Forall (fun t => t_loc t = FixedZone off /\ t_ns zeroTime < t_ns t) ts).
Context (Hord : StronglySorted (fun t u => t_ns t < t_ns u) ts).
Context (Hcd : cd_suffix cd ∈ ["D"; "H"; "Min"; "Sec"]).

(** What a row does to its candle. *)
Definition update_candle (t : Time) (ps : list float32) (k : nat) (c : Candle) : outcome Candle :=
  let! '(_, c) := AddCandle t ps c in
  let! c := add_sums sumCols k c in
  Ret (count_row c).

Lemma suffix_not_month : cd_suffix cd <> "M".
Proof.
  intros HM. rewrite HM in Hcd. repeat (apply elem_of_cons in Hcd as [Hcd|Hcd]; [discriminate Hcd|]).
  by apply elem_of_nil in Hcd.
Qed.

Lemma row_time k t : ts !! k = Some t -> t_loc t = FixedZone off /\ IsZero t = false.
Proof.
  intros Ht. destruct (proj1 (Forall_lookup _ ts) Hloc k t Ht) as [Hl Hz]. split; [done|]. apply Z.eqb_neq. lia.
Qed.

Lemma rows_order i j t u : ts !! i = Some t -> ts !! j = Some u -> (i < j)%nat -> t_ns t < t_ns u.
Proof.
  intros Ht Hu Hij. rewrite <- (take_drop_middle ts i t Ht) in Hord.
  apply StronglySorted_app_1_r, StronglySorted_inv in Hord as [_ Hall].
  apply (proj1 (Forall_lookup _ _) Hall (j - S i)%nat). rewrite lookup_drop.
  by replace (S i + (j - S i))%nat with j by lia.
Qed.

Lemma candle_row o l k t ps :
  ts !! k = Some t ->
  mapM (fun col : list float32 => col !! k) prices = Some ps ->
  let key := t_ns (cd_Truncate cd t) in
  Forall (fun i => i < k)%nat l -> (List.hd 0 l <= List.last l 0)%nat ->
  candle_of prices sumCols ts key l o ->
  exists c, update_candle t ps k (default (NewCandle (cd_Truncate cd t) cd sn an) o) = Ret c /\
    candle_of prices sumCols ts key (l ++ [k]) (Some c).
Proof.
  intros Ht Hps key Hl Hends Ho. destruct (row_time k t Ht) as [Htl Htz].
  assert (Hk : (k < length ts)%nat) by (by eapply lookup_lt_Some).
  assert (Htr : cd_Truncate cd t = mkTime key (FixedZone off)).
  { rewrite <- (cd_Truncate_loc off cd t Htl). by destruct (cd_Truncate cd t). }
  assert (Hin : IsWithin cd t (cd_Truncate cd t) = true).
  { rewrite (IsWithin_Truncate off cd t t Htl Htl Hcd). by apply bool_decide_true. }
  destruct (row_of_prices prices k t) as (ps' & Hps' & Hadd); [done|eapply Forall_impl; [exact Hpl|]; cbn; lia|].
  rewrite Hps in Hps'. injection Hps' as <-.
  assert (Hsums : Forall (fun nc : string * list float32 => k < length (snd nc))%nat sumCols)
    by (eapply Forall_impl; [exact Hsl|]; cbn; lia).
  unfold update_candle. rewrite Hadd. destruct l as [|i0 l].
  - cbn in Ho. subst o. cbn [default].
    rewrite add_prices_first; [|unfold candle_IsWithin; cbn; rewrite (cd_Truncate_idem off) by (done || apply suffix_not_month); done|done].
    cbn [outcome_bind].
    match goal with |- context [add_sums sumCols k ?c] => destruct (add_sums_spec sumCols k c Hnd Hsums) as (m & -> & _ & Hm) end.
    eexists. split; [reflexivity|]. cbn [candle_of app].
    eexists. split_and!; [reflexivity| |done|exact Ht|exact Ht| |done|].
    + cbn. by rewrite (cd_Truncate_idem off) by (done || apply suffix_not_month).
    + cbn. rewrite (cd_Truncate_idem off) by (done || apply suffix_not_month). by rewrite Htr.
    + intros name col Hc. cbn [foldl SumMap count_row]. rewrite (Hm name col Hc). f_equal.
      apply NewCandle_sums. by rewrite lookup_empty.
  - destruct Ho as (c & -> & Hst & Hdu & Hop & Hcl & He & Hcnt & Hsum). cbn [default]. unfold id.
    assert (Hz : (List.last (i0 :: l) 0 < k)%nat).
    { apply (proj1 (List.Forall_forall _ _) Hl). pose proof (@app_removelast_last _ (i0 :: l) 0%nat ltac:(done)) as E.
      rewrite E at 2. apply in_or_app. right. by left. }
    assert (Hi0 : (i0 < k)%nat) by (by apply Forall_cons in Hl as [? _]).
    assert (Hoc : t_ns (OpenTime c) <= t_ns (CloseTime c)).
    { cbn [List.hd] in Hends. destruct (decide (i0 = List.last (i0 :: l) 0)%nat) as [E|E].
      - rewrite <- E, Hop in Hcl. by injection Hcl as ->.
      - apply Z.lt_le_incl, (rows_order _ _ _ _ Hop Hcl). lia. }
    rewrite (add_prices_later t).
    + cbn [outcome_bind].
      match goal with |- context [add_sums sumCols k ?c] => destruct (add_sums_spec sumCols k c Hnd Hsums) as (m & -> & _ & Hm) end.
      eexists. split; [reflexivity|].
      eexists. split_and!; [reflexivity|exact Hst|exact Hdu|exact Hop| | | |].
      * by rewrite List.last_last.
      * rewrite List.last_last. cbn [EOHLC count_row set_prices]. rewrite He. cbn [Epoch Open High Low].
        by rewrite !fold_better_snoc.
      * cbn [Count count_row set_prices]. rewrite Hcnt, length_app. cbn [length].
        rewrite wrapS_add_l by done. by rewrite Nat2Z.inj_add.
      * intros name col Hc. rewrite foldl_app, <- (Hsum name col Hc). apply (Hm name col Hc).
    + unfold candle_IsWithin. rewrite Hdu, Hst, <- Htr. exact Hin.
    + apply (row_time _ _ Hop).
    + split; [exact Hoc|]. apply (rows_order _ _ _ _ Hcl Ht Hz).
Qed.

(** The candles after the first [k] rows. *)
Definition candles_upto (k : nat) (m : gmap Z Candle) : Prop :=
  forall key, candle_of prices sumCols ts key (window_rows ts key k) (m !! key).

Lemma candles_upto_start k m key c : candles_upto k m -> m !! key = Some c -> t_ns (StartTime c) = key.
Proof.
  intros Hm Hc. specialize (Hm key). rewrite Hc in Hm. destruct (window_rows ts key k); [done|].
  destruct Hm as (c' & [= <-] & -> & _). done.
Qed.

Lemma GetCandle_found k m t at_hand ca :
  MyCD ca = Some cd -> CMap ca = Some m -> SumNames ca = sn -> AvgNames ca = an -> candles_upto k m ->
  let key := t_ns (cd_Truncate cd t) in
  let c := default (NewCandle (cd_Truncate cd t) cd sn an) (m !! key) in
  exists m', GetCandle t at_hand ca = Ret (key, set_CMap m' ca) /\ m' !! key = Some c /\
    forall c', <[key := c']> m' = <[key := c']> m.
Proof.
  intros Hcd' Hm Hsn Han Hup key c.
  assert (Heta : set_CMap m ca = ca) by (destruct ca; cbn in *; by subst).
  unfold GetCandle. rewrite Hcd', Hm. fold key.
  destruct (at_hand ≫= _) as [k0|] eqn:Hhand.
  - apply bind_Some in Hhand as (k1 & -> & (c1 & Hc1 & H)%bind_Some). cbn [default] in Hc1. unfold id in Hc1.
    destruct (t_ns (StartTime c1) =? key) eqn:E; [injection H as <-|discriminate H]. apply Z.eqb_eq in E.
    rewrite (candles_upto_start k m k1 c1 Hup Hc1) in E. subst k1.
    exists m. subst c. rewrite Hc1, Heta. by split_and!.
  - destruct (m !! key) as [c1|] eqn:Hc1.
    + exists m. rewrite Heta. by split_and!.
    + exists (<[key := c]> m). rewrite Hsn, Han. split_and!; [done|by rewrite lookup_insert_eq|].
      intros c'. apply insert_insert_eq.
Qed.

Lemma accum_row_step k t m at_hand ca :
  ts !! k = Some t ->
  MyCD ca = Some cd -> CMap ca = Some m -> SumNames ca = sn -> AvgNames ca = an -> candles_upto k m ->
  exists m', accum_row prices sumCols k t at_hand ca = Ret (t_ns (cd_Truncate cd t), set_CMap m' ca) /\
    candles_upto (S k) m'.
Proof.
  intros Ht Hcd' Hm Hsn Han Hup. set (key := t_ns (cd_Truncate cd t)).
  assert (Hk : (k < length ts)%nat) by (by eapply lookup_lt_Some).
  destruct (row_of_prices prices k t Hp) as (ps & Hps & _); [eapply Forall_impl; [exact Hpl|]; cbn; lia|].
  destruct (GetCandle_found k m t at_hand ca Hcd' Hm Hsn Han Hup) as (m1 & Hget & Hm1 & Hins).
  fold key in Hget, Hm1, Hins.
  destruct (candle_row (m !! key) (window_rows ts key k) k t ps Ht Hps) as (c & Hc & Hof);
    [apply Forall_forall; intros i; apply window_rows_lt|apply window_rows_ends|apply Hup|].
  exists (<[key := c]> m). split.
  - unfold accum_row. rewrite Hget. cbn [outcome_bind]. rewrite Hps. cbn [CMap set_CMap]. rewrite Hm1.
    fold key in Hc. revert Hc. unfold update_candle.
    destruct (AddCandle t ps _) as [[b c1]| | |]; [|done..]. cbn [outcome_bind].
    destruct (add_sums sumCols k c1) as [c2| | |]; [|done..]. cbn [outcome_bind].
    intros [= <-]. rewrite Hins. done.
  - intros key'. rewrite (window_rows_S ts key' k t Ht). fold key. destruct (Z.eqb_spec key key') as [<-|Hne].
    + rewrite lookup_insert_eq. exact Hof.
    + rewrite app_nil_r, lookup_insert_ne by done. apply Hup.
Qed.

Lemma accum_rows_upto rest : forall k m at_hand ca,
  drop k ts = rest -> (k <= length ts)%nat ->
  MyCD ca = Some cd -> CMap ca = Some m -> SumNames ca = sn -> AvgNames ca = an -> candles_upto k m ->
  exists m', accum_rows prices sumCols k rest at_hand ca = Ret (set_CMap m' ca) /\ candles_upto (length ts) m'.
Proof.
  induction rest as [|t rest IH]; intros k m at_hand ca Hrest Hk Hcd' Hm Hsn Han Hup.
  - apply (f_equal length) in Hrest. rewrite length_drop in Hrest. cbn in Hrest.
    replace (length ts) with k by lia. exists m. split; [|done]. destruct ca; cbn in *; by subst.
  - assert (Ht : ts !! k = Some t).
    { rewrite <- (Nat.add_0_r k), <- lookup_drop, Hrest. done. }
    destruct (accum_row_step k t m at_hand ca Ht Hcd' Hm Hsn Han Hup) as (m1 & Hrow & Hup1).
    cbn [accum_rows]. rewrite Hrow. cbn [outcome_bind].
    apply lookup_lt_Some in Ht.
    destruct (IH (S k) m1 (Some (t_ns (cd_Truncate cd t))) (set_CMap m1 ca)) as (m' & Hm' & Hup'); try done.
    + rewrite <- (Nat.add_1_r k), <- drop_drop, Hrest. done.
    + exists m'. split; [exact Hm'|exact Hup'].
Qed.
End rows.
End candles.

Lemma price_columns_length params cols ca prices :
  price_columns params cols ca = Ret prices -> length prices = length params.
Proof.
  revert prices. induction params as [|p params IH]; intros prices H; [by injection H as <-|].
  cbn [price_columns] in H. apply outcome_bind_Ret in H as (col & _ & H).
  apply outcome_bind_Ret in H as (rest & Hrest & [= <-]). cbn. by rewrite (IH _ Hrest).
Qed.

Lemma sum_columns_names names cols sumCols : sum_columns names cols = Ret sumCols -> map fst sumCols = names.
Proof.
  revert sumCols. induction names as [|n names IH]; intros sumCols H; [by injection H as <-|].
  cbn [sum_columns] in H. apply outcome_bind_Ret in H as (col & _ & H).
  apply outcome_bind_Ret in H as (rest & Hrest & [= <-]). cbn. by rewrite (IH _ Hrest).
Qed.

(** C13: A candler that starts empty and gets the rows of a series, whose times
    increase strictly, in a zone with one offset and with windows of days,
    hours, minutes or seconds, has afterwards, for every start of a window,
    exactly the candle of the rows in it: none if there are no rows, else the
    one that opens with the price of the first row and closes with the price of
    the last, whose high and low are the extremes of the rows' highs and lows,
    with the number of the rows and the sums of the columns to be summed. Ticks
    have one price for all four. (Of two rows with the same time the first
    would give the close.) *)
Theorem accum_candles_windows (off : Z) (cd : CandleDuration) (params : list string) (cols : ColumnSeries) (ca : Candler)
    (n : nat) (prices : list (list float32)) (ts : list Time) (sumCols : list (string * list float32)) :
  cs_Len cols = Ret n -> n <> 0%nat ->
  length params = 1%nat \/ length params = 4%nat ->
  price_columns params cols ca = Ret prices ->
  cs_GetTime (FixedZone off) cols = Ret ts ->
  sum_columns (AccumSumNames ca) cols = Ret sumCols ->
  NoDup (AccumSumNames ca) ->
  Forall (fun col => length ts <= length col)%nat prices ->
  Forall (fun nc => length ts <= length (snd nc))%nat sumCols ->
  Forall (fun t => t_loc t = FixedZone off /\ t_ns zeroTime < t_ns t) ts ->
  StronglySorted (fun t u => t_ns t < t_ns u) ts ->
  cd_suffix cd ∈ ["D"; "H"; "Min"; "Sec"] ->
  MyCD ca = Some cd -> CMap ca = Some ∅ ->
  exists m, accum_candles (FixedZone off) params cols ca = Ret (set_CMap m ca) /\
    forall key, candle_of off cd prices sumCols ts key (window_rows cd ts key (length ts)) (m !! key).
Proof.
  intros Hn Hn0 Hpar Hpr Hts Hsc Hnd Hpl Hsl Hloc Hord Hsfx Hcd Hm.
  apply price_columns_length in Hpr as Hlen. apply sum_columns_names in Hsc as Hnames.
  rewrite <- Hlen in Hpar. rewrite <- Hnames in Hnd.
  unfold accum_candles. rewrite Hn. cbn [outcome_bind]. rewrite (proj2 (Nat.eqb_neq n 0) Hn0), Hpr.
  cbn [outcome_bind]. rewrite Hts. cbn [outcome_bind]. rewrite Hsc. cbn [outcome_bind].
  apply (accum_rows_upto off cd prices sumCols ts (SumNames ca) (AvgNames ca) Hpar Hpl Hnd Hsl Hloc Hord Hsfx ts 0 ∅);
    try done. apply Nat.le_0_l.
Qed.

(** Three ticks in two minutes. *)
Module Example_ticks.
Definition ticks : ColumnSeries :=
  let cs := snd (AddColumn "Epoch" (Some (int64_column [65; 110; 125])) NewColumnSeries) in
  snd (AddColumn "Price" (Some (mkCol KInt32 (map (le_bytes 4) [7; 9; 4]))) cs).
Definition minute : CandleDuration := mkCandleDuration "1Min" Minute "Min" 1.
Definition start : Candler :=
  mkCandler (MapRequiredColumn "CandlePrice" [mkShape "Price" FLOAT32] (ArgMap TickCandler_New)) (Some minute) (Some ∅) [] [] [].
Definition ticks_prices : list (list float32) := [map f32_of_Z [7; 9; 4]].
Definition ticks_times : list Time := [time_Unix 65 0 (FixedZone 0); time_Unix 110 0 (FixedZone 0); time_Unix 125 0 (FixedZone 0)].
End Example_ticks.

Lemma accum_candles_windows_witness :
  exists m, TickCandler_Accum (FixedZone 0) Example_ticks.ticks Example_ticks.start = Ret (set_CMap m Example_ticks.start) /\
    candle_of 0 Example_ticks.minute Example_ticks.ticks_prices [] Example_ticks.ticks_times (60 * Second) [0%nat; 1%nat]
      (m !! (60 * Second)) /\
    candle_of 0 Example_ticks.minute Example_ticks.ticks_prices [] Example_ticks.ticks_times (120 * Second) [2%nat]
      (m !! (120 * Second)) /\
    m !! (180 * Second) = None.
Proof.
  destruct (accum_candles_windows 0 Example_ticks.minute ["CandlePrice"] Example_ticks.ticks Example_ticks.start 3
    Example_ticks.ticks_prices Example_ticks.ticks_times []) as (m & Hm & Hk).
  - by vm_compute.
  - done.
  - by left.
  - by vm_compute.
  - by vm_compute.
  - done.
  - constructor.
  - repeat constructor.
  - constructor.
  - repeat constructor.
  - repeat constructor.
  - right. right. left.
  - done.
  - done.
  - exists m. split; [exact Hm|]. split; [exact (Hk (60 * Second))|]. split; [exact (Hk (120 * Second))|exact (Hk (180 * Second))].
Defined.
