(* ===== verification/Registry.v ===== *)
(** * The aggregates by name (uda/datatypes.go, sqlparser/registry.go)

    What a query promises to and expects of an aggregate function is a type
    class; the registry finds its instances by their names. *)

From S2P Require Export Candler.
From S2P Require Import GoStrings.

#[local] Open Scope string_scope.
#[local] Open Scope Z_scope.

(** ** The interface of an aggregate function

    [agg_InitArgs] are the names of the arguments of the initialization;
    [agg_Output] gets the time of the day. *)
Class AggInterface (A : Type) := {
  agg_New : A;
  agg_ArgMap : A -> ArgumentMap;
  agg_set_ArgMap : ArgumentMap -> A -> A;
  agg_InitArgs : list string;
  agg_Init : list init_arg -> A -> A * option goerr;
  agg_Accum : Location -> ColumnSeries -> A -> outcome A;
  agg_Output : Z -> A -> outcome ColumnSeries;
}.

Record agg_type := Agg { agg_carrier : Type; agg_iface : AggInterface agg_carrier }.
#[export] Existing Instance agg_iface.

Definition set_candler_ArgMap (am : ArgumentMap) (ca : Candler) : Candler :=
  mkCandler am (MyCD ca) (CMap ca) (SumNames ca) (AvgNames ca) (AccumSumNames ca).

Section registry.
Context `{R : MapRange} `{G : Gonum}.

(** The two candlers have their own types in the program. *)
Definition TickCandler_iface : AggInterface Candler := {|
  agg_New := TickCandler_New; agg_ArgMap := ArgMap; agg_set_ArgMap := set_candler_ArgMap;
  agg_InitArgs := ["Timeframe"]; agg_Init := candler_Init; agg_Accum := TickCandler_Accum;
  agg_Output := fun _ => candler_Output |}.
Definition CandleCandler_iface : AggInterface Candler := {|
  agg_New := CandleCandler_New; agg_ArgMap := ArgMap; agg_set_ArgMap := set_candler_ArgMap;
  agg_InitArgs := ["Timeframe"]; agg_Init := candler_Init; agg_Accum := CandleCandler_Accum;
  agg_Output := fun _ => candler_Output |}.

Definition Count_iface : AggInterface Count.t := {|
  agg_New := Count.New; agg_ArgMap := Count.ArgMap;
  agg_set_ArgMap := fun am c => Count.mk am (Count.Sum c);
  agg_InitArgs := []; agg_Init := fun _ => Count.Init; agg_Accum := fun _ => Count.Accum;
  agg_Output := fun now c => Ret (Count.Output now c) |}.
Definition Avg_iface : AggInterface Avg.t := {|
  agg_New := Avg.New; agg_ArgMap := Avg.ArgMap;
  agg_set_ArgMap := fun am a => Avg.mk am (Avg.Avg a) (Avg.Count a);
  agg_InitArgs := []; agg_Init := fun _ => Avg.Init; agg_Accum := fun _ => Avg.Accum;
  agg_Output := fun now a => Ret (Avg.Output now a) |}.
Definition Extreme_iface (accum : ColumnSeries -> Extreme.t -> outcome Extreme.t) (output : Z -> Extreme.t -> ColumnSeries) :
    AggInterface Extreme.t := {|
  agg_New := Extreme.New; agg_ArgMap := Extreme.ArgMap;
  agg_set_ArgMap := fun am e => Extreme.mk am (Extreme.IsInitialized e) (Extreme.Value e);
  agg_InitArgs := []; agg_Init := fun _ => Extreme.Init; agg_Accum := fun _ => accum;
  agg_Output := fun now e => Ret (output now e) |}.
Definition Gap_iface : AggInterface Gap.t := {|
  agg_New := Gap.New; agg_ArgMap := Gap.ArgMap;
  agg_set_ArgMap := fun am g => Gap.mk am (Gap.BigGapIdxs g) (Gap.Input g) (Gap.avgGapIntervalSeconds g);
  agg_InitArgs := []; agg_Init := Gap.Init; agg_Accum := fun _ => Gap.Accum;
  agg_Output := fun _ => Gap.Output |}.

Definition AggRegistry : list (string * agg_type) :=
  [("TickCandler", Agg _ TickCandler_iface); ("tickcandler", Agg _ TickCandler_iface);
   ("CandleCandler", Agg _ CandleCandler_iface); ("candlecandler", Agg _ CandleCandler_iface);
   ("Count", Agg _ Count_iface); ("count", Agg _ Count_iface);
   ("Min", Agg _ (Extreme_iface min_Accum min_Output)); ("min", Agg _ (Extreme_iface min_Accum min_Output));
   ("Max", Agg _ (Extreme_iface max_Accum max_Output)); ("max", Agg _ (Extreme_iface max_Accum max_Output));
   ("Avg", Agg _ Avg_iface); ("avg", Agg _ Avg_iface);
   ("Gap", Agg _ Gap_iface); ("gap", Agg _ Gap_iface)].

Definition find_agg (name : string) : option agg_type :=
  snd <$> List.find (fun e => bool_decide (fst e = name)) AggRegistry.

(** What a query does with an aggregate once its parameters are mapped: the
    error of the initialization is not looked at. *)
Definition run_agg (tz : Location) (now : Z) (aggName : string) (t : agg_type) (agg : agg_carrier t)
    (literals : list string) (input : ColumnSeries) : outcome ColumnSeries :=
  if (length literals <? length (agg_InitArgs (A := agg_carrier t)))%nat then
    Fail (ErrMsg ("Not enough init arguments for " +:+ aggName))
  else
    let! agg := agg_Accum tz input (fst (agg_Init [InitStrings literals] agg)) in
    agg_Output now agg.
End registry.
