(* ===== verification/Numpy.v ===== *)
(** * The wire form of query results (utils/io/numpy.go)

    A data set is the memory of its columns with their names and types; a
    multi-dataset is one data set with the rows of several buckets behind one
    another, and where each bucket's rows start.  A byte slice that comes from
    a client is taken to have no spare capacity. *)

From S2P Require Export ColumnSeries TimeBucketKey.
From S2P Require Import GoStrings.

#[local] Open Scope string_scope.
#[local] Open Scope Z_scope.

Definition typeMap : list (Z * string) :=
  [(BYTE, "i1"); (INT16, "i2"); (INT32, "i4"); (INT64, "i8"); (UINT8, "u1"); (UINT16, "u2"); (UINT32, "u4");
   (UINT64, "u8"); (FLOAT32, "f4"); (FLOAT64, "f8")].

Definition type_str (e : Z) : option string := snd <$> List.find (fun p => fst p =? e) typeMap.
(** [typeStrMap] *)
Definition str_type (s : string) : option Z := fst <$> List.find (fun p => bool_decide (snd p = s)) typeMap.

Record NumpyDataset := mkNds {
  ColumnTypes : list string;
  ColumnNames : list string;
  ColumnData : list (list byte);
  Length : Z;
  dataShapes : option (list DataShape);   (** not sent *)
}.

(** [CastToByteSlice(cs.GetColumn(name))] *)
Definition column_memory (c : iface) : outcome (list byte) :=
  match c with Some c => Ret (col_bytes c) | None => Panic "reflect: call of reflect.Value.Len on zero Value" end.

Fixpoint nds_loop (cs : ColumnSeries) (names : list string) (nds : NumpyDataset) : outcome NumpyDataset :=
  match names with
  | [] => Ret nds
  | name :: names' =>
      let! colBytes := column_memory (GetColumn name cs) in
      match type_str (ds_Type (cs_shape cs name)) with
      | None => Fail (ErrMsg "unsupported type")
      | Some typeStr =>
          nds_loop cs names' (mkNds (ColumnTypes nds ++ [typeStr]) (ColumnNames nds ++ [name])
            (ColumnData nds ++ [colBytes]) (Length nds) (dataShapes nds))
      end
  end.
Definition NewNumpyDataset (cs : ColumnSeries) : outcome NumpyDataset :=
  let! n := cs_Len cs in
  nds_loop cs (orderedNames cs) (mkNds [] [] [] (Z.of_nat n) (Some (cs_GetDataShapes cs))).

Definition nds_Len (nds : NumpyDataset) : Z := Length nds.

Definition buildDataShapes (nds : NumpyDataset) : outcome (list DataShape) :=
  match mapM str_type (ColumnTypes nds) with
  | None => Fail (ErrMsg "unsupported type string")
  | Some etypes => NewDataShapeVector (ColumnNames nds) etypes
  end.

(** A slice expression [s[start:end]]. *)
Definition slice_bytes (s : list byte) (start stop : Z) : outcome (list byte) :=
  if (0 <=? start) && (start <=? stop) && (stop <=? Z.of_nat (length s))
  then Ret (take (Z.to_nat (stop - start)) (drop (Z.to_nat start) s))
  else Panic "slice bounds out of range".

(** The columns, from some row on. *)
Fixpoint read_columns (startIndex len : Z) (shapes : list DataShape) (data : list (list byte)) (cs : ColumnSeries) :
    outcome ColumnSeries :=
  match shapes with
  | [] => Ret cs
  | shape :: shapes' =>
      match data with
      | [] => Panic "index out of range"
      | d :: data' =>
          let size := type_Size (ds_Type shape) in
          let start := int64 (startIndex * size) in
          let stop := int64 (start + int64 (len * size)) in
          let! bs := slice_bytes d start stop in
          read_columns startIndex len shapes' data' (snd (AddColumn (ds_Name shape) (ConvertByteSliceInto (ds_Type shape) bs) cs))
      end
  end.

(** The shapes, once built, stay with the data set. *)
Definition nds_ToColumnSeries (options : list Z) (nds : NumpyDataset) : outcome (ColumnSeries * NumpyDataset) :=
  let! '(startIndex, len) :=
    match options with
    | [] => Ret (0, nds_Len nds)
    | [startIndex; len] => Ret (startIndex, len)
    | _ => Fail (ErrMsg "incorrect number of arguments")
    end in
  match ColumnData nds with
  | [] => Panic "index out of range"
  | [] :: _ => Ret (NewColumnSeries, nds)
  | data =>
      let! shapes := match dataShapes nds with Some shapes => Ret shapes | None => buildDataShapes nds end in
      let! cs := read_columns startIndex len shapes data NewColumnSeries in
      Ret (cs, mkNds (ColumnTypes nds) (ColumnNames nds) (ColumnData nds) (Length nds) (Some shapes))
  end.

(** ** Several buckets *)

Record NumpyMultiDataset := mkNmds {
  nmds_nds : NumpyDataset;
  StartIndex : gmap string Z;
  Lengths : gmap string Z;
}.

Definition NewNumpyMultiDataset (nds : NumpyDataset) (tbk : TimeBucketKey) : NumpyMultiDataset :=
  mkNmds nds {[tbk := 0]} {[tbk := Length nds]}.

(** The entries one after another; the data set keeps its shapes. *)
Fixpoint to_csm_loop (entries : list (string * Z)) (lengths : gmap string Z) (nds : NumpyDataset) (csm : ColumnSeriesMap) :
    outcome (ColumnSeriesMap * NumpyDataset) :=
  match entries with
  | [] => Ret (csm, nds)
  | (tbkStr, idx) :: entries' =>
      let len := default 0 (lengths !! tbkStr) in
      let! '(cs, nds) := (if 0 <? len then nds_ToColumnSeries [idx; len] nds else Ret (NewColumnSeries, nds)) in
      to_csm_loop entries' lengths nds (AddColumnSeries (NewTimeBucketKeyFromString tbkStr) cs csm)
  end.
Definition ToColumnSeriesMap `{R : MapRange} (nmds : NumpyMultiDataset) : outcome ColumnSeriesMap :=
  let! '(csm, _) := to_csm_loop (map_range (StartIndex nmds)) (Lengths nmds) (nmds_nds nmds) ∅ in Ret csm.

(** [name != colSeriesNames[idx]] at every index *)
Fixpoint names_match (names csNames : list string) : outcome bool :=
  match names, csNames with
  | [], _ => Ret true
  | _ :: _, [] => Panic "index out of range"
  | n :: names', m :: csNames' => if decide (n = m) then names_match names' csNames' else Ret false
  end.

Fixpoint append_memory (cs : ColumnSeries) (names : list string) (data : list (list byte)) : outcome (list (list byte)) :=
  match names, data with
  | [], _ => Ret data
  | _ :: _, [] => Panic "index out of range"
  | name :: names', d :: data' =>
      let! newBuffer := column_memory (GetColumn name cs) in
      let! rest := append_memory cs names' data' in
      Ret ((d ++ newBuffer) :: rest)
  end%list.

(** The error leaves the data set as it was. *)
Definition nmds_Append (cs : ColumnSeries) (tbk : TimeBucketKey) (nmds : NumpyMultiDataset) : outcome NumpyMultiDataset :=
  let nds := nmds_nds nmds in
  if negb (bool_decide (length (ColumnData nds) = GetNumColumns cs)) then
    Fail (ErrMsg "Length of columns mismatch with NumpyMultiDataset")
  else
    let! same := names_match (ColumnNames nds) (orderedNames cs) in
    if negb same then Fail (ErrMsg "Data shape mismatch of ColumnSeries and NumpyMultiDataset")
    else
      let! n := cs_Len cs in
      let! data := append_memory cs (orderedNames cs) (ColumnData nds) in
      Ret (mkNmds (mkNds (ColumnTypes nds) (ColumnNames nds) data (int64 (Length nds + Z.of_nat n)) (dataShapes nds))
             (<[tbk := Length nds]> (StartIndex nmds)) (<[tbk := Z.of_nat n]> (Lengths nmds))).

(** ** Round trip *)

(** The kinds that have a name on the wire. *)
Definition wire_kinds : list Kind :=
  [KInt8; KInt16; KInt32; KInt64; KUint8; KUint16; KUint32; KUint64; KFloat32; KFloat64].

Lemma wire_kind k : k ∈ wire_kinds ->
  (exists t, type_str (GetElementType k) = Some t /\ str_type t = Some (GetElementType k)) /\
  type_Size (GetElementType k) = Z.of_nat (kind_size k) /\ (0 < kind_size k)%nat /\ (kind_size k <= 8)%nat /\
  forall bs, ConvertByteSliceInto (GetElementType k) bs = Some (SwapSliceByte bs k).
Proof.
  intros Hk. repeat (apply elem_of_cons in Hk as [->|Hk]; [split_and!; [eexists; split; reflexivity|reflexivity|cbn; lia|cbn; lia|reflexivity]|]).
  by apply elem_of_nil in Hk.
Qed.

Definition add_named (cs : ColumnSeries) (nc : string * column) : ColumnSeries := snd (AddColumn (fst nc) (Some (snd nc)) cs).

Lemma add_named_fresh cs n c :
  columns cs !! n = None ->
  add_named cs (n, c) = mkCS (<[n := Some c]> (columns cs)) (orderedNames cs ++ [n]) (candleAttributes cs) (nameIncrement cs).
Proof.
  intros Hn. unfold add_named, AddColumn, Exists_col. cbn [fst snd].
  rewrite bool_decide_false; [done|]. rewrite Hn. by intros [? ?].
Qed.

Lemma foldl_named cols : forall cs,
  NoDup (map fst cols) -> (forall n, n ∈ map fst cols -> columns cs !! n = None) ->
  let cs' := foldl add_named cs cols in
  orderedNames cs' = (orderedNames cs ++ map fst cols)%list /\
  candleAttributes cs' = candleAttributes cs /\ nameIncrement cs' = nameIncrement cs /\
  (forall n c, (n, c) ∈ cols -> columns cs' !! n = Some (Some c)) /\
  (forall n, n ∉ map fst cols -> columns cs' !! n = columns cs !! n).
Proof.
  induction cols as [|[n c] cols IH]; intros cs Hnd Hfresh; cbn [foldl].
  - cbn. rewrite app_nil_r. split_and!; try done. by intros ? ? ?%elem_of_nil.
  - apply NoDup_cons in Hnd as [Hn Hnd]. cbn [map fst] in *.
    rewrite (add_named_fresh cs n c) by (apply Hfresh; left).
    match goal with |- context [foldl add_named ?cs1 cols] => destruct (IH cs1 Hnd) as (Ho & Ha & Hi & Hin & Hout) end.
    { intros m Hm. cbn. rewrite lookup_insert_ne by (intros ->; contradiction). apply Hfresh. by right. }
    cbn [columns orderedNames candleAttributes nameIncrement] in *. split_and!; try done.
    + rewrite Ho, <- app_assoc. done.
    + intros m d [[= -> ->]|Hm]%elem_of_cons; [|by apply Hin].
      rewrite Hout by done. apply lookup_insert_eq.
    + intros m Hm. rewrite Hout by (intros ?; apply Hm; by right).
      apply lookup_insert_ne. intros ->. apply Hm. left.
Qed.

Lemma table_named cols : table cols = foldl add_named NewColumnSeries cols.
Proof. done. Qed.

Lemma table_spec cols : NoDup (map fst cols) ->
  orderedNames (table cols) = map fst cols /\ forall n c, (n, c) ∈ cols -> GetByName n (table cols) = Some c.
Proof.
  intros Hnd. destruct (foldl_named cols NewColumnSeries Hnd) as (Ho & _ & _ & Hin & _); [intros; apply lookup_empty|].
  rewrite <- table_named in Ho, Hin. split; [exact Ho|].
  intros n c Hc. unfold GetByName. by rewrite (Hin n c Hc).
Qed.

(** A column of a series under a name. *)
Definition column_is (cs : ColumnSeries) (nm : string) (kc : Kind * column) : Prop :=
  GetColumn nm cs = Some (snd kc) /\ cs_shape cs nm = mkShape nm (GetElementType (fst kc)) /\
  fst kc ∈ wire_kinds /\ col_kind (snd kc) = fst kc.

Lemma shapes_of_columns cs names kcs :
  Forall2 (column_is cs) names kcs ->
  map (cs_shape cs) names = zip_with (fun n k => mkShape n (GetElementType k)) names (map fst kcs).
Proof. induction 1 as [|nm kc names kcs (_ & Hs & _) _ IH]; [done|]. cbn. by rewrite Hs, IH. Qed.

Lemma nds_loop_columns cs names kcs : Forall2 (column_is cs) names kcs -> forall nds,
  nds_loop cs names nds =
  Ret (mkNds (ColumnTypes nds ++ map (fun kc => default "" (type_str (GetElementType (fst kc)))) kcs)
         (ColumnNames nds ++ names) (ColumnData nds ++ map (fun kc => col_bytes (snd kc)) kcs) (Length nds) (dataShapes nds)).
Proof.
  induction 1 as [|nm kc names kcs (Hg & Hs & Hk & _) _ IH]; intros nds; cbn [nds_loop map].
  - rewrite !app_nil_r. by destruct nds.
  - rewrite Hg. cbn [column_memory outcome_bind]. rewrite Hs. cbn [ds_Type].
    destruct (wire_kind _ Hk) as ((t & Ht & _) & _). rewrite Ht. rewrite IH. cbn [ColumnTypes ColumnNames ColumnData Length dataShapes].
    rewrite <- !app_assoc. done.
Qed.

Lemma append_columns cs names kcs : Forall2 (column_is cs) names kcs -> forall data,
  length data = length names ->
  append_memory cs names data = Ret (zip_with (fun d kc => d ++ col_bytes (snd kc)) data kcs)%list.
Proof.
  induction 1 as [|nm kc names kcs (Hg & _) _ IH]; intros [|d data] Hl; try discriminate Hl; [done|].
  cbn [append_memory]. rewrite Hg. cbn [column_memory outcome_bind]. rewrite IH by (by injection Hl). done.
Qed.

Lemma names_match_refl names : names_match names names = Ret true.
Proof. induction names as [|n names IH]; [done|]. cbn. by rewrite decide_True. Qed.

(** [n] rows of a column from the row [start] on, in the memory of a data set. *)
Definition stored_column (start n : nat) (kd : Kind * list byte) (c : column) : Prop :=
  let size := kind_size (fst kd) in
  fst kd ∈ wire_kinds /\ col_kind c = fst kd /\ col_wf c /\
  ((start + n) * size <= length (snd kd))%nat /\ take (n * size) (drop (start * size) (snd kd)) = col_bytes c.

Lemma read_columns_stored start n kinds : Z.of_nat (start + n) * 8 < 2 ^ 63 -> forall names data cols acc,
  length names = length kinds -> length data = length kinds ->
  Forall2 (stored_column start n) (zip kinds data) cols ->
  read_columns (Z.of_nat start) (Z.of_nat n) (zip_with (fun n k => mkShape n (GetElementType k)) names kinds) data acc =
  Ret (foldl add_named acc (zip names cols)).
Proof.
  intros Hb. induction kinds as [|k kinds IH]; intros [|nm names] [|d data] cols acc Hn Hd Hs; try discriminate.
  - cbn in Hs. apply Forall2_nil_inv_l in Hs as ->. done.
  - cbn [zip_with] in Hs. apply Forall2_cons_inv_l in Hs as (c & cols' & (Hk & Hck & Hwf & Hlen & Hc) & Hs & ->).
    cbn [fst snd] in *. destruct (wire_kind k Hk) as (_ & Hsize & Hpos & H8 & Hconv).
    cbn [zip_with read_columns]. cbn [ds_Type ds_Name]. rewrite Hsize.
    assert (Z.of_nat start * Z.of_nat (kind_size k) <= Z.of_nat (start + n) * 8) by nia.
    assert (Z.of_nat n * Z.of_nat (kind_size k) <= Z.of_nat (start + n) * 8) by nia.
    assert (Z.of_nat start * Z.of_nat (kind_size k) + Z.of_nat n * Z.of_nat (kind_size k) <= Z.of_nat (start + n) * 8) by nia.
    assert (0 <= Z.of_nat start * Z.of_nat (kind_size k) /\ 0 <= Z.of_nat n * Z.of_nat (kind_size k)) by nia.
    rewrite (wrapS_id 64 (Z.of_nat n * _)) by (unfold inS; lia).
    rewrite (wrapS_id 64 (Z.of_nat start * _)) by (unfold inS; lia).
    rewrite (wrapS_id 64 (_ + _)) by (unfold inS; lia).
    unfold slice_bytes.
    assert (Hend : Z.of_nat start * Z.of_nat (kind_size k) + Z.of_nat n * Z.of_nat (kind_size k) <= Z.of_nat (length d)).
    { rewrite <- Z.mul_add_distr_r, <- Nat2Z.inj_add, <- Nat2Z.inj_mul. lia. }
    match goal with |- context [if ?b then _ else _] =>
      replace b with true by (symmetry; rewrite !andb_true_iff, !Z.leb_le; split_and!; lia) end. cbn [outcome_bind].
    rewrite Hconv.
    replace (Z.to_nat _) with (n * kind_size k)%nat by nia.
    replace (Z.to_nat _) with (start * kind_size k)%nat by nia.
    rewrite Hc. unfold SwapSliceByte, col_bytes. rewrite chunks_concat by (done || (by rewrite <- Hck)).
    rewrite (IH names data cols') by (done || (cbn in Hn, Hd; lia)). cbn [foldl zip_with]. f_equal. f_equal.
    unfold add_named. cbn [fst snd]. rewrite <- Hck. by destruct c.
Qed.

Section frames.
Context (names : list string) (kinds : list Kind).
Context (Hnames : NoDup names) (Hne : names <> []) (Hlen : length names = length kinds) (Hkinds : Forall (.∈ wire_kinds) kinds).

(** The columns of a series of [n] rows, and the series. *)
Definition rows_ok (n : nat) (cols : list column) : Prop :=
  Forall2 (fun k c => col_kind c = k /\ col_wf c /\ col_len c = n) kinds cols.
Definition frame (cols : list column) : ColumnSeries := table (zip names cols).
Definition wire_shapes : list DataShape := zip_with (fun n k => mkShape n (GetElementType k)) names kinds.
Definition wire_types : list string := map (fun k => default "" (type_str (GetElementType k))) kinds.

Lemma zip_names (cols : list column) : length cols = length names -> map fst (zip names cols) = names.
Proof. intros Hl. apply (fst_zip names cols). lia. Qed.

Lemma rows_ok_length n cols : rows_ok n cols -> length cols = length names.
Proof. intros H. apply Forall2_length in H. lia. Qed.

Lemma frame_spec n cols : rows_ok n cols ->
  orderedNames (frame cols) = names /\
  forall i name c, names !! i = Some name -> cols !! i = Some c -> GetByName name (frame cols) = Some c.
Proof.
  intros Hok. apply rows_ok_length in Hok as Hl.
  destruct (table_spec (zip names cols)) as [Ho Hg]; [by rewrite zip_names|].
  unfold frame. rewrite Ho, zip_names by done. split; [done|].
  intros i name c Hn Hc. apply Hg. apply (list_elem_of_lookup_2 _ i). apply lookup_zip_with_Some. eauto.
Qed.

Lemma frame_len n cols : rows_ok n cols -> cs_Len (frame cols) = Ret n.
Proof.
  intros Hok. destruct (frame_spec n cols Hok) as [Ho Hg]. unfold cs_Len.
  destruct (orderedNames (frame cols)) as [|name names'] eqn:E; [by rewrite <- Ho in Hne|].
  assert (Hn0 : names !! 0%nat = Some name) by (by rewrite <- Ho).
  destruct (lookup_lt_is_Some_2 cols 0) as [c Hc].
  { rewrite (rows_ok_length n cols Hok). by apply lookup_lt_Some in Hn0. }
  rewrite (Hg 0%nat name c Hn0 Hc). cbn. f_equal.
  destruct (Forall2_lookup_r _ _ _ _ _ Hok Hc) as (k & _ & _ & _ & Hl). exact Hl.
Qed.

(** The names from the [i]th on, with the columns they stand for. *)
Lemma frame_drop n cols : rows_ok n cols ->
  Forall2 (column_is (frame cols))
    names (zip kinds cols).
Proof.
  intros Hok. destruct (frame_spec n cols Hok) as [_ Hg]. apply rows_ok_length in Hok as Hl.
  apply Forall2_same_length_lookup_2; [rewrite length_zip_with; lia|].
  intros i nm [k c] Hnm Hkc. apply lookup_zip_with_Some in Hkc as (k' & c' & [= <- <-] & Hk & Hc). cbn [fst snd].
  assert (Hck : col_kind c = k).
  { destruct (Forall2_lookup_lr _ _ _ _ _ _ Hok Hk Hc) as (H & _). exact H. }
  unfold column_is, GetColumn, cs_shape. cbn [fst snd]. rewrite (Hg i nm c Hnm Hc). cbn [iface_kind]. rewrite Hck.
  split_and!; try done. apply (proj1 (Forall_lookup _ kinds) Hkinds i k Hk).
Qed.

Lemma nds_loop_frame n cols : rows_ok n cols ->
  NewNumpyDataset (frame cols) =
  Ret (mkNds wire_types names (map col_bytes cols) (Z.of_nat n) (Some wire_shapes)).
Proof.
  intros Hok. unfold NewNumpyDataset. rewrite (frame_len n cols Hok). cbn [outcome_bind].
  destruct (frame_spec n cols Hok) as [Ho _]. pose proof (frame_drop n cols Hok) as Hf.
  apply rows_ok_length in Hok as Hl.
  unfold cs_GetDataShapes. rewrite Ho, (shapes_of_columns _ _ _ Hf), (nds_loop_columns _ _ _ Hf). cbn [ColumnTypes ColumnNames ColumnData Length dataShapes app].
  unfold wire_types, wire_shapes.
  assert (Hfst : map fst (zip kinds cols) = kinds) by (apply (fst_zip kinds cols); lia).
  assert (Hsnd : map snd (zip kinds cols) = cols) by (apply (snd_zip kinds cols); lia).
  rewrite <- (map_map fst (fun k => default "" (type_str (GetElementType k)))), <- (map_map snd col_bytes).
  by rewrite Hfst, Hsnd.
Qed.

(** What a multi-dataset of several series holds: their names, numbers of rows
    and columns. *)
Definition total_rows (es : list (string * (nat * list column))) : nat := sum_list_with (fun e => fst (snd e)) es.

Record multi_ok (nmds : NumpyMultiDataset) (es : list (string * (nat * list column))) : Prop := {
  mo_names : ColumnNames (nmds_nds nmds) = names;
  mo_types : ColumnTypes (nmds_nds nmds) = wire_types;
  mo_shapes : dataShapes (nmds_nds nmds) = Some wire_shapes \/ dataShapes (nmds_nds nmds) = None;
  mo_length : Length (nmds_nds nmds) = Z.of_nat (total_rows es);
  mo_data : Forall2 (fun k d => length d = total_rows es * kind_size k)%nat kinds (ColumnData (nmds_nds nmds));
  mo_entries : forall key n cols, (key, (n, cols)) ∈ es ->
    exists start, StartIndex nmds !! key = Some (Z.of_nat start) /\ Lengths nmds !! key = Some (Z.of_nat n) /\
      (start + n <= total_rows es)%nat /\ Forall2 (stored_column start n) (zip kinds (ColumnData (nmds_nds nmds))) cols;
  mo_keys : forall key z, StartIndex nmds !! key = Some z -> key ∈ map fst es;
}.

Lemma stored_whole n cols d0 start :
  rows_ok n cols -> Forall2 (fun k d => length d = start * kind_size k)%nat kinds d0 ->
  Forall2 (stored_column start n) (zip kinds (zip_with (fun d c => d ++ col_bytes c)%list d0 cols)) cols.
Proof.
  unfold rows_ok. intros Hok. revert d0. clear Hnames Hne Hlen. induction Hok as [|k c ks cols' (Hk & Hwf & Hn) _ IH]; intros d0 Hd.
  - apply Forall2_nil_inv_l in Hd as ->. constructor.
  - apply Forall2_cons_inv_l in Hd as (d & d0' & Hd & Hd' & ->). apply Forall_cons in Hkinds as [Hw Hws].
    cbn [zip_with]. constructor; [|by apply IH].
    split_and!; cbn [fst snd]; [done|done|done| |].
    + rewrite length_app, Hd. unfold col_bytes. rewrite (length_concat_uniform (kind_size k)) by (by rewrite <- Hk).
      unfold col_len in Hn. rewrite Hn. lia.
    + rewrite drop_app_le, drop_ge by lia. cbn [app]. apply take_ge. unfold col_bytes.
      rewrite (length_concat_uniform (kind_size k)) by (by rewrite <- Hk). unfold col_len in Hn. by rewrite Hn.
Qed.

Lemma stored_app start n cols0 kds (bs : list (list byte)) :
  Forall2 (stored_column start n) (zip kinds kds) cols0 -> length kds = length kinds -> length bs = length kinds ->
  Forall2 (stored_column start n) (zip kinds (zip_with app kds bs)) cols0.
Proof.
  clear Hnames Hne Hlen Hkinds. revert kds bs cols0.
  induction kinds as [|k ks IH]; intros [|d kds] [|b bs] cols0 Hs Hd Hb; try discriminate; [done|].
  cbn [zip_with] in *. apply Forall2_cons_inv_l in Hs as (c & cols' & (Hw & Hk & Hwf & Hl & Ht) & Hs & ->). cbn [fst snd] in *.
  constructor; [|apply IH; [done|by injection Hd|by injection Hb]].
  split_and!; cbn [fst snd]; [done|done|done|rewrite length_app; lia|].
  rewrite drop_app_le by lia. rewrite take_app_le; [done|]. rewrite length_drop. lia.
Qed.

Lemma memory_grown t n cols ds :
  rows_ok n cols -> Forall2 (fun k d => length d = t * kind_size k)%nat kinds ds ->
  Forall2 (fun k d => length d = (t + n) * kind_size k)%nat kinds (zip_with app ds (map col_bytes cols)).
Proof.
  unfold rows_ok. intros Hok. clear Hnames Hne Hlen Hkinds. revert ds. induction Hok as [|k c ks cols' (Hk & Hwf & Hn) _ IH]; intros ds Hd.
  - apply Forall2_nil_inv_l in Hd as ->. constructor.
  - apply Forall2_cons_inv_l in Hd as (d & ds' & Hd & Hd' & ->). cbn. constructor; [|by apply IH].
    rewrite length_app, Hd. unfold col_bytes. rewrite (length_concat_uniform (kind_size k)) by (by rewrite <- Hk).
    unfold col_len in Hn. rewrite Hn. lia.
Qed.

Lemma zip_with_memory (cols : list column) : forall ds : list (list byte),
  zip_with (fun d c => d ++ col_bytes c)%list ds cols = zip_with app ds (map col_bytes cols).
Proof. induction cols as [|c cs IH]; intros [|d ds]; try done. cbn. by rewrite IH. Qed.

Lemma zip_with_named cols : length cols = length kinds -> forall ds : list (list byte),
  zip_with (fun d (kc : Kind * column) => d ++ col_bytes (snd kc))%list ds (zip kinds cols) = zip_with app ds (map col_bytes cols).
Proof.
  clear. revert cols. induction kinds as [|k ks IH]; intros [|c cs] Hc [|d ds]; try discriminate; try done.
  cbn. f_equal. apply IH. by injection Hc.
Qed.

(** The memory of a data set without rows. *)
Definition no_memory : list (list byte) := map (fun _ : Kind => []) kinds.

Lemma no_memory_length : Forall2 (fun k d => length d = 0 * kind_size k)%nat kinds no_memory.
Proof. unfold no_memory. clear. induction kinds; constructor; done. Qed.

Lemma no_memory_app n cols : rows_ok n cols -> zip_with app no_memory (map col_bytes cols) = map col_bytes cols.
Proof.
  unfold rows_ok, no_memory. clear. induction 1 as [|k c ks cols' _ _ IH]; [done|]. cbn. by rewrite IH.
Qed.

Lemma first_multi_ok key n cols : rows_ok n cols ->
  multi_ok (NewNumpyMultiDataset (mkNds wire_types names (map col_bytes cols) (Z.of_nat n) (Some wire_shapes)) key)
    [(key, (n, cols))].
Proof.
  intros Hok. assert (Htot : total_rows [(key, (n, cols))] = n) by (unfold total_rows; cbn; lia).
  pose proof (stored_whole n cols _ 0 Hok no_memory_length) as Hst.
  pose proof (memory_grown 0 n cols _ Hok no_memory_length) as Hg.
  rewrite zip_with_memory, (no_memory_app n) in Hst by done. rewrite (no_memory_app n) in Hg by done.
  split; cbn [nmds_nds NewNumpyMultiDataset ColumnNames dataShapes Length ColumnData StartIndex Lengths]; rewrite ?Htot; try done.
  - by left.
  - intros key' n' cols' [[= -> -> ->]|[]%elem_of_nil]%elem_of_cons. exists 0%nat.
    split_and!; [apply lookup_singleton_eq|apply lookup_singleton_eq|lia|exact Hst].
  - intros key' z Hz'. apply lookup_singleton_Some in Hz' as [<- _]. left.
Qed.

Lemma Append_frame nmds es key n cols :
  multi_ok nmds es -> rows_ok n cols ->
  nmds_Append (frame cols) key nmds =
  Ret (mkNmds (mkNds (ColumnTypes (nmds_nds nmds)) names (zip_with app (ColumnData (nmds_nds nmds)) (map col_bytes cols))
                 (int64 (Length (nmds_nds nmds) + Z.of_nat n)) (dataShapes (nmds_nds nmds)))
         (<[key := Length (nmds_nds nmds)]> (StartIndex nmds)) (<[key := Z.of_nat n]> (Lengths nmds))).
Proof.
  intros Hm Hok. destruct (frame_spec n cols Hok) as [Ho _]. pose proof (frame_drop n cols Hok) as Hf.
  apply rows_ok_length in Hok as Hl. pose proof (mo_data _ _ Hm) as Hd. apply Forall2_length in Hd as Hdl.
  unfold nmds_Append.
  rewrite bool_decide_true; [|unfold GetNumColumns, cs_IsEmpty; rewrite Ho; rewrite bool_decide_false by done; lia].
  cbn [negb]. rewrite (mo_names _ _ Hm), Ho, names_match_refl. cbn [outcome_bind negb].
  rewrite (frame_len n cols Hok). cbn [outcome_bind]. rewrite (append_columns _ _ _ Hf) by lia. cbn [outcome_bind].
  by rewrite zip_with_named by lia.
Qed.

Lemma Append_multi_ok nmds es key n cols :
  multi_ok nmds es -> rows_ok n cols -> key ∉ map fst es -> Z.of_nat (total_rows es + n) < 2 ^ 63 ->
  exists nmds', nmds_Append (frame cols) key nmds = Ret nmds' /\ multi_ok nmds' (es ++ [(key, (n, cols))])%list.
Proof.
  intros Hm Hok Hkey Hb. eexists. split; [by apply (Append_frame nmds es)|].
  pose proof (mo_data _ _ Hm) as Hd. apply Forall2_length in Hd as Hdl. apply rows_ok_length in Hok as Hl.
  assert (Htot : total_rows (es ++ [(key, (n, cols))])%list = (total_rows es + n)%nat).
  { unfold total_rows. rewrite sum_list_with_app. cbn. lia. }
  split; cbn [nmds_nds ColumnNames dataShapes Length ColumnData StartIndex Lengths]; rewrite ?Htot.
  - done.
  - apply (mo_types _ _ Hm).
  - apply (mo_shapes _ _ Hm).
  - rewrite (mo_length _ _ Hm), <- Nat2Z.inj_add. apply wrapS_id; [done|]. unfold inS. lia.
  - by apply memory_grown.
  - intros key' n' cols' [He|He]%elem_of_app.
    + destruct (mo_entries _ _ Hm key' n' cols' He) as (start & Hs & Hn & Hb' & Hst).
      assert (key' <> key).
      { intros ->. apply Hkey. apply list_elem_of_fmap. by exists (key, (n', cols')). }
      exists start. rewrite !lookup_insert_ne by done. split_and!; [done|done|lia|].
      apply stored_app; [done|lia|rewrite length_map; lia].
    + apply list_elem_of_singleton in He as [= -> -> ->]. exists (total_rows es).
      rewrite !lookup_insert_eq, (mo_length _ _ Hm). split_and!; [done|done|lia|].
      rewrite <- zip_with_memory. by apply stored_whole.
  - intros key' z Hz'. rewrite map_app. apply elem_of_app. destruct (decide (key = key')) as [->|Hk].
    + right. left.
    + left. rewrite lookup_insert_ne in Hz' by done. by apply (mo_keys _ _ Hm key' z).
Qed.

(** ** Reading the series back *)

Lemma buildDataShapes_wire nds : ColumnTypes nds = wire_types -> ColumnNames nds = names -> buildDataShapes nds = Ret wire_shapes.
Proof.
  intros Ht Hn. unfold buildDataShapes. rewrite Ht, Hn.
  assert (Hm : mapM str_type wire_types = Some (map GetElementType kinds)).
  { unfold wire_types. clear -Hkinds. induction Hkinds as [|k ks Hk _ IH]; [done|].
    destruct (wire_kind k Hk) as ((t & Ht & Hs) & _). cbn [map]. rewrite Ht.
    apply mapM_Some_2. constructor; [exact Hs|]. apply mapM_Some_1, IH. by apply Forall_cons in Hkinds as [_ ?]. }
  rewrite Hm. unfold wire_shapes. clear -Hlen. revert kinds Hlen.
  induction names as [|n ns IH]; intros [|k ks] Hl; try discriminate; [done|]. cbn.
  rewrite IH by (by injection Hl). done.
Qed.

Lemma read_stored nds n cols start :
  ColumnTypes nds = wire_types -> ColumnNames nds = names ->
  dataShapes nds = Some wire_shapes \/ dataShapes nds = None ->
  length (ColumnData nds) = length kinds ->
  Forall2 (stored_column start n) (zip kinds (ColumnData nds)) cols ->
  Forall (fun d => d <> []) (ColumnData nds) -> Z.of_nat (start + n) * 8 < 2 ^ 63 ->
  nds_ToColumnSeries [Z.of_nat start; Z.of_nat n] nds =
  Ret (frame cols, mkNds (ColumnTypes nds) (ColumnNames nds) (ColumnData nds) (Length nds) (Some wire_shapes)).
Proof.
  intros Ht Hn Hsh Hdl Hst Hpos Hb. unfold nds_ToColumnSeries. cbn [outcome_bind].
  destruct (ColumnData nds) as [|[|b d] data] eqn:Hd.
  - destruct kinds; [destruct names; done|discriminate Hdl].
  - apply Forall_cons in Hpos as [Hpos _]. done.
  - assert (Hs : match dataShapes nds with Some shapes => Ret shapes | None => buildDataShapes nds end = Ret wire_shapes).
    { destruct Hsh as [-> | ->]; [done|]. by apply buildDataShapes_wire. }
    rewrite Hs. cbn [outcome_bind].
    unfold wire_shapes at 1. rewrite (read_columns_stored start n kinds Hb names _ cols NewColumnSeries Hlen Hdl Hst). done.
Qed.
End frames.

(** A series added to a map of series where it is not yet. *)
Lemma csm_AddColumn_fold key (g : string -> iface) ns : forall csm, ns <> [] ->
  foldl (fun csm name => csm_AddColumn key name (g name) csm) csm ns =
  <[key := foldl (fun cs name => snd (AddColumn name (g name) cs)) (default NewColumnSeries (csm !! key)) ns]> csm.
Proof.
  induction ns as [|n ns IH]; intros csm Hne; [done|]. cbn [foldl]. destruct ns as [|n' ns]; [done|].
  rewrite IH by done. unfold csm_AddColumn at 1. rewrite lookup_insert_eq. cbn [default]. unfold csm_AddColumn.
  by rewrite insert_insert_eq.
Qed.

Lemma foldl_named_zip (g : string -> iface) ns cols :
  Forall2 (fun n c => g n = Some c) ns cols -> forall cs,
  foldl (fun cs name => snd (AddColumn name (g name) cs)) cs ns = foldl add_named cs (zip ns cols).
Proof. induction 1 as [|n c ns cols Hg _ IH]; intros cs; [done|]. cbn [foldl zip_with]. by rewrite Hg, IH. Qed.

Lemma AddColumnSeries_frame names kinds n cols key csm :
  NoDup names -> names <> [] -> length names = length kinds -> rows_ok kinds n cols -> csm !! key = None ->
  AddColumnSeries key (frame names cols) csm = <[key := frame names cols]> csm.
Proof.
  intros Hnd Hne Hlen Hok Hkey.
  destruct (frame_spec names kinds Hnd Hlen n cols Hok) as [Ho Hg]. apply (rows_ok_length names kinds Hlen) in Hok as Hl.
  unfold AddColumnSeries. rewrite Ho, csm_AddColumn_fold, Hkey by done. cbn [default]. f_equal.
  rewrite (foldl_named_zip _ names cols); [done|].
  apply Forall2_same_length_lookup_2; [lia|]. intros i nm c Hn Hc. by apply (Hg i).
Qed.
