(* ===== verification/Tables.v ===== *)
(** * Series as tables

    What it means that a column series is a table - names in an order, a column
    of so many rows under each - and that the operations on series make tables
    of tables. *)

From S2P Require Export Numpy.

#[local] Open Scope string_scope.
#[local] Open Scope Z_scope.

Record is_table (cs : ColumnSeries) (names : list string) (n : nat) (val : string -> column) : Prop := {
  it_names : orderedNames cs = names;
  it_col : forall name, name ∈ names -> columns cs !! name = Some (Some (val name));
  it_none : forall name, name ∉ names -> columns cs !! name = None;
  it_len : forall name, name ∈ names -> col_len (val name) = n;
}.

(** Some of the rows of a column. *)
Definition pick_rows (idx : list nat) (c : column) : column := mkCol (col_kind c) (omap (fun i => col_elems c !! i) idx).

Lemma GetByName_table cs names n val name : is_table cs names n val -> name ∈ names -> GetByName name cs = Some (val name).
Proof. intros H Hn. unfold GetByName. by rewrite (it_col _ _ _ _ H name Hn). Qed.

Lemma cs_Len_table cs names n val : is_table cs names n val -> names <> [] -> cs_Len cs = Ret n.
Proof.
  intros H Hne. unfold cs_Len. rewrite (it_names _ _ _ _ H). destruct names as [|name names']; [done|].
  rewrite (GetByName_table _ _ _ _ _ H) by left. cbn. f_equal. apply (it_len _ _ _ _ H). left.
Qed.

Lemma select_rows_ok idx c n : col_len c = n -> Forall (fun i => (i < n)%nat) idx ->
  select_rows idx (Some c) = Ret (Some (pick_rows idx c)).
Proof. intros <- Hi. unfold select_rows. by rewrite bool_decide_eq_true_2. Qed.

Lemma length_omap_lookup {A} (l : list A) idx : Forall (fun i => (i < length l)%nat) idx ->
  length (omap (fun i => l !! i) idx) = length idx.
Proof.
  induction 1 as [|i idx Hi _ IH]; [done|]. cbn. destruct (lookup_lt_is_Some_2 l i Hi) as [x Hx].
  rewrite Hx. cbn. by rewrite IH.
Qed.

Lemma pick_rows_len idx c n : col_len c = n -> Forall (fun i => (i < n)%nat) idx -> col_len (pick_rows idx c) = length idx.
Proof. intros <- Hi. apply length_omap_lookup, Hi. Qed.

(** *** Removing rows *)

Lemma kept_rows_map (f : nat -> bool) n : kept_rows (map f (seq 0 n)) = List.filter (fun i => negb (f i)) (seq 0 n).
Proof.
  unfold kept_rows. assert (imap (fun i b => (i, b)) (map f (seq 0 n)) = map (fun i => (i, f i)) (seq 0 n)) as ->.
  { apply list_eq. intros i. rewrite list_lookup_imap. change (map f (seq 0 n)) with (f <$> seq 0 n).
    change (map (fun i => (i, f i)) (seq 0 n)) with ((fun i => (i, f i)) <$> seq 0 n). rewrite !list_lookup_fmap.
    destruct (seq 0 n !! i) as [j|] eqn:Hj; [|done]. apply lookup_seq in Hj as [-> _]. done. }
  induction (seq 0 n) as [|i l IH]; [done|]. cbn. destruct (f i); cbn; [exact IH|by rewrite IH].
Qed.

Lemma filter_seq_lt (f : nat -> bool) n : Forall (fun i => (i < n)%nat) (List.filter f (seq 0 n)).
Proof.
  apply Forall_forall. intros i Hi. apply list_elem_of_In, filter_In in Hi as [Hi _]. apply in_seq in Hi. lia.
Qed.

Lemma EqualFold_spec a b : EqualFold a b = true <-> ToLower a = ToLower b.
Proof. apply bool_decide_eq_true. Qed.

Lemma restrict_loop_spec (bitmap : list bool) n : Forall (fun i => (i < n)%nat) (kept_rows bitmap) ->
  forall todo doneNames cs (val : string -> column),
  orderedNames cs = (todo ++ doneNames)%list -> NoDup (map ToLower (todo ++ doneNames)%list) ->
  (forall name, name ∈ todo -> columns cs !! name = Some (Some (val name)) /\ col_len (val name) = n /\ col_kind (val name) ∈ numeric_kinds) ->
  (forall name, name ∈ doneNames -> columns cs !! name = Some (Some (pick_rows (kept_rows bitmap) (val name)))) ->
  exists cs', restrict_loop bitmap todo cs = Ret cs' /\ orderedNames cs' = (doneNames ++ todo)%list /\
    (forall name, name ∈ (todo ++ doneNames)%list -> columns cs' !! name = Some (Some (pick_rows (kept_rows bitmap) (val name)))) /\
    (forall name, name ∉ (todo ++ doneNames)%list -> columns cs' !! name = columns cs !! name).
Proof.
  intros Hidx. induction todo as [|key todo IH]; intros doneNames cs val Ho Hnd Htodo Hdone.
  - exists cs. cbn in *. rewrite app_nil_r. split_and!; try done.
  - destruct (Htodo key ltac:(left)) as (Hcol & Hlen & Hkind).
    assert (Hkey : key ∉ (todo ++ doneNames)%list).
    { intros Hin. apply (list_elem_of_fmap_2 ToLower) in Hin. apply NoDup_cons in Hnd as [Hn _]. contradiction. }
    cbn [restrict_loop]. unfold GetByName. rewrite Hcol. rewrite bool_decide_eq_true_2 by done.
    rewrite (select_rows_ok _ _ _ Hlen Hidx). cbn [outcome_bind].
    assert (Hrep : exists cs1, Replace key (Some (pick_rows (kept_rows bitmap) (val key))) cs = Ret cs1 /\
      orderedNames cs1 = ((todo ++ doneNames) ++ [key])%list /\
      columns cs1 = <[key := Some (pick_rows (kept_rows bitmap) (val key))]> (delete key (columns cs))).
    { unfold Replace, Remove, Exists_col. rewrite bool_decide_eq_true_2 by eauto. cbn [outcome_bind].
      unfold AddColumn, Exists_col. cbn [columns]. rewrite bool_decide_eq_false_2 by (rewrite lookup_delete_eq; by intros [? ?]).
      eexists. split; [reflexivity|]. cbn [snd orderedNames columns]. split; [|done]. f_equal. rewrite Ho. cbn [app].
      rewrite filter_cons_False by (intros E; by rewrite (proj2 (EqualFold_spec key key) eq_refl) in E).
      apply filter_all. apply Forall_forall. intros name Hname.
      destruct (EqualFold name key) eqn:E; [|done]. exfalso. apply EqualFold_spec in E. apply NoDup_cons in Hnd as [Hn _].
      apply Hn. rewrite <- E. by apply (list_elem_of_fmap_2 ToLower). }
    destruct Hrep as (cs1 & -> & Ho1 & Hc1). cbn [outcome_bind].
    destruct (IH (doneNames ++ [key])%list cs1 val) as (cs' & -> & Ho' & Hin & Hout).
    + by rewrite Ho1, app_assoc.
    + assert (Hp : Permutation (todo ++ doneNames ++ [key])%list (key :: (todo ++ doneNames))%list).
      { rewrite app_assoc. symmetry. apply Permutation_cons_append. }
      by rewrite (Permutation_map ToLower Hp).
    + intros name Hname. rewrite Hc1, lookup_insert_ne, lookup_delete_ne.
      * apply Htodo. by right.
      * intros ->. apply Hkey. apply elem_of_app. by left.
      * intros ->. apply Hkey. apply elem_of_app. by left.
    + intros name Hname. rewrite Hc1. apply elem_of_app in Hname as [Hname|Hname%list_elem_of_singleton].
      * rewrite lookup_insert_ne, lookup_delete_ne by (intros ->; apply Hkey, elem_of_app; by right). by apply Hdone.
      * subst name. by rewrite lookup_insert_eq.
    + exists cs'. split; [done|]. split; [by rewrite Ho', <- app_assoc|]. split.
      * intros name Hname. apply Hin. cbn in Hname. rewrite !elem_of_app in *. rewrite elem_of_cons in Hname.
        rewrite list_elem_of_singleton. rewrite elem_of_app in Hname. tauto.
      * intros name Hname. rewrite Hout.
        -- rewrite Hc1, lookup_insert_ne, lookup_delete_ne; [done| |]; intros ->; apply Hname; left.
        -- intros Hn. apply Hname. cbn. rewrite !elem_of_app, list_elem_of_singleton in Hn.
           rewrite elem_of_cons, elem_of_app. tauto.
Qed.

(** Removing rows keeps the others of every column, in their order. *)
Lemma RestrictViaBitmap_table cs names n val (f : nat -> bool) :
  is_table cs names n val -> NoDup (map ToLower names) ->
  (forall name, name ∈ names -> col_kind (val name) ∈ numeric_kinds) ->
  let idx := List.filter (fun i => negb (f i)) (seq 0 n) in
  exists cs', RestrictViaBitmap (map f (seq 0 n)) cs = Ret cs' /\
    is_table cs' names (length idx) (fun name => pick_rows idx (val name)).
Proof.
  intros H Hnd Hk idx. unfold RestrictViaBitmap. rewrite (it_names _ _ _ _ H).
  destruct (restrict_loop_spec (map f (seq 0 n)) n) with (todo := names) (doneNames := @nil string) (cs := cs) (val := val)
    as (cs' & -> & Ho & Hin & Hout).
  - rewrite kept_rows_map. apply filter_seq_lt.
  - rewrite app_nil_r. apply (it_names _ _ _ _ H).
  - by rewrite app_nil_r.
  - intros name Hname. split_and!; [by apply (it_col _ _ _ _ H)|by apply (it_len _ _ _ _ H)|by apply Hk].
  - intros name Hn. by apply elem_of_nil in Hn.
  - rewrite app_nil_r in Hin, Hout. rewrite kept_rows_map in Hin. exists cs'. split; [done|]. split.
    + done.
    + exact Hin.
    + intros name Hn. rewrite Hout by done. by apply (it_none _ _ _ _ H).
    + intros name Hname. apply (pick_rows_len idx _ n); [by apply (it_len _ _ _ _ H)|apply filter_seq_lt].
Qed.

(** *** Columns and limits *)

Lemma project_loop_table cs names n val : is_table cs names n val ->
  forall keep cols ns, (forall name, name ∈ keep -> name ∈ names) ->
  exists cols', project_loop keep cols ns cs = Ret (cols', (ns ++ keep)%list) /\
    (forall name, name ∈ keep -> cols' !! name = Some (Some (val name))) /\
    (forall name, name ∉ keep -> cols' !! name = cols !! name).
Proof.
  intros H. induction keep as [|name keep IH]; intros cols ns Hin.
  { exists cols. cbn. rewrite app_nil_r. split_and!; try done. by intros ? ?%elem_of_nil. }
  cbn [project_loop]. rewrite (GetByName_table _ _ _ _ _ H) by (apply Hin; left).
  destruct (IH (<[name := Some (val name)]> cols) (ns ++ [name])%list) as (cols' & -> & Hk & Ho).
  { intros x Hx. apply Hin. by right. }
  exists cols'. rewrite <- app_assoc. split_and!; [done| |].
  - intros x Hx. destruct (decide (x ∈ keep)) as [Hx'|Hx']; [by apply Hk|].
    apply elem_of_cons in Hx as [->|Hx]; [|done]. rewrite Ho by done. apply lookup_insert_eq.
  - intros x Hx. apply not_elem_of_cons in Hx as [Hne Hx]. rewrite Ho by done. by apply lookup_insert_ne.
Qed.

Lemma Project_table cs names n val keep : is_table cs names n val -> (forall name, name ∈ keep -> name ∈ names) ->
  exists cs', Project keep cs = Ret cs' /\ is_table cs' keep n val.
Proof.
  intros H Hin. unfold Project. destruct (project_loop_table _ _ _ _ H keep ∅ [] Hin) as (cols' & -> & Hk & Ho).
  cbn [outcome_bind]. eexists. split; [reflexivity|]. split; cbn [columns orderedNames].
  - done.
  - exact Hk.
  - intros name Hname. by rewrite Ho, lookup_empty.
  - intros name Hname. by apply (it_len _ _ _ _ H), Hin.
Qed.

Lemma pick_take idx k c : Forall (fun i => (i < col_len c)%nat) idx ->
  col_elems (pick_rows (take k idx) c) = take k (col_elems (pick_rows idx c)).
Proof.
  intros Hi. unfold pick_rows. cbn. revert k. induction Hi as [|i idx Hlt _ IH]; intros k; [by destruct k|].
  destruct (lookup_lt_is_Some_2 (col_elems c) i Hlt) as [x Hx]. destruct k as [|k]; [done|].
  cbn. rewrite Hx. cbn. by rewrite IH.
Qed.

Lemma is_table_ext cs names n val val' : is_table cs names n val -> (forall name, name ∈ names -> val name = val' name) ->
  is_table cs names n val'.
Proof.
  intros H Hv. split; [apply (it_names _ _ _ _ H)| |apply (it_none _ _ _ _ H)|].
  - intros name Hn. rewrite <- Hv by done. by apply (it_col _ _ _ _ H).
  - intros name Hn. rewrite <- Hv by done. by apply (it_len _ _ _ _ H).
Qed.

(** The first rows of a column, or the last ones. *)
Definition shorten (limit direction : Z) (c : column) : column :=
  mkCol (col_kind c)
    (take (Z.to_nat limit) (if direction =? LAST then drop (col_len c - Z.to_nat limit) (col_elems c) else col_elems c)).

Lemma DownSizeSlice_shorten c limit direction : 0 <= limit ->
  DownSizeSlice (Some c) limit direction = Ret (Some (shorten limit direction c)).
Proof.
  intros Hl. unfold DownSizeSlice, shorten. destruct c as [k l]. unfold col_len. cbn [col_elems col_kind].
  destruct (Z.leb_spec (Z.of_nat (length l)) limit) as [Hle|Hgt].
  - do 3 f_equal. destruct (direction =? LAST); [|by rewrite take_ge by lia].
    replace (length l - Z.to_nat limit)%nat with 0%nat by lia. by rewrite drop_0, take_ge by lia.
  - do 3 f_equal. f_equal. destruct (direction =? LAST); [|done]. f_equal. lia.
Qed.

Lemma shorten_len c limit direction : 0 <= limit -> col_len (shorten limit direction c) = Nat.min (Z.to_nat limit) (col_len c).
Proof. intros Hl. unfold shorten, col_len. cbn [col_elems]. rewrite length_take. destruct (direction =? LAST); [rewrite length_drop|]; lia. Qed.

Lemma RestrictLength_shorten cs names n val limit direction : 0 <= limit -> is_table cs names n val ->
  exists cs', RestrictLength limit direction cs = Ret cs' /\
    is_table cs' names (Nat.min (Z.to_nat limit) n) (fun name => shorten limit direction (val name)).
Proof.
  intros Hlim H. unfold RestrictLength. rewrite bool_decide_eq_false_2.
  2:{ intros (name & c & Hc & ->). destruct (decide (name ∈ names)) as [Hin|Hin].
      - rewrite (it_col _ _ _ _ H) in Hc by done. discriminate Hc.
      - rewrite (it_none _ _ _ _ H) in Hc by done. discriminate Hc. }
  eexists. split; [reflexivity|]. split; cbn [columns orderedNames set_columns].
  - apply (it_names _ _ _ _ H).
  - intros name Hname. rewrite lookup_fmap, (it_col _ _ _ _ H) by done. cbn [fmap option_fmap option_map].
    by rewrite DownSizeSlice_shorten.
  - intros name Hname. by rewrite lookup_fmap, (it_none _ _ _ _ H).
  - intros name Hname. rewrite shorten_len by done. by rewrite (it_len _ _ _ _ H).
Qed.

(** The first of some rows; with fewer of them all. *)
Lemma RestrictLength_table cs names val idx n limit : 0 <= limit ->
  is_table cs names (length idx) (fun name => pick_rows idx (val name)) ->
  (forall name, name ∈ names -> col_len (val name) = n) -> Forall (fun i => (i < n)%nat) idx ->
  exists cs', RestrictLength limit FIRST cs = Ret cs' /\
    is_table cs' names (length (take (Z.to_nat limit) idx)) (fun name => pick_rows (take (Z.to_nat limit) idx) (val name)).
Proof.
  intros Hlim H Hlen Hidx. destruct (RestrictLength_shorten _ _ _ _ limit FIRST Hlim H) as (cs' & -> & Ht).
  exists cs'. split; [done|]. rewrite length_take. apply (is_table_ext _ _ _ _ _ Ht).
  intros name Hname. unfold shorten. change (FIRST =? LAST) with false. cbv iota.
  rewrite <- pick_take; [done|]. by rewrite Hlen.
Qed.

Lemma frame_is_table names cols n val :
  NoDup names -> length cols = length names -> Forall (fun c => col_len c = n) cols ->
  (forall i name c, names !! i = Some name -> cols !! i = Some c -> val name = c) ->
  is_table (frame names cols) names n val.
Proof.
  intros Hnd Hl Hn Hval. assert (Hfst : map fst (zip names cols) = names) by (apply fst_zip; lia).
  destruct (foldl_named (zip names cols) NewColumnSeries) as (Ho & _ & _ & Hin & Hout); [by rewrite Hfst|intros; apply lookup_empty|].
  rewrite Hfst in Ho, Hout. unfold frame. rewrite table_named.
  assert (Hcol : forall name, name ∈ names -> (name, val name) ∈ zip names cols /\ col_len (val name) = n).
  { intros name (i & Hi)%list_elem_of_lookup. destruct (lookup_lt_is_Some_2 cols i) as [c Hc].
    { rewrite Hl. by apply lookup_lt_Some in Hi. }
    rewrite (Hval i name c Hi Hc). split; [|by apply (proj1 (Forall_lookup _ _) Hn i)].
    apply (list_elem_of_lookup_2 _ i). apply lookup_zip_with_Some. eauto. }
  split.
  - exact Ho.
  - intros name Hname. by apply Hin, Hcol.
  - intros name Hname. rewrite Hout by done. apply lookup_empty.
  - intros name Hname. by apply Hcol.
Qed.


(** *** Adding, removing and renaming columns *)

Definition with_column_val (name : string) (c : column) (val : string -> column) (x : string) : column :=
  if decide (x = name) then c else val x.

Lemma Exists_col_table cs names n val name : is_table cs names n val -> Exists_col name cs = bool_decide (name ∈ names).
Proof.
  intros H. unfold Exists_col. apply bool_decide_ext. split.
  - intros [c Hc]. destruct (decide (name ∈ names)) as [|Hn]; [done|]. by rewrite (it_none _ _ _ _ H) in Hc.
  - intros Hn. eexists. by apply (it_col _ _ _ _ H).
Qed.

Lemma AddColumn_table cs names n val name c : is_table cs names n val -> name ∉ names -> col_len c = n ->
  is_table (snd (AddColumn name (Some c) cs)) (names ++ [name])%list n (with_column_val name c val).
Proof.
  intros H Hn Hc. unfold AddColumn. rewrite (Exists_col_table _ _ _ _ _ H), bool_decide_eq_false_2 by done.
  split; cbn [snd columns orderedNames].
  - by rewrite (it_names _ _ _ _ H).
  - intros x Hx. unfold with_column_val. destruct (decide (x = name)) as [->|Hne]; [apply lookup_insert_eq|].
    rewrite lookup_insert_ne by done. apply (it_col _ _ _ _ H).
    apply elem_of_app in Hx as [?|Hx%list_elem_of_singleton]; done.
  - intros x Hx. rewrite not_elem_of_app, list_elem_of_singleton in Hx. destruct Hx as [Hx Hne].
    rewrite lookup_insert_ne by done. by apply (it_none _ _ _ _ H).
  - intros x Hx. unfold with_column_val. destruct (decide (x = name)) as [->|Hne]; [done|].
    apply (it_len _ _ _ _ H). apply elem_of_app in Hx as [?|Hx%list_elem_of_singleton]; done.
Qed.

Lemma Remove_table cs names n val name : is_table cs names n val -> NoDup (map ToLower names) -> name ∈ names ->
  exists cs', Remove name cs = Ret cs' /\ is_table cs' (filter (fun x => x <> name) names) n val.
Proof.
  intros H Hnd Hn. unfold Remove. rewrite (Exists_col_table _ _ _ _ _ H), bool_decide_eq_true_2 by done.
  eexists. split; [reflexivity|]. split; cbn [columns orderedNames].
  - rewrite (it_names _ _ _ _ H). apply filter_ext_in. intros x Hx. rewrite <- not_true_iff_false, EqualFold_spec.
    split; [by intros Hne ->|]. intros Hne Heq. apply Hne.
    apply list_elem_of_lookup in Hx as [i Hi]. apply list_elem_of_lookup in Hn as [j Hj].
    assert (i = j) as ->; [|congruence]. eapply NoDup_lookup; [exact Hnd| |].
    + change (map ToLower names) with (ToLower <$> names). rewrite list_lookup_fmap, Hi. reflexivity.
    + change (map ToLower names) with (ToLower <$> names). rewrite list_lookup_fmap, Hj. cbn. by rewrite Heq.
  - intros x [Hne Hx]%list_elem_of_filter. rewrite lookup_delete_ne by done. by apply (it_col _ _ _ _ H).
  - intros x Hx. destruct (decide (x = name)) as [->|Hne]; [apply lookup_delete_eq|].
    rewrite lookup_delete_ne by done. apply (it_none _ _ _ _ H). intros Hin. apply Hx. by apply list_elem_of_filter.
  - intros x [_ Hx]%list_elem_of_filter. by apply (it_len _ _ _ _ H).
Qed.

Lemma Rename_table cs names n val newName oldName : is_table cs names n val -> oldName ∈ names -> newName ∉ names ->
  exists cs', Rename newName oldName cs = Ret cs' /\
    is_table cs' (map (fun x => if decide (x = oldName) then newName else x) names) n (with_column_val newName (val oldName) val).
Proof.
  intros H Ho Hn. assert (Hne : newName <> oldName) by (by intros ->). unfold Rename.
  rewrite (GetByName_table _ _ _ _ _ H Ho), (Exists_col_table _ _ _ _ _ H), bool_decide_eq_false_2 by done.
  unfold AddColumn. rewrite (Exists_col_table _ _ _ _ _ H), bool_decide_eq_false_2 by done.
  unfold Remove_, Remove, Exists_col. cbn [columns]. rewrite bool_decide_eq_true_2.
  2:{ rewrite lookup_insert_ne by done. eexists. by apply (it_col _ _ _ _ H). }
  eexists. split; [reflexivity|]. split; cbn [columns orderedNames set_names].
  - by rewrite (it_names _ _ _ _ H).
  - intros x (y & -> & Hy)%list_elem_of_fmap. unfold with_column_val. destruct (decide (y = oldName)) as [->|Hyo].
    + rewrite decide_True by done. rewrite lookup_delete_ne by done. apply lookup_insert_eq.
    + assert (y <> newName) by (by intros ->). rewrite decide_False by done.
      rewrite lookup_delete_ne, lookup_insert_ne by done. by apply (it_col _ _ _ _ H).
  - intros x Hx. destruct (decide (x = oldName)) as [->|Hxo]; [apply lookup_delete_eq|].
    rewrite lookup_delete_ne by done. destruct (decide (x = newName)) as [->|Hxn].
    + exfalso. apply Hx. apply list_elem_of_fmap. exists oldName. by rewrite decide_True.
    + rewrite lookup_insert_ne by done. apply (it_none _ _ _ _ H). intros Hin. apply Hx. apply list_elem_of_fmap.
      exists x. by rewrite decide_False.
  - intros x (y & -> & Hy)%list_elem_of_fmap. unfold with_column_val. destruct (decide (y = oldName)) as [->|Hyo].
    + rewrite decide_True by done. by apply (it_len _ _ _ _ H).
    + assert (y <> newName) by (by intros ->). rewrite decide_False by done. by apply (it_len _ _ _ _ H).
Qed.

(** C18: Series stay tables. Of a series with a column of [n] rows under each of
    its names, which differ also without regard to case: a new column of [n]
    rows comes behind the others; removing a column leaves the others; a new
    name for a column takes its place; projecting gives the columns asked for
    in the order asked for; a limit leaves the first or the last rows; and if
    all columns are of numeric kinds, a bitmap leaves the rows it does not
    mark (columns of other kinds it does not know). What was under a name stays
    under it, cut to the rows that are left. *)
Theorem operations_keep_tables (cs : ColumnSeries) (names : list string) (n : nat) (val : string -> column) :
  is_table cs names n val -> NoDup (map ToLower names) ->
  (forall name c, name ∉ names -> col_len c = n ->
     is_table (snd (AddColumn name (Some c) cs)) (names ++ [name])%list n (with_column_val name c val)) /\
  (forall name, name ∈ names -> exists cs', Remove name cs = Ret cs' /\ is_table cs' (filter (fun x => x <> name) names) n val) /\
  (forall newName oldName, oldName ∈ names -> newName ∉ names -> exists cs', Rename newName oldName cs = Ret cs' /\
     is_table cs' (map (fun x => if decide (x = oldName) then newName else x) names) n (with_column_val newName (val oldName) val)) /\
  (forall keep, (forall name, name ∈ keep -> name ∈ names) -> exists cs', Project keep cs = Ret cs' /\ is_table cs' keep n val) /\
  (forall limit direction, 0 <= limit -> exists cs', RestrictLength limit direction cs = Ret cs' /\
     is_table cs' names (Nat.min (Z.to_nat limit) n) (fun name => shorten limit direction (val name))) /\
  (forall f, (forall name, name ∈ names -> col_kind (val name) ∈ numeric_kinds) ->
     let idx := List.filter (fun i => negb (f i)) (seq 0 n) in
     exists cs', RestrictViaBitmap (map f (seq 0 n)) cs = Ret cs' /\
       is_table cs' names (length idx) (fun name => pick_rows idx (val name))).
Proof.
  intros H Hnd. split_and!.
  - intros name c. by apply AddColumn_table.
  - intros name. by apply Remove_table.
  - intros newName oldName. by apply Rename_table.
  - intros keep. by apply Project_table.
  - intros limit direction Hl. by apply RestrictLength_shorten.
  - intros f Hk. by apply RestrictViaBitmap_table.
Qed.

Lemma operations_keep_tables_witness :
  let cs := frame ["Epoch"; "Ask"] [int64_column [60; 120]; int32_column [7; 8]] in
  let val name := if decide (name = "Epoch") then int64_column [60; 120] else int32_column [7; 8] in
  is_table cs ["Epoch"; "Ask"] 2 val /\
  exists cs', Rename "Price" "Ask" cs = Ret cs' /\ is_table cs' ["Epoch"; "Price"] 2 (with_column_val "Price" (int32_column [7; 8]) val).
Proof.
  set (val name := if decide (name = "Epoch") then int64_column [60; 120] else int32_column [7; 8]).
  assert (H : is_table (frame ["Epoch"; "Ask"] [int64_column [60; 120]; int32_column [7; 8]]) ["Epoch"; "Ask"] 2 val).
  { apply frame_is_table; [apply (bool_decide_unpack _); vm_compute; exact I|done|by repeat constructor|].
    intros [|[|i]] name c; cbn; by intros [= <-] [= <-]. }
  split; [exact H|].
  apply (proj1 (proj2 (proj2 (operations_keep_tables _ _ _ _ H ltac:(apply (bool_decide_unpack _); vm_compute; exact I)))) "Price" "Ask").
  - apply (bool_decide_unpack _); vm_compute; exact I.
  - apply (bool_decide_unpack _); vm_compute; exact I.
Defined.

(** The number behind a taken name is not looked for among the names: a column
    that has it already is lost, and its name is there twice. *)
Lemma AddColumn_collision :
  let cs := table [("a", int32_column [1]); ("a0", int32_column [2])] in
  let cs' := snd (AddColumn "a" (Some (int32_column [3])) cs) in
  orderedNames cs' = ["a"; "a0"; "a0"] /\ GetByName "a0" cs' = Some (int32_column [3]).
Proof. vm_compute. done. Qed.
