(* ===== verification/Query.v ===== *)
(** * Queries (frontend/query.go, qrbuilder.go)

    A request names buckets, a range of time, a limit, columns and functions;
    it is planned, read, run through the functions, and its series become one
    multi-dataset.  SQL statements are executed by an argument. *)

From S2P Require Export Registry Numpy Scanner Writer.
From S2P Require Import GoStrings.

#[local] Open Scope string_scope.
#[local] Open Scope Z_scope.

(** ** Function calls in a request *)

(** [strings.Trim(s, " ")], [strings.LastIndex(s, ")")] *)
Fixpoint trim_left_spaces (s : string) : string :=
  match s with String " " s' => trim_left_spaces s' | _ => s end.
Fixpoint trim_right_spaces (s : string) : string :=
  match s with
  | EmptyString => EmptyString
  | String c s' =>
      let r := trim_right_spaces s' in
      if decide (c = " "%char /\ r = EmptyString) then EmptyString else String c r
  end.
Definition trim_spaces (s : string) : string := trim_right_spaces (trim_left_spaces s).

Fixpoint last_index (c : ascii) (s : string) : option nat :=
  match s with
  | EmptyString => None
  | String d s' =>
      match last_index c s' with
      | Some i => Some (S i)
      | None => if decide (d = c) then Some 0%nat else None
      end
  end.

(** [s[lo:]], [s[lo:hi]] *)
Definition string_from (lo : nat) (s : string) : string := String.substring lo (String.length s - lo) s.
Definition string_slice (lo hi : nat) (s : string) : outcome string :=
  if (lo <=? hi)%nat && (hi <=? String.length s)%nat then Ret (String.substring lo (hi - lo) s)
  else Panic "slice bounds out of range".

(** The literals between quotes, and the call without them. *)
Fixpoint take_literals (fuel : nat) (call newCall : string) (literalList : list string) : outcome (string * list string) :=
  match fuel with
  | O => Panic "out of fuel"
  | S fuel' =>
      match String.index 0 "'" call with
      | None => Ret (newCall +:+ call, literalList)
      | Some lo =>
          let newCall := newCall +:+ String.substring 0 lo call in
          let call := string_from (S lo) call in
          match String.index 0 "'" call with
          | None => Fail (ErrMsg ("unclosed literal " +:+ call))
          | Some hi =>
              take_literals fuel' (string_from (S hi) call) newCall (literalList ++ [String.substring 0 hi call])
          end
      end
  end.

Definition parseFunctionCall (call : string) : outcome (string * list string * list string) :=
  let call := trim_spaces call in
  match String.index 0 "(" call, last_index ")" call with
  | Some lo, Some hi =>
      let funcName := trim_spaces (String.substring 0 lo call) in
      let! inner := string_slice (S lo) hi call in
      let! '(newCall, literalList) := take_literals (S (String.length inner)) inner "" [] in
      let parameterList := List.filter (fun p => negb (bool_decide (p = ""))) (map trim_spaces (Split newCall ",")) in
      Ret (funcName, literalList, parameterList)
  | _, _ => Fail (ErrMsg ("unable to parse function call " +:+ call))
  end.

(** ** Requests *)

Record QueryRequest := mkQueryRequest {
  IsSQLStatement : bool;
  SQLStatement : string;
  Destination : string;
  KeyCategory : string;
  req_EpochStart : option Z;
  req_EpochEnd : option Z;
  req_LimitRecordCount : option Z;
  req_LimitFromStart : option bool;
  req_Columns : list string;
  Functions : list string;
}.

Definition NewQueryRequestBuilder (destination : string) : QueryRequest :=
  mkQueryRequest false "" destination "" None None None None [] [].
Definition qb_EpochStart (v : Z) (r : QueryRequest) : QueryRequest :=
  mkQueryRequest (IsSQLStatement r) (SQLStatement r) (Destination r) (KeyCategory r) (Some v) (req_EpochEnd r)
    (req_LimitRecordCount r) (req_LimitFromStart r) (req_Columns r) (Functions r).
Definition qb_EpochEnd (v : Z) (r : QueryRequest) : QueryRequest :=
  mkQueryRequest (IsSQLStatement r) (SQLStatement r) (Destination r) (KeyCategory r) (req_EpochStart r) (Some v)
    (req_LimitRecordCount r) (req_LimitFromStart r) (req_Columns r) (Functions r).
Definition qb_LimitRecordCount (v : Z) (r : QueryRequest) : QueryRequest :=
  mkQueryRequest (IsSQLStatement r) (SQLStatement r) (Destination r) (KeyCategory r) (req_EpochStart r) (req_EpochEnd r)
    (Some v) (req_LimitFromStart r) (req_Columns r) (Functions r).
Definition qb_LimitFromStart (v : bool) (r : QueryRequest) : QueryRequest :=
  mkQueryRequest (IsSQLStatement r) (SQLStatement r) (Destination r) (KeyCategory r) (req_EpochStart r) (req_EpochEnd r)
    (req_LimitRecordCount r) (Some v) (req_Columns r) (Functions r).
Definition qb_Functions (v : list string) (r : QueryRequest) : QueryRequest :=
  mkQueryRequest (IsSQLStatement r) (SQLStatement r) (Destination r) (KeyCategory r) (req_EpochStart r) (req_EpochEnd r)
    (req_LimitRecordCount r) (req_LimitFromStart r) (req_Columns r) v.

(** ** The server's state: the instance and what the readers remember *)

Record server := mkServer { sv_inst : instance; sv_hints : gmap string Z }.

Definition sv_on_instance {A} (m : prog instance A) : prog server A := fun s =>
  let '(o, i) := m (sv_inst s) in (o, mkServer i (sv_hints s)).
Definition sv_on_reader {A} (m : prog rstate A) : prog server A := fun s =>
  let '(o, r) := m (mkRS (in_catalog (sv_inst s)) (sv_hints s)) in
  let '(_, i) := with_catalog (fun _ => (Ret tt, rs_cat r)) (sv_inst s) in
  (o, mkServer i (lastKnownMap r)).

Section query.
Context `{L : StorageLibs} `{R : MapRange} `{G : Gonum} (tz local : Location).
Context (EnableLastKnown DisableVariableCompression : bool) (CatalogDir : dloc) (now : Z).

(** [newQuery] is planned and read. *)
Definition plan_and_read (q : query) : prog server ColumnSeriesMap :=
  '(_, parsed) ← sv_on_reader (on_cat (Parse tz q));
  sv_on_reader (scanner ← NewReader tz local EnableLastKnown parsed;
                reader_Read tz EnableLastKnown DisableVariableCompression scanner).

Definition executeQuery (tbk : TimeBucketKey) (start stop : Time) (LimitRecordCount : Z) (LimitFromStart : bool)
    (columns : list string) : prog server ColumnSeriesMap :=
  tf ← lift (GetItemInCategory "Timeframe" tbk);
  match CandleDurationFromString tf with
  | None => lift nil_pointer
  | Some cd =>
      let queryableTimeframe := QueryableTimeframe cd in
      tbk ← lift (SetItemInCategory "Timeframe" queryableTimeframe tbk);
      q ← lift (AddTargetKey tbk (NewQuery tz CatalogDir));
      q ← lift (if LimitRecordCount =? 0 then Ret q
                else
                  let! n := QueryableNrecords cd queryableTimeframe LimitRecordCount in
                  Ret (SetRowLimit (if LimitFromStart then FIRST else LAST) n q));
      csm ← plan_and_read (SetRange tz (Unix start) (Unix stop) q);
      mret (FilterColumns columns csm)
  end.

(** The calls one after another, each on the output of the one before; [None]
    where there are none. *)
Fixpoint run_calls (callChain : list string) (csInput : ColumnSeries) (cs : option ColumnSeries) :
    outcome (option ColumnSeries) :=
  match callChain with
  | [] => Ret cs
  | call :: callChain' =>
      let csInput := default csInput cs in
      let! '(aggName, literalList, parameterList) := parseFunctionCall call in
      match find_agg (ToLower aggName) with
      | None => Fail (ErrMsg ("No function in the UDA Registry named " +:+ aggName))
      | Some t =>
          let agg := agg_New (A := agg_carrier t) in
          let! '(argMap, err) := PrepareArguments parameterList (agg_ArgMap agg) in
          match err with
          | Some _ => Fail (ErrMsg ("Argument mapping error for " +:+ aggName))
          | None =>
              let! out := run_agg tz now aggName t (agg_set_ArgMap argMap agg) literalList csInput in
              run_calls callChain' csInput (Some out)
          end
      end
  end.
Definition runAggFunctions (callChain : list string) (csInput : ColumnSeries) : outcome (option ColumnSeries) :=
  run_calls callChain csInput None.

(** Every series of the map through the functions. *)
Fixpoint apply_functions (functions : list string) (entries : list (string * ColumnSeries)) (csm : ColumnSeriesMap) :
    outcome ColumnSeriesMap :=
  match entries with
  | [] => Ret csm
  | (key, cs) :: entries' =>
      let! csOut := runAggFunctions functions cs in
      match csOut with
      | Some out => apply_functions functions entries' (<[key := out]> csm)
      | None => Panic "invalid memory address or nil pointer dereference"
      end
  end.

(** The series of the map behind one another; the error of an [Append] is
    dropped, and the series with it. *)
Fixpoint compose_datasets (entries : list (string * ColumnSeries)) (nmds : option NumpyMultiDataset) :
    outcome (option NumpyMultiDataset) :=
  match entries with
  | [] => Ret nmds
  | (tbk, cs) :: entries' =>
      let! nds := NewNumpyDataset cs in
      match nmds with
      | None => compose_datasets entries' (Some (NewNumpyMultiDataset nds tbk))
      | Some m =>
          match nmds_Append cs tbk m with
          | Ret m' => compose_datasets entries' (Some m')
          | Fail _ => compose_datasets entries' (Some m)
          | Fatal msg => Fatal msg
          | Panic msg => Panic msg
          end
      end
  end.

(** Where the one symbol is an asterisk, all symbols of the catalog. *)
Definition expand_symbols (symbols : list string) (timeframe recordFormat : string) (req : QueryRequest)
    (dest : TimeBucketKey) : prog server TimeBucketKey :=
  if decide (symbols = ["*"]) then
    items ← sv_on_reader (on_cat (GatherCategoriesAndItems CatalogDir));
    let all : gmap string unit := gset_to_gmap tt (default ∅ (items !! "Symbol")) in
    mret (NewTimeBucketKey (Join [Join (map fst (map_range all)) ","; timeframe; recordFormat] "/") [KeyCategory req])
  else mret dest.

Definition MaxInt64 : Z := 2 ^ 63 - 1.

Definition query_request (req : QueryRequest) : prog server (option NumpyMultiDataset) :=
  let dest := NewTimeBucketKey (Destination req) [KeyCategory req] in
  recordFormat ← lift (GetItemInCategory "AttributeGroup" dest);
  timeframe ← lift (GetItemInCategory "Timeframe" dest);
  symbols ← lift (GetMultiItemInCategory "Symbol" dest);
  if bool_decide (timeframe = "") || bool_decide (recordFormat = "") || bool_decide (symbols = []) then
    fail (ErrMsg "destinations must have a Symbol, Timeframe and AttributeGroup")
  else
    dest ← expand_symbols symbols timeframe recordFormat req dest;
    let start := ToSystemTimezone tz (time_Unix (default 0 (req_EpochStart req)) 0 local) in
    let stop := ToSystemTimezone tz (time_Unix (default MaxInt64 (req_EpochEnd req)) 0 local) in
    csm ← executeQuery dest start stop (default 0 (req_LimitRecordCount req)) (default false (req_LimitFromStart req))
            (req_Columns req);
    csm ← lift (match Functions req with
                | [] => Ret csm
                | fs => apply_functions fs (map_range csm) csm
                end);
    lift (compose_datasets (map_range csm) None).

(** [sql] parses and executes a statement: NewAstBuilder, NewExecutableStatement
    and Materialize. *)
Definition sql_request (sql : string -> prog server ColumnSeries) (req : QueryRequest) : prog server (option NumpyMultiDataset) :=
  cs ← sql (SQLStatement req);
  nds ← lift (NewNumpyDataset cs);
  mret (Some (NewNumpyMultiDataset nds (NewTimeBucketKeyFromString (SQLStatement req +:+ ":SQL")))).

(** The responses' data sets; the first error ends the query. *)
Fixpoint Query (sql : string -> prog server ColumnSeries) (reqs : list QueryRequest) : prog server (list (option NumpyMultiDataset)) :=
  match reqs with
  | [] => mret []
  | req :: reqs' =>
      nmds ← (if IsSQLStatement req then sql_request sql req else query_request req);
      rest ← Query sql reqs';
      mret (nmds :: rest)
  end.

Definition ListSymbols (queryable : Z) : prog server (list string) :=
  if queryable =? 0 then fail (ErrMsg "Server is not queryable")
  else
    items ← sv_on_reader (on_cat (GatherCategoriesAndItems CatalogDir));
    let all : gmap string unit := gset_to_gmap tt (default ∅ (items !! "Symbol")) in
    mret (map fst (map_range all)).

(** ** What the client makes of a response *)

(** The shapes are not sent. *)
Definition sent (nmds : NumpyMultiDataset) : NumpyMultiDataset :=
  let nds := nmds_nds nmds in
  mkNmds (mkNds (ColumnTypes nds) (ColumnNames nds) (ColumnData nds) (Length nds) None) (StartIndex nmds) (Lengths nmds).

Fixpoint response_loop (entries : list (string * Z)) (lengths : gmap string Z) (nds : NumpyDataset) (csm : ColumnSeriesMap) :
    outcome (ColumnSeriesMap * NumpyDataset) :=
  match entries with
  | [] => Ret (csm, nds)
  | (tbkStr, startIndex) :: entries' =>
      let! '(cs, nds) := nds_ToColumnSeries [startIndex; default 0 (lengths !! tbkStr)] nds in
      response_loop entries' lengths nds (<[NewTimeBucketKeyFromString tbkStr := cs]> csm)
  end.
Fixpoint resp_ToColumnSeriesMap (responses : list (option NumpyMultiDataset)) (csm : ColumnSeriesMap) : outcome ColumnSeriesMap :=
  match responses with
  | [] => Ret csm
  | None :: _ => nil_pointer
  | Some nmds :: responses' =>
      let! '(csm, _) := response_loop (map_range (StartIndex nmds)) (Lengths nmds) (nmds_nds nmds) csm in
      resp_ToColumnSeriesMap responses' csm
  end.
End query.

(** ** The fuel of a function call *)

Lemma length_substring s : forall n m, (String.length (String.substring n m s) <= m)%nat.
Proof.
  induction s as [|c s IH]; intros [|n] [|m]; cbn; try lia.
  - specialize (IH 0%nat m). lia.
  - specialize (IH n 0%nat). lia.
  - apply IH.
Qed.

Lemma length_string_from n s : String.index 0 "'" s = Some n -> (String.length (string_from (S n) s) < String.length s)%nat.
Proof.
  intros Hi. unfold string_from. pose proof (length_substring s (S n) (String.length s - S n)).
  destruct s as [|c s]; [discriminate Hi|]. cbn [String.length] in *. lia.
Qed.

(** Every literal makes the rest of the call shorter. *)
Lemma take_literals_enough fuel : forall call newCall lits,
  (String.length call < fuel)%nat -> take_literals fuel call newCall lits <> Panic "out of fuel".
Proof.
  induction fuel as [|fuel IH]; intros call newCall lits Hf; [lia|]. cbn [take_literals].
  destruct (String.index 0 "'" call) as [lo|] eqn:Hlo; [|done]. apply length_string_from in Hlo.
  destruct (String.index 0 "'" (string_from (S lo) call)) as [hi|] eqn:Hhi; [|done]. apply length_string_from in Hhi.
  apply IH. lia.
Qed.

Lemma parseFunctionCall_terminates call : parseFunctionCall call <> Panic "out of fuel".
Proof.
  unfold parseFunctionCall. destruct (String.index 0 "(" _) as [lo|]; [|done]. destruct (last_index _ _) as [hi|]; [|done].
  unfold string_slice. destruct (_ && _); [|done]. cbn [outcome_bind].
  match goal with |- context [take_literals ?f ?c ?n ?l] => pose proof (take_literals_enough f c n l ltac:(lia)) as H;
    destruct (take_literals f c n l) as [[? ?]| | |] end; [done|done|done|]. intros [= Hp]. by subst.
Qed.

(** ** Round trip of a response *)

Section roundtrip.
Context `{R : MapRange} (names : list string) (kinds : list Kind).
Context (Hnames : NoDup names) (Hne : names <> []) (Hlen : length names = length kinds) (Hkinds : Forall (.∈ wire_kinds) kinds).

(** The series of an entry: name, number of rows, columns. *)
Definition entry_series (e : string * (nat * list column)) : string * ColumnSeries := (fst e, frame names (snd (snd e))).
Definition entry_ok (e : string * (nat * list column)) : Prop :=
  NewTimeBucketKeyFromString (fst e) = fst e /\ rows_ok kinds (fst (snd e)) (snd (snd e)).

Lemma total_rows_app es es' : total_rows (es ++ es')%list = (total_rows es + total_rows es')%nat.
Proof. unfold total_rows. by rewrite sum_list_with_app. Qed.

Lemma compose_multi_ok es : forall es0 m,
  multi_ok names kinds m es0 -> Forall entry_ok es -> NoDup (map fst (es0 ++ es)%list) ->
  Z.of_nat (total_rows (es0 ++ es)%list) < 2 ^ 63 ->
  exists m', compose_datasets (map entry_series es) (Some m) = Ret (Some m') /\ multi_ok names kinds m' (es0 ++ es)%list.
Proof.
  induction es as [|[key [n cols]] es IH]; intros es0 m Hm Hok Hnd Hb.
  - rewrite app_nil_r. by exists m.
  - apply Forall_cons in Hok as [[_ Hrows] Hok]. cbn [fst snd] in Hrows.
    rewrite total_rows_app in Hb. cbn [total_rows sum_list_with fst snd] in Hb.
    destruct (Append_multi_ok names kinds Hnames Hne Hlen Hkinds m es0 key n cols Hm Hrows) as (m' & Happ & Hm').
    + rewrite map_app in Hnd. apply NoDup_app in Hnd as (_ & Hd & _). intros Hin. apply (Hd _ Hin). left.
    + unfold total_rows in *. cbn in Hb. lia.
    + cbn [map compose_datasets]. unfold entry_series at 1. cbn [fst snd].
      rewrite (nds_loop_frame names kinds Hnames Hne Hlen Hkinds n cols Hrows). cbn [outcome_bind].
      rewrite Happ. replace (es0 ++ (key, (n, cols)) :: es)%list with ((es0 ++ [(key, (n, cols))]) ++ es)%list
        by (by rewrite <- app_assoc).
      apply IH; [exact Hm'|exact Hok|by rewrite <- app_assoc|].
      rewrite !total_rows_app. unfold total_rows in *. cbn in *. lia.
Qed.

Lemma compose_all e es :
  Forall entry_ok (e :: es) -> NoDup (map fst (e :: es)) -> Z.of_nat (total_rows (e :: es)) < 2 ^ 63 ->
  exists m, compose_datasets (map entry_series (e :: es)) None = Ret (Some m) /\ multi_ok names kinds m (e :: es).
Proof.
  destruct e as [key [n cols]]. intros Hok Hnd Hb. apply Forall_cons in Hok as [[_ Hrows] Hok]. cbn [fst snd] in Hrows.
  cbn [map compose_datasets]. unfold entry_series at 1. cbn [fst snd].
  rewrite (nds_loop_frame names kinds Hnames Hne Hlen Hkinds n cols Hrows). cbn [outcome_bind].
  apply (compose_multi_ok es [(key, (n, cols))]); [|exact Hok|exact Hnd|exact Hb].
  by apply first_multi_ok.
Qed.

(** The series a client gets for an entry. *)
Definition received (es : list (string * (nat * list column))) (cols : list column) : ColumnSeries :=
  if (total_rows es =? 0)%nat then NewColumnSeries else frame names cols.

Lemma received_columns m es nds key n cols start :
  multi_ok names kinds m es -> Z.of_nat (total_rows es) * 8 < 2 ^ 63 ->
  ColumnTypes nds = wire_types kinds -> ColumnNames nds = names -> ColumnData nds = ColumnData (nmds_nds m) ->
  dataShapes nds = Some (wire_shapes names kinds) \/ dataShapes nds = None ->
  (key, (n, cols)) ∈ es -> StartIndex m !! key = Some start ->
  exists nds', nds_ToColumnSeries [start; default 0 (Lengths m !! key)] nds = Ret (received es cols, nds') /\
    ColumnTypes nds' = wire_types kinds /\ ColumnNames nds' = names /\ ColumnData nds' = ColumnData (nmds_nds m) /\
    (dataShapes nds' = Some (wire_shapes names kinds) \/ dataShapes nds' = None).
Proof.
  intros Hm Hb Ht Hn Hd Hs He Hst. destruct (mo_entries _ _ _ _ Hm key n cols He) as (start' & Hst' & Hl & Hle & Hstored).
  rewrite Hst in Hst'. injection Hst' as ->. rewrite Hl. cbn [default]. unfold id, received.
  pose proof (mo_data _ _ _ _ Hm) as Hdata. rewrite <- Hd in *.
  destruct (Nat.eqb_spec (total_rows es) 0) as [Hz|Hz].
  - rewrite Hz in Hdata. exists nds. split_and!; try done. unfold nds_ToColumnSeries. cbn [outcome_bind].
    destruct (ColumnData nds) as [|d ds].
    + apply Forall2_length in Hdata. rewrite <- Hlen in Hdata. by apply length_zero_iff_nil in Hdata.
    + apply Forall2_cons_inv_r in Hdata as (k & ks & Hlend & _). by apply length_zero_iff_nil in Hlend as ->.
  - eexists. split; [eapply (read_stored names kinds Hnames Hne Hlen Hkinds nds n cols); try done|].
    + apply Forall2_length in Hdata. done.
    + clear -Hdata Hz Hkinds. induction Hdata as [|k d ks ds Hd _ IH]; [constructor|].
      apply Forall_cons in Hkinds as [Hk Hks]. constructor; [|by apply IH].
      destruct (wire_kind k Hk) as (_ & _ & Hp & _). intros ->. cbn in Hd. nia.
    + lia.
    + split_and!; try done. by left.
Qed.

Lemma response_entries m es : multi_ok names kinds m es -> Z.of_nat (total_rows es) * 8 < 2 ^ 63 -> Forall entry_ok es ->
  NoDup (map fst es) -> forall entries nds csm,
  ColumnTypes nds = wire_types kinds -> ColumnNames nds = names -> ColumnData nds = ColumnData (nmds_nds m) ->
  dataShapes nds = Some (wire_shapes names kinds) \/ dataShapes nds = None ->
  (forall key z, (key, z) ∈ entries -> StartIndex m !! key = Some z) -> NoDup (map fst entries) ->
  exists csm' nds', response_loop entries (Lengths m) nds csm = Ret (csm', nds') /\
    (forall key n cols, (key, (n, cols)) ∈ es -> key ∈ map fst entries -> csm' !! key = Some (received es cols)) /\
    (forall key, key ∉ map fst entries -> csm' !! key = csm !! key).
Proof.
  intros Hm Hb Hok Hes. induction entries as [|[key z] entries IH]; intros nds csm Ht Hn Hd Hs Hent Hnd.
  - exists csm, nds. split_and!; [done|by intros ? ? ? ? ?%elem_of_nil|done].
  - assert (Hst : StartIndex m !! key = Some z) by (apply Hent; left).
    pose proof (mo_keys _ _ _ _ Hm key z Hst) as Hin. apply list_elem_of_fmap in Hin as ([key' [n cols]] & Hk & Hin).
    cbn in Hk. subst key'. apply NoDup_cons in Hnd as [Hkn Hnd]. cbn [map fst] in *.
    destruct (received_columns m es nds key n cols z Hm Hb Ht Hn Hd Hs Hin Hst) as (nds' & Hr & Ht' & Hn' & Hd' & Hs').
    cbn [response_loop]. rewrite Hr. cbn [outcome_bind].
    assert (Hcanon : NewTimeBucketKeyFromString key = key).
    { apply (proj1 (Forall_forall _ _) Hok _ Hin). }
    rewrite Hcanon.
    destruct (IH nds' (<[key := received es cols]> csm) Ht' Hn' Hd' Hs') as (csm' & nds2 & Hl & Hin' & Hout);
      [intros k' z' Hkz; apply Hent; by right|done|].
    exists csm', nds2. split_and!; [exact Hl| |].
    + intros key' n' cols' He [->|Hk']%elem_of_cons; [|by apply (Hin' key' n')].
      rewrite Hout by done. rewrite lookup_insert_eq.
      pose proof (elem_of_list_to_map_1 (M := gmap string) es key _ Hes He) as E1.
      pose proof (elem_of_list_to_map_1 (M := gmap string) es key _ Hes Hin) as E2.
      rewrite E1 in E2. by injection E2 as -> ->.
    + intros key' Hk'. rewrite Hout by (intros ?; apply Hk'; by right).
      apply lookup_insert_ne. intros ->. apply Hk'. left.
Qed.
End roundtrip.

(** C14: The series of a query come back to the client: whatever the order in
    which the map of results is ranged over, the multi-dataset made of series
    with the same columns is read by the client, who does not get the shapes,
    as a map that has each bucket's series with its columns, types and rows, and
    no other bucket. Where no bucket has a row the series come without their
    columns. *)
Theorem response_roundtrip `{R : MapRange} (names : list string) (kinds : list Kind)
    (es : list (string * (nat * list column))) :
  NoDup names -> names <> [] -> length names = length kinds -> Forall (.∈ wire_kinds) kinds ->
  es <> [] -> NoDup (map fst es) -> Forall (entry_ok kinds) es -> Z.of_nat (total_rows es) * 8 < 2 ^ 63 ->
  exists nmds csm,
    compose_datasets (map_range (list_to_map (map (entry_series names) es) : ColumnSeriesMap)) None = Ret (Some nmds) /\
    resp_ToColumnSeriesMap [Some (sent nmds)] ∅ = Ret csm /\
    (forall key n cols, (key, (n, cols)) ∈ es ->
       csm !! key = Some (if (total_rows es =? 0)%nat then NewColumnSeries else frame names cols)) /\
    (forall key, key ∉ map fst es -> csm !! key = None).
Proof.
  intros Hnames Hne Hlen Hkinds Hes Hnd Hok Hb.
  assert (Hfst : forall l, map fst (map (entry_series names) l) = map fst l) by (intros l; by rewrite map_map).
  assert (Hperm : Permutation (map_range (list_to_map (map (entry_series names) es) : ColumnSeriesMap)) (map (entry_series names) es)).
  { rewrite map_range_perm. apply map_to_list_to_map. change (NoDup (map fst (map (entry_series names) es))). by rewrite Hfst. }
  apply Permutation_map_inv in Hperm as (es' & -> & Hperm).
  assert (Htot : total_rows es' = total_rows es) by (unfold total_rows; by rewrite Hperm).
  assert (Hnd' : NoDup (map fst es')) by (by rewrite <- Hperm).
  assert (Hok' : Forall (entry_ok kinds) es') by (by rewrite <- Hperm).
  destruct es' as [|e es']; [by apply Permutation_nil_r in Hperm|].
  destruct (compose_all names kinds Hnames Hne Hlen Hkinds e es' Hok' Hnd') as (m & Hc & Hm); [lia|].
  destruct (response_entries names kinds Hnames Hne Hlen Hkinds m (e :: es') Hm ltac:(by rewrite Htot) Hok' Hnd'
    (map_range (StartIndex m)) (nmds_nds (sent m)) ∅) as (csm & nds & Hr & Hin & Hout).
  { apply (mo_types _ _ _ _ Hm). } { apply (mo_names _ _ _ _ Hm). } { done. } { by right. }
  { intros key z. by rewrite elem_of_map_range. }
  { rewrite (map_range_perm (StartIndex m)). apply NoDup_fst_map_to_list. }
  exists m, csm. split_and!; [exact Hc| | |].
  - cbn [resp_ToColumnSeriesMap]. change (StartIndex (sent m)) with (StartIndex m). change (Lengths (sent m)) with (Lengths m).
    rewrite Hr. done.
  - intros key n cols He. rewrite Hperm in He. unfold received in Hin. rewrite Htot in Hin. apply (Hin key n cols He).
    destruct (mo_entries _ _ _ _ Hm key n cols He) as (start & Hst & _).
    apply list_elem_of_fmap. exists (key, Z.of_nat start). split; [done|]. by apply elem_of_map_range.
  - intros key Hk. rewrite Hout; [apply lookup_empty|]. intros Hk'. apply Hk.
    apply list_elem_of_fmap in Hk' as ([key' z] & -> & Hz). apply elem_of_map_range in Hz.
    rewrite Hperm. by apply (mo_keys _ _ _ _ Hm key' z).
Qed.

(** Two symbols, one of them without rows. *)
Lemma response_roundtrip_witness :
  let es := [("A/1Min/T:Symbol/Timeframe/AttributeGroup", (2%nat, [int64_column [60; 120]; int32_column [5; 6]]));
             ("B/1Min/T:Symbol/Timeframe/AttributeGroup", (0%nat, [int64_column []; int32_column []]))] in
  exists nmds csm,
    compose_datasets (@map_range list_range ColumnSeries (list_to_map (map (entry_series ["Epoch"; "Ask"]) es))) None
      = Ret (Some nmds) /\
    @resp_ToColumnSeriesMap list_range [Some (sent nmds)] ∅ = Ret csm /\
    (forall key n cols, (key, (n, cols)) ∈ es -> csm !! key = Some (frame ["Epoch"; "Ask"] cols)) /\
    (forall key, key ∉ map fst es -> csm !! key = None).
Proof.
  apply (@response_roundtrip list_range ["Epoch"; "Ask"] [KInt64; KInt32]).
  - apply (bool_decide_unpack _). by vm_compute.
  - done.
  - done.
  - apply (bool_decide_unpack _). by vm_compute.
  - done.
  - apply (bool_decide_unpack _). by vm_compute.
  - repeat constructor.
  - done.
Defined.

(** A series whose columns have the names of the data set's but other types
    is appended all the same: its bytes are read with the types of the first
    series. Here the two four-byte prices of the second bucket are read as one
    eight-byte number, and the end of the data lies behind the memory. *)
Lemma Append_types_unchecked :
  let a := frame ["Epoch"; "Ask"] [int64_column [60]; int64_column [7]] in
  let b := frame ["Epoch"; "Ask"] [int64_column [60; 120]; int32_column [5; 6]] in
  exists nmds, compose_datasets [("A:S", a); ("B:S", b)] None = Ret (Some nmds) /\
    nds_ToColumnSeries [0; 3] (nmds_nds nmds) = Panic "slice bounds out of range" /\
    exists cs nds, nds_ToColumnSeries [1; 1] (nmds_nds nmds) = Ret (cs, nds) /\
      GetColumn "Ask" cs = Some (int64_column [6 * 2 ^ 32 + 5]).
Proof. eexists. split; [by vm_compute|]. split; [by vm_compute|]. do 2 eexists. split; by vm_compute. Qed.

Lemma nds_loop_names cs names : forall nds nds', nds_loop cs names nds = Ret nds' ->
  ColumnNames nds' = (ColumnNames nds ++ names)%list /\
  length (ColumnData nds') = (length (ColumnData nds) + length names)%nat.
Proof.
  induction names as [|n names IH]; intros nds nds' H; cbn [nds_loop] in H.
  - injection H as <-. rewrite app_nil_r. split; [done|]. cbn. lia.
  - apply outcome_bind_Ret in H as (bs & _ & H). destruct (type_str _) as [t|]; [|discriminate H].
    apply IH in H as [-> ->]. cbn [ColumnNames ColumnData]. rewrite <- app_assoc, length_app. split; [done|]. cbn. lia.
Qed.

Lemma names_match_neq a : forall b, length a = length b -> a <> b -> names_match a b = Ret false.
Proof.
  induction a as [|x a IH]; intros [|y b] Hl Hne; try discriminate; [done|]. cbn. case_decide as Hxy; [|done].
  subst y. apply IH; [by injection Hl|]. intros ->. by apply Hne.
Qed.

(** A bucket whose columns differ in number or in name from those of the
    bucket that is ranged over first is left out of the response, without an
    error. *)
Lemma compose_drops_mismatch (a b : ColumnSeries) (ka kb : TimeBucketKey) (nds nds' : NumpyDataset) :
  NewNumpyDataset a = Ret nds -> NewNumpyDataset b = Ret nds' -> orderedNames a <> orderedNames b ->
  compose_datasets [(ka, a); (kb, b)] None = compose_datasets [(ka, a)] None.
Proof.
  intros Ha Hb Hne. cbn [compose_datasets]. rewrite Ha. cbn [outcome_bind]. rewrite Hb. cbn [outcome_bind].
  unfold NewNumpyDataset in Ha. apply outcome_bind_Ret in Ha as (n & _ & Ha). apply nds_loop_names in Ha as [Hn Hl].
  cbn in Hn, Hl. unfold nmds_Append. cbn [nmds_nds NewNumpyMultiDataset]. rewrite Hn, Hl.
  assert (Hnum : GetNumColumns b = length (orderedNames b)).
  { unfold GetNumColumns, cs_IsEmpty. case_bool_decide as E; [by rewrite E|done]. }
  rewrite Hnum. case_bool_decide as Hlen; [|done]. cbn [negb]. by rewrite (names_match_neq _ _ Hlen Hne).
Qed.

Lemma compose_drops_mismatch_witness :
  let a := frame ["Epoch"; "Ask"] [int64_column [60]; int32_column [7]] in
  let b := frame ["Epoch"; "Bid"] [int64_column [60]; int32_column [8]] in
  compose_datasets [("A:S", a); ("B:S", b)] None = compose_datasets [("A:S", a)] None /\
  exists nmds, compose_datasets [("A:S", a)] None = Ret (Some nmds) /\ StartIndex nmds !! "B:S" = None.
Proof.
  split; [eapply compose_drops_mismatch; [by vm_compute|by vm_compute|by vm_compute]|].
  eexists. split; by vm_compute.
Defined.

(** Calls and their arguments. *)
Example parse_candler :
  parseFunctionCall " candlecandler('1Min', Open,High,Low,Close,Sum::Volume) " =
  Ret ("candlecandler", ["1Min"], ["Open"; "High"; "Low"; "Close"; "Sum::Volume"]).
Proof. vm_compute. reflexivity. Qed.
Example parse_unclosed : parseFunctionCall "f('1Min)" = Fail (ErrMsg "unclosed literal 1Min").
Proof. vm_compute. reflexivity. Qed.

(** The closing parenthesis is looked for from the end, but not behind the
    opening one. *)
Example parse_reversed : parseFunctionCall "a)b(c" = Panic "slice bounds out of range".
Proof. vm_compute. reflexivity. Qed.
