(* ===== verification/Service.v ===== *)
(** * Writing and administration (frontend/write.go)

    The handlers of a multi-request carry out its requests one after another
    and answer each with an error or none.  A panic or the end of the process
    ends the handler. *)

From S2P Require Export Query.
From S2P Require Import GoStrings.

#[local] Open Scope string_scope.
#[local] Open Scope Z_scope.

(** The text of an answer is that of its error, empty for none. *)
Record ServerResponse := mkServerResponse { sr_Error : option goerr; sr_Version : string }.

Record WriteRequest := mkWriteRequest { wq_Data : option NumpyMultiDataset; wq_IsVariableLength : bool }.
Record CreateRequest := mkCreateRequest { cq_Key : string; cq_DataShapes : string; cq_RowType : string }.
Record GetInfoResponse := mkGetInfoResponse {
  LatestYear : Z;
  TimeFrame : Z;
  DSV : list DataShape;
  gi_RecordType : Z;
  ServerResp : ServerResponse;
}.

(** A value that the handler goes on without. *)
Definition try_prog {S A} (m : prog S A) : prog S (A + goerr) := fun s =>
  match m s with
  | (Ret a, s') => (Ret (inl a), s')
  | (Fail e, s') => (Ret (inr e), s')
  | (Fatal msg, s') => (Fatal msg, s')
  | (Panic msg, s') => (Panic msg, s')
  end.

Section service.
Context `{L : StorageLibs} `{R : MapRange} (tz local : Location).
Context (InstanceID : Z) (WALBypass DisableVariableCompression : bool) (CatalogDir : dloc) (RootDir GitHash : string).
Context (walfile haveWALWriter queued : bool) (now : Z).

Definition appendResponse (err : option goerr) (rs : list ServerResponse) : list ServerResponse :=
  (rs ++ [mkServerResponse err GitHash])%list.

(** The answers to a request are put behind those to the requests before it. *)
Definition for_requests {Q P} (handle : Q -> list P -> prog server (list P)) : list Q -> list P -> prog server (list P) :=
  fix loop reqs rs :=
    match reqs with
    | [] => mret rs
    | req :: reqs' => rs ← handle req rs; loop reqs' rs
    end.

(** Only a failure is answered. *)
Definition write_request (req : WriteRequest) (rs : list ServerResponse) : prog server (list ServerResponse) :=
  match wq_Data req with
  | None => lift nil_pointer
  | Some data =>
      csm ← try_prog (lift (ToColumnSeriesMap data));
      match csm with
      | inr e => mret (appendResponse (Some e) rs)
      | inl csm =>
          err ← run_err (sv_on_instance (WriteCSM tz local InstanceID WALBypass DisableVariableCompression CatalogDir
                           walfile haveWALWriter queued now csm (wq_IsVariableLength req)));
          mret (match err with Some _ => appendResponse err rs | None => rs end)
      end
  end.
Definition Write (reqs : list WriteRequest) : prog server (list ServerResponse) := for_requests write_request reqs [].

(** The bucket of a request is made, or the reason why not is given. *)
Definition create_bucket (year : Z) (req : CreateRequest) : prog server unit :=
  match Split (cq_Key req) ":" with
  | [item; cat] =>
      let tbk := NewTimeBucketKey item [cat] in
      dsv ← lift (DataShapesFromInputString (cq_DataShapes req));
      if negb (bool_decide (cq_RowType req ∈ ["fixed"; "variable"])) then
        fail (ErrMsg "record type is not one of fixed or variable")
      else
        tf ← lift (GetTimeFrame tbk);
        let rt := EnumRecordTypeByName (cq_RowType req) in
        let tbinfo := NewTimeBucketInfo (tf_Duration tf) (GetPathToYearFiles RootDir tbk) "Default" year dsv rt in
        sv_on_instance (with_catalog (l ← new_info tbinfo; AddTimeBucket local CatalogDir tbk l))
  | _ => fail (ErrMsg "key is not in proper format")
  end.
Definition create_request (year : Z) (req : CreateRequest) (rs : list ServerResponse) : prog server (list ServerResponse) :=
  err ← run_err (create_bucket year req); mret (appendResponse err rs).
(** [nowLocal] is the time of the day. *)
Definition Create (nowLocal : Time) (reqs : list CreateRequest) : prog server (list ServerResponse) :=
  for_requests (create_request (int16 (Year nowLocal))) reqs [].

(** The key of a request, whose categories may be left out. *)
Definition request_key (key : string) : TimeBucketKey :=
  match Split key ":" with
  | item :: cat :: _ => NewTimeBucketKey item [cat]
  | [item] => NewTimeBucketKey item [""]
  | [] => NewTimeBucketKey "" [""]
  end.

Definition zero_info (err : option goerr) : GetInfoResponse :=
  mkGetInfoResponse 0 0 [] 0 (mkServerResponse err GitHash).

Definition info_of (l : option floc) : prog catalog GetInfoResponse :=
  match l with
  | None => mret (zero_info None)
  | Some l =>
      f ← get_info l;
      tf ← on_info l GetTimeframe;
      dsv ← on_info l GetDataShapesWithEpoch;
      rt ← on_info l GetRecordType;
      mret (mkGetInfoResponse (tbi_Year f) tf dsv rt (mkServerResponse None GitHash))
  end.

Definition getinfo_request (key : string) (rs : list GetInfoResponse) : prog server (list GetInfoResponse) :=
  tbi ← try_prog (sv_on_reader (on_cat (GetLatestTimeBucketInfoFromKey CatalogDir (request_key key))));
  match tbi with
  | inr e => mret (rs ++ [zero_info (Some e)])%list
  | inl l => r ← sv_on_reader (on_cat (info_of l)); mret (rs ++ [r])%list
  end.
Definition GetInfo (keys : list string) : prog server (list GetInfoResponse) := for_requests getinfo_request keys [].

Definition destroy_request (key : string) (rs : list ServerResponse) : prog server (list ServerResponse) :=
  err ← run_err (sv_on_reader (on_cat (RemoveTimeBucket CatalogDir (request_key key))));
  mret (appendResponse err rs).
Definition Destroy (keys : list string) : prog server (list ServerResponse) := for_requests destroy_request keys [].

(** ** One answer for each request *)

Lemma for_requests_answers {Q P} (handle : Q -> list P -> prog server (list P)) :
  (forall req rs s rs' s', handle req rs s = (Ret rs', s') -> length rs' = S (length rs)) ->
  forall reqs rs s rs' s', for_requests handle reqs rs s = (Ret rs', s') -> length rs' = (length rs + length reqs)%nat.
Proof.
  intros Hone. induction reqs as [|req reqs IH]; intros rs s rs' s' H.
  - injection H as <- <-. cbn. lia.
  - cbn in H. unfold mbind, prog_bind in H. destruct (handle req rs s) as [[rs1| | |] s1] eqn:H1; try discriminate H.
    apply Hone in H1. apply IH in H. cbn. lia.
Qed.

Lemma appended_answer {S} (m : prog S (option goerr)) (rs : list ServerResponse) s rs' s' :
  (err ← m; mret (appendResponse err rs)) s = (Ret rs', s') -> length rs' = Datatypes.S (length rs).
Proof.
  unfold mbind, prog_bind. destruct (m s) as [[e| | |] s1]; try discriminate. intros [= <- <-].
  unfold appendResponse. rewrite length_app. cbn. lia.
Qed.

Lemma Create_answers nowLocal reqs s rs s' : Create nowLocal reqs s = (Ret rs, s') -> length rs = length reqs.
Proof. intros H. apply for_requests_answers in H; [exact H|]. intros req rs0 s0 rs' s1. apply appended_answer. Qed.

Lemma Destroy_answers keys s rs s' : Destroy keys s = (Ret rs, s') -> length rs = length keys.
Proof. intros H. apply for_requests_answers in H; [exact H|]. intros req rs0 s0 rs' s1. apply appended_answer. Qed.

Lemma GetInfo_answers keys s rs s' : GetInfo keys s = (Ret rs, s') -> length rs = length keys.
Proof.
  intros H. apply for_requests_answers in H; [exact H|]. intros req rs0 s0 rs' s1.
  unfold getinfo_request, mbind, prog_bind. destruct (try_prog _ s0) as [[[l|e]| | |] s2]; try discriminate.
  - destruct (sv_on_reader _ s2) as [[r| | |] s3]; try discriminate. intros [= <- <-]. rewrite length_app. cbn. lia.
  - intros [= <- <-]. rewrite length_app. cbn. lia.
Qed.
End service.
