(* ===== verification/Stream.v ===== *)
(** * Streaming (contrib/stream, frontend/stream)

    The shelf, whose packages wait for their deadlines; the trigger that puts
    the latest row of a written bucket on it or pushes it at once; and the hub
    that passes what is pushed on to the subscribers. *)

From S2P Require Export Query OnDiskAgg Calendar.
From S2P Require Import GoStrings.

#[local] Open Scope string_scope.
#[local] Open Scope Z_scope.

(** ** The shelf (contrib/stream/shelf/shelf.go)

    A package lives on when it has left the map: its goroutine waits for the
    deadline.  All the packages that were ever stored are kept, in the order
    of their stores; a pointer to one is its place. *)

Module Shelf.
Section shelf.
Context {D : Type}.

Record Package := mkPackage {
  pk_tbk : TimeBucketKey;
  pk_deadline : Time;
  pk_stopped : bool;
  pk_Data : D;
  pk_ended : bool;  (* its goroutine has returned *)
}.
Record Shelf := mkShelf { sh_m : gmap string nat; sh_packages : list Package }.

Definition NewShelf : Shelf := mkShelf ∅ [].

Definition Stop (p : Package) : Package := mkPackage (pk_tbk p) (pk_deadline p) true (pk_Data p) (pk_ended p).
Definition Start (tbk : TimeBucketKey) (data : D) (deadline : Time) : Package := mkPackage tbk deadline false data false.
Definition ended (p : Package) : Package := mkPackage (pk_tbk p) (pk_deadline p) (pk_stopped p) (pk_Data p) true.

(** The earlier package of the key is stopped when its deadline is the same;
    otherwise it only leaves the map. *)
Definition Store (tbk : option TimeBucketKey) (data : D) (deadline : Time) (s : Shelf) : Shelf :=
  match tbk with
  | None => s
  | Some tbk =>
      let packages :=
        match sh_m s !! tbk with
        | Some i => alter (fun p => if t_ns deadline =? t_ns (pk_deadline p) then Stop p else p) i (sh_packages s)
        | None => sh_packages s
        end in
      mkShelf (<[tbk := length packages]> (delete tbk (sh_m s))) (packages ++ [Start tbk data deadline])
  end.

(** A shelf at a time, and the calls of its handler so far. *)
Record running := mkRunning { rn_shelf : Shelf; rn_now : Z; rn_handled : list (TimeBucketKey * D) }.

(** Something is stored; time passes; a goroutine wakes, when its package is
    stopped or its deadline has come, and calls the handler if it was not
    stopped. *)
Inductive event := EStore (tbk : TimeBucketKey) (data : D) (deadline : Time) | EWait (d : Z) | EWake (i : nat).

Definition wake (i : nat) (r : running) : option running :=
  match sh_packages (rn_shelf r) !! i with
  | Some p =>
      if negb (pk_ended p) && (pk_stopped p || (t_ns (pk_deadline p) <=? rn_now r)) then
        Some (mkRunning (mkShelf (sh_m (rn_shelf r)) (alter ended i (sh_packages (rn_shelf r)))) (rn_now r)
                (rn_handled r ++ if pk_stopped p then [] else [(pk_tbk p, pk_Data p)]))
      else None
  | None => None
  end.
Definition step (e : event) (r : running) : option running :=
  match e with
  | EStore tbk data deadline =>
      Some (mkRunning (Store (Some tbk) data deadline (rn_shelf r)) (rn_now r) (rn_handled r))
  | EWait d => if 0 <=? d then Some (mkRunning (rn_shelf r) (rn_now r + d) (rn_handled r)) else None
  | EWake i => wake i r
  end.

(** Use of the shelf as the trigger does it: the deadline is still to come, and
    not before those stored for the key earlier. *)
Definition in_order (e : event) (r : running) : Prop :=
  match e with
  | EStore tbk _ deadline =>
      rn_now r < t_ns deadline /\
      Forall (fun p => pk_tbk p = tbk -> t_ns (pk_deadline p) <= t_ns deadline) (sh_packages (rn_shelf r))
  | _ => True
  end.

Inductive reachable : running -> Prop :=
  | reach_new now : reachable (mkRunning NewShelf now [])
  | reach_step r e r' : reachable r -> in_order e r -> step e r = Some r' -> reachable r'.

(** ** What is handled *)

(** Packages for the same candle of the same bucket. *)
Definition same_candle (p q : Package) : bool :=
  bool_decide (pk_tbk q = pk_tbk p) && (t_ns (pk_deadline q) =? t_ns (pk_deadline p)).

(** The last package of every candle. *)
Fixpoint finals (l : list Package) : list Package :=
  match l with
  | [] => []
  | p :: l' => if existsb (same_candle p) l' then finals l' else p :: finals l'
  end.

Definition delivery (p : Package) : TimeBucketKey * D := (pk_tbk p, pk_Data p).
Definition was_handled (p : Package) : bool := pk_ended p && negb (pk_stopped p).

Record shelf_inv (r : running) : Prop := {
  si_last tbk i : sh_m (rn_shelf r) !! tbk = Some i ->
    exists p, sh_packages (rn_shelf r) !! i = Some p /\ pk_tbk p = tbk;
  si_known i p : sh_packages (rn_shelf r) !! i = Some p ->
    exists j, sh_m (rn_shelf r) !! pk_tbk p = Some j /\ (i <= j)%nat;
  si_stopped i p : sh_packages (rn_shelf r) !! i = Some p ->
    pk_stopped p = existsb (same_candle p) (drop (S i) (sh_packages (rn_shelf r)));
  si_sorted i j p q : (i <= j)%nat -> sh_packages (rn_shelf r) !! i = Some p -> sh_packages (rn_shelf r) !! j = Some q ->
    pk_tbk p = pk_tbk q -> t_ns (pk_deadline p) <= t_ns (pk_deadline q);
  si_past i p : sh_packages (rn_shelf r) !! i = Some p -> was_handled p = true -> t_ns (pk_deadline p) <= rn_now r;
  si_handled : rn_handled r ≡ₚ map delivery (List.filter was_handled (sh_packages (rn_shelf r)));
}.

Lemma finals_unstopped (l : list Package) :
  (forall i p, l !! i = Some p -> pk_stopped p = existsb (same_candle p) (drop (S i) l)) ->
  finals l = List.filter (fun p => negb (pk_stopped p)) l.
Proof.
  induction l as [|p l IH]; intros H; [done|]. cbn. rewrite (H 0%nat p eq_refl). cbn [drop]. rewrite drop_0.
  rewrite IH; [by destruct (existsb _ _)|]. intros i q Hi. apply (H (S i) q Hi).
Qed.

Lemma filter_alter_off {A} (f : A -> bool) (g : A -> A) i (l : list A) p :
  l !! i = Some p -> f p = false -> f (g p) = false -> List.filter f (alter g i l) = List.filter f l.
Proof.
  revert i. induction l as [|x l IH]; intros [|i]; cbn; try done.
  - intros [= ->] Hp Hg. by rewrite Hp, Hg.
  - intros Hi Hp Hg. change (alter g i l) with (base.alter g i l). by rewrite (IH i) by done.
Qed.

Lemma filter_alter_on {A} (f : A -> bool) (g : A -> A) i (l : list A) p :
  l !! i = Some p -> f p = false -> f (g p) = true -> List.filter f (alter g i l) ≡ₚ List.filter f l ++ [g p].
Proof.
  revert i. induction l as [|x l IH]; intros [|i]; cbn; try done.
  - intros [= ->] Hp Hg. rewrite Hp, Hg. by rewrite Permutation_app_comm.
  - intros Hi Hp Hg. change (alter g i l) with (base.alter g i l). destruct (f x); by rewrite (IH i) by done.
Qed.

Lemma same_candle_spec p q : same_candle p q = true <-> pk_tbk q = pk_tbk p /\ t_ns (pk_deadline q) = t_ns (pk_deadline p).
Proof. unfold same_candle. rewrite andb_true_iff, bool_decide_eq_true, Z.eqb_eq. done. Qed.

(** What a change of one package that keeps its key and its deadline leaves. *)
Lemma alter_lookup (g : Package -> Package) i j (l : list Package) q : alter g i l !! j = Some q ->
  exists p, l !! j = Some p /\ q = (if decide (i = j) then g p else p).
Proof.
  destruct (decide (i = j)) as [->|Hne].
  - rewrite list_lookup_alter_eq. destruct (l !! j) as [p|]; [|done]. intros [= <-].
    eexists. split; [done|]. done.
  - rewrite list_lookup_alter_ne by done. intros Hq. by exists q.
Qed.

Lemma existsb_candle_alter (g : Package -> Package) i p (l : list Package) :
  (forall x, pk_tbk (g x) = pk_tbk x /\ pk_deadline (g x) = pk_deadline x) ->
  existsb (same_candle p) (alter g i l) = existsb (same_candle p) l.
Proof.
  intros Hg. assert (forall x, same_candle p (g x) = same_candle p x) as Hs.
  { intros x. unfold same_candle. by destruct (Hg x) as [-> ->]. }
  revert i. induction l as [|x l IH]; intros [|i]; cbn; [done|done| |].
  - by rewrite Hs.
  - change (alter g i l) with (base.alter g i l). by rewrite IH.
Qed.

Lemma drop_alter_candles (g : Package -> Package) i p n (l : list Package) :
  (forall x, pk_tbk (g x) = pk_tbk x /\ pk_deadline (g x) = pk_deadline x) ->
  existsb (same_candle p) (drop n (alter g i l)) = existsb (same_candle p) (drop n l).
Proof.
  intros Hg. revert n i. induction l as [|x l IH]; intros n i; [done|].
  destruct n as [|n]; [by apply existsb_candle_alter|]. destruct i as [|i]; [done|]. cbn.
  change (alter g i l) with (base.alter g i l). apply IH.
Qed.

Lemma same_candle_left p p' q : pk_tbk p = pk_tbk p' -> pk_deadline p = pk_deadline p' -> same_candle p q = same_candle p' q.
Proof. unfold same_candle. by intros -> ->. Qed.

Lemma existsb_candle_left p p' l : pk_tbk p = pk_tbk p' -> pk_deadline p = pk_deadline p' ->
  existsb (same_candle p) l = existsb (same_candle p') l.
Proof. intros Ht Hd. induction l as [|q l IH]; [done|]. cbn. by rewrite IH, (same_candle_left p p' q Ht Hd). Qed.

Lemma ended_keeps x : pk_tbk (ended x) = pk_tbk x /\ pk_deadline (ended x) = pk_deadline x.
Proof. done. Qed.

Lemma inv_wait r d : 0 <= d -> shelf_inv r -> shelf_inv (mkRunning (rn_shelf r) (rn_now r + d) (rn_handled r)).
Proof.
  intros Hd [? ? ? ? Hp ?]. split; cbn; try done. intros i p Hi Hh. specialize (Hp i p Hi Hh). lia.
Qed.

Lemma inv_wake i r r' : wake i r = Some r' -> shelf_inv r -> shelf_inv r'.
Proof.
  unfold wake. intros Hw [Hlast Hknown Hstop Hsort Hpast Hhand].
  destruct (sh_packages (rn_shelf r) !! i) as [p|] eqn:Hi; [|done].
  destruct (negb (pk_ended p) && _) eqn:Hc; [|done]. injection Hw as <-.
  apply andb_true_iff in Hc as [He%negb_true_iff Hc].
  split; cbn [rn_shelf rn_now rn_handled sh_m sh_packages].
  - intros tbk j Hj. destruct (Hlast tbk j Hj) as (q & Hq & <-).
    destruct (decide (i = j)) as [->|Hne].
    + exists (ended q). by rewrite list_lookup_alter_eq, Hq.
    + exists q. by rewrite list_lookup_alter_ne by done.
  - intros j q Hq. apply alter_lookup in Hq as (q' & Hq & ->). destruct (Hknown j q' Hq) as (k & Hk & Hle).
    exists k. by destruct (decide (i = j)).
  - intros j q Hq. apply alter_lookup in Hq as (q' & Hq & ->). rewrite drop_alter_candles by apply ended_keeps.
    rewrite (existsb_candle_left _ q') by (by destruct (decide (i = j))).
    rewrite <- (Hstop j q' Hq). by destruct (decide (i = j)).
  - intros j k q q2 Hle Hq Hq2. apply alter_lookup in Hq as (a & Ha & ->). apply alter_lookup in Hq2 as (b & Hb & ->).
    pose proof (Hsort j k a b Hle Ha Hb) as Hs. by destruct (decide (i = j)), (decide (i = k)).
  - intros j q Hq Hh. apply alter_lookup in Hq as (q' & Hq & ->). destruct (decide (i = j)) as [->|Hne]; [|by eauto].
    rewrite Hi in Hq. injection Hq as <-. unfold was_handled in Hh. cbn in Hh. apply negb_true_iff in Hh.
    rewrite Hh in Hc. cbn in Hc. cbn. lia.
  - assert (Hoff : was_handled p = false) by (unfold was_handled; by rewrite He).
    rewrite Hhand. destruct (pk_stopped p) eqn:Hs.
    + rewrite app_nil_r. rewrite (filter_alter_off _ _ _ _ _ Hi Hoff); [done|]. unfold was_handled. cbn. by rewrite Hs.
    + rewrite (filter_alter_on was_handled ended i _ p Hi Hoff); [|unfold was_handled; cbn; by rewrite Hs].
      by rewrite map_app.
Qed.

Definition stop_if (deadline : Time) (p : Package) : Package :=
  if t_ns deadline =? t_ns (pk_deadline p) then Stop p else p.

Lemma stop_if_keeps deadline x : pk_tbk (stop_if deadline x) = pk_tbk x /\ pk_deadline (stop_if deadline x) = pk_deadline x.
Proof. unfold stop_if. by destruct (_ =? _). Qed.

(** The packages before the new one: the last of the key is stopped when it is
    of the same candle. *)
Definition kept (tbk : TimeBucketKey) (deadline : Time) (s : Shelf) : list Package :=
  match sh_m s !! tbk with
  | Some i => alter (stop_if deadline) i (sh_packages s)
  | None => sh_packages s
  end.

Lemma Store_kept tbk data deadline s :
  Store (Some tbk) data deadline s =
  mkShelf (<[tbk := length (sh_packages s)]> (sh_m s)) (kept tbk deadline s ++ [Start tbk data deadline]).
Proof.
  unfold Store, kept. rewrite insert_delete_eq. destruct (sh_m s !! tbk); cbn; [|done]. by rewrite length_alter.
Qed.

Lemma kept_lookup tbk deadline s i q : kept tbk deadline s !! i = Some q ->
  exists p, sh_packages s !! i = Some p /\ pk_tbk q = pk_tbk p /\ pk_deadline q = pk_deadline p /\ pk_ended q = pk_ended p /\
    pk_stopped q = pk_stopped p || (bool_decide (sh_m s !! tbk = Some i) && (t_ns deadline =? t_ns (pk_deadline p))).
Proof.
  unfold kept. destruct (sh_m s !! tbk) as [j|].
  - intros Hq. apply alter_lookup in Hq as (p & Hp & ->). exists p. split; [done|].
    destruct (decide (j = i)) as [->|Hne].
    + rewrite bool_decide_true by done. unfold stop_if. destruct (_ =? _); cbn; by rewrite ?orb_true_r, ?orb_false_r.
    + rewrite bool_decide_false by congruence. cbn. by rewrite orb_false_r.
  - intros Hq. exists q. rewrite bool_decide_false by done. cbn. by rewrite orb_false_r.
Qed.

Lemma kept_candles tbk deadline s p n :
  existsb (same_candle p) (drop n (kept tbk deadline s)) = existsb (same_candle p) (drop n (sh_packages s)).
Proof. unfold kept. destruct (sh_m s !! tbk); [|done]. apply drop_alter_candles, stop_if_keeps. Qed.

Lemma length_kept tbk deadline s : length (kept tbk deadline s) = length (sh_packages s).
Proof. unfold kept. destruct (sh_m s !! tbk); [|done]. apply length_alter. Qed.

Lemma alter_same {A} (g : A -> A) i (l : list A) p : l !! i = Some p -> g p = p -> alter g i l = l.
Proof.
  revert i. induction l as [|x l IH]; intros [|i]; cbn; try done.
  - intros [= ->] Hg. by rewrite Hg.
  - intros Hi Hg. change (alter g i l) with (base.alter g i l). by rewrite (IH i).
Qed.

Section store.
Context (tbk : TimeBucketKey) (data : D) (deadline : Time) (r : running).
Context (Hinv : shelf_inv r) (Hnow : rn_now r < t_ns deadline).
Context (Hord : Forall (fun p => pk_tbk p = tbk -> t_ns (pk_deadline p) <= t_ns deadline) (sh_packages (rn_shelf r))).

Lemma later_stopped i p : sh_packages (rn_shelf r) !! i = Some p ->
  pk_stopped p || (bool_decide (sh_m (rn_shelf r) !! tbk = Some i) && (t_ns deadline =? t_ns (pk_deadline p))) =
  pk_stopped p || same_candle p (Start tbk data deadline).
Proof.
  intros Hi. destruct (pk_stopped p) eqn:Hs; [done|]. cbn. unfold same_candle. cbn.
  destruct (decide (tbk = pk_tbk p)) as [Ht|Ht].
  - rewrite (bool_decide_true (tbk = _)) by done. cbn. destruct (t_ns deadline =? t_ns (pk_deadline p)) eqn:Hd; [|by rewrite andb_false_r].
    apply Z.eqb_eq in Hd. rewrite andb_true_r. apply bool_decide_eq_true.
    destruct (si_known r Hinv i p Hi) as (j & Hj & Hle). rewrite <- Ht in Hj. rewrite Hj. f_equal.
    destruct (decide (i = j)) as [->|Hne]; [done|]. exfalso.
    destruct (si_last r Hinv _ _ Hj) as (q & Hq & Hqt).
    assert (Hsame : same_candle p q = true).
    { apply same_candle_spec. split; [congruence|]. pose proof (si_sorted r Hinv i j p q Hle Hi Hq ltac:(congruence)).
      rewrite Forall_forall in Hord. pose proof (Hord q (list_elem_of_lookup_2 _ _ _ Hq) Hqt). lia. }
    rewrite (si_stopped r Hinv i p Hi) in Hs. apply not_true_iff_false in Hs. apply Hs, existsb_exists. exists q. split; [|done].
    apply list_elem_of_In, list_elem_of_lookup. exists (j - S i)%nat. rewrite lookup_drop. rewrite <- Hq. f_equal. lia.
  - rewrite (bool_decide_false (tbk = _)) by done. apply andb_false_iff. left. apply bool_decide_eq_false. intros Hm.
    destruct (si_last r Hinv _ _ Hm) as (q & Hq & Hqt). congruence.
Qed.

Lemma handled_kept : List.filter was_handled (kept tbk deadline (rn_shelf r)) = List.filter was_handled (sh_packages (rn_shelf r)).
Proof.
  unfold kept. destruct (sh_m (rn_shelf r) !! tbk) as [i|] eqn:Hm; [|done].
  destruct (si_last r Hinv _ _ Hm) as (p & Hi & Ht).
  destruct (t_ns deadline =? t_ns (pk_deadline p)) eqn:Hd.
  - apply (filter_alter_off _ _ _ _ p Hi).
    + apply not_true_iff_false. intros Hh. pose proof (si_past r Hinv i p Hi Hh). lia.
    + unfold stop_if. rewrite Hd. unfold was_handled. cbn. by rewrite andb_false_r.
  - rewrite (alter_same _ _ _ p Hi); [done|]. unfold stop_if. by rewrite Hd.
Qed.

Lemma stored_lookup i q : (kept tbk deadline (rn_shelf r) ++ [Start tbk data deadline])%list !! i = Some q ->
  (exists p, sh_packages (rn_shelf r) !! i = Some p /\ kept tbk deadline (rn_shelf r) !! i = Some q /\
     pk_tbk q = pk_tbk p /\ pk_deadline q = pk_deadline p /\ pk_ended q = pk_ended p) \/
  (i = length (sh_packages (rn_shelf r)) /\ q = Start tbk data deadline).
Proof.
  intros [Hq|[Hle Hq]]%lookup_app_Some.
  - left. destruct (kept_lookup _ _ _ _ _ Hq) as (p & Hp & Ht & Hd & He & _). by exists p.
  - right. rewrite length_kept in *. apply list_lookup_singleton_Some in Hq as [Hi <-]. split; [lia|done].
Qed.

Lemma inv_store : shelf_inv (mkRunning (Store (Some tbk) data deadline (rn_shelf r)) (rn_now r) (rn_handled r)).
Proof.
  rewrite Store_kept. split; cbn [rn_shelf rn_now rn_handled sh_m sh_packages].
  - intros k i. destruct (decide (k = tbk)) as [->|Hk].
    + rewrite lookup_insert_eq. intros [= <-]. exists (Start tbk data deadline). split; [|done].
      by rewrite <- (length_kept tbk deadline), list_lookup_middle.
    + rewrite lookup_insert_ne by done. intros Hi. destruct (si_last r Hinv k i Hi) as (p & Hp & Ht).
      destruct (kept tbk deadline (rn_shelf r) !! i) as [q|] eqn:Hq.
      * exists q. split; [by apply lookup_app_l_Some|]. destruct (kept_lookup _ _ _ _ _ Hq) as (p' & Hp' & Ht' & _). congruence.
      * apply lookup_lt_Some in Hp. apply lookup_ge_None in Hq. rewrite length_kept in Hq. lia.
  - intros i q [(p & Hp & _ & Ht & _)|[-> ->]]%stored_lookup.
    + destruct (decide (pk_tbk q = tbk)) as [->|Hk].
      * exists (length (sh_packages (rn_shelf r))). rewrite lookup_insert_eq. split; [done|]. apply lookup_lt_Some in Hp. lia.
      * rewrite lookup_insert_ne, Ht by done. by apply (si_known r Hinv).
    + exists (length (sh_packages (rn_shelf r))). by rewrite lookup_insert_eq.
  - intros i q [(p & Hp & Hq & Ht & Hd & _)|[-> ->]]%stored_lookup.
    + rewrite drop_app_le by (rewrite length_kept; apply lookup_lt_Some in Hp; lia).
      rewrite existsb_app, kept_candles. cbn [existsb]. rewrite orb_false_r.
      rewrite (existsb_candle_left q p), (same_candle_left q p) by done. rewrite <- (si_stopped r Hinv i p Hp).
      destruct (kept_lookup _ _ _ _ _ Hq) as (p' & Hp' & _ & _ & _ & Hs). rewrite Hp in Hp'. injection Hp' as <-.
      rewrite Hs. by apply later_stopped.
    + by rewrite drop_ge by (rewrite length_app, length_kept; cbn; lia).
  - intros i j p q Hle [(p' & Hp & _ & Htp & Hdp & _)|[-> ->]]%stored_lookup
      [(q' & Hq & _ & Htq & Hdq & _)|[-> ->]]%stored_lookup Heq.
    + rewrite Hdp, Hdq. apply (si_sorted r Hinv i j p' q' Hle Hp Hq). congruence.
    + rewrite Hdp. rewrite Forall_forall in Hord. apply (Hord p'); [by apply list_elem_of_lookup_2 in Hp|]. cbn in Heq. congruence.
    + apply lookup_lt_Some in Hq. lia.
    + lia.
  - intros i q [(p & Hp & Hq & _ & Hd & He)|[-> ->]]%stored_lookup Hh; [|done].
    destruct (kept_lookup _ _ _ _ _ Hq) as (p' & Hp' & _ & _ & _ & Hs). rewrite Hp in Hp'. injection Hp' as <-.
    rewrite Hd. apply (si_past r Hinv i p Hp). unfold was_handled in *. rewrite He, Hs in Hh. by destruct (pk_ended p), (pk_stopped p).
  - rewrite List.filter_app, handled_kept. cbn. rewrite app_nil_r. apply (si_handled r Hinv).
Qed.
End store.

Lemma shelf_reachable_inv r : reachable r -> shelf_inv r.
Proof.
  induction 1 as [now|r e r' _ IH Hok Hstep]; [by split|]. destruct e as [tbk data deadline|d|i]; cbn in Hok, Hstep.
  - injection Hstep as <-. destruct Hok. by apply inv_store.
  - destruct (0 <=? d) eqn:Hd; [|done]. injection Hstep as <-. apply inv_wait; [lia|done].
  - by apply (inv_wake i r).
Qed.
End shelf.
Arguments Package D : clear implicits.
Arguments Shelf D : clear implicits.
Arguments running D : clear implicits.
Arguments event D : clear implicits.

(** C20: The shelf calls its handler for the last package of every candle, and
    for no other. Whatever was stored for the buckets, each time before the
    deadline and with deadlines that do not go back, in whatever order the
    goroutines woke: what was handled so far is, up to order, what the ended
    packages hold among those that no later one of the same key and deadline
    replaced, each of them once; and a package whose deadline has come can
    end. *)
Theorem shelf_handles_last {D} (r : running D) : reachable r ->
  rn_handled r ≡ₚ map delivery (List.filter pk_ended (finals (sh_packages (rn_shelf r)))) /\
  (forall i p, sh_packages (rn_shelf r) !! i = Some p -> pk_ended p = false -> t_ns (pk_deadline p) <= rn_now r ->
     exists r', step (EWake i) r = Some r').
Proof.
  intros Hr%shelf_reachable_inv. split.
  - rewrite (finals_unstopped _ (si_stopped r Hr)), (si_handled r Hr). unfold was_handled.
    induction (sh_packages (rn_shelf r)) as [|p l IH]; [done|]. cbn.
    destruct (pk_stopped p), (pk_ended p) eqn:He; cbn; rewrite ?He; cbn; by rewrite ?IH.
  - intros i p Hi He Hd. cbn. unfold wake. rewrite Hi, He. cbn.
    replace (t_ns (pk_deadline p) <=? rn_now r) with true by lia. rewrite orb_true_r. eauto.
Qed.

(** *** Runs *)

Fixpoint run {D} (es : list (event D)) (r : running D) : option (running D) :=
  match es with
  | [] => Some r
  | e :: es' => match step e r with Some r' => run es' r' | None => None end
  end.

Fixpoint run_in_order {D} (es : list (event D)) (r : running D) : Prop :=
  match es with
  | [] => True
  | e :: es' => in_order e r /\ match step e r with Some r' => run_in_order es' r' | None => True end
  end.

#[export] Instance in_order_dec {D} (e : event D) r : Decision (in_order e r).
Proof. destruct e; cbn; apply _. Defined.
#[export] Instance run_in_order_dec {D} (es : list (event D)) r : Decision (run_in_order es r).
Proof.
  revert r. induction es as [|e es IH]; intros r; cbn; [apply _|].
  apply and_dec; [apply _|]. destruct (step e r); [apply IH|apply _].
Defined.

Lemma run_reachable {D} (es : list (event D)) r r' : reachable r -> run_in_order es r -> run es r = Some r' -> reachable r'.
Proof.
  revert r. induction es as [|e es IH]; intros r Hr Ho He; [by injection He as <-|]. cbn in *. destruct Ho as [Ho Hos].
  destruct (step e r) as [r1|] eqn:Hs; [|done]. apply (IH r1); try done. by apply (reach_step r e).
Qed.

Definition at_second (s : Z) : Time := time_Unix s 0 UTC.

(** Two rows of the candle that ends at 300 seconds and one of the next. *)
Definition two_candles : list (event Z) :=
  [EStore "A/5Min/OHLC" 1 (at_second 300); EStore "A/5Min/OHLC" 2 (at_second 300); EStore "A/5Min/OHLC" 3 (at_second 600);
   EWake 0; EWait (400 * nsPerSec); EWake 1].

Lemma shelf_handles_last_witness :
  exists r, run two_candles (mkRunning NewShelf 0 []) = Some r /\ rn_handled r = [("A/5Min/OHLC", 2)] /\
    rn_handled r ≡ₚ map delivery (List.filter pk_ended (finals (sh_packages (rn_shelf r)))).
Proof.
  eexists. split; [vm_compute; reflexivity|]. split; [reflexivity|].
  apply shelf_handles_last. eapply (run_reachable two_candles (mkRunning NewShelf 0 [])); [constructor| |vm_compute; reflexivity].
  apply (bool_decide_unpack _). vm_compute. exact I.
Defined.

(** A store for an earlier candle behind one for a later: the first package of
    the earlier candle has left the map and is not stopped, so that its rows
    are handled twice. *)
Lemma shelf_out_of_order :
  rn_handled <$> run [EStore "A/5Min/OHLC" 1 (at_second 300); EStore "A/5Min/OHLC" 2 (at_second 600);
                      EStore "A/5Min/OHLC" 3 (at_second 300); EWait (700 * nsPerSec); EWake 0; EWake 1; EWake 2]
       (mkRunning NewShelf 0 []) =
  Some [("A/5Min/OHLC", 1); ("A/5Min/OHLC", 2); ("A/5Min/OHLC", 3)].
Proof. vm_compute. reflexivity. Qed.
End Shelf.

(** ** The hub (frontend/stream/stream.go)

    A subscriber is the set of its streams.  What is written to a connection
    is kept in the order of the writes. *)

Module Hub.
Section hub.
Context `{R : MapRange} {D : Type}.
(** A pattern with separator '/' matched against a key; [None] when it does not
    compile.  The encoder of messages; [None] is its error. *)
Context (glob : string -> string -> option bool).

Record Payload := mkPayload { Key : string; Data : D }.
Context (marshal : Payload -> option (list byte)) (marshal_error : string -> list byte).
Context (unmarshal : list byte -> option (list string)).

Record Hub := mkHub {
  subs : gmap string (gset string);
  send : list Payload;
  written : list (string * list byte);
}.

Definition Initialize : Hub := mkHub ∅ [] [].

Definition Add (sub : string) (h : Hub) : Hub := mkHub (<[sub := ∅]> (subs h)) (send h) (written h).
Definition Remove (sub : string) (h : Hub) : Hub := mkHub (delete sub (subs h)) (send h) (written h).
Definition handleOutbound (sub : string) (buf : list byte) (h : Hub) : Hub :=
  mkHub (subs h) (send h) (written h ++ [(sub, buf)])%list.

Definition Subscribed (itemKey : string) (streams : gset string) : bool :=
  existsb (fun stream => default false (glob stream itemKey)) (elements streams).

Definition validStream (stream : string) : bool := default false (glob "*/*/*" stream).

(** All the streams of a message, or an error and the streams as before. *)
Definition handleInbound (Streams : list string) (streams : gset string) : gset string * option string :=
  match Streams with
  | [] => (streams, None)
  | _ =>
      match List.find (fun stream => negb (validStream stream)) Streams with
      | Some stream => (streams, Some (stream +:+ " is an invalid stream"))
      | None => (list_to_set Streams, None)
      end
  end.

(** What a connection reads: a message, its end, or an error. *)
Inductive inbound := Message (buf : list byte) | CloseMessage | ReadError.

(** One round of [consume]: a message is answered with itself or an error. *)
Definition consume (sub : string) (m : inbound) (h : Hub) : Hub :=
  match m with
  | CloseMessage | ReadError => Remove sub h
  | Message buf =>
      match unmarshal buf with
      | None => h
      | Some Streams =>
          let '(streams, err) := handleInbound Streams (default ∅ (subs h !! sub)) in
          let h := mkHub (match subs h !! sub with Some _ => <[sub := streams]> (subs h) | None => subs h end)
                     (send h) (written h) in
          handleOutbound sub (match err with Some msg => marshal_error msg | None => buf end) h
      end
  end.

Definition Push (tbk : TimeBucketKey) (data : D) (h : Hub) : Hub :=
  mkHub (subs h) (send h ++ [mkPayload (GetItemKey tbk) data])%list (written h).

(** One round of [stream]: the oldest payload goes to its subscribers. *)
Definition stream_round (h : Hub) : Hub :=
  match send h with
  | [] => h
  | payload :: rest =>
      let h := mkHub (subs h) rest (written h) in
      match marshal payload with
      | None => h
      | Some buf =>
          foldl (fun h s => if Subscribed (Key payload) s.2 then handleOutbound s.1 buf h else h) h (map_range (subs h))
      end
  end.
Fixpoint stream_rounds (n : nat) (h : Hub) : Hub :=
  match n with O => h | S n' => stream_rounds n' (stream_round h) end.

(** What was written to a connection. *)
Definition received (sub : string) (h : Hub) : list (list byte) :=
  omap (fun w => if decide (w.1 = sub) then Some w.2 else None) (written h).

(** What a subscriber is owed of some payloads. *)
Definition owed (streams : gset string) (payloads : list Payload) : list (list byte) :=
  omap (fun v => if Subscribed (Key v) streams then marshal v else None) payloads.

Lemma received_outbound sub s buf h :
  received sub (handleOutbound s buf h) = (received sub h ++ if decide (s = sub) then [buf] else [])%list.
Proof. unfold received. cbn. rewrite omap_app. cbn. by destruct (decide (s = sub)). Qed.

Lemma outbound_fold key buf (l : list (string * gset string)) h :
  let h' := foldl (fun h s => if Subscribed key s.2 then handleOutbound s.1 buf h else h) h l in
  subs h' = subs h /\ send h' = send h.
Proof.
  revert h. induction l as [|s l IH]; intros h; [done|]. cbn. destruct (IH (if Subscribed key s.2 then handleOutbound s.1 buf h else h)) as [-> ->].
  by destruct (Subscribed key s.2).
Qed.

Lemma received_fold key buf sub streams (l : list (string * gset string)) h :
  NoDup l.*1 -> (forall x, x ∈ l -> x.1 = sub -> x.2 = streams) ->
  received sub (foldl (fun h s => if Subscribed key s.2 then handleOutbound s.1 buf h else h) h l) =
  (received sub h ++ if bool_decide (sub ∈ l.*1) && Subscribed key streams then [buf] else [])%list.
Proof.
  revert h. induction l as [|[s st] l IH]; intros h Hnd Hl; [by rewrite app_nil_r|].
  cbn in Hnd. apply NoDup_cons in Hnd as [Hs Hnd]. cbn [foldl fst snd].
  rewrite IH; [|done|intros x Hx; apply Hl; by right].
  assert (Hrec : received sub (if Subscribed key st then handleOutbound s buf h else h) =
    (received sub h ++ if decide (s = sub) then (if Subscribed key streams then [buf] else []) else [])%list).
  { destruct (decide (s = sub)) as [->|Hne].
    - assert (st = streams) as -> by (apply (Hl (sub, st)); [by left|done]). destruct (Subscribed key streams); [|by rewrite app_nil_r].
      rewrite received_outbound. by rewrite decide_True.
    - destruct (Subscribed key st); [|by rewrite app_nil_r]. rewrite received_outbound. by rewrite decide_False. }
  rewrite Hrec, <- app_assoc. f_equal. cbn. destruct (decide (s = sub)) as [->|Hne].
  - rewrite (bool_decide_false (sub ∈ _)) by done. rewrite (bool_decide_true (sub ∈ _)) by (by left).
    cbn. by destruct (Subscribed key streams).
  - cbn. assert (bool_decide (sub ∈ s :: l.*1) = bool_decide (sub ∈ l.*1)) as ->; [|done].
    apply bool_decide_ext. rewrite elem_of_cons. naive_solver.
Qed.

Lemma map_range_keys {A} (m : gmap string A) : NoDup (map_range m).*1.
Proof. rewrite (map_range_perm m). apply NoDup_fst_map_to_list. Qed.

Lemma stream_round_spec v q h sub : send h = v :: q ->
  subs (stream_round h) = subs h /\ send (stream_round h) = q /\
  received sub (stream_round h) = (received sub h ++ match subs h !! sub with Some st => owed st [v] | None => [] end)%list.
Proof.
  intros Hs. unfold stream_round, owed. rewrite Hs. cbn [omap list_omap].
  destruct (marshal v) as [buf|].
  - pose proof (outbound_fold (Key v) buf (map_range (subs h)) (mkHub (subs h) q (written h))) as [H1 H2].
    cbn [subs send] in *. split; [exact H1|]. split; [exact H2|].
    rewrite (received_fold _ _ _ (default ∅ (subs h !! sub))).
    + f_equal. destruct (subs h !! sub) as [st|] eqn:Hst.
      * rewrite bool_decide_true; [by cbn; destruct (Subscribed (Key v) st)|].
        apply list_elem_of_fmap. exists (sub, st). by rewrite elem_of_map_range.
      * rewrite bool_decide_false; [done|]. intros ([k st] & -> & Hin)%list_elem_of_fmap.
        apply elem_of_map_range in Hin. cbn in Hst. congruence.
    + apply map_range_keys.
    + intros [k st] Hin Hk. cbn in Hk. subst k. apply elem_of_map_range in Hin. by rewrite Hin.
  - split; [done|]. split; [done|]. cbn. destruct (subs h !! sub) as [st|]; [|by rewrite app_nil_r].
    by destruct (Subscribed (Key v) st); rewrite app_nil_r.
Qed.

Lemma stream_rounds_spec n : forall h sub, length (send h) = n ->
  send (stream_rounds n h) = [] /\ subs (stream_rounds n h) = subs h /\
  received sub (stream_rounds n h) = (received sub h ++ match subs h !! sub with Some st => owed st (send h) | None => [] end)%list.
Proof.
  induction n as [|n IH]; intros h sub Hn.
  - destruct (send h) as [|] eqn:Hs; [|done]. cbn. rewrite Hs. destruct (subs h !! sub); by rewrite app_nil_r.
  - destruct (send h) as [|v q] eqn:Hs; [done|]. destruct (stream_round_spec v q h sub Hs) as (H1 & H2 & H3).
    cbn [stream_rounds]. destruct (IH (stream_round h) sub) as (IH1 & IH2 & IH3); [by rewrite H2; injection Hn|].
    split; [done|]. split; [by rewrite IH2|]. rewrite IH3, H1, H2, H3, <- app_assoc. f_equal.
    destruct (subs h !! sub) as [st|]; [|done]. unfold owed. cbn. by destruct (if Subscribed (Key v) st then marshal v else None).
Qed.

(** *** Subscriptions *)

Definition subscriptions_valid (h : Hub) : Prop := map_Forall (fun _ st => forall stream, stream ∈ st -> validStream stream = true) (subs h).

Lemma handleInbound_spec Streams streams :
  match handleInbound Streams streams with
  | (st, None) => forall stream, stream ∈ st -> validStream stream = true \/ (Streams = [] /\ stream ∈ streams)
  | (st, Some _) => st = streams
  end.
Proof.
  unfold handleInbound. destruct Streams as [|s l]; [by right|].
  destruct (List.find _ _) as [bad|] eqn:Hf; [done|]. intros stream Hin%elem_of_list_to_set. left.
  pose proof (find_none _ _ Hf stream) as Hn. apply list_elem_of_In in Hin. specialize (Hn Hin). by apply negb_false_iff in Hn.
Qed.

Lemma consume_valid sub m h : subscriptions_valid h -> subscriptions_valid (consume sub m h).
Proof.
  intros H. destruct m as [buf| |]; cbn; [|by apply map_Forall_delete..].
  destruct (unmarshal buf) as [Streams|]; [|done].
  pose proof (handleInbound_spec Streams (default ∅ (subs h !! sub))) as Hi. destruct (handleInbound _ _) as [st err].
  unfold handleOutbound, subscriptions_valid. cbn. destruct (subs h !! sub) as [old|] eqn:Hold; [|done]. apply map_Forall_insert_2; [|done].
  intros stream Hin. pose proof (H sub old Hold) as Ho. cbn in Hi. destruct err; [subst st; by apply Ho|].
  destruct (Hi stream Hin) as [?|[_ ?]]; [done|by apply Ho].
Qed.

Lemma Add_valid sub h : subscriptions_valid h -> subscriptions_valid (Add sub h).
Proof. intros H. apply map_Forall_insert_2; [|done]. by intros stream ?%elem_of_empty. Qed.
End hub.
Arguments Payload D : clear implicits.
Arguments Hub D : clear implicits.

(** C21: What is pushed reaches exactly those who asked for it. When every payload
    of the queue has had its round, whatever the order in which the subscribers
    are visited, a connection that is in the catalog was written, behind what
    it had, the payloads of the queue whose keys one of its streams matches, in
    the order of the pushes and each once; a connection that is not was
    written nothing; and whatever a connection sends, the streams it is
    subscribed to are all valid. *)
Theorem stream_delivers `{R : MapRange} {D} (glob : string -> string -> option bool) (marshal : Payload D -> option (list byte))
    (marshal_error : string -> list byte) (unmarshal : list byte -> option (list string)) (h : Hub D) (sub : string) :
  let h' := stream_rounds glob marshal (length (send h)) h in
  send h' = [] /\ subs h' = subs h /\
  received sub h' = (received sub h ++ match subs h !! sub with Some st => owed glob marshal st (send h) | None => [] end)%list /\
  (subscriptions_valid glob h -> forall m, subscriptions_valid glob (consume glob marshal_error unmarshal sub m h)).
Proof.
  destruct (stream_rounds_spec glob marshal marshal_error unmarshal (length (send h)) h sub eq_refl) as (H1 & H2 & H3).
  split_and!; [done..|]. intros Hv m. by apply consume_valid.
Qed.

(** Three items of any name, or the key itself. *)
Definition plain_glob (pattern key : string) : option bool :=
  Some (if decide (pattern = "*/*/*") then (length (Split key "/") =? 3)%nat else bool_decide (pattern = key)).

Definition one_stream (buf : list byte) : option (list string) := if decide (buf = []) then Some ["A/1Min/OHLC"] else Some ["A"].
Definition image (v : Payload Z) : option (list byte) := Some [byte_of_Z (Data v)].
(** A client that listens to a bucket, and rows of it and of another. *)
Definition one_client : Hub Z :=
  Push "A/1Min/OHLC:S/T/A" 2 (Push "B/1Min/OHLC:S/T/A" 1
    (consume plain_glob (fun _ => []) one_stream "c" (Message []) (Add "c" Initialize))).

Lemma stream_delivers_witness :
  subscriptions_valid plain_glob one_client /\
  received "c" (@stream_rounds list_range Z plain_glob image 2 one_client) = [[]; [byte_of_Z 2]] /\
  subscriptions_valid plain_glob (consume plain_glob (fun _ => []) one_stream "c" (Message [x00]) one_client).
Proof.
  assert (Hv : subscriptions_valid plain_glob one_client) by (apply (bool_decide_unpack _); vm_compute; exact I).
  destruct (@stream_delivers list_range Z plain_glob image (fun _ => []) one_stream one_client "c") as (_ & _ & Hr & Hc).
  split; [exact Hv|]. split; [|by apply Hc].
  change (length (send one_client)) with 2%nat in Hr. rewrite Hr. vm_compute. reflexivity.
Defined.
End Hub.

(** ** The trigger (contrib/stream/streamtrigger/streamtrigger.go) *)

Module StreamTrigger.
Import Shelf.

(** What a client is sent of a series: the first value of every column. *)
Definition payload : Type := gmap string goval.

(** A column that is no slice panics. *)
Definition ColumnSeriesForPayload (cs : ColumnSeries) : outcome payload :=
  if bool_decide (map_Exists (fun _ c => c = None) (columns cs)) then Panic "reflect: call of reflect.Value.Len on zero Value"
  else Ret (omap (fun c : iface => c ← c; v ← head (col_elems c); Some (mkVal (col_kind c) v)) (columns cs)).

Record StreamTrigger := mkStreamTrigger { st_filter : string }.

(** The filter of the configuration; one that is not known is dropped. *)
Definition NewTrigger (filter : string) : StreamTrigger :=
  mkStreamTrigger (if bool_decide (filter <> "") && bool_decide (filter <> "nasdaq") then "" else filter).

Fixpoint record_indexes (records : list record) : outcome (list Z) :=
  match records with
  | [] => Ret []
  | r :: records' => let! i := record_Index r in let! is' := record_indexes records' in Ret (i :: is')
  end.

Definition maxInt64 (values : list Z) : outcome Z :=
  match values with
  | [] => Panic "index out of range"
  | v :: values' => Ret (foldl (fun max v => if max <? v then v else max) v values')
  end.

(** What the trigger works on: the server, its shelf, and the queue of the hub. *)
Record fire_state := mkFireState { fs_server : server; fs_shelf : Shelf payload; fs_hub : Hub.Hub payload }.

Definition on_server {A} (m : prog server A) : prog fire_state A := fun s =>
  let '(o, sv) := m (fs_server s) in (o, mkFireState sv (fs_shelf s) (fs_hub s)).
(** An error is logged and ends the call: [None]. *)
Definition or_log {A} (m : prog fire_state A) : prog fire_state (option A) := fun s =>
  match m s with
  | (Ret a, s') => (Ret (Some a), s')
  | (Fail _, s') => (Ret None, s')
  | (Fatal msg, s') => (Fatal msg, s')
  | (Panic msg, s') => (Panic msg, s')
  end.
Definition store (tbk : TimeBucketKey) (data : payload) (deadline : Time) : prog fire_state unit := fun s =>
  (Ret tt, mkFireState (fs_server s) (Store (Some tbk) data deadline (fs_shelf s)) (fs_hub s)).
Definition push (tbk : TimeBucketKey) (data : payload) : prog fire_state unit := fun s =>
  (Ret tt, mkFireState (fs_server s) (fs_shelf s) (Hub.Push tbk data (fs_hub s))).

Section fire.
Context `{L : StorageLibs} `{R : MapRange} (tz local : Location) (nasdaq : Calendar).
Context (EnableLastKnown DisableVariableCompression : bool) (CatalogDir : dloc) (now : Time).

Definition fire_query (tbk : TimeBucketKey) (stop : Time) : prog fire_state ColumnSeriesMap :=
  q ← lift (AddTargetKey tbk (NewQuery tz CatalogDir));
  let q := SetRowLimit LAST 1 (SetEnd tz (Unix stop) q) in
  on_server (plan_and_read tz local EnableLastKnown DisableVariableCompression q).

(** When the candle of a row is complete. *)
Definition deadline_of (tr : StreamTrigger) (tf : Timeframe) (stop : Time) : outcome (option Time) :=
  match CandleDurationFromString (tf_String tf) with
  | timeWindow =>
      if (24 * Hour <=? tf_Duration tf) && EqualFold (st_filter tr) "nasdaq" then MarketClose nasdaq stop
      else match timeWindow with None => nil_pointer | Some cd => Ret (Some (cd_Ceil cd stop)) end
  end.

Definition send_row (tr : StreamTrigger) (tf : Timeframe) (tbk : TimeBucketKey) (stop : Time) (cs : ColumnSeries) :
    prog fire_state unit :=
  if Minute <? tf_Duration tf then
    deadline ← lift (deadline_of tr tf stop);
    match deadline with
    | Some deadline =>
        if time_After deadline now then data ← lift (ColumnSeriesForPayload cs); store tbk data deadline else mret tt
    | None => mret tt
    end
  else data ← lift (ColumnSeriesForPayload cs); push tbk data.

Definition Fire (tr : StreamTrigger) (keyPath : string) (records : list record) : prog fire_state unit :=
  indexes ← lift (record_indexes records);
  tail ← lift (maxInt64 indexes);
  let elements := Split keyPath "/" in
  let tbkString := Join (take (length elements - 1) elements) "/" in
  match elements !! 1%nat, last elements with
  | Some tfName, Some fileName =>
      let year := file_year fileName in
      let tbk := NewTimeBucketKey tbkString [] in
      match NewTimeframe (ArgString tfName) with
      | None => lift nil_pointer
      | Some tf =>
          let stop := IndexToTime tz tail (tf_Duration tf) year in
          csm ← or_log (fire_query tbk stop);
          match csm with
          | None => mret tt
          | Some csm =>
              match csm !! tbk with
              | None => mret tt
              | Some cs => n ← lift (cs_Len cs); if (n =? 0)%nat then mret tt else send_row tr tf tbk stop cs
              end
          end
      end
  | _, _ => lift (Panic "index out of range")
  end.

(** What a run leaves of the shelf and of the queue. *)
Definition quiet {A} (m : prog fire_state A) : Prop :=
  forall s, fs_shelf (snd (m s)) = fs_shelf s /\ fs_hub (snd (m s)) = fs_hub s.

Lemma quiet_lift {A} (o : outcome A) : quiet (lift o).
Proof. done. Qed.
Lemma quiet_mret {A} (a : A) : quiet (mret a).
Proof. done. Qed.
Lemma quiet_bind {A B} (m : prog fire_state A) (k : A -> prog fire_state B) :
  quiet m -> (forall a, quiet (k a)) -> quiet (m ≫= k).
Proof.
  intros Hm Hk s. destruct (Hm s) as [H1 H2]. unfold mbind, prog_bind. destruct (m s) as [[a| | |] s1]; cbn in *; try done.
  destruct (Hk a s1) as [H3 H4]. by rewrite H3, H4.
Qed.
Lemma quiet_or_log {A} (m : prog fire_state A) : quiet m -> quiet (or_log m).
Proof. intros Hm s. destruct (Hm s) as [H1 H2]. unfold or_log. by destruct (m s) as [[a| | |] s1]. Qed.
Lemma quiet_on_server {A} (m : prog server A) : quiet (on_server m).
Proof. intros s. unfold on_server. by destruct (m (fs_server s)). Qed.

(** With the filter of the NASDAQ no candle of a day is streamed. Whatever
    is written to a bucket whose timeframe is a day or longer, the trigger puts
    nothing on its shelf and pushes nothing: the deadline is to be the close of
    the market, and the calendar gives none. *)
Lemma nasdaq_days_not_streamed (zone : Location) (tr : StreamTrigger) (keyPath tfName : string) (tf : Timeframe)
    (records : list record) :
  cal_tz nasdaq = Some zone -> EqualFold (st_filter tr) "nasdaq" = true ->
  Split keyPath "/" !! 1%nat = Some tfName -> NewTimeframe (ArgString tfName) = Some tf -> 24 * Hour <= tf_Duration tf ->
  quiet (Fire tr keyPath records).
Proof.
  intros Hz Hf Hk Htf Hd. unfold Fire. rewrite Hk, Htf.
  repeat first [apply quiet_bind; [apply quiet_lift|intros ?]].
  destruct (last _); [|apply quiet_lift].
  apply quiet_bind; [apply quiet_or_log, quiet_bind; [apply quiet_lift|intros; apply quiet_on_server]|].
  intros [csm|]; [|apply quiet_mret]. destruct (csm !! _) as [cs|]; [|apply quiet_mret].
  apply quiet_bind; [apply quiet_lift|]. intros [|n]; [apply quiet_mret|]. cbn [Nat.eqb]. unfold send_row.
  assert (Hmin : Minute < 24 * Hour) by (vm_compute; reflexivity).
  assert (Minute <? tf_Duration tf = true) as -> by (apply Z.ltb_lt; lia).
  unfold deadline_of. rewrite Hf, (proj2 (Z.leb_le _ _) Hd). cbn [andb].
  rewrite (MarketClose_nil nasdaq _ zone Hz). by destruct (CandleDurationFromString (tf_String tf)).
Qed.
End fire.

Lemma nasdaq_days_not_streamed_witness :
  exists tf, NewTimeframe (ArgString "1D") = Some tf /\
  forall (L : StorageLibs) (s : fire_state),
    fs_shelf (snd (Fire (R := list_range) UTC UTC nasdaq false false 0%nat (at_second 0) (NewTrigger "nasdaq")
                     "AAPL/1D/OHLCV/2018.bin" [le_bytes 8 20] s)) = fs_shelf s.
Proof.
  eexists. split; [vm_compute; reflexivity|]. intros L s.
  refine (proj1 (nasdaq_days_not_streamed (R := list_range) UTC UTC nasdaq false false 0%nat (at_second 0) winter (NewTrigger "nasdaq")
    "AAPL/1D/OHLCV/2018.bin" "1D" _ [le_bytes 8 20] _ _ _ _ _ s)).
  - vm_compute. reflexivity.
  - vm_compute. reflexivity.
  - vm_compute. reflexivity.
  - vm_compute. reflexivity.
  - vm_compute. discriminate.
Defined.
End StreamTrigger.
