(* ===== verification/Integrity.v ===== *)
(** * The integrity tool (cmd/tool/integrity/main.go)

    Checksums of the header and of equal parts of a bucket file, and the fix of
    a known error in headers.  The tool's globals are a state; [init] has set
    them for the default number of parts, before the flags are parsed. *)

From S2P Require Export Metadata Planner ColumnSeries.
From S2P Require Import GoStrings RowSeries.

#[local] Open Scope string_scope.
#[local] Open Scope Z_scope.

Definition defaultNumChunksPerFile : Z := 12.
Definition num_slots : nat := Z.to_nat (defaultNumChunksPerFile + 1).

Record sums := mkSums {
  cksums : list Z;
  filechunks : list string;
  readBuffers : list (list byte);  (* nil is the empty list *)
  rewritten : list (string * file);  (* files whose header was written again *)
}.

Definition chunkNames : list string :=
  ["Hdr"; "Jan"; "Feb"; "Mar"; "Apr"; "May"; "Jun"; "Jul"; "Aug"; "Sep"; "Oct"; "Nov"; "Dec"].
Definition init_sums : sums := mkSums (repeat 0 num_slots) (repeat "" num_slots) (repeat [] num_slots) [].

(** The sum of the words of a buffer, wrapped. *)
Definition bufferSum (buffer : list byte) : Z :=
  let data := col_elems (SwapSliceByte buffer KInt64) in
  foldl (fun sum w => int64 (sum + ToInt64 w)) 0 (take (length buffer / 8) data).

Section integrity.
Context (rootDirPath : string) (numChunksPerFile yearStart yearEnd monthStart monthEnd : Z) (fixHeaders : bool).

(** INT32 columns of what should be FLOAT32; the header is written in any
    case. *)
Definition fixKnownHeaderProblems (buffer : list byte) (filePath : string) (f : file) : outcome file :=
  let fs := <[filePath := f]> (∅ : files) in
  let! tbinfo := NewTimeBucketInfoFromHeader buffer filePath in
  fst ((types ← GetElementTypes fs;
        (if ElementsEqual types [INT32; INT32; INT32; INT32] then
           fun s => match SetElementTypes [FLOAT32; FLOAT32; FLOAT32; FLOAT32] s with
                    | (Fail _, s') => (Ret tt, s')
                    | r => r
                    end
         else mret tt);;
        WriteHeader fs 0 f) tbinfo).

Definition processChunk (myChunk : Z) (offset bufferSize : Z) (filename path : string) (f : file) (st : sums) : outcome sums :=
  match readBuffers st !! Z.to_nat myChunk with
  | None => Panic "index out of range"
  | Some old =>
      if (bufferSize <? 0) || (Z.of_nat (length old) <? bufferSize) then Panic "slice bounds out of range"
      else
        let '(bs, err) := ReadAt offset (Z.to_nat bufferSize) f in
        match err with
        | Some (ErrMsg msg) => Fatal ("Error reading " +:+ path +:+ ": " +:+ msg)
        | _ =>
            let nread := Z.of_nat (length bs) in
            if nread =? 0 then Fatal ("Short read " +:+ path)
            else
              let sumRange := AlignedSize nread in
              let buffer := fill (Z.to_nat sumRange) bs in
              let whole := (buffer ++ drop (length buffer) old)%list in
              let st' := mkSums (<[Z.to_nat myChunk := bufferSum buffer]> (cksums st))
                                (<[Z.to_nat myChunk := filename]> (filechunks st))
                                (<[Z.to_nat myChunk := whole]> (readBuffers st)) (rewritten st) in
              if fixHeaders && (myChunk =? 0) then
                let! f' := fixKnownHeaderProblems (take (Z.to_nat bufferSize) whole) path f in
                Ret (mkSums (cksums st') (filechunks st') (readBuffers st') (rewritten st' ++ [(path, f')]))
              else Ret st'
        end
  end.

(** The part of a number: the header, or one of the equal parts behind it. *)
Definition chunk_bounds (chunkSize chunkNum : Z) : Z * Z :=
  if chunkNum =? 0 then (0, Headersize) else ((chunkNum - 1) * chunkSize + Headersize, chunkSize).

Fixpoint chunk_loop (fuel : nat) (chunkNum chunkSize : Z) (filename path : string) (f : file) (st : sums) : outcome sums :=
  match fuel with
  | O => Panic "out of fuel"
  | S fuel' =>
      if numChunksPerFile <? chunkNum then Ret st
      else if negb (chunkNum =? 0) && (monthEnd <? chunkNum) then Ret st
      else
        let chunkNum := if negb (chunkNum =? 0) && (chunkNum <? monthStart) then monthStart else chunkNum in
        let '(offset, bufferSize) := chunk_bounds chunkSize chunkNum in
        let! st := processChunk chunkNum offset bufferSize filename path f st in
        chunk_loop fuel' (chunkNum + 1) chunkSize filename path f st
  end.

(** Buffers that are too short are made anew; the sums start from zero. *)
Definition prepare (allocationSize : Z) (st : sums) : sums :=
  mkSums (map (fun _ => 0) (cksums st)) (filechunks st)
    (map (fun b => if Z.of_nat (length b) <? allocationSize then repeat x00 (Z.to_nat allocationSize) else b) (readBuffers st))
    (rewritten st).

Definition chunk_size (size : Z) : outcome Z :=
  if numChunksPerFile =? 0 then Panic "integer divide by zero"
  else Ret (AlignedSize (Z.quot size numChunksPerFile + Z.rem size numChunksPerFile)).

(** A path of the walk: [None] is a directory.  The sums are printed behind. *)
Definition cksumDataFiles (filePath : string) (f : option file) (st : sums) : outcome sums :=
  match f with
  | None => Fail (ErrMsg (filePath +:+ " is not a file"))
  | Some f =>
      let checkFile := default "" (filepath_Rel rootDirPath filePath) in
      if decide (filepath_Ext checkFile = ".bin") then
        let checkFile := String.substring 0 (String.length checkFile - 4) checkFile in
        let year := fst (Atoi (filepath_Base checkFile)) in
        if (year <? yearStart) || (yearEnd <? year) then Fail (ErrMsg "Incorrect start or end dates")
        else
          let! chunkSize := chunk_size (Z.of_nat (length f) - Headersize) in
          chunk_loop (S (S (Z.to_nat numChunksPerFile))) 0 chunkSize checkFile filePath f (prepare (Z.max chunkSize Headersize) st)
      else Ret st
  end.

(** What is printed of the sums. *)
Definition printed (st : sums) : list (string * Z) :=
  zip chunkNames (map (fun sum => Z.rem (if sum <? 0 then int64 (- sum) else sum) 10000) (cksums st)).

(** [filepath.Walk]: the root is visited before what it holds, and an error of
    a visit ends the walk. *)
Inductive tree := File (f : file) | Dir (entries : list (string * tree)).

Fixpoint walk (path : string) (t : tree) (st : sums) : outcome sums :=
  match t with
  | File f => cksumDataFiles path (Some f) st
  | Dir entries =>
      let! st := cksumDataFiles path None st in
      (fix go l st := match l with
                      | [] => Ret st
                      | (name, t') :: l' => let! st := walk (filepath_Join path name) t' st in go l' st
                      end) entries st
  end.
Definition executeIntegrity (t : tree) : outcome sums := walk rootDirPath t init_sums.

(** The walk never gets into a directory. *)
Lemma executeIntegrity_directory entries : executeIntegrity (Dir entries) = Fail (ErrMsg (rootDirPath +:+ " is not a file")).
Proof. reflexivity. Qed.
End integrity.

(** ** The sums of a whole file *)

(** The words of some bytes added up. *)
Definition word_sum (b : list byte) : Z := foldr Z.add 0 (map ToInt64 (chunks 8 b)).

Lemma int64_add_l a b : int64 (int64 a + b) = int64 (a + b).
Proof. apply wrapS_add_l. lia. Qed.
Lemma int64_add_r a b : int64 (a + int64 b) = int64 (a + b).
Proof. rewrite (Z.add_comm a), int64_add_l. f_equal. lia. Qed.

Lemma length_chunks {A} n (l : list A) : (0 < n)%nat -> length (chunks n l) = (length l / n)%nat.
Proof.
  intros Hn. induction l as [l IH] using (induction_ltof1 _ (@length A)).
  destruct (decide (n <= length l)%nat) as [Hl|Hl].
  - rewrite chunks_step by done. cbn. rewrite IH by (unfold ltof; rewrite length_drop; lia).
    rewrite length_drop. replace (length l) with (length l - n + 1 * n)%nat at 2 by lia. rewrite Nat.div_add by lia. lia.
  - rewrite chunks_short by lia. cbn. symmetry. apply Nat.div_small. lia.
Qed.

Lemma fold_words (ws : list (list byte)) s :
  int64 (foldl (fun sum w => int64 (sum + ToInt64 w)) s ws) = int64 (s + foldr Z.add 0 (map ToInt64 ws)).
Proof.
  revert s. induction ws as [|w ws IH]; intros s; cbn; [by rewrite Z.add_0_r|].
  rewrite IH, int64_add_l. f_equal. lia.
Qed.

Lemma fold_words_in (ws : list (list byte)) s : inS 64 s -> inS 64 (foldl (fun sum w => int64 (sum + ToInt64 w)) s ws).
Proof. revert s. induction ws as [|w ws IH]; intros s Hs; cbn; [done|]. apply IH, wrapS_range. lia. Qed.

Lemma bufferSum_words b : bufferSum b = int64 (word_sum b).
Proof.
  unfold bufferSum, SwapSliceByte. cbn [col_elems]. change (kind_size KInt64) with 8%nat.
  rewrite take_ge by (rewrite length_chunks by lia; lia).
  rewrite <- (wrapS_id 64 (foldl _ _ _)); [|lia|by apply fold_words_in]. unfold word_sum. apply fold_words.
Qed.

Lemma word_sum_app a b : (8 | Z.of_nat (length a)) -> word_sum (a ++ b) = word_sum a + word_sum b.
Proof.
  intros [k Hk]. unfold word_sum. rewrite chunks_app by (lia || (exists (Z.to_nat k); lia)).
  rewrite map_app. induction (map ToInt64 (chunks 8 a)) as [|x l IH]; cbn; [done|]. rewrite IH. lia.
Qed.

Definition padded (b : list byte) : list byte := fill (Z.to_nat (AlignedSize (Z.of_nat (length b)))) b.

Lemma padded_aligned b : (8 | Z.of_nat (length b)) -> padded b = b.
Proof.
  intros [k Hk]. unfold padded, fill, AlignedSize. rewrite Z.rem_mod_nonneg by lia. rewrite Hk, Z.mod_mul by lia. cbn.
  replace (Z.to_nat (k * 8) - length b)%nat with 0%nat by lia. by rewrite app_nil_r.
Qed.

Lemma padded_app a b : (8 | Z.of_nat (length a)) -> padded (a ++ b) = (a ++ padded b)%list.
Proof.
  intros [k Hk]. unfold padded, fill, AlignedSize. rewrite !Z.rem_mod_nonneg by lia. rewrite length_app, Nat2Z.inj_add, Hk.
  rewrite Z.add_comm, Z.mod_add by lia. rewrite <- app_assoc. do 3 f_equal. destruct (_ mod 8 =? 0); lia.
Qed.

(** The part of a number, as bytes. *)
Definition piece (chunkSize : Z) (f : file) (i : nat) : list byte :=
  let '(offset, size) := chunk_bounds chunkSize (Z.of_nat i) in take (Z.to_nat size) (drop (Z.to_nat offset) f).

Lemma pieces_concat c (f : file) (n k : nat) : 0 <= c -> (k <= n)%nat ->
  concat (map (piece c f) (seq (S k) (n - k))) = take ((n - k) * Z.to_nat c) (drop (k * Z.to_nat c + Z.to_nat Headersize) f).
Proof.
  intros Hc. remember (n - k)%nat as m eqn:Hm. revert k Hm. induction m as [|m IH]; intros k Hm Hk; [done|].
  cbn [seq map concat]. rewrite (IH (S k)) by lia. unfold piece at 1, chunk_bounds.
  rewrite (proj2 (Z.eqb_neq _ _)) by lia.
  replace (Z.to_nat ((Z.of_nat (S k) - 1) * c + Headersize)) with (k * Z.to_nat c + Z.to_nat Headersize)%nat by (unfold Headersize; nia).
  replace (S m * Z.to_nat c)%nat with (Z.to_nat c + m * Z.to_nat c)%nat by lia.
  rewrite <- take_take_drop, drop_drop. f_equal. f_equal. f_equal. lia.
Qed.

Lemma eof_match {A} (P : Prop) `{Decision P} (g : string -> A) (y : A) :
  match (if decide P then Some EOF else None) with Some (ErrMsg m) => g m | _ => y end = y.
Proof. by destruct (decide P). Qed.

Section loop.
Context (rootDirPath : string) (n : nat) (yearStart yearEnd monthStart monthEnd : Z) (filename path : string) (f : file) (c : Z).
Context (Hn : (0 < n)%nat) (Hslots : (n < num_slots)%nat) (Hms : monthStart <= 1) (Hme : Z.of_nat n <= monthEnd).
Context (Hc0 : 0 < c) (Hc8 : (8 | c)) (Hlast : Headersize + (Z.of_nat n - 1) * c < Z.of_nat (length f)).

Record buffers_ok (st : sums) : Prop := {
  bo_sums : length (cksums st) = num_slots;
  bo_count : length (readBuffers st) = num_slots;
  bo_size : Forall (fun b => Z.max c Headersize <= Z.of_nat (length b)) (readBuffers st);
}.

Definition piece_sum (i : nat) : Z := bufferSum (padded (piece c f i)).

Lemma bounds_ok i : (i <= n)%nat ->
  let '(offset, size) := chunk_bounds c (Z.of_nat i) in
  0 <= offset < Z.of_nat (length f) /\ 0 < size <= Z.max c Headersize /\ (8 | size).
Proof.
  intros Hi. unfold chunk_bounds. destruct (Z.of_nat i =? 0) eqn:Hz.
  - unfold Headersize in *. split_and!; try nia. by exists 4628.
  - split_and!; try (unfold Headersize in *; nia). done.
Qed.

Lemma aligned_le k size : 0 <= k <= size -> (8 | size) -> AlignedSize k <= size.
Proof.
  intros [Hk Hle] [m ->]. unfold AlignedSize. rewrite Z.rem_mod_nonneg by lia.
  pose proof (Z.div_mod k 8 ltac:(lia)). pose proof (Z.mod_pos_bound k 8 ltac:(lia)). destruct (k mod 8 =? 0) eqn:He; [lia|].
  assert (k / 8 < m) by nia. lia.
Qed.

Lemma processChunk_piece i st : (i <= n)%nat -> buffers_ok st ->
  exists st', (let '(offset, size) := chunk_bounds c (Z.of_nat i) in
               processChunk false (Z.of_nat i) offset size filename path f st) = Ret st' /\
    cksums st' = <[i := piece_sum i]> (cksums st) /\ buffers_ok st'.
Proof.
  intros Hi [Hs Hb Hf]. pose proof (bounds_ok i Hi) as Hbo. unfold piece_sum, piece. destruct (chunk_bounds c (Z.of_nat i)) as [offset size].
  destruct Hbo as (Ho & Hsz & H8). unfold processChunk. rewrite Nat2Z.id.
  destruct (lookup_lt_is_Some_2 (readBuffers st) i) as [old Hold]; [lia|]. rewrite Hold.
  rewrite Forall_forall in Hf. pose proof (Hf old (list_elem_of_lookup_2 _ _ _ Hold)) as Hlen.
  rewrite (proj2 (orb_false_iff _ _)) by lia. unfold ReadAt. rewrite (proj2 (Z.ltb_ge _ _)) by lia.
  fold (pread (Z.to_nat offset) (Z.to_nat size) f). set (bs := pread (Z.to_nat offset) (Z.to_nat size) f).
  assert (Hl : (0 < length bs <= Z.to_nat size)%nat) by (unfold bs, pread; rewrite length_take, length_drop; lia).
  rewrite eof_match. rewrite (proj2 (Z.eqb_neq _ _)) by lia. cbn [andb]. eexists. split; [reflexivity|]. cbn [cksums].
  change (fill (Z.to_nat (AlignedSize (Z.of_nat (length bs)))) bs) with (padded bs). split; [done|].
  assert (Hp : (length (padded bs) <= length old)%nat).
  { unfold padded, fill. rewrite length_app, length_replicate. pose proof (aligned_le (Z.of_nat (length bs)) size ltac:(lia) H8). lia. }
  split; cbn [cksums readBuffers]; rewrite ?length_insert; [done|done|].
  apply Forall_insert; [by apply Forall_forall|]. rewrite length_app, length_drop. lia.
Qed.

Lemma chunk_loop_pieces m : forall fuel i st, (i + m = S n)%nat -> (m < fuel)%nat -> buffers_ok st ->
  exists st', chunk_loop (Z.of_nat n) monthStart monthEnd false fuel (Z.of_nat i) c filename path f st = Ret st' /\
    cksums st' = (take i (cksums st) ++ map piece_sum (seq i m) ++ drop (S n) (cksums st))%list.
Proof.
  induction m as [|m IH]; intros fuel i st Hi Hf Hst; (destruct fuel as [|fuel]; [lia|]); cbn [chunk_loop].
  - rewrite (proj2 (Z.ltb_lt _ _)) by lia. eexists. split; [done|]. cbn. by replace i with (S n) by lia; rewrite take_drop.
  - rewrite (proj2 (Z.ltb_ge (Z.of_nat n) _)) by lia.
    replace (negb (Z.of_nat i =? 0) && (monthEnd <? Z.of_nat i)) with false by (destruct (Z.of_nat i =? 0) eqn:?; lia).
    replace (if negb (Z.of_nat i =? 0) && (Z.of_nat i <? monthStart) then monthStart else Z.of_nat i) with (Z.of_nat i).
    2:{ destruct (Z.of_nat i =? 0) eqn:?; cbn; [done|]. destruct (Z.of_nat i <? monthStart) eqn:?; lia. }
    destruct (processChunk_piece i st) as (st1 & Hp & Hc & Hok); [lia|done|].
    destruct (chunk_bounds c (Z.of_nat i)) as [offset size]. rewrite Hp. cbn [outcome_bind].
    replace (Z.of_nat i + 1) with (Z.of_nat (S i)) by lia.
    destruct (IH fuel (S i) st1 ltac:(lia) ltac:(lia) Hok) as (st' & Hl & Hs). exists st'. split; [done|].
    rewrite Hs, Hc. pose proof (bo_sums _ Hst) as Hlen. unfold num_slots in *.
    rewrite drop_insert_lt by lia. cbn [seq map].
    rewrite (take_S_r _ _ (piece_sum i)) by (apply list_lookup_insert_eq; lia).
    rewrite take_insert_ge by lia. by rewrite <- app_assoc.
Qed.

Lemma piece_aligned i : (i < n)%nat -> (8 | Z.of_nat (length (piece c f i))).
Proof.
  intros Hi. unfold piece, chunk_bounds. destruct (Z.of_nat i =? 0) eqn:Hz; rewrite length_take, length_drop.
  - exists 4628. unfold Headersize in *. nia.
  - rewrite Nat.min_l by (unfold Headersize in *; nia). by rewrite Z2Nat.id by lia.
Qed.
End loop.

(** All the parts but the last are made of whole words. *)
Fixpoint aligned_but_last (ps : list (list byte)) : Prop :=
  match ps with
  | [] | [_] => True
  | p :: ps' => (8 | Z.of_nat (length p)) /\ aligned_but_last ps'
  end.

Lemma aligned_but_last_seq (g : nat -> list byte) m : forall k,
  (forall i, (k <= i)%nat -> (S i < k + m)%nat -> (8 | Z.of_nat (length (g i)))) -> aligned_but_last (map g (seq k m)).
Proof.
  induction m as [|m IH]; intros k H; [done|]. cbn. destruct m as [|m]; [done|].
  split; [apply H; lia|]. apply (IH (S k)). intros i Hi Hm. apply H; lia.
Qed.

Lemma parts_sum ps : aligned_but_last ps ->
  int64 (foldr Z.add 0 (map (fun p => bufferSum (padded p)) ps)) = int64 (word_sum (padded (concat ps))).
Proof.
  induction ps as [|p ps IH]; [done|]. intros H. cbn [map foldr concat]. destruct ps as [|q ps].
  - cbn [map foldr concat]. by rewrite app_nil_r, bufferSum_words, int64_add_l, Z.add_0_r.
  - destruct H as [Hp H]. rewrite <- int64_add_r, (IH H), int64_add_r.
    rewrite (padded_aligned p Hp), bufferSum_words, int64_add_l, (padded_app p _ Hp), (word_sum_app p _ Hp). done.
Qed.

Lemma pieces_whole c f n : 0 <= c -> Z.of_nat (length f) <= Headersize + Z.of_nat n * c ->
  concat (map (piece c f) (seq 0 (S n))) = f.
Proof.
  intros Hc Hl. cbn [seq map concat]. pose proof (pieces_concat c f n 0 Hc ltac:(lia)) as Hp. rewrite Nat.sub_0_r in Hp.
  rewrite Hp. cbn [Nat.mul Nat.add]. change (piece c f 0) with (take (Z.to_nat Headersize) f).
  rewrite (take_ge (drop _ _)); [by rewrite take_drop|]. rewrite length_drop. nia.
Qed.

(** C22: The checksums of a file cover it. Of a bucket file whose name is a year
    within the range, with up to twelve parts of which none begins behind the
    end, and no months left out: the checksum of the header and of every part
    are the sums of their words, and together they are the sum of the words of
    the file, each counted once, with the end filled up with zeros. *)
Theorem checksums_cover_file (rootDirPath path : string) (n : nat) (yearStart yearEnd monthStart monthEnd c : Z) (f : file) (st : sums) :
  let checkFile := default "" (filepath_Rel rootDirPath path) in
  let year := fst (Atoi (filepath_Base (String.substring 0 (String.length checkFile - 4) checkFile))) in
  let size := Z.of_nat (length f) - Headersize in
  filepath_Ext checkFile = ".bin" -> yearStart <= year <= yearEnd -> (0 < n < num_slots)%nat ->
  monthStart <= 1 -> Z.of_nat n <= monthEnd -> length (cksums st) = num_slots -> length (readBuffers st) = num_slots ->
  chunk_size (Z.of_nat n) size = Ret c -> 0 < size -> (Z.of_nat n - 1) * c < size ->
  exists st', cksumDataFiles rootDirPath (Z.of_nat n) yearStart yearEnd monthStart monthEnd false path (Some f) st = Ret st' /\
    (forall i, (i <= n)%nat -> cksums st' !! i = Some (bufferSum (padded (piece c f i)))) /\
    int64 (foldr Z.add 0 (take (S n) (cksums st'))) = bufferSum (padded f).
Proof.
  intros checkFile year size Hext Hyear Hn Hms Hme Hl1 Hl2 Hcs Hsize Hlast.
  assert (Hc : 0 < c /\ (8 | c) /\ size <= Z.of_nat n * c).
  { unfold chunk_size in Hcs. rewrite (proj2 (Z.eqb_neq _ _)) in Hcs by lia. injection Hcs as <-.
    rewrite Z.quot_div_nonneg, Z.rem_mod_nonneg by lia. pose proof (Z.div_mod size (Z.of_nat n) ltac:(lia)).
    pose proof (Z.mod_pos_bound size (Z.of_nat n) ltac:(lia)). pose proof (Z.div_pos size (Z.of_nat n) ltac:(lia) ltac:(lia)).
    destruct (AlignedSize_ge (size / Z.of_nat n + size mod Z.of_nat n)) as [? ?]; [lia|]. split_and!; [nia|done|nia]. }
  destruct Hc as (Hc0 & Hc8 & Hcn).
  destruct (chunk_loop_pieces n monthStart monthEnd
    (String.substring 0 (String.length checkFile - 4) checkFile) path f c ltac:(lia) ltac:(lia) Hms Hme Hc0 Hc8 ltac:(lia)
    (S n) (S (S n)) 0 (prepare (Z.max c Headersize) st) ltac:(lia) ltac:(lia)) as (st' & Hrun & Hst').
  { split; cbn; rewrite ?length_map; [done|done|]. apply Forall_map, Forall_forall. intros b _.
    destruct (_ <? _) eqn:Hb; [rewrite repeat_length|]; lia. }
  rewrite take_0 in Hst'. change ([] ++ ?l)%list with l in Hst'. exists st'. split; [|split].
  - unfold cksumDataFiles. fold checkFile. rewrite decide_True by done. fold year. rewrite (proj2 (orb_false_iff _ _)) by lia.
    fold size. rewrite Hcs. cbn [outcome_bind]. by rewrite Nat2Z.id.
  - intros i Hi. rewrite Hst', lookup_app_l by (rewrite length_map, length_seq; lia).
    change (map ?g ?l) with (g <$> l). rewrite list_lookup_fmap, lookup_seq_lt by lia. done.
  - rewrite Hst', take_app_length' by (by rewrite length_map, length_seq).
    rewrite <- (map_map (piece c f) (fun p => bufferSum (padded p))), parts_sum.
    + rewrite pieces_whole by lia. by rewrite bufferSum_words.
    + apply aligned_but_last_seq. intros i _ Hi. apply (piece_aligned n); lia || done.
Qed.

Definition small_file : file := (repeat x00 (Z.to_nat Headersize) ++ le_bytes 8 5 ++ le_bytes 8 6 ++ le_bytes 8 7)%list.

Lemma checksums_cover_file_witness :
  exists st', cksumDataFiles "/r" 2 0 10000 0 10000 false "/r/A/2018.bin" (Some small_file) init_sums = Ret st' /\
    cksums st' !! 2%nat = Some 7 /\ int64 (foldr Z.add 0 (take 3 (cksums st'))) = 18.
Proof.
  assert (Hlen : Z.of_nat (length small_file) = Headersize + 24) by (vm_compute; reflexivity).
  destruct (checksums_cover_file "/r" "/r/A/2018.bin" 2 0 10000 0 10000 16 small_file init_sums) as (st' & Hrun & Hs & Ht).
  - vm_compute. reflexivity.
  - vm_compute. split; discriminate.
  - unfold num_slots, defaultNumChunksPerFile. lia.
  - lia.
  - lia.
  - vm_compute. reflexivity.
  - vm_compute. reflexivity.
  - rewrite Hlen. vm_compute. reflexivity.
  - rewrite Hlen. lia.
  - rewrite Hlen. lia.
  - exists st'. split; [exact Hrun|]. rewrite (Hs 2%nat) by lia. rewrite Ht. split; vm_compute; reflexivity.
Defined.
