(* ===== verification/SqlRelation.v ===== *)
(** * Select relations (sqlparser/selectrelation.go, executablestatement.go)

    The relation of a SELECT statement: its select list, its table or
    subquery, its limit, and the predicates on single columns that its WHERE
    clause was turned into; and how it is materialized as a column series. *)

From S2P Require Export Query Tables.
From S2P Require Import GoStrings.

#[local] Open Scope string_scope.
#[local] Open Scope Z_scope.

(** ** Literals and references (executablestatement.go) *)

(** A value held by an interface is a number, a truth value or a string. *)
Definition string_val (s : string) : goval := mkVal KString (String.list_byte_of_string s).
Definition int64_val (z : Z) : goval := mkVal KInt64 (le_bytes 8 z).
Definition bool_val (b : bool) : goval := mkVal KBool [if b then x01 else x00].

(** The type assertion [v.(string)]. *)
Definition as_string (v : option goval) : outcome string :=
  match v with
  | Some v => if decide (v_kind v = KString) then Ret (String.string_of_list_byte (v_image v)) else Panic "interface conversion"
  | None => Panic "interface conversion"
  end.

Record Literal := NewLiteral { lit_Value : option goval; lit_Type : Z }.

Inductive AliasedIdentifier : Set :=
  | mkAI (IsPrimary IsAliased IsFunctionCall : bool) (PrimaryName Alias : string) (FunctionCall : option FunctionCallReference)
with FunctionCallReference : Set :=
  | mkFC (Name : string) (IsAsterisk : bool) (Args : list fc_arg)
with fc_arg : Set :=
  | ArgId (a : AliasedIdentifier)
  | ArgLit (l : Literal).

Definition ai_IsPrimary (a : AliasedIdentifier) : bool := let '(mkAI p _ _ _ _ _) := a in p.
Definition ai_IsAliased (a : AliasedIdentifier) : bool := let '(mkAI _ b _ _ _ _) := a in b.
Definition ai_IsFunctionCall (a : AliasedIdentifier) : bool := let '(mkAI _ _ f _ _ _) := a in f.
Definition ai_PrimaryName (a : AliasedIdentifier) : string := let '(mkAI _ _ _ n _ _) := a in n.
Definition ai_Alias (a : AliasedIdentifier) : string := let '(mkAI _ _ _ _ n _) := a in n.
Definition ai_FunctionCall (a : AliasedIdentifier) : option FunctionCallReference := let '(mkAI _ _ _ _ _ f) := a in f.

Definition fc_Name (fc : FunctionCallReference) : string := let '(mkFC n _ _) := fc in n.
Definition fc_IsAsterisk (fc : FunctionCallReference) : bool := let '(mkFC _ a _) := fc in a.
Definition fc_Args (fc : FunctionCallReference) : list fc_arg := let '(mkFC _ _ args) := fc in args.

Definition NewAliasedIdentifier (name : option string) : AliasedIdentifier :=
  match name with
  | Some name => mkAI true false false name "" None
  | None => mkAI false false false "" "" None
  end.
Definition AddFunctionCall (fc : FunctionCallReference) (a : AliasedIdentifier) : AliasedIdentifier :=
  mkAI (ai_IsPrimary a) (ai_IsAliased a) true (ai_PrimaryName a) (ai_Alias a) (Some fc).
Definition AddAlias (alias : string) (a : AliasedIdentifier) : AliasedIdentifier :=
  mkAI (ai_IsPrimary a) true (ai_IsFunctionCall a) (ai_PrimaryName a) alias (ai_FunctionCall a).
Definition ai_String (a : AliasedIdentifier) : string :=
  "Identifier: " +:+
  (if ai_IsPrimary a then "Primary Name: " +:+ ai_PrimaryName a +:+ " " else "Runtime Expression: ") +:+
  (if ai_IsAliased a then "Alias: " +:+ ai_Alias a +:+ " " else "").

Definition NewFunctionCallReference (name : string) (args : list fc_arg) : FunctionCallReference := mkFC name false args.
Definition GetIDs (fc : FunctionCallReference) : list string :=
  omap (fun arg => match arg with
                   | ArgId a => if ai_IsPrimary a then Some (ai_PrimaryName a) else None
                   | ArgLit _ => None
                   end) (fc_Args fc).
Definition GetLiterals (fc : FunctionCallReference) : list Literal :=
  omap (fun arg => match arg with ArgLit l => Some l | ArgId _ => None end) (fc_Args fc).

Record ColumnReference := mkColumnReference { cr_Value : AliasedIdentifier }.
Definition NewColumnReference (name : string) : ColumnReference := mkColumnReference (NewAliasedIdentifier (Some name)).
Definition cr_GetName (cr : ColumnReference) : string := ai_PrimaryName (cr_Value cr).
Definition cr_GetAlias (cr : ColumnReference) : string := ai_Alias (cr_Value cr).

(** ** Static predicates *)

Definition INLIST : Z := 2.
Definition MINBOUND : Z := 4.
Definition INCLUSIVEMIN : Z := 8.
Definition MAXBOUND : Z := 16.
Definition INCLUSIVEMAX : Z := 32.
Definition EQUALITY : Z := 64.
Definition LIKEPATTERN : Z := 128.

Definition sp_AddOption (option cat : Z) : Z := Z.lor cat option.
Definition sp_DelOption (option cat : Z) : Z := Z.land cat (uint16 (Z.lnot option)).
Definition sp_IsSet (checkOption : list Z) (cat : Z) : bool := forallb (fun co => Z.land cat co =? co) checkOption.
Definition sp_AnySet (checkOption : list Z) (cat : Z) : bool := existsb (fun co => Z.land cat co =? co) checkOption.

Record StaticPredicate := mkSP {
  sp_Column : ColumnReference;
  sp_inlist : list (option goval);
  sp_min : option goval;
  sp_max : option goval;
  sp_equal : option goval;
  sp_likePattern : string;
  sp_likeEsc : string;
  ContentsEnum : Z;
}.

Definition NewStaticPredicate (column : ColumnReference) : StaticPredicate := mkSP column [] None None None "" "" 0.
Definition sp_is (option : Z) (sp : StaticPredicate) : bool := sp_IsSet [option] (ContentsEnum sp).
Definition sp_option (option : Z) (sp : StaticPredicate) : StaticPredicate :=
  mkSP (sp_Column sp) (sp_inlist sp) (sp_min sp) (sp_max sp) (sp_equal sp) (sp_likePattern sp) (sp_likeEsc sp)
    (sp_AddOption option (ContentsEnum sp)).

(** The error of the comparison counts as no. *)
Definition IsFalse (sp : StaticPredicate) : bool :=
  match GenericComparison (sp_min sp) (sp_max sp) GT with Ret b => b | _ => false end.

Definition SetMin (newMin : option goval) (inclusive : bool) (sp : StaticPredicate) : StaticPredicate :=
  let sp := sp_option MINBOUND (mkSP (sp_Column sp) (sp_inlist sp) newMin (sp_max sp) (sp_equal sp) (sp_likePattern sp)
                                  (sp_likeEsc sp) (ContentsEnum sp)) in
  if inclusive then sp_option INCLUSIVEMIN sp else sp.
Definition SetMax (newMax : option goval) (inclusive : bool) (sp : StaticPredicate) : StaticPredicate :=
  let sp := sp_option MAXBOUND (mkSP (sp_Column sp) (sp_inlist sp) (sp_min sp) newMax (sp_equal sp) (sp_likePattern sp)
                                  (sp_likeEsc sp) (ContentsEnum sp)) in
  if inclusive then sp_option INCLUSIVEMAX sp else sp.
Definition SetEqual (newEQ : option goval) (sp : StaticPredicate) : StaticPredicate :=
  sp_option EQUALITY (mkSP (sp_Column sp) (sp_inlist sp) (sp_min sp) (sp_max sp) newEQ (sp_likePattern sp) (sp_likeEsc sp)
                        (ContentsEnum sp)).
Definition SetLike (pattern esc : string) (sp : StaticPredicate) : StaticPredicate :=
  sp_option LIKEPATTERN (mkSP (sp_Column sp) (sp_inlist sp) (sp_min sp) (sp_max sp) (sp_equal sp) pattern esc
                           (ContentsEnum sp)).
Definition SetInlist (inlist : list (option goval)) (sp : StaticPredicate) : StaticPredicate :=
  sp_option INLIST (mkSP (sp_Column sp) inlist (sp_min sp) (sp_max sp) (sp_equal sp) (sp_likePattern sp) (sp_likeEsc sp)
                      (ContentsEnum sp)).

(** A bound that is there already is replaced where the new value is not
    within it. The error leaves the predicate as it is. *)
Definition sp_AddComparison (op : Z) (value : option goval) (sp : StaticPredicate) : StaticPredicate * option goerr :=
  if op =? EQ then (SetEqual value sp, None)
  else if (op =? LT) || (op =? LTE) then
    match sp_max sp with
    | None => (SetMax value (op =? LTE) sp, None)
    | Some _ =>
        match GenericComparison value (sp_max sp) op with
        | Ret isWithin => (if isWithin then sp else SetMax value (op =? LTE) sp, None)
        | Fail e => (sp, Some e)
        | _ => (sp, None)
        end
    end
  else if (op =? GT) || (op =? GTE) then
    match sp_min sp with
    | None => (SetMin value (op =? GTE) sp, None)
    | Some _ =>
        match GenericComparison value (sp_min sp) op with
        | Ret isWithin => (if isWithin then sp else SetMin value (op =? GTE) sp, None)
        | Fail e => (sp, Some e)
        | _ => (sp, None)
        end
    end
  else (sp, None).

(** *** Groups *)

Abbreviation StaticPredicateGroup := (gmap string StaticPredicate).
Definition NewStaticPredicateGroup : StaticPredicateGroup := ∅.

(** The predicate of the column, which is made where there is none. *)
Definition spg_Add (column : ColumnReference) (spg : StaticPredicateGroup) : StaticPredicate * StaticPredicateGroup :=
  let name := cr_GetName column in
  match spg !! name with
  | Some sp => (sp, spg)
  | None => (NewStaticPredicate column, <[name := NewStaticPredicate column]> spg)
  end.

Definition spg_AddComparison (column : ColumnReference) (op : Z) (value : option goval) (spg : StaticPredicateGroup) :
    StaticPredicateGroup :=
  let '(sp, spg) := spg_Add column spg in <[cr_GetName column := fst (sp_AddComparison op value sp)]> spg.

(** The errors of the comparisons are dropped. *)
Definition merge_into (sp tgtSP : StaticPredicate) : StaticPredicate :=
  let compare op value sp := fst (sp_AddComparison op value sp) in
  let tgtSP :=
    if sp_is MINBOUND sp then
      let tgtSP := sp_option MINBOUND tgtSP in
      if sp_is INCLUSIVEMIN sp then compare GTE (sp_min sp) (sp_option INCLUSIVEMIN tgtSP) else compare GT (sp_min sp) tgtSP
    else tgtSP in
  let tgtSP :=
    if sp_is MAXBOUND sp then
      let tgtSP := sp_option MAXBOUND tgtSP in
      if sp_is INCLUSIVEMAX sp then compare LTE (sp_max sp) (sp_option INCLUSIVEMAX tgtSP) else compare LT (sp_max sp) tgtSP
    else tgtSP in
  let tgtSP := if sp_is EQUALITY sp then compare EQ (sp_equal sp) (sp_option EQUALITY tgtSP) else tgtSP in
  let tgtSP := if sp_is LIKEPATTERN sp then SetLike (sp_likePattern sp) (sp_likeEsc sp) (sp_option LIKEPATTERN tgtSP) else tgtSP in
  if sp_is INLIST sp then
    let tgtSP := sp_option INLIST tgtSP in
    mkSP (sp_Column tgtSP) (sp_inlist tgtSP ++ sp_inlist sp)%list (sp_min tgtSP) (sp_max tgtSP) (sp_equal tgtSP)
      (sp_likePattern tgtSP) (sp_likeEsc tgtSP) (ContentsEnum tgtSP)
  else tgtSP.

(** [IsOr] is not looked at. *)
Definition spg_Merge (sp : option StaticPredicate) (IsOr : bool) (spg : StaticPredicateGroup) : outcome StaticPredicateGroup :=
  match sp with
  | None => Fail (ErrMsg "Nil static predicate argumen")
  | Some sp =>
      let '(tgtSP, spg) := spg_Add (sp_Column sp) spg in
      Ret (<[cr_GetName (sp_Column sp) := merge_into sp tgtSP]> spg)
  end.

(** ** Predicates on a column

    Columns of the other types are not tested.  A bound that is no number is
    zero; for an integer column the bound is made an integer first. *)

Definition value_as_int64 (v : option goval) : outcome Z :=
  match v with Some v => GetValueAsInt64 v | None => Fail (ErrMsg "Not an int") end.
Definition value_as_float64 (v : option goval) : outcome float64 :=
  match v with Some v => GetValueAsFloat64 v | None => Fail (ErrMsg "Not a float") end.
Definition int_bound (k : Kind) (v : option goval) : Z :=
  match value_as_int64 v with Ret z => wrap_kind k z | _ => 0 end.
Definition float_bound (k : Kind) (v : option goval) : spec_float :=
  match value_as_float64 v with
  | Ret f => if decide (k = KFloat32) then round_to 24 128 f else f
  | _ => S754_zero false
  end.

(** Whether a value is to be removed. *)
Definition outside {A} (eqb ltb leb : A -> A -> bool) (bound : option goval -> A) (sp : StaticPredicate) (val : A) : bool :=
  (sp_is EQUALITY sp && negb (eqb val (bound (sp_equal sp)))) ||
  (sp_is MINBOUND sp &&
     (if sp_is INCLUSIVEMIN sp then ltb val (bound (sp_min sp)) else leb val (bound (sp_min sp)))) ||
  (sp_is MAXBOUND sp &&
     (if sp_is INCLUSIVEMAX sp then ltb (bound (sp_max sp)) val else leb (bound (sp_max sp)) val)).

Definition removes (sp : StaticPredicate) (k : Kind) (val : list byte) : bool :=
  match k with
  | KFloat32 | KFloat64 => outside SFeqb SFltb SFleb (float_bound k) sp (float_value k val)
  | KInt | KInt32 | KInt64 => outside Z.eqb Z.ltb Z.leb (int_bound k) sp (int_value k val)
  | _ => false
  end.

(** [removalBitmap[i] = true]; a column longer than the bitmap panics. *)
Definition mark_column (sp : StaticPredicate) (col : column) (bitmap : list bool) : outcome (list bool) :=
  let marks := map (removes sp (col_kind col)) (col_elems col) in
  if existsb id (drop (length bitmap) marks) then Panic "index out of range"
  else Ret (imap (fun i b => b || default false (marks !! i)) bitmap).

Fixpoint mark_columns (names : list string) (preds : StaticPredicateGroup) (cs : ColumnSeries) (bitmap : list bool) :
    outcome (list bool) :=
  match names with
  | [] => Ret bitmap
  | name :: names' =>
      match preds !! name, GetColumn name cs with
      | Some sp, Some col => let! bitmap := mark_column sp col bitmap in mark_columns names' preds cs bitmap
      | _, _ => mark_columns names' preds cs bitmap
      end
  end.

(** A series without rows is the whole answer, which the caller is told. *)
Definition evaluate_predicates (preds : StaticPredicateGroup) (cs : ColumnSeries) : outcome ColumnSeries :=
  let! totalLength := cs_Len cs in
  let! removalBitmap := mark_columns (orderedNames cs) preds cs (repeat false totalLength) in
  RestrictViaBitmap removalBitmap cs.

(** ** Select lists *)

(** The columns that the items of the select list need. *)
Definition keep_names (selectList : list AliasedIdentifier) : list string :=
  concat (map (fun id =>
    if ai_IsFunctionCall id then
      match ai_FunctionCall id with
      | Some fc =>
          if fc_IsAsterisk fc then ["Epoch"]
          else map (fun token => List.last (split_colons "" token) "") (GetIDs fc)
      | None => []
      end
    else if ai_IsPrimary id then [ai_PrimaryName id] else []) selectList).

(** Whether it validates, the missing names, the names to keep and those not
    needed. *)
Definition SourceValidator (sourceDSV : list DataShape) (selectList : list AliasedIdentifier) :
    outcome (bool * list string * list string * list string) :=
  match selectList with
  | [] => Ret (true, [], [], [])
  | _ =>
      let keepList := keep_names selectList in
      let sourceNames := GetNamesFromDSV sourceDSV in
      match NewAnySet keepList with
      | None => Fail (ErrMsg "Unable to build set for target")
      | targetNamesSet =>
          let! missingIDs := as_Subtract targetNamesSet sourceNames in
          match missingIDs with
          | _ :: _ => Ret (false, missingIDs, [], [])
          | [] =>
              let! projectionList := as_Subtract (NewAnySet sourceNames) keepList in
              Ret (true, [], keepList, projectionList)
          end
      end
  end.

(** ** The relation *)

Inductive SelectRelation :=
  | mkSelectRelation (Limit : Z) (SelectList : list AliasedIdentifier) (IsPrimary IsSelectAll : bool)
      (PrimaryTargetName : list string) (Subquery : option SelectRelation) (SetQuantifier : Z)
      (StaticPredicates : StaticPredicateGroup).

Definition NewSelectRelation : SelectRelation := mkSelectRelation 0 [] false false [] None 0 ∅.

Definition sql_key_category : string := "Symbol/Timeframe/AttributeGroup".

(** Predicates on the epoch become the range of the query. *)
Definition push_down_epoch (tz : Location) (preds : StaticPredicateGroup) (q : query) : outcome query :=
  match preds !! "Epoch" with
  | None => Ret q
  | Some sp =>
      let bound v := match value_as_int64 v with
                     | Fail _ => Fail (ErrMsg "Non date predicate found for Epoch")
                     | o => o
                     end in
      let! q := (if sp_is MINBOUND sp then
                   let! val := bound (sp_min sp) in
                   Ret (SetStart tz (if sp_is INCLUSIVEMIN sp then int64 (val + 1) else val) q)
                 else Ret q) in
      if sp_is MAXBOUND sp then
        let! val := bound (sp_max sp) in
        Ret (SetEnd tz (if sp_is INCLUSIVEMAX sp then int64 (val - 1) else val) q)
      else Ret q
  end.

(** The values of string literals without their quotes. *)
Fixpoint strip_literals (literals : list Literal) : outcome (list string) :=
  match literals with
  | [] => Ret []
  | lit :: literals' =>
      let! value := as_string (lit_Value lit) in
      let! value := (if (2 <=? String.length value)%nat then string_slice 1 (String.length value - 1) value
                     else Panic "slice bounds out of range") in
      let! rest := strip_literals literals' in
      Ret (value :: rest)
  end.

Section materialize.
Context `{L : StorageLibs} `{R : MapRange} `{G : Gonum} (tz local : Location).
Context (EnableLastKnown DisableVariableCompression : bool) (CatalogDir : dloc) (now : Z).

(** One function call of the select list on the rows. *)
Definition call_function (fc : FunctionCallReference) (input : ColumnSeries) : outcome ColumnSeries :=
  let aggName := fc_Name fc in
  match find_agg (ToLower aggName) with
  | None => Fail (ErrMsg ("No function in the UDA Registry named " +:+ aggName))
  | Some t =>
      let agg := agg_New (A := agg_carrier t) in
      let! '(argMap, err) :=
        (if fc_IsAsterisk fc
         then Ret (MapRequiredColumn "*" [mkShape "Epoch" INT64] (agg_ArgMap agg), None)
         else PrepareArguments (GetIDs fc) (agg_ArgMap agg)) in
      match err with
      | Some _ => Fail (ErrMsg ("Argument mapping error for " +:+ aggName))
      | None =>
          let initList := GetLiterals fc in
          if (length initList <? length (agg_InitArgs (A := agg_carrier t)))%nat then
            Fail (ErrMsg ("Not enough init arguments for " +:+ aggName))
          else
            let! initArgList := strip_literals initList in
            run_agg tz now aggName t (agg_set_ArgMap argMap agg) initArgList input
      end
  end.

(** The columns of the result, under the alias but for the epoch. *)
Definition add_results (a : AliasedIdentifier) (result selectListOutput : ColumnSeries) : ColumnSeries :=
  foldl (fun out name =>
    let outname := if bool_decide (name <> "Epoch") && ai_IsAliased a then ai_Alias a else name in
    snd (AddColumn outname (GetColumn name result) out)) selectListOutput (orderedNames result).

(** Every function call of the list; [None] where there is none. *)
Fixpoint select_functions (selectList : list AliasedIdentifier) (input : ColumnSeries) (out : option ColumnSeries) :
    outcome (option ColumnSeries) :=
  match selectList with
  | [] => Ret out
  | sl :: selectList' =>
      if ai_IsFunctionCall sl then
        match ai_FunctionCall sl with
        | None => nil_pointer
        | Some fc =>
            let! functionResult := call_function fc input in
            select_functions selectList' input (Some (add_results sl functionResult (default NewColumnSeries out)))
        end
      else select_functions selectList' input out
  end.

(** The columns of the functions with an epoch. *)
Definition functions_output (selectListOutput : ColumnSeries) : outcome ColumnSeries :=
  let! n := cs_Len selectListOutput in
  let out := match GetByName "Epoch" selectListOutput with
             | None => snd (AddColumn "Epoch" (Some (int64_column (repeat now n))) NewColumnSeries)
             | Some _ => NewColumnSeries
             end in
  Ret (foldl (fun out name => snd (AddColumn name (GetColumn name selectListOutput) out)) out (orderedNames selectListOutput)).

Fixpoint rename_aliases (selectList : list AliasedIdentifier) (cs : ColumnSeries) : outcome ColumnSeries :=
  match selectList with
  | [] => Ret cs
  | item :: selectList' =>
      if ai_IsAliased item then
        let! cs := Rename (ai_Alias item) (ai_PrimaryName item) cs in rename_aliases selectList' cs
      else rename_aliases selectList' cs
  end.

(** Functions, or projection and aliases; then the limit, whose error is not
    looked at. *)
Definition finish (limit : Z) (selectList : list AliasedIdentifier) (isSelectAll : bool) (keepList : list string)
    (output : ColumnSeries) : outcome ColumnSeries :=
  let! output :=
    (if isSelectAll : bool then Ret output
     else
       let! selectListOutput := select_functions selectList output None in
       match selectListOutput with
       | Some o => functions_output o
       | None => let! output := Project keepList output in rename_aliases selectList output
       end) in
  Ret (if limit =? 0 then output
       else match RestrictLength limit FIRST output with Ret o => o | _ => output end).

(** The rows of a table: its series, and whether it is to be returned at once. *)
Definition read_table (key : TimeBucketKey) (limit : Z) (selectList : list AliasedIdentifier) (isSelectAll : bool)
    (preds : StaticPredicateGroup) : prog server (ColumnSeries * bool) :=
  q ← lift (AddTargetKey key (NewQuery tz CatalogDir));
  q ← lift (push_down_epoch tz preds q);
  let hasPredicatesOrFunctions :=
    negb (bool_decide (preds = ∅)) || (negb isSelectAll && existsb ai_IsFunctionCall selectList) in
  let q := if negb hasPredicatesOrFunctions && negb (limit =? 0) then SetRowLimit FIRST limit q else q in
  csm ← plan_and_read tz local EnableLastKnown DisableVariableCompression q;
  if bool_decide (csm = ∅) then fail (ErrMsg "No results returned from query")
  else
    match csm !! key with
    | None => lift nil_pointer
    | Some cs =>
        n ← lift (cs_Len cs);
        if (n =? 0)%nat then mret (cs, true)
        else
          cs ← lift (evaluate_predicates preds cs);
          mret (cs, false)
    end.

(** The names the select list needs, checked against the source's. *)
Definition check_select (dsv : list DataShape) (selectList : list AliasedIdentifier) (isSelectAll : bool) :
    outcome (list string) :=
  if isSelectAll : bool then Ret []
  else
    let! '(valid, _, keepList, _) := SourceValidator (dsv ++ [mkShape "Epoch" INT64])%list selectList in
    if valid : bool then Ret keepList else Fail (ErrMsg "Query columns not found in source table").

Fixpoint Materialize (sr : SelectRelation) : prog server ColumnSeries :=
  let '(mkSelectRelation limit selectList isPrimary isSelectAll primaryTargetName subquery _ preds) := sr in
  input ← (if isPrimary : bool then mret None
           else match subquery with
                | None => lift nil_pointer
                | Some sub => cs ← Materialize sub; mret (Some cs)
                end);
  if bool_decide (map_Exists (fun _ sp => IsFalse sp = true) preds) then mret NewColumnSeries
  else
    match input with
    | Some cs =>
        keepList ← lift (check_select (cs_GetDataShapes cs) selectList isSelectAll);
        lift (finish limit selectList isSelectAll keepList cs)
    | None =>
        match primaryTargetName with
        | [] => fail (ErrMsg "Unable to retrieve table name")
        | table :: _ =>
            let key := NewTimeBucketKey table [sql_key_category] in
            dsv ← sv_on_reader (on_cat (cat_GetDataShapes CatalogDir key));
            keepList ← lift (check_select dsv selectList isSelectAll);
            '(cs, done) ← read_table key limit selectList isSelectAll preds;
            if done : bool then mret cs else lift (finish limit selectList isSelectAll keepList cs)
        end
    end.
End materialize.

(** *** Testing the predicates *)

(** Whether a predicate on one of the columns removes the [i]th row. *)
Definition row_removed (preds : StaticPredicateGroup) (names : list string) (val : string -> column) (i : nat) : bool :=
  existsb (fun name => match preds !! name with
                       | Some sp => default false (removes sp (col_kind (val name)) <$> col_elems (val name) !! i)
                       | None => false
                       end) names.

Lemma mark_column_map sp col n (f : nat -> bool) : col_len col = n ->
  mark_column sp col (map f (seq 0 n)) =
  Ret (map (fun i => f i || default false (removes sp (col_kind col) <$> col_elems col !! i)) (seq 0 n)).
Proof.
  intros Hl. unfold mark_column. rewrite length_map, length_seq.
  assert (length (map (removes sp (col_kind col)) (col_elems col)) = n) as Hm by (rewrite length_map; exact Hl).
  rewrite drop_ge by lia. cbn [existsb]. f_equal. apply list_eq. intros i. rewrite list_lookup_imap.
  change (map f (seq 0 n)) with (f <$> seq 0 n).
  change (map ?g (seq 0 n)) with (g <$> seq 0 n). rewrite !list_lookup_fmap.
  destruct (seq 0 n !! i) as [j|] eqn:Hj; [|done]. apply lookup_seq in Hj as [-> Hi]. cbn [fmap option_fmap option_map].
  by do 3 f_equal.
Qed.

Lemma mark_columns_map preds cs names n val : is_table cs names n val ->
  forall todo f, (forall name, name ∈ todo -> name ∈ names) ->
  mark_columns todo preds cs (map f (seq 0 n)) = Ret (map (fun i => f i || row_removed preds todo val i) (seq 0 n)).
Proof.
  intros H. induction todo as [|name todo IH]; intros f Hin.
  { cbn. f_equal. apply map_ext. intros i. by rewrite orb_false_r. }
  assert (Hin' : forall x, x ∈ todo -> x ∈ names) by (intros x Hx; apply Hin; by right).
  cbn [mark_columns row_removed existsb]. unfold GetColumn. rewrite (GetByName_table _ _ _ _ _ H) by (apply Hin; left).
  destruct (preds !! name) as [sp|]; [|by apply IH].
  rewrite (mark_column_map _ _ n) by (apply (it_len _ _ _ _ H), Hin; left). cbn [outcome_bind]. rewrite IH by done.
  f_equal. apply map_ext. intros i. by rewrite orb_assoc.
Qed.

Lemma evaluate_predicates_table preds cs names n val :
  is_table cs names n val -> names <> [] -> NoDup (map ToLower names) ->
  (forall name, name ∈ names -> col_kind (val name) ∈ numeric_kinds) ->
  let idx := List.filter (fun i => negb (row_removed preds names val i)) (seq 0 n) in
  exists cs', evaluate_predicates preds cs = Ret cs' /\ is_table cs' names (length idx) (fun name => pick_rows idx (val name)).
Proof.
  intros H Hne Hnd Hk idx. unfold evaluate_predicates. rewrite (cs_Len_table _ _ _ _ H Hne). cbn [outcome_bind].
  assert (repeat false n = map (fun _ => false) (seq 0 n)) as ->.
  { generalize 0%nat. clear. induction n as [|m IH]; intros k; [done|]. cbn. by rewrite <- IH. }
  rewrite (it_names _ _ _ _ H), (mark_columns_map _ _ _ _ _ H) by done. cbn [outcome_bind orb].
  apply (RestrictViaBitmap_table _ _ _ _ _ H Hnd Hk).
Qed.

(** ** What a SELECT gives *)

Definition select_columns (keep : list string) : list AliasedIdentifier := map (fun name => NewAliasedIdentifier (Some name)) keep.

Lemma keep_names_columns keep : keep_names (select_columns keep) = keep.
Proof. induction keep as [|name keep IH]; [done|]. change (name :: keep_names (select_columns keep) = name :: keep). by rewrite IH. Qed.

Lemma check_select_columns dsv keep : keep <> [] -> (forall name, name ∈ keep -> name ∈ (map ds_Name dsv ++ ["Epoch"])%list) ->
  check_select dsv (select_columns keep) false = Ret keep.
Proof.
  intros Hne Hin. unfold check_select, SourceValidator. destruct (select_columns keep) as [|a l] eqn:E; [by destruct keep|].
  rewrite <- E, keep_names_columns. clear a l E.
  set (names := GetNamesFromDSV (dsv ++ [mkShape "Epoch" INT64])%list).
  assert (Hnames : names <> []).
  { unfold names, GetNamesFromDSV. rewrite map_app. by destruct (map ds_Name dsv). }
  destruct (AnySet_operations keep names Hne Hnames) as [_ Hs1]. destruct (AnySet_operations names keep Hnames Hne) as [_ Hs2].
  destruct (NewAnySet keep) as [s|] eqn:Es; [|by destruct keep].
  rewrite Hs1. cbn [outcome_bind].
  rewrite (filter_none (fun e => e ∉ names) keep).
  2:{ apply Forall_forall. intros name Hname Hn. apply Hn. unfold names, GetNamesFromDSV. rewrite map_app.
      by apply Hin. }
  by rewrite Hs2.
Qed.

Section select.
Context `{R : MapRange} `{G : Gonum} (tz : Location) (now : Z).

Lemma select_functions_columns keep input : select_functions tz now (select_columns keep) input None = Ret None.
Proof. induction keep as [|name keep IH]; [done|]. exact IH. Qed.

Lemma rename_aliases_columns keep cs : rename_aliases (select_columns keep) cs = Ret cs.
Proof. induction keep as [|name keep IH]; [done|]. exact IH. Qed.
End select.

(** ** The reference reading of a WHERE clause *)

(** Whether a number is within what a predicate says of its column. The bounds
    are the literals as numbers of the column's type; of floats, that a number
    is not below a bound says that it is the bound or above it, but for NaN,
    which is within all bounds and equal to nothing. Columns of the other types
    are not restricted. *)
Definition satisfies (sp : StaticPredicate) (k : Kind) (val : list byte) : Prop :=
  match k with
  | KInt | KInt32 | KInt64 =>
      let x := int_value k val in
      let least := int_bound k (sp_min sp) in
      let most := int_bound k (sp_max sp) in
      (sp_is EQUALITY sp = true -> x = int_bound k (sp_equal sp)) /\
      (sp_is MINBOUND sp = true -> if sp_is INCLUSIVEMIN sp then least <= x else least < x) /\
      (sp_is MAXBOUND sp = true -> if sp_is INCLUSIVEMAX sp then x <= most else x < most)
  | KFloat32 | KFloat64 =>
      let x := float_value k val in
      let least := float_bound k (sp_min sp) in
      let most := float_bound k (sp_max sp) in
      (sp_is EQUALITY sp = true -> SFeqb x (float_bound k (sp_equal sp)) = true) /\
      (sp_is MINBOUND sp = true -> if sp_is INCLUSIVEMIN sp then SFltb x least = false else SFleb x least = false) /\
      (sp_is MAXBOUND sp = true -> if sp_is INCLUSIVEMAX sp then SFltb most x = false else SFleb most x = false)
  | _ => True
  end.

Lemma outside_false {A} (eqb ltb leb : A -> A -> bool) bound sp val :
  outside eqb ltb leb bound sp val = false <->
  (sp_is EQUALITY sp = true -> eqb val (bound (sp_equal sp)) = true) /\
  (sp_is MINBOUND sp = true ->
     if sp_is INCLUSIVEMIN sp then ltb val (bound (sp_min sp)) = false else leb val (bound (sp_min sp)) = false) /\
  (sp_is MAXBOUND sp = true ->
     if sp_is INCLUSIVEMAX sp then ltb (bound (sp_max sp)) val = false else leb (bound (sp_max sp)) val = false).
Proof.
  unfold outside. rewrite !orb_false_iff, !andb_false_iff, negb_false_iff.
  destruct (sp_is EQUALITY sp), (sp_is MINBOUND sp), (sp_is MAXBOUND sp), (sp_is INCLUSIVEMIN sp), (sp_is INCLUSIVEMAX sp); intuition congruence.
Qed.
Lemma removes_satisfies sp k val : removes sp k val = false <-> satisfies sp k val.
Proof.
  destruct k; cbn [removes satisfies]; try (by split); rewrite outside_false; try reflexivity.
  all: destruct (sp_is INCLUSIVEMIN sp), (sp_is INCLUSIVEMAX sp); rewrite Z.eqb_eq, ?Z.ltb_ge, ?Z.leb_gt; reflexivity.
Qed.

(** The [i]th row is within what every predicate says that is on a column of
    the table. *)
Definition row_selected (preds : StaticPredicateGroup) (names : list string) (val : string -> column) (i : nat) : Prop :=
  forall name sp x, name ∈ names -> preds !! name = Some sp -> col_elems (val name) !! i = Some x ->
    satisfies sp (col_kind (val name)) x.

Lemma row_removed_selected preds names val i : row_removed preds names val i = false <-> row_selected preds names val i.
Proof.
  unfold row_removed, row_selected. rewrite <- not_true_iff_false, existsb_exists. split.
  - intros H name sp x Hname Hsp Hx. apply removes_satisfies, not_true_is_false. intros Hr. apply H. exists name.
    split; [by apply list_elem_of_In|]. by rewrite Hsp, Hx.
  - intros H (name & Hname & Hr). apply list_elem_of_In in Hname. destruct (preds !! name) as [sp|] eqn:Hsp; [|done].
    destruct (col_elems (val name) !! i) as [x|] eqn:Hx; [|done]. cbn in Hr.
    specialize (H name sp x Hname Hsp Hx). apply removes_satisfies in H. congruence.
Qed.

(** Rows picked by a test, in their order. *)
Lemma filter_seq_sorted (f : nat -> bool) n m : StronglySorted lt (List.filter f (seq m n)).
Proof.
  revert m. induction n as [|n IH]; intros m; cbn [seq List.filter]; [constructor|]. destruct (f m); [|apply IH].
  constructor; [apply IH|]. apply Forall_forall. intros i Hi. apply list_elem_of_In, filter_In in Hi as [Hi _].
  apply in_seq in Hi. lia.
Qed.

Section select_rows.
Context `{L : StorageLibs} `{R : MapRange} `{G : Gonum} (tz local : Location).
Context (EnableLastKnown DisableVariableCompression : bool) (CatalogDir : dloc) (now : Z).

Lemma finish_rows cs names n val preds keep limit :
  is_table cs names n val -> NoDup (map ToLower names) -> (forall name, name ∈ names -> col_kind (val name) ∈ numeric_kinds) ->
  keep <> [] -> (forall name, name ∈ keep -> name ∈ names) -> 0 <= limit ->
  let kept := List.filter (fun i => negb (row_removed preds names val i)) (seq 0 n) in
  let rows := if limit =? 0 then kept else take (Z.to_nat limit) kept in
  exists filtered out, evaluate_predicates preds cs = Ret filtered /\
    finish tz now limit (select_columns keep) false keep filtered = Ret out /\
    is_table out keep (length rows) (fun name => pick_rows rows (val name)).
Proof.
  intros H Hnd Hk Hne Hin Hlim kept rows.
  assert (Hnames : names <> []).
  { destruct keep as [|name keep']; [done|]. intros ->. specialize (Hin name ltac:(left)). by apply elem_of_nil in Hin. }
  destruct (evaluate_predicates_table preds cs names n val H Hnames Hnd Hk) as (filtered & He & Hf). fold kept in Hf.
  destruct (Project_table filtered names _ _ keep Hf Hin) as (proj & Hp & Ht).
  exists filtered.
  assert (Hfin : exists out, (if limit =? 0 then Ret proj else RestrictLength limit FIRST proj) = Ret out /\
    is_table out keep (length rows) (fun name => pick_rows rows (val name))).
  { unfold rows. destruct (limit =? 0); [by exists proj|].
    apply (RestrictLength_table proj keep val kept n limit Hlim Ht); [|apply filter_seq_lt].
    intros name Hname. by apply (it_len _ _ _ _ H), Hin. }
  destruct Hfin as (out & Ho & Hout). exists out. split_and!; try done.
  unfold finish. rewrite select_functions_columns. cbn [outcome_bind]. rewrite Hp. cbn [outcome_bind].
  rewrite rename_aliases_columns. cbn [outcome_bind]. destruct (limit =? 0).
  - injection Ho as ->. done.
  - by rewrite Ho.
Qed.

(** What is read of the table: everything in the range that the predicate on
    the epoch gives, and where there are no predicates no more rows than the
    limit. *)
Definition table_query (preds : StaticPredicateGroup) (limit : Z) (q : query) : query :=
  if bool_decide (preds = ∅) && negb (limit =? 0) then SetRowLimit FIRST limit q else q.

Lemma select_columns_calls keep : existsb ai_IsFunctionCall (select_columns keep) = false.
Proof. induction keep as [|name keep IH]; [done|]. exact IH. Qed.

(** C15: A SELECT of some columns of a table, with a WHERE clause and a LIMIT,
    gives the rows of the relational reading. For predicates none of which is
    contradictory, on a table whose rows, read in the range of time that the
    predicate on Epoch is pushed down to, are [n] rows of columns of numeric
    kinds whose names differ also without regard to case: the result has, in
    the order of the select list, the named columns of the rows that every
    predicate on a column of the table admits ([row_selected]; only columns of
    float32, float64, int, int32 and int64 are tested), in the order of the table, and of these the first [limit] unless that is 0. A table of
    which no row is in the range is given back as it is, with all its columns. *)
Theorem select_rows_reference (s s1 s2 : server) (table : string) (preds : StaticPredicateGroup) (keep : list string) (limit : Z)
    (quantifier : Z) (dsv : list DataShape) (q q' : query) (csm : ColumnSeriesMap) (cs : ColumnSeries)
    (names : list string) (n : nat) (val : string -> column) :
  let key := NewTimeBucketKey table [sql_key_category] in
  map_Forall (fun _ sp => IsFalse sp = false) preds -> 0 <= limit -> keep <> [] ->
  sv_on_reader (on_cat (cat_GetDataShapes CatalogDir key)) s = (Ret dsv, s1) ->
  (forall name, name ∈ keep -> name ∈ (map ds_Name dsv ++ ["Epoch"])%list /\ name ∈ names) ->
  AddTargetKey key (NewQuery tz CatalogDir) = Ret q -> push_down_epoch tz preds q = Ret q' ->
  plan_and_read tz local EnableLastKnown DisableVariableCompression (table_query preds limit q') s1 = (Ret csm, s2) ->
  csm !! key = Some cs -> is_table cs names n val ->
  NoDup (map ToLower names) -> (forall name, name ∈ names -> col_kind (val name) ∈ numeric_kinds) ->
  exists out kept,
    Materialize tz local EnableLastKnown DisableVariableCompression CatalogDir now
      (mkSelectRelation limit (select_columns keep) true false [table] None quantifier preds) s = (Ret out, s2) /\
    StronglySorted lt kept /\ (forall i, i ∈ kept <-> (i < n)%nat /\ row_selected preds names val i) /\
    let rows := if limit =? 0 then kept else take (Z.to_nat limit) kept in
    if (n =? 0)%nat then out = cs else is_table out keep (length rows) (fun name => pick_rows rows (val name)).
Proof.
  intros key Hfalse Hlim Hne Hdsv Hin Hq Hq' Hread Hcs H Hnd Hk.
  assert (Hkeep : forall name, name ∈ keep -> name ∈ names) by (intros name Hname; by apply Hin).
  destruct (finish_rows cs names n val preds keep limit H Hnd Hk Hne Hkeep Hlim) as (filtered & out & He & Hf & Hout).
  assert (Hnames : names <> []).
  { destruct keep as [|name keep']; [done|]. intros ->. specialize (Hkeep name ltac:(left)). by apply elem_of_nil in Hkeep. }
  set (kept := List.filter _ _) in Hout.
  exists (if (n =? 0)%nat then cs else out), kept. split_and!.
  - cbn [Materialize]. unfold mbind at 1, prog_bind at 1. cbn [mret prog_ret].
    rewrite bool_decide_eq_false_2.
    2:{ intros (k & sp & Hkk & Hff). by rewrite (Hfalse k sp Hkk) in Hff. }
    fold key. unfold mbind, prog_bind. rewrite Hdsv.
    rewrite check_select_columns by (done || (intros name Hname; by apply Hin)). cbn [lift].
    unfold read_table, mbind, prog_bind. rewrite Hq. cbn [lift]. rewrite Hq'. cbn [lift].
    rewrite select_columns_calls. cbn [negb andb]. rewrite orb_false_r, negb_involutive. fold (table_query preds limit q').
    rewrite Hread. rewrite bool_decide_eq_false_2 by (intros ->; by rewrite lookup_empty in Hcs).
    rewrite Hcs. rewrite (cs_Len_table _ _ _ _ H Hnames). cbn [lift]. destruct (n =? 0)%nat; [done|].
    rewrite He. cbn [lift mret prog_ret]. by rewrite Hf.
  - apply filter_seq_sorted.
  - intros i. unfold kept. rewrite list_elem_of_In, filter_In, in_seq, negb_true_iff, row_removed_selected. intuition lia.
  - cbv zeta. by destruct (n =? 0)%nat.
Qed.
End select_rows.

Definition gt_predicate (c : ColumnReference) (v : goval) : StaticPredicate :=
  fst (sp_AddComparison GT (Some v) (NewStaticPredicate c)).

(** *** A database with four daily ticks *)

(** No statistics: the functions of the example are not run. *)
Definition no_gonum : Gonum := {|
  floats_SubTo := fun l _ => l; stat_Mean := fun _ => S754_zero false; stat_StdDev := fun _ => S754_zero false;
  stat_StdScore := fun x _ _ => x |}.

Module Example_select.
#[local] Existing Instances example_libs list_range no_gonum.

Definition bucket_dir : string := "/db/AAPL/1D/TICK".
Definition shapes : list DataShape := [mkShape "Epoch" INT64; mkShape "Ask" INT32; mkShape "Size" INT32].
Definition bucket : TimeBucketInfo := set_once (NewTimeBucketInfo (24 * Hour) bucket_dir "Ticks" 2017 shapes FIXED).
Definition slot (i ask size : Z) : list byte := (le_bytes 8 i ++ le_bytes 4 ask ++ le_bytes 4 size)%list.
Definition file : list byte :=
  (replicate (Z.to_nat Headersize) x00 ++ slot 1 7 1 ++ slot 2 3 2 ++ slot 0 0 0 ++ slot 4 9 3 ++ slot 5 8 4)%list.
Definition dir (name path cat : string) (sub : option (gmap string dloc)) (files : option (gmap string floc)) : Directory :=
  mkDirectory name path cat None sub None files.
Definition database : server := mkServer
  (mkInstance {[0%nat := mkDirectory "." "/db" "Symbol" (Some {[bucket_dir := 3%nat]}) (Some {["AAPL" := 1%nat]}) None None;
                1%nat := dir "AAPL" "/db/AAPL" "Timeframe" (Some {["1D" := 2%nat]}) None;
                2%nat := dir "1D" "/db/AAPL/1D" "AttributeGroup" (Some {["TICK" := 3%nat]}) None;
                3%nat := dir "TICK" bucket_dir "Year" None (Some {[bucket_dir +:+ "/2017.bin" := 0%nat]})]}
     {[0%nat := bucket]} ∅
     (mkW {[bucket_dir +:+ "/2017.bin" := file]} (new_wf "/db" "/db/WALFile.1.walfile") (mkPipe 1 []) ∅ [])) ∅.

Definition day (d : Z) : Z := Unix (Date 2017 1 d 0 0 0 0 UTC).
Definition names : list string := ["Epoch"; "Ask"; "Size"].
Definition val (name : string) : column :=
  if decide (name = "Epoch") then int64_column [day 2; day 3; day 5; day 6]
  else if decide (name = "Ask") then int32_column [7; 3; 9; 8] else int32_column [1; 2; 3; 4].
(** Ask > 5 *)
Definition preds : StaticPredicateGroup := {["Ask" := gt_predicate (NewColumnReference "Ask") (int64_val 5)]}.
Definition select : SelectRelation := mkSelectRelation 2 (select_columns ["Size"; "Epoch"]) true false ["AAPL/1D/TICK"] None 0 preds.

(** A pair from its parts, neither of which is computed here. *)
Lemma pair_ret {A S} (p : outcome A * S) (a : A) : fst p = Ret a -> p = (Ret a, snd p).
Proof. destruct p as [o s]. cbn. by intros ->. Qed.
Lemma ret_default {A} (o : outcome A) (d : A) :
  match o with Ret _ => true | _ => false end = true -> o = Ret (match o with Ret a => a | _ => d end).
Proof. by destruct o. Qed.

Lemma select_rows_reference_witness :
  exists out kept,
    fst (Materialize UTC UTC true false 0%nat 0 select database) = Ret out /\
    StronglySorted lt kept /\ (forall i, i ∈ kept <-> (i < 4)%nat /\ row_selected preds names val i) /\
    is_table out ["Size"; "Epoch"] (length (take 2 kept)) (fun name => pick_rows (take 2 kept) (val name)).
Proof.
  set (key := NewTimeBucketKey "AAPL/1D/TICK" [sql_key_category]).
  set (shaped := sv_on_reader (on_cat (cat_GetDataShapes 0%nat key)) database).
  set (q := match AddTargetKey key (NewQuery UTC 0%nat) with Ret q => q | _ => NewQuery UTC 0%nat end).
  set (rd := plan_and_read UTC UTC true false q (snd shaped)).
  destruct (select_rows_reference UTC UTC true false 0%nat 0 database (snd shaped) (snd rd) "AAPL/1D/TICK" preds ["Size"; "Epoch"] 2 0
    (tl shapes) q q (match fst rd with Ret csm => csm | _ => ∅ end) (frame names (map val names)) names 4 val) as (out & kept & Hm & Hrest).
  - intros k sp Hk. unfold preds in Hk. apply lookup_singleton_Some in Hk as [_ <-]. reflexivity.
  - done.
  - done.
  - apply (pair_ret shaped). vm_compute. reflexivity.
  - intros name Hname. repeat (apply elem_of_cons in Hname as [->|Hname]; [split; apply (bool_decide_unpack _); vm_compute; exact I|]).
    by apply elem_of_nil in Hname.
  - vm_compute. reflexivity.
  - vm_compute. reflexivity.
  - apply (pair_ret rd), ret_default. vm_compute. reflexivity.
  - vm_compute. reflexivity.
  - apply frame_is_table; [apply (bool_decide_unpack _); vm_compute; exact I|done|by repeat constructor|].
    intros [|[|[|i]]] name c; cbn; by intros [= <-] [= <-].
  - apply (bool_decide_unpack _); vm_compute; exact I.
  - intros name Hname. repeat (apply elem_of_cons in Hname as [->|Hname]; [apply (bool_decide_unpack _); vm_compute; exact I|]).
    by apply elem_of_nil in Hname.
  - exists out, kept. split; [|exact Hrest]. exact (f_equal fst Hm).
Defined.

(** The two rows: of the 2nd and of the 5th of January. *)
Example selected :
  match fst (Materialize UTC UTC true false 0%nat 0 select database) with
  | Ret out => map (fun name => GetColumn name out) ["Size"; "Epoch"]
  | _ => []
  end = [Some (int32_column [1; 3]); Some (int64_column [day 2; day 5])].
Proof. vm_compute. reflexivity. Qed.
End Example_select.

Lemma merge_gt c v w b : GenericComparison (Some w) (Some v) GT = Ret b ->
  merge_into (gt_predicate c w) (gt_predicate c v) = if b then gt_predicate c v else gt_predicate c w.
Proof.
  intros H. transitivity (fst (match GenericComparison (Some w) (Some v) GT with
                               | Ret isWithin => (if isWithin then gt_predicate c v else SetMin (Some w) false (gt_predicate c v), None)
                               | Fail e => (gt_predicate c v, Some e)
                               | _ => (gt_predicate c v, None)
                               end)); [reflexivity|]. rewrite H. by destruct b.
Qed.

(** Of two lower bounds on a column the higher one is forgotten, whatever
    the order they are given in: for [a] below [b], [c > a AND c > b] selects
    what [c > a] selects. *)
Lemma conjunction_keeps_loosest (c : ColumnReference) (a b : goval) :
  GenericComparison (Some b) (Some a) GT = Ret true -> GenericComparison (Some a) (Some b) GT = Ret false ->
  let bound v g := spg_Merge (Some (gt_predicate c v)) false g in
  exists g, bound a ∅ = Ret g /\ outcome_bind (bound a ∅) (bound b) = Ret g /\ outcome_bind (bound b ∅) (bound a) = Ret g /\
    g !! cr_GetName c = Some (gt_predicate c a).
Proof.
  intros Hba Hab bound. exists {[cr_GetName c := gt_predicate c a]}.
  assert (Hone : forall v, bound v ∅ = Ret {[cr_GetName c := gt_predicate c v]}).
  { intros v. unfold bound, spg_Merge, spg_Add. change (sp_Column (gt_predicate c v)) with c.
    rewrite lookup_empty, insert_insert_eq. reflexivity. }
  assert (Htwo : forall v w, bound w {[cr_GetName c := gt_predicate c v]} =
    Ret {[cr_GetName c := merge_into (gt_predicate c w) (gt_predicate c v)]}).
  { intros v w. unfold bound, spg_Merge, spg_Add.
    change (sp_Column (gt_predicate c w)) with c. rewrite lookup_singleton_eq. unfold singletonM, map_singleton.
    by rewrite insert_insert_eq. }
  rewrite !Hone. cbn [outcome_bind]. rewrite !Htwo, (merge_gt c a b true Hba), (merge_gt c b a false Hab), lookup_singleton_eq.
  by split_and!.
Qed.

Lemma conjunction_keeps_loosest_witness :
  let c := NewColumnReference "Ask" in
  let bound v g := spg_Merge (Some (gt_predicate c v)) false g in
  exists g, bound (int64_val 1) ∅ = Ret g /\
    outcome_bind (bound (int64_val 1) ∅) (bound (int64_val 5)) = Ret g /\
    outcome_bind (bound (int64_val 5) ∅) (bound (int64_val 1)) = Ret g /\
    g !! "Ask" = Some (gt_predicate c (int64_val 1)).
Proof. apply (conjunction_keeps_loosest (NewColumnReference "Ask") (int64_val 1) (int64_val 5)); reflexivity. Defined.

Lemma value_as_int64_val z : inS 64 z -> value_as_int64 (Some (int64_val z)) = Ret z.
Proof.
  intros Hz. cbn. unfold GetValueAsInt64, is_number. rewrite bool_decide_eq_true_2.
  2:{ apply (bool_decide_unpack _); vm_compute; exact I. }
  cbn [v_kind v_image int64_val]. f_equal. change (le_bytes 8 z) with (le_bytes (kind_size KInt64) z).
  rewrite int_value_le_bytes by done. by apply wrap_kind_id.
Qed.

(** C32: The range of time that predicates on Epoch are pushed down to. The
    range of a query is closed at both ends, yet the bounds are treated as if
    it were open: an inclusive lower bound [Epoch >= t] starts the range at
    [t + 1] and an exclusive one [Epoch > t] at [t]; an inclusive upper bound
    [Epoch <= u] ends it at [u - 1] and an exclusive one at [u]. A bound on one
    side leaves the other end of the range as it is. (For bounds that are
    64-bit integers and do not overflow.) *)
Theorem epoch_bounds_inward (tz : Location) (t u : Z) (atLeast atMost : bool) (q : query) :
  inS 64 t -> inS 64 u -> t < 2 ^ 63 - 1 -> - 2 ^ 63 < u ->
  let lower := sp_AddComparison (if atLeast then GTE else GT) (Some (int64_val t)) in
  let upper := sp_AddComparison (if atMost then LTE else LT) (Some (int64_val u)) in
  let pushed sp q' := push_down_epoch tz {["Epoch" := sp]} q = Ret q' in
  let none := NewStaticPredicate (NewColumnReference "Epoch") in
  let first := if atLeast then t + 1 else t in
  let last := if atMost then u - 1 else u in
  (exists q', pushed (fst (upper (fst (lower none)))) q' /\ Start (q_Range q') = first /\ End_ (q_Range q') = last) /\
  (exists q', pushed (fst (lower none)) q' /\ Start (q_Range q') = first /\ End_ (q_Range q') = End_ (q_Range q)) /\
  (exists q', pushed (fst (upper none)) q' /\ Start (q_Range q') = Start (q_Range q) /\ End_ (q_Range q') = last).
Proof.
  intros Ht Hu Ht' Hu' lower upper pushed none first last.
  assert (Hone : int64 (t + 1) = t + 1 /\ int64 (u - 1) = u - 1).
  { unfold int64. split; apply wrapS_id; unfold inS in *; lia. }
  destruct Hone as [Hlo Hhi].
  assert (Hpush : forall sp, push_down_epoch tz {["Epoch" := sp]} q =
    let! q := (if sp_is MINBOUND sp then
                 let! val := (match value_as_int64 (sp_min sp) with Fail _ => Fail (ErrMsg "Non date predicate found for Epoch") | o => o end) in
                 Ret (SetStart tz (if sp_is INCLUSIVEMIN sp then int64 (val + 1) else val) q)
               else Ret q) in
    if sp_is MAXBOUND sp then
      let! val := (match value_as_int64 (sp_max sp) with Fail _ => Fail (ErrMsg "Non date predicate found for Epoch") | o => o end) in
      Ret (SetEnd tz (if sp_is INCLUSIVEMAX sp then int64 (val - 1) else val) q)
    else Ret q) by (intros sp; unfold push_down_epoch; by rewrite lookup_singleton_eq).
  unfold pushed, lower, upper, first, last. rewrite <- Hlo, <- Hhi.
  assert (Hvt := value_as_int64_val t Ht). assert (Hvu := value_as_int64_val u Hu).
  clear - Hpush Hvt Hvu. split_and!; rewrite Hpush.
  - destruct atLeast, atMost; cbn -[int64_val value_as_int64 int64]; rewrite Hvt, Hvu; eexists; split_and!; reflexivity.
  - destruct atLeast; cbn -[int64_val value_as_int64 int64]; rewrite Hvt; eexists; split_and!; reflexivity.
  - destruct atMost; cbn -[int64_val value_as_int64 int64]; rewrite Hvu; eexists; split_and!; reflexivity.
Qed.

Lemma epoch_bounds_inward_witness :
  exists q', push_down_epoch UTC {["Epoch" := fst (sp_AddComparison LTE (Some (int64_val 1000))
      (fst (sp_AddComparison GTE (Some (int64_val 60)) (NewStaticPredicate (NewColumnReference "Epoch")))))]} (NewQuery UTC 0%nat) = Ret q' /\
    Start (q_Range q') = 61 /\ End_ (q_Range q') = 999.
Proof.
  apply (proj1 (epoch_bounds_inward UTC 60 1000 true true (NewQuery UTC 0%nat) ltac:(done) ltac:(done) ltac:(done) ltac:(done))).
Defined.

(** A WHERE clause over a subquery is not evaluated: whatever its
    predicates, as long as none has bounds that exclude each other, the
    relation is what it is without them. *)
Lemma subquery_where_ignored `{L : StorageLibs} `{R : MapRange} `{G : Gonum} (tz local : Location)
    (EnableLastKnown DisableVariableCompression : bool) (CatalogDir : dloc) (now limit : Z) (selectList : list AliasedIdentifier)
    (isSelectAll : bool) (tables : list string) (sub : SelectRelation) (quantifier : Z) (preds : StaticPredicateGroup) (s : server) :
  map_Forall (fun _ sp => IsFalse sp = false) preds ->
  let relation p := mkSelectRelation limit selectList false isSelectAll tables (Some sub) quantifier p in
  let run sr := Materialize tz local EnableLastKnown DisableVariableCompression CatalogDir now sr s in
  run (relation preds) = run (relation NewStaticPredicateGroup).
Proof.
  intros Hp relation run. unfold run, relation. cbn [Materialize]. unfold mbind, prog_bind.
  destruct (Materialize _ _ _ _ _ _ sub s) as [[cs| | |] s']; [|done..]. cbn [mret prog_ret].
  rewrite !bool_decide_eq_false_2; [done| |].
  - intros (k & sp & Hk & _). unfold NewStaticPredicateGroup in Hk. by rewrite lookup_empty in Hk.
  - intros (k & sp & Hk & Hf). by rewrite (Hp k sp Hk) in Hf.
Qed.

Lemma subquery_where_ignored_witness :
  let relation p := mkSelectRelation 0 [] false true [] (Some (mkSelectRelation 0 [] true true ["AAPL/1Min/OHLCV"] None 0 ∅)) 0 p in
  let s := mkServer (mkInstance ∅ ∅ ∅ (mkW ∅ (new_wf "/db" "/db/WALFile.1.walfile") (mkPipe 1 []) ∅ [])) ∅ in
  let run p := Materialize (L := example_libs) (R := list_range) (G := no_gonum) UTC UTC true false 0%nat 0 (relation p) s in
  run {["Ask" := gt_predicate (NewColumnReference "Ask") (int64_val 5)]} = run ∅.
Proof.
  apply (subquery_where_ignored (L := example_libs) (R := list_range) (G := no_gonum)).
  intros k sp Hk. apply lookup_singleton_Some in Hk as [_ <-]. reflexivity.
Defined.
