(* ===== verification/SqlGrammar.v ===== *)
(** * Syntax trees of the grammar (sqlparser/parser/SQLBase.g4)

    The contexts that the generated parser makes of a statement: a type per
    rule of the grammar, a constructor per alternative, with what the accessors
    of the alternative give.  Tokens are their texts, optional ones booleans.
    The parser itself is generated code over the ANTLR runtime. *)

From S2P Require Export Prelude.

Module Ctx.

Inductive setQuantifier := DISTINCT | ALL.
Inductive setOperator := INTERSECT | UNION | EXCEPT.
Inductive joinType := INNER | LEFT | RIGHT | FULL | CROSS | NATURAL.
Inductive sampleType := BERNOULLI | SYSTEM | POISSONIZED.
Inductive arithmetic := ASTERISK | SLASH | PERCENT | PLUS | MINUS.
Inductive intervalField := YEAR | MONTH | DAY | HOUR | MINUTE | SECOND.
Inductive dateTimeFunction := CURRENT_DATE | CURRENT_TIME | CURRENT_TIMESTAMP | LOCALTIME | LOCALTIMESTAMP.

Inductive identifier :=
  | UnquotedIdentifier (text : string)
  | DigitIdentifier (text : string)
  | QuotedIdentifierAlternative (text : string)
  | BackQuotedIdentifier (text : string)
  | NonReservedIdentifier (text : string).

(** Identifiers with points between them. *)
Inductive qualifiedName := DotQualifiedName (first : identifier) (others : list identifier).

(** [sign] is nil where none was given. *)
Inductive interval := Interval (sign : option string) (text : string) (from : intervalField) (to : option intervalField).
Inductive timeZoneSpecifier := TimeZoneInterval (i : interval) | TimeZoneString (text : string).

Inductive baseType :=
  | TIME_WITH_TIME_ZONE | TIMESTAMP_WITH_TIME_ZONE | DATE | DOUBLE_PRECISION
  | BaseTypeIdentifier (id : identifier).
Inductive type_t : Set :=
  | TypeArraySuffix (t : type_t)
  | TypeArray (t : type_t)
  | TypeMap (key value : type_t)
  | TypeRow (elems : list (identifier * type_t))
  | TypeBase (b : baseType) (params : list typeParameter)
with typeParameter : Set :=
  | ParamInteger (text : string)
  | ParamType (t : type_t).

(** ** Queries and expressions *)

Inductive query : Set := Query (w : option with_c) (q : queryNoWith)
with with_c : Set := With (RECURSIVE : bool) (namedQueries : list namedQuery)
with namedQuery : Set := NamedQuery (name : identifier) (aliases : option (list identifier)) (q : query)
with queryNoWith : Set := QueryNoWith (term : queryTerm) (sortItems : list sortItem) (limit : option string)
with queryTerm : Set :=
  | QueryTermDefault (p : queryPrimary)
  | SetOperation (lhs : queryTerm) (operator : setOperator) (quantifier : option setQuantifier) (rhs : queryTerm)
with queryPrimary : Set :=
  | QueryPrimaryDefault (s : querySpecification)
  | Table (name : qualifiedName)
  | InlineTable (es : list expression)
  | Subquery (q : queryNoWith)
with sortItem : Set := SortItem (e : expression) (ordering : option bool) (nullOrdering : option bool)
with querySpecification : Set :=
  | QuerySpecification (quantifier : option setQuantifier) (items : list selectItem) (relations : list relation)
      (where_c : option booleanExpression) (group : option groupBy) (having : option booleanExpression)
with groupBy : Set := GroupBy (quantifier : option setQuantifier) (elements : list groupingElement)
with groupingElement : Set :=
  | SingleGroupingSet (es : list expression)
  | Rollup (names : list qualifiedName)
  | Cube (names : list qualifiedName)
  | MultipleGroupingSets (sets : list (list qualifiedName))
with selectItem : Set :=
  | SelectSingle (e : expression) (alias : option identifier)
  | SelectAll (name : option qualifiedName)
with relation : Set :=
  | JoinRelation (lhs : relation) (type : option joinType) (rhs : relation) (criteria : option joinCriteria)
  | RelationDefault (s : sampledRelation)
with joinCriteria : Set :=
  | JoinOn (b : booleanExpression)
  | JoinUsing (ids : list identifier)
with sampledRelation : Set := SampledRelation (a : aliasedRelation) (sample : option (sampleType * expression))
with aliasedRelation : Set := AliasedRelation (p : relationPrimary) (id : option identifier) (aliases : option (list identifier))
with relationPrimary : Set :=
  | TableName (name : qualifiedName)
  | SubqueryRelation (q : query)
  | Unnest (es : list expression) (ORDINALITY : bool)
  | ParenthesizedRelation (r : relation)
with expression : Set :=
  | ExpressionBoolean (b : booleanExpression)
  | ExpressionValue (v : valueExpression)
with booleanExpression : Set :=
  | BooleanDefault (v : valueExpression) (p : predicate)
  | LogicalNot (b : booleanExpression)
  | LogicalBinary (lhs : booleanExpression) (operator : string) (rhs : expression)
  | BoolLiteralToo (TRUE : bool)
with predicate : Set :=
  | Comparison (operator : string) (v : valueExpression)
  | QuantifiedComparison (operator quantifier : string) (q : query)
  | Between (NOT : bool) (lower upper : valueExpression)
  | InList (NOT : bool) (vs : list valueExpression)
  | InSubquery (NOT : bool) (q : query)
  | Like (NOT : bool) (pattern : valueExpression) (escape : option valueExpression)
  | NullPredicate (NOT : bool)
  | DistinctFrom (NOT : bool) (rhs : valueExpression)
with valueExpression : Set :=
  | ValueExpressionDefault (p : primaryExpression)
  | AtTimeZone (v : valueExpression) (zone : timeZoneSpecifier)
  | ArithmeticUnary (minus : bool) (v : valueExpression)
  | ArithmeticBinary (lhs : valueExpression) (operator : arithmetic) (rhs : valueExpression)
  | Concatenation (lhs rhs : valueExpression)
with primaryExpression : Set :=
  | NullLiteral
  | StringLiteral (text : string)
  | BinaryLiteral (text : string)
  | DecimalLiteral (text : string)
  | IntegerLiteral (text : string)
  | BoolLiteral (TRUE : bool)
  | TypedLiteral (type : baseType) (text : string)
  | IntervalLiteral (i : interval)
  | ParameterMark
  | TypeConstructor (id : option identifier) (text : string)
  | Position (v1 v2 : valueExpression)
  | RowConstructor (es : list expression)
  | FunctionCall (name : qualifiedName) (asterisk : bool) (quantifier : option setQuantifier) (es : list expression)
      (filter_c : option booleanExpression) (over_c : option over)
  | Lambda (ids : list identifier) (e : expression)
  | SubqueryExpression (q : query)
  | Exists_c (q : query)
  | SimpleCase (v : valueExpression) (whens : list whenClause) (els : option expression)
  | SearchedCase (whens : list whenClause) (els : option expression)
  | Cast (e : expression) (t : type_t)
  | ArrayConstructor (es : list expression)
  | Subscript (value : primaryExpression) (index : valueExpression)
  | ColumnReference (id : identifier)
  | Dereference (base : primaryExpression) (fieldName : identifier)
  | SpecialDateTimeFunction (name : dateTimeFunction) (precision : option string)
  | Substring (subterm baseterm : valueExpression) (forterm : option valueExpression)
  | Normalize (v : valueExpression) (normalform : option string)
  | Extract (id : identifier) (v : valueExpression)
  | ParenthesizedExpression (e : expression)
with whenClause : Set := WhenClause (condition result : expression)
with over : Set := Over (partition : list expression) (orderitem : list sortItem) (frame : option windowFrame)
with windowFrame : Set := WindowFrame (frameType : string) (startFrame : frameBound) (endFrame : option frameBound)
with frameBound : Set :=
  | UnboundedFrame (boundType : string)
  | CurrentRowBound
  | BoundedFrame (e : expression) (boundType : string).

(** ** Statements *)

Inductive columnDefinition := ColumnDefinition (id : identifier) (t : type_t) (comment : option string).
Inductive likeClause := LikeClause (name : qualifiedName) (INCLUDING : bool).
Inductive tableElement := TableColumn (c : columnDefinition) | TableLike (l : likeClause).
Inductive tableProperty := TableProperty (id : identifier) (e : expression).
Inductive callArgument := PositionalArgument (e : expression) | NamedArgument (id : identifier) (e : expression).
Inductive privilege := PrivilegeWord (text : string) | PrivilegeIdentifier (id : identifier).
Inductive explainOption := ExplainFormat (value : string) | ExplainType (value : string).
Inductive transactionMode := IsolationLevel (level : string) | TransactionAccessMode (mode : string).

Inductive statement :=
  | StatementDefault (q : query)
  | CreateTable (EXISTS : bool) (name : qualifiedName) (elements : list tableElement) (properties : option (list tableProperty))
  | CreateTableAsSelect (EXISTS : bool) (name : qualifiedName) (properties : option (list tableProperty)) (q : query)
  | DropTable (EXISTS : bool) (name : qualifiedName)
  | InsertInto (name : qualifiedName) (aliases : option (list identifier)) (q : query)
  | Delete (name : qualifiedName) (where_c : option booleanExpression)
  | RenameTable (from to : qualifiedName)
  | RenameColumn (tableName : qualifiedName) (from to : identifier)
  | AddColumn (tableName : qualifiedName) (column : columnDefinition)
  | CreateView (name : qualifiedName) (aliases : option (list identifier)) (q : query)
  | DropView (EXISTS : bool) (name : qualifiedName)
  | Call (name : qualifiedName) (args : list callArgument)
  | Grant (OPTION : bool) (privileges : list privilege) (ALL_c : bool) (name : qualifiedName) (grantee : identifier)
  | Revoke (GRANT : bool) (privileges : list privilege) (ALL_c : bool) (name : qualifiedName) (grantee : identifier)
  | Explain (options : list explainOption) (s : statement)
  | ShowCreateTable (name : qualifiedName)
  | ShowCreateView (name : qualifiedName)
  | ShowTables (name : option (bool * qualifiedName)) (pattern : option string)
  | ShowSchemas (id : option (bool * identifier)) (pattern : option string)
  | ShowCatalogs (pattern : option string)
  | ShowColumns (FROM : bool) (name : qualifiedName)
  | ShowFunctions
  | ShowSession
  | SetSession (name : qualifiedName) (e : expression)
  | ResetSession (name : qualifiedName)
  | StartTransaction (modes : list transactionMode)
  | Commit
  | Rollback
  | ShowPartitions (FROM : bool) (name : qualifiedName) (where_c : option booleanExpression) (sortItems : list sortItem)
      (limit : option string)
  | Prepare (id : identifier) (s : statement)
  | Deallocate (id : identifier)
  | Execute (id : identifier) (es : list expression)
  | DescribeInput (id : identifier)
  | DescribeOutput (id : identifier).

Inductive statements := Statements (s : statement).
End Ctx.
