(* ===== verification/SqlTree.v ===== *)
(** * The query tree (sqlparser/sqlparsetree.go, datatypes.go)

    The nodes that the syntax tree of a statement is turned into, and the
    functions that make them.  A field that holds any node is typed by the
    nodes that are put into it; nil is [None], also where a nil pointer is put
    into an interface. *)

From S2P Require Export SqlGrammar SqlRelation.
From S2P Require Import GoStrings.

#[local] Open Scope string_scope.
#[local] Open Scope Z_scope.

(** ** Enumerations (datatypes.go) *)

Module Enum.
Definition ASCENDING : Z := 1.
Definition DESCENDING : Z := 2.
Definition FIRST : Z := 1.
Definition LAST : Z := 2.
Definition INTERSECT : Z := 1.
Definition UNION : Z := 2.
Definition EXCEPT : Z := 3.
Definition DISTINCT_SET : Z := 1.
Definition ALL_SET : Z := 2.
Definition INNER : Z := 1.
Definition LEFT_OUTER : Z := 2.
Definition RIGHT_OUTER : Z := 3.
Definition FULL_OUTER : Z := 4.
Definition AND_OP : Z := 1.
Definition OR_OP : Z := 2.
Definition ALL : Z := 1.
Definition SOME : Z := 2.
Definition ANY : Z := 3.

Definition StringToComparisonQuantifierEnum (opstr : string) : Z :=
  if decide (opstr = "ALL") then ALL else if decide (opstr = "SOME") then SOME
  else if decide (opstr = "ANY") then ANY else 0.
Definition ComparisonQuantifierEnum_String (cq : Z) : string :=
  if cq =? ALL then "ALL" else if cq =? SOME then "SOME" else if cq =? ANY then "ANY" else "NONE".

(** [SampleTypeEnum], [ArithmeticOperatorEnum], [IntervalEnum], [BaseTypeEnum],
    [NormalFormEnum], [FunctionNameEnum]: the constants count from 1 (the
    arithmetic operators and the others likewise). *)
Definition sample_type (t : Ctx.sampleType) : Z :=
  match t with Ctx.BERNOULLI => 1 | Ctx.SYSTEM => 2 | Ctx.POISSONIZED => 3 end.
Definition MINUS : Z := 1.
Definition PLUS : Z := 2.
Definition arithmetic_operator (a : Ctx.arithmetic) : Z :=
  match a with Ctx.MINUS => MINUS | Ctx.PLUS => PLUS | Ctx.ASTERISK => 3 | Ctx.SLASH => 4 | Ctx.PERCENT => 5 end.
Definition interval_field (f : Ctx.intervalField) : Z :=
  match f with Ctx.YEAR => 1 | Ctx.MONTH => 2 | Ctx.DAY => 3 | Ctx.HOUR => 4 | Ctx.MINUTE => 5 | Ctx.SECOND => 6 end.
Definition normal_form (s : string) : Z :=
  if decide (s = "NFD") then 1 else if decide (s = "NFC") then 2 else if decide (s = "NFKD") then 3
  else if decide (s = "NFKC") then 4 else 0.
Definition date_time_function (f : Ctx.dateTimeFunction) : Z :=
  match f with Ctx.CURRENT_DATE => 1 | Ctx.CURRENT_TIME => 2 | Ctx.CURRENT_TIMESTAMP => 3 | Ctx.LOCALTIME => 4
             | Ctx.LOCALTIMESTAMP => 5 end.
Definition join_type (t : Ctx.joinType) : Z :=
  match t with Ctx.INNER => INNER | Ctx.LEFT => LEFT_OUTER | Ctx.RIGHT => RIGHT_OUTER | Ctx.FULL => FULL_OUTER | _ => 0 end.
Definition set_operator (o : Ctx.setOperator) : Z :=
  match o with Ctx.INTERSECT => INTERSECT | Ctx.UNION => UNION | Ctx.EXCEPT => EXCEPT end.
Definition set_quantifier (q : option Ctx.setQuantifier) : Z :=
  match q with None => 0 | Some Ctx.DISTINCT => DISTINCT_SET | Some Ctx.ALL => ALL_SET end.

(** [PrimaryExpressionEnum] *)
Definition NULL_LITERAL : Z := 1.
Definition PARAMETER : Z := 2.
Definition STRING_LITERAL : Z := 3.
Definition BINARY_LITERAL : Z := 4.
Definition DECIMAL_LITERAL : Z := 5.
Definition INTEGER_LITERAL : Z := 6.
Definition BOOLEAN_LITERAL : Z := 7.
Definition TYPE_CONSTRUCTOR : Z := 8.
Definition INTERVAL_LITERAL : Z := 9.
Definition POSITION : Z := 10.
Definition ROW_CONSTRUCTOR : Z := 11.
Definition FUNCTION_CALL : Z := 12.
Definition LAMBDA : Z := 13.
Definition SUBQUERY_EXPRESSION : Z := 14.
Definition EXISTS_EXPRESSION : Z := 15.
Definition SIMPLE_CASE : Z := 16.
Definition SEARCHED_CASE : Z := 17.
Definition CAST : Z := 18.
Definition ARRAY_CONSTRUCTOR : Z := 19.
Definition SUBSCRIPT : Z := 20.
Definition COLUMN_REFERENCE : Z := 21.
Definition DEREFERENCE : Z := 22.
Definition SPECIAL_DATE_TIME_FUNCTION : Z := 23.
Definition SUBSTRING : Z := 24.
Definition NORMALIZE : Z := 25.
Definition EXTRACT : Z := 26.
Definition PARENTHESIZED_EXPRESSION : Z := 27.
End Enum.

(** ** Nodes *)

(** A name; the child of the other identifiers is not looked at again. *)
Record IDParse := mkIDParse { id_name : string; id_child : option string }.
Abbreviation QualifiedNameParse := (list IDParse).
Abbreviation ColumnAliasesParse := (list IDParse).

Record IntervalParse := mkIntervalParse {
  iv_IsPlus : bool; iv_IsMinus : bool; iv_stringValue : string; iv_fromField : Z; iv_toField : option Z }.
(** Nothing is ever stored in it. *)
Record TimeZoneSpecifierParse := mkTimeZoneSpecifierParse { tz_intervalZone : option IntervalParse; tz_stringZone : string }.

Inductive TypeTParse : Set :=
  | mkTypeTParse (array : option TypeTParse) (baseType : option BaseTypeParse) (mapElem : list TypeTParse)
      (rowIDElem rowElem : list IDParse) (typeElem : list TypeParameterParse)
with BaseTypeParse : Set := mkBaseTypeParse (type_id : Z) (child : option IDParse)
with TypeParameterParse : Set := mkTypeParameterParse (payload : option Z) (child : option TypeTParse).

(** What a primary expression holds: a value, or a name. *)
Inductive primary_payload := PayloadNil | PayloadValue (v : goval) | PayloadID (id : IDParse).

Inductive QueryParse : Set := mkQueryParse (with_q : option WithParse) (queryNoWith : QueryNoWithParse)
with WithParse : Set := mkWithParse (IsRecursive : bool) (namedQueries : list NamedQueryParse)
with NamedQueryParse : Set := mkNamedQueryParse (name : IDParse) (columnAliases : option ColumnAliasesParse) (q : QueryParse)
with QueryNoWithParse : Set := mkQueryNoWithParse (queryTerm : QueryTermParse) (sortItems : list SortItemParse) (limit : Z)
with QueryTermParse : Set :=
  | mkQueryTermParse (lhs rhs : option QueryTermParse) (queryPrimary : option QueryPrimaryParse) (operator quantifier : Z)
with QueryPrimaryParse : Set :=
  | mkQueryPrimaryParse (querySpec : option QuerySpecificationParse) (tableName : option QualifiedNameParse)
      (subquery : option QueryNoWithParse) (expressions : list ExpressionParse)
with SortItemParse : Set := mkSortItemParse (sortOrdering nullOrdering : Z) (expression : ExpressionParse)
with QuerySpecificationParse : Set :=
  | mkQuerySpecificationParse (setQuantifier : Z) (where_q : option BooleanExpressionParse) (groupBy : option GroupByParse)
      (having : option BooleanExpressionParse) (selectItems : list SelectItemParse) (relations : list RelationParse)
with GroupByParse : Set := mkGroupByParse (setQuantifier : Z) (groupingElements : list GroupingElementParse)
with GroupingElementParse : Set :=
  | mkGroupingElementParse (groupingExp : option (list ExpressionParse)) (rollupNames cubeNames : list QualifiedNameParse)
      (groupingSets : list (list QualifiedNameParse))
with SelectItemParse : Set :=
  | mkSelectItemParse (expression : option ExpressionParse) (alias : option IDParse)
      (qualifiedName : option QualifiedNameParse) (IsSelectAll : bool)
with RelationParse : Set :=
  | mkRelationParse (lhs rhs : option RelationParse) (criteria : option JoinCriteriaParse)
      (sampled : option SampledRelationParse) (joinType : Z)
with JoinCriteriaParse : Set := mkJoinCriteriaParse (onExpression : BooleanExpressionParse) (identifiers : list IDParse)
with SampledRelationParse : Set :=
  | mkSampledRelationParse (sampleType : Z) (aliasedRelation : AliasedRelationParse) (percentage : option ExpressionParse)
with AliasedRelationParse : Set :=
  | mkAliasedRelationParse (hasID hasAliases : bool) (relationPrimary : RelationPrimaryParse) (identifier : option IDParse)
      (aliases : option ColumnAliasesParse)
with RelationPrimaryParse : Set :=
  | mkRelationPrimaryParse (IsTableName IsSubquery IsUnnest IsRelation WithOrdinality : bool) (children : list relation_child)
with relation_child : Set :=
  | RelationName (name : QualifiedNameParse)
  | RelationQuery (q : QueryParse)
  | RelationExpression (e : ExpressionParse)
  | RelationRelation (r : RelationParse)
with ExpressionParse : Set := mkExpressionParse (IsBoolean : bool) (child : expression_child)
with expression_child : Set := ChildBoolean (b : BooleanExpressionParse) | ChildValue (v : ValueExpressionParse)
with BooleanExpressionParse : Set :=
  | mkBooleanExpressionParse (predicate : option PredicateParse) (lhs : option expression_child) (rhs : option ExpressionParse)
      (operator : Z) (IsLiteral IsNot value : bool)
with PredicateParse : Set :=
  | ComparisonParse (comparisonOperator : Z) (rhs : ValueExpressionParse)
  | QuantifiedComparisonParse (comparisonOperator comparisonQuantifier : Z) (q : QueryParse)
  | BetweenParse (IsNot : bool) (lower upper : ValueExpressionParse)
  | InListParse (IsNot : bool) (inlist : list ValueExpressionParse)
  | InSubqueryParse (IsNot : bool) (q : QueryParse)
  | LikeParse (IsNot : bool) (pattern : ValueExpressionParse) (escape : option ValueExpressionParse)
  | NullPredicateParse (IsNot : bool)
  | DistinctFromParse (IsNot : bool) (rhs : ValueExpressionParse)
with ValueExpressionParse : Set :=
  | ValuePrimary (p : option PrimaryExpressionParse)
  | AtTimeZoneParse (value : ValueExpressionParse) (timezone : TimeZoneSpecifierParse)
  | ArithmeticUnaryParse (operator : Z) (value : ValueExpressionParse)
  | ArithmeticBinaryParse (operator : Z) (lhs rhs : ValueExpressionParse)
  | ConcatenationParse (lhs rhs : ValueExpressionParse)
with PrimaryExpressionParse : Set := mkPrimaryExpressionParse (primaryType : Z) (payload : primary_payload) (children : list primary_child)
with primary_child : Set :=
  | PrimaryValue (v : ValueExpressionParse)
  | PrimaryExpr (e : ExpressionParse)
  | PrimaryQuery (q : QueryParse)
  | PrimaryID (id : IDParse)
  | FunctionCallParse (qualifiedName : QualifiedNameParse) (hasAsterisk : bool) (filter_q : option BooleanExpressionParse)
      (over_q : option OverParse) (expressionList : list ExpressionParse) (setQuantifier : option Z)
  | LambdaParse (expression : ExpressionParse) (identifiers : list IDParse)
  | SimpleCaseParse (value : ValueExpressionParse) (elseExpression : option ExpressionParse) (whenClause : list WhenParse)
  | SearchedCaseParse (elseExpression : option ExpressionParse) (whenClause : list WhenParse)
  | CastParse (expression : ExpressionParse) (type_t : TypeTParse)
  | SubscriptParse (value : option PrimaryExpressionParse) (index : ValueExpressionParse)
  | DereferenceParse (base : option PrimaryExpressionParse) (fieldName : IDParse)
  | SpecialDateTimeFunctionParse (precision functionName : Z)
  | SubstringParse (subTerm baseTerm : ValueExpressionParse) (forTerm : option ValueExpressionParse)
  | NormalizeParse (normalForm : Z) (value : ValueExpressionParse)
  | ExtractParse (lhs rhs : IDParse)
with WhenParse : Set := mkWhenParse (condition result : ExpressionParse)
with OverParse : Set := mkOverParse (partitions : list ExpressionParse) (sortItems : list SortItemParse) (child : option WindowFrameParse)
with WindowFrameParse : Set := mkWindowFrameParse (IsRange IsBetween : bool) (children : list FrameBoundParse)
with FrameBoundParse : Set := mkFrameBoundParse (IsCurrentRow IsUnbounded IsPreceding IsFollowing : bool).

(** ** Making the nodes *)

(** The loop of [NewBooleanExpressionParse] over its node.  The nodes that it
    can stand at: the context the function was given, a token below a context,
    or nil.  A turn of the loop is a pass through its switch: it ends the loop,
    or leaves a node and the flag [IsNot] for the next turn. *)
Inductive loop_node : Set := AtContext | AtToken (text : string) | AtNil.
Inductive loop_turn (A : Type) := TurnDone (term : outcome A) | TurnNext (node : loop_node) (IsNot : bool).
Arguments TurnDone {A} _.
Arguments TurnNext {A} _ _.

(** [fuel]: the turns after the first. *)
Fixpoint boolean_loop {A} (switch : loop_node -> bool -> loop_turn A) (fuel : nat) (node : loop_node) (IsNot : bool) : outcome A :=
  match switch node IsNot with
  | TurnDone term => term
  | TurnNext node' IsNot' =>
      match fuel with
      | O => Panic "out of fuel"
      | S fuel' => boolean_loop switch fuel' node' IsNot'
      end
  end.
(** No case of the switch is for a token or for nil. *)
Definition no_case {A} (node : loop_node) (IsNot : bool) : loop_turn A := TurnNext node IsNot.
(** [GetChild(0)] of NOT booleanExpression: the children of a context are the
    symbols of its rule, tokens too. *)
Definition not_child0 : loop_node := AtToken "NOT".

Definition traverse {A B} (f : A -> outcome B) : list A -> outcome (list B) :=
  fix go l := match l with
              | [] => Ret []
              | a :: l' => let! b := f a in let! bs := go l' in Ret (b :: bs)
              end.
Definition traverse_opt {A B} (f : A -> outcome B) (o : option A) : outcome (option B) :=
  match o with None => Ret None | Some a => let! b := f a in Ret (Some b) end.

Definition NewNonReservedParse (text : string) : option string := Some text.
Definition NewIDParse (id : Ctx.identifier) : IDParse :=
  match id with
  | Ctx.UnquotedIdentifier text | Ctx.DigitIdentifier text => mkIDParse text None
  | Ctx.BackQuotedIdentifier text => mkIDParse (String.substring 1 (String.length text - 2) text) None
  | Ctx.NonReservedIdentifier text => mkIDParse "" (NewNonReservedParse text)
  | Ctx.QuotedIdentifierAlternative _ => mkIDParse "" None
  end.
(** What a node that is no identifier gives: the points between the
    identifiers of a name are children of it too. *)
Definition no_identifier : IDParse := mkIDParse "" None.
Definition NewQualifiedNameParse (name : Ctx.qualifiedName) : QualifiedNameParse :=
  let '(Ctx.DotQualifiedName first others) := name in
  NewIDParse first :: concat (map (fun id => [no_identifier; NewIDParse id]) others).
Definition NewColumnAliasesParse (ids : list Ctx.identifier) : ColumnAliasesParse := map NewIDParse ids.

Definition NewIntervalFieldParse : Ctx.intervalField -> Z := Enum.interval_field.
Definition NewIntervalParse (i : Ctx.interval) : outcome IntervalParse :=
  let '(Ctx.Interval sign text from to) := i in
  match sign with
  | None => nil_pointer
  | Some sign =>
      Ret (mkIntervalParse (bool_decide (sign = "+")) (bool_decide (sign = "-")) text (NewIntervalFieldParse from)
             (NewIntervalFieldParse <$> to))
  end.
(** The first child is the token TIME, which no case is for. *)
Definition NewTimeZoneSpecifierParse (zone : Ctx.timeZoneSpecifier) : TimeZoneSpecifierParse := mkTimeZoneSpecifierParse None "".

Definition NewBaseTypeParse (b : Ctx.baseType) : BaseTypeParse :=
  match b with
  | Ctx.TIME_WITH_TIME_ZONE => mkBaseTypeParse 1 None
  | Ctx.TIMESTAMP_WITH_TIME_ZONE => mkBaseTypeParse 2 None
  | Ctx.DOUBLE_PRECISION => mkBaseTypeParse 3 None
  | Ctx.BaseTypeIdentifier id => mkBaseTypeParse 0 (Some (NewIDParse id))
  | Ctx.DATE => mkBaseTypeParse 0 None
  end.
(** The element type of an array is asked of a label that only the types of
    maps and rows have: nil is not the context that is asserted. *)
Fixpoint NewTypeTParse (t : Ctx.type_t) : outcome TypeTParse :=
  match t with
  | Ctx.TypeArraySuffix _ | Ctx.TypeArray _ => Panic "interface conversion"
  | Ctx.TypeMap key value =>
      let! k := NewTypeTParse key in
      let! v := NewTypeTParse value in
      Ret (mkTypeTParse None None [k; v] [] [] [])
  | Ctx.TypeRow elems =>
      Ret (mkTypeTParse None None [] (map (fun e => NewIDParse (fst e)) elems) (map (fun _ => no_identifier) elems) [])
  | Ctx.TypeBase b params =>
      let! params := traverse NewTypeParameterParse params in
      Ret (mkTypeTParse None (Some (NewBaseTypeParse b)) [] [] [] params)
  end
with NewTypeParameterParse (p : Ctx.typeParameter) : outcome TypeParameterParse :=
  match p with
  | Ctx.ParamInteger text => Ret (mkTypeParameterParse (Some (int64 (fst (Atoi text)))) None)
  | Ctx.ParamType t => let! t := NewTypeTParse t in Ret (mkTypeParameterParse None (Some t))
  end.

(** [strconv.ParseFloat] of a decimal number of the grammar: the float nearest
    to it; an error when it is too large. *)
Fixpoint read_digits (s : string) (n : Z) (count : Z) : Z * Z * string :=
  match s with
  | String c s' =>
      let d := Z.of_nat (nat_of_ascii c) - 48 in
      if (0 <=? d) && (d <=? 9) then read_digits s' (10 * n + d) (count + 1) else (n, count, s)
  | "" => (n, count, s)
  end.
Definition read_exponent (s : string) : Z :=
  match s with
  | String _ (String "-" s') => - fst (fst (read_digits s' 0 0))
  | String _ (String "+" s') => fst (fst (read_digits s' 0 0))
  | String _ s' => fst (fst (read_digits s' 0 0))
  | "" => 0
  end.
Definition float_of_ratio (p q : Z) : float64 :=
  match p, q with
  | Z.pos p, Z.pos q =>
      let '(m, e, l) := SFdiv_core_binary 53 1024 (Z.pos p) 0 (Z.pos q) 0 in binary_round_aux 53 1024 false m e l
  | _, _ => S754_zero false
  end.
Definition ParseFloat (text : string) : option float64 :=
  let '(whole, _, rest) := read_digits text 0 0 in
  let '(n, count, rest) := match rest with String "." rest' => read_digits rest' whole 0 | _ => (whole, 0, rest) end in
  let e := read_exponent rest - count in
  match (if 0 <=? e then float_of_ratio (n * 10 ^ e) 1 else float_of_ratio n (10 ^ (- e))) with
  | S754_infinity _ => None
  | f => Some f
  end.

(** The first child of an element of GROUP BY, and of the bound of a frame, is
    never one of the contexts of the switch: nothing is kept of them. *)
Definition NewGroupingElementParse (e : Ctx.groupingElement) : GroupingElementParse := mkGroupingElementParse None [] [] [].
Definition NewFrameBoundParse (b : Ctx.frameBound) : FrameBoundParse := mkFrameBoundParse false false false false.
Definition NewGroupByParse (g : Ctx.groupBy) : GroupByParse :=
  let '(Ctx.GroupBy quantifier elements) := g in
  mkGroupByParse (Enum.set_quantifier quantifier) (map NewGroupingElementParse elements).
Definition NewWindowFrameParse (w : Ctx.windowFrame) : WindowFrameParse :=
  let '(Ctx.WindowFrame frameType startFrame endFrame) := w in
  mkWindowFrameParse (EqualFold frameType "RANGE") (bool_decide (is_Some endFrame))
    (NewFrameBoundParse startFrame :: match endFrame with Some b => [NewFrameBoundParse b] | None => [] end).

Definition sort_ordering (asc : option bool) : Z :=
  match asc with None => 0 | Some true => Enum.ASCENDING | Some false => Enum.DESCENDING end.
Definition null_ordering (first : option bool) : Z :=
  match first with None => 0 | Some true => Enum.FIRST | Some false => Enum.LAST end.

(** The nodes that hold other nodes, made with the functions that make those. *)

Section nodes.
Context (build_query : Ctx.query -> outcome QueryParse) (build_boolean : Ctx.booleanExpression -> outcome BooleanExpressionParse).
Context (build_expression : Ctx.expression -> outcome ExpressionParse).
Context (build_value : Ctx.valueExpression -> outcome ValueExpressionParse).
Context (build_primary : Ctx.primaryExpression -> outcome (option PrimaryExpressionParse)).

Definition NewComparisonParse (operator : string) (v : Ctx.valueExpression) : outcome PredicateParse :=
  let! v := build_value v in Ret (ComparisonParse (StringToComparisonOperatorEnum operator) v).
Definition NewQuantifiedComparisonParse (operator quantifier : string) (q : Ctx.query) : outcome PredicateParse :=
  let! q := build_query q in
  Ret (QuantifiedComparisonParse (StringToComparisonOperatorEnum operator) (Enum.StringToComparisonQuantifierEnum quantifier) q).
Definition NewBetweenParse (NOT : bool) (lower upper : Ctx.valueExpression) : outcome PredicateParse :=
  let! l := build_value lower in
  let! u := build_value upper in
  Ret (BetweenParse NOT l u).
Definition NewInListParse (NOT : bool) (vs : list Ctx.valueExpression) : outcome PredicateParse :=
  let! vs := traverse build_value vs in Ret (InListParse NOT vs).
Definition NewInSubqueryParse (NOT : bool) (q : Ctx.query) : outcome PredicateParse :=
  let! q := build_query q in Ret (InSubqueryParse NOT q).
(** NOT is not looked at. *)
Definition NewLikeParse (NOT : bool) (pattern : Ctx.valueExpression) (escape : option Ctx.valueExpression) :
    outcome PredicateParse :=
  let! p := build_value pattern in
  let! e := traverse_opt build_value escape in
  Ret (LikeParse false p e).
Definition NewNullPredicateParse (NOT : bool) : outcome PredicateParse := Ret (NullPredicateParse NOT).
Definition NewDistinctFromParse (NOT : bool) (rhs : Ctx.valueExpression) : outcome PredicateParse :=
  let! r := build_value rhs in Ret (DistinctFromParse NOT r).

Definition NewAtTimeZoneParse (v : Ctx.valueExpression) (zone : Ctx.timeZoneSpecifier) : outcome ValueExpressionParse :=
  let! v := build_value v in Ret (AtTimeZoneParse v (NewTimeZoneSpecifierParse zone)).
Definition NewArithmeticUnaryParse (minus : bool) (v : Ctx.valueExpression) : outcome ValueExpressionParse :=
  let! v := build_value v in Ret (ArithmeticUnaryParse (if minus then Enum.MINUS else Enum.PLUS) v).
Definition NewArithmeticBinaryParse (lhs : Ctx.valueExpression) (operator : Ctx.arithmetic) (rhs : Ctx.valueExpression) :
    outcome ValueExpressionParse :=
  let! l := build_value lhs in
  let! r := build_value rhs in
  Ret (ArithmeticBinaryParse (Enum.arithmetic_operator operator) l r).
Definition NewConcatParse (lhs rhs : Ctx.valueExpression) : outcome ValueExpressionParse :=
  let! l := build_value lhs in
  let! r := build_value rhs in
  Ret (ConcatenationParse l r).

Definition NewFilterParse (filter_c : Ctx.booleanExpression) : outcome BooleanExpressionParse := build_boolean filter_c.
Definition NewFunctionCallParse (build_over : Ctx.over -> outcome OverParse) (name : Ctx.qualifiedName) (asterisk : bool)
    (quantifier : option Ctx.setQuantifier) (es : list Ctx.expression) (filter_c : option Ctx.booleanExpression)
    (over_c : option Ctx.over) : outcome primary_child :=
  let! filter_q := traverse_opt NewFilterParse filter_c in
  let! es := traverse build_expression es in
  let! over_q := traverse_opt build_over over_c in
  Ret (FunctionCallParse (NewQualifiedNameParse name) asterisk filter_q over_q es
         (match quantifier with None => None | q => Some (Enum.set_quantifier q) end)).
Definition NewLambdaParse (ids : list Ctx.identifier) (e : Ctx.expression) : outcome primary_child :=
  let! e := build_expression e in Ret (LambdaParse e (map NewIDParse ids)).
Definition NewSimpleCaseParse (build_when : Ctx.whenClause -> outcome WhenParse) (v : Ctx.valueExpression)
    (whens : list Ctx.whenClause) (els : option Ctx.expression) : outcome primary_child :=
  let! v := build_value v in
  let! els := traverse_opt build_expression els in
  let! whens := traverse build_when whens in
  Ret (SimpleCaseParse v els whens).
Definition NewSearchedCaseParse (build_when : Ctx.whenClause -> outcome WhenParse) (whens : list Ctx.whenClause)
    (els : option Ctx.expression) : outcome primary_child :=
  let! els := traverse_opt build_expression els in
  let! whens := traverse build_when whens in
  Ret (SearchedCaseParse els whens).
Definition NewCastParse (e : Ctx.expression) (t : Ctx.type_t) : outcome primary_child :=
  let! e := build_expression e in
  let! t := NewTypeTParse t in
  Ret (CastParse e t).
Definition NewSubscriptParse (v : Ctx.primaryExpression) (index : Ctx.valueExpression) : outcome primary_child :=
  let! v := build_primary v in
  let! index := build_value index in
  Ret (SubscriptParse v index).
Definition NewDereferenceParse (base : Ctx.primaryExpression) (fieldName : Ctx.identifier) : outcome primary_child :=
  let! base := build_primary base in Ret (DereferenceParse base (NewIDParse fieldName)).
Definition NewSpecialDateTimeFunctionParse (name : Ctx.dateTimeFunction) (precision : option string) : primary_child :=
  SpecialDateTimeFunctionParse (match precision with Some text => fst (Atoi text) | None => 0 end) (Enum.date_time_function name).
Definition NewSubstringParse (subterm baseterm : Ctx.valueExpression) (forterm : option Ctx.valueExpression) :
    outcome primary_child :=
  let! s := build_value subterm in
  let! b := build_value baseterm in
  let! f := traverse_opt build_value forterm in
  Ret (SubstringParse s b f).
Definition NewNormalizeParse (v : Ctx.valueExpression) (normalform : option string) : outcome primary_child :=
  let! v := build_value v in
  Ret (NormalizeParse (match normalform with Some text => Enum.normal_form text | None => 0 end) v).
(** The value is taken for an identifier, which it is not. *)
Definition NewExtractParse (id : Ctx.identifier) (v : Ctx.valueExpression) : primary_child :=
  ExtractParse (NewIDParse id) no_identifier.
Definition NewWhenParse (w : Ctx.whenClause) : outcome WhenParse :=
  let '(Ctx.WhenClause condition result) := w in
  let! condition := build_expression condition in
  let! result := build_expression result in
  Ret (mkWhenParse condition result).
End nodes.

Section build.
Context (fuel : nat).

Fixpoint NewQueryParse (c : Ctx.query) : outcome QueryParse :=
  let '(Ctx.Query w q) := c in
  let! w := traverse_opt NewWithParse w in
  let! q := NewQueryNoWithParse q in
  Ret (mkQueryParse w q)
with NewWithParse (c : Ctx.with_c) : outcome WithParse :=
  let '(Ctx.With RECURSIVE namedQueries) := c in
  let! qs := traverse NewNamedQueryParse namedQueries in
  Ret (mkWithParse RECURSIVE qs)
with NewNamedQueryParse (c : Ctx.namedQuery) : outcome NamedQueryParse :=
  let '(Ctx.NamedQuery name aliases q) := c in
  let! q := NewQueryParse q in
  Ret (mkNamedQueryParse (NewIDParse name) (NewColumnAliasesParse <$> aliases) q)
with NewQueryNoWithParse (c : Ctx.queryNoWith) : outcome QueryNoWithParse :=
  let '(Ctx.QueryNoWith term sortItems limit) := c in
  let! t := NewQueryTermParse term in
  let! items := traverse NewSortItemParse sortItems in
  Ret (mkQueryNoWithParse t items (match limit with Some text => fst (Atoi text) | None => 0 end))
with NewQueryTermParse (c : Ctx.queryTerm) : outcome QueryTermParse :=
  match c with
  | Ctx.QueryTermDefault p => let! p := NewQueryPrimaryParse p in Ret (mkQueryTermParse None None (Some p) 0 0)
  | Ctx.SetOperation lhs operator quantifier rhs =>
      let! l := NewQueryTermParse lhs in
      let! r := NewQueryTermParse rhs in
      Ret (mkQueryTermParse (Some l) (Some r) None (Enum.set_operator operator) (Enum.set_quantifier quantifier))
  end
with NewQueryPrimaryParse (c : Ctx.queryPrimary) : outcome QueryPrimaryParse :=
  match c with
  | Ctx.QueryPrimaryDefault s => let! s := NewQuerySpecificationParse s in Ret (mkQueryPrimaryParse (Some s) None None [])
  | Ctx.Table name => Ret (mkQueryPrimaryParse None (Some (NewQualifiedNameParse name)) None [])
  | Ctx.InlineTable es => let! es := traverse NewExpressionParse es in Ret (mkQueryPrimaryParse None None None es)
  | Ctx.Subquery q => let! q := NewQueryNoWithParse q in Ret (mkQueryPrimaryParse None None (Some q) [])
  end
with NewSortItemParse (c : Ctx.sortItem) : outcome SortItemParse :=
  let '(Ctx.SortItem e ordering nullOrdering) := c in
  let! e := NewExpressionParse e in
  Ret (mkSortItemParse (sort_ordering ordering) (null_ordering nullOrdering) e)
with NewQuerySpecificationParse (c : Ctx.querySpecification) : outcome QuerySpecificationParse :=
  let '(Ctx.QuerySpecification quantifier items relations where_c group having) := c in
  let! items := traverse NewSelectItemParse items in
  let! relations := traverse NewRelationParse relations in
  let! where_q := traverse_opt NewBooleanExpressionParse where_c in
  let! having := traverse_opt NewBooleanExpressionParse having in
  Ret (mkQuerySpecificationParse (Enum.set_quantifier quantifier) where_q (NewGroupByParse <$> group) having items relations)
with NewSelectItemParse (c : Ctx.selectItem) : outcome SelectItemParse :=
  match c with
  | Ctx.SelectSingle e alias => let! e := NewExpressionParse e in Ret (mkSelectItemParse (Some e) (NewIDParse <$> alias) None false)
  | Ctx.SelectAll name => Ret (mkSelectItemParse None None (NewQualifiedNameParse <$> name) true)
  end
with NewRelationParse (c : Ctx.relation) : outcome RelationParse :=
  match c with
  | Ctx.JoinRelation lhs type rhs criteria =>
      let! l := NewRelationParse lhs in
      let! r := NewRelationParse rhs in
      let! criteria := traverse_opt NewJoinCriteriaParse criteria in
      Ret (mkRelationParse (Some l) (Some r) criteria None (match type with Some t => Enum.join_type t | None => 0 end))
  | Ctx.RelationDefault s => let! s := NewSampledRelationParse s in Ret (mkRelationParse None None None (Some s) 0)
  end
with NewJoinCriteriaParse (c : Ctx.joinCriteria) : outcome JoinCriteriaParse :=
  match c with
  | Ctx.JoinOn b => let! b := NewBooleanExpressionParse b in Ret (mkJoinCriteriaParse b [])
  | Ctx.JoinUsing ids =>
      let! b := boolean_loop no_case fuel AtNil false in
      Ret (mkJoinCriteriaParse b (map NewIDParse ids))
  end
with NewSampledRelationParse (c : Ctx.sampledRelation) : outcome SampledRelationParse :=
  let '(Ctx.SampledRelation a sample) := c in
  let! a := NewAliasedRelationParse a in
  match sample with
  | None => Ret (mkSampledRelationParse 0 a None)
  | Some (type, e) => let! e := NewExpressionParse e in Ret (mkSampledRelationParse (Enum.sample_type type) a (Some e))
  end
with NewAliasedRelationParse (c : Ctx.aliasedRelation) : outcome AliasedRelationParse :=
  let '(Ctx.AliasedRelation p id aliases) := c in
  let! p := NewRelationPrimaryParse p in
  Ret (match id with
       | None => mkAliasedRelationParse false false p None None
       | Some id => mkAliasedRelationParse true (bool_decide (is_Some aliases)) p (Some (NewIDParse id)) (NewColumnAliasesParse <$> aliases)
       end)
with NewRelationPrimaryParse (c : Ctx.relationPrimary) : outcome RelationPrimaryParse :=
  match c with
  | Ctx.TableName name => Ret (mkRelationPrimaryParse true false false false false [RelationName (NewQualifiedNameParse name)])
  | Ctx.SubqueryRelation q => let! q := NewQueryParse q in Ret (mkRelationPrimaryParse false true false false false [RelationQuery q])
  | Ctx.Unnest es ordinality =>
      let! es := traverse NewExpressionParse es in
      Ret (mkRelationPrimaryParse false false true false ordinality (map RelationExpression es))
  | Ctx.ParenthesizedRelation r =>
      let! r := NewRelationParse r in Ret (mkRelationPrimaryParse false false false true false [RelationRelation r])
  end
with NewExpressionParse (c : Ctx.expression) : outcome ExpressionParse :=
  match c with
  | Ctx.ExpressionBoolean b => let! b := NewBooleanExpressionParse b in Ret (mkExpressionParse true (ChildBoolean b))
  | Ctx.ExpressionValue v => let! v := NewValueExpressionParse v in Ret (mkExpressionParse false (ChildValue v))
  end
with NewBooleanExpressionParse (c : Ctx.booleanExpression) : outcome BooleanExpressionParse :=
  boolean_loop (fun node IsNot =>
    match node with
    | AtContext =>
        match c with
        | Ctx.LogicalNot _ => TurnNext not_child0 true
        | Ctx.LogicalBinary lhs operator rhs =>
            TurnDone (
              let! r := NewExpressionParse rhs in
              let! l := NewBooleanExpressionParse lhs in
              Ret (mkBooleanExpressionParse None (Some (ChildBoolean l)) (Some r)
                (if decide (operator = "AND") then Enum.AND_OP else if decide (operator = "OR") then Enum.OR_OP else 0)
                false IsNot false))
        | Ctx.BooleanDefault v p =>
            TurnDone (
              let! v := NewValueExpressionParse v in
              let! p := NewPredicateParse p in
              Ret (mkBooleanExpressionParse (Some p) (Some (ChildValue v)) None 0 false IsNot false))
        | Ctx.BoolLiteralToo TRUE => TurnDone (Ret (mkBooleanExpressionParse None None None 0 true IsNot TRUE))
        end
    | _ => no_case node IsNot
    end) fuel AtContext false
with NewPredicateParse (c : Ctx.predicate) : outcome PredicateParse :=
  match c with
  | Ctx.Comparison operator v => NewComparisonParse NewValueExpressionParse operator v
  | Ctx.QuantifiedComparison operator quantifier q => NewQuantifiedComparisonParse NewQueryParse operator quantifier q
  | Ctx.Between NOT lower upper => NewBetweenParse NewValueExpressionParse NOT lower upper
  | Ctx.InList NOT vs => NewInListParse NewValueExpressionParse NOT vs
  | Ctx.InSubquery NOT q => NewInSubqueryParse NewQueryParse NOT q
  | Ctx.Like NOT pattern escape => NewLikeParse NewValueExpressionParse NOT pattern escape
  | Ctx.NullPredicate NOT => NewNullPredicateParse NOT
  | Ctx.DistinctFrom NOT rhs => NewDistinctFromParse NewValueExpressionParse NOT rhs
  end
with NewValueExpressionParse (c : Ctx.valueExpression) : outcome ValueExpressionParse :=
  match c with
  | Ctx.ValueExpressionDefault p => let! p := NewPrimaryExpressionParse p in Ret (ValuePrimary p)
  | Ctx.AtTimeZone v zone => NewAtTimeZoneParse NewValueExpressionParse v zone
  | Ctx.ArithmeticUnary minus v => NewArithmeticUnaryParse NewValueExpressionParse minus v
  | Ctx.ArithmeticBinary lhs operator rhs => NewArithmeticBinaryParse NewValueExpressionParse lhs operator rhs
  | Ctx.Concatenation lhs rhs => NewConcatParse NewValueExpressionParse lhs rhs
  end
with NewPrimaryExpressionParse (c : Ctx.primaryExpression) : outcome (option PrimaryExpressionParse) :=
  let value type v := Ret (Some (mkPrimaryExpressionParse type (PayloadValue v) [])) in
  let node type children := Ret (Some (mkPrimaryExpressionParse type PayloadNil children)) in
  let child type (c : outcome primary_child) := let! c := c in node type [c] in
  match c with
  | Ctx.NullLiteral => node Enum.NULL_LITERAL []
  | Ctx.ParameterMark => node Enum.PARAMETER []
  | Ctx.StringLiteral text => value Enum.STRING_LITERAL (string_val text)
  | Ctx.BinaryLiteral text => value Enum.BINARY_LITERAL (string_val text)
  | Ctx.IntegerLiteral text =>
      let '(n, ok) := Atoi text in if ok : bool then value Enum.INTEGER_LITERAL (int64_val n) else Ret None
  | Ctx.DecimalLiteral text =>
      match ParseFloat text with
      | Some f => value Enum.DECIMAL_LITERAL (mkVal KFloat64 (le_bytes 8 (float64_bits f)))
      | None => Ret None
      end
  | Ctx.BoolLiteral TRUE => value Enum.BOOLEAN_LITERAL (bool_val TRUE)
  | Ctx.TypedLiteral _ _ => node 0 []
  | Ctx.TypeConstructor None text => value Enum.TYPE_CONSTRUCTOR (string_val text)
  | Ctx.TypeConstructor (Some _) _ => Ret (Some (mkPrimaryExpressionParse Enum.TYPE_CONSTRUCTOR (PayloadID no_identifier) []))
  | Ctx.IntervalLiteral _ => Panic "interface conversion"
  | Ctx.Position v1 v2 =>
      let! v1 := NewValueExpressionParse v1 in
      let! v2 := NewValueExpressionParse v2 in
      node Enum.POSITION [PrimaryValue v1; PrimaryValue v2]
  | Ctx.RowConstructor es => let! es := traverse NewExpressionParse es in node Enum.ROW_CONSTRUCTOR (map PrimaryExpr es)
  | Ctx.FunctionCall name asterisk quantifier es filter_c over_c =>
      child Enum.FUNCTION_CALL
        (NewFunctionCallParse NewBooleanExpressionParse NewExpressionParse NewOverParse name asterisk quantifier es filter_c over_c)
  | Ctx.Lambda ids e => child Enum.LAMBDA (NewLambdaParse NewExpressionParse ids e)
  | Ctx.SubqueryExpression q => let! q := NewQueryParse q in node Enum.SUBQUERY_EXPRESSION [PrimaryQuery q]
  | Ctx.Exists_c q => let! q := NewQueryParse q in node Enum.EXISTS_EXPRESSION [PrimaryQuery q]
  | Ctx.SimpleCase v whens els =>
      child Enum.SIMPLE_CASE
        (NewSimpleCaseParse NewExpressionParse NewValueExpressionParse (NewWhenParse NewExpressionParse) v whens els)
  | Ctx.SearchedCase whens els =>
      child Enum.SEARCHED_CASE (NewSearchedCaseParse NewExpressionParse (NewWhenParse NewExpressionParse) whens els)
  | Ctx.Cast e t => child Enum.CAST (NewCastParse NewExpressionParse e t)
  | Ctx.ArrayConstructor es => let! es := traverse NewExpressionParse es in node Enum.ARRAY_CONSTRUCTOR (map PrimaryExpr es)
  | Ctx.Subscript v index => child Enum.SUBSCRIPT (NewSubscriptParse NewValueExpressionParse NewPrimaryExpressionParse v index)
  | Ctx.ColumnReference id => node Enum.COLUMN_REFERENCE [PrimaryID (NewIDParse id)]
  | Ctx.Dereference base fieldName => child Enum.DEREFERENCE (NewDereferenceParse NewPrimaryExpressionParse base fieldName)
  | Ctx.SpecialDateTimeFunction name precision =>
      node Enum.SPECIAL_DATE_TIME_FUNCTION [NewSpecialDateTimeFunctionParse name precision]
  | Ctx.Substring subterm baseterm forterm =>
      child Enum.SUBSTRING (NewSubstringParse NewValueExpressionParse subterm baseterm forterm)
  | Ctx.Normalize v normalform => child Enum.NORMALIZE (NewNormalizeParse NewValueExpressionParse v normalform)
  | Ctx.Extract id v => node Enum.EXTRACT [NewExtractParse id v]
  | Ctx.ParenthesizedExpression e => let! e := NewExpressionParse e in node Enum.PARENTHESIZED_EXPRESSION [PrimaryExpr e]
  end
with NewOverParse (c : Ctx.over) : outcome OverParse :=
  let '(Ctx.Over partition orderitem frame) := c in
  let! partition := traverse NewExpressionParse partition in
  let! orderitem := traverse NewSortItemParse orderitem in
  Ret (mkOverParse partition orderitem (NewWindowFrameParse <$> frame)).
End build.

(** ** Statements *)

Module Stmt.
Definition QUERY_STMT : Z := 1.
Definition CREATE_TABLE_STMT : Z := 2.
Definition CREATE_TABLE_AS_SELECT_STMT : Z := 3.
Definition DROP_TABLE_STMT : Z := 4.
Definition INSERT_INTO_STMT : Z := 5.
Definition DELETE_STMT : Z := 6.
Definition RENAME_TABLE_STMT : Z := 7.
Definition RENAME_COLUMN_STMT : Z := 8.
Definition ADD_COLUMN_STMT : Z := 9.
Definition CREATE_VIEW_STMT : Z := 10.
Definition DROP_VIEW_STMT : Z := 11.
Definition CALL_STMT : Z := 12.
Definition GRANT_STMT : Z := 13.
Definition REVOKE_STMT : Z := 14.
Definition EXPLAIN_STMT : Z := 15.
Definition SHOW_CREATE_TABLE_STMT : Z := 16.
Definition SHOW_CREATE_VIEW_STMT : Z := 17.
Definition SHOW_TABLES_STMT : Z := 18.
Definition SHOW_SCHEMAS_STMT : Z := 19.
Definition SHOW_CATALOGS_STMT : Z := 20.
Definition SHOW_COLUMNS_STMT : Z := 21.
Definition SHOW_FUNCTIONS_STMT : Z := 22.
Definition SHOW_SESSION_STMT : Z := 23.
Definition SET_SESSION_STMT : Z := 24.
Definition RESET_SESSION_STMT : Z := 25.
Definition START_TRANSACTION_STMT : Z := 26.
Definition COMMIT_STMT : Z := 27.
Definition ROLLBACK_STMT : Z := 28.
Definition SHOW_PARTITIONS_STMT : Z := 29.
Definition PREPARE_STMT : Z := 30.
Definition DEALLOCATE_STMT : Z := 31.
Definition EXECUTE_STMT : Z := 32.
Definition DESCRIBE_INPUT_STMT : Z := 33.
Definition DESCRIBE_OUTPUT_STMT : Z := 34.
End Stmt.

Record ColumnDefinitionParse := mkColumnDefinitionParse { cd_identifier : IDParse; cd_type_t : TypeTParse; cd_comment : string }.
Record LikeClauseParse := mkLikeClauseParse { lc_name : QualifiedNameParse; lc_IsIncluding : bool }.
Record TableElementParse := mkTableElementParse { te_columnDefinition : option ColumnDefinitionParse; te_likeClause : option LikeClauseParse }.
Record TablePropertyParse := mkTablePropertyParse { tp_left : IDParse; tp_right : ExpressionParse }.
(** The first children of these are not among the cases either. *)
Inductive CallArgParse := mkCallArgParse.
Inductive ExplainOptionParse := mkExplainOptionParse.
Inductive TransactionModeParse := mkTransactionModeParse.
Record PrivilegeParse := mkPrivilegeParse { pv_payload : option string; pv_child : option IDParse }.

Inductive StatementParse := mkStatementParse {
  statementType : Z;
  st_query : option QueryParse;
  st_columnAliases : option ColumnAliasesParse;
  st_from : option (QualifiedNameParse + IDParse);
  st_to : option (QualifiedNameParse + IDParse);
  st_tableName : option QualifiedNameParse;
  st_column : option ColumnDefinitionParse;
  st_qualifiedNames : list QualifiedNameParse;
  st_tableElements : list TableElementParse;
  st_booleanExpressions : list BooleanExpressionParse;
  st_callArguments : list CallArgParse;
  st_privileges : list PrivilegeParse;
  st_explainOptions : list ExplainOptionParse;
  st_identifiers : list IDParse;
  st_expressions : list ExpressionParse;
  st_sortItems : list SortItemParse;
  st_transactionModes : list TransactionModeParse;
  st_grantee : option IDParse;
  st_statement : option StatementParse;
  st_tableProperties : option (list TablePropertyParse);
  st_IsFrom : bool;
  st_IsGrantOption : bool;
  st_IsAll : bool;
  st_IsExists : bool;
  st_pattern : string;
  st_limit : Z;
  st_QueryText : string;
}.

Record StatementsParse := mkStatementsParse { sps_child : StatementParse; sps_QueryText : string }.

Section statements.
Context (fuel : nat).

Definition NewColumnDefinitionParse (c : Ctx.columnDefinition) : outcome ColumnDefinitionParse :=
  let '(Ctx.ColumnDefinition id t comment) := c in
  let! t := NewTypeTParse t in
  Ret (mkColumnDefinitionParse (NewIDParse id) t (default "" comment)).
Definition NewLikeClauseParse (c : Ctx.likeClause) : LikeClauseParse :=
  let '(Ctx.LikeClause name INCLUDING) := c in mkLikeClauseParse (NewQualifiedNameParse name) INCLUDING.
Definition NewTableElementParse (c : Ctx.tableElement) : outcome TableElementParse :=
  match c with
  | Ctx.TableColumn c => let! c := NewColumnDefinitionParse c in Ret (mkTableElementParse (Some c) None)
  | Ctx.TableLike l => Ret (mkTableElementParse None (Some (NewLikeClauseParse l)))
  end.
Definition NewTablePropertyParse (c : Ctx.tableProperty) : outcome TablePropertyParse :=
  let '(Ctx.TableProperty id e) := c in
  let! e := NewExpressionParse fuel e in
  Ret (mkTablePropertyParse (NewIDParse id) e).
Definition NewTablePropertiesParse (l : list Ctx.tableProperty) : outcome (list TablePropertyParse) :=
  traverse NewTablePropertyParse l.
Definition NewCallArgParse (c : Ctx.callArgument) : CallArgParse := mkCallArgParse.
Definition NewExplainOptionParse (c : Ctx.explainOption) : ExplainOptionParse := mkExplainOptionParse.
Definition NewTransactionModeParse (c : Ctx.transactionMode) : TransactionModeParse := mkTransactionModeParse.
Definition NewPrivilegeParse (c : Ctx.privilege) : PrivilegeParse :=
  match c with
  | Ctx.PrivilegeWord text => mkPrivilegeParse (Some text) None
  | Ctx.PrivilegeIdentifier id => mkPrivilegeParse None (Some (NewIDParse id))
  end.

(** A statement of a type, with the fields that most of them have. *)
Definition statement_of (queryText : string) (type : Z) (names : list Ctx.qualifiedName) (ids : list Ctx.identifier) : StatementParse :=
  mkStatementParse type None None None None None None (map NewQualifiedNameParse names) [] [] [] [] [] (map NewIDParse ids)
    [] [] [] None None None false false false false "" 0 queryText.

Definition with_table (name : Ctx.qualifiedName) (exists_c : bool) (q : option QueryParse) (aliases : option (list Ctx.identifier))
    (elements : list TableElementParse) (properties : option (list TablePropertyParse)) (s : StatementParse) : StatementParse :=
  mkStatementParse (statementType s) q (NewColumnAliasesParse <$> aliases) None None (Some (NewQualifiedNameParse name)) None
    (st_qualifiedNames s) elements [] [] [] [] [] [] [] [] None None properties false false false exists_c "" 0 (st_QueryText s).
Definition with_query (q : QueryParse) (s : StatementParse) : StatementParse :=
  mkStatementParse (statementType s) (Some q) None None None None None [] [] [] [] [] [] [] [] [] [] None None None
    false false false false "" 0 (st_QueryText s).
Definition with_renaming (table : option Ctx.qualifiedName) (from to : QualifiedNameParse + IDParse) (s : StatementParse) : StatementParse :=
  mkStatementParse (statementType s) None None (Some from) (Some to) (NewQualifiedNameParse <$> table) None [] [] [] [] [] [] [] [] [] []
    None None None false false false false "" 0 (st_QueryText s).
Definition with_column (table : Ctx.qualifiedName) (c : ColumnDefinitionParse) (s : StatementParse) : StatementParse :=
  mkStatementParse (statementType s) None None None None (Some (NewQualifiedNameParse table)) (Some c) [] [] [] [] [] [] [] [] [] []
    None None None false false false false "" 0 (st_QueryText s).
Definition with_conditions (table : option Ctx.qualifiedName) (bs : list BooleanExpressionParse) (items : list SortItemParse) (from : bool)
    (limit : Z) (s : StatementParse) : StatementParse :=
  mkStatementParse (statementType s) None None None None (NewQualifiedNameParse <$> table) None (st_qualifiedNames s) [] bs [] [] []
    (st_identifiers s) [] items [] None None None from false false false "" limit (st_QueryText s).
Definition with_arguments (args : list CallArgParse) (es : list ExpressionParse) (modes : list TransactionModeParse) (s : StatementParse) :
    StatementParse :=
  mkStatementParse (statementType s) None None None None None None (st_qualifiedNames s) [] [] args [] [] (st_identifiers s) es [] modes
    None None None false false false false "" 0 (st_QueryText s).
Definition with_grant (privileges : list Ctx.privilege) (grantee : Ctx.identifier) (grantOption all : bool) (s : StatementParse) :
    StatementParse :=
  mkStatementParse (statementType s) None None None None None None (st_qualifiedNames s) [] [] [] (map NewPrivilegeParse privileges) [] [] []
    [] [] (Some (NewIDParse grantee)) None None false grantOption all false "" 0 (st_QueryText s).
Definition with_statement (options : list Ctx.explainOption) (inner : StatementParse) (s : StatementParse) : StatementParse :=
  mkStatementParse (statementType s) None None None None None None [] [] [] [] [] (map NewExplainOptionParse options) (st_identifiers s) []
    [] [] None (Some inner) None false false false false "" 0 (st_QueryText s).
Definition with_pattern (from : bool) (pattern : option string) (s : StatementParse) : StatementParse :=
  mkStatementParse (statementType s) None None None None None None (st_qualifiedNames s) [] [] [] [] [] (st_identifiers s) [] [] []
    None None None from false false false (default "" pattern) 0 (st_QueryText s).

Fixpoint NewStatementParse (queryText : string) (c : Ctx.statement) : outcome StatementParse :=
  let stmt := statement_of queryText in
  match c with
  | Ctx.StatementDefault q => let! q := NewQueryParse fuel q in Ret (with_query q (stmt Stmt.QUERY_STMT [] []))
  | Ctx.CreateTable e name elements properties =>
      let! properties := traverse_opt NewTablePropertiesParse properties in
      let! elements := traverse NewTableElementParse elements in
      Ret (with_table name e None None elements properties (stmt Stmt.CREATE_TABLE_STMT [] []))
  | Ctx.CreateTableAsSelect e name properties q =>
      let! q := NewQueryParse fuel q in
      let! properties := traverse_opt NewTablePropertiesParse properties in
      Ret (with_table name e (Some q) None [] properties (stmt Stmt.CREATE_TABLE_AS_SELECT_STMT [] []))
  | Ctx.DropTable e name => Ret (with_table name e None None [] None (stmt Stmt.DROP_TABLE_STMT [] []))
  | Ctx.InsertInto name aliases q =>
      let! q := NewQueryParse fuel q in
      Ret (with_table name false (Some q) aliases [] None (stmt Stmt.INSERT_INTO_STMT [] []))
  | Ctx.Delete name where_c =>
      let! b := traverse_opt (NewBooleanExpressionParse fuel) where_c in
      Ret (with_conditions (Some name) (match b with Some b => [b] | None => [] end) [] false 0 (stmt Stmt.DELETE_STMT [] []))
  | Ctx.RenameTable from to =>
      Ret (with_renaming None (inl (NewQualifiedNameParse from)) (inl (NewQualifiedNameParse to)) (stmt Stmt.RENAME_TABLE_STMT [] []))
  | Ctx.RenameColumn table from to =>
      Ret (with_renaming (Some table) (inr (NewIDParse from)) (inr (NewIDParse to)) (stmt Stmt.RENAME_COLUMN_STMT [] []))
  | Ctx.AddColumn table column =>
      let! c := NewColumnDefinitionParse column in
      Ret (with_column table c (stmt Stmt.ADD_COLUMN_STMT [] []))
  | Ctx.CreateView name aliases q =>
      let! q := NewQueryParse fuel q in
      Ret (with_table name false (Some q) aliases [] None (stmt Stmt.CREATE_VIEW_STMT [] []))
  | Ctx.DropView e name => Ret (with_table name e None None [] None (stmt Stmt.DROP_VIEW_STMT [] []))
  | Ctx.Call name args => Ret (with_arguments (map NewCallArgParse args) [] [] (stmt Stmt.CALL_STMT [name] []))
  | Ctx.Grant option_c privileges all name grantee =>
      Ret (with_grant privileges grantee option_c all (stmt Stmt.GRANT_STMT [name] []))
  | Ctx.Revoke grant privileges all name grantee =>
      Ret (with_grant privileges grantee grant all (stmt Stmt.REVOKE_STMT [name] []))
  | Ctx.Explain options s =>
      let! inner := NewStatementParse queryText s in
      Ret (with_statement options inner (stmt Stmt.EXPLAIN_STMT [] []))
  | Ctx.ShowCreateTable name => Ret (stmt Stmt.SHOW_CREATE_TABLE_STMT [name] [])
  | Ctx.ShowCreateView name => Ret (stmt Stmt.SHOW_CREATE_VIEW_STMT [name] [])
  | Ctx.ShowTables name pattern =>
      Ret (match name with
           | Some (from, name) => with_pattern from pattern (stmt Stmt.SHOW_TABLES_STMT [name] [])
           | None => with_pattern false pattern (stmt Stmt.SHOW_TABLES_STMT [] [])
           end)
  | Ctx.ShowSchemas id pattern =>
      Ret (match id with
           | Some (from, id) => with_pattern from pattern (stmt Stmt.SHOW_SCHEMAS_STMT [] [id])
           | None => with_pattern false pattern (stmt Stmt.SHOW_SCHEMAS_STMT [] [])
           end)
  | Ctx.ShowCatalogs pattern => Ret (with_pattern false pattern (stmt Stmt.SHOW_CATALOGS_STMT [] []))
  | Ctx.ShowColumns from name => Ret (with_pattern from None (stmt Stmt.SHOW_COLUMNS_STMT [name] []))
  | Ctx.ShowFunctions => Ret (stmt Stmt.SHOW_FUNCTIONS_STMT [] [])
  | Ctx.ShowSession => Ret (stmt Stmt.SHOW_SESSION_STMT [] [])
  | Ctx.SetSession name e =>
      let! e := NewExpressionParse fuel e in
      Ret (with_arguments [] [e] [] (stmt Stmt.SET_SESSION_STMT [name] []))
  | Ctx.ResetSession name => Ret (stmt Stmt.RESET_SESSION_STMT [name] [])
  | Ctx.StartTransaction modes => Ret (with_arguments [] [] (map NewTransactionModeParse modes) (stmt Stmt.START_TRANSACTION_STMT [] []))
  | Ctx.Commit => Ret (stmt Stmt.COMMIT_STMT [] [])
  | Ctx.Rollback => Ret (stmt Stmt.ROLLBACK_STMT [] [])
  | Ctx.ShowPartitions from name where_c sortItems limit =>
      let! b := traverse_opt (NewBooleanExpressionParse fuel) where_c in
      let! items := traverse (NewSortItemParse fuel) sortItems in
      Ret (with_conditions None (match b with Some b => [b] | None => [] end) items from
             (match limit with Some text => fst (Atoi text) | None => 0 end) (stmt Stmt.SHOW_PARTITIONS_STMT [name] []))
  | Ctx.Prepare id s =>
      let! inner := NewStatementParse queryText s in
      Ret (with_statement [] inner (stmt Stmt.PREPARE_STMT [] [id]))
  | Ctx.Deallocate id => Ret (stmt Stmt.DEALLOCATE_STMT [] [id])
  | Ctx.Execute id es =>
      let! es := traverse (NewExpressionParse fuel) es in
      Ret (with_arguments [] es [] (stmt Stmt.EXECUTE_STMT [] [id]))
  | Ctx.DescribeInput id => Ret (stmt Stmt.DESCRIBE_INPUT_STMT [] [id])
  | Ctx.DescribeOutput id => Ret (stmt Stmt.DESCRIBE_OUTPUT_STMT [] [id])
  end.

Definition NewStatementsParse (queryText : string) (c : Ctx.statements) : outcome StatementsParse :=
  let '(Ctx.Statements s) := c in
  let! s := NewStatementParse queryText s in
  Ret (mkStatementsParse s queryText).
End statements.
