(* ===== verification/GoTimeParse.v ===== *)
(** * Dates in text (the standard library's time.Parse)

    What [time.Parse] makes of a text for layouts of a date, a time of the day
    and the abbreviation or the offset of a zone. *)

From S2P Require Export GoTime GoStrings.

#[local] Open Scope string_scope.
#[local] Open Scope Z_scope.

(** The chunks of a layout: [2006], [01], [02], [15], [03], [04], [05], [MST],
    [Z07:00] and a character between them. *)
Inductive chunk :=
  | LongYear | ZeroMonth | ZeroDay | Hour24 | ZeroHour12 | ZeroMinute | ZeroSecond | ZoneName | ZoneColon
  | Literal_char (c : ascii).

Record parsed := mkParsed {
  pt_year : Z; pt_month : Z; pt_day : Z; pt_hour : Z; pt_min : Z; pt_sec : Z; pt_nsec : Z;
  pt_zone : option string; pt_offset : option Z }.

(** [getnum]: one digit is enough unless [fixed]. *)
Definition getnum (value : string) (fixed : bool) : option (Z * string) :=
  match value with
  | String a rest =>
      if is_digit a then
        match rest with
        | String b rest' => if is_digit b then Some (10 * digit_val a + digit_val b, rest')
                            else if fixed then None else Some (digit_val a, rest)
        | "" => if fixed then None else Some (digit_val a, rest)
        end
      else None
  | "" => None
  end.

Fixpoint cut_spaces (s : string) : string := match s with String " " s' => cut_spaces s' | _ => s end.
Definition skip (c : ascii) (value : string) : option string :=
  if Ascii.eqb c " " then
    match value with
    | String d _ => if Ascii.eqb d " " then Some (cut_spaces value) else None
    | "" => Some ""
    end
  else match value with
       | String d value' => if Ascii.eqb d c then Some value' else None
       | "" => None
       end.

Fixpoint take_digits (s : string) (n count : Z) : Z * Z * string :=
  match s with
  | String c s' => if is_digit c then take_digits s' (10 * n + digit_val c) (count + 1) else (n, count, s)
  | "" => (n, count, s)
  end.
(** A fraction behind the seconds that the layout does not have: its digits
    have to be less than a second's nanoseconds before they are scaled. *)
Definition take_fraction (value : string) : option (Z * string) :=
  match value with
  | String "." (String d rest) =>
      if is_digit d then
        let '(ns, count, rest') := take_digits (String d rest) 0 0 in
        if ns <? 1000000000 then Some (ns * 10 ^ Z.max 0 (9 - count), rest') else None
      else Some (0, value)
  | _ => Some (0, value)
  end.

(** *** Abbreviations of zones *)

Definition is_upper (c : ascii) : bool := let n := Z.of_nat (nat_of_ascii c) in (65 <=? n) && (n <=? 90).
Fixpoint count_upper (s : string) (most : nat) : nat :=
  match most, s with
  | S most', String c s' => if is_upper c then S (count_upper s' most') else O
  | _, _ => O
  end.
(** [parseSignedOffset]: the length of a sign with hours. *)
Definition signed_offset_length (value : string) : nat :=
  match value with
  | String c rest =>
      if Ascii.eqb c "-" || Ascii.eqb c "+" then
        let '(x, count, _) := take_digits rest 0 0 in
        let x := if Ascii.eqb c "-" then - x else x in
        if (count =? 0) || (x =? 0) || (x <? -14) || (12 <? x) then O else S (Z.to_nat count)
      else O
  | "" => O
  end.
Definition parseTimeZone (value : string) : option nat :=
  let nUpper := count_upper value 6 in
  if (String.length value <? 3)%nat then None
  else if String.prefix "ChST" value || String.prefix "MeST" value then Some 4%nat
  else if String.prefix "GMT" value then Some (3 + signed_offset_length (String.substring 3 (String.length value) value))%nat
  else if String.prefix "+" value || String.prefix "-" value then
    match signed_offset_length value with O => None | n => Some n end
  else match nUpper with
       | 3%nat => Some 3%nat
       | 4%nat => if decide (String.get 3 value = Some "T"%char) then Some 4%nat
                  else if String.prefix "WITA" value then Some 4%nat else None
       | 5%nat => if decide (String.get 4 value = Some "T"%char) then Some 5%nat else None
       | _ => None
       end.

(** *** The layouts *)

(** [atoi] of two characters; a sign before one digit is allowed. *)
Definition atoi2 (a b : ascii) : option Z :=
  match digits_val 0 (String a (String b "")) with
  | Some n => Some n
  | None =>
      if is_digit b then
        if Ascii.eqb a "-" then Some (- digit_val b) else if Ascii.eqb a "+" then Some (digit_val b) else None
      else None
  end.
(** A [Z], or a sign with hours and minutes. *)
Definition parse_offset (value : string) : option (option Z * string) :=
  match value with
  | String "Z" rest => Some (Some 0, rest)
  | String s (String h1 (String h2 (String ":" (String m1 (String m2 rest))))) =>
      match atoi2 h1 h2, atoi2 m1 m2 with
      | Some h, Some m =>
          let offset := (h * 60 + m) * 60 in
          if Ascii.eqb s "+" then Some (Some offset, rest) else if Ascii.eqb s "-" then Some (Some (- offset), rest) else None
      | _, _ => None
      end
  | _ => None
  end.

Definition parse_chunk (c : chunk) (value : string) (p : parsed) : option (parsed * string) :=
  let '(mkParsed year month day hour min sec nsec zone offset) := p in
  match c with
  | LongYear =>
      let four := String.substring 0 4 value in
      if (4 <=? String.length value)%nat then
        match digits_val 0 four with
        | Some y => Some (mkParsed y month day hour min sec nsec zone offset, String.substring 4 (String.length value) value)
        | None => None
        end
      else None
  | ZeroMonth =>
      match getnum value true with
      | Some (m, rest) => if (1 <=? m) && (m <=? 12) then Some (mkParsed year m day hour min sec nsec zone offset, rest) else None
      | None => None
      end
  | ZeroDay =>
      match getnum value true with
      | Some (d, rest) => Some (mkParsed year month d hour min sec nsec zone offset, rest)
      | None => None
      end
  | Hour24 =>
      match getnum value false with
      | Some (h, rest) => if h <? 24 then Some (mkParsed year month day h min sec nsec zone offset, rest) else None
      | None => None
      end
  | ZeroHour12 =>
      match getnum value true with
      | Some (h, rest) => if h <=? 12 then Some (mkParsed year month day h min sec nsec zone offset, rest) else None
      | None => None
      end
  | ZeroMinute =>
      match getnum value true with
      | Some (m, rest) => if m <? 60 then Some (mkParsed year month day hour m sec nsec zone offset, rest) else None
      | None => None
      end
  | ZeroSecond =>
      match getnum value true with
      | Some (s, rest) =>
          if s <? 60 then
            match take_fraction rest with
            | Some (ns, rest') => Some (mkParsed year month day hour min s ns zone offset, rest')
            | None => None
            end
          else None
      | None => None
      end
  | ZoneName =>
      if String.prefix "UTC" value then Some (p, String.substring 3 (String.length value) value)
      else match parseTimeZone value with
           | Some n => Some (mkParsed year month day hour min sec nsec (Some (String.substring 0 n value)) offset,
                             String.substring n (String.length value) value)
           | None => None
           end
  | ZoneColon =>
      match parse_offset value with
      | Some (offset, rest) => Some (mkParsed year month day hour min sec nsec zone offset, rest)
      | None => None
      end
  | Literal_char c => match skip c value with Some rest => Some (p, rest) | None => None end
  end.

Fixpoint parse_chunks (layout : list chunk) (value : string) (p : parsed) : option parsed :=
  match layout with
  | [] => if decide (value = "") then Some p else None
  | c :: layout' => match parse_chunk c value p with Some (p', value') => parse_chunks layout' value' p' | None => None end
  end.

Definition days_in_month (year month : Z) : Z :=
  month_start (isLeap year) (month + 1) - month_start (isLeap year) month.

(** The nanoseconds of the time since the epoch, [None] for an error.
    [lookupName] is the offset that the zone of the host has under an
    abbreviation at a time. *)
Definition time_Parse_ns (lookupName : string -> Z -> option Z) (layout : list chunk) (value : string) : option Z :=
  match parse_chunks layout value (mkParsed 0 1 1 0 0 0 0 None None) with
  | None => None
  | Some p =>
      if (1 <=? pt_day p) && (pt_day p <=? days_in_month (pt_year p) (pt_month p)) then
        let secs := Unix (Date (pt_year p) (pt_month p) (pt_day p) (pt_hour p) (pt_min p) (pt_sec p) 0 UTC) in
        let secs :=
          match pt_offset p, pt_zone p with
          | Some offset, _ => secs - offset
          | None, Some name => match lookupName name secs with Some offset => secs - offset | None => secs end
          | None, None => secs
          end in
        Some (secs * nsPerSec + pt_nsec p)
      else None
  end.
(** Its seconds. *)
Definition time_Parse (lookupName : string -> Z -> option Z) (layout : list chunk) (value : string) : option Z :=
  option_map (fun ns => ns / nsPerSec) (time_Parse_ns lookupName layout value).

Definition date_layout : list chunk := [LongYear; Literal_char "-"; ZeroMonth; Literal_char "-"; ZeroDay].
Definition minute_layout : list chunk := date_layout ++ [Literal_char "-"; Hour24; Literal_char ":"; ZeroMinute].
Definition second_layout : list chunk := minute_layout ++ [Literal_char ":"; ZeroSecond].
Definition zone_layout : list chunk := second_layout ++ [Literal_char " "; ZoneName].

Definition no_names : string -> Z -> option Z := fun _ _ => None.
Example parse_day : time_Parse no_names date_layout "2017-02-28" = Some 1488240000.
Proof. reflexivity. Qed.
Example parse_no_day : time_Parse no_names date_layout "2017-02-29" = None.
Proof. reflexivity. Qed.
Example parse_second : time_Parse no_names second_layout "2017-02-28-9:30:05.25" = Some 1488274205.
Proof. reflexivity. Qed.
Example parse_zone : time_Parse (fun n _ => if decide (n = "EST") then Some (-18000) else None) zone_layout "2017-02-28-09:30:05 EST" =
  Some (1488274205 + 18000).
Proof. reflexivity. Qed.

(** [time.RFC3339] *)
Definition rfc3339_layout : list chunk :=
  date_layout ++ [Literal_char "T"; Hour24; Literal_char ":"; ZeroMinute; Literal_char ":"; ZeroSecond; ZoneColon].
Example parse_rfc3339 : time_Parse_ns no_names rfc3339_layout "2017-02-28T09:30:05.250Z" = Some 1488274205250000000.
Proof. reflexivity. Qed.
Example parse_rfc3339_offset : time_Parse no_names rfc3339_layout "2017-02-28T09:30:05-05:00" = Some (1488274205 + 18000).
Proof. reflexivity. Qed.
