(* ===== verification/SqlStatement.v ===== *)
(** * Executable statements (sqlparser/executablestatement.go,
    insertintostatement.go, interpreter.go)

    The walk over a query tree that turns a SELECT into a select relation, and
    what a statement does when it is materialized.  A visitor gives what its
    interface result holds. *)

From S2P Require Export SqlTree GoTimeParse.
From S2P Require Import GoStrings.

#[local] Open Scope string_scope.
#[local] Open Scope Z_scope.

(** ** State and results *)

(** The payload of the cursor, and the predicate that is being gathered. *)
Record estate := mkEstate { es_payload : option SelectRelation; es_pendingSP : option StaticPredicate }.
Definition new_estate : estate := mkEstate None None.

Inductive visited :=
  | VNil
  | VError (e : goerr)
  | VString (s : string)
  | VColumn (cr : ColumnReference)
  | VLiteral (l : Literal)
  | VFunction (fc : FunctionCallReference)
  | VRelation (sr : SelectRelation).

Definition get_payload : prog estate (option SelectRelation) := fun s => (Ret (es_payload s), s).
Definition get_pending : prog estate (option StaticPredicate) := fun s => (Ret (es_pendingSP s), s).
Definition set_payload (sr : SelectRelation) : prog estate unit := fun s => (Ret tt, mkEstate (Some sr) (es_pendingSP s)).
Definition set_pending (sp : option StaticPredicate) : prog estate unit := fun s => (Ret tt, mkEstate (es_payload s) sp).

(** [es.nodeCursor.payload] is changed in place. *)
Definition on_relation (f : SelectRelation -> SelectRelation) : prog estate unit :=
  sr ← get_payload;
  match sr with Some sr => set_payload (f sr) | None => lift (Panic "interface conversion") end.
Definition sr_StaticPredicates (sr : SelectRelation) : StaticPredicateGroup :=
  let '(mkSelectRelation _ _ _ _ _ _ _ preds) := sr in preds.
Definition sr_set_Limit (limit : Z) (sr : SelectRelation) : SelectRelation :=
  let '(mkSelectRelation _ sl p a t s q preds) := sr in mkSelectRelation limit sl p a t s q preds.
Definition sr_add_item (item : AliasedIdentifier) (sr : SelectRelation) : SelectRelation :=
  let '(mkSelectRelation l sl p a t s q preds) := sr in mkSelectRelation l (sl ++ [item])%list p a t s q preds.
Definition sr_set_primary (b : bool) (sr : SelectRelation) : SelectRelation :=
  let '(mkSelectRelation l sl _ a t s q preds) := sr in mkSelectRelation l sl b a t s q preds.
Definition sr_set_all (sr : SelectRelation) : SelectRelation :=
  let '(mkSelectRelation l sl p _ t s q preds) := sr in mkSelectRelation l sl p true t s q preds.
Definition sr_add_table (table : string) (sr : SelectRelation) : SelectRelation :=
  let '(mkSelectRelation l sl p a t s q preds) := sr in mkSelectRelation l sl p a (t ++ [table])%list s q preds.
Definition sr_set_subquery (sub : SelectRelation) (sr : SelectRelation) : SelectRelation :=
  let '(mkSelectRelation l sl p a t _ q preds) := sr in mkSelectRelation l sl p a t (Some sub) q preds.
Definition sr_start_specification (quantifier : Z) (sr : SelectRelation) : SelectRelation :=
  let '(mkSelectRelation l sl p a t s _ _) := sr in mkSelectRelation l sl p a t s quantifier NewStaticPredicateGroup.
Definition sr_set_predicates (preds : StaticPredicateGroup) (sr : SelectRelation) : SelectRelation :=
  let '(mkSelectRelation l sl p a t s q _) := sr in mkSelectRelation l sl p a t s q preds.

(** ** Literals as numbers *)

Section walk.
Context (lookupName : string -> Z -> option Z).

(** The seconds of a date, by the first layout that fits. *)
Definition date_literal (value : string) : option Z :=
  foldr (fun layout rest => match time_Parse lookupName layout value with Some secs => Some secs | None => rest end) None
    [zone_layout; second_layout; minute_layout; date_layout].

Definition CoerceToNumeric (literal : Literal) : outcome Literal :=
  if lit_Type literal =? Enum.STRING_LITERAL then
    let! value := as_string (lit_Value literal) in
    let! value := (if (2 <=? String.length value)%nat then string_slice 1 (String.length value - 1) value
                   else Panic "slice bounds out of range") in
    match date_literal value with
    | Some secs => Ret (NewLiteral (Some (int64_val secs)) Enum.INTEGER_LITERAL)
    | None => Fail (ErrMsg ("Unable to convert string to date: " +:+ value))
    end
  else if lit_Type literal =? Enum.NULL_LITERAL then Fail (ErrMsg "Unable to convert NULL to a numeric")
  else Ret literal.

(** The pending predicate gets a comparison; its error is dropped. *)
Definition pending_comparison (op : Z) (value : option goval) : prog estate unit :=
  sp ← get_pending;
  match sp with
  | Some sp => set_pending (Some (fst (sp_AddComparison op value sp)))
  | None => lift nil_pointer
  end.

(** The bound of a predicate has to be a literal; the continuation gets its
    value. *)
Definition with_bound (v : visited) (k : option goval -> prog estate visited) : prog estate visited :=
  match v with
  | VLiteral literal =>
      match CoerceToNumeric literal with
      | Ret literal => k (lit_Value literal)
      | Fail e => mret (VError e)
      | Fatal msg => lift (Fatal msg)
      | Panic msg => lift (Panic msg)
      end
  | _ => mret (VError (ErrMsg "Dynamic predicate bounds not supported"))
  end.

(** ** The walk over an expression and a query

    A visitor that is given no node panics. *)

Definition visit_id (id : IDParse) : visited := VString (id_name id).
(** The names with slashes between them. *)
Definition visit_name (name : QualifiedNameParse) : string := Join (map id_name name) "/".

Definition unsupported (what : string) : visited := VError (ErrMsg ("Unsupported statement type: " +:+ what)).

(** One value of the left or right side of a boolean expression: a column
    starts a predicate, which is merged into those of the relation. *)
Definition boolean_side (visit_predicate : prog estate visited) (value : visited) : prog estate visited :=
  match value with
  | VNil => mret VNil
  | VColumn cr =>
      set_pending (Some (NewStaticPredicate cr));;
      err ← visit_predicate;
      match err with
      | VError e => mret (VError e)
      | _ =>
          sp ← get_pending;
          sr ← get_payload;
          match spg_Merge sp false (match sr with Some sr => sr_StaticPredicates sr | None => ∅ end) with
          | Ret spg => on_relation (sr_set_predicates spg);; set_pending None;; mret VNil
          | Fail e => mret (VError e)
          | Fatal msg => lift (Fatal msg)
          | Panic msg => lift (Panic msg)
          end
      end
  | VError e => mret (VError e)
  | _ => mret (VError (ErrMsg "Unknown type"))
  end.

(** Each of some nodes; an error ends the loop. *)
Definition for_nodes {A} (visit : A -> prog estate visited) : list A -> prog estate visited :=
  fix go l := match l with
              | [] => mret VNil
              | a :: l' => v ← visit a; match v with VError e => mret (VError e) | _ => go l' end
              end.

(** The arguments of a function call, which are columns and literals. *)
Definition visit_args (visit : ExpressionParse -> prog estate visited) : list ExpressionParse -> prog estate (option (list fc_arg)) :=
  fix go l := match l with
              | [] => mret (Some [])
              | e :: l' =>
                  v ← visit e;
                  match v with
                  | VColumn cr => rest ← go l'; mret (cons (ArgId (cr_Value cr)) <$> rest)
                  | VLiteral lit => rest ← go l'; mret (cons (ArgLit lit) <$> rest)
                  | _ => mret None
                  end
              end.

(** An item of the select list is done; an error of its expression is dropped
    with it. *)
Definition add_select_item (alias : option IDParse) (v : visited) : prog estate unit :=
  match v with
  | VColumn cr =>
      on_relation (sr_add_item (match alias with Some id => AddAlias (id_name id) (cr_Value cr) | None => cr_Value cr end))
  | VFunction fc =>
      let ai := AddFunctionCall fc (NewAliasedIdentifier None) in
      on_relation (sr_add_item
        (match alias with
         | Some id => if bool_decide (id_name id = "") then ai else AddAlias (id_name id) ai
         | None => ai
         end))
  | _ => mret tt
  end.

Definition select_items (visit : ExpressionParse -> prog estate visited) : list SelectItemParse -> prog estate unit :=
  fix go l := match l with
              | [] => mret tt
              | mkSelectItemParse expression alias _ isSelectAll :: l' =>
                  if isSelectAll : bool then on_relation sr_set_all
                  else
                    match expression with
                    | None => lift nil_pointer
                    | Some e => v ← visit e; add_select_item alias v;; go l'
                    end
              end.

(** What a table reference of FROM adds to the relation. *)
Definition add_relation (v : visited) : prog estate visited :=
  match v with
  | VString table => on_relation (sr_add_table table);; mret VNil
  | VRelation sub => on_relation (fun sr => sr_set_subquery sub (sr_set_primary false sr));; mret VNil
  | VError e => mret (VError e)
  | _ => mret VNil
  end.

Definition is_select_all (item : SelectItemParse) : bool := let '(mkSelectItemParse _ _ _ b) := item in b.

(** A query of its own, walked by a new statement. *)
Definition sub_walk (walk : prog estate visited) : prog estate visited := fun s =>
  match es_payload s with
  | None => (Ret VNil, s)
  | Some _ =>
      match walk new_estate with
      | (Ret (VError e), _) => (Ret (VError e), s)
      | (Ret _, s') =>
          match es_payload s' with
          | Some sub => (on_relation (sr_set_subquery sub);; mret (VRelation sub)) s
          | None => (Ret VNil, s)
          end
      | (Fail e, _) => (Fail e, s)
      | (Fatal msg, _) => (Fatal msg, s)
      | (Panic msg, _) => (Panic msg, s)
      end
  end.

(** The visitors of the nodes. WITH, GROUP BY, HAVING, DISTINCT and the names of
    a table are not looked at; nor is the operator of a boolean expression. *)
Fixpoint VisitQueryParse (q : QueryParse) : prog estate visited :=
  let '(mkQueryParse _ queryNoWith) := q in VisitQueryNoWithParse queryNoWith
with VisitQueryNoWithParse (q : QueryNoWithParse) : prog estate visited :=
  let '(mkQueryNoWithParse queryTerm sortItems limit) := q in
  match sortItems with
  | _ :: _ => mret (unsupported "Query with ORDER BY")
  | [] => set_payload (sr_set_Limit limit NewSelectRelation);; VisitQueryTermParse queryTerm
  end
with VisitQueryTermParse (q : QueryTermParse) : prog estate visited :=
  let '(mkQueryTermParse _ _ queryPrimary _ _) := q in
  match queryPrimary with
  | None => mret (unsupported "Join")
  | Some p => VisitQueryPrimaryParse p
  end
with VisitQueryPrimaryParse (q : QueryPrimaryParse) : prog estate visited :=
  let '(mkQueryPrimaryParse querySpec _ _ _) := q in
  match querySpec with
  | None => mret (unsupported "TABLE, INLINE TABLE or SUBQUERY")
  | Some spec => on_relation (sr_set_primary true);; VisitQuerySpecificationParse spec
  end
with VisitQuerySpecificationParse (q : QuerySpecificationParse) : prog estate visited :=
  let '(mkQuerySpecificationParse quantifier where_q _ _ items relations) := q in
  on_relation (sr_start_specification quantifier);;
  select_items VisitExpressionParse items;;
  if existsb is_select_all items && (1 <? length items)%nat then
    mret (VError (ErrMsg "Unsupported option: Multiple select items specified along with an asterisk for all"))
  else
    err ← for_nodes (fun r => v ← VisitRelationParse r; add_relation v) relations;
    match err with
    | VError e => mret (VError e)
    | _ =>
        match where_q with
        | None => mret VNil
        | Some b => v ← VisitBooleanExpressionParse b; mret (match v with VError e => VError e | _ => VNil end)
        end
    end
with VisitRelationParse (r : RelationParse) : prog estate visited :=
  let '(mkRelationParse _ _ _ sampled _) := r in
  match sampled with None => lift nil_pointer | Some s => VisitSampledRelationParse s end
with VisitSampledRelationParse (r : SampledRelationParse) : prog estate visited :=
  let '(mkSampledRelationParse _ a _) := r in VisitAliasedRelationParse a
with VisitAliasedRelationParse (r : AliasedRelationParse) : prog estate visited :=
  let '(mkAliasedRelationParse _ hasAliases p _ _) := r in
  if hasAliases : bool then mret (VError (ErrMsg "Table Aliases not supported")) else VisitRelationPrimaryParse p
with VisitRelationPrimaryParse (r : RelationPrimaryParse) : prog estate visited :=
  let '(mkRelationPrimaryParse isTableName isSubquery _ isRelation _ children) := r in
  if isTableName || isRelation then
    match children with
    | RelationName name :: _ => mret (VString (visit_name name))
    | RelationRelation r :: _ => VisitRelationParse r
    | RelationExpression e :: _ => VisitExpressionParse e
    | RelationQuery q :: _ => VisitQueryParse q
    | [] => lift nil_pointer
    end
  else if isSubquery : bool then
    match children with
    | RelationQuery q :: _ => sub_walk (VisitQueryParse q)
    | _ => lift (Panic "interface conversion")
    end
  else mret (VError (ErrMsg "Unsupported Primary Relation type"))
with VisitExpressionParse (e : ExpressionParse) : prog estate visited :=
  let '(mkExpressionParse _ child) := e in visit_expression_child child
with visit_expression_child (c : expression_child) : prog estate visited :=
  match c with
  | ChildBoolean b => VisitBooleanExpressionParse b
  | ChildValue v => VisitValueExpressionParse v
  end
with VisitBooleanExpressionParse (b : BooleanExpressionParse) : prog estate visited :=
  let '(mkBooleanExpressionParse predicate lhs rhs _ _ _ _) := b in
  sr ← get_payload;
  match sr with
  | None => mret (VError (ErrMsg "No Select Relation in progress"))
  | Some _ =>
      let visit_predicate := match predicate with None => lift nil_pointer | Some p => VisitPredicateParse p end in
      value ← match lhs with None => lift nil_pointer | Some c => visit_expression_child c end;
      done ← boolean_side visit_predicate value;
      match done, rhs with
      | VError e, _ => mret (VError e)
      | _, None => mret VNil
      | _, Some e => value ← VisitExpressionParse e; boolean_side visit_predicate value
      end
  end
with VisitPredicateParse (p : PredicateParse) : prog estate visited :=
  match p with
  | ComparisonParse op rhs =>
      v ← VisitValueExpressionParse rhs;
      with_bound v (fun value => pending_comparison op value;; mret VNil)
  | BetweenParse isNot lower upper =>
      v ← VisitValueExpressionParse lower;
      with_bound v (fun value =>
        pending_comparison (if isNot : bool then LTE else GT) value;;
        v ← VisitValueExpressionParse upper;
        with_bound v (fun value => pending_comparison (if isNot : bool then GTE else LT) value;; mret VNil))
  | QuantifiedComparisonParse _ _ _ => mret (VError (ErrMsg "Quantified Comparisons (ALL/ANY/SOME) not supported"))
  | _ => mret (VError (ErrMsg "Unsupported predicate type, only static types are supported"))
  end
with VisitValueExpressionParse (v : ValueExpressionParse) : prog estate visited :=
  match v with
  | ValuePrimary p => match p with None => lift nil_pointer | Some p => VisitPrimaryExpressionParse p end
  | _ => mret (VError (ErrMsg "Only Primary Expressions supported"))
  end
with VisitPrimaryExpressionParse (p : PrimaryExpressionParse) : prog estate visited :=
  let '(mkPrimaryExpressionParse primaryType payload children) := p in
  if (primaryType =? Enum.NULL_LITERAL) || ((Enum.STRING_LITERAL <=? primaryType) && (primaryType <=? Enum.BOOLEAN_LITERAL)) then
    mret (VLiteral (NewLiteral (match payload with PayloadValue v => Some v | _ => None end) primaryType))
  else if primaryType =? Enum.COLUMN_REFERENCE then
    match children with
    | [] => lift nil_pointer
    | PrimaryID id :: _ => mret (VColumn (NewColumnReference (id_name id)))
    | _ :: _ => mret (VError (ErrMsg "Non string returned as column reference"))
    end
  else if primaryType =? Enum.FUNCTION_CALL then
    match children with
    | [] => lift nil_pointer
    | FunctionCallParse name hasAsterisk _ _ expressionList _ :: _ =>
        let name := visit_name name in
        if hasAsterisk : bool then mret (VFunction (mkFC name true []))
        else
          args ← visit_args VisitExpressionParse expressionList;
          mret (match args with
                | Some args => VFunction (NewFunctionCallReference name args)
                | None => VError (ErrMsg "Unexpected non FunctionCall returned")
                end)
    | _ :: _ => mret (VError (ErrMsg "Unexpected non FunctionCall returned"))
    end
  else if primaryType =? Enum.PARENTHESIZED_EXPRESSION then
    match children with
    | PrimaryExpr e :: _ => VisitExpressionParse e
    | _ => lift nil_pointer
    end
  else mret (VError (ErrMsg "Unsupported primary expression found")).

(** [QueryWalk] on a new statement: the relation, or an error. *)
Definition QueryWalk (q : QueryParse) : outcome (option SelectRelation) :=
  match VisitQueryParse q new_estate with
  | (Ret (VError e), _) => Fail e
  | (Ret _, s) => Ret (es_payload s)
  | (Fail e, _) => Fail e
  | (Fatal msg, _) => Fatal msg
  | (Panic msg, _) => Panic msg
  end.
End walk.

(** ** Statements *)

Record InsertIntoStatement := NewInsertIntoStatement {
  is_TableName : string;
  is_QueryText : string;
  is_SelectRelation : SelectRelation;
  is_ColumnAliases : option (list string);
}.

(** What a statement has to materialize: the relation that is its payload, or
    its child. *)
Inductive ExecutableStatement :=
  | PayloadRelation (sr : option SelectRelation)
  | ExplainChild (statement : option StatementParse) (queryText : string)
  | InsertChild (ins : InsertIntoStatement).

Section statements.
Context (lookupName : string -> Z -> option Z).

Definition VisitStatementParse (ctx : StatementParse) : outcome ExecutableStatement :=
  if statementType ctx =? Stmt.QUERY_STMT then
    match st_query ctx with
    | None => Fail (ErrMsg "Unable to get *QueryParse")
    | Some q => let! sr := QueryWalk lookupName q in Ret (PayloadRelation sr)
    end
  else if statementType ctx =? Stmt.EXPLAIN_STMT then Ret (ExplainChild (st_statement ctx) (st_QueryText ctx))
  else if statementType ctx =? Stmt.INSERT_INTO_STMT then
    match st_query ctx with
    | None => nil_pointer
    | Some q =>
        let! sr := QueryWalk lookupName q in
        match sr, st_tableName ctx with
        | Some sr, Some table =>
            Ret (InsertChild (NewInsertIntoStatement (visit_name table) (st_QueryText ctx) sr (map id_name <$> st_columnAliases ctx)))
        | _, _ => Panic "interface conversion"
        end
    end
  else Fail (ErrMsg "Unsupported statement type").

Definition NewExecutableStatement (qtree : StatementsParse) : outcome ExecutableStatement := VisitStatementParse (sps_child qtree).
End statements.

Section execute.
Context `{L : StorageLibs} `{R : MapRange} `{G : Gonum} (tz local : Location) (lookupName : string -> Z -> option Z).
Context (EnableLastKnown DisableVariableCompression : bool) (CatalogDir : dloc) (now : Z).
Context (InstanceID : Z) (WALBypass walfile haveWALWriter queued : bool).

Definition materialize_relation : SelectRelation -> prog server ColumnSeries :=
  Materialize tz local EnableLastKnown DisableVariableCompression CatalogDir now.

(** The columns of the target that are wanted: the aliases, or the epoch and
    then those of the table, of which the epoch is one. *)
Definition target_columns (aliases : option (list string)) (targetDSV : list DataShape) : list string :=
  match aliases with
  | Some names => names
  | None => "Epoch" :: map ds_Name targetDSV
  end.

(** The bucket that is written to; nil is used all the same. *)
Definition target_bucket (key : TimeBucketKey) : prog server floc :=
  fi ← sv_on_reader (on_cat (GetLatestTimeBucketInfoFromKey CatalogDir key));
  match fi with Some l => mret l | None => lift nil_pointer end.

(** The rows of the query are written to the latest file of the table; [None]
    when there are none. The error of the projection is not looked at. *)
Definition insert_into (ins : InsertIntoStatement) : prog server (option ColumnSeries) :=
  input ← materialize_relation (is_SelectRelation ins);
  n ← lift (cs_Len input);
  if (n =? 0)%nat then mret None
  else
    let targetMK := NewTimeBucketKey (is_TableName ins) [] in
    fi ← target_bucket targetMK;
    targetDSV ← sv_on_reader (on_cat (on_info fi GetDataShapesWithEpoch));
    let targetColumnNames := target_columns (is_ColumnAliases ins) targetDSV in
    let inputColumnNames := GetNamesFromDSV (cs_GetDataShapes input) in
    contained ← lift (as_Contains (NewAnySet inputColumnNames) targetColumnNames);
    if negb contained then
      residue ← lift (as_Subtract (NewAnySet targetColumnNames) inputColumnNames);
      fail (ErrMsg ("Unable to find these columns: " +:+ Join residue " "))
    else
      indexTime ← lift (cs_GetTime tz input);
      let input := match Project targetColumnNames input with Ret cs => cs | _ => input end in
      tbi ← target_bucket targetMK;
      w ← lift (NewWriter walfile tbi);
      '(data, _, input) ← lift (SerializeColumnsToRows input targetDSV true);
      if bool_decide (data = []) then fail (ErrMsg "Unable to pre-process data for insertion")
      else
        sv_on_instance (WriteRecords tz local CatalogDir indexTime data w);;
        sv_on_instance (with_wal (RequestFlush InstanceID WALBypass DisableVariableCompression haveWALWriter queued now));;
        n ← lift (cs_Len input);
        let rows := mkCol KFloat32 [convert KInt64 KFloat32 (le_bytes 8 (Z.of_nat n))] in
        mret (Some (table [("Epoch", int64_column [now]); ("Rows Written", rows)])).

(** [explain] prints the nodes of a statement: their Go structures. *)
Definition es_Materialize (explain : option StatementParse -> prog server (option ColumnSeries)) (es : ExecutableStatement) :
    prog server (option ColumnSeries) :=
  match es with
  | PayloadRelation None => mret None
  | PayloadRelation (Some sr) => cs ← materialize_relation sr; mret (Some cs)
  | ExplainChild statement _ => explain statement
  | InsertChild ins => insert_into ins
  end.

(** ** From the text to the answer

    [parse] is the generated parser: the syntax tree of a text, [None] with a
    syntax error. *)

Definition NewAstBuilder (parse : string -> option Ctx.statements) (fuel : nat) (sourceString : string) : outcome StatementsParse :=
  match parse sourceString with
  | None => Fail (ErrMsg "Syntax Error")
  | Some c => NewStatementsParse fuel sourceString c
  end.

(** What a query request does with an SQL statement; a nil series panics when
    its length is asked for. *)
Definition execute_sql (parse : string -> option Ctx.statements) (explain : option StatementParse -> prog server (option ColumnSeries))
    (fuel : nat) (stmt : string) : prog server ColumnSeries :=
  ast ← lift (NewAstBuilder parse fuel stmt);
  es ← lift (NewExecutableStatement lookupName ast);
  cs ← es_Materialize explain es;
  match cs with Some cs => mret cs | None => lift nil_pointer end.

(** The requests of a query, SQL statements among them. *)
Definition Query_sql (parse : string -> option Ctx.statements) (explain : option StatementParse -> prog server (option ColumnSeries))
    (fuel : nat) : list QueryRequest -> prog server (list (option NumpyMultiDataset)) :=
  Query tz local EnableLastKnown DisableVariableCompression CatalogDir now (execute_sql parse explain fuel).
End execute.

(** ** A SELECT of columns with a WHERE clause *)

(** A comparison of a column with an integer, as the parser reads it, and the
    number it is compared with. *)
Record condition := mkCondition { c_column : string; c_op : string; c_text : string }.
Definition c_value (c : condition) : Z := fst (Atoi (c_text c)).

Definition column_value (name : string) : Ctx.valueExpression :=
  Ctx.ValueExpressionDefault (Ctx.ColumnReference (Ctx.UnquotedIdentifier name)).
Definition comparison (c : condition) : Ctx.booleanExpression :=
  Ctx.BooleanDefault (column_value (c_column c)) (Ctx.Comparison (c_op c) (Ctx.ValueExpressionDefault (Ctx.IntegerLiteral (c_text c)))).
(** Conditions behind the first, each with the connective before it. *)
Definition connect (b : Ctx.booleanExpression) (rest : list (string * condition)) : Ctx.booleanExpression :=
  foldl (fun b oc => Ctx.LogicalBinary b (fst oc) (Ctx.ExpressionBoolean (comparison (snd oc)))) b rest.

Definition select_where (cols : list string) (table : string) (where_c : option Ctx.booleanExpression) (limit : option string) :
    Ctx.statements :=
  Ctx.Statements (Ctx.StatementDefault (Ctx.Query None (Ctx.QueryNoWith (Ctx.QueryTermDefault (Ctx.QueryPrimaryDefault
    (Ctx.QuerySpecification None (map (fun name => Ctx.SelectSingle (Ctx.ExpressionValue (column_value name)) None) cols)
       [Ctx.RelationDefault (Ctx.SampledRelation (Ctx.AliasedRelation
          (Ctx.TableName (Ctx.DotQualifiedName (Ctx.BackQuotedIdentifier ("`" +:+ table +:+ "`")) [])) None None) None)]
       where_c None None))) [] limit))).
Definition select_statement (cols : list string) (table : string) (where_c : option (condition * list (string * condition)))
    (limit : option string) : Ctx.statements :=
  select_where cols table ((fun w => connect (comparison (fst w)) (snd w)) <$> where_c) limit.

(** The predicates with one condition more. *)
Definition add_condition (preds : StaticPredicateGroup) (c : condition) : StaticPredicateGroup :=
  let column := NewColumnReference (c_column c) in
  let sp := fst (sp_AddComparison (StringToComparisonOperatorEnum (c_op c)) (Some (int64_val (c_value c))) (NewStaticPredicate column)) in
  let '(tgtSP, preds) := spg_Add column preds in <[c_column c := merge_into sp tgtSP]> preds.

Lemma sp_AddComparison_column op v sp : sp_Column (fst (sp_AddComparison op v sp)) = sp_Column sp.
Proof.
  unfold sp_AddComparison. destruct (op =? EQ); [done|]. destruct (_ || _).
  - destruct (sp_max sp); [|unfold SetMax; by destruct (op =? LTE)]. destruct (GenericComparison _ _ _) as [[]| | |]; try done.
    unfold SetMax. by destruct (op =? LTE).
  - destruct (_ || _); [|done]. destruct (sp_min sp); [|unfold SetMin; by destruct (op =? GTE)].
    destruct (GenericComparison _ _ _) as [[]| | |]; try done. unfold SetMin. by destruct (op =? GTE).
Qed.

Section walk_lemmas.
Context (fuel : nat) (lookupName : string -> Z -> option Z).

Definition column_parse (name : string) : ValueExpressionParse :=
  ValuePrimary (Some (mkPrimaryExpressionParse Enum.COLUMN_REFERENCE PayloadNil [PrimaryID (mkIDParse name None)])).
Definition comparison_parse (c : condition) : BooleanExpressionParse :=
  mkBooleanExpressionParse
    (Some (ComparisonParse (StringToComparisonOperatorEnum (c_op c))
       (ValuePrimary (Some (mkPrimaryExpressionParse Enum.INTEGER_LITERAL (PayloadValue (int64_val (c_value c))) [])))))
    (Some (ChildValue (column_parse (c_column c)))) None 0 false false false.
Definition connect_parse (b : BooleanExpressionParse) (rest : list (string * condition)) : BooleanExpressionParse :=
  foldl (fun b oc => mkBooleanExpressionParse None (Some (ChildBoolean b))
    (Some (mkExpressionParse true (ChildBoolean (comparison_parse (snd oc)))))
    (if decide (fst oc = "AND") then Enum.AND_OP else if decide (fst oc = "OR") then Enum.OR_OP else 0) false false false) b rest.

(** The equations of the loop for the contexts that end it in its first turn. *)
Lemma boolean_loop_done {A} (switch : loop_node -> bool -> loop_turn A) node IsNot t :
  switch node IsNot = TurnDone t -> boolean_loop switch fuel node IsNot = t.
Proof. intros H. destruct fuel; cbn [boolean_loop]; by rewrite H. Qed.
Lemma build_default v p : NewBooleanExpressionParse fuel (Ctx.BooleanDefault v p) =
  let! v := NewValueExpressionParse fuel v in
  let! p := NewPredicateParse fuel p in
  Ret (mkBooleanExpressionParse (Some p) (Some (ChildValue v)) None 0 false false false).
Proof. by apply boolean_loop_done. Qed.
Lemma build_binary lhs operator rhs : NewBooleanExpressionParse fuel (Ctx.LogicalBinary lhs operator rhs) =
  let! r := NewExpressionParse fuel rhs in
  let! l := NewBooleanExpressionParse fuel lhs in
  Ret (mkBooleanExpressionParse None (Some (ChildBoolean l)) (Some r)
    (if decide (operator = "AND") then Enum.AND_OP else if decide (operator = "OR") then Enum.OR_OP else 0) false false false).
Proof. by apply boolean_loop_done. Qed.
Lemma build_literal TRUE : NewBooleanExpressionParse fuel (Ctx.BoolLiteralToo TRUE) =
  Ret (mkBooleanExpressionParse None None None 0 true false TRUE).
Proof. by apply boolean_loop_done. Qed.

Lemma build_comparison c : snd (Atoi (c_text c)) = true ->
  NewBooleanExpressionParse fuel (comparison c) = Ret (comparison_parse c).
Proof.
  intros Hok. unfold comparison, comparison_parse, c_value. rewrite build_default. cbn -[Atoi]. unfold NewComparisonParse. cbn -[Atoi].
  destruct (Atoi (c_text c)) as [z ok]. cbn in Hok. subst ok. reflexivity.
Qed.

Lemma build_connect rest : Forall (fun oc => snd (Atoi (c_text (snd oc))) = true) rest -> forall b p,
  NewBooleanExpressionParse fuel b = Ret p ->
  NewBooleanExpressionParse fuel (connect b rest) = Ret (connect_parse p rest).
Proof.
  induction 1 as [|[op c] rest Hc _ IH]; intros b p Hb; [exact Hb|]. cbn [connect connect_parse foldl]. apply IH.
  rewrite build_binary. cbn [fst snd].
  change (NewExpressionParse fuel (Ctx.ExpressionBoolean (comparison c))) with
    (let! b := NewBooleanExpressionParse fuel (comparison c) in Ret (mkExpressionParse true (ChildBoolean b))).
  rewrite (build_comparison c Hc). cbn [outcome_bind]. by rewrite Hb.
Qed.
End walk_lemmas.

Section visit_lemmas.
Context (lookupName : string -> Z -> option Z).

(** Conditions that have been visited are in the predicates of the relation. *)
Definition with_conditions_of (conds : list condition) (sr : SelectRelation) : SelectRelation :=
  sr_set_predicates (foldl add_condition (sr_StaticPredicates sr) conds) sr.

Lemma visit_comparison c sr pend :
  VisitBooleanExpressionParse lookupName (comparison_parse c) (mkEstate (Some sr) pend) =
  (Ret VNil, mkEstate (Some (with_conditions_of [c] sr)) None).
Proof.
  unfold comparison_parse, with_conditions_of. cbn [VisitBooleanExpressionParse visit_expression_child VisitValueExpressionParse column_parse].
  rewrite (bind_step _ _ _ (Some sr) (mkEstate (Some sr) pend)); [|reflexivity]. cbv beta iota.
  rewrite (bind_step _ _ _ (VColumn (NewColumnReference (c_column c))) (mkEstate (Some sr) pend)); [|reflexivity]. cbv beta.
  unfold boolean_side at 1. cbv iota.
  set (sp := fst (sp_AddComparison (StringToComparisonOperatorEnum (c_op c)) (Some (int64_val (c_value c))) (NewStaticPredicate (NewColumnReference (c_column c))))).
  set (spg := foldl add_condition (sr_StaticPredicates sr) [c]).
  assert (Hm : spg_Merge (Some sp) false (sr_StaticPredicates sr) = Ret spg).
  { unfold spg_Merge, spg, add_condition, sp. rewrite sp_AddComparison_column. cbn [foldl].
    change (sp_Column (NewStaticPredicate (NewColumnReference (c_column c)))) with (NewColumnReference (c_column c)).
    by destruct (spg_Add _ _) as [tgt preds]. }
  rewrite (bind_step _ _ _ VNil (mkEstate (Some (sr_set_predicates spg sr)) None)); [reflexivity|].
  rewrite (bind_step _ _ _ tt (mkEstate (Some sr) (Some (NewStaticPredicate (NewColumnReference (c_column c)))))); [|reflexivity].
  rewrite (bind_step _ _ _ VNil (mkEstate (Some sr) (Some sp))); [|reflexivity]. cbv iota.
  rewrite (bind_step _ _ _ (Some sp) (mkEstate (Some sr) (Some sp))); [|reflexivity].
  rewrite (bind_step _ _ _ (Some sr) (mkEstate (Some sr) (Some sp))); [|reflexivity]. cbv iota. by rewrite Hm.
Qed.

Lemma with_conditions_app c conds sr : with_conditions_of [c] (with_conditions_of conds sr) = with_conditions_of (conds ++ [c]) sr.
Proof. destruct sr. unfold with_conditions_of. cbn. by rewrite foldl_snoc. Qed.

Lemma visit_connect rest : forall p conds sr pend pend',
  VisitBooleanExpressionParse lookupName p (mkEstate (Some sr) pend) = (Ret VNil, mkEstate (Some (with_conditions_of conds sr)) pend') ->
  exists pend'', VisitBooleanExpressionParse lookupName (connect_parse p rest) (mkEstate (Some sr) pend) =
    (Ret VNil, mkEstate (Some (with_conditions_of (conds ++ map snd rest)%list sr)) pend'').
Proof.
  induction rest as [|[op c] rest IH]; intros p conds sr pend pend' Hp.
  { exists pend'. cbn [connect_parse foldl map]. by rewrite app_nil_r. }
  cbn [connect_parse foldl map]. replace (conds ++ snd (op, c) :: map snd rest)%list with ((conds ++ [c]) ++ map snd rest)%list
    by (by rewrite <- app_assoc). apply (IH _ _ _ _ None). cbn [fst snd].
  cbn [VisitBooleanExpressionParse visit_expression_child VisitExpressionParse]. unfold mbind, prog_bind, get_payload.
  cbn [es_payload]. rewrite Hp. cbn [boolean_side mret prog_ret]. rewrite visit_comparison. cbn [boolean_side].
  by rewrite with_conditions_app.
Qed.
End visit_lemmas.

Section select_lemmas.
Context (fuel : nat) (lookupName : string -> Z -> option Z).

Definition item_parse (name : string) : SelectItemParse :=
  mkSelectItemParse (Some (mkExpressionParse false (ChildValue (column_parse name)))) None None false.

Lemma build_items cols :
  traverse (NewSelectItemParse fuel) (map (fun name => Ctx.SelectSingle (Ctx.ExpressionValue (column_value name)) None) cols) =
  Ret (map item_parse cols).
Proof. induction cols as [|name cols IH]; [done|]. cbn [map traverse]. rewrite IH. reflexivity. Qed.

Definition with_items (cols : list string) (sr : SelectRelation) : SelectRelation :=
  let '(mkSelectRelation l sl p a t s q preds) := sr in mkSelectRelation l (sl ++ select_columns cols)%list p a t s q preds.

Lemma visit_items cols : forall sr pend,
  select_items (VisitExpressionParse lookupName) (map item_parse cols) (mkEstate (Some sr) pend) =
  (Ret tt, mkEstate (Some (with_items cols sr)) pend).
Proof.
  induction cols as [|name cols IH]; intros sr pend.
  { destruct sr. cbn. by rewrite app_nil_r. }
  cbn [map select_items item_parse].
  rewrite (bind_step _ _ _ (VColumn (NewColumnReference name)) (mkEstate (Some sr) pend)); [|reflexivity].
  rewrite (bind_step _ _ _ tt (mkEstate (Some (sr_add_item (NewAliasedIdentifier (Some name)) sr)) pend)); [|reflexivity].
  change (select_items (VisitExpressionParse lookupName) (map item_parse cols)
    (mkEstate (Some (sr_add_item (NewAliasedIdentifier (Some name)) sr)) pend) =
    (Ret tt, mkEstate (Some (with_items (name :: cols) sr)) pend)).
  rewrite IH. destruct sr. cbn. by rewrite <- app_assoc.
Qed.

Lemma existsb_items cols : existsb is_select_all (map item_parse cols) = false.
Proof. induction cols as [|name cols IH]; [done|]. exact IH. Qed.

Lemma substring_app s t : String.substring 0 (String.length s) (s +:+ t) = s.
Proof. induction s as [|c s IH]; [by destruct t|].
  change (String c (String.substring 0 (String.length s) (s +:+ t)) = String c s). by rewrite IH.
Qed.
Lemma length_string_app s t : String.length (s +:+ t) = (String.length s + String.length t)%nat.
Proof.
  induction s as [|c s IH]; [done|]. change (S (String.length (s +:+ t)) = S (String.length s) + String.length t)%nat. lia.
Qed.
Lemma back_quoted table : id_name (NewIDParse (Ctx.BackQuotedIdentifier ("`" +:+ table +:+ "`"))) = table.
Proof.
  cbn [NewIDParse id_name]. rewrite !length_string_app.
  replace (String.length "`" + (String.length table + String.length "`") - 2)%nat with (String.length table) by (cbn; lia).
  exact (substring_app table "`").
Qed.
End select_lemmas.

Definition where_conditions (where_c : option (condition * list (string * condition))) : list condition :=
  match where_c with Some (c, rest) => c :: map snd rest | None => [] end.



(** ** What the builder and the walk do not come through *)

(** A turn that no case is for leaves the loop where it is. *)
Lemma boolean_loop_stuck {A} (switch : loop_node -> bool -> loop_turn A) fuel node IsNot :
  switch node IsNot = no_case node IsNot -> boolean_loop switch fuel node IsNot = Panic "out of fuel".
Proof. intros H. induction fuel as [|fuel IH]; cbn [boolean_loop]; by rewrite H. Qed.
Lemma build_not fuel c : NewBooleanExpressionParse fuel (Ctx.LogicalNot c) = Panic "out of fuel".
Proof.
  cbn [NewBooleanExpressionParse]. destruct fuel as [|fuel]; [done|]. cbn [boolean_loop]. by apply boolean_loop_stuck.
Qed.

(** The operands of the connectives of a boolean expression: is one of them
    NOT; can the nodes of the others be made. *)
Fixpoint has_not (b : Ctx.booleanExpression) : bool :=
  match b with
  | Ctx.LogicalNot _ => true
  | Ctx.LogicalBinary lhs _ (Ctx.ExpressionBoolean rhs) => has_not lhs || has_not rhs
  | Ctx.LogicalBinary lhs _ (Ctx.ExpressionValue _) => has_not lhs
  | _ => false
  end.
Fixpoint operands_built (fuel : nat) (b : Ctx.booleanExpression) : Prop :=
  match b with
  | Ctx.LogicalNot _ | Ctx.BoolLiteralToo _ => True
  | Ctx.LogicalBinary lhs _ (Ctx.ExpressionBoolean rhs) => operands_built fuel lhs /\ operands_built fuel rhs
  | Ctx.LogicalBinary lhs _ (Ctx.ExpressionValue v) => operands_built fuel lhs /\ exists e, NewValueExpressionParse fuel v = Ret e
  | Ctx.BooleanDefault v p => (exists e, NewValueExpressionParse fuel v = Ret e) /\ exists q, NewPredicateParse fuel p = Ret q
  end.
Definition built_unless_not (fuel : nat) (b : Ctx.booleanExpression) : Prop :=
  if has_not b then NewBooleanExpressionParse fuel b = Panic "out of fuel"
  else exists e, NewBooleanExpressionParse fuel b = Ret e.

(** By recursion on the expression: its right operand is a node of another
    sort with an expression in it. *)
Lemma build_operands fuel : forall b, operands_built fuel b -> built_unless_not fuel b.
Proof.
  unfold built_unless_not. fix IH 1. intros [v p|c|lhs op [rhs|v]|t]; cbn [has_not operands_built].
  - intros [[e He] [q Hq]]. rewrite build_default, He. cbn [outcome_bind]. rewrite Hq. by eexists.
  - intros _. apply build_not.
  - intros [Hl Hr]. rewrite build_binary. apply IH in Hl, Hr.
    change (NewExpressionParse fuel (Ctx.ExpressionBoolean rhs)) with
      (let! b := NewBooleanExpressionParse fuel rhs in Ret (mkExpressionParse true (ChildBoolean b))).
    destruct (has_not rhs); [rewrite Hr, orb_true_r; done|]. destruct Hr as [r Hr]. rewrite Hr, orb_false_r. cbn [outcome_bind].
    destruct (has_not lhs); [by rewrite Hl|]. destruct Hl as [l Hl]. rewrite Hl. by eexists.
  - intros [Hl [e He]]. rewrite build_binary. apply IH in Hl.
    change (NewExpressionParse fuel (Ctx.ExpressionValue v)) with
      (let! v := NewValueExpressionParse fuel v in Ret (mkExpressionParse false (ChildValue v))).
    rewrite He. cbn [outcome_bind]. destruct (has_not lhs); [by rewrite Hl|]. destruct Hl as [l Hl]. rewrite Hl. by eexists.
  - intros _. rewrite build_literal. by eexists.
Qed.

(** C35: The nodes of a SELECT's WHERE clause, a tree of operands under AND and
    OR, are made when no operand is NOT, and making them never ends when one
    is, for however many turns of the loop (the other operands being ones that
    can be made): NOT moves the loop on to its first child, which is the token
    NOT and not the expression behind it, no case is for a token, and every
    further turn is the same. The criteria of a join with USING run the same
    loop on nil, and do not end either. *)
Theorem not_never_built (fuel : nat) (text table : string) (cols : list string) (b : Ctx.booleanExpression) (limit : option string) :
  (operands_built fuel b ->
   if has_not b
   then NewStatementsParse fuel text (select_where cols table (Some b) limit) = Panic "out of fuel"
   else exists st, NewStatementsParse fuel text (select_where cols table (Some b) limit) = Ret st) /\
  forall (lhs rhs : Ctx.relation) (type : option Ctx.joinType) (ids : list Ctx.identifier) l r,
    NewRelationParse fuel lhs = Ret l -> NewRelationParse fuel rhs = Ret r ->
    NewRelationParse fuel (Ctx.JoinRelation lhs type rhs (Some (Ctx.JoinUsing ids))) = Panic "out of fuel".
Proof.
  split.
  - intros Hb. apply build_operands in Hb. unfold built_unless_not in Hb. unfold select_where, NewStatementsParse.
    cbn [NewStatementParse NewQueryParse NewQueryNoWithParse NewQueryTermParse NewQueryPrimaryParse NewQuerySpecificationParse traverse_opt].
    rewrite build_items. cbn [outcome_bind traverse NewRelationParse NewSampledRelationParse NewAliasedRelationParse NewRelationPrimaryParse].
    change ((fix NewBooleanExpressionParse (c : Ctx.booleanExpression) := _) b) with (NewBooleanExpressionParse fuel b).
    destruct (has_not b); [by rewrite Hb|]. destruct Hb as [e Hb]. rewrite Hb. by eexists.
  - intros lhs rhs type ids l r Hl Hr. cbn [NewRelationParse]. rewrite Hl. cbn [outcome_bind]. rewrite Hr.
    cbn [outcome_bind traverse_opt NewJoinCriteriaParse]. by rewrite boolean_loop_stuck.
Qed.

(** NOT Ask > 5 AND Size <= 7 *)
Lemma not_never_built_witness :
  NewStatementsParse 1000 "" (select_where ["Ask"] "AAPL/1Min/TICK" (Some (Ctx.LogicalBinary
    (Ctx.LogicalNot (comparison (mkCondition "Ask" ">" "5"))) "AND"
    (Ctx.ExpressionBoolean (comparison (mkCondition "Size" "<=" "7"))))) None) = Panic "out of fuel".
Proof.
  apply (proj1 (not_never_built 1000 "" "AAPL/1Min/TICK" ["Ask"] (Ctx.LogicalBinary
    (Ctx.LogicalNot (comparison (mkCondition "Ask" ">" "5"))) "AND"
    (Ctx.ExpressionBoolean (comparison (mkCondition "Size" "<=" "7")))) None)).
  split; [exact I|]. split; eexists; reflexivity.
Defined.

(** A name with points gets two slashes for each: the points are children of
    the name, and give empty names of their own. *)
Lemma dotted_name (first : Ctx.identifier) (others : list Ctx.identifier) :
  visit_name (NewQualifiedNameParse (Ctx.DotQualifiedName first others)) =
  foldl (fun s id => s +:+ "//" +:+ id_name (NewIDParse id)) (id_name (NewIDParse first)) others.
Proof.
  unfold visit_name. cbn [NewQualifiedNameParse map].
  assert (Happ : forall a b c : string, (a +:+ b) +:+ c = a +:+ (b +:+ c)).
  { induction a as [|x a IH]; intros b c; [done|]. change (String x ((a +:+ b) +:+ c) = String x (a +:+ (b +:+ c))). by rewrite IH. }
  assert (Hgo : forall os s, s +:+ match concat (map (fun id => [no_identifier; NewIDParse id]) os) with
      | [] => "" | l => "/" +:+ Join (map id_name l) "/" end = foldl (fun s id => s +:+ "//" +:+ id_name (NewIDParse id)) s os).
  { induction os as [|o os IH]; intros s; cbn [map concat app foldl].
    - induction s as [|x s IHs]; [done|]. change (String x (s +:+ "") = String x s). by rewrite IHs.
    - rewrite <- IH. rewrite !Happ. f_equal. destruct (concat _) as [|i l]; [cbn [Join map id_name no_identifier]|reflexivity].
      change ("//" +:+ id_name (NewIDParse o) = "//" +:+ (id_name (NewIDParse o) +:+ "")). f_equal.
      induction (id_name (NewIDParse o)) as [|x s' IHs]; [done|]. change (String x s' = String x (s' +:+ "")). by rewrite <- IHs. }
  rewrite <- Hgo. destruct others as [|o os]; [|reflexivity]. cbn [concat map Join].
  induction (id_name (NewIDParse first)) as [|x s' IHs]; [done|]. change (String x s' = String x (s' +:+ "")). by rewrite <- IHs.
Qed.

(** A SELECT from a join panics: there is no sampled relation to visit. *)
Lemma join_panics lookupName lhs rhs criteria type s :
  VisitRelationParse lookupName (mkRelationParse (Some lhs) (Some rhs) criteria None type) s =
  (Panic "invalid memory address or nil pointer dereference", s).
Proof. reflexivity. Qed.
