(* ===== verification/WalProofs.v ===== *)
(** * What the log operations achieve

    Transaction groups read back as they were serialized; the commit appends
    its messages to the log and carries the commands out on the primary files;
    a replay carries out the pending groups, whatever part of them had reached
    the primary files; the states of the log file; the log invariant of the
    goroutine that owns it. *)

From S2P Require Export Wal.

(** ** Serialized transaction groups *)

Definition command_bytes (c : WriteCommand) : list byte :=
  le_bytes 1 (int8 (RecordType c)) ++
  le_bytes 2 (int16 (Z.of_nat (String.length (WALKeyPath c)))) ++
  string_bytes (WALKeyPath c) ++
  le_bytes 4 (int32 (Z.of_nat (length (Data c)))) ++
  le_bytes 4 (int32 (VarRecLen c)) ++
  command_buffer c.

Lemma serialize_command_eq tg c : serialize_command tg c = tg ++ command_bytes c.
Proof.
  unfold serialize_command, serialize_header, ser. cbn [Serialize DataToByteSlice].
  unfold command_bytes, command_buffer. by rewrite <- !app_assoc.
Qed.

Lemma foldl_serialize tg cs : foldl serialize_command tg cs = tg ++ concat (map command_bytes cs).
Proof.
  revert tg. induction cs as [|c cs IH]; intros tg; cbn [foldl map concat]; [by rewrite app_nil_r|].
  by rewrite IH, serialize_command_eq, <- app_assoc.
Qed.

Lemma serialize_tg_eq tgid cs :
  serialize_tg tgid cs =
  le_bytes 8 tgid ++ le_bytes 8 (Z.of_nat (length cs)) ++ concat (map command_bytes cs).
Proof. unfold serialize_tg. rewrite foldl_serialize. unfold ser. cbn [Serialize DataToByteSlice]. by rewrite <- app_assoc. Qed.

Lemma tg_id_serialize tgid cs : inS 64 tgid -> tg_id (serialize_tg tgid cs) = tgid.
Proof. intros H. unfold tg_id. rewrite serialize_tg_eq, ToInt64_le_bytes. by apply wrapS_id. Qed.

Lemma length_serialize_tg tgid cs : (16 <= length (serialize_tg tgid cs))%nat.
Proof. rewrite serialize_tg_eq, !length_app, !length_le_bytes. lia. Qed.

Lemma length_string_bytes s : length (string_bytes s) = String.length s.
Proof. unfold string_bytes. induction s as [|c s IH]; [done|]. cbn. by rewrite <- IH. Qed.

Lemma length_command_buffer c : length (command_buffer c) = (16 + length (Data c))%nat.
Proof. unfold command_buffer. rewrite !length_app, !length_le_bytes. lia. Qed.

(** A command whose parts fit the fields they are written to. *)
Record encodable (c : WriteCommand) : Prop := {
  enc_type : inS 8 (RecordType c);
  enc_key : Z.of_nat (String.length (WALKeyPath c)) < 2 ^ 15;
  enc_data : Z.of_nat (length (Data c)) < 2 ^ 31;
  enc_vrl : inS 32 (VarRecLen c);
  enc_offset : inS 64 (Offset c);
  enc_index : inS 64 (Index c);
}.

Lemma slice_suffix tg (lo n : nat) b rest loz hi :
  (lo <= length tg)%nat ->
  drop lo tg = b ++ rest -> length b = n -> loz = Z.of_nat lo -> hi = loz + Z.of_nat n ->
  slice tg loz hi = Ret b /\ drop (lo + n) tg = rest /\ (lo + n <= length tg)%nat.
Proof.
  intros Hlo Hd Hn -> ->.
  assert (Hlen : (lo + n <= length tg)%nat).
  { pose proof (f_equal length Hd) as Hl. rewrite length_drop, length_app in Hl. lia. }
  split_and!; [|rewrite <- drop_drop, Hd; by apply drop_app_length'|done].
  unfold slice. rewrite !(proj2 (Z.leb_le _ _)) by lia. cbn [andb].
  rewrite Nat2Z.id, Hd. f_equal. apply take_app_length'. lia.
Qed.

Lemma ToIntN_exact (n : nat) z :
  (n = 1%nat -> ToInt8 (le_bytes n z) = int8 z) /\
  (n = 2%nat -> ToInt16 (le_bytes n z) = int16 z) /\
  (n = 4%nat -> ToInt32 (le_bytes n z) = int32 z) /\
  (n = 8%nat -> ToInt64 (le_bytes n z) = int64 z).
Proof.
  split_and!; intros ->; rewrite <- (app_nil_r (le_bytes _ z)).
  - apply ToInt8_le_bytes.
  - apply ToInt16_le_bytes.
  - apply ToInt32_le_bytes.
  - apply ToInt64_le_bytes.
Qed.

Lemma parse_command_spec tg (cursor : nat) c rest :
  encodable c -> (cursor <= length tg)%nat -> drop cursor tg = command_bytes c ++ rest ->
  exists p, parse_command tg (Z.of_nat cursor) = Ret p /\
    pc_RecordType p = RecordType c /\ pc_WALKeyPath p = WALKeyPath c /\ pc_varRecLen p = VarRecLen c /\
    slice tg (pc_cursor p) (pc_cursor p + 8 + 8 + pc_dataLen p) = Ret (command_buffer c) /\
    pc_cursor p + 8 + 8 + pc_dataLen p = Z.of_nat (cursor + length (command_bytes c)) /\
    drop (cursor + length (command_bytes c)) tg = rest /\
    (cursor + length (command_bytes c) <= length tg)%nat.
Proof.
  intros He Hc Hd. unfold command_bytes in Hd. rewrite <- !app_assoc in Hd.
  set (klen := String.length (WALKeyPath c)) in *. set (dlen := length (Data c)) in *.
  pose proof (enc_key c He) as Hk. pose proof (enc_data c He) as Hdl. fold klen in Hk. fold dlen in Hdl.
  rewrite !(wrapS_id _ (Z.of_nat _)) in Hd by (try lia; unfold inS; lia).
  rewrite (wrapS_id 8) in Hd by (try lia; apply He). rewrite (wrapS_id 32) in Hd by (try lia; apply He).
  destruct (slice_suffix tg cursor 1 _ _ (Z.of_nat cursor) (Z.of_nat cursor + 1)
    Hc Hd (length_le_bytes _ _) ltac:(lia) ltac:(lia)) as (S1 & D1 & L1).
  destruct (slice_suffix tg (cursor + 1) 2 _ _ (Z.of_nat cursor + 1) (Z.of_nat cursor + 1 + 2)
    L1 D1 (length_le_bytes _ _) ltac:(lia) ltac:(lia)) as (S2 & D2 & L2).
  destruct (slice_suffix tg (cursor + 1 + 2) klen _ _ (Z.of_nat cursor + 1 + 2) (Z.of_nat cursor + 1 + 2 + Z.of_nat klen)
    L2 D2 (length_string_bytes _) ltac:(lia) ltac:(lia)) as (S3 & D3 & L3).
  destruct (slice_suffix tg (cursor + 1 + 2 + klen) 4 _ _ (Z.of_nat cursor + 1 + 2 + Z.of_nat klen) (Z.of_nat cursor + 1 + 2 + Z.of_nat klen + 4)
    L3 D3 (length_le_bytes _ _) ltac:(lia) ltac:(lia)) as (S4 & D4 & L4).
  destruct (slice_suffix tg (cursor + 1 + 2 + klen + 4) 4 _ _ (Z.of_nat cursor + 1 + 2 + Z.of_nat klen + 4) (Z.of_nat cursor + 1 + 2 + Z.of_nat klen + 4 + 4)
    L4 D4 (length_le_bytes _ _) ltac:(lia) ltac:(lia)) as (S5 & D5 & L5).
  destruct (slice_suffix tg (cursor + 1 + 2 + klen + 4 + 4) (16 + dlen) _ _ (Z.of_nat cursor + 1 + 2 + Z.of_nat klen + 4 + 4) (Z.of_nat cursor + 1 + 2 + Z.of_nat klen + 4 + 4 + 8 + 8 + Z.of_nat dlen)
    L5 D5 (length_command_buffer _) ltac:(lia) ltac:(lia)) as (S6 & D6 & L6).
  exists (mkParsed (RecordType c) (WALKeyPath c) (VarRecLen c) (Z.of_nat dlen)
            (Z.of_nat cursor + 1 + 2 + Z.of_nat klen + 4 + 4)).
  assert (Hcb : length (command_bytes c) = (1 + 2 + klen + 4 + 4 + (16 + dlen))%nat).
  { unfold command_bytes. rewrite !length_app, !length_le_bytes, length_string_bytes, length_command_buffer. lia. }
  split_and!; cbn [pc_RecordType pc_WALKeyPath pc_varRecLen pc_cursor pc_dataLen]; try done; [|lia| |lia].
  - unfold parse_command. rewrite S1. cbn [outcome_bind]. rewrite S2. cbn [outcome_bind].
    rewrite (proj1 (proj2 (ToIntN_exact 2 _)) eq_refl).
    rewrite (wrapS_id 16) by (try lia; unfold inS; lia).
    rewrite S3. cbn [outcome_bind]. rewrite S4. cbn [outcome_bind].
    rewrite (proj1 (proj2 (proj2 (ToIntN_exact 4 _))) eq_refl).
    rewrite S5. cbn [outcome_bind].
    rewrite (proj1 (proj2 (proj2 (ToIntN_exact 4 _))) eq_refl).
    rewrite (proj1 (ToIntN_exact 1 _) eq_refl).
    rewrite !wrapS_id by (try lia; try apply He; unfold inS; lia).
    by rewrite bytes_string_of_bytes.
  - rewrite Hcb. rewrite <- D6. f_equal. lia.
Qed.

(** ** The log file as a list of messages *)

#[local] Arguments pwrite : simpl never.
#[local] Arguments status_message : simpl never.
#[local] Arguments encode_msgs : simpl never.

Section log.
Context `{L : StorageLibs} `{R : MapRange} (InstanceID : Z) (HID : inS 64 InstanceID) (nocomp : bool).
Implicit Types (s : wstate) (ms : list wal_msg) (m : wal_msg).

(** The open log holds the messages [ms] and is positioned at its end. *)
Record log_holds s ms : Prop := {
  lh_bytes : w_fs s !! FilePath (w_wf s) = Some (encode_msgs ms);
  lh_pos : FilePtr_pos (w_wf s) = length (encode_msgs ms);
  lh_open : FilePtr_open (w_wf s) = true;
}.

Lemma wal_bytes_log s ms : log_holds s ms -> wal_bytes s = encode_msgs ms.
Proof. intros H. unfold wal_bytes. by rewrite (lh_bytes _ _ H). Qed.

Lemma encode_msgs_app ms ms' : encode_msgs (ms ++ ms') = encode_msgs ms ++ encode_msgs ms'.
Proof. unfold encode_msgs. by rewrite map_app, concat_app. Qed.

Lemma encode_msgs_one m : encode_msgs [m] = encode_msg m.
Proof. unfold encode_msgs. cbn. apply app_nil_r. Qed.

(** The state after bytes were added to the log. *)
Definition appended (bs : list byte) s : wstate :=
  mkW (<[FilePath (w_wf s) := wal_bytes s ++ bs]> (w_fs s))
    (set_pos (length (wal_bytes s) + length bs) (w_wf s)) (w_pipe s) (w_m s) (w_c s).

Lemma wal_write_end s bs :
  FilePtr_pos (w_wf s) = length (wal_bytes s) -> wal_write bs s = (Ret tt, appended bs s).
Proof. intros Hp. unfold wal_write, appended. rewrite Hp, pwrite_end. done. Qed.

Lemma appended_bytes s bs : wal_bytes (appended bs s) = wal_bytes s ++ bs.
Proof. unfold wal_bytes at 1, appended. cbn. by rewrite lookup_insert_eq. Qed.

Lemma appended_end s bs :
  FilePtr_pos (w_wf (appended bs s)) = length (wal_bytes (appended bs s)).
Proof. rewrite appended_bytes, length_app. done. Qed.

Lemma appended_twice s a b : appended b (appended a s) = appended (a ++ b) s.
Proof.
  unfold appended at 1. rewrite appended_bytes. unfold appended. cbn.
  rewrite insert_insert_eq. rewrite !length_app, <- app_assoc. unfold set_pos. cbn.
  by rewrite Nat.add_assoc.
Qed.

Lemma appended_log s ms m : log_holds s ms -> log_holds (appended (encode_msg m) s) (ms ++ [m]).
Proof.
  intros H. split.
  - cbn. rewrite lookup_insert_eq, (wal_bytes_log _ _ H), encode_msgs_app, encode_msgs_one. done.
  - cbn. rewrite (wal_bytes_log _ _ H), encode_msgs_app, encode_msgs_one, length_app. done.
  - apply H.
Qed.

Lemma log_end s ms : log_holds s ms -> FilePtr_pos (w_wf s) = length (wal_bytes s).
Proof. intros H. by rewrite (wal_bytes_log _ _ H), (lh_pos _ _ H). Qed.

Lemma WriteTransactionInfo_appends s tid did st :
  FilePtr_pos (w_wf s) = length (wal_bytes s) ->
  WriteTransactionInfo tid did st s = (Ret tt, appended (encode_msg (MsgTxn tid did st)) s).
Proof. apply wal_write_end. Qed.

Lemma write_tg_appends s tg :
  FilePtr_pos (w_wf s) = length (wal_bytes s) ->
  write_tg tg s = (Ret tt, appended (encode_msg (MsgTG tg)) s).
Proof.
  intros H. unfold write_tg. cbv zeta.
  rewrite (bind_step _ _ _ _ _ (wal_write_end _ _ H)).
  rewrite (bind_step _ _ _ _ _ (wal_write_end _ _ (appended_end _ _))).
  rewrite (bind_step _ _ _ _ _ (wal_write_end _ _ (appended_end _ _))).
  rewrite (wal_write_end _ _ (appended_end _ _)).
  rewrite !appended_twice. cbn [encode_msg]. unfold tg_message. cbv zeta.
  by rewrite <- ?app_assoc.
Qed.

(** *** The status at the head of the log *)

Lemma length_status a b c : length (status_message a b c) = 11%nat.
Proof. rewrite status_message_eq, !length_app, !length_le_bytes. done. Qed.

(** The open log begins with the status message [a], [b], [c]. *)
Record log_status s a b c (rest : list byte) : Prop := {
  ls_bytes : w_fs s !! FilePath (w_wf s) = Some (status_message a b c ++ rest);
  ls_pos : FilePtr_pos (w_wf s) = length (status_message a b c ++ rest);
  ls_open : FilePtr_open (w_wf s) = true;
}.

Lemma log_holds_status s a b c ms :
  log_holds s (MsgStatus a b c :: ms) <-> log_status s a b c (encode_msgs ms).
Proof. split; intros [H1 H2 H3]; by split. Qed.

Lemma wal_bytes_status s a b c rest :
  log_status s a b c rest -> wal_bytes s = status_message a b c ++ rest.
Proof. intros H. unfold wal_bytes. by rewrite (ls_bytes _ _ _ _ _ H). Qed.

Lemma status_end s a b c rest : log_status s a b c rest -> FilePtr_pos (w_wf s) = length (wal_bytes s).
Proof. intros H. by rewrite (wal_bytes_status _ _ _ _ _ H), (ls_pos _ _ _ _ _ H). Qed.

Lemma readStatus_log s a b c rest :
  log_status s a b c rest -> readStatus s = (Ret (int8 a, int8 b, int64 c), s).
Proof.
  intros H. pose proof (wal_bytes_status _ _ _ _ _ H) as Hb.
  assert (Hr : ReadStatus (wal_bytes s) 1%nat = (Ret (int8 a, int8 b, int64 c), 11%nat)).
  { apply (ReadStatus_full (wal_bytes s) 1 a b c rest).
    rewrite Hb, status_message_eq, <- !app_assoc.
    split; [rewrite length_app, length_le_bytes; lia|exact (drop_le_bytes_app 1 STATUS _)]. }
  unfold readStatus.
  rewrite (bind_step _ _ s tt (set_wf (set_pos 1 (w_wf s)) s)) by done.
  assert (H1 : wal_bytes (set_wf (set_pos 1 (w_wf s)) s) = wal_bytes s) by done.
  rewrite (bind_step _ _ _ (int8 a, int8 b, int64 c) (set_wf (set_pos 11 (w_wf s)) s));
    last first.
  { unfold wal_reading. rewrite H1. change (FilePtr_pos (w_wf (set_wf (set_pos 1 (w_wf s)) s))) with 1%nat.
    rewrite Hr. done. }
  rewrite (bind_step _ _ _ tt s).
  - done.
  - unfold wal_seek_end, wal_seek. f_equal.
    change (wal_bytes (set_wf (set_pos 11 (w_wf s)) s)) with (wal_bytes s).
    rewrite <- (status_end _ _ _ _ _ H). destruct s as [? [] ? ? ?]. done.
Qed.

(** The state with the status of the file read into the structure. *)
Definition synced (a b c : Z) s : wstate := set_wf (set_status (int8 a) (int8 b) (int64 c) (w_wf s)) s.

Lemma syncStatusRead_log s a b c rest :
  log_status s a b c rest -> syncStatusRead s = (Ret tt, synced a b c s).
Proof.
  intros H. unfold syncStatusRead. rewrite (bind_step _ _ s s s) by done.
  rewrite (ls_open _ _ _ _ _ H). cbn [negb].
  by rewrite (bind_step _ _ _ _ _ (readStatus_log _ _ _ _ _ H)).
Qed.

Lemma synced_status a b c s a' b' c' rest :
  log_status s a b c rest -> log_status (synced a' b' c' s) a b c rest.
Proof. intros H. split; apply H. Qed.

Lemma CanWrite_active s rest :
  log_status s OPEN NOTREPLAYED InstanceID rest ->
  CanWrite InstanceID s = (Ret true, synced OPEN NOTREPLAYED InstanceID s).
Proof.
  intros H. unfold CanWrite. rewrite (bind_step _ _ _ _ _ (syncStatusRead_log _ _ _ _ _ H)).
  unfold isActive, IsOpen, mbind, prog_bind, state_get, mret, prog_ret. cbn.
  rewrite (ls_open _ _ _ _ _ H). unfold callerOwnsFile. cbn. rewrite (wrapS_id 64) by (done || lia).
  rewrite (Z.eqb_refl InstanceID). reflexivity.
Qed.

Lemma NeedsReplay_log s a b c rest :
  log_status s a b c rest ->
  NeedsReplay s = (Ret ((int8 b =? NOTREPLAYED) || (int8 b =? REPLAYINPROCESS)), synced a b c s).
Proof.
  intros H. unfold NeedsReplay. by rewrite (bind_step _ _ _ _ _ (syncStatusRead_log _ _ _ _ _ H)).
Qed.

(** The state after the status was written in front of [rest]. *)
Definition restatus (fs rs : Z) (rest : list byte) s : wstate :=
  mkW (<[FilePath (w_wf s) := status_message fs rs InstanceID ++ rest]> (w_fs s))
    (set_pos (length (status_message fs rs InstanceID ++ rest)) (set_status fs rs InstanceID (w_wf s)))
    (w_pipe s) (w_m s) (w_c s).

Lemma WriteStatus_log s a b c rest fs rs :
  wal_bytes s = status_message a b c ++ rest ->
  WriteStatus InstanceID fs rs s = (Ret tt, restatus fs rs rest s).
Proof.
  intros Hb. unfold WriteStatus.
  unfold mbind, prog_bind, state_modify, state_get, wal_seek, wal_write, wal_seek_end, set_wf. cbn.
  assert (Hwb : pwrite 0 (status_message fs rs InstanceID)
      (wal_bytes (mkW (w_fs s) (set_pos 0 (set_status fs rs InstanceID (w_wf s))) (w_pipe s) (w_m s) (w_c s)))
      = status_message fs rs InstanceID ++ rest).
  { change (wal_bytes (mkW _ _ _ _ _)) with (wal_bytes s). rewrite Hb, pwrite_le by lia.
    cbn [take app]. rewrite length_status. f_equal. }
  rewrite Hwb. unfold restatus. do 2 f_equal.
  unfold wal_bytes. cbn. by rewrite lookup_insert_eq.
Qed.

Lemma WriteStatus_empty s fs rs :
  wal_bytes s = [] -> WriteStatus InstanceID fs rs s = (Ret tt, restatus fs rs [] s).
Proof.
  intros Hb. unfold WriteStatus.
  unfold mbind, prog_bind, state_modify, state_get, wal_seek, wal_write, wal_seek_end, set_wf. cbn.
  assert (Hwb : pwrite 0 (status_message fs rs InstanceID)
      (wal_bytes (mkW (w_fs s) (set_pos 0 (set_status fs rs InstanceID (w_wf s))) (w_pipe s) (w_m s) (w_c s)))
      = status_message fs rs InstanceID ++ []).
  { change (wal_bytes (mkW _ _ _ _ _)) with (wal_bytes s). by rewrite Hb. }
  rewrite Hwb. unfold restatus. do 2 f_equal.
  unfold wal_bytes. cbn. by rewrite lookup_insert_eq.
Qed.

Lemma restatus_log s fs rs rest :
  FilePtr_open (w_wf s) = true -> log_status (restatus fs rs rest s) fs rs InstanceID rest.
Proof. intros Ho. split; cbn; [by rewrite lookup_insert_eq|done|done]. Qed.
End log.

(** ** Fixed-length commands on the primary files *)

Section fixed.
Context (root : string).
Implicit Types (c : WriteCommand) (cs : list WriteCommand) (fs : files).

Definition cmd_path c : string := filepath_Join root (WALKeyPath c).
Definition cmd_bytes c : list byte := le_bytes 8 (Index c) ++ Data c.
Definition cmd_off c : nat := Z.to_nat (Offset c).

(** The command's effect on its file, and on the store. *)
Definition apply_file c (f : file) : file := splice (cmd_off c) (cmd_bytes c) f.
Definition apply_fixed fs c : files :=
  match fs !! cmd_path c with
  | Some f => <[cmd_path c := apply_file c f]> fs
  | None => fs
  end.
Definition apply_all fs cs : files := foldl apply_fixed fs cs.

(** A fixed-length command whose record lies in an existing file. *)
Record fixed_ok fs c : Prop := {
  fo_type : RecordType c = FIXED;
  fo_enc : encodable c;
  fo_offset : 0 <= Offset c;
  fo_file : exists f, fs !! cmd_path c = Some f /\ (cmd_off c + length (cmd_bytes c) <= length f)%nat;
}.

Lemma length_cmd_bytes c : length (cmd_bytes c) = (8 + length (Data c))%nat.
Proof. unfold cmd_bytes. by rewrite length_app, length_le_bytes. Qed.

Lemma oib_command c :
  inS 64 (Offset c) -> oib_Offset (command_buffer c) = Offset c /\
  oib_IndexAndPayload (command_buffer c) = cmd_bytes c.
Proof.
  intros Ho. unfold oib_Offset, oib_IndexAndPayload, command_buffer.
  rewrite take_le_bytes_app, drop_le_bytes_app. split; [|done].
  rewrite (proj2 (proj2 (proj2 (ToIntN_exact 8 (Offset c)))) eq_refl). by apply wrapS_id.
Qed.

(** Lengths and domains stay, so commands that could be carried out still can. *)
Definition same_shape fs fs' : Prop := forall p, length <$> fs !! p = length <$> fs' !! p.

Lemma same_shape_refl fs : same_shape fs fs.
Proof. done. Qed.

Lemma same_shape_trans fs fs1 fs2 : same_shape fs fs1 -> same_shape fs1 fs2 -> same_shape fs fs2.
Proof. intros H1 H2 p. by rewrite H1. Qed.

Lemma fixed_ok_shape fs fs' c : same_shape fs fs' -> fixed_ok fs c -> fixed_ok fs' c.
Proof.
  intros Hs [H1 H2 H3 (f & Hf & Hle)]. split; [done..|].
  specialize (Hs (cmd_path c)). rewrite Hf in Hs. cbn in Hs.
  destruct (fs' !! cmd_path c) as [f'|]; [|done]. cbn in Hs.
  exists f'. split; [done|]. injection Hs as Hs. by rewrite <- Hs.
Qed.

Lemma apply_fixed_shape fs c : fixed_ok fs c -> same_shape fs (apply_fixed fs c).
Proof.
  intros [_ _ _ (f & Hf & Hle)] p. unfold apply_fixed. rewrite Hf.
  destruct (decide (cmd_path c = p)) as [<-|Hne].
  - rewrite lookup_insert_eq, Hf. cbn. unfold apply_file. by rewrite length_splice.
  - by rewrite lookup_insert_ne.
Qed.

Lemma apply_all_shape fs cs : Forall (fixed_ok fs) cs -> same_shape fs (apply_all fs cs).
Proof.
  revert fs. induction cs as [|c cs IH]; intros fs H; [apply same_shape_refl|].
  apply Forall_cons in H as [Hc H].
  eapply same_shape_trans; [by apply apply_fixed_shape|]. apply IH.
  eapply Forall_impl; [exact H|]. intros d. by apply fixed_ok_shape, apply_fixed_shape.
Qed.

Lemma fixed_ok_apply fs cs cs' :
  Forall (fixed_ok fs) cs -> Forall (fixed_ok fs) cs' -> Forall (fixed_ok (apply_all fs cs)) cs'.
Proof.
  intros H H'. eapply Forall_impl; [exact H'|]. intros c. by apply fixed_ok_shape, apply_all_shape.
Qed.

(** One byte of one file, before and after. *)
Definition byte_at fs (p : string) (i : nat) : option byte := fs !! p ≫= fun f => f !! i.
Definition cmd_covers c (p : string) (i : nat) : Prop :=
  cmd_path c = p /\ covers (cmd_off c) (length (cmd_bytes c)) i.
#[global] Instance cmd_covers_dec c p i : Decision (cmd_covers c p i) := _.

Lemma byte_at_apply fs c p i :
  fixed_ok fs c ->
  byte_at (apply_fixed fs c) p i =
  if decide (cmd_covers c p i) then cmd_bytes c !! (i - cmd_off c)%nat else byte_at fs p i.
Proof.
  intros [_ _ _ (f & Hf & Hle)]. unfold byte_at, apply_fixed, cmd_covers. rewrite Hf.
  destruct (decide (cmd_path c = p)) as [<-|Hne].
  - rewrite lookup_insert_eq, Hf. cbn [mbind option_bind]. unfold apply_file.
    rewrite lookup_splice by done.
    destruct (decide (covers _ _ i)) as [Hc|Hc].
    + by rewrite decide_True.
    + rewrite decide_False by tauto. done.
  - rewrite lookup_insert_ne by done. by rewrite decide_False by tauto.
Qed.

Lemma files_eq fs fs' :
  same_shape fs fs' -> (forall p i, byte_at fs p i = byte_at fs' p i) -> fs = fs'.
Proof.
  intros Hs Hb. apply map_eq. intros p. specialize (Hs p). specialize (Hb p). unfold byte_at in Hb.
  destruct (fs !! p) as [f|], (fs' !! p) as [f'|]; cbn in *; try done.
  f_equal. apply list_eq. exact Hb.
Qed.

(** Two stores of one shape that differ in bytes the commands write, at most,
    are made equal by the commands. *)
Definition agree_outside cs fs fs' : Prop :=
  same_shape fs fs' /\
  forall p i, byte_at fs p i = byte_at fs' p i \/ Exists (fun c => cmd_covers c p i) cs.

Lemma apply_all_agree cs fs fs' :
  Forall (fixed_ok fs) cs -> agree_outside cs fs fs' -> apply_all fs cs = apply_all fs' cs.
Proof.
  revert fs fs'. induction cs as [|c cs IH]; intros fs fs' Hok [Hs Hag].
  - apply files_eq; [done|]. intros p i. destruct (Hag p i) as [H|H]; [done|by apply Exists_nil in H].
  - apply Forall_cons in Hok as [Hc Hok].
    assert (Hc' : fixed_ok fs' c) by (by eapply fixed_ok_shape).
    change (apply_all (apply_fixed fs c) cs = apply_all (apply_fixed fs' c) cs).
    apply IH.
    + eapply Forall_impl; [exact Hok|]. intros d. by apply fixed_ok_shape, apply_fixed_shape.
    + split.
      * intros p. rewrite <- (apply_fixed_shape fs c Hc p), (Hs p). apply apply_fixed_shape. done.
      * intros p i. rewrite !byte_at_apply by done.
        destruct (decide (cmd_covers c p i)) as [Hcov|Hcov]; [by left|].
        destruct (Hag p i) as [H|H]; [by left|]. apply Exists_cons in H as [H|H]; [done|by right].
Qed.

Lemma byte_at_apply_all fs cs p i :
  Forall (fixed_ok fs) cs -> ~ Exists (fun c => cmd_covers c p i) cs ->
  byte_at (apply_all fs cs) p i = byte_at fs p i.
Proof.
  revert fs. induction cs as [|c cs IH]; intros fs Hok Hn; [done|].
  apply Forall_cons in Hok as [Hc Hok]. rewrite Exists_cons in Hn.
  change (byte_at (apply_all (apply_fixed fs c) cs) p i = byte_at fs p i).
  rewrite IH by first
    [ tauto
    | eapply Forall_impl; [exact Hok|]; intros d; by apply fixed_ok_shape, apply_fixed_shape ].
  rewrite byte_at_apply by done. rewrite decide_False by tauto. done.
Qed.

(** Redo is idempotent and insensitive to partial writes: carrying out
    fixed-length commands on a store that any part of them has already
    reached, in any order and also with torn records, gives the same store as
    carrying them out once on the original. *)
Lemma redo_restores (cs : list WriteCommand) (fs crashed : files) :
  Forall (fixed_ok fs) cs -> agree_outside cs fs crashed ->
  apply_all crashed cs = apply_all fs cs /\
  apply_all (apply_all fs cs) cs = apply_all fs cs.
Proof.
  intros Hok Hag. split; [symmetry; by apply apply_all_agree|].
  symmetry. apply apply_all_agree; [done|]. split; [by apply apply_all_shape|].
  intros p i. destruct (decide (Exists (fun c => cmd_covers c p i) cs)) as [H|H]; [by right|left].
  symmetry. by apply byte_at_apply_all.
Qed.
End fixed.

(** ** Replaying a transaction group *)

Section replay.
Context `{L : StorageLibs} `{R : MapRange} (InstanceID : Z) (HID : inS 64 InstanceID) (nocomp : bool).
Implicit Types (s : wstate) (c : WriteCommand) (cs : list WriteCommand).

Lemma write_buffer_fixed fs root c f pos varRecLen :
  fixed_ok root fs c -> fs !! cmd_path root c = Some f ->
  write_buffer nocomp FIXED varRecLen (command_buffer c) (mkHandle f pos)
  = (Ret tt, mkHandle (apply_file c f) pos).
Proof.
  intros [_ He Ho (f' & Hf & Hle)] Hf'. rewrite Hf in Hf'. injection Hf' as ->.
  unfold write_buffer. change (FIXED =? FIXED) with true. cbv iota.
  unfold WriteBufferToFile. destruct (oib_command c (enc_offset c He)) as [-> ->].
  unfold file_WriteAt, WriteAt. cbn [h_data h_pos].
  rewrite (proj2 (Z.ltb_ge _ _)) by done. unfold apply_file.
  by rewrite <- pwrite_splice.
Qed.

Definition fs_root s : string := RootPath (w_wf s).

(** The primary store: all files but the log. *)
Definition primary s : files := delete (FilePath (w_wf s)) (w_fs s).

Definition cmds_ok s cs : Prop := Forall (fixed_ok (fs_root s) (primary s)) cs.

Lemma fixed_ok_primary s c :
  fixed_ok (fs_root s) (primary s) c ->
  fixed_ok (fs_root s) (w_fs s) c /\ cmd_path (fs_root s) c <> FilePath (w_wf s).
Proof.
  intros [H1 H2 H3 (f & Hf & Hle)]. unfold primary in Hf.
  rewrite lookup_delete_Some in Hf. destruct Hf as [Hne Hf].
  split; [|by apply not_eq_sym]. split; eauto.
Qed.

Lemma cmds_ok_fs s cs : cmds_ok s cs ->
  Forall (fixed_ok (fs_root s) (w_fs s)) cs /\
  Forall (fun c => cmd_path (fs_root s) c <> FilePath (w_wf s)) cs.
Proof.
  intros H. split; (eapply Forall_impl; [exact H|]); intros c Hc; by apply fixed_ok_primary in Hc as [? ?].
Qed.

Definition applied s cs : wstate := set_fs (apply_all (fs_root s) (w_fs s) cs) s.

Lemma on_fs_step {A} (m : prog files A) s a fs :
  m (w_fs s) = (Ret a, fs) -> on_fs m s = (Ret a, set_fs fs s).
Proof. intros H. unfold on_fs. by rewrite H. Qed.

Lemma replay_command_fixed s c tg cfp p :
  fixed_ok (fs_root s) (w_fs s) c ->
  pc_RecordType p = RecordType c -> pc_WALKeyPath p = WALKeyPath c ->
  slice tg (pc_cursor p) (pc_cursor p + 8 + 8 + pc_dataLen p) = Ret (command_buffer c) ->
  exists cfp', replay_command nocomp tg cfp p s = (Ret cfp', applied s [c]).
Proof.
  intros Hok Ht Hk Hs. pose proof Hok as [Hf He Ho (f & Hfile & Hle)].
  unfold replay_command. rewrite (bind_step _ _ s s s) by done.
  rewrite Hk, Ht, Hf. cbv zeta.
  change (WALKeyToFullPath (w_wf s) (WALKeyPath c)) with (cmd_path (fs_root s) c).
  set (cfp' := GetFP cfp (cmd_path (fs_root s) c)).
  rewrite bool_decide_eq_true_2 by left.
  assert (Hw : with_file (cmd_path (fs_root s) c) (cfp_pos cfp')
      (buffer ← lift (slice tg (pc_cursor p) (pc_cursor p + 8 + 8 + pc_dataLen p));
       write_buffer nocomp FIXED (pc_varRecLen p) buffer) (w_fs s)
      = (Ret (cfp_pos cfp'), apply_fixed (fs_root s) (w_fs s) c)).
  { unfold with_file. rewrite Hfile. unfold mbind, prog_bind, lift. rewrite Hs.
    rewrite (write_buffer_fixed (w_fs s) (fs_root s)) by done.
    unfold apply_fixed. by rewrite Hfile. }
  rewrite (bind_step _ _ _ _ _ (on_fs_step _ _ _ _ Hw)). eexists. reflexivity.
Qed.

Lemma applied_app s cs cs' : applied (applied s cs) cs' = applied s (cs ++ cs').
Proof. unfold applied, set_fs, apply_all, fs_root. cbn. by rewrite foldl_app. Qed.

Lemma applied_nil s : applied s [] = s.
Proof. by destruct s. Qed.

Lemma replay_commands_fixed s cs tg (cursor : nat) cfp rest :
  Forall (fixed_ok (fs_root s) (w_fs s)) cs -> (cursor <= length tg)%nat ->
  drop cursor tg = concat (map command_bytes cs) ++ rest ->
  replay_commands nocomp (length cs) tg (Z.of_nat cursor) cfp s = (Ret tt, applied s cs).
Proof.
  revert s cursor cfp. induction cs as [|c cs IH]; intros s cursor cfp Hok Hc Hd.
  { by rewrite applied_nil. }
  cbn [map concat] in Hd. rewrite <- app_assoc in Hd. apply Forall_cons in Hok as [Hco Hok].
  destruct (parse_command_spec tg cursor c _ (fo_enc _ _ _ Hco) Hc Hd)
    as (p & Hp & Ht & Hk & _ & Hs & Hcur & Hd' & Hc').
  cbn [length replay_commands]. unfold lift at 1, mbind at 1, prog_bind at 1. rewrite Hp.
  destruct (replay_command_fixed s c tg cfp p Hco Ht Hk Hs) as [cfp' Hr].
  rewrite (bind_step _ _ _ _ _ Hr). rewrite Hcur.
  rewrite (IH (applied s [c])); [by rewrite applied_app| |done|done].
  eapply Forall_impl; [exact Hok|]. intros d.
  by apply fixed_ok_shape, apply_fixed_shape.
Qed.

(** The messages a checkpoint of the group adds to the log. *)
Definition checkpoint_msgs (tgid : Z) : list wal_msg :=
  [MsgTxn tgid CHECKPOINT PREPARING; MsgTxn tgid CHECKPOINT COMMITCOMPLETE].

Definition log_end_ok s : Prop := FilePtr_pos (w_wf s) = length (wal_bytes s).

Lemma createCheckpoint_spec s :
  log_end_ok s -> lastCommittedTGID (w_wf s) <> 0 ->
  createCheckpoint false s =
  (Ret tt, set_wf (set_last 0 (w_wf (appended (encode_msgs (checkpoint_msgs (lastCommittedTGID (w_wf s)))) s)))
             (appended (encode_msgs (checkpoint_msgs (lastCommittedTGID (w_wf s)))) s)).
Proof.
  intros He Hl. unfold createCheckpoint. rewrite (bind_step _ _ s s s) by done.
  cbv zeta. rewrite (proj2 (Z.eqb_neq _ _) Hl).
  set (id := lastCommittedTGID (w_wf s)).
  assert (Hm : (WriteTransactionInfo id CHECKPOINT PREPARING ;;
                WriteTransactionInfo id CHECKPOINT COMMITCOMPLETE) s
               = (Ret tt, appended (encode_msgs (checkpoint_msgs id)) s)).
  { rewrite (bind_step _ _ _ _ _ (WriteTransactionInfo_appends _ _ _ _ He)).
    rewrite (WriteTransactionInfo_appends _ _ _ _ (appended_end _ _)), appended_twice.
    unfold encode_msgs, checkpoint_msgs. cbn [map concat]. by rewrite app_nil_r. }
  rewrite (bind_step _ _ _ _ _ Hm). done.
Qed.

Lemma apply_all_delete root fs cs log :
  Forall (fun c => cmd_path root c <> log) cs ->
  delete log (apply_all root fs cs) = apply_all root (delete log fs) cs /\
  apply_all root fs cs !! log = fs !! log.
Proof.
  intros H. revert fs. induction H as [|c cs Hc _ IH]; intros fs; [done|].
  change (delete log (apply_all root (apply_fixed root fs c) cs) =
          apply_all root (apply_fixed root (delete log fs) c) cs /\
          apply_all root (apply_fixed root fs c) cs !! log = fs !! log).
  destruct (IH (apply_fixed root fs c)) as [-> ->]. unfold apply_fixed.
  rewrite lookup_delete_ne by done. destruct (fs !! cmd_path root c); [|done].
  by rewrite delete_insert_ne, lookup_insert_ne by done.
Qed.

Lemma applied_wal_bytes s cs : cmds_ok s cs -> wal_bytes (applied s cs) = wal_bytes s.
Proof.
  intros [_ Hne]%cmds_ok_fs. unfold wal_bytes, applied, set_fs. cbn.
  by rewrite (proj2 (apply_all_delete _ (w_fs s) _ _ Hne)).
Qed.

Lemma primary_applied s cs :
  cmds_ok s cs -> primary (applied s cs) = apply_all (fs_root s) (primary s) cs.
Proof.
  intros [_ Hne]%cmds_ok_fs. unfold primary, applied, set_fs. cbn.
  apply (apply_all_delete _ (w_fs s) _ _ Hne).
Qed.

Lemma primary_appended s bs : primary (appended bs s) = primary s.
Proof. unfold primary, appended. cbn. by rewrite delete_insert_eq. Qed.

(** The state after a group was replayed. *)
Definition replayed s (tgid : Z) cs : wstate :=
  let s1 := appended (encode_msgs (checkpoint_msgs tgid)) (applied s cs) in
  set_wf (set_last 0 (w_wf s1)) s1.

Lemma replayTGData_fixed s tgid cs :
  log_end_ok s -> cmds_ok s cs -> cs <> [] -> inS 64 tgid -> tgid <> 0 ->
  Z.of_nat (length cs) < 2 ^ 62 ->
  replayTGData false nocomp (serialize_tg tgid cs) s = (Ret tt, replayed s tgid cs).
Proof.
  intros He Hok Hne Hid Hid0 Hlen. unfold replayTGData.
  pose proof (serialize_tg_eq tgid cs) as Htg. set (tg := serialize_tg tgid cs) in *.
  destruct (slice_suffix tg 0 8 (le_bytes 8 tgid) _ 0 8 ltac:(lia) Htg (length_le_bytes _ _)
    eq_refl eq_refl) as (S1 & D1 & L1).
  destruct (slice_suffix tg 8 8 _ _ 8 16 L1 D1 (length_le_bytes _ _) eq_refl eq_refl) as (S2 & D2 & L2).
  unfold lift. unfold mbind at 1, prog_bind at 1. rewrite S1.
  unfold mbind at 1, prog_bind at 1. rewrite S2. cbv zeta.
  rewrite (proj2 (proj2 (proj2 (ToIntN_exact 8 _))) eq_refl).
  rewrite (proj2 (proj2 (proj2 (ToIntN_exact 8 _))) eq_refl).
  rewrite (wrapS_id 64 tgid) by (done || lia).
  rewrite (wrapS_id 64 (Z.of_nat (length cs))) by (try lia; unfold inS; lia).
  assert (Hl0 : Z.of_nat (length cs) <> 0) by (destruct cs; [done|cbn; lia]).
  rewrite (proj2 (Z.eqb_neq _ _) Hl0), Nat2Z.id.
  rewrite <- (app_nil_r (concat _)) in D2.
  rewrite (bind_step _ _ _ _ _ (replay_commands_fixed s cs tg 16 NewCachedFP [] (proj1 (cmds_ok_fs _ _ Hok)) L2 D2)).
  set (s1 := set_wf (set_last tgid (w_wf (applied s cs))) (applied s cs)).
  rewrite (bind_step _ _ _ tt s1) by done.
  assert (He1 : log_end_ok s1).
  { unfold log_end_ok. change (wal_bytes s1) with (wal_bytes (applied s cs)).
    rewrite applied_wal_bytes by done. exact He. }
  rewrite (createCheckpoint_spec s1 He1) by done. done.
Qed.

(** What a replay leaves alone. *)
Record same_frame s s' : Prop := {
  sf_root : RootPath (w_wf s') = RootPath (w_wf s);
  sf_path : FilePath (w_wf s') = FilePath (w_wf s);
  sf_open : FilePtr_open (w_wf s') = FilePtr_open (w_wf s);
  sf_pipe : w_pipe s' = w_pipe s;
  sf_m : w_m s' = w_m s;
  sf_c : w_c s' = w_c s;
}.

Lemma same_frame_refl s : same_frame s s.
Proof. by split. Qed.

Lemma same_frame_trans s s1 s2 : same_frame s s1 -> same_frame s1 s2 -> same_frame s s2.
Proof. intros [] []. split; congruence. Qed.

(** A transaction group whose commands can be carried out. *)
Definition group_ok s (g : Z * list WriteCommand) : Prop :=
  cmds_ok s (snd g) /\ snd g <> [] /\ inS 64 (fst g) /\ 0 < fst g /\
  Z.of_nat (length (snd g)) < 2 ^ 62.

Definition serialize_group (g : Z * list WriteCommand) : list byte := serialize_tg (fst g) (snd g).
Definition group_cmds (gs : list (Z * list WriteCommand)) : list WriteCommand := concat (map snd gs).

Lemma replayed_frame s tgid cs : same_frame s (replayed s tgid cs).
Proof. by split. Qed.

Lemma replayed_bytes s tgid cs :
  cmds_ok s cs ->
  wal_bytes (replayed s tgid cs) = wal_bytes s ++ encode_msgs (checkpoint_msgs tgid).
Proof.
  intros H. unfold replayed. cbv zeta.
  change (wal_bytes (set_wf ?x ?y)) with (wal_bytes y). by rewrite appended_bytes, applied_wal_bytes.
Qed.

Lemma replayed_primary s tgid cs :
  cmds_ok s cs -> primary (replayed s tgid cs) = apply_all (fs_root s) (primary s) cs.
Proof.
  intros H. unfold replayed. cbv zeta.
  change (primary (set_wf ?x ?y)) with (primary y). by rewrite primary_appended, primary_applied.
Qed.

Lemma cmds_ok_frame s s' cs :
  RootPath (w_wf s') = RootPath (w_wf s) -> same_shape (primary s) (primary s') ->
  cmds_ok s cs -> cmds_ok s' cs.
Proof.
  unfold cmds_ok, fs_root. intros -> Hs H. eapply Forall_impl; [exact H|]. intros c.
  by apply fixed_ok_shape.
Qed.

Lemma replay_groups gs s :
  log_end_ok s -> Forall (group_ok s) gs ->
  exists s', for_each (map serialize_group gs) (replayTGData false nocomp) s = (Ret tt, s') /\
    primary s' = apply_all (fs_root s) (primary s) (group_cmds gs) /\
    (exists bs, wal_bytes s' = wal_bytes s ++ bs) /\
    log_end_ok s' /\ same_frame s s'.
Proof.
  revert s. induction gs as [|[tgid cs] gs IH]; intros s He Hok.
  { exists s. split_and!; [done|done|exists []; by rewrite app_nil_r|done|apply same_frame_refl]. }
  apply Forall_cons in Hok as [(Hcs & Hne & Hid & Hpos & Hlen) Hok]. cbn [fst snd] in *.
  pose proof (replayTGData_fixed s tgid cs He Hcs Hne Hid ltac:(lia) Hlen) as Hr.
  set (s1 := replayed s tgid cs) in *.
  assert (Hp1 : primary s1 = apply_all (fs_root s) (primary s) cs) by (by apply replayed_primary).
  assert (He1 : log_end_ok s1).
  { unfold log_end_ok. unfold s1, replayed. cbv zeta. apply appended_end. }
  destruct (IH s1 He1) as (s' & Hf & Hp & (bs & Hb) & He' & Hfr).
  { eapply Forall_impl; [exact Hok|]. intros [i d] (H1 & H2 & H3 & H4 & H5). split_and!; try done.
    eapply cmds_ok_frame; [|  |exact H1]; [done|]. rewrite Hp1. by apply apply_all_shape. }
  exists s'. split_and!.
  - cbn [map for_each]. rewrite (bind_step _ _ _ _ _ Hr). exact Hf.
  - rewrite Hp, Hp1. unfold group_cmds, apply_all. cbn [map concat snd].
    rewrite foldl_app. done.
  - rewrite Hb. unfold s1. rewrite replayed_bytes by done. rewrite <- app_assoc. eauto.
  - exact He'.
  - eapply same_frame_trans; [|exact Hfr]. apply replayed_frame.
Qed.

(** The log found by a replay: a status that asks for it, complete messages
    and what a crash left of the last one. *)
Record replayable s (b : Z) (ms : list wal_msg) (t : list byte) (gs : list (Z * list WriteCommand)) : Prop := {
  rp_status : exists a o, log_status s a b o (encode_msgs ms ++ t);
  rp_state : int8 b = NOTREPLAYED \/ int8 b = REPLAYINPROCESS;
  rp_size : Z.of_nat (length (wal_bytes s)) < 2 ^ 53;
  rp_valid : Forall valid_msg ms;
  rp_ids : ids_increasing (tg_ids ms);
  rp_tail : tail_ok (wal_bytes s) t;
  rp_pending : pending ms = map serialize_group gs;
  rp_groups : Forall (group_ok s) gs;
}.

Lemma torn_msg_length f f' m t : length f = length f' -> torn_msg f m t -> torn_msg f' m t.
Proof. unfold torn_msg. intros ->. done. Qed.

Lemma Replay_spec s b ms t gs :
  replayable s b ms t gs ->
  exists s', Replay InstanceID false nocomp true s = (Ret tt, s') /\
    primary s' = apply_all (fs_root s) (primary s) (group_cmds gs) /\
    (exists rest, log_status s' OPEN REPLAYED InstanceID rest) /\
    FileStatus (w_wf s') = OPEN /\ ReplayState (w_wf s') = REPLAYED /\
    same_frame s s'.
Proof.
  intros [(a & c & Hst) Hb Hsz Hv Hids Ht Hpend Hgs].
  set (rest := encode_msgs ms ++ t) in *.
  unfold Replay. rewrite (bind_step _ _ _ _ _ (NeedsReplay_log s a b c rest Hst)).
  assert (Hneed : (int8 b =? NOTREPLAYED) || (int8 b =? REPLAYINPROCESS) = true).
  { destruct Hb as [-> | ->]; done. }
  rewrite Hneed. cbn [negb].
  set (s1 := synced a b c s).
  assert (Hst1 : log_status s1 a b c rest) by (by apply synced_status).
  rewrite (bind_step _ _ _ _ _ (WriteStatus_log InstanceID s1 a b c rest OPEN REPLAYINPROCESS
    (wal_bytes_status _ _ _ _ _ Hst1))).
  set (s2 := restatus InstanceID OPEN REPLAYINPROCESS rest s1).
  assert (Hst2 : log_status s2 OPEN REPLAYINPROCESS InstanceID rest)
    by (apply restatus_log; apply Hst1).
  pose proof (wal_bytes_status _ _ _ _ _ Hst2) as Hb2.
  assert (Hlen2 : length (wal_bytes s2) = length (wal_bytes s)).
  { rewrite Hb2, (wal_bytes_status _ _ _ _ _ Hst), !length_app, !length_status. done. }
  rewrite (bind_step _ _ s2 tt (set_wf (set_pos 0 (w_wf s2)) s2)) by done.
  assert (Hscan : exists st, scan_loop (wal_bytes s2) (S (length (wal_bytes s2))) scan_init 0%nat
            = (Ret st, length (wal_bytes s2)) /\ replay_order (TGData st) = pending ms).
  { assert (Hf : wal_bytes s2 = encode_msgs (MsgStatus OPEN REPLAYINPROCESS InstanceID :: ms) ++ t).
    { rewrite Hb2. unfold rest, encode_msgs. cbn [map concat encode_msg]. by rewrite app_assoc. }
    rewrite Hf. apply (replay_scan_log (MsgStatus OPEN REPLAYINPROCESS InstanceID :: ms) t).
    - rewrite <- Hf, Hlen2. exact Hsz.
    - by constructor.
    - exact Hids.
    - rewrite <- Hf. destruct Ht as [->|(m & Hm & Htorn)]; [by left|right].
      exists m. split; [done|]. by eapply torn_msg_length. }
  destruct Hscan as (st & Hscan & Horder).
  set (s3 := set_wf (set_pos (length (wal_bytes s2)) (w_wf s2)) s2).
  assert (Hread : wal_reading (fun f => scan_loop f (S (length f)) scan_init)
            (set_wf (set_pos 0 (w_wf s2)) s2) = (Ret st, s3)).
  { unfold wal_reading. change (wal_bytes (set_wf (set_pos 0 (w_wf s2)) s2)) with (wal_bytes s2).
    change (FilePtr_pos (w_wf (set_wf (set_pos 0 (w_wf s2)) s2))) with 0%nat.
    rewrite Hscan. done. }
  rewrite (bind_step _ _ _ _ _ Hread), Horder, Hpend.
  assert (Hp3 : primary s3 = primary s).
  { change (primary s3) with (primary (restatus InstanceID OPEN REPLAYINPROCESS rest s)).
    unfold primary, restatus. cbn. by rewrite delete_insert_eq. }
  destruct (replay_groups gs s3) as (s4 & Hrun & Hprim & (bs & Hbs) & He4 & Hfr).
  { done. }
  { eapply Forall_impl; [exact Hgs|]. intros g (H1 & H2 & H3 & H4 & H5). split_and!; try done.
    eapply cmds_ok_frame; [| |exact H1]; [done|]. by rewrite Hp3. }
  rewrite (bind_step _ _ _ _ _ Hrun).
  assert (Hb4 : wal_bytes s4 = status_message OPEN REPLAYINPROCESS InstanceID ++ (rest ++ bs)).
  { rewrite Hbs. change (wal_bytes s3) with (wal_bytes s2). by rewrite Hb2, app_assoc. }
  rewrite (WriteStatus_log InstanceID s4 _ _ _ _ OPEN REPLAYED Hb4).
  assert (Hfr' : same_frame s s4) by (destruct Hfr; by split).
  eexists. split; [reflexivity|]. split_and!.
  - unfold primary at 1, restatus. cbn. rewrite delete_insert_eq.
    change (delete (FilePath (w_wf s4)) (w_fs s4)) with (primary s4). by rewrite Hprim, Hp3.
  - eexists. apply restatus_log. rewrite (sf_open _ _ Hfr'). apply Hst.
  - done.
  - done.
  - eapply same_frame_trans; [exact Hfr'|]. by split.
Qed.
End replay.

(** ** Carrying out a group file by file *)

Section grouping.
Context `{L : StorageLibs} (nocomp : bool) (root : string).
Implicit Types (c : WriteCommand) (cs ds : list WriteCommand) (fs : files) (k p : string).

Definition apply_file_all ds (f : file) : file := foldl (fun f c => apply_file c f) f ds.

Lemma apply_all_lookup fs cs p :
  Forall (fixed_ok root fs) cs ->
  apply_all root fs cs !! p = apply_file_all (filter (fun c => cmd_path root c = p) cs) <$> fs !! p.
Proof.
  revert fs. induction cs as [|c cs IH]; intros fs H.
  { cbn. by destruct (fs !! p). }
  apply Forall_cons in H as [Hc H].
  change (apply_all root fs (c :: cs)) with (apply_all root (apply_fixed root fs c) cs).
  rewrite IH; [|eapply Forall_impl; [exact H|]; intros d; by apply fixed_ok_shape, apply_fixed_shape].
  destruct Hc as [_ _ _ (f & Hf & _)]. unfold apply_fixed. rewrite Hf, filter_cons.
  destruct (decide (cmd_path root c = p)) as [<-|Hne].
  - rewrite lookup_insert_eq, Hf. done.
  - by rewrite lookup_insert_ne.
Qed.

(** The commands of one file, on that file. *)
Lemma writePrimary_fixed fs p ds f varRecLen :
  fs !! p = Some f -> Forall (fun c => fixed_ok root fs c /\ cmd_path root c = p) ds ->
  writePrimary nocomp p (map command_buffer ds) FIXED varRecLen fs
  = (Ret tt, <[p := apply_file_all ds f]> fs).
Proof.
  intros Hf Hds. unfold writePrimary. change (FIXED =? FIXED) with true. cbn [andb].
  assert (Hr : Forall (fun c => inS 64 (Offset c) /\ 0 <= Offset c /\
                       (cmd_off c + length (cmd_bytes c) <= length f)%nat) ds).
  { eapply Forall_impl; [exact Hds|]. intros c [[_ He Ho (f' & Hf' & Hle)] Hp].
    rewrite Hp, Hf in Hf'. injection Hf' as <-. split_and!; [apply He|done|done]. }
  clear Hds. destruct (_ <=? _)%nat.
  - unfold with_buffile. rewrite Hf.
    destruct (buffile_writes (map (fun c => (cmd_bytes c, cmd_off c)) ds) _ _ (represents_New f))
      as (bf & Hrun & Hrep).
    { apply Forall_map. eapply Forall_impl; [exact Hr|]. cbn. intros c (_ & _ & ?). done. }
    assert (Hsame : forall b, for_each (map command_buffer ds)
        (WriteBufferToFile (fun d o => buffile_WriteAt d o ;; mret tt)) b
      = for_each (map (fun c => (cmd_bytes c, cmd_off c)) ds)
        (fun w => buffile_WriteAt (fst w) (Z.of_nat (snd w)) ;; mret tt) b).
    { clear Hrun Hrep. induction Hr as [|c ds (H1 & H2 & _) _ IH]; intros b; [done|].
      cbn [map for_each fst snd].
      change (WriteBufferToFile ?F (command_buffer c))
        with (F (oib_IndexAndPayload (command_buffer c)) (oib_Offset (command_buffer c))).
      destruct (oib_command c H1) as [-> ->]. unfold cmd_off. rewrite Z2Nat.id by done.
      unfold mbind, prog_bind. destruct (buffile_WriteAt _ _ b) as [[] b']; try done. apply IH. }
    rewrite Hsame, Hrun, (buffile_Close_spec _ _ Hrep). do 2 f_equal.
    unfold apply_file_all. clear. revert f. induction ds as [|c ds IH]; intros f; [done|]. apply IH.
  - unfold with_file. rewrite Hf.
    assert (Hrun : for_each (map command_buffer ds) (write_buffer nocomp FIXED varRecLen) (mkHandle f 0)
      = (Ret tt, mkHandle (apply_file_all ds f) 0)).
    { clear Hf. revert f Hr. induction ds as [|c ds IH]; intros f Hr; [done|].
      apply Forall_cons in Hr as [(H1 & H2 & H3) Hr]. cbn [map for_each].
      assert (Hw : write_buffer nocomp FIXED varRecLen (command_buffer c) (mkHandle f 0)
                   = (Ret tt, mkHandle (apply_file c f) 0)).
      { unfold write_buffer. change (FIXED =? FIXED) with true. cbv iota.
        unfold WriteBufferToFile. destruct (oib_command c H1) as [-> ->].
        unfold file_WriteAt, WriteAt. cbn [h_data h_pos].
        rewrite (proj2 (Z.ltb_ge _ _)) by done. unfold apply_file. by rewrite <- pwrite_splice. }
      rewrite (bind_step _ _ _ _ _ Hw). apply IH.
      eapply Forall_impl; [exact Hr|]. cbn. intros d. unfold apply_file. by rewrite length_splice. }
    by rewrite Hrun.
Qed.

(** *** What the loop over the channel collects *)

Definition cmds_of k cs : list WriteCommand := filter (fun c => WALKeyPath c = k) cs.

Record collected (st : flush_state) (tg0 : list byte) cs : Prop := {
  col_tg : TG_Serialized st = tg0 ++ concat (map command_bytes cs);
  col_writes k : writesPerFile st !! k =
    match cmds_of k cs with [] => None | ds => Some (map command_buffer ds) end;
  col_types k : fileRecordTypes st !! k = RecordType <$> head (cmds_of k cs);
  col_lens k : varRecLens st !! k = VarRecLen <$> head (cmds_of k cs);
}.

Lemma flush_step_buffer st c :
  let tg := ser (ser (serialize_header (TG_Serialized st) c) (DInt64 (Offset c))) (DInt64 (Index c)) ++ Data c in
  take (8 + 8 + length (Data c)) (drop (length (serialize_header (TG_Serialized st) c)) tg)
  = command_buffer c.
Proof.
  cbv zeta. set (h := serialize_header (TG_Serialized st) c).
  unfold ser. cbn [Serialize DataToByteSlice]. rewrite <- !app_assoc.
  rewrite drop_app_length. fold (command_buffer c). apply take_ge.
  rewrite length_command_buffer. lia.
Qed.

Lemma cmds_of_snoc k cs c :
  cmds_of k (cs ++ [c]) = cmds_of k cs ++ (if decide (WALKeyPath c = k) then [c] else []).
Proof.
  unfold cmds_of. rewrite filter_app, filter_cons, filter_nil. by destruct (decide _).
Qed.

Lemma first_insert {A} (g : WriteCommand -> A) (m : gmap string A) cs c :
  (forall k, m !! k = g <$> head (cmds_of k cs)) ->
  forall k, (match m !! WALKeyPath c with Some _ => m | None => <[WALKeyPath c := g c]> m end) !! k
    = g <$> head (cmds_of k (cs ++ [c])).
Proof.
  intros Hm k. rewrite cmds_of_snoc. pose proof (Hm (WALKeyPath c)) as Hc.
  destruct (decide (WALKeyPath c = k)) as [<-|Hne].
  - destruct (m !! WALKeyPath c) eqn:Hl.
    + rewrite Hl, Hc. destruct (cmds_of (WALKeyPath c) cs); done.
    + rewrite lookup_insert_eq. destruct (cmds_of (WALKeyPath c) cs); done.
  - rewrite app_nil_r. destruct (m !! WALKeyPath c); [apply Hm|].
    rewrite lookup_insert_ne by done. apply Hm.
Qed.

Lemma flush_step_collects st tg0 cs c :
  collected st tg0 cs -> collected (flush_step st c) tg0 (cs ++ [c]).
Proof.
  intros [Ht Hw Hty Hl]. split.
  - change (TG_Serialized (flush_step st c)) with (serialize_command (TG_Serialized st) c).
    rewrite serialize_command_eq, Ht, map_app, concat_app. cbn. by rewrite app_nil_r, <- app_assoc.
  - intros k. cbn [writesPerFile flush_step]. rewrite flush_step_buffer, cmds_of_snoc.
    destruct (decide (WALKeyPath c = k)) as [<-|Hne].
    + rewrite lookup_insert_eq, Hw. destruct (cmds_of (WALKeyPath c) cs) as [|d ds]; [done|].
      cbn. by rewrite map_app.
    + rewrite lookup_insert_ne, app_nil_r by done. apply Hw.
  - apply first_insert, Hty.
  - apply first_insert, Hl.
Qed.

Lemma flush_collects tgid n cs :
  collected (foldl flush_step (flush_init tgid n) cs)
    (le_bytes 8 tgid ++ le_bytes 8 (Z.of_nat n)) cs.
Proof.
  induction cs as [|c cs IH] using rev_ind.
  - by split.
  - rewrite foldl_app. by apply flush_step_collects.
Qed.
End grouping.

(** ** Commit *)

Section commit.
Context `{L : StorageLibs} `{R : MapRange} (InstanceID : Z) (HID : inS 64 InstanceID) (nocomp : bool).
Implicit Types (s : wstate) (c : WriteCommand) (cs : list WriteCommand) (k : string).

(** The keys of the commands name different files. *)
Definition keys_distinct (root : string) cs : Prop :=
  forall c d, c ∈ cs -> d ∈ cs -> cmd_path root c = cmd_path root d -> WALKeyPath c = WALKeyPath d.

(** What the triggers get of a list of commands: per file, index and data. *)
Definition trigger_records cs (m : gmap string (list (list byte))) : Prop :=
  forall k, m !! k = match cmds_of k cs with [] => None | ds => Some (map cmd_bytes ds) end.

Lemma appendRecords_spec k ds s :
  Forall (fun c => inS 64 (Offset c)) ds ->
  for_each (map command_buffer ds) (fun buffer => appendRecord k (oib_IndexAndPayload buffer)) s
  = (Ret tt, match ds with
             | [] => s
             | _ => mkW (w_fs s) (w_wf s) (w_pipe s)
                      (<[k := default [] (w_m s !! k) ++ map cmd_bytes ds]> (w_m s)) (w_c s)
             end).
Proof.
  intros H. revert s. induction H as [|c ds Hc _ IH]; intros s; [done|].
  cbn [map for_each]. rewrite (proj2 (oib_command c Hc)).
  unfold mbind, prog_bind, appendRecord, state_modify. rewrite IH.
  destruct ds as [|d ds]; [done|]. cbn [w_fs w_wf w_pipe w_m w_c].
  rewrite lookup_insert_eq, insert_insert_eq. cbn [default from_option id map].
  by rewrite <- app_assoc.
Qed.

(** The entries of the map of writes, as groups of commands. *)
Definition entry_state s k ds : wstate :=
  mkW (<[filepath_Join (fs_root s) k :=
         apply_file_all ds (default [] (w_fs s !! filepath_Join (fs_root s) k))]> (w_fs s))
    (w_wf s) (w_pipe s) (<[k := default [] (w_m s !! k) ++ map cmd_bytes ds]> (w_m s)) (w_c s).

Lemma flush_entry st s k ds :
  ds <> [] -> Forall (fun c => fixed_ok (fs_root s) (w_fs s) c /\ WALKeyPath c = k) ds ->
  fileRecordTypes st !! k = Some FIXED ->
  (s' ← state_get;
   on_fs (writePrimary nocomp (WALKeyToFullPath (w_wf s') k) (map command_buffer ds)
      (default 0 (fileRecordTypes st !! k)) (default 0 (varRecLens st !! k))) ;;
   for_each (map command_buffer ds) (fun buffer => appendRecord k (oib_IndexAndPayload buffer))) s
  = (Ret tt, entry_state s k ds).
Proof.
  intros Hne Hds Ht. rewrite (bind_step _ _ s s s) by done. rewrite Ht.
  change (default 0 (Some FIXED)) with FIXED.
  set (path := WALKeyToFullPath (w_wf s) k).
  assert (Hf : exists f, w_fs s !! path = Some f).
  { destruct ds as [|c ds]; [done|]. apply Forall_cons in Hds as [[[_ _ _ (f & Hf & _)] <-] _].
    by exists f. }
  destruct Hf as [f Hf].
  pose proof (writePrimary_fixed nocomp (fs_root s) (w_fs s) path ds f (default 0 (varRecLens st !! k)) Hf) as Hw.
  rewrite (bind_step _ _ _ _ _ (on_fs_step _ _ _ _ (Hw ltac:(
    eapply Forall_impl; [exact Hds|]; intros c [H <-]; by split)))).
  rewrite appendRecords_spec.
  - destruct ds as [|d ds]; [done|]. unfold entry_state. cbn [w_fs w_wf w_pipe w_m w_c set_fs].
    change (filepath_Join (fs_root s) k) with path. by rewrite Hf.
  - eapply Forall_impl; [exact Hds|]. intros c [H _]. apply H.
Qed.

(** The loop over the files, given which commands each entry stands for. *)
Fixpoint entries_state s (es : list (string * list WriteCommand)) : wstate :=
  match es with
  | [] => s
  | (k, ds) :: es' => entries_state (entry_state s k ds) es'
  end.

Definition entries_cmds (es : list (string * list WriteCommand)) : list WriteCommand := concat (map snd es).

Lemma entry_state_fs s k ds :
  ds <> [] -> Forall (fun c => fixed_ok (fs_root s) (w_fs s) c /\ WALKeyPath c = k) ds ->
  w_fs (entry_state s k ds) = apply_all (fs_root s) (w_fs s) ds.
Proof.
  intros Hne Hds.
  assert (Hok : Forall (fixed_ok (fs_root s) (w_fs s)) ds)
    by (eapply Forall_impl; [exact Hds|]; by intros c [? _]).
  assert (Hp : Forall (fun c => cmd_path (fs_root s) c = filepath_Join (fs_root s) k) ds)
    by (eapply Forall_impl; [exact Hds|]; intros c [_ <-]; done).
  apply map_eq. intros p. rewrite apply_all_lookup by done. cbn [w_fs entry_state].
  destruct (decide (p = filepath_Join (fs_root s) k)) as [->|Hnp].
  - rewrite lookup_insert_eq. rewrite (filter_all _ ds Hp).
    destruct ds as [|c ds]; [done|]. apply Forall_cons in Hok as [[_ _ _ (f & Hf & _)] _].
    apply Forall_cons in Hp as [Hpc _]. rewrite Hpc in Hf. by rewrite Hf.
  - rewrite lookup_insert_ne by done.
    rewrite filter_none.
    + unfold apply_file_all. cbn. by destruct (w_fs s !! p).
    + eapply Forall_impl; [exact Hp|]. cbn. intros c -> ?. done.
Qed.

Lemma flush_entries st es s :
  Forall (fun e => snd e <> [] /\ fileRecordTypes st !! fst e = Some FIXED /\
                   Forall (fun c => WALKeyPath c = fst e) (snd e)) es ->
  Forall (fixed_ok (fs_root s) (w_fs s)) (entries_cmds es) ->
  for_each (map (fun e => (fst e, map command_buffer (snd e))) es) (fun '(keyPath, writes) =>
    s ← state_get;
    on_fs (writePrimary nocomp (WALKeyToFullPath (w_wf s) keyPath) writes
      (default 0 (fileRecordTypes st !! keyPath)) (default 0 (varRecLens st !! keyPath))) ;;
    for_each writes (fun buffer => appendRecord keyPath (oib_IndexAndPayload buffer))) s
  = (Ret tt, entries_state s es) /\
  w_fs (entries_state s es) = apply_all (fs_root s) (w_fs s) (entries_cmds es).
Proof.
  revert s. induction es as [|[k ds] es IH]; intros s Hes Hok; [done|].
  apply Forall_cons in Hes as [(Hne & Ht & Hk) Hes]. cbn [fst snd] in *.
  unfold entries_cmds in *. cbn [map concat snd] in *. apply Forall_app in Hok as [Hd Hok].
  assert (Hds : Forall (fun c => fixed_ok (fs_root s) (w_fs s) c /\ WALKeyPath c = k) ds).
  { apply Forall_and. done. }
  pose proof (entry_state_fs s k ds Hne Hds) as Hfs.
  destruct (IH (entry_state s k ds) Hes) as [H1 H2].
  { change (fs_root (entry_state s k ds)) with (fs_root s). rewrite Hfs. by apply fixed_ok_apply. }
  split.
  - cbn [map for_each fst snd]. rewrite (bind_step _ _ _ _ _ (flush_entry st s k ds Hne Hds Ht)).
    exact H1.
  - cbn [entries_state]. rewrite H2, Hfs. unfold apply_all. by rewrite foldl_app.
Qed.

(** *** The order in which the files are visited does not matter *)

Fixpoint entry_of (k : string) (es : list (string * list WriteCommand)) : list WriteCommand :=
  match es with
  | [] => []
  | (k', ds) :: es' => if decide (k' = k) then ds else entry_of k es'
  end.

Lemma filter_entries root es p k :
  NoDup (map fst es) ->
  Forall (fun e => Forall (fun c => cmd_path root c = p <-> fst e = k) (snd e)) es ->
  filter (fun c => cmd_path root c = p) (entries_cmds es) = entry_of k es.
Proof.
  intros Hnd H. unfold entries_cmds. induction H as [|[k' ds] es He Hes IH]; [done|].
  apply NoDup_cons in Hnd as [Hk' Hnd]. cbn [map concat snd fst entry_of] in *.
  rewrite filter_app. specialize (IH Hnd).
  destruct (decide (k' = k)) as [->|Hne].
  - rewrite filter_all by (eapply Forall_impl; [exact He|]; cbn; tauto).
    rewrite filter_none; [by rewrite app_nil_r|].
    apply Forall_concat, Forall_map. rewrite Forall_forall. intros e Hin.
    rewrite Forall_forall in Hes. specialize (Hes e Hin).
    eapply Forall_impl; [exact Hes|]. cbn. intros c -> <-. apply Hk', list_elem_of_fmap. eauto.
  - rewrite filter_none by (eapply Forall_impl; [exact He|]; cbn; intros c ->; done).
    exact IH.
Qed.

Definition grouped cs (ks : list string) : list (string * list WriteCommand) :=
  map (fun k => (k, cmds_of k cs)) ks.

Lemma fst_grouped cs ks : map fst (grouped cs ks) = ks.
Proof. unfold grouped. rewrite map_map. apply map_id. Qed.

Lemma entry_of_grouped cs ks k : k ∈ ks -> entry_of k (grouped cs ks) = cmds_of k cs.
Proof.
  induction ks as [|k' ks IH]; [by intros ?%elem_of_nil|]. cbn [grouped map entry_of fst].
  fold (grouped cs ks). intros Hk. destruct (decide (k' = k)) as [->|Hne]; [done|].
  apply IH. apply elem_of_cons in Hk as [->|Hk]; done.
Qed.

Lemma cmds_of_key k cs : Forall (fun c => WALKeyPath c = k /\ c ∈ cs) (cmds_of k cs).
Proof. rewrite Forall_forall. intros c Hc. unfold cmds_of in Hc. by apply list_elem_of_filter in Hc. Qed.

Lemma filter_grouped root cs ks p :
  keys_distinct root cs -> NoDup ks -> (forall k, k ∈ ks <-> cmds_of k cs <> []) ->
  filter (fun c => cmd_path root c = p) (entries_cmds (grouped cs ks))
  = filter (fun c => cmd_path root c = p) cs.
Proof.
  intros Hd Hnd Hks.
  destruct (filter (fun c => cmd_path root c = p) cs) as [|c0 l] eqn:Hf.
  { apply filter_none, Forall_concat, Forall_map, Forall_map, Forall_forall. intros k Hk. cbn.
    eapply Forall_impl; [apply cmds_of_key|]. cbn. intros c [_ Hin] Hp.
    exact (filter_nil_not_elem_of _ _ _ Hf Hp Hin). }
  assert (Hc0 : c0 ∈ cs /\ cmd_path root c0 = p).
  { assert (H : c0 ∈ filter (fun c => cmd_path root c = p) cs) by (rewrite Hf; left).
    apply list_elem_of_filter in H. tauto. }
  destruct Hc0 as [Hin0 Hp0].
  assert (Hkey : cmds_of (WALKeyPath c0) cs = c0 :: l).
  { rewrite <- Hf. apply filter_ext_in. intros c Hc. rewrite <- Hp0. split.
    - unfold cmd_path. by intros ->.
    - intros H. by apply Hd. }
  rewrite (filter_entries root _ p (WALKeyPath c0)).
  - rewrite entry_of_grouped; [exact Hkey|]. apply Hks. by rewrite Hkey.
  - by rewrite fst_grouped.
  - apply Forall_map, Forall_forall. intros k _. cbn. eapply Forall_impl; [apply cmds_of_key|].
    cbn. intros c [<- Hin]. rewrite <- Hp0. split.
    + intros H. by apply Hd.
    + unfold cmd_path. by intros ->.
Qed.

Lemma apply_all_grouped root fs cs ks :
  Forall (fixed_ok root fs) cs -> keys_distinct root cs -> NoDup ks ->
  (forall k, k ∈ ks <-> cmds_of k cs <> []) ->
  Forall (fixed_ok root fs) (entries_cmds (grouped cs ks)) /\
  apply_all root fs (entries_cmds (grouped cs ks)) = apply_all root fs cs.
Proof.
  intros Hok Hd Hnd Hks.
  assert (Hg : Forall (fixed_ok root fs) (entries_cmds (grouped cs ks))).
  { apply Forall_concat, Forall_map, Forall_map, Forall_forall. intros k Hk. cbn.
    eapply Forall_impl; [apply cmds_of_key|]. cbn. intros c [_ Hin].
    rewrite Forall_forall in Hok. by apply Hok. }
  split; [exact Hg|]. apply map_eq. intros p.
  by rewrite !apply_all_lookup, filter_grouped by done.
Qed.

Lemma entries_state_m s es k :
  NoDup (map fst es) ->
  w_m (entries_state s es) !! k =
  if decide (k ∈ map fst es) then Some (default [] (w_m s !! k) ++ map cmd_bytes (entry_of k es))
  else w_m s !! k.
Proof.
  revert s. induction es as [|[k' ds] es IH]; intros s Hnd; [done|].
  cbn [entries_state map fst entry_of] in *. apply NoDup_cons in Hnd as [Hk' Hnd].
  rewrite IH by done. cbn [w_m entry_state].
  destruct (decide (k' = k)) as [->|Hne].
  - rewrite decide_False by done. rewrite lookup_insert_eq. by rewrite decide_True by left.
  - rewrite lookup_insert_ne by done. destruct (decide (k ∈ map fst es)) as [H|H].
    + by rewrite decide_True by (by right).
    + rewrite decide_False; [done|]. by intros [->|?]%elem_of_cons.
Qed.

Lemma entries_state_frame s es :
  w_wf (entries_state s es) = w_wf s /\ w_pipe (entries_state s es) = w_pipe s /\
  w_c (entries_state s es) = w_c s.
Proof.
  revert s. induction es as [|[k ds] es IH]; intros s; [done|]. cbn [entries_state].
  destruct (IH (entry_state s k ds)) as (-> & -> & ->). done.
Qed.

(** The whole loop over the collected map. *)
Lemma flush_primary_spec st tg0 cs s :
  collected st tg0 cs -> cmds_ok s cs -> keys_distinct (fs_root s) cs -> w_m s = ∅ ->
  exists s', flush_primary nocomp st s = (Ret tt, s') /\
    w_fs s' = apply_all (fs_root s) (w_fs s) cs /\ trigger_records cs (w_m s') /\
    w_wf s' = w_wf s /\ w_pipe s' = w_pipe s /\ w_c s' = w_c s.
Proof.
  intros [_ Hw Hty _] Hok Hd Hm.
  pose proof (proj1 (cmds_ok_fs _ _ Hok)) as Hfs.
  set (entries := map_range (writesPerFile st)).
  assert (Hperm : Permutation entries (map_to_list (writesPerFile st))) by apply map_range_perm.
  assert (Hentry : forall k w, (k, w) ∈ entries <->
    w = map command_buffer (cmds_of k cs) /\ cmds_of k cs <> []).
  { intros k w. rewrite Hperm, elem_of_map_to_list, Hw.
    destruct (cmds_of k cs) as [|d ds]; split; [done|by intros [_ ?]|intros [= <-]; done|by intros [-> _]]. }
  set (ks := map fst entries).
  assert (Hnd : NoDup ks).
  { unfold ks. rewrite (Permutation_map fst Hperm). apply NoDup_fst_map_to_list. }
  assert (Hks : forall k, k ∈ ks <-> cmds_of k cs <> []).
  { intros k. unfold ks. rewrite list_elem_of_fmap. split.
    - intros ([k' w] & -> & H). by apply Hentry in H as [_ H].
    - intros H. exists (k, map command_buffer (cmds_of k cs)). split; [done|]. by apply Hentry. }
  assert (Hes : entries = map (fun e => (fst e, map command_buffer (snd e))) (grouped cs ks)).
  { unfold grouped, ks. rewrite !map_map. cbn. rewrite <- (map_id entries) at 1.
    apply map_ext_in. intros [k w] Hin. cbn.
    apply list_elem_of_In, Hentry in Hin as [-> _]. done. }
  destruct (apply_all_grouped _ _ cs ks Hfs Hd Hnd Hks) as [Hg Happ].
  destruct (flush_entries st (grouped cs ks) s) as [Hrun Hfs'].
  { apply Forall_map, Forall_forall. intros k Hk. cbn. apply Hks in Hk. split_and!; [done| |].
    - rewrite Hty. pose proof (cmds_of_key k cs) as Hck.
      destruct (cmds_of k cs) as [|c ds]; [done|]. cbn. apply Forall_cons in Hck as [[_ Hin] _].
      rewrite Forall_forall in Hfs. by rewrite (fo_type _ _ _ (Hfs c Hin)).
    - eapply Forall_impl; [apply cmds_of_key|]. by intros c [? _]. }
  { exact Hg. }
  exists (entries_state s (grouped cs ks)).
  destruct (entries_state_frame s (grouped cs ks)) as (H1 & H2 & H3).
  split_and!; [| | |done|done|done].
  - unfold flush_primary. fold entries. rewrite Hes. exact Hrun.
  - by rewrite Hfs', Happ.
  - intros k. rewrite entries_state_m by (by rewrite fst_grouped). rewrite fst_grouped, Hm, lookup_empty.
    destruct (decide (k ∈ ks)) as [Hk|Hk].
    + rewrite entry_of_grouped by done. apply Hks in Hk. by destruct (cmds_of k cs).
    + destruct (cmds_of k cs) eqn:He; [done|]. exfalso. apply Hk, Hks. by rewrite He.
Qed.

(** The messages of a committed group. *)
Definition commit_msgs (tgid : Z) cs : list wal_msg :=
  [MsgTxn tgid WAL PREPARING; MsgTG (serialize_tg tgid cs); MsgTxn tgid WAL COMMITCOMPLETE].

Lemma encode_commit tgid cs :
  encode_msgs (commit_msgs tgid cs) =
  encode_msg (MsgTxn tgid WAL PREPARING) ++ encode_msg (MsgTG (serialize_tg tgid cs)) ++
  encode_msg (MsgTxn tgid WAL COMMITCOMPLETE).
Proof. unfold encode_msgs, commit_msgs. cbn [map concat]. by rewrite app_nil_r. Qed.

Lemma appended_status s a b o rest bs :
  log_status s a b o rest -> log_status (appended bs s) a b o (rest ++ bs).
Proof.
  intros H. pose proof (wal_bytes_status _ _ _ _ _ H) as Hb. split.
  - cbn. by rewrite lookup_insert_eq, Hb, app_assoc.
  - cbn. by rewrite Hb, !length_app, Nat.add_assoc.
  - apply H.
Qed.

(** Commit to the log and to the primary files. *)
Lemma flushToWAL_spec s rest now :
  let cs := writeChannel (w_pipe s) in
  let id := tgID (w_pipe s) in
  log_status s OPEN NOTREPLAYED InstanceID rest ->
  cs <> [] -> cmds_ok s cs -> keys_distinct (fs_root s) cs -> w_m s = ∅ ->
  exists s' m,
    flushToWAL InstanceID false nocomp now s = (Ret tt, s') /\
    log_status s' OPEN NOTREPLAYED InstanceID (rest ++ encode_msgs (commit_msgs id cs)) /\
    primary s' = apply_all (fs_root s) (primary s) cs /\
    lastCommittedTGID (w_wf s') = id /\
    w_pipe s' = mkPipe (int64 (id + int64 (now - id))) [] /\
    RootPath (w_wf s') = RootPath (w_wf s) /\ FilePath (w_wf s') = FilePath (w_wf s) /\
    w_m s' = ∅ /\ trigger_records cs m /\ w_c s' = w_c s ++ map_range m.
Proof.
  intros cs id Hst Hne Hok Hd Hm. unfold flushToWAL, deferred.
  rewrite (bind_step _ _ s s s) by done. fold cs.
  rewrite decide_False by (destruct cs; [done|cbn; lia]).
  (* the preparing message *)
  set (s1 := synced OPEN NOTREPLAYED InstanceID s).
  assert (Hst1 : log_status s1 OPEN NOTREPLAYED InstanceID rest) by (by apply synced_status).
  set (m1 := encode_msg (MsgTxn id WAL PREPARING)).
  assert (H1 : (if false then mret tt
       else
         canWrite ← CanWrite InstanceID;
         if canWrite : bool then
           tgid ← TGID;
           WriteTransactionInfo tgid WAL PREPARING
         else lift (Panic "Failed attempt to write to WAL")) s = (Ret tt, appended m1 s1)).
  { cbv iota. rewrite (bind_step _ _ _ _ _ (CanWrite_active InstanceID HID s rest Hst)). cbv iota.
    rewrite (bind_step _ _ _ id s1) by done.
    apply WriteTransactionInfo_appends, (status_end _ _ _ _ _ Hst1). }
  rewrite (bind_step _ _ _ _ _ H1).
  set (s2 := appended m1 s1). rewrite (bind_step _ _ s2 id s2) by done.
  rewrite (bind_step _ _ s2 s2 s2) by done.
  change (writeChannel (w_pipe s2)) with cs. rewrite (take_ge cs), (drop_ge cs) by lia.
  set (s3 := set_pipe (mkPipe (tgID (w_pipe s2)) []) s2).
  rewrite (bind_step _ _ s2 tt s3) by done.
  set (st := foldl flush_step (flush_init id (length cs)) cs).
  pose proof (flush_collects id (length cs) cs) as Hcol. fold st in Hcol.
  assert (Htg : TG_Serialized st = serialize_tg id cs).
  { rewrite (col_tg _ _ _ Hcol), serialize_tg_eq. by rewrite <- app_assoc. }
  assert (Hst3 : log_status s3 OPEN NOTREPLAYED InstanceID (rest ++ m1)).
  { destruct (appended_status s1 _ _ _ rest m1 Hst1) as [A B C]. split; [exact A|exact B|exact C]. }
  (* the data and the commit message *)
  set (m2 := encode_msg (MsgTG (serialize_tg id cs)) ++ encode_msg (MsgTxn id WAL COMMITCOMPLETE)).
  set (s4 := set_pipe (mkPipe (int64 (id + int64 (now - id))) [])
               (set_wf (set_last id (w_wf (appended m2 s3))) (appended m2 s3))).
  assert (H2 : (if false then mret tt
       else
         write_tg (TG_Serialized st) ;;
         tgid ← TGID;
         WriteTransactionInfo tgid WAL COMMITCOMPLETE ;;
         state_modify (fun s => set_wf (set_last tgid (w_wf s)) s) ;;
         NewTGID now ;; mret tt) s3 = (Ret tt, s4)).
  { cbv iota. rewrite Htg.
    rewrite (bind_step _ _ _ _ _ (write_tg_appends s3 _ (status_end _ _ _ _ _ Hst3))).
    rewrite (bind_step _ _ _ id (appended (encode_msg (MsgTG (serialize_tg id cs))) s3)) by done.
    rewrite (bind_step _ _ _ _ _ (WriteTransactionInfo_appends _ _ _ _ (appended_end _ _))).
    rewrite appended_twice. done. }
  rewrite (bind_step _ _ _ _ _ H2).
  assert (Hst4 : log_status s4 OPEN NOTREPLAYED InstanceID ((rest ++ m1) ++ m2)).
  { destruct (appended_status s3 _ _ _ _ m2 Hst3) as [A B C]. split; [exact A|exact B|exact C]. }
  assert (Hp4 : primary s4 = primary s).
  { change (primary s4) with (primary (appended m2 s3)). rewrite primary_appended.
    change (primary s3) with (primary (appended m1 s1)). by rewrite primary_appended. }
  assert (Hok4 : cmds_ok s4 cs) by (unfold cmds_ok; by rewrite Hp4).
  destruct (flush_primary_spec st _ cs s4 Hcol Hok4 Hd Hm) as (s5 & Hrun & Hfs & Htr & Hwf & Hpipe & Hc).
  rewrite Hrun. exists (mkW (w_fs s5) (w_wf s5) (w_pipe s5) ∅ (w_c s5 ++ map_range (w_m s5))), (w_m s5).
  split; [reflexivity|]. cbn [w_fs w_wf w_pipe w_m w_c]. rewrite Hwf, Hpipe, Hc.
  assert (Hprim : delete (FilePath (w_wf s5)) (w_fs s5) = apply_all (fs_root s) (primary s) cs
                  /\ w_fs s5 !! FilePath (w_wf s4) = w_fs s4 !! FilePath (w_wf s4)).
  { destruct (apply_all_delete (fs_root s) (w_fs s4) cs (FilePath (w_wf s4)) (proj2 (cmds_ok_fs _ _ Hok4)))
      as [HA HB].
    rewrite Hfs, Hwf. split; [|exact HB]. change (fs_root s4) with (fs_root s). rewrite HA.
    by rewrite <- Hp4. }
  destruct Hprim as [Hprim Hlog].
  split_and!; try done.
  - rewrite encode_commit. fold m1. fold m2. rewrite app_assoc. destruct Hst4 as [A B C].
    split; [|exact B|exact C]. cbn [w_fs w_wf]. rewrite Hlog. exact A.
  - unfold primary at 1. cbn [w_fs w_wf]. rewrite <- Hwf. exact Hprim.
Qed.
End commit.
