(* ===== verification/ReadBack.v ===== *)
(** * Rows that are written are read back

    The writer, the log and the reader together: rows queued by the writer and
    flushed by the log are what a scan of the bucket finds behind the rows that
    were there. *)

From S2P Require Export Writer WalProofs ScanProofs.

(** ** A file as its slots *)

Section slots.
Context (tz : Location) (env : scan_env) (rs : nat) (Hrs : (8 <= rs)%nat).
Implicit Types (slots : list (list byte)) (ws : list (nat * list byte)).

Definition zero_slot : list byte := replicate rs x00.

(** A record at the start of a slot. *)
Definition put_slot slots (w : nat * list byte) : list (list byte) :=
  <[fst w := snd w ++ drop (length (snd w)) (default [] (slots !! fst w))]> slots.

Lemma put_slot_lengths slots w :
  Forall (fun s => length s = rs) slots -> (fst w < length slots)%nat -> (length (snd w) <= rs)%nat ->
  Forall (fun s => length s = rs) (put_slot slots w).
Proof.
  intros Hs Hi Hw. apply Forall_insert; [done|].
  destruct (lookup_lt_is_Some_2 slots (fst w) Hi) as [s Hl]. rewrite Hl. cbn [from_option id].
  rewrite length_app, length_drop, (proj1 (Forall_lookup _ _) Hs _ _ Hl). lia.
Qed.

Lemma splice_put_slot h slots w :
  Forall (fun s => length s = rs) slots -> (fst w < length slots)%nat -> (length (snd w) <= rs)%nat ->
  splice (length h + fst w * rs) (snd w) (h ++ concat slots) = h ++ concat (put_slot slots w).
Proof.
  intros Hs Hi Hw. destruct w as [i d]. cbn [fst snd] in *. unfold put_slot. cbn [fst snd].
  destruct (lookup_lt_is_Some_2 slots i Hi) as [s Hl]. rewrite Hl. cbn [from_option id].
  rewrite <- (take_drop_middle slots i s Hl) at 1. rewrite insert_take_drop by done.
  pose proof (proj1 (Forall_lookup _ _) Hs _ _ Hl) as Hsl. cbn in Hsl.
  assert (Ht : length (concat (take i slots)) = (i * rs)%nat).
  { rewrite (length_concat_uniform rs) by (by apply Forall_take). rewrite length_take. f_equal. lia. }
  rewrite !concat_app. cbn [concat]. rewrite <- Ht. unfold splice.
  set (a := concat (take i slots)). set (b := concat (drop (S i) slots)).
  assert (Hha : length (h ++ a) = (length h + length a)%nat) by apply length_app.
  rewrite !(app_assoc h a). rewrite <- Hha. rewrite take_app_length, <- !app_assoc. do 3 f_equal.
  rewrite (app_assoc h a), drop_app_ge by lia.
  replace (length (h ++ a) + length d - length (h ++ a))%nat with (length d) by lia.
  rewrite drop_app_le by lia. done.
Qed.

Definition fill_slots slots ws : list (list byte) := foldl put_slot slots ws.

Lemma fill_slots_lengths ws : forall slots,
  Forall (fun s => length s = rs) slots ->
  Forall (fun w => (fst w < length slots)%nat /\ (length (snd w) <= rs)%nat) ws ->
  length (fill_slots slots ws) = length slots /\ Forall (fun s => length s = rs) (fill_slots slots ws).
Proof.
  induction ws as [|w ws IH]; intros slots Hs Hw; [done|]. apply Forall_cons in Hw as [[Hi Hl] Hw].
  assert (Hn : length (put_slot slots w) = length slots) by apply length_insert.
  cbn [fill_slots foldl]. rewrite <- Hn. apply IH; [by apply put_slot_lengths|by rewrite Hn].
Qed.

Lemma slot_row_zero : slot_row tz env zero_slot = [].
Proof.
  unfold slot_row, zero_slot. replace rs with (8 + (rs - 8))%nat by lia.
  rewrite replicate_add. by rewrite <- (ToInt64_take _ 8), take_app_length' by (by rewrite ?length_replicate).
Qed.

(** Records at slots from [i] on, in order, where there were only holes. *)
Lemma fill_slots_rows ws : forall slots i,
  StronglySorted (fun v w => (fst v < fst w)%nat) ws ->
  Forall (fun w => (i <= fst w < length slots)%nat) ws ->
  drop i slots = replicate (length slots - i) zero_slot ->
  slot_rows tz env (fill_slots slots ws) =
  slot_rows tz env slots ++ slot_rows tz env (map (fun w => snd w ++ drop (length (snd w)) zero_slot) ws).
Proof.
  induction ws as [|w ws IH]; intros slots i Hs Hin Hz; [by rewrite app_nil_r|].
  apply StronglySorted_inv in Hs as [Hs Hlt]. apply Forall_cons in Hin as [Hw Hin]. cbn [fill_slots foldl].
  assert (Hl : slots !! fst w = Some zero_slot).
  { replace (fst w) with (i + (fst w - i))%nat by lia. rewrite <- lookup_drop, Hz.
    apply lookup_replicate_2. lia. }
  assert (Hd : forall k, (i <= k)%nat -> drop k slots = replicate (length slots - k) zero_slot).
  { intros k Hk. replace k with (i + (k - i))%nat at 1 by lia. rewrite <- drop_drop, Hz, drop_replicate. f_equal. lia. }
  assert (Hzr : forall n, slot_rows tz env (replicate n zero_slot) = []).
  { intros n. unfold slot_rows. induction n as [|n IHn]; [done|]. cbn. by rewrite slot_row_zero, IHn. }
  set (slots' := put_slot slots w).
  assert (Hlen : length slots' = length slots) by apply length_insert.
  fold (fill_slots slots' ws). rewrite (IH slots' (S (fst w))); [|done| |].
  - cbn [map]. rewrite (slot_rows_app _ _ [_] (map _ ws) : slot_rows tz env (_ :: map _ ws) = _).
    rewrite app_assoc. f_equal. unfold slots', put_slot. rewrite Hl. cbn [from_option id].
    rewrite insert_take_drop by lia. rewrite (slot_rows_app _ _ (take _ _)).
    rewrite (slot_rows_app _ _ [_] (drop _ _) : slot_rows tz env (_ :: drop _ _) = _).
    rewrite (Hd (S (fst w))), Hzr, app_nil_r by lia. f_equal.
    rewrite <- (take_drop (fst w) slots) at 2. rewrite slot_rows_app, Hd, Hzr by lia. by rewrite app_nil_r.
  - rewrite Hlen. rewrite Forall_forall in Hlt, Hin |- *. intros v Hv. specialize (Hlt v Hv). specialize (Hin v Hv). lia.
  - rewrite Hlen. unfold slots', put_slot. rewrite drop_insert_lt by lia. apply Hd. lia.
Qed.
End slots.

(** ** From the commands of a year to its file *)

Section bucket.
Context `{L : StorageLibs} `{R : MapRange} (tz local : Location) (CatalogDir : dloc).
Context (InstanceID : Z) (HID : inS 64 InstanceID) (nocomp : bool).

Definition slot_of (c : WriteCommand) : nat := (Z.to_nat (Index c) - 1)%nat.

(** A command for a slot of a file of header [h] and slots of [rs] bytes. *)
Record slot_command (root p : string) (h : list byte) (rs n : nat) (c : WriteCommand) : Prop := {
  sc_path : cmd_path root c = p;
  sc_off : cmd_off c = (length h + slot_of c * rs)%nat;
  sc_slot : (slot_of c < n)%nat;
  sc_len : (length (cmd_bytes c) <= rs)%nat;
}.

Lemma apply_all_fill root p h rs cs : forall fs slots,
  (8 <= rs)%nat -> Forall (fun s => length s = rs) slots -> fs !! p = Some (h ++ concat slots) ->
  Forall (slot_command root p h rs (length slots)) cs ->
  apply_all root fs cs !! p = Some (h ++ concat (fill_slots slots (map (fun c => (slot_of c, cmd_bytes c)) cs))).
Proof.
  induction cs as [|c cs IH]; intros fs slots Hrs Hs Hp Hc; [exact Hp|].
  apply Forall_cons in Hc as [[Hpath Hoff Hslot Hlen] Hc]. cbn [map fill_slots foldl].
  change (apply_all root fs (c :: cs)) with (apply_all root (apply_fixed root fs c) cs).
  set (slots' := put_slot slots (slot_of c, cmd_bytes c)).
  assert (Hn : length slots' = length slots) by apply length_insert.
  apply IH; [done|by apply put_slot_lengths| |by rewrite Hn].
  unfold apply_fixed. rewrite Hpath, Hp, lookup_insert_eq. f_equal. unfold apply_file. rewrite Hoff.
  exact (splice_put_slot rs Hrs h slots (slot_of c, cmd_bytes c) Hs Hslot Hlen).
Qed.

(** The rows of a write: one for every interval, later and later. *)
Lemma group_rows_sorted f rows : forall i d,
  tbi_recordType f = FIXED ->
  StronglySorted Z.lt (i :: map (fun row => row_index tz f (fst row)) rows) ->
  group_rows tz f i d rows = (i, d) :: map (fun row => (row_index tz f (fst row), drop 8 (snd row))) rows.
Proof.
  induction rows as [|row rows IH]; intros i d Hf Hs; [done|]. cbn [group_rows map] in *.
  apply StronglySorted_inv in Hs as [Hs Hlt]. apply Forall_cons in Hlt as [Hlt _].
  destruct (Z.eqb_spec (row_index tz f (fst row)) i); [lia|]. f_equal.
  rewrite IH by done. unfold row_piece. rewrite Hf. by rewrite app_nil_r.
Qed.

Lemma groups_sorted f rows :
  tbi_recordType f = FIXED -> StronglySorted Z.lt (map (fun row => row_index tz f (fst row)) rows) ->
  groups tz f rows = map (fun row => (row_index tz f (fst row), drop 8 (snd row))) rows.
Proof.
  intros Hf Hs. destruct rows as [|row rows]; [done|]. unfold groups. rewrite group_rows_sorted by done.
  cbn [map]. unfold row_piece. rewrite Hf. by rewrite app_nil_r.
Qed.

(** A bucket's year file in a state the log is ready in. *)
Record bucket_ready (s : instance) (l : floc) (f : TimeBucketInfo) (root key : list string) (rs : nat)
    (h : list byte) (slots : list (list byte)) (rest : list byte) : Prop := {
  br_info : ready l f s;
  br_fixed : tbi_recordType f = FIXED;
  br_len : tbi_recordLength f = Z.of_nat rs /\ (8 <= rs)%nat /\ 2000 * Z.of_nat rs < 2 ^ 30;
  br_vrl : inS 32 (tbi_variableRecordLength f);
  br_paths : Forall plain_comp (root ++ key) /\ root <> [] /\ key <> [];
  br_root : RootPath (w_wf (in_w s)) = abs_path root;
  br_path : tbi_Path f = abs_path (root ++ key);
  br_key : Z.of_nat (String.length (Join key "/")) < 2 ^ 15;
  br_file : primary (in_w s) !! tbi_Path f = Some (h ++ concat slots);
  br_header : length h = Z.to_nat Headersize;
  br_slots : Forall (fun s => length s = rs) slots /\ (0 < length slots)%nat /\ Z.of_nat (length slots * rs) < 2 ^ 30;
  br_log : log_status (in_w s) OPEN NOTREPLAYED InstanceID rest;
  br_queue : writeChannel (w_pipe (in_w s)) = [] /\ w_m (in_w s) = ∅;
}.

Lemma bucket_key s l f root key rs h slots rest :
  bucket_ready s l f root key rs h slots rest ->
  FullPathToWALKey (w_wf (in_w s)) (tbi_Path f) = Join key "/" /\
  filepath_Join (RootPath (w_wf (in_w s))) (Join key "/") = tbi_Path f.
Proof.
  intros H. destruct (br_paths _ _ _ _ _ _ _ _ _ H) as (Hp & Hr & Hk).
  apply Forall_app in Hp as [Hpr Hpk].
  unfold FullPathToWALKey. rewrite (br_root _ _ _ _ _ _ _ _ _ H), (br_path _ _ _ _ _ _ _ _ _ H).
  rewrite Rel_abs, Join_abs by done. done.
Qed.

(** The commands of rows whose slots are in the file. *)
Lemma bucket_commands s l f root key rs h slots rest (gs : list (Z * list byte)) :
  bucket_ready s l f root key rs h slots rest ->
  Forall (fun g => 1 <= fst g <= Z.of_nat (length slots) /\ (8 + length (snd g) <= rs)%nat) gs ->
  let cs := map (group_command f (Join key "/")) gs in
  cmds_ok (in_w s) cs /\ keys_distinct (fs_root (in_w s)) cs /\
  Forall (slot_command (fs_root (in_w s)) (tbi_Path f) h rs (length slots)) cs.
Proof.
  intros H Hg cs. destruct (bucket_key _ _ _ _ _ _ _ _ _ H) as [_ Hjoin].
  destruct (br_len _ _ _ _ _ _ _ _ _ H) as (Hlen & Hrs & Hsmall).
  destruct (br_slots _ _ _ _ _ _ _ _ _ H) as (Hs & Hpos & Hsize).
  pose proof (br_header _ _ _ _ _ _ _ _ _ H) as Hh.
  assert (Hpath : forall g : Z * list byte, cmd_path (fs_root (in_w s)) (group_command f (Join key "/") g) = tbi_Path f)
    by (intros g; exact Hjoin).
  assert (Hoff : forall g : Z * list byte, 1 <= fst g <= Z.of_nat (length slots) ->
    IndexToOffset (fst g) (tbi_recordLength f) = (fst g - 1) * Z.of_nat rs + Headersize /\
    0 <= (fst g - 1) * Z.of_nat rs /\ (fst g - 1) * Z.of_nat rs + Z.of_nat rs <= Z.of_nat (length slots * rs)).
  { intros g Hr. rewrite Hlen. unfold IndexToOffset.
    assert (0 <= (fst g - 1) * Z.of_nat rs /\ (fst g - 1) * Z.of_nat rs + Z.of_nat rs <= Z.of_nat (length slots * rs)) by nia.
    rewrite wrapS_id; [done|done|]. unfold inS, Headersize. lia. }
  assert (Hslot : Forall (slot_command (fs_root (in_w s)) (tbi_Path f) h rs (length slots)) cs).
  { apply Forall_map. eapply Forall_impl; [exact Hg|]. intros g [Hr Hl]. destruct (Hoff g Hr) as (Ho & Ho1 & Ho2).
    split; [apply Hpath| | |].
    - unfold cmd_off, slot_of, group_command. cbn [Offset Index]. rewrite Ho, Hh. unfold Headersize. nia.
    - unfold slot_of, group_command. cbn [Index]. lia.
    - rewrite length_cmd_bytes. exact Hl. }
  split_and!; [| |exact Hslot].
  - unfold cs in Hslot |- *. apply Forall_map. rewrite Forall_map in Hslot. rewrite Forall_forall in Hg, Hslot |- *. intros g Hin.
    destruct (Hg g Hin) as [Hr Hl]. destruct (Hslot g Hin) as [Hp Hof Hsl Hln]. destruct (Hoff g Hr) as (Ho & Ho1 & Ho2).
    split.
    + exact (br_fixed _ _ _ _ _ _ _ _ _ H).
    + split; cbn [group_command RecordType WALKeyPath Data VarRecLen Offset Index].
      * rewrite (br_fixed _ _ _ _ _ _ _ _ _ H). by split.
      * exact (br_key _ _ _ _ _ _ _ _ _ H).
      * lia.
      * exact (br_vrl _ _ _ _ _ _ _ _ _ H).
      * unfold inS. rewrite Ho. unfold Headersize. lia.
      * unfold inS. lia.
    + cbn [group_command Offset]. rewrite Ho. unfold Headersize. lia.
    + exists (h ++ concat slots). rewrite Hp. split; [exact (br_file _ _ _ _ _ _ _ _ _ H)|].
      rewrite Hof, length_app, (length_concat_uniform rs) by done. nia.
  - intros c d (g & -> & _)%list_elem_of_fmap (g' & -> & _)%list_elem_of_fmap _. done.
Qed.

(** *** What a scan of the file gives *)

(** The plan of the whole of a year's file. *)
Definition year_plan (l : floc) (f : TimeBucketInfo) (rs n : nat) : ioplan :=
  mkIOPlan [mkFilePlan l Headersize (Z.of_nat (n * rs)) (tbi_Path f) 0 false]
    (Z.of_nat rs) FIXED 0 (mkRowLimit MaxInt32 FIRST) [].

Definition year_env (f : TimeBucketInfo) (rs : nat) : scan_env :=
  mkEnv (Z.of_nat rs) [] (tbi_timeframe f) (tbi_Year f) (tbi_Path f).

(** A row with the start of its interval for its time. *)
Definition interval_row (f : TimeBucketInfo) (row : Time * list byte) : list byte :=
  le_bytes 8 (Unix (IndexToTime tz (row_index tz f (fst row)) (tbi_timeframe f) (tbi_Year f))) ++ drop 8 (snd row).

Lemma range_rows_slots env rs (h : list byte) (slots : list (list byte)) :
  (8 <= rs)%nat -> Forall (fun s => length s = rs) slots ->
  range_rows tz env rs (h ++ concat slots) (length h) (length slots * rs) = slot_rows tz env slots.
Proof.
  intros Hrs Hs. unfold range_rows, read_at. rewrite drop_app_length.
  rewrite take_ge by (rewrite (length_concat_uniform rs) by done; lia).
  by rewrite chunks_concat by (done || lia).
Qed.

Lemma read_year l f rs h slots c :
  c_infos c !! l = Some f -> tbi_once f = true -> (8 <= rs)%nat -> 2000 * Z.of_nat rs < 2 ^ 30 ->
  dk_files (c_disk c) !! tbi_Path f = Some (h ++ concat slots) -> length h = Z.to_nat Headersize ->
  Forall (fun s => length s = rs) slots -> (0 < length slots)%nat -> Z.of_nat (length slots * rs) < 2 ^ 30 ->
  read tz false nocomp (year_plan l f rs (length slots)) (mkRS c ∅) =
  (Ret (slot_rows tz (year_env f rs) slots, None), mkRS c ∅).
Proof.
  intros Hl Ho Hrs Hsmall Hf Hh Hs Hpos Hsize.
  assert (Hlen : (length (slot_rows tz (year_env f rs) slots) <= length slots * rs)%nat).
  { by apply (length_slot_rows tz (year_env f rs) rs Hrs (2000 * rs)%nat 2000%nat eq_refl ltac:(lia)). }
  rewrite (read_forward tz nocomp (year_plan l f rs (length slots)) rs eq_refl Hrs Hsmall eq_refl (2000 * rs)%nat eq_refl
    (mkRS c ∅) [slot_rows tz (year_env f rs) slots] MaxInt32 MaxInt32); try done.
  - cbn [concat]. rewrite app_nil_r, take_ge; [done|]. unfold MaxInt32. lia.
  - repeat constructor. exists f, (h ++ concat slots), (length h), (length slots * rs)%nat.
    split_and!; [done..| |].
    + split; cbn [fp_FullPath fp_Offset fp_Length year_plan]; [done|unfold Headersize in *; lia|done| |lia].
      split_and!; [by exists (length slots)|nia|].
      rewrite length_app, (length_concat_uniform rs) by done. lia.
    + symmetry. by apply range_rows_slots.
  - cbn [concat]. rewrite app_nil_r. lia.
Qed.

(** The row of a slot a command has filled. *)
Lemma slot_row_command f rs row :
  length (snd row) = rs -> row_index tz f (fst row) <> 0 -> inS 64 (row_index tz f (fst row)) ->
  slot_row tz (year_env f rs) (le_bytes 8 (row_index tz f (fst row)) ++ drop 8 (snd row)) = interval_row f row.
Proof.
  intros Hl H0 Hr. unfold slot_row. rewrite ToInt64_le_bytes, wrapS_id by (done || lia).
  destruct (Z.eqb_spec (row_index tz f (fst row)) 0); [done|]. unfold year_env at 1. cbn [se_quals checkTimeQuals forallb].
  by rewrite (drop_le_bytes_app 8).
Qed.

Lemma rows_of_data_ok ts data rs :
  ts <> [] -> length data = (length ts * rs)%nat ->
  map fst (rows_of_data ts data) = ts /\ Forall (fun row => length (snd row) = rs) (rows_of_data ts data).
Proof.
  intros Hne Hd. unfold rows_of_data.
  assert (length ts <> 0)%nat by (by destruct ts).
  replace (length data / length ts)%nat with rs by (rewrite Hd, Nat.mul_comm; symmetry; by apply Nat.div_mul).
  split.
  - change (map fst) with (fmap (M := list) (fst (A := Time) (B := list byte))). apply fst_zip.
    rewrite length_map, length_seq. lia.
  - apply Forall_forall. intros row Hin.
    apply elem_of_lookup_zip_with in Hin as (i & t & r & -> & _ & Hr). cbn.
    apply list_lookup_fmap_Some in Hr as (k & -> & Hk). apply lookup_seq in Hk as [-> Hk].
    rewrite length_read_at; [done|]. nia.
Qed.

(** Commands for slots behind the filled ones, and the rows of the file then. *)
Lemma filled_rows f rs key (slots : list (list byte)) i rows :
  (8 <= rs)%nat -> tbi_recordType f = FIXED -> Z.of_nat (length slots) < 2 ^ 62 ->
  StronglySorted Z.lt (map (fun row => row_index tz f (fst row)) rows) ->
  Forall (fun row => length (snd row) = rs) rows ->
  Forall (fun row => Z.of_nat i < row_index tz f (fst row) <= Z.of_nat (length slots)) rows ->
  drop i slots = replicate (length slots - i) (zero_slot rs) ->
  let cs := map (group_command f key) (groups tz f rows) in
  slot_rows tz (year_env f rs) (fill_slots slots (map (fun c => (slot_of c, cmd_bytes c)) cs)) =
  slot_rows tz (year_env f rs) slots ++ concat (map (interval_row f) rows).
Proof.
  intros Hrs Hf Hbig Hs Hl Hi Hz cs.
  set (w := fun row : Time * list byte =>
    ((Z.to_nat (row_index tz f (fst row)) - 1)%nat, le_bytes 8 (row_index tz f (fst row)) ++ drop 8 (snd row))).
  assert (Hws : map (fun c => (slot_of c, cmd_bytes c)) cs = map w rows).
  { unfold cs. rewrite groups_sorted by done. by rewrite !map_map. }
  rewrite Hws. rewrite Forall_forall in Hl, Hi.
  rewrite (fill_slots_rows tz (year_env f rs) rs Hrs _ slots i); [|  | |done].
  - f_equal. unfold slot_rows. rewrite !map_map. f_equal. apply map_ext_in. intros row Hin.
    apply list_elem_of_In in Hin. cbn [snd w]. specialize (Hl row Hin). specialize (Hi row Hin). cbn in Hl, Hi.
    rewrite (drop_ge (zero_slot rs)), app_nil_r.
    + apply slot_row_command; [done|lia|]. unfold inS. lia.
    + unfold zero_slot. rewrite length_replicate, length_app, length_le_bytes, length_drop. lia.
  - clear Hws Hz Hl cs. induction rows as [|row rows IH]; [constructor|]. cbn [map] in Hs |- *.
    apply StronglySorted_inv in Hs as [Hs Hlt]. constructor.
    + apply IH; [done|]. intros x Hx. apply Hi. by right.
    + apply Forall_map. rewrite Forall_map in Hlt. rewrite Forall_forall in Hlt |- *. intros x Hx.
      specialize (Hlt x Hx). cbn in Hlt |- *. pose proof (Hi x ltac:(by right)). pose proof (Hi row ltac:(by left)). cbn in *. lia.
  - apply Forall_map, Forall_forall. intros row Hin. specialize (Hi row Hin). cbn in Hi |- *. lia.
Qed.

Lemma primary_lookup w p b : primary w !! p = Some b -> w_fs w !! p = Some b.
Proof. unfold primary. by intros [_ ?]%lookup_delete_Some. Qed.

(** C4: Rows that are written to a bucket of fixed-length records are read back.
    The file of the year exists and is described, the log is open and nothing
    is queued ([bucket_ready]). The writer queues rows of that year for their
    intervals, each in a later slot than the one before; the slots are behind
    every row in the file and inside it, and their indexes are at least 1 (so
    not the 1st of January of a daily bucket, whose index is 0 and whose place
    is in the header). The next flush puts the rows into the file; and a scan
    of the whole file, which gave some rows before, gives these and then the
    new ones, each with the start of its interval for its time and its columns
    as they were. *)
Theorem write_flush_read (s : instance) (l : floc) (f : TimeBucketInfo) (root key : list string) (rs : nat)
    (h : list byte) (slots : list (list byte)) (rest : list byte) (ts : list Time) (data : list byte)
    (i : nat) (now : Z) :
  bucket_ready s l f root key rs h slots rest ->
  ts <> [] -> length data = (length ts * rs)%nat ->
  Forall (fun t => int16 (Year t) = tbi_Year f) ts ->
  StronglySorted Z.lt (map (row_index tz f) ts) ->
  Forall (fun t => Z.of_nat i < row_index tz f t <= Z.of_nat (length slots)) ts ->
  drop i slots = replicate (length slots - i) (zero_slot rs) ->
  let plan := year_plan l f rs (length slots) in
  exists s1 w2 old,
    WriteRecords tz local CatalogDir ts data (mkWriter l) s = (Ret tt, s1) /\
    flushToWAL InstanceID false nocomp now (in_w s1) = (Ret tt, w2) /\
    let s2 := mkInstance (in_dirs s1) (in_infos s1) (in_dirset s1) w2 in
    read tz false nocomp plan (mkRS (in_catalog s) ∅) = (Ret (old, None), mkRS (in_catalog s) ∅) /\
    read tz false nocomp plan (mkRS (in_catalog s2) ∅) =
      (Ret (old ++ concat (map (interval_row f) (rows_of_data ts data)), None), mkRS (in_catalog s2) ∅).
Proof.
  intros H Hne Hd Hy Hs Hi Hz plan.
  destruct (br_len _ _ _ _ _ _ _ _ _ H) as (Hlen & Hrs & Hsmall).
  destruct (br_slots _ _ _ _ _ _ _ _ _ H) as (Hsl & Hpos & Hsize).
  pose proof (br_info _ _ _ _ _ _ _ _ _ H) as Hr. pose proof (br_fixed _ _ _ _ _ _ _ _ _ H) as Hfx.
  pose proof (br_file _ _ _ _ _ _ _ _ _ H) as Hfile. pose proof (br_header _ _ _ _ _ _ _ _ _ H) as Hh.
  destruct (br_queue _ _ _ _ _ _ _ _ _ H) as (Hq & Hm).
  destruct (rows_of_data_ok ts data rs Hne Hd) as (Hfst & Hrow).
  set (rows := rows_of_data ts data) in *.
  assert (Hidx : map (row_index tz f) ts = map (fun row => row_index tz f (fst row)) rows)
    by (by rewrite <- Hfst, map_map).
  rewrite Hidx in Hs. rewrite <- Hfst in Hi. rewrite Forall_map in Hi.
  assert (Hbig : Z.of_nat (length slots) < 2 ^ 62) by nia.
  set (cs := map (group_command f (Join key "/")) (groups tz f rows)).
  destruct (bucket_key _ _ _ _ _ _ _ _ _ H) as [Hkey _].
  assert (Hw : WriteRecords tz local CatalogDir ts data (mkWriter l) s = (Ret tt, queued cs s)).
  { rewrite (WriteRecords_spec tz local CatalogDir l f) by (done || nia). by rewrite Hkey. }
  destruct (bucket_commands s l f root key rs h slots rest (groups tz f rows) H) as (Hok & Hkd & Hslot).
  { rewrite groups_sorted by done. apply Forall_map. rewrite Forall_forall in Hi, Hrow |- *. intros row Hin.
    specialize (Hi row Hin). specialize (Hrow row Hin). cbn [fst snd] in *. rewrite length_drop. lia. }
  fold cs in Hok, Hkd, Hslot.
  pose proof (flushToWAL_spec InstanceID HID nocomp (in_w (queued cs s)) rest now) as Hflush. cbv zeta in Hflush.
  assert (Hqueue : writeChannel (w_pipe (in_w (queued cs s))) = cs) by (cbn; by rewrite Hq).
  rewrite Hqueue in Hflush. destruct Hflush as (w2 & m & Hrun & _ & Hprim & _); try done.
  { destruct (br_log _ _ _ _ _ _ _ _ _ H) as [A B C]. by split. }
  { unfold cs. rewrite groups_sorted by done. destruct ts; [done|]. intros He.
    apply (f_equal (map Index)) in He. by destruct rows. }
  exists (queued cs s), w2, (slot_rows tz (year_env f rs) slots). split; [exact Hw|]. split; [exact Hrun|].
  cbv zeta. split.
  - apply (read_year l f rs h); try done; [exact (rd_info _ _ _ Hr)|exact (rd_once _ _ _ Hr)|].
    by apply primary_lookup.
  - rewrite <- (filled_rows f rs (Join key "/") slots i rows) by done. fold cs.
    set (slots' := fill_slots slots _).
    destruct (fill_slots_lengths rs Hrs (map (fun c => (slot_of c, cmd_bytes c)) cs) slots Hsl) as [Hn Hsl'].
    { rewrite Forall_map. eapply Forall_impl; [exact Hslot|]. by intros c [_ _ ? ?]. }
    fold slots' in Hn, Hsl'. unfold plan. rewrite <- Hn.
    apply (read_year l f rs h); rewrite ?Hn; try done; [exact (rd_info _ _ _ Hr)|exact (rd_once _ _ _ Hr)|].
    apply primary_lookup. cbn [in_w]. rewrite Hprim. unfold slots'. apply (apply_all_fill _ _ _ rs); try done.
Qed.
End bucket.

(** ** A bucket with one row and two more *)

Module Example_read_back.
#[local] Existing Instances example_libs list_range.
#[local] Open Scope string_scope.

Definition root : list string := ["db"].
Definition key : list string := ["AAPL"; "1Min"; "OHLCV"; "2017.bin"].
Definition log : string := "/db/W.walfile".
Definition shapes : list DataShape := [mkShape "Epoch" INT64; mkShape "Open" FLOAT32; mkShape "Close" FLOAT32].
Definition bucket : TimeBucketInfo :=
  set_once (NewTimeBucketInfo Minute "/db/AAPL/1Min/OHLCV" "Bars" 2017 shapes FIXED).
Definition header : list byte := replicate (Z.to_nat Headersize) x00.
Definition slots : list (list byte) :=
  [(le_bytes 8 1 ++ replicate 8 x07)%list; replicate 16 x00; replicate 16 x00; replicate 16 x00].
Definition start : instance := mkInstance ∅ {[0%nat := bucket]} ∅
  (mkW {[log := status_message OPEN NOTREPLAYED 7; abs_path (root ++ key) := (header ++ concat slots)%list]}
     (mkWALFile OPEN NOTREPLAYED 7 "/db" log 0 11 true) (mkPipe 50 []) ∅ []).

Definition t1 : Time := Date 2017 1 1 0 1 30 0 UTC.
Definition t2 : Time := Date 2017 1 1 0 3 0 0 UTC.
Definition rows : list byte :=
  (le_bytes 8 (Unix t1) ++ replicate 8 x08 ++ le_bytes 8 (Unix t2) ++ replicate 8 x09)%list.

Lemma start_ready : bucket_ready 7 start 0 bucket root key 16 header slots [].
Proof.
  assert (Hplain : Forall plain_comp (root ++ key)%list).
  { repeat constructor; try (by intros H; discriminate H); apply plain_char; reflexivity. }
  assert (Hready : ready 0 bucket start).
  { split; [reflexivity|reflexivity|intros H; discriminate H|discriminate]. }
  assert (Hfile : primary (in_w start) !! tbi_Path bucket = Some (header ++ concat slots)%list).
  { unfold primary. rewrite lookup_delete_ne by done. reflexivity. }
  refine (Build_bucket_ready 7 start 0 bucket root key 16 header slots [] Hready eq_refl _ _ _ eq_refl eq_refl _ Hfile
    (length_replicate _ _) _ _ _).
  - split_and!; [done|lia|done].
  - by split; vm_compute.
  - split_and!; [exact Hplain|done|done].
  - done.
  - split_and!; [by repeat constructor|apply Nat.ltb_lt; reflexivity|done].
  - by split.
  - split; reflexivity.
Qed.

Lemma write_flush_read_witness :
  let plan := year_plan 0 bucket 16 4 in
  exists s1 w2 old,
    WriteRecords UTC UTC 0 [t1; t2] rows (mkWriter 0) start = (Ret tt, s1) /\
    flushToWAL 7 false true 60 (in_w s1) = (Ret tt, w2) /\
    let s2 := mkInstance (in_dirs s1) (in_infos s1) (in_dirset s1) w2 in
    read UTC false true plan (mkRS (in_catalog start) ∅) = (Ret (old, None), mkRS (in_catalog start) ∅) /\
    read UTC false true plan (mkRS (in_catalog s2) ∅) =
      (Ret (old ++ concat (map (interval_row UTC bucket) (rows_of_data [t1; t2] rows)), None)%list,
       mkRS (in_catalog s2) ∅).
Proof.
  apply (write_flush_read UTC UTC 0 7 ltac:(by split; vm_compute) true start 0 bucket root key 16 header slots []
    [t1; t2] rows 1 60 start_ready).
  - done.
  - reflexivity.
  - repeat constructor.
  - repeat constructor.
  - repeat constructor; by vm_compute.
  - reflexivity.
Defined.

(** The new rows are those of 00:01 and 00:03. *)
Example new_rows :
  concat (map (interval_row UTC bucket) (rows_of_data [t1; t2] rows)) =
  (le_bytes 8 (Unix (Date 2017 1 1 0 1 0 0 UTC)) ++ replicate 8 x08 ++ le_bytes 8 (Unix t2) ++ replicate 8 x09)%list.
Proof. vm_compute. reflexivity. Qed.
End Example_read_back.
