(* ===== verification/WalSystem.v ===== *)
(** * The log over time: the invariant of its owner, crashes and recovery

    The goroutine of [SyncWAL] and the writers that queue commands form a
    transition system.  Its invariant says what the log on disk and the primary
    files have to do with each other; from it follow what a replay restores
    after a crash at any point, and the states a log file goes through. *)

From S2P Require Export WalProofs.

(** ** Keys and paths *)

Definition canonical_key (k : string) : Prop :=
  exists comps, comps <> [] /\ Forall plain_comp comps /\ k = Join comps "/".

Lemma canonical_paths root k k' :
  root <> [] -> Forall plain_comp root -> canonical_key k -> canonical_key k' ->
  filepath_Join (abs_path root) k = filepath_Join (abs_path root) k' -> k = k'.
Proof.
  intros Hr Hrp (cs & Hne & Hcs & ->) (cs' & Hne' & Hcs' & ->).
  rewrite !Join_abs by done. intros H.
  assert (Heq : path_comps (abs_path (root ++ cs)) = path_comps (abs_path (root ++ cs'))) by congruence.
  rewrite !path_comps_abs in Heq; try (by apply Forall_app); try (by destruct root).
  apply app_inv_head in Heq. congruence.
Qed.

Section system.
Context `{L : StorageLibs} `{R : MapRange} (InstanceID : Z) (HID : inS 64 InstanceID) (nocomp : bool).
Context (walRotateInterval : Z) (Hrot : 0 < walRotateInterval < 2 ^ 62).
Implicit Types (s : wstate) (cs : list WriteCommand) (gs : list (Z * list WriteCommand)) (ms : list wal_msg).

(** *** The transition system *)

(** A command the writers queue: a fixed-length record inside an existing
    bucket file, named by a canonical key. *)
Definition queueable s (c : WriteCommand) : Prop :=
  fixed_ok (fs_root s) (primary s) c /\ canonical_key (WALKeyPath c).

Definition enqueue (c : WriteCommand) s : wstate :=
  set_pipe (mkPipe (tgID (w_pipe s)) (writeChannel (w_pipe s) ++ [c])) s.

(** The event's reading of the clock, if it takes one, is later than the
    current id, and the group it may commit fits the log. *)
Definition event_ok s (ev : sync_event) : Prop :=
  match ev with
  | TickWAL now | FlushRequest now | TickCheck now =>
      tgID (w_pipe s) < now < 2 ^ 63 /\
      Z.of_nat (length (serialize_tg (tgID (w_pipe s)) (writeChannel (w_pipe s)))) < 2 ^ 50
  | TickPrimary => True
  | Shutdown _ => False
  end.

(** With the state goes the counter of checkpoints and, as a ghost, the
    commands carried out since the last checkpoint: a crash may lose any part
    of these from the primary files, and nothing else. *)
Record sstate := mkS { ss_w : wstate; ss_counter : Z; ss_todo : list WriteCommand }.

Definition todo_after (ev : sync_event) s s' (todo : list WriteCommand) : list WriteCommand :=
  match ev with
  | TickPrimary => []
  | _ => if decide (writeChannel (w_pipe s') = []) then todo ++ writeChannel (w_pipe s) else todo
  end.

Inductive step : sstate -> sstate -> Prop :=
  | step_queue s n todo c : queueable s c -> step (mkS s n todo) (mkS (enqueue c s) n todo)
  | step_round s n todo ev s' n' :
      event_ok s ev -> sync_round InstanceID false nocomp walRotateInterval ev n s = (Ret n', s') ->
      step (mkS s n todo) (mkS s' n' (todo_after ev s s' todo)).

(** *** The invariant *)

(** Which groups the log obliges a replay to carry out, and the store they
    are carried out on. *)
Record inv_log s ms gs (base : files) : Prop := {
  il_status : log_status s OPEN NOTREPLAYED InstanceID (encode_msgs ms);
  il_valid : Forall valid_msg ms;
  il_ids : ids_increasing (tg_ids ms);
  il_fresh : Forall (fun i => i < tgID (w_pipe s)) (tg_ids ms);
  il_pending : pending ms = map serialize_group gs;
  il_groups : Forall (fun g => Forall (fixed_ok (fs_root s) base) (snd g) /\ snd g <> [] /\
                        inS 64 (fst g) /\ 0 < fst g /\ Z.of_nat (length (snd g)) < 2 ^ 62) gs;
  il_store : primary s = apply_all (fs_root s) base (group_cmds gs);
  il_last : lastCommittedTGID (w_wf s) = match last gs with Some g => fst g | None => 0 end;
}.

Record inv s (todo : list WriteCommand) : Prop := {
  inv_abs : exists root, root <> [] /\ Forall plain_comp root /\ fs_root s = abs_path root;
  inv_log_ok : exists ms gs base, inv_log s ms gs base /\ group_cmds gs = todo;
  inv_id : 0 < tgID (w_pipe s) < 2 ^ 63;
  inv_queue : Forall (queueable s) (writeChannel (w_pipe s));
  inv_m : w_m s = ∅;
}.

Lemma queue_distinct s todo cs : inv s todo -> Forall (queueable s) cs -> keys_distinct (fs_root s) cs.
Proof.
  intros [(root & Hr & Hrp & Heq) _ _ _ _] Hq c d Hc Hd. rewrite Forall_forall in Hq.
  destruct (Hq c Hc) as [_ H1]. destruct (Hq d Hd) as [_ H2].
  unfold cmd_path. rewrite Heq. by apply canonical_paths.
Qed.

Lemma queue_cmds_ok s cs : Forall (queueable s) cs -> cmds_ok s cs.
Proof. intros H. eapply Forall_impl; [exact H|]. by intros c [? _]. Qed.

Lemma group_cmds_app gs gs' : group_cmds (gs ++ gs') = group_cmds gs ++ group_cmds gs'.
Proof. unfold group_cmds. by rewrite map_app, concat_app. Qed.

Lemma il_base_ok s ms gs base :
  inv_log s ms gs base -> Forall (fixed_ok (fs_root s) base) (group_cmds gs).
Proof.
  intros H. unfold group_cmds. apply Forall_concat, Forall_map.
  pose proof (il_groups _ _ _ _ H) as Hg. eapply Forall_impl; [exact Hg|]. by intros g [? _].
Qed.

Lemma il_shape s ms gs base : inv_log s ms gs base -> same_shape base (primary s).
Proof. intros H. rewrite (il_store _ _ _ _ H). eapply apply_all_shape, il_base_ok, H. Qed.

Lemma same_shape_sym (fs fs' : files) : same_shape fs fs' -> same_shape fs' fs.
Proof. intros H p. by rewrite H. Qed.

Lemma pending_app ms ms' : pending (ms ++ ms') = foldl pending_step (pending ms) ms'.
Proof. unfold pending. by rewrite foldl_app. Qed.

Lemma tg_ids_app ms ms' : tg_ids (ms ++ ms') = tg_ids ms ++ tg_ids ms'.
Proof. unfold tg_ids. by rewrite omap_app. Qed.

Lemma ids_increasing_snoc ids i :
  ids_increasing ids -> Forall (fun j => j < i) ids -> 0 < i -> ids_increasing (ids ++ [i]).
Proof.
  intros [Hs Hp] Hlt Hi. split.
  - induction ids as [|j ids IH]; cbn; [by repeat constructor|].
    apply StronglySorted_inv in Hs as [Hs Hj]. apply Forall_cons in Hp as [_ Hp].
    apply Forall_cons in Hlt as [Hji Hlt]. constructor; [by apply IH|].
    apply Forall_app. split; [exact Hj|]. by repeat constructor.
  - apply Forall_app. split; [exact Hp|]. by repeat constructor.
Qed.

(** A commit adds the group of the queued commands. *)
Lemma pending_commit ms id cs :
  pending (ms ++ commit_msgs id cs) = pending ms ++ [serialize_tg id cs].
Proof.
  rewrite pending_app. unfold commit_msgs. cbn [foldl pending_step].
  rewrite (bool_decide_eq_false_2 (WAL = CHECKPOINT /\ _)) by (by intros [? _]).
  by rewrite (bool_decide_eq_false_2 (WAL = CHECKPOINT /\ _)) by (by intros [? _]).
Qed.

Lemma commit_valid id cs :
  inS 64 id -> Z.of_nat (length (serialize_tg id cs)) < 2 ^ 50 -> Forall valid_msg (commit_msgs id cs).
Proof.
  intros Hid Hlen. unfold commit_msgs. pose proof (length_serialize_tg id cs).
  repeat constructor; cbn [valid_msg]; try done; try lia;
    try (apply Hid); try (apply (bool_decide_eq_true_1 _); reflexivity).
Qed.

Lemma commit_ids id cs : inS 64 id -> tg_ids (commit_msgs id cs) = [id].
Proof. intros Hid. cbn. by rewrite tg_id_serialize. Qed.

Lemma length_commands cs : (length cs <= length (concat (map command_bytes cs)))%nat.
Proof.
  induction cs as [|c cs IH]; [done|]. cbn [map concat length]. rewrite length_app.
  assert (0 < length (command_bytes c))%nat; [|lia].
  unfold command_bytes. rewrite length_app, length_le_bytes. lia.
Qed.

Lemma inv_log_commit s s' ms gs base cs id :
  inv_log s ms gs base -> cs = writeChannel (w_pipe s) -> id = tgID (w_pipe s) ->
  0 < id < 2 ^ 63 -> cs <> [] -> cmds_ok s cs ->
  Z.of_nat (length (serialize_tg id cs)) < 2 ^ 50 ->
  log_status s' OPEN NOTREPLAYED InstanceID (encode_msgs ms ++ encode_msgs (commit_msgs id cs)) ->
  primary s' = apply_all (fs_root s) (primary s) cs -> lastCommittedTGID (w_wf s') = id ->
  RootPath (w_wf s') = RootPath (w_wf s) -> id < tgID (w_pipe s') ->
  inv_log s' (ms ++ commit_msgs id cs) (gs ++ [(id, cs)]) base.
Proof.
  intros H Hcs Hid Hpos Hne Hok Hlen Hst Hprim Hlast Hroot Htg.
  assert (HidS : inS 64 id) by (unfold inS; lia).
  assert (Hrt : fs_root s' = fs_root s) by exact Hroot.
  split.
  - rewrite encode_msgs_app. exact Hst.
  - apply Forall_app. split; [apply H|by apply commit_valid].
  - rewrite tg_ids_app, commit_ids by done. apply ids_increasing_snoc; [apply H| |lia].
    rewrite Hid. apply H.
  - rewrite tg_ids_app, commit_ids by done. apply Forall_app. split.
    + eapply Forall_impl; [apply (il_fresh _ _ _ _ H)|]. cbn. lia.
    + by repeat constructor.
  - rewrite pending_commit, (il_pending _ _ _ _ H), map_app. done.
  - rewrite Hrt. apply Forall_app. split; [apply H|]. constructor; [|constructor]. cbn [fst snd].
    split_and!; try done; try lia.
    + eapply Forall_impl; [exact Hok|]. intros c. apply fixed_ok_shape, same_shape_sym.
      by eapply il_shape.
    + pose proof (length_commands cs). rewrite serialize_tg_eq, !length_app in Hlen. lia.
  - rewrite Hrt, Hprim, (il_store _ _ _ _ H), group_cmds_app. unfold apply_all.
    rewrite foldl_app. cbn. by rewrite app_nil_r.
  - by rewrite last_snoc.
Qed.

(** *** Each event keeps the invariant *)

Lemma queueable_shape s s' c :
  fs_root s' = fs_root s -> same_shape (primary s) (primary s') -> queueable s c -> queueable s' c.
Proof.
  unfold queueable. intros -> Hs [H1 H2]. split; [|exact H2]. by eapply fixed_ok_shape.
Qed.

Lemma new_id id now : 0 < id -> id < now < 2 ^ 63 -> int64 (id + int64 (now - id)) = now.
Proof. intros H1 H2. apply wrapS_add_sub; [lia|]. unfold inS. lia. Qed.

Lemma map_range_empty {A} : map_range (∅ : gmap string A) = [].
Proof.
  apply Permutation_nil. symmetry. rewrite (map_range_perm (∅ : gmap string A)).
  by rewrite map_to_list_empty.
Qed.

Lemma flush_idle s now :
  writeChannel (w_pipe s) = [] -> w_m s = ∅ ->
  exists s', flushToWAL InstanceID false nocomp now s = (Ret tt, s') /\
    w_fs s' = w_fs s /\ w_wf s' = w_wf s /\ w_m s' = ∅ /\
    w_pipe s' = mkPipe (int64 (tgID (w_pipe s) + int64 (now - tgID (w_pipe s)))) [].
Proof.
  intros Hc Hm. unfold flushToWAL, deferred. rewrite (bind_step _ _ s s s) by done.
  rewrite Hc. rewrite decide_True by done. eexists. split; [reflexivity|]. cbn. by rewrite Hc.
Qed.

Lemma flush_inv s todo now :
  inv s todo -> tgID (w_pipe s) < now < 2 ^ 63 ->
  Z.of_nat (length (serialize_tg (tgID (w_pipe s)) (writeChannel (w_pipe s)))) < 2 ^ 50 ->
  exists s', flushToWAL InstanceID false nocomp now s = (Ret tt, s') /\
    inv s' (todo ++ writeChannel (w_pipe s)) /\ writeChannel (w_pipe s') = [].
Proof.
  intros Hinv Hnow Hlen. pose proof Hinv as [Habs (ms & gs & base & Hl & Hgs) Hid Hq Hm].
  destruct (decide (writeChannel (w_pipe s) = [])) as [Hc|Hc].
  - destruct (flush_idle s now Hc Hm) as (s' & Hrun & Hfs & Hwf & Hm' & Hpipe).
    rewrite new_id in Hpipe by lia.
    exists s'. split; [exact Hrun|]. rewrite Hpipe, Hc, app_nil_r. split; [|done].
    assert (Hp : primary s' = primary s) by (unfold primary; by rewrite Hfs, Hwf).
    split; try (unfold fs_root; rewrite ?Hwf; done).
    + exists ms, gs, base. split; [|exact Hgs]. destruct Hl as [[A B C] H2 H3 H4 H5 H6 H7 H8].
      split; try (unfold fs_root; rewrite ?Hp, ?Hwf; done).
      * split; by rewrite ?Hfs, ?Hwf.
      * rewrite Hpipe. eapply Forall_impl; [exact H4|]. cbn. lia.
    + rewrite Hpipe. cbn. lia.
    + rewrite Hpipe. constructor.
  - pose proof (queue_cmds_ok s _ Hq) as Hok.
    destruct (flushToWAL_spec InstanceID HID nocomp s (encode_msgs ms) now (il_status _ _ _ _ Hl) Hc Hok
      (queue_distinct s _ _ Hinv Hq) Hm)
      as (s' & m & Hrun & Hst & Hprim & Hlast & Hpipe & Hroot & Hpath & Hm' & _ & _).
    rewrite new_id in Hpipe by lia.
    exists s'. split; [exact Hrun|]. rewrite Hpipe. split; [|done].
    split; try done.
    + unfold fs_root. by rewrite Hroot.
    + exists (ms ++ commit_msgs (tgID (w_pipe s)) (writeChannel (w_pipe s))),
        (gs ++ [(tgID (w_pipe s), writeChannel (w_pipe s))]), base.
      split; [eapply inv_log_commit; try done; rewrite Hpipe; cbn; lia|].
      rewrite group_cmds_app, Hgs. unfold group_cmds. cbn. by rewrite app_nil_r.
    + rewrite Hpipe. cbn. lia.
    + rewrite Hpipe. constructor.
Qed.

Lemma pending_checkpoint ms gs :
  ids_increasing (tg_ids ms) -> pending ms = map serialize_group gs ->
  Forall (fun g => inS 64 (fst g)) gs -> gs <> [] ->
  pending (ms ++ checkpoint_msgs (match last gs with Some g => fst g | None => 0 end)) = [].
Proof.
  intros Hids Hp HS Hne. rewrite pending_app, Hp.
  assert (Hmap : map tg_id (map serialize_group gs) = map fst gs).
  { rewrite map_map. apply map_ext_in. intros [i cs] Hin. apply list_elem_of_In in Hin.
    rewrite Forall_forall in HS. apply tg_id_serialize, (HS _ Hin). }
  assert (Hinc : ids_increasing (map fst gs)).
  { rewrite <- Hmap, <- Hp. eapply ids_increasing_sublist; [apply (pending_ids ms [])|exact Hids]. }
  destruct gs as [|g gs _] using rev_ind; [done|]. rewrite last_snoc.
  unfold checkpoint_msgs. cbn [foldl pending_step].
  rewrite (bool_decide_eq_false_2 (_ /\ PREPARING = COMMITCOMPLETE /\ _)) by (by intros (_ & ? & _)).
  rewrite bool_decide_eq_true_2; last first.
  { split_and!; [done|done|]. rewrite Hmap, map_app. apply elem_of_app. right. left. }
  apply filter_none, Forall_map.
  assert (Hle : Forall (fun g' => fst g' <= fst g) (gs ++ [g])).
  { destruct Hinc as [Hs _]. rewrite map_app in Hs. clear -Hs.
    apply Forall_app. split; [|repeat constructor; lia].
    induction gs as [|h gs IH]; [constructor|]. cbn in Hs. apply StronglySorted_inv in Hs as [Hs Hh].
    constructor; [|by apply IH]. apply Forall_app in Hh as [_ Hh].
    apply Forall_cons in Hh as [Hh _]. lia. }
  rewrite Forall_forall in *. intros g' Hg' Hlt. specialize (Hle g' Hg').
  unfold serialize_group in Hlt. rewrite tg_id_serialize in Hlt by (by apply HS). lia.
Qed.

Lemma checkpoint_inv s todo :
  inv s todo ->
  exists s', createCheckpoint false s = (Ret tt, s') /\ inv s' [] /\ w_pipe s' = w_pipe s /\
    primary s' = primary s /\ FilePath (w_wf s') = FilePath (w_wf s) /\
    exists ms, inv_log s' ms [] (primary s').
Proof.
  intros [Habs (ms & gs & base & Hl & Hgs) Hid Hq Hm].
  destruct (decide (gs = [])) as [->|Hne].
  - exists s. pose proof (il_last _ _ _ _ Hl) as Hlast. cbn in Hlast.
    assert (Hb : base = primary s) by (symmetry; apply (il_store _ _ _ _ Hl)). subst base.
    split_and!; try done; [| |eauto].
    + unfold createCheckpoint. rewrite (bind_step _ _ s s s) by done. by rewrite Hlast.
    + split; try done. by exists ms, [], (primary s).
  - pose proof (il_last _ _ _ _ Hl) as Hlast.
    assert (Hpos : 0 < lastCommittedTGID (w_wf s) /\ inS 64 (lastCommittedTGID (w_wf s))).
    { rewrite Hlast. pose proof (il_groups _ _ _ _ Hl) as Hg.
      destruct gs as [|g gs _] using rev_ind; [done|]. rewrite last_snoc.
      apply Forall_app in Hg as [_ Hg]. apply Forall_cons in Hg as [(_ & _ & H1 & H2 & _) _]. done. }
    pose proof (status_end _ _ _ _ _ (il_status _ _ _ _ Hl)) as Hend.
    pose proof (createCheckpoint_spec s Hend ltac:(lia)) as Hrun.
    set (id := lastCommittedTGID (w_wf s)) in *.
    set (s1 := appended (encode_msgs (checkpoint_msgs id)) s) in *.
    set (s' := set_wf (set_last 0 (w_wf s1)) s1) in *.
    assert (Hprim : primary s' = primary s).
    { change (primary s') with (primary s1). apply primary_appended. }
    assert (Hl' : inv_log s' (ms ++ checkpoint_msgs id) [] (primary s')).
    { split; try done.
      - rewrite encode_msgs_app. destruct (appended_status s _ _ _ _ (encode_msgs (checkpoint_msgs id))
          (il_status _ _ _ _ Hl)) as [A B C]. split; [exact A|exact B|exact C].
      - apply Forall_app. split; [apply Hl|]. unfold checkpoint_msgs.
        repeat constructor; cbn [valid_msg]; try apply Hpos;
          try (apply (bool_decide_eq_true_1 _); reflexivity).
      - rewrite tg_ids_app, app_nil_r. apply Hl.
      - rewrite tg_ids_app, app_nil_r. apply Hl.
      - rewrite Hlast. apply pending_checkpoint; [apply Hl|apply Hl| |done].
        eapply Forall_impl; [apply (il_groups _ _ _ _ Hl)|]. cbn. tauto. }
    exists s'. split_and!; try done; [|eauto].
    split; try done; [by eexists _, [], _|].
    eapply Forall_impl; [exact Hq|]. intros c. apply queueable_shape; [done|by rewrite Hprim].
Qed.

(** Rotation: the log is cut to nothing and begun anew. *)
Lemma rotate_inv s ms :
  inv s [] -> inv_log s ms [] (primary s) ->
  exists s', (state_modify (fun s => set_fs (<[FilePath (w_wf s) := []]> (w_fs s)) s) ;;
              WriteStatus InstanceID OPEN NOTREPLAYED) s = (Ret tt, s') /\ inv s' [].
Proof.
  intros [Habs _ Hid Hq Hm] Hl.
  set (s1 := set_fs (<[FilePath (w_wf s) := []]> (w_fs s)) s).
  assert (Hb : wal_bytes s1 = []) by (unfold wal_bytes, s1; cbn; by rewrite lookup_insert_eq).
  rewrite (bind_step _ _ s tt s1) by done.
  rewrite (WriteStatus_empty InstanceID s1 OPEN NOTREPLAYED Hb). eexists. split; [reflexivity|].
  assert (Hp1 : primary s1 = primary s) by (unfold primary, s1; cbn; by rewrite delete_insert_eq).
  set (s' := restatus InstanceID OPEN NOTREPLAYED [] s1).
  assert (Hp : primary s' = primary s).
  { rewrite <- Hp1. unfold primary, s', restatus. cbn. by rewrite delete_insert_eq. }
  split; try done.
  - exists [], [], (primary s'). split; [|done]. split.
    + apply restatus_log. apply (ls_open _ _ _ _ _ (il_status _ _ _ _ Hl)).
    + constructor.
    + split; constructor.
    + constructor.
    + reflexivity.
    + constructor.
    + reflexivity.
    + apply (il_last _ _ _ _ Hl).
  - eapply Forall_impl; [exact Hq|]. intros c. apply queueable_shape; [done|by rewrite Hp].
Qed.

Lemma inv_enqueue s todo c : inv s todo -> queueable s c -> inv (enqueue c s) todo.
Proof.
  intros [Habs (ms & gs & base & Hl & Hgs) Hid Hq Hm] Hc.
  split; try done.
  - exists ms, gs, base. split; [|exact Hgs].
    destruct Hl as [[A B C] H2 H3 H4 H5 H6 H7 H8]. by split.
  - cbn [w_pipe enqueue set_pipe writeChannel]. apply Forall_app. split; [exact Hq|].
    apply Forall_singleton. exact Hc.
Qed.

Lemma flush_or_die_inv s todo now :
  inv s todo -> event_ok s (TickWAL now) ->
  exists s', flush_or_die InstanceID false nocomp now s = (Ret tt, s') /\
    inv s' (todo ++ writeChannel (w_pipe s)) /\ writeChannel (w_pipe s') = [].
Proof.
  intros Hinv [Hnow Hlen]. destruct (flush_inv s todo now Hinv Hnow Hlen) as (s' & Hrun & Hi & Hc).
  exists s'. split; [|done]. unfold flush_or_die. by rewrite Hrun.
Qed.

(** A round of the loop never fails on a state of the invariant. *)
Lemma round_inv s todo n ev :
  inv s todo -> event_ok s ev ->
  exists s' n', sync_round InstanceID false nocomp walRotateInterval ev n s = (Ret n', s') /\
    inv s' (todo_after ev s s' todo).
Proof.
  intros Hinv Hev.
  assert (Hflush : forall now (k : Z), event_ok s (TickWAL now) ->
    exists s', (flush_or_die InstanceID false nocomp now ;; (mret k : prog wstate Z)) s = (Ret k, s') /\
      inv s' (todo ++ writeChannel (w_pipe s)) /\ writeChannel (w_pipe s') = []).
  { intros now k Hok. destruct (flush_or_die_inv s todo now Hinv Hok) as (s' & Hrun & Hi).
    exists s'. split; [|exact Hi]. by rewrite (bind_step _ _ _ _ _ Hrun). }
  destruct ev as [now|now|now| |now]; cbn [sync_round todo_after]; [..|done].
  - destruct (Hflush now n Hev) as (s' & Hrun & Hi & Hc). exists s', n. by rewrite Hrun, Hc.
  - destruct (Hflush now n Hev) as (s' & Hrun & Hi & Hc). exists s', n. by rewrite Hrun, Hc.
  - rewrite (bind_step _ _ s s s) by done. destruct (channel_full s).
    + destruct (Hflush now n Hev) as (s' & Hrun & Hi & Hc). exists s', n. by rewrite Hrun, Hc.
    + exists s, n. split; [done|]. case_decide as Hc; [|done]. by rewrite Hc, app_nil_r.
  - destruct (checkpoint_inv s todo Hinv) as (s1 & Hrun & Hi1 & _ & _ & _ & ms & Hl1).
    rewrite (bind_step _ _ _ _ _ Hrun). cbv zeta.
    rewrite (proj2 (Z.eqb_neq _ _)) by lia.
    destruct (Z.rem (n + 1) walRotateInterval =? 0); [|by exists s1, (n + 1)].
    destruct (rotate_inv s1 ms Hi1 Hl1) as (s' & Hrun' & Hi').
    exists s', 0. split; [|exact Hi'].
    apply bind_Ret in Hrun' as (u & s2 & Ha & Hb). rewrite (bind_step _ _ _ _ _ Ha).
    by rewrite (bind_step _ _ _ _ _ Hb).
Qed.

Lemma step_inv x y : step x y -> inv (ss_w x) (ss_todo x) -> inv (ss_w y) (ss_todo y).
Proof.
  destruct 1 as [s n todo c Hc|s n todo ev s' n' Hev Hrun]; cbn; intros Hinv.
  - by apply inv_enqueue.
  - destruct (round_inv s todo n ev Hinv Hev) as (s1 & n1 & Hrun1 & Hi).
    rewrite Hrun in Hrun1. by injection Hrun1 as -> ->.
Qed.

(** The states the process goes through from one in which the log was just
    created and nothing is queued. *)
Record initial s : Prop := {
  in_abs : exists root, root <> [] /\ Forall plain_comp root /\ fs_root s = abs_path root;
  in_log : log_status s OPEN NOTREPLAYED InstanceID [];
  in_id : 0 < tgID (w_pipe s) < 2 ^ 63;
  in_queue : writeChannel (w_pipe s) = [];
  in_m : w_m s = ∅;
  in_last : lastCommittedTGID (w_wf s) = 0;
}.

Definition reachable s0 (x : sstate) : Prop := initial s0 /\ rtc step (mkS s0 0 []) x.

Lemma initial_inv s : initial s -> inv s [].
Proof.
  intros [H1 H2 H3 H4 H5 H6]. split; try done; [|by rewrite H4].
  exists [], [], (primary s). split; [|done].
  split; try done; try (by constructor). by split; constructor.
Qed.

Lemma reachable_inv s0 x : reachable s0 x -> inv (ss_w x) (ss_todo x).
Proof.
  intros [H0 Hr]. apply initial_inv in H0.
  assert (H : inv (ss_w (mkS s0 0 [])) (ss_todo (mkS s0 0 []))) by exact H0.
  clear H0. revert H. induction Hr as [x|x y z Hxy _ IH]; intros H; [exact H|].
  by eapply IH, step_inv.
Qed.

(** C3: What the log says of the primary files at every moment, when what is
    queued are records of fixed length in slots of bucket files that exist,
    under clean keys (C1). In every state the owner of a log
    then comes to by queueing, flushing, checkpointing and rotating in whatever
    order (each group of less than 2^50 bytes, and a clock that goes on): the
    log is a status message and complete messages with increasing group ids,
    all below the next one; carrying out the groups no checkpoint covers, on
    files in which only these groups were not carried out, gives exactly the
    primary files; these groups hold the commands written since the last
    checkpoint; and what is queued can be carried out on the files. *)
Theorem log_invariant s0 x :
  reachable s0 x ->
  let s := ss_w x in
  exists ms gs base,
    wal_bytes s = status_message OPEN NOTREPLAYED InstanceID ++ encode_msgs ms /\
    Forall valid_msg ms /\ ids_increasing (tg_ids ms) /\ Forall (fun i => i < tgID (w_pipe s)) (tg_ids ms) /\
    pending ms = map serialize_group gs /\ group_cmds gs = ss_todo x /\
    primary s = apply_all (fs_root s) base (ss_todo x) /\
    cmds_ok s (writeChannel (w_pipe s)).
Proof.
  intros Hr s. destruct (reachable_inv _ _ Hr) as [_ (ms & gs & base & [Hst Hv Hid Hfr Hp _ Hstore _] & Hgs) _ Hq _].
  exists ms, gs, base. split_and!; try done.
  - by apply wal_bytes_status in Hst.
  - by rewrite <- Hgs.
  - by apply queue_cmds_ok.
Qed.

(** *** Crashes *)

(** What a crash leaves: the log with [t] behind what was in it, and primary
    files in which any bytes the commands [cmds] write may be old or new. *)
Record crash_image s (cmds : list WriteCommand) (t : list byte) (crashed : wstate) : Prop := {
  ci_root : RootPath (w_wf crashed) = RootPath (w_wf s);
  ci_path : FilePath (w_wf crashed) = FilePath (w_wf s);
  ci_log : w_fs crashed !! FilePath (w_wf crashed) = Some (wal_bytes s ++ t);
  ci_pos : FilePtr_pos (w_wf crashed) = length (wal_bytes s ++ t);
  ci_open : FilePtr_open (w_wf crashed) = true;
  ci_size : Z.of_nat (length (wal_bytes s ++ t)) < 2 ^ 53;
  ci_files : agree_outside (fs_root s) cmds (primary s) (primary crashed);
}.

Lemma group_ok_crashed s ms gs base cmds t crashed gs' :
  inv_log s ms gs base -> crash_image s cmds t crashed ->
  Forall (fun g => Forall (fixed_ok (fs_root s) base) (snd g) /\ snd g <> [] /\
                   inS 64 (fst g) /\ 0 < fst g /\ Z.of_nat (length (snd g)) < 2 ^ 62) gs' ->
  Forall (group_ok crashed) gs'.
Proof.
  intros Hl Hc Hgs. eapply Forall_impl; [exact Hgs|]. intros g (H1 & H2). split; [|exact H2].
  unfold cmds_ok. replace (fs_root crashed) with (fs_root s) by (symmetry; apply (ci_root _ _ _ _ Hc)).
  eapply Forall_impl; [exact H1|]. intros c. apply fixed_ok_shape.
  eapply same_shape_trans; [by eapply il_shape|apply (ci_files _ _ _ _ Hc)].
Qed.

(** The log of a crash, when what follows the messages of [s] are some
    complete ones and a torn one. *)
Lemma crash_replayable s ms gs base cmds ms' t crashed gs' :
  inv_log s ms gs base -> crash_image s cmds (encode_msgs ms' ++ t) crashed ->
  Forall valid_msg ms' -> ids_increasing (tg_ids (ms ++ ms')) ->
  tail_ok (wal_bytes crashed) t -> pending (ms ++ ms') = map serialize_group gs' ->
  Forall (group_ok crashed) gs' ->
  replayable crashed NOTREPLAYED (ms ++ ms') t gs'.
Proof.
  intros Hl [Hroot Hpath Hlog Hpos Hopen Hsize _] Hv Hids Ht Hp Hg.
  pose proof (wal_bytes_status _ _ _ _ _ (il_status _ _ _ _ Hl)) as Hb.
  assert (Heq : wal_bytes s ++ encode_msgs ms' ++ t =
                status_message OPEN NOTREPLAYED InstanceID ++ encode_msgs (ms ++ ms') ++ t)
    by (by rewrite Hb, encode_msgs_app, <- !app_assoc).
  assert (Hwb : wal_bytes crashed = wal_bytes s ++ encode_msgs ms' ++ t)
    by (unfold wal_bytes at 1; by rewrite Hlog).
  split; try done.
  - exists OPEN, InstanceID. split; [by rewrite Hlog, Heq|by rewrite Hpos, Heq|exact Hopen].
  - by left.
  - by rewrite Hwb.
  - apply Forall_app. split; [apply Hl|exact Hv].
Qed.

(** Carrying out again what was carried out since the checkpoint. *)
Lemma redo_todo s ms gs base (crashed : files) :
  inv_log s ms gs base -> agree_outside (fs_root s) (group_cmds gs) (primary s) crashed ->
  apply_all (fs_root s) crashed (group_cmds gs) = primary s.
Proof.
  intros Hl Hag. pose proof (il_base_ok _ _ _ _ Hl) as Hok.
  assert (Hok' : Forall (fixed_ok (fs_root s) (primary s)) (group_cmds gs)).
  { eapply Forall_impl; [exact Hok|]. intros c. apply fixed_ok_shape. by eapply il_shape. }
  destruct (redo_restores (fs_root s) (group_cmds gs) (primary s) crashed Hok' Hag) as [-> _].
  rewrite (il_store _ _ _ _ Hl).
  apply (redo_restores (fs_root s) (group_cmds gs) base base Hok). split; [done|]. by left.
Qed.

Context (NewID : Z).

(** C1: Recovery of fixed-length records. Take any state that the owner of the
    log reaches by flushes, checkpoints and rotations while what is queued are
    records of fixed length, in slots of bucket files that exist, under clean keys
    (no part is empty, a point or two: [queueable]; a group of less than 2^50 bytes,
    a clock that goes on). If the process dies there, and the disk keeps the
    log, perhaps with the beginning of one more message, and the primary files
    with any part of the records written since the last checkpoint lost or
    torn, the next process's replay ends normally with exactly the primary
    files of that state, and the log is marked as replayed. The beginning that
    is torn off must not be of a transaction group as long as the log's length
    times 1000 or longer, which ends the replay with an error (C34). Records
    of variable length are left out: their replay writes them a second time. *)
Theorem crash_recovery s0 x t crashed :
  reachable s0 x -> crash_image (ss_w x) (ss_todo x) t crashed ->
  tail_ok (wal_bytes crashed) t ->
  exists s', Replay NewID false nocomp true crashed = (Ret tt, s') /\
    primary s' = primary (ss_w x) /\ ReplayState (w_wf s') = REPLAYED.
Proof.
  intros Hr Hc Ht. destruct (reachable_inv _ _ Hr) as [_ (ms & gs & base & Hl & Hgs) _ _ _].
  assert (Hrep : replayable crashed NOTREPLAYED (ms ++ []) t gs).
  { refine (crash_replayable (ss_w x) ms gs base _ [] t crashed gs Hl Hc _ _ Ht _ _).
    - constructor.
    - rewrite app_nil_r. apply Hl.
    - rewrite app_nil_r. apply Hl.
    - eapply group_ok_crashed; [exact Hl|exact Hc|apply Hl]. }
  destruct (Replay_spec NewID nocomp _ _ _ _ _ Hrep) as (s' & Hrun & Hprim & _ & _ & Hst & _).
  exists s'. split_and!; [exact Hrun| |exact Hst]. rewrite Hprim.
  replace (fs_root crashed) with (fs_root (ss_w x)) by (symmetry; apply (ci_root _ _ _ _ Hc)).
  eapply redo_todo; [exact Hl|]. rewrite Hgs. apply (ci_files _ _ _ _ Hc).
Qed.

Lemma prefix_msgs ms' (p u : list byte) :
  p ++ u = encode_msgs ms' ->
  exists k t, p = encode_msgs (take k ms') ++ t /\ (k <= length ms')%nat /\
    (t = [] \/ exists m v, ms' !! k = Some m /\ encode_msg m = t ++ v /\ v <> []).
Proof.
  revert p. induction ms' as [|m ms' IH]; intros p H.
  { apply app_eq_nil in H as [-> _]. exists 0%nat, []. split_and!; [done|cbn; lia|by left]. }
  unfold encode_msgs in H. cbn [map concat] in H. fold (encode_msgs ms') in H.
  destruct (decide (u = [])) as [->|Hu].
  { exists (S (length ms')), []. split_and!; [|cbn; lia|by left].
    rewrite app_nil_r in H. rewrite H, app_nil_r. cbn [take]. rewrite take_ge by lia. done. }
  destruct (prefix_split _ _ _ _ (eq_sym H) Hu) as [(p' & -> & Hp')|Hlt].
  - destruct (IH p' (eq_sym Hp')) as (k & t & -> & Hk & Hor).
    exists (S k), t. split_and!; [|cbn; lia|exact Hor]. cbn [take].
    unfold encode_msgs. cbn [map concat]. by rewrite app_assoc.
  - exists 0%nat, p. split_and!; [done|lia|]. destruct (decide (p = [])) as [->|Hne]; [by left|right].
    exists m, (drop (length p) (encode_msg m)). split_and!; [done| |].
    + assert (Hpm : take (length p) (encode_msg m) = p).
      { rewrite <- (take_app_le _ (encode_msgs ms')) by lia. by rewrite <- H, take_app_length. }
      rewrite <- Hpm at 1. by rewrite take_drop.
    + intros Hd. apply (f_equal length) in Hd. rewrite length_drop in Hd. cbn in Hd. lia.
Qed.

(** How much of a commit a prefix of its messages holds. *)
Lemma commit_prefix_logged id cs k t :
  (k <= 3)%nat ->
  (t = [] \/ exists m v, commit_msgs id cs !! k = Some m /\ encode_msg m = t ++ v /\ v <> []) ->
  (length (encode_msgs (take 2 (commit_msgs id cs))) <=?
   length (encode_msgs (take k (commit_msgs id cs)) ++ t))%nat = (2 <=? k)%nat.
Proof.
  intros Hk Hor.
  assert (Htor : forall m, commit_msgs id cs !! k = Some m -> (length t < length (encode_msg m))%nat).
  { intros m Hm. destruct Hor as [->|(m' & v & Hm' & Hmv & Hv)]; [apply encode_msg_pos|].
    rewrite Hm' in Hm. injection Hm as ->. rewrite Hmv, length_app.
    destruct v; [done|cbn; lia]. }
  assert (Hlen : forall a b, length (encode_msgs (a ++ b)) = (length (encode_msgs a) + length (encode_msgs b))%nat).
  { intros a b. by rewrite encode_msgs_app, length_app. }
  rewrite length_app. unfold commit_msgs in *.
  destruct k as [|[|k]].
  - specialize (Htor _ eq_refl). cbn [take]. apply Nat.leb_gt.
    pose proof (Hlen [MsgTxn id WAL PREPARING] [MsgTG (serialize_tg id cs)]) as H.
    cbn [app] in H. rewrite H, !encode_msgs_one. change (length (encode_msgs [])) with 0%nat. lia.
  - specialize (Htor _ eq_refl). cbn [take]. apply Nat.leb_gt.
    pose proof (Hlen [MsgTxn id WAL PREPARING] [MsgTG (serialize_tg id cs)]) as H.
    cbn [app] in H. rewrite H, !encode_msgs_one. lia.
  - apply Nat.leb_le.
    assert (Ht : take (S (S k)) [MsgTxn id WAL PREPARING; MsgTG (serialize_tg id cs); MsgTxn id WAL COMMITCOMPLETE]
      = take 2 [MsgTxn id WAL PREPARING; MsgTG (serialize_tg id cs); MsgTxn id WAL COMMITCOMPLETE]
        ++ take k [MsgTxn id WAL COMMITCOMPLETE]) by done.
    rewrite Ht, Hlen. lia.
Qed.

Lemma pending_commit_prefix ms id cs k :
  (k <= 3)%nat ->
  pending (ms ++ take k (commit_msgs id cs)) =
  pending ms ++ (if (2 <=? k)%nat then [serialize_tg id cs] else []).
Proof.
  intros Hk. rewrite pending_app. unfold commit_msgs.
  assert (Hn : forall l st, pending_step l (MsgTxn id WAL st) = l).
  { intros l st. cbn [pending_step]. by rewrite bool_decide_eq_false_2 by (by intros [? _]). }
  destruct k as [|[|[|[|k]]]]; [| | | |lia]; cbn [take foldl Nat.leb]; rewrite ?Hn, ?app_nil_r; done.
Qed.

Lemma il_groups_snoc s ms gs base id cs :
  inv_log s ms gs base -> cmds_ok s cs -> cs <> [] -> inS 64 id -> 0 < id ->
  Z.of_nat (length (serialize_tg id cs)) < 2 ^ 50 ->
  Forall (fun g => Forall (fixed_ok (fs_root s) base) (snd g) /\ snd g <> [] /\
                   inS 64 (fst g) /\ 0 < fst g /\ Z.of_nat (length (snd g)) < 2 ^ 62) (gs ++ [(id, cs)]).
Proof.
  intros Hl Hok Hne HidS Hpos Hlen. apply Forall_app. split; [apply Hl|].
  apply Forall_singleton. cbn [fst snd]. split_and!; try done.
  - eapply Forall_impl; [exact Hok|]. intros c. apply fixed_ok_shape, same_shape_sym. by eapply il_shape.
  - pose proof (length_commands cs). rewrite serialize_tg_eq, !length_app in Hlen. lia.
Qed.

Lemma redo_todo_app s ms gs base todo cs (crashed : files) :
  inv_log s ms gs base -> group_cmds gs = todo -> cmds_ok s cs ->
  agree_outside (fs_root s) (todo ++ cs) (primary s) crashed ->
  apply_all (fs_root s) crashed (todo ++ cs) = apply_all (fs_root s) (primary s) cs.
Proof.
  intros Hl <- Hok Hag. pose proof (il_base_ok _ _ _ _ Hl) as Hbok.
  assert (Hok' : Forall (fixed_ok (fs_root s) (primary s)) (group_cmds gs ++ cs)).
  { apply Forall_app. split; [|exact Hok]. eapply Forall_impl; [exact Hbok|]. intros c.
    apply fixed_ok_shape. by eapply il_shape. }
  destruct (redo_restores (fs_root s) _ (primary s) crashed Hok' Hag) as [-> _].
  unfold apply_all at 1. rewrite foldl_app. fold (apply_all (fs_root s) (primary s) (group_cmds gs)).
  change (foldl (apply_fixed (fs_root s))) with (apply_all (fs_root s)). f_equal.
  eapply redo_todo; [exact Hl|]. split; [done|]. by left.
Qed.

(** C2: A commit of fixed-length records is atomic. In a state as in C1, let the
    process die while it commits the queued commands, a group of less than 2^50
    bytes and of less than 1000 times the length of the log that is left (a
    longer one, torn, ends the replay with an error: C34), the log ending in
    any prefix [p] of the messages of the commit. As long as the data message
    is not whole, the primary files not being touched yet, a replay restores
    the state before the commit; from then on, whatever part of the commit has
    reached the primary files, a replay leaves exactly the state in which all
    its commands are carried out. *)
Theorem commit_atomic s0 x (p u : list byte) crashed :
  let s := ss_w x in
  let cs := writeChannel (w_pipe s) in
  let id := tgID (w_pipe s) in
  reachable s0 x -> cs <> [] ->
  Z.of_nat (length (serialize_tg id cs)) < 2 ^ 50 ->
  (length (serialize_tg id cs) < 1000 * length (wal_bytes crashed))%nat ->
  p ++ u = encode_msgs (commit_msgs id cs) ->
  let logged := (length (encode_msgs (take 2 (commit_msgs id cs))) <=? length p)%nat in
  crash_image s (if logged then ss_todo x ++ cs else ss_todo x) p crashed ->
  exists s', Replay NewID false nocomp true crashed = (Ret tt, s') /\
    primary s' = (if logged then apply_all (fs_root s) (primary s) cs else primary s).
Proof.
  intros s cs id Hr Hne Hlen Hsane Hp logged Hc.
  pose proof (reachable_inv _ _ Hr) as Hinv. fold s in Hinv.
  pose proof Hinv as [_ (ms & gs & base & Hl & Hgs) Hid Hq _]. fold cs in Hq. fold id in Hid.
  assert (HidS : inS 64 id) by (unfold inS; lia).
  pose proof (queue_cmds_ok s cs Hq) as Hok.
  assert (Hroot : fs_root crashed = fs_root s) by apply (ci_root _ _ _ _ Hc).
  destruct (prefix_msgs _ _ _ Hp) as (k & t & Hpk & Hk & Hor).
  change (length (commit_msgs id cs)) with 3%nat in Hk.
  assert (Hvalid : Forall valid_msg (commit_msgs id cs)) by (by apply commit_valid).
  assert (Htail : tail_ok (wal_bytes crashed) t).
  { destruct Hor as [->|(m & v & Hm & Hmv & Hv)]; [by left|right].
    exists m. split; [by eapply Forall_lookup_1|]. split; [eauto|].
    apply list_elem_of_lookup_2 in Hm. unfold commit_msgs in Hm.
    repeat (apply elem_of_cons in Hm as [->|Hm]; [done|]). by apply elem_of_nil in Hm. }
  assert (Hids : ids_increasing (tg_ids (ms ++ take k (commit_msgs id cs)))).
  { apply (ids_increasing_sublist _ (tg_ids (ms ++ commit_msgs id cs))).
    - rewrite !tg_ids_app. apply sublist_app; [done|].
      rewrite <- (take_drop k (commit_msgs id cs)) at 2. rewrite tg_ids_app. apply sublist_inserts_r. done.
    - rewrite tg_ids_app, commit_ids by done. apply ids_increasing_snoc; [apply Hl|apply Hl|lia]. }
  assert (Hlg : logged = (2 <=? k)%nat).
  { unfold logged. rewrite Hpk. by apply (commit_prefix_logged id cs k t). }
  assert (Hrep : exists gs', pending (ms ++ take k (commit_msgs id cs)) = map serialize_group gs' /\
    group_cmds gs' = (if logged then ss_todo x ++ cs else ss_todo x) /\ Forall (group_ok crashed) gs').
  { pose proof (il_groups _ _ _ _ Hl) as Hgok. rewrite Hlg.
    destruct (2 <=? k)%nat eqn:H2.
    - exists (gs ++ [(id, cs)]). apply Nat.leb_le in H2. split_and!.
      + rewrite (pending_commit_prefix ms id cs k) by lia. rewrite (il_pending _ _ _ _ Hl).
        by rewrite (proj2 (Nat.leb_le _ _) H2), map_app.
      + rewrite group_cmds_app, Hgs. unfold group_cmds. cbn. by rewrite app_nil_r.
      + eapply group_ok_crashed; [exact Hl|exact Hc|].
        apply (il_groups_snoc s ms gs base id cs Hl Hok Hne HidS ltac:(lia) Hlen).
    - exists gs. apply Nat.leb_gt in H2. split_and!; [|exact Hgs|].
      + rewrite (pending_commit_prefix ms id cs k) by lia. rewrite (il_pending _ _ _ _ Hl).
        by rewrite (proj2 (Nat.leb_gt _ _) H2), app_nil_r.
      + eapply group_ok_crashed; [exact Hl|exact Hc|exact Hgok]. }
  destruct Hrep as (gs' & Hpend & Hcmds & Hgok).
  assert (Hrep : replayable crashed NOTREPLAYED (ms ++ take k (commit_msgs id cs)) t gs').
  { refine (crash_replayable s ms gs base _ _ t crashed gs' Hl _ _ Hids Htail Hpend Hgok).
    - rewrite <- Hpk. exact Hc.
    - by apply Forall_take. }
  destruct (Replay_spec NewID nocomp _ _ _ _ _ Hrep) as (s' & Hrun & Hprim & _).
  exists s'. split; [exact Hrun|]. rewrite Hprim, Hroot, Hcmds.
  pose proof (ci_files _ _ _ _ Hc) as Hag. destruct logged.
  - eapply redo_todo_app; [exact Hl|exact Hgs|exact Hok|exact Hag].
  - rewrite <- Hgs in *. by eapply redo_todo.
Qed.
End system.

(** ** A concrete run *)

#[export] Existing Instance list_range.

(** Writes that were carried out, all of them lost. *)
Lemma agree_outside_lost root cs (fs : files) :
  Forall (fixed_ok root fs) cs -> agree_outside root cs (apply_all root fs cs) fs.
Proof.
  intros H. split; [by apply same_shape_sym, apply_all_shape|]. intros p i.
  destruct (decide (Exists (fun c => cmd_covers root c p i) cs)) as [He|He]; [by right|left].
  by apply byte_at_apply_all.
Qed.

Module Example_run.
Definition root : list string := ["db"%string].
Definition log : string := "/db/W.walfile".
Definition bucket_file : string := "/db/A/2017.bin".
Definition c : WriteCommand :=
  mkWriteCommand FIXED "A/2017.bin" 0 16 5 [x01; x02; x03; x04; x05; x06; x07; x08].
Definition s0 : wstate :=
  mkW {[ log := status_message OPEN NOTREPLAYED 7; bucket_file := replicate 64 x00 ]}
    (mkWALFile OPEN NOTREPLAYED 7 "/db" log 0 11 true) (mkPipe 50 []) ∅ [].
(** One command queued. *)
Definition s1 : wstate := enqueue c s0.
(** Committed at the clock's 100. *)
Definition round : outcome Z * wstate := sync_round (L := example_libs) 7 false true 5 (TickWAL 100) 0 s1.
Definition s2 : wstate := snd round.
Definition x1 : sstate := mkS s1 0 [].
Definition x2 : sstate := mkS s2 0 [c].

Lemma plain_root : Forall plain_comp root.
Proof. repeat constructor; try (by intros H; discriminate H); by apply plain_char. Qed.

Lemma initial_s0 : initial 7 s0.
Proof.
  split; try done. exists root. split_and!; [done|apply plain_root|done].
Qed.
Lemma c_ok : fixed_ok (fs_root s0) (primary s0) c.
Proof.
  split; [done|by split; vm_compute|done|].
  exists (replicate 64 x00). split; [vm_compute; done|]. apply Nat.leb_le. vm_compute. done.
Qed.
Lemma c_queueable : queueable s0 c.
Proof.
  split; [apply c_ok|]. exists ["A"%string; "2017.bin"%string]. split_and!; [done| |done].
  repeat constructor; try (by intros H; discriminate H); by apply plain_char.
Qed.
Lemma reach1 : reachable (L := example_libs) 7 true 5 s0 x1.
Proof. split; [apply initial_s0|]. apply rtc_once, step_queue, c_queueable. Qed.
Lemma reach2 : reachable (L := example_libs) 7 true 5 s0 x2.
Proof.
  split; [apply initial_s0|]. eapply rtc_l; [apply step_queue, c_queueable|]. apply rtc_once.
  unfold x2. replace [c] with (todo_after (TickWAL 100) s1 s2 []) by (vm_compute; done).
  apply step_round; [split; vm_compute; done|].
  unfold s2. fold round. rewrite (surjective_pairing round) at 1. by f_equal.
Qed.
End Example_run.

Lemma log_invariant_witness :
  let s := Example_run.s2 in
  exists ms gs base,
    wal_bytes s = status_message OPEN NOTREPLAYED 7 ++ encode_msgs ms /\
    Forall valid_msg ms /\ ids_increasing (tg_ids ms) /\ Forall (fun i => i < tgID (w_pipe s)) (tg_ids ms) /\
    pending ms = map serialize_group gs /\ group_cmds gs = [Example_run.c] /\
    primary s = apply_all (fs_root s) base [Example_run.c] /\
    cmds_ok s (writeChannel (w_pipe s)).
Proof. exact (log_invariant (L := example_libs) 7 ltac:(by split; vm_compute) true 5 ltac:(lia) _ _ Example_run.reach2). Defined.

(** The process dies after the commit and loses the record of the primary
    file; the replay brings it back. *)
Lemma crash_recovery_witness :
  let crashed := set_fs (<[Example_run.bucket_file := replicate 64 x00]> (w_fs Example_run.s2)) Example_run.s2 in
  exists s', Replay (L := example_libs) 8 false true true crashed = (Ret tt, s') /\
    primary s' = primary Example_run.s2 /\ ReplayState (w_wf s') = REPLAYED.
Proof.
  intros crashed.
  apply (crash_recovery (L := example_libs) 7 ltac:(by split; vm_compute) true 5 ltac:(lia) 8
    Example_run.s0 Example_run.x2 [] crashed Example_run.reach2).
  - split; try (rewrite app_nil_r); try (vm_compute; done).
    replace (primary crashed) with (primary Example_run.s0) by (vm_compute; done).
    replace (primary (ss_w Example_run.x2)) with
      (apply_all (fs_root Example_run.s0) (primary Example_run.s0) [Example_run.c]) by (vm_compute; done).
    apply (agree_outside_lost (fs_root Example_run.s0)). repeat constructor; apply Example_run.c_ok.
  - by left.
Defined.

(** The process dies with the first message of the commit and half of the
    second in the log: the command is not carried out. *)
Lemma commit_atomic_witness :
  let p := take 40 (encode_msgs (commit_msgs 50 [Example_run.c])) in
  let crashed := mkW (<[Example_run.log := wal_bytes Example_run.s1 ++ p]> (w_fs Example_run.s1))
    (set_pos (length (wal_bytes Example_run.s1 ++ p)) (w_wf Example_run.s1)) (mkPipe 0 []) ∅ [] in
  exists s', Replay (L := example_libs) 8 false true true crashed = (Ret tt, s') /\
    primary s' = primary Example_run.s1.
Proof.
  intros p crashed.
  apply (commit_atomic (L := example_libs) 7 ltac:(by split; vm_compute) true 5 ltac:(lia) 8
    Example_run.s0 Example_run.x1 p (drop 40 (encode_msgs (commit_msgs 50 [Example_run.c]))) crashed
    Example_run.reach1).
  - done.
  - vm_compute. done.
  - apply Nat.ltb_lt. vm_compute. done.
  - apply take_drop.
  - split; try (vm_compute; done).
    replace (primary crashed) with (primary Example_run.s1) by (vm_compute; done).
    split; [done|]. by left.
Defined.
