(* ===== verification/WalStatus.v ===== *)
(** * The life of a log file: taking over, replaying, deleting

    Which logs may be deleted: never one whose groups have not been carried
    out; always one after its replay, which leaves the primary files as the
    replay made them.  What one flush does, and the records of variable length,
    which a replay appends again. *)

From S2P Require Export WalSystem.

Section status.
Context `{L : StorageLibs} `{R : MapRange} (InstanceID : Z) (HID : inS 64 InstanceID) (nocomp : bool).
Implicit Types (s : wstate) (gs : list (Z * list WriteCommand)) (ms : list wal_msg).

Definition needs_replay (b : Z) : bool := (int8 b =? NOTREPLAYED) || (int8 b =? REPLAYINPROCESS).

Lemma isActive_value s :
  isActive InstanceID s =
  (Ret (FilePtr_open (w_wf s) && (FileStatus (w_wf s) =? OPEN) && (InstanceID =? OwningInstanceID (w_wf s))
        && (ReplayState (w_wf s) =? NOTREPLAYED)), s).
Proof. done. Qed.

Lemma synced_synced a b o s : synced a b o (synced a b o s) = synced a b o s.
Proof. done. Qed.

(** Only the replay state stored in the file decides. *)
Lemma CanDeleteSafely_log s a b o rest :
  log_status s a b o rest ->
  CanDeleteSafely InstanceID s = (Ret (negb (needs_replay b)), synced a b o s).
Proof.
  intros H. unfold CanDeleteSafely. rewrite (bind_step _ _ _ _ _ (syncStatusRead_log _ _ _ _ _ H)).
  rewrite (bind_step _ _ _ _ _ (isActive_value (synced a b o s))).
  change (ReplayState (w_wf (synced a b o s))) with (int8 b).
  destruct (_ && (int8 b =? NOTREPLAYED)) eqn:Hact.
  - apply andb_true_iff in Hact as [_ Hb]. unfold needs_replay. rewrite Hb. done.
  - pose proof (synced_status a b o s a b o rest H) as H'.
    rewrite (bind_step _ _ _ _ _ (NeedsReplay_log _ _ _ _ _ H')). done.
Qed.

Lemma restatus_primary fs rs rest s :
  primary (restatus InstanceID fs rs rest s) = primary s.
Proof. unfold primary, restatus. cbn. by rewrite delete_insert_eq. Qed.

(** Deleting a log that is open, not the process's own and replayed. *)
Lemma wal_Delete_replayed s a b o rest :
  log_status s a b o rest -> FileStatus (w_wf s) = OPEN -> ReplayState (w_wf s) <> NOTREPLAYED ->
  needs_replay b = false ->
  exists s', wal_Delete InstanceID s = (Ret tt, s') /\ w_fs s' = primary s /\
    FilePath (w_wf s') = FilePath (w_wf s) /\ RootPath (w_wf s') = RootPath (w_wf s) /\
    w_pipe s' = w_pipe s /\ w_m s' = w_m s /\ w_c s' = w_c s.
Proof.
  intros H Hf Hr Hb. unfold wal_Delete.
  assert (H1 : IsOpen s = (Ret true, s)).
  { unfold IsOpen. by rewrite (ls_open _ _ _ _ _ H), Hf. }
  rewrite (bind_step _ _ _ _ _ H1). cbn [negb].
  rewrite (bind_step _ _ _ _ _ (isActive_value s)).
  rewrite (proj2 (Z.eqb_neq _ _) Hr), andb_false_r.
  rewrite (bind_step _ _ _ _ _ (NeedsReplay_log _ _ _ _ _ H)). fold (needs_replay b). rewrite Hb.
  pose proof (synced_status a b o s a b o rest H) as H'.
  pose proof (WriteStatus_log InstanceID (synced a b o s) a b o rest CLOSED REPLAYED
    (wal_bytes_status _ _ _ _ _ H')) as Hw.
  set (s1 := restatus InstanceID CLOSED REPLAYED rest (synced a b o s)) in *.
  assert (Hclose : wal_Close InstanceID REPLAYED (synced a b o s)
            = (Ret tt, set_wf (set_open false (w_wf s1)) s1)).
  { unfold wal_Close. by rewrite (bind_step _ _ _ _ _ Hw). }
  rewrite (bind_step _ _ _ _ _ Hclose).
  set (s2 := set_wf (set_open false (w_wf s1)) s1). rewrite (bind_step _ _ s2 s2 s2) by done.
  assert (Hl : w_fs s2 !! FilePath (w_wf s2)
            = Some (status_message CLOSED REPLAYED InstanceID ++ rest)).
  { cbn. by rewrite lookup_insert_eq. }
  rewrite Hl. eexists. split; [reflexivity|]. split_and!; try done.
  change (delete (FilePath (w_wf s1)) (w_fs s1) = primary s). apply (restatus_primary CLOSED REPLAYED rest (synced a b o s)).
Qed.

(** C8: a log that has not been replayed is never deleted: while the file says
    so, the process does not count it as safe to delete, and [Delete] fails
    and leaves every file as it is. *)
Theorem unreplayed_log_is_kept s a b o rest :
  log_status s a b o rest -> needs_replay b = true ->
  (exists s', CanDeleteSafely InstanceID s = (Ret false, s') /\ w_fs s' = w_fs s) /\
  (exists e s', wal_Delete InstanceID s = (Fail e, s') /\ w_fs s' = w_fs s).
Proof.
  intros H Hb. split.
  - eexists. rewrite (CanDeleteSafely_log s a b o rest H), Hb. done.
  - unfold wal_Delete.
    assert (H1 : IsOpen s = (Ret (FileStatus (w_wf s) =? OPEN), s)).
    { unfold IsOpen. by rewrite (ls_open _ _ _ _ _ H). }
    rewrite (bind_step _ _ _ _ _ H1). destruct (FileStatus (w_wf s) =? OPEN); cbn [negb]; [|by eexists _, _].
    rewrite (bind_step _ _ _ _ _ (isActive_value s)). destruct (_ && _); [by eexists _, _|].
    rewrite (bind_step _ _ _ _ _ (NeedsReplay_log _ _ _ _ _ H)). fold (needs_replay b). rewrite Hb.
    by eexists _, _.
Qed.
(** C7: After a replay of a log another process left, whose pending groups are of
    fixed-length records in slots of primary files that exist, and whose end,
    if torn, is as in C6 ([replayable]), the log counts as safe to delete, and
    deleting it leaves exactly the primary files on which every pending group
    has been carried out. *)
Theorem replayed_log_is_deleted s b ms t gs :
  replayable s b ms t gs ->
  exists s1 s2 s3, Replay InstanceID false nocomp true s = (Ret tt, s1) /\
    CanDeleteSafely InstanceID s1 = (Ret true, s2) /\ w_fs s2 = w_fs s1 /\
    wal_Delete InstanceID s2 = (Ret tt, s3) /\
    w_fs s3 = apply_all (fs_root s) (primary s) (group_cmds gs).
Proof.
  intros H. destruct (Replay_spec InstanceID nocomp _ _ _ _ _ H)
    as (s1 & Hrun & Hprim & (rest & Hst) & Hf & Hr & _).
  pose proof (CanDeleteSafely_log s1 OPEN REPLAYED InstanceID rest Hst) as Hsafe.
  pose proof (synced_status OPEN REPLAYED InstanceID s1 OPEN REPLAYED InstanceID rest Hst) as Hst'.
  destruct (wal_Delete_replayed _ OPEN REPLAYED InstanceID rest Hst' eq_refl) as (s3 & Hdel & Hfs & _).
  { change (REPLAYED <> NOTREPLAYED). done. }
  { done. }
  exists s1, (synced OPEN REPLAYED InstanceID s1), s3. split_and!; [exact Hrun|exact Hsafe|done|exact Hdel|].
  rewrite Hfs. exact Hprim.
Qed.

(** C5: A flush of queued records of fixed length, all in slots of primary files
    that exist (and two keys never naming the same file, the map for the
    triggers empty, as it is between flushes), writes the commit's three
    messages behind the log, applies every command to its primary file, empties
    the queue, moves the transaction id to the clock's value, and hands the
    trigger goroutine, per file, the records in the order they were queued. *)
Theorem flushToWAL_commits s rest now :
  let cs := writeChannel (w_pipe s) in
  let id := tgID (w_pipe s) in
  log_status s OPEN NOTREPLAYED InstanceID rest ->
  cs <> [] -> cmds_ok s cs -> keys_distinct (fs_root s) cs -> w_m s = ∅ ->
  exists s' m,
    flushToWAL InstanceID false nocomp now s = (Ret tt, s') /\
    log_status s' OPEN NOTREPLAYED InstanceID (rest ++ encode_msgs (commit_msgs id cs)) /\
    primary s' = apply_all (fs_root s) (primary s) cs /\
    lastCommittedTGID (w_wf s') = id /\
    w_pipe s' = mkPipe (int64 (id + int64 (now - id))) [] /\
    w_m s' = ∅ /\ trigger_records cs m /\ w_c s' = w_c s ++ map_range m.
Proof.
  intros cs id Hst Hne Hok Hd Hm.
  destruct (flushToWAL_spec InstanceID HID nocomp s rest now Hst Hne Hok Hd Hm)
    as (s' & m & H1 & H2 & H3 & H4 & H5 & _ & _ & H8).
  by exists s', m.
Qed.
End status.

Lemma flushToWAL_commits_witness :
  let s := Example_run.s1 in
  exists s' m,
    flushToWAL (L := example_libs) 7 false true 100 s = (Ret tt, s') /\
    log_status s' OPEN NOTREPLAYED 7 ([] ++ encode_msgs (commit_msgs 50 [Example_run.c])) /\
    primary s' = apply_all (fs_root s) (primary s) [Example_run.c] /\
    lastCommittedTGID (w_wf s') = 50 /\ w_pipe s' = mkPipe (int64 (50 + int64 (100 - 50))) [] /\
    w_m s' = ∅ /\ trigger_records [Example_run.c] m /\ w_c s' = w_c s ++ map_range m.
Proof.
  apply (flushToWAL_commits (L := example_libs) 7 ltac:(by split; vm_compute) true Example_run.s1 [] 100).
  - by split.
  - done.
  - apply Forall_singleton, Example_run.c_ok.
  - intros c d ->%list_elem_of_singleton ->%list_elem_of_singleton _. done.
  - done.
Defined.

Lemma unreplayed_log_is_kept_witness :
  (exists s', CanDeleteSafely 8 Example_run.s2 = (Ret false, s') /\ w_fs s' = w_fs Example_run.s2) /\
  (exists e s', wal_Delete 8 Example_run.s2 = (Fail e, s') /\ w_fs s' = w_fs Example_run.s2).
Proof.
  apply (unreplayed_log_is_kept 8 Example_run.s2 OPEN NOTREPLAYED 7 (drop 11 (wal_bytes Example_run.s2))).
  - by split; vm_compute.
  - done.
Defined.

Lemma replayed_log_is_deleted_witness :
  exists s1 s2 s3, Replay (L := example_libs) 8 false true true Example_run.s2 = (Ret tt, s1) /\
    CanDeleteSafely 8 s1 = (Ret true, s2) /\ w_fs s2 = w_fs s1 /\
    wal_Delete 8 s2 = (Ret tt, s3) /\
    w_fs s3 = {[ Example_run.bucket_file :=
      replicate 16 x00 ++ le_bytes 8 5 ++ Data Example_run.c ++ replicate 32 x00 ]}.
Proof.
  apply (replayed_log_is_deleted (L := example_libs) 8 true Example_run.s2 NOTREPLAYED
    (commit_msgs 50 [Example_run.c]) [] [(50, [Example_run.c])]).
  split.
  - exists OPEN, 7. by split; vm_compute.
  - by left.
  - vm_compute. done.
  - apply valid_msgs_dec. vm_compute. reflexivity.
  - split; [by repeat constructor|]. by repeat constructor.
  - by left.
  - vm_compute. done.
  - apply Forall_singleton. split_and!; try (by vm_compute).
    apply Forall_singleton. split; [done|by split; vm_compute|done|].
    exists (replicate 16 x00 ++ le_bytes 8 5 ++ Data Example_run.c ++ replicate 32 x00).
    split; [vm_compute; done|]. apply Nat.leb_le. vm_compute. done.
Defined.

(** ** Variable-length records *)

Module Example_variable.
Definition c : WriteCommand :=
  mkWriteCommand VARIABLE "A/2017.bin" 8 32 7 [x0a; x00; x00; x00; x02; x00; x00; x00].
Definition s0 : wstate :=
  mkW {[ Example_run.log := status_message OPEN NOTREPLAYED 7; Example_run.bucket_file := replicate 80 x00 ]}
    (mkWALFile OPEN NOTREPLAYED 7 "/db" Example_run.log 0 11 true) (mkPipe 50 [c]) ∅ [].
Definition flushed : wstate := snd (flushToWAL (L := example_libs) 7 false false 100 s0).
Definition replayed : wstate := snd (Replay (L := example_libs) 8 false false true flushed).
Definition content (s : wstate) : outcome (list byte) :=
  bucket (L := example_libs) false (default [] (w_fs s !! Example_run.bucket_file)) 32.
End Example_variable.

(** Replay is not idempotent on variable-length records: when the process
    dies after a commit whose records had already reached the primary files,
    the replay appends them once more. *)
Lemma variable_replay_duplicates :
  Example_variable.content Example_variable.s0 = Ret [] /\
  Example_variable.content Example_variable.flushed = Ret (Data Example_variable.c) /\
  Example_variable.content Example_variable.replayed =
    Ret (Data Example_variable.c ++ Data Example_variable.c).
Proof. vm_compute. done. Qed.
