(* ===== verification/Slices.v ===== *)
(** * Slices and the arrays behind them

    A slice is a window at the start of an array that other slices may share.
    What [append] writes into spare room is seen through all of them; without
    room it moves the elements to a new array, of a capacity that the language
    leaves open. *)

From stdpp Require Export functions.
From S2P Require Export Prelude.

(** What [append] of one element makes of the capacity of a full slice, which
    may depend on the type of the variable's elements. *)
Class Growth (V : Type) := { grow : V -> nat -> nat; grow_room : forall v n, (n < grow v n)%nat }.

Create HintDb slices.

Section slices.
Context {V : Type} `{EqDecision V} {E : Type} (zero : E).

(** A slice that begins where its array begins; without capacity it is nil. *)
Record slice := mkSlice { sl_array : nat; sl_len : nat; sl_cap : nat }.
Definition nil_slice : slice := mkSlice 0 0 0.

(** The arrays of a process and the slices its variables hold. *)
Record memory := mkMemory { arrays : list (list E); vars : V -> slice }.
Definition new_memory : memory := mkMemory [] (fun _ => nil_slice).

Definition elements_of (m : memory) (s : slice) : list E :=
  take (sl_len s) (default [] (arrays m !! sl_array s)).
Definition value (m : memory) (v : V) : list E := elements_of m (vars m v).

(** [v = append(v, x)] *)
Definition append_var `{Growth V} (m : memory) (vx : V * E) : memory :=
  let '(v, x) := vx in
  let s := vars m v in
  if (sl_len s <? sl_cap s)%nat then
    mkMemory (alter <[sl_len s := x]> (sl_array s) (arrays m))
      (<[v := mkSlice (sl_array s) (S (sl_len s)) (sl_cap s)]> (vars m))
  else
    mkMemory (arrays m ++ [elements_of m s ++ x :: repeat zero (grow v (sl_len s) - S (sl_len s))])
      (<[v := mkSlice (length (arrays m)) (S (sl_len s)) (grow v (sl_len s))]> (vars m)).

(** [v = w[:0]] *)
Definition trim_var (v w : V) (m : memory) : memory :=
  mkMemory (arrays m) (<[v := mkSlice (sl_array (vars m w)) 0 (sl_cap (vars m w))]> (vars m)).

(** ** What appending does *)

Definition valid (m : memory) (s : slice) : Prop :=
  (sl_len s <= sl_cap s)%nat /\
  (0 < sl_cap s -> exists a, arrays m !! sl_array s = Some a /\ length a = sl_cap s)%nat.
Definition well_formed (m : memory) : Prop := forall v, valid m (vars m v).

(** The arrays of two slices are different ones. *)
Definition apart (s t : slice) : Prop := sl_cap s = 0%nat \/ sl_cap t = 0%nat \/ sl_array s <> sl_array t.

Lemma new_well_formed : well_formed new_memory.
Proof. intros v. split; cbn; lia. Qed.

Lemma elements_nil m s : sl_len s = 0%nat -> elements_of m s = [].
Proof. unfold elements_of. by intros ->. Qed.
Lemma value_insert_ne (m : memory) A v s w : w <> v -> value (mkMemory A (<[v := s]> (vars m))) w = elements_of (mkMemory A (vars m)) (vars m w).
Proof. intros Hne. unfold value, elements_of. cbn. by rewrite fn_lookup_insert_ne by done. Qed.

Context `{!Growth V}.

Lemma vars_append_ne m v x w : w <> v -> vars (append_var m (v, x)) w = vars m w.
Proof. intros Hne. unfold append_var. destruct (_ <? _)%nat; cbn; by rewrite fn_lookup_insert_ne by done. Qed.

(** The slice of the variable grows by the element. *)
Lemma append_len m v x : sl_len (vars (append_var m (v, x)) v) = S (sl_len (vars m v)).
Proof. unfold append_var. destruct (_ <? _)%nat; cbn; by rewrite fn_lookup_insert. Qed.
Lemma append_value m v x : valid m (vars m v) -> value (append_var m (v, x)) v = value m v ++ [x].
Proof.
  intros [Hlc Ha]. unfold append_var. destruct (_ <? _)%nat eqn:Hlt; unfold value, elements_of; cbn; rewrite fn_lookup_insert; cbn.
  - apply Nat.ltb_lt in Hlt. destruct (Ha ltac:(lia)) as (a & Hl & Hn).
    rewrite list_lookup_alter_eq, Hl. cbn. rewrite take_S_r with (x := x) by (apply list_lookup_insert_eq; lia).
    by rewrite take_insert_ge by lia.
  - rewrite lookup_app_r, Nat.sub_diag by lia. cbn.
    assert (Hlen : length (take (sl_len (vars m v)) (default [] (arrays m !! sl_array (vars m v)))) = sl_len (vars m v)).
    { apply Nat.ltb_ge in Hlt. destruct (decide (sl_cap (vars m v) = 0)%nat) as [Hz|Hnz].
      - replace (sl_len (vars m v)) with 0%nat by lia. done.
      - destruct (Ha ltac:(lia)) as (a & Hl & Hn). rewrite Hl. cbn. rewrite length_take. lia. }
    rewrite take_app. rewrite Hlen. replace (S _ - _)%nat with 1%nat by lia. rewrite firstn_all2 by (rewrite Hlen; lia). done.
Qed.

(** Through a slice of its array the element is seen where it was written;
    a slice of another array sees nothing of it. *)
Lemma append_elements m v x t : valid m t -> valid m (vars m v) ->
  elements_of (append_var m (v, x)) t =
  if decide (sl_array t = sl_array (vars m v) /\ sl_len (vars m v) < sl_cap (vars m v))%nat
  then <[sl_len (vars m v) := x]> (elements_of m t) else elements_of m t.
Proof.
  intros [Htc Ht] [Hlc Ha]. unfold append_var. destruct (_ <? _)%nat eqn:Hlt; unfold elements_of; cbn.
  - apply Nat.ltb_lt in Hlt. destruct (decide (sl_array t = sl_array (vars m v))) as [->|Hne].
    + rewrite decide_True by done. destruct (Ha ltac:(lia)) as (a & Hl & Hn). rewrite list_lookup_alter_eq, Hl. cbn.
      destruct (decide (sl_len (vars m v) < sl_len t)%nat).
      * by rewrite take_insert_lt by done.
      * rewrite take_insert_ge by lia. rewrite list_insert_ge; [done|]. rewrite length_take. lia.
    + rewrite decide_False by naive_solver. by rewrite list_lookup_alter_ne by done.
  - apply Nat.ltb_ge in Hlt. rewrite decide_False by lia.
    destruct (decide (sl_cap t = 0)%nat) as [Hz|Hnz]; [by replace (sl_len t) with 0%nat by lia|].
    destruct (Ht ltac:(lia)) as (a & Hl & Hn). by rewrite lookup_app_l by (by eapply lookup_lt_Some).
Qed.

Lemma append_valid m v x t : valid m t -> valid (append_var m (v, x)) t.
Proof.
  intros [Htc Ht]. split; [done|]. intros Hc. destruct (Ht Hc) as (a & Hl & Hn). unfold append_var.
  destruct (_ <? _)%nat; cbn.
  - destruct (decide (sl_array t = sl_array (vars m v))) as [<-|Hne].
    + rewrite list_lookup_alter_eq, Hl. eexists. split; [done|]. by rewrite length_insert.
    + rewrite list_lookup_alter_ne by done. by exists a.
  - rewrite lookup_app_l by (by eapply lookup_lt_Some). by exists a.
Qed.
Lemma append_well_formed m v x : well_formed m -> well_formed (append_var m (v, x)).
Proof.
  intros Hm w. destruct (decide (w = v)) as [->|Hne]; [|rewrite vars_append_ne by done; by apply append_valid].
  destruct (Hm v) as [Hlc Ha]. unfold append_var. destruct (_ <? _)%nat eqn:Hlt; cbn; rewrite fn_lookup_insert; split; cbn.
  - apply Nat.ltb_lt in Hlt. lia.
  - intros Hc. destruct (Ha Hc) as (a & Hl & Hn). rewrite list_lookup_alter_eq, Hl. eexists. split; [done|]. by rewrite length_insert.
  - apply grow_room.
  - intros _. eexists. rewrite lookup_app_r, Nat.sub_diag by lia. split; [done|].
    pose proof (grow_room v (sl_len (vars m v))). rewrite length_app. cbn. rewrite repeat_length.
    enough (length (elements_of m (vars m v)) = sl_len (vars m v)) by lia.
    apply Nat.ltb_ge in Hlt. unfold elements_of. rewrite length_take.
    destruct (decide (sl_cap (vars m v) = 0)%nat) as [Hz|Hnz]; [lia|]. destruct (Ha ltac:(lia)) as (a & Hl' & Hn). rewrite Hl'. cbn. lia.
Qed.

(** A slice that is valid stays apart from a variable that is appended to. *)
Lemma append_apart m v x t w : valid m t -> apart t (vars m w) -> apart t (vars (append_var m (v, x)) w).
Proof.
  intros [_ Ht] Hap. destruct (decide (w = v)) as [->|Hne]; [|by rewrite vars_append_ne].
  unfold append_var. destruct (_ <? _)%nat eqn:Hlt; cbn; rewrite fn_lookup_insert; unfold apart in *; cbn.
  - destruct Hap as [?|[Hz|?]]; [by left| |by right; right]. apply Nat.ltb_lt in Hlt. lia.
  - destruct (decide (sl_cap t = 0)%nat) as [?|Hnz]; [by left|]. right. right.
    destruct (Ht ltac:(lia)) as (a & Hl & _). apply lookup_lt_Some in Hl. lia.
Qed.

Definition append_all (m : memory) (ops : list (V * E)) : memory := foldl append_var m ops.
(** What was appended to a variable. *)
Definition values_of (v : V) (ops : list (V * E)) : list E :=
  omap (fun o => if decide (o.1 = v) then Some o.2 else None) ops.

Lemma append_all_cons m o ops : append_all m (o :: ops) = append_all (append_var m o) ops.
Proof. done. Qed.
Lemma append_all_app m ops ops' : append_all m (ops ++ ops') = append_all (append_all m ops) ops'.
Proof. apply foldl_app. Qed.
Lemma values_of_app v ops ops' : values_of v (ops ++ ops') = values_of v ops ++ values_of v ops'.
Proof. apply omap_app. Qed.

Lemma append_all_well_formed ops : forall m, well_formed m -> well_formed (append_all m ops).
Proof. induction ops as [|[v x] ops IH]; intros m Hm; [done|]. apply IH. by apply append_well_formed. Qed.
Lemma append_all_valid ops t : forall m, valid m t -> valid (append_all m ops) t.
Proof. induction ops as [|[v x] ops IH]; intros m Hm; [done|]. apply IH. by apply append_valid. Qed.
Lemma append_all_apart ops t w : forall m, valid m t -> apart t (vars m w) -> apart t (vars (append_all m ops) w).
Proof.
  induction ops as [|[v x] ops IH]; intros m Hm Ha; [done|]. apply IH; [by apply append_valid|by apply append_apart].
Qed.
Lemma append_all_other ops w : forall m, (forall o, o ∈ ops -> o.1 <> w) -> vars (append_all m ops) w = vars m w.
Proof.
  induction ops as [|[v x] ops IH]; intros m Hne; [done|]. rewrite append_all_cons, IH by (intros o Ho; apply Hne; by right).
  apply vars_append_ne. intros ->. by apply (Hne (v, x) ltac:(left)).
Qed.
Lemma append_all_len ops v : forall m, sl_len (vars (append_all m ops) v) = (sl_len (vars m v) + length (values_of v ops))%nat.
Proof.
  induction ops as [|[w x] ops IH]; intros m; [cbn; lia|]. rewrite append_all_cons, IH. cbn [values_of omap list_omap fst snd].
  destruct (decide (w = v)) as [->|Hne]; [|by rewrite vars_append_ne].
  rewrite append_len. cbn. unfold values_of. lia.
Qed.

Lemma list_inserts_ge {A} (k l : list A) i : (length l <= i)%nat -> list_inserts i k l = l.
Proof.
  revert i. induction k as [|y k IH]; intros i Hi; [done|]. cbn. rewrite list_insert_ge; [apply IH; lia|].
  rewrite length_inserts. lia.
Qed.

(** A slice apart from every variable is left as it is. *)
Lemma append_all_elements_apart ops t : forall m, well_formed m -> valid m t -> (forall w, apart t (vars m w)) ->
  elements_of (append_all m ops) t = elements_of m t.
Proof.
  induction ops as [|[v x] ops IH]; intros m Hm Ht Ha; [done|].
  rewrite append_all_cons, IH; [|by apply append_well_formed|by apply append_valid|intros w; by apply append_apart].
  rewrite append_elements by (done || apply Hm). case_decide as Hd; [|done]. destruct Hd as [Heq Hlt].
  destruct (Ha v) as [Hz|[Hz|Hne]]; [|lia|done]. by rewrite elements_nil by (destruct Ht; lia).
Qed.

(** A slice that shares its array with one variable sees what is appended to
    it written over its own elements, from where the variable's slice ends. *)
Lemma append_all_elements ops t u : forall m, well_formed m -> valid m t ->
  sl_array t = sl_array (vars m u) -> (sl_len t <= sl_cap (vars m u))%nat -> (forall w, w <> u -> apart t (vars m w)) ->
  elements_of (append_all m ops) t = list_inserts (sl_len (vars m u)) (values_of u ops) (elements_of m t).
Proof.
  induction ops as [|[v x] ops IH]; intros m Hm Ht Harr Hcap Ha; [done|]. rewrite append_all_cons.
  cbn [values_of omap list_omap fst snd]. destruct (decide (v = u)) as [->|Hne].
  - destruct (decide (sl_len (vars m u) < sl_cap (vars m u))%nat) as [Hlt|Hge].
    + assert (Hu : vars (append_var m (u, x)) u = mkSlice (sl_array (vars m u)) (S (sl_len (vars m u))) (sl_cap (vars m u))).
      { unfold append_var. rewrite (proj2 (Nat.ltb_lt _ _) Hlt). cbn. by rewrite fn_lookup_insert. }
      rewrite IH; rewrite ?Hu; cbn [sl_array sl_len sl_cap]; [|by apply append_well_formed|by apply append_valid|done|done|
        intros w Hw; rewrite vars_append_ne by done; by apply Ha].
      rewrite append_elements by (done || apply Hm). rewrite decide_True by done.
      change (omap _ ops) with (values_of u ops). generalize (values_of u ops). intros xs. cbn [list_inserts].
      rewrite list_insert_inserts_lt; [done|lia].
    + assert (Hf : sl_array (vars (append_var m (u, x)) u) = length (arrays m)).
      { unfold append_var. rewrite (proj2 (Nat.ltb_ge _ _)) by lia. cbn. by rewrite fn_lookup_insert. }
      destruct (decide (sl_cap t = 0)%nat) as [Hz|Hnz].
      { destruct Ht as [Htl _]. by rewrite !elements_nil, list_inserts_nil by lia. }
      rewrite append_all_elements_apart; [|by apply append_well_formed|by apply append_valid|].
      * rewrite append_elements by (done || apply Hm). rewrite decide_False by lia.
        symmetry. apply list_inserts_ge. unfold elements_of. rewrite length_take. lia.
      * intros w. destruct (decide (w = u)) as [->|Hw]; [|apply append_apart; [done|by apply Ha]].
        right. right. rewrite Hf. destruct Ht as [_ Ht]. destruct (Ht ltac:(lia)) as (a & Hl & _). apply lookup_lt_Some in Hl. lia.
  - rewrite IH; [|by apply append_well_formed|by apply append_valid|by rewrite vars_append_ne|by rewrite vars_append_ne|
      intros w Hw; apply append_apart; [done|by apply Ha]]. rewrite vars_append_ne by done.
    rewrite append_elements by (done || apply Hm). case_decide as Hd; [|done]. destruct Hd as [Heq Hlt].
    destruct (Ha v Hne) as [Hz|[Hz|Hn]]; [|lia|done]. by rewrite elements_nil by (destruct Ht; lia).
Qed.

Lemma apart_sym s t : apart s t -> apart t s.
Proof. unfold apart. naive_solver. Qed.

(** The variable's own slice does not come to share what others have. *)
Lemma append_apart_self m v x w : well_formed m -> w <> v -> apart (vars m v) (vars m w) ->
  apart (vars (append_var m (v, x)) v) (vars (append_var m (v, x)) w).
Proof. intros Hm Hne Ha. rewrite (vars_append_ne m v x w) by done. by apply apart_sym, append_apart, apart_sym. Qed.

Lemma append_elements_apart m v x t : well_formed m -> valid m t -> apart t (vars m v) ->
  elements_of (append_var m (v, x)) t = elements_of m t.
Proof.
  intros Hm Ht Ha. rewrite append_elements by (done || apply Hm). case_decide as Hd; [|done]. destruct Hd as [Heq Hlt].
  destruct Ha as [Hz|[Hz|Hn]]; [|lia|done]. by rewrite elements_nil by (destruct Ht; lia).
Qed.

(** A variable that shares nothing holds what was appended to it. *)
Lemma append_all_value ops v : forall m, well_formed m -> (forall w, w <> v -> apart (vars m v) (vars m w)) ->
  value (append_all m ops) v = value m v ++ values_of v ops.
Proof.
  induction ops as [|[u x] ops IH]; intros m Hm Ha; [by rewrite app_nil_r|]. rewrite append_all_cons.
  cbn [values_of omap list_omap fst snd]. destruct (decide (u = v)) as [->|Hne].
  - rewrite IH; [|by apply append_well_formed|intros w Hw; apply append_apart_self; auto].
    rewrite append_value by apply Hm. rewrite <- app_assoc. done.
  - rewrite IH; [|by apply append_well_formed|].
    + f_equal. unfold value. rewrite vars_append_ne by done. by apply append_elements_apart; [|apply Hm|apply Ha].
    + intros w Hw. rewrite vars_append_ne by done. by apply append_apart; [apply Hm|apply Ha].
Qed.

(** No two variables share an array. *)
Definition separate (m : memory) : Prop := forall v w, v <> w -> apart (vars m v) (vars m w).
Lemma new_separate : separate new_memory.
Proof. intros v w _. by left. Qed.
Lemma append_separate m v x : well_formed m -> separate m -> separate (append_var m (v, x)).
Proof.
  intros Hm Hs u w Hne. destruct (decide (u = v)) as [->|Hu].
  - apply append_apart_self; [done|congruence|by apply Hs].
  - rewrite (vars_append_ne m v x u) by done. apply append_apart; [apply Hm|by apply Hs].
Qed.
Lemma append_all_separate ops : forall m, well_formed m -> separate m -> separate (append_all m ops).
Proof.
  induction ops as [|[v x] ops IH]; intros m Hm Hs; [done|]. apply IH; [by apply append_well_formed|by apply append_separate].
Qed.

(** ** Emptying a variable *)

Lemma trim_vars_ne v w m u : u <> v -> vars (trim_var v w m) u = vars m u.
Proof. intros Hne. cbn. by rewrite fn_lookup_insert_ne. Qed.
Lemma trim_vars v w m : vars (trim_var v w m) v = mkSlice (sl_array (vars m w)) 0 (sl_cap (vars m w)).
Proof. cbn. by rewrite fn_lookup_insert. Qed.
Lemma trim_elements v w m t : elements_of (trim_var v w m) t = elements_of m t.
Proof. done. Qed.
Lemma trim_valid v w m t : valid m t -> valid (trim_var v w m) t.
Proof. done. Qed.
Lemma trim_well_formed v w m : well_formed m -> well_formed (trim_var v w m).
Proof.
  intros Hm u. destruct (decide (u = v)) as [->|Hne]; [|rewrite trim_vars_ne by done; apply Hm].
  rewrite trim_vars. destruct (Hm w) as [_ Hw]. split; cbn; [lia|done].
Qed.
Lemma trim_separate v m : separate m -> separate (trim_var v v m).
Proof.
  intros Hs u w Hne. unfold trim_var. cbn. destruct (decide (u = v)) as [->|Hu], (decide (w = v)) as [->|Hw]; [done| | |];
    rewrite ?fn_lookup_insert, ?fn_lookup_insert_ne by done; try apply (Hs _ _ Hne).
Qed.

(** What rows append, each once to a variable. *)
Lemma values_of_rows {A} (row_ops : A -> list (V * E)) (f : A -> E) v (l : list A) :
  (forall a, values_of v (row_ops a) = [f a]) -> values_of v (concat (map row_ops l)) = map f l.
Proof. intros H. induction l as [|a l IH]; [done|]. cbn [map concat]. by rewrite values_of_app, H, IH. Qed.
Lemma values_of_rows_nil {A} (row_ops : A -> list (V * E)) v (l : list A) :
  (forall a, values_of v (row_ops a) = []) -> values_of v (concat (map row_ops l)) = [].
Proof. intros H. induction l as [|a l IH]; [done|]. cbn [map concat]. by rewrite values_of_app, H, IH. Qed.
End slices.
#[export] Hint Resolve new_well_formed append_well_formed append_all_well_formed append_valid append_all_valid
  trim_valid trim_well_formed apart_sym new_separate append_separate append_all_separate trim_separate : slices.
