(* ===== verification/Feeder.v ===== *)
(** * What the feeders share (contrib)

    A feeder turns answers of a service into column series and writes them; some
    first ask the store for the last row it has.  Both are the interface
    [Store]; the server is one. *)

From S2P Require Export Writer Aggregates Query GoTimeParse.
From S2P Require Import GoStrings.

#[local] Open Scope string_scope.
#[local] Open Scope Z_scope.

(** A write of series and the time of a bucket's last row; the zero time when
    there is none. *)
Class Store (S : Type) := {
  st_WriteCSM : ColumnSeriesMap -> bool -> prog S unit;
  st_findLastTimestamp : TimeBucketKey -> prog S Time;
}.

(** The error of a call is logged. *)
Definition logged {S} (m : prog S unit) : prog S unit := fun s =>
  match m s with (Fail _, s') => (Ret tt, s') | r => r end.

(** ** The server as a store *)

Section server.
Context `{L : StorageLibs} `{R : MapRange} (tz local : Location).
Context (EnableLastKnown DisableVariableCompression : bool) (CatalogDir : dloc) (now : Z).
Context (InstanceID : Z) (WALBypass walfile haveWALWriter queued : bool).

Definition server_WriteCSM (csm : ColumnSeriesMap) (isVariableLength : bool) : prog server unit :=
  sv_on_instance (WriteCSM tz local InstanceID WALBypass DisableVariableCompression CatalogDir walfile haveWALWriter
                    queued now csm isVariableLength).

(** The errors of the reader are not looked at: without one it is nil. *)
Definition findLastTimestamp (tbk : TimeBucketKey) : prog server Time := fun s =>
  match AddTargetKey tbk (NewQuery tz CatalogDir) with
  | Ret q =>
      let q := SetRowLimit LAST 1 (SetRange tz 0 (2 ^ 63 - 1) q) in
      match sv_on_reader (on_cat (Parse tz q)) s with
      | (Ret (_, parsed), s') =>
          match sv_on_reader (NewReader tz local EnableLastKnown parsed) s' with
          | (Ret rd, s') =>
              match sv_on_reader (reader_Read tz EnableLastKnown DisableVariableCompression rd) s' with
              | (Ret csm, s') =>
                  match csm !! tbk with
                  | None => (Ret zeroTime, s')
                  | Some cs =>
                      match cs_Len cs with
                      | Ret O => (Ret zeroTime, s')
                      | Ret _ => (let! ts := cs_GetTime tz cs in
                                  match ts with t :: _ => Ret t | [] => Panic "index out of range" end, s')
                      | Fail e => (Fail e, s')
                      | Fatal msg => (Fatal msg, s')
                      | Panic msg => (Panic msg, s')
                      end
                  end
              | (Fail _, s') => (Ret zeroTime, s')
              | (Fatal msg, s') => (Fatal msg, s')
              | (Panic msg, s') => (Panic msg, s')
              end
          | (Fail _, s') => (Panic "invalid memory address or nil pointer dereference", s')
          | (Fatal msg, s') => (Fatal msg, s')
          | (Panic msg, s') => (Panic msg, s')
          end
      | (Fail _, s') => (Ret zeroTime, s')
      | (Fatal msg, s') => (Fatal msg, s')
      | (Panic msg, s') => (Panic msg, s')
      end
  | Fail e => (Fail e, s)
  | Fatal msg => (Fatal msg, s)
  | Panic msg => (Panic msg, s)
  end.

Definition server_store : Store server := {|
  st_WriteCSM := server_WriteCSM;
  st_findLastTimestamp := findLastTimestamp;
|}.
End server.

(** ** Times and prices *)

(** [float32(x)] of a double *)
Definition to_float32 (f : float64) : float32 := round_to 24 128 f.

(** [Nanosecond] of a time *)
Definition Nanosecond (t : Time) : Z := t_ns t mod nsPerSec.

(** ** The start of a query in the configuration

    The hour of the layouts is the one of a clock of twelve hours. *)
Definition at_minute : list chunk := [ZeroHour12; Literal_char ":"; ZeroMinute].
Definition at_second : list chunk := (at_minute ++ [Literal_char ":"; ZeroSecond])%list.
Definition trials : list (list chunk) :=
  [(date_layout ++ Literal_char " " :: at_second)%list; (date_layout ++ Literal_char "T" :: at_second)%list;
   (date_layout ++ Literal_char " " :: at_minute)%list; (date_layout ++ Literal_char "T" :: at_minute)%list; date_layout].
Fixpoint first_layout (layouts : list (list chunk)) (query : string) : option Z :=
  match layouts with
  | [] => None
  | layout :: layouts' =>
      match time_Parse_ns no_names layout query with Some ns => Some ns | None => first_layout layouts' query end
  end.
(** The zero time when no layout fits. *)
Definition queryTime (tz : Location) (query : string) : Time :=
  match first_layout trials query with Some ns => mkTime ns tz | None => zeroTime end.

(** An hour of the afternoon is not understood. *)
Lemma queryTime_afternoon :
  queryTime UTC "2017-01-02 03:04" = Date 2017 1 2 3 4 0 0 UTC /\ queryTime UTC "2017-01-02 15:04" = zeroTime.
Proof. split; vm_compute; reflexivity. Qed.
