(* ===== verification/Ticks.v ===== *)
(** * Trades and quotes of a stream (contrib/polygon/handlers, contrib/polyiex/handlers)

    Messages become trades and quotes, which are gathered by bucket and written
    as series.  The two writers collect the columns of every bucket in the same
    variables, emptied by slicing them: the columns of the buckets that were
    visited earlier share their arrays. *)

From S2P Require Export Feeder Slices.
From S2P Require Import GoStrings.

#[local] Open Scope string_scope.
#[local] Open Scope Z_scope.

(** ** Trades and quotes *)

Record trade := mkTrade { t_epoch : Z; t_nanos : Z; t_px : float32; t_sz : Z }.
Record quote := mkQuote {
  q_epoch : Z; q_nanos : Z; q_bidPx : float32; q_askPx : float32; q_bidSz : Z; q_askSz : Z }.

(** What a map of buckets holds, and what comes for one. *)
Inductive bucket := Quotes (l : list quote) | Trades (l : list trade).
Inductive item := Quote (q : quote) | Trade (t : trade).

(** A type assertion on the bucket that is there already. *)
Definition append_to (old : option bucket) (i : item) : outcome bucket :=
  match old, i with
  | None, Quote q => Ret (Quotes [q])
  | None, Trade t => Ret (Trades [t])
  | Some (Quotes l), Quote q => Ret (Quotes (l ++ [q]))
  | Some (Trades l), Trade t => Ret (Trades (l ++ [t]))
  | _, _ => Panic "interface conversion"
  end.
Definition appendItem (tbk : TimeBucketKey) (i : item) (writeMap : gmap string bucket) : outcome (gmap string bucket) :=
  let! b := append_to (writeMap !! tbk) i in Ret (<[tbk := b]> writeMap).

(** ** The writers' variables *)

Inductive var := Vepoch | Vnanos | VbidPx | VaskPx | Vpx | VbidSz | VaskSz | Vsz.
#[export] Instance var_eq_dec : EqDecision var.
Proof. solve_decision. Defined.

Abbreviation float32_image f := (le_bytes 4 (float32_bits f)).

Definition quote_ops (q : quote) : list (var * list byte) :=
  [(Vepoch, le_bytes 8 (q_epoch q)); (Vnanos, le_bytes 4 (q_nanos q)); (VbidPx, float32_image (q_bidPx q));
   (VaskPx, float32_image (q_askPx q)); (VbidSz, le_bytes 4 (q_bidSz q)); (VaskSz, le_bytes 4 (q_askSz q))].
Definition trade_ops (t : trade) : list (var * list byte) :=
  [(Vepoch, le_bytes 8 (t_epoch t)); (Vnanos, le_bytes 4 (t_nanos t)); (Vpx, float32_image (t_px t));
   (Vsz, le_bytes 4 (t_sz t))].

(** A column that was added to a series: its slice is read when the series is
    written. *)
Record column_ref := mkRef { r_key : string; r_name : string; r_kind : Kind; r_slice : slice }.

Section writers.
Context `{!Growth var}.
Abbreviation mem := (memory (V := var) (E := list byte)).
Abbreviation append_all := (append_all (V := var) (@nil byte)).

Definition quote_columns (tbk : string) (m : mem) : list column_ref :=
  [mkRef tbk "Epoch" KInt64 (vars m Vepoch); mkRef tbk "Nanoseconds" KInt32 (vars m Vnanos);
   mkRef tbk "BidPrice" KFloat32 (vars m VbidPx); mkRef tbk "AskPrice" KFloat32 (vars m VaskPx);
   mkRef tbk "BidSize" KInt32 (vars m VbidSz); mkRef tbk "AskSize" KInt32 (vars m VaskSz)].
Definition trade_columns (tbk : string) (m : mem) : list column_ref :=
  [mkRef tbk "Epoch" KInt64 (vars m Vepoch); mkRef tbk "Nanoseconds" KInt32 (vars m Vnanos);
   mkRef tbk "Price" KFloat32 (vars m Vpx); mkRef tbk "Size" KInt32 (vars m Vsz)].

(** The slices are trimmed; that of the asks becomes that of the bids. *)
Definition quote_trim (m : mem) : mem :=
  trim_var VaskSz VaskSz (trim_var VaskPx VbidPx (trim_var VbidSz VbidSz
    (trim_var VbidPx VbidPx (trim_var Vnanos Vnanos (trim_var Vepoch Vepoch m))))).
Definition trade_trim (m : mem) : mem :=
  trim_var Vsz Vsz (trim_var Vpx Vpx (trim_var Vnanos Vnanos (trim_var Vepoch Vepoch m))).

(** One bucket of the range: its columns, when it has rows. *)
Definition write_bucket (tbk : string) (b : bucket) (m : mem) : mem * list column_ref :=
  let m := append_all m match b with Quotes l => concat (map quote_ops l) | Trades l => concat (map trade_ops l) end in
  if (0 <? sl_len (vars m Vepoch))%nat then
    match b with
    | Quotes _ => (quote_trim m, quote_columns tbk m)
    | Trades _ => (trade_trim m, trade_columns tbk m)
    end
  else (m, []).

Fixpoint write_buckets (bs : list (string * bucket)) (m : mem) : mem * list column_ref :=
  match bs with
  | [] => (m, [])
  | (tbk, b) :: bs' =>
      let '(m, refs) := write_bucket tbk b m in
      let '(m, refs') := write_buckets bs' m in
      (m, refs ++ refs')%list
  end.

Definition add_ref (m : mem) (csm : ColumnSeriesMap) (r : column_ref) : ColumnSeriesMap :=
  csm_AddColumn (r_key r) (r_name r) (Some (mkCol (r_kind r) (elements_of m (r_slice r)))) csm.
Definition csm_of (m : mem) (refs : list column_ref) : ColumnSeriesMap := foldl (add_ref m) ∅ refs.

(** *** Polygon: variables of the call (handlers/writer.go) *)

Context {S : Type} `{Store S} `{R : MapRange}.

Definition Write (writeMap : gmap string bucket) : prog S unit :=
  let '(m, refs) := write_buckets (map_range writeMap) new_memory in
  logged (st_WriteCSM (csm_of m refs) true).

(** *** Polyiex: variables of the goroutine (handlers.go) *)

Record writer := mkWriter { w_mem : mem; dataBuckets : gmap string bucket; skipWrite : bool }.
Definition new_writer (skip : bool) : writer := mkWriter new_memory ∅ skip.

(** A packet comes in. *)
Definition receive (tbk : TimeBucketKey) (data : item) (w : writer) : outcome writer :=
  let! buckets := appendItem tbk data (dataBuckets w) in Ret (mkWriter (w_mem w) buckets (skipWrite w)).

Definition empty_bucket (b : bucket) : bucket := match b with Quotes _ => Quotes [] | Trades _ => Trades [] end.

(** The interval is over: what was gathered is made a map of series. *)
Definition flush (w : writer) : writer * ColumnSeriesMap :=
  let '(m, refs) := write_buckets (map_range (dataBuckets w)) (w_mem w) in
  (mkWriter m (empty_bucket <$> dataBuckets w) (skipWrite w), csm_of m refs).
Definition writer_tick (w : writer) : prog S writer :=
  let '(w, csm) := flush w in
  (if skipWrite w then mret tt else logged (st_WriteCSM csm true));; mret w.
End writers.

(** ** What is written *)

Definition trade_series (l : list trade) : ColumnSeries :=
  table [("Epoch", int64_column (map t_epoch l)); ("Nanoseconds", int32_column (map t_nanos l));
         ("Price", float32_column (map t_px l)); ("Size", int32_column (map t_sz l))].
Definition quote_series (l : list quote) : ColumnSeries :=
  table [("Epoch", int64_column (map q_epoch l)); ("Nanoseconds", int32_column (map q_nanos l));
         ("BidPrice", float32_column (map q_bidPx l)); ("AskPrice", float32_column (map q_askPx l));
         ("BidSize", int32_column (map q_bidSz l)); ("AskSize", int32_column (map q_askSz l))].

Lemma map_inserts {A B} (f : A -> B) (k l : list A) i : map f (list_inserts i k l) = list_inserts i (map f k) (map f l).
Proof.
  revert i. induction k as [|x k IH]; intros i; [done|]. cbn. rewrite <- (IH (S i)). apply (list_fmap_insert f).
Qed.

Section written.
Context `{!Growth var}.
Abbreviation mem := (memory (V := var) (E := list byte)).
Abbreviation append_all := (append_all (V := var) (@nil byte)).

Definition add_column (m : mem) (cs : ColumnSeries) (r : column_ref) : ColumnSeries :=
  snd (AddColumn (r_name r) (Some (mkCol (r_kind r) (elements_of m (r_slice r)))) cs).

Lemma add_refs_same m tbk refs : Forall (fun r => r_key r = tbk) refs -> forall cs csm,
  foldl (add_ref m) (<[tbk := cs]> csm) refs = <[tbk := foldl (add_column m) cs refs]> csm.
Proof.
  induction 1 as [|r refs Hr _ IH]; intros cs csm; [done|]. cbn. unfold add_ref at 2, csm_AddColumn.
  rewrite Hr, lookup_insert_eq. cbn. rewrite insert_insert_eq. apply IH.
Qed.
Lemma add_refs_new m tbk refs csm : Forall (fun r => r_key r = tbk) refs -> refs <> [] -> csm !! tbk = None ->
  foldl (add_ref m) csm refs = <[tbk := foldl (add_column m) NewColumnSeries refs]> csm.
Proof.
  intros Hr Hne Hn. destruct refs as [|r refs]; [done|]. apply Forall_cons in Hr as [Hr1 Hr]. cbn.
  unfold add_ref at 2, csm_AddColumn. rewrite Hr1, Hn. by apply (add_refs_same m tbk refs Hr).
Qed.

(** The slices of a memory, read in another, hold the fields of some rows. *)
Definition holds {A} (fields : list (var * (A -> list byte))) (m' m : mem) (l : list A) : Prop :=
  Forall (fun vf => elements_of m' (vars m vf.1) = map vf.2 l) fields.
Definition trade_fields : list (var * (trade -> list byte)) :=
  [(Vepoch, fun t => le_bytes 8 (t_epoch t)); (Vnanos, fun t => le_bytes 4 (t_nanos t));
   (Vpx, fun t => float32_image (t_px t)); (Vsz, fun t => le_bytes 4 (t_sz t))].
Definition quote_fields : list (var * (quote -> list byte)) :=
  [(Vepoch, fun q => le_bytes 8 (q_epoch q)); (Vnanos, fun q => le_bytes 4 (q_nanos q));
   (VbidPx, fun q => float32_image (q_bidPx q)); (VaskPx, fun q => float32_image (q_askPx q));
   (VbidSz, fun q => le_bytes 4 (q_bidSz q)); (VaskSz, fun q => le_bytes 4 (q_askSz q))].

Lemma csm_trades m' m tbk l csm : holds trade_fields m' m l -> csm !! tbk = None ->
  foldl (add_ref m') csm (trade_columns tbk m) = <[tbk := trade_series l]> csm.
Proof.
  intros Hh Hn. rewrite (add_refs_new m' tbk) by (done || by repeat constructor). do 2 f_equal.
  unfold holds, trade_fields in Hh. rewrite !Forall_cons in Hh. cbn [fst snd] in Hh. destruct Hh as (He & Hns & Hp & Hs & _).
  unfold trade_columns, trade_series, table, add_column. cbn [foldl r_name r_kind r_slice fst snd].
  rewrite He, Hns, Hp, Hs. unfold int64_column, int32_column, float32_column. by rewrite !map_map.
Qed.
Lemma csm_quotes m' m tbk l csm : holds quote_fields m' m l -> csm !! tbk = None ->
  foldl (add_ref m') csm (quote_columns tbk m) = <[tbk := quote_series l]> csm.
Proof.
  intros Hh Hn. rewrite (add_refs_new m' tbk) by (done || by repeat constructor). do 2 f_equal.
  unfold holds, quote_fields in Hh. rewrite !Forall_cons in Hh. cbn [fst snd] in Hh. destruct Hh as (H1 & H2 & H3 & H4 & H5 & H6 & _).
  unfold quote_columns, quote_series, table, add_column. cbn [foldl r_name r_kind r_slice fst snd].
  rewrite H1, H2, H3, H4, H5, H6. unfold int64_column, int32_column, float32_column. by rewrite !map_map.
Qed.

(** Each row appends each of its fields once. *)
Definition appends {A} (row_ops : A -> list (var * list byte)) (fields : list (var * (A -> list byte))) : Prop :=
  Forall (fun vf => forall a, values_of vf.1 (row_ops a) = [vf.2 a]) fields.
Lemma trade_appends : appends trade_ops trade_fields.
Proof. by repeat constructor. Qed.
Lemma quote_appends : appends quote_ops quote_fields.
Proof. by repeat constructor. Qed.

(** Empty variables that share nothing are filled with the fields. *)
Lemma filled {A} (row_ops : A -> list (var * list byte)) fields (m : mem) l : appends row_ops fields ->
  well_formed m -> separate m -> (forall v, sl_len (vars m v) = 0%nat) ->
  holds fields (append_all m (concat (map row_ops l))) (append_all m (concat (map row_ops l))) l.
Proof.
  intros Ha Hm Hs Hz. apply Forall_forall. intros [v f] Hin. unfold appends in Ha. rewrite Forall_forall in Ha.
  change (value (append_all m (concat (map row_ops l))) v = map f l). rewrite append_all_value; [|done|].
  - rewrite (values_of_rows row_ops f) by apply (Ha _ Hin). unfold value. by rewrite elements_nil by apply Hz.
  - intros w Hw. apply Hs. congruence.
Qed.

(** What was read through slices whose variables were trimmed is overwritten
    when the variables are filled again. *)
Lemma refilled {A} (row_ops : A -> list (var * list byte)) fields (m m' : mem) l1 l2 : appends row_ops fields ->
  well_formed m -> separate m -> well_formed m' -> arrays m' = arrays m ->
  (forall v, vars m' v = mkSlice (sl_array (vars m v)) 0 (sl_cap (vars m v))) ->
  holds fields m m l1 -> holds fields (append_all m' (concat (map row_ops l2))) m (list_inserts 0 l2 l1).
Proof.
  intros Ha Hm Hs Hm' Harr Hv Hh. unfold holds, appends in *. apply Forall_forall. intros [v f] Hin. rewrite Forall_forall in Ha, Hh.
  cbn [fst snd]. assert (Hval : forall v, valid m' (vars m v)) by (intros u; unfold valid; rewrite Harr; apply Hm).
  rewrite (append_all_elements _ _ _ v); [|done|apply Hval|by rewrite Hv|rewrite Hv; apply Hm|].
  - rewrite Hv, (values_of_rows row_ops f) by apply (Ha _ Hin). cbn [sl_len fst snd]. specialize (Hh _ Hin). cbn [fst snd] in Hh. rewrite map_inserts, <- Hh.
    unfold elements_of. by rewrite Harr.
  - intros w Hw. rewrite Hv. destruct (Hs v w) as [?|[?|?]]; [congruence|by left|right; left; done|right; right; done].
Qed.
End written.

(** ** Two buckets of trades *)

Section rounds.
Context `{!Growth var}.
Abbreviation mem := (memory (V := var) (E := list byte)).
Abbreviation append_all := (append_all (V := var) (@nil byte)).

(** Variables that are empty and share nothing. *)
Record empty_mem (m : mem) : Prop := {
  em_wf : well_formed m; em_sep : separate m; em_len : forall v, sl_len (vars m v) = 0%nat }.
Lemma new_empty : empty_mem new_memory.
Proof. split; auto with slices. Qed.

Lemma zero_slice (s : slice) : sl_len s = 0%nat -> s = mkSlice (sl_array s) 0 (sl_cap s).
Proof. by destruct s as [a l c]; cbn; intros ->. Qed.

(** After trades the other variables are as empty as before. *)
Lemma trade_trim_vars m l v : empty_mem m ->
  let m1 := append_all m (concat (map trade_ops l)) in
  vars (trade_trim m1) v = mkSlice (sl_array (vars m1 v)) 0 (sl_cap (vars m1 v)).
Proof.
  intros [_ _ Hz] m1.
  assert (Ho : values_of v (concat (map trade_ops l)) = [] -> vars m1 v = mkSlice (sl_array (vars m1 v)) 0 (sl_cap (vars m1 v))).
  { intros Hv. apply zero_slice. unfold m1. by rewrite append_all_len, Hz, Hv. }
  destruct v; unfold trade_trim, trim_var; cbn; rewrite ?fn_lookup_insert, ?fn_lookup_insert_ne by done; cbn; try done;
    apply Ho; by apply values_of_rows_nil.
Qed.
Lemma trade_trim_empty m l : empty_mem m -> empty_mem (trade_trim (append_all m (concat (map trade_ops l)))).
Proof.
  intros Hm. pose proof Hm as [Hw Hs Hz]. split.
  - unfold trade_trim. auto 10 with slices.
  - unfold trade_trim. auto 10 with slices.
  - intros v. by rewrite trade_trim_vars.
Qed.

Lemma write_trades tbk l m : empty_mem m -> l <> [] ->
  let m1 := append_all m (concat (map trade_ops l)) in
  write_bucket tbk (Trades l) m = (trade_trim m1, trade_columns tbk m1) /\ holds trade_fields m1 m1 l.
Proof.
  intros [Hw Hs Hz] Hl m1. unfold write_bucket. fold m1.
  assert (Hlen : sl_len (vars m1 Vepoch) = length l).
  { unfold m1. rewrite append_all_len, Hz, (values_of_rows trade_ops (fun t => le_bytes 8 (t_epoch t))) by done. apply length_map. }
  rewrite Hlen. destruct l as [|t l]; [done|]. split; [done|]. apply filled; auto. apply trade_appends.
Qed.

Lemma write_two_trades k1 k2 l1 l2 m : empty_mem m -> k1 <> k2 -> l1 <> [] -> l2 <> [] ->
  let '(m', refs) := write_buckets [(k1, Trades l1); (k2, Trades l2)] m in
  csm_of m' refs = <[k2 := trade_series l2]> (<[k1 := trade_series (list_inserts 0 l2 l1)]> ∅).
Proof.
  intros Hm Hk Hl1 Hl2. cbn [write_buckets]. destruct (write_trades k1 l1 m Hm Hl1) as [-> H1].
  set (m1 := append_all m _) in *. pose proof (trade_trim_empty m l1 Hm) as Hm1. fold m1 in Hm1.
  destruct (write_trades k2 l2 _ Hm1 Hl2) as [-> H2]. set (m2 := append_all (trade_trim m1) _) in *.
  rewrite app_nil_r. unfold csm_of. rewrite foldl_app.
  assert (Hr : holds trade_fields m2 m1 (list_inserts 0 l2 l1)).
  { apply (refilled trade_ops trade_fields m1 (trade_trim m1) l1 l2); [apply trade_appends| | |apply Hm1|done| |done].
    - unfold m1. apply append_all_well_formed, Hm.
    - unfold m1. by apply append_all_separate; apply Hm.
    - intros v. by apply trade_trim_vars. }
  change (trade_trim m2) with (mkMemory (arrays m2) (vars (trade_trim m2))).
  rewrite (csm_trades m2 m1 k1 _ ∅ Hr) by done. rewrite (csm_trades m2 m2 k2 l2) by (done || by rewrite lookup_insert_ne). done.
Qed.
End rounds.

(** ** The second interval of quotes *)

Section shared.
Context `{!Growth var}.
Abbreviation mem := (memory (V := var) (E := list byte)).
Abbreviation append_all := (append_all (V := var) (@nil byte)).
Abbreviation append_var := (append_var (V := var) (@nil byte)).

(** The bids and the asks are slices of one array; [es] are the elements as far
    as the asks go.  No other variable has the array. *)
Record sharing (A c : nat) (m : mem) (i j : nat) (es : list (list byte)) : Prop := {
  sg_wf : well_formed m;
  sg_bid : vars m VbidPx = mkSlice A i c;
  sg_ask : vars m VaskPx = mkSlice A j c;
  sg_es : elements_of m (mkSlice A j c) = es;
  sg_apart : forall w, w <> VbidPx -> w <> VaskPx -> apart (mkSlice A 0 c) (vars m w);
}.

Lemma apart_len A c i j s : apart (mkSlice A i c) s -> apart (mkSlice A j c) s.
Proof. done. Qed.

Lemma sharing_other A c m i j es v x : v <> VbidPx -> v <> VaskPx ->
  sharing A c m i j es -> sharing A c (append_var m (v, x)) i j es.
Proof.
  intros Hb Ha [Hw Hbid Hask Hes Hap]. split.
  - by apply append_well_formed.
  - by rewrite vars_append_ne.
  - by rewrite vars_append_ne.
  - rewrite <- Hes, <- Hask. apply append_elements_apart; [done|apply Hw|]. rewrite Hask. by apply (apart_len A c 0), Hap.
  - intros w Hw1 Hw2. apply append_apart; [|by apply Hap].
    pose proof (Hw VaskPx) as [_ Hv]. rewrite Hask in Hv. split; cbn; [lia|]. exact Hv.
Qed.

Lemma sharing_bid A c m i es x : (i < c)%nat -> sharing A c m i i es -> sharing A c (append_var m (VbidPx, x)) (S i) i es.
Proof.
  intros Hi [Hw Hbid Hask Hes Hap]. split.
  - by apply append_well_formed.
  - unfold Slices.append_var. rewrite Hbid. cbn [sl_len sl_cap]. rewrite (proj2 (Nat.ltb_lt _ _) Hi). cbn. by rewrite fn_lookup_insert.
  - by rewrite vars_append_ne.
  - rewrite <- Hes, append_elements; [|rewrite <- Hask; apply Hw|apply Hw]. rewrite Hbid. cbn [sl_len sl_cap sl_array].
    rewrite decide_True by done. apply list_insert_ge. unfold elements_of. cbn [sl_len]. rewrite length_take. lia.
  - intros w Hw1 Hw2. rewrite vars_append_ne by done. by apply Hap.
Qed.

Lemma sharing_ask A c m i es x : (i < c)%nat -> sharing A c m (S i) i es ->
  sharing A c (append_var m (VaskPx, x)) (S i) (S i) (es ++ [x]).
Proof.
  intros Hi [Hw Hbid Hask Hes Hap].
  assert (Hn : vars (append_var m (VaskPx, x)) VaskPx = mkSlice A (S i) c).
  { unfold Slices.append_var. rewrite Hask. cbn [sl_len sl_cap]. rewrite (proj2 (Nat.ltb_lt _ _) Hi). cbn. by rewrite fn_lookup_insert. }
  split.
  - by apply append_well_formed.
  - by rewrite vars_append_ne.
  - done.
  - rewrite <- Hn, <- Hes, <- Hask. apply append_value, Hw.
  - intros w Hw1 Hw2. rewrite vars_append_ne by done. by apply Hap.
Qed.

Lemma sharing_quote A c m i es q : (i < c)%nat -> sharing A c m i i es ->
  sharing A c (append_all m (quote_ops q)) (S i) (S i) (es ++ [float32_image (q_askPx q)]).
Proof.
  intros Hi Hm. unfold quote_ops. rewrite !append_all_cons.
  repeat (apply sharing_other; [done|done|]). apply sharing_ask; [done|]. apply sharing_bid; [done|].
  by repeat (apply sharing_other; [done|done|]).
Qed.
Lemma sharing_quotes A c l : forall m i es, (i + length l <= c)%nat -> sharing A c m i i es ->
  sharing A c (append_all m (concat (map quote_ops l))) (i + length l) (i + length l)
    (es ++ map (fun q => float32_image (q_askPx q)) l).
Proof.
  induction l as [|q l IH]; intros m i es Hi Hm; cbn [length map concat] in *.
  - by rewrite Nat.add_0_r, app_nil_r.
  - rewrite append_all_app. replace (i + S (length l))%nat with (S i + length l)%nat by lia.
    replace (es ++ float32_image (q_askPx q) :: map (fun q => float32_image (q_askPx q)) l)%list
      with ((es ++ [float32_image (q_askPx q)]) ++ map (fun q => float32_image (q_askPx q)) l)%list by by rewrite <- app_assoc.
    apply IH; [lia|]. apply sharing_quote; [lia|done].
Qed.

(** The rows with the ask for the bid. *)
Definition bid_is_ask (q : quote) : quote :=
  mkQuote (q_epoch q) (q_nanos q) (q_askPx q) (q_askPx q) (q_bidSz q) (q_askSz q).

Lemma write_quotes tbk l m : empty_mem m -> l <> [] ->
  let m1 := append_all m (concat (map quote_ops l)) in
  write_bucket tbk (Quotes l) m = (quote_trim m1, quote_columns tbk m1) /\ holds quote_fields m1 m1 l.
Proof.
  intros [Hw Hs Hz] Hl m1. unfold write_bucket. fold m1.
  assert (Hlen : sl_len (vars m1 Vepoch) = length l).
  { unfold m1. rewrite append_all_len, Hz, (values_of_rows quote_ops (fun q => le_bytes 8 (q_epoch q))) by done. apply length_map. }
  rewrite Hlen. destruct l as [|q l]; [done|]. split; [done|]. apply filled; auto. apply quote_appends.
Qed.

(** After quotes the slices of bids and asks are one, with room for as many. *)
Lemma quote_trim_sharing m l : empty_mem m ->
  let m1 := append_all m (concat (map quote_ops l)) in
  exists A c, (length l <= c)%nat /\ sharing A c (quote_trim m1) 0 0 [].
Proof.
  intros [Hw Hs Hz] m1. assert (Hw1 : well_formed m1) by (apply append_all_well_formed; done).
  assert (Hs1 : separate m1) by (apply append_all_separate; done).
  exists (sl_array (vars m1 VbidPx)), (sl_cap (vars m1 VbidPx)). split.
  - etransitivity; [|apply (Hw1 VbidPx)]. unfold m1.
    by rewrite append_all_len, Hz, (values_of_rows quote_ops (fun q => float32_image (q_bidPx q))), length_map by done.
  - split.
    + unfold quote_trim. auto 10 with slices.
    + unfold quote_trim, trim_var. cbn. by rewrite ?fn_lookup_insert_ne, ?fn_lookup_insert by done.
    + unfold quote_trim, trim_var. cbn. by rewrite ?fn_lookup_insert_ne, ?fn_lookup_insert by done.
    + done.
    + intros w Hb Ha. destruct (Hs1 VbidPx w) as [?|[?|?]]; [congruence|by left|right; left|right; right];
        destruct w; try done; unfold quote_trim, trim_var; cbn; by rewrite ?fn_lookup_insert_ne, ?fn_lookup_insert by done.
Qed.
Lemma quote_trim_fields m l v : empty_mem m -> v <> VaskPx ->
  let m1 := append_all m (concat (map quote_ops l)) in
  vars (quote_trim m1) v = mkSlice (sl_array (vars m1 v)) 0 (sl_cap (vars m1 v)).
Proof.
  intros [_ _ Hz] Hv m1.
  assert (Ho : values_of v (concat (map quote_ops l)) = [] -> vars m1 v = mkSlice (sl_array (vars m1 v)) 0 (sl_cap (vars m1 v))).
  { intros Hnil. apply zero_slice. unfold m1. by rewrite append_all_len, Hz, Hnil. }
  destruct v; try done; unfold quote_trim, trim_var; cbn; rewrite ?fn_lookup_insert, ?fn_lookup_insert_ne by done; cbn; try done;
    apply Ho; by apply values_of_rows_nil.
Qed.

Lemma write_quotes_again tbk l1 l2 m : empty_mem m -> l2 <> [] -> (length l2 <= length l1)%nat ->
  let m1 := quote_trim (append_all m (concat (map quote_ops l1))) in
  let m2 := append_all m1 (concat (map quote_ops l2)) in
  write_bucket tbk (Quotes l2) m1 = (quote_trim m2, quote_columns tbk m2) /\ holds quote_fields m2 m2 (map bid_is_ask l2).
Proof.
  intros Hm Hl2 Hle m1 m2. destruct (quote_trim_sharing m l1 Hm) as (A & c & Hc & Hsh). fold m1 in Hsh.
  pose proof (sharing_quotes A c l2 m1 0 [] ltac:(lia) Hsh) as Hsh2. fold m2 in Hsh2. cbn [app Nat.add] in Hsh2.
  pose proof Hm as [Hw Hs Hz]. assert (Hs1 : separate (append_all m (concat (map quote_ops l1)))) by (apply append_all_separate; done).
  assert (Hf : forall v f, v <> VbidPx -> v <> VaskPx -> (forall q, values_of v (quote_ops q) = [f q]) ->
    elements_of m2 (vars m2 v) = map f l2).
  { intros v f Hb Ha Hops. change (value m2 v = map f l2). unfold m2.
    rewrite append_all_value; [|apply Hsh|].
    - rewrite (values_of_rows quote_ops f) by done. unfold value. rewrite elements_nil; [done|]. unfold m1.
      by rewrite quote_trim_fields.
    - intros w Hw'. destruct (decide (w = VbidPx)) as [->|Hwb]; [|destruct (decide (w = VaskPx)) as [->|Hwa]].
      + apply apart_sym. rewrite (sg_bid _ _ _ _ _ _ Hsh). by apply (sg_apart _ _ _ _ _ _ Hsh).
      + apply apart_sym. rewrite (sg_ask _ _ _ _ _ _ Hsh). by apply (sg_apart _ _ _ _ _ _ Hsh).
      + unfold m1. rewrite !quote_trim_fields by done. destruct (Hs1 v w) as [?|[?|?]]; [congruence|by left|by right; left|by right; right]. }
  assert (Hlen : sl_len (vars m2 Vepoch) = length l2).
  { unfold m2. rewrite append_all_len, (values_of_rows quote_ops (fun q => le_bytes 8 (q_epoch q))) by done.
    unfold m1. rewrite quote_trim_fields by done. cbn [sl_len]. by rewrite length_map. }
  split.
  - unfold write_bucket. fold m2. rewrite Hlen. by destruct l2.
  - unfold holds, quote_fields. rewrite !Forall_cons. cbn [fst snd]. rewrite !map_map. cbn [q_epoch q_nanos q_bidPx q_askPx q_bidSz q_askSz bid_is_ask].
    rewrite (sg_bid _ _ _ _ _ _ Hsh2), (sg_ask _ _ _ _ _ _ Hsh2). rewrite (sg_es _ _ _ _ _ _ Hsh2).
    split_and!; try done; by apply Hf.
Qed.
End shared.

(** ** The maps that are written *)

Lemma map_range_singleton `{R : MapRange} {A} k (x : A) : map_range {[k := x]} = [(k, x)].
Proof. apply Permutation_singleton_r. rewrite map_range_perm, map_to_list_singleton. done. Qed.
Lemma map_range_pair `{R : MapRange} {A} k1 k2 (x y : A) : k1 <> k2 ->
  map_range (<[k1 := x]> {[k2 := y]}) = [(k1, x); (k2, y)] \/ map_range (<[k1 := x]> {[k2 := y]}) = [(k2, y); (k1, x)].
Proof.
  intros Hk. assert (Hp : Permutation [(k1, x); (k2, y)] (map_range (<[k1 := x]> {[k2 := y]}))).
  { rewrite map_range_perm, map_to_list_insert by (by rewrite lookup_singleton_ne). by rewrite map_to_list_singleton. }
  destruct (Permutation_length_2_inv Hp) as [->| ->]; auto.
Qed.

Definition bucket_series (b : bucket) : ColumnSeries :=
  match b with Quotes l => quote_series l | Trades l => trade_series l end.
Definition bucket_empty (b : bucket) : bool := match b with Quotes [] | Trades [] => true | _ => false end.

Section maps.
Context `{!Growth var} `{R : MapRange} {S : Type} `{Store S}.

(** A map of one bucket is written as it is. *)
Lemma Write_one_bucket tbk b : bucket_empty b = false ->
  Write {[tbk := b]} = logged (st_WriteCSM {[tbk := bucket_series b]} true).
Proof.
  intros Hb. unfold Write. rewrite map_range_singleton. cbn [write_buckets].
  destruct b as [l|l].
  - destruct (write_quotes tbk l new_memory new_empty) as [Hw Hh]; [by destruct l|].
    set (m1 := append_all [] new_memory _) in *. clearbody m1. rewrite Hw. cbn [write_buckets]. rewrite app_nil_r.
    unfold csm_of. change (quote_trim m1) with (mkMemory (arrays m1) (vars (quote_trim m1))).
    cbn [bucket_series]. rewrite (csm_quotes _ _ tbk l ∅ Hh) by done. by rewrite insert_empty.
  - destruct (write_trades tbk l new_memory new_empty) as [Hw Hh]; [by destruct l|].
    set (m1 := append_all [] new_memory _) in *. clearbody m1. rewrite Hw. cbn [write_buckets]. rewrite app_nil_r.
    unfold csm_of. change (trade_trim m1) with (mkMemory (arrays m1) (vars (trade_trim m1))).
    cbn [bucket_series]. rewrite (csm_trades _ _ tbk l ∅ Hh) by done. by rewrite insert_empty.
Qed.

(** What is received for a bucket between two writes. *)
Fixpoint receive_all (tbk : TimeBucketKey) (items : list item) (w : writer) : outcome writer :=
  match items with
  | [] => Ret w
  | i :: items' => let! w := receive tbk i w in receive_all tbk items' w
  end.

Lemma receive_quotes tbk l : forall w old, dataBuckets w !! tbk = Some (Quotes old) ->
  receive_all tbk (map Quote l) w = Ret (mkWriter (w_mem w) (<[tbk := Quotes (old ++ l)]> (dataBuckets w)) (skipWrite w)).
Proof.
  induction l as [|q l IH]; intros w old Hw; cbn [map receive_all].
  - rewrite app_nil_r, insert_id by done. by destruct w.
  - unfold receive, appendItem. rewrite Hw. cbn. erewrite IH by (cbn; by rewrite lookup_insert_eq). cbn.
    by rewrite insert_insert_eq, <- app_assoc.
Qed.
End maps.

(** C28: Trades of two buckets that come in one message are mixed up. The map
    of series that is written has, for the bucket that the range visits last,
    its trades; but those of the other are overwritten from the first on by as
    many trades of the last: only what it has beyond their number is its own.
    This holds for either order of the range and whatever capacity the language
    gives to a slice that grows. *)
Theorem Write_two_buckets `{!Growth var} `{R : MapRange} {S : Type} `{Store S} (k1 k2 : string) (l1 l2 : list trade) :
  k1 <> k2 -> l1 <> [] -> l2 <> [] ->
  exists csm, Write (<[k1 := Trades l1]> {[k2 := Trades l2]}) = logged (st_WriteCSM csm true) /\
    (csm = <[k1 := trade_series (list_inserts 0 l2 l1)]> {[k2 := trade_series l2]} \/
     csm = <[k1 := trade_series l1]> {[k2 := trade_series (list_inserts 0 l1 l2)]}).
Proof.
  intros Hk Hl1 Hl2. unfold Write. destruct (map_range_pair k1 k2 (Trades l1) (Trades l2) Hk) as [-> | ->].
  - pose proof (write_two_trades k1 k2 l1 l2 new_memory new_empty Hk Hl1 Hl2) as Hc.
    destruct (write_buckets _ _) as [m refs]. rewrite Hc. eexists. split; [done|]. left. by rewrite insert_insert_ne.
  - pose proof (write_two_trades k2 k1 l2 l1 new_memory new_empty (not_eq_sym Hk) Hl2 Hl1) as Hc.
    destruct (write_buckets _ _) as [m refs]. rewrite Hc. eexists. split; [done|]. by right.
Qed.

(** C27: In the second interval of a writer the bids of quotes are written as
    their asks. For a writer that gets quotes for one bucket only: the quotes
    received in its first interval are written as they are; of those of the
    second one, when there are some and at most as many, every row has the price
    of the ask in both columns, since the slice of the asks was trimmed to that
    of the bids. Nothing else of the rows is changed. *)
Theorem second_interval_quotes `{!Growth var} `{R : MapRange} (tbk : string) (l1 l2 : list quote) (skip : bool) :
  l2 <> [] -> (length l2 <= length l1)%nat ->
  exists w1 w2,
    receive_all tbk (map Quote l1) (new_writer skip) = Ret w1 /\
    (flush w1).2 = {[tbk := quote_series l1]} /\
    receive_all tbk (map Quote l2) (flush w1).1 = Ret w2 /\
    (flush w2).2 = {[tbk := quote_series (map bid_is_ask l2)]}.
Proof.
  intros Hl2 Hle. destruct l1 as [|q1 l1]; [destruct l2; [done|cbn in Hle; lia]|].
  exists (mkWriter new_memory {[tbk := Quotes (q1 :: l1)]} skip).
  set (m1 := append_all [] new_memory (concat (map quote_ops (q1 :: l1)))).
  exists (mkWriter (quote_trim m1) {[tbk := Quotes l2]} skip).
  destruct (write_quotes tbk (q1 :: l1) new_memory new_empty ltac:(done)) as [Hw1 Hh1]. fold m1 in Hw1, Hh1.
  destruct (write_quotes_again tbk (q1 :: l1) l2 new_memory new_empty Hl2 Hle) as [Hw2 Hh2]. fold m1 in Hw2, Hh2.
  set (m2 := append_all [] (quote_trim m1) _) in *. clearbody m2. clearbody m1.
  assert (Hf1 : flush (mkWriter new_memory {[tbk := Quotes (q1 :: l1)]} skip) =
    (mkWriter (quote_trim m1) {[tbk := Quotes []]} skip, {[tbk := quote_series (q1 :: l1)]})).
  { unfold flush. cbn [dataBuckets w_mem]. rewrite map_range_singleton. cbn [write_buckets]. rewrite Hw1. cbn [write_buckets].
    rewrite app_nil_r. unfold csm_of. change (quote_trim m1) with (mkMemory (arrays m1) (vars (quote_trim m1))).
    rewrite (csm_quotes _ _ tbk _ ∅ Hh1) by done. by rewrite map_fmap_singleton. }
  split_and!.
  - cbn [map receive_all]. unfold receive, appendItem. cbn [new_writer dataBuckets]. rewrite lookup_empty. cbn.
    rewrite (receive_quotes tbk l1 _ [q1]) by (cbn; by rewrite lookup_insert_eq). cbn. by rewrite insert_insert_eq.
  - by rewrite Hf1.
  - rewrite Hf1. cbn [fst]. rewrite (receive_quotes tbk l2 _ []) by apply lookup_singleton_eq.
    cbn [dataBuckets w_mem skipWrite app]. by rewrite insert_singleton_eq.
  - unfold flush. cbn [dataBuckets w_mem]. rewrite map_range_singleton. cbn [write_buckets]. rewrite Hw2. cbn [write_buckets snd].
    rewrite app_nil_r. unfold csm_of. change (quote_trim m2) with (mkMemory (arrays m2) (vars (quote_trim m2))).
    by rewrite (csm_quotes _ _ tbk _ ∅ Hh2).
Qed.

(** A capacity that doubles. *)
Definition doubling : Growth var.
Proof. refine {| grow := fun _ n => S (n + n) |}. intros _ n. lia. Defined.
(** A store that keeps what it is given. *)
Definition recording : Store (list ColumnSeriesMap) := {|
  st_WriteCSM csm _ := fun s => (Ret tt, s ++ [csm])%list;
  st_findLastTimestamp _ := mret zeroTime;
|}.
Definition trade_at (t sz : Z) : trade := mkTrade t 0 (S754_zero false) sz.
Definition quote_of (bid ask : Z) : quote :=
  mkQuote 60 0 (binary_normalize 24 128 bid 0 false) (binary_normalize 24 128 ask 0 false) 1 1.

Lemma Write_two_buckets_witness :
  "A" <> "B" /\ [trade_at 60 1; trade_at 61 2] <> [] /\ [trade_at 62 3] <> [] /\
  exists csm, @Write doubling _ recording list_range (<["A" := Trades [trade_at 60 1; trade_at 61 2]]> {["B" := Trades [trade_at 62 3]]}) =
      logged (@st_WriteCSM _ recording csm true) /\
    (csm = <["A" := trade_series [trade_at 62 3; trade_at 61 2]]> {["B" := trade_series [trade_at 62 3]]} \/
     csm = <["A" := trade_series [trade_at 60 1; trade_at 61 2]]> {["B" := trade_series [trade_at 60 1]]}).
Proof.
  split_and!; [done..|].
  apply (@Write_two_buckets doubling list_range _ recording "A" "B" [trade_at 60 1; trade_at 61 2] [trade_at 62 3]); done.
Defined.

Lemma second_interval_quotes_witness :
  exists w1 w2 : @writer,
    receive_all "A" (map Quote [quote_of 9 10; quote_of 8 11]) (new_writer false) = Ret w1 /\
    (@flush doubling list_range w1).2 = {["A" := quote_series [quote_of 9 10; quote_of 8 11]]} /\
    receive_all "A" (map Quote [quote_of 7 12]) (@flush doubling list_range w1).1 = Ret w2 /\
    (@flush doubling list_range w2).2 = {["A" := quote_series [quote_of 12 12]]}.
Proof.
  apply (@second_interval_quotes doubling list_range "A" [quote_of 9 10; quote_of 8 11] [quote_of 7 12] false).
  - done.
  - cbn. lia.
Defined.
