(* ===== verification/OrderBook.v ===== *)
(** * The order books of a stream (contrib/polyiex)

    A book keeps the last size of every price of the bids and of the asks in two
    ordered maps; the best of both is written as a quote.  The maps are the skip
    lists of another package: the interface [SkipList], with what its
    documentation says of them as [SkipListLaws]. *)

From S2P Require Export Ticks.
From S2P Require Import GoStrings.

#[local] Open Scope string_scope.
#[local] Open Scope Z_scope.

(** ** The ordered maps *)

Class SkipList (V : Type) := {
  skiplist : Type;
  NewCustomMap : (float32 -> float32 -> bool) -> skiplist;
  sl_Get : float32 -> skiplist -> option V;
  sl_Set : float32 -> V -> skiplist -> skiplist;
  sl_Delete : float32 -> skiplist -> skiplist;
  sl_Len : skiplist -> Z;
  (** The value at the first key; [None] for the nil iterator. *)
  sl_First : skiplist -> option V;
}.

Definition ascending (l r : float32) : bool := SFltb l r.
Definition descending (l r : float32) : bool := SFltb r l.

(** What a map made with an order becomes with keys that are numbers. *)
Inductive made `{SkipList V} (lessThan : float32 -> float32 -> bool) : skiplist -> Prop :=
  | made_new : made lessThan (NewCustomMap lessThan)
  | made_set k v s : real k -> made lessThan s -> made lessThan (sl_Set k v s)
  | made_delete k s : real k -> made lessThan s -> made lessThan (sl_Delete k s).

(** A map with the keys in the order of its function; equal keys are one. *)
Class SkipListLaws (V : Type) `{SkipList V} := {
  get_new lt k : lt = ascending \/ lt = descending -> real k -> sl_Get k (NewCustomMap lt) = None;
  get_set lt s k v k' : lt = ascending \/ lt = descending -> made lt s -> real k -> real k' ->
    sl_Get k' (sl_Set k v s) = if SFeqb k k' then Some v else sl_Get k' s;
  get_delete lt s k k' : lt = ascending \/ lt = descending -> made lt s -> real k -> real k' ->
    sl_Get k' (sl_Delete k s) = if SFeqb k k' then None else sl_Get k' s;
  len_zero lt s : lt = ascending \/ lt = descending -> made lt s ->
    sl_Len s = 0 <-> forall k, real k -> sl_Get k s = None;
  first_least lt s : lt = ascending \/ lt = descending -> made lt s -> sl_Len s <> 0 ->
    exists k v, real k /\ sl_First s = Some v /\ sl_Get k s = Some v /\
      forall k', real k' -> is_Some (sl_Get k' s) -> lt k' k = false;
}.

(** ** The book (orderbook/orderbook.go) *)

Record Entry := mkEntry { Price : float32; Size : Z }.

Section book.
Context `{SkipList Entry}.

Record OrderBook := mkOrderBook { bids : skiplist; asks : skiplist }.
Definition NewOrderBook : OrderBook := mkOrderBook (NewCustomMap descending) (NewCustomMap ascending).

Definition add (entry : Entry) (sklist : skiplist) : skiplist :=
  match sl_Get (Price entry) sklist with
  | Some _ => if Size entry =? 0 then sl_Delete (Price entry) sklist else sl_Set (Price entry) entry sklist
  | None => if negb (Size entry =? 0) then sl_Set (Price entry) entry sklist else sklist
  end.
Definition Bid (entry : Entry) (ob : OrderBook) : OrderBook := mkOrderBook (add entry (bids ob)) (asks ob).
Definition Ask (entry : Entry) (ob : OrderBook) : OrderBook := mkOrderBook (bids ob) (add entry (asks ob)).

Definition best (sklist : skiplist) : outcome Entry :=
  if sl_Len sklist =? 0 then Ret (mkEntry (S754_zero false) 0)
  else match sl_First sklist with
       | Some e => Ret e
       | None => Panic "invalid memory address or nil pointer dereference"
       end.
Definition BBO (ob : OrderBook) : outcome (Entry * Entry) :=
  let! be := best (bids ob) in let! ae := best (asks ob) in Ret (be, ae).

(** ** Messages (handlers/handlers.go)

    A field that a message lacks is zero, or no elements. *)

Record message := mkMessage {
  ev : string; m_S : string; m_p : float64; m_s : Z; m_t : Z; m_T : Z;
  m_b : list (float64 * Z); m_a : list (float64 * Z);
}.

(** The books by symbol, and the packets in the channel of the writer. *)
Record feed := mkFeed { orderBooks : gmap string OrderBook; channel : list (TimeBucketKey * item) }.

Definition send (tbk : TimeBucketKey) (data : item) (f : feed) : feed :=
  mkFeed (orderBooks f) (channel f ++ [(tbk, data)])%list.
Definition getOrderBook (symbol : string) (f : feed) : OrderBook :=
  match orderBooks f !! symbol with Some book => book | None => NewOrderBook end.

(** [time.Unix(0, 1000*1000*millisec+nanosec)] *)
Definition timestamp (millisec nanosec : Z) : Time :=
  time_Unix 0 (int64 (int64 (1000000 * millisec) + nanosec)) UTC.

Definition handleTrade (m : message) (f : feed) : feed :=
  if SFleb (m_p m) (S754_zero false) || (m_s m <=? 0) then f
  else
    let ts := timestamp (m_t m) (m_T m) in
    send (NewTimeBucketKey (m_S m +:+ "/1Min/TRADE") [])
      (Trade (mkTrade (Unix ts) (int32 (Nanosecond ts)) (to_float32 (m_p m)) (int32 (m_s m)))) f.

Definition entry_of (level : float64 * Z) : Entry := mkEntry (to_float32 level.1) (int32 level.2).
Definition handleBook (m : message) (f : feed) : outcome feed :=
  let book := getOrderBook (m_S m) f in
  let book := foldl (fun book level => Bid (entry_of level) book) book (m_b m) in
  let book := foldl (fun book level => Ask (entry_of level) book) book (m_a m) in
  let! '(b, a) := BBO book in
  let ts := timestamp (m_t m) (m_T m) in
  Ret (send (NewTimeBucketKey (m_S m +:+ "/1Min/QUOTE") [])
         (Quote (mkQuote (Unix ts) (int32 (Nanosecond ts)) (Price b) (Price a) (Size b) (Size a)))
         (mkFeed (<[m_S m := book]> (orderBooks f)) (channel f))).

(** A status and what is unknown are logged. *)
Fixpoint Tick (raw : list message) (f : feed) : outcome feed :=
  match raw with
  | [] => Ret f
  | value :: raw' =>
      let! f := (if decide (ev value = "IT") then Ret (handleTrade value f)
                 else if decide (ev value = "ID") then handleBook value f
                 else Ret f) in
      Tick raw' f
  end.

(** The writer takes the packets in their order. *)
Fixpoint drain (packets : list (TimeBucketKey * item)) (w : @writer) : outcome (@writer) :=
  match packets with
  | [] => Ret w
  | (tbk, data) :: packets' => let! w := receive tbk data w in drain packets' w
  end.
End book.

(** ** The best of a book *)

(** The last entry of a price, unless its size is zero. *)
Definition level (updates : list Entry) (p : float32) : option Entry :=
  foldl (fun old e => if SFeqb (Price e) p then (if Size e =? 0 then None else Some e) else old) None updates.

Lemma level_snoc updates e p :
  level (updates ++ [e]) p = if SFeqb (Price e) p then (if Size e =? 0 then None else Some e) else level updates p.
Proof. unfold level. by rewrite foldl_app. Qed.
Lemma level_price updates p e : level updates p = Some e -> SFeqb (Price e) p = true /\ e ∈ updates.
Proof.
  induction updates as [|u updates IH] using rev_ind; [done|]. rewrite level_snoc, elem_of_app, list_elem_of_singleton.
  destruct (SFeqb (Price u) p) eqn:Heq; [|naive_solver]. destruct (Size u =? 0); [done|]. intros [= ->]. auto.
Qed.
Lemma level_same updates p p' : Forall (fun e => real (Price e)) updates -> real p -> real p' -> SFeqb p p' = true ->
  level updates p = level updates p'.
Proof.
  intros Hr Hp Hp' Heq. apply SFeqb_rank in Heq; [|done..].
  induction updates as [|u updates IH] using rev_ind; [done|]. apply Forall_app in Hr as [Hr [Hu _]%Forall_cons].
  rewrite !level_snoc, (IH Hr). pose proof (SFeqb_rank (Price u) p Hu Hp) as H1. pose proof (SFeqb_rank (Price u) p' Hu Hp') as H2.
  assert (SFeqb (Price u) p = SFeqb (Price u) p') as ->; [|done]. apply eq_true_iff_eq. by rewrite H1, H2, Heq.
Qed.

(** The entry of a side that comes first, or an empty one when no price has a
    size. *)
Definition is_best (lt : float32 -> float32 -> bool) (updates : list Entry) (b : Entry) : Prop :=
  (forall p, real p -> level updates p = None) /\ b = mkEntry (S754_zero false) 0 \/
  level updates (Price b) = Some b /\ forall p e, real p -> level updates p = Some e -> lt p (Price b) = false.

Section best.
Context `{SkipListLaws Entry} (lt : float32 -> float32 -> bool) (Hlt : lt = ascending \/ lt = descending).

Lemma add_made e s : real (Price e) -> made lt s -> made lt (add e s).
Proof. intros He Hs. unfold add. destruct (sl_Get _ _), (Size e =? 0); cbn; try done; by constructor. Qed.

(** A side of a book is the levels of its updates. *)
Lemma side_levels updates : Forall (fun e => real (Price e)) updates ->
  let s := foldl (fun s e => add e s) (NewCustomMap lt) updates in
  made lt s /\ forall p, real p -> sl_Get p s = level updates p.
Proof.
  induction updates as [|e updates IH] using rev_ind; intros Hr; cbn.
  - split; [constructor|]. intros p Hp. by apply get_new with (lt := lt).
  - apply Forall_app in Hr as [Hr [He _]%Forall_cons]. destruct (IH Hr) as [Hm Hg]. rewrite foldl_app. cbn. split; [by apply add_made|].
    intros p Hp. rewrite level_snoc. unfold add.
    destruct (sl_Get (Price e) _) as [old|] eqn:Hold, (Size e =? 0) eqn:Hs; cbn.
    + rewrite (get_delete lt) by done. by rewrite Hg.
    + rewrite (get_set lt) by done. by rewrite Hg.
    + rewrite Hg by done. destruct (SFeqb (Price e) p) eqn:Heq; [|done]. rewrite Hg in Hold by done.
      by rewrite <- (level_same updates (Price e) p).
    + rewrite (get_set lt) by done. by rewrite Hg.
Qed.

Lemma lt_same a b c : real a -> real b -> real c -> SFeqb b c = true -> lt a b = lt a c.
Proof.
  intros Ha Hb Hc Heq. apply SFeqb_rank in Heq; [|done..]. apply eq_true_iff_eq.
  destruct Hlt as [-> | ->]; unfold ascending, descending; by rewrite !SFltb_rank, Heq by done.
Qed.

Lemma side_best updates : Forall (fun e => real (Price e)) updates ->
  exists b, best (foldl (fun s e => add e s) (NewCustomMap lt) updates) = Ret b /\ is_best lt updates b.
Proof.
  intros Hr. destruct (side_levels updates Hr) as [Hm Hg]. unfold best. pose proof (len_zero lt _ Hlt Hm) as Hz.
  destruct (Z.eqb_spec (sl_Len (foldl (fun s e => add e s) (NewCustomMap lt) updates)) 0) as [Hl|Hl].
  - eexists. split; [done|]. left. split; [|done]. intros p Hp. rewrite <- Hg by done. by apply Hz.
  - destruct (first_least lt _ Hlt Hm Hl) as (k & v & Hk & -> & Hv & Hmin). exists v. split; [done|]. right.
    rewrite Hg in Hv by done. destruct (level_price _ _ _ Hv) as [Heq Hin].
    assert (Hrv : real (Price v)) by by rewrite Forall_forall in Hr; apply Hr.
    split; [by rewrite (level_same updates (Price v) k)|].
    intros p e Hp He. rewrite (lt_same p (Price v) k) by done. apply Hmin; [done|]. rewrite Hg by done. by rewrite He.
Qed.
End best.

(** Updates of either side, bids marked. *)
Definition side (bid : bool) (updates : list (bool * Entry)) : list Entry :=
  map snd (List.filter (fun u => Bool.eqb u.1 bid) updates).
Definition update `{SkipList Entry} (ob : OrderBook) (u : bool * Entry) : OrderBook :=
  if u.1 then Bid u.2 ob else Ask u.2 ob.

Lemma update_sides `{SkipList Entry} updates : forall ob,
  foldl update ob updates =
  mkOrderBook (foldl (fun s e => add e s) (bids ob) (side true updates)) (foldl (fun s e => add e s) (asks ob) (side false updates)).
Proof.
  induction updates as [|[[] e] updates IH]; intros ob; [by destruct ob|..]; cbn [foldl]; rewrite IH; done.
Qed.

(** C23: A book gives the best bid and ask of what it was told. Whatever the
    order in which bids and asks come, for every price only the last entry
    counts, and none when its size is zero. The bid that is given is the entry
    of the highest price that is left, the ask that of the lowest, and an entry
    of zeros when no price is left on its side; asking for them never fails. *)
Theorem book_best `{SkipListLaws Entry} (updates : list (bool * Entry)) :
  Forall (fun u => real (Price u.2)) updates ->
  exists b a, BBO (foldl update NewOrderBook updates) = Ret (b, a) /\
    is_best descending (side true updates) b /\ is_best ascending (side false updates) a.
Proof.
  intros Hr. assert (Hs : forall bid, Forall (fun e => real (Price e)) (side bid updates)).
  { intros bid. unfold side. rewrite Forall_forall in Hr. apply Forall_forall. intros e (u & -> & Hu)%list_elem_of_fmap.
    apply Hr. apply list_elem_of_In in Hu. apply filter_In in Hu as [Hu _]. by apply list_elem_of_In. }
  destruct (side_best descending (or_intror eq_refl) _ (Hs true)) as (b & Hb & Hbest).
  destruct (side_best ascending (or_introl eq_refl) _ (Hs false)) as (a & Ha & Hbest').
  exists b, a. rewrite update_sides. unfold BBO. cbn [bids asks NewOrderBook]. rewrite Hb, Ha. done.
Qed.

(** ** A map of the interface *)

(** The entries in any order, with the order of the keys. *)
Definition list_map (V : Type) : Type := (float32 -> float32 -> bool) * list (float32 * V).
Definition lm_least {V} (lt : float32 -> float32 -> bool) (l : list (float32 * V)) : option (float32 * V) :=
  foldr (fun e m => match m with None => Some e | Some e' => if lt e'.1 e.1 then Some e' else Some e end) None l.
#[export] Instance list_skiplist V : SkipList V := {|
  skiplist := list_map V;
  NewCustomMap lt := (lt, []);
  sl_Get k s := snd <$> find (fun e => SFeqb e.1 k) s.2;
  sl_Set k v s := (s.1, (k, v) :: List.filter (fun e => negb (SFeqb e.1 k)) s.2);
  sl_Delete k s := (s.1, List.filter (fun e => negb (SFeqb e.1 k)) s.2);
  sl_Len s := Z.of_nat (length s.2);
  sl_First s := snd <$> lm_least s.1 s.2;
|}.

Lemma filter_keys {V} (l : list (float32 * V)) k : Forall (fun e => real e.1) l -> real k ->
  let l' := List.filter (fun e => negb (SFeqb e.1 k)) l in
  Forall (fun e => real e.1) l' /\ Forall (fun e => rank e.1 <> rank k) l' /\
  (NoDup (map (fun e => rank e.1) l) -> NoDup (map (fun e => rank e.1) l')).
Proof.
  intros Hl Hk. induction Hl as [|e l He Hl IH]; cbn; [by repeat constructor|]. destruct IH as (H1 & H2 & H3).
  pose proof (SFeqb_rank e.1 k He Hk) as Hr. destruct (SFeqb e.1 k); cbn.
  - split_and!; try done. intros [_ Hn]%NoDup_cons. auto.
  - split_and!; try (constructor; try done; intros Heq; apply Hr in Heq; done).
    intros [Hin Hn]%NoDup_cons. apply NoDup_cons. split; [|auto]. intros Hin'. apply Hin.
    apply list_elem_of_fmap in Hin' as (x & -> & Hx). apply list_elem_of_fmap. exists x. split; [done|].
    apply list_elem_of_In in Hx. apply filter_In in Hx as [Hx _]. by apply list_elem_of_In.
Qed.
Lemma made_list {V} lt (s : list_map V) : made lt s ->
  s.1 = lt /\ Forall (fun e => real e.1) s.2 /\ NoDup (map (fun e => rank e.1) s.2).
Proof.
  induction 1 as [|k v s Hk _ (Hs & Hl & Hn)|k s Hk _ (Hs & Hl & Hn)]; cbn; [by repeat constructor| |];
    destruct (filter_keys s.2 k Hl Hk) as (H1 & H2 & H3); split_and!; try done; auto.
  apply NoDup_cons. split; [|auto]. intros (x & Hx1 & Hx2)%list_elem_of_fmap. rewrite Forall_forall in H2. by apply (H2 x).
Qed.
Lemma find_filter {V} (l : list (float32 * V)) k k' : Forall (fun e => real e.1) l -> real k -> real k' ->
  find (fun e => SFeqb e.1 k') (List.filter (fun e => negb (SFeqb e.1 k)) l) =
  if SFeqb k k' then None else find (fun e => SFeqb e.1 k') l.
Proof.
  intros Hl Hk Hk'. induction Hl as [|e l He _ IH]; [by destruct (SFeqb k k')|]. cbn.
  rewrite (SFeqb_decide k k') in * by done. rewrite (SFeqb_decide e.1 k), (SFeqb_decide e.1 k') by done.
  repeat case_bool_decide; cbn; rewrite ?IH, ?SFeqb_decide by done; repeat case_bool_decide; congruence.
Qed.
Lemma find_key {V} (l : list (float32 * V)) m : Forall (fun e => real e.1) l -> NoDup (map (fun e => rank e.1) l) -> In m l ->
  find (fun e => SFeqb e.1 m.1) l = Some m.
Proof.
  intros Hl. induction Hl as [|e l He Hl IH]; [done|]. cbn. intros [Hnin Hn]%NoDup_cons Hin.
  assert (Hm : real m.1) by (destruct Hin as [->|Hin]; [done|]; rewrite Forall_forall in Hl; apply Hl; by apply list_elem_of_In).
  pose proof (SFeqb_rank e.1 m.1 He Hm) as Hr. destruct (SFeqb e.1 m.1) eqn:E.
  - destruct Hin as [->|Hin]; [done|]. exfalso. apply Hnin, list_elem_of_fmap. exists m. split; [by apply Hr|by apply list_elem_of_In].
  - destruct Hin as [->|Hin]; [|by apply IH]. by discriminate (proj2 Hr eq_refl).
Qed.
Lemma lt_fst lt a b c : lt = ascending \/ lt = descending -> real a -> real b -> real c -> rank a = rank b -> lt a c = lt b c.
Proof.
  intros Hlt Ha Hb Hc Heq. apply eq_true_iff_eq.
  destruct Hlt as [-> | ->]; unfold ascending, descending; by rewrite !SFltb_rank, Heq by done.
Qed.
Lemma find_none_iff {V} (l : list (float32 * V)) : Forall (fun e => real e.1) l ->
  (forall k, real k -> find (fun e => SFeqb e.1 k) l = None) -> l = [].
Proof.
  intros Hl Hn. destruct l as [|e l]; [done|]. apply Forall_cons in Hl as [He _]. specialize (Hn e.1 He). unfold find in Hn.
  pose proof (proj2 (SFeqb_rank e.1 e.1 He He) eq_refl) as Heq. cbv beta in Hn. unfold float32 in *. by rewrite Heq in Hn.
Qed.

Lemma least_spec {V} lt (l : list (float32 * V)) : lt = ascending \/ lt = descending -> Forall (fun e => real e.1) l ->
  match lm_least lt l with
  | None => l = []
  | Some m => In m l /\ Forall (fun e => lt e.1 m.1 = false) l
  end.
Proof.
  unfold float32 in *. intros Hlt. induction 1 as [|e l He Hl IH]; [done|]. cbn. fold (lm_least lt l). destruct (lm_least lt l) as [m|].
  - destruct IH as [Hin Hm]. assert (Hrm : real m.1) by (rewrite Forall_forall in Hl; apply Hl; by apply list_elem_of_In).
    assert (Hirr : lt e.1 e.1 = false).
    { destruct Hlt as [-> | ->]; apply not_true_is_false; unfold ascending, descending; intros Hx%SFltb_rank; try done; unfold rank_lt in Hx; lia. }
    unfold float32 in *. destruct (lt m.1 e.1) eqn:E; cbv iota; (split; [by auto using in_eq, in_cons|]); constructor; try done.
    + apply not_true_is_false. intros E'. destruct Hlt as [-> | ->]; unfold ascending, descending in *;
        rewrite SFltb_rank in E, E' by done; unfold rank_lt in *; lia.
    + rewrite Forall_forall in *. intros x Hx. specialize (Hl x Hx). specialize (Hm x Hx).
      apply not_true_is_false. intros E'. apply not_true_iff_false in E. apply not_true_iff_false in Hm.
      destruct Hlt as [-> | ->]; unfold ascending, descending in *; rewrite SFltb_rank in E, E', Hm by done; unfold rank_lt in *; lia.
  - subst l. cbn. split; [by left|]. constructor; [|done]. apply not_true_is_false.
    destruct Hlt as [-> | ->]; unfold ascending, descending; intros Hx%SFltb_rank; try done; unfold rank_lt in Hx; lia.
Qed.

#[export] Instance list_skiplist_laws V : SkipListLaws V.
Proof.
  split.
  - done.
  - intros lt s k v k' _ Hs Hk Hk'. apply made_list in Hs as (_ & Hl & _). cbn. destruct (SFeqb k k') eqn:E; [done|].
    by rewrite find_filter, E by done.
  - intros lt s k k' _ Hs Hk Hk'. apply made_list in Hs as (_ & Hl & _). cbn. rewrite find_filter by done. by destruct (SFeqb k k').
  - intros lt s _ Hs. apply made_list in Hs as (_ & Hl & _). cbn. split.
    + intros Hz k _. destruct s.2; [done|]. cbn in Hz. lia.
    + intros Hn. rewrite (find_none_iff s.2 Hl); [done|]. intros k Hk. specialize (Hn k Hk). by destruct (find _ _).
  - intros lt s Hlt Hs Hne. apply made_list in Hs as (<- & Hl & Hn). cbn in *. pose proof (least_spec s.1 s.2 Hlt Hl) as Hm.
    destruct (lm_least s.1 s.2) as [m|]; [|rewrite Hm in Hne; done]. destruct Hm as [Hin Hm].
    assert (Hr : real m.1) by (rewrite Forall_forall in Hl; apply Hl; by apply list_elem_of_In).
    exists m.1, m.2. split_and!; [done..| |].
    + by rewrite (find_key s.2 m).
    + intros k Hk [v Hv]. destruct (find (fun e => SFeqb e.1 k) s.2) as [e|] eqn:Hf; [|done].
      apply find_some in Hf as [Hine Heq]. apply list_elem_of_In in Hine. rewrite Forall_forall in Hl, Hm.
      rewrite (lt_fst s.1 k e.1 m.1); auto. apply SFeqb_rank in Heq; auto.
Qed.

Definition price (z : Z) : float32 := binary_normalize 24 128 z 0 false.
(** Bids at 10 and 11, the latter withdrawn, and an ask at 12. *)
Definition some_updates : list (bool * Entry) :=
  [(true, mkEntry (price 10) 5); (true, mkEntry (price 11) 3); (false, mkEntry (price 12) 7); (true, mkEntry (price 11) 0)].

Lemma book_best_witness :
  Forall (fun u => real (Price u.2)) some_updates /\
  exists b a, BBO (foldl update NewOrderBook some_updates) = Ret (b, a) /\
    is_best descending (side true some_updates) b /\ is_best ascending (side false some_updates) a.
Proof.
  assert (Hr : Forall (fun u => real (Price u.2)) some_updates) by (repeat constructor; done).
  split; [exact Hr|]. apply (book_best some_updates Hr).
Defined.

Example some_book : BBO (foldl update NewOrderBook some_updates) = Ret (mkEntry (price 10) 5, mkEntry (price 12) 7).
Proof. vm_compute. reflexivity. Qed.
