(* ===== verification/Polygon.v ===== *)
(** * The Polygon feeder (contrib/polygon)

    The handlers of the streamed messages and the backfill of bars, trades and
    quotes from the answers of the service, which is the interface
    [PolygonAPI]. *)

From S2P Require Export Ticks.
From S2P Require Import GoStrings Calendar.

#[local] Open Scope string_scope.
#[local] Open Scope Z_scope.

(** ** Messages (api/schema.go) *)

Record PolyTrade := mkPolyTrade {
  pt_Symbol : string; pt_Price : float64; pt_Size : Z; pt_Timestamp : Z; pt_Conditions : list Z }.
Record PolyQuote := mkPolyQuote {
  pq_Symbol : string; pq_BidPrice : float64; pq_BidSize : Z; pq_AskPrice : float64; pq_AskSize : Z; pq_Timestamp : Z }.
Record PolyAggregate := mkPolyAggregate {
  pa_Symbol : string; pa_Volume : Z; pa_Open : float64; pa_Close : float64; pa_High : float64; pa_Low : float64;
  pa_EpochMillis : Z }.
Record AggTick := mkAggTick {
  at_EpochMilliseconds : Z; at_Open : float64; at_High : float64; at_Low : float64; at_Close : float64; at_Volume : Z }.
Record TradeTick := mkTradeTick { tt_Timestamp : Z; tt_Price : float64; tt_Size : Z; tt_Exchange : string }.
Record QuoteTick := mkQuoteTick {
  qt_Timestamp : Z; qt_BidPrice : float64; qt_AskPrice : float64; qt_BidSize : Z; qt_AskSize : Z }.

(** What the service answers, by symbol and range or day. *)
Class PolygonAPI (S : Type) := {
  GetHistoricAggregates : string -> Time -> Time -> prog S (list AggTick);
  GetHistoricTrades : string -> string -> prog S (list TradeTick);
  GetHistoricQuotes : string -> string -> prog S (list QuoteTick);
}.

(** ** The handlers (handlers/handlers.go) *)

Definition ConditionExchangeSummary : Z := 51.
Definition OfficialConditionClosing : Z := 15.
Definition OfficialConditionOpening : Z := 16.
Definition ConditionClosing : Z := 17.
Definition ConditionReOpening : Z := 18.
Definition ConditionOpening : Z := 19.

Definition conditionsPresent (conditions : list Z) : bool :=
  existsb (fun c => bool_decide (c ∈ [ConditionExchangeSummary; ConditionReOpening; ConditionOpening; ConditionClosing;
                                      OfficialConditionOpening; OfficialConditionClosing])) conditions.

(** [strings.Replace(s, "/", ".", 1)] *)
Fixpoint replace_slash (s : string) : string :=
  match s with
  | "" => ""
  | String c s' => if Ascii.eqb c "/" then String "." s' else String c (replace_slash s')
  end.

(** [time.Unix(0, int64(1000*1000*float64(millis)))] *)
Definition poly_time (millis : Z) : Time :=
  time_Unix 0 (float64_to_int64 (fmul (float64_of_Z 1000000) (float64_of_Z millis))) UTC.

Definition skip_trade (rt : PolyTrade) : bool :=
  conditionsPresent (pt_Conditions rt) || (pt_Size rt <=? 0) || SFleb (pt_Price rt) (S754_zero false).

Fixpoint gather_trades (trs : list PolyTrade) (writeMap : gmap string bucket) : outcome (gmap string bucket) :=
  match trs with
  | [] => Ret writeMap
  | rt :: trs' =>
      if skip_trade rt then gather_trades trs' writeMap
      else
        let ts := poly_time (pt_Timestamp rt) in
        let t := mkTrade (Unix ts) (int32 (Nanosecond ts)) (to_float32 (pt_Price rt)) (int32 (pt_Size rt)) in
        let key := replace_slash (pt_Symbol rt) +:+ "/1Min/TRADE" in
        let! writeMap := appendItem (NewTimeBucketKey key []) (Trade t) writeMap in
        gather_trades trs' writeMap
  end.
Fixpoint gather_quotes (qq : list PolyQuote) (writeMap : gmap string bucket) : outcome (gmap string bucket) :=
  match qq with
  | [] => Ret writeMap
  | rq :: qq' =>
      let ts := poly_time (pq_Timestamp rq) in
      let q := mkQuote (Unix ts) (int32 (Nanosecond ts)) (to_float32 (pq_BidPrice rq)) (to_float32 (pq_AskPrice rq))
                 (int32 (pq_BidSize rq)) (int32 (pq_AskSize rq)) in
      let key := replace_slash (pq_Symbol rq) +:+ "/1Min/QUOTE" in
      let! writeMap := appendItem (NewTimeBucketKey key []) (Quote q) writeMap in
      gather_quotes qq' writeMap
  end.

(** The series of one bar. *)
Definition bar_series (epoch : Z) (bar : PolyAggregate) : ColumnSeries :=
  table [("Epoch", int64_column [epoch]); ("Open", float32_column [to_float32 (pa_Open bar)]);
         ("High", float32_column [to_float32 (pa_High bar)]); ("Low", float32_column [to_float32 (pa_Low bar)]);
         ("Close", float32_column [to_float32 (pa_Close bar)]); ("Volume", int32_column [int32 (pa_Volume bar)])].

(** [BackfillM]: the epochs of the first bar of a symbol, nil when backfilled. *)
Record fetcher (S : Type) := mkFetcher { pf_store : S; BackfillM : gmap string (option Z) }.
Arguments mkFetcher {S} _ _.
Arguments pf_store {S} _.
Arguments BackfillM {S} _.
Definition on_store {S A} (m : prog S A) : prog (fetcher S) A := fun s =>
  let '(o, st) := m (pf_store s) in (o, mkFetcher st (BackfillM s)).

Section handlers.
Context {S : Type} `{Store S} `{R : MapRange} `{!Growth var}.

(** A message that is not JSON is logged: [None]. *)
Definition TradeHandler (msg : option (list PolyTrade)) : prog S unit :=
  match msg with
  | None => mret tt
  | Some trs => writeMap ← lift (gather_trades trs ∅); Write writeMap
  end.
Definition QuoteHandler (msg : option (list PolyQuote)) : prog S unit :=
  match msg with
  | None => mret tt
  | Some qq => writeMap ← lift (gather_quotes qq ∅); Write writeMap
  end.

Definition LoadOrStore (symbol : string) (epoch : Z) : prog (fetcher S) unit := fun s =>
  (Ret tt, match BackfillM s !! symbol with
           | Some _ => s
           | None => mkFetcher (pf_store s) (<[symbol := Some epoch]> (BackfillM s))
           end).
Fixpoint handle_bars (am : list PolyAggregate) : prog (fetcher S) unit :=
  match am with
  | [] => mret tt
  | bar :: am' =>
      let epoch := Z.quot (pa_EpochMillis bar) 1000 in
      LoadOrStore (pa_Symbol bar) epoch ;;
      let tbk := NewTimeBucketKeyFromString (pa_Symbol bar +:+ "/1Min/OHLCV") in
      on_store (logged (st_WriteCSM (AddColumnSeries tbk (bar_series epoch bar) ∅) false)) ;;
      handle_bars am'
  end.
Definition BarsHandler (msg : option (list PolyAggregate)) : prog (fetcher S) unit :=
  match msg with None => mret tt | Some am => handle_bars am end.
End handlers.

(** ** The backfill (backfill/backfill.go) *)

Fixpoint digits (n : nat) (z : Z) : string :=
  match n with
  | O => ""
  | S n' => digits n' (z / 10) +:+ String (Ascii.ascii_of_nat (48 + Z.to_nat (z mod 10))) ""
  end.
(** [Format("2006-01-02")], of years of four digits *)
Definition format_date (t : Time) : string :=
  digits 4 (Year t) +:+ "-" +:+ digits 2 (Month t) +:+ "-" +:+ digits 2 (Day_of_month t).

Definition stringInSlice (s : string) (l : list string) : bool := existsb (fun item => bool_decide (s = item)) l.

(** A bar under construction. *)
Record bar := mkBar {
  br_epoch : Z; br_open : float32; br_high : float32; br_low : float32; br_close : float32; br_volume : Z; br_tickCnt : Z }.

Definition millis_time (millis : Z) : Time := time_Unix 0 (int64 (1000000 * millis)) UTC.
Definition tick_minute (tick : TradeTick) : Time := Truncate (millis_time (tt_Timestamp tick)) Minute.

(** The arrays have room for the minutes of a day. *)
Definition max_bars : nat := 1440.

Definition update_bar (tick : TradeTick) (b : bar) : bar :=
  let price := to_float32 (tt_Price tick) in
  mkBar (br_epoch b) (br_open b) (if SFltb (br_high b) price then price else br_high b)
    (if SFltb price (br_low b) then price else br_low b) price (int32 (br_volume b + int32 (tt_Size tick)))
    (int32 (br_tickCnt b + 1)).
Definition new_bar (tick : TradeTick) : bar :=
  let price := to_float32 (tt_Price tick) in mkBar (Unix (tick_minute tick)) price price price (S754_zero false) 0 0.

(** The bars so far, the last one with its index [barIdx]. *)
Fixpoint bars_loop (ticks : list TradeTick) (exchangeIDs : list string) (bars : list bar) (lastBucketTimestamp : Time) :
    outcome (list bar) :=
  match ticks with
  | [] => Ret bars
  | tick :: ticks' =>
      if negb (stringInSlice (tt_Exchange tick) exchangeIDs) then bars_loop ticks' exchangeIDs bars lastBucketTimestamp
      else
        let bucketTimestamp := tick_minute tick in
        let! '(bars, last) :=
          (if negb (t_ns lastBucketTimestamp =? t_ns bucketTimestamp) then
             if (length bars <? max_bars)%nat then Ret ((bars ++ [new_bar tick])%list, bucketTimestamp)
             else Panic "index out of range"
           else Ret (bars, lastBucketTimestamp)) in
        match bars with
        | [] => Panic "index out of range"
        | _ => bars_loop ticks' exchangeIDs (alter (update_bar tick) (length bars - 1)%nat bars) last
        end
  end.

Definition bars_series (bars : list bar) : ColumnSeries :=
  table [("Epoch", int64_column (map br_epoch bars)); ("Open", float32_column (map br_open bars));
         ("High", float32_column (map br_high bars)); ("Low", float32_column (map br_low bars));
         ("Close", float32_column (map br_close bars)); ("Volume", int32_column (map br_volume bars));
         ("TickCnt", int32_column (map br_tickCnt bars))].

(** [None] is the nil map. *)
Definition tradesToBars (ticks : list TradeTick) (symbol : string) (exchangeIDs : list string) : outcome (option ColumnSeriesMap) :=
  match ticks with
  | [] => Ret None
  | _ =>
      let! bars := bars_loop ticks exchangeIDs [] zeroTime in
      match bars with
      | [] => Ret None
      | _ => Ret (Some (AddColumnSeries (NewTimeBucketKeyFromString (symbol +:+ "/1Min/OHLCV")) (bars_series bars) ∅))
      end
  end.

(** *** The days of a range *)

(** The columns of the answers. *)
Definition agg_series (ticks : list AggTick) : ColumnSeries :=
  table [("Epoch", int64_column (map (fun b => Z.quot (at_EpochMilliseconds b) 1000) ticks));
         ("Open", float32_column (map (fun b => to_float32 (at_Open b)) ticks));
         ("High", float32_column (map (fun b => to_float32 (at_High b)) ticks));
         ("Low", float32_column (map (fun b => to_float32 (at_Low b)) ticks));
         ("Close", float32_column (map (fun b => to_float32 (at_Close b)) ticks));
         ("Volume", int32_column (map (fun b => int32 (at_Volume b)) ticks))].
Definition trade_tick_nanos (tick : TradeTick) : Z :=
  int32 (int64 (t_ns (millis_time (tt_Timestamp tick)) - t_ns (tick_minute tick))).
Definition trades_series (ticks : list TradeTick) : ColumnSeries :=
  table [("Epoch", int64_column (map (fun t => Unix (tick_minute t)) ticks));
         ("Nanoseconds", int32_column (map trade_tick_nanos ticks));
         ("Price", float32_column (map (fun t => to_float32 (tt_Price t)) ticks));
         ("Size", int32_column (map (fun t => int32 (tt_Size t)) ticks))].
(** The price of the bid stands for the ask's. *)
Definition quotes_series (ticks : list QuoteTick) : ColumnSeries :=
  let askPrice := map (fun t => to_float32 (qt_BidPrice t)) ticks in
  table [("Epoch", int64_column (map (fun t => Unix (millis_time (qt_Timestamp t))) ticks));
         ("Nanoseconds", int32_column (map (fun t => int32 (Nanosecond (millis_time (qt_Timestamp t)))) ticks));
         ("BidPrice", float32_column (map (fun t => to_float32 (qt_BidPrice t)) ticks));
         ("AskPrice", float32_column askPrice);
         ("BidSize", int32_column (map (fun t => int32 (qt_BidSize t)) ticks));
         ("AskSize", int32_column (map (fun t => int32 (qt_AskSize t)) ticks))].

Section backfill.
Context {S : Type} `{Store S} `{PolygonAPI S} (NY : Location) (now : Time).

Definition from_or_default (from : Time) : Time := if IsZero from then Date 2014 1 1 0 0 0 0 NY else from.
Definition to_or_now (to : Time) : Time := if IsZero to then now else to.

(** What a call gave, or the text of its error. *)
Definition try {A} (m : prog S A) : prog S (A + string) := fun s =>
  match m s with
  | (Ret a, s') => (Ret (inl a), s')
  | (Fail (ErrMsg msg), s') => (Ret (inr msg), s')
  | (Fail e, s') => (Fail e, s')
  | (Fatal msg, s') => (Fatal msg, s')
  | (Panic msg, s') => (Panic msg, s')
  end.

(** A service that goes away is asked again. *)
Fixpoint Bars (fuel : nat) (symbol : string) (from to : Time) : prog S unit :=
  match fuel with
  | O => lift (Panic "out of fuel")
  | Datatypes.S fuel' =>
      let from := from_or_default from in
      let to := to_or_now to in
      resp ← try (GetHistoricAggregates symbol from to);
      match resp with
      | inr msg => if Contains msg "GOAWAY" then Bars fuel' symbol from to else fail (ErrMsg msg)
      | inl [] => mret tt
      | inl ticks =>
          st_WriteCSM (AddColumnSeries (NewTimeBucketKeyFromString (symbol +:+ "/1Min/OHLCV")) (agg_series ticks) ∅) false
      end
  end.

(** A day at a time. *)
Fixpoint build_loop (fuel : nat) (symbol : string) (from to : Time) (exchangeIDs : list string) : prog S unit :=
  if time_After from to then mret tt
  else
    match fuel with
    | O => lift (Panic "out of fuel")
    | Datatypes.S fuel' =>
        ticks ← GetHistoricTrades symbol (format_date from);
        csm ← lift (tradesToBars ticks symbol exchangeIDs);
        match csm with None => mret tt | Some csm => st_WriteCSM csm false end ;;
        build_loop fuel' symbol (AddDate from 0 0 1) to exchangeIDs
    end.
Definition BuildBarsFromTrades (fuel : nat) (symbol : string) (from to : Time) (exchangeIDs : list string) : prog S unit :=
  build_loop fuel symbol (from_or_default from) (to_or_now to) exchangeIDs.

(** Trades and quotes differ in what is asked for and written; a service that
    goes away is asked for bars instead. *)
Fixpoint days_loop {A} (fuel : nat) (get : string -> prog S (list A)) (write : list A -> prog S unit) (symbol : string)
    (from to : Time) : prog S unit :=
  match fuel with
  | O => lift (Panic "out of fuel")
  | Datatypes.S fuel' =>
      resp ← try (get (format_date from));
      match resp with
      | inr msg => if Contains msg "GOAWAY" then Bars fuel' symbol from to else fail (ErrMsg msg)
      | inl ticks =>
          match ticks with [] => mret tt | _ => write ticks end ;;
          let from := AddDate from 0 0 1 in
          if time_After from to then mret tt else days_loop fuel' get write symbol from to
      end
  end.
Definition Trades_ (fuel : nat) (symbol : string) (from to : Time) : prog S unit :=
  days_loop fuel (GetHistoricTrades symbol)
    (fun ticks => st_WriteCSM (AddColumnSeries (NewTimeBucketKeyFromString (symbol +:+ "/1Min/TRADE")) (trades_series ticks) ∅) true)
    symbol (from_or_default from) (to_or_now to).
Definition Quotes_ (fuel : nat) (symbol : string) (from to : Time) : prog S unit :=
  days_loop fuel (GetHistoricQuotes symbol)
    (fun ticks => st_WriteCSM (AddColumnSeries (NewTimeBucketKeyFromString (symbol +:+ "/1Min/QUOTE")) (quotes_series ticks) ∅) true)
    symbol (from_or_default from) (to_or_now to).
End backfill.

(** The days that the command asks for (backfill/backfiller): from the end back
    to the start, those when the market is open. *)
Fixpoint backfill_days (fuel : nat) (nasdaq : Calendar) (s e : Time) : outcome (list Time) :=
  if time_After e s then
    match fuel with
    | O => Panic "out of fuel"
    | Datatypes.S fuel' =>
        let! rest := backfill_days fuel' nasdaq s (time_Add e (- (24 * Hour))) in
        Ret (if IsMarketDay nasdaq e then e :: rest else rest)
    end
  else Ret [].

(** ** Bars made of trades *)

Definition tick_price (t : TradeTick) : float32 := to_float32 (tt_Price t).
(** The bar of trades that follow each other in one minute: the first price,
    the highest, the lowest, the last, the sum of the sizes and the number of
    trades, the latter two as 32-bit integers. *)
Definition bar_of (run : list TradeTick) : bar :=
  match run with
  | [] => mkBar 0 (S754_zero false) (S754_zero false) (S754_zero false) (S754_zero false) 0 0
  | t :: rest =>
      mkBar (Unix (tick_minute t)) (tick_price t)
        (foldl (fun h p => if SFltb h p then p else h) (tick_price t) (map tick_price rest))
        (foldl (fun l p => if SFltb p l then p else l) (tick_price t) (map tick_price rest))
        (List.last (map tick_price run) (S754_zero false))
        (int32 (foldr Z.add 0 (map tt_Size run))) (int32 (Z.of_nat (length run)))
  end.

Lemma int32_add a b : int32 (int32 a + b) = int32 (a + b).
Proof. unfold wrapS. change (2 ^ (32 - 1)) with 2147483648. change (2 ^ 32) with 4294967296. Z.div_mod_to_equations. lia. Qed.
Lemma int32_add_r a b : int32 (a + int32 b) = int32 (a + b).
Proof. by rewrite Z.add_comm, int32_add, Z.add_comm. Qed.

Lemma bar_of_one t : bar_of [t] = update_bar t (new_bar t).
Proof.
  unfold bar_of, update_bar, new_bar, tick_price. cbn [map foldl foldr List.last br_epoch br_open br_high br_low br_volume br_tickCnt length].
  rewrite int32_add_r, Z.add_0_r. f_equal; by destruct (SFltb _ _).
Qed.
Lemma bar_of_snoc run t : run <> [] -> bar_of (run ++ [t]) = update_bar t (bar_of run).
Proof.
  destruct run as [|u run]; [done|]. intros _. unfold bar_of, update_bar. cbn [app br_epoch br_open br_high br_low br_volume br_tickCnt].
  change (u :: run ++ [t]) with ((u :: run) ++ [t])%list. rewrite !map_app, !foldl_app, length_app. change (map tick_price [t]) with [tick_price t]. rewrite last_last.
  f_equal; try done.
  - rewrite int32_add, int32_add_r. f_equal. generalize (map tt_Size (u :: run)). intros l. change (map tt_Size [t]) with [tt_Size t].
    induction l as [|x l IH]; cbn; lia.
  - rewrite int32_add. f_equal. cbn [length]. lia.
Qed.

(** Trades that follow each other in one minute. *)
Definition minute_key (t : TradeTick) : Z := t_ns (tick_minute t).
Fixpoint runs_from (cur : list TradeTick) (key : Z) (ticks : list TradeTick) : list (list TradeTick) :=
  match ticks with
  | [] => [cur]
  | t :: ticks' => if minute_key t =? key then runs_from (cur ++ [t]) key ticks' else cur :: runs_from [t] (minute_key t) ticks'
  end.
Definition runs (ticks : list TradeTick) : list (list TradeTick) :=
  match ticks with [] => [] | t :: ticks' => runs_from [t] (minute_key t) ticks' end.

Lemma runs_from_concat ticks : forall cur key, concat (runs_from cur key ticks) = (cur ++ ticks)%list.
Proof.
  induction ticks as [|t ticks IH]; intros cur key; cbn; [done|]. destruct (_ =? _); [|cbn]; rewrite IH; by rewrite <- ?app_assoc.
Qed.
Lemma runs_concat ticks : concat (runs ticks) = ticks.
Proof. destruct ticks as [|t ticks]; [done|]. apply runs_from_concat. Qed.

(** The first run of a list of runs has a key, and every run another than the
    one before. *)
Fixpoint keyed (rs : list (list TradeTick)) (ks : list Z) : Prop :=
  match rs, ks with
  | [], [] => True
  | r :: rs', k :: ks' => r <> [] /\ Forall (fun t => minute_key t = k) r /\ head ks' <> Some k /\ keyed rs' ks'
  | _, _ => False
  end.
Lemma runs_from_keyed ticks : forall cur key, cur <> [] -> Forall (fun t => minute_key t = key) cur ->
  exists ks, keyed (runs_from cur key ticks) (key :: ks).
Proof.
  induction ticks as [|t ticks IH]; intros cur key Hne Hc; cbn [runs_from].
  - by exists [].
  - destruct (Z.eqb_spec (minute_key t) key) as [Heq|Hneq].
    + apply IH; [by destruct cur|]. apply Forall_app. split; [done|]. by constructor.
    + destruct (IH [t] (minute_key t)) as [ks Hks]; [done|by constructor|]. exists (minute_key t :: ks). cbn. split_and!; try done. congruence.
Qed.

Lemma bars_loop_runs exchangeIDs ticks : forall done cur last key,
  cur <> [] -> t_ns last = key -> (length done < max_bars)%nat ->
  bars_loop ticks exchangeIDs (map bar_of (done ++ [cur])%list) last =
  let rs := (done ++ runs_from cur key (List.filter (fun t => stringInSlice (tt_Exchange t) exchangeIDs) ticks))%list in
  if (length rs <=? max_bars)%nat then Ret (map bar_of rs) else Panic "index out of range".
Proof.
  induction ticks as [|t ticks IH]; intros done cur last key Hne Hlast Hlen; cbn [bars_loop List.filter].
  - cbn [runs_from]. rewrite (proj2 (Nat.leb_le _ _)); [done|]. rewrite length_app. cbn. lia.
  - destruct (stringInSlice _ _) eqn:Hs; cbn [negb]; [|by apply IH]. cbn [runs_from]. rewrite Hlast.
    change (t_ns (tick_minute t)) with (minute_key t). rewrite (Z.eqb_sym key).
    assert (Hsnoc : forall (l : list (list TradeTick)) c, length (map bar_of (l ++ [c])%list) = S (length l)).
    { intros l c. rewrite length_map, length_app. cbn. lia. }
    destruct (minute_key t =? key) eqn:Hk; cbn [negb].
    + cbn [outcome_bind]. destruct (map bar_of (done ++ [cur])%list) as [|b bs] eqn:Hm; [by destruct done|]. rewrite <- Hm, Hsnoc.
      replace (S (length done) - 1)%nat with (length (map bar_of done) + 0)%nat by (rewrite length_map; lia).
      rewrite map_app, alter_app_r. cbn [map alter list_alter]. rewrite <- bar_of_snoc by done.
      change [bar_of (cur ++ [t])%list] with (map bar_of [(cur ++ [t])%list]). rewrite <- map_app. apply IH; [by destruct cur|done|done].
    + rewrite Hsnoc. destruct (S (length done) <? max_bars)%nat eqn:Hmax.
      * cbn [outcome_bind]. destruct (map bar_of (done ++ [cur]) ++ [new_bar t])%list as [|b bs] eqn:Hm; [by destruct (map bar_of (done ++ [cur])%list)|].
        rewrite <- Hm, length_app, Hsnoc. cbn [length].
        replace (S (length done) + 1 - 1)%nat with (length (map bar_of (done ++ [cur])%list) + 0)%nat by (rewrite Hsnoc; lia).
        rewrite alter_app_r. cbn [alter list_alter]. rewrite <- bar_of_one.
        change [bar_of [t]] with (map bar_of [[t]]). rewrite <- map_app.
        rewrite (IH (done ++ [cur])%list [t] (tick_minute t) (minute_key t)); [|done|done|rewrite length_app; cbn; apply Nat.ltb_lt in Hmax; lia].
        rewrite <- app_assoc. done.
      * apply Nat.ltb_ge in Hmax. cbn [outcome_bind]. cbv zeta. rewrite (proj2 (Nat.leb_gt _ _)); [done|]. rewrite length_app. cbn [length].
        enough (length (runs_from [t] (minute_key t) (List.filter (fun t => stringInSlice (tt_Exchange t) exchangeIDs) ticks)) <> 0)%nat by lia.
        destruct (runs_from_keyed (List.filter (fun t => stringInSlice (tt_Exchange t) exchangeIDs) ticks) [t] (minute_key t)) as [ks Hks];
          [done|by constructor|]. by destruct (runs_from _ _ _).
Qed.

Lemma minute_key_not_zero t : minute_key t <> t_ns zeroTime.
Proof.
  unfold minute_key, tick_minute. pose proof (Truncate_bounds (millis_time (tt_Timestamp t)) Minute ltac:(done)) as Hb.
  assert (Hr : inS 64 (t_ns (millis_time (tt_Timestamp t)))).
  { unfold millis_time, time_Unix. cbn [t_ns]. rewrite Z.mul_0_l. by apply wrapS_range. }
  destruct Hr as [Hr _]. change (t_ns zeroTime) with (- 62135596800000000000). change (- 2 ^ (64 - 1)) with (- 9223372036854775808) in Hr.
  intros Heq. rewrite Heq in Hb. unfold Minute, Second in Hb. lia.
Qed.

Lemma bars_loop_all exchangeIDs ticks :
  bars_loop ticks exchangeIDs [] zeroTime =
  let rs := runs (List.filter (fun t => stringInSlice (tt_Exchange t) exchangeIDs) ticks) in
  if (length rs <=? max_bars)%nat then Ret (map bar_of rs) else Panic "index out of range".
Proof.
  induction ticks as [|t ticks IH]; [done|]. cbn [bars_loop List.filter]. destruct (stringInSlice _ _) eqn:Hs; cbn [negb]; [|done].
  change (t_ns (tick_minute t)) with (minute_key t).
  rewrite (proj2 (Z.eqb_neq (t_ns zeroTime) (minute_key t))) by (intros Heq; symmetry in Heq; by apply minute_key_not_zero in Heq).
  change (length (@nil bar) <? max_bars)%nat with true. cbn [negb outcome_bind app length Nat.sub alter list_alter runs].
  rewrite <- bar_of_one. apply (bars_loop_runs exchangeIDs ticks [] [t] (tick_minute t) (minute_key t)); [done|done|]. cbn. unfold max_bars. lia.
Qed.

(** C26: The bars made of trades are those of their minutes. The trades of the
    exchanges asked for are cut, in their order, where the minute changes; each
    piece gives a bar with its first and last price, the highest and lowest of
    its prices, the sum of its sizes and the number of its trades. When no
    trade is left there is nothing to write. An answer with more pieces than a
    day has minutes, as trades out of order may give, ends in a panic. *)
Theorem tradesToBars_minutes (ticks : list TradeTick) (symbol : string) (exchangeIDs : list string) :
  exists (rs : list (list TradeTick)) (minutes : list Z),
    concat rs = List.filter (fun t => stringInSlice (tt_Exchange t) exchangeIDs) ticks /\ keyed rs minutes /\
    tradesToBars ticks symbol exchangeIDs =
      if (1440 <? length rs)%nat then Panic "index out of range"
      else if bool_decide (rs = []) then Ret None
      else Ret (Some (AddColumnSeries (NewTimeBucketKeyFromString (symbol +:+ "/1Min/OHLCV")) (bars_series (map bar_of rs)) ∅)).
Proof.
  set (kept := List.filter (fun t => stringInSlice (tt_Exchange t) exchangeIDs) ticks).
  assert (Hk : exists ks, keyed (runs kept) ks).
  { destruct kept as [|t l]; [by exists []|]. destruct (runs_from_keyed l [t] (minute_key t)) as [ks Hks]; [done|by constructor|]. by exists (minute_key t :: ks). }
  destruct Hk as [ks Hks]. exists (runs kept), ks. split; [apply runs_concat|]. split; [done|].
  assert (Ht : ticks = [] -> runs kept = []) by by intros ->.
  unfold tradesToBars. rewrite Nat.ltb_antisym. change 1440%nat with max_bars.
  rewrite (bars_loop_all exchangeIDs ticks). fold kept. cbv zeta. destruct ticks as [|t ticks]; [by rewrite (Ht eq_refl)|].
  destruct (length (runs kept) <=? max_bars)%nat; cbn [outcome_bind negb]; [|done].
  destruct (runs kept) as [|r rs]; [done|]. by rewrite bool_decide_eq_false_2.
Qed.

(** The nanoseconds of a trade are counted from its minute: those behind the
    first two seconds do not fit into 32 bits. *)
Lemma trade_nanos_wrap : trade_tick_nanos (mkTradeTick 3000 (S754_zero false) 1 "4") = -1294967296.
Proof. vm_compute. reflexivity. Qed.

(** The prices of the asks are those of the bids. *)
Lemma backfilled_asks ticks :
  GetColumn "AskPrice" (quotes_series ticks) = GetColumn "BidPrice" (quotes_series ticks) /\
  GetColumn "AskPrice" (quotes_series ticks) = Some (float32_column (map (fun t => to_float32 (qt_BidPrice t)) ticks)).
Proof. by split. Qed.
