(* ===== verification/Xignite.v ===== *)
(** * The feeder of the Tokyo exchange (contrib/xignitefeeder)

    When the market is open, which symbols are fed, how the answers of the
    service become column series, and what is written of them.  The service is
    the interface [Client], the store the interface [MarketStoreWriter]; the
    executor is one. *)

From S2P Require Export Feeder.
From S2P Require Import GoStrings.

#[local] Open Scope string_scope.
#[local] Open Scope Z_scope.

(** ** When the market is open (feed/time_checker.go) *)

Definition jst : Location := FixedZone (9 * 60 * 60).

Record DefaultMarketTimeChecker := NewDefaultMarketTimeChecker {
  ClosedDaysOfTheWeek : list Z;
  ClosedDays : list Time;
  OpenTime : Time;
  CloseTime : Time;
}.

(** A time of day, in minutes. *)
Definition minutes (t : Time) : Z := time_Hour t * 60 + time_Minute t.

Definition isOpenTime (m : DefaultMarketTimeChecker) (t : Time) : bool :=
  let minFrom12am := minutes t in
  let openMinFrom12am := minutes (OpenTime m) in
  let closeMinFrom12am := minutes (CloseTime m) in
  let closeMinFrom12am := if closeMinFrom12am <? openMinFrom12am then closeMinFrom12am + 24 * 60 else closeMinFrom12am in
  let minFrom12am := if minFrom12am <? openMinFrom12am then minFrom12am + 24 * 60 else minFrom12am in
  negb ((minFrom12am <? openMinFrom12am) || (closeMinFrom12am <=? minFrom12am)).

Definition isOpenWeekDay (m : DefaultMarketTimeChecker) (t : Time) : bool :=
  negb (existsb (fun closedDay => Weekday t =? closedDay) (ClosedDaysOfTheWeek m)).

Definition isOpenDate (m : DefaultMarketTimeChecker) (t : Time) : bool :=
  negb (existsb (fun c => (Year c =? Year t) && (Month c =? Month t) && (Day_of_month c =? Day_of_month t)) (ClosedDays m)).

Definition IsOpen (m : DefaultMarketTimeChecker) (t : Time) : bool :=
  let timeInJst := In_loc t jst in
  isOpenDate m timeInJst && isOpenWeekDay m timeInJst && isOpenTime m t.

Definition business_day (m : DefaultMarketTimeChecker) (d : Time) : bool := isOpenDate m d && isOpenWeekDay m d.

(** A day back at a time until enough of them were open. *)
Fixpoint sub_loop (m : DefaultMarketTimeChecker) (fuel : nat) (count : Z) (d : Time) : outcome Time :=
  if count <=? 0 then Ret d
  else
    match fuel with
    | O => Panic "out of fuel"
    | S fuel' =>
        let d := time_Add d (- (24 * Hour)) in
        sub_loop m fuel' (if business_day m d then count - 1 else count) d
    end.
Definition Sub (fuel : nat) (m : DefaultMarketTimeChecker) (dateInJST : Time) (businessDay : Z) : outcome Time :=
  if businessDay <? 0 then Fail (ErrMsg "businessDay argument should be a positive integer")
  else if businessDay =? 0 then Ret dateInJST
  else sub_loop m fuel businessDay dateInJST.

(** ** The configuration's days (configs/config.go)

    The lists are made with one element before the others are appended. *)

Definition convertTime (w : list Z) : list Z := 0 :: w.
Definition convertDate (cd : list Time) : list Time := zeroTime :: cd.

Definition daysOfWeek : list (string * Z) :=
  [("Sunday", 0); ("Monday", 1); ("Tuesday", 2); ("Wednesday", 3); ("Thursday", 4); ("Friday", 5); ("Saturday", 6)].
(** [strings.Trim] of the quotes *)
Definition quote_char : ascii := "034"%char.
Fixpoint trim_left_quotes (s : string) : string :=
  match s with
  | EmptyString => EmptyString
  | String c s' => if decide (c = quote_char) then trim_left_quotes s' else s
  end.
Fixpoint trim_right_quotes (s : string) : string :=
  match s with
  | EmptyString => EmptyString
  | String c s' =>
      let r := trim_right_quotes s' in
      if decide (c = quote_char /\ r = EmptyString) then EmptyString else String c r
  end.
Definition weekday_UnmarshalJSON (input : string) : outcome Z :=
  let s := trim_right_quotes (trim_left_quotes input) in
  match find (fun kd => bool_decide (fst kd = s)) daysOfWeek with
  | Some (_, d) => Ret d
  | None => Fail (ErrMsg "invalid weekday")
  end.

(** ** The next run (timer/timer.go) *)

Definition timeToNext (now : Time) (hour : Z) : Z :=
  let n := Date (Year now) (Month now) (Day_of_month now) hour 0 0 0 (t_loc now) in
  let n := if time_After now n then time_Add n (24 * Hour) else n in
  time_Sub n now.

(** ** Opening hours *)

(** The market is open from the minute of its opening to the minute before
    its closing, around midnight when it closes before it opens: the minutes
    since the opening are less than those from the opening to the closing. On a
    day of the week that is closed, and on a day of the calendar in Tokyo that
    is listed, it is not. *)
Lemma IsOpen_hours (m : DefaultMarketTimeChecker) (t : Time) :
  IsOpen m t = true <->
  (minutes t - minutes (OpenTime m)) mod 1440 < (minutes (CloseTime m) - minutes (OpenTime m)) mod 1440 /\
  Weekday (In_loc t jst) ∉ ClosedDaysOfTheWeek m /\
  Forall (fun c => local_day c <> local_day (In_loc t jst)) (ClosedDays m).
Proof.
  assert (Hm : forall u, 0 <= minutes u < 1440).
  { intros u. unfold minutes, time_Hour, time_Minute, clock_sec, secPerDay. Z.div_mod_to_equations. lia. }
  unfold IsOpen. rewrite !andb_true_iff.
  assert (Ho : isOpenTime m t = true <->
    (minutes t - minutes (OpenTime m)) mod 1440 < (minutes (CloseTime m) - minutes (OpenTime m)) mod 1440).
  { unfold isOpenTime. pose proof (Hm t). pose proof (Hm (OpenTime m)). pose proof (Hm (CloseTime m)).
    rewrite negb_true_iff, orb_false_iff.
    destruct (minutes (CloseTime m) <? minutes (OpenTime m)) eqn:?, (minutes t <? minutes (OpenTime m)) eqn:?;
      Z.div_mod_to_equations; lia. }
  assert (Hw : isOpenWeekDay m (In_loc t jst) = true <-> Weekday (In_loc t jst) ∉ ClosedDaysOfTheWeek m).
  { unfold isOpenWeekDay. rewrite negb_true_iff, <- not_true_iff_false, existsb_exists. split.
    - intros H Hin. apply H. eexists. split; [by apply list_elem_of_In|lia].
    - intros H (x & Hx%list_elem_of_In & Heq). apply H. by replace (Weekday _) with x by lia. }
  assert (Hd : isOpenDate m (In_loc t jst) = true <-> Forall (fun c => local_day c <> local_day (In_loc t jst)) (ClosedDays m)).
  { unfold isOpenDate. rewrite negb_true_iff, <- not_true_iff_false, existsb_exists, Forall_forall. split.
    - intros H c Hc Hd. apply H. exists c. split; [by apply list_elem_of_In|].
      destruct (local_day_date c (In_loc t jst) Hd) as (-> & -> & ->). by rewrite !Z.eqb_refl.
    - intros H (c & Hc%list_elem_of_In & Heq). apply (H c Hc). apply same_local_day; lia. }
  rewrite Ho, Hw, Hd. tauto.
Qed.

(** ** Business days *)

Definition days_back (d : Time) (k : nat) : Time := time_Add d (- (Z.of_nat k * (24 * Hour))).
Definition business_days (m : DefaultMarketTimeChecker) (d : Time) (k : nat) : list nat :=
  List.filter (fun i => business_day m (days_back d i)) (seq 1 k).

Lemma days_back_S d k : days_back (days_back d 1) k = days_back d (S k).
Proof. unfold days_back, time_Add. cbn [t_ns t_loc]. f_equal. lia. Qed.

Lemma business_days_S m d k :
  length (business_days m d (S k)) =
  ((if business_day m (days_back d 1) then 1 else 0) + length (business_days m (days_back d 1) k))%nat.
Proof.
  assert (Hs : length (List.filter (fun i => business_day m (days_back d i)) (seq 2 k)) =
    length (business_days m (days_back d 1) k)).
  { unfold business_days. rewrite <- seq_shift. induction (seq 1 k) as [|i l IH]; [done|].
    cbn [map List.filter]. rewrite days_back_S. destruct (business_day m (days_back d (S i))); cbn; by rewrite IH. }
  unfold business_days at 1. cbn [seq List.filter]. rewrite <- Hs. by destruct (business_day m (days_back d 1)).
Qed.

Lemma sub_loop_spec m fuel : forall count d, 0 < count -> count <= Z.of_nat (length (business_days m d fuel)) ->
  exists k, sub_loop m fuel count d = Ret (days_back d k) /\ business_day m (days_back d k) = true /\
    Z.of_nat (length (business_days m d k)) = count.
Proof.
  induction fuel as [|fuel IH]; intros count d Hc Hl; [cbn in Hl; lia|].
  cbn [sub_loop]. rewrite (proj2 (Z.leb_gt count 0)) by lia. rewrite business_days_S in Hl.
  replace (time_Add d (- (24 * Hour))) with (days_back d 1) by (unfold days_back; f_equal; lia).
  destruct (business_day m (days_back d 1)) eqn:Hb.
  - destruct (decide (count = 1)) as [->|Hne].
    + exists 1%nat. rewrite business_days_S, Hb. split; [by destruct fuel|]. split; [done|]. done.
    + destruct (IH (count - 1) (days_back d 1) ltac:(lia) ltac:(lia)) as (k & Hk & Hbk & Hn).
      exists (S k). rewrite Hk, business_days_S, Hb, <- (days_back_S d k). split; [done|]. split; [done|lia].
  - destruct (IH count (days_back d 1) ltac:(lia) ltac:(lia)) as (k & Hk & Hbk & Hn).
    exists (S k). rewrite Hk, business_days_S, Hb, <- (days_back_S d k). split; [done|]. split; [done|lia].
Qed.

Lemma filter_le_add (f g h : nat -> bool) l : (forall i, f i = true -> g i = true \/ h i = true) ->
  (length (List.filter f l) <= length (List.filter g l) + length (List.filter h l))%nat.
Proof.
  intros H. induction l as [|i l IH]; [done|]. cbn. specialize (H i). destruct (f i), (g i), (h i); cbn; try lia; naive_solver.
Qed.

Section bounds.
Context (off : Z) (m : DefaultMarketTimeChecker) (d : Time) (Hloc : t_loc d = FixedZone off).

Lemma local_day_back k : local_day (days_back d k) = local_day d - Z.of_nat k.
Proof.
  destruct d as [ns loc]. cbn in Hloc. subst loc. unfold days_back, time_Add. cbn [t_ns t_loc]. rewrite !local_day_fixed.
  replace (24 * Hour) with (86400 * nsPerSec) by done. unfold secPerDay.
  replace (ns + - (Z.of_nat k * (86400 * nsPerSec))) with (ns + - (Z.of_nat k * 86400) * nsPerSec) by lia.
  rewrite Z.div_add by done. replace (ns / nsPerSec + - (Z.of_nat k * 86400) + off) with (ns / nsPerSec + off + - Z.of_nat k * 86400) by lia.
  rewrite Z.div_add by done. lia.
Qed.

(** Every seven days there is one of a day of the week. *)
Lemma weekdays_count w n : 0 <= w < 7 -> w ∉ ClosedDaysOfTheWeek m ->
  (n <= length (List.filter (fun i => isOpenWeekDay m (days_back d i)) (seq 1 (7 * n))))%nat.
Proof.
  intros Hw Hcl. induction n as [|n IH]; [lia|].
  replace (7 * S n)%nat with (7 * n + 7)%nat by lia. rewrite seq_app, List.filter_app, length_app.
  set (i := (1 + 7 * n + Z.to_nat ((local_day d - Z.of_nat (1 + 7 * n) + 1 - w) mod 7))%nat).
  assert (Hin : In i (List.filter (fun i => isOpenWeekDay m (days_back d i)) (seq (1 + 7 * n) 7))).
  { pose proof (Z.mod_pos_bound (local_day d - Z.of_nat (1 + 7 * n) + 1 - w) 7 ltac:(lia)) as Hb.
    apply filter_In. split; [apply in_seq; unfold i; lia|].
    unfold isOpenWeekDay. apply negb_true_iff, not_true_iff_false. rewrite existsb_exists. intros (x & Hx%list_elem_of_In & Heq).
    apply Hcl. replace w with x; [done|]. apply Z.eqb_eq in Heq. rewrite <- Heq. unfold Weekday, weekday_monday.
    rewrite local_day_back. unfold i. rewrite Nat2Z.inj_add, Z2Nat.id by lia. Z.div_mod_to_equations. lia. }
  destruct (List.filter _ (seq (1 + 7 * n) 7)); [done|]. cbn [length]. lia.
Qed.

(** A closed date is met at most once. *)
Lemma closed_count n :
  (length (List.filter (fun i => negb (isOpenDate m (days_back d i))) (seq 1 n)) <= length (ClosedDays m))%nat.
Proof.
  rewrite <- (length_map local_day (ClosedDays m)), <- (length_map (fun i => local_day d - Z.of_nat i) (List.filter _ _)).
  apply NoDup_incl_length.
  - apply NoDup_ListNoDup, NoDup_fmap_2; [intros i j Hij; lia|]. apply NoDup_ListNoDup, List.NoDup_filter, List.seq_NoDup.
  - intros x (i & <- & Hi)%in_map_iff. apply filter_In in Hi as [_ Hi]. unfold isOpenDate in Hi.
    rewrite negb_involutive in Hi. apply existsb_exists in Hi as (c & Hc & Heq). apply in_map_iff. exists c. split; [|done].
    rewrite <- local_day_back. apply same_local_day; lia.
Qed.
End bounds.

(** C29: The business day asked for is found. With a day of the week that is not
    closed, the loop ends: of every seven days one is open but for the dates
    that are listed, each of which is met once. What is returned is a number of
    whole days before, an open day, and the days behind it up to the date have
    as many open ones as were asked for, itself included. *)
Theorem Sub_business_days (m : DefaultMarketTimeChecker) (date : Time) (off n w : Z) (fuel : nat) :
  t_loc date = FixedZone off -> 0 < n -> 0 <= w < 7 -> w ∉ ClosedDaysOfTheWeek m ->
  (7 * (Z.to_nat n + length (ClosedDays m)) <= fuel)%nat ->
  exists k, Sub fuel m date n = Ret (days_back date k) /\ business_day m (days_back date k) = true /\
    Z.of_nat (length (business_days m date k)) = n.
Proof.
  intros Hloc Hn Hw Hcl Hf. unfold Sub. rewrite (proj2 (Z.ltb_ge n 0)), (proj2 (Z.eqb_neq n 0)) by lia.
  apply sub_loop_spec; [done|]. set (q := (Z.to_nat n + length (ClosedDays m))%nat) in *.
  pose proof (weekdays_count off m date Hloc w q Hw Hcl) as H1. pose proof (closed_count off m date Hloc (7 * q)) as H2.
  assert (H3 : (length (business_days m date (7 * q)) <= length (business_days m date fuel))%nat).
  { unfold business_days. replace fuel with (7 * q + (fuel - 7 * q))%nat by lia.
    rewrite seq_app, List.filter_app, length_app. lia. }
  pose proof (filter_le_add (fun i => isOpenWeekDay m (days_back date i)) (fun i => business_day m (days_back date i))
    (fun i => negb (isOpenDate m (days_back date i))) (seq 1 (7 * q))) as H4.
  unfold business_days in *. lapply H4; [lia|]. intros i. unfold business_day. destruct (isOpenDate _ _); cbn; auto.
Qed.

Definition tokyo : DefaultMarketTimeChecker :=
  NewDefaultMarketTimeChecker [0; 6] [Date 2019 5 1 0 0 0 0 UTC] (Date 0 1 1 23 55 0 0 UTC) (Date 0 1 1 6 10 0 0 UTC).

Lemma Sub_business_days_witness :
  exists k, Sub 100 tokyo (Date 2019 5 7 0 0 0 0 UTC) 3 = Ret (days_back (Date 2019 5 7 0 0 0 0 UTC) k) /\
    business_day tokyo (days_back (Date 2019 5 7 0 0 0 0 UTC) k) = true /\
    Z.of_nat (length (business_days tokyo (Date 2019 5 7 0 0 0 0 UTC) k)) = 3.
Proof.
  apply (Sub_business_days tokyo _ 0 3 1 100).
  - reflexivity.
  - lia.
  - lia.
  - apply (bool_decide_unpack _); vm_compute; exact I.
  - cbn. lia.
Defined.

(** With every day of the week closed the loop never ends. *)
Lemma Sub_never_returns (m : DefaultMarketTimeChecker) (date : Time) (n : Z) (fuel : nat) :
  (forall w, 0 <= w < 7 -> w ∈ ClosedDaysOfTheWeek m) -> 0 < n -> Sub fuel m date n = Panic "out of fuel".
Proof.
  intros Hall Hn. unfold Sub. rewrite (proj2 (Z.ltb_ge n 0)), (proj2 (Z.eqb_neq n 0)) by lia.
  revert date. induction fuel as [|fuel IH]; intros date; cbn [sub_loop]; rewrite (proj2 (Z.leb_gt n 0)) by lia; [done|].
  assert (business_day m (time_Add date (- (24 * Hour))) = false) as ->; [|apply IH].
  unfold business_day, isOpenWeekDay. apply andb_false_iff. right. apply negb_false_iff, existsb_exists.
  exists (Weekday (time_Add date (- (24 * Hour)))). split; [|apply Z.eqb_refl].
  apply list_elem_of_In, Hall. unfold Weekday. apply Z.mod_pos_bound. lia.
Qed.

(** Sunday is closed whatever the configuration says. *)
Lemma Sunday_always_closed (w : list Z) (days : list Time) (open close t : Time) :
  Weekday (In_loc t jst) = 0 ->
  IsOpen (NewDefaultMarketTimeChecker (convertTime w) (convertDate days) open close) t = false.
Proof.
  intros Hw. unfold IsOpen, isOpenWeekDay. rewrite Hw. cbn. by rewrite andb_false_r.
Qed.

Lemma weekday_names :
  map (fun kd => weekday_UnmarshalJSON (String quote_char (fst kd +:+ String quote_char EmptyString))) daysOfWeek =
    map Ret [0; 1; 2; 3; 4; 5; 6].
Proof. vm_compute. reflexivity. Qed.

Lemma Tokyo_hours :
  map (fun h => IsOpen tokyo (Date 2019 4 23 h 0 0 0 UTC)) [0; 3; 6; 7; 23] = [true; true; true; false; false].
Proof. vm_compute. reflexivity. Qed.

(** ** The service and the store (api/model.go, writer/marketstore.go)

    What the service answers is given by its interface; a field that is a
    pointer is [None] when the answer lacks it. *)

Record Security := mkSecurity { Symbol : string }.
Record Quote := mkQuote {
  qt_DateTime : Time; Ask : float32; AskSize : float32; AskDateTime : Time; Bid : float32; BidSize : float32;
  BidDateTime : Time; Last : float32; LastSize : float32; qt_Open : float32; qt_High : float32; qt_Low : float32;
  qt_Close : float32; PreviousClose : float32; qt_Volume : Z; ExchangeOfficialClose : float32;
  PreviousExchangeOfficialClose : float32; ChangeFromPreviousClose : float32; PercentChangeFromPreviousClose : float32;
  qt_UTCOffSet : Z;
}.
Record EquityQuote := mkEquityQuote { eq_Outcome : string; eq_Security : option Security; eq_Quote : option Quote }.
Record Bar := mkBar {
  StartDateTime : Time; EndDateTime : Time; bar_UTCOffSet : Z;
  bar_Open : float32; bar_High : float32; bar_Low : float32; bar_Close : float32; bar_Volume : float32;
}.
Record EndOfDayQuote := mkEndOfDayQuote {
  eod_Date : Time; eod_Open : float32; eod_High : float32; eod_Low : float32; eod_Close : float32; eod_PreviousClose : float32;
  eod_Volume : Z; eod_PreviousExchangeOfficialClose : float32; eod_ChangeFromPreviousClose : float32;
  eod_PercentChangeFromPreviousClose : float32;
}.
(** An answer about a security: its outcome, whose it is, its rows, and whether
    the call failed. *)
Record answer (A : Type) := mkAnswer { an_Outcome : string; an_Security : option Security; an_rows : list A; an_failed : bool }.
Arguments mkAnswer {A} _ _ _ _.
Arguments an_Outcome {A} _.
Arguments an_Security {A} _.
Arguments an_rows {A} _.
Arguments an_failed {A} _.

Class Client := {
  ListSymbols : string -> answer string;
  ListIndexSymbols : string -> answer string;
  GetRealTimeQuotes : list string -> answer EquityQuote;
  GetRealTimeBars : string -> Time -> Time -> answer Bar;
  GetIndexBars : string -> Time -> Time -> answer Bar;
  GetQuotesRange : string -> Time -> Time -> answer EndOfDayQuote;
  GetIndexQuotesRange : string -> Time -> Time -> answer EndOfDayQuote;
}.

Class MarketStoreWriter (S : Type) := { ms_Write : ColumnSeriesMap -> prog S unit }.

(** The writer of this process; no rows, no call. *)
Definition MarketStoreWriterImpl {S : Type} `{Store S} : MarketStoreWriter S := {|
  ms_Write csm := if bool_decide (csm = ∅) then mret tt else st_WriteCSM csm false
|}.

(** ** Symbols (symbols/manager.go) *)

Record ManagerImpl := mkManager {
  TargetExchanges : list string;
  TargetIndexGroups : list string;
  Identifiers : gmap string (list string);
  IndexIdentifiers : gmap string (list string);
}.
Definition NewManager (targetExchanges targetIndexGroups : list string) : ManagerImpl :=
  mkManager targetExchanges targetIndexGroups ∅ ∅.

Definition GetAllIdentifiers (m : ManagerImpl) : list string :=
  concat (map (fun exchange => default [] (Identifiers m !! exchange)) (TargetExchanges m)).
Definition GetAllIndexIdentifiers (m : ManagerImpl) : list string :=
  concat (map (fun group => default [] (IndexIdentifiers m !! group)) (TargetIndexGroups m)).

(** The identifiers of an answer; an empty symbol is none. *)
Definition identifiers_of (group : string) (symbols : list string) : list string :=
  map (fun symbol => symbol +:+ "." +:+ group) (List.filter (fun symbol => negb (bool_decide (symbol = ""))) symbols).

(** A failure ends the update: the groups behind it keep what they had. *)
Fixpoint update_groups (list_symbols : string -> answer string) (groups : list string) (ids : gmap string (list string)) :
    gmap string (list string) :=
  match groups with
  | [] => ids
  | group :: groups' =>
      let resp := list_symbols group in
      if an_failed resp || negb (bool_decide (an_Outcome resp = "Success")) then ids
      else update_groups list_symbols groups' (<[group := identifiers_of group (an_rows resp)]> ids)
  end.

Definition sm_UpdateSymbols `{C : Client} (m : ManagerImpl) : ManagerImpl :=
  mkManager (TargetExchanges m) (TargetIndexGroups m) (update_groups ListSymbols (TargetExchanges m) (Identifiers m)) (IndexIdentifiers m).
Definition sm_UpdateIndexSymbols `{C : Client} (m : ManagerImpl) : ManagerImpl :=
  mkManager (TargetExchanges m) (TargetIndexGroups m) (Identifiers m)
    (update_groups ListIndexSymbols (TargetIndexGroups m) (IndexIdentifiers m)).
Definition sm_Update `{C : Client} (m : ManagerImpl) : ManagerImpl := sm_UpdateIndexSymbols (sm_UpdateSymbols m).

(** ** From answers to series (writer) *)

Definition float_zero (f : float32) : bool := SFeqb f (S754_zero false).
Definition utc_of (t : Time) (UTCOffSet : Z) : Z := Unix (time_Add t (int64 (int64 (-1 * UTCOffSet) * Hour))).

(** A bar without its times, or without a volume where one is expected, is not
    written. *)
Definition keep_bar (isIndexSymbol : bool) (bar : Bar) : bool :=
  negb (IsZero (StartDateTime bar) || IsZero (EndDateTime bar)) && negb (negb isIndexSymbol && float_zero (bar_Volume bar)).

Definition newColumnSeries (bars : list Bar) : ColumnSeries :=
  table [("Epoch", int64_column (map (fun b => utc_of (StartDateTime b) (bar_UTCOffSet b)) bars));
         ("Open", float32_column (map bar_Open bars)); ("Close", float32_column (map bar_Close bars));
         ("High", float32_column (map bar_High bars)); ("Low", float32_column (map bar_Low bars));
         ("Volume", float32_column (map bar_Volume bars))].

Definition convertBars (timeframe symbol : string) (bars : list Bar) (isIndexSymbol : bool) : ColumnSeriesMap :=
  match List.filter (keep_bar isIndexSymbol) bars with
  | [] => ∅
  | kept => AddColumnSeries (NewTimeBucketKey (symbol +:+ "/" +:+ timeframe +:+ "/OHLCV") []) (newColumnSeries kept) ∅
  end.

(** Nothing calls it: an index's bars without the test of the volume. *)
Definition convertIndexToCSM (timeframe symbol : string) (bars : list Bar) : ColumnSeriesMap :=
  let kept := List.filter (fun bar => negb (IsZero (StartDateTime bar) || IsZero (EndDateTime bar))) bars in
  AddColumnSeries (NewTimeBucketKey (symbol +:+ "/" +:+ timeframe +:+ "/OHLCV") []) (newColumnSeries kept) ∅.

Definition keep_eod (isIndexSymbol : bool) (eq : EndOfDayQuote) : bool :=
  negb (IsZero (eod_Date eq)) && negb (negb isIndexSymbol && (eod_Volume eq =? 0)).

Definition newDailySeries (quotes : list EndOfDayQuote) : ColumnSeries :=
  table [("Epoch", int64_column (map (fun q => Unix (eod_Date q)) quotes));
         ("Open", float32_column (map eod_Open quotes)); ("Close", float32_column (map eod_Close quotes));
         ("High", float32_column (map eod_High quotes)); ("Low", float32_column (map eod_Low quotes));
         ("PreviousClose", float32_column (map eod_PreviousClose quotes)); ("Volume", int64_column (map eod_Volume quotes));
         ("PreviousExchangeOfficialClose", float32_column (map eod_PreviousExchangeOfficialClose quotes));
         ("ChangeFromPreviousClose", float32_column (map eod_ChangeFromPreviousClose quotes));
         ("PercentChangeFromPreviousClose", float32_column (map eod_PercentChangeFromPreviousClose quotes))].

Definition convertEndOfDay (timeframe symbol : string) (quotes : list EndOfDayQuote) (isIndexSymbol : bool) : ColumnSeriesMap :=
  match List.filter (keep_eod isIndexSymbol) quotes with
  | [] => ∅
  | kept => AddColumnSeries (NewTimeBucketKey (symbol +:+ "/" +:+ timeframe +:+ "/OHLCV") []) (newDailySeries kept) ∅
  end.

Definition getLatestTime (dt1 dt2 dt3 : Time) : Time :=
  if Unix dt2 <? Unix dt1 then (if Unix dt3 <? Unix dt1 then dt1 else dt3)
  else if Unix dt3 <? Unix dt2 then dt2 else dt3.

Definition newQuoteSeries (epoch : Z) (q : Quote) : ColumnSeries :=
  table [("Epoch", int64_column [epoch]); ("Ask", float32_column [Ask q]); ("AskSize", float32_column [AskSize q]);
         ("Bid", float32_column [Bid q]); ("BidSize", float32_column [BidSize q]); ("Last", float32_column [Last q]);
         ("LastSize", float32_column [LastSize q]); ("DateTime", int64_column [Unix (qt_DateTime q)]);
         ("Open", float32_column [qt_Open q]); ("High", float32_column [qt_High q]); ("Low", float32_column [qt_Low q]);
         ("Close", float32_column [qt_Close q]); ("Volume", int64_column [qt_Volume q]);
         ("PreviousClose", float32_column [PreviousClose q]); ("ExchangeOfficialClose", float32_column [ExchangeOfficialClose q]);
         ("PreviousExchangeOfficialClose", float32_column [PreviousExchangeOfficialClose q]);
         ("ChangeFromPreviousClose", float32_column [ChangeFromPreviousClose q]);
         ("PercentChangeFromPreviousClose", float32_column [PercentChangeFromPreviousClose q])].

(** The bucket has the symbol without its exchange. *)
Fixpoint convertQuotes (timeframe : string) (quotes : list EquityQuote) (csm : ColumnSeriesMap) : outcome ColumnSeriesMap :=
  match quotes with
  | [] => Ret csm
  | eq :: quotes' =>
      if negb (bool_decide (eq_Outcome eq = "Success")) then convertQuotes timeframe quotes' csm
      else
        match eq_Quote eq with
        | None => Panic "invalid memory address or nil pointer dereference"
        | Some q =>
            if IsZero (AskDateTime q) || IsZero (BidDateTime q) then convertQuotes timeframe quotes' csm
            else
              let latestDateTime := getLatestTime (qt_DateTime q) (AskDateTime q) (BidDateTime q) in
              let cs := newQuoteSeries (utc_of latestDateTime (qt_UTCOffSet q)) q in
              match eq_Security eq with
              | None => Panic "invalid memory address or nil pointer dereference"
              | Some sec =>
                  let tbk := NewTimeBucketKey (Symbol sec +:+ "/" +:+ timeframe +:+ "/TICK") [] in
                  convertQuotes timeframe quotes' (AddColumnSeries tbk cs csm)
              end
        end
  end.

Section feed.
Context {S : Type} `{C : Client} `{W : MarketStoreWriter S}.

Definition BarWriter_Write (timeframe symbol : string) (bars : list Bar) (isIndexSymbol : bool) : prog S unit :=
  ms_Write (convertBars timeframe symbol bars isIndexSymbol).
Definition QuotesRangeWriter_Write (timeframe symbol : string) (quotes : list EndOfDayQuote) (isIndexSymbol : bool) : prog S unit :=
  ms_Write (convertEndOfDay timeframe symbol quotes isIndexSymbol).
Definition QuotesWriter_Write (timeframe : string) (quotes : list EquityQuote) : prog S unit :=
  csm ← lift (convertQuotes timeframe quotes ∅); ms_Write csm.

(** ** Backfills and the worker (feed) *)

(** Every identifier in turn: one without quotes is passed over, any other
    failure of the service ends the update. *)
Fixpoint update_each {A} (fetch : string -> answer A) (write : string -> list A -> prog S unit) (identifiers : list string) : prog S unit :=
  match identifiers with
  | [] => mret tt
  | identifier :: identifiers' =>
      let resp := fetch identifier in
      if an_failed resp then
        if bool_decide (an_Outcome resp = "RequestError") then update_each fetch write identifiers' else mret tt
      else
        match an_Security resp with
        | None => lift (Panic "invalid memory address or nil pointer dereference")
        | Some sec => logged (write (Symbol sec) (an_rows resp));; update_each fetch write identifiers'
        end
  end.

Definition bf_UpdateSymbols (m : ManagerImpl) (timeframe : string) (since now : Time) : prog S unit :=
  update_each (fun id => GetQuotesRange id since now)
    (fun symbol quotes => QuotesRangeWriter_Write timeframe symbol quotes false) (GetAllIdentifiers m).
Definition bf_UpdateIndexSymbols (m : ManagerImpl) (timeframe : string) (since now : Time) : prog S unit :=
  update_each (fun id => GetIndexQuotesRange id since now)
    (fun symbol quotes => QuotesRangeWriter_Write timeframe symbol quotes true) (GetAllIndexIdentifiers m).
Definition bf_UpdateClosingPrice (m : ManagerImpl) (timeframe : string) : prog S unit :=
  let response := GetRealTimeQuotes (GetAllIdentifiers m) in
  if an_failed response then mret tt else logged (QuotesWriter_Write timeframe (an_rows response)).
Definition bf_Update (m : ManagerImpl) (rangeTimeframe timeframe : string) (since now : Time) : prog S unit :=
  bf_UpdateSymbols m rangeTimeframe since now;; bf_UpdateIndexSymbols m rangeTimeframe since now;; bf_UpdateClosingPrice m timeframe.

(** Without its start date a recent backfill does nothing. *)
Definition with_start (fuel : nat) (checker : DefaultMarketTimeChecker) (days : Z) (now : Time) (k : Time -> prog S unit) : prog S unit :=
  match Sub fuel checker now days with
  | Ret startDate => k startDate
  | Fail _ => mret tt
  | Fatal msg => lift (Fatal msg)
  | Panic msg => lift (Panic msg)
  end.
Definition rb_UpdateSymbols (fuel : nat) (checker : DefaultMarketTimeChecker) (m : ManagerImpl) (timeframe : string) (days : Z)
    (now : Time) : prog S unit :=
  with_start fuel checker days now (fun startDate =>
    update_each (fun id => GetRealTimeBars id startDate now) (fun symbol bars => BarWriter_Write timeframe symbol bars false)
      (GetAllIdentifiers m)).
Definition rb_UpdateIndexSymbols (fuel : nat) (checker : DefaultMarketTimeChecker) (m : ManagerImpl) (timeframe : string) (days : Z)
    (now : Time) : prog S unit :=
  with_start fuel checker days now (fun startDate =>
    update_each (fun id => GetIndexBars id startDate now) (fun symbol bars => BarWriter_Write timeframe symbol bars true)
      (GetAllIndexIdentifiers m)).
Definition rb_Update (fuel : nat) (checker : DefaultMarketTimeChecker) (m : ManagerImpl) (timeframe : string) (days : Z)
    (now : Time) : prog S unit :=
  rb_UpdateSymbols fuel checker m timeframe days now;; rb_UpdateIndexSymbols fuel checker m timeframe days now.

(** One try of the worker. *)
Definition worker_try (checker : DefaultMarketTimeChecker) (m : ManagerImpl) (timeframe : string) (now : Time) : prog S unit :=
  if negb (IsOpen checker now) then mret tt
  else
    let response := GetRealTimeQuotes (GetAllIdentifiers m) in
    if an_failed response then fail (ErrMsg "failed to get data from Xignite API.")
    else QuotesWriter_Write timeframe (an_rows response).
End feed.
