(* ===== verification/GoLayout.v ===== *)
(** * Layouts of times (the standard library's package time)

    A layout is a text with the parts of a reference time in it.
    [layout_chunks] is the loop over [nextStdChunk], [parse] the function
    behind [time.Parse] and [time.ParseInLocation]. *)

From S2P Require Export GoTimeParse.

#[local] Open Scope string_scope.
#[local] Open Scope Z_scope.

Definition tail (n : nat) (s : string) : string := String.substring n (String.length s) s.
Definition starts (p s : string) : bool := String.prefix p s.

(** ** The parts of a layout *)

Inductive std :=
  | stdLongMonth | stdMonth | stdNumMonth | stdZeroMonth
  | stdLongWeekDay | stdWeekDay | stdDay | stdUnderDay | stdZeroDay
  | stdHour | stdHour12 | stdZeroHour12
  | stdMinute | stdZeroMinute | stdSecond | stdZeroSecond
  | stdLongYear | stdYear | stdPM | stdpm | stdTZ
  | stdISO8601TZ | stdISO8601SecondsTZ | stdISO8601ShortTZ | stdISO8601ColonTZ | stdISO8601ColonSecondsTZ
  | stdNumTZ | stdNumSecondsTz | stdNumShortTZ | stdNumColonTZ | stdNumColonSecondsTZ
  | stdFracSecond0 (digits : nat) | stdFracSecond9 (digits : nat).

Definition is_lower (c : ascii) : bool := let n := Z.of_nat (nat_of_ascii c) in (97 <=? n) && (n <=? 122).
Definition startsWithLowerCase (s : string) : bool := match s with String c _ => is_lower c | "" => false end.
Fixpoint count_char (c : ascii) (s : string) : nat :=
  match s with String d s' => if Ascii.eqb c d then S (count_char c s') else O | "" => O end.

(** The part a layout begins with, and how many characters it has. *)
Definition first_of (table : list (string * std)) (s : string) : option (std * nat) :=
  option_map (fun e => (snd e, String.length (fst e))) (List.find (fun e => starts (fst e) s) table).
Definition std_at (s : string) : option (std * nat) :=
  match s with
  | "" => None
  | String c rest =>
      match c with
      | "J"%char => if starts "January" s then Some (stdLongMonth, 7%nat)
               else if starts "Jan" s && negb (startsWithLowerCase (tail 3 s)) then Some (stdMonth, 3%nat) else None
      | "M"%char => if starts "Monday" s then Some (stdLongWeekDay, 6%nat)
               else if starts "Mon" s && negb (startsWithLowerCase (tail 3 s)) then Some (stdWeekDay, 3%nat)
               else first_of [("MST", stdTZ)] s
      | "0"%char => first_of [("01", stdZeroMonth); ("02", stdZeroDay); ("03", stdZeroHour12); ("04", stdZeroMinute);
                         ("05", stdZeroSecond); ("06", stdYear)] s
      | "1"%char => first_of [("15", stdHour); ("1", stdNumMonth)] s
      | "2"%char => first_of [("2006", stdLongYear); ("2", stdDay)] s
      | "_"%char => if starts "_2006" s then None else first_of [("_2", stdUnderDay)] s
      | "3"%char => Some (stdHour12, 1%nat)
      | "4"%char => Some (stdMinute, 1%nat)
      | "5"%char => Some (stdSecond, 1%nat)
      | "P"%char => first_of [("PM", stdPM)] s
      | "p"%char => first_of [("pm", stdpm)] s
      | "-"%char => first_of [("-070000", stdNumSecondsTz); ("-07:00:00", stdNumColonSecondsTZ); ("-0700", stdNumTZ);
                         ("-07:00", stdNumColonTZ); ("-07", stdNumShortTZ)] s
      | "Z"%char => first_of [("Z070000", stdISO8601SecondsTZ); ("Z07:00:00", stdISO8601ColonSecondsTZ);
                         ("Z0700", stdISO8601TZ); ("Z07:00", stdISO8601ColonTZ); ("Z07", stdISO8601ShortTZ)] s
      | "."%char =>
          match rest with
          | String d _ =>
              if Ascii.eqb d "0" || Ascii.eqb d "9" then
                let n := count_char d rest in
                match tail n rest with
                | String e _ => if is_digit e then None
                                else Some (if Ascii.eqb d "0" then stdFracSecond0 n else stdFracSecond9 n, S n)
                | "" => Some (if Ascii.eqb d "0" then stdFracSecond0 n else stdFracSecond9 n, S n)
                end
              else None
          | "" => None
          end
      | _ => None
      end
  end.

(** A run of spaces of the layout is one: [skip] cuts all of them. *)
Inductive part := Std (s : std) | Lit (c : ascii).
Definition lit (c : ascii) (l : list part) : list part :=
  match l with
  | Lit d :: _ => if Ascii.eqb c " " && Ascii.eqb d " " then l else Lit c :: l
  | _ => Lit c :: l
  end.
(** [skipping] characters belong to the part before. *)
Fixpoint layout_chunks (skipping : nat) (layout : string) : list part :=
  match layout with
  | "" => []
  | String c rest =>
      match skipping with
      | S n => layout_chunks n rest
      | O => match std_at layout with
             | Some (s, n) => Std s :: layout_chunks (n - 1) rest
             | None => lit c (layout_chunks 0 rest)
             end
      end
  end.

(** ** Reading a value *)

Record fields := mkFields {
  f_year : Z; f_month : Z; f_day : Z; f_hour : Z; f_min : Z; f_sec : Z; f_nsec : Z;
  f_am : bool; f_pm : bool; f_utc : bool; f_offset : option Z; f_name : string }.
Definition no_fields : fields := mkFields 0 1 1 0 0 0 0 false false false None "".

Definition set_year v f := let 'mkFields _ mo d h mi s ns a p u o n := f in mkFields v mo d h mi s ns a p u o n.
Definition set_month v f := let 'mkFields y _ d h mi s ns a p u o n := f in mkFields y v d h mi s ns a p u o n.
Definition set_day v f := let 'mkFields y mo _ h mi s ns a p u o n := f in mkFields y mo v h mi s ns a p u o n.
Definition set_hour v f := let 'mkFields y mo d _ mi s ns a p u o n := f in mkFields y mo d v mi s ns a p u o n.
Definition set_min v f := let 'mkFields y mo d h _ s ns a p u o n := f in mkFields y mo d h v s ns a p u o n.
Definition set_sec v f := let 'mkFields y mo d h mi _ ns a p u o n := f in mkFields y mo d h mi v ns a p u o n.
Definition set_nsec v f := let 'mkFields y mo d h mi s _ a p u o n := f in mkFields y mo d h mi s v a p u o n.
Definition set_half (pm : bool) f :=
  let 'mkFields y mo d h mi s ns a p u o n := f in mkFields y mo d h mi s ns (a || negb pm) (p || pm) u o n.
Definition set_utc f := let 'mkFields y mo d h mi s ns a p _ o n := f in mkFields y mo d h mi s ns a p true o n.
Definition set_offset v f := let 'mkFields y mo d h mi s ns a p u _ n := f in mkFields y mo d h mi s ns a p u (Some v) n.
Definition set_name v f := let 'mkFields y mo d h mi s ns a p u o _ := f in mkFields y mo d h mi s ns a p u o v.

Definition longMonthNames : list string :=
  ["January"; "February"; "March"; "April"; "May"; "June"; "July"; "August"; "September"; "October"; "November"; "December"].
Definition longDayNames : list string := ["Sunday"; "Monday"; "Tuesday"; "Wednesday"; "Thursday"; "Friday"; "Saturday"].
Definition short_names (names : list string) : list string := map (String.substring 0 3) names.

(** [lookup]: the first name that the value begins with, regardless of case. *)
Fixpoint lookup_from (i : Z) (tab : list string) (val : string) : option (Z * string) :=
  match tab with
  | [] => None
  | v :: tab' => if starts (ToLower v) (ToLower val) then Some (i, tail (String.length v) val) else lookup_from (i + 1) tab' val
  end.

(** [parseNanoseconds] of a point and [n] digits. *)
Definition parseNanoseconds (value : string) (n : nat) : option (Z * string) :=
  match value with
  | String "." rest =>
      match digits_val 0 (String.substring 0 n rest) with
      | Some ns => if (ns <? 1000000000) && negb (n =? 0)%nat
                   then Some (ns * 10 ^ Z.max 0 (9 - Z.of_nat n), tail n rest) else None
      | None => None
      end
  | _ => None
  end.
Fixpoint count_digits (most : nat) (s : string) : nat :=
  match most, s with
  | S k, String c s' => if is_digit c then S (count_digits k s') else O
  | _, _ => O
  end.

Definition starts_fraction (value : string) : bool :=
  match value with String "." (String d _) => is_digit d | _ => false end.

Definition two (s : string) (i : nat) : option Z :=
  match String.get i s, String.get (S i) s with Some a, Some b => atoi2 a b | _, _ => None end.
Definition colon (s : string) (i : nat) : bool := bool_decide (String.get i s = Some ":"%char).
(** The sign, the hours, the minutes and seconds at these places; the length. *)
Definition zone_at (s : std) : option (nat * option nat * option nat * list nat) :=
  match s with
  | stdISO8601ColonTZ | stdNumColonTZ => Some (6%nat, Some 4%nat, None, [3%nat])
  | stdNumShortTZ | stdISO8601ShortTZ => Some (3%nat, None, None, [])
  | stdISO8601ColonSecondsTZ | stdNumColonSecondsTZ => Some (9%nat, Some 4%nat, Some 7%nat, [3%nat; 6%nat])
  | stdISO8601SecondsTZ | stdNumSecondsTz => Some (7%nat, Some 3%nat, Some 5%nat, [])
  | stdISO8601TZ | stdNumTZ => Some (5%nat, Some 3%nat, None, [])
  | _ => None
  end.
Definition parse_zone (s : std) (value : string) : option (Z * string) :=
  match zone_at s with
  | None => None
  | Some (len, m, sec, colons) =>
      if (String.length value <? len)%nat || negb (forallb (colon value) colons) then None else
      match two value 1, match m with Some i => two value i | None => Some 0 end,
            match sec with Some i => two value i | None => Some 0 end with
      | Some hr, Some mm, Some ss =>
          let zoneOffset := (hr * 60 + mm) * 60 + ss in
          match String.get 0 value with
          | Some "+"%char => Some (zoneOffset, tail len value)
          | Some "-"%char => Some (- zoneOffset, tail len value)
          | _ => None
          end
      | _, _, _ => None
      end
  end.

Definition bounded (set : Z -> fields -> fields) (lo hi : Z) (f : fields) (r : option (Z * string)) : option (fields * string) :=
  match r with
  | Some (v, rest) => if (lo <=? v) && (v <? hi) then Some (set v f, rest) else None
  | None => None
  end.
Definition kept (f : fields) (r : option (Z * string)) : option (fields * string) :=
  option_map (fun e => (f, snd e)) r.
Definition fraction_next (layout : list part) : bool :=
  match List.find (fun p => match p with Std _ => true | Lit _ => false end) layout with
  | Some (Std (stdFracSecond0 _)) | Some (Std (stdFracSecond9 _)) => true
  | _ => false
  end.

(** One part of the layout; [layout] is what is behind it. *)
Definition parse_std (s : std) (layout : list part) (value : string) (f : fields) : option (fields * string) :=
  match s with
  | stdYear =>
      match two value 0 with
      | Some y => Some (set_year (if 69 <=? y then y + 1900 else y + 2000) f, tail 2 value)
      | None => None
      end
  | stdLongYear =>
      if (4 <=? String.length value)%nat then
        match digits_val 0 (String.substring 0 4 value) with Some y => Some (set_year y f, tail 4 value) | None => None end
      else None
  | stdMonth => bounded set_month 1 13 f (lookup_from 1 (short_names longMonthNames) value)
  | stdLongMonth => bounded set_month 1 13 f (lookup_from 1 longMonthNames value)
  | stdNumMonth => bounded set_month 1 13 f (getnum value false)
  | stdZeroMonth => bounded set_month 1 13 f (getnum value true)
  | stdWeekDay => kept f (lookup_from 0 (short_names longDayNames) value)
  | stdLongWeekDay => kept f (lookup_from 0 longDayNames value)
  | stdDay => bounded set_day 0 100 f (getnum value false)
  | stdUnderDay => bounded set_day 0 100 f (getnum (match value with String " " v => v | _ => value end) false)
  | stdZeroDay => bounded set_day 0 100 f (getnum value true)
  | stdHour => bounded set_hour 0 24 f (getnum value false)
  | stdHour12 => bounded set_hour 0 13 f (getnum value false)
  | stdZeroHour12 => bounded set_hour 0 13 f (getnum value true)
  | stdMinute => bounded set_min 0 60 f (getnum value false)
  | stdZeroMinute => bounded set_min 0 60 f (getnum value true)
  | stdSecond | stdZeroSecond =>
      match bounded set_sec 0 60 f (getnum value (match s with stdZeroSecond => true | _ => false end)) with
      | Some (f', rest) =>
          if starts_fraction rest && negb (fraction_next layout) then
            match parseNanoseconds rest (count_digits (String.length rest) (tail 1 rest)) with
            | Some (ns, rest') => Some (set_nsec ns f', rest')
            | None => None
            end
          else Some (f', rest)
      | None => None
      end
  | stdPM => if starts "PM" value then Some (set_half true f, tail 2 value)
             else if starts "AM" value then Some (set_half false f, tail 2 value) else None
  | stdpm => if starts "pm" value then Some (set_half true f, tail 2 value)
             else if starts "am" value then Some (set_half false f, tail 2 value) else None
  | stdTZ =>
      if starts "UTC" value then Some (set_utc f, tail 3 value)
      else match parseTimeZone value with
           | Some n => Some (set_name (String.substring 0 n value) f, tail n value)
           | None => None
           end
  | stdFracSecond0 n =>
      if (String.length value <? S n)%nat then None
      else match parseNanoseconds value n with Some (ns, rest) => Some (set_nsec ns f, rest) | None => None end
  | stdFracSecond9 _ =>
      if starts_fraction value then
        match parseNanoseconds value (count_digits 9 (tail 1 value)) with
        | Some (ns, rest) => Some (set_nsec ns f, rest)
        | None => None
        end
      else Some (f, value)
  | stdISO8601TZ | stdISO8601ShortTZ | stdISO8601ColonTZ =>
      if starts "Z" value then Some (set_utc f, tail 1 value)
      else match parse_zone s value with Some (o, rest) => Some (set_offset o f, rest) | None => None end
  | _ => match parse_zone s value with Some (o, rest) => Some (set_offset o f, rest) | None => None end
  end.

Fixpoint parse_parts (layout : list part) (value : string) (f : fields) : option fields :=
  match layout with
  | [] => if decide (value = "") then Some f else None
  | Lit c :: layout' => match skip c value with Some rest => parse_parts layout' rest f | None => None end
  | Std s :: layout' =>
      match parse_std s layout' value f with Some (f', rest) => parse_parts layout' rest f' | None => None end
  end.

(** The hour of the day from an hour of half a day. *)
Definition day_hour (f : fields) : Z :=
  if f_pm f && (f_hour f <? 12) then f_hour f + 12
  else if f_am f && (f_hour f =? 12) then 0 else f_hour f.

(** [None] for an error.  [lookupName] is the offset of an abbreviation in the
    zone [local] at a time; the zone of a result with an offset is the fixed
    zone of that offset. *)
Definition parse_time (lookupName : string -> Z -> option Z) (layout value : string) (defaultLocation : Location) : option Time :=
  match parse_parts (layout_chunks 0 layout) value no_fields with
  | None => None
  | Some f =>
      let date := Date (f_year f) (f_month f) (f_day f) (day_hour f) (f_min f) (f_sec f) (f_nsec f) in
      if negb ((1 <=? f_day f) && (f_day f <=? days_in_month (f_year f) (f_month f))) then None
      else if f_utc f then Some (date UTC)
      else match f_offset f with
           | Some o => if o =? -1 then Some (date defaultLocation)
                       else Some (In_loc (time_Add (date UTC) (- o * nsPerSec)) (FixedZone o))
           | None =>
               if decide (f_name f = "") then Some (date defaultLocation)
               else
                 let t := date UTC in
                 match lookupName (f_name f) (Unix t) with
                 | Some o => Some (In_loc (time_Add t (- o * nsPerSec)) (FixedZone o))
                 | None =>
                     let o := if starts "GMT" (f_name f) && (3 <? String.length (f_name f))%nat
                              then 3600 * fst (Atoi (tail 3 (f_name f))) else 0 in
                     Some (In_loc t (FixedZone o))
                 end
           end
  end.

Section layouts.
Context (names : Location -> string -> Z -> option Z) (local : Location).
Definition ParseTime (layout value : string) : option Time := parse_time (names local) layout value UTC.
Definition ParseInLocation (layout value : string) (loc : Location) : option Time := parse_time (names loc) layout value loc.
End layouts.

Example default_layout :
  parse_time no_names "1/2/2006 3:04:05 PM" "2/28/2017 9:30:05 PM" UTC = Some (Date 2017 2 28 21 30 5 0 UTC).
Proof. reflexivity. Qed.
Example compact_layout :
  parse_time no_names "20060102 15:04:05" "20161230 21:59:20" UTC = Some (Date 2016 12 30 21 59 20 0 UTC).
Proof. reflexivity. Qed.
Example compact_rest : parse_time no_names "20060102 15:04:05" "20161230 21:59:20 383000" UTC = None.
Proof. reflexivity. Qed.
Example rfc1123z : option_map Unix (parse_time no_names "Mon, 02 Jan 2006 15:04:05 -0700" "Tue, 10 Nov 2009 23:00:00 +0100" UTC) = Some 1257890400.
Proof. reflexivity. Qed.
Example stamp_nano : option_map t_ns (parse_time no_names "Jan _2 2006 15:04:05.000" "Feb  4 2010 21:00:57.012" UTC) = Some 1265317257012000000.
Proof. reflexivity. Qed.
