(* ===== verification/Csv.v ===== *)
(** * CSV files and the parsing of numbers (the standard library)

    The reader and the writer of encoding/csv with their default settings, and
    what strconv makes of the texts of unsigned integers, floats and booleans. *)

From S2P Require Export DataTypes.
From S2P Require Import GoStrings.

#[local] Open Scope string_scope.
#[local] Open Scope Z_scope.

Definition comma : ascii := ",".
Definition quote : ascii := ascii_of_nat 34.
Definition newline : ascii := ascii_of_nat 10.
Definition return_char : ascii := ascii_of_nat 13.
Definition one_char (c : ascii) : string := String c "".

(** ** The reader *)

(** [readLine]: a line may end in a carriage return and a newline. *)
Fixpoint normalize (s : string) : string :=
  match s with
  | "" => ""
  | String c s' =>
      if Ascii.eqb c return_char then
        match s' with
        | "" => ""
        | String d _ => if Ascii.eqb d newline then normalize s' else String c (normalize s')
        end
      else String c (normalize s')
  end.

Fixpoint skip_empty (s : string) : string :=
  match s with
  | String c s' => if Ascii.eqb c newline then skip_empty s' else s
  | "" => ""
  end.

(** Where the reader is in a record: before a field, in a field, in a field
    with quotes, behind a quote in one. *)
Inductive csv_state := AtField | InField | InQuotes | AfterQuote.

(** [readRecord] behind the empty lines: the fields and what is left, [None]
    for a bare or missing quote. *)
Fixpoint read_fields (st : csv_state) (field : string) (fields : list string) (s : string) : option (list string * string) :=
  match s with
  | "" =>
      match st with
      | InQuotes => None
      | _ => Some (fields ++ [field], "")%list
      end
  | String c s' =>
      match st with
      | InQuotes => if Ascii.eqb c quote then read_fields AfterQuote field fields s'
                    else read_fields InQuotes (field +:+ one_char c) fields s'
      | _ =>
          if Ascii.eqb c comma then read_fields AtField "" (fields ++ [field])%list s'
          else if Ascii.eqb c newline then Some (fields ++ [field], s')%list
          else if Ascii.eqb c quote then
            match st with
            | AtField => read_fields InQuotes "" fields s'
            | AfterQuote => read_fields InQuotes (field +:+ one_char quote) fields s'
            | _ => None
            end
          else match st with
               | AfterQuote => None
               | _ => read_fields InField (field +:+ one_char c) fields s'
               end
      end
  end.

(** The text that is left, and how many fields a record has: the first one
    sets it. *)
Record csv_Reader := mkReader { cr_text : string; FieldsPerRecord : nat }.
Definition csv_NewReader (text : string) : csv_Reader := mkReader (normalize text) 0.

(** [None] for an error or the end of the file. *)
Definition csv_Read (r : csv_Reader) : option (list string * csv_Reader) :=
  match skip_empty (cr_text r) with
  | "" => None
  | text =>
      match read_fields AtField "" [] text with
      | Some (row, rest) =>
          if (FieldsPerRecord r =? 0)%nat then Some (row, mkReader rest (length row))
          else if (length row =? FieldsPerRecord r)%nat then Some (row, mkReader rest (FieldsPerRecord r))
          else None
      | None => None
      end
  end.

(** ** The writer *)

Fixpoint has_char (c : ascii) (s : string) : bool :=
  match s with String d s' => Ascii.eqb c d || has_char c s' | "" => false end.
(** Spaces of ASCII. *)
Definition is_space (c : ascii) : bool := let n := Z.of_nat (nat_of_ascii c) in (n =? 32) || ((9 <=? n) && (n <=? 13)).
Definition fieldNeedsQuotes (field : string) : bool :=
  match field with
  | "" => false
  | String c _ =>
      bool_decide (field = String "\" ".") ||
      has_char comma field || has_char quote field || has_char return_char field || has_char newline field || is_space c
  end.
Fixpoint escape (s : string) : string :=
  match s with
  | "" => ""
  | String c s' => if Ascii.eqb c quote then String quote (String quote (escape s')) else String c (escape s')
  end.
Definition csv_field (field : string) : string :=
  if fieldNeedsQuotes field then String quote (escape field +:+ one_char quote) else field.
Definition csv_Write (row : list string) : string := Join (map csv_field row) (one_char comma) +:+ one_char newline.

(** ** Numbers *)

(** [strconv.ParseUint(s, 10, bits)] *)
Definition ParseUint (s : string) (bits : Z) : Z * bool :=
  match s with
  | "" => (0, false)
  | _ => match digits_val 0 s with
         | Some v => if 2 ^ bits <=? v then (2 ^ bits - 1, false) else (v, true)
         | None => (0, false)
         end
  end.

Definition ParseBool (s : string) : option bool :=
  if bool_decide (s ∈ ["1"; "t"; "T"; "true"; "TRUE"; "True"]) then Some true
  else if bool_decide (s ∈ ["0"; "f"; "F"; "false"; "FALSE"; "False"]) then Some false
  else None.

Definition hex_val (c : ascii) : option Z :=
  let n := Z.of_nat (nat_of_ascii (lower_ascii c)) in
  if is_digit c then Some (digit_val c) else if (97 <=? n) && (n <=? 102) then Some (n - 87) else None.
Definition float_digit (hex : bool) (c : ascii) : option Z :=
  if hex then hex_val c else if is_digit c then Some (digit_val c) else None.

(** The digits of a mantissa with the number of those behind the point; whether
    there was a digit and a point. *)
Fixpoint mantissa (hex : bool) (m frac : Z) (digits dot : bool) (s : string) : Z * Z * bool * string :=
  match s with
  | "" => (m, frac, digits, "")
  | String c s' =>
      if Ascii.eqb c "_" then mantissa hex m frac digits dot s'
      else if Ascii.eqb c "." then (if dot then (m, frac, digits, s) else mantissa hex m frac digits true s')
      else match float_digit hex c with
           | Some d => mantissa hex (m * (if hex then 16 else 10) + d) (if dot then frac + 1 else frac) true dot s'
           | None => (m, frac, digits, s)
           end
  end.
(** More than five digits of an exponent are as good as five. *)
Fixpoint exponent_digits (e : Z) (s : string) : option Z :=
  match s with
  | "" => Some e
  | String c s' => if Ascii.eqb c "_" then exponent_digits e s'
                   else if is_digit c then exponent_digits (if e <? 10000 then e * 10 + digit_val c else e) s' else None
  end.
Definition exponent (s : string) : option Z :=
  match s with
  | String c s' =>
      let body := if Ascii.eqb c "+" || Ascii.eqb c "-" then s' else s in
      match body with
      | String d _ => if is_digit d
                      then option_map (fun e => if Ascii.eqb c "-" then - e else e) (exponent_digits 0 body) else None
      | "" => None
      end
  | "" => None
  end.

(** [underscoreOK] behind the sign: a digit on both sides. *)
Inductive saw := SawStart | SawDigit | SawUnderscore | SawOther.
Fixpoint underscores (hex : bool) (last : saw) (s : string) : bool :=
  match s with
  | "" => match last with SawUnderscore => false | _ => true end
  | String c s' =>
      if match float_digit hex c with Some _ => true | None => false end then underscores hex SawDigit s'
      else if Ascii.eqb c "_" then match last with SawDigit => underscores hex SawUnderscore s' | _ => false end
      else match last with SawUnderscore => false | _ => underscores hex SawOther s' end
  end.

Definition hex_prefix (s : string) : option string :=
  match s with
  | String "0" (String x (String c s')) => if Ascii.eqb (lower_ascii x) "x" then Some (String c s') else None
  | _ => None
  end.

(** [m * 10 ^ e] or [m * 2 ^ e] rounded once, to nearest even. *)
Definition round_decimal (prec emax : Z) (neg : bool) (m e : Z) : spec_float :=
  let z := if neg then - m else m in
  if 0 <=? e then binary_normalize prec emax (z * 10 ^ e) 0 neg
  else match m with
       | Z.pos p => SFdiv prec emax (S754_finite neg p 0) (S754_finite false (Z.to_pos (10 ^ (- e))) 0)
       | _ => S754_zero neg
       end.

Definition special (s : string) : option spec_float :=
  let l := ToLower s in
  if bool_decide (l ∈ ["inf"; "infinity"; "+inf"; "+infinity"]) then Some (S754_infinity false)
  else if bool_decide (l ∈ ["-inf"; "-infinity"]) then Some (S754_infinity true)
  else if bool_decide (l = "nan") then Some S754_nan
  else None.

(** [readFloat]: the sign, the base, the mantissa, its digits behind the point
    and the exponent. *)
Definition readFloat (s : string) : option (bool * bool * Z * Z) :=
  let '(neg, body) := match s with
                      | String "+" s' => (false, s')
                      | String "-" s' => (true, s')
                      | _ => (false, s)
                      end in
  let '(hex, number) := match hex_prefix body with Some n => (true, n) | None => (false, body) end in
  let '(m, frac, digits, rest) := mantissa hex 0 0 false false number in
  let ok := underscores hex (if hex : bool then SawDigit else SawStart) number in
  let shift := frac * (if hex then 4 else 1) in
  if negb digits || negb ok then None
  else match rest with
       | "" => if hex then None else Some (neg, hex, m, - shift)
       | String c rest' =>
           if Ascii.eqb (lower_ascii c) (if hex then "p" else "e")
           then option_map (fun e => (neg, hex, m, e - shift)) (exponent rest') else None
       end.

(** [strconv.ParseFloat]: out of range is an error. *)
Definition parse_float (prec emax : Z) (s : string) : option spec_float :=
  match special s with
  | Some f => Some f
  | None =>
      match readFloat s with
      | None => None
      | Some (neg, hex, m, e) =>
          let f := if hex : bool then binary_normalize prec emax (if neg : bool then - m else m) e neg
                   else round_decimal prec emax neg m e in
          match f with S754_infinity _ => None | _ => Some f end
      end
  end.
Definition ParseFloat32 : string -> option spec_float := parse_float 24 128.
Definition ParseFloat64 : string -> option spec_float := parse_float 53 1024.

Example float_tenth : option_map float64_bits (ParseFloat64 "0.1") = Some 0x3FB999999999999A%Z.
Proof. vm_compute. reflexivity. Qed.
Example float_exp : option_map float64_bits (ParseFloat64 "-1.5e-3") = Some (2 ^ 63 + 0x3F589374BC6A7EFA).
Proof. vm_compute. reflexivity. Qed.
Example float_single : option_map float32_bits (ParseFloat32 "16777217") = Some 0x4B800000%Z.
Proof. vm_compute. reflexivity. Qed.
Example float_hex : ParseFloat64 "0x1p-1" = ParseFloat64 ".5".
Proof. vm_compute. reflexivity. Qed.
Example float_underscore : ParseFloat64 "1_000.5" = ParseFloat64 "1000.5" /\ ParseFloat64 "1__0" = None.
Proof. vm_compute. split; reflexivity. Qed.
Example float_range : ParseFloat32 "1e39" = None /\ ParseFloat64 "1e39" <> None /\ ParseFloat64 "1,5" = None.
Proof. vm_compute. repeat split; discriminate. Qed.
Example float_smallest : option_map float64_bits (ParseFloat64 "4.9e-324") = Some 1.
Proof. vm_compute. reflexivity. Qed.

Example csv_two : csv_Read (csv_NewReader ("a, b,c" +:+ one_char newline +:+ "1,2,3")) =
  Some (["a"; " b"; "c"], mkReader "1,2,3" 3)%list.
Proof. reflexivity. Qed.
Example csv_quoted : option_map fst (csv_Read (csv_NewReader (csv_Write ["x,y"; String quote "z"; "w"]))) = Some ["x,y"; String quote "z"; "w"]%list.
Proof. reflexivity. Qed.

(** ** What is written is read *)

Fixpoint no_chars (f : ascii -> bool) (s : string) : bool :=
  match s with String c s' => negb (f c) && no_chars f s' | "" => true end.
Definition separator (c : ascii) : bool := Ascii.eqb c comma || Ascii.eqb c newline || Ascii.eqb c quote.
