(* ===== verification/Loader.v ===== *)
(** * Loading CSV files (cmd/connect/loader)

    The rows of a CSV file become a column series: the times from its Epoch
    column in a layout of the user's, the other columns by their types in the
    bucket.  The control file's text is YAML, whose reading is [Unmarshal]. *)

From S2P Require Export Csv GoLayout Numpy.
From S2P Require Import GoStrings.

#[local] Open Scope string_scope.
#[local] Open Scope Z_scope.
#[local] Open Scope outcome_scope.

(** ** The control file and the columns *)

(** [ColumnNameMap] is nil or a list. *)
Record CSVConfig := mkCSVConfig {
  FirstRowHasColumnNames : bool; TimeFormat : string; Timezone : string; ColumnNameMap : option (list string) }.
Record CSVMetadata := mkCSVMetadata { cvm_Config : CSVConfig; cvm_DSV : list DataShape; ColumnIndex : list Z }.

Definition nil_deref {A} : outcome A := Panic "invalid memory address or nil pointer dereference".
Definition out_of_range {A} : outcome A := Panic "index out of range".
Definition nil_map {A} : outcome A := Panic "assignment to entry in nil map".

(** [strings.TrimSpace] *)
Fixpoint cut_left (s : string) : string :=
  match s with String c s' => if is_space c then cut_left s' else s | "" => "" end.
Fixpoint cut_right (s : string) : string :=
  match s with
  | "" => ""
  | String c s' => match cut_right s' with
                   | "" => if is_space c then "" else one_char c
                   | t => String c t
                   end
  end.
Definition TrimSpace (s : string) : string := cut_right (cut_left s).

Section control.
Context (Unmarshal : string -> option CSVConfig).

(** Nil without a file. *)
Definition readControlFile (controlFD : option string) : outcome (option CSVConfig) :=
  match controlFD with
  | None => Ret None
  | Some text => match Unmarshal text with Some cf => Ret (Some cf) | None => Fail (ErrMsg "yaml") end
  end.

Definition default_config : CSVConfig := mkCSVConfig false "1/2/2006 3:04:05 PM" "UTC" None.
Definition fake_shapes : list DataShape := [mkShape "Epoch-date" INT64; mkShape "Epoch-time" INT64].

(** The names of the input's columns. *)
Definition inputNames (cf : CSVConfig) (inputColNames : list string) : outcome (list string) :=
  match FirstRowHasColumnNames cf, ColumnNameMap cf with
  | true, None => Ret (map TrimSpace inputColNames)
  | false, Some names => Ret names
  | true, Some names =>
      if (length inputColNames <? length names)%nat
      then Fail (ErrMsg "Error: ColumnNameMap from conf file has more entries than the column names from the input file")
      else Ret (zip_with (fun name old => if decide (name = "") then old else name) names inputColNames ++
                drop (length names) inputColNames)%list
  | false, None => Ret inputColNames
  end.

(** The last input column of the name, regardless of case. *)
Fixpoint find_column (i : Z) (colName : string) (inputColNames : list string) (found : Z) : Z :=
  match inputColNames with
  | [] => found
  | inputName :: rest => find_column (i + 1) colName rest (if EqualFold colName inputName then i else found)
  end.
Definition column_indexes (dsv : list DataShape) (names : list string) : list Z :=
  map (fun ds => find_column 0 (ds_Name ds) names (-1)) dsv.

(** The columns that are missing, which are named in the output: the index goes
    over [ColumnIndex], the name is taken from a list that is two shorter. *)
Fixpoint check_columns (i : nat) (dsv : list DataShape) (indexes : list Z) (failed : bool) : outcome bool :=
  match indexes with
  | [] => Ret failed
  | ix :: rest =>
      if ix =? -1 then
        match dsv !! i with
        | Some _ => check_columns (S i) dsv rest true
        | None => out_of_range
        end
      else check_columns (S i) dsv rest failed
  end.

(** Nil and no error without a data file. *)
Definition ReadMetadata (dataFD controlFD : option string) (dbDataShapes : list DataShape) :
    outcome (option (csv_Reader * CSVMetadata)) :=
  let dsv := (fake_shapes ++ dbDataShapes)%list in
  match dataFD with
  | None => Ret None
  | Some text =>
      let! cf := readControlFile controlFD in
      let cf := default default_config cf in
      if negb (FirstRowHasColumnNames cf) && bool_decide (ColumnNameMap cf = None)
      then Fail (ErrMsg "Not enough info to map DB column names to csv file")
      else
        let csvReader := csv_NewReader text in
        let! ' (inputColNames, csvReader) :=
          (if FirstRowHasColumnNames cf then
             match csv_Read csvReader with Some r => Ret r | None => Fail (ErrMsg "csv") end
           else Ret ([], csvReader)) in
        let! inputColNames := inputNames cf inputColNames in
        let columnIndex := column_indexes dsv inputColNames in
        let dsv := drop 2 dsv in
        let! fail := check_columns 2 dsv (drop 2 columnIndex) false in
        if fail : bool then Fail (ErrMsg "Unable to match all csv file columns to DB columns")
        else Ret (Some (csvReader, mkCSVMetadata cf dsv columnIndex))
  end.
End control.

(** ** Times *)

Definition drop_string (n : nat) (s : string) : string := String.substring n (String.length s - n) s.
(** [s[a:]] *)
Definition slice_from (a : Z) (s : string) : outcome string :=
  if (0 <=? a) && (a <=? Z.of_nat (String.length s)) then Ret (drop_string (Z.to_nat a) s) else Panic "slice bounds out of range".
Definition slice_to (b : Z) (s : string) : outcome string :=
  if (0 <=? b) && (b <=? Z.of_nat (String.length s)) then Ret (String.substring 0 (Z.to_nat b) s) else Panic "slice bounds out of range".
Definition len (s : string) : Z := Z.of_nat (String.length s).

Section times.
Context (names : Location -> string -> Z -> option Z) (local : Location) (LoadLocation : string -> option Location).

(** [int64(math.Pow10(n))] *)
Definition Pow10_int64 (n : Z) : Z := if n <? 0 then 0 else 10 ^ n.

(** Seconds with or without a fraction. *)
Definition parse_timestamp (dateTime : string) (tzLoc : option Location) : outcome Time :=
  match Split dateTime "." with
  | [] => out_of_range
  | p0 :: parts =>
      match ParseInt p0 64 with
      | (sec, true) =>
          let! nsec := match parts with
                       | [] => Ret 0
                       | p1 :: _ => match ParseInt p1 64 with
                                    | (nsec, true) => Ret (int64 (Pow10_int64 (9 - len p1) * nsec))
                                    | (_, false) => Fail (ErrMsg "strconv.ParseInt: parsing")
                                    end
                       end in
          Ret (time_Unix sec nsec (default local tzLoc))
      | (_, false) => Fail (ErrMsg "strconv.ParseInt: parsing")
      end
  end.

(** The last [formatFixupState] characters are not of the layout. *)
Definition parseTime (format dateTime : string) (tzLoc : option Location) (formatFixupState : Z) : outcome Time :=
  let! dateString := slice_to (len dateTime - formatFixupState) dateTime in
  let! ' (parsedTime, state) :=
    (if decide (format = "timestamp") then let! t := parse_timestamp dateTime tzLoc in Ret (t, 0)
     else
       match (match tzLoc with
              | Some loc => ParseInLocation names format dateString loc
              | None => ParseTime names local format dateString
              end) with
       | Some t => Ret (t, formatFixupState)
       | None => Fail (ErrMsg "parsing time")
       end) in
  if state =? 3 then
    let! remainder := slice_from (len dateString) dateTime in
    match ParseInt remainder 64 with
    | (millis, true) => Ret (time_Add parsedTime (int64 (millis * 1000000)))
    | (_, false) => Ret parsedTime
    end
  else if state =? 7 then
    let! remainder := slice_from (len dateString + 1) dateTime in
    match ParseInt remainder 64 with
    | (micros, true) => Ret (time_Add parsedTime (int64 (micros * 1000)))
    | (_, false) => Ret parsedTime
    end
  else Ret parsedTime.

Definition csv_cell (row : list string) (index : Z) : outcome string :=
  if index <? 0 then out_of_range
  else match row !! Z.to_nat index with Some s => Ret s | None => out_of_range end.
Definition index_at (columnIndex : list Z) (i : nat) : outcome Z :=
  match columnIndex !! i with Some ix => Ret ix | None => out_of_range end.

(** The text of a row's time: its Epoch, or its date and time. *)
Definition row_time (columnIndex : list Z) (mustComposeEpoch : bool) (row : list string) : outcome string :=
  if mustComposeEpoch then
    let! rowDateIdx := index_at columnIndex 0 in
    let! rowTimeIdx := index_at columnIndex 1 in
    let! d := csv_cell row rowDateIdx in
    let! t := csv_cell row rowTimeIdx in
    Ret (d +:+ " " +:+ t)
  else let! ix := index_at columnIndex 2 in csv_cell row ix.

(** At the first error of the file the text's surplus over the layout is set
    aside, for this row and the ones after it. *)
Fixpoint time_rows (conf : CSVConfig) (columnIndex : list Z) (mustComposeEpoch : bool) (tzLoc : option Location)
    (firstParse : bool) (formatAdj : Z) (csvData : list (list string)) (times : list Time) : outcome (list Time) :=
  match csvData with
  | [] => Ret times
  | row :: rows =>
      let! dateTime := row_time columnIndex mustComposeEpoch row in
      match parseTime (TimeFormat conf) dateTime tzLoc formatAdj with
      | Fail e =>
          if firstParse then
            let formatAdj := len dateTime - len (TimeFormat conf) in
            if 0 <? formatAdj then
              let! t := parseTime (TimeFormat conf) dateTime tzLoc formatAdj in
              time_rows conf columnIndex mustComposeEpoch tzLoc false formatAdj rows (times ++ [t])%list
            else Fail e
          else Fail e
      | Ret t => time_rows conf columnIndex mustComposeEpoch tzLoc firstParse formatAdj rows (times ++ [t])%list
      | Fatal msg => Fatal msg
      | Panic msg => Panic msg
      end
  end.

(** Nil columns when a time cannot be read. *)
Definition readTimeColumns (csvData : list (list string)) (columnIndex : list Z) (conf : CSVConfig) :
    outcome (option (list Z * list Z)) :=
  let! epochIdx := index_at columnIndex 2 in
  let! dateIdx := index_at columnIndex 0 in
  let! timeIdx := index_at columnIndex 1 in
  let mustComposeEpoch := epochIdx =? -1 in
  if mustComposeEpoch && ((dateIdx =? -1) || (timeIdx =? -1)) then Ret None
  else
    match (if decide (Timezone conf = "") then Some None else option_map Some (LoadLocation (Timezone conf))) with
    | None => Ret None
    | Some tzLoc =>
        match time_rows conf columnIndex mustComposeEpoch tzLoc true 0 csvData [] with
        | Ret times => Ret (Some (map Unix times, map (fun t => int32 (t_ns t mod nsPerSec)) times))
        | Fail _ => Ret None
        | Fatal msg => Fatal msg
        | Panic msg => Panic msg
        end
    end.

(** ** The other columns *)

(** The memory of a column's values; a value that does not parse is an error. *)
Fixpoint parse_column (parse : string -> option (list byte)) (csvRows : list (list string)) (index : Z) (col : list (list byte)) :
    outcome (list (list byte)) :=
  match csvRows with
  | [] => Ret col
  | row :: rows =>
      let! cell := csv_cell row index in
      match parse cell with
      | Some v => parse_column parse rows index (col ++ [v])%list
      | None => Fail (ErrMsg "strconv: parsing")
      end
  end.
Definition column_from (k : Kind) (parse : string -> option (list byte)) (csvRows : list (list string)) (index : Z) : outcome column :=
  let! col := parse_column parse csvRows index [] in Ret (mkCol k col).

Definition int_cell (size : nat) (s : string) : option (list byte) :=
  match ParseInt s (8 * Z.of_nat size) with (v, true) => Some (le_bytes size v) | _ => None end.
Definition uint_cell (size : nat) (s : string) : option (list byte) :=
  match ParseUint s (8 * Z.of_nat size) with (v, true) => Some (le_bytes size v) | _ => None end.

Definition getBoolColumnFromCSVRows :=
  column_from KBool (fun s => option_map (fun b : bool => le_bytes 1 (if b then 1 else 0)) (ParseBool s)).
(** Strings have no memory image of their own: only their number is kept. *)
Definition getStringColumnFromCSVRows := column_from KString (fun _ => Some []).
Definition getFloat32ColumnFromCSVRows :=
  column_from KFloat32 (fun s => option_map (fun f => le_bytes 4 (float32_bits f)) (ParseFloat32 s)).
Definition getFloat64ColumnFromCSVRows :=
  column_from KFloat64 (fun s => option_map (fun f => le_bytes 8 (float64_bits f)) (ParseFloat64 s)).
Definition getInt8ColumnFromCSVRows := column_from KInt8 (int_cell 1).
Definition getInt16ColumnFromCSVRows := column_from KInt16 (int_cell 2).
Definition getInt32ColumnFromCSVRows := column_from KInt32 (int_cell 4).
Definition getInt64ColumnFromCSVRows := column_from KInt64 (int_cell 8).
Definition getUInt8ColumnFromCSVRows := column_from KUint8 (uint_cell 1).
Definition getUInt16ColumnFromCSVRows := column_from KUint16 (uint_cell 2).
Definition getUInt32ColumnFromCSVRows := column_from KUint32 (uint_cell 4).
Definition getUInt64ColumnFromCSVRows := column_from KUint64 (uint_cell 8).

(** The types of the switch. *)
Definition getter (typ : Z) : option (list (list string) -> Z -> outcome column) :=
  if typ =? STRING then Some getStringColumnFromCSVRows
  else if typ =? FLOAT32 then Some getFloat32ColumnFromCSVRows
  else if typ =? FLOAT64 then Some getFloat64ColumnFromCSVRows
  else if typ =? BYTE then Some getInt8ColumnFromCSVRows
  else if typ =? INT16 then Some getInt16ColumnFromCSVRows
  else if typ =? INT32 then Some getInt32ColumnFromCSVRows
  else if typ =? INT64 then Some getInt64ColumnFromCSVRows
  else if typ =? UINT8 then Some getUInt8ColumnFromCSVRows
  else if typ =? UINT16 then Some getUInt16ColumnFromCSVRows
  else if typ =? UINT32 then Some getUInt32ColumnFromCSVRows
  else if typ =? UINT64 then Some getUInt64ColumnFromCSVRows
  else if typ =? BOOL then Some getBoolColumnFromCSVRows
  else None.

(** The column at index 0 of the input is left out.  A nil map for an error. *)
Fixpoint columnSeriesMapFromCSVData (csm : ColumnSeriesMap) (key : string) (csvRows : list (list string)) (columnIndex : list Z)
    (dataShapes : list DataShape) {struct dataShapes} : outcome (option ColumnSeriesMap) :=
  match dataShapes with
  | [] => Ret (Some csm)
  | shape :: shapes =>
      match columnIndex with
      | [] => out_of_range
      | index :: columnIndex' =>
          if index =? 0 then columnSeriesMapFromCSVData csm key csvRows columnIndex' shapes
          else match getter (ds_Type shape) with
               | None => columnSeriesMapFromCSVData csm key csvRows columnIndex' shapes
               | Some get =>
                   match get csvRows index with
                   | Ret col => columnSeriesMapFromCSVData (csm_AddColumn key (ds_Name shape) (Some col) csm) key csvRows columnIndex' shapes
                   | Fail _ => Ret None
                   | Fatal msg => Fatal msg
                   | Panic msg => Panic msg
                   end
               end
      end
  end.

(** A nil map and no error when the times cannot be read. *)
Definition convertCSVtoCSM (tbk : string) (cvm : CSVMetadata) (csvDataChunk : list (list string)) : outcome (option ColumnSeriesMap) :=
  let! cols := readTimeColumns csvDataChunk (ColumnIndex cvm) (cvm_Config cvm) in
  match cols with
  | None => Ret None
  | Some (epochCol, nanosCol) =>
      let csmInit := csm_AddColumn tbk "Epoch" (Some (int64_column epochCol)) ∅ in
      let! csm := columnSeriesMapFromCSVData csmInit tbk csvDataChunk (drop 2 (ColumnIndex cvm)) (cvm_DSV cvm) in
      match csm with
      | None => nil_map
      | Some csm => Ret (Some (csm_AddColumn tbk "Nanoseconds" (Some (int32_column nanosCol)) csm))
      end
  end.

(** ** A chunk of the file *)

(** At most [chunkSize] rows; whether an error or the end came first. *)
Fixpoint read_chunk (fuel : nat) (chunkSize : Z) (r : csv_Reader) (csvChunk : list (list string)) :
    list (list string) * bool * csv_Reader :=
  match fuel with
  | O => (csvChunk, false, r)
  | S fuel' =>
      if chunkSize <=? 0 then (csvChunk, false, r)
      else match csv_Read r with
           | Some (row, r') => read_chunk fuel' (chunkSize - 1) r' (csvChunk ++ [row])%list
           | None => (csvChunk, true, r)
           end
  end.
Definition chunk_fuel (r : csv_Reader) : nat := S (String.length (cr_text r)).

(** The series of the chunk, [None] behind the last; whether that is it. *)
Definition CSVtoNumpyMulti (csvReader : csv_Reader) (tbk : TimeBucketKey) (cvm : CSVMetadata) (chunkSize : Z) (isVariable : bool) :
    outcome (option NumpyMultiDataset * bool * csv_Reader) :=
  let '(csvChunk, endReached, csvReader) := read_chunk (chunk_fuel csvReader) chunkSize csvReader [] in
  match csvChunk with
  | [] => Ret (None, true, csvReader)
  | _ =>
      let! csm := convertCSVtoCSM tbk cvm csvChunk in
      match csm ≫= (fun csm => csm !! tbk) with
      | None => nil_deref
      | Some cs =>
          let cs := if isVariable then cs else Remove_ "Nanoseconds" cs in
          let! np := NewNumpyDataset cs in
          Ret (Some (NewNumpyMultiDataset np tbk), endReached, csvReader)
      end
  end.
End times.

(** ** What the loader does not do *)

Definition no_zone_names : Location -> string -> Z -> option Z := fun _ _ _ => None.
Definition utc_only (name : string) : option Location := if decide (name = "UTC") then Some UTC else None.
Definition seconds_config (names : list string) : CSVConfig := mkCSVConfig false "timestamp" "UTC" (Some names).

Lemma check_columns_found i dsv l failed : check_columns i dsv l failed = Ret false -> Forall (fun ix => ix <> -1) l.
Proof.
  revert i failed. induction l as [|ix l IH]; intros i failed H; [done|]. cbn in H.
  destruct (Z.eqb_spec ix (-1)) as [He|Hne]; [|constructor; [done|by eapply IH]].
  destruct (dsv !! i); [|discriminate H]. exfalso. clear -H. revert i H. induction l as [|ix l IH]; intros i H; [discriminate H|].
  cbn in H. destruct (ix =? -1); [destruct (dsv !! S i); [|discriminate H]|]; by eapply IH.
Qed.

(** Times are never made of a date and a time: a file without the Epoch column,
    the first of a bucket, is refused. *)
Lemma compose_never Unmarshal dataFD controlFD shapes r cvm : shapes <> [] ->
  ReadMetadata Unmarshal dataFD controlFD shapes = Ret (Some (r, cvm)) -> exists ix, ColumnIndex cvm !! 2%nat = Some ix /\ ix <> -1.
Proof.
  intros Hne. unfold ReadMetadata. destruct dataFD as [text|]; [|discriminate].
  destruct (readControlFile Unmarshal controlFD) as [cf| | |]; cbn [outcome_bind]; try discriminate.
  destruct (negb _ && _); [discriminate|].
  match goal with |- context [outcome_bind ?m _] => destruct m as [[names0 rd]| | |] end; cbn [outcome_bind]; try discriminate.
  destruct (inputNames _ _) as [names1| | |]; cbn [outcome_bind]; try discriminate.
  destruct (check_columns _ _ _ _) as [[]| | |] eqn:Hc; cbn [outcome_bind]; try discriminate.
  intros [= <- <-]. cbn [ColumnIndex]. apply check_columns_found in Hc. destruct shapes as [|shape shapes]; [done|].
  unfold column_indexes, fake_shapes in *. cbn [app map drop] in *. apply Forall_cons in Hc as [Hc _]. eexists. split; [reflexivity|exact Hc].
Qed.

(** The first missing column of a bucket with its Epoch and another one. *)
Lemma absent_column_panics :
  ReadMetadata (fun _ => Some (seconds_config ["Epoch-date"; "Epoch-time"; "Open"])) (Some "20170228,9:30,1") (Some "yaml")
    [mkShape "Epoch" INT64; mkShape "Open" FLOAT32] = Panic "index out of range".
Proof. reflexivity. Qed.

Definition open_epoch : CSVMetadata :=
  mkCSVMetadata (seconds_config ["Open"; "Epoch"]) [mkShape "Epoch" INT64; mkShape "Open" INT32] [-1; -1; 1; 0].

(** The column at index 0 of the file is left out, whatever it is, and the
    Epoch at another index is there a second time. *)
Lemma first_column_dropped :
  option_map (fun csm => orderedNames (default NewColumnSeries (csm !! "AAPL/1Min/O")))
    (match convertCSVtoCSM no_zone_names UTC utc_only "AAPL/1Min/O" open_epoch [["5"; "1488240000"]] with Ret c => c | _ => None end) =
  Some ["Epoch"; "Epoch0"; "Nanoseconds"].
Proof. vm_compute. reflexivity. Qed.

Definition epoch_open : CSVMetadata :=
  mkCSVMetadata (seconds_config ["Epoch"; "Open"]) [mkShape "Epoch" INT64; mkShape "Open" INT32] [-1; -1; 0; 1].

(** A value that does not parse, and a time, end the process. *)
Lemma bad_value_panics :
  CSVtoNumpyMulti no_zone_names UTC utc_only (csv_NewReader "1488240000,x") "AAPL/1Min/O" epoch_open 10 false =
    Panic "assignment to entry in nil map" /\
  CSVtoNumpyMulti no_zone_names UTC utc_only (csv_NewReader "x,1") "AAPL/1Min/O" epoch_open 10 false =
    Panic "invalid memory address or nil pointer dereference".
Proof. split; vm_compute; reflexivity. Qed.

(** A malformed row ends the file: the rows behind it are not loaded, without
    an error. *)
Lemma malformed_row_ends :
  option_map (fun r => (option_map (fun n => Length (nmds_nds n)) (fst (fst r)), snd (fst r)))
    (match CSVtoNumpyMulti no_zone_names UTC utc_only
             (csv_NewReader ("1488240000,1" +:+ one_char newline +:+ "1488240060,2,3" +:+ one_char newline +:+ "1488240120,4"))
             "AAPL/1Min/O" epoch_open 10 false with Ret r => Some r | _ => None end) = Some (Some 1, true).
Proof. vm_compute. reflexivity. Qed.

(** A fraction with more than nine digits, and one of a time before 1970. *)
Lemma timestamp_fractions :
  parse_timestamp UTC "10.1234567891" None = Ret (time_Unix 10 0 UTC) /\
  parse_timestamp UTC "-10.5" None = Ret (time_Unix (-10) 500000000 UTC).
Proof. split; vm_compute; reflexivity. Qed.
