(* ===== verification/Session.v ===== *)
(** * The command line (cmd/connect/session, DoRPC of frontend/client)

    A client reads commands and answers them from a database of its own
    process ([Database], of which the server is one) or from a server far away
    ([rpc]).  The files that it is given and the text that it prints are part of
    its state. *)

From S2P Require Export Loader Service SqlStatement.
From S2P Require Import GoStrings.

#[local] Open Scope string_scope.
#[local] Open Scope Z_scope.

(** ** What a client talks to *)

(** The database of the process: the service's calls, the plan of a query for a
    bucket between two times and its reading, an SQL statement ([None] for no
    series), and the rewriting of the files by [trim]. *)
Class Database (S : Type) := {
  db_Write : list WriteRequest -> prog S (list ServerResponse);
  db_Create : list CreateRequest -> prog S (list ServerResponse);
  db_Destroy : list string -> prog S (list ServerResponse);
  db_GetInfo : list string -> prog S (list GetInfoResponse);
  db_Parse : TimeBucketKey -> Z -> Z -> prog S ParseResult;
  db_scan : ParseResult -> prog S ColumnSeriesMap;
  db_sql : string -> prog S (option ColumnSeries);
  db_trim : Time -> prog S unit;
}.

Inductive rpc_args :=
  | ArgsWrite (reqs : list WriteRequest) | ArgsCreate (reqs : list CreateRequest)
  | ArgsKeys (keys : list string) | ArgsQuery (reqs : list QueryRequest).
(** The responses of the server, decoded. *)
Inductive rpc_reply :=
  | ReplyServer (rs : list ServerResponse) | ReplyInfo (rs : list GetInfoResponse)
  | ReplyQuery (rs : list (option NumpyMultiDataset)) | ReplySymbols (rs : list string).
Inductive rpc_result :=
  | ResServer (rs : list ServerResponse) | ResInfo (rs : list GetInfoResponse) | ResSeries (csm : ColumnSeriesMap)
  | ResSymbols (rs : list string).

(** What comes back over HTTP: a status other than 200 with a text, or the body
    of the call's response, decoded. *)
Inductive http_answer := NotOK (code : Z) (text : string) | Body (r : outcome rpc_reply).
Class Remote (S : Type) := { post : string -> rpc_args -> prog S http_answer }.

Definition decode_error {A} : outcome A := Fail (ErrMsg "decode").

(** The response to a write is decoded, and neither it nor the error of the
    decoding is returned. *)
Definition rpc_response `{R : MapRange} (functionName : string) (r : outcome rpc_reply) : outcome (option rpc_result) :=
  (if bool_decide (functionName = "GetInfo") then
     let! r := r in match r with ReplyInfo rs => Ret (Some (ResInfo rs)) | _ => decode_error end
   else if bool_decide (functionName ∈ ["Create"; "Destroy"]) then
     let! r := r in match r with ReplyServer rs => Ret (Some (ResServer rs)) | _ => decode_error end
   else if bool_decide (functionName ∈ ["Query"; "SQLStatement"]) then
     let! r := r in
     match r with
     | ReplyQuery rs => let! csm := resp_ToColumnSeriesMap rs ∅ in Ret (Some (ResSeries csm))
     | _ => decode_error
     end
   else if bool_decide (functionName = "ListSymbols") then
     match r with Ret (ReplySymbols rs) => Ret (Some (ResSymbols rs)) | _ => Ret (Some (ResSymbols [])) end
   else if bool_decide (functionName = "Write") then Ret None
   else Fail (ErrMsg "unsupported RPC response"))%outcome.

Definition DoRPC `{R : MapRange} {S} `{Remote S} (functionName : string) (args : rpc_args) : prog S (option rpc_result) :=
  ans ← post functionName args;
  match ans with
  | NotOK code text => fail (ErrMsg ("response error (" +:+ Itoa code +:+ "): " +:+ text))
  | Body r => lift (rpc_response functionName r)
  end.

(** ** The client *)

Inductive mode := local_mode | remote_mode.

(** A host and a port. *)
Definition NewRemoteClient (url : string) : outcome string :=
  match Split url ":" with
  | [_; _] => Ret ("http://" +:+ url)
  | _ => Fail (ErrMsg "incorrect URL, need hostname:port")
  end.

(** The streams of a subscription's answer, regardless of case. *)
Fixpoint streamsEqual (a b : list string) : bool :=
  match a, b with
  | [], [] => true
  | v :: a', w :: b' => EqualFold v w && streamsEqual a' b'
  | _, _ => false
  end.

(** [timing], and the file that results go to: the terminal when empty. *)
Record Client := mkClient { timing : bool; target : string; cl_mode : mode }.

(** What is printed: text, an error behind a text, the time of a query, the
    nodes of an EXPLAIN, the help on a topic, the range of a query. *)
Inductive output :=
  | Text (s : string) | ErrText (s : string) (e : goerr) | Elapsed | Explained (queryText : string) | HelpText (topic : string)
  | QueryRange (start : Time) (stop : option Time).
Definition Println (s : string) : output := Text (s +:+ one_char newline).

Record session (D N : Type) := mkSession {
  se_db : D; se_remote : N; se_client : Client; se_files : gmap string string; se_out : list output }.
Arguments mkSession {D N} _ _ _ _ _.
Arguments se_db {D N} _. Arguments se_remote {D N} _. Arguments se_client {D N} _.
Arguments se_files {D N} _. Arguments se_out {D N} _.

Section session.
Context {D N : Type} `{DB : Database D} `{RM : Remote N} `{R : MapRange}.
Abbreviation command := (prog (session D N)).

Definition on_db {A} (m : prog D A) : command A := fun s =>
  let '(o, d) := m (se_db s) in (o, mkSession d (se_remote s) (se_client s) (se_files s) (se_out s)).
Definition on_remote {A} (m : prog N A) : command A := fun s =>
  let '(o, n) := m (se_remote s) in (o, mkSession (se_db s) n (se_client s) (se_files s) (se_out s)).
Definition client : command Client := fun s => (Ret (se_client s), s).
Definition set_client (c : Client) : command unit := fun s =>
  (Ret tt, mkSession (se_db s) (se_remote s) c (se_files s) (se_out s)).
Definition print (o : output) : command unit := fun s =>
  (Ret tt, mkSession (se_db s) (se_remote s) (se_client s) (se_files s) (se_out s ++ [o])%list).

(** A call in the client's mode. *)
Definition in_mode {A} (l r : command A) : command A :=
  c ← client; match cl_mode c with local_mode => l | remote_mode => r end.

(** The responses of a call with a list of them; none when the server gave nil. *)
Definition server_responses (functionName : string) (l : prog D (list ServerResponse)) (args : rpc_args) : command (list ServerResponse) :=
  in_mode (on_db l)
    (r ← on_remote (DoRPC functionName args);
     match r with
     | None => mret []
     | Some (ResServer rs) => mret rs
     | Some _ => lift (Panic "interface conversion")
     end).

(** Both commands print the first failure among the responses. *)
Fixpoint first_error (rs : list ServerResponse) : option goerr :=
  match rs with
  | [] => None
  | r :: rs' => match sr_Error r with Some e => Some e | None => first_error rs' end
  end.
Definition report (m : command (list ServerResponse)) (success : string) : command unit :=
  r ← try_prog m;
  match r with
  | inr e => print (ErrText "Failed with error: " e)
  | inl rs =>
      match first_error rs with
      | Some e => print (ErrText "Failed with error: " e)
      | None => print (Println (success))
      end
  end.

(** [strings.Split(line, " ")[1:]] and its elements. *)
Definition arguments (line : string) : list string := List.tl (Split line " ").
Definition arg (args : list string) (i : nat) : command string :=
  match args !! i with Some a => mret a | None => lift (Panic "index out of range") end.

Definition create (line : string) : command unit :=
  let args := arguments line in
  key ← arg args 0; shapes ← arg args 1; rowType ← arg args 2;
  let reqs := [mkCreateRequest key shapes rowType] in
  report (server_responses "Create" (db_Create reqs) (ArgsCreate reqs))
    ("Successfully created a new catalog entry for bucket " +:+ key).

Definition destroy (line : string) : command unit :=
  let args := arguments line in
  key ← arg args 0;
  report (server_responses "Destroy" (db_Destroy [key]) (ArgsKeys [key]))
    ("Successfully removed catalog entry for key: " +:+ key).

Definition GetBucketInfo (key : TimeBucketKey) : command GetInfoResponse :=
  rs ← in_mode (on_db (db_GetInfo [key]))
         (r ← on_remote (DoRPC "GetInfo" (ArgsKeys [key]));
          match r with
          | None => mret []
          | Some (ResInfo rs) => mret rs
          | Some _ => lift (Panic "interface conversion")
          end);
  match rs with
  | [] => lift (Panic "index out of range")
  | resp :: _ => match sr_Error (ServerResp resp) with Some e => fail e | None => mret resp end
  end.

Definition record_type_String (rt : Z) : string :=
  if rt =? 0 then "FIXED" else if rt =? 1 then "VARIABLE" else if rt =? 2 then "NOTYPE"
  else "EnumRecordType(" +:+ Itoa rt +:+ ")".

Definition getinfo (duration : Z -> string) (line : string) : command unit :=
  key ← arg (arguments line) 0;
  r ← try_prog (GetBucketInfo (NewTimeBucketKey key []));
  match r with
  | inr e => print (ErrText "Failed with error: " e)
  | inl resp =>
      print (Println ("Bucket: " +:+ key));;
      print (Println ("Latest Year: " +:+ Itoa (LatestYear resp) +:+ ", RecordType: " +:+
                      record_type_String (gi_RecordType resp) +:+ ", TF: " +:+ duration (TimeFrame resp)));;
      print (Println ("Data Types: {" +:+ Join (map ds_String (DSV resp)) " " +:+ "}"))
  end.

(** ** Showing rows *)

Section show.
Context (names : Location -> string -> Z -> option Z) (LoadLocation : string -> option Location) (tz local : Location).
(** The abbreviation of a zone at a time, [strconv.FormatFloat(f, 'f', -1, 32)]
    and which files may be opened for writing. *)
Context (abbreviation : Location -> Z -> string) (FormatFloat : spec_float -> string) (writable : string -> bool).
Context (Unmarshal : string -> option CSVConfig).

(** Layouts by the length of the text.  The last has three nines without a
    point before them: they are literal. *)
Definition parseTime (t : string) : outcome Time :=
  let parsed := fun layout => match ParseTime names local layout t with Some u => Ret u | None => Fail (ErrMsg "parsing time") end in
  match String.length t with
  | 0%nat => Fail (ErrMsg "Zero length time string")
  | 10%nat => parsed "2006-01-02"
  | 16%nat => parsed "2006-01-02T15:04"
  | 18%nat => parsed "20060102 150405999"
  | _ => Fail (ErrMsg "Invalid time format")
  end.

(** The times among the arguments: the first, and the last of the others. *)
Fixpoint query_times (args : list string) (start stop : option Time) : command (option (option Time * option Time)) :=
  match args with
  | [] => mret (Some (start, stop))
  | a :: args' =>
      if bool_decide (ToLower a ∈ ["between"; "and"]) then query_times args' start stop
      else if decide (ToLower a = "csv") then
        c ← client;
        set_client (mkClient (timing c) "mstore-csv-output.csv" (cl_mode c));;
        query_times args' start stop
      else match parseTime a with
           | Ret t => match start with
                      | None => query_times args' (Some t) stop
                      | Some _ => query_times args' start (Some t)
                      end
           | _ => print (Println ("Invalid time string " +:+ a));; mret None
           end
  end.
Definition parseQueryArgs (args : list string) : command (option (TimeBucketKey * Time * option Time)) :=
  key ← arg args 0;
  r ← query_times (List.tl args) None None;
  mret (match r with Some (Some start, stop) => Some (NewTimeBucketKey key [], start, stop) | _ => None end).

Definition processShowLocal (tbk : TimeBucketKey) (start : Time) (stop : option Time) : command ColumnSeriesMap :=
  print (QueryRange start stop);;
  r ← try_prog (on_db (db_Parse tbk (Unix start) (match stop with Some t => Unix t | None => MaxEpoch end)));
  match r with
  | inr e => print (Println "No results");; fail e
  | inl pr => on_db (db_scan pr)
  end.

Definition processShowRemote (tbk : TimeBucketKey) (start : Time) (stop : option Time) : command ColumnSeriesMap :=
  let epochEnd := match stop with Some t => Unix t | None => MaxEpoch end in
  let req := mkQueryRequest false (one_char (ascii_of_nat 0)) tbk "" (Some (Unix start)) (Some epochEnd) None None [] [] in
  r ← on_remote (DoRPC "Query" (ArgsQuery [req]));
  match r with
  | Some (ResSeries csm) => mret csm
  | Some _ => lift (Panic "interface conversion")
  | None => lift nil_deref
  end.

(** *** Text *)

Fixpoint spaces (n : nat) : string := match n with O => "" | S n' => String " " (spaces n') end.
Definition pad_left (n : nat) (s : string) : string := spaces (n - String.length s) +:+ s.
Definition pad_right (n : nat) (s : string) : string := s +:+ spaces (n - String.length s).
Fixpoint zeros (n : nat) : string := match n with O => "" | S n' => String "0" (zeros n') end.
(** An integer with at least [w] digits. *)
Definition digits (w : nat) (z : Z) : string :=
  let d := Itoa (Z.abs z) in (if z <? 0 then "-" else "") +:+ zeros (w - String.length d) +:+ d.
(** [t.String()] of a time of whole seconds *)
Definition time_String (t : Time) : string :=
  let offset := zone_offset (t_loc t) (Unix t) in
  let zone := Z.quot offset 60 in
  digits 4 (Year t) +:+ "-" +:+ digits 2 (Month t) +:+ "-" +:+ digits 2 (Day_of_month t) +:+ " " +:+
  digits 2 (time_Hour t) +:+ ":" +:+ digits 2 (time_Minute t) +:+ ":" +:+ digits 2 (clock_sec t mod 60) +:+ " " +:+
  (if zone <? 0 then "-" else "+") +:+ digits 2 (Z.abs zone / 60) +:+ digits 2 (Z.abs zone mod 60) +:+ " " +:+
  abbreviation (t_loc t) (Unix t).

Fixpoint repeated (n : nat) (c : string) : string := match n with O => "" | S n' => c +:+ repeated n' c end.
Definition column_kind (cs : ColumnSeries) (name : string) : outcome Kind :=
  match GetByName name cs with Some col => Ret (col_kind col) | None => nil_deref end.
Fixpoint formatHeader (cs : ColumnSeries) (names : list string) (printChar : string) : outcome string :=
  match names with
  | [] => Ret ""
  | name :: names' =>
      (let! part := (if EqualFold name "Epoch" then Ret (repeated 29 printChar +:+ "  ")
                     else let! k := column_kind cs name in
                          Ret (match k with KInt | KInvalid | KStruct => "" | _ => repeated 10 printChar +:+ "  " end)) in
       let! rest := formatHeader cs names' printChar in
       Ret (part +:+ rest))%outcome
  end.
Definition printHeaderLine (cs : ColumnSeries) : command unit :=
  h ← lift (formatHeader cs (orderedNames cs) "="); print (Println h).
Definition printColumnNames (colNames : list string) : string :=
  Join (imap (fun i name => match i with O => pad_left 29 name | _ => pad_right 10 name end +:+ "  ") colNames) "" +:+ one_char newline.

(** A value of the [i]th row; of a kind that has no case, the text before it
    stays. *)
Definition value_text (k : Kind) (e : list byte) (before : string) : string :=
  match k with
  | KFloat32 | KFloat64 => FormatFloat (float_value k e)
  | KInt8 | KInt16 | KInt32 | KInt64 | KUint8 | KUint16 | KUint32 | KUint64 => Itoa (int_value k e)
  | KBool => if bool_decide (le_val e = 0) then "FALSE" else "TRUE"
  | _ => before
  end.
Definition element_text (cs : ColumnSeries) (ts : Z) (i : nat) (name before : string) : outcome string :=
  if EqualFold name "Epoch" then Ret (pad_left 29 (time_String (time_Unix ts 0 tz)) +:+ "  ")
  else match GetByName name cs with
       | None => nil_deref
       | Some col =>
           match col_elems col !! i with
           | Some e => Ret (pad_right 10 (value_text (col_kind col) e before))
           | None => if bool_decide (kind_size (col_kind col) = 0%nat) then Ret (pad_right 10 before) else out_of_range
           end
       end.
Fixpoint row_texts (cs : ColumnSeries) (ts : Z) (i : nat) (names : list string) (before : string) : outcome (list string) :=
  match names with
  | [] => Ret []
  | name :: names' =>
      (let! element := element_text cs ts i name before in
       let! rest := row_texts cs ts i names' element in
       Ret (element :: rest))%outcome
  end.
Fixpoint all_rows (cs : ColumnSeries) (i : nat) (epoch : list Z) : outcome (list (list string)) :=
  match epoch with
  | [] => Ret []
  | ts :: epoch' =>
      (let! row := row_texts cs ts i (orderedNames cs) "" in
       let! rows := all_rows cs (S i) epoch' in
       Ret (row :: rows))%outcome
  end.

(** The file is not truncated: what is behind the new text stays. *)
Definition overwrite (old new : string) : string := new +:+ drop_string (String.length new) old.
Definition open_output (oFile : string) : command unit := fun s =>
  if writable oFile then
    (Ret tt, mkSession (se_db s) (se_remote s) (se_client s)
               (<[oFile := default "" (se_files s !! oFile)]> (se_files s)) (se_out s))
  else (Fail (ErrMsg "open"), s).
Definition write_output (oFile text : string) : command unit := fun s =>
  (Ret tt, mkSession (se_db s) (se_remote s) (se_client s)
             (<[oFile := overwrite (default "" (se_files s !! oFile)) text]> (se_files s)) (se_out s)).

Definition csv_rows (rows : list (list string)) : string := Join (map (fun row => csv_Write (map TrimSpace row)) rows) "".

(** To the terminal without a file. *)
Definition printResult (queryText : string) (cs : option ColumnSeries) (oFile : string) : command unit :=
  (if decide (oFile = "") then mret tt else open_output oFile);;
  match cs with
  | None => print (Println "No results returned from query")
  | Some cs =>
      match GetByName "explain-output" cs with
      | Some explain => if decide (col_kind explain = KString) then print (Explained queryText) else lift (Panic "interface conversion")
      | None =>
          match GetByName "Epoch" cs with
          | None => fail (ErrMsg "Epoch column not present in output")
          | Some i_epoch =>
              if negb (bool_decide (col_kind i_epoch = KInt64)) then fail (ErrMsg "Unable to convert Epoch column")
              else if decide (oFile = "") then
                printHeaderLine cs;;
                print (Text (printColumnNames (orderedNames cs)));;
                printHeaderLine cs;;
                rows ← lift (all_rows cs 0 (col_int64s i_epoch));
                for_each rows (fun row => print (Text (Join (map (fun e => e +:+ "  ") row) "" +:+ one_char newline)));;
                printHeaderLine cs
              else
                rows ← lift (all_rows cs 0 (col_int64s i_epoch));
                write_output oFile (csv_rows rows)
          end
      end
  end.

Definition timed (b : bool) : command unit := if b then print Elapsed else mret tt.

Definition show (line : string) : command unit :=
  let args := arguments line in
  if (length args <? 2)%nat then print (Println ("Not enough arguments, see " +:+ one_char quote +:+ "\help show" +:+ one_char quote +:+ " "))
  else
    q ← parseQueryArgs args;
    match q with
    | None => print (Println ("Could not parse arguments, see " +:+ one_char quote +:+ "\help show" +:+ one_char quote +:+ " "))
    | Some (tbk, start, stop) =>
        r ← try_prog (in_mode (processShowLocal tbk start stop) (processShowRemote tbk start stop));
        match r with
        | inr e => print (ErrText "" e)
        | inl csm =>
            match map_range csm with
            | [] => print (Println "No results")
            | (_, cs) :: _ =>
                n ← lift (cs_Len cs);
                if (n =? 0)%nat then print (Println "No results")
                else
                  c ← client;
                  timed (timing c && negb (bool_decide (target c = "")));;
                  r ← try_prog (printResult line (Some cs) (target c));
                  match r with inr e => print (ErrText "" e) | inl _ => mret tt end;;
                  timed (timing c && bool_decide (target c = ""))
            end
        end
    end.

(** ** Loading files *)

(** The first file is the data, the second the control file.  Nothing and no
    error for an empty file. *)
Fixpoint open_files (files : gmap string string) (args : list string) (first : option string) :
    outcome (option (string * option string)) :=
  match args with
  | [] => Ret (match first with Some text => Some (text, None) | None => None end)
  | a :: args' =>
      match files !! a with
      | None => Fail NotExist
      | Some "" => Ret None
      | Some text =>
          match first with
          | Some data => Ret (Some (data, Some text))
          | None => open_files files args' (Some text)
          end
      end
  end.
Definition parseLoadArgs (files : gmap string string) (args : list string) : outcome (option (TimeBucketKey * string * option string)) :=
  match args with
  | key :: ((_ :: _) as paths) =>
      (let! fds := open_files files paths None in
       Ret (option_map (fun fd => (NewTimeBucketKey key [], fst fd, snd fd)) fds))%outcome
  | _ => Fail (ErrMsg "Not enough arguments, see help load")
  end.

(** Any response is a failure. *)
Definition writeNumpy (npm : NumpyMultiDataset) (isVariable : bool) : command unit :=
  let reqs := [mkWriteRequest (Some npm) isVariable] in
  rs ← server_responses "Write" (db_Write reqs) (ArgsWrite reqs);
  match rs with
  | [] => mret tt
  | r :: _ => fail (match sr_Error r with Some e => e | None => ErrMsg "" end)
  end.

Definition load_chunk : Z := 1000000.
Fixpoint load_chunks (fuel : nat) (r : csv_Reader) (tbk : TimeBucketKey) (cvm : CSVMetadata) (isVariable : bool) : command unit :=
  match fuel with
  | O => lift (Panic "out of fuel")
  | S fuel' =>
      c ← try_prog (lift (CSVtoNumpyMulti names local LoadLocation r tbk cvm load_chunk isVariable));
      match c with
      | inr e => print (ErrText "Error: " e)
      | inl (npm, endReached, r') =>
          w ← try_prog (match npm with Some npm => writeNumpy npm isVariable | None => mret tt end);
          match w with
          | inr e => print (ErrText "Error: " e)
          | inl _ => if endReached : bool then mret tt else load_chunks fuel' r' tbk cvm isVariable
          end
      end
  end.

Definition load (line : string) : command unit :=
  match arguments line with
  | [] => print (Println "Not enough arguments to load - try help")
  | args =>
      fds ← try_prog (fun s => (parseLoadArgs (se_files s) args, s));
      match fds with
      | inr e => print (ErrText "Error while parsing arguments: " e)
      | inl None => lift nil_deref
      | inl (Some (tbk, dataFD, loaderFD)) =>
          resp ← try_prog (GetBucketInfo tbk);
          match resp with
          | inr e => print (ErrText "Error finding existing bucket: " e)
          | inl resp =>
              print (Println ("Latest Year: " +:+ Itoa (LatestYear resp)));;
              m ← try_prog (lift (ReadMetadata Unmarshal (Some dataFD) loaderFD (DSV resp)));
              match m with
              | inr e => print (ErrText "Error: " e)
              | inl None => lift nil_deref
              | inl (Some (csvReader, cvm)) =>
                  load_chunks (chunk_fuel csvReader) csvReader tbk cvm (bool_decide (gi_RecordType resp = VARIABLE))
              end
          end
      end
  end.

(** ** The other commands *)

(** The key is not looked at; a date that cannot be read is the zero time. *)
Definition trim (line : string) : command unit :=
  let args := Split line " " in
  if (length args <? 3)%nat
  then print (Println ("Not enough arguments - need " +:+ one_char quote +:+ "trim key date" +:+ one_char quote))
  else
    let last := List.last args "" in
    on_db (db_trim (match parseTime last with Ret t => t | _ => zeroTime end)).

Definition remoteSQL (line : string) : command (option ColumnSeries) :=
  r ← on_remote (DoRPC "Query" (ArgsQuery [mkQueryRequest true line "" "" None None None None [] []]));
  match r with
  | Some (ResSeries csm) => mret (match map_range csm with (_, cs) :: _ => Some cs | [] => None end)
  | Some _ => lift (Panic "interface conversion")
  | None => lift nil_deref
  end.

Definition sql (line : string) : command unit :=
  r ← try_prog (in_mode (on_db (db_sql line)) (remoteSQL line));
  match r with
  | inr e => print (ErrText "" e)
  | inl cs =>
      c ← client;
      r ← try_prog (printResult line cs (target c));
      match r with inr e => print (ErrText "" e) | inl _ => mret tt end;;
      timed (timing c)
  end.

Definition functionHelp (line : string) : command unit :=
  let helpKey := match arguments line with [] => "help" | a :: _ => a end in
  if bool_decide (helpKey ∈ ["help"; "o"; "timing"; "show"; "trim"; "gaps"; "load"; "create"; "destroy"])
  then print (HelpText helpKey)
  else print (Println ("No help available for " +:+ helpKey)).

(** A line of input; whether the loop goes on. *)
Definition evaluate (duration : Z -> string) (line : string) : command bool :=
  let line := trim_spaces line in
  let prefix := fun p => String.prefix p line in
  let run := fun (m : command unit) => m;; mret true in
  if prefix "\o" then
    c ← client;
    run (set_client (mkClient (timing c) (match Split line " " with _ :: f :: _ => f | _ => "" end) (cl_mode c)))
  else if prefix "\timing" then
    c ← client; run (set_client (mkClient (negb (timing c)) (target c) (cl_mode c)))
  else if prefix "\show" then run (show line)
  else if prefix "\trim" then run (trim line)
  else if prefix "\load" then run (load line)
  else if prefix "\create" then run (create line)
  else if prefix "\destroy" then run (destroy line)
  else if prefix "\getinfo" then run (getinfo duration line)
  else if prefix "\help" || prefix "\?" then run (functionHelp line)
  else if decide (line = "help") then run (functionHelp "\help")
  else if bool_decide (line ∈ ["\stop"; "\quit"; "\q"; "exit"]) then mret false
  else if decide (line = "") then mret true
  else run (sql line).

(** [Client.Read]: the lines up to the one that ends it, or all of them. *)
Fixpoint session_Read (duration : Z -> string) (lines : list string) : command unit :=
  match lines with
  | [] => mret tt
  | line :: rest => continue ← evaluate duration line; if continue : bool then session_Read duration rest else mret tt
  end.
End show.
End session.

(** ** The server as the database of the process *)

Section server.
Context `{L : StorageLibs} `{R : MapRange} `{G : Gonum} (tz local : Location) (lookupName : string -> Z -> option Z).
Context (EnableLastKnown DisableVariableCompression : bool) (CatalogDir : dloc) (RootDir GitHash : string).
Context (InstanceID : Z) (WALBypass walfile haveWALWriter queued : bool) (now : Z) (nowLocal : Time).
Context (parse : string -> option Ctx.statements) (explain : option StatementParse -> prog server (option ColumnSeries)) (fuel : nat).

Definition server_Parse (tbk : TimeBucketKey) (start stop : Z) : prog server ParseResult :=
  q ← lift (AddTargetKey tbk (NewQuery tz CatalogDir));
  '(_, pr) ← sv_on_reader (on_cat (Parse tz (SetRange tz start stop q)));
  mret pr.
Definition server_scan (pr : ParseResult) : prog server ColumnSeriesMap :=
  sv_on_reader (scanner ← NewReader tz local EnableLastKnown pr;
                reader_Read tz EnableLastKnown DisableVariableCompression scanner).

Definition localSQL (line : string) : prog server (option ColumnSeries) :=
  ast ← lift (NewAstBuilder parse fuel line);
  es ← lift (NewExecutableStatement lookupName ast);
  es_Materialize tz local EnableLastKnown DisableVariableCompression CatalogDir now
    InstanceID WALBypass walfile haveWALWriter queued explain es.

(** From the date on, a file of its year is zeros.  A seek to a negative offset
    fails, and the file is at its start. *)
Definition trim_file (trimDate : Time) (l : floc) : prog catalog unit :=
  f ← get_info l;
  if negb (bool_decide (tbi_Year f = int16 (Year trimDate))) then mret tt
  else
    tf ← on_info l GetTimeframe;
    recordLength ← on_info l GetRecordLength;
    let offset := TimeToOffset tz trimDate tf recordLength in
    let n := FileSize local tf (tbi_Year f) recordLength - offset in
    if n <? 0 then lift (Panic "makeslice: len out of range")
    else state_modify (fun s =>
      let content := default [] (dk_files (c_disk s) !! filepath_Clean (tbi_Path f)) in
      set_disk (write_file (tbi_Path f) (pwrite (Z.to_nat offset) (replicate (Z.to_nat n) x00) content) (c_disk s)) s).
Definition server_trim (trimDate : Time) : prog server unit :=
  sv_on_reader (on_cat (fInfos ← GatherTimeBucketInfo CatalogDir; for_each fInfos (trim_file trimDate))).

#[local] Instance server_database : Database server := {|
  db_Write := Service.Write tz local InstanceID WALBypass DisableVariableCompression CatalogDir GitHash walfile haveWALWriter queued now;
  db_Create := Service.Create local CatalogDir RootDir GitHash nowLocal;
  db_Destroy := Service.Destroy CatalogDir GitHash;
  db_GetInfo := Service.GetInfo CatalogDir GitHash;
  db_Parse := server_Parse;
  db_scan := server_scan;
  db_sql := localSQL;
  db_trim := server_trim;
|}.
End server.

(** ** What the commands do not do *)

(** [trim] has no use for its key. *)
Lemma trim_key_ignored {D N} `{Database D} names local (s : session D N) (line line' : string) :
  (3 <= length (Split line " "))%nat -> (3 <= length (Split line' " "))%nat ->
  List.last (Split line " ") "" = List.last (Split line' " ") "" -> trim names local line s = trim names local line' s.
Proof.
  intros Hl Hl' He. unfold trim. rewrite (proj2 (Nat.ltb_ge _ _) Hl), (proj2 (Nat.ltb_ge _ _) Hl'), He. reflexivity.
Qed.

(** A response to a write never reaches the client. *)
Lemma write_response_lost `{R : MapRange} r : rpc_response "Write" r = Ret None.
Proof. reflexivity. Qed.

Lemma remote_write_succeeds {D N} `{DB : Database D} `{RM : Remote N} `{R : MapRange} npm isVariable (s : session D N) r n :
  cl_mode (se_client s) = remote_mode ->
  post "Write" (ArgsWrite [mkWriteRequest (Some npm) isVariable]) (se_remote s) = (Ret (Body r), n) ->
  writeNumpy npm isVariable s = (Ret tt, mkSession (se_db s) n (se_client s) (se_files s) (se_out s)).
Proof.
  intros Hm Hp. unfold writeNumpy, server_responses, in_mode, client, mbind, prog_bind, on_remote. rewrite Hm. cbn [se_remote].
  unfold DoRPC, mbind, prog_bind. rewrite Hp. reflexivity.
Qed.

(** The nines of the last layout are literal. *)
Lemma millisecond_times :
  parseTime no_zone_names UTC "20170228 093005999" = Ret (Date 2017 2 28 9 30 5 0 UTC) /\
  (exists e, parseTime no_zone_names UTC "20170228 093005123" = Fail e).
Proof. split; [vm_compute; reflexivity|eexists; vm_compute; reflexivity]. Qed.

(** An empty file of data ends the process, and so does [create] without its
    arguments. *)
Lemma empty_file_panics {D N} `{Database D} `{Remote N} `{MapRange} names LoadLocation local Unmarshal (s : session D N) :
  se_files s !! "data.csv" = Some "" ->
  fst (load names LoadLocation local Unmarshal "\load AAPL/1Min/O data.csv" s) = Panic "invalid memory address or nil pointer dereference".
Proof.
  intros Hf. assert (Hp : parseLoadArgs (se_files s) ["AAPL/1Min/O"; "data.csv"] = Ret None) by (unfold parseLoadArgs, open_files; by rewrite Hf).
  unfold load. change (arguments "\load AAPL/1Min/O data.csv") with ["AAPL/1Min/O"; "data.csv"].
  unfold mbind, prog_bind, try_prog. by rewrite Hp.
Qed.

Lemma create_panics {D N} `{Database D} `{Remote N} `{MapRange} (s : session D N) :
  fst (create "\create AAPL/1Min/O:Symbol/Timeframe/AttributeGroup" s) = Panic "index out of range".
Proof. reflexivity. Qed.

(** A shorter text leaves the end of what the file had. *)
Lemma overwrite_leaves : overwrite "2017-02-28,15" "2016-01-04" = "2016-01-04,15".
Proof. reflexivity. Qed.
