(* ===== verification/ShowLoad.v ===== *)
(** * What [\show] writes to a CSV file is what [\load] reads from it

    The proofs behind [show_then_load]: the writer and the reader of CSV, the
    texts of numbers and of times, the names of the columns. *)

From S2P Require Export Session Tables.
From S2P Require Import GoStrings Csv GoLayout.

#[local] Open Scope string_scope.
#[local] Open Scope Z_scope.

(** ** Fields without special characters *)

Definition special_char (c : ascii) : bool :=
  Ascii.eqb c comma || Ascii.eqb c newline || Ascii.eqb c quote || Ascii.eqb c return_char.
Fixpoint all_chars (f : ascii -> bool) (s : string) : bool :=
  match s with String c s' => f c && all_chars f s' | "" => true end.
(** A field that the writer leaves as it is, and the reader. *)
Definition plain (s : string) : Prop := all_chars (fun c => negb (special_char c)) s = true.

Lemma all_chars_app f a b : all_chars f (a +:+ b) = all_chars f a && all_chars f b.
Proof. induction a as [|c a IH]; [done|]. rewrite string_app_cons. cbn. by rewrite IH, andb_assoc. Qed.

Lemma all_chars_impl (f g : ascii -> bool) s : (forall c, f c = true -> g c = true) -> all_chars f s = true -> all_chars g s = true.
Proof. intros H. induction s as [|c s IH]; [done|]. cbn. rewrite !andb_true_iff. naive_solver. Qed.

Lemma plain_cons c s : plain (String c s) <-> special_char c = false /\ plain s.
Proof. unfold plain. cbn. by rewrite andb_true_iff, negb_true_iff. Qed.

Lemma special_cases c : special_char c = false ->
  Ascii.eqb c comma = false /\ Ascii.eqb c newline = false /\ Ascii.eqb c quote = false /\ Ascii.eqb c return_char = false.
Proof. unfold special_char. rewrite !orb_false_iff. tauto. Qed.

Lemma plain_has_char d s : special_char d = true -> plain s -> has_char d s = false.
Proof.
  intros Hd. induction s as [|c s IH]; [done|]. rewrite plain_cons. intros [Hc Hs]. cbn. rewrite IH by done.
  rewrite orb_false_r. apply Ascii.eqb_neq. intros ->. congruence.
Qed.

(** The writer leaves a plain field that does not begin with a space alone. *)
Definition bare (s : string) : Prop :=
  plain s /\ s <> String "\" "." /\ match s with String c _ => is_space c = false | "" => True end.

Lemma csv_field_bare s : bare s -> csv_field s = s.
Proof.
  intros (Hp & Hd & Hs). unfold csv_field, fieldNeedsQuotes. destruct s as [|c s]; [done|].
  rewrite bool_decide_eq_false_2, Hs by done. by rewrite !plain_has_char.
Qed.

Lemma normalize_app a b : plain a -> normalize (a +:+ b) = a +:+ normalize b.
Proof.
  induction a as [|c a IH]; [done|]. rewrite plain_cons. intros [Hc Ha]. rewrite !string_app_cons. cbn.
  apply special_cases in Hc as (_ & _ & _ & ->). by rewrite IH.
Qed.

(** The reader in the middle of a field. *)
Lemma read_in_field s field fields rest : plain s ->
  read_fields InField field fields (s +:+ rest) = read_fields InField (field +:+ s) fields rest.
Proof.
  revert field. induction s as [|c s IH]; intros field Hs; [by rewrite string_app_nil_r|].
  apply plain_cons in Hs as [Hc Hs]. rewrite string_app_cons. cbn [read_fields].
  apply special_cases in Hc as (-> & -> & -> & _). rewrite IH by done.
  unfold one_char. by rewrite <- string_app_assoc, string_app_cons, string_app_nil_l.
Qed.

(** A field with a separator or the end of the line behind it. *)
Lemma read_at_field s fields c rest : plain s -> c = comma \/ c = newline ->
  read_fields AtField "" fields (s +:+ String c rest) =
  if Ascii.eqb c comma then read_fields AtField "" (fields ++ [s])%list rest else Some (fields ++ [s], rest)%list.
Proof.
  intros Hs Hc. destruct s as [|d s].
  - rewrite string_app_nil_l. destruct Hc as [-> | ->]; reflexivity.
  - apply plain_cons in Hs as [Hd Hs]. rewrite string_app_cons. cbn [read_fields].
    apply special_cases in Hd as (-> & -> & -> & _). rewrite read_in_field by done.
    rewrite string_app_nil_l. unfold one_char. rewrite string_app_cons, string_app_nil_l.
    destruct Hc as [-> | ->]; reflexivity.
Qed.

Lemma Join_cons p q ps sep : Join (p :: q :: ps) sep = p +:+ sep +:+ Join (q :: ps) sep.
Proof. done. Qed.

Lemma read_line row fields rest : row <> [] -> Forall plain row ->
  read_fields AtField "" fields (Join row (one_char comma) +:+ String newline rest) = Some (fields ++ row, rest)%list.
Proof.
  intros Hne Hp. revert fields. induction Hp as [|p row Hp _ IH]; intros fields; [done|].
  destruct row as [|q row].
  - cbn [Join]. rewrite read_at_field by auto. reflexivity.
  - rewrite Join_cons, <- !string_app_assoc. change (one_char comma +:+ ?x) with (String comma x).
    rewrite read_at_field by auto. cbn [Ascii.eqb comma]. rewrite IH by done. by rewrite <- app_assoc.
Qed.

(** ** A file of bare rows *)

Definition good_row (n : nat) (row : list string) : Prop :=
  length row = n /\ Forall bare row /\ match row with f :: _ => f <> "" | [] => False end.

Definition line_of (row : list string) : string := Join row (one_char comma) +:+ one_char newline.

Lemma csv_Write_bare row : Forall bare row -> csv_Write row = line_of row.
Proof.
  intros H. unfold csv_Write, line_of. do 2 f_equal. induction H as [|f row Hf _ IH]; [done|]. cbn. by rewrite csv_field_bare, IH.
Qed.

Lemma Join_nil_sep ps : Join ps "" = foldr String.append "" ps.
Proof.
  induction ps as [|p ps IH]; [done|]. destruct ps as [|q ps]; [cbn; by rewrite string_app_nil_r|].
  rewrite Join_cons, string_app_nil_l, IH. done.
Qed.

Lemma bare_plain row : Forall bare row -> Forall plain row.
Proof. intros H. eapply Forall_impl; [exact H|]. by intros ? (? & _). Qed.

Lemma plain_Join row : Forall plain row -> all_chars (fun c => negb (special_char c) || Ascii.eqb c comma) (Join row (one_char comma)) = true.
Proof.
  induction 1 as [|p row Hp Hps IH]; [done|].
  assert (Hp' : all_chars (fun c => negb (special_char c) || Ascii.eqb c comma) p = true).
  { eapply all_chars_impl; [|exact Hp]. intros c Hc. cbn in Hc. by rewrite Hc. }
  destruct row as [|q row]; [exact Hp'|]. rewrite Join_cons, !all_chars_app, Hp', IH. reflexivity.
Qed.

Lemma normalize_id a b : all_chars (fun c => negb (Ascii.eqb c return_char)) a = true -> normalize (a +:+ b) = a +:+ normalize b.
Proof.
  induction a as [|c a IH]; [done|]. rewrite string_app_cons. cbn. rewrite andb_true_iff, negb_true_iff. intros [-> Ha].
  rewrite string_app_cons. by rewrite IH.
Qed.

Lemma normalize_rows rows n : Forall (good_row n) rows ->
  normalize (foldr String.append "" (map line_of rows)) = foldr String.append "" (map line_of rows).
Proof.
  induction 1 as [|row rows (_ & Hb & _) _ IH]; [done|]. cbn [map foldr]. rewrite normalize_id; [by rewrite IH|].
  unfold line_of. rewrite all_chars_app. apply andb_true_iff. split; [|done].
  eapply all_chars_impl; [|by apply plain_Join, bare_plain].
  intros c Hc. cbn in Hc. apply negb_true_iff, Ascii.eqb_neq. intros ->. discriminate Hc.
Qed.

Lemma read_row n row rest fpr : good_row n row -> fpr = 0%nat \/ fpr = n ->
  csv_Read (Csv.mkReader (line_of row +:+ rest) fpr) = Some (row, Csv.mkReader rest n).
Proof.
  intros (Hlen & Hb & Hf) Hn. destruct row as [|f row]; [done|].
  assert (Hstart : exists c s, f = String c s /\ special_char c = false).
  { destruct f as [|c s]; [done|]. exists c, s. split; [done|]. apply Forall_inv in Hb as (Hp & _). apply plain_cons in Hp. tauto. }
  assert (Hskip : skip_empty (line_of (f :: row) +:+ rest) = line_of (f :: row) +:+ rest).
  { destruct Hstart as (c & s & -> & Hc). apply special_cases in Hc as (_ & Hc & _ & _).
    unfold line_of. destruct row as [|q row]; [cbn [Join]|rewrite Join_cons]; rewrite !string_app_cons; cbn; by rewrite Hc. }
  unfold csv_Read. cbn [cr_text]. rewrite Hskip.
  assert (Hline : line_of (f :: row) +:+ rest = Join (f :: row) (one_char comma) +:+ String newline rest).
  { unfold line_of. by rewrite <- string_app_assoc. }
  destruct (line_of (f :: row) +:+ rest) as [|c t] eqn:E.
  { destruct Hstart as (c & s & -> & _). unfold line_of in E. destruct row; discriminate E. }
  rewrite Hline, read_line by (done || by apply bare_plain). cbn [app FieldsPerRecord].
  destruct Hn as [-> | ->]; cbn [Nat.eqb].
  - by rewrite Hlen.
  - rewrite Hlen. destruct (n =? 0)%nat eqn:En; [by apply Nat.eqb_eq in En as ->|]. by rewrite Nat.eqb_refl.
Qed.

Lemma read_rows n rows : Forall (good_row n) rows -> forall fuel size fpr acc,
  (length rows < fuel)%nat -> Z.of_nat (length rows) < size -> fpr = 0%nat \/ fpr = n ->
  exists r, read_chunk fuel size (Csv.mkReader (foldr String.append "" (map line_of rows)) fpr) acc = (acc ++ rows, true, r)%list.
Proof.
  induction 1 as [|row rows Hrow _ IH]; intros [|fuel] size fpr acc Hf Hs Hn; cbn [length] in *; try lia.
  - cbn [map foldr read_chunk]. replace (size <=? 0) with false by lia. eexists. by rewrite app_nil_r.
  - cbn [map foldr read_chunk]. replace (size <=? 0) with false by lia. rewrite (read_row n) by done.
    destruct (IH fuel (size - 1) n (acc ++ [row])%list) as [r Hr]; [lia|lia|auto|]. exists r. by rewrite Hr, <- app_assoc.
Qed.

Lemma rows_shorter n rows : Forall (good_row n) rows -> (length rows <= String.length (foldr String.append "" (map line_of rows)))%nat.
Proof.
  induction 1 as [|row rows _ _ IH]; [done|]. cbn [map foldr length]. rewrite length_string_app. unfold line_of at 1.
  rewrite length_string_app. cbn [one_char String.length]. lia.
Qed.

(** ** Padding and trimming *)

(** No space at either end. *)
Definition trimmed (s : string) : Prop := TrimSpace s = s.

Lemma cut_right_pad s n : cut_right (s +:+ spaces n) = cut_right s.
Proof.
  assert (Hsp : cut_right (spaces n) = "") by (induction n as [|n IH]; [done|cbn; by rewrite IH]).
  induction s as [|c s IH]; [by rewrite string_app_nil_l, Hsp|]. rewrite string_app_cons. cbn. by rewrite IH.
Qed.

Lemma cut_left_pad n s : cut_left (spaces n +:+ s) = cut_left s.
Proof. induction n as [|n IH]; [done|]. cbn [spaces]. by rewrite string_app_cons. Qed.

Lemma cut_left_cons c s : cut_left (String c s) = if is_space c then cut_left s else String c s.
Proof. done. Qed.

(** Texts without spaces inside that could be taken off. *)
Definition solid (s : string) : Prop := s <> "" /\ cut_left s = s /\ cut_right s = s.

Lemma cut_left_app s t : s <> "" -> cut_left s = s -> cut_left (s +:+ t) = s +:+ t.
Proof.
  destruct s as [|c s]; [done|]. intros _ H. rewrite string_app_cons. cbn in *. destruct (is_space c) eqn:Hc; [|done].
  exfalso. assert (Hl : forall u, (String.length (cut_left u) <= String.length u)%nat).
  { clear. induction u as [|d u IH]; [done|]. cbn. destruct (is_space d); cbn; lia. }
  pose proof (Hl s). rewrite H in H0. cbn in H0. lia.
Qed.

Lemma trim_padded n m s : solid s -> TrimSpace (spaces n +:+ s +:+ spaces m) = s.
Proof.
  intros (Hne & Hl & Hr). unfold TrimSpace. rewrite cut_left_pad, cut_left_app by done. by rewrite cut_right_pad.
Qed.

Lemma trim_pad_right n s : solid s -> TrimSpace (pad_right n s) = s.
Proof. intros H. unfold pad_right. exact (trim_padded 0 _ s H). Qed.

Lemma trim_pad_left n s : solid s -> TrimSpace (pad_left n s +:+ "  ") = s.
Proof. intros H. unfold pad_left. rewrite <- string_app_assoc. exact (trim_padded _ 2 s H). Qed.

(** A text that begins and ends with characters that are not spaces. *)
Lemma cut_right_end s c : is_space c = false -> cut_right (s +:+ one_char c) = s +:+ one_char c.
Proof.
  intros Hc. induction s as [|d s IH]; [rewrite string_app_nil_l; unfold one_char; cbn; by rewrite Hc|].
  rewrite !string_app_cons. cbn. rewrite IH. by destruct s.
Qed.

Lemma solid_ends c s d : is_space c = false -> is_space d = false -> solid (String c s +:+ one_char d).
Proof. intros Hc Hd. split; [done|]. split; [by rewrite string_app_cons, cut_left_cons, Hc|by apply (cut_right_end (String c s))]. Qed.

Lemma solid_no_space s : s <> "" -> all_chars (fun c => negb (is_space c)) s = true -> solid s.
Proof.
  intros Hne H. split; [done|]. destruct s as [|c s]; [done|]. clear Hne. cbn in H. apply andb_true_iff in H as [Hc Hs].
  apply negb_true_iff in Hc. split; [by rewrite cut_left_cons, Hc|].
  assert (Hs' : cut_right s = s).
  { clear Hc. induction s as [|d s IH]; [done|]. cbn in Hs. apply andb_true_iff in Hs as [Hd Hs]. apply negb_true_iff in Hd.
    cbn. rewrite IH by done. destruct s; [by rewrite Hd|done]. }
  cbn. rewrite Hs'. destruct s; [by rewrite Hc|done].
Qed.

(** ** Integers *)

Lemma Itoa_neg z : z < 0 -> Itoa z = String "-" (Itoa (- z)).
Proof. intros H. destruct z as [|p|p]; try lia. reflexivity. Qed.

Lemma Itoa_0 : Itoa 0 = "0".
Proof. reflexivity. Qed.

Lemma Itoa_nonneg z : 0 <= z -> all_digits (Itoa z) /\ digits_val 0 (Itoa z) = Some z.
Proof.
  intros H. destruct (decide (z = 0)) as [-> | Hz]; [by repeat split|].
  rewrite Itoa_pos_go by lia. split; [by apply pretty_N_go_digits|]. rewrite digits_val_go. cbn. f_equal. lia.
Qed.

Lemma Itoa_not_empty z : Itoa z <> "".
Proof.
  destruct (decide (z < 0)); [by rewrite Itoa_neg|]. destruct (Itoa_nonneg z ltac:(lia)) as [_ H].
  destruct (decide (z = 0)) as [-> | Hz]; [done|]. intros E. rewrite E in H. injection H. lia.
Qed.

Lemma digit_not_sign (X : Type) (a b d : X) c : is_digit c = true -> match c with "+"%char => a | "-"%char => b | _ => d end = d.
Proof. destruct c as [[] [] [] [] [] [] [] []]; done. Qed.

Lemma ParseInt_digits s bits z : s <> "" -> all_digits s -> digits_val 0 s = Some z -> - 2 ^ (bits - 1) <= z < 2 ^ (bits - 1) ->
  ParseInt s bits = (z, true).
Proof.
  intros Hne Hd Hv Hz. unfold ParseInt. destruct s as [|c s]; [done|]. destruct Hd as [Hc _].
  rewrite (digit_not_sign (bool * string)%type) by done. rewrite Hv.
  replace (2 ^ (bits - 1) <=? z) with false by lia. by replace (z <? - 2 ^ (bits - 1)) with false by lia.
Qed.

(** What is printed is parsed, with its sign. *)
Lemma ParseInt_printed z bits : - 2 ^ (bits - 1) <= z < 2 ^ (bits - 1) -> ParseInt (Itoa z) bits = (z, true).
Proof.
  intros Hz. destruct (decide (z < 0)) as [Hn|Hn].
  - rewrite Itoa_neg by done. destruct (Itoa_nonneg (- z) ltac:(lia)) as [_ Hv].
    unfold ParseInt. cbn [ParseInt]. pose proof (Itoa_not_empty (- z)) as Hne. destruct (Itoa (- z)) as [|c s]; [done|].
    rewrite Hv. cbv iota. rewrite Z.opp_involutive.
    replace (2 ^ (bits - 1) <=? z) with false by lia. by replace (z <? - 2 ^ (bits - 1)) with false by lia.
  - destruct (Itoa_nonneg z ltac:(lia)) as [Hd Hv]. apply ParseInt_digits; [apply Itoa_not_empty|done|done|lia].
Qed.

Lemma ParseUint_printed z bits : 0 <= z < 2 ^ bits -> ParseUint (Itoa z) bits = (z, true).
Proof.
  intros Hz. destruct (Itoa_nonneg z ltac:(lia)) as [_ Hv]. unfold ParseUint. pose proof (Itoa_not_empty z) as Hne.
  destruct (Itoa z) as [|c s] eqn:E; [done|]. rewrite Hv. by replace (2 ^ bits <=? z) with false by lia.
Qed.

(** *** The text of an integer is bare and solid *)

Definition number_char (c : ascii) : bool := is_digit c || Ascii.eqb c "-".

Lemma number_char_ok c : number_char c = true -> special_char c = false /\ is_space c = false /\ Ascii.eqb c "\" = false.
Proof. destruct c as [[] [] [] [] [] [] [] []]; intros H; (discriminate H || (split_and!; reflexivity)). Qed.

Lemma digits_chars s : all_digits s -> all_chars number_char s = true.
Proof. induction s as [|c s IH]; [done|]. intros [Hc Hs]. cbn. unfold number_char at 1. rewrite Hc. cbn. by apply IH. Qed.

Lemma Itoa_chars z : all_chars number_char (Itoa z) = true.
Proof.
  destruct (decide (z < 0)); [rewrite Itoa_neg by done; cbn|]; apply digits_chars, Itoa_nonneg; lia.
Qed.

Lemma number_text s : s <> "" -> all_chars number_char s = true -> bare s /\ solid s.
Proof.
  intros Hne H. split.
  - split.
    + unfold plain. eapply all_chars_impl; [|exact H]. intros c Hc. apply number_char_ok in Hc as (Hc & _). by rewrite Hc.
    + destruct s as [|c s]; [done|]. cbn in H. apply andb_true_iff in H as [Hc _].
      apply number_char_ok in Hc as (_ & Hsp & Hb). split; [|exact Hsp]. intros [= -> ->]. discriminate Hb.
  - apply solid_no_space; [done|]. eapply all_chars_impl; [|exact H]. intros c Hc. apply number_char_ok in Hc as (_ & Hc & _). by rewrite Hc.
Qed.

(** ** Times *)

(** The text of a number in a field of two or of four digits. *)
Definition two_digits (z : Z) (a b : ascii) : Prop :=
  is_digit a = true /\ is_digit b = true /\ 10 * digit_val a + digit_val b = z.
Definition two_digits_ok (z : Z) : bool :=
  match digits 2 z with
  | String a (String b "") => is_digit a && is_digit b && (10 * digit_val a + digit_val b =? z)
  | _ => false
  end.
Definition four_digits_ok (z : Z) : bool :=
  match digits 4 z with
  | String a (String b (String c (String d ""))) =>
      is_digit a && is_digit b && is_digit c && is_digit d &&
      (1000 * digit_val a + 100 * digit_val b + 10 * digit_val c + digit_val d =? z)
  | _ => false
  end.

Lemma two_digits_all : forallb two_digits_ok (seqZ 0 100) = true.
Proof. vm_compute. reflexivity. Qed.
Lemma four_digits_all : forallb four_digits_ok (seqZ 0 10000) = true.
Proof. vm_compute. reflexivity. Qed.

Lemma digits_2 z : 0 <= z < 100 -> exists a b, digits 2 z = String a (String b "") /\ two_digits z a b.
Proof.
  intros Hz. pose proof two_digits_all as H. rewrite forallb_forall in H.
  specialize (H z ltac:(apply list_elem_of_In, elem_of_seqZ; lia)). unfold two_digits_ok in H.
  destruct (digits 2 z) as [|a [|b [|c s]]]; try discriminate H. exists a, b. split; [done|].
  rewrite !andb_true_iff, Z.eqb_eq in H. unfold two_digits. tauto.
Qed.

Lemma digits_4 z : 0 <= z < 10000 -> exists a b c d, digits 4 z = String a (String b (String c (String d ""))) /\
  is_digit a = true /\ is_digit b = true /\ is_digit c = true /\ is_digit d = true /\
  1000 * digit_val a + 100 * digit_val b + 10 * digit_val c + digit_val d = z.
Proof.
  intros Hz. pose proof four_digits_all as H. rewrite forallb_forall in H.
  specialize (H z ltac:(apply list_elem_of_In, elem_of_seqZ; lia)). unfold four_digits_ok in H.
  destruct (digits 4 z) as [|a [|b [|c [|d [|e s]]]]]; try discriminate H. exists a, b, c, d. split; [done|].
  rewrite !andb_true_iff, Z.eqb_eq in H. tauto.
Qed.

Lemma getnum_two z a b rest fixed : two_digits z a b -> getnum (String a (String b rest)) fixed = Some (z, rest).
Proof. intros (Ha & Hb & <-). cbn. by rewrite Ha, Hb. Qed.

(** The layout that the text of a time is written with. *)
Definition show_layout : string := "2006-01-02 15:04:05 -0700 MST".

Section utc.
Context (abbreviation : Location -> Z -> string) (Habbr : forall t, abbreviation UTC t = "UTC").

Lemma Day_range t : 1 <= Day_of_month t <= 31.
Proof.
  split; [apply Day_of_month_pos|]. unfold Day_of_month, YearDay, month_day. rewrite Z.add_simpl_r. unfold Year, yday_of_day, year_of_day.
  pose proof (year_yday_spec (local_day t)) as Hs. destruct (year_yday (local_day t)) as [y yd]. cbn. destruct Hs as [_ Hyd].
  pose proof (month_day_spec (isLeap y) yd Hyd) as Hmd. destruct (month_day_leap (isLeap y) yd). cbn. lia.
Qed.

(** The date, the time of the day, and the zone. *)
Lemma time_text ts : 0 <= Year (time_Unix ts 0 UTC) <= 9999 ->
  let t := time_Unix ts 0 UTC in
  exists y1 y2 y3 y4 m1 m2 d1 d2 h1 h2 i1 i2 s1 s2,
    time_String abbreviation t =
      String y1 (String y2 (String y3 (String y4 (String "-" (String m1 (String m2 (String "-" (String d1 (String d2 (String " "
      (String h1 (String h2 (String ":" (String i1 (String i2 (String ":" (String s1 (String s2 " +0000 UTC")))))))))))))))))) /\
    (is_digit y1 = true /\ is_digit y2 = true /\ is_digit y3 = true /\ is_digit y4 = true /\
     1000 * digit_val y1 + 100 * digit_val y2 + 10 * digit_val y3 + digit_val y4 = Year t) /\
    two_digits (Month t) m1 m2 /\ two_digits (Day_of_month t) d1 d2 /\
    two_digits (time_Hour t) h1 h2 /\ two_digits (time_Minute t) i1 i2 /\ two_digits (clock_sec t mod 60) s1 s2.
Proof.
  intros Hy t. fold t in Hy. assert (Hc : 0 <= clock_sec t < 86400) by (unfold clock_sec, secPerDay; apply Z.mod_pos_bound; lia).
  destruct (digits_4 (Year t) ltac:(lia)) as (y1 & y2 & y3 & y4 & Ey & Dy).
  pose proof (Month_range t) as Hm. destruct (digits_2 (Month t) ltac:(lia)) as (m1 & m2 & Em & Dm).
  pose proof (Day_range t) as Hd.
  destruct (digits_2 (Day_of_month t) ltac:(lia)) as (d1 & d2 & Ed & Dd).
  destruct (digits_2 (time_Hour t)) as (h1 & h2 & Eh & Dh); [unfold time_Hour; Z.div_mod_to_equations; lia|].
  destruct (digits_2 (time_Minute t)) as (i1 & i2 & Ei & Di); [unfold time_Minute; Z.div_mod_to_equations; lia|].
  destruct (digits_2 (clock_sec t mod 60)) as (s1 & s2 & Es & Ds); [Z.div_mod_to_equations; lia|].
  exists y1, y2, y3, y4, m1, m2, d1, d2, h1, h2, i1, i2, s1, s2. split; [|tauto].
  unfold time_String. change (t_loc t) with UTC. change (zone_offset UTC (Unix t)) with 0. rewrite Habbr.
  rewrite Ey, Em, Ed, Eh, Ei, Es. reflexivity.
Qed.

(** The date of a time gives it back. *)
Lemma Date_of_parts ts : let t := time_Unix ts 0 UTC in
  Date (Year t) (Month t) (Day_of_month t) (time_Hour t) (time_Minute t) (clock_sec t mod 60) 0 UTC = t.
Proof.
  intros t. rewrite Date_eta. unfold Date. pose proof (Month_range t) as Hm.
  rewrite Z.div_small, Z.mod_small by lia. rewrite Z.add_0_r, Z.sub_add.
  change (lookup_zone UTC) with (fun _ : Z => (0, alpha, omega)). cbv beta iota. cbn [t_ns Z.eqb].
  pose proof (day_number_of_date t) as Hday. rewrite day_number_of_month in Hday.
  assert (Hsec : local_sec t = ts).
  { assert (Hu : Unix t = ts) by (unfold Unix, t, time_Unix; cbn [t_ns]; rewrite Z.add_0_r; by apply Z.div_mul).
    unfold local_sec. rewrite Hu. change (zone_offset (t_loc t) ts) with 0. lia. }
  assert (Hts : local_day t = ts / secPerDay + unixToInternalDays) by (unfold local_day; by rewrite Hsec).
  assert (Hcs : clock_sec t = ts mod secPerDay) by (unfold clock_sec; by rewrite Hsec).
  transitivity (mkTime (ts * nsPerSec) UTC); [f_equal|unfold t, time_Unix; f_equal; lia].
  unfold time_Hour, time_Minute. rewrite Hcs, !Z.add_0_r. rewrite Hts in Hday. unfold secPerDay, nsPerSec, unixToInternalDays in *.
  change (0 / 1000000000) with 0. change (0 mod 1000000000) with 0.
  pose proof (Z.div_mod ts 86400 ltac:(lia)) as Hq. pose proof (Z.mod_pos_bound ts 86400 ltac:(lia)) as Hr.
  revert Hq Hr Hday. generalize (ts mod 86400), (ts / 86400). clear. intros r q Hq Hr Hday.
  assert (Hsplit : r / 3600 * 3600 + r mod 3600 / 60 * 60 + r mod 60 = r) by (Z.div_mod_to_equations; lia). lia.
Qed.

(** *** Reading the text *)

Lemma show_layout_parts : layout_chunks 0 show_layout =
  [Std stdLongYear; Lit "-"; Std stdZeroMonth; Lit "-"; Std stdZeroDay; Lit " "; Std stdHour; Lit ":"; Std stdZeroMinute; Lit ":";
   Std stdZeroSecond; Lit " "; Std stdNumTZ; Lit " "; Std stdTZ].
Proof. reflexivity. Qed.

Lemma parse_lit c l v f : Ascii.eqb c " " = false -> parse_parts (Lit c :: l) (String c v) f = parse_parts l v f.
Proof. intros Hc. cbn [parse_parts]. unfold skip. by rewrite Hc, Ascii.eqb_refl. Qed.

Lemma parse_space l d v f : is_digit d = true -> parse_parts (Lit " " :: l) (String " " (String d v)) f = parse_parts l (String d v) f.
Proof. intros Hd. cbn [parse_parts]. destruct d as [[] [] [] [] [] [] [] []]; try discriminate Hd; reflexivity. Qed.

Lemma parse_std_step s l v f f' rest : parse_std s l v f = Some (f', rest) -> parse_parts (Std s :: l) v f = parse_parts l rest f'.
Proof. intros H. cbn [parse_parts]. by rewrite H. Qed.

Lemma bounded_some (set : Z -> fields -> fields) lo hi f v rest : lo <= v < hi -> GoLayout.bounded set lo hi f (Some (v, rest)) = Some (set v f, rest).
Proof. intros H. unfold GoLayout.bounded. by replace ((lo <=? v) && (v <? hi)) with true by (symmetry; rewrite andb_true_iff; lia). Qed.

Lemma substring_whole s : forall m, (String.length s <= m)%nat -> String.substring 0 m s = s.
Proof. induction s as [|c s IH]; intros [|m] H; try done; cbn in *; [lia|]. f_equal. apply IH. lia. Qed.

Lemma tail_app a v : tail (String.length a) (a +:+ v) = v.
Proof.
  unfold tail. assert (H : forall m, (String.length (a +:+ v) <= m)%nat -> String.substring (String.length a) m (a +:+ v) = v); [|by apply H].
  induction a as [|c a IH]; intros m Hm.
  - rewrite string_app_nil_l in *. by apply substring_whole.
  - rewrite string_app_cons in *. cbn in *. apply IH. lia.
Qed.

Lemma parse_long_year l y1 y2 y3 y4 y v f :
  is_digit y1 = true /\ is_digit y2 = true /\ is_digit y3 = true /\ is_digit y4 = true /\
     1000 * digit_val y1 + 100 * digit_val y2 + 10 * digit_val y3 + digit_val y4 = y ->
  parse_std stdLongYear l (String y1 (String y2 (String y3 (String y4 v)))) f = Some (set_year y f, v).
Proof.
  intros (H1 & H2 & H3 & H4 & <-). pose (a := String y1 (String y2 (String y3 (String y4 "")))).
  change (String y1 (String y2 (String y3 (String y4 v)))) with (a +:+ v). unfold parse_std.
  rewrite length_string_app. replace (4 <=? _)%nat with true by (symmetry; apply Nat.leb_le; cbn; lia).
  pose proof (substring_app a v) as Ha. pose proof (tail_app a v) as Ht. cbn [String.length a] in Ha, Ht. rewrite Ha, Ht.
  unfold a. cbn [digits_val]. rewrite H1, H2, H3, H4. do 3 f_equal. lia.
Qed.

(** The parts with two digits. *)
Lemma parse_two s (set : Z -> fields -> fields) lo hi fixed l z a b v f : 
  (forall value f, parse_std s l value f = GoLayout.bounded set lo hi f (getnum value fixed)) ->
  lo <= z < hi -> two_digits z a b -> parse_std s l (String a (String b v)) f = Some (set z f, v).
Proof. intros Hs Hz Hab. rewrite Hs, (getnum_two z) by done. by apply bounded_some. Qed.

Lemma parse_seconds l z a b v f : 0 <= z < 60 -> two_digits z a b ->
  parse_std stdZeroSecond l (String a (String b (String " " v))) f = Some (set_sec z f, String " " v).
Proof. intros Hz Hab. cbn [parse_std]. rewrite (getnum_two z) by done. by rewrite bounded_some. Qed.

Lemma month_start_end leap : month_start leap 13 = if leap then 366 else 365.
Proof. by destruct leap. Qed.

Lemma day_number_in_month y m d :
  day_number y m d < (if m =? 12 then days_before_year (y + 1) else day_number y (m + 1) 1) -> d <= days_in_month y m.
Proof.
  unfold day_number, days_in_month. rewrite days_before_year_succ. destruct (Z.eqb_spec m 12) as [-> | Hm]; [|lia].
  change (12 + 1) with 13. rewrite month_start_end. lia.
Qed.

Lemma day_in_month t : 1 <= Day_of_month t <= days_in_month (Year t) (Month t).
Proof.
  split; [apply Day_of_month_pos|]. apply day_number_in_month. rewrite day_number_of_date. apply local_day_month_end.
Qed.

Lemma parse_utc f : parse_parts [Lit " "; Std stdNumTZ; Lit " "; Std stdTZ] " +0000 UTC" f = Some (set_utc (set_offset 0 f)).
Proof. destruct f. reflexivity. Qed.

(** What is printed is parsed. *)
Lemma time_roundtrip names ts : 0 <= Year (time_Unix ts 0 UTC) <= 9999 ->
  parse_time names show_layout (time_String abbreviation (time_Unix ts 0 UTC)) UTC = Some (time_Unix ts 0 UTC).
Proof.
  intros Hy. pose proof (Date_of_parts ts) as Hdate. pose proof (day_in_month (time_Unix ts 0 UTC)) as Hday.
  destruct (time_text ts Hy) as (y1 & y2 & y3 & y4 & m1 & m2 & d1 & d2 & h1 & h2 & i1 & i2 & s1 & s2 & -> & Dy & Dm & Dd & Dh & Di & Ds).
  cbv zeta in *. set (t := time_Unix ts 0 UTC) in *. pose proof (Month_range t) as Hm.
  assert (Hc : 0 <= clock_sec t < 86400) by (unfold clock_sec, secPerDay; apply Z.mod_pos_bound; lia).
  assert (Hh : 0 <= time_Hour t < 24) by (unfold time_Hour; Z.div_mod_to_equations; lia).
  assert (Hi : 0 <= time_Minute t < 60) by (unfold time_Minute; Z.div_mod_to_equations; lia).
  assert (Hs : 0 <= clock_sec t mod 60 < 60) by (apply Z.mod_pos_bound; lia).
  pose proof (Day_range t) as Hd31.
  unfold parse_time. rewrite show_layout_parts.
  rewrite (parse_std_step _ _ _ _ _ _ (parse_long_year _ _ _ _ _ _ _ _ Dy)), parse_lit by done.
  erewrite parse_std_step by (apply (parse_two stdZeroMonth set_month 1 13 true); [reflexivity| |exact Dm]; lia). rewrite parse_lit by done.
  erewrite parse_std_step by (apply (parse_two stdZeroDay set_day 0 100 true); [reflexivity| |exact Dd]; lia).
  rewrite parse_space by apply Dh.
  erewrite parse_std_step by (apply (parse_two stdHour set_hour 0 24 false); [reflexivity| |exact Dh]; lia). rewrite parse_lit by done.
  erewrite parse_std_step by (apply (parse_two stdZeroMinute set_min 0 60 true); [reflexivity| |exact Di]; lia). rewrite parse_lit by done.
  erewrite parse_std_step by (apply parse_seconds; [|exact Ds]; lia).
  rewrite parse_utc. clearbody t. cbn -[Date clock_sec days_in_month Year Month Day_of_month time_Hour time_Minute Z.modulo Z.leb].
  unfold day_hour. cbn [f_pm f_am andb f_hour]. rewrite Hdate.
  replace ((1 <=? Day_of_month t) && (Day_of_month t <=? days_in_month (Year t) (Month t))) with true; [done|].
  symmetry. rewrite andb_true_iff. lia.
Qed.

(** *** The text is bare and solid *)

Definition time_char (c : ascii) : bool := negb (special_char c) && negb (Ascii.eqb c "\").

Lemma digit_time_char c : is_digit c = true -> time_char c = true /\ special_char c = false /\ is_space c = false.
Proof. destruct c as [[] [] [] [] [] [] [] []]; intros H; (discriminate H || (split_and!; reflexivity)). Qed.

Lemma time_text_bare ts : 0 <= Year (time_Unix ts 0 UTC) <= 9999 ->
  let s := time_String abbreviation (time_Unix ts 0 UTC) in bare s /\ solid s /\ s <> "".
Proof.
  intros Hy s. subst s.
  destruct (time_text ts Hy) as (y1 & y2 & y3 & y4 & m1 & m2 & d1 & d2 & h1 & h2 & i1 & i2 & s1 & s2 & -> &
    (Hy1 & Hy2 & Hy3 & Hy4 & _) & (Hm1 & Hm2 & _) & (Hd1 & Hd2 & _) & (Hh1 & Hh2 & _) & (Hi1 & Hi2 & _) & (Hs1 & Hs2 & _)).
  apply digit_time_char in Hy1, Hy2, Hy3, Hy4, Hm1, Hm2, Hd1, Hd2, Hh1, Hh2, Hi1, Hi2, Hs1, Hs2.
  split_and!; [|unfold solid; split_and!|done].
  - split.
    + repeat (apply plain_cons; split; [tauto || reflexivity|]). reflexivity.
    + split; [|tauto]. discriminate.
  - done.
  - rewrite cut_left_cons. by destruct Hy1 as (_ & _ & ->).
  - match goal with |- cut_right (String ?a ?r) = _ => change (cut_right (String a r) = String a r) end.
    match goal with |- cut_right ?x = ?x =>
      replace x with (String.substring 0 (String.length x - 1) x +:+ one_char "C") by reflexivity end.
    by apply cut_right_end.
Qed.
End utc.

(** ** The rows of a table of integers *)

Definition int_kinds : list Kind := [KInt8; KInt16; KInt32; KInt64; KUint8; KUint16; KUint32; KUint64].

Lemma int_kinds_wire k : k ∈ int_kinds -> k ∈ wire_kinds.
Proof. intros H. repeat (apply elem_of_cons in H as [->|H]; [by repeat constructor|]). by apply elem_of_nil in H. Qed.

(** How a column of an integer kind is read. *)
Definition int_parse (k : Kind) : string -> option (list byte) :=
  if kind_signed k then int_cell (kind_size k) else uint_cell (kind_size k).

Lemma getter_int k : k ∈ int_kinds -> getter (GetElementType k) = Some (column_from k (int_parse k)).
Proof. intros H. repeat (apply elem_of_cons in H as [->|H]; [reflexivity|]). by apply elem_of_nil in H. Qed.

Lemma int_parse_printed k e : k ∈ int_kinds -> length e = kind_size k -> int_parse k (Itoa (int_value k e)) = Some e.
Proof.
  intros Hk He. assert (Hpos : (0 < kind_size k)%nat) by (by apply wire_kind, int_kinds_wire).
  pose proof (le_val_range e) as Hr. rewrite He in Hr.
  assert (Hp : 2 ^ (8 * Z.of_nat (kind_size k)) = 256 ^ Z.of_nat (kind_size k)) by (by rewrite Z.pow_mul_r by lia).
  unfold int_parse, int_cell, uint_cell, int_value, kind_bits. destruct (kind_signed k).
  - rewrite ParseInt_printed.
    + rewrite le_bytes_wrapS by (done || lia). rewrite <- He at 1. by rewrite le_bytes_le_val.
    + pose proof (wrapS_range (8 * Z.of_nat (kind_size k)) (le_val e) ltac:(lia)) as H. unfold inS in H. lia.
  - rewrite ParseUint_printed by (rewrite Hp; lia). rewrite <- He at 1. by rewrite le_bytes_le_val.
Qed.

Lemma value_text_int FormatFloat k e before : k ∈ int_kinds -> value_text FormatFloat k e before = Itoa (int_value k e).
Proof. intros H. repeat (apply elem_of_cons in H as [->|H]; [reflexivity|]). by apply elem_of_nil in H. Qed.

Lemma int_kind_size k : k ∈ int_kinds -> kind_size k <> 0%nat.
Proof. intros H. repeat (apply elem_of_cons in H as [->|H]; [done|]). by apply elem_of_nil in H. Qed.

(** ** A series and its file *)

Section roundtrip.
Context (names : Location -> string -> Z -> option Z) (local : Location) (LoadLocation : string -> option Location).
Context (abbreviation : Location -> Z -> string) (FormatFloat : spec_float -> string).
Context (Habbr : forall t, abbreviation UTC t = "UTC") (Hloc : LoadLocation "UTC" = Some UTC).
Context (colNames : list string) (cols : list column) (epochs : list Z).

Definition all_names : list string := "Epoch" :: colNames.
Definition all_cols : list column := int64_column epochs :: cols.
Definition series : ColumnSeries := frame all_names all_cols.

(** A table of integer columns in years of four digits; the names are told
    apart regardless of case, and none is one that the loader gives a meaning. *)
Record loadable : Prop := {
  ld_names : NoDup (map ToLower all_names);
  ld_reserved : forall name, name ∈ colNames -> ToLower name ∉ ["nanoseconds"; "epoch-date"; "epoch-time"; "explain-output"];
  ld_length : length cols = length colNames;
  ld_cols : Forall (fun c => col_kind c ∈ int_kinds /\ col_wf c /\ col_len c = length epochs) cols;
  ld_epochs : Forall (fun ts => inS 64 ts /\ 0 <= Year (time_Unix ts 0 UTC) <= 9999) epochs;
  ld_rows : Z.of_nat (length epochs) < load_chunk;
}.
Context (Hld : loadable).

Definition kinds : list Kind := map col_kind all_cols.

Lemma names_distinct : NoDup all_names.
Proof. apply (NoDup_fmap_1 ToLower). exact (ld_names Hld). Qed.

Lemma int64_column_wf zs : col_wf (int64_column zs).
Proof. unfold col_wf, int64_column. cbn. apply Forall_map. by apply Forall_true. Qed.

Lemma rows_ok_all : rows_ok kinds (length epochs) all_cols.
Proof.
  unfold rows_ok, kinds. apply Forall2_fmap_l, Forall_Forall2_diag. unfold all_cols. constructor.
  - split_and!; [done|apply int64_column_wf|]. unfold col_len, int64_column. cbn. by rewrite length_map.
  - eapply Forall_impl; [exact (ld_cols Hld)|]. cbn. tauto.
Qed.

Lemma kinds_wire : Forall (.∈ wire_kinds) kinds.
Proof.
  unfold kinds, all_cols. cbn [map]. constructor; [by repeat constructor|]. apply Forall_map.
  eapply Forall_impl; [exact (ld_cols Hld)|]. cbn. intros c (H & _). by apply int_kinds_wire.
Qed.

Lemma length_all : length all_names = length kinds.
Proof. unfold kinds, all_cols, all_names. cbn. rewrite length_map. by rewrite (ld_length Hld). Qed.

Lemma series_column i name c : all_names !! i = Some name -> all_cols !! i = Some c -> GetByName name series = Some c.
Proof. apply (frame_spec all_names kinds names_distinct length_all (length epochs)). apply rows_ok_all. Qed.

Lemma series_names : orderedNames series = all_names.
Proof. apply (frame_spec all_names kinds names_distinct length_all (length epochs)). apply rows_ok_all. Qed.

(** The cells of a row. *)
Definition cell (c : column) (i : nat) : list byte := nth i (col_elems c) [].
Definition number_text_of (c : column) (i : nat) : string := Itoa (int_value (col_kind c) (cell c i)).
Definition row_of (i : nat) (ts : Z) : list string :=
  time_String abbreviation (time_Unix ts 0 UTC) :: map (fun c => number_text_of c i) cols.
Definition rows_of : list (list string) := imap row_of epochs.

Lemma other_name i name : colNames !! i = Some name -> EqualFold name "Epoch" = false.
Proof.
  intros Hn. apply not_true_iff_false. rewrite EqualFold_spec. intros He. pose proof (ld_names Hld) as Hd. unfold all_names in Hd.
  cbn [map] in Hd. apply NoDup_cons in Hd as [Hd _]. apply Hd. apply list_elem_of_lookup. exists i.
  change (map ToLower colNames) with (ToLower <$> colNames). rewrite list_lookup_fmap, Hn. cbn. by rewrite He.
Qed.

Lemma cell_lookup c i : c ∈ cols -> (i < length epochs)%nat ->
  col_elems c !! i = Some (cell c i) /\ length (cell c i) = kind_size (col_kind c) /\ col_kind c ∈ int_kinds.
Proof.
  intros Hc Hi. pose proof (proj1 (Forall_forall _ _) (ld_cols Hld) c Hc) as (Hk & Hwf & Hl). cbn in *.
  destruct (lookup_lt_is_Some_2 (col_elems c) i) as [e He]; [by unfold col_len in Hl; rewrite Hl|].
  unfold cell. rewrite (nth_lookup_Some _ _ _ _ He). split; [done|]. split; [|done]. by apply (proj1 (Forall_lookup _ _) Hwf i).
Qed.

(** A row as it is printed, but for the padding. *)
Lemma row_texts_rest ts i : (i < length epochs)%nat -> forall k before,
  row_texts UTC abbreviation FormatFloat series ts i (drop k colNames) before =
  Ret (map (fun c => pad_right 10 (number_text_of c i)) (drop k cols)).
Proof.
  intros Hi k. remember (length colNames - k)%nat as n eqn:Hn. revert k Hn. induction n as [|n IH]; intros k Hn before.
  - rewrite !drop_ge by (rewrite ?(ld_length Hld); lia). done.
  - destruct (lookup_lt_is_Some_2 colNames k) as [name Hname]; [lia|].
    destruct (lookup_lt_is_Some_2 cols k) as [c Hc]; [rewrite (ld_length Hld); lia|].
    rewrite (drop_S _ _ _ Hname), (drop_S _ _ _ Hc). cbn [row_texts map]. unfold element_text at 1.
    rewrite (other_name _ _ Hname), (series_column (S k) name c) by done.
    destruct (cell_lookup c i) as (He & _ & Hk); [by eapply list_elem_of_lookup_2|done|].
    rewrite He, value_text_int by done. cbn [outcome_bind]. rewrite IH by lia. done.
Qed.

Lemma row_texts_all i ts : (i < length epochs)%nat ->
  row_texts UTC abbreviation FormatFloat series ts i all_names "" =
  Ret ((pad_left 29 (time_String abbreviation (time_Unix ts 0 UTC)) +:+ "  ") ::
       map (fun c => pad_right 10 (number_text_of c i)) cols).
Proof.
  intros Hi. unfold all_names. cbn [row_texts]. change (EqualFold "Epoch" "Epoch") with true. unfold element_text.
  change (EqualFold "Epoch" "Epoch") with true. cbn [outcome_bind]. pose proof (row_texts_rest ts i Hi 0) as H. rewrite !drop_0 in H. by rewrite H.
Qed.

Lemma epoch_ok ts : ts ∈ epochs -> inS 64 ts /\ 0 <= Year (time_Unix ts 0 UTC) <= 9999.
Proof. intros H. exact (proj1 (Forall_forall _ _) (ld_epochs Hld) ts H). Qed.

Lemma number_text_ok c i : bare (number_text_of c i) /\ solid (number_text_of c i).
Proof. apply number_text; [apply Itoa_not_empty|apply Itoa_chars]. Qed.

Lemma trimmed_row i ts : ts ∈ epochs ->
  map TrimSpace ((pad_left 29 (time_String abbreviation (time_Unix ts 0 UTC)) +:+ "  ") ::
                 map (fun c => pad_right 10 (number_text_of c i)) cols) = row_of i ts.
Proof.
  intros Hts. destruct (time_text_bare abbreviation Habbr ts) as (_ & Hs & _); [by apply epoch_ok|].
  cbn [map]. rewrite trim_pad_left by done. unfold row_of. f_equal. rewrite map_map. apply map_ext. intros c.
  by apply trim_pad_right, number_text_ok.
Qed.

Lemma all_rows_from k : forall epochs', epochs' = drop k epochs ->
  exists rows, all_rows UTC abbreviation FormatFloat series k epochs' = Ret rows /\
    map (map TrimSpace) rows = imap (fun i => row_of (k + i)) epochs'.
Proof.
  remember (length epochs - k)%nat as n eqn:Hn. revert k Hn. induction n as [|n IH]; intros k Hn epochs' ->.
  - rewrite drop_ge by lia. by exists [].
  - destruct (lookup_lt_is_Some_2 epochs k) as [ts Hts]; [lia|]. rewrite (drop_S _ _ _ Hts). cbn [all_rows].
    rewrite series_names, row_texts_all by lia. cbn [outcome_bind].
    destruct (IH (S k) ltac:(lia) _ eq_refl) as (rows & -> & Hrows). cbn [outcome_bind]. eexists. split; [reflexivity|].
    change (map (map TrimSpace) (?r :: rows)) with (map TrimSpace r :: map (map TrimSpace) rows).
    rewrite trimmed_row by (by eapply list_elem_of_lookup_2). rewrite Hrows. cbn [imap]. rewrite Nat.add_0_r. f_equal.
    apply imap_ext. intros i x _. cbn. by rewrite Nat.add_succ_r.
Qed.

Lemma good_rows : Forall (good_row (S (length cols))) rows_of.
Proof.
  apply Forall_lookup. intros i row Hrow. unfold rows_of in Hrow. rewrite list_lookup_imap in Hrow.
  destruct (epochs !! i) as [ts|] eqn:Hts; [|done]. injection Hrow as <-.
  destruct (time_text_bare abbreviation Habbr ts) as (Hb & _ & Hne); [by apply epoch_ok; eapply list_elem_of_lookup_2|].
  split; [unfold row_of; cbn; by rewrite length_map|]. split; [|done]. constructor; [done|]. apply Forall_map, Forall_true.
  intros c. apply number_text_ok.
Qed.

(** The text of the file. *)
Definition file_text : string := foldr String.append "" (map line_of rows_of).

Lemma csv_rows_text rows : map (map TrimSpace) rows = rows_of -> csv_rows rows = file_text.
Proof.
  intros H. unfold csv_rows. rewrite Join_nil_sep. unfold file_text. rewrite <- H, !map_map. f_equal.
  apply map_ext_in. intros row Hrow. apply csv_Write_bare.
  assert (Hin : map TrimSpace row ∈ rows_of) by (rewrite <- H; apply list_elem_of_In; by apply in_map).
  by apply (proj1 (Forall_forall _ _) good_rows).
Qed.

(** *** Reading the file *)

Definition config : CSVConfig := mkCSVConfig false show_layout "UTC" (Some all_names).

Lemma find_absent colName l : forall i found, ToLower colName ∉ map ToLower l -> find_column i colName l found = found.
Proof.
  induction l as [|n l IH]; intros i found H; [done|]. cbn [map] in H. apply not_elem_of_cons in H as [Hn Hl]. cbn [find_column].
  rewrite IH by done. destruct (EqualFold colName n) eqn:E; [|done]. by apply EqualFold_spec in E.
Qed.

Lemma find_present l : NoDup (map ToLower l) -> forall j name i found, l !! j = Some name -> find_column i name l found = i + Z.of_nat j.
Proof.
  induction l as [|n l IH]; intros Hnd j name i found Hj; [done|]. cbn [map] in Hnd. apply NoDup_cons in Hnd as [Hn Hnd].
  cbn [find_column]. destruct j as [|j].
  - injection Hj as ->. rewrite find_absent by done. rewrite (proj2 (EqualFold_spec name name) eq_refl). lia.
  - cbn in Hj. rewrite (IH Hnd j) by done. lia.
Qed.

Lemma reserved_absent name : ToLower name ∈ ["epoch-date"; "epoch-time"] -> ToLower name ∉ map ToLower all_names.
Proof.
  intros Hr Hin. unfold all_names in Hin. cbn [map] in Hin. apply elem_of_cons in Hin as [He|Hin].
  - rewrite He in Hr. by vm_compute in Hr; repeat (apply elem_of_cons in Hr as [Hr|Hr]; [discriminate Hr|]); apply elem_of_nil in Hr.
  - apply list_elem_of_In, in_map_iff in Hin as (n & Hn & Hin). apply list_elem_of_In, (ld_reserved Hld) in Hin. apply Hin.
    rewrite Hn. right. apply elem_of_cons in Hr as [->|Hr]; [left|]. right. apply elem_of_cons in Hr as [->|Hr]; [left|]. by apply elem_of_nil in Hr.
Qed.

Lemma series_shapes : cs_GetDataShapes series = wire_shapes all_names kinds.
Proof.
  unfold cs_GetDataShapes. rewrite series_names.
  unfold series. rewrite (shapes_of_columns _ _ _ (frame_drop _ _ names_distinct length_all kinds_wire _ _ rows_ok_all)).
  unfold wire_shapes. f_equal. apply (fst_zip kinds all_cols). unfold kinds. by rewrite length_map.
Qed.

Lemma shape_lookup i : wire_shapes all_names kinds !! i =
  match all_names !! i, all_cols !! i with Some n, Some c => Some (mkShape n (GetElementType (col_kind c))) | _, _ => None end.
Proof.
  unfold wire_shapes, kinds. rewrite lookup_zip_with. change (map col_kind all_cols) with (col_kind <$> all_cols).
  rewrite list_lookup_fmap. by destruct (all_names !! i), (all_cols !! i).
Qed.

Definition indexes : list Z := (-1) :: (-1) :: map Z.of_nat (seq 0 (length all_names)).

Lemma column_indexes_all : column_indexes (fake_shapes ++ wire_shapes all_names kinds)%list all_names = indexes.
Proof.
  unfold column_indexes, indexes, fake_shapes. cbn [app map ds_Name].
  rewrite !find_absent by (apply reserved_absent; vm_compute; by repeat constructor). do 2 f_equal.
  apply list_eq. intros i. change (map ?f ?l) with (f <$> l). rewrite !list_lookup_fmap, shape_lookup.
  destruct (all_names !! i) as [n|] eqn:Hn.
  - assert (Hi : (i < length all_names)%nat) by (by apply lookup_lt_Some in Hn).
    rewrite lookup_seq_lt by done. destruct (lookup_lt_is_Some_2 all_cols i) as [c ->].
    { rewrite length_all in Hi. unfold kinds in Hi. by rewrite length_map in Hi. }
    cbn [fmap option_fmap option_map ds_Name]. rewrite (find_present _ (ld_names Hld) i) by done. done.
  - apply lookup_ge_None in Hn. rewrite lookup_seq_ge by done. done.
Qed.

Lemma check_found dsv : forall l i failed, Forall (fun ix => 0 <= ix) l -> check_columns i dsv l failed = Ret failed.
Proof. induction l as [|ix l IH]; intros i failed H; [done|]. apply Forall_cons in H as [H1 H]. cbn. replace (ix =? -1) with false by lia. by apply IH. Qed.

(** The control file [control] names the columns and gives the layout of the
    times that [\show] prints. *)
Lemma read_metadata Unmarshal control text : Unmarshal control = Some config ->
  ReadMetadata Unmarshal (Some text) (Some control) (cs_GetDataShapes series) =
  Ret (Some (csv_NewReader text, mkCSVMetadata config (wire_shapes all_names kinds) indexes)).
Proof.
  intros Hu. unfold ReadMetadata, readControlFile. rewrite Hu, series_shapes. cbv zeta.
  cbn [outcome_bind default from_option id FirstRowHasColumnNames config negb andb]. rewrite bool_decide_eq_false_2 by done.
  unfold inputNames. cbn [FirstRowHasColumnNames ColumnNameMap config outcome_bind]. rewrite column_indexes_all.
  rewrite check_found; [reflexivity|]. unfold indexes. cbn [drop]. apply Forall_map, Forall_true. intros; lia.
Qed.

(** *** The times *)

Lemma slice_whole s : slice_to (len s - 0) s = Ret s.
Proof.
  unfold slice_to, len. rewrite Z.sub_0_r, Nat2Z.id, substring_whole by done.
  by rewrite (proj2 (Z.leb_le 0 _)), Z.leb_refl by lia.
Qed.

Lemma parse_show_time ts : ts ∈ epochs ->
  Loader.parseTime names local show_layout (time_String abbreviation (time_Unix ts 0 UTC)) (Some UTC) 0 = Ret (time_Unix ts 0 UTC).
Proof.
  intros Hts. apply epoch_ok in Hts as [_ Hy]. unfold Loader.parseTime. rewrite slice_whole. cbn [outcome_bind].
  destruct (decide (show_layout = "timestamp")); [done|]. unfold ParseInLocation. by rewrite (time_roundtrip _ Habbr).
Qed.

Lemma row_time_text i ts : Loader.row_time indexes false (row_of i ts) = Ret (time_String abbreviation (time_Unix ts 0 UTC)).
Proof. reflexivity. Qed.

Lemma time_rows_all k : forall acc,
  time_rows names local config indexes false (Some UTC) true 0 (drop k rows_of) acc =
  Ret (acc ++ map (fun ts => time_Unix ts 0 UTC) (drop k epochs))%list.
Proof.
  remember (length epochs - k)%nat as n eqn:Hn. revert k Hn. induction n as [|n IH]; intros k Hn acc.
  - rewrite !drop_ge by (unfold rows_of; rewrite ?length_imap; lia). cbn. by rewrite app_nil_r.
  - destruct (lookup_lt_is_Some_2 epochs k) as [ts Hts]; [lia|].
    assert (Hrow : rows_of !! k = Some (row_of k ts)) by (unfold rows_of; by rewrite list_lookup_imap, Hts).
    rewrite (drop_S _ _ _ Hts), (drop_S _ _ _ Hrow). cbn [time_rows]. rewrite row_time_text. cbn [outcome_bind].
    change (TimeFormat config) with show_layout. rewrite parse_show_time by (by eapply list_elem_of_lookup_2).
    rewrite IH by lia. by rewrite <- app_assoc.
Qed.

Lemma read_time_columns : readTimeColumns names local LoadLocation rows_of indexes config = Ret (Some (epochs, map (fun _ => 0) epochs)).
Proof.
  unfold readTimeColumns. change (Loader.index_at indexes 2) with (Ret 0). change (Loader.index_at indexes 0) with (Ret (-1)).
  change (Loader.index_at indexes 1) with (Ret (-1)). cbn [outcome_bind]. change (0 =? -1) with false. cbn [andb].
  change (Timezone config) with "UTC". destruct (decide ("UTC" = "")); [done|]. rewrite Hloc. cbn [option_map].
  pose proof (time_rows_all 0 []) as H. rewrite !drop_0 in H. rewrite H. cbn [app]. rewrite !map_map. do 3 f_equal.
  - rewrite <- (map_id epochs) at 2. apply map_ext. intros ts. unfold Unix, time_Unix. cbn [t_ns]. rewrite Z.add_0_r. by apply Z.div_mul.
  - apply map_ext. intros ts. unfold time_Unix. cbn [t_ns]. rewrite Z.add_0_r. by rewrite Z.mod_mul.
Qed.

(** *** The columns *)

Lemma parse_column_from j c : cols !! j = Some c -> forall k acc,
  parse_column (int_parse (col_kind c)) (drop k rows_of) (Z.of_nat (S j)) acc = Ret (acc ++ drop k (col_elems c))%list.
Proof.
  intros Hc k. assert (Hin : c ∈ cols) by (by eapply list_elem_of_lookup_2).
  assert (Hl : length (col_elems c) = length epochs).
  { destruct (proj1 (Forall_forall _ _) (ld_cols Hld) c Hin) as (_ & _ & H). exact H. }
  remember (length epochs - k)%nat as n eqn:Hn. revert k Hn. induction n as [|n IH]; intros k Hn acc.
  - rewrite !drop_ge by (unfold rows_of; rewrite ?length_imap; lia). cbn. by rewrite app_nil_r.
  - destruct (lookup_lt_is_Some_2 epochs k) as [ts Hts]; [lia|].
    assert (Hrow : rows_of !! k = Some (row_of k ts)) by (unfold rows_of; by rewrite list_lookup_imap, Hts).
    destruct (cell_lookup c k Hin) as (He & Hsize & Hk); [lia|].
    rewrite (drop_S _ _ _ He), (drop_S _ _ _ Hrow). cbn [parse_column].
    assert (Hcell : csv_cell (row_of k ts) (Z.of_nat (S j)) = Ret (number_text_of c k)).
    { unfold csv_cell. rewrite (proj2 (Z.ltb_ge (Z.of_nat (S j)) 0)) by lia. rewrite Nat2Z.id.
      change (row_of k ts !! S j) with (((fun c => number_text_of c k) <$> cols) !! j). by rewrite list_lookup_fmap, Hc. }
    rewrite Hcell. cbn [outcome_bind]. unfold number_text_of. rewrite int_parse_printed by done. rewrite IH by lia. by rewrite <- app_assoc.
Qed.

Lemma get_column j c : cols !! j = Some c ->
  exists get, getter (GetElementType (col_kind c)) = Some get /\ get rows_of (Z.of_nat (S j)) = Ret c.
Proof.
  intros Hc. assert (Hin : c ∈ cols) by (by eapply list_elem_of_lookup_2).
  destruct (proj1 (Forall_forall _ _) (ld_cols Hld) c Hin) as (Hk & _ & _).
  eexists. split; [by apply getter_int|]. unfold column_from. pose proof (parse_column_from j c Hc 0 []) as H. rewrite !drop_0 in H.
  rewrite H. by destruct c.
Qed.

Lemma csm_AddColumn_singleton (key name : string) c (cs : ColumnSeries) :
  csm_AddColumn key name (Some c) {[key := cs]} = {[key := add_named cs (name, c)]}.
Proof. unfold csm_AddColumn. rewrite lookup_singleton_eq. apply insert_singleton_eq. Qed.

Lemma columns_from tbk : forall j cs,
  columnSeriesMapFromCSVData {[tbk := cs]} tbk rows_of (drop (S j) (map Z.of_nat (seq 0 (length all_names))))
    (drop (S j) (wire_shapes all_names kinds)) =
  Ret (Some {[tbk := foldl add_named cs (drop j (zip colNames cols))]}).
Proof.
  intros j. remember (length colNames - j)%nat as n eqn:Hn. revert j Hn. induction n as [|n IH]; intros j Hn cs.
  - assert (Hz : (length (zip colNames cols) <= j)%nat) by (rewrite length_zip_with; lia).
    assert (Hw : (length (wire_shapes all_names kinds) <= S j)%nat) by (unfold wire_shapes; rewrite length_zip_with; cbn; lia).
    rewrite (drop_ge _ _ Hz), (drop_ge _ _ Hw). reflexivity.
  - destruct (lookup_lt_is_Some_2 colNames j) as [name Hname]; [lia|].
    destruct (lookup_lt_is_Some_2 cols j) as [c Hc]; [rewrite (ld_length Hld); lia|].
    assert (Hshape : wire_shapes all_names kinds !! S j = Some (mkShape name (GetElementType (col_kind c)))).
    { rewrite shape_lookup. change (all_names !! S j) with (colNames !! j). change (all_cols !! S j) with (cols !! j). by rewrite Hname, Hc. }
    assert (Hix : map Z.of_nat (seq 0 (length all_names)) !! S j = Some (Z.of_nat (S j))).
    { change (map ?f ?l) with (f <$> l). rewrite list_lookup_fmap, lookup_seq_lt; [done|]. apply lookup_lt_Some in Hname. cbn. lia. }
    assert (Hzip : zip colNames cols !! j = Some (name, c)) by (apply lookup_zip_with_Some; eauto).
    rewrite (drop_S _ _ _ Hshape), (drop_S _ _ _ Hix), (drop_S _ _ _ Hzip). cbn [columnSeriesMapFromCSVData foldl].
    rewrite (proj2 (Z.eqb_neq (Z.of_nat (S j)) 0)) by lia. cbn [ds_Type ds_Name].
    destruct (get_column j c Hc) as (get & -> & ->). rewrite csm_AddColumn_singleton. apply IH. lia.
Qed.

Lemma epoch_first tbk : csm_AddColumn tbk "Epoch" (Some (int64_column epochs)) ∅ = {[tbk := add_named NewColumnSeries ("Epoch", int64_column epochs)]}.
Proof. unfold csm_AddColumn. rewrite lookup_empty. apply insert_empty. Qed.

Lemma series_fold : foldl add_named (add_named NewColumnSeries ("Epoch", int64_column epochs)) (zip colNames cols) = series.
Proof. reflexivity. Qed.

(** The loader adds the nanoseconds and takes them off. *)
Lemma remove_added c : Remove_ "Nanoseconds" (add_named series ("Nanoseconds", c)) = series.
Proof.
  assert (Hnone : forall name, ToLower name = "nanoseconds" -> name ∉ all_names).
  { intros name Hl Hin. unfold all_names in Hin. apply elem_of_cons in Hin as [->|Hin]; [discriminate Hl|].
    apply (ld_reserved Hld) in Hin. apply Hin. rewrite Hl. left. }
  destruct (foldl_named (zip all_names all_cols) NewColumnSeries) as (_ & _ & _ & _ & Hout).
  { rewrite fst_zip; [apply names_distinct|]. cbn. rewrite (ld_length Hld). lia. }
  { intros. apply lookup_empty. }
  assert (Hc : columns series !! "Nanoseconds" = None).
  { unfold series, frame. rewrite table_named, Hout; [apply lookup_empty|]. rewrite fst_zip by (cbn; rewrite (ld_length Hld); lia).
    by apply Hnone. }
  rewrite add_named_fresh by done. unfold Remove_, Remove, Exists_col. cbn [columns orderedNames candleAttributes nameIncrement].
  rewrite bool_decide_eq_true_2 by (rewrite lookup_insert_eq; eauto).
  rewrite delete_insert_id by done. rewrite filter_app, filter_cons_False by done. rewrite filter_nil, app_nil_r.
  rewrite filter_all.
  - by destruct series.
  - rewrite series_names. apply Forall_forall. intros name Hin. apply not_true_iff_false. rewrite EqualFold_spec. intros He. by apply (Hnone name).
Qed.

Lemma convert_rows tbk : convertCSVtoCSM names local LoadLocation tbk (mkCSVMetadata config (wire_shapes all_names kinds) indexes) rows_of =
  Ret (Some {[tbk := add_named series ("Nanoseconds", int32_column (map (fun _ => 0) epochs))]}).
Proof.
  unfold convertCSVtoCSM. cbn [ColumnIndex cvm_Config cvm_DSV]. rewrite read_time_columns. cbn [outcome_bind]. rewrite epoch_first.
  assert (Hfirst : forall csm, columnSeriesMapFromCSVData csm tbk rows_of (drop 2 indexes) (wire_shapes all_names kinds) =
    columnSeriesMapFromCSVData csm tbk rows_of (drop 1 (map Z.of_nat (seq 0 (length all_names)))) (drop 1 (wire_shapes all_names kinds)))
    by reflexivity.
  rewrite Hfirst, columns_from. cbn [outcome_bind]. rewrite drop_0, series_fold. by rewrite csm_AddColumn_singleton.
Qed.

Lemma load_text tbk : epochs <> [] ->
  exists np r, NewNumpyDataset series = Ret np /\ CSVtoNumpyMulti names local LoadLocation (csv_NewReader file_text) tbk (mkCSVMetadata config (wire_shapes all_names kinds) indexes) load_chunk false =
    Ret (Some (NewNumpyMultiDataset np tbk), true, r).
Proof.
  intros Hne. pose proof good_rows as Hgood. unfold CSVtoNumpyMulti, csv_NewReader, chunk_fuel. cbn [cr_text].
  unfold file_text at 1 2. rewrite (normalize_rows _ _ Hgood).
  destruct (read_rows _ _ Hgood (S (String.length (foldr String.append "" (map line_of rows_of)))) load_chunk 0 []) as [r Hr].
  { pose proof (rows_shorter _ _ Hgood). lia. }
  { unfold rows_of. rewrite length_imap. exact (ld_rows Hld). }
  { by left. }
  rewrite Hr. cbn [app]. pose proof (convert_rows tbk) as Hc.
  destruct rows_of as [|row rows] eqn:Er; [unfold rows_of in Er; by destruct epochs|].
  rewrite Hc. cbn [outcome_bind]. cbn [mbind option_bind]. rewrite lookup_singleton_eq, remove_added.
  unfold series. rewrite (nds_loop_frame _ _ names_distinct ltac:(done) length_all kinds_wire _ _ rows_ok_all). cbn [outcome_bind].
  eexists _, r. split; reflexivity.
Qed.

(** *** Writing it *)

Lemma series_epoch : GetByName "Epoch" series = Some (int64_column epochs).
Proof. by apply (series_column 0). Qed.

Lemma series_no_explain : GetByName "explain-output" series = None.
Proof.
  destruct (foldl_named (zip all_names all_cols) NewColumnSeries) as (_ & _ & _ & _ & Hout).
  { rewrite fst_zip; [apply names_distinct|]. cbn. rewrite (ld_length Hld). lia. }
  { intros. apply lookup_empty. }
  unfold GetByName, series, frame. rewrite table_named, Hout; [reflexivity|].
  rewrite fst_zip by (cbn; rewrite (ld_length Hld); lia). intros Hin. apply elem_of_cons in Hin as [H|Hin]; [discriminate H|].
  apply (ld_reserved Hld) in Hin. apply Hin. by repeat constructor.
Qed.

Lemma epochs_back : col_int64s (int64_column epochs) = epochs.
Proof.
  unfold col_int64s, int64_column. cbn [col_elems]. rewrite map_map. rewrite <- (map_id epochs) at 2. apply map_ext_in.
  intros ts Hts. apply list_elem_of_In, epoch_ok in Hts as [Hts _]. pose proof (ToInt64_le_bytes ts []) as H. rewrite app_nil_r in H.
  rewrite H. unfold int64. by apply wrapS_id.
Qed.

Lemma overwrite_nothing text : overwrite "" text = text.
Proof. unfold overwrite, drop_string. destruct (String.length text); cbn; apply string_app_nil_r. Qed.

Lemma show_text {D N : Type} (writable : string -> bool) (queryText oFile : string) (s : session D N) :
  oFile <> "" -> writable oFile = true -> se_files s !! oFile = None ->
  exists s', printResult UTC abbreviation FormatFloat writable queryText (Some series) oFile s = (Ret tt, s') /\
    se_files s' !! oFile = Some file_text.
Proof.
  intros Hf Hw Hnone. destruct (all_rows_from 0 epochs) as (rows & Hrows & Htexts); [by rewrite drop_0|].
  unfold printResult. rewrite series_no_explain, series_epoch. destruct (decide (oFile = "")); [done|].
  change (col_kind (int64_column epochs)) with KInt64. rewrite bool_decide_eq_true_2 by done. cbn [negb].
  rewrite epochs_back, Hrows. unfold mbind, prog_bind, open_output, lift, write_output. rewrite Hw, Hnone. cbn [default from_option id].
  eexists. split; [reflexivity|]. cbn [se_files]. rewrite lookup_insert_eq, lookup_insert_eq. cbn [default from_option id].
  rewrite overwrite_nothing. f_equal. apply csv_rows_text. exact Htexts.
Qed.
End roundtrip.

(** C17: What [\show] writes to a new CSV file, [\load] reads back, for a table
    whose columns are an Epoch, the first, and behind it columns of integers of
    a given size, of one length and with names that differ also without regard
    to case and are none of those the loader reserves (Nanoseconds among them),
    with at least one row and less than a million, of the years 0 to 9999, on a
    system in UTC and for a bucket of fixed-length records ([loadable]). The
    file that [printResult] writes is understood by [ReadMetadata], with a
    control file that names the columns and gives the layout of the printed
    times, and [CSVtoNumpyMulti] makes of its rows the data set of that
    table. *)
Theorem show_then_load {D N : Type} names local LoadLocation abbreviation FormatFloat writable Unmarshal
    (colNames : list string) (cols : list column) (epochs : list Z) (control queryText oFile : string) (tbk : TimeBucketKey) (s : session D N) :
  loadable colNames cols epochs -> epochs <> [] ->
  (forall t, abbreviation UTC t = "UTC") -> LoadLocation "UTC" = Some UTC ->
  Unmarshal control = Some (config colNames) ->
  oFile <> "" -> writable oFile = true -> se_files s !! oFile = None ->
  exists s' text csvReader cvm np r,
    printResult UTC abbreviation FormatFloat writable queryText (Some (series colNames cols epochs)) oFile s = (Ret tt, s') /\
    se_files s' !! oFile = Some text /\
    ReadMetadata Unmarshal (Some text) (Some control) (cs_GetDataShapes (series colNames cols epochs)) = Ret (Some (csvReader, cvm)) /\
    NewNumpyDataset (series colNames cols epochs) = Ret np /\
    CSVtoNumpyMulti names local LoadLocation csvReader tbk cvm load_chunk false = Ret (Some (NewNumpyMultiDataset np tbk), true, r).
Proof.
  intros Hld Hne Habbr Hloc Hu Hf Hw Hnone.
  destruct (show_text names local abbreviation FormatFloat Habbr colNames cols epochs Hld writable queryText oFile s Hf Hw Hnone) as (s' & Hs & Ht).
  destruct (load_text names local LoadLocation abbreviation Habbr Hloc colNames cols epochs Hld tbk Hne) as (np & r & Hnp & Hr).
  exists s', (file_text abbreviation cols epochs). eexists _, _, np, r. split_and!; [exact Hs|exact Ht| |exact Hnp|exact Hr].
  by apply (read_metadata names local).
Qed.

(** Two rows of a 32-bit column, one negative. *)
Lemma show_then_load_witness :
  let names := fun (_ : Location) (_ : string) (_ : Z) => @None Z in
  let zone := fun n : string => if decide (n = "UTC") then Some UTC else None in
  let Unmarshal := fun text : string => if decide (text = "yaml") then Some (config ["Volume"]) else None in
  let cols := [int32_column [500; -3]] in
  let s := mkSession tt tt (mkClient false "out.csv" local_mode) ∅ [] in
  exists s' text csvReader cvm np r,
    printResult UTC (fun _ _ => "UTC") (fun _ => "") (fun _ => true) "\show" (Some (series ["Volume"] cols [1488240000; 1488240060])) "out.csv" s = (Ret tt, s') /\
    se_files s' !! "out.csv" = Some text /\
    ReadMetadata Unmarshal (Some text) (Some "yaml") (cs_GetDataShapes (series ["Volume"] cols [1488240000; 1488240060])) = Ret (Some (csvReader, cvm)) /\
    NewNumpyDataset (series ["Volume"] cols [1488240000; 1488240060]) = Ret np /\
    CSVtoNumpyMulti names UTC zone csvReader (NewTimeBucketKey "AAPL/1Min/V" []) cvm load_chunk false =
      Ret (Some (NewNumpyMultiDataset np (NewTimeBucketKey "AAPL/1Min/V" [])), true, r).
Proof.
  cbv zeta. apply show_then_load; [|done|done|reflexivity|reflexivity|done|done|done].
  split.
  - apply (bool_decide_eq_true_1 _). reflexivity.
  - intros name ->%list_elem_of_singleton. apply (bool_decide_eq_true_1 _). reflexivity.
  - reflexivity.
  - constructor; [|constructor]. split_and!; [by repeat constructor| |reflexivity]. by repeat constructor.
  - constructor; [|constructor; [|constructor]]; (split; [vm_compute; split; congruence|vm_compute; split; congruence]).
  - reflexivity.
Defined.
