(* ===== verification/Rates.v ===== *)
(** * Feeders of crypto currencies (contrib/gdaxfeeder, bitmexfeeder, binancefeeder)

    Each asks its service for the candles of its symbols from some time on,
    writes them, and goes on behind the last of them.  The services are
    interfaces; the clock's readings are arguments. *)

From S2P Require Export Feeder Service Csv.
From S2P Require Import GoStrings.

#[local] Open Scope string_scope.
#[local] Open Scope Z_scope.

(** ** What they share *)

Record rate := mkRate {
  r_Time : Time; r_Open : float64; r_High : float64; r_Low : float64; r_Close : float64; r_Volume : float64 }.

Definition rates_series (rates : list rate) : ColumnSeries :=
  table [("Epoch", int64_column (map (fun r => Unix (r_Time r)) rates));
         ("Open", float64_column (map r_Open rates)); ("High", float64_column (map r_High rates));
         ("Low", float64_column (map r_Low rates)); ("Close", float64_column (map r_Close rates));
         ("Volume", float64_column (map r_Volume rates))].

Definition bucket_of (prefix symbol timeframe : string) : TimeBucketKey :=
  NewTimeBucketKey (prefix +:+ symbol +:+ "/" +:+ timeframe +:+ "/OHLCV") [].

(** The later of a time and those of the rates. *)
Definition later (lastTime : Time) (r : rate) : Time := if time_After (r_Time r) lastTime then r_Time r else lastTime.

Record FetcherConfig := mkFetcherConfig { cfg_Symbols : list string; cfg_QueryStart : string; cfg_BaseTimeframe : string }.
(** A timeframe that is not understood is nil. *)
Record fetcher_of := mkFetcherOf { ft_symbols : list string; ft_queryStart : Time; ft_baseTimeframe : option Timeframe }.

Definition new_fetcher (tz : Location) (available : list string) (defaultStart : Time) (defaultTimeframe : string) (config : FetcherConfig) : fetcher_of :=
  mkFetcherOf (match cfg_Symbols config with [] => available | symbols => symbols end)
    (if decide (cfg_QueryStart config = "") then defaultStart else queryTime tz (cfg_QueryStart config))
    (NewTimeframe (ArgString (if decide (cfg_BaseTimeframe config = "") then defaultTimeframe else cfg_BaseTimeframe config))).

Section start.
Context {S : Type} `{Store S}.

(** The earliest of the buckets' last timestamps, the zero time without any. *)
Fixpoint earliest_last (tbks : list TimeBucketKey) (timeStart : Time) : prog S Time :=
  match tbks with
  | [] => mret timeStart
  | tbk :: tbks' =>
      lastTimestamp ← st_findLastTimestamp tbk;
      earliest_last tbks'
        (if IsZero timeStart || (negb (IsZero lastTimestamp) && time_Before lastTimestamp timeStart) then lastTimestamp else timeStart)
  end.

Definition start_time (queryStart now timeStart : Time) : Time :=
  if IsZero timeStart then (if negb (IsZero queryStart) then queryStart else time_Add now (- Hour)) else timeStart.

Definition write_rates (tbk : TimeBucketKey) (rates : list rate) : prog S unit :=
  logged (st_WriteCSM (AddColumnSeries tbk (rates_series rates) ∅) false).

(** How long the worker sleeps between two rounds, in nanoseconds. *)
Definition sleep_time (nextExpected lastTime now now' : Time) : Z :=
  let toSleep := time_Sub nextExpected now in
  if 0 <? toSleep then toSleep else if time_Sub now' lastTime <? Hour then Second else 0.
End start.

(** ** GDAX *)

Module Gdax.
Class HistoricRates (S : Type) := { GetHistoricRates : string -> Time -> Time -> Z -> prog S (list rate) }.

(** [sort.Sort], which may leave rates of the same time in any order. *)
Class RateSort := {
  sort_rates : list rate -> list rate;
  sort_rates_perm : forall l, Permutation (sort_rates l) l;
  sort_rates_sorted : forall l, Sorted (fun a b => t_ns (r_Time a) <= t_ns (r_Time b)) (sort_rates l) }.

Section worker.
Context {S : Type} `{Store S} `{HistoricRates S} `{RateSort}.

Definition gdax_bucket (tf : Timeframe) (symbol : string) : TimeBucketKey := bucket_of "gdax_" symbol (tf_String tf).

(** The rates of a symbol in a window; the last of all times. *)
Definition fetch_symbol (tf : Timeframe) (timeStart timeEnd : Time) (symbol : string) (lastTime : Time) : prog S Time :=
  r ← try_prog (GetHistoricRates symbol timeStart timeEnd (Z.quot (tf_Duration tf) Second));
  match r with
  | inr _ | inl [] => mret lastTime
  | inl rates =>
      let rates := sort_rates rates in
      write_rates (gdax_bucket tf symbol) rates;;
      mret (foldl later lastTime rates)
  end.
Fixpoint fetch_symbols (tf : Timeframe) (timeStart timeEnd : Time) (symbols : list string) (lastTime : Time) : prog S Time :=
  match symbols with
  | [] => mret lastTime
  | symbol :: symbols' =>
      lastTime ← fetch_symbol tf timeStart timeEnd symbol lastTime; fetch_symbols tf timeStart timeEnd symbols' lastTime
  end.

(** One round: the start of the next. *)
Definition round (tf : Timeframe) (symbols : list string) (timeStart : Time) : prog S Time :=
  let timeEnd := time_Add timeStart (int64 (tf_Duration tf * 300)) in
  lastTime ← fetch_symbols tf timeStart timeEnd symbols timeStart;
  mret (time_Add lastTime (tf_Duration tf)).
Fixpoint rounds (n : nat) (tf : Timeframe) (symbols : list string) (timeStart : Time) : prog S Time :=
  match n with
  | O => mret timeStart
  | Datatypes.S n' => timeStart ← round tf symbols timeStart; rounds n' tf symbols timeStart
  end.

(** The first [n] rounds of [Run]. *)
Definition Run (n : nat) (gd : fetcher_of) (now : Time) : prog S Time :=
  match ft_symbols gd, ft_baseTimeframe gd with
  | _, Some tf =>
      t ← earliest_last (map (gdax_bucket tf) (ft_symbols gd)) zeroTime;
      rounds n tf (ft_symbols gd) (start_time (ft_queryStart gd) now t)
  | _, None => lift nil_pointer
  end.
End worker.

Definition NewBgWorker (tz : Location) (available : list string) (config : FetcherConfig) : fetcher_of :=
  new_fetcher tz available zeroTime "1Min" config.
End Gdax.

(** ** BitMEX *)

Module Bitmex.
Record TradeBucketedResponse := mkBucketed {
  tb_Timestamp : string; tb_Open : float64; tb_High : float64; tb_Low : float64; tb_Close : float64; tb_Volume : float64 }.
(** The symbol, the start, and the bin size: empty for a timeframe that the
    service has no name for. *)
Class Buckets (S : Type) := { trade_bucketed : string -> Time -> string -> prog S (list TradeBucketedResponse) }.

Definition bitmexBinSize (timeframe : string) : string :=
  if decide (timeframe = "1Min") then "1m" else if decide (timeframe = "5Min") then "5m"
  else if decide (timeframe = "1H") then "1h" else if decide (timeframe = "1D") then "1d" else "".

Section worker.
Context {S : Type} `{Store S} `{Buckets S}.

Definition GetBuckets (symbol : string) (from : Time) (binSize : string) : prog S (list TradeBucketedResponse) :=
  trade_bucketed symbol from (bitmexBinSize binSize).

Definition bitmex_bucket (tf : Timeframe) (symbol : string) : TimeBucketKey := bucket_of "bitmex_" symbol (tf_String tf).

Fixpoint parse_rates (rates : list TradeBucketedResponse) : outcome (list rate) :=
  match rates with
  | [] => Ret []
  | r :: rates' =>
      match time_Parse_ns no_names rfc3339_layout (tb_Timestamp r) with
      | None => Panic "parsing time"
      | Some ns =>
          (let! rest := parse_rates rates' in
           Ret (mkRate (mkTime ns UTC) (tb_Open r) (tb_High r) (tb_Low r) (tb_Close r) (tb_Volume r) :: rest))%outcome
      end
  end.

Definition fetch_symbol (tf : Timeframe) (timeStart : Time) (symbol : string) (lastTime : Time) : prog S Time :=
  r ← try_prog (GetBuckets symbol timeStart (tf_String tf));
  match r with
  | inr _ | inl [] => mret lastTime
  | inl buckets =>
      rates ← lift (parse_rates buckets);
      write_rates (bitmex_bucket tf symbol) rates;;
      mret (foldl later lastTime rates)
  end.
Fixpoint fetch_symbols (tf : Timeframe) (timeStart : Time) (symbols : list string) (lastTime : Time) : prog S Time :=
  match symbols with
  | [] => mret lastTime
  | symbol :: symbols' => lastTime ← fetch_symbol tf timeStart symbol lastTime; fetch_symbols tf timeStart symbols' lastTime
  end.
Definition round (tf : Timeframe) (symbols : list string) (timeStart : Time) : prog S Time :=
  lastTime ← fetch_symbols tf timeStart symbols timeStart;
  mret (time_Add lastTime (tf_Duration tf)).
Fixpoint rounds (n : nat) (tf : Timeframe) (symbols : list string) (timeStart : Time) : prog S Time :=
  match n with
  | O => mret timeStart
  | Datatypes.S n' => timeStart ← round tf symbols timeStart; rounds n' tf symbols timeStart
  end.
(** Without symbols the nil timeframe is met in the first round. *)
Definition Run (n : nat) (gd : fetcher_of) (now : Time) : prog S Time :=
  match ft_baseTimeframe gd with
  | Some tf =>
      t ← earliest_last (map (bitmex_bucket tf) (ft_symbols gd)) zeroTime;
      rounds n tf (ft_symbols gd) (start_time (ft_queryStart gd) now t)
  | None => lift nil_pointer
  end.
End worker.

Definition NewBgWorker (tz : Location) (available : list string) (config : FetcherConfig) : fetcher_of :=
  new_fetcher tz available (Date 2017 1 1 0 0 0 0 UTC) "1m" config.
End Bitmex.

(** ** Binance *)

Module Binance.
Record kline := mkKline { k_OpenTime : Z; k_Open : string; k_High : string; k_Low : string; k_Close : string; k_Volume : string }.
(** The pair, the interval, the start and the end in milliseconds. *)
Class Klines (S : Type) := { GetKlines : string -> string -> Z -> option Z -> prog S (list kline) }.

(** *** The symbols of the exchange *)

Record exchange_symbol := mkExchangeSymbol { ei_Status : string; ei_BaseAsset : string; ei_QuoteAsset : string }.

Definition appendIfMissing (slice : list string) (s : string) : list string * bool :=
  if bool_decide (s ∈ slice) then (slice, false) else ((slice ++ [s])%list, true).

Fixpoint match_quotes (info : exchange_symbol) (quoteAssets : list string) (symbol status : list string) : list string * list string :=
  match quoteAssets with
  | [] => (symbol, status)
  | quoteAsset :: quoteAssets' =>
      if decide (ei_QuoteAsset info = quoteAsset) then
        let '(symbol, notRepeated) := appendIfMissing symbol (ei_BaseAsset info) in
        match_quotes info quoteAssets' symbol (if notRepeated then (status ++ [ei_Status info])%list else status)
      else match_quotes info quoteAssets' symbol status
  end.
Definition listed_symbols (quoteAssets : list string) (infos : list exchange_symbol) : list string * list string :=
  foldl (fun acc info => match_quotes info quoteAssets acc.1 acc.2) ([], []) infos.
(** [None] when the exchange does not answer. *)
Definition trading_symbols (quoteAssets : list string) (infos : option (list exchange_symbol)) : list string :=
  match infos with
  | None => ["BTC"; "ETH"; "LTC"; "BNB"]
  | Some infos =>
      let '(symbol, status) := listed_symbols quoteAssets infos in
      map fst (List.filter (fun p => bool_decide (snd p = "TRADING")) (zip symbol status))
  end.
Definition getAllSymbols (works : string -> bool) (quoteAssets : list string) (infos : option (list exchange_symbol)) : outcome (list string) :=
  match trading_symbols quoteAssets infos, quoteAssets with
  | [], _ => Ret []
  | symbols, quote :: _ => Ret (List.filter (fun s => works (s +:+ quote)) symbols)
  | _, [] => Panic "index out of range"
  end.

(** *** The interval's name *)

Fixpoint filter_string (f : ascii -> bool) (s : string) : string :=
  match s with String c s' => if f c then String c (filter_string f s') else filter_string f s' | "" => "" end.
Definition is_letter (c : ascii) : bool :=
  let n := Z.of_nat (nat_of_ascii c) in ((65 <=? n) && (n <=? 90)) || ((97 <=? n) && (n <=? 122)).
Definition suffixBinanceDefs (s : string) : string :=
  if decide (s = "Min") then "m" else if decide (s = "H") then "h" else if decide (s = "D") then "d"
  else if decide (s = "W") then "w" else "".
Definition time_interval (originalInterval : string) : string :=
  let letters := filter_string (fun c => negb (is_digit c)) originalInterval in
  let nums := filter_string (fun c => negb (is_letter c)) originalInterval in
  let symbol := suffixBinanceDefs letters in
  nums +:+ (if decide (symbol = "") then "1Min" else symbol).

(** *** The candles *)

Definition convertMillToTime (originalTime : Z) : Time := time_Unix 0 (int64 (originalTime * 1000000)) UTC.
Definition millis (t : Time) : Z := Z.quot (int64 (t_ns t)) 1000000.

Definition complete (k : kline) : bool :=
  negb (k_OpenTime k =? 0) && forallb (fun s => negb (bool_decide (s = ""))) [k_Open k; k_High k; k_Low k; k_Close k; k_Volume k].
(** [None] when a text is not a number: the worker ends. *)
Fixpoint convert_rates (rates : list kline) : option (list rate) :=
  match rates with
  | [] => Some []
  | k :: rates' =>
      if complete k then
        match ParseFloat64 (k_Open k), ParseFloat64 (k_High k), ParseFloat64 (k_Low k), ParseFloat64 (k_Close k), ParseFloat64 (k_Volume k) with
        | Some o, Some h, Some l, Some c, Some v => option_map (cons (mkRate (convertMillToTime (k_OpenTime k)) o h l c v)) (convert_rates rates')
        | _, _, _, _, _ => None
        end
      else convert_rates rates'
  end.

(** *** The worker *)

Record loop := mkLoop { lp_timeStart : Time; lp_timeEnd : Time; lp_endZero : Time; lp_slowDown : bool; lp_firstLoop : bool }.
(** What a round comes to: the next one, the end of the worker, or the wait for
    a candle that has not come yet. *)
Inductive round_end := Next (l : loop) | Ended | Waiting.

Section worker.
Context {S : Type} `{Store S} `{Klines S}.

Definition binance_bucket (tf : Timeframe) (symbol baseCurrency : string) : TimeBucketKey :=
  bucket_of "binance_" (symbol +:+ "-" +:+ baseCurrency) (tf_String tf).

(** The times found are not used. *)
Definition first_start (tf : Timeframe) (symbols baseCurrencies : list string) (queryStart now : Time) : prog S Time :=
  _ ← earliest_last (flat_map (fun s => map (binance_bucket tf s) baseCurrencies) symbols) zeroTime;
  mret (if negb (IsZero queryStart) then queryStart else time_Add now (- tf_Duration tf)).

(** The window of a round while the past is filled in. *)
Definition backfill_window (tf : Timeframe) (l : loop) : Time * Time :=
  let d := int64 (tf_Duration tf * 300) in
  let timeStart := if lp_firstLoop l then lp_timeStart l else time_Add (lp_timeStart l) d in
  (timeStart, time_Add timeStart d).

Definition last_whole (originalInterval : string) (t : Time) : Time :=
  if decide (originalInterval = "1Min") then Date (Year t) (Month t) (Day_of_month t) (time_Hour t) (time_Minute t) 0 0 UTC
  else if decide (originalInterval = "1H") then Date (Year t) (Month t) (Day_of_month t) (time_Hour t) 0 0 0 UTC
  else if decide (originalInterval = "1D") then Date (Year t) (Month t) (Day_of_month t) 0 0 0 0 UTC
  else t.

(** Asks until a candle begins at the end or later. *)
Fixpoint wait_candle (tries : nat) (pair interval : string) (timeStartM timeEndM : Z) : prog S bool :=
  match tries with
  | O => mret false
  | Datatypes.S tries' =>
      r ← try_prog (GetKlines pair interval timeStartM None);
      match r with
      | inl rates => match List.last (map Some rates) None with
                     | Some k => if 0 <=? int64 (k_OpenTime k - timeEndM) then mret true else wait_candle tries' pair interval timeStartM timeEndM
                     | None => wait_candle tries' pair interval timeStartM timeEndM
                     end
      | inr _ => wait_candle tries' pair interval timeStartM timeEndM
      end
  end.

(** The pairs in turn: the start that the next round goes on from, [None] when
    the worker ends. *)
Fixpoint fetch_pairs (tf : Timeframe) (interval : string) (startM endM : Z) (slowDown : bool) (originalTimeStart : Time)
    (pairs : list (string * string)) (timeStart : Time) : prog S (option Time) :=
  match pairs with
  | [] => mret (Some timeStart)
  | (symbol, baseCurrency) :: pairs' =>
      r ← try_prog (GetKlines (symbol +:+ baseCurrency) interval startM (Some endM));
      match r with
      | inr _ => fetch_pairs tf interval startM endM slowDown originalTimeStart pairs' originalTimeStart
      | inl klines =>
          match convert_rates klines with
          | None => mret None
          | Some [] => fetch_pairs tf interval startM endM slowDown originalTimeStart pairs' timeStart
          | Some rates =>
              let rates := if slowDown && (1 <? length rates)%nat then removelast rates else rates in
              write_rates (binance_bucket tf symbol baseCurrency) rates;;
              fetch_pairs tf interval startM endM slowDown originalTimeStart pairs' timeStart
          end
      end
  end.

(** The clock is read to decide whether the past is filled in, for the end of
    the window, and behind the wait. *)
Definition round (tries : nat) (tf : Timeframe) (symbols baseCurrencies : list string) (now now' now'' : Time) (l : loop) : prog S round_end :=
  let interval := time_interval (tf_String tf) in
  let pairs := flat_map (fun s => map (pair s) baseCurrencies) symbols in
  let originalTimeStart := lp_timeStart l in
  let '(timeStart, timeEnd, originalTimeEnd, slowDown) :=
    if lp_slowDown l then (lp_timeStart l, lp_timeEnd l, lp_endZero l, true)
    else let '(timeStart, timeEnd) := backfill_window tf l in (timeStart, timeEnd, lp_timeEnd l, time_After timeEnd now) in
  let finish := fun timeStart timeEnd endZero =>
    r ← fetch_pairs tf interval (millis timeStart) (millis timeEnd) slowDown originalTimeStart pairs timeStart;
    match r with
    | Some timeStart => mret (Next (mkLoop timeStart timeEnd endZero slowDown false))
    | None => mret Ended
    end in
  if slowDown : bool then
    match symbols, baseCurrencies with
    | symbol :: _, baseCurrency :: _ =>
        let timeStart := originalTimeEnd in
        let timeEnd := last_whole (tf_String tf) now' in
        got ← wait_candle tries (symbol +:+ baseCurrency) interval (millis timeStart) (millis timeEnd);
        if got : bool then finish timeStart now'' timeEnd else mret Waiting
    | _, _ => lift (Panic "index out of range")
    end
  else finish timeStart timeEnd (lp_endZero l).

Definition first_loop (timeStart : Time) : loop := mkLoop timeStart zeroTime zeroTime false true.

(** [Run] over some rounds, each with its readings of the clock. *)
Fixpoint rounds (tries : nat) (tf : Timeframe) (symbols baseCurrencies : list string) (clocks : list (Time * Time * Time)) (l : loop) : prog S round_end :=
  match clocks with
  | [] => mret (Next l)
  | (now, now', now'') :: clocks' =>
      r ← round tries tf symbols baseCurrencies now now' now'' l;
      match r with Next l => rounds tries tf symbols baseCurrencies clocks' l | _ => mret r end
  end.
Definition Run (tries : nat) (bn : fetcher_of) (baseCurrencies : list string) (now : Time) (clocks : list (Time * Time * Time)) : prog S round_end :=
  match ft_baseTimeframe bn with
  | None => lift nil_pointer
  | Some tf =>
      t ← first_start tf (ft_symbols bn) baseCurrencies (ft_queryStart bn) now;
      rounds tries tf (ft_symbols bn) baseCurrencies clocks (first_loop t)
  end.
End worker.

(** The symbols of the exchange are those for the default currency. *)
Definition NewBgWorker (tz : Location) (works : string -> bool) (infos : option (list exchange_symbol)) (baseCurrencies : list string)
    (config : FetcherConfig) : outcome (fetcher_of * list string) :=
  (let! available := getAllSymbols works ["USDT"] infos in
   Ret (new_fetcher tz available zeroTime "1Min" config, match baseCurrencies with [] => ["USDT"] | _ => baseCurrencies end))%outcome.
End Binance.

(** ** What the workers bring into the store *)

(** A store that keeps what is written, and knows the last times it is told. *)
Definition log_store (lasts : TimeBucketKey -> Time) : Store (list ColumnSeriesMap) := {|
  st_WriteCSM := fun (csm : ColumnSeriesMap) (_ : bool) (log : list ColumnSeriesMap) => (Ret tt, (log ++ [csm])%list);
  st_findLastTimestamp := fun tbk (log : list ColumnSeriesMap) => (Ret (lasts tbk), log);
|}.

Section earliest.
Context (lasts : TimeBucketKey -> Time).
#[local] Existing Instance log_store.

Definition known (tbks : list TimeBucketKey) : list Time := List.filter (fun t => negb (IsZero t)) (map lasts tbks).

Lemma earliest_last_spec tbks t0 log :
  exists t, earliest_last (H := log_store lasts) tbks t0 log = (Ret t, log)
    /\ (IsZero t = true <-> IsZero t0 = true /\ known tbks = [])
    /\ (IsZero t = false -> (t = t0 \/ t ∈ known tbks)
          /\ (IsZero t0 = false -> t_ns t <= t_ns t0) /\ Forall (fun u => t_ns t <= t_ns u) (known tbks)).
Proof.
  revert t0. induction tbks as [|k tbks IH]; intros t0; cbn [earliest_last].
  { exists t0. split; [done|]. unfold known. cbn. split; [naive_solver|]. intros. split; [auto|]. split; [lia|constructor]. }
  unfold mbind, prog_bind. cbn [st_findLastTimestamp log_store].
  match goal with |- context [earliest_last tbks ?x log] => set (t1 := x) end. destruct (IH t1) as (t & E & Hz & Hs). exists t. split; [exact E|].
  assert (K : known (k :: tbks) = if negb (IsZero (lasts k)) then lasts k :: known tbks else known tbks) by done.
  rewrite K. subst t1. clear IH E K.
  destruct (IsZero t0) eqn:Z0; cbn [orb] in *.
  - destruct (IsZero (lasts k)) eqn:Zk; cbn [negb].
    + split; [naive_solver|]. intros Hn. destruct (Hs Hn) as (Hin & _ & Hall).
      split; [|split; [done|exact Hall]]. destruct Hin as [->|Hin]; [congruence|auto].
    + split; [naive_solver|]. intros Hn. destruct (Hs Hn) as (Hin & Hle & Hall). specialize (Hle eq_refl).
      split; [right; set_solver|]. split; [done|]. by constructor.
  - destruct (IsZero (lasts k)) eqn:Zk; cbn [negb andb] in *.
    + rewrite Z0 in *. split; [naive_solver|]. exact Hs.
    + destruct (time_Before (lasts k) t0) eqn:B; cbn [negb] in *; unfold time_Before in B.
      * rewrite Zk in *. split; [naive_solver|]. intros Hn. destruct (Hs Hn) as (Hin & Hle & Hall). specialize (Hle eq_refl).
        split; [right; set_solver|]. split; [lia|]. by constructor.
      * rewrite Z0 in *. split; [naive_solver|]. intros Hn. destruct (Hs Hn) as (Hin & Hle & Hall). specialize (Hle eq_refl).
        split; [set_solver|]. split; [lia|]. constructor; [lia|exact Hall].
Qed.
End earliest.

Lemma later_spec (rates : list rate) t :
  let t' := foldl later t rates in
  t_ns t <= t_ns t' /\ Forall (fun r => t_ns (r_Time r) <= t_ns t') rates
  /\ (t_ns t' = t_ns t \/ exists r, r ∈ rates /\ t_ns t' = t_ns (r_Time r)).
Proof.
  revert t. induction rates as [|r rates IH]; intros t; cbn; [split; [lia|split; [constructor|auto]]|].
  destruct (IH (later t r)) as (Hle & Hall & Hin). unfold later, time_After in *.
  destruct (Z.ltb_spec (t_ns t) (t_ns (r_Time r))).
  - split; [lia|]. split; [by constructor|]. right. destruct Hin as [E|(u & Hu & E)]; [exists r|exists u]; split; auto; set_solver.
  - split; [lia|]. split; [constructor; [lia|done]|]. destruct Hin as [E|(u & Hu & E)]; [by left|right; exists u; set_solver].
Qed.

Lemma written_series tbk rates : AddColumnSeries tbk (rates_series rates) ∅ !! tbk = Some (rates_series rates).
Proof.
  unfold rates_series. generalize (int64_column (map (fun r => Unix (r_Time r)) rates)), (float64_column (map r_Open rates)),
    (float64_column (map r_High rates)), (float64_column (map r_Low rates)), (float64_column (map r_Close rates)), (float64_column (map r_Volume rates)).
  intros c1 c2 c3 c4 c5 c6. unfold AddColumnSeries.
  rewrite csm_AddColumn_fold by done. rewrite lookup_empty, lookup_insert_eq. reflexivity.
Qed.

Section fills.
Context `{Gdax.RateSort} `{Gdax.HistoricRates (list ColumnSeriesMap)} (hist : string -> list rate) (lasts : TimeBucketKey -> Time).
#[local] Existing Instance log_store.

(** The service answers every request, with the candles of the window, both of
    whose ends belong to it, in any order. *)
Context (Hservice : forall symbol start stop granularity log, exists rates,
  Gdax.GetHistoricRates symbol start stop granularity log = (Ret rates, log) /\
  forall r, r ∈ rates <-> r ∈ hist symbol /\ t_ns start <= t_ns (r_Time r) <= t_ns stop).

(** A candle is in a written series of its symbol's bucket. *)
Definition kept (tf : Timeframe) (symbol : string) (r : rate) (log : list ColumnSeriesMap) : Prop :=
  exists csm rates, csm ∈ log /\ csm !! Gdax.gdax_bucket tf symbol = Some (rates_series rates)
    /\ r ∈ rates /\ Sorted (fun a b => t_ns (r_Time a) <= t_ns (r_Time b)) rates /\ rates ⊆ hist symbol.

Definition on_grid (tf : Timeframe) (t : Time) (r : rate) : Prop := (tf_Duration tf | t_ns (r_Time r) - t_ns t).

Lemma kept_app tf symbol r log log' : kept tf symbol r log -> kept tf symbol r (log ++ log').
Proof. intros (csm & rates & Hin & Hrest). exists csm, rates. split; [set_solver|exact Hrest]. Qed.

(** One symbol's window: what is written, and the time it leads to. *)
Lemma fetch_symbol_fills tf start stop symbol t log :
  exists t' new, Gdax.fetch_symbol (H := log_store lasts) tf start stop symbol t log = (Ret t', (log ++ new)%list)
    /\ t_ns t <= t_ns t'
    /\ (t_ns t' = t_ns t \/ exists r, r ∈ hist symbol /\ t_ns start <= t_ns (r_Time r) <= t_ns stop /\ t_ns t' = t_ns (r_Time r))
    /\ (forall r, r ∈ hist symbol -> t_ns start <= t_ns (r_Time r) <= t_ns stop ->
          t_ns (r_Time r) <= t_ns t' /\ kept tf symbol r new).
Proof.
  unfold Gdax.fetch_symbol, mbind, prog_bind, try_prog.
  destruct (Hservice symbol start stop (Z.quot (tf_Duration tf) Second) log) as (w & Ew & Hw). rewrite Ew.
  unfold mret, prog_ret. destruct w as [|r0 w].
  { exists t, []. rewrite app_nil_r. split; [done|]. split; [lia|]. split; [auto|]. intros r Hr Hb. destruct (Hw r) as [_ Hi]. set_solver. }
  set (rates := Gdax.sort_rates (r0 :: w)).
  assert (Hp : forall r, r ∈ rates <-> r ∈ hist symbol /\ t_ns start <= t_ns (r_Time r) <= t_ns stop).
  { intros r. rewrite <- Hw. unfold rates. by rewrite (Gdax.sort_rates_perm (r0 :: w)). }
  pose proof (Gdax.sort_rates_sorted (r0 :: w)) as Hs. fold rates in Hs. clearbody rates.
  unfold write_rates, logged. cbn [st_WriteCSM log_store].
  destruct (later_spec rates t) as (Hle & Hall & Hin). eexists _, [_]. split; [reflexivity|]. split; [exact Hle|]. split.
  - destruct Hin as [E|(r & Hr & E)]; [auto|right]. exists r. apply Hp in Hr. tauto.
  - intros r Hr Hb. rewrite Forall_forall in Hall. split; [apply Hall; by apply Hp|].
    eexists _, rates. split; [by apply list_elem_of_singleton|]. split; [apply written_series|].
    split; [by apply Hp|]. split; [done|]. intros u Hu. by apply Hp in Hu as [].
Qed.

Lemma fetch_symbols_fills tf start stop symbols t log :
  exists t' new, Gdax.fetch_symbols (H := log_store lasts) tf start stop symbols t log = (Ret t', (log ++ new)%list)
    /\ t_ns t <= t_ns t'
    /\ (t_ns t' = t_ns t \/ exists symbol r, symbol ∈ symbols /\ r ∈ hist symbol /\ t_ns start <= t_ns (r_Time r) <= t_ns stop /\ t_ns t' = t_ns (r_Time r))
    /\ (forall symbol r, symbol ∈ symbols -> r ∈ hist symbol -> t_ns start <= t_ns (r_Time r) <= t_ns stop ->
          t_ns (r_Time r) <= t_ns t' /\ kept tf symbol r new).
Proof.
  revert t log. induction symbols as [|x symbols IH]; intros t log; cbn [Gdax.fetch_symbols].
  { exists t, []. rewrite app_nil_r. split; [done|]. split; [lia|]. split; [auto|]. set_solver. }
  destruct (fetch_symbol_fills tf start stop x t log) as (t1 & new1 & E1 & L1 & O1 & C1).
  unfold mbind, prog_bind. rewrite E1.
  destruct (IH t1 (log ++ new1)%list) as (t2 & new2 & E2 & L2 & O2 & C2).
  exists t2, (new1 ++ new2)%list. rewrite E2, <- app_assoc. split; [done|]. split; [lia|]. split.
  - destruct O2 as [O2|(s & r & Hs & Hr)]; [|right; exists s, r; set_solver].
    destruct O1 as [O1|(r & Hr & Hb & E)]; [left; lia|right; exists x, r]. split; [set_solver|]. split; [done|]. lia.
  - intros s r Hs Hr Hb. apply elem_of_cons in Hs as [->|Hs].
    + destruct (C1 r Hr Hb). split; [lia|by apply kept_app].
    + destruct (C2 s r Hs Hr Hb) as [? (csm & rates & Hin & Hrest)]. split; [done|]. exists csm, rates. split; [set_solver|done].
Qed.

Context (tf : Timeframe) (symbols : list string).
Context (Hduration : 0 < tf_Duration tf) (Hfits : tf_Duration tf * 300 < 2 ^ 63).

Lemma round_fills t log :
  (forall symbol r, symbol ∈ symbols -> r ∈ hist symbol -> on_grid tf t r) ->
  exists t' new, Gdax.round (H := log_store lasts) tf symbols t log = (Ret t', (log ++ new)%list)
    /\ t_ns t + tf_Duration tf <= t_ns t'
    /\ (tf_Duration tf | t_ns t' - t_ns t)
    /\ (forall symbol r, symbol ∈ symbols -> r ∈ hist symbol -> t_ns t <= t_ns (r_Time r) < t_ns t' -> kept tf symbol r new).
Proof.
  intros Hg. unfold Gdax.round.
  assert (E300 : int64 (tf_Duration tf * 300) = tf_Duration tf * 300) by (apply wrapS_id; unfold inS; lia).
  rewrite E300.
  destruct (fetch_symbols_fills tf t (time_Add t (tf_Duration tf * 300)) symbols t log) as (t1 & new & E & L & O & C).
  unfold mbind, prog_bind. rewrite E. eexists _, new. split; [reflexivity|].
  assert (Hd : (tf_Duration tf | t_ns t1 - t_ns t)).
  { destruct O as [->|(s & r & Hs & Hr & Hb & ->)]; [rewrite Z.sub_diag; apply Z.divide_0_r|exact (Hg s r Hs Hr)]. }
  assert (Hu : t_ns t1 <= t_ns t + tf_Duration tf * 300).
  { destruct O as [->|(s & r & Hs & Hr & Hb & ->)]; cbn [time_Add t_ns] in *; lia. }
  cbn [time_Add t_ns] in *. split; [lia|]. split.
  { replace (t_ns t1 + tf_Duration tf - t_ns t) with (t_ns t1 - t_ns t + tf_Duration tf) by lia. apply Z.divide_add_r; [done|apply Z.divide_refl]. }
  intros s r Hs Hr Hb. apply (C s r Hs Hr).
  enough (t_ns (r_Time r) <= t_ns t1) by lia.
  destruct Hd as [a Ha], (Hg s r Hs Hr) as [b Hb']. assert (b < a + 1) by nia. nia.
Qed.

(** C25: The gdax worker leaves no gap: against any service that answers each request, with all its candles of the window
    and no others, and whose candles lie on the grid of the timeframe, [n] rounds from a start [t] end without an error, have gone on by at least [n] durations,
    and every candle of every configured symbol from [t] on and before the next start is in a written series of
    the symbol's bucket, in the order of time and with candles of that symbol only. *)
Theorem gdax_fills n t log :
  (forall symbol r, symbol ∈ symbols -> r ∈ hist symbol -> on_grid tf t r) ->
  exists t' log', Gdax.rounds (H := log_store lasts) n tf symbols t log = (Ret t', log')
    /\ t_ns t + Z.of_nat n * tf_Duration tf <= t_ns t'
    /\ (forall symbol r, symbol ∈ symbols -> r ∈ hist symbol -> t_ns t <= t_ns (r_Time r) < t_ns t' -> kept tf symbol r log').
Proof.
  intros Hg. enough (exists t' new, Gdax.rounds (H := log_store lasts) n tf symbols t log = (Ret t', (log ++ new)%list)
    /\ t_ns t + Z.of_nat n * tf_Duration tf <= t_ns t'
    /\ (forall symbol r, symbol ∈ symbols -> r ∈ hist symbol -> t_ns t <= t_ns (r_Time r) < t_ns t' -> kept tf symbol r new)) as (t' & new & E & L & C).
  { exists t', (log ++ new)%list. split; [done|]. split; [done|]. intros s r Hs Hr Hb.
    destruct (C s r Hs Hr Hb) as (csm & rates & Hin & Hrest). exists csm, rates. split; [set_solver|done]. }
  revert t log Hg. induction n as [|n IH]; intros t log Hg; cbn [Gdax.rounds].
  { exists t, []. rewrite app_nil_r. split; [done|]. split; [lia|]. lia. }
  destruct (round_fills t log Hg) as (t1 & new1 & E1 & L1 & D1 & C1). unfold mbind, prog_bind. rewrite E1.
  destruct (IH t1 (log ++ new1)%list) as (t2 & new2 & E2 & L2 & C2).
  { intros s r Hs Hr. unfold on_grid. replace (t_ns (r_Time r) - t_ns t1) with (t_ns (r_Time r) - t_ns t - (t_ns t1 - t_ns t)) by lia.
    apply Z.divide_sub_r; [by apply (Hg s)|done]. }
  exists t2, (new1 ++ new2)%list. rewrite E2, <- app_assoc. split; [done|]. split; [lia|].
  intros s r Hs Hr Hb. destruct (Z.lt_ge_cases (t_ns (r_Time r)) (t_ns t1)).
  - apply kept_app, (C1 s); [done|done|lia].
  - destruct (C2 s r Hs Hr) as (csm & rates & Hin & Hrest); [lia|]. exists csm, rates. split; [set_solver|done].
Qed.
End fills.

(** ** Concrete workers *)

Definition candle (t : Z) : rate := mkRate (mkTime (t * 1000000000) UTC) (float64_of_Z 1) (float64_of_Z 1) (float64_of_Z 1) (float64_of_Z 1) (float64_of_Z 1).
Definition minute : Timeframe := mkTimeframe "1Min" 60000000000.
Definition some_rates (symbol : string) : list rate :=
  if decide (symbol = "BTC-USD") then [candle 180; candle 120; candle 60] else if decide (symbol = "ETH-USD") then [candle 240] else [].

Definition time_le (a b : rate) : Prop := t_ns (r_Time a) <= t_ns (r_Time b).
#[local] Instance time_le_dec : RelDecision time_le.
Proof. intros a b. unfold time_le. apply _. Defined.
#[local] Instance time_le_total : Total time_le.
Proof. intros a b. unfold time_le. lia. Defined.
#[local] Instance time_le_trans : Transitive time_le.
Proof. intros a b c. unfold time_le. lia. Defined.

Definition merge_rates : Gdax.RateSort := {|
  Gdax.sort_rates := merge_sort time_le;
  Gdax.sort_rates_perm := merge_sort_Permutation time_le;
  Gdax.sort_rates_sorted := Sorted_merge_sort time_le;
|}.

(** A service that keeps a list of candles for every symbol. *)
Definition complete_service (hist : string -> list rate) : Gdax.HistoricRates (list ColumnSeriesMap) := {|
  Gdax.GetHistoricRates := fun symbol start stop _ =>
    mret (List.filter (fun r => (t_ns start <=? t_ns (r_Time r)) && (t_ns (r_Time r) <=? t_ns stop)) (hist symbol));
|}.
Lemma complete_answers hist symbol start stop granularity log : exists rates,
  Gdax.GetHistoricRates (HistoricRates := complete_service hist) symbol start stop granularity log = (Ret rates, log) /\
  forall r, r ∈ rates <-> r ∈ hist symbol /\ t_ns start <= t_ns (r_Time r) <= t_ns stop.
Proof.
  eexists. split; [reflexivity|]. intros r. rewrite !list_elem_of_In, filter_In. rewrite andb_true_iff, !Z.leb_le. tauto.
Qed.

Lemma gdax_fills_witness :
  exists t' log', Gdax.rounds (H := log_store (fun _ => zeroTime)) (H0 := complete_service some_rates) (H1 := merge_rates)
                    3 minute ["BTC-USD"; "ETH-USD"] (mkTime 0 UTC) [] = (Ret t', log')
    /\ 180000000000 <= t_ns t'
    /\ kept some_rates minute "BTC-USD" (candle 120) log'.
Proof.
  destruct (gdax_fills (H := merge_rates) (H0 := complete_service some_rates) some_rates (fun _ => zeroTime)
              (complete_answers some_rates) minute ["BTC-USD"; "ETH-USD"] ltac:(reflexivity) ltac:(reflexivity)
              3 (mkTime 0 UTC) []) as (t' & log' & E & L & C).
  { intros s r Hs Hr. assert (r ∈ [candle 180; candle 120; candle 60; candle 240]) as Hc.
    { unfold some_rates in Hr. repeat case_decide; set_solver. }
    unfold on_grid. rewrite !elem_of_cons in Hc.
    destruct Hc as [->|[->|[->|[->|Hc]]]]; [exists 3|exists 2|exists 1|exists 4|set_solver]; reflexivity. }
  exists t', log'. split; [exact E|]. split; [cbn in L; lia|].
  apply (C "BTC-USD"); [apply list_elem_of_here| |cbn in *; lia]. apply list_elem_of_further, list_elem_of_here.
Defined.

(** A service that does not answer for one symbol in the first round. *)
Definition failing_service (hist : string -> list rate) : Gdax.HistoricRates (list ColumnSeriesMap) := {|
  Gdax.GetHistoricRates := fun symbol start stop g log =>
    if decide (symbol = "ETH-USD" /\ (length log < 2)%nat) then (Fail (ErrMsg "rate limit"), log)
    else Gdax.GetHistoricRates (HistoricRates := complete_service hist) symbol start stop g log;
|}.

(** The window of a symbol that failed is not asked for again: the others move the start on. *)
Lemma failed_window_lost :
  let hist := fun symbol => if decide (symbol = "BTC-USD") then [candle 60; candle 120; candle 180] else [candle 60; candle 180] in
  match Gdax.rounds (H := log_store (fun _ => zeroTime)) (H0 := failing_service hist) (H1 := merge_rates)
          5 minute ["BTC-USD"; "ETH-USD"] (mkTime 0 UTC) [] with
  | (Ret t, log) => 180000000000 < t_ns t /\ forallb (fun csm : ColumnSeriesMap => bool_decide (csm !! Gdax.gdax_bucket minute "ETH-USD" = None)) log = true
  | _ => False
  end.
Proof. vm_compute. done. Qed.

(** The timeframes that the comment on the configuration of bitmex names, and its default, are not understood. *)
Lemma bitmex_timeframes : forallb (fun tf => match NewTimeframe (ArgString tf) with None => true | _ => false end) ["1m"; "5m"; "1h"] = true.
Proof. reflexivity. Qed.
Lemma bitmex_default_panics {S} `{Store S} `{Bitmex.Buckets S} n tz available queryStart now s :
  fst (Bitmex.Run n (Bitmex.NewBgWorker tz available (mkFetcherConfig [] queryStart "")) now s) = nil_pointer.
Proof. reflexivity. Qed.

(** The last times in the store do not change where the binance worker starts. *)
Lemma binance_start_ignores (lasts : TimeBucketKey -> Time) tf symbols baseCurrencies queryStart now log :
  fst (Binance.first_start (H := log_store lasts) tf symbols baseCurrencies queryStart now log)
  = Ret (if negb (IsZero queryStart) then queryStart else time_Add now (- tf_Duration tf)).
Proof.
  unfold Binance.first_start. unfold mbind, prog_bind.
  destruct (earliest_last_spec lasts (flat_map (fun s => map (Binance.binance_bucket tf s) baseCurrencies) symbols) zeroTime log) as (t & -> & _).
  reflexivity.
Qed.

(** An interval without a name at the exchange gets the digits twice. *)
Lemma binance_intervals : map Binance.time_interval ["1Min"; "4H"; "1D"; "30Sec"] = ["1m"; "4h"; "1d"; "301Min"].
Proof. reflexivity. Qed.

(** A service that gives nothing and keeps the starts it was asked for. *)
Definition asked_starts : Binance.Klines (list Z) := {| Binance.GetKlines := fun _ _ start _ starts => (Ret [], (starts ++ [start])%list) |}.
Definition no_store : Store (list Z) := {|
  st_WriteCSM := fun (_ : ColumnSeriesMap) (_ : bool) (s : list Z) => (Ret tt, s);
  st_findLastTimestamp := fun _ (s : list Z) => (Ret zeroTime, s);
|}.

(** When the first window already reaches the present, the worker asks from a start in 1754 on,
    to which the nanoseconds of the zero time wrap. *)
Lemma binance_first_window :
  let now := Date 2020 1 1 12 0 30 0 UTC in
  let start := Date 2020 1 1 11 0 0 0 UTC in
  snd (Binance.round (H := no_store) (H0 := asked_starts) 1 minute ["BTC"] ["USDT"] now now now (Binance.first_loop start) [])
  = [Binance.millis zeroTime].
Proof. vm_compute. reflexivity. Qed.
