(* ===== verification/Iex.v ===== *)
(** * The feeder of the IEX (contrib/iex)

    The service answers for a batch of symbols at once, or refuses the batch
    when one of them is traded over the counter; the batch is then halved until
    the symbol is found, which is never asked for again.  The service, the
    store, the clock and the package that makes bars of trades are parameters. *)

From S2P Require Export Feeder Service GoLayout Calendar.
From S2P Require Import GoStrings.

#[local] Open Scope string_scope.
#[local] Open Scope Z_scope.

(** ** The service (contrib/iex/api) *)

Definition BatchSize : Z := 100.

Record Chart := mkChart {
  ch_Date : string; ch_Minute : string; ch_Open : float32; ch_High : float32; ch_Low : float32; ch_Close : float32; ch_Volume : Z }.
(** A list that the answer does not have is nil. *)
Record ChartResponse := mkChartResponse { cr_Chart : option (list Chart); cr_IntradayPrices : option (list Chart) }.
(** A symbol may have a null. *)
Abbreviation GetBarsResponse := (gmap string (option ChartResponse)).

Inductive reply :=
  | TooManyRequests
  | UnavailableForLegalReasons
  | Answered (resp : option GetBarsResponse)
  | NoAnswer.

(** The batch, the types, the range and the length asked for. *)
Class Charts (S : Type) := { http_batch : list string -> string -> string -> option Z -> prog S reply }.

Section timestamp.
Context (names : Location -> string -> Z -> option Z) (NY : Location).
Definition GetTimestamp (c : Chart) : option Time :=
  if decide (ch_Minute c = "") then ParseInLocation names "2006-01-02" (ch_Date c) NY
  else ParseInLocation names "2006-01-02 15:04" (ch_Date c +:+ " " +:+ ch_Minute c) NY.
End timestamp.

Definition SupportedRange (r : string) : bool :=
  bool_decide (r ∈ ["5y"; "2y"; "1y"; "ytd"; "6m"; "3m"; "1m"; "1d"; "date"; "dynamic"]).

Definition intraday_chart (cr : ChartResponse) : ChartResponse := mkChartResponse (cr_IntradayPrices cr) (cr_IntradayPrices cr).
(** Every symbol's prices of the day are put in the place of its chart. *)
Definition use_intraday (resp : GetBarsResponse) : outcome GetBarsResponse :=
  if bool_decide (map_Forall (fun _ v => v <> None) resp) then Ret (option_map intraday_chart <$> resp) else nil_pointer.

Section api.
Context {S : Type} `{Charts S}.
(** The symbols that are left out, and the service. *)
Abbreviation api := (gset string * S)%type.

Definition ask (symbols : list string) (types barRange : string) (chartLast : option Z) : prog api reply := fun s =>
  let '(r, e) := http_batch symbols types barRange chartLast s.2 in (r, (s.1, e)).
Definition exclude (symbol : string) : prog api unit := state_modify (fun s => ({[symbol]} ∪ s.1, s.2)).

Definition keep_symbols (excluded : gset string) (symbols : list string) : list string :=
  List.filter (fun s => negb (bool_decide (s ∈ excluded))) symbols.
(** The second wins. *)
Definition join_halves (r0 r1 : GetBarsResponse + goerr) : GetBarsResponse :=
  let got r := match r with inl m => m | inr _ => ∅ end in got r1 ∪ got r0.

Fixpoint GetBars (fuel : nat) (symbols : list string) (barRange : string) (limit : option Z) (retries : Z) : prog api GetBarsResponse :=
  match fuel with
  | O => lift (Panic "out of fuel")
  | Datatypes.S fuel' =>
      match symbols with
      | [] => mret ∅
      | _ =>
          excluded ← (fun s => (Ret s.1, s));
          let symbols := keep_symbols excluded symbols in
          let types := if decide (barRange = "1d") then "intraday-prices" else "chart" in
          if negb (SupportedRange barRange) then lift (Fail (ErrMsg "not a supported bar range")) else
          let chartLast := match limit with Some l => if 0 <? l then Some l else None | None => None end in
          let again := if 0 <? retries then GetBars fuel' symbols barRange limit (retries - 1) else lift (Fail (ErrMsg "retry count exceeded")) in
          r ← ask symbols types barRange chartLast;
          match r with
          | NoAnswer => lift (Fail (ErrMsg "no answer"))
          | TooManyRequests => again
          | UnavailableForLegalReasons =>
              match symbols with
              | [symbol] => exclude symbol;; lift (Fail (ErrMsg "OTC Error"))
              | _ =>
                  let split := (length symbols / 2)%nat in
                  resp0 ← try_prog (GetBars fuel' (take split symbols) barRange limit retries);
                  resp1 ← try_prog (GetBars fuel' (drop split symbols) barRange limit retries);
                  mret (join_halves resp0 resp1)
              end
          | Answered None => lift (Fail (ErrMsg "not an answer"))
          | Answered (Some resp) =>
              resp ← lift (if decide (types = "intraday-prices") then use_intraday resp else Ret resp);
              match symbols with
              | [] => lift (Panic "index out of range")
              | symbol :: _ =>
                  match resp !! symbol with
                  | Some (Some (mkChartResponse None _)) => again
                  | _ => mret resp
                  end
              end
          end
      end
  end.
(** Enough for every way the calls can nest. *)
Definition bars_fuel (symbols : list string) (retries : Z) : nat := (length symbols + Z.to_nat retries + 2)%nat.
End api.

(** ** The worker (contrib/iex/iex.go) *)

Record IEXFetcher := mkIEXFetcher {
  f_Daily : bool; f_Intraday : bool; f_Symbols : list string; f_refreshSymbols : bool; f_lastDailyRunDate : Z;
  f_backfillM : gmap string (option Time); f_lastM : gmap TimeBucketKey Z }.

Record iex_config := mkIexConfig { ic_Daily : bool; ic_Intraday : bool; ic_Symbols : list string; ic_Token : string; ic_Sandbox : bool }.
Definition NewBgWorker (config : iex_config) : outcome IEXFetcher :=
  if decide (ic_Token config = "") then Fail (ErrMsg "IEXCloud Token is not set")
  else Ret (mkIEXFetcher (ic_Daily config) (ic_Intraday config) (ic_Symbols config)
              (match ic_Symbols config with [] => true | _ => false end) 0 ∅ ∅).

(** A symbol that is not enabled leaves an empty name. *)
Definition listed (resp : list (string * bool)) : list string := map (fun si : string * bool => if si.2 then si.1 else "") resp.
Definition UpdateSymbolList (resp : option (list (string * bool))) (f : IEXFetcher) : IEXFetcher :=
  match f_refreshSymbols f, resp with
  | true, Some resp => mkIEXFetcher (f_Daily f) (f_Intraday f) (listed resp) true (f_lastDailyRunDate f) (f_backfillM f) (f_lastM f)
  | _, _ => f
  end.

(** The batches of one turn of the loop that fills the queue, without its mark. *)
Fixpoint batches_loop (fuel : nat) (symbols : list string) : list (list string) :=
  match fuel, symbols with
  | Datatypes.S fuel', _ :: _ => take (Z.to_nat BatchSize) symbols :: batches_loop fuel' (drop (Z.to_nat BatchSize) symbols)
  | _, _ => []
  end.
Definition batches (symbols : list string) : list (list string) := batches_loop (length symbols) symbols.

Definition onceDaily (now : Time) (runHour runMinute : Z) (lastDailyRunDate : Z) : bool * Z :=
  if (lastDailyRunDate =? 0) || (negb (lastDailyRunDate =? Day_of_month now) && (runHour =? time_Hour now) && (runMinute <=? time_Minute now))
  then (true, Day_of_month now) else (false, lastDailyRunDate).

Definition bars_table (bars : list (prod Time Chart)) : ColumnSeries :=
  let prices (f : Chart -> float32) := float32_column (map (fun b : (Time * Chart)%type => f (snd b)) bars) in
  table [("Epoch", int64_column (map (fun b => Unix (fst b)) bars)); ("Open", prices ch_Open); ("High", prices ch_High);
         ("Low", prices ch_Low); ("Close", prices ch_Close); ("Volume", int32_column (map (fun b => ch_Volume (snd b)) bars))].

Section worker.
Context {S : Type} `{Store S} `{Charts S} `{MapRange}.
Context (names : Location -> string -> Z -> option Z) (NY : Location).

(** The symbols left out, the worker, and what it works with. *)
Record iex := mkIex { x_excluded : gset string; x_fetcher : IEXFetcher; x_env : S }.
Definition on_api {A} (m : prog (gset string * S) A) : prog iex A := fun x =>
  let '(r, (e, s)) := m (x_excluded x, x_env x) in (r, mkIex e (x_fetcher x) s).
Definition on_env {A} (m : prog S A) : prog iex A := fun x =>
  let '(r, s) := m (x_env x) in (r, mkIex (x_excluded x) (x_fetcher x) s).
Definition get_fetcher : prog iex IEXFetcher := fun x => (Ret (x_fetcher x), x).
Definition set_maps (backfillM : gmap string (option Time)) (lastM : gmap TimeBucketKey Z) : prog iex unit := fun x =>
  let f := x_fetcher x in
  (Ret tt, mkIex (x_excluded x) (mkIEXFetcher (f_Daily f) (f_Intraday f) (f_Symbols f) (f_refreshSymbols f) (f_lastDailyRunDate f) backfillM lastM) (x_env x)).

(** The bars that have volume, with their times; [ts] is the last time read. *)
Fixpoint timed_bars (bars : list Chart) (ts : Time) : outcome (list (Time * Chart) * Time) :=
  match bars with
  | [] => Ret ([], ts)
  | bar :: bars' =>
      if ch_Volume bar =? 0 then timed_bars bars' ts else
      match GetTimestamp names NY bar with
      | None => Fail (ErrMsg "parsing time")
      | Some ts =>
          (let! '(rest, last) := timed_bars bars' ts in
           Ret (if IsZero ts then rest else (ts, bar) :: rest, last))%outcome
      end
  end.

Definition bucket (symbol : string) (intraday : bool) : TimeBucketKey :=
  NewTimeBucketKeyFromString (symbol +:+ "/" +:+ (if intraday then "1Min" else "1D") +:+ "/OHLCV").

Definition write_symbol (intraday backfill : bool) (symbol : string) (bars : option ChartResponse) (csm : ColumnSeriesMap) : prog iex ColumnSeriesMap :=
  match bars with
  | None => lift nil_pointer
  | Some bars =>
      '(rows, ts) ← lift (timed_bars (default [] (cr_Chart bars)) zeroTime);
      match List.last (map (fun b => Some (Unix (fst b))) rows) None with
      | None => mret csm
      | Some lastEpoch =>
          f ← get_fetcher;
          let tbk := bucket symbol intraday in
          let written := match f_lastM f !! tbk with Some v => lastEpoch <=? v | None => false end in
          if negb backfill && written then mret csm
          else
            let key := replace_first (GetItemKey tbk) "/OHLCV" "" in
            set_maps (match f_backfillM f !! key with Some _ => f_backfillM f | None => <[key := Some ts]> (f_backfillM f) end) (f_lastM f);;
            mret (AddColumnSeries tbk (bars_table rows) csm)
      end
  end.
Fixpoint write_symbols (intraday backfill : bool) (resp : list (string * option ChartResponse)) (csm : ColumnSeriesMap) : prog iex ColumnSeriesMap :=
  match resp with
  | [] => mret csm
  | (symbol, bars) :: resp' => csm ← write_symbol intraday backfill symbol bars csm; write_symbols intraday backfill resp' csm
  end.

Fixpoint last_written (csm : list (TimeBucketKey * ColumnSeries)) (lastM : gmap TimeBucketKey Z) : outcome (gmap TimeBucketKey Z) :=
  match csm with
  | [] => Ret lastM
  | (tbk, cs) :: csm' =>
      (let! epoch := GetEpoch cs in
       last_written csm' (match List.last (map Some epoch) None with Some e => <[tbk := e]> lastM | None => lastM end))%outcome
  end.
Definition updateLastWritten (csm : ColumnSeriesMap) : prog iex unit :=
  f ← get_fetcher; lastM ← lift (last_written (map_range csm) (f_lastM f)); set_maps (f_backfillM f) lastM.

(** Without an answer there is nothing to write. *)
Definition writeBars (resp : option GetBarsResponse) (intraday backfill : bool) : prog iex unit :=
  match resp with
  | None => mret tt
  | Some resp =>
      csm ← write_symbols intraday backfill (map_range resp) ∅;
      on_env (st_WriteCSM csm false);;
      updateLastWritten csm
  end.

Definition get_bars (symbols : list string) (barRange : string) (limit : option Z) (retries : Z) : prog iex GetBarsResponse :=
  on_api (GetBars (bars_fuel symbols retries) symbols barRange limit retries).

Definition pollIntraday (symbols : list string) : prog iex unit :=
  f ← get_fetcher;
  if negb (f_Intraday f) then mret tt else
  r ← try_prog (get_bars symbols "1d" (Some 10) 5);
  match r with inr _ => mret tt | inl resp => logged (writeBars (Some resp) true false) end.
(** The error of the request does not end the function. *)
Definition pollDaily (symbols : list string) : prog iex unit :=
  f ← get_fetcher;
  if negb (f_Daily f) then mret tt else
  r ← try_prog (get_bars symbols "1m" (Some 1) 5);
  logged (writeBars (match r with inl resp => Some resp | inr _ => None end) false false).

(** The error is returned, so that the symbol is tried again. *)
Definition backfill (symbol timeframe : string) : prog iex unit :=
  let intraday := EqualFold timeframe "1Min" in
  resp ← get_bars [symbol] (if intraday then "1d" else "5y") None 5;
  writeBars (Some resp) intraday true.

(** One symbol of a round of [workBackfill]; the rounds run them side by side. *)
Definition backfill_entry (key : string) (value : option Time) : prog iex unit :=
  match value, Split key "/" with
  | None, _ :: _ :: _ => mret tt
  | Some _, symbol :: timeframe :: _ =>
      r ← try_prog (backfill symbol timeframe);
      match r with
      | inl _ => f ← get_fetcher; set_maps (<[key := None]> (f_backfillM f)) (f_lastM f)
      | inr _ => mret tt
      end
  | _, _ => lift (Panic "index out of range")
  end.
Definition workBackfill_round : prog iex unit :=
  f ← get_fetcher; for_each (map_range (f_backfillM f)) (fun kv => backfill_entry kv.1 kv.2).

(** A batch of the queue. *)
Definition poll (runDaily : bool) (batch : list string) : prog iex unit :=
  pollIntraday batch;; (if runDaily then pollDaily batch else mret tt).
End worker.
Arguments iex : clear implicits.

(** ** The backfill of trades (contrib/iex/backfill)

    The trades of a day are read in the order of the exchange, and those of a
    minute are made into bars by another package. *)

Module Backfill.
Record Bar := mkBar {
  b_Symbol : string; b_OpenTime : Time; b_CloseTime : Time;
  b_Open : float64; b_High : float64; b_Low : float64; b_Close : float64; b_Volume : Z }.

(** [sort.Slice] by the symbol. *)
Class BarSort := {
  sort_bars : list Bar -> list Bar;
  sort_bars_perm : forall l, Permutation (sort_bars l) l;
  sort_bars_sorted : forall l, Sorted (fun a b => String.leb (b_Symbol a) (b_Symbol b) = true) (sort_bars l) }.

Definition set_times (openTime closeTime : Time) (b : Bar) : Bar :=
  mkBar (b_Symbol b) openTime closeTime (b_Open b) (b_High b) (b_Low b) (b_Close b) (b_Volume b).

(** The bar before is looked for from the start of all bars. *)
Fixpoint next_loop (bars rest : list Bar) (i : nat) (batch : list Bar) : list Bar * nat :=
  match rest with
  | [] => (batch, length bars)
  | bar :: rest' =>
      if (0 <? i)%nat && negb (EqualFold (b_Symbol bar) (b_Symbol (nth (i - 1) bars bar))) then (batch, i)
      else next_loop bars rest' (Datatypes.S i) (batch ++ [bar])%list
  end.
Definition nextBatch (bars : list Bar) (index : nat) : list Bar * nat := next_loop bars (drop index bars) 0 [].

Definition batch_series (batch : list Bar) : ColumnSeries :=
  let prices (f : Bar -> float64) := float32_column (map (fun b => to_float32 (f b)) batch) in
  table [("Epoch", int64_column (map (fun b => Unix (b_OpenTime b)) batch)); ("Open", prices b_Open); ("High", prices b_High);
         ("Low", prices b_Low); ("Close", prices b_Close); ("Volume", int32_column (map (fun b => int32 (b_Volume b)) batch))].
Definition bar_bucket (symbol : string) : TimeBucketKey := NewTimeBucketKeyFromString (symbol +:+ "/1Min/OHLCV").

Fixpoint batches_from (bars : list Bar) (indexes : list nat) (csm : ColumnSeriesMap) : ColumnSeriesMap :=
  match indexes with
  | [] => csm
  | i :: indexes' =>
      let '(batch, index) := nextBatch bars i in
      let csm := match batch with bar :: _ => AddColumnSeries (bar_bucket (b_Symbol bar)) (batch_series batch) csm | [] => csm end in
      if (index =? length bars)%nat then csm else batches_from bars indexes' csm
  end.
Definition bars_map (bars : list Bar) : ColumnSeriesMap := batches_from bars (seq 0 (length bars)) ∅.

(** The file of a day: its messages, of which only the trades are used, and
    whether it ends as it should. *)
Inductive day_file (trade : Type) :=
  | NotFound | Unavailable | NoFeed
  | Packets (messages : list (option trade)) (whole : bool).
Arguments NotFound {trade}. Arguments Unavailable {trade}. Arguments NoFeed {trade}. Arguments Packets {trade}.

Section day.
Context {S trade : Type} `{Store S} `{BarSort} (Timestamp : trade -> Time) (MakeBars : list trade -> list Bar).

Definition makeBars (trades : list trade) (openTime closeTime : Time) : list Bar :=
  sort_bars (map (set_times openTime closeTime) (MakeBars trades)).
Definition writeBars (bars : list Bar) : prog S unit := st_WriteCSM (bars_map bars) false.
(** A failure ends the process. *)
Definition or_fatal (m : prog S unit) : prog S unit := fun s =>
  match m s with (Fail e, s') => (Fatal "write failed", s') | r => r end.

(** The trades not yet written, and their minute. *)
Record scan := mkScan { sc_trades : list trade; sc_openTime : Time; sc_closeTime : Time }.
Definition new_minute (msg : trade) (trades : list trade) : scan :=
  let openTime := Truncate (Timestamp msg) Minute in mkScan trades openTime (time_Add openTime Minute).
Definition first_minute (msg : trade) (sc : scan) : scan :=
  if IsZero (sc_openTime sc) then new_minute msg (sc_trades sc) else sc.
Definition minute_over (msg : trade) (sc : scan) : bool :=
  time_After (Timestamp msg) (sc_closeTime sc) && negb (match sc_trades sc with [] => true | _ => false end).
Definition next_trade (msg : trade) (sc : scan) : prog S scan :=
  let sc := first_minute msg sc in
  sc ← (if minute_over msg sc then
          or_fatal (writeBars (makeBars (sc_trades sc) (sc_openTime sc) (sc_closeTime sc)));;
          mret (new_minute msg [])
        else mret sc);
  mret (mkScan (sc_trades sc ++ [msg])%list (sc_openTime sc) (sc_closeTime sc)).
Fixpoint scan_messages (messages : list (option trade)) (sc : scan) : prog S scan :=
  match messages with
  | [] => mret sc
  | None :: messages' => scan_messages messages' sc
  | Some msg :: messages' => sc ← next_trade msg sc; scan_messages messages' sc
  end.
(** What is left of the trades at the end is not used. *)
Definition pullDate (file : day_file trade) : prog S unit :=
  match file with
  | NotFound => mret tt
  | Unavailable => lift (Panic "no answer")
  | NoFeed => lift (Panic "Found 0 available data feeds")
  | Packets messages whole =>
      _ ← scan_messages messages (mkScan [] zeroTime zeroTime);
      if whole then mret tt else lift (Fatal "message")
  end.
End day.

(** The days of [main], the last one first. *)
Fixpoint market_days (fuel : nat) (start stop : Time) : outcome (list Time) :=
  match fuel with
  | O => Panic "out of fuel"
  | Datatypes.S fuel' =>
      if time_After stop start then
        (let! rest := market_days fuel' start (time_Add stop (- (24 * Hour))) in
         Ret (if IsMarketDay nasdaq stop then stop :: rest else rest))%outcome
      else Ret []
  end.
End Backfill.

(** ** The symbols traded over the counter *)

Lemma keep_disjoint excluded symbols : Forall (fun s => s ∉ excluded) symbols -> keep_symbols excluded symbols = symbols.
Proof.
  unfold keep_symbols. induction 1 as [|s symbols Hs _ IH]; [done|]. cbn. rewrite bool_decide_eq_false_2 by done. cbn. by rewrite IH.
Qed.
Lemma keep_symbols_excluded excluded symbols : Forall (fun s => s ∉ excluded) (keep_symbols excluded symbols).
Proof.
  apply Forall_forall. intros s Hs. unfold keep_symbols in Hs. apply list_elem_of_In, filter_In in Hs as [_ Hs].
  destruct (bool_decide_reflect (s ∈ excluded)); [discriminate|done].
Qed.
Lemma keep_symbols_length excluded symbols : (length (keep_symbols excluded symbols) <= length symbols)%nat.
Proof. unfold keep_symbols. induction symbols as [|s symbols IH]; cbn; [lia|]. destruct (negb _); cbn; lia. Qed.
Lemma keep_symbols_NoDup excluded symbols : NoDup symbols -> NoDup (keep_symbols excluded symbols).
Proof. rewrite !NoDup_ListNoDup. apply List.NoDup_filter. Qed.

(** Only the symbols kept matter. *)
Lemma GetBars_keep {S} `{Charts S} fuel symbols barRange limit retries excluded (e : S) :
  keep_symbols excluded symbols <> [] ->
  GetBars fuel symbols barRange limit retries (excluded, e) = GetBars fuel (keep_symbols excluded symbols) barRange limit retries (excluded, e).
Proof.
  intros Hk. destruct fuel as [|fuel]; [done|]. destruct symbols as [|s symbols]; [done|].
  destruct (keep_symbols excluded (s :: symbols)) as [|k ks] eqn:E; [done|]. cbn [GetBars]. unfold mbind, prog_bind. cbn [fst].
  rewrite E, <- E, (keep_disjoint excluded (keep_symbols excluded (s :: symbols)) (keep_symbols_excluded excluded (s :: symbols))). by rewrite E.
Qed.

Lemma half_lt (n : nat) : (2 <= n)%nat -> (1 <= n / 2 /\ n / 2 < n)%nat.
Proof.
  intros Hn. pose proof (Nat.div_mod_eq n 2). pose proof (Nat.mod_upper_bound n 2 ltac:(lia)). lia.
Qed.

(** However the service answers, the calls come to an end. *)
Lemma GetBars_terminates {S} `{Charts S} (Hservice : forall a b c d e, fst (http_batch a b c d e) <> Panic "out of fuel")
    fuel symbols barRange limit retries s :
  (length symbols + Z.to_nat retries < fuel)%nat ->
  fst (GetBars fuel symbols barRange limit retries s) <> Panic "out of fuel".
Proof.
  revert symbols retries s. induction fuel as [|fuel IH]; intros symbols retries [excluded e] Hf; [lia|].
  cbn [GetBars]. destruct symbols as [|s0 symbols0]; [done|]. unfold mbind, prog_bind. cbn [fst snd].
  set (l0 := s0 :: symbols0) in *. pose proof (keep_symbols_length excluded l0) as Hlen.
  assert (H0 : (1 <= length l0)%nat) by (cbn; lia). clearbody l0.
  set (l := keep_symbols excluded l0) in *. clearbody l.
  destruct (negb _); [done|]. set (types := if decide (barRange = _) then _ else _).
  set (last := match limit with Some _ => _ | None => _ end).
  assert (Hagain : forall st, fst ((if 0 <? retries then GetBars fuel l barRange limit (retries - 1)
                    else lift (Fail (ErrMsg "retry count exceeded"))) st) <> Panic "out of fuel").
  { intros st. destruct (Z.ltb_spec 0 retries); [apply IH; lia|done]. }
  unfold ask. cbn [fst snd]. pose proof (Hservice l types barRange last e) as Hs.
  destruct (http_batch l types barRange last e) as [[r| | |msg] e']; cbn [fst snd] in *; try done; [|congruence].
  destruct r as [| |[resp|]|]; [apply Hagain| | |done|done].
  - assert (Hsplit : forall st, fst ((resp0 ← try_prog (GetBars fuel (take (length l / 2) l) barRange limit retries);
                                       resp1 ← try_prog (GetBars fuel (drop (length l / 2) l) barRange limit retries);
                                       mret (join_halves resp0 resp1)) st) <> Panic "out of fuel" \/ length l = 1%nat).
    { intros st. destruct (decide (length l = 1%nat)) as [|Hne]; [by right|left].
      assert (Hl : (length (take (length l / 2) l) < length l0 /\ length (drop (length l / 2) l) < length l0)%nat).
      { rewrite length_take, length_drop. destruct (length l) as [|[|n]] eqn:El; [cbn; lia|lia|].
        pose proof (half_lt (Datatypes.S (Datatypes.S n)) ltac:(lia)). lia. }
      unfold mbind, prog_bind, try_prog.
      pose proof (IH (take (length l / 2) l) retries st ltac:(lia)) as H1.
      destruct (GetBars fuel (take _ _) _ _ _ st) as [[?|?|?|?] st1]; cbn [fst] in H1; try done.
      all: pose proof (IH (drop (length l / 2) l) retries st1 ltac:(lia)) as H2;
        destruct (GetBars fuel (drop _ _) _ _ _ st1) as [[?|?|?|?] st2]; cbn [fst] in H2; try done.
      all: cbn; congruence. }
    destruct l as [|x [|y l']]; [| done |]; destruct (Hsplit (excluded, e')) as [Hs'|Hs']; try exact Hs'; discriminate.
  - unfold lift at 1. destruct (if decide (types = _) then _ else _) as [m| | |msg] eqn:Eu; try done.
    + destruct l as [|x l]; [done|]. destruct (m !! x) as [[[[c|] i]|]|]; done.
    + revert Eu. unfold use_intraday, nil_pointer. destruct (decide _); [|done]. destruct (bool_decide _); [done|].
      intros [= <-]. done.
Qed.

(** A service that refuses every batch with a symbol traded over the counter,
    and else answers with what it has for the symbols. What it keeps of the
    requests does not matter. *)
Definition refuses_otc {S} `{Charts S} (otc : string -> bool) (data : string -> option ChartResponse) : Prop :=
  forall symbols types barRange last e,
    if existsb otc symbols then fst (http_batch symbols types barRange last e) = Ret UnavailableForLegalReasons
    else exists resp, fst (http_batch symbols types barRange last e) = Ret (Answered (Some resp)) /\
      forall s, resp !! s = if bool_decide (s ∈ symbols) then option_map Some (data s) else None.

Section exchange.
Context {S : Type} `{Charts S} (otc : string -> bool) (data : string -> option ChartResponse).
Context (Hservice : refuses_otc otc data).

Context (barRange : string).
Definition shown (c : ChartResponse) : ChartResponse := if decide (barRange = "1d") then intraday_chart c else c.
(** What is known of a symbol that is among those asked for. *)
Definition known (symbols : list string) (s : string) : option (option ChartResponse) :=
  if bool_decide (s ∈ symbols) && negb (otc s) then option_map (fun c => Some (shown c)) (data s) else None.

(** The outcome for symbols of which none is left out. *)
Definition bars_of (symbols : list string) (r : outcome GetBarsResponse) : Prop :=
  (exists x e, symbols = [x] /\ otc x = true /\ r = Fail e) \/
  ((forall x, symbols = [x] -> otc x = false) /\ exists resp, r = Ret resp /\ forall s, resp !! s = known symbols s).
Definition learned (excluded : gset string) (symbols : list string) : gset string :=
  excluded ∪ list_to_set (List.filter otc symbols).

Lemma bars_of_got symbols r : bars_of symbols r ->
  exists g : GetBarsResponse + goerr, r = match g with inl m => Ret m | inr e => Fail e end
    /\ forall s, (match g with inl m => m | inr _ => ∅ end) !! s = known symbols s.
Proof.
  intros [(x & e & -> & Ho & ->)|(_ & resp & -> & Hs)]; [|by exists (inl resp)].
  exists (inr e). split; [done|]. intros s. unfold known. destruct (bool_decide_reflect (s ∈ [x])) as [Hin|]; [|done].
  apply list_elem_of_singleton in Hin as ->. by rewrite Ho.
Qed.

Lemma known_app l1 l2 s : known (l1 ++ l2) s = match known l2 s with Some v => Some v | None => known l1 s end.
Proof.
  unfold known. rewrite (bool_decide_ext (s ∈ (l1 ++ l2)%list) (s ∈ l1 \/ s ∈ l2)) by set_solver.
  repeat case_bool_decide; destruct (otc s), (data s); cbn; tauto || naive_solver.
Qed.

Lemma bars_of_halves l1 l2 r1 r2 : (2 <= length (l1 ++ l2))%nat -> bars_of l1 r1 -> bars_of l2 r2 ->
  exists g1 g2 : GetBarsResponse + goerr, r1 = match g1 with inl m => Ret m | inr e => Fail e end
    /\ r2 = match g2 with inl m => Ret m | inr e => Fail e end /\ bars_of (l1 ++ l2) (Ret (join_halves g1 g2)).
Proof.
  intros Hl B1 B2. destruct (bars_of_got _ _ B1) as (g1 & -> & G1), (bars_of_got _ _ B2) as (g2 & -> & G2).
  exists g1, g2. split; [done|]. split; [done|]. right. split; [intros x Ex; rewrite Ex in Hl; cbn in Hl; lia|].
  eexists. split; [reflexivity|]. intros s. unfold join_halves. rewrite lookup_union, G1, G2, known_app.
  by destruct (known l2 s), (known l1 s).
Qed.

(** The answer as it is used, of symbols that the service does not refuse. *)
Lemma shown_answer symbols (resp : GetBarsResponse) : existsb otc symbols = false ->
  (forall s, resp !! s = if bool_decide (s ∈ symbols) then option_map Some (data s) else None) ->
  exists m, (if decide ((if decide (barRange = "1d") then "intraday-prices" else "chart") = "intraday-prices") then use_intraday resp
     else Ret resp) = Ret m /\ forall s, m !! s = known symbols s.
Proof.
  intros Ho Hresp. assert (Hn : forall s, s ∈ symbols -> otc s = false).
  { intros s Hs. destruct (otc s) eqn:E; [|done]. rewrite <- Ho. symmetry. apply existsb_exists. exists s. split; [by apply list_elem_of_In|done]. }
  assert (Hu : use_intraday resp = Ret (option_map intraday_chart <$> resp)).
  { unfold use_intraday. rewrite bool_decide_eq_true_2; [done|]. intros s v. rewrite Hresp.
    case_bool_decide; [|done]. destruct (data s); [|done]. by intros [= <-]. }
  unfold known, shown. rewrite Hu. destruct (decide (barRange = "1d")); eexists; (split; [reflexivity|]); intros s.
  - rewrite lookup_fmap, Hresp. case_bool_decide as Hs; [|done]. rewrite (Hn s Hs). by destruct (data s).
  - rewrite Hresp. case_bool_decide as Hs; [|done]. rewrite (Hn s Hs). by destruct (data s).
Qed.

Context (limit : option Z) (retries : Z).
Context (Hrange : SupportedRange barRange = true) (Hcharts : forall s c, data s = Some c -> cr_Chart (shown c) <> None).

Lemma existsb_filter_nil {A} (f : A -> bool) (l : list A) : existsb f l = false -> List.filter f l = [].
Proof. induction l as [|x l IH]; [done|]. cbn. destruct (f x); [done|exact IH]. Qed.

Lemma learned_halves excluded l1 l2 : learned (learned excluded l1) l2 = learned excluded (l1 ++ l2).
Proof. unfold learned. rewrite List.filter_app, list_to_set_app_L. set_solver. Qed.

Lemma GetBars_exchange fuel symbols excluded e :
  NoDup symbols -> Forall (fun s => s ∉ excluded) symbols -> (length symbols < fuel)%nat ->
  exists r e', GetBars fuel symbols barRange limit retries (excluded, e) = (r, (learned excluded symbols, e')) /\ bars_of symbols r.
Proof.
  revert symbols excluded e. induction fuel as [|fuel IH]; intros symbols excluded e Hnd Hdis Hf; [lia|].
  cbn [GetBars]. destruct symbols as [|s0 l0].
  { eexists _, e. split; [unfold learned; cbn; by rewrite union_empty_r_L|]. right. split; [done|]. by exists ∅. }
  set (l := s0 :: l0) in *. unfold mbind, prog_bind. cbn [fst snd]. rewrite (keep_disjoint _ l Hdis), Hrange. cbn [negb].
  unfold ask. cbn [fst snd]. set (types := if decide (barRange = "1d") then _ else _).
  set (last := match limit with Some _ => _ | None => _ end). pose proof (Hservice l types barRange last e) as Hs.
  destruct (http_batch l types barRange last e) as [rep e1]. cbn [fst] in Hs. destruct (existsb otc l) eqn:Ho; cbn [fst snd].
  - subst rep. destruct (decide (l0 = [])) as [->|Hne].
    { subst l. cbn in Ho. rewrite orb_false_r in Ho. eexists _, e1. split.
      - unfold learned. cbn [List.filter]. rewrite Ho. cbn [list_to_set]. rewrite union_empty_r_L, union_comm_L. reflexivity.
      - left. eauto. }
    assert (Hl2 : (2 <= length l)%nat) by (subst l; destruct l0; [done|cbn; lia]).
    destruct (half_lt (length l) Hl2) as [Hh1 Hh2]. set (h := (length l / 2)%nat) in *.
    assert (Hfirst : exists r e2, GetBars fuel (take h l) barRange limit retries (excluded, e1) = (r, (learned excluded (take h l), e2)) /\ bars_of (take h l) r).
    { apply IH; [|by apply Forall_take|rewrite length_take; lia]. rewrite <- (take_drop h l) in Hnd. by apply NoDup_app in Hnd as (? & _). }
    assert (Hnd' := Hnd). rewrite <- (take_drop h l) in Hnd'. apply NoDup_app in Hnd' as (_ & Hx & Hnd2).
    destruct Hfirst as (r1 & e2 & E1 & B1).
    assert (Hsecond : exists r e3, GetBars fuel (drop h l) barRange limit retries (learned excluded (take h l), e2) = (r, (learned excluded l, e3)) /\ bars_of (drop h l) r).
    { replace (learned excluded l) with (learned (learned excluded (take h l)) (drop h l)) by (by rewrite learned_halves, take_drop).
      apply IH; [done| |rewrite length_drop; lia].
      apply Forall_forall. intros s Hs. unfold learned. rewrite not_elem_of_union. split.
      - rewrite Forall_forall in Hdis. apply Hdis. rewrite <- (take_drop h l). apply elem_of_app. by right.
      - rewrite elem_of_list_to_set. intros Hin. apply list_elem_of_In, filter_In in Hin as [Hin _]. apply list_elem_of_In in Hin. by apply (Hx s). }
    destruct Hsecond as (r2 & e3 & E2 & B2).
    destruct (bars_of_halves (take h l) (drop h l) r1 r2) as (g1 & g2 & -> & -> & B); [by rewrite take_drop|done|done|].
    rewrite take_drop in B. exists (Ret (join_halves g1 g2)), e3. split; [|exact B].
    subst l. destruct l0 as [|s1 l0]; [done|]. unfold try_prog. rewrite E1. destruct g1; rewrite E2; by destruct g2.
  - destruct Hs as (resp & -> & Hresp). destruct (shown_answer l resp Ho Hresp) as (m & E & Hm). unfold lift at 1. subst types. rewrite E. subst l. cbn [fst snd].
    assert (Hlearn : learned excluded (s0 :: l0) = excluded).
    { unfold learned. replace (List.filter otc (s0 :: l0)) with (@nil string); [set_solver|].
      symmetry. by apply existsb_filter_nil. }
    rewrite Hlearn. exists (Ret m), e1. split.
    + rewrite Hm. unfold known. case_bool_decide; [|set_solver]. destruct (otc s0); [done|]. cbn [andb negb].
      destruct (data s0) as [c|] eqn:Ed; [|done]. cbn [option_map]. pose proof (Hcharts s0 c Ed). destruct (shown c) as [[]?]; done.
    + right. split; [|eauto]. intros x [= -> ->]. cbn in Ho. by rewrite orb_false_r in Ho.
Qed.

(** When every symbol of a batch is left out, an empty batch is asked for, and
    the answer's first symbol is looked for in it. *)
Lemma all_excluded_panics fuel symbols excluded e :
  symbols <> [] -> keep_symbols excluded symbols = [] ->
  exists e', GetBars (Datatypes.S fuel) symbols barRange limit retries (excluded, e) = (Panic "index out of range", (excluded, e')).
Proof.
  intros Hne Hk. cbn [GetBars]. destruct symbols as [|s l]; [done|].
  unfold mbind, prog_bind. cbn [fst snd]. rewrite Hk, Hrange. cbn [negb].
  unfold ask. cbn [fst snd]. set (types := if decide (barRange = "1d") then _ else _).
  set (last := match limit with Some _ => _ | None => _ end). pose proof (Hservice [] types barRange last e) as Hs.
  destruct (http_batch [] types barRange last e) as [rep e1]. cbn [existsb fst snd] in *. destruct Hs as (resp & -> & Hresp).
  destruct (shown_answer [] resp eq_refl Hresp) as (m & E & _). unfold lift at 1. subst types. rewrite E. by exists e1.
Qed.
End exchange.

(** C24: The bars of a list of symbols, against any service that refuses every
    batch with a symbol traded over the counter with the status for that, never
    with another, and else answers with what it has of the symbols, a list of
    prices of the kind asked for with each. The calls end. For symbols that
    differ: without symbols the answer is empty; a range that is not supported
    is an error; when all symbols are left out already, the call panics; a
    single symbol that is traded over the counter is an error. Otherwise the
    answer has exactly the symbols that are not left out and not traded over
    the counter and of which the service knows something. The symbols traded
    over the counter among those asked for, and no others, are left out from
    then on. *)
Theorem GetBars_excludes {S} `{Charts S} (otc : string -> bool) (data : string -> option ChartResponse) (symbols : list string)
    (barRange : string) (limit : option Z) (retries : Z) (excluded : gset string) (e : S) :
  refuses_otc otc data -> (forall s c, data s = Some c -> cr_Chart (shown barRange c) <> None) -> NoDup symbols ->
  let asked := keep_symbols excluded symbols in
  let answered r := exists resp, r = Ret resp /\
    forall s, resp !! s = if bool_decide (s ∈ asked) && negb (otc s) then option_map (fun c => Some (shown barRange c)) (data s) else None in
  exists r e', GetBars (bars_fuel symbols retries) symbols barRange limit retries (excluded, e)
      = (r, (if SupportedRange barRange then excluded ∪ list_to_set (List.filter otc asked) else excluded, e')) /\
    if decide (symbols = []) then r = Ret ∅
    else if SupportedRange barRange then
      match asked with
      | [] => r = Panic "index out of range"
      | [symbol] => if otc symbol then exists err, r = Fail err else answered r
      | _ => answered r
      end
    else r = Fail (ErrMsg "not a supported bar range").
Proof.
  intros Hs Hc Hnd asked answered. unfold bars_fuel. rewrite Nat.add_comm. cbn [Nat.add].
  destruct (decide (symbols = [])) as [->|Hne].
  { exists (Ret ∅), e. split; [|done]. cbn. rewrite union_empty_r_L. by destruct (SupportedRange barRange). }
  destruct (SupportedRange barRange) eqn:Hr.
  - destruct (decide (asked = [])) as [Hk|Hk].
    { destruct (all_excluded_panics otc data Hs barRange limit retries Hr (Datatypes.S (length symbols + Z.to_nat retries)) symbols excluded e Hne Hk) as (e' & E).
      exists (Panic "index out of range"), e'. rewrite Hk. split; [|done]. cbn [List.filter list_to_set]. rewrite union_empty_r_L. exact E. }
    rewrite GetBars_keep by exact Hk. fold asked.
    destruct (GetBars_exchange otc data Hs barRange limit retries Hr Hc (Datatypes.S (Datatypes.S (length symbols + Z.to_nat retries))) asked excluded e)
      as (r & e' & E & B); [by apply keep_symbols_NoDup|apply keep_symbols_excluded|pose proof (keep_symbols_length excluded symbols); unfold asked; lia|].
    exists r, e'. split; [exact E|]. destruct B as [(x & err & -> & -> & ->)|(Hx & Ha)]; [by eexists|].
    destruct asked as [|x [|y l]]; [done| |exact Ha]. by rewrite (Hx x eq_refl).
  - exists (Fail (ErrMsg "not a supported bar range")), e. split; [|done]. cbn [GetBars]. destruct symbols as [|s l]; [done|].
    unfold mbind, prog_bind. cbn [fst]. by rewrite Hr.
Qed.

(** A service without a state that knows the same of every symbol. *)
Module Example_exchange.
Definition answer_to (data : string -> option ChartResponse) (symbols : list string) : GetBarsResponse :=
  foldr (fun s m => match data s with Some c => <[s := Some c]> m | None => m end) ∅ symbols.
Lemma answer_to_lookup data symbols s :
  answer_to data symbols !! s = if bool_decide (s ∈ symbols) then option_map Some (data s) else None.
Proof.
  induction symbols as [|x symbols IH]; [done|]. cbn [answer_to foldr]. fold (answer_to data symbols).
  destruct (decide (s = x)) as [->|Hne].
  - rewrite (bool_decide_eq_true_2 (x ∈ x :: symbols)) by set_solver.
    destruct (data x) eqn:E; [by rewrite lookup_insert_eq|]. rewrite IH. by case_bool_decide.
  - transitivity (answer_to data symbols !! s); [destruct (data x); [by rewrite lookup_insert_ne|done]|].
    rewrite IH. by rewrite (bool_decide_ext (s ∈ x :: symbols) (s ∈ symbols)) by set_solver.
Qed.

Definition otc (s : string) : bool := bool_decide (s = "AMPY").
Definition one : float32 := to_float32 (float64_of_Z 1).
Definition data (s : string) : option ChartResponse := Some (mkChartResponse (Some [mkChart s "" one one one one 1]) None).
#[local] Instance service : Charts unit := {|
  http_batch := fun symbols _ _ _ s => (Ret (if existsb otc symbols then UnavailableForLegalReasons else Answered (Some (answer_to data symbols))), s) |}.

Lemma GetBars_excludes_witness :
  exists resp, GetBars (bars_fuel ["AAPL"; "AMPY"; "IBM"] 5) ["AAPL"; "AMPY"; "IBM"] "5y" None 5 (∅, tt)
      = (Ret resp, ({["AMPY"]}, tt)) /\ resp !! "AMPY" = None /\ resp !! "IBM" = Some (data "IBM").
Proof.
  destruct (GetBars_excludes otc data ["AAPL"; "AMPY"; "IBM"] "5y" None 5 ∅ tt) as (r & [] & E & resp & -> & Hs).
  - intros symbols types barRange last e. cbn. destruct (existsb otc symbols); [done|]. exists (answer_to data symbols).
    split; [done|]. intros s. apply answer_to_lookup.
  - by intros s c [= <-].
  - by apply (bool_decide_unpack _); vm_compute.
  - exists resp. split; [exact E|]. split; exact (Hs _).
Defined.
End Example_exchange.

Lemma batches_concat symbols : concat (batches symbols) = symbols /\ Forall (fun b => (1 <= length b <= 100)%nat) (batches symbols).
Proof.
  unfold batches. assert (Hf : (length symbols <= length symbols)%nat) by lia. revert Hf. generalize (length symbols) at 2 3 4 as fuel.
  intros fuel. revert symbols. induction fuel as [|fuel IH]; intros [|s l] Hf; cbn in Hf; try (cbn; split; [done|constructor]) || lia.
  change (Z.to_nat BatchSize) with 100%nat in *.
  destruct (IH (drop 100 (s :: l))) as [E A]; [rewrite length_drop; cbn [length]; lia|].
  cbn [batches_loop concat]. change (Z.to_nat BatchSize) with 100%nat. rewrite E, take_drop. split; [done|].
  constructor; [rewrite length_take; cbn [length]; lia|exact A].
Qed.

(** A symbol that the exchange has disabled is asked for by an empty name. *)
Lemma disabled_symbol_empty (symbol : string) : listed [(symbol, false)] = [""].
Proof. reflexivity. Qed.

(** ** The trades of a day *)

Module Trades.
Import Backfill.
Section trades.
Context {S trade : Type} `{Store S} `{BarSort} (Timestamp : trade -> Time) (MakeBars : list trade -> list Bar).
Context (note : ColumnSeriesMap -> S -> S) (Hnote : forall csm s, st_WriteCSM csm false s = (Ret tt, note csm s)).
Context (Hstarts : forall msg, IsZero (Truncate (Timestamp msg) Minute) = false).

Abbreviation trades_scan := (scan (trade := trade)).
Definition within (sc : trades_scan) : Prop := Forall (fun msg => t_ns (Timestamp msg) <= t_ns (sc_closeTime sc)) (sc_trades sc).
Definition note_group (s : S) (g : trades_scan) : S := note (bars_map (makeBars MakeBars (sc_trades g) (sc_openTime g) (sc_closeTime g))) s.
(** Either nothing was read yet, or there are trades of one minute. *)
Definition in_minute (sc : trades_scan) : Prop :=
  (sc_trades sc = [] /\ IsZero (sc_openTime sc) = true) \/ (sc_trades sc <> [] /\ IsZero (sc_openTime sc) = false /\ within sc).

Lemma before_close msg l : t_ns (Timestamp msg) <= t_ns (sc_closeTime (new_minute Timestamp msg l)).
Proof. destruct (Truncate_bounds (Timestamp msg) Minute eq_refl). cbn [new_minute sc_closeTime time_Add t_ns]. lia. Qed.

Lemma next_trade_groups msg sc s : in_minute sc ->
  exists sc' groups, next_trade Timestamp MakeBars msg sc s = (Ret sc', foldl note_group s groups) /\ in_minute sc' /\ sc_trades sc' <> []
    /\ Forall (fun g => sc_trades g <> [] /\ within g) groups
    /\ (concat (map sc_trades groups) ++ sc_trades sc')%list = (sc_trades sc ++ [msg])%list.
Proof.
  intros Hin. unfold next_trade, first_minute. destruct Hin as [[Ht Hz]|(Ht & Hz & Hw)]; rewrite Hz.
  - unfold minute_over. cbn [new_minute sc_trades]. rewrite Ht, andb_false_r. cbn.
    eexists _, []. split; [reflexivity|]. split; [|split; [done|split; [constructor|done]]].
    right. split; [done|]. split; [apply Hstarts|]. constructor; [apply (before_close msg [])|constructor].
  - destruct (minute_over Timestamp msg sc) eqn:Ho; unfold mbind, prog_bind.
    + unfold or_fatal, writeBars. rewrite Hnote. cbn [mret prog_ret new_minute sc_trades].
      eexists _, [sc]. split; [reflexivity|]. split; [|split; [done|split; [by repeat constructor|cbn; by rewrite app_nil_r]]].
      right. split; [done|]. split; [apply Hstarts|]. constructor; [apply (before_close msg [])|constructor].
    + eexists _, []. split; [reflexivity|]. cbn [sc_trades].
      assert (Hne : (sc_trades sc ++ [msg])%list <> []) by (by destruct (sc_trades sc)).
      split; [|split; [done|split; [constructor|done]]]. right. split; [exact Hne|]. split; [exact Hz|].
      apply Forall_app. split; [exact Hw|]. constructor; [|constructor]. cbn [sc_closeTime].
      unfold minute_over, time_After in Ho. destruct (sc_trades sc); [done|]. cbn [negb] in Ho. rewrite andb_true_r in Ho. lia.
Qed.

(** Every trade is either in a group that was written or left over, in the
    order of the messages; a group's trades are not behind its minute. *)
Lemma scan_messages_groups messages sc s : in_minute sc ->
  exists sc' groups, scan_messages Timestamp MakeBars messages sc s = (Ret sc', foldl note_group s groups) /\ in_minute sc'
    /\ Forall (fun g => sc_trades g <> [] /\ within g) groups
    /\ (concat (map sc_trades groups) ++ sc_trades sc')%list = (sc_trades sc ++ omap (fun m => m) messages)%list
    /\ (sc_trades sc' = [] <-> sc_trades sc = [] /\ omap (fun m => m) messages = []).
Proof.
  revert sc s. induction messages as [|[msg|] messages IH]; intros sc s Hin; cbn [scan_messages].
  - exists sc, []. cbn. rewrite app_nil_r. split; [done|]. split; [done|]. split; [constructor|]. tauto.
  - destruct (next_trade_groups msg sc s Hin) as (sc1 & g1 & E1 & I1 & N1 & F1 & C1). unfold mbind, prog_bind. rewrite E1.
    destruct (IH sc1 (foldl note_group s g1) I1) as (sc2 & g2 & E2 & I2 & F2 & C2 & N2).
    exists sc2, (g1 ++ g2)%list. rewrite foldl_app. split; [exact E2|]. split; [done|]. split; [by apply Forall_app|].
    rewrite map_app, concat_app, <- app_assoc, C2, app_assoc, C1, <- app_assoc. split; [done|].
    cbn [omap list_omap]. split; [tauto|]. intros [_ He]. discriminate He.
  - apply IH, Hin.
Qed.

(** The trades behind the last write are lost: there are some on every day
    that has a trade. *)
Lemma last_minute_lost messages s : omap (fun m => m) messages <> [] ->
  exists groups lost, pullDate Timestamp MakeBars (Packets messages true) s = (Ret tt, foldl note_group s groups)
    /\ (concat (map sc_trades groups) ++ lost)%list = omap (fun m => m) messages /\ lost <> [].
Proof.
  intros Hne. destruct (scan_messages_groups messages (mkScan [] zeroTime zeroTime) s) as (sc & groups & E & _ & _ & C & N); [by left|].
  exists groups, (sc_trades sc). cbn [pullDate]. unfold mbind, prog_bind. rewrite E. split; [done|]. split; [exact C|].
  intros Hs. apply Hne. by apply N.
Qed.
End trades.
End Trades.

(** Of the bars A, B, B the second is compared with the first of all, not with
    the one before it in its batch: the batch ends too early. *)
Lemma next_batch_compares_first (a b c : Backfill.Bar) :
  EqualFold (Backfill.b_Symbol c) (Backfill.b_Symbol a) = false -> fst (Backfill.nextBatch [a; b; c] 1) = [b].
Proof. intros He. cbn. by rewrite He. Qed.
