(* ===== verification/Config.v ===== *)
(** * The configuration and the estimate of space (utils/config.go, utils/log, cmd/estimate)

    The decoding of YAML and the database of time zones are parameters. *)

From S2P Require Export Timeframe Csv.
From S2P Require Import GoStrings ColumnSeries.

#[local] Open Scope string_scope.
#[local] Open Scope Z_scope.

(** ** Levels of the log (utils/log/log.go) *)

Inductive Level := DEBUG | INFO | WARNING | ERROR | FATAL.
Definition level_val (l : Level) : Z := match l with DEBUG => 0 | INFO => 1 | WARNING => 2 | ERROR => 3 | FATAL => 4 end.
(** Whether a message is printed; a fatal one always is. *)
Definition printed_at (logLevel message : Level) : bool :=
  match message with FATAL => true | _ => level_val logLevel <=? level_val message end.

(** ** The settings *)

Section config.
(** The settings of plugins are left to them. *)
Context {V : Type}.

Record TriggerSetting := mkTriggerSetting { ts_Module : string; ts_On : string; ts_Config : V }.
Record BgWorkerSetting := mkBgWorkerSetting { bs_Module : string; bs_Name : string; bs_Config : V }.

Record MktsConfig := mkMktsConfig {
  RootDirectory : string; ListenURL : string; UtilitiesURL : string; Timezone : Location; Queryable : bool;
  StopGracePeriod : Z; WALRotateInterval : Z; EnableAdd : bool; EnableRemove : bool; cf_EnableLastKnown : bool;
  cf_DisableVariableCompression : bool; InitCatalog : bool; InitWALCache : bool; BackgroundSync : bool; cf_WALBypass : bool;
  ClusterMode : bool; Triggers : list TriggerSetting; BgWorkers : list BgWorkerSetting }.

(** The document: every flag is a text. *)
Record document := mkDocument {
  root_directory : string; listen_host : string; listen_port : string; utilities_url : string; timezone : string; log_level : string;
  queryable : string; stop_grace_period : Z; wal_rotate_interval : Z; enable_add : string; enable_remove : string;
  enable_last_known : string; disable_variable_compression : string; init_catalog : string; init_wal_cache : string;
  background_sync : string; wal_bypass : string; cluster_mode : string;
  triggers : list TriggerSetting; bgworkers : list BgWorkerSetting }.

Context (Unmarshal : list byte -> option document) (LoadLocation : string -> option Location).

(** A text that is not a truth value leaves the value as it was. *)
Definition keep_flag (value : bool) (text : string) : bool :=
  if decide (text = "") then value else match ParseBool text with Some b => b | None => value end.
(** A text that is not a truth value makes the value false and is an error; a
    text that is one forgets the error before it. *)
Definition take_flag (default : bool) (text : string) (err : option goerr) : bool * option goerr :=
  if decide (text = "") then (default, err)
  else match ParseBool text with Some b => (b, None) | None => (false, Some (ErrMsg "invalid syntax")) end.

Definition level_of (text : string) (logLevel : Level) : Level :=
  if decide (text = "") then logLevel
  else
    let text := ToLower text in
    if decide (text = "fatal") then FATAL else if decide (text = "error") then ERROR
    else if decide (text = "warning") then WARNING else if decide (text = "debug") then DEBUG else INFO.

(** The configuration, the level of the log, and the error, if any. *)
Definition config_Parse (data : list byte) (m : MktsConfig) (logLevel : Level) : outcome (MktsConfig * Level * option goerr) :=
  match Unmarshal data with
  | None => Ret (m, logLevel, Some (ErrMsg "yaml"))
  | Some aux =>
      if decide (root_directory aux = "") then Fatal "Invalid root directory."
      else if decide (listen_port aux = "") then Fatal "Invalid listen port."
      else match LoadLocation (timezone aux) with
      | None => Fatal "Invalid timezone."
      | Some zone =>
          let '(compression, err) := take_flag (cf_DisableVariableCompression m) (disable_variable_compression aux) None in
          let '(catalog, err) := take_flag true (init_catalog aux) err in
          let '(wal_cache, err) := take_flag true (init_wal_cache aux) err in
          let '(background, err) := take_flag true (background_sync aux) err in
          let '(bypass, err) := take_flag false (wal_bypass aux) err in
          let '(cluster, err) := take_flag true (cluster_mode aux) err in
          Ret (mkMktsConfig (root_directory aux) (listen_host aux +:+ ":" +:+ listen_port aux) (utilities_url aux) zone
                 (keep_flag (Queryable m) (queryable aux))
                 (if 0 <? stop_grace_period aux then int64 (stop_grace_period aux * Second) else StopGracePeriod m)
                 (if wal_rotate_interval aux =? 0 then 5 else wal_rotate_interval aux)
                 (keep_flag (EnableAdd m) (enable_add aux)) (keep_flag (EnableRemove m) (enable_remove aux)) false
                 compression catalog wal_cache background bypass cluster
                 (Triggers m ++ triggers aux)%list (BgWorkers m ++ bgworkers aux)%list,
               level_of (log_level aux) logLevel, err)
      end
  end.

(** The flags whose errors are kept, in the order in which they are read. *)
Definition checked_flags (aux : document) : list string :=
  [disable_variable_compression aux; init_catalog aux; init_wal_cache aux; background_sync aux; wal_bypass aux; cluster_mode aux].

Lemma take_flag_err default text err :
  snd (take_flag default text err) = if decide (text = "") then err else match ParseBool text with Some _ => None | None => Some (ErrMsg "invalid syntax") end.
Proof. unfold take_flag. case_decide; [done|]. by destruct (ParseBool text). Qed.

(** The error of the parse is that of the last flag that has a text: an invalid
    flag before it goes unnoticed. *)
Lemma config_Parse_last_error data m lvl aux r :
  Unmarshal data = Some aux -> config_Parse data m lvl = Ret r ->
  snd r = match List.last (map Some (List.filter (fun t => negb (bool_decide (t = ""))) (checked_flags aux))) None with
          | Some text => match ParseBool text with Some _ => None | None => Some (ErrMsg "invalid syntax") end
          | None => None
          end.
Proof.
  intros Hu. unfold config_Parse. rewrite Hu. do 2 (case_decide; [done|]). destruct (LoadLocation (timezone aux)); [|done].
  unfold checked_flags. generalize (disable_variable_compression aux), (init_catalog aux), (init_wal_cache aux), (background_sync aux), (wal_bypass aux), (cluster_mode aux).
  intros t1 t2 t3 t4 t5 t6.
  pose proof (take_flag_err (cf_DisableVariableCompression m) t1 None) as E1. destruct (take_flag _ t1 _) as [b1 e1].
  pose proof (take_flag_err true t2 e1) as E2. destruct (take_flag _ t2 _) as [b2 e2].
  pose proof (take_flag_err true t3 e2) as E3. destruct (take_flag _ t3 _) as [b3 e3].
  pose proof (take_flag_err true t4 e3) as E4. destruct (take_flag _ t4 _) as [b4 e4].
  pose proof (take_flag_err false t5 e4) as E5. destruct (take_flag _ t5 _) as [b5 e5].
  pose proof (take_flag_err true t6 e5) as E6. destruct (take_flag _ t6 _) as [b6 e6].
  intros [= <-]. cbn [snd] in *. subst.
  cbn [List.filter]. repeat (case_bool_decide; cbn [negb map List.last]); repeat case_decide; try contradiction; done.
Qed.
End config.
Arguments TriggerSetting : clear implicits.
Arguments BgWorkerSetting : clear implicits.
Arguments MktsConfig : clear implicits.
Arguments document : clear implicits.

(** An invalid text for a flag that is on by default turns it off. *)
Lemma invalid_flag_off err : fst (take_flag true "yes" err) = false.
Proof. reflexivity. Qed.

(** ** The estimate of space (cmd/estimate/main.go) *)

Definition headerBytes : Z := 37024.
(** A timeframe that is not listed counts as zero. *)
Definition intervalsPerDay (timeframe : string) : Z :=
  if decide (timeframe = "1D") then 1 else if decide (timeframe = "1Min") then 24 * 60
  else if decide (timeframe = "1Sec") then 24 * 60 * 60 else if decide (timeframe = "1ms") then 24 * 60 * 60 * 1000
  else if decide (timeframe = "1us") then 24 * 60 * 60 * 1000 * 1000 else 0.

Definition record_bytes (Num4ByteCols Num8ByteCols : Z) : Z := int64 (8 + int64 (Num4ByteCols * 4) + int64 (Num8ByteCols * 8)).
(** [math.Mod], whose result has the sign of its first argument. *)
Definition padding (recordBytes : Z) : Z := Z.rem (default 0 (float64_trunc (float64_of_Z recordBytes))) 8.

Definition total_bytes (Num4ByteCols Num8ByteCols : Z) (timeframe : string) (NumSymbols NumYears DaysPerYear : Z) (HoursPerDay : float64) : float64 :=
  let recordBytes := record_bytes Num4ByteCols Num8ByteCols in
  let recordBytes := int64 (recordBytes + padding recordBytes) in
  let yearFraction := fmul (float64_of_Z DaysPerYear) (fdiv HoursPerDay (float64_of_Z 24)) in
  let fileBytes := fadd (float64_of_Z headerBytes)
                     (fmul (fmul (float64_of_Z recordBytes) (float64_of_Z (intervalsPerDay timeframe))) yearFraction) in
  fmul (fmul fileBytes (float64_of_Z NumSymbols)) (float64_of_Z NumYears).

(** The number and the unit that are printed: [None] for more than the largest. *)
Fixpoint in_unit (totalBytes : float64) (power : Z) (sizes : list string) : option (float64 * string) :=
  match sizes with
  | [] => None
  | size :: sizes' =>
      let sizeBytes := float64_of_Z (10 ^ power) in
      if SFltb totalBytes (fmul sizeBytes (float64_of_Z 10000)) then Some (fdiv totalBytes sizeBytes, size)
      else in_unit totalBytes (power + 3) sizes'
  end.
Definition executeStart (Num4ByteCols Num8ByteCols : Z) (timeframe : string) (NumSymbols NumYears DaysPerYear : Z) (HoursPerDay : float64)
    : option (float64 * string) :=
  in_unit (total_bytes Num4ByteCols Num8ByteCols timeframe NumSymbols NumYears DaysPerYear HoursPerDay) 3 ["KB"; "MB"; "GB"; "TB"; "PB"; "EB"].

(** A timeframe of five minutes or an hour is estimated as empty files. *)
Lemma estimate_other_timeframes :
  let hours := fdiv (float64_of_Z 13) (float64_of_Z 2) in
  total_bytes 0 5 "5Min" 1000 10 261 hours = float64_of_Z (headerBytes * 1000 * 10)
  /\ total_bytes 0 5 "1H" 1000 10 261 hours = total_bytes 0 5 "5Min" 1000 10 261 hours.
Proof. split; vm_compute; reflexivity. Qed.

(** The remainder is added instead of what is missing to the next multiple: for
    columns of four and eight bytes both are the same. *)
Lemma padding_aligns a b : 0 <= a -> 0 <= b ->
  let r := 8 + a * 4 + b * 8 in
  float64_trunc (float64_of_Z r) = Some r -> r + padding r = AlignedSize r.
Proof.
  intros Ha Hb r Hr. assert (Hp : 0 <= r) by (unfold r; lia). unfold padding, AlignedSize. rewrite Hr. cbn [default from_option id].
  rewrite !(Z.rem_mod_nonneg r 8) by lia.
  assert (E : r mod 8 = 4 * (a mod 2)).
  { pose proof (Z.div_mod a 2 ltac:(lia)). pose proof (Z.mod_pos_bound a 2 eq_refl).
    symmetry. apply (Z.mod_unique_pos _ _ (1 + b + a / 2)); subst r; lia. }
  rewrite E. pose proof (Z.mod_pos_bound a 2 eq_refl). destruct (Z.eqb_spec (4 * (a mod 2)) 0); lia.
Qed.
