(* ===== verification/Slait.v ===== *)
(** * The subscriber of Slait (contrib/slait/slait.go)

    Publications of a topic's partitions are turned into series of the
    configured shape.  The socket is a parameter, and so is the decoding of a
    message; the values of JSON are a type. *)

From S2P Require Export Feeder.
From S2P Require Import GoStrings.

#[local] Open Scope string_scope.
#[local] Open Scope Z_scope.

Record SlaitSubscriberConfig := mkSlaitConfig {
  sl_Endpoint : string; sl_Topic : string; sl_PartitionsFilter : option (list (list string)); sl_AttributeGroup : string;
  sl_Shape : option (list (list string)); sl_Debug : bool; sl_PingInterval : string }.

Record SlaitSubscriber := mkSlaitSubscriber {
  ss_endpoint : string; ss_topic : string; ss_partitions : gmap string string; ss_attributeGroup : string;
  ss_shape : list DataShape; ss_debug : bool; ss_ping_interval : Z }.

(** ** The configuration *)

Fixpoint shape_pairs (shape : list (list string)) : outcome (list string * list Z) :=
  match shape with
  | [] => Ret ([], [])
  | [name; type] :: shape' =>
      let! '(names, types) := shape_pairs shape' in Ret (name :: names, EnumElementTypeFromName type :: types)
  | _ :: _ => Fail (ErrMsg "shape is invalid")
  end.
Fixpoint partition_pairs (filter : list (list string)) (partitions : gmap string string) : outcome (gmap string string) :=
  match filter with
  | [] => Ret partitions
  | [name; gap] :: filter' => partition_pairs filter' (<[name := gap]> partitions)
  | _ :: _ => Fail (ErrMsg "partition is invalid")
  end.

Definition NewBgWorker (config : SlaitSubscriberConfig) : outcome SlaitSubscriber :=
  if decide (sl_Endpoint config = "") then Fail (ErrMsg "endpoint is empty")
  else if decide (sl_Topic config = "") then Fail (ErrMsg "topic is empty")
  else if decide (sl_AttributeGroup config = "") then Fail (ErrMsg "attribute group is empty")
  else match sl_Shape config, sl_PartitionsFilter config with
  | None, _ => Fail (ErrMsg "shape is empty")
  | _, None => Fail (ErrMsg "partitions is empty")
  | Some shape, Some filter =>
      let '(interval, ok) := Atoi (if decide (sl_PingInterval config = "") then "5" else sl_PingInterval config) in
      if negb ok then Fail (ErrMsg "ping_interval must be a integer")
      else
        let! '(names, types) := shape_pairs shape in
        let! partitions := partition_pairs filter ∅ in
        let! shapes := NewDataShapeVector names types in
        Ret (mkSlaitSubscriber (sl_Endpoint config) (sl_Topic config) partitions (sl_AttributeGroup config) shapes (sl_Debug config) interval)
  end.

(** ** Publications *)

(** A value of JSON; lists and objects have no conversion to a number. *)
Inductive json := JString (s : string) | JNumber (f : float64) | JOther.

(** A partition's entries: [None] for one that is not an object. *)
Record Publication := mkPublication { p_Partition : string; p_Entries : list (option (gmap string json)) }.

(** What is stored in a row: the seconds of a time, or a number. *)
Inductive number := Seconds (z : Z) | Float (f : float64).

Definition supported_kind (type : Z) : option Kind :=
  if type =? INT32 then Some KInt32 else if type =? INT64 then Some KInt64
  else if type =? FLOAT32 then Some KFloat32 else if type =? FLOAT64 then Some KFloat64 else None.

(** [reflect.Value.Convert]: an integer goes by 64 bits, a float by double
    precision. *)
Definition number_int64 (v : number) : Z := match v with Seconds z => z | Float f => float64_to_int64 f end.
Definition number_float64 (v : number) : float64 := match v with Seconds z => float64_of_Z z | Float f => f end.
Definition number_cell (k : Kind) (v : number) : list byte :=
  match k with
  | KInt32 => le_bytes 4 (number_int64 v)
  | KInt64 => le_bytes 8 (number_int64 v)
  | KFloat32 => le_bytes 4 (float32_bits (to_float32 (number_float64 v)))
  | _ => le_bytes 8 (float64_bits (number_float64 v))
  end.

(** Columns of zeros. *)
Fixpoint make_columns (shape : list DataShape) (length : nat) : outcome (list (string * column)) :=
  match shape with
  | [] => Ret []
  | ds :: shape' =>
      match supported_kind (ds_Type ds) with
      | None => Panic "unsupported shape"
      | Some k =>
          let! cols := make_columns shape' length in
          Ret ((ds_Name ds, mkCol k (replicate length (replicate (kind_size k) "000"%byte))) :: cols)
      end
  end.

Definition set_cell (i : nat) (v : number) (c : column) : column := mkCol (col_kind c) (<[i := number_cell (col_kind c) v]> (col_elems c)).
(** The value goes to every column of the name; one that is no number cannot. *)
Fixpoint set_named (i : nat) (name : string) (v : option number) (cols : list (string * column)) : outcome (list (string * column)) :=
  match cols with
  | [] => Ret []
  | (colName, c) :: cols' =>
      if decide (name = colName) then
        match v with
        | None => Panic "reflect.Value.Convert"
        | Some v => let! rest := set_named i name (Some v) cols' in Ret ((colName, set_cell i v c) :: rest)
        end
      else let! rest := set_named i name v cols' in Ret ((colName, c) :: rest)
  end.

(** Every text is taken for the time of the row. *)
Definition set_field (i : nat) (field : string * json) (cols : list (string * column)) : outcome (list (string * column)) :=
  match field with
  | (_, JString s) =>
      match time_Parse no_names rfc3339_layout s with
      | None => Fail (ErrMsg "parsing time")
      | Some t => set_named i "Epoch" (Some (Seconds t)) cols
      end
  | (name, JNumber f) => set_named i name (Some (Float f)) cols
  | (name, JOther) => set_named i name None cols
  end.
Fixpoint set_fields (i : nat) (fields : list (string * json)) (cols : list (string * column)) : outcome (list (string * column)) :=
  match fields with
  | [] => Ret cols
  | field :: fields' => let! cols := set_field i field cols in set_fields i fields' cols
  end.

Section publication.
Context `{MapRange}.

Fixpoint set_rows (i : nat) (entries : list (option (gmap string json))) (cols : list (string * column)) : outcome (list (string * column)) :=
  match entries with
  | [] => Ret cols
  | None :: _ => Fail (ErrMsg "Failed to unmarshal slait publication entry to bar")
  | Some row :: entries' => let! cols := set_fields i (map_range row) cols in set_rows (S i) entries' cols
  end.

Definition publicationToCSM (ss : SlaitSubscriber) (p : Publication) (gap : string) : outcome ColumnSeriesMap :=
  let! cols := make_columns (ss_shape ss) (length (p_Entries p)) in
  let! cols := set_rows 0 (p_Entries p) cols in
  Ret (AddColumnSeries (NewTimeBucketKey (p_Partition p +:+ "/" +:+ gap +:+ "/" +:+ ss_attributeGroup ss) []) (table cols) ∅).
End publication.

(** ** Messages of the socket *)

(** [None] for a message that is not a publication. *)
Inductive message := CloseMessage | PingMessage | PongMessage | OtherMessage (p : option Publication).

Class Socket (S : Type) := { sk_pong : prog S unit; sk_ping : prog S unit }.

Section worker.
Context {S : Type} `{Store S} `{Socket S} `{MapRange}.

Definition handleMessage (ss : SlaitSubscriber) (msg : message) : prog S unit :=
  match msg with
  | CloseMessage => lift (Fail (ErrMsg "Received close message"))
  | PingMessage => sk_pong
  | PongMessage => sk_ping
  | OtherMessage None => lift (Fail (ErrMsg "unmarshal"))
  | OtherMessage (Some p) =>
      match ss_partitions ss !! p_Partition p, p_Entries p with
      | None, _ | _, [] => mret tt
      | Some val, _ =>
          let isVariableLength := bool_decide (val = "D") in
          csm ← lift (publicationToCSM ss p (if isVariableLength then "1Min" else val));
          if ss_debug ss then mret tt else st_WriteCSM csm isVariableLength
      end
  end.
(** The messages are read until one of them is an error. *)
Definition slait_read (ss : SlaitSubscriber) (messages : list message) : prog S unit := for_each messages (handleMessage ss).
End worker.

(** ** The columns of a publication *)

(** The column and the value that a field is for. *)
Definition target (field : string * json) : option (string * number) :=
  match field with
  | (_, JString s) => option_map (fun t => ("Epoch", Seconds t)) (time_Parse no_names rfc3339_layout s)
  | (name, JNumber f) => Some (name, Float f)
  | (_, JOther) => None
  end.
Definition row_values (row : gmap string json) : gmap string number := list_to_map (omap target (map_to_list row)).
(** Every field is a number or a time, and no two are for the same column. *)
Definition good_row (row : gmap string json) : Prop :=
  Forall (fun field => is_Some (target field)) (map_to_list row) /\ NoDup (omap target (map_to_list row)).*1.
Definition row_cell (k : Kind) (name : string) (row : gmap string json) : list byte :=
  match row_values row !! name with Some v => number_cell k v | None => replicate (kind_size k) "000"%byte end.

Definition update (i : nat) (vs : gmap string number) (nc : string * column) : string * column :=
  (nc.1, match vs !! nc.1 with Some v => set_cell i v nc.2 | None => nc.2 end).

Lemma update_empty i cols : map (update i ∅) cols = cols.
Proof. induction cols as [|[n c] cols IH]; [done|]. cbn [map]. rewrite IH. done. Qed.

Lemma set_named_update i name v cols : set_named i name (Some v) cols = Ret (map (update i {[name := v]}) cols).
Proof.
  induction cols as [|[n c] cols IH]; [done|]. cbn [set_named map]. rewrite IH.
  destruct (decide (name = n)) as [->|Hne]; cbn [outcome_bind]; do 2 f_equal; unfold update; cbn [fst snd];
    [by rewrite lookup_singleton_eq|by rewrite lookup_singleton_ne].
Qed.

Lemma update_union i name v vs cols : vs !! name = None ->
  map (update i vs) (map (update i {[name := v]}) cols) = map (update i (<[name := v]> vs)) cols.
Proof.
  intros Hn. rewrite map_map. apply map_ext. intros [n c]. unfold update. cbn [fst snd].
  destruct (decide (name = n)) as [<-|Hne].
  - by rewrite Hn, lookup_singleton_eq, lookup_insert_eq.
  - by rewrite lookup_singleton_ne, lookup_insert_ne.
Qed.

Lemma set_fields_update i fields cols :
  Forall (fun field => is_Some (target field)) fields -> NoDup (omap target fields).*1 ->
  set_fields i fields cols = Ret (map (update i (list_to_map (omap target fields))) cols).
Proof.
  revert cols. induction fields as [|field fields IH]; intros cols Ht Hnd; [cbn; by rewrite update_empty|].
  apply Forall_cons in Ht as [[[name v] E] Ht]. cbn [omap list_omap] in *. rewrite E in *. cbn [fmap list_fmap fst] in Hnd.
  apply NoDup_cons in Hnd as [Hni Hnd]. cbn [set_fields].
  assert (Es : set_field i field cols = Ret (map (update i {[name := v]}) cols)).
  { rewrite <- set_named_update. destruct field as [n [s|f|]]; cbn [target set_field] in *; [|by injection E as -> ->|discriminate].
    destruct (time_Parse no_names rfc3339_layout s); [|discriminate]. by injection E as <- <-. }
  rewrite Es. cbn [outcome_bind]. rewrite IH by done. cbn [list_to_map fst snd]. f_equal. apply update_union. by apply not_elem_of_list_to_map_1.
Qed.

Section columns.
Context `{MapRange}.

Lemma set_fields_row i row cols : good_row row -> set_fields i (map_range row) cols = Ret (map (update i (row_values row)) cols).
Proof.
  intros [Ht Hnd]. pose proof (map_range_perm row) as Hp. rewrite set_fields_update.
  - do 3 f_equal. apply list_to_map_proper; [by rewrite Hp|by rewrite Hp].
  - by rewrite Hp.
  - by rewrite Hp.
Qed.

(** Columns that are filled up to some row, and zero from there on. *)
Definition filled (rest : nat) (prefix : Kind -> string -> list (list byte)) (ds : DataShape) (nc : string * column) : Prop :=
  exists k, supported_kind (ds_Type ds) = Some k /\
    nc = (ds_Name ds, mkCol k (prefix k (ds_Name ds) ++ replicate rest (replicate (kind_size k) "000"%byte))).

Lemma make_columns_filled shape n :
  Forall (fun ds => is_Some (supported_kind (ds_Type ds))) shape ->
  exists cols, make_columns shape n = Ret cols /\ Forall2 (filled n (fun _ _ => [])) shape cols.
Proof.
  induction 1 as [|ds shape [k Hk] _ IH]; [by exists []|]. destruct IH as (cols & E & F). cbn [make_columns]. rewrite Hk, E. cbn [outcome_bind].
  eexists. split; [reflexivity|]. constructor; [by exists k|exact F].
Qed.

Lemma set_rows_filled shape rows : Forall good_row rows -> forall prefix cols,
  (forall k name, length (prefix k name) = length (prefix KInt64 "Epoch")) ->
  Forall2 (filled (length rows) prefix) shape cols ->
  exists cols', set_rows (length (prefix KInt64 "Epoch")) (map Some rows) cols = Ret cols' /\
    Forall2 (filled 0 (fun k name => prefix k name ++ map (row_cell k name) rows)%list) shape cols'.
Proof.
  induction 1 as [|row rows Hrow _ IH]; intros prefix cols Hlen HF.
  { exists cols. split; [done|]. eapply Forall2_impl; [exact HF|]. intros ds nc (k & Hk & ->). exists k. split; [done|]. cbn. by rewrite !app_nil_r. }
  cbn [map set_rows]. rewrite set_fields_row by done. cbn [outcome_bind].
  destruct (IH (fun k name => prefix k name ++ [row_cell k name row])%list (map (update (length (prefix KInt64 "Epoch")) (row_values row)) cols)) as (cols' & E & F).
  - intros k name. rewrite !length_app, (Hlen k name). done.
  - apply Forall2_fmap_r. eapply Forall2_impl; [exact HF|]. intros ds nc (k & Hk & ->). exists k. split; [done|].
    unfold update, row_cell. cbn [fst snd]. rewrite <- app_assoc. destruct (row_values row !! ds_Name ds) as [v|]; [|done].
    unfold set_cell. cbn [col_kind col_elems length]. rewrite <- (Hlen k (ds_Name ds)). do 2 f_equal.
    cbn [length]. rewrite replicate_S. rewrite insert_app_r_alt by done. rewrite Nat.sub_diag. done.
  - rewrite length_app, Nat.add_1_r in E. exists cols'. split; [exact E|]. eapply Forall2_impl; [exact F|].
    intros ds nc (k & Hk & ->). exists k. split; [done|]. by rewrite <- !app_assoc.
Qed.

(** For a shape of supported types and rows that are numbers and one time each,
    a publication gives one series: each column has a row's value of its name, converted, the
    Epoch its time, and zero where there is none.  The order in which the fields of a row are visited does not matter. *)
Lemma publication_columns ss partition rows gap :
  Forall (fun ds => is_Some (supported_kind (ds_Type ds))) (ss_shape ss) -> Forall good_row rows ->
  exists cols, publicationToCSM ss (mkPublication partition (map Some rows)) gap
      = Ret (AddColumnSeries (NewTimeBucketKey (partition +:+ "/" +:+ gap +:+ "/" +:+ ss_attributeGroup ss) []) (table cols) ∅) /\
    Forall2 (fun ds nc => exists k, supported_kind (ds_Type ds) = Some k /\
               nc = (ds_Name ds, mkCol k (map (row_cell k (ds_Name ds)) rows))) (ss_shape ss) cols.
Proof.
  intros Hs Hr. unfold publicationToCSM. cbn [p_Entries p_Partition]. rewrite length_map.
  destruct (make_columns_filled (ss_shape ss) (length rows) Hs) as (cols & -> & F). cbn [outcome_bind].
  destruct (set_rows_filled (ss_shape ss) rows Hr (fun _ _ => []) cols) as (cols' & E & F'); [done|exact F|].
  cbn [length] in E. rewrite E. cbn [outcome_bind]. exists cols'. split; [done|]. eapply Forall2_impl; [exact F'|].
  intros ds nc (k & Hk & ->). exists k. split; [done|]. cbn. by rewrite app_nil_r.
Qed.
End columns.

(** A field with any other text ends the publication. *)
Lemma other_text_fails i name cols : set_field i (name, JString "XBT") cols = Fail (ErrMsg "parsing time").
Proof. reflexivity. Qed.
