(* ===== verification/PolygonRun.v ===== *)
(** * The worker of polygon (contrib/polygon/polygon.go)

    What is subscribed to, and the backfill of the bars before the first that
    was streamed, against the server and the service. *)

From S2P Require Export Polygon Service.
From S2P Require Import GoStrings.

#[local] Open Scope string_scope.
#[local] Open Scope Z_scope.

Record polygon_config := mkPolygonConfig { pc_DataTypes : list string; pc_Symbols : list string; pc_QueryStart : string }.
Record PolygonFetcher := mkPolygonFetcher { pg_config : polygon_config; pg_types : gset string }.

Definition valid_types (types : list string) : gset string :=
  list_to_set (List.filter (fun dt => bool_decide (dt ∈ ["bars"; "quotes"; "trades"])) types).
Definition NewBgWorker (config : polygon_config) : outcome PolygonFetcher :=
  let t := valid_types (pc_DataTypes config) in
  if decide (t = ∅) then Fail (ErrMsg "at least one valid data_type is required") else Ret (mkPolygonFetcher config t).

Section backfill.
Context `{L : StorageLibs} `{R : MapRange} (tz local : Location).
Context (EnableLastKnown DisableVariableCompression : bool) (CatalogDir : dloc) (now : Z).
Context (InstanceID : Z) (WALBypass walfile haveWALWriter queued : bool).
Context `{PolygonAPI server} (NY : Location) (clock : Time).

(** The epochs of the last row up to some time: [None] for an error, which is
    logged. *)
Definition last_epochs (tbk : TimeBucketKey) (stop : Z) : prog server (option (list Z)) :=
  q ← lift (AddTargetKey tbk (NewQuery tz CatalogDir));
  let q := SetEnd tz stop (SetRowLimit LAST 1 q) in
  parsed ← try_prog (sv_on_reader (on_cat (Parse tz q)));
  match parsed with
  | inr _ => mret None
  | inl (_, parsed) =>
      rd ← try_prog (sv_on_reader (NewReader tz local EnableLastKnown parsed));
      match rd with
      | inr _ => mret None
      | inl rd =>
          csm ← try_prog (sv_on_reader (reader_Read tz EnableLastKnown DisableVariableCompression rd));
          match csm with
          | inr _ => mret None
          | inl csm =>
              match csm !! tbk with
              | None => lift nil_pointer
              | Some cs => epochs ← lift (GetEpoch cs); mret (Some epochs)
              end
          end
      end
  end.

(** The first layout that fits, in UTC; the zero time when none does. *)
Definition configured_start (queryStart : string) : Time :=
  match first_layout trials queryStart with Some ns => mkTime ns UTC | None => zeroTime end.

#[local] Existing Instance server_store.
Definition backfillBars (fuel : nat) (pf : PolygonFetcher) (symbol : string) (endEpoch : Z) : prog server unit :=
  let tbk := NewTimeBucketKey (symbol +:+ "/1Min/OHLCV") [] in
  let store := server_store tz local EnableLastKnown DisableVariableCompression CatalogDir now InstanceID WALBypass walfile haveWALWriter queued in
  let request from := logged (Bars (H := store) NY clock fuel symbol from zeroTime) in
  if decide (pc_QueryStart (pg_config pf) = "") then
    epochs ← last_epochs tbk (int64 (endEpoch - 60));
    match epochs with
    | None => mret tt
    | Some epochs => match List.last (map Some epochs) None with Some e => request (time_Unix e 0 local) | None => mret tt end
    end
  else request (configured_start (pc_QueryStart (pg_config pf))).

(** A round of [workBackfillBars]; the map is given back with the symbols done. *)
Fixpoint backfill_round (fuel : nat) (pf : PolygonFetcher) (entries : list (string * option Z)) (m : gmap string (option Z)) : prog server (gmap string (option Z)) :=
  match entries with
  | [] => mret m
  | (_, None) :: entries' => backfill_round fuel pf entries' m
  | (symbol, Some endEpoch) :: entries' =>
      backfillBars fuel pf symbol endEpoch;;
      backfill_round fuel pf entries' (<[symbol := None]> m)
  end.
Definition workBackfillBars_round (fuel : nat) (pf : PolygonFetcher) (m : gmap string (option Z)) : prog server (gmap string (option Z)) :=
  backfill_round fuel pf (map_range m) m.

(** Whatever came of its backfill, a symbol of the round is not tried again. *)
Lemma round_done fuel pf m s m' s' symbol :
  workBackfillBars_round fuel pf m s = (Ret m', s') -> m' !! symbol = match m !! symbol with Some _ => Some None | None => None end.
Proof.
  unfold workBackfillBars_round.
  assert (Hall : forall entries m0 s m' s', backfill_round fuel pf entries m0 s = (Ret m', s') ->
    ((exists e, (symbol, Some e) ∈ entries) /\ m' !! symbol = Some None) \/
    (~ (exists e, (symbol, Some e) ∈ entries) /\ m' !! symbol = m0 !! symbol)).
  { induction entries as [|[k [e|]] entries IH]; intros m0 s1 m1 s2; cbn [backfill_round].
    - intros [= <- <-]. right. split; [|done]. intros [e He]. by apply elem_of_nil in He.
    - intros Hr. apply bind_Ret in Hr as (u & s3 & _ & Hr). apply IH in Hr. destruct Hr as [[[e' He] ->]|[Hn ->]].
      + left. split; [|done]. exists e'. by apply list_elem_of_further.
      + destruct (decide (symbol = k)) as [->|Hne].
        * left. rewrite lookup_insert_eq. split; [|done]. exists e. apply list_elem_of_here.
        * right. rewrite lookup_insert_ne by done. split; [|done]. intros [e' He]. apply elem_of_cons in He as [He|He]; [congruence|eauto].
    - intros Hr. apply IH in Hr. destruct Hr as [[[e' He] ->]|[Hn ->]].
      + left. split; [|done]. exists e'. by apply list_elem_of_further.
      + right. split; [|done]. intros [e' He]. apply elem_of_cons in He as [He|He]; [congruence|eauto]. }
  intros Hr. apply Hall in Hr. destruct Hr as [[[e He] ->]|[Hn ->]].
  - apply elem_of_map_range in He. by rewrite He.
  - destruct (m !! symbol) as [[e|]|] eqn:E; [|done|done]. destruct Hn. exists e. by apply elem_of_map_range.
Qed.
End backfill.
